(* ===== verification/_CoqProject ===== *)
-Q . S2P
Prelude.v
Types.v
Externals.v
BalanceConvert.v
Reference.v
Mq.v
Computation.v
ComputationInv.v
ComputationProps.v
BasePool.v
BasePoolFacts.v
PoolShares.v
PoolQueue.v
PoolOps.v
PoolProps.v
WrappedBalances.v
StakePool.v
Vault.v
Solvency.v
WrappedProps.v
Attestation.v
Registry.v
Phat.v
MsgRouting.v
RoutingProps.v
RegistryProps.v
SendQueue.v
Egress.v
Dispatcher.v
DispatcherProps.v
Benchmark.v
WorkerSM.v
Crypto.v
Tokenomic.v
Economics.v
GatekeeperPr.v
System.v
Replica.v
PrReference.v
KeyProps.v
GkProps.v
SessionMirror.v
TokenomicProps.v
StopSettle.v
Anchor.v
AnchorProps.v
OneShot.v
PhatTokenomic.v
RequestSched.v
RequestSchedProps.v
TaskSched.v
TaskSchedProps.v
MemDb.v
MemDbProps.v
LightClient.v
LightClientProps.v
StorageSync.v
StorageSyncProps.v
SyncProps.v
Phactory.v
Handover.v
PhReference.v
HandoverProps.v
PhactoryProps.v
Relate.v
LocalCache.v
LocalCacheProps.v
PinkTypes.v
PinkHost.v
Pink.v
PinkRef.v
PinkProps.v
Cluster.v
ClusterRef.v
ClusterProps.v
ClusterSafety.v
Node.v
NodeProps.v
Query.v
QueryProps.v
