(* ===== verification/Prelude.v ===== *)
(** * Verification of the Cyrux blockchain

    Cyrux runs Phat contracts on workers, machines with an Intel SGX enclave.  A
    Substrate chain registers the workers, holds the stakes behind them and pays
    them; inside the enclave of each worker runs pRuntime, which follows the
    chain, executes its blocks and answers with signed messages.  Some workers
    are gatekeepers: they share a master key, judge the heartbeats of all workers
    and tell the chain what to pay.  A relayer outside the enclave carries headers
    and blocks from the chain to pRuntime and messages back; it is not trusted.

    This library is a shallow embedding of the pallets of the chain and of the
    parts of pRuntime that decide what the system does, with the theorems that
    make them correct.  Paths below are under src/.

    ** Conventions

    Code with state is a function of type [M S E A] of this file: from a state to
    [Ok], [Err] (with the state reached: a caller that swallows the error keeps
    the writes), [Panic] or [NoFuel] (a loop that was cut).  [let*] and [;;;]
    sequence, [ensure], [ok_or], [expect_some], [catch] and [transactional] are
    the idioms of the source.  Machine integers are [Z]: [arith w z] is an
    unchecked operation of width [w], which panics or wraps as the [Profile] of
    the build says, so theorems quantify over both profiles unless they name one.
    [wp] is the weakest precondition with a condition for each outcome; [keeps],
    [preserves], [infallible] and [halts] are its frequent instances, with hint
    databases and tactics of the same names.

    Code that is not in the repository is a class of operations, a context of the
    definitions (Externals.v, and the head of the file that uses it); what its
    documentation promises is a separate class of laws.  Reference.v,
    PrReference.v, PhReference.v, PinkRef.v, ClusterRef.v and the ends of SyncProps.v and
    QueryProps.v instantiate all of
    them on small numbers and prove the laws; the witnesses of the theorems
    evaluate there.  A definition has the name of what it models.  A Module [X]
    holds the operations of component [X], [XProps] its theorems.

    ** The chain

    - Types.v: configuration, messages (crates/cyrux-mq/src/types.rs,
      crates/cyrux-types), data of the pallets, and the storage of the runtime as
      one record [State] (Modules MqT, RegistryT, ComputationT, ...: the storage,
      events and errors of a pallet).
    - Mq.v: pallets/cyrux/src/mq.rs and mq/check_seq.rs, ingress and egress of
      messages.  MsgRouting.v and RoutingProps.v: the handlers of the runtime,
      standalone/runtime/src/msg_routing.rs.
    - Registry.v, Attestation.v, RegistryProps.v: registry.rs and utils/attestation*.rs,
      workers, gatekeepers, master key.  Phat.v: phat.rs, clusters and contracts.
    - Computation.v, ComputationInv.v, ComputationProps.v: compute/computation.rs,
      sessions, stakes, heartbeats, settlement.
    - BasePool.v, BasePoolFacts.v, PoolShares.v, PoolQueue.v, PoolOps.v,
      PoolProps.v: compute/base_pool.rs and pool_proxy.rs.  StakePool.v, Vault.v,
      WrappedBalances.v, WrappedProps.v: the pallets of the same names.
      BalanceConvert.v: utils/balance_convert.rs.  Solvency.v: all of them together.
    - Anchor.v, AnchorProps.v: pallets/offchain-rollup.  OneShot.v: ott.rs.
      PhatTokenomic.v: phat_tokenomic.rs.

    ** pRuntime

    - SendQueue.v, Dispatcher.v, DispatcherProps.v: crates/cyrux-mq, the egress
      queue and the channels between components.
    - Crypto.v, KeyProps.v: crates/cyrux-crypto and system/master_key.rs.
    - Benchmark.v, WorkerSM.v, Tokenomic.v, Economics.v, GatekeeperPr.v, System.v,
      TokenomicProps.v, GkProps.v: crates/phactory/src/benchmark.rs and system/.
    - MemDb.v, MemDbProps.v: crates/cyrux-trie-storage, the state of the chain.
    - LightClient.v, LightClientProps.v: crates/phactory/src/light_validation.
      StorageSync.v, StorageSyncProps.v, SyncProps.v: the synchronizers of
      crates/phactory/api/src/storage_sync.rs over it.
    - Phactory.v, PhactoryProps.v: the RPC server of crates/phactory/src/lib.rs and
      prpc_service.rs; [Phactory] is the state behind its lock, [serve] an RPC.
      Handover.v, HandoverProps.v: the handover of the identity key to a newer
      version (prpc_service.rs, crates/sgx-api-lite).
    - RequestSched.v, RequestSchedProps.v, TaskSched.v, TaskSchedProps.v:
      crates/cyrux-scheduler.

    ** Contracts

    - Relate.v: relations between runs: [coupled] for two runs from related states,
      [silent] and [moves] for what a run leaves alone, with their tactics.
    - LocalCache.v, LocalCacheProps.v: crates/pink/chain-extension/src/local_cache.rs.
    - PinkTypes.v, PinkHost.v, Pink.v, PinkProps.v: the runtime that executes contracts,
      crates/pink/runtime, and the calls it makes to its host, crates/phactory/src/contracts/pink.rs.
      [Pink.ecall] is a call of the host; an execution of a contract is a program [Prog]
      of calls of the chain extension, which the library pallets choose.
    - Cluster.v, ClusterProps.v, ClusterSafety.v: crates/phactory/src/contracts and the
      operations on clusters of system/mod.rs, over any family of runtimes ([Runtimes]);
      Pink.v is the one of version 1.2.
    - Node.v, NodeProps.v: [System] as a whole, and a block.
    - Query.v, QueryProps.v: queries, from the signature of a request to the encrypted
      answer (crates/phactory/api/src/crypto.rs, prpc_service.rs).

    ** What is shown

    Between the chain and its workers.  What a worker pushes is accepted once, in
    order, and nothing that is not accepted is lost (Mq.v, Egress.v).  A worker
    that is fed with the events a run of the chain pushed is in the state of its
    session there (SessionMirror.v); the gatekeeper's replica of it agrees with it,
    so no heartbeat is unexpected (Replica.v); payouts stay within the budget
    (TokenomicProps.v).

    From the chain to the enclave.  The light client accepts what a supermajority
    of the tracked authorities finalized; if GRANDPA is safe it follows one chain;
    the storage then is the state of that chain at the last block, for a chain of
    its own and for a parachain; and from [init_runtime] on, whatever RPCs are
    served, [System] is given exactly blocks of that chain, in order, with their
    storages (SyncProps.v, PhactoryProps.v).  A dispatch on a clone has the outcome
    of one under the lock.  Trie nodes are found while they are referenced.

    Keys.  Shared master keys arrive at the addressed worker (KeyProps.v).  The
    identity key leaves a worker only to an attested newer version on the same
    machine, and arrives there (HandoverProps.v).  A worker is registered with an
    attestation that commits to the registration, and attested over a state that
    was checked only (RegistryProps.v, PhactoryProps.v).

    Value on the chain.  W-PHA is backed by PHA over all calls (Solvency.v); the
    shares in the NFTs of a pool add up and the withdraw queue is served in order
    and ends (PoolProps.v); storage invariants of the registry, of sessions, votes,
    contract stakes and the rollup queues hold over all runs.

    Contracts.  A transaction has the same outcome on every worker (PinkProps.v), so that
    the workers of a cluster stay replicas of each other whatever each of them does on its
    own (ClusterProps.v); only the system contract has privileges, and all commands of a
    block are processed (ClusterSafety.v).  The events of a cluster are a hash chain, gas
    is paid for at its price, the cache stays within its memory.  Every block of a worker
    ends, and strangers cannot command it (NodeProps.v).  Queries are authenticated,
    change nothing of the cluster, and are answered to whoever asked (QueryProps.v).

    Schedulers: no slot and no core is free while a request or a task waits, and
    flows are charged for disjoint virtual time.

    Theorems of kind "error" prove defects: messages that stop a gatekeeper, a
    rotation that strands reports, a cancelled query that blocks the scheduler, a
    restarted task that panics, a rollup that breaks its queue, votes whose sum
    wraps, the EPID handover that checks nothing on a worker attested with
    DCAP, commands that stop a worker, and an upload that is refused and stops a side
    program.

    ** Bounds

    Loops over data are structural.  The loop of the withdraw queue is
    [while_loop] with [process_fuel], which allows 2 to the power of 129 plus the
    length of the queue turns: a turn pops a request or takes some of at most 2 to
    the 128 shares, and PoolQueue.v proves that it ends within them.  Reward
    distribution recurses from a stake pool to its vaults, which have no
    subscribers: depth 2 ([distribute_fuel]).  The walk over the ancestry of a vote
    has one turn per header and LightClientProps.v proves that it needs no more.
    The reading loops of select! take their fuel as an argument; it is enough when
    it exceeds the number of channels times the number of messages
    (DispatcherProps.v).  The loops of Node.v and Cluster.v have a turn per message in the
    channels and one that finds none, and NodeProps.v and ClusterSafety.v prove that they
    need no more.  The router bounds the nesting of messages pushed by
    handlers by two, and RoutingProps.v proves that every larger bound gives the
    same router.

    ** Not modelled

    - The engines that run contracts, side programs and JavaScript, and pallet_contracts
      and pallet_balances below the Pink runtime: interfaces.  The ink! libraries, the
      foreign function interface to the runtimes, and the older runtimes, of which
      ClusterProps.v and NodeProps.v assume what they prove of Pink.v.
    - Of the RPC server: endpoints, transfer of cluster state, the
      content of checkpoints, the information views and protobuf conversions.
      [load_chain_state] is a definition; runs that use it are covered by the
      reachability of StorageSyncProps.v, not by [rpc_run].
    - Asynchrony is the order of operations; a query runs to its end at once, and the
      answer of the scheduler and of side programs comes from outside; a mutex is modelled where two locks can
      meet (RequestSched.v, the RCU dispatch of Phactory.v).
    - Relayer, runtime bridge, router, node, subxt, front end: network clients and
      configuration of libraries.  Storage migrations of the pallets.
    - Cryptography, tries and hashes of libraries: interfaces with laws. *)
From stdpp Require Import base gmap list fin_maps strings.
From Stdlib Require Import ZArith Lia.

Global Open Scope Z_scope.

(** ** Outcomes of runtime code

    [Err] carries the storage reached when the error was returned: a caller
    that swallows the error keeps those writes.  [Panic] has no storage, the
    block it happens in is discarded.  [NoFuel] is a loop that was cut. *)

Inductive outcome (S E A : Type) : Type :=
| Ok (a : A) (s : S)
| Err (e : E) (s : S)
| Panic
| NoFuel.
Arguments Ok {S E A} a s.
Arguments Err {S E A} e s.
Arguments Panic {S E A}.
Arguments NoFuel {S E A}.

Definition M (S E A : Type) : Type := S -> outcome S E A.

Section Monad.
Context {S E : Type}.

Definition mret {A} (a : A) : M S E A := fun s => Ok a s.

Definition mbind {A B} (m : M S E A) (f : A -> M S E B) : M S E B := fun s =>
  match m s with
  | Ok a s' => f a s'
  | Err e s' => Err e s'
  | Panic => Panic
  | NoFuel => NoFuel
  end.

Definition fail {A} (e : E) : M S E A := fun s => Err e s.

Definition panic {A} : M S E A := fun _ => Panic.

Definition gets {A} (f : S -> A) : M S E A := fun s => Ok (f s) s.

Definition modify (f : S -> S) : M S E unit := fun s => Ok tt (f s).

(** [ensure!(b, e)] *)
Definition ensure (b : bool) (e : E) : M S E unit :=
  if b then mret tt else fail e.

(** [o.ok_or(e)?] *)
Definition ok_or {A} (o : option A) (e : E) : M S E A :=
  match o with Some a => mret a | None => fail e end.

(** [o.expect(..)] and [o.unwrap()] on an option *)
Definition expect_some {A} (o : option A) : M S E A :=
  match o with Some a => mret a | None => panic end.

(** [r.expect(..)] on a result *)
Definition expect_ok {A} (m : M S E A) : M S E A := fun s =>
  match m s with
  | Err _ _ => Panic
  | r => r
  end.

(** [r.or(Err(e))] *)
Definition or_err {A} (m : M S E A) (e : E) : M S E A := fun s =>
  match m s with
  | Err _ s' => Err e s'
  | r => r
  end.

(** The result of [m] as a value, its writes kept either way. *)
Definition catch {A} (m : M S E A) : M S E (A + E) := fun s =>
  match m s with
  | Ok a s' => Ok (inl a) s'
  | Err e s' => Ok (inr e) s'
  | Panic => Panic
  | NoFuel => NoFuel
  end.

(** [#[frame_support::transactional]]: an error rolls the storage back. *)
Definition transactional {A} (m : M S E A) : M S E A := fun s =>
  match m s with
  | Err e _ => Err e s
  | r => r
  end.

(** [for x in l { body }] *)
Fixpoint for_each {A} (l : list A) (body : A -> M S E unit) : M S E unit :=
  match l with
  | [] => mret tt
  | x :: l' => mbind (body x) (fun _ => for_each l' body)
  end.

(** A [for] loop that threads local variables. *)
Fixpoint for_fold {A B} (l : list A) (b : B) (body : B -> A -> M S E B) : M S E B :=
  match l with
  | [] => mret b
  | x :: l' => mbind (body b x) (fun b' => for_fold l' b' body)
  end.

(** At most [2 ^ n] turns of a [while] loop; [body] says whether to go on. *)
Fixpoint turns {A} (n : nat) (body : A -> M S E (A * bool)) (a : A) : M S E (A * bool) :=
  match n with
  | O => body a
  | Datatypes.S n => mbind (turns n body a) (fun r => if snd r then turns n body (fst r) else mret r)
  end.

Definition while_loop {A} (n : nat) (body : A -> M S E (A * bool)) (a : A) : M S E A :=
  mbind (turns n body a) (fun r => if snd r then (fun _ => NoFuel) else mret (fst r)).

(** The storage a run ends with. *)
Definition final {A} (m : M S E A) (s : S) : S :=
  match m s with
  | Ok _ s' | Err _ s' => s'
  | Panic | NoFuel => s
  end.

(** A run that returns, as a test *)
Definition returns {A} (m : M S E A) (s : S) : bool :=
  match m s with Ok _ _ => true | _ => false end.

Lemma returns_final (m : M S E unit) s : returns m s = true -> m s = Ok tt (final m s).
Proof. unfold returns, final. by destruct (m s) as [[]| | |]. Qed.

End Monad.

Declare Scope run_scope.
Delimit Scope run_scope with run.

Notation "'let*' x ':=' m 'in' k" := (mbind m (fun x => k))
  (at level 10, x pattern, m at level 100, k at level 200,
   format "'[v' 'let*'  x  ':='  m  'in' '/' k ']'") : run_scope.
Notation "m ';;;' k" := (mbind m (fun _ => k))
  (at level 110, k at level 200, right associativity,
   format "'[v' m ';;;' '/' k ']'") : run_scope.
Global Open Scope run_scope.

(** ** Machine arithmetic

    The [production] profile inherits [release], where overflow wraps; the
    [testnet] profile turns [overflow-checks] and [debug-assertions] on.  The
    models are generic in the profile. *)

Class Profile := {
  overflow_checks : bool;
  debug_assertions : bool;
}.

Definition in_width (w z : Z) : bool := (0 <=? z) && (z <? 2 ^ w).

Section Arith.
Context {S E : Type} {prof : Profile}.

(** The value [z] computed by a [w]-bit unsigned [+], [-] or [*]. *)
Definition arith (w z : Z) : M S E Z :=
  if in_width w z then mret z
  else if overflow_checks then panic
  else mret (z mod 2 ^ w).

(** The same for a [w]-bit signed integer *)
Definition arith_i (w z : Z) : M S E Z :=
  if in_width w (z + 2 ^ (w - 1)) then mret z
  else if overflow_checks then panic
  else mret ((z + 2 ^ (w - 1)) mod 2 ^ w - 2 ^ (w - 1)).

Definition debug_assert (b : bool) : M S E unit :=
  if debug_assertions && negb b then panic else mret tt.

(** [a / b] on unsigned integers: a zero divisor panics in every profile. *)
Definition div_u (a b : Z) : M S E Z :=
  if b =? 0 then panic else mret (a / b).

End Arith.

(** ** Weakest preconditions

    [wp P m Q R s]: from [s], [m] returns into [Q], errors into [R], and if it
    panics or runs out of fuel then [P] ([True] for partial, [False] for total
    correctness). *)

Section Wp.
Context {S E : Type}.

Definition wp {A} (P : Prop) (m : M S E A) (Q : A -> S -> Prop) (R : E -> S -> Prop)
    (s : S) : Prop :=
  match m s with
  | Ok a s' => Q a s'
  | Err e s' => R e s'
  | Panic | NoFuel => P
  end.

Context (P : Prop).

Lemma wp_ret {A} (a : A) Q R s : Q a s -> wp P (mret a) Q R s.
Proof. done. Qed.

Lemma wp_bind {A B} (m : M S E A) (f : A -> M S E B) Q R s :
  wp P m (fun a s' => wp P (f a) Q R s') R s -> wp P (mbind m f) Q R s.
Proof. unfold wp, mbind. by destruct (m s). Qed.

Lemma wp_fail {A} e (Q : A -> S -> Prop) (R : E -> S -> Prop) s :
  R e s -> wp P (fail e) Q R s.
Proof. done. Qed.

Lemma wp_panic {A} (Q : A -> S -> Prop) (R : E -> S -> Prop) s :
  P -> wp P panic Q R s.
Proof. done. Qed.

Lemma wp_gets {A} (f : S -> A) Q (R : E -> S -> Prop) s :
  Q (f s) s -> wp P (gets f) Q R s.
Proof. done. Qed.

Lemma wp_modify f (Q : unit -> S -> Prop) (R : E -> S -> Prop) s :
  Q tt (f s) -> wp P (modify f) Q R s.
Proof. done. Qed.

Lemma wp_ensure b e (Q : unit -> S -> Prop) (R : E -> S -> Prop) s :
  (b = true -> Q tt s) -> (b = false -> R e s) -> wp P (ensure b e) Q R s.
Proof. destruct b; unfold wp; simpl; auto. Qed.

Lemma wp_ok_or {A} (o : option A) e Q (R : E -> S -> Prop) s :
  (forall a, o = Some a -> Q a s) -> (o = None -> R e s) -> wp P (ok_or o e) Q R s.
Proof. destruct o; unfold wp; simpl; auto. Qed.

Lemma wp_expect_some {A} (o : option A) Q (R : E -> S -> Prop) s :
  (forall a, o = Some a -> Q a s) -> (o = None -> P) -> wp P (expect_some o) Q R s.
Proof. destruct o; unfold wp; simpl; auto. Qed.

Lemma wp_expect_ok {A} (m : M S E A) Q R s :
  wp P m Q (fun _ _ => P) s -> wp P (expect_ok m) Q R s.
Proof. unfold wp, expect_ok. by destruct (m s). Qed.

Lemma wp_or_err {A} (m : M S E A) e Q R s :
  wp P m Q (fun _ s' => R e s') s -> wp P (or_err m e) Q R s.
Proof. unfold wp, or_err. by destruct (m s). Qed.

Lemma wp_catch {A} (m : M S E A) Q (R : E -> S -> Prop) s :
  wp P m (fun a => Q (inl a)) (fun e => Q (inr e)) s -> wp P (catch m) Q R s.
Proof. unfold wp, catch. by destruct (m s). Qed.

Lemma wp_transactional {A} (m : M S E A) Q (R : E -> S -> Prop) s :
  wp P m Q (fun e _ => R e s) s -> wp P (transactional m) Q R s.
Proof. unfold wp, transactional. by destruct (m s). Qed.

Lemma wp_mono {A} (m : M S E A) (Q Q' : A -> S -> Prop) (R R' : E -> S -> Prop) s :
  wp P m Q R s ->
  (forall a s', Q a s' -> Q' a s') -> (forall e s', R e s' -> R' e s') ->
  wp P m Q' R' s.
Proof. unfold wp. destruct (m s); auto. Qed.

Lemma wp_and {A} (m : M S E A) (Q Q' : A -> S -> Prop) (R R' : E -> S -> Prop) s :
  wp P m Q R s -> wp P m Q' R' s ->
  wp P m (fun a s' => Q a s' /\ Q' a s') (fun e s' => R e s' /\ R' e s') s.
Proof. unfold wp. destruct (m s); auto. Qed.

Lemma wp_ok {A} (m : M S E A) (Q : A -> S -> Prop) (R : E -> S -> Prop) s a s' :
  wp P m Q R s -> m s = Ok a s' -> Q a s'.
Proof. unfold wp. intros Hw Hm. by rewrite Hm in Hw. Qed.

Lemma wp_err {A} (m : M S E A) (Q : A -> S -> Prop) (R : E -> S -> Prop) s e s' :
  wp P m Q R s -> m s = Err e s' -> R e s'.
Proof. unfold wp. intros Hw Hm. by rewrite Hm in Hw. Qed.

(** The invariant rule of [for] loops. *)
Lemma wp_for_each {A} (I : S -> Prop) (l : list A) body (Q : unit -> S -> Prop) R s :
  I s ->
  (forall x s', x ∈ l -> I s' -> wp P (body x) (fun _ => I) R s') ->
  (forall s', I s' -> Q tt s') ->
  wp P (for_each l body) Q R s.
Proof.
  revert s. induction l as [|x l IH]; intros s Hs Hb Hq; simpl; [by apply Hq|].
  apply wp_bind. eapply wp_mono; [apply Hb; [set_solver|done]| |done].
  intros [] s' Hs'. apply IH; [done| |done]. intros; apply Hb; [set_solver|done].
Qed.

Lemma wp_for_fold {A B} (I : B -> S -> Prop) (l : list A) b body (Q : B -> S -> Prop) R s :
  I b s ->
  (forall b' x s', x ∈ l -> I b' s' -> wp P (body b' x) I R s') ->
  (forall b' s', I b' s' -> Q b' s') ->
  wp P (for_fold l b body) Q R s.
Proof.
  revert b s. induction l as [|x l IH]; intros b s Hs Hb Hq; simpl; [by apply Hq|].
  apply wp_bind. eapply wp_mono; [apply Hb; [set_solver|done]| |done].
  intros b' s' Hs'. apply IH; [done| |done]. intros; apply Hb; [set_solver|done].
Qed.

End Wp.

Section WpArith.
Context {S E : Type} {prof : Profile} (P : Prop).

Lemma in_width_spec w z : in_width w z = true <-> 0 <= z < 2 ^ w.
Proof. unfold in_width. rewrite andb_true_iff, Z.leb_le, Z.ltb_lt. lia. Qed.

Lemma arith_fits w z (s : S) : 0 <= z < 2 ^ w -> arith (E := E) w z s = Ok z s.
Proof. intros H. apply in_width_spec in H. unfold arith. by rewrite H. Qed.

Lemma arith_i_fits w z (s : S) : - 2 ^ (w - 1) <= z < 2 ^ (w - 1) -> 1 <= w -> arith_i (E := E) w z s = Ok z s.
Proof.
  intros H Hw. unfold arith_i. assert (in_width w (z + 2 ^ (w - 1)) = true) as ->; [|done].
  apply in_width_spec. replace (2 ^ w) with (2 * 2 ^ (w - 1)); [lia|].
  rewrite <- Z.pow_succ_r by lia. f_equal. lia.
Qed.

Lemma wp_arith w z (Q : Z -> S -> Prop) (R : E -> S -> Prop) s :
  (0 <= z < 2 ^ w -> Q z s) ->
  (~ 0 <= z < 2 ^ w -> overflow_checks = true -> P) ->
  (~ 0 <= z < 2 ^ w -> overflow_checks = false -> Q (z mod 2 ^ w) s) ->
  wp P (arith w z) Q R s.
Proof.
  intros H1 H2 H3. unfold wp, arith. destruct (in_width w z) eqn:Hw; simpl.
  - apply in_width_spec in Hw. auto.
  - assert (~ 0 <= z < 2 ^ w) by (rewrite <- in_width_spec; by destruct (in_width w z)).
    destruct overflow_checks; simpl; auto.
Qed.

(** Whatever the profile, the result of [arith] has its width. *)
Lemma wp_arith_any w z (Q : Z -> S -> Prop) (R : E -> S -> Prop) s :
  0 <= w -> P -> (forall r, 0 <= r < 2 ^ w -> Q r s) -> wp P (arith w z) Q R s.
Proof.
  intros Hw HP HQ. apply wp_arith; intros; auto.
  apply HQ, Z.mod_pos_bound. apply Z.pow_pos_nonneg; lia.
Qed.

Lemma wp_debug_assert b (Q : unit -> S -> Prop) (R : E -> S -> Prop) s :
  (debug_assertions && negb b = false -> Q tt s) ->
  (debug_assertions && negb b = true -> P) -> wp P (debug_assert b) Q R s.
Proof.
  intros HQ HP. unfold wp, debug_assert.
  destruct (debug_assertions && negb b); simpl; auto.
Qed.

Lemma wp_div_u a b (Q : Z -> S -> Prop) (R : E -> S -> Prop) s :
  (b = 0 -> P) -> (b <> 0 -> Q (a / b) s) -> wp P (div_u a b) Q R s.
Proof.
  intros HP HQ. unfold wp, div_u. destruct (Z.eqb_spec b 0); simpl; auto.
Qed.

End WpArith.

(** ** Frame conditions

    [keeps f m]: no run of [m] changes the observation [f] of the storage. *)

Section Keeps.
Context {S E : Type} {prof : Profile} {T : Type} (f : S -> T).

Definition keeps {A} (m : M S E A) : Prop :=
  forall s, wp True m (fun _ s' => f s' = f s) (fun _ s' => f s' = f s) s.

Lemma keeps_ret {A} (a : A) : keeps (mret a).
Proof. by intros s. Qed.

Lemma keeps_bind {A B} (m : M S E A) (k : A -> M S E B) :
  keeps m -> (forall a, keeps (k a)) -> keeps (mbind m k).
Proof.
  intros Hm Hk s. apply wp_bind. eapply wp_mono; [apply Hm| |by simpl].
  intros a s' <-. apply Hk.
Qed.

Lemma keeps_fail {A} e : keeps (fail (A := A) e).
Proof. by intros s. Qed.

Lemma keeps_panic {A} : keeps (panic (A := A)).
Proof. by intros s. Qed.

Lemma keeps_gets {A} (g : S -> A) : keeps (gets g).
Proof. by intros s. Qed.

Lemma keeps_modify g : (forall s, f (g s) = f s) -> keeps (modify g).
Proof. intros Hg s. apply Hg. Qed.

Lemma keeps_ensure b e : keeps (ensure b e).
Proof. intros s. by destruct b. Qed.

Lemma keeps_ok_or {A} (o : option A) e : keeps (ok_or o e).
Proof. intros s. by destruct o. Qed.

Lemma keeps_expect_some {A} (o : option A) : keeps (expect_some o).
Proof. intros s. by destruct o. Qed.

Lemma keeps_expect_ok {A} (m : M S E A) : keeps m -> keeps (expect_ok m).
Proof. intros Hm s. specialize (Hm s). unfold wp, expect_ok in *. by destruct (m s). Qed.

Lemma keeps_or_err {A} (m : M S E A) e : keeps m -> keeps (or_err m e).
Proof. intros Hm s. specialize (Hm s). unfold wp, or_err in *. by destruct (m s). Qed.

Lemma keeps_catch {A} (m : M S E A) : keeps m -> keeps (catch m).
Proof. intros Hm s. specialize (Hm s). unfold wp, catch in *. by destruct (m s). Qed.

Lemma keeps_transactional {A} (m : M S E A) : keeps m -> keeps (transactional m).
Proof. intros Hm s. specialize (Hm s). unfold wp, transactional in *. by destruct (m s). Qed.

Lemma keeps_for_each {A} (l : list A) body :
  (forall x, keeps (body x)) -> keeps (for_each l body).
Proof.
  intros Hb. induction l; simpl; [apply keeps_ret|]. apply keeps_bind; auto.
Qed.

Lemma keeps_for_fold {A B} (l : list A) (b : B) body :
  (forall b x, keeps (body b x)) -> keeps (for_fold l b body).
Proof.
  intros Hb. revert b. induction l; intros b; simpl; [apply keeps_ret|].
  apply keeps_bind; auto.
Qed.

Lemma keeps_arith w z : keeps (arith w z).
Proof. intros s. unfold wp, arith. destruct (in_width w z), overflow_checks; by simpl. Qed.

Lemma keeps_debug_assert b : keeps (debug_assert b).
Proof. intros s. unfold wp, debug_assert. by destruct debug_assertions, b. Qed.

Lemma keeps_div_u a b : keeps (div_u a b).
Proof. intros s. unfold wp, div_u. by destruct (b =? 0). Qed.

Lemma keeps_ok {A} (m : M S E A) s a s' : keeps m -> m s = Ok a s' -> f s' = f s.
Proof. intros Hm. exact (wp_ok True m _ _ s a s' (Hm s)). Qed.

Lemma keeps_err {A} (m : M S E A) s e s' : keeps m -> m s = Err e s' -> f s' = f s.
Proof. intros Hm. exact (wp_err True m _ _ s e s' (Hm s)). Qed.

(** Uses of a frame condition in a [wp] proof. *)
Lemma keeps_wp {A} (m : M S E A) (P : Prop) (Q : A -> S -> Prop) (R : E -> S -> Prop) s :
  P -> keeps m ->
  (forall a s', f s' = f s -> Q a s') -> (forall e s', f s' = f s -> R e s') ->
  wp P m Q R s.
Proof. intros HP Hm HQ HR. specialize (Hm s). unfold wp in *. destruct (m s); auto. Qed.

End Keeps.

(** ** Invariants

    [preserves I m]: every run of [m] from a storage that satisfies [I] ends in
    one, on success and on error. *)
Section Preserves.
Context {S E : Type}.

Definition preserves {A} (I : S -> Prop) (m : M S E A) : Prop :=
  forall s, I s -> wp True m (fun _ s' => I s') (fun _ s' => I s') s.

Lemma keeps_preserves {A T} (f : S -> T) (I : S -> Prop) (m : M S E A) :
  (forall s s', f s' = f s -> I s -> I s') -> keeps f m -> preserves I m.
Proof. intros Hf Hm s Hs. eapply keeps_wp; [done|exact Hm|eauto|eauto]. Qed.

Lemma preserves_bind {A B} (I : S -> Prop) (m : M S E A) (k : A -> M S E B) :
  preserves I m -> (forall a, preserves I (k a)) -> preserves I (mbind m k).
Proof.
  intros Hm Hk s Hs. apply wp_bind. eapply wp_mono; [by apply Hm| |done].
  intros a s' Hs'. by apply Hk.
Qed.

Lemma preserves_catch {A} (I : S -> Prop) (m : M S E A) :
  preserves I m -> preserves I (catch m).
Proof. intros Hm s Hs. apply wp_catch. by apply Hm. Qed.

Lemma preserves_transactional {A} (I : S -> Prop) (m : M S E A) :
  preserves I m -> preserves I (transactional m).
Proof. intros Hm s Hs. apply wp_transactional. eapply wp_mono; [by apply Hm|done|by intros]. Qed.

Lemma preserves_expect_ok {A} (I : S -> Prop) (m : M S E A) :
  preserves I m -> preserves I (expect_ok m).
Proof. intros Hm s Hs. apply wp_expect_ok. eapply wp_mono; [by apply Hm|done|by intros]. Qed.

Lemma preserves_or_err {A} (I : S -> Prop) (m : M S E A) e :
  preserves I m -> preserves I (or_err m e).
Proof. intros Hm s Hs. apply wp_or_err. by apply Hm. Qed.

Lemma preserves_modify (I : S -> Prop) f : (forall s, I s -> I (f s)) -> preserves I (modify f).
Proof. intros Hf s Hs. by apply wp_modify, Hf. Qed.

Lemma preserves_for_fold {A B} (I : S -> Prop) (l : list A) (b : B) body :
  (forall b x, preserves I (body b x)) -> preserves I (for_fold l b body).
Proof. intros Hb s Hs. apply (wp_for_fold True (fun _ => I)); [done| |done]. intros; by apply Hb. Qed.

Lemma preserves_nofuel {A} (I : S -> Prop) : preserves I (fun _ => NoFuel (E := E) (A := A)).
Proof. by intros s. Qed.

(** Code that leaves the whole storage as it is *)
Lemma preserves_pure {A} (I : S -> Prop) (m : M S E A) : keeps (fun s => s) m -> preserves I m.
Proof. apply keeps_preserves. by intros s s' ->. Qed.

Lemma preserves_for_each {A} (I : S -> Prop) (l : list A) body :
  (forall x, preserves I (body x)) -> preserves I (for_each l body).
Proof. intros Hb s Hs. apply (wp_for_each True I); [done| |done]. intros; by apply Hb. Qed.

Lemma preserves_ok {A} (I : S -> Prop) (m : M S E A) s a s' :
  preserves I m -> I s -> m s = Ok a s' -> I s'.
Proof. intros Hm Hs. exact (wp_ok True m _ _ s a s' (Hm s Hs)). Qed.

Lemma preserves_final {A} (I : S -> Prop) (m : M S E A) s :
  preserves I m -> I s -> I (final m s).
Proof. intros Hm Hs. specialize (Hm s Hs). unfold wp, final in *. by destruct (m s). Qed.

End Preserves.

(** ** Code that returns no error *)
Section Infallible.
Context {S E : Type} {prof : Profile}.

Definition infallible {A} (m : M S E A) : Prop :=
  forall s, wp True m (fun _ _ => True) (fun _ _ => False) s.

Lemma infallible_ret {A} (a : A) : infallible (mret a).
Proof. by intros s. Qed.

Lemma infallible_bind {A B} (m : M S E A) (k : A -> M S E B) :
  infallible m -> (forall a, infallible (k a)) -> infallible (mbind m k).
Proof. intros Hm Hk s. apply wp_bind. eapply wp_mono; [apply Hm| |done]. intros a s' _. apply Hk. Qed.

Lemma infallible_panic {A} : infallible (panic (A := A)).
Proof. by intros s. Qed.

Lemma infallible_gets {A} (g : S -> A) : infallible (gets g).
Proof. by intros s. Qed.

Lemma infallible_modify g : infallible (modify g).
Proof. by intros s. Qed.

Lemma infallible_expect_some {A} (o : option A) : infallible (expect_some o).
Proof. intros s. by destruct o. Qed.

Lemma infallible_expect_ok {A} (m : M S E A) : infallible (expect_ok m).
Proof. intros s. unfold wp, expect_ok. by destruct (m s). Qed.

Lemma infallible_catch {A} (m : M S E A) : infallible (catch m).
Proof. intros s. unfold wp, catch. by destruct (m s). Qed.

Lemma infallible_arith w z : infallible (arith w z).
Proof. intros s. unfold wp, arith. destruct (in_width w z), overflow_checks; by simpl. Qed.

Lemma infallible_debug_assert b : infallible (debug_assert b).
Proof. intros s. unfold wp, debug_assert. by destruct debug_assertions, b. Qed.

Lemma infallible_div_u a b : infallible (div_u a b).
Proof. intros s. unfold wp, div_u. by destruct (b =? 0). Qed.

Lemma infallible_nofuel {A} : infallible (fun _ => NoFuel (A := A)).
Proof. by intros s. Qed.

Lemma infallible_for_each {A} (l : list A) body :
  (forall x, infallible (body x)) -> infallible (for_each l body).
Proof. intros Hb. induction l; simpl; [apply infallible_ret|]. by apply infallible_bind. Qed.

Lemma infallible_for_fold {A B} (l : list A) (b : B) body :
  (forall b x, infallible (body b x)) -> infallible (for_fold l b body).
Proof.
  intros Hb. revert b. induction l; intros b; simpl; [apply infallible_ret|]. by apply infallible_bind.
Qed.

(** A frame condition used on a call that returns no error *)
Lemma wp_keep_ok {A T} (f : S -> T) (m : M S E A) (Q : A -> S -> Prop) (R : E -> S -> Prop) s :
  keeps f m -> infallible m -> (forall a s', f s' = f s -> Q a s') -> wp True m Q R s.
Proof.
  intros Hm Hi HQ. specialize (Hm s). specialize (Hi s). unfold wp in *. by destruct (m s); auto.
Qed.

End Infallible.

(** ** Loops and computations that end *)
Section Loops.
Context {S E : Type} {prof : Profile}.

Lemma wp_turns {A} P n (body : A -> M S E (A * bool)) (I Q : A -> S -> Prop) (R : E -> S -> Prop) a s :
  (forall a s, I a s -> wp P (body a) (fun r s' => if snd r then I (fst r) s' else Q (fst r) s') R s) ->
  I a s -> wp P (turns n body a) (fun r s' => if snd r then I (fst r) s' else Q (fst r) s') R s.
Proof.
  intros Hb. revert a s. induction n as [|n IH]; intros a s Ha; simpl; [by apply Hb|].
  apply wp_bind. eapply wp_mono; [by apply IH| |done]. intros [a' []] s' Ha'; [by apply IH|by apply wp_ret].
Qed.

Lemma wp_while {A} n (body : A -> M S E (A * bool)) (I Q : A -> S -> Prop) (R : E -> S -> Prop) a s :
  (forall a s, I a s -> wp True (body a) (fun r s' => if snd r then I (fst r) s' else Q (fst r) s') R s) ->
  I a s -> wp True (while_loop n body a) Q R s.
Proof.
  intros Hb Ha. apply wp_bind. eapply wp_mono; [by apply (wp_turns True n body I Q R)| |done].
  intros [a' []] s' H; [done|by apply wp_ret].
Qed.

Lemma preserves_while {A} (I : S -> Prop) n (body : A -> M S E (A * bool)) a :
  (forall a, preserves I (body a)) -> preserves I (while_loop n body a).
Proof.
  intros Hb s Hs. apply (wp_while n body (fun _ => I) (fun _ => I)); [|done].
  intros a' s' Hs'. eapply wp_mono; [by apply Hb| |done]. by intros [b []].
Qed.

Lemma infallible_while {A} n (body : A -> M S E (A * bool)) a :
  (forall a, infallible (body a)) -> infallible (while_loop n body a).
Proof.
  intros Hb s. apply (wp_while n body (fun _ _ => True) (fun _ _ => True)); [|done].
  intros a' s' _. eapply wp_mono; [by apply Hb| |done]. by intros [b []].
Qed.

Definition halts {A} (m : M S E A) : Prop := forall s, m s <> NoFuel.

Lemma halts_bind {A B} (m : M S E A) (k : A -> M S E B) :
  halts m -> (forall a, halts (k a)) -> halts (mbind m k).
Proof. intros Hm Hk s. specialize (Hm s). unfold mbind. destruct (m s); [by apply Hk|done..]. Qed.

Lemma halts_transactional {A} (m : M S E A) : halts m -> halts (transactional m).
Proof. intros Hm s. specialize (Hm s). unfold transactional. by destruct (m s). Qed.

Lemma halts_expect_ok {A} (m : M S E A) : halts m -> halts (expect_ok m).
Proof. intros Hm s. specialize (Hm s). unfold expect_ok. by destruct (m s). Qed.

Lemma halts_catch {A} (m : M S E A) : halts m -> halts (catch m).
Proof. intros Hm s. specialize (Hm s). unfold catch. by destruct (m s). Qed.

Lemma halts_for_each {A} (l : list A) body : (forall x, halts (body x)) -> halts (for_each l body).
Proof. intros Hb. induction l; simpl; [by intros s|]. by apply halts_bind. Qed.

Lemma halts_ret {A} (a : A) : halts (mret a).
Proof. by intros s. Qed.
Lemma halts_fail {A} e : halts (fail (A := A) e).
Proof. by intros s. Qed.
Lemma halts_panic {A} : halts (panic (A := A)).
Proof. by intros s. Qed.
Lemma halts_gets {A} (g : S -> A) : halts (gets g).
Proof. by intros s. Qed.
Lemma halts_modify g : halts (modify g).
Proof. by intros s. Qed.
Lemma halts_ensure b e : halts (ensure b e).
Proof. intros s. by destruct b. Qed.
Lemma halts_ok_or {A} (o : option A) e : halts (ok_or o e).
Proof. intros s. by destruct o. Qed.
Lemma halts_expect_some {A} (o : option A) : halts (expect_some o).
Proof. intros s. by destruct o. Qed.
Lemma halts_arith w z : halts (arith w z).
Proof. intros s. unfold arith. by destruct (in_width w z), overflow_checks. Qed.
Lemma halts_debug_assert b : halts (debug_assert b).
Proof. intros s. unfold debug_assert. by destruct debug_assertions, b. Qed.

(** A loop ends within its turns when they lower a measure. *)
Lemma turns_measure {A} n (body : A -> M S E (A * bool)) (I : A -> S -> Prop) (mu : A -> S -> Z) a s :
  (forall a s, I a s -> body a s <> NoFuel) ->
  (forall a s, I a s -> wp True (body a)
     (fun r s' => snd r = true -> I (fst r) s' /\ 0 <= mu (fst r) s' < mu a s) (fun _ _ => True) s) ->
  I a s ->
  turns n body a s <> NoFuel /\
  wp True (turns n body a)
    (fun r s' => snd r = true -> I (fst r) s' /\ 0 <= mu (fst r) s' <= mu a s - 2 ^ Z.of_nat n) (fun _ _ => True) s.
Proof.
  intros Hn Hb. revert a s. induction n as [|n IH]; intros a s Ha.
  - split; [by apply Hn|]. eapply wp_mono; [by apply Hb| |done]. intros r s' H Hr. destruct (H Hr). simpl. split; [done|lia].
  - rewrite Nat2Z.inj_succ, Z.pow_succ_r by lia. destruct (IH a s Ha) as [H1 H2]. simpl. unfold mbind, wp in *.
    destruct (turns n body a s) as [[a' []] s'| | |]; simpl in *; try done.
    destruct (H2 eq_refl) as [Ha' Hm]. destruct (IH a' s' Ha') as [H3 H4]. split; [done|].
    destruct (turns n body a' s') as [[a2 []] s2| | |]; simpl in *; try done.
    intros _. destruct (H4 eq_refl). split; [done|lia].
Qed.

Lemma while_halts {A} n (body : A -> M S E (A * bool)) (I : A -> S -> Prop) (mu : A -> S -> Z) a s :
  (forall a s, I a s -> body a s <> NoFuel) ->
  (forall a s, I a s -> wp True (body a)
     (fun r s' => snd r = true -> I (fst r) s' /\ 0 <= mu (fst r) s' < mu a s) (fun _ _ => True) s) ->
  I a s -> mu a s < 2 ^ Z.of_nat n -> while_loop n body a s <> NoFuel.
Proof.
  intros Hn Hb Ha Hm. destruct (turns_measure n body I mu a s Hn Hb Ha) as [H1 H2].
  unfold while_loop, mbind, wp in *. destruct (turns n body a s) as [[a' []] s'| | |]; simpl in *; try done.
  destruct (H2 eq_refl). lia.
Qed.

End Loops.

Create HintDb halts.
#[export] Hint Resolve halts_ret halts_fail halts_panic halts_gets halts_modify halts_ensure halts_ok_or
  halts_expect_some halts_arith halts_debug_assert : halts.
Ltac halts_step :=
  lazymatch goal with
  | |- forall _, _ => intro
  | |- halts (mbind _ _) => apply halts_bind
  | |- halts (transactional _) => apply halts_transactional
  | |- halts (expect_ok _) => apply halts_expect_ok
  | |- halts (catch _) => apply halts_catch
  | |- halts (for_each _ _) => apply halts_for_each
  | |- halts (match ?x with _ => _ end) => destruct x
  | |- halts _ => solve [eauto with halts]
  end.
Ltac solve_halts := repeat halts_step.

Create HintDb infallible.
#[export] Hint Resolve infallible_ret infallible_panic infallible_gets infallible_modify
  infallible_expect_some infallible_expect_ok infallible_catch infallible_arith
  infallible_debug_assert infallible_div_u infallible_nofuel : infallible.

Ltac infallible_step :=
  lazymatch goal with
  | |- forall _, _ => intro
  | |- infallible (mbind _ _) => apply infallible_bind
  | |- infallible (for_each _ _) => apply infallible_for_each
  | |- infallible (for_fold _ _ _) => apply infallible_for_fold
  | |- infallible (while_loop _ _ _) => apply infallible_while
  | |- infallible (match ?x with _ => _ end) => destruct x
  | |- infallible _ => solve [eauto with infallible]
  end.
Ltac solve_infallible := repeat infallible_step.

Create HintDb keeps.
#[export] Hint Resolve keeps_ret keeps_fail keeps_panic keeps_gets keeps_ensure keeps_ok_or
  keeps_expect_some keeps_arith keeps_debug_assert keeps_div_u : keeps.

(** Proves [keeps f m] by following the structure of [m]; calls are closed by
    the lemmas of the [keeps] database. *)
Ltac keeps_step :=
  lazymatch goal with
  | |- forall _, _ => intro
  | |- keeps _ (mbind _ _) => apply keeps_bind
  | |- keeps _ (transactional _) => apply keeps_transactional
  | |- keeps _ (expect_ok _) => apply keeps_expect_ok
  | |- keeps _ (or_err _ _) => apply keeps_or_err
  | |- keeps _ (catch _) => apply keeps_catch
  | |- keeps _ (for_each _ _) => apply keeps_for_each
  | |- keeps _ (for_fold _ _ _) => apply keeps_for_fold
  | |- keeps _ (modify _) => apply keeps_modify; intro; reflexivity
  | |- keeps _ (match ?x with _ => _ end) => destruct x
  | |- keeps _ _ => solve [eauto with keeps]
  end.
Ltac solve_keeps := repeat keeps_step.

(** Proves [preserves I m] the same way: calls are closed by the lemmas of the
    [preserves] database, a write by reflexivity of the part [I] is about. *)
Create HintDb preserves.
#[export] Hint Resolve preserves_nofuel : preserves.
Ltac preserves_step :=
  lazymatch goal with
  | |- forall _, _ => intro
  | |- preserves _ (mbind _ _) => apply preserves_bind
  | |- preserves _ (transactional _) => apply preserves_transactional
  | |- preserves _ (expect_ok _) => apply preserves_expect_ok
  | |- preserves _ (or_err _ _) => apply preserves_or_err
  | |- preserves _ (catch _) => apply preserves_catch
  | |- preserves _ (for_each _ _) => apply preserves_for_each
  | |- preserves _ (for_fold _ _ _) => apply preserves_for_fold
  | |- preserves _ (while_loop _ _ _) => apply preserves_while
  | |- preserves _ (match ?x with _ => _ end) => destruct x
  | |- preserves _ _ => first [solve [eauto with preserves]
                              |apply preserves_pure; solve [eauto with keeps]
                              |apply preserves_modify; solve [by intros]]
  end.
Ltac solve_preserves := repeat preserves_step.

(** ** Equal computations

    Pointwise equality, a congruence for the constructs of runtime code. *)
Section Same.
Context {S E : Type}.

Definition same {A} (m m' : M S E A) : Prop := forall s, m s = m' s.

Lemma same_refl {A} (m : M S E A) : same m m.
Proof. done. Qed.

Lemma same_bind {A B} (m m' : M S E A) (k k' : A -> M S E B) :
  same m m' -> (forall a, same (k a) (k' a)) -> same (mbind m k) (mbind m' k').
Proof. intros Hm Hk s. unfold mbind. rewrite Hm. destruct (m' s); [apply Hk|done..]. Qed.

Lemma same_catch {A} (m m' : M S E A) : same m m' -> same (catch m) (catch m').
Proof. intros Hm s. unfold catch. by rewrite Hm. Qed.

Lemma same_for_each {A} (l : list A) (body body' : A -> M S E unit) :
  (forall x, same (body x) (body' x)) -> same (for_each l body) (for_each l body').
Proof. intros Hb. induction l; simpl; [apply same_refl|]. by apply same_bind. Qed.

End Same.

Create HintDb same.
Ltac same_step :=
  lazymatch goal with
  | |- forall _, _ => intro
  | |- same ?m ?m => apply same_refl
  | |- same (mbind _ _) (mbind _ _) => apply same_bind
  | |- same (catch _) (catch _) => apply same_catch
  | |- same (for_each _ _) (for_each _ _) => apply same_for_each
  | |- same (match ?x with _ => _ end) _ => destruct x
  | |- same _ _ => solve [eauto with same]
  end.
Ltac solve_same := repeat same_step.

(** Symbolic execution in a [wp] goal, one construct at a time. *)
Ltac wp_step :=
  lazymatch goal with
  | |- wp _ (mret _) _ _ _ => apply wp_ret
  | |- wp _ (mbind _ _) _ _ _ => apply wp_bind
  | |- wp _ (fail _) _ _ _ => apply wp_fail
  | |- wp _ panic _ _ _ => apply wp_panic
  | |- wp _ (gets _) _ _ _ => apply wp_gets
  | |- wp _ (modify _) _ _ _ => apply wp_modify
  | |- wp _ (ensure _ _) _ _ _ => apply wp_ensure; intro
  | |- wp _ (ok_or _ _) _ _ _ => apply wp_ok_or; [intros ? ?|intro]
  | |- wp _ (expect_some _) _ _ _ => apply wp_expect_some; [intros ? ?|intro]
  | |- wp _ (expect_ok _) _ _ _ => apply wp_expect_ok
  | |- wp _ (or_err _ _) _ _ _ => apply wp_or_err
  | |- wp _ (catch _) _ _ _ => apply wp_catch
  | |- wp _ (transactional _) _ _ _ => apply wp_transactional
  | |- wp _ (debug_assert _) _ _ _ => apply wp_debug_assert; intro
  | |- wp _ (match ?x with _ => _ end) _ _ _ => destruct x eqn:?
  end.
Ltac wp_steps := repeat (wp_step; cbv beta).

(** The same, stopping at a branch. *)
Ltac wp_lines :=
  repeat (lazymatch goal with
          | |- wp _ (match _ with _ => _ end) _ _ _ => fail
          | |- wp _ _ _ _ _ => wp_step
          end; cbv beta).

(** A result that holds whatever the code does *)
Lemma wp_any {S E A} (m : M S E A) (Q : A -> S -> Prop) s :
  (forall a s', Q a s') -> wp True m Q (fun _ _ => True) s.
Proof. intros HQ. unfold wp. by destruct (m s). Qed.

(** A step that changes nothing, and one that keeps an observation *)
Lemma wp_look {S E A} (m : M S E A) (Q : A -> S -> Prop) s :
  keeps (fun s => s) m -> (forall a, m s = Ok a s -> Q a s) -> wp True m Q (fun _ _ => True) s.
Proof. intros Hk HQ. specialize (Hk s). unfold wp in *. destruct (m s); subst; auto. Qed.

Lemma wp_frame {S E A T} (f : S -> T) (m : M S E A) (Q : A -> S -> Prop) s :
  keeps f m -> (forall a s', f s' = f s -> Q a s') -> wp True m Q (fun _ _ => True) s.
Proof. intros Hk HQ. specialize (Hk s). unfold wp in *. destruct (m s); auto. Qed.

(** ** Sums over maps *)
Section MapSum.
Context {K V : Type} `{Countable K} (f : K -> V -> Z).
Implicit Types m : gmap K V.

Definition map_sum m : Z := map_fold (fun k x acc => f k x + acc) 0 m.

Lemma map_sum_new m k x : m !! k = None -> map_sum (<[k := x]> m) = f k x + map_sum m.
Proof. intros Hk. unfold map_sum. rewrite map_fold_insert_L; [done| |done]. intros. lia. Qed.

(** What a key adds to the sum *)
Definition at_key k (o : option V) : Z := match o with Some x => f k x | None => 0 end.

Lemma map_sum_delete m k : map_sum (delete k m) = map_sum m - at_key k (m !! k).
Proof.
  destruct (m !! k) as [x|] eqn:Hk; simpl.
  - rewrite <- (insert_delete_id m k x Hk) at 2. rewrite map_sum_new by apply lookup_delete_eq. lia.
  - rewrite delete_id by done. lia.
Qed.

Lemma map_sum_insert m k x : map_sum (<[k := x]> m) = map_sum m - at_key k (m !! k) + f k x.
Proof. rewrite <- insert_delete_eq, map_sum_new by apply lookup_delete_eq. rewrite map_sum_delete. lia. Qed.

Lemma map_sum_nonneg m : (forall k x, m !! k = Some x -> 0 <= f k x) -> 0 <= map_sum m.
Proof.
  induction m as [|k x m Hk IH] using map_ind; intros Hm; [done|]. rewrite map_sum_new by done.
  assert (0 <= f k x) by (apply Hm, lookup_insert_eq).
  assert (0 <= map_sum m); [|lia]. apply IH. intros j y Hj. apply Hm. rewrite lookup_insert_ne; [done|]. by intros ->; congruence.
Qed.

Lemma at_key_le m k : (forall k x, m !! k = Some x -> 0 <= f k x) -> at_key k (m !! k) <= map_sum m.
Proof.
  intros Hm. assert (0 <= map_sum (delete k m)).
  { apply map_sum_nonneg. intros j y [_ Hj]%lookup_delete_Some. by apply Hm. }
  rewrite map_sum_delete in *. lia.
Qed.

Lemma map_sum_fmap (g : V -> V) m : (forall k x, f k (g x) = f k x) -> map_sum (g <$> m) = map_sum m.
Proof.
  intros Hg. induction m as [|k x m Hk IH] using map_ind; [by rewrite fmap_empty|].
  rewrite fmap_insert, !map_sum_new; [by rewrite Hg, IH|done|by rewrite lookup_fmap, Hk].
Qed.
End MapSum.

Lemma map_sum_le {K V} `{Countable K} (f g : K -> V -> Z) (m : gmap K V) :
  (forall k x, m !! k = Some x -> f k x <= g k x) -> map_sum f m <= map_sum g m.
Proof.
  induction m as [|k x m Hk IH] using map_ind; intros Hm; [done|]. rewrite !map_sum_new by done.
  assert (f k x <= g k x) by (apply Hm, lookup_insert_eq).
  assert (map_sum f m <= map_sum g m); [|lia]. apply IH. intros j y Hj. apply Hm. rewrite lookup_insert_ne; [done|]. by intros ->; congruence.
Qed.
