(* ===== verification/Types.v ===== *)
(** * Runtime data

    The configuration of the pallets, the message types of [cyrux-mq] and
    [cyrux-types], the records and enums of the pallets, and the storage of
    the whole runtime as one record. *)
From stdpp Require Import prelude gmap list strings.
From Stdlib Require Import ZArith Ascii.
From S2P Require Import Prelude.

Abbreviation bytes := (list Z) (only parsing).

(** [b"..."] *)
Fixpoint bytes_of_string (s : string) : bytes :=
  match s with
  | EmptyString => []
  | String a s' => Z.of_nat (nat_of_ascii a) :: bytes_of_string s'
  end.

(** ** Configuration

    The associated types and constants of the pallets' [Config] traits.
    [Ext] is the storage of the pallets that are not in this repository
    (assets, balances, uniques, rmrk, democracy). *)

Class Config := {
  AccountId : Type;
  AccountId_eq_dec :: EqDecision AccountId;
  AccountId_countable :: Countable AccountId;
  Ext : Type;
  profile :: Profile;
  MinInitP : Z;
  ExpectedBlockTimeSec : Z;
  CheckWorkerRegisterTime : bool;
  MinContribution : Z;
  GracePeriod : Z;
  MaxPoolWorkers : Z;
  InitialPriceCheckPoint : Z;
  VaultQueuePeriod : Z;
  MigrationAccountId : AccountId;
  WrappedBalancesAccountId : AccountId;
  VerifyPRuntime : bool;
  VerifyRelaychainGenesisBlockHash : bool;
  NoneAttestationEnabled : bool;
  ParachainId : Z;
  InkCodeSizeLimit : Z;
  SidevmCodeSizeLimit : Z;
}.

(** 256-bit identifiers, read as numbers. *)
Abbreviation H256 := Z (only parsing).
Abbreviation WorkerPublicKey := Z (only parsing).
Abbreviation EcdhPublicKey := Z (only parsing).
Abbreviation MasterPublicKey := Z (only parsing).
Abbreviation CollectionId := Z (only parsing).
Abbreviation NftId := Z (only parsing).
Abbreviation Balance := Z (only parsing).

(** ** Messages: crates/cyrux-mq/src/types.rs *)

Inductive MessageOrigin :=
| Pallet (name : bytes)
| Contract (id : H256)
| Worker (key : WorkerPublicKey)
| AccountIdOrigin (id : H256)
| MultiLocation (location : bytes)
| Gatekeeper
| Cluster (id : H256)
| Reserved.

#[export] Instance MessageOrigin_eq_dec : EqDecision MessageOrigin.
Proof. solve_decision. Defined.

#[export] Instance MessageOrigin_countable : Countable MessageOrigin.
Proof.
  set (enc := fun o : MessageOrigin => match o with
    | Pallet n => (0, n) | Contract h => (1, [h]) | Worker k => (2, [k])
    | AccountIdOrigin h => (3, [h]) | MultiLocation l => (4, l)
    | Gatekeeper => (5, []) | Cluster h => (6, [h]) | Reserved => (255, [])
    end : Z * bytes).
  set (dec := fun p : Z * bytes => match p with
    | (0, n) => Pallet n | (1, [h]) => Contract h | (2, [k]) => Worker k
    | (3, [h]) => AccountIdOrigin h | (4, l) => MultiLocation l
    | (5, _) => Gatekeeper | (6, [h]) => Cluster h | _ => Reserved
    end).
  apply (inj_countable' enc dec). by intros [].
Defined.

Definition is_offchain (o : MessageOrigin) : bool :=
  match o with
  | Cluster _ | Contract _ | Worker _ | Gatekeeper => true
  | _ => false
  end.

Definition is_pallet (o : MessageOrigin) : bool :=
  match o with Pallet _ => true | _ => false end.

Definition always_well_formed (o : MessageOrigin) : bool :=
  match o with Pallet _ | Worker _ | Gatekeeper => true | _ => false end.

Definition is_gatekeeper (o : MessageOrigin) : bool :=
  match o with Gatekeeper => true | _ => false end.

(** A topic is its path. *)
Abbreviation Topic := bytes (only parsing).

Definition RESERVED_BYTES : bytes := bytes_of_string "~!@#$%&*_+-=|<>?,./;:'".

Definition topic_is_valid (t : Topic) : bool :=
  match t with
  | [] => false
  | b :: _ => negb (bool_decide (b ∈ RESERVED_BYTES))
  end.

Definition topic_is_offchain (t : Topic) : bool :=
  if negb (topic_is_valid t) then false
  else match t with
       | [] => false
       | b :: _ => negb (b =? 94)
       end.

Record Message := mkMessage {
  sender : MessageOrigin;
  destination : Topic;
  payload : bytes;
}.

Record SignedMessage := mkSignedMessage {
  message : Message;
  sequence : Z;
  signature : bytes;
}.

Record DecodedMessage (T : Type) := mkDecodedMessage {
  dm_sender : MessageOrigin;
  dm_destination : Topic;
  dm_payload : T;
}.
Arguments mkDecodedMessage {T}.
Arguments dm_sender {T}.
Arguments dm_destination {T}.
Arguments dm_payload {T}.

(** ** Messages: crates/cyrux-types/src/lib.rs *)

Inductive WorkerEvent :=
| Registered (confidence_level : Z)
| BenchStart (duration : Z)
| BenchScore (score : Z)
| Started (session_id init_v init_p : Z)
| Stopped
| EnterUnresponsive
| ExitUnresponsive.

Record HeartbeatChallenge := mkHeartbeatChallenge {
  seed : Z;
  online_target : Z;
}.

Inductive SystemEvent :=
| WorkerEventWithKey (pubkey : WorkerPublicKey) (event : WorkerEvent)
| HeartbeatChallengeEvent (challenge : HeartbeatChallenge).

Definition SystemEvent_topic : Topic := bytes_of_string "cyrux/system/event".

Inductive WorkingReportEvent :=
| Heartbeat (session_id challenge_block challenge_time iterations : Z)
| HeartbeatV2 (session_id challenge_block challenge_time iterations n_clusters n_contracts : Z).

Definition WorkingReportEvent_topic : Topic := bytes_of_string "cyrux/mining/report".

Record SettleInfo := mkSettleInfo {
  si_pubkey : WorkerPublicKey;
  si_v : Z;
  si_payout : Z;
  si_treasury : Z;
}.

Record WorkingInfoUpdateEvent := mkWorkingInfoUpdateEvent {
  wu_block_number : Z;
  timestamp_ms : Z;
  offline : list WorkerPublicKey;
  recovered_to_online : list WorkerPublicKey;
  settle : list SettleInfo;
}.

Definition WorkingInfoUpdateEvent_topic : Topic := bytes_of_string "^cyrux/mining/update".

Definition is_empty_update (e : WorkingInfoUpdateEvent) : bool :=
  bool_decide (offline e = []) && bool_decide (length (settle e) = 0%nat)
  && bool_decide (recovered_to_online e = []).

Record TokenomicParams := mkTokenomicParams {
  pha_rate : Z;
  rho : Z;
  budget_per_block : Z;
  v_max_bits : Z;
  cost_k : Z;
  cost_b : Z;
  slash_rate : Z;
  treasury_ratio : Z;
  heartbeat_window : Z;
  rig_k : Z;
  rig_b : Z;
  re_bits : Z;
  k_bits : Z;
  kappa : Z;
}.

Definition set_budget_per_block (x : Z) (r : TokenomicParams) : TokenomicParams :=
  mkTokenomicParams (pha_rate r) (rho r) x (v_max_bits r) (cost_k r) (cost_b r) (slash_rate r) (treasury_ratio r) (heartbeat_window r) (rig_k r) (rig_b r) (re_bits r) (k_bits r) (kappa r).

Inductive GatekeeperEvent :=
| NewRandomNumber (block_number random_number last_random_number : Z)
| TokenomicParametersChanged (params : TokenomicParams)
| _RepairV
| _cyruxLaunched
| _UnrespFix.

Definition GatekeeperEvent_topic : Topic := bytes_of_string "cyrux/gatekeeper/event".

Inductive GatekeeperLaunch :=
| FirstGatekeeper (pubkey : WorkerPublicKey) (ecdh_pubkey : EcdhPublicKey)
| MasterPubkeyOnChain (master_pubkey : MasterPublicKey)
| RotateMasterKey (rotation_id : Z) (gk_identities : list (WorkerPublicKey * EcdhPublicKey))
| MasterPubkeyRotated (master_pubkey : MasterPublicKey).

Inductive GatekeeperChange :=
| GkRegistered (pubkey : WorkerPublicKey) (ecdh_pubkey : EcdhPublicKey)
| GkUnregistered (pubkey : WorkerPublicKey).

Definition GatekeeperChange_topic : Topic := bytes_of_string "cyrux/gatekeeper/change".

Definition GatekeeperLaunch_topic : Topic := bytes_of_string "cyrux/gatekeeper/launch".

Inductive RegistryEvent :=
| BenchReport (start_time iterations : Z)
| MasterPubkey (master_pubkey : MasterPublicKey).

Definition RegistryEvent_topic : Topic := bytes_of_string "^cyrux/registry/event".

Inductive GatekeeperRegistryEvent :=
| RotatedMasterPubkey (rotation_id : Z) (master_pubkey : MasterPublicKey).

Definition GatekeeperRegistryEvent_topic : Topic := bytes_of_string "^cyrux/registry/gk_event".

(** ** pallets/cyrux/src/mq.rs *)
Module MqT.

Inductive Error := BadSender | BadSequence | BadDestination.

Record Store := mkStore {
  OffchainIngress : gmap MessageOrigin Z;
  QueuedOutboundMessage : option (list Message);
  OutboundMessages : list Message;
}.

Definition set_OffchainIngress (x : gmap MessageOrigin Z) (r : Store) : Store :=
  mkStore x (QueuedOutboundMessage r) (OutboundMessages r).
Definition set_QueuedOutboundMessage (x : option (list Message)) (r : Store) : Store :=
  mkStore (OffchainIngress r) x (OutboundMessages r).
Definition set_OutboundMessages (x : list Message) (r : Store) : Store :=
  mkStore (OffchainIngress r) (QueuedOutboundMessage r) x.

End MqT.

(** ** pallets/cyrux/src/registry.rs *)
Inductive AttestationProvider := RootProvider | Ias | Dcap.

Section WithConfig.
Context {cfg : Config}.

(** What a worker registers; the legacy form has no [para_id] and no
    [max_consensus_version]. *)
Record WorkerRegistrationInfo := mkWorkerRegistrationInfo {
  wr_version : Z;
  wr_machine_id : bytes;
  wr_pubkey : WorkerPublicKey;
  wr_ecdh_pubkey : EcdhPublicKey;
  wr_genesis_block_hash : H256;
  wr_features : list Z;
  wr_operator : option AccountId;
}.

Record WorkerRegistrationInfoV2 := mkWorkerRegistrationInfoV2 {
  wr_info : WorkerRegistrationInfo;
  para_id : Z;
  max_consensus_version : Z;
}.

Record WorkerEndpointPayload := mkWorkerEndpointPayload {
  ep_pubkey : WorkerPublicKey;
  versioned_endpoints : list bytes;
  signing_time : Z;
}.

Record WorkerInfoV2 := mkWorkerInfoV2 {
  wi_pubkey : WorkerPublicKey;
  wi_ecdh_pubkey : EcdhPublicKey;
  runtime_version : Z;
  last_updated : Z;
  operator : option AccountId;
  attestation_provider : option AttestationProvider;
  confidence_level : Z;
  initial_score : option Z;
  features : list Z;
}.

Definition set_last_updated (x : Z) (r : WorkerInfoV2) : WorkerInfoV2 :=
  mkWorkerInfoV2 (wi_pubkey r) (wi_ecdh_pubkey r) (runtime_version r) x (operator r) (attestation_provider r) (confidence_level r) (initial_score r) (features r).
Definition set_initial_score (x : option Z) (r : WorkerInfoV2) : WorkerInfoV2 :=
  mkWorkerInfoV2 (wi_pubkey r) (wi_ecdh_pubkey r) (runtime_version r) (last_updated r) (operator r) (attestation_provider r) (confidence_level r) x (features r).

End WithConfig.

Module RegistryT.

Inductive Error :=
| CannotHandleUnknownMessage | InvalidSender | InvalidPubKey | MalformedSignature
| InvalidSignatureLength | InvalidSignature | UnknownContract
| InvalidIASSigningCert | InvalidReport | InvalidQuoteStatus | BadIASReport
| OutdatedIASReport | UnknownQuoteBodyFormat | InvalidDCAPQuote
| InvalidRuntimeInfoHash | InvalidRuntimeInfo | InvalidInput | InvalidBenchReport
| WorkerNotFound | NoneAttestationDisabled | InvalidGatekeeper | InvalidMasterPubkey
| MasterKeyMismatch | MasterKeyUninitialized | GenesisBlockHashRejected
| GenesisBlockHashAlreadyExists | GenesisBlockHashNotFound | PRuntimeRejected
| PRuntimeAlreadyExists | PRuntimeNotFound | UnknownCluster | NotImplemented
| CannotRemoveLastGatekeeper | MasterKeyInRotation | InvalidRotatedMasterPubkey
| InvalidEndpointSigningTime | NotMigrationRoot | ParachainIdMismatch
| InvalidConsensusVersion | UnsupportedAttestationType.

Inductive Event :=
| GatekeeperAdded (pubkey : WorkerPublicKey)
| GatekeeperRemoved (pubkey : WorkerPublicKey)
| WorkerAdded (pubkey : WorkerPublicKey) (attestation_provider : option AttestationProvider)
    (confidence_level : Z)
| WorkerUpdated (pubkey : WorkerPublicKey) (attestation_provider : option AttestationProvider)
    (confidence_level : Z)
| MasterKeyRotated (rotation_id : Z) (master_pubkey : MasterPublicKey)
| MasterKeyRotationFailed (rotation_lock : option Z) (gatekeeper_rotation_id : Z)
| InitialScoreSet (pubkey : WorkerPublicKey) (init_score : Z)
| MinimumPRuntimeVersionChangedTo (major minor patch : Z)
| PRuntimeConsensusVersionChangedTo (version : Z)
| GatekeeperLaunched.

Section Store.
Context {cfg : Config}.

Record Store := mkStore {
  Gatekeepers : list WorkerPublicKey;
  GatekeeperMasterPubkey : option MasterPublicKey;
  GatekeeperLaunchedAt : option (Z * Z);
  RotationCounter : Z;
  MasterKeyRotationLock : option Z;
  Workers : gmap WorkerPublicKey WorkerInfoV2;
  WorkerAddedAt : gmap WorkerPublicKey Z;
  ContractKeys : gmap H256 WorkerPublicKey;
  ClusterKeys : gmap H256 WorkerPublicKey;
  TopicKey : gmap bytes bytes;
  BenchmarkDuration : option Z;
  PRuntimeAllowList : list bytes;
  PRuntimeAddedAt : gmap bytes Z;
  RelaychainGenesisBlockHashAllowList : list H256;
  MinimumPRuntimeVersion : Z * Z * Z;
  PRuntimeConsensusVersion : Z;
  MaxKnownPRuntimeConsensusVersion : Z * Z;
  Endpoints : gmap WorkerPublicKey (list bytes);
  TrustedNtpServers : list bytes;
}.

Definition set_Gatekeepers (x : list WorkerPublicKey) (r : Store) : Store :=
  mkStore x (GatekeeperMasterPubkey r) (GatekeeperLaunchedAt r) (RotationCounter r) (MasterKeyRotationLock r) (Workers r) (WorkerAddedAt r) (ContractKeys r) (ClusterKeys r) (TopicKey r) (BenchmarkDuration r) (PRuntimeAllowList r) (PRuntimeAddedAt r) (RelaychainGenesisBlockHashAllowList r) (MinimumPRuntimeVersion r) (PRuntimeConsensusVersion r) (MaxKnownPRuntimeConsensusVersion r) (Endpoints r) (TrustedNtpServers r).
Definition set_GatekeeperMasterPubkey (x : option MasterPublicKey) (r : Store) : Store :=
  mkStore (Gatekeepers r) x (GatekeeperLaunchedAt r) (RotationCounter r) (MasterKeyRotationLock r) (Workers r) (WorkerAddedAt r) (ContractKeys r) (ClusterKeys r) (TopicKey r) (BenchmarkDuration r) (PRuntimeAllowList r) (PRuntimeAddedAt r) (RelaychainGenesisBlockHashAllowList r) (MinimumPRuntimeVersion r) (PRuntimeConsensusVersion r) (MaxKnownPRuntimeConsensusVersion r) (Endpoints r) (TrustedNtpServers r).
Definition set_GatekeeperLaunchedAt (x : option (Z * Z)) (r : Store) : Store :=
  mkStore (Gatekeepers r) (GatekeeperMasterPubkey r) x (RotationCounter r) (MasterKeyRotationLock r) (Workers r) (WorkerAddedAt r) (ContractKeys r) (ClusterKeys r) (TopicKey r) (BenchmarkDuration r) (PRuntimeAllowList r) (PRuntimeAddedAt r) (RelaychainGenesisBlockHashAllowList r) (MinimumPRuntimeVersion r) (PRuntimeConsensusVersion r) (MaxKnownPRuntimeConsensusVersion r) (Endpoints r) (TrustedNtpServers r).
Definition set_RotationCounter (x : Z) (r : Store) : Store :=
  mkStore (Gatekeepers r) (GatekeeperMasterPubkey r) (GatekeeperLaunchedAt r) x (MasterKeyRotationLock r) (Workers r) (WorkerAddedAt r) (ContractKeys r) (ClusterKeys r) (TopicKey r) (BenchmarkDuration r) (PRuntimeAllowList r) (PRuntimeAddedAt r) (RelaychainGenesisBlockHashAllowList r) (MinimumPRuntimeVersion r) (PRuntimeConsensusVersion r) (MaxKnownPRuntimeConsensusVersion r) (Endpoints r) (TrustedNtpServers r).
Definition set_MasterKeyRotationLock (x : option Z) (r : Store) : Store :=
  mkStore (Gatekeepers r) (GatekeeperMasterPubkey r) (GatekeeperLaunchedAt r) (RotationCounter r) x (Workers r) (WorkerAddedAt r) (ContractKeys r) (ClusterKeys r) (TopicKey r) (BenchmarkDuration r) (PRuntimeAllowList r) (PRuntimeAddedAt r) (RelaychainGenesisBlockHashAllowList r) (MinimumPRuntimeVersion r) (PRuntimeConsensusVersion r) (MaxKnownPRuntimeConsensusVersion r) (Endpoints r) (TrustedNtpServers r).
Definition set_Workers (x : gmap WorkerPublicKey WorkerInfoV2) (r : Store) : Store :=
  mkStore (Gatekeepers r) (GatekeeperMasterPubkey r) (GatekeeperLaunchedAt r) (RotationCounter r) (MasterKeyRotationLock r) x (WorkerAddedAt r) (ContractKeys r) (ClusterKeys r) (TopicKey r) (BenchmarkDuration r) (PRuntimeAllowList r) (PRuntimeAddedAt r) (RelaychainGenesisBlockHashAllowList r) (MinimumPRuntimeVersion r) (PRuntimeConsensusVersion r) (MaxKnownPRuntimeConsensusVersion r) (Endpoints r) (TrustedNtpServers r).
Definition set_WorkerAddedAt (x : gmap WorkerPublicKey Z) (r : Store) : Store :=
  mkStore (Gatekeepers r) (GatekeeperMasterPubkey r) (GatekeeperLaunchedAt r) (RotationCounter r) (MasterKeyRotationLock r) (Workers r) x (ContractKeys r) (ClusterKeys r) (TopicKey r) (BenchmarkDuration r) (PRuntimeAllowList r) (PRuntimeAddedAt r) (RelaychainGenesisBlockHashAllowList r) (MinimumPRuntimeVersion r) (PRuntimeConsensusVersion r) (MaxKnownPRuntimeConsensusVersion r) (Endpoints r) (TrustedNtpServers r).
Definition set_ContractKeys (x : gmap H256 WorkerPublicKey) (r : Store) : Store :=
  mkStore (Gatekeepers r) (GatekeeperMasterPubkey r) (GatekeeperLaunchedAt r) (RotationCounter r) (MasterKeyRotationLock r) (Workers r) (WorkerAddedAt r) x (ClusterKeys r) (TopicKey r) (BenchmarkDuration r) (PRuntimeAllowList r) (PRuntimeAddedAt r) (RelaychainGenesisBlockHashAllowList r) (MinimumPRuntimeVersion r) (PRuntimeConsensusVersion r) (MaxKnownPRuntimeConsensusVersion r) (Endpoints r) (TrustedNtpServers r).
Definition set_ClusterKeys (x : gmap H256 WorkerPublicKey) (r : Store) : Store :=
  mkStore (Gatekeepers r) (GatekeeperMasterPubkey r) (GatekeeperLaunchedAt r) (RotationCounter r) (MasterKeyRotationLock r) (Workers r) (WorkerAddedAt r) (ContractKeys r) x (TopicKey r) (BenchmarkDuration r) (PRuntimeAllowList r) (PRuntimeAddedAt r) (RelaychainGenesisBlockHashAllowList r) (MinimumPRuntimeVersion r) (PRuntimeConsensusVersion r) (MaxKnownPRuntimeConsensusVersion r) (Endpoints r) (TrustedNtpServers r).
Definition set_TopicKey (x : gmap bytes bytes) (r : Store) : Store :=
  mkStore (Gatekeepers r) (GatekeeperMasterPubkey r) (GatekeeperLaunchedAt r) (RotationCounter r) (MasterKeyRotationLock r) (Workers r) (WorkerAddedAt r) (ContractKeys r) (ClusterKeys r) x (BenchmarkDuration r) (PRuntimeAllowList r) (PRuntimeAddedAt r) (RelaychainGenesisBlockHashAllowList r) (MinimumPRuntimeVersion r) (PRuntimeConsensusVersion r) (MaxKnownPRuntimeConsensusVersion r) (Endpoints r) (TrustedNtpServers r).
Definition set_BenchmarkDuration (x : option Z) (r : Store) : Store :=
  mkStore (Gatekeepers r) (GatekeeperMasterPubkey r) (GatekeeperLaunchedAt r) (RotationCounter r) (MasterKeyRotationLock r) (Workers r) (WorkerAddedAt r) (ContractKeys r) (ClusterKeys r) (TopicKey r) x (PRuntimeAllowList r) (PRuntimeAddedAt r) (RelaychainGenesisBlockHashAllowList r) (MinimumPRuntimeVersion r) (PRuntimeConsensusVersion r) (MaxKnownPRuntimeConsensusVersion r) (Endpoints r) (TrustedNtpServers r).
Definition set_PRuntimeAllowList (x : list bytes) (r : Store) : Store :=
  mkStore (Gatekeepers r) (GatekeeperMasterPubkey r) (GatekeeperLaunchedAt r) (RotationCounter r) (MasterKeyRotationLock r) (Workers r) (WorkerAddedAt r) (ContractKeys r) (ClusterKeys r) (TopicKey r) (BenchmarkDuration r) x (PRuntimeAddedAt r) (RelaychainGenesisBlockHashAllowList r) (MinimumPRuntimeVersion r) (PRuntimeConsensusVersion r) (MaxKnownPRuntimeConsensusVersion r) (Endpoints r) (TrustedNtpServers r).
Definition set_PRuntimeAddedAt (x : gmap bytes Z) (r : Store) : Store :=
  mkStore (Gatekeepers r) (GatekeeperMasterPubkey r) (GatekeeperLaunchedAt r) (RotationCounter r) (MasterKeyRotationLock r) (Workers r) (WorkerAddedAt r) (ContractKeys r) (ClusterKeys r) (TopicKey r) (BenchmarkDuration r) (PRuntimeAllowList r) x (RelaychainGenesisBlockHashAllowList r) (MinimumPRuntimeVersion r) (PRuntimeConsensusVersion r) (MaxKnownPRuntimeConsensusVersion r) (Endpoints r) (TrustedNtpServers r).
Definition set_RelaychainGenesisBlockHashAllowList (x : list H256) (r : Store) : Store :=
  mkStore (Gatekeepers r) (GatekeeperMasterPubkey r) (GatekeeperLaunchedAt r) (RotationCounter r) (MasterKeyRotationLock r) (Workers r) (WorkerAddedAt r) (ContractKeys r) (ClusterKeys r) (TopicKey r) (BenchmarkDuration r) (PRuntimeAllowList r) (PRuntimeAddedAt r) x (MinimumPRuntimeVersion r) (PRuntimeConsensusVersion r) (MaxKnownPRuntimeConsensusVersion r) (Endpoints r) (TrustedNtpServers r).
Definition set_MinimumPRuntimeVersion (x : Z * Z * Z) (r : Store) : Store :=
  mkStore (Gatekeepers r) (GatekeeperMasterPubkey r) (GatekeeperLaunchedAt r) (RotationCounter r) (MasterKeyRotationLock r) (Workers r) (WorkerAddedAt r) (ContractKeys r) (ClusterKeys r) (TopicKey r) (BenchmarkDuration r) (PRuntimeAllowList r) (PRuntimeAddedAt r) (RelaychainGenesisBlockHashAllowList r) x (PRuntimeConsensusVersion r) (MaxKnownPRuntimeConsensusVersion r) (Endpoints r) (TrustedNtpServers r).
Definition set_PRuntimeConsensusVersion (x : Z) (r : Store) : Store :=
  mkStore (Gatekeepers r) (GatekeeperMasterPubkey r) (GatekeeperLaunchedAt r) (RotationCounter r) (MasterKeyRotationLock r) (Workers r) (WorkerAddedAt r) (ContractKeys r) (ClusterKeys r) (TopicKey r) (BenchmarkDuration r) (PRuntimeAllowList r) (PRuntimeAddedAt r) (RelaychainGenesisBlockHashAllowList r) (MinimumPRuntimeVersion r) x (MaxKnownPRuntimeConsensusVersion r) (Endpoints r) (TrustedNtpServers r).
Definition set_MaxKnownPRuntimeConsensusVersion (x : Z * Z) (r : Store) : Store :=
  mkStore (Gatekeepers r) (GatekeeperMasterPubkey r) (GatekeeperLaunchedAt r) (RotationCounter r) (MasterKeyRotationLock r) (Workers r) (WorkerAddedAt r) (ContractKeys r) (ClusterKeys r) (TopicKey r) (BenchmarkDuration r) (PRuntimeAllowList r) (PRuntimeAddedAt r) (RelaychainGenesisBlockHashAllowList r) (MinimumPRuntimeVersion r) (PRuntimeConsensusVersion r) x (Endpoints r) (TrustedNtpServers r).
Definition set_Endpoints (x : gmap WorkerPublicKey (list bytes)) (r : Store) : Store :=
  mkStore (Gatekeepers r) (GatekeeperMasterPubkey r) (GatekeeperLaunchedAt r) (RotationCounter r) (MasterKeyRotationLock r) (Workers r) (WorkerAddedAt r) (ContractKeys r) (ClusterKeys r) (TopicKey r) (BenchmarkDuration r) (PRuntimeAllowList r) (PRuntimeAddedAt r) (RelaychainGenesisBlockHashAllowList r) (MinimumPRuntimeVersion r) (PRuntimeConsensusVersion r) (MaxKnownPRuntimeConsensusVersion r) x (TrustedNtpServers r).
Definition set_TrustedNtpServers (x : list bytes) (r : Store) : Store :=
  mkStore (Gatekeepers r) (GatekeeperMasterPubkey r) (GatekeeperLaunchedAt r) (RotationCounter r) (MasterKeyRotationLock r) (Workers r) (WorkerAddedAt r) (ContractKeys r) (ClusterKeys r) (TopicKey r) (BenchmarkDuration r) (PRuntimeAllowList r) (PRuntimeAddedAt r) (RelaychainGenesisBlockHashAllowList r) (MinimumPRuntimeVersion r) (PRuntimeConsensusVersion r) (MaxKnownPRuntimeConsensusVersion r) (Endpoints r) x.

End Store.
End RegistryT.

(** ** pallets/cyrux/src/compute/computation.rs *)
Inductive WorkerState :=
| Ready
| WorkerIdle
| Unused_
| WorkerUnresponsive
| WorkerCoolingDown.

#[export] Instance WorkerState_eq_dec : EqDecision WorkerState.
Proof. solve_decision. Defined.

Record Benchmark := mkBenchmark {
  p_init : Z;
  p_instant : Z;
  bm_iterations : Z;
  working_start_time : Z;
  challenge_time_last : Z;
}.

Definition set_p_init (x : Z) (r : Benchmark) : Benchmark :=
  mkBenchmark x (p_instant r) (bm_iterations r) (working_start_time r) (challenge_time_last r).
Definition set_p_instant (x : Z) (r : Benchmark) : Benchmark :=
  mkBenchmark (p_init r) x (bm_iterations r) (working_start_time r) (challenge_time_last r).
Definition set_bm_iterations (x : Z) (r : Benchmark) : Benchmark :=
  mkBenchmark (p_init r) (p_instant r) x (working_start_time r) (challenge_time_last r).
Definition set_working_start_time (x : Z) (r : Benchmark) : Benchmark :=
  mkBenchmark (p_init r) (p_instant r) (bm_iterations r) x (challenge_time_last r).
Definition set_challenge_time_last (x : Z) (r : Benchmark) : Benchmark :=
  mkBenchmark (p_init r) (p_instant r) (bm_iterations r) (working_start_time r) x.

Record SessionStats := mkSessionStats {
  total_reward : Z;
}.

Record SessionInfo := mkSessionInfo {
  state : WorkerState;
  ve : Z;
  v : Z;
  v_updated_at : Z;
  benchmark : Benchmark;
  cool_down_start : Z;
  stats : SessionStats;
}.

Definition set_state (x : WorkerState) (r : SessionInfo) : SessionInfo :=
  mkSessionInfo x (ve r) (v r) (v_updated_at r) (benchmark r) (cool_down_start r) (stats r).
Definition set_ve (x : Z) (r : SessionInfo) : SessionInfo :=
  mkSessionInfo (state r) x (v r) (v_updated_at r) (benchmark r) (cool_down_start r) (stats r).
Definition set_v (x : Z) (r : SessionInfo) : SessionInfo :=
  mkSessionInfo (state r) (ve r) x (v_updated_at r) (benchmark r) (cool_down_start r) (stats r).
Definition set_v_updated_at (x : Z) (r : SessionInfo) : SessionInfo :=
  mkSessionInfo (state r) (ve r) (v r) x (benchmark r) (cool_down_start r) (stats r).
Definition set_benchmark (x : Benchmark) (r : SessionInfo) : SessionInfo :=
  mkSessionInfo (state r) (ve r) (v r) (v_updated_at r) x (cool_down_start r) (stats r).
Definition set_cool_down_start (x : Z) (r : SessionInfo) : SessionInfo :=
  mkSessionInfo (state r) (ve r) (v r) (v_updated_at r) (benchmark r) x (stats r).
Definition set_stats (x : SessionStats) (r : SessionInfo) : SessionInfo :=
  mkSessionInfo (state r) (ve r) (v r) (v_updated_at r) (benchmark r) (cool_down_start r) x.

Module ComputationT.

Inductive Error :=
| BadSender | InvalidMessage_ | WorkerNotRegistered | GatekeeperNotRegistered_
| DuplicateBoundSession | BenchmarkMissing | SessionNotFound | SessionNotBound
| WorkerNotReady | WorkerNotComputing | WorkerNotBound | CoolDownNotReady
| InsufficientStake | TooMuchStake | InternalErrorBadTokenomicParameters
| DuplicateBoundWorker | BenchmarkTooLow | InternalErrorCannotStartWithExistingStake
| NotMigrationRoot | NonceIndexInvalid | BudgetUpdateBlockInvalid
| BudgetExceedMaxLimit | WorkerReregisterNeeded.

Section WithConfig.
Context {cfg : Config}.

Inductive Event :=
| CoolDownExpirationChanged (period : Z)
| WorkerStarted (session : AccountId) (init_v init_p : Z)
| WorkerStopped (session : AccountId)
| WorkerReclaimed (session : AccountId) (original_stake slashed : Balance)
| SessionBound (session : AccountId) (worker : WorkerPublicKey)
| SessionUnbound (session : AccountId) (worker : WorkerPublicKey)
| WorkerEnterUnresponsive (session : AccountId)
| WorkerExitUnresponsive (session : AccountId)
| SessionSettled (session : AccountId) (v_bits payout_bits : Z)
| InternalErrorWorkerSettleFailed (worker : WorkerPublicKey)
| SubsidyBudgetHalved
| InternalErrorWrongHalvingConfigured
| TokenomicParametersChangedEvent
| SessionSettlementDropped (session : AccountId) (v payout : Z)
| BenchmarkUpdated (session : AccountId) (p_instant : Z)
| BudgetUpdated (nonce budget : Z).

Record Store := mkStore {
  TokenomicParameters : option TokenomicParams;
  ScheduledTokenomicUpdate : option TokenomicParams;
  OnlineWorkers : Z;
  ExpectedHeartbeatCount : option Z;
  HeartbeatPaused : bool;
  MaxBudgetLimit : Z;
  BudgetUpdateNonce : Z;
  LastBudgetUpdateBlock : Z;
  ContractAccount : AccountId;
  Sessions : gmap AccountId SessionInfo;
  SessionBindings : gmap AccountId WorkerPublicKey;
  WorkerBindings : gmap WorkerPublicKey AccountId;
  CoolDownPeriod : Z;
  NextSessionId : Z;
  Stakes : gmap AccountId Balance;
}.

Definition set_TokenomicParameters (x : option TokenomicParams) (r : Store) : Store :=
  mkStore x (ScheduledTokenomicUpdate r) (OnlineWorkers r) (ExpectedHeartbeatCount r) (HeartbeatPaused r) (MaxBudgetLimit r) (BudgetUpdateNonce r) (LastBudgetUpdateBlock r) (ContractAccount r) (Sessions r) (SessionBindings r) (WorkerBindings r) (CoolDownPeriod r) (NextSessionId r) (Stakes r).
Definition set_ScheduledTokenomicUpdate (x : option TokenomicParams) (r : Store) : Store :=
  mkStore (TokenomicParameters r) x (OnlineWorkers r) (ExpectedHeartbeatCount r) (HeartbeatPaused r) (MaxBudgetLimit r) (BudgetUpdateNonce r) (LastBudgetUpdateBlock r) (ContractAccount r) (Sessions r) (SessionBindings r) (WorkerBindings r) (CoolDownPeriod r) (NextSessionId r) (Stakes r).
Definition set_OnlineWorkers (x : Z) (r : Store) : Store :=
  mkStore (TokenomicParameters r) (ScheduledTokenomicUpdate r) x (ExpectedHeartbeatCount r) (HeartbeatPaused r) (MaxBudgetLimit r) (BudgetUpdateNonce r) (LastBudgetUpdateBlock r) (ContractAccount r) (Sessions r) (SessionBindings r) (WorkerBindings r) (CoolDownPeriod r) (NextSessionId r) (Stakes r).
Definition set_ExpectedHeartbeatCount (x : option Z) (r : Store) : Store :=
  mkStore (TokenomicParameters r) (ScheduledTokenomicUpdate r) (OnlineWorkers r) x (HeartbeatPaused r) (MaxBudgetLimit r) (BudgetUpdateNonce r) (LastBudgetUpdateBlock r) (ContractAccount r) (Sessions r) (SessionBindings r) (WorkerBindings r) (CoolDownPeriod r) (NextSessionId r) (Stakes r).
Definition set_HeartbeatPaused (x : bool) (r : Store) : Store :=
  mkStore (TokenomicParameters r) (ScheduledTokenomicUpdate r) (OnlineWorkers r) (ExpectedHeartbeatCount r) x (MaxBudgetLimit r) (BudgetUpdateNonce r) (LastBudgetUpdateBlock r) (ContractAccount r) (Sessions r) (SessionBindings r) (WorkerBindings r) (CoolDownPeriod r) (NextSessionId r) (Stakes r).
Definition set_MaxBudgetLimit (x : Z) (r : Store) : Store :=
  mkStore (TokenomicParameters r) (ScheduledTokenomicUpdate r) (OnlineWorkers r) (ExpectedHeartbeatCount r) (HeartbeatPaused r) x (BudgetUpdateNonce r) (LastBudgetUpdateBlock r) (ContractAccount r) (Sessions r) (SessionBindings r) (WorkerBindings r) (CoolDownPeriod r) (NextSessionId r) (Stakes r).
Definition set_BudgetUpdateNonce (x : Z) (r : Store) : Store :=
  mkStore (TokenomicParameters r) (ScheduledTokenomicUpdate r) (OnlineWorkers r) (ExpectedHeartbeatCount r) (HeartbeatPaused r) (MaxBudgetLimit r) x (LastBudgetUpdateBlock r) (ContractAccount r) (Sessions r) (SessionBindings r) (WorkerBindings r) (CoolDownPeriod r) (NextSessionId r) (Stakes r).
Definition set_LastBudgetUpdateBlock (x : Z) (r : Store) : Store :=
  mkStore (TokenomicParameters r) (ScheduledTokenomicUpdate r) (OnlineWorkers r) (ExpectedHeartbeatCount r) (HeartbeatPaused r) (MaxBudgetLimit r) (BudgetUpdateNonce r) x (ContractAccount r) (Sessions r) (SessionBindings r) (WorkerBindings r) (CoolDownPeriod r) (NextSessionId r) (Stakes r).
Definition set_ContractAccount (x : AccountId) (r : Store) : Store :=
  mkStore (TokenomicParameters r) (ScheduledTokenomicUpdate r) (OnlineWorkers r) (ExpectedHeartbeatCount r) (HeartbeatPaused r) (MaxBudgetLimit r) (BudgetUpdateNonce r) (LastBudgetUpdateBlock r) x (Sessions r) (SessionBindings r) (WorkerBindings r) (CoolDownPeriod r) (NextSessionId r) (Stakes r).
Definition set_Sessions (x : gmap AccountId SessionInfo) (r : Store) : Store :=
  mkStore (TokenomicParameters r) (ScheduledTokenomicUpdate r) (OnlineWorkers r) (ExpectedHeartbeatCount r) (HeartbeatPaused r) (MaxBudgetLimit r) (BudgetUpdateNonce r) (LastBudgetUpdateBlock r) (ContractAccount r) x (SessionBindings r) (WorkerBindings r) (CoolDownPeriod r) (NextSessionId r) (Stakes r).
Definition set_SessionBindings (x : gmap AccountId WorkerPublicKey) (r : Store) : Store :=
  mkStore (TokenomicParameters r) (ScheduledTokenomicUpdate r) (OnlineWorkers r) (ExpectedHeartbeatCount r) (HeartbeatPaused r) (MaxBudgetLimit r) (BudgetUpdateNonce r) (LastBudgetUpdateBlock r) (ContractAccount r) (Sessions r) x (WorkerBindings r) (CoolDownPeriod r) (NextSessionId r) (Stakes r).
Definition set_WorkerBindings (x : gmap WorkerPublicKey AccountId) (r : Store) : Store :=
  mkStore (TokenomicParameters r) (ScheduledTokenomicUpdate r) (OnlineWorkers r) (ExpectedHeartbeatCount r) (HeartbeatPaused r) (MaxBudgetLimit r) (BudgetUpdateNonce r) (LastBudgetUpdateBlock r) (ContractAccount r) (Sessions r) (SessionBindings r) x (CoolDownPeriod r) (NextSessionId r) (Stakes r).
Definition set_CoolDownPeriod (x : Z) (r : Store) : Store :=
  mkStore (TokenomicParameters r) (ScheduledTokenomicUpdate r) (OnlineWorkers r) (ExpectedHeartbeatCount r) (HeartbeatPaused r) (MaxBudgetLimit r) (BudgetUpdateNonce r) (LastBudgetUpdateBlock r) (ContractAccount r) (Sessions r) (SessionBindings r) (WorkerBindings r) x (NextSessionId r) (Stakes r).
Definition set_NextSessionId (x : Z) (r : Store) : Store :=
  mkStore (TokenomicParameters r) (ScheduledTokenomicUpdate r) (OnlineWorkers r) (ExpectedHeartbeatCount r) (HeartbeatPaused r) (MaxBudgetLimit r) (BudgetUpdateNonce r) (LastBudgetUpdateBlock r) (ContractAccount r) (Sessions r) (SessionBindings r) (WorkerBindings r) (CoolDownPeriod r) x (Stakes r).
Definition set_Stakes (x : gmap AccountId Balance) (r : Store) : Store :=
  mkStore (TokenomicParameters r) (ScheduledTokenomicUpdate r) (OnlineWorkers r) (ExpectedHeartbeatCount r) (HeartbeatPaused r) (MaxBudgetLimit r) (BudgetUpdateNonce r) (LastBudgetUpdateBlock r) (ContractAccount r) (Sessions r) (SessionBindings r) (WorkerBindings r) (CoolDownPeriod r) (NextSessionId r) x.

End WithConfig.
End ComputationT.

(** ** pallets/cyrux/src/compute/base_pool.rs and pool_proxy.rs *)
Section Pools.
Context {cfg : Config}.

Record WithdrawInfo := mkWithdrawInfo {
  user : AccountId;
  start_time : Z;
  wd_nft_id : NftId;
}.

Record NftAttr := mkNftAttr {
  shares : Balance;
}.

Record BasePool := mkBasePool {
  pid : Z;
  owner : AccountId;
  total_shares : Balance;
  total_value : Balance;
  withdraw_queue : list WithdrawInfo;
  value_subscribers : list Z;
  cid : CollectionId;
  pool_account_id : AccountId;
}.

Definition set_total_shares (x : Balance) (r : BasePool) : BasePool :=
  mkBasePool (pid r) (owner r) x (total_value r) (withdraw_queue r) (value_subscribers r) (cid r) (pool_account_id r).
Definition set_total_value (x : Balance) (r : BasePool) : BasePool :=
  mkBasePool (pid r) (owner r) (total_shares r) x (withdraw_queue r) (value_subscribers r) (cid r) (pool_account_id r).
Definition set_withdraw_queue (x : list WithdrawInfo) (r : BasePool) : BasePool :=
  mkBasePool (pid r) (owner r) (total_shares r) (total_value r) x (value_subscribers r) (cid r) (pool_account_id r).
Definition set_value_subscribers (x : list Z) (r : BasePool) : BasePool :=
  mkBasePool (pid r) (owner r) (total_shares r) (total_value r) (withdraw_queue r) x (cid r) (pool_account_id r).

Record StakePool := mkStakePool {
  sp_basepool : BasePool;
  payout_commission : option Z;
  cap : option Balance;
  workers : list WorkerPublicKey;
  cd_workers : list WorkerPublicKey;
  lock_account : AccountId;
  owner_reward_account : AccountId;
}.

Definition set_sp_basepool (x : BasePool) (r : StakePool) : StakePool :=
  mkStakePool x (payout_commission r) (cap r) (workers r) (cd_workers r) (lock_account r) (owner_reward_account r).
Definition set_payout_commission (x : option Z) (r : StakePool) : StakePool :=
  mkStakePool (sp_basepool r) x (cap r) (workers r) (cd_workers r) (lock_account r) (owner_reward_account r).
Definition set_cap (x : option Balance) (r : StakePool) : StakePool :=
  mkStakePool (sp_basepool r) (payout_commission r) x (workers r) (cd_workers r) (lock_account r) (owner_reward_account r).
Definition set_workers (x : list WorkerPublicKey) (r : StakePool) : StakePool :=
  mkStakePool (sp_basepool r) (payout_commission r) (cap r) x (cd_workers r) (lock_account r) (owner_reward_account r).
Definition set_cd_workers (x : list WorkerPublicKey) (r : StakePool) : StakePool :=
  mkStakePool (sp_basepool r) (payout_commission r) (cap r) (workers r) x (lock_account r) (owner_reward_account r).

Record Vault := mkVault {
  vt_basepool : BasePool;
  last_share_price_checkpoint : Balance;
  commission : option Z;
  owner_shares : Balance;
  invest_pools : list Z;
}.

Definition set_vt_basepool (x : BasePool) (r : Vault) : Vault :=
  mkVault x (last_share_price_checkpoint r) (commission r) (owner_shares r) (invest_pools r).
Definition set_last_share_price_checkpoint (x : Balance) (r : Vault) : Vault :=
  mkVault (vt_basepool r) x (commission r) (owner_shares r) (invest_pools r).
Definition set_commission (x : option Z) (r : Vault) : Vault :=
  mkVault (vt_basepool r) (last_share_price_checkpoint r) x (owner_shares r) (invest_pools r).
Definition set_owner_shares (x : Balance) (r : Vault) : Vault :=
  mkVault (vt_basepool r) (last_share_price_checkpoint r) (commission r) x (invest_pools r).
Definition set_invest_pools (x : list Z) (r : Vault) : Vault :=
  mkVault (vt_basepool r) (last_share_price_checkpoint r) (commission r) (owner_shares r) x.

Inductive PoolProxy :=
| StakePoolProxy (pool : StakePool)
| VaultProxy (vault : Vault).

End Pools.

Module BasePoolT.

Inductive Error :=
| MissCollectionId | PoolBankrupt | InvalidShareToWithdraw | InvalidWithdrawalAmount
| RmrkError | PoolDoesNotExist | PoolTypeNotMatch | NftIdNotFound | InvalidSharePrice
| AttrLocked | UnauthorizedPoolOwner | AlreadyInContributeWhitelist
| NotInContributeWhitelist | ExceedWhitelistMaxLen | NoWhitelistCreated
| ExceedMaxDescriptionLen | NotMigrationRoot | BurnNftFailed
| DeprecatedTransferSharesAmountInvalid | NoReimbursementToClaim
| InternalSubsidyPoolCannotWithdraw.

Section WithConfig.
Context {cfg : Config}.

Inductive Event :=
| NftCreated (pid : Z) (cid : CollectionId) (nft_id : NftId) (owner : AccountId) (shares : Balance)
| WithdrawalQueued (pid : Z) (user : AccountId) (shares : Balance) (nft_id : NftId)
    (as_vault : option Z) (withdrawing_nft_id : NftId)
| Withdrawal (pid : Z) (user : AccountId) (amount shares burnt_shares : Balance)
| PoolWhitelistCreated (pid : Z)
| PoolWhitelistDeleted (pid : Z)
| PoolWhitelistStakerAdded (pid : Z) (staker : AccountId)
| PoolWhitelistStakerRemoved (pid : Z) (staker : AccountId).

Record Store := mkStore {
  NextNftId : gmap CollectionId NftId;
  PoolCount : Z;
  PoolCollections : gmap CollectionId Z;
  CollectionIndex : CollectionId;
  Pools : gmap Z PoolProxy;
  NftLocks : gset (CollectionId * NftId);
  PoolContributionWhitelists : gmap Z (list AccountId);
  PoolDescriptions : gmap Z bytes;
  Reimbursements : gmap (AccountId * Z) Balance;
}.

Definition set_NextNftId (x : gmap CollectionId NftId) (r : Store) : Store :=
  mkStore x (PoolCount r) (PoolCollections r) (CollectionIndex r) (Pools r) (NftLocks r) (PoolContributionWhitelists r) (PoolDescriptions r) (Reimbursements r).
Definition set_PoolCount (x : Z) (r : Store) : Store :=
  mkStore (NextNftId r) x (PoolCollections r) (CollectionIndex r) (Pools r) (NftLocks r) (PoolContributionWhitelists r) (PoolDescriptions r) (Reimbursements r).
Definition set_PoolCollections (x : gmap CollectionId Z) (r : Store) : Store :=
  mkStore (NextNftId r) (PoolCount r) x (CollectionIndex r) (Pools r) (NftLocks r) (PoolContributionWhitelists r) (PoolDescriptions r) (Reimbursements r).
Definition set_CollectionIndex (x : CollectionId) (r : Store) : Store :=
  mkStore (NextNftId r) (PoolCount r) (PoolCollections r) x (Pools r) (NftLocks r) (PoolContributionWhitelists r) (PoolDescriptions r) (Reimbursements r).
Definition set_Pools (x : gmap Z PoolProxy) (r : Store) : Store :=
  mkStore (NextNftId r) (PoolCount r) (PoolCollections r) (CollectionIndex r) x (NftLocks r) (PoolContributionWhitelists r) (PoolDescriptions r) (Reimbursements r).
Definition set_NftLocks (x : gset (CollectionId * NftId)) (r : Store) : Store :=
  mkStore (NextNftId r) (PoolCount r) (PoolCollections r) (CollectionIndex r) (Pools r) x (PoolContributionWhitelists r) (PoolDescriptions r) (Reimbursements r).
Definition set_PoolContributionWhitelists (x : gmap Z (list AccountId)) (r : Store) : Store :=
  mkStore (NextNftId r) (PoolCount r) (PoolCollections r) (CollectionIndex r) (Pools r) (NftLocks r) x (PoolDescriptions r) (Reimbursements r).
Definition set_PoolDescriptions (x : gmap Z bytes) (r : Store) : Store :=
  mkStore (NextNftId r) (PoolCount r) (PoolCollections r) (CollectionIndex r) (Pools r) (NftLocks r) (PoolContributionWhitelists r) x (Reimbursements r).
Definition set_Reimbursements (x : gmap (AccountId * Z) Balance) (r : Store) : Store :=
  mkStore (NextNftId r) (PoolCount r) (PoolCollections r) (CollectionIndex r) (Pools r) (NftLocks r) (PoolContributionWhitelists r) (PoolDescriptions r) x.

End WithConfig.
End BasePoolT.

(** ** pallets/cyrux/src/compute/vault.rs *)
Inductive ForceShutdownReason := NoEnoughReleasingStake | Waiting3xGracePeriod.

Module VaultT.

Inductive Error :=
| UnauthorizedPoolOwner | NoEnoughShareToClaim | NoRewardToClaim | AssetAccountNotExist
| InsufficientBalance | InsufficientContribution | VaultBankrupt | NoNftToWithdraw
| CommissionNotChanged.

Section WithConfig.
Context {cfg : Config}.

Inductive Event :=
| PoolCreated (owner : AccountId) (pid : Z) (cid : CollectionId) (pool_account_id : AccountId)
| VaultCommissionSet (pid commission : Z)
| OwnerSharesClaimed (pid : Z) (user : AccountId) (shares : Balance)
| OwnerSharesGained (pid : Z) (shares checkout_price : Balance)
| Contribution (pid : Z) (user : AccountId) (amount shares : Balance)
| ForceShutdown (pid : Z) (reason : ForceShutdownReason).

End WithConfig.
End VaultT.

(** ** pallets/cyrux/src/compute/stake_pool_v2.rs *)
Module StakePoolT.

Inductive Error :=
| WorkerNotRegistered | BenchmarkMissing | WorkerExists | WorkerAlreadyStopped
| WorkerDoesNotExist | WorkerInAnotherPool | UnauthorizedOperator | UnauthorizedPoolOwner
| InadequateCapacity | StakeExceedsCapacity | PoolDoesNotExist | PoolIsBusy_
| InsufficientContribution | NoNftToWithdraw | InsufficientBalance | PoolStakeNotFound
| InsufficientFreeStake | InvalidWithdrawalAmount | FailedToBindSessionAndWorker
| InternalSubsidyPoolCannotWithdraw | PoolBankrupt | NoRewardToClaim | FeatureNotEnabled
| WorkersExceedLimit | CannotRestartWithLessStake | InvalidForceRewardAmount
| WithdrawQueueNotEmpty | MissingCollectionId | VaultIsLocked | SessionDoesNotExist
| WorkerIsNotReady | LockAccountStakeError | NoLegacyRewardToClaim.

Section WithConfig.
Context {cfg : Config}.

Inductive Event :=
| PoolCreated (owner : AccountId) (pid : Z) (cid : CollectionId) (pool_account_id : AccountId)
| PoolCommissionSet (pid commission : Z)
| PoolCapacitySet (pid : Z) (cap : Balance)
| PoolWorkerAdded (pid : Z) (worker : WorkerPublicKey) (session : AccountId)
| Contribution (pid : Z) (user : AccountId) (amount shares : Balance) (as_vault : option Z)
| OwnerRewardsWithdrawn (pid : Z) (user : AccountId) (amount : Balance)
| PoolSlashed (pid : Z) (amount : Balance)
| SlashSettled (pid : Z) (user : AccountId) (amount : Balance)
| RewardDismissedNotInPool (worker : WorkerPublicKey) (amount : Balance)
| RewardDismissedNoShare (pid : Z) (amount : Balance)
| RewardDismissedDust (pid : Z) (amount : Balance)
| PoolWorkerRemoved (pid : Z) (worker : WorkerPublicKey)
| WorkerReclaimed (pid : Z) (worker : WorkerPublicKey)
| RewardReceived (pid : Z) (to_owner to_stakers : Balance)
| WorkingStarted (pid : Z) (worker : WorkerPublicKey) (amount : Balance)
| RewardToOwnerDismissedDust (pid : Z) (amount : Balance)
| RewardToDistributionDismissedDust (pid : Z) (amount : Balance).

Record Store := mkStore {
  LegacyRewards : gmap (AccountId * Z) Balance;
  WorkerAssignments : gmap WorkerPublicKey Z;
  SubAccountPreimages : gmap AccountId (Z * WorkerPublicKey);
}.

Definition set_LegacyRewards (x : gmap (AccountId * Z) Balance) (r : Store) : Store :=
  mkStore x (WorkerAssignments r) (SubAccountPreimages r).
Definition set_WorkerAssignments (x : gmap WorkerPublicKey Z) (r : Store) : Store :=
  mkStore (LegacyRewards r) x (SubAccountPreimages r).
Definition set_SubAccountPreimages (x : gmap AccountId (Z * WorkerPublicKey)) (r : Store) : Store :=
  mkStore (LegacyRewards r) (WorkerAssignments r) x.

End WithConfig.
End StakePoolT.

(** ** pallets/cyrux/src/compute/wrapped_balances.rs *)
Section WrappedTypes.
Context {cfg : Config}.

Record FinanceAccount := mkFinanceAccount {
  fa_invest_pools : list (Z * CollectionId);
  locked : Balance;
}.

Definition set_fa_invest_pools (x : list (Z * CollectionId)) (r : FinanceAccount) : FinanceAccount :=
  mkFinanceAccount x (locked r).
Definition set_locked (x : Balance) (r : FinanceAccount) : FinanceAccount :=
  mkFinanceAccount (fa_invest_pools r) x.

End WrappedTypes.

Module WrappedT.

Inductive Error :=
| StakerAccountNotFound | UnwrapAmountExceedsAvaliableStake
| VoteAmountLargerThanTotalStakes | ReferendumInvalid | ReferendumOngoing
| IterationsIsNotVaild.

Section WithConfig.
Context {cfg : Config}.

Inductive Event :=
| DustRemoved (user : AccountId) (amount : Balance)
| Wrapped (user : AccountId) (amount : Balance)
| Unwrapped (user : AccountId) (amount : Balance)
| Voted (user : AccountId) (vote_id : Z) (aye_amount nay_amount : Balance).

Record Store := mkStore {
  VoteAccountMap : gmap Z (gmap AccountId (Balance * Balance));
  AccountVoteMap : gmap AccountId (gset Z);
  StakerAccounts : gmap AccountId FinanceAccount;
  UnmintableDust : Balance;
}.

Definition set_VoteAccountMap (x : gmap Z (gmap AccountId (Balance * Balance))) (r : Store) : Store :=
  mkStore x (AccountVoteMap r) (StakerAccounts r) (UnmintableDust r).
Definition set_AccountVoteMap (x : gmap AccountId (gset Z)) (r : Store) : Store :=
  mkStore (VoteAccountMap r) x (StakerAccounts r) (UnmintableDust r).
Definition set_StakerAccounts (x : gmap AccountId FinanceAccount) (r : Store) : Store :=
  mkStore (VoteAccountMap r) (AccountVoteMap r) x (UnmintableDust r).
Definition set_UnmintableDust (x : Balance) (r : Store) : Store :=
  mkStore (VoteAccountMap r) (AccountVoteMap r) (StakerAccounts r) x.

End WithConfig.
End WrappedT.

(** ** pallets/cyrux/src/phat.rs and crates/cyrux-types/src/contract.rs

    A [CodeIndex] has one constructor and is its code hash. *)
Inductive ResourceType := InkCode | SidevmCode | IndeterministicInkCode.

Inductive WorkerClusterReport :=
| ClusterDeployedReport (id : H256) (pubkey : H256)
| ClusterDeploymentFailedReport (id : H256).

Definition WorkerClusterReport_topic : Topic := bytes_of_string "cyrux/cluster/worker/report".

Inductive ClusterRegistryEvent :=
| ClusterPubkey (cluster pubkey : H256).

Definition ClusterRegistryEvent_topic : Topic := bytes_of_string "^cyrux/registry/cluster".

Inductive ContractRegistryEvent :=
| ContractPubkey (contract pubkey deployer : H256).

Definition ContractRegistryEvent_topic : Topic := bytes_of_string "^cyrux/registry/contract".

Section PhatTypes.
Context {cfg : Config}.

Inductive ClusterPermission := Public | OnlyOwner (owner : AccountId).

Record ClusterInfo := mkClusterInfo {
  cl_owner : AccountId;
  permission : ClusterPermission;
  system_contract : H256;
  gas_price : Z;
  deposit_per_item : Z;
  deposit_per_byte : Z;
}.

Record ContractInfo := mkContractInfo {
  deployer : AccountId;
  code_index : H256;
  salt : bytes;
  cluster_id : H256;
  instantiate_data : bytes;
}.

Record BasicContractInfo := mkBasicContractInfo {
  bc_deployer : AccountId;
  bc_cluster : H256;
}.

Inductive ClusterEvent :=
| DeployCluster (owner : AccountId) (cluster : H256) (workers : list (WorkerPublicKey * EcdhPublicKey))
    (deposit gas_price deposit_per_item deposit_per_byte : Z) (treasury_account : AccountId).

Definition ClusterEvent_topic : Topic := bytes_of_string "cyrux/cluster/event".

Inductive ContractOperation :=
| InstantiateCode (contract_info : ContractInfo) (transfer gas_limit : Z) (storage_deposit_limit : option Z).

Definition ContractOperation_topic : Topic := bytes_of_string "cyrux/contract/op".

(** The operations the chain sends; keys are dispatched by the gatekeeper. *)
Inductive ClusterOperation :=
| DestroyCluster (cluster : H256)
| UploadResource (origin : AccountId) (cluster_id : H256) (resource_type : ResourceType) (resource_data : bytes)
| Deposit (cluster_id account : H256) (amount : Z)
| RemoveWorker (cluster_id : H256) (worker : WorkerPublicKey).

Definition ClusterOperation_topic : Topic := bytes_of_string "cyrux/cluster/key".

End PhatTypes.

Module PhatT.

Inductive Error :=
| CodeNotFound | ClusterNotFound | ClusterNotDeployed | ClusterPermissionDenied | DuplicatedContract
| DuplicatedDeployment | NoWorkerSpecified | InvalidSender | WorkerNotFound | PayloadTooLarge
| NoPinkSystemCode | ContractNotFound | WorkerIsBusy.

Section WithConfig.
Context {cfg : Config}.

Inductive Event :=
| ClusterCreated (cluster system_contract : H256)
| ClusterPubkeyAvailable (cluster pubkey : H256)
| ClusterDeployed (cluster pubkey : H256) (worker : WorkerPublicKey)
| ClusterDeploymentFailed (cluster : H256) (worker : WorkerPublicKey)
| Instantiating (contract cluster : H256) (deployer : AccountId)
| ContractPubkeyAvailable (contract cluster pubkey : H256)
| Instantiated (contract cluster deployer : H256)
| ClusterDestroyed (cluster : H256)
| Transfered (cluster account : H256) (amount : Balance)
| WorkerAddedToCluster (worker : WorkerPublicKey) (cluster : H256)
| WorkerRemovedFromCluster (worker : WorkerPublicKey) (cluster : H256).

Record Store := mkStore {
  Contracts : gmap H256 BasicContractInfo;
  ClusterCounter : Z;
  Clusters : gmap H256 ClusterInfo;
  ClusterContracts : gmap H256 (list H256);
  ClusterWorkers : gmap H256 (list WorkerPublicKey);
  ClusterByWorkers : gmap WorkerPublicKey H256;
  PinkSystemCode : Z * bytes;
  PinkSystemCodeHash : option H256;
  PinkRuntimeVersion : option (Z * Z);
  NextPinkSystemCode : option bytes;
}.

Definition set_Contracts (x : gmap H256 BasicContractInfo) (r : Store) : Store :=
  mkStore x (ClusterCounter r) (Clusters r) (ClusterContracts r) (ClusterWorkers r) (ClusterByWorkers r) (PinkSystemCode r) (PinkSystemCodeHash r) (PinkRuntimeVersion r) (NextPinkSystemCode r).
Definition set_ClusterCounter (x : Z) (r : Store) : Store :=
  mkStore (Contracts r) x (Clusters r) (ClusterContracts r) (ClusterWorkers r) (ClusterByWorkers r) (PinkSystemCode r) (PinkSystemCodeHash r) (PinkRuntimeVersion r) (NextPinkSystemCode r).
Definition set_Clusters (x : gmap H256 ClusterInfo) (r : Store) : Store :=
  mkStore (Contracts r) (ClusterCounter r) x (ClusterContracts r) (ClusterWorkers r) (ClusterByWorkers r) (PinkSystemCode r) (PinkSystemCodeHash r) (PinkRuntimeVersion r) (NextPinkSystemCode r).
Definition set_ClusterContracts (x : gmap H256 (list H256)) (r : Store) : Store :=
  mkStore (Contracts r) (ClusterCounter r) (Clusters r) x (ClusterWorkers r) (ClusterByWorkers r) (PinkSystemCode r) (PinkSystemCodeHash r) (PinkRuntimeVersion r) (NextPinkSystemCode r).
Definition set_ClusterWorkers (x : gmap H256 (list WorkerPublicKey)) (r : Store) : Store :=
  mkStore (Contracts r) (ClusterCounter r) (Clusters r) (ClusterContracts r) x (ClusterByWorkers r) (PinkSystemCode r) (PinkSystemCodeHash r) (PinkRuntimeVersion r) (NextPinkSystemCode r).
Definition set_ClusterByWorkers (x : gmap WorkerPublicKey H256) (r : Store) : Store :=
  mkStore (Contracts r) (ClusterCounter r) (Clusters r) (ClusterContracts r) (ClusterWorkers r) x (PinkSystemCode r) (PinkSystemCodeHash r) (PinkRuntimeVersion r) (NextPinkSystemCode r).
Definition set_PinkSystemCode (x : Z * bytes) (r : Store) : Store :=
  mkStore (Contracts r) (ClusterCounter r) (Clusters r) (ClusterContracts r) (ClusterWorkers r) (ClusterByWorkers r) x (PinkSystemCodeHash r) (PinkRuntimeVersion r) (NextPinkSystemCode r).
Definition set_PinkSystemCodeHash (x : option H256) (r : Store) : Store :=
  mkStore (Contracts r) (ClusterCounter r) (Clusters r) (ClusterContracts r) (ClusterWorkers r) (ClusterByWorkers r) (PinkSystemCode r) x (PinkRuntimeVersion r) (NextPinkSystemCode r).
Definition set_PinkRuntimeVersion (x : option (Z * Z)) (r : Store) : Store :=
  mkStore (Contracts r) (ClusterCounter r) (Clusters r) (ClusterContracts r) (ClusterWorkers r) (ClusterByWorkers r) (PinkSystemCode r) (PinkSystemCodeHash r) x (NextPinkSystemCode r).
Definition set_NextPinkSystemCode (x : option bytes) (r : Store) : Store :=
  mkStore (Contracts r) (ClusterCounter r) (Clusters r) (ClusterContracts r) (ClusterWorkers r) (ClusterByWorkers r) (PinkSystemCode r) (PinkSystemCodeHash r) (PinkRuntimeVersion r) x.

End WithConfig.
End PhatT.

(** ** One-shot transfers and stakes on contracts *)
Module OttT.
Inductive Error := SenderAlreadyBlacklisted | DestinationAlreadyBlacklisted.

Inductive Event {cfg : Config} := AccountsBlacklisted (accounts : list AccountId).

Record Store {cfg : Config} := mkStore {
  BlacklistedAccounts : gset AccountId;
}.
End OttT.

Module PhatTokT.
Inductive Error := InvalidAmountOfStake.

Section WithConfig.
Context {cfg : Config}.

Inductive Event :=
| ContractDepositChanged (cluster : option H256) (contract : H256) (deposit : Balance)
| UserStakeChanged (cluster : option H256) (account : AccountId) (contract : H256) (stake : Balance).

Record Store := mkStore {
  ContractUserStakes : gmap (AccountId * H256) Balance;
  ContractTotalStakes : gmap H256 Balance;
  MinStake : Balance;
}.

Definition set_ContractUserStakes (x : gmap (AccountId * H256) Balance) (r : Store) : Store :=
  mkStore x (ContractTotalStakes r) (MinStake r).
Definition set_ContractTotalStakes (x : gmap H256 Balance) (r : Store) : Store :=
  mkStore (ContractUserStakes r) x (MinStake r).
Definition set_MinStake (x : Balance) (r : Store) : Store :=
  mkStore (ContractUserStakes r) (ContractTotalStakes r) x.

End WithConfig.
End PhatTokT.

(** ** The runtime *)

(** [sp_runtime::DispatchError]: the error of a pallet of this repository, or
    one returned by a pallet outside it, [TokenError::BelowMinimum] told apart. *)
Inductive DispatchError :=
| BadOrigin
| MqError (e : MqT.Error)
| RegistryError (e : RegistryT.Error)
| ComputationError (e : ComputationT.Error)
| BasePoolError (e : BasePoolT.Error)
| VaultError (e : VaultT.Error)
| StakePoolError (e : StakePoolT.Error)
| WrappedError (e : WrappedT.Error)
| PhatError (e : PhatT.Error)
| OttError (e : OttT.Error)
| PhatTokError (e : PhatTokT.Error)
| TokenBelowMinimum
| MessageCodecError
| CollectionUnknown
| ExternalError (code : Z).

Section Runtime.
Context {cfg : Config}.

Inductive Origin :=
| Root
| Signed (who : AccountId)
| OtherOrigin (id : Z).

Inductive RuntimeEvent :=
| RegistryEv (e : RegistryT.Event)
| ComputationEv (e : ComputationT.Event)
| BasePoolEv (e : BasePoolT.Event)
| VaultEv (e : VaultT.Event)
| StakePoolEv (e : StakePoolT.Event)
| WrappedEv (e : WrappedT.Event)
| PhatEv (e : PhatT.Event)
| OttEv (e : OttT.Event)
| PhatTokEv (e : PhatTokT.Event).

Record State := mkState {
  block_number : Z;
  unix_time_ms : Z;
  events : list RuntimeEvent;
  mq : MqT.Store;
  registry : RegistryT.Store;
  computation : ComputationT.Store;
  base_pool : BasePoolT.Store;
  vault_locks : gset Z;
  stake_pool : StakePoolT.Store;
  wrapped : WrappedT.Store;
  phat : PhatT.Store;
  ott : OttT.Store;
  phat_tok : PhatTokT.Store;
  ext : Ext;
}.

Definition set_block_number (x : Z) (r : State) : State :=
  mkState x (unix_time_ms r) (events r) (mq r) (registry r) (computation r) (base_pool r) (vault_locks r) (stake_pool r) (wrapped r) (phat r) (ott r) (phat_tok r) (ext r).
Definition set_unix_time_ms (x : Z) (r : State) : State :=
  mkState (block_number r) x (events r) (mq r) (registry r) (computation r) (base_pool r) (vault_locks r) (stake_pool r) (wrapped r) (phat r) (ott r) (phat_tok r) (ext r).
Definition set_events (x : list RuntimeEvent) (r : State) : State :=
  mkState (block_number r) (unix_time_ms r) x (mq r) (registry r) (computation r) (base_pool r) (vault_locks r) (stake_pool r) (wrapped r) (phat r) (ott r) (phat_tok r) (ext r).
Definition set_mq (x : MqT.Store) (r : State) : State :=
  mkState (block_number r) (unix_time_ms r) (events r) x (registry r) (computation r) (base_pool r) (vault_locks r) (stake_pool r) (wrapped r) (phat r) (ott r) (phat_tok r) (ext r).
Definition set_registry (x : RegistryT.Store) (r : State) : State :=
  mkState (block_number r) (unix_time_ms r) (events r) (mq r) x (computation r) (base_pool r) (vault_locks r) (stake_pool r) (wrapped r) (phat r) (ott r) (phat_tok r) (ext r).
Definition set_computation (x : ComputationT.Store) (r : State) : State :=
  mkState (block_number r) (unix_time_ms r) (events r) (mq r) (registry r) x (base_pool r) (vault_locks r) (stake_pool r) (wrapped r) (phat r) (ott r) (phat_tok r) (ext r).
Definition set_base_pool (x : BasePoolT.Store) (r : State) : State :=
  mkState (block_number r) (unix_time_ms r) (events r) (mq r) (registry r) (computation r) x (vault_locks r) (stake_pool r) (wrapped r) (phat r) (ott r) (phat_tok r) (ext r).
Definition set_vault_locks (x : gset Z) (r : State) : State :=
  mkState (block_number r) (unix_time_ms r) (events r) (mq r) (registry r) (computation r) (base_pool r) x (stake_pool r) (wrapped r) (phat r) (ott r) (phat_tok r) (ext r).
Definition set_stake_pool (x : StakePoolT.Store) (r : State) : State :=
  mkState (block_number r) (unix_time_ms r) (events r) (mq r) (registry r) (computation r) (base_pool r) (vault_locks r) x (wrapped r) (phat r) (ott r) (phat_tok r) (ext r).
Definition set_wrapped (x : WrappedT.Store) (r : State) : State :=
  mkState (block_number r) (unix_time_ms r) (events r) (mq r) (registry r) (computation r) (base_pool r) (vault_locks r) (stake_pool r) x (phat r) (ott r) (phat_tok r) (ext r).
Definition set_phat (x : PhatT.Store) (r : State) : State :=
  mkState (block_number r) (unix_time_ms r) (events r) (mq r) (registry r) (computation r) (base_pool r) (vault_locks r) (stake_pool r) (wrapped r) x (ott r) (phat_tok r) (ext r).
Definition set_ott (x : OttT.Store) (r : State) : State :=
  mkState (block_number r) (unix_time_ms r) (events r) (mq r) (registry r) (computation r) (base_pool r) (vault_locks r) (stake_pool r) (wrapped r) (phat r) x (phat_tok r) (ext r).
Definition set_phat_tok (x : PhatTokT.Store) (r : State) : State :=
  mkState (block_number r) (unix_time_ms r) (events r) (mq r) (registry r) (computation r) (base_pool r) (vault_locks r) (stake_pool r) (wrapped r) (phat r) (ott r) x (ext r).
Definition set_ext (x : Ext) (r : State) : State :=
  mkState (block_number r) (unix_time_ms r) (events r) (mq r) (registry r) (computation r) (base_pool r) (vault_locks r) (stake_pool r) (wrapped r) (phat r) (ott r) (phat_tok r) x.

(** Computations of the runtime. *)
Abbreviation R := (M State DispatchError).

Definition upd_mq (f : MqT.Store -> MqT.Store) : R unit :=
  modify (fun s => set_mq (f (mq s)) s).
Definition upd_registry (f : RegistryT.Store -> RegistryT.Store) : R unit :=
  modify (fun s => set_registry (f (registry s)) s).
Definition upd_computation (f : ComputationT.Store -> ComputationT.Store) : R unit :=
  modify (fun s => set_computation (f (computation s)) s).
Definition upd_base_pool (f : BasePoolT.Store -> BasePoolT.Store) : R unit :=
  modify (fun s => set_base_pool (f (base_pool s)) s).
Definition upd_stake_pool (f : StakePoolT.Store -> StakePoolT.Store) : R unit :=
  modify (fun s => set_stake_pool (f (stake_pool s)) s).
Definition upd_wrapped (f : WrappedT.Store -> WrappedT.Store) : R unit :=
  modify (fun s => set_wrapped (f (wrapped s)) s).
Definition upd_phat (f : PhatT.Store -> PhatT.Store) : R unit :=
  modify (fun s => set_phat (f (phat s)) s).
Definition upd_ott (f : OttT.Store -> OttT.Store) : R unit :=
  modify (fun s => set_ott (f (ott s)) s).
Definition upd_phat_tok (f : PhatTokT.Store -> PhatTokT.Store) : R unit :=
  modify (fun s => set_phat_tok (f (phat_tok s)) s).

Definition deposit_event (e : RuntimeEvent) : R unit :=
  modify (fun s => set_events (events s ++ [e]) s).

(** [UnixTime::now().as_secs()] and [as_millis()] *)
Definition now_sec : R Z := gets (fun s => unix_time_ms s / 1000).
Definition now_millis : R Z := gets unix_time_ms.

Definition ensure_signed (o : Origin) : R AccountId :=
  match o with Signed who => mret who | _ => fail BadOrigin end.

Definition ensure_root (o : Origin) : R unit :=
  match o with Root => mret tt | _ => fail BadOrigin end.

End Runtime.

Abbreviation R := (M State DispatchError).

#[export] Hint Extern 1 (keeps _ (upd_mq _)) => apply keeps_modify; intro; reflexivity : keeps.
#[export] Hint Extern 1 (keeps _ (upd_registry _)) => apply keeps_modify; intro; reflexivity : keeps.
#[export] Hint Extern 1 (keeps _ (upd_computation _)) => apply keeps_modify; intro; reflexivity : keeps.
#[export] Hint Extern 1 (keeps _ (upd_base_pool _)) => apply keeps_modify; intro; reflexivity : keeps.
#[export] Hint Extern 1 (keeps _ (upd_stake_pool _)) => apply keeps_modify; intro; reflexivity : keeps.
#[export] Hint Extern 1 (keeps _ (upd_wrapped _)) => apply keeps_modify; intro; reflexivity : keeps.
#[export] Hint Extern 1 (keeps _ (deposit_event _)) => apply keeps_modify; intro; reflexivity : keeps.
#[export] Hint Extern 1 (keeps _ now_sec) => apply keeps_gets : keeps.
#[export] Hint Extern 1 (keeps _ now_millis) => apply keeps_gets : keeps.

Section RuntimeFacts.
Context {cfg : Config} {T : Type} (f : State -> T).

Lemma keeps_ensure_signed o : keeps f (ensure_signed o).
Proof. destruct o; simpl; auto with keeps. Qed.

Lemma keeps_ensure_root o : keeps f (ensure_root o).
Proof. destruct o; simpl; auto with keeps. Qed.

End RuntimeFacts.
#[export] Hint Resolve keeps_ensure_signed keeps_ensure_root : keeps.
