(* ===== verification/Externals.v ===== *)
(** * Code outside the repository

    What the runtime calls in the [fixed] crate, SCALE, sr25519, [sp_arithmetic]
    and the FRAME and RMRK pallets.  Each is a class of operations; what their
    documentation promises, and the proofs use, is a separate class of laws. *)
From stdpp Require Import base gmap list.
From Stdlib Require Import ZArith Lia.
From S2P Require Import Prelude Types.

(** ** The [fixed] crate

    Numbers are their bits: [U64F64] has 64 fractional bits in 128, [U80F48]
    48 in 128, [U32F32] 32 in 64.  [None] is a panic. *)
Class FixedLib := {
  fx_from_num : Z -> Z;
  fx_add : Z -> Z -> option Z;
  fx_sub : Z -> Z -> option Z;
  fx_mul : Z -> Z -> option Z;
  fx_div : Z -> Z -> option Z;
  fx_checked_div : Z -> Z -> option Z;
  fx_sqrt : Z -> Z;
  fx_mul_int : Z -> Z -> option Z;
  fx_div_int : Z -> Z -> option Z;
  u80f48_from_u64f64 : Z -> option Z;
  u80f48_from_u128 : Z -> option Z;
  u80f48_mul_int : Z -> Z -> option Z;
  u80f48_div_int : Z -> Z -> option Z;
  u80f48_to_u128 : Z -> Z;
  u64f64_from_u80f48 : Z -> option Z;
  u32f32_from_num : Z -> option Z;
  u32f32_mul : Z -> Z -> option Z;
  u32f32_div : Z -> Z -> option Z;
  u32f32_checked_shl : Z -> Z -> option Z;
  u32f32_to_u32 : Z -> Z;
}.

(** Products and conversions drop the extra fractional bits, quotients round
    towards zero; an operation whose exact result has the width succeeds. *)
Class FixedSpec (F : FixedLib) := {
  fx_from_num_spec : forall n, 0 <= n < 2 ^ 64 -> fx_from_num n = n * 2 ^ 64;
  fx_add_spec : forall a b, 0 <= a -> 0 <= b -> a + b < 2 ^ 128 -> fx_add a b = Some (a + b);
  fx_sub_spec : forall a b, 0 <= b <= a -> a < 2 ^ 128 -> fx_sub a b = Some (a - b);
  fx_mul_spec : forall a b, 0 <= a -> 0 <= b -> a * b / 2 ^ 64 < 2 ^ 128 ->
    fx_mul a b = Some (a * b / 2 ^ 64);
  fx_div_spec : forall a b, 0 <= a -> 0 < b -> a * 2 ^ 64 / b < 2 ^ 128 ->
    fx_div a b = Some (a * 2 ^ 64 / b);
  fx_checked_div_zero : forall a, fx_checked_div a 0 = None;
  fx_checked_div_spec : forall a b, 0 <= a -> 0 < b -> a * 2 ^ 64 / b < 2 ^ 128 ->
    fx_checked_div a b = Some (a * 2 ^ 64 / b);
  fx_checked_div_over : forall a b, 0 <= a -> 0 < b -> 2 ^ 128 <= a * 2 ^ 64 / b ->
    fx_checked_div a b = None;
  fx_mul_int_spec : forall a n, 0 <= a -> 0 <= n -> a * n < 2 ^ 128 -> fx_mul_int a n = Some (a * n);
  fx_div_int_spec : forall a n, 0 <= a < 2 ^ 128 -> 0 < n -> fx_div_int a n = Some (a / n);
  u80f48_from_u64f64_spec : forall a, 0 <= a < 2 ^ 128 ->
    u80f48_from_u64f64 a = Some (a / 2 ^ 16);
  u80f48_from_u128_spec : forall n, 0 <= n < 2 ^ 80 -> u80f48_from_u128 n = Some (n * 2 ^ 48);
  u80f48_from_u128_over : forall n, 2 ^ 80 <= n -> u80f48_from_u128 n = None;
  u80f48_mul_int_spec : forall a n, 0 <= a -> 0 <= n -> a * n < 2 ^ 128 ->
    u80f48_mul_int a n = Some (a * n);
  u80f48_mul_int_over : forall a n, 0 <= a -> 0 <= n -> 2 ^ 128 <= a * n ->
    u80f48_mul_int a n = None;
  u80f48_div_int_spec : forall a n, 0 <= a < 2 ^ 128 -> 0 < n ->
    u80f48_div_int a n = Some (a / n);
  u80f48_to_u128_spec : forall a, 0 <= a < 2 ^ 128 -> u80f48_to_u128 a = a / 2 ^ 48;
  u80f48_to_u128_range : forall a, 0 <= u80f48_to_u128 a < 2 ^ 80;
  u64f64_from_u80f48_spec : forall a, 0 <= a < 2 ^ 112 ->
    u64f64_from_u80f48 a = Some (a * 2 ^ 16);
  u64f64_from_u80f48_over : forall a, 2 ^ 112 <= a -> u64f64_from_u80f48 a = None;
}.

(** ** SCALE encodings, signatures and derived accounts *)
Class Codec {cfg : Config} := {
  encode_SystemEvent : SystemEvent -> bytes;
  encode_GatekeeperEvent : GatekeeperEvent -> bytes;
  encode_GatekeeperLaunch : GatekeeperLaunch -> bytes;
  encode_GatekeeperChange : GatekeeperChange -> bytes;
  encode_WorkerEndpointPayload : WorkerEndpointPayload -> bytes;
  (** [blake2_256] of the SCALE encoding of the registration *)
  hash_WorkerRegistrationInfo : WorkerRegistrationInfo -> bytes;
  hash_WorkerRegistrationInfoV2 : WorkerRegistrationInfoV2 -> bytes;
  encode_ClusterEvent : ClusterEvent -> bytes;
  encode_ContractOperation : ContractOperation -> bytes;
  encode_ClusterOperation : ClusterOperation -> bytes;
  decode_WorkerClusterReport : bytes -> option WorkerClusterReport;
  decode_ClusterRegistryEvent : bytes -> option ClusterRegistryEvent;
  decode_ContractRegistryEvent : bytes -> option ContractRegistryEvent;
  decode_RegistryEvent : bytes -> option RegistryEvent;
  decode_GatekeeperRegistryEvent : bytes -> option GatekeeperRegistryEvent;
  decode_WorkingInfoUpdateEvent : bytes -> option WorkingInfoUpdateEvent;
  decode_WorkingReportEvent : bytes -> option WorkingReportEvent;
  encode_to_be_signed : Message -> Z -> bytes;
  encode_tag : MessageOrigin -> Z -> bytes;
  encode_NftAttr : NftAttr -> bytes;
  decode_NftAttr : bytes -> option NftAttr;
  into_h256 : AccountId -> H256;
  account_of_h256 : H256 -> AccountId;
  (** The 32 bytes of an identifier, and [blake2_256] *)
  h256_bytes : H256 -> bytes;
  account_bytes : AccountId -> bytes;
  blake2_256 : bytes -> H256;
  sr25519_signature_ok : bytes -> bool;
  sr25519_verify : bytes -> bytes -> WorkerPublicKey -> bool;
  (** [blake2_256] of the SCALE encoding, under the prefixes [bp/], [spm/],
      [so/] and [sl/] *)
  generate_staker_account : Z -> AccountId -> AccountId;
  pool_sub_account : Z -> WorkerPublicKey -> AccountId;
  owner_reward_account_of : Z -> AccountId -> AccountId;
  lock_account_of : Z -> AccountId -> AccountId;
  basepool_pallet_id : AccountId;
  computing_account_id : AccountId;
}.

(** Identifiers and accounts are 32 bytes and determined by them. *)
Class BytesSpec {cfg : Config} (C : Codec) := {
  h256_bytes_length : forall h, length (h256_bytes h) = 32%nat;
  h256_bytes_inj : forall h h', h256_bytes h = h256_bytes h' -> h = h';
  account_bytes_length : forall a, length (account_bytes a) = 32%nat;
  account_bytes_inj : forall a a', account_bytes a = account_bytes a' -> a = a';
}.

(** The transaction-pool tag determines the sender and the sequence. *)
Class TagSpec {cfg : Config} (C : Codec) := {
  encode_tag_inj : forall o n o' n', encode_tag o n = encode_tag o' n' -> o = o' /\ n = n';
}.

Class NftAttrSpec {cfg : Config} (C : Codec) := {
  decode_encode_NftAttr : forall a, 0 <= shares a < 2 ^ 128 ->
    decode_NftAttr (encode_NftAttr a) = Some a;
  decode_NftAttr_range : forall b a, decode_NftAttr b = Some a -> 0 <= shares a < 2 ^ 128;
}.

(** ** Other pallets

    Their calls run on [Ext]. *)
Abbreviation X := (M Ext DispatchError).

Class Pallets {cfg : Config} := {
  (** [sp_arithmetic::Permill * Balance] *)
  permill_mul : Z -> Balance -> Balance;
  (** [pallet_assets], for the W-PHA asset *)
  asset_balance : AccountId -> Ext -> Balance;
  asset_maybe_balance : AccountId -> Ext -> option Balance;
  asset_transfer : AccountId -> AccountId -> Balance -> X unit;
  asset_mint_into : AccountId -> Balance -> X unit;
  asset_burn_from : AccountId -> Balance -> X Balance;
  asset_exists : Ext -> bool;
  asset_minimum_balance : Ext -> Balance;
  (** [Currency]; [true] is [KeepAlive], [false] [AllowDeath] *)
  currency_transfer : AccountId -> AccountId -> Balance -> bool -> X unit;
  currency_withdraw : AccountId -> Balance -> X Balance;
  currency_slash : AccountId -> Balance -> X Balance;
  on_treasury_settled : Balance -> X unit;
  on_slashed : Balance -> X unit;
  (** [pallet_rmrk_core] and [pallet_uniques] *)
  collection_exists : CollectionId -> Ext -> bool;
  create_collection : AccountId -> CollectionId -> bytes -> X unit;
  rmrk_mint_nft : AccountId -> AccountId -> NftId -> CollectionId -> X unit;
  nft_burn : AccountId -> CollectionId -> NftId -> X unit;
  set_lock : CollectionId -> NftId -> bool -> X unit;
  lock_remove : CollectionId -> NftId -> X unit;
  do_set_property : CollectionId -> NftId -> bytes -> bytes -> X unit;
  do_remove_property : CollectionId -> NftId -> bytes -> X unit;
  properties : CollectionId -> NftId -> bytes -> Ext -> option bytes;
  owned_in_collection : CollectionId -> AccountId -> Ext -> list NftId;
  (** [pallet_democracy] *)
  referendum_ongoing : Z -> Ext -> bool;
  democracy_vote : AccountId -> Z -> Balance -> Balance -> X unit;
  (** [Randomness::random] on [RANDOMNESS_SUBJECT], read as a [U256] *)
  randomness : bytes -> Ext -> Z;
  (** The origins the runtime configures with council votes *)
  root_or_half_council : Origin -> bool;
  (** The order in which a storage map is iterated *)
  iter_order : list AccountId -> list AccountId;
  (** The order of the keys of a [BTreeMap] *)
  btree_order : list AccountId -> list AccountId;
}.

Class PermillSpec {cfg : Config} (P : Pallets) := {
  permill_mul_bound : forall p x, 0 <= p <= 1000000 -> 0 <= x -> 0 <= permill_mul p x <= x;
  permill_mul_zero : forall x, permill_mul 0 x = 0;
}.

(** ** NFTs

    [nft_owner] is [pallet_uniques::Pallet::owner].  Minting an existing NFT and
    burning one the caller does not own fail; a property is read back as it was
    set; a call on one NFT does not touch another, and the calls on locks,
    assets and balances touch none. *)
Class NftSpec {cfg : Config} (P : Pallets) := {
  nft_owner : CollectionId -> NftId -> Ext -> option AccountId;
  mint_law : forall b o n c e e', rmrk_mint_nft b o n c e = Ok tt e' ->
    nft_owner c n e = None /\ nft_owner c n e' = Some o /\
    (forall c' n', (c', n') <> (c, n) -> nft_owner c' n' e' = nft_owner c' n' e) /\
    (forall c' n' k, (c', n') <> (c, n) -> properties c' n' k e' = properties c' n' k e);
  burn_law : forall o c n e e', nft_burn o c n e = Ok tt e' ->
    nft_owner c n e = Some o /\ nft_owner c n e' = None /\
    (forall c' n', (c', n') <> (c, n) -> nft_owner c' n' e' = nft_owner c' n' e) /\
    (forall c' n' k, (c', n') <> (c, n) -> properties c' n' k e' = properties c' n' k e);
  set_property_law : forall c n k v e e', do_set_property c n k v e = Ok tt e' ->
    properties c n k e' = Some v /\
    (forall c' n', nft_owner c' n' e' = nft_owner c' n' e) /\
    (forall c' n' k', (c', n', k') <> (c, n, k) -> properties c' n' k' e' = properties c' n' k' e);
  remove_property_law : forall c n k e,
    wp True (do_remove_property c n k)
      (fun _ e' => (forall c' n', nft_owner c' n' e' = nft_owner c' n' e) /\
        (forall c' n' k', (c', n', k') <> (c, n, k) -> properties c' n' k' e' = properties c' n' k' e))
      (fun _ e' => (forall c' n', nft_owner c' n' e' = nft_owner c' n' e) /\
        (forall c' n' k', (c', n', k') <> (c, n, k) -> properties c' n' k' e' = properties c' n' k' e)) e;
  set_lock_law : forall c n b e e', set_lock c n b e = Ok tt e' ->
    (forall c' n', nft_owner c' n' e' = nft_owner c' n' e) /\
    (forall c' n' k', properties c' n' k' e' = properties c' n' k' e);
  lock_remove_law : forall c n e e', lock_remove c n e = Ok tt e' ->
    (forall c' n', nft_owner c' n' e' = nft_owner c' n' e) /\
    (forall c' n' k', properties c' n' k' e' = properties c' n' k' e);
  transfer_nft_law : forall a b x e e', asset_transfer a b x e = Ok tt e' ->
    (forall c' n', nft_owner c' n' e' = nft_owner c' n' e) /\
    (forall c' n' k', properties c' n' k' e' = properties c' n' k' e);
  owned_law : forall c a e,
    NoDup (owned_in_collection c a e) /\
    forall n, n ∈ owned_in_collection c a e <-> nft_owner c n e = Some a;
}.

(** ** W-PHA

    Balances are unsigned; a transfer takes at least the amount from its sender
    (what is left below the minimum balance goes with it) and fails if the
    sender does not have it.  Calls on NFTs move no balance. *)
Class AssetSpec {cfg : Config} (P : Pallets) := {
  asset_balance_range : forall a e, 0 <= asset_balance a e < 2 ^ 128;
  transfer_debit : forall a b x e e', asset_transfer a b x e = Ok tt e' -> a <> b ->
    asset_balance a e' <= asset_balance a e - x;
  mint_balance : forall a b o n c e e', rmrk_mint_nft b o n c e = Ok tt e' ->
    asset_balance a e' = asset_balance a e;
  burn_balance : forall a o c n e e', nft_burn o c n e = Ok tt e' -> asset_balance a e' = asset_balance a e;
  set_property_balance : forall a c n k v e e', do_set_property c n k v e = Ok tt e' ->
    asset_balance a e' = asset_balance a e;
  remove_property_balance : forall a c n k, keeps (asset_balance a) (do_remove_property c n k);
  set_lock_balance : forall a c n b e e', set_lock c n b e = Ok tt e' ->
    asset_balance a e' = asset_balance a e;
  lock_remove_balance : forall a c n e e', lock_remove c n e = Ok tt e' ->
    asset_balance a e' = asset_balance a e;
}.

(** ** Issuance of W-PHA and balances of PHA

    [wpha_issuance] is [pallet_assets::Pallet::total_issuance] of W-PHA,
    [pha_balance] the free PHA of an account.  A failed call changes nothing.  A
    debit that leaves the account less than the existential deposit removes the
    rest, and what is lost this way lowers the issuance; no balance exceeds the issuance.  Only its sender loses
    PHA in a transfer; votes and NFTs move nothing. *)
Class BackingSpec {cfg : Config} (P : Pallets) := {
  wpha_issuance : Ext -> Z;
  pha_balance : AccountId -> Ext -> Z;
  existential_deposit : Z;
  funds := fun a e => (wpha_issuance e, pha_balance a e);
  balance_le_issuance : forall a e, asset_balance a e <= wpha_issuance e;
  asset_mint_funds : forall b a x e,
    wp True (asset_mint_into a x)
      (fun _ e' => wpha_issuance e' <= wpha_issuance e + x /\ pha_balance b e' = pha_balance b e)
      (fun _ e' => funds b e' = funds b e) e;
  asset_burn_funds : forall b a x e,
    wp True (asset_burn_from a x)
      (fun _ e' => wpha_issuance e' <= wpha_issuance e - Z.min x (asset_balance a e) /\
         pha_balance b e' = pha_balance b e)
      (fun _ e' => funds b e' = funds b e) e;
  asset_transfer_funds : forall c a b x e,
    wp True (asset_transfer a b x)
      (fun _ e' => wpha_issuance e' <= wpha_issuance e /\ pha_balance c e' = pha_balance c e)
      (fun _ e' => funds c e' = funds c e) e;
  currency_transfer_funds : forall a b x k e,
    wp True (currency_transfer a b x k)
      (fun _ e' => wpha_issuance e' = wpha_issuance e /\
         (a <> b -> pha_balance b e + x <= pha_balance b e') /\
         (existential_deposit <= pha_balance a e - x -> pha_balance a e - x <= pha_balance a e') /\
         forall c, c <> a -> pha_balance c e <= pha_balance c e')
      (fun _ e' => e' = e) e;
  currency_transfer_assets : forall a b x k c, keeps (asset_balance c) (currency_transfer a b x k);
  currency_withdraw_funds : forall b a x, b <> a -> keeps (funds b) (currency_withdraw a x);
  currency_slash_funds : forall b a x, b <> a -> keeps (funds b) (currency_slash a x);
  on_treasury_settled_funds : forall b x e,
    wp True (on_treasury_settled x)
      (fun _ e' => wpha_issuance e' = wpha_issuance e /\ pha_balance b e <= pha_balance b e')
      (fun _ e' => funds b e' = funds b e) e;
  on_slashed_funds : forall b x e,
    wp True (on_slashed x)
      (fun _ e' => wpha_issuance e' = wpha_issuance e /\ pha_balance b e <= pha_balance b e')
      (fun _ e' => funds b e' = funds b e) e;
  create_collection_funds : forall b a c sym, b <> a -> keeps (funds b) (create_collection a c sym);
  rmrk_mint_funds : forall b a o n c, keeps (funds b) (rmrk_mint_nft a o n c);
  nft_burn_funds : forall b o c n, keeps (funds b) (nft_burn o c n);
  set_lock_funds : forall b c n l, keeps (funds b) (set_lock c n l);
  lock_remove_funds : forall b c n, keeps (funds b) (lock_remove c n);
  set_property_funds : forall b c n k v, keeps (funds b) (do_set_property c n k v);
  remove_property_funds : forall b c n k, keeps (funds b) (do_remove_property c n k);
  democracy_vote_funds : forall b a i y n, keeps (funds b) (democracy_vote a i y n);
}.

(** Iterating over a storage map visits each key once. *)
Class IterSpec {cfg : Config} (P : Pallets) := {
  iter_order_perm : forall l, iter_order l ≡ₚ l;
}.

(** The calls on NFTs and W-PHA return, and the minimum balance is unsigned. *)
Class ReturnSpec {cfg : Config} (P : Pallets) := {
  asset_transfer_returns : forall a b x, halts (asset_transfer a b x);
  nft_burn_returns : forall o c n, halts (nft_burn o c n);
  set_lock_returns : forall c n b, halts (set_lock c n b);
  lock_remove_returns : forall c n, halts (lock_remove c n);
  set_property_returns : forall c n k v, halts (do_set_property c n k v);
  remove_property_returns : forall c n k, halts (do_remove_property c n k);
  minimum_balance_nonneg : forall e, 0 <= asset_minimum_balance e;
}.

Section Calls.
Context {cfg : Config}.

(** A call into another pallet. *)
Definition extc {A} (m : X A) : R A := fun s =>
  match m (ext s) with
  | Ok a e => Ok a (set_ext e s)
  | Err er e => Err er (set_ext e s)
  | Panic => Panic
  | NoFuel => NoFuel
  end.

Lemma keeps_extc {A T} (f : State -> T) (m : X A) :
  (forall s e, f (set_ext e s) = f s) -> keeps f (extc m).
Proof. intros Hf s. unfold wp, extc. destruct (m (ext s)); auto. Qed.

Lemma wp_extc {A} P (m : X A) (Q : A -> State -> Prop) (Rr : DispatchError -> State -> Prop) s :
  wp P m (fun a e => Q a (set_ext e s)) (fun er e => Rr er (set_ext e s)) (ext s) ->
  wp P (extc m) Q Rr s.
Proof. unfold wp, extc. by destruct (m (ext s)). Qed.

Lemma halts_extc {A} (m : X A) : halts m -> halts (extc m).
Proof. intros Hm s. specialize (Hm (ext s)). unfold extc. by destruct (m (ext s)). Qed.

End Calls.
#[export] Hint Extern 2 (keeps _ (extc _)) => apply keeps_extc; reflexivity : keeps.
