(* ===== verification/BalanceConvert.v ===== *)
(** * Fixed-point balances: pallets/cyrux/src/utils/balance_convert.rs

    Conversions between balances of 12 decimals and [U64F64], with the error
    bounds the pool arithmetic rests on. *)
From stdpp Require Import prelude.
From Stdlib Require Import ZArith Lia.
From S2P Require Import Prelude Types Externals.

Definition PHA : Z := 1000000000000.

Section Convert.
Context {S E : Type} {F : FixedLib}.

Definition from_fixed (v : Z) : M S E Balance :=
  let* a := expect_some (u80f48_from_u64f64 v) in
  let* b := expect_some (u80f48_mul_int a PHA) in
  mret (u80f48_to_u128 b).

Definition from_bits (bits : Z) : M S E Balance := from_fixed bits.

Definition to_fixed (x : Balance) : M S E Z :=
  let* v := expect_some (u80f48_from_u128 x) in
  let* d := expect_some (u80f48_div_int v PHA) in
  expect_some (u64f64_from_u80f48 d).

Definition bmul (x : Balance) (y : Z) : M S E Balance :=
  let* fx := to_fixed x in
  let* m := expect_some (fx_mul fx y) in
  from_fixed m.

Definition bdiv (x : Balance) (y : Z) : M S E Balance :=
  let* fx := to_fixed x in
  let* q := expect_some (fx_div fx y) in
  from_fixed q.

End Convert.

(** ** Reference functions

    What the conversions compute when they do not panic. *)
Definition to_fixed_val (x : Z) : Z := x * 2 ^ 48 / PHA * 2 ^ 16.

Definition from_fixed_val (v : Z) : Z := v / 2 ^ 16 * PHA / 2 ^ 48.

Lemma to_fixed_val_nonneg x : 0 <= x -> 0 <= to_fixed_val x.
Proof. intros. unfold to_fixed_val, PHA. apply Z.mul_nonneg_nonneg; [apply Z.div_pos|]; lia. Qed.

Lemma from_fixed_val_nonneg x : 0 <= x -> 0 <= from_fixed_val x.
Proof.
  intros. unfold from_fixed_val, PHA.
  apply Z.div_pos; [apply Z.mul_nonneg_nonneg; [apply Z.div_pos|]|]; lia.
Qed.

Lemma to_fixed_val_mono x y : x <= y -> to_fixed_val x <= to_fixed_val y.
Proof.
  intros. unfold to_fixed_val. apply Z.mul_le_mono_nonneg_r; [lia|].
  apply Z.div_le_mono; unfold PHA; lia.
Qed.

Lemma from_fixed_val_mono x y : x <= y -> from_fixed_val x <= from_fixed_val y.
Proof.
  intros. unfold from_fixed_val. apply Z.div_le_mono; [lia|].
  apply Z.mul_le_mono_nonneg_r; [unfold PHA; lia|]. apply Z.div_le_mono; lia.
Qed.

Lemma from_to_fixed_val x : 0 <= x -> x - 1 <= from_fixed_val (to_fixed_val x) <= x.
Proof.
  intros Hx. unfold from_fixed_val, to_fixed_val. rewrite Z.div_mul by lia.
  unfold PHA. set (a := x * 2 ^ 48 / 1000000000000).
  assert (Ha : 1000000000000 * a <= x * 2 ^ 48 < 1000000000000 * a + 1000000000000).
  { pose proof (Z.div_mod (x * 2 ^ 48) 1000000000000 ltac:(lia)).
    pose proof (Z.mod_pos_bound (x * 2 ^ 48) 1000000000000 ltac:(lia)). lia. }
  split.
  - apply Z.div_le_lower_bound; [lia|]. lia.
  - apply Z.lt_succ_r, Z.div_lt_upper_bound; [lia|]. lia.
Qed.

Lemma to_from_fixed_val v : 0 <= v -> to_fixed_val (from_fixed_val v) <= v.
Proof.
  intros Hv. unfold from_fixed_val, to_fixed_val, PHA.
  set (a := v / 2 ^ 16). set (r := a * 1000000000000 / 2 ^ 48).
  assert (Ha : a * 2 ^ 16 <= v).
  { unfold a. pose proof (Z.mul_div_le v (2 ^ 16) ltac:(lia)). lia. }
  assert (Hr : r * 2 ^ 48 <= a * 1000000000000).
  { unfold r. pose proof (Z.mul_div_le (a * 1000000000000) (2 ^ 48) ltac:(lia)). lia. }
  assert (Hq : r * 2 ^ 48 / 1000000000000 <= a).
  { apply Z.lt_succ_r, Z.div_lt_upper_bound; lia. }
  lia.
Qed.

Section ConvertSpec.
Context {S E : Type} {F : FixedLib} {FS : FixedSpec F}.

Lemma to_fixed_ok x (s : S) :
  0 <= x < 2 ^ 80 -> to_fixed (E := E) x s = Ok (to_fixed_val x) s.
Proof.
  intros Hx. unfold to_fixed, mbind, expect_some.
  rewrite u80f48_from_u128_spec by done. simpl.
  rewrite u80f48_div_int_spec by (unfold PHA; lia). simpl.
  rewrite u64f64_from_u80f48_spec; [done|]. split.
  - apply Z.div_pos; unfold PHA; lia.
  - apply Z.div_lt_upper_bound; unfold PHA; lia.
Qed.

Lemma to_fixed_panics x (s : S) : 2 ^ 80 <= x -> to_fixed (E := E) x s = Panic.
Proof. intros Hx. unfold to_fixed, mbind, expect_some. by rewrite u80f48_from_u128_over. Qed.

Lemma from_fixed_ok v (s : S) :
  0 <= v < 2 ^ 128 -> v / 2 ^ 16 * PHA < 2 ^ 128 ->
  from_fixed (E := E) v s = Ok (from_fixed_val v) s.
Proof.
  intros Hv Ho. unfold from_fixed, mbind, expect_some.
  assert (0 <= v / 2 ^ 16) by (apply Z.div_pos; lia).
  rewrite u80f48_from_u64f64_spec by done. simpl.
  rewrite u80f48_mul_int_spec by (unfold PHA in *; lia). simpl.
  rewrite u80f48_to_u128_spec; [done|]. unfold PHA in *; lia.
Qed.

Lemma from_fixed_panics v (s : S) :
  0 <= v < 2 ^ 128 -> 2 ^ 128 <= v / 2 ^ 16 * PHA -> from_fixed (E := E) v s = Panic.
Proof.
  intros Hv Ho. unfold from_fixed, mbind, expect_some.
  assert (0 <= v / 2 ^ 16) by (apply Z.div_pos; lia).
  rewrite u80f48_from_u64f64_spec by done. simpl.
  by rewrite u80f48_mul_int_over by (unfold PHA in *; lia).
Qed.

Lemma wp_to_fixed P x (Q : Z -> S -> Prop) (R : E -> S -> Prop) s :
  0 <= x -> (x < 2 ^ 80 -> Q (to_fixed_val x) s) -> (2 ^ 80 <= x -> P) ->
  wp P (to_fixed x) Q R s.
Proof.
  intros Hx HQ HP. unfold wp. destruct (Z.lt_ge_cases x (2 ^ 80)).
  - rewrite to_fixed_ok by lia. auto.
  - rewrite to_fixed_panics by lia. auto.
Qed.

Lemma wp_from_fixed P v (Q : Z -> S -> Prop) (R : E -> S -> Prop) s :
  0 <= v < 2 ^ 128 -> Q (from_fixed_val v) s -> P -> wp P (from_fixed v) Q R s.
Proof.
  intros Hv HQ HP. unfold wp. destruct (Z.lt_ge_cases (v / 2 ^ 16 * PHA) (2 ^ 128)).
  - by rewrite from_fixed_ok by lia.
  - by rewrite from_fixed_panics by lia.
Qed.

(** A balance that is returned has its width, even when a product overflowed. *)
Lemma wp_from_fixed_any v (Q : Z -> S -> Prop) (R : E -> S -> Prop) s :
  (forall r, 0 <= r < 2 ^ 80 -> Q r s) -> wp True (from_fixed v) Q R s.
Proof.
  intros HQ. unfold from_fixed. wp_steps; try done. apply HQ, u80f48_to_u128_range.
Qed.

Lemma wp_bdiv_any x y (Q : Z -> S -> Prop) (R : E -> S -> Prop) s :
  (forall r, 0 <= r < 2 ^ 80 -> Q r s) -> wp True (bdiv x y) Q R s.
Proof. intros HQ. unfold bdiv, to_fixed. wp_steps; try done. by apply wp_from_fixed_any. Qed.

Lemma wp_bmul_any x y (Q : Z -> S -> Prop) (R : E -> S -> Prop) s :
  (forall r, 0 <= r < 2 ^ 80 -> Q r s) -> wp True (bmul x y) Q R s.
Proof. intros HQ. unfold bmul, to_fixed. wp_steps; try done. by apply wp_from_fixed_any. Qed.

(** A product that is returned is rounded down. *)
Lemma wp_bmul P x y (Q : Z -> S -> Prop) (R : E -> S -> Prop) s :
  P -> 0 <= x -> 0 <= y -> to_fixed_val x * y / 2 ^ 64 < 2 ^ 128 ->
  Q (from_fixed_val (to_fixed_val x * y / 2 ^ 64)) s ->
  wp P (bmul x y) Q R s.
Proof.
  intros HP Hx Hy Ho HQ. unfold bmul. apply wp_bind, wp_to_fixed; [done| |done]. intros _.
  pose proof (to_fixed_val_nonneg x Hx).
  rewrite fx_mul_spec by done. apply wp_bind. simpl. apply wp_from_fixed; [|done|done].
  split; [apply Z.div_pos; lia|done].
Qed.

Lemma wp_bdiv P x y (Q : Z -> S -> Prop) (R : E -> S -> Prop) s :
  P -> 0 <= x -> 0 < y -> to_fixed_val x * 2 ^ 64 / y < 2 ^ 128 ->
  Q (from_fixed_val (to_fixed_val x * 2 ^ 64 / y)) s ->
  wp P (bdiv x y) Q R s.
Proof.
  intros HP Hx Hy Ho HQ. unfold bdiv. apply wp_bind, wp_to_fixed; [done| |done]. intros _.
  pose proof (to_fixed_val_nonneg x Hx).
  rewrite fx_div_spec by done. apply wp_bind. simpl. apply wp_from_fixed; [|done|done].
  split; [apply Z.div_pos; lia|done].
Qed.

(** The quotient, exact when it fits *)
Lemma wp_bdiv_full x y (Q : Z -> S -> Prop) (R : E -> S -> Prop) s :
  (forall r, 0 <= r < 2 ^ 80 ->
    (0 <= x -> 0 < y -> to_fixed_val x * 2 ^ 64 / y < 2 ^ 128 ->
     r = from_fixed_val (to_fixed_val x * 2 ^ 64 / y)) -> Q r s) ->
  wp True (bdiv x y) Q R s.
Proof.
  intros HQ. assert (Hany : wp True (bdiv (E := E) x y) (fun r s' => s' = s /\ 0 <= r < 2 ^ 80)
    (fun _ _ => False) s) by (by apply wp_bdiv_any).
  destruct (decide (0 <= x /\ 0 < y /\ to_fixed_val x * 2 ^ 64 / y < 2 ^ 128)) as [(H1 & H2 & H3)|Hn].
  - assert (Hval : wp True (bdiv (E := E) x y)
      (fun r s' => r = from_fixed_val (to_fixed_val x * 2 ^ 64 / y)) (fun _ _ => False) s) by (by apply wp_bdiv).
    eapply wp_mono; [exact (wp_and _ _ _ _ _ _ _ Hany Hval)| |by intros ? ? []].
    intros r s' [[-> Hr] ->]. by apply HQ.
  - eapply wp_mono; [exact Hany| |done]. intros r s' [-> Hr]. apply HQ; [done|tauto].
Qed.

End ConvertSpec.

(** The value of the shares bought with [x] at price [p] is at most [x]. *)
Lemma shares_value_le x p :
  0 <= x -> 0 < p ->
  from_fixed_val (to_fixed_val (from_fixed_val (to_fixed_val x * 2 ^ 64 / p)) * p / 2 ^ 64) <= x.
Proof.
  intros Hx Hp. pose proof (to_fixed_val_nonneg x Hx) as Ht.
  set (q := to_fixed_val x * 2 ^ 64 / p).
  assert (Hq : 0 <= q) by (apply Z.div_pos; lia).
  assert (Hqp : q * p <= to_fixed_val x * 2 ^ 64).
  { unfold q. pose proof (Z.mul_div_le (to_fixed_val x * 2 ^ 64) p Hp). lia. }
  pose proof (to_from_fixed_val q Hq) as Hs.
  pose proof (from_fixed_val_nonneg q Hq) as Hf.
  pose proof (to_fixed_val_nonneg _ Hf) as Hf'.
  etransitivity; [|apply from_to_fixed_val; done].
  apply from_fixed_val_mono. apply Z.lt_succ_r, Z.div_lt_upper_bound; [lia|]. nia.
Qed.

(** ** A model of the [fixed] crate *)
Definition fits (w z : Z) : option Z := if in_width w z then Some z else None.

#[local] Instance fixed_ref : FixedLib := {|
  fx_from_num n := n * 2 ^ 64;
  fx_add a b := fits 128 (a + b);
  fx_sub a b := fits 128 (a - b);
  fx_mul a b := fits 128 (a * b / 2 ^ 64);
  fx_div a b := if b =? 0 then None else fits 128 (a * 2 ^ 64 / b);
  fx_checked_div a b := if b =? 0 then None else fits 128 (a * 2 ^ 64 / b);
  fx_sqrt a := Z.sqrt (a * 2 ^ 64);
  fx_mul_int a n := fits 128 (a * n);
  fx_div_int a n := if n =? 0 then None else Some (a / n);
  u80f48_from_u64f64 a := Some (a / 2 ^ 16);
  u80f48_from_u128 n := fits 128 (n * 2 ^ 48);
  u80f48_mul_int a n := fits 128 (a * n);
  u80f48_div_int a n := if n =? 0 then None else Some (a / n);
  u80f48_to_u128 a := a / 2 ^ 48 mod 2 ^ 80;
  u64f64_from_u80f48 a := fits 128 (a * 2 ^ 16);
  u32f32_from_num n := fits 64 (n * 2 ^ 32);
  u32f32_mul a b := fits 64 (a * b / 2 ^ 32);
  u32f32_div a b := if b =? 0 then None else fits 64 (a * 2 ^ 32 / b);
  u32f32_checked_shl a n := if n <? 64 then Some (Z.shiftl a n mod 2 ^ 64) else None;
  u32f32_to_u32 a := a / 2 ^ 32;
|}.

Lemma fits_ok w z : 0 <= z < 2 ^ w -> fits w z = Some z.
Proof. intros H. apply in_width_spec in H. unfold fits. by rewrite H. Qed.

Lemma fits_over w z : 2 ^ w <= z -> fits w z = None.
Proof.
  intros H. unfold fits. destruct (in_width w z) eqn:Hw; [|done].
  apply in_width_spec in Hw. lia.
Qed.

#[local] Instance fixed_ref_spec : FixedSpec fixed_ref.
Proof.
  split; cbn [fx_from_num fx_add fx_sub fx_mul fx_div fx_checked_div fx_mul_int fx_div_int u80f48_from_u64f64
    u80f48_from_u128 u80f48_mul_int u80f48_div_int u80f48_to_u128 u64f64_from_u80f48 fixed_ref];
    intros; repeat case_match; try (rewrite Z.eqb_eq in *; lia);
    try done; try (apply fits_ok; split; [first [lia | apply Z.div_pos; lia]|lia]);
    try (apply fits_over; lia).
  - apply Z.mod_small. split; [apply Z.div_pos; lia|apply Z.div_lt_upper_bound; lia].
  - apply Z.mod_pos_bound. lia.
Qed.

(** ** Properties *)
Lemma from_to_fixed_exact x : (5 ^ 12 | x) -> from_fixed_val (to_fixed_val x) = x.
Proof.
  intros [y ->]. unfold from_fixed_val, to_fixed_val. rewrite Z.div_mul by lia.
  replace (y * 5 ^ 12 * 2 ^ 48) with (y * 2 ^ 36 * PHA) by (unfold PHA; lia).
  rewrite Z.div_mul by (unfold PHA; lia).
  replace (y * 2 ^ 36 * PHA) with (y * 5 ^ 12 * 2 ^ 48) by (unfold PHA; lia).
  rewrite Z.div_mul by lia. lia.
Qed.

Lemma to_fixed_val_fits x : 0 <= x < 2 ^ 80 ->
  0 <= to_fixed_val x < 2 ^ 128 /\ to_fixed_val x / 2 ^ 16 * PHA < 2 ^ 128.
Proof.
  intros Hx. pose proof (to_fixed_val_nonneg x ltac:(lia)).
  unfold to_fixed_val in *. rewrite Z.div_mul by lia.
  pose proof (Z.mul_div_le (x * 2 ^ 48) PHA ltac:(unfold PHA; lia)). unfold PHA in *.
  split_and!; lia.
Qed.

Section ConvertProperties.
Context {S E : Type} {F : FixedLib} {FS : FixedSpec F}.

(** A balance below 2^80 survives the conversion to fixed point and back
    up to one unit lost, never gained, and exactly when 5^12 divides it (so
    for whole numbers of tokens). *)
Theorem balance_round_trip x (s : S) :
  0 <= x < 2 ^ 80 ->
  exists y, (let* v := to_fixed (E := E) x in from_fixed v) s = Ok y s /\
    x - 1 <= y <= x /\ ((5 ^ 12 | x) -> y = x).
Proof.
  intros Hx. destruct (to_fixed_val_fits x Hx) as [H1 H2].
  exists (from_fixed_val (to_fixed_val x)). split_and!; [|apply from_to_fixed_val; lia..|].
  - unfold mbind. rewrite to_fixed_ok by done. by apply from_fixed_ok.
  - apply from_to_fixed_exact.
Qed.

(** Converting an amount to shares at a price and back at the same price
    returns, and never yields more than the amount, whatever the rounding of
    the two steps. *)
Theorem share_conversion_never_inflates x p (s : S) :
  0 <= x < 2 ^ 80 -> 0 < p -> to_fixed_val x * 2 ^ 64 / p < 2 ^ 104 ->
  exists y, (let* n := bdiv (E := E) x p in bmul n p) s = Ok y s /\ 0 <= y <= x.
Proof.
  intros Hx Hp Hq. pose proof (to_fixed_val_nonneg x ltac:(lia)) as Ht.
  destruct (to_fixed_val_fits x Hx) as [Hf _].
  set (q := to_fixed_val x * 2 ^ 64 / p) in *.
  assert (Hq0 : 0 <= q) by (apply Z.div_pos; lia).
  assert (Hqp : q * p <= to_fixed_val x * 2 ^ 64)
    by (unfold q; pose proof (Z.mul_div_le (to_fixed_val x * 2 ^ 64) p Hp); lia).
  assert (Hs : q / 2 ^ 16 < 2 ^ 88) by (apply Z.div_lt_upper_bound; lia).
  pose proof (from_fixed_val_nonneg q Hq0) as Hn0. pose proof (to_from_fixed_val q Hq0) as Hn.
  assert (Hn80 : from_fixed_val q < 2 ^ 80)
    by (unfold from_fixed_val; apply Z.div_lt_upper_bound; unfold PHA; lia).
  pose proof (to_fixed_val_nonneg _ Hn0) as Hm0.
  assert (Hm : 0 <= to_fixed_val (from_fixed_val q) * p / 2 ^ 64 <= to_fixed_val x).
  { split; [apply Z.div_pos; lia|]. apply Z.lt_succ_r, Z.div_lt_upper_bound; nia. }
  exists (from_fixed_val (to_fixed_val (from_fixed_val q) * p / 2 ^ 64)). split_and!.
  - unfold bdiv, bmul, mbind. rewrite to_fixed_ok by lia.
    rewrite fx_div_spec by lia. simpl. fold q. rewrite from_fixed_ok by (unfold PHA; lia).
    rewrite to_fixed_ok by lia. rewrite fx_mul_spec by lia. simpl. apply from_fixed_ok; [lia|].
    destruct (to_fixed_val_fits x Hx) as [_ H2]. eapply Z.le_lt_trans; [|exact H2].
    apply Z.mul_le_mono_nonneg_r; [unfold PHA; lia|]. apply Z.div_le_mono; lia.
  - apply from_fixed_val_nonneg; lia.
  - apply shares_value_le; lia.
Qed.

End ConvertProperties.

Lemma balance_round_trip_witness :
  exists y, (let* v := to_fixed (S := unit) (E := unit) (1000000000 * PHA) in from_fixed v) tt = Ok y tt /\
    1000000000 * PHA - 1 <= y <= 1000000000 * PHA /\ ((5 ^ 12 | 1000000000 * PHA) -> y = 1000000000 * PHA).
Proof. apply (balance_round_trip (F := fixed_ref)). unfold PHA. lia. Defined.

Lemma share_conversion_never_inflates_witness :
  exists y, (let* n := bdiv (S := unit) (E := unit) 1000000000001 (3 * 2 ^ 63) in bmul n (3 * 2 ^ 63)) tt = Ok y tt /\
    0 <= y <= 1000000000001.
Proof.
  apply (share_conversion_never_inflates (F := fixed_ref)); [lia|lia|].
  vm_compute. reflexivity.
Defined.
