(* ===== verification/Reference.v ===== *)
(** * A reference runtime

    Concrete instances of the configuration, the codecs and the outside
    pallets, on finite maps.  The witnesses of the theorems evaluate on it. *)
From stdpp Require Import prelude gmap list strings sorting.
From Stdlib Require Import ZArith Lia.
From S2P Require Import Prelude Types Externals BalanceConvert.

Record RefExt := mkRefExt {
  rx_assets : gmap Z Z;
  rx_currency : gmap Z Z;
  rx_collections : gset Z;
  rx_nfts : gmap (Z * Z) Z;
  rx_props : gmap (Z * Z * list Z) (list Z);
  rx_ongoing : gset Z;
  rx_votes : list (Z * Z * Z);
}.

Definition rx_empty : RefExt := mkRefExt ∅ ∅ ∅ ∅ ∅ ∅ [].

Definition rx_set_assets m e :=
  mkRefExt m (rx_currency e) (rx_collections e) (rx_nfts e) (rx_props e) (rx_ongoing e) (rx_votes e).
Definition rx_set_currency m e :=
  mkRefExt (rx_assets e) m (rx_collections e) (rx_nfts e) (rx_props e) (rx_ongoing e) (rx_votes e).
Definition rx_set_nfts c m p e :=
  mkRefExt (rx_assets e) (rx_currency e) c m p (rx_ongoing e) (rx_votes e).

(** The [testnet] profile, with overflow checks and debug assertions, and the
    [release] one without. *)
Definition ref_profile : Profile := {| overflow_checks := true; debug_assertions := true |}.
Definition release_profile : Profile := {| overflow_checks := false; debug_assertions := false |}.

Section Reference.
Context {prof : Profile}.

#[local] Instance ref_config : Config := {|
  AccountId := Z;
  Ext := RefExt;
  MinInitP := 50;
  ExpectedBlockTimeSec := 12;
  CheckWorkerRegisterTime := true;
  MinContribution := 10000000000;
  GracePeriod := 604800;
  MaxPoolWorkers := 10;
  InitialPriceCheckPoint := 1000000000000;
  VaultQueuePeriod := 1814400;
  MigrationAccountId := 9001;
  WrappedBalancesAccountId := 9002;
  VerifyPRuntime := true;
  VerifyRelaychainGenesisBlockHash := true;
  NoneAttestationEnabled := false;
  ParachainId := 2000;
  InkCodeSizeLimit := 2097152;
  SidevmCodeSizeLimit := 8388608;
|}.

#[local] Instance ref_codec : Codec (cfg := ref_config) := {|
  encode_SystemEvent e :=
    match e with
    | WorkerEventWithKey k (Registered c) => [0; k; 0; c]
    | WorkerEventWithKey k (BenchStart d) => [0; k; 1; d]
    | WorkerEventWithKey k (BenchScore b) => [0; k; 2; b]
    | WorkerEventWithKey k (Started i iv ip) => [0; k; 3; i; iv; ip]
    | WorkerEventWithKey k Stopped => [0; k; 4]
    | WorkerEventWithKey k EnterUnresponsive => [0; k; 5]
    | WorkerEventWithKey k ExitUnresponsive => [0; k; 6]
    | HeartbeatChallengeEvent c => [1; seed c; online_target c]
    end;
  encode_GatekeeperEvent e :=
    match e with
    | NewRandomNumber b r l => [0; b; r; l]
    | TokenomicParametersChanged p => [1; budget_per_block p]
    | _RepairV => [2]
    | _cyruxLaunched => [3]
    | _UnrespFix => [4]
    end;
  encode_GatekeeperLaunch e :=
    match e with
    | FirstGatekeeper k h => [0; k; h]
    | MasterPubkeyOnChain k => [1; k]
    | RotateMasterKey i _ => [2; i]
    | MasterPubkeyRotated k => [3; k]
    end;
  encode_GatekeeperChange e :=
    match e with GkRegistered k h => [0; k; h] | GkUnregistered k => [1; k] end;
  encode_WorkerEndpointPayload e := ep_pubkey e :: signing_time e :: concat (versioned_endpoints e);
  hash_WorkerRegistrationInfo i := [wr_pubkey i; wr_ecdh_pubkey i];
  hash_WorkerRegistrationInfoV2 i := [wr_pubkey (wr_info i); wr_ecdh_pubkey (wr_info i); para_id i];
  encode_ClusterEvent e := let '(DeployCluster _ c _ _ _ _ _ _) := e in [c];
  encode_ContractOperation e := let '(InstantiateCode i _ _ _) := e in [cluster_id i];
  encode_ClusterOperation e :=
    match e with
    | DestroyCluster c => [1; c] | UploadResource _ c _ d => 2 :: c :: d
    | Deposit c a x => [3; c; a; x] | RemoveWorker c k => [4; c; k]
    end;
  decode_WorkerClusterReport b :=
    match b with
    | [0; c; k] => Some (ClusterDeployedReport c k) | [1; c] => Some (ClusterDeploymentFailedReport c) | _ => None
    end;
  decode_ClusterRegistryEvent b :=
    match b with [0; c; k] => Some (ClusterPubkey c k) | _ => None end;
  decode_ContractRegistryEvent b :=
    match b with [0; c; k; d] => Some (ContractPubkey c k d) | _ => None end;
  decode_RegistryEvent b :=
    match b with [0; t; i] => Some (BenchReport t i) | [1; k] => Some (MasterPubkey k) | _ => None end;
  decode_GatekeeperRegistryEvent b :=
    match b with [0; i; k] => Some (RotatedMasterPubkey i k) | _ => None end;
  decode_WorkingInfoUpdateEvent b :=
    match b with [n; t] => Some (mkWorkingInfoUpdateEvent n t [] [] []) | _ => None end;
  decode_WorkingReportEvent b :=
    match b with
    | [i; c; t; n] => Some (Heartbeat i c t n) | [i; c; t; n; k; l] => Some (HeartbeatV2 i c t n k l) | _ => None
    end;
  encode_to_be_signed m n := n :: payload m;
  encode_tag o n := n :: (match o with
    | Pallet l => 0 :: l | Contract h => [1; h] | Worker k => [2; k] | AccountIdOrigin h => [3; h]
    | MultiLocation l => 4 :: l | Gatekeeper => [5] | Cluster h => [6; h] | Reserved => [255] end);
  encode_NftAttr a := [shares a];
  decode_NftAttr b :=
    match b with [x] => if in_width 128 x then Some (mkNftAttr x) else None | _ => None end;
  into_h256 a := a;
  account_of_h256 h := h;
  h256_bytes h := h :: replicate 31 0;
  account_bytes a := a :: replicate 31 0;
  blake2_256 b := foldr (fun x h => x + 7 * h) 1 b;
  sr25519_signature_ok _ := true;
  sr25519_verify sig _ k := match sig with x :: _ => (x =? 0) || (x =? k) | [] => true end;
  generate_staker_account p _ := 100000 + p;
  pool_sub_account p k := 1000000 + 1000 * p + k;
  owner_reward_account_of p _ := 200000 + p;
  lock_account_of p _ := 300000 + p;
  basepool_pallet_id := 9003;
  computing_account_id := 9004;
|}.

#[local] Instance ref_bytes_spec : BytesSpec ref_codec.
Proof. split; simpl; try done; by intros ? ? [=]. Qed.

#[local] Instance ref_tag_spec : TagSpec ref_codec.
Proof.
  split. intros o n o' n'. simpl. destruct o, o'; simpl; intros [=]; by subst.
Qed.

#[local] Instance ref_attr_spec : NftAttrSpec ref_codec.
Proof.
  split.
  - intros [x] Hx. simpl in *. apply in_width_spec in Hx. by rewrite Hx.
  - intros [|x [|]] a; simpl; try done. destruct (in_width 128 x) eqn:Hw; [|done].
    intros [= <-]. by apply in_width_spec in Hw.
Qed.

(** A ledger: debit one account, credit another. *)
Definition ledger_get (m : gmap Z Z) (a : Z) : Z :=
  let v := default 0 (m !! a) in if in_width 128 v then v else 0.

Lemma ledger_get_range m a : 0 <= ledger_get m a < 2 ^ 128.
Proof.
  unfold ledger_get. destruct (in_width 128 (default 0 (m !! a))) eqn:Hw; [|lia].
  by apply in_width_spec.
Qed.

Definition ledger_move (m : gmap Z Z) (a b x : Z) : option (gmap Z Z) :=
  if (x <? 0) || (ledger_get m a <? x) then None
  else let m' := <[a := ledger_get m a - x]> m in
       if in_width 128 (ledger_get m' b + x) then Some (<[b := ledger_get m' b + x]> m') else None.

(** What is in a ledger *)
Definition clamp (v : Z) : Z := if in_width 128 v then v else 0.

Definition ledger_sum (m : gmap Z Z) : Z := map_fold (fun _ v t => clamp v + t) 0 m.

Lemma ledger_get_insert m a v b :
  ledger_get (<[a := v]> m) b = if decide (a = b) then clamp v else ledger_get m b.
Proof.
  unfold ledger_get, clamp. case_decide as E.
  - subst. by rewrite lookup_insert_eq.
  - by rewrite lookup_insert_ne.
Qed.

Lemma clamp_fits v : 0 <= v < 2 ^ 128 -> clamp v = v.
Proof. intros Hv. apply in_width_spec in Hv. unfold clamp. by rewrite Hv. Qed.

Lemma clamp_le v : 0 <= v -> 0 <= clamp v <= v.
Proof. unfold clamp. destruct (in_width 128 v); lia. Qed.

Lemma ledger_sum_insert m a v : ledger_sum (<[a := v]> m) = ledger_sum m - ledger_get m a + clamp v.
Proof.
  assert (forall m, m !! a = None -> forall v, ledger_sum (<[a := v]> m) = clamp v + ledger_sum m) as H.
  { intros m' Hm v'. unfold ledger_sum. rewrite map_fold_insert_L; [done| |done]. intros. lia. }
  destruct (m !! a) as [w|] eqn:Hm.
  - rewrite <- (insert_delete_id m a w) at 2 3 by done. rewrite <- insert_delete_eq.
    rewrite !H by apply lookup_delete_eq. rewrite ledger_get_insert, decide_True by done. lia.
  - rewrite H by done. unfold ledger_get. rewrite Hm. simpl. lia.
Qed.

Lemma ledger_get_le_sum m a : ledger_get m a <= ledger_sum m.
Proof.
  assert (forall m, 0 <= ledger_sum m) as H.
  { intros m'. unfold ledger_sum. apply (map_fold_weak_ind (fun t _ => 0 <= t)); [done|].
    intros i x m0 t _ Ht. unfold clamp. destruct (in_width 128 x) eqn:Hw; [|lia].
    apply in_width_spec in Hw. lia. }
  specialize (H (<[a := 0]> m)). rewrite ledger_sum_insert in H. change (clamp 0) with 0 in H. lia.
Qed.

Lemma ledger_move_spec m a b x m' :
  ledger_move m a b x = Some m' ->
  0 <= x <= ledger_get m a /\ ledger_sum m' <= ledger_sum m /\
  (a <> b -> ledger_get m' a = ledger_get m a - x /\ ledger_get m' b = ledger_get m b + x) /\
  (a = b -> ledger_get m' a = ledger_get m a) /\
  (forall c, c <> a -> c <> b -> ledger_get m' c = ledger_get m c).
Proof.
  pose proof (ledger_get_range m a) as Ha. unfold ledger_move.
  destruct (Z.ltb_spec x 0); [done|]. destruct (Z.ltb_spec (ledger_get m a) x); [done|]. simpl.
  destruct (in_width 128 _) eqn:Hw; [|done]. apply in_width_spec in Hw. intros [= <-].
  pose proof (clamp_fits (ledger_get m a - x)) as Hc.
  pose proof (clamp_fits _ Hw) as Hc'. rewrite !ledger_sum_insert, Hc, Hc' by lia.
  split_and!; [lia|lia|lia| | |]; intros; rewrite ?ledger_get_insert in *; repeat case_decide; subst;
    try done; rewrite ?Hc, ?Hc'; repeat split; try done; try lia; rewrite clamp_fits; lia.
Qed.

#[local] Instance ref_pallets : Pallets :=
  @Build_Pallets ref_config
    (* permill_mul *)
    (fun p x => p * x / 1000000)
    (* asset_balance *)
    (fun a (e : RefExt) => ledger_get (rx_assets e) a)
    (* asset_maybe_balance *)
    (fun a (e : RefExt) => rx_assets e !! a)
    (* asset_transfer *)
    (fun a b x => fun e : RefExt =>
    match ledger_move (rx_assets e) a b x with
    | Some m => Ok tt (rx_set_assets m e)
    | None => Err (ExternalError 1) e
    end)
    (* asset_mint_into *)
    (fun a x => fun e : RefExt =>
    if (x <? 0) || (ledger_get (rx_assets e) a + x <? 1) then Err TokenBelowMinimum e
    else Ok tt (rx_set_assets (<[a := ledger_get (rx_assets e) a + x]> (rx_assets e)) e))
    (* asset_burn_from *)
    (fun a x => fun e : RefExt =>
    let y := Z.min (Z.max 0 x) (ledger_get (rx_assets e) a) in
    Ok y (rx_set_assets (<[a := ledger_get (rx_assets e) a - y]> (rx_assets e)) e))
    (* asset_exists *)
    (fun _ => true)
    (* asset_minimum_balance *)
    (fun _ => 10000)
    (* currency_transfer *)
    (fun a b x _ => fun e : RefExt =>
    match ledger_move (rx_currency e) a b x with
    | Some m => Ok tt (rx_set_currency m e)
    | None => Err (ExternalError 2) e
    end)
    (* currency_withdraw *)
    (fun a x => fun e : RefExt =>
    if (x <? 0) || (ledger_get (rx_currency e) a <? x) then Err (ExternalError 3) e
    else Ok x (rx_set_currency (<[a := ledger_get (rx_currency e) a - x]> (rx_currency e)) e))
    (* currency_slash *)
    (fun a x => fun e : RefExt =>
    let y := Z.min (Z.max 0 x) (ledger_get (rx_currency e) a) in
    Ok y (rx_set_currency (<[a := ledger_get (rx_currency e) a - y]> (rx_currency e)) e))
    (* on_treasury_settled *)
    (fun _ => mret tt)
    (* on_slashed *)
    (fun _ => mret tt)
    (* collection_exists *)
    (fun c (e : RefExt) => bool_decide (c ∈ rx_collections e))
    (* create_collection *)
    (fun _ c _ => fun e : RefExt =>
    Ok tt (rx_set_nfts ({[c]} ∪ rx_collections e) (rx_nfts e) (rx_props e) e))
    (* rmrk_mint_nft *)
    (fun _ o n c => fun e : RefExt =>
    match rx_nfts e !! (c, n) with
    | Some _ => Err (ExternalError 4) e
    | None => Ok tt (rx_set_nfts (rx_collections e) (<[(c, n) := o]> (rx_nfts e)) (rx_props e) e)
    end)
    (* nft_burn *)
    (fun o c n => fun e : RefExt =>
    if bool_decide (rx_nfts e !! (c, n) = Some o)
    then Ok tt (rx_set_nfts (rx_collections e) (delete (c, n) (rx_nfts e)) (rx_props e) e)
    else Err (ExternalError 5) e)
    (* set_lock *)
    (fun _ _ _ => mret tt)
    (* lock_remove *)
    (fun _ _ => mret tt)
    (* do_set_property *)
    (fun c n k b => fun e : RefExt =>
    Ok tt (rx_set_nfts (rx_collections e) (rx_nfts e) (<[(c, n, k) := b]> (rx_props e)) e))
    (* do_remove_property *)
    (fun c n k => fun e : RefExt =>
    Ok tt (rx_set_nfts (rx_collections e) (rx_nfts e) (delete (c, n, k) (rx_props e)) e))
    (* properties *)
    (fun c n k (e : RefExt) => rx_props e !! (c, n, k))
    (* owned_in_collection *)
    (fun c a (e : RefExt) =>
    (fun p : Z * Z * Z => p.1.2) <$> filter (fun p : Z * Z * Z => p.1.1 = c /\ p.2 = a)
      (map_to_list (rx_nfts e)))
    (* referendum_ongoing *)
    (fun i (e : RefExt) => bool_decide (i ∈ rx_ongoing e))
    (* democracy_vote *)
    (fun _ i y n => fun e : RefExt =>
    Ok tt (mkRefExt (rx_assets e) (rx_currency e) (rx_collections e) (rx_nfts e) (rx_props e)
      (rx_ongoing e) ((i, y, n) :: rx_votes e)))
    (* randomness *)
    (fun _ _ => 7)
    (* root_or_half_council *)
    (fun o => match o with Root => true | _ => false end)
    (* iter_order *)
    (fun l => l)
    (* btree_order *)
    (merge_sort Z.le).

#[local] Instance ref_permill : PermillSpec ref_pallets.
Proof.
  split; simpl; intros.
  - split; [apply Z.div_pos; nia|]. apply Z.lt_succ_r, Z.div_lt_upper_bound; nia.
  - done.
Qed.

#[local] Instance ref_nft_spec : NftSpec ref_pallets.
Proof.
  refine (@Build_NftSpec ref_config ref_pallets (fun c n (e : RefExt) => rx_nfts e !! (c, n))
    _ _ _ _ _ _ _ _); simpl.
  - intros b o n c e e'. destruct (rx_nfts e !! (c, n)) eqn:Hn; [done|]. intros [= <-]. simpl.
    split_and!; [done|by rewrite lookup_insert_eq| |done].
    intros c' n' Hne. by rewrite lookup_insert_ne by congruence.
  - intros o c n e e'. case_bool_decide as Ho; [|done]. intros [= <-]. simpl.
    split_and!; [done|by rewrite lookup_delete_eq| |done].
    intros c' n' Hne. by rewrite lookup_delete_ne by congruence.
  - intros c n k v e e' [= <-]. simpl. split_and!; [by rewrite lookup_insert_eq|done|].
    intros c' n' k' Hne. by rewrite lookup_insert_ne by congruence.
  - intros c n k e. unfold wp. split; [done|]. intros c' n' k' Hne. simpl.
    by rewrite lookup_delete_ne by congruence.
  - by intros c n b e e' [= <-].
  - by intros c n e e' [= <-].
  - intros a b x e e'. destruct (ledger_move _ _ _ _); [|done]. by intros [= <-].
  - intros c a e. split.
    + apply NoDup_fmap_2_strong; [|apply NoDup_filter, NoDup_map_to_list].
      intros [[c1 n1] o1] [[c2 n2] o2] H1 H2. simpl. intros ->.
      apply list_elem_of_filter in H1 as [[E1 F1] _]. apply list_elem_of_filter in H2 as [[E2 F2] _].
      simpl in *. by subst.
    + intros n. rewrite list_elem_of_fmap. split.
      * intros ([[c1 n1] o1] & -> & H1). apply list_elem_of_filter in H1 as [[E1 F1] H1].
        simpl in *. subst. by apply elem_of_map_to_list in H1.
      * intros Hn. exists (c, n, a). split; [done|]. apply list_elem_of_filter. split; [done|].
        by apply elem_of_map_to_list.
Defined.

#[local] Instance ref_asset_spec : AssetSpec ref_pallets.
Proof.
  split; simpl.
  - intros a e. apply ledger_get_range.
  - intros a b x e e'. destruct (ledger_move _ _ _ _) eqn:Hm; [|done]. intros [= <-] Hab. simpl.
    apply ledger_move_spec in Hm as (_ & _ & H & _). by rewrite (proj1 (H Hab)).
  - intros a b o n c e e'. destruct (rx_nfts e !! (c, n)); [done|]. by intros [= <-].
  - intros a o c n e e'. case_bool_decide; [|done]. by intros [= <-].
  - by intros a c n k v e e' [= <-].
  - by intros a c n k e.
  - by intros a c n b e e' [= <-].
  - by intros a c n e e' [= <-].
Qed.

#[local] Instance ref_backing : BackingSpec ref_pallets.
Proof.
  refine (@Build_BackingSpec ref_config ref_pallets (fun e : RefExt => ledger_sum (rx_assets e))
    (fun a (e : RefExt) => ledger_get (rx_currency e) a) 1
    _ _ _ _ _ _ _ _ _ _ _ _ _ _ _ _ _ _); try done.
  - intros a e. apply ledger_get_le_sum.
  - intros b a x e. unfold wp. simpl. destruct (_ || _) eqn:Hb; [done|]. simpl.
    apply orb_false_iff in Hb as [_ Hb]. apply Z.ltb_ge in Hb. rewrite ledger_sum_insert.
    pose proof (clamp_le (ledger_get (rx_assets e) a + x)). lia.
  - intros b a x e. unfold wp. simpl. rewrite ledger_sum_insert.
    pose proof (ledger_get_range (rx_assets e) a).
    pose proof (clamp_le (ledger_get (rx_assets e) a - Z.min (Z.max 0 x) (ledger_get (rx_assets e) a))). lia.
  - intros c a b x e. unfold wp. simpl. destruct (ledger_move _ _ _ _) eqn:Hm; [|done].
    by apply ledger_move_spec in Hm as (_ & ? & _).
  - intros a b x k e. unfold wp. simpl. destruct (ledger_move _ _ _ _) as [m|] eqn:Hm; [|done]. simpl.
    apply ledger_move_spec in Hm as (Hx & _ & H1 & H2 & H3).
    split_and!; [done|intros Hab; destruct (H1 Hab); lia|intros _|intros c Hc].
    + destruct (decide (a = b)) as [Hab|Hab]; [rewrite (H2 Hab)|rewrite (proj1 (H1 Hab))]; lia.
    + destruct (decide (c = b)) as [->|Hcb]; [|by rewrite H3].
      assert (a <> b) as Hab by done. rewrite (proj2 (H1 Hab)). lia.
  - intros a b x k c e. unfold wp. simpl. by destruct (ledger_move _ _ _ _).
  - intros b a x Hab e. unfold wp. simpl. destruct (_ || _); [done|]. simpl.
    by rewrite ledger_get_insert, decide_False.
  - intros b a x Hab e. unfold wp. simpl. by rewrite ledger_get_insert, decide_False.
  - intros b a o n c e. unfold wp. simpl. by destruct (rx_nfts e !! (c, n)).
  - intros b o c n e. unfold wp. simpl. by case_bool_decide.
Defined.

#[local] Instance ref_iter : IterSpec ref_pallets.
Proof. by split. Qed.

#[local] Instance ref_return : ReturnSpec ref_pallets.
Proof.
  split; try done.
  - intros a b x e. simpl. by destruct (ledger_move _ _ _ _).
  - intros o c n e. simpl. by case_bool_decide.
Qed.

(** The storage of a chain with nothing in it. *)
Definition ref_tokenomic : TokenomicParams :=
  mkTokenomicParams (2 ^ 64) 18446756370554800000 (100 * 2 ^ 64) (30000 * 2 ^ 64) 0 0 0
    (2 ^ 64 / 5) 10 (2 ^ 64 * 3 / 10) 0 (2 ^ 64 * 13 / 10) (100 * 2 ^ 64) (2 ^ 64).

Definition ref_registry : RegistryT.Store :=
  RegistryT.mkStore [] None None 0 None ∅ ∅ ∅ ∅ ∅ None [] ∅ [] (0, 0, 0) 0 (0, 0) ∅ [].

Definition ref_computation : ComputationT.Store :=
  ComputationT.mkStore (Some ref_tokenomic) None 0 None false 1729382256910270464000 0 0
    9005 ∅ ∅ ∅ 604800 0 ∅.

Definition ref_state : State :=
  mkState 1 1000000 [] (MqT.mkStore ∅ None []) ref_registry ref_computation
    (BasePoolT.mkStore ∅ 0 ∅ 0 ∅ ∅ ∅ ∅ ∅) ∅ (StakePoolT.mkStore ∅ ∅ ∅)
    (WrappedT.mkStore ∅ ∅ ∅ 0) (PhatT.mkStore ∅ 0 ∅ ∅ ∅ ∅ (0, []) None None None)
    (OttT.mkStore _ ∅) (PhatTokT.mkStore ∅ ∅ 0) rx_empty.

(** An account of the reference runtime. *)
Definition acct (n : Z) : AccountId (Config := ref_config) := n.

End Reference.

(** The instances, active where a file evaluates on the reference runtime.
    They are not exported by the file itself, so that no generic definition
    can pick one of them.  The profile is the [testnet] one unless a file
    activates the other. *)
Module ReleaseInstances.
#[export] Existing Instance release_profile.
End ReleaseInstances.

Module RefInstances.
#[export] Existing Instance ref_profile.
#[export] Existing Instance fixed_ref.
#[export] Existing Instance fixed_ref_spec.
#[export] Existing Instance ref_config.
#[export] Existing Instance ref_codec.
#[export] Existing Instance ref_tag_spec.
#[export] Existing Instance ref_bytes_spec.
#[export] Existing Instance ref_attr_spec.
#[export] Existing Instance ref_pallets.
#[export] Existing Instance ref_permill.
#[export] Existing Instance ref_nft_spec.
#[export] Existing Instance ref_asset_spec.
#[export] Existing Instance ref_backing.
#[export] Existing Instance ref_iter.
#[export] Existing Instance ref_return.
End RefInstances.
