(* ===== verification/Mq.v ===== *)
(** * The message queue pallet: pallets/cyrux/src/mq.rs and mq/check_seq.rs

    Ingress of signed off-chain messages, dispatch to the on-chain handlers and
    the outbound queue, and the transaction-pool extension that orders ingress.
    The handlers are the [QueueNotifyConfig] of the runtime. *)
From stdpp Require Import prelude gmap list strings.
From Stdlib Require Import ZArith Lia.
From S2P Require Import Prelude Types Externals Reference.

Class QueueNotifyConfig {cfg : Config} := {
  on_message_received : Message -> R unit;
}.

(** [impl QueueNotifyConfig for ()] *)
Definition notify_nothing {cfg : Config} : QueueNotifyConfig := {|
  on_message_received _ := mret tt;
|}.

Module Mq.
Section Mq.
Context {cfg : Config} {codec : Codec} {notify : QueueNotifyConfig}.

(** [QueueNotifyConfig::should_push_message], which the runtime does not override *)
Definition should_push_message (m : Message) : bool := topic_is_offchain (destination m).

Definition dispatch_message (m : Message) : R unit :=
  let* _ := catch (on_message_received m) in
  if should_push_message m
  then upd_mq (fun q => MqT.set_OutboundMessages (MqT.OutboundMessages q ++ [m]) q)
  else mret tt.

Definition push_message_to (topic : Topic) (sender : MessageOrigin) (payload : bytes) : R unit :=
  dispatch_message (mkMessage sender topic payload).

(** [push_bound_message]: the topic is the one bound to the payload's type. *)
Definition push_bound_message (topic : Topic) (sender : MessageOrigin) (payload : bytes) : R unit :=
  push_message_to topic sender payload.

Definition queue_bound_message (topic : Topic) (sender : MessageOrigin) (payload : bytes) : R unit :=
  upd_mq (fun q => MqT.set_QueuedOutboundMessage
    (Some (default [] (MqT.QueuedOutboundMessage q) ++ [mkMessage sender topic payload])) q).

(** [registry::Pallet::verify_signature] and [check_message]; an mq message is
    signed without a wrapper. *)
Definition verify_signature (pubkey : WorkerPublicKey) (m : SignedMessage) : R unit :=
  ensure (bool_decide (length (signature m) = 64%nat))
    (RegistryError RegistryT.InvalidSignatureLength);;;
  ensure (sr25519_signature_ok (signature m)) (RegistryError RegistryT.MalformedSignature);;;
  let data := encode_to_be_signed (message m) (sequence m) in
  ensure (sr25519_verify (signature m) data pubkey) (RegistryError RegistryT.InvalidSignature).

Definition check_message (m : SignedMessage) : R unit :=
  let* reg := gets registry in
  let* pubkey :=
    match sender (message m) with
    | Worker pubkey => mret pubkey
    | Cluster id =>
        ok_or (RegistryT.ClusterKeys reg !! id) (RegistryError RegistryT.UnknownCluster)
    | Contract id =>
        ok_or (RegistryT.ContractKeys reg !! id) (RegistryError RegistryT.UnknownContract)
    | Gatekeeper =>
        ok_or (RegistryT.GatekeeperMasterPubkey reg) (RegistryError RegistryT.MasterKeyUninitialized)
    | _ => fail (RegistryError RegistryT.CannotHandleUnknownMessage)
    end in
  verify_signature pubkey m.

(** The next sequence expected from a sender *)
Definition expected_seq (o : MessageOrigin) (s : State) : Z :=
  default 0 (MqT.OffchainIngress (mq s) !! o).

Inductive Pays := PaysYes | PaysNo.

Definition sync_offchain_message (origin : Origin) (m : SignedMessage) : R Pays :=
  let* _ := ensure_signed origin in
  let o := sender (message m) in
  ensure (is_offchain o) (MqError MqT.BadSender);;;
  ensure (topic_is_valid (destination (message m))) (MqError MqT.BadDestination);;;
  let* expected := gets (expected_seq o) in
  ensure (sequence m =? expected) (MqError MqT.BadSequence);;;
  check_message m;;;
  let* next := arith 64 (expected + 1) in
  upd_mq (fun q => MqT.set_OffchainIngress (<[o := next]> (MqT.OffchainIngress q)) q);;;
  dispatch_message (message m);;;
  mret (match o with Gatekeeper => PaysNo | _ => PaysYes end).

Definition push_message (origin : Origin) (destination : bytes) (payload : bytes) : R unit :=
  let* who := ensure_signed origin in
  dispatch_message (mkMessage (AccountIdOrigin (into_h256 who)) destination payload).

Definition force_push_pallet_message (origin : Origin) (destination payload : bytes) : R unit :=
  ensure_root origin;;;
  dispatch_message (mkMessage (Pallet (bytes_of_string "ForcePushed")) destination payload).

Definition on_initialize : R unit :=
  upd_mq (MqT.set_OutboundMessages []);;;
  let* queued := gets (fun s => MqT.QueuedOutboundMessage (mq s)) in
  match queued with
  | None => mret tt
  | Some msgs =>
      upd_mq (MqT.set_QueuedOutboundMessage None);;;
      for_each msgs dispatch_message
  end.

(** ** The [CheckMqSequence] signed extension *)

Inductive Call :=
| sync_offchain_message_call (signed_message : SignedMessage)
| other_call.

Inductive InvalidTransaction := Stale | Future.

Definition pre_dispatch (c : Call) (s : State) : option InvalidTransaction :=
  match c with
  | sync_offchain_message_call m =>
      let expected := expected_seq (sender (message m)) s in
      if sequence m =? expected then None
      else if sequence m <? expected then Some Stale else Some Future
  | other_call => None
  end.

Record ValidTransaction := mkValidTransaction { provides : list bytes; requires : list bytes }.

Definition tag (o : MessageOrigin) (seq : Z) : bytes := encode_tag o seq.

Definition validate (c : Call) (s : State) : ValidTransaction + InvalidTransaction :=
  match c with
  | sync_offchain_message_call m =>
      let o := sender (message m) in
      let expected := expected_seq o s in
      if sequence m <? expected then inr Stale
      else inl (mkValidTransaction [tag o (sequence m)]
             (if sequence m >? expected then [tag o (sequence m - 1)] else []))
  | other_call => inl (mkValidTransaction [] [])
  end.

End Mq.
End Mq.

(** ** Interface to the handlers

    What the queue needs of the handlers: they do not touch the ingress
    counters, they only append to the outbound queue and do not use the
    next-block queue. *)
Class QueueNotifySpec {cfg : Config} (notify : QueueNotifyConfig) := {
  notify_keeps_ingress : forall m, keeps (fun s => MqT.OffchainIngress (mq s)) (on_message_received m);
  notify_keeps_queued : forall m, keeps (fun s => MqT.QueuedOutboundMessage (mq s)) (on_message_received m);
  notify_appends : forall m s,
    wp True (on_message_received m)
      (fun _ s' => MqT.OutboundMessages (mq s) `prefix_of` MqT.OutboundMessages (mq s'))
      (fun _ s' => MqT.OutboundMessages (mq s) `prefix_of` MqT.OutboundMessages (mq s')) s;
}.

#[export] Instance notify_nothing_spec {cfg : Config} : QueueNotifySpec notify_nothing.
Proof. split; [by intros m s|by intros m s|]. intros m s. by apply wp_ret. Qed.

(** A topic no handler is routed to. *)
Class QuietTopic {cfg : Config} (notify : QueueNotifyConfig) (t : Topic) : Prop :=
  quiet_topic : forall m s, destination m = t -> on_message_received m s = Ok tt s.

#[export] Instance notify_nothing_quiet {cfg : Config} t : QuietTopic notify_nothing t.
Proof. by intros m s. Qed.

Module MqFacts.
Import Mq.

Section Quiet.
Context {cfg : Config} {notify : QueueNotifyConfig}.

Lemma push_bound_message_quiet t `{!QuietTopic notify t} o p s :
  push_bound_message t o p s =
  Ok tt (if topic_is_offchain t
         then set_mq (MqT.set_OutboundMessages
                (MqT.OutboundMessages (mq s) ++ [mkMessage o t p]) (mq s)) s
         else s).
Proof.
  unfold push_bound_message, push_message_to, dispatch_message, mbind, catch.
  rewrite quiet_topic by done. unfold should_push_message. simpl.
  by destruct (topic_is_offchain t).
Qed.

Lemma keeps_push_quiet {T} (f : State -> T) t `{!QuietTopic notify t} o p :
  (forall s q, f (set_mq q s) = f s) -> keeps f (push_bound_message t o p).
Proof.
  intros Hf s. unfold wp. rewrite push_bound_message_quiet by done.
  destruct (topic_is_offchain t); [apply Hf|done].
Qed.

End Quiet.
Section Facts.
Context {cfg : Config} {codec : Codec} {notify : QueueNotifyConfig} {ns : QueueNotifySpec notify}.

Lemma dispatch_keeps_ingress m : keeps (fun s => MqT.OffchainIngress (mq s)) (dispatch_message m).
Proof. pose proof notify_keeps_ingress. unfold dispatch_message. solve_keeps. Qed.

Lemma dispatch_keeps_queued m :
  keeps (fun s => MqT.QueuedOutboundMessage (mq s)) (dispatch_message m).
Proof. pose proof notify_keeps_queued. unfold dispatch_message. solve_keeps. Qed.

Lemma check_message_pure {T} (f : State -> T) m : keeps f (check_message m).
Proof. unfold check_message, verify_signature. solve_keeps. Qed.

(** A message is accepted only in sequence, from an off-chain sender, with a
    verified signature; its sender's counter moves by one and no other does. *)
Lemma sync_ok origin m pays s s' :
  sync_offchain_message origin m s = Ok pays s' ->
  let o := sender (message m) in
  is_offchain o = true /\ topic_is_valid (destination (message m)) = true /\
  sequence m = expected_seq o s /\ check_message m s = Ok tt s /\
  exists next, arith (E := DispatchError) 64 (sequence m + 1) s = Ok next s /\
    MqT.OffchainIngress (mq s') = <[o := next]> (MqT.OffchainIngress (mq s)).
Proof.
  intros H o. revert H.
  apply (wp_ok True _ (fun _ s' => is_offchain o = true /\
    topic_is_valid (destination (message m)) = true /\
    sequence m = expected_seq o s /\ check_message m s = Ok tt s /\
    exists next, arith (E := DispatchError) 64 (sequence m + 1) s = Ok next s /\
      MqT.OffchainIngress (mq s') = <[o := next]> (MqT.OffchainIngress (mq s))) (fun _ _ => True)).
  unfold sync_offchain_message. apply wp_bind. unfold ensure_signed. wp_steps; try done.
  rename H into Ho, H0 into Hv, H1 into Hs. apply Z.eqb_eq in Hs.
  rewrite <- Hs. unfold wp at 1. destruct (check_message m s) as [[] s0|e s0| |] eqn:Hck; try done.
  pose proof (keeps_ok id _ _ _ _ (check_message_pure id m) Hck) as Hid. unfold id in Hid. subst s0.
  apply wp_bind. unfold wp at 1.
  destruct (arith 64 (sequence m + 1) s) as [next s0|e s0| |] eqn:Ha; try done.
  pose proof (keeps_ok id _ _ _ _ (keeps_arith id 64 (sequence m + 1)) Ha) as Hid. unfold id in Hid.
  subst s0. unfold upd_mq. apply wp_bind, wp_modify, wp_bind.
  eapply keeps_wp; [done|apply dispatch_keeps_ingress| |done].
  intros _ s1 Hs1. apply wp_ret. split_and!; eauto.
Qed.

(** Runs of the chain seen from the ingress counters: accepted messages, and
    anything else, which leaves the counters alone. *)
Inductive ingress_run : State -> list SignedMessage -> State -> Prop :=
| run_nil s : ingress_run s [] s
| run_sync s l s' origin m pays s'' :
    ingress_run s l s' -> sync_offchain_message origin m s' = Ok pays s'' ->
    ingress_run s (l ++ [m]) s''
| run_other s l s' s'' :
    ingress_run s l s' -> MqT.OffchainIngress (mq s'') = MqT.OffchainIngress (mq s') ->
    ingress_run s l s''.

Definition seqs_of (o : MessageOrigin) (l : list SignedMessage) : list Z :=
  sequence <$> filter (fun m => sender (message m) = o) l.

Lemma seqs_of_snoc o l m :
  seqs_of o (l ++ [m]) =
  seqs_of o l ++ (if decide (sender (message m) = o) then [sequence m] else []).
Proof.
  unfold seqs_of. rewrite filter_app, fmap_app. f_equal.
  rewrite filter_cons, filter_nil. by case_decide.
Qed.

Lemma seqs_of_length o l : (length (seqs_of o l) <= length l)%nat.
Proof. unfold seqs_of. rewrite length_fmap. apply length_filter. Qed.

Lemma ingress_run_inv s l s' o :
  MqT.OffchainIngress (mq s) = ∅ -> ingress_run s l s' -> Z.of_nat (length l) < 2 ^ 64 ->
  seqs_of o l = seqZ 0 (expected_seq o s') /\
  expected_seq o s' = Z.of_nat (length (seqs_of o l)).
Proof.
  intros H0 Hr. revert o. induction Hr as [s|s l s' origin m pays s'' Hr IH Hm|s l s' s'' Hr IH He];
    intros o Hl.
  - unfold expected_seq. rewrite H0, lookup_empty. done.
  - rewrite length_app in Hl. simpl in Hl.
    destruct (IH H0 o ltac:(lia)) as [IH1 IH2].
    apply sync_ok in Hm as (_ & _ & Hseq & _ & next & Hn & Hi).
    unfold expected_seq in *. rewrite Hi, seqs_of_snoc. case_decide as Hd.
    + subst o. rewrite lookup_insert_eq. simpl.
      pose proof (seqs_of_length (sender (message m)) l).
      rewrite arith_fits in Hn by (rewrite Hseq, IH2; lia). injection Hn as <-.
      rewrite length_app. cbn [length]. rewrite Hseq in *.
      set (n := default 0 _) in *. split; [|lia].
      rewrite seqZ_app, IH1 by lia. done.
    + rewrite lookup_insert_ne by done. rewrite app_nil_r. done.
  - unfold expected_seq. rewrite He. apply IH; done.
Qed.

Lemma dispatch_message_outbound m s :
  wp True (dispatch_message m) (fun _ s' => exists l,
    MqT.OutboundMessages (mq s') = MqT.OutboundMessages (mq s) ++ l /\
    filter (fun m => should_push_message m = true) [m] `sublist_of` l) (fun _ _ => True) s.
Proof.
  unfold dispatch_message, upd_mq. apply wp_bind, wp_catch.
  eapply wp_mono; [apply notify_appends| |]; simpl.
  all: intros _ s1 [l Hl]; rewrite filter_cons, filter_nil;
    destruct (should_push_message m) eqn:Hp; apply wp_ret || apply wp_modify; simpl; rewrite Hl.
  all: try (rewrite <- app_assoc); eexists; split; eauto;
    first [apply sublist_inserts_l; done | apply sublist_nil_l | idtac].
Qed.

Lemma dispatch_all_outbound msgs s :
  wp True (for_each msgs dispatch_message) (fun _ s' => exists l,
    MqT.OutboundMessages (mq s') = MqT.OutboundMessages (mq s) ++ l /\
    filter (fun m => should_push_message m = true) msgs `sublist_of` l) (fun _ _ => True) s.
Proof.
  revert s. induction msgs as [|m msgs IH]; intros s; simpl.
  - apply wp_ret. exists []. by rewrite app_nil_r.
  - apply wp_bind. eapply wp_mono; [apply dispatch_message_outbound| |done].
    intros [] s1 (l1 & Hl1 & Hs1). eapply wp_mono; [apply IH| |done].
    intros [] s2 (l2 & Hl2 & Hs2). exists (l1 ++ l2). rewrite Hl2, Hl1, app_assoc. split; [done|].
    change (m :: msgs) with ([m] ++ msgs). rewrite filter_app. by apply sublist_app.
Qed.

End Facts.

Section PoolOrder.
Context {cfg : Config} {codec : Codec}.

(** Transactions a pool may put in one block after validating them all at [s]:
    each comes after transactions that provide what it requires. *)
Inductive pool_order (s : State) : list SignedMessage -> Prop :=
| pool_nil : pool_order s []
| pool_snoc l m vt :
    pool_order s l -> validate (sync_offchain_message_call m) s = inl vt ->
    (forall t, t ∈ requires vt -> exists m', m' ∈ l /\ t = tag (sender (message m')) (sequence m')) ->
    pool_order s (l ++ [m]).

Lemma pool_order_prev {ts : TagSpec codec} s l1 m l2 :
  pool_order s (l1 ++ m :: l2) -> expected_seq (sender (message m)) s < sequence m ->
  exists m', m' ∈ l1 /\ sender (message m') = sender (message m) /\ sequence m' = sequence m - 1.
Proof.
  intros Hp Hlt. remember (l1 ++ m :: l2) as l eqn:Hl. revert l1 m l2 Hl Hlt.
  induction Hp as [|l m0 vt Hp IH Hv Hreq]; intros l1 m l2 Hl Hlt.
  - by destruct l1.
  - destruct l2 as [|x l2 _] using rev_ind.
    + apply app_inj_tail in Hl as [-> ->]. simpl in Hv.
      assert ((sequence m <? expected_seq (sender (message m)) s) = false) as E1 by lia.
      assert ((sequence m >? expected_seq (sender (message m)) s) = true) as E2 by lia.
      rewrite E1, E2 in Hv. injection Hv as <-.
      destruct (Hreq _ ltac:(by left)) as (m' & Hm' & Ht).
      unfold tag in Ht. apply encode_tag_inj in Ht as [Ho Hs]. eauto.
    + rewrite app_comm_cons, app_assoc in Hl. apply app_inj_tail in Hl as [-> _].
      eapply IH; eauto.
Qed.

Lemma pool_order_prefix s l1 l2 : pool_order s (l1 ++ l2) -> pool_order s l1.
Proof.
  induction l2 as [|x l2 IH] using rev_ind; [by rewrite app_nil_r|].
  rewrite app_assoc. intros Hp. apply IH. inversion Hp as [Hn|l m vt Hp' Hv Hr Hl].
  - by destruct (app_cons_not_nil (l1 ++ l2) [] x).
  - apply app_inj_tail in Hl as [-> _]. done.
Qed.

End PoolOrder.

(** ** Properties *)
Section Properties.
Context {cfg : Config} {codec : Codec} {notify : QueueNotifyConfig} {ns : QueueNotifySpec notify}.

(** C14: over any run of the chain that starts with no ingress recorded, the
    messages accepted from a sender carry exactly the sequence numbers
    0, 1, ..., n-1, in this order, where n is the sender's counter: no message
    is replayed, skipped or reordered. *)
Theorem ingress_exactly_once_in_order s l s' :
  MqT.OffchainIngress (mq s) = ∅ -> ingress_run s l s' -> Z.of_nat (length l) < 2 ^ 64 ->
  forall o, seqs_of o l = seqZ 0 (expected_seq o s').
Proof. intros H0 Hr Hl o. by apply (ingress_run_inv s l s' o). Qed.

(** [sync_offchain_message] accepts a message only from an off-chain
    sender, to a valid topic, with the expected sequence and a signature that
    verifies under the key registered for the sender; it then advances that
    sender's counter by one and no other.  A rejected message changes nothing. *)
Theorem sync_offchain_message_guards origin m s :
  match sync_offchain_message origin m s with
  | Ok _ s' =>
      let o := sender (message m) in
      is_offchain o = true /\ topic_is_valid (destination (message m)) = true /\
      sequence m = expected_seq o s /\ check_message m s = Ok tt s /\
      (sequence m + 1 < 2 ^ 64 -> 0 <= sequence m -> expected_seq o s' = sequence m + 1) /\
      (forall o', o' <> o -> expected_seq o' s' = expected_seq o' s)
  | Err _ s' => s' = s
  | _ => True
  end.
Proof.
  destruct (sync_offchain_message origin m s) as [pays s'|e s'| |] eqn:H; try done.
  - apply sync_ok in H as (Ho & Hv & Hs & Hc & next & Hn & Hi). split_and!; try done.
    + intros Hb H0. rewrite arith_fits in Hn by lia. injection Hn as <-.
      unfold expected_seq. by rewrite Hi, lookup_insert_eq.
    + intros o' Ho'. unfold expected_seq. by rewrite Hi, lookup_insert_ne.
  - revert H. apply (wp_err True _ (fun _ _ => True) (fun _ s' => s' = s)).
    unfold sync_offchain_message. apply wp_bind. unfold ensure_signed. wp_steps; try done.
    eapply wp_mono; [apply (check_message_pure id)| |done]. unfold id. intros _ ? ->.
    apply wp_bind. eapply wp_mono; [apply (keeps_arith id)| |done]. unfold id. intros n ? ->.
    unfold upd_mq. apply wp_bind, wp_modify, wp_bind. unfold dispatch_message.
    apply wp_bind, wp_catch. unfold wp at 1.
    destruct (on_message_received (message m) _); try done;
      destruct (should_push_message (message m)); done.
Qed.

(** At the start of a block the outbound queue is the previous block's
    queued messages that have an off-chain topic, in order and with nothing
    lost (handlers may add their own in between), and the queue is emptied. *)
Theorem on_initialize_flushes_queue s s' :
  on_initialize s = Ok tt s' ->
  filter (fun m => should_push_message m = true) (default [] (MqT.QueuedOutboundMessage (mq s)))
    `sublist_of` MqT.OutboundMessages (mq s') /\
  MqT.QueuedOutboundMessage (mq s') = None.
Proof.
  apply (wp_ok True _ (fun _ s' =>
    filter (fun m => should_push_message m = true) (default [] (MqT.QueuedOutboundMessage (mq s)))
      `sublist_of` MqT.OutboundMessages (mq s') /\ MqT.QueuedOutboundMessage (mq s') = None)
    (fun _ _ => True)).
  unfold on_initialize, upd_mq. wp_steps; simpl in *.
  - rewrite Heqo. simpl.
    pose proof (dispatch_all_outbound l (set_mq (MqT.set_QueuedOutboundMessage None
      (MqT.set_OutboundMessages [] (mq s))) s)) as Hd.
    pose proof (keeps_for_each (fun s => MqT.QueuedOutboundMessage (mq s)) l dispatch_message
      dispatch_keeps_queued (set_mq (MqT.set_QueuedOutboundMessage None
      (MqT.set_OutboundMessages [] (mq s))) s)) as Hk.
    unfold wp in *. simpl in *. destruct (for_each l dispatch_message _); try done.
    destruct Hd as (l' & -> & Hl'). done.
  - rewrite Heqo. simpl. split; [apply sublist_nil_l|done].
Qed.

End Properties.

Section PoolProperties.
Context {cfg : Config} {codec : Codec}.

(** Whatever transactions the pool validates against a state and orders by
    their tags, a message is preceded by messages of the same sender with every
    sequence number from the expected one up to its own. *)
Theorem pool_order_contiguous {ts : TagSpec codec} s l1 m l2 :
  pool_order s (l1 ++ m :: l2) ->
  forall n, expected_seq (sender (message m)) s <= n < sequence m ->
  exists m', m' ∈ l1 /\ sender (message m') = sender (message m) /\ sequence m' = n.
Proof.
  intros Hp n Hn. assert (exists k : nat, sequence m - n = Z.of_nat (S k)) as [k Hk].
  { exists (Z.to_nat (sequence m - n - 1)). lia. }
  revert l1 m l2 Hp Hn Hk. induction k as [|k IH]; intros l1 m l2 Hp Hn Hk.
  - destruct (pool_order_prev s l1 m l2 Hp ltac:(lia)) as (m' & ? & ? & ?).
    exists m'. split_and!; [done|done|lia].
  - destruct (pool_order_prev s l1 m l2 Hp ltac:(lia)) as (m' & Hin & Ho & Hs).
    apply list_elem_of_split in Hin as (l3 & l4 & ->).
    destruct (IH l3 m' l4) as (m'' & Hin & Ho' & Hs').
    + by apply (pool_order_prefix s _ (m :: l2)).
    + rewrite Ho. lia.
    + lia.
    + exists m''. split_and!; [set_solver|congruence|done].
Qed.

End PoolProperties.

(** ** Witnesses, on the reference runtime with no handler *)
Import RefInstances.

Definition wit_msg (n : Z) : SignedMessage :=
  mkSignedMessage (mkMessage (Worker 5) (bytes_of_string "cyrux/mining/report") [1; 2; 3; n]) n
    (replicate 64 0).

Definition wit_sync (n : Z) (s : State) : State :=
  final (sync_offchain_message (notify := notify_nothing) (Signed (acct 1)) (wit_msg n)) s.

Lemma wit_run :
  ingress_run (notify := notify_nothing) ref_state [wit_msg 0; wit_msg 1] (wit_sync 1 (wit_sync 0 ref_state)).
Proof.
  apply (run_sync ref_state [wit_msg 0] (wit_sync 0 ref_state) (Signed (acct 1)) (wit_msg 1) PaysYes).
  - apply (run_sync ref_state [] ref_state (Signed (acct 1)) (wit_msg 0) PaysYes); [apply run_nil|].
    vm_compute. reflexivity.
  - vm_compute. reflexivity.
Qed.

Lemma ingress_exactly_once_in_order_witness :
  seqs_of (Worker 5) [wit_msg 0; wit_msg 1]
  = seqZ 0 (expected_seq (Worker 5) (wit_sync 1 (wit_sync 0 ref_state))).
Proof.
  apply (ingress_exactly_once_in_order (notify := notify_nothing) ref_state).
  - reflexivity.
  - apply wit_run.
  - simpl. lia.
Defined.

Lemma sync_offchain_message_guards_witness :
  exists s', sync_offchain_message (notify := notify_nothing) (Signed (acct 1)) (wit_msg 0) ref_state
      = Ok PaysYes s' /\ expected_seq (Worker 5) s' = 1.
Proof.
  exists (wit_sync 0 ref_state).
  pose proof (sync_offchain_message_guards (notify := notify_nothing) (Signed (acct 1)) (wit_msg 0) ref_state) as H.
  assert (He : sync_offchain_message (notify := notify_nothing) (Signed (acct 1)) (wit_msg 0) ref_state
      = Ok PaysYes (wit_sync 0 ref_state)) by (vm_compute; reflexivity).
  rewrite He in H. split; [exact He|].
  destruct H as (_ & _ & _ & _ & H & _). apply H; simpl; lia.
Defined.

Lemma pool_order_contiguous_witness :
  exists m', m' ∈ [wit_msg 0; wit_msg 1] /\ sender (message m') = Worker 5 /\ sequence m' = 0.
Proof.
  apply (pool_order_contiguous (codec := ref_codec) ref_state [wit_msg 0; wit_msg 1] (wit_msg 2) []).
  - apply (pool_snoc ref_state [wit_msg 0; wit_msg 1] (wit_msg 2)
      (mkValidTransaction [tag (Worker 5) 2] [tag (Worker 5) 1])); [|reflexivity|].
    + apply (pool_snoc ref_state [wit_msg 0] (wit_msg 1)
        (mkValidTransaction [tag (Worker 5) 1] [tag (Worker 5) 0])); [|reflexivity|].
      * apply (pool_snoc ref_state [] (wit_msg 0)
          (mkValidTransaction [tag (Worker 5) 0] [])); [apply pool_nil|reflexivity|].
        intros t Ht. by apply not_elem_of_nil in Ht.
      * intros t Ht. apply list_elem_of_singleton in Ht as ->. exists (wit_msg 0). split; [by left|done].
    + intros t Ht. apply list_elem_of_singleton in Ht as ->. exists (wit_msg 1). split; [right; by left|done].
  - vm_compute. split; [discriminate|reflexivity].
Defined.

Definition wit_queued : State :=
  final (queue_bound_message SystemEvent_topic (Pallet []) [1; 2]) ref_state.

Lemma on_initialize_flushes_queue_witness :
  [mkMessage (Pallet []) SystemEvent_topic [1; 2]]
    `sublist_of` MqT.OutboundMessages (mq (final (on_initialize (notify := notify_nothing)) wit_queued)).
Proof.
  apply (on_initialize_flushes_queue (notify := notify_nothing) wit_queued
    (final (on_initialize (notify := notify_nothing)) wit_queued)).
  vm_compute. reflexivity.
Defined.

End MqFacts.
