(* ===== verification/Computation.v ===== *)
(** * The computation pallet: pallets/cyrux/src/compute/computation.rs

    Binding of workers to sessions, the life cycle of a computing session
    (ready, idle, unresponsive, cooling down), its stake, heartbeats and the
    settlement of rewards reported by the gatekeeper. *)
From stdpp Require Import prelude gmap list strings.
From Stdlib Require Import ZArith Lia.
From S2P Require Import Prelude Types Externals BalanceConvert Mq.

(** The [OnReward], [OnUnbound] and [OnStopped] subscribers of the pallet. *)
Class ComputationHooks {cfg : Config} := {
  hook_on_reward : list SettleInfo -> R unit;
  hook_on_unbound : WorkerPublicKey -> bool -> R unit;
  hook_on_stopped : WorkerPublicKey -> Balance -> Balance -> R unit;
}.

Module Computation.
Import ComputationT.

Definition DEFAULT_EXPECTED_HEARTBEAT_COUNT : Z := 20.
Definition BUDGET_SAFE_MULTIPLIER : Z := 2.
Definition RANDOMNESS_SUBJECT : list Z := bytes_of_string "cyruxPoW".

Definition can_unbind (st : WorkerState) : bool :=
  match st with Ready | WorkerCoolingDown => true | _ => false end.

Definition can_settle (st : WorkerState) : bool :=
  match st with WorkerIdle | WorkerUnresponsive => true | _ => false end.

Definition is_computing (st : WorkerState) : bool :=
  match st with WorkerIdle | WorkerUnresponsive => true | _ => false end.

(** [Tokenomic::confidence_score]: 1, 1, 1, 0.8 and 0.7 in [U64F64] bits *)
Definition confidence_score (level : Z) : Z :=
  match level with
  | 4 => 14757395258967641293
  | 5 => 12912720851596686131
  | _ => 2 ^ 64
  end.

Section Pure.
Context {S E : Type} {cfg : Config} {F : FixedLib}.

(** [Benchmark::update]; [None] is its [Err(())]. *)
Definition benchmark_update (b : Benchmark) (now iterations challenge_time : Z) : M S E (option Benchmark) :=
  if now <=? challenge_time_last b then mret None
  else
    let iter0 := if iterations <? bm_iterations b then iterations else bm_iterations b in
    let delta_ts := now - challenge_time_last b in
    let delta_iter := iterations - iter0 in
    let* d6 := arith 64 (delta_iter * 6) in
    let* q := div_u d6 delta_ts in
    let p := q mod 2 ^ 32 in
    let* p12 := arith 32 (p_init b * 12) in
    mret (Some (mkBenchmark (p_init b) (Z.min p (p12 / 10)) iterations (working_start_time b) challenge_time)).

(** [SessionInfo::calc_final_stake]: slashing is disabled. *)
Definition calc_final_stake (i : SessionInfo) (orig_stake : Balance) : Balance * Balance := (orig_stake, 0).

(** [SessionStats::on_reward] *)
Definition stats_on_reward (st : SessionStats) (payout_bits : Z) : M S E SessionStats :=
  let* payout := from_bits payout_bits in
  let* t := arith 128 (total_reward st + payout) in
  mret (mkSessionStats t).

Definition minimal_stake (t : TokenomicParams) (p : Z) : M S E Balance :=
  let* m := expect_some (fx_mul (k_bits t) (fx_sqrt (fx_from_num p))) in
  from_fixed m.

Definition rig_cost (t : TokenomicParams) (p : Z) : M S E Z :=
  let* kp := expect_some (fx_mul (rig_k t) (fx_from_num p)) in
  expect_some (fx_add kp (rig_b t)).

Definition tokenomic_ve (t : TokenomicParams) (s : Balance) (p confidence_level : Z) : M S E Z :=
  let f1 := fx_from_num 1 in
  let score := confidence_score confidence_level in
  let* r := expect_some (fx_sub (re_bits t) f1) in
  let* rs := expect_some (fx_mul r score) in
  let* tweaked_re := expect_some (fx_add rs f1) in
  let* s := to_fixed s in
  let* c := rig_cost t p in
  let* sc := expect_some (fx_add s c) in
  expect_some (fx_mul tweaked_re sc).

(** [v_max] *)
Definition tokenomic_v_max (t : TokenomicParams) : Z := v_max_bits t.

Definition pow_target (num_tx num_workers secs_per_block : Z) : M S E Z :=
  if num_workers =? 0 then mret 0
  else
    let* nw := expect_some (u32f32_from_num num_workers) in
    let* nt := expect_some (u32f32_from_num num_tx) in
    let* two := expect_some (u32f32_from_num 2) in
    let* nw2 := expect_some (u32f32_mul nw two) in
    let* bph := div_u 3600 secs_per_block in
    let* bph := expect_some (u32f32_from_num bph) in
    let* max_tx := expect_some (u32f32_div nw2 bph) in
    let target_tx := Z.min nt max_tx in
    let* ratio := expect_some (u32f32_div target_tx nw) in
    let* shifted := expect_some (u32f32_checked_shl ratio 24) in
    let frac := u32f32_to_u32 shifted in
    let t := (2 ^ 256 - 1) / 2 ^ 24 * frac in
    if in_width 256 t then mret t else panic.

End Pure.

Section Pallet.
Context {cfg : Config} {F : FixedLib} {codec : Codec} {pal : Pallets}
  {notify : QueueNotifyConfig} {hooks : ComputationHooks}.

(** [MessageOriginInfo::message_origin]: the name given to the pallet by the runtime *)
Definition message_origin : MessageOrigin := Pallet (bytes_of_string "cyruxComputation").

Definition push_system_event (e : SystemEvent) : R unit :=
  Mq.push_bound_message SystemEvent_topic message_origin (encode_SystemEvent e).

Definition push_gatekeeper_event (e : GatekeeperEvent) : R unit :=
  Mq.push_bound_message GatekeeperEvent_topic message_origin (encode_GatekeeperEvent e).

Definition emit (e : Event) : R unit := deposit_event (ComputationEv e).

Definition get_session (a : AccountId) : R (option SessionInfo) :=
  gets (fun s => Sessions (computation s) !! a).

Definition put_session (a : AccountId) (i : SessionInfo) : R unit :=
  upd_computation (fun c => set_Sessions (<[a := i]> (Sessions c)) c).

Definition get_worker (k : WorkerPublicKey) : R (option WorkerInfoV2) :=
  gets (fun s => RegistryT.Workers (registry s) !! k).

Definition update_tokenomic_parameters (params : TokenomicParams) : R unit :=
  upd_computation (set_TokenomicParameters (Some params));;;
  push_gatekeeper_event (TokenomicParametersChanged params);;;
  emit TokenomicParametersChangedEvent.

Definition withdraw_subsidy_pool (target : AccountId) (value : Balance) : R unit :=
  extc (currency_transfer computing_account_id target value true).

Definition withdraw_imbalance_from_subsidy_pool (value : Balance) : R Balance :=
  extc (currency_withdraw computing_account_id value).

Definition tokenomic : R TokenomicParams :=
  let* p := gets (fun s => TokenomicParameters (computation s)) in
  ok_or p (ComputationError InternalErrorBadTokenomicParameters).

Definition ensure_worker_bound (pubkey : WorkerPublicKey) : R AccountId :=
  let* b := gets (fun s => WorkerBindings (computation s) !! pubkey) in
  ok_or b (ComputationError WorkerNotBound).

Definition ensure_session_bound (session : AccountId) : R WorkerPublicKey :=
  let* b := gets (fun s => SessionBindings (computation s) !! session) in
  ok_or b (ComputationError SessionNotBound).

Definition can_reclaim (i : SessionInfo) (check_cooldown : bool) : R bool :=
  if negb (bool_decide (state i = WorkerCoolingDown)) then mret false
  else if negb check_cooldown then mret true
  else
    let* now := now_sec in
    let* d := arith 64 (now - cool_down_start i) in
    let* period := gets (fun s => CoolDownPeriod (computation s)) in
    mret (d >=? period).

Definition reclaim (session : AccountId) (check_cooldown : bool) : R (Balance * Balance) :=
  let* i := get_session session in
  let* i := ok_or i (ComputationError SessionNotFound) in
  let* can := can_reclaim i check_cooldown in
  ensure can (ComputationError CoolDownNotReady);;;
  let i := set_cool_down_start 0 (set_state Ready i) in
  put_session session i;;;
  let* stake := gets (fun s => Stakes (computation s) !! session) in
  upd_computation (fun c => set_Stakes (delete session (Stakes c)) c);;;
  let orig_stake := default 0 stake in
  let slashed := snd (calc_final_stake i orig_stake) in
  emit (WorkerReclaimed session orig_stake slashed);;;
  mret (orig_stake, slashed).

(** [registry::Pallet::is_worker_registered_after_gk_launched] *)
Definition is_worker_registered_after_gk_launched (worker : WorkerPublicKey) : R bool :=
  let* reg := gets registry in
  mret (match RegistryT.WorkerAddedAt reg !! worker with
        | None => false
        | Some worker_added_at =>
            match RegistryT.GatekeeperLaunchedAt reg with
            | None => false
            | Some (gk_launched_at, _) => worker_added_at >? gk_launched_at
            end
        end).

Definition bind (session : AccountId) (pubkey : WorkerPublicKey) : R unit :=
  let* worker := get_worker pubkey in
  let* worker := ok_or worker (ComputationError WorkerNotRegistered) in
  (if CheckWorkerRegisterTime then
     let* after := is_worker_registered_after_gk_launched pubkey in
     ensure after (ComputationError WorkerReregisterNeeded)
   else mret tt);;;
  ensure (bool_decide (is_Some (initial_score worker))) (ComputationError BenchmarkMissing);;;
  let* sb := catch (ensure_session_bound session) in
  ensure (match sb with inr _ => true | inl _ => false end) (ComputationError DuplicateBoundSession);;;
  let* wb := catch (ensure_worker_bound pubkey) in
  ensure (match wb with inr _ => true | inl _ => false end) (ComputationError DuplicateBoundWorker);;;
  let* prev := get_session session in
  let can_bind := match prev with Some i => bool_decide (state i = Ready) | None => true end in
  ensure can_bind (ComputationError WorkerNotReady);;;
  let* now := now_sec in
  upd_computation (fun c => set_SessionBindings (<[session := pubkey]> (SessionBindings c)) c);;;
  upd_computation (fun c => set_WorkerBindings (<[pubkey := session]> (WorkerBindings c)) c);;;
  put_session session
    (mkSessionInfo Ready 0 0 now (mkBenchmark 0 0 0 now 0) 0 (mkSessionStats 0));;;
  emit (SessionBound session pubkey).

Definition stop_computing (session : AccountId) : R unit :=
  let* worker := gets (fun s => SessionBindings (computation s) !! session) in
  let* worker := ok_or worker (ComputationError SessionNotBound) in
  let* i := get_session session in
  let* i := ok_or i (ComputationError SessionNotFound) in
  ensure (negb (bool_decide (state i = Ready)) && negb (bool_decide (state i = WorkerCoolingDown)))
    (ComputationError WorkerNotComputing);;;
  let* now := now_sec in
  let i := set_cool_down_start now (set_state WorkerCoolingDown i) in
  put_session session i;;;
  let* online := gets (fun s => OnlineWorkers (computation s)) in
  let* online' := arith 32 (online - 1) in
  upd_computation (set_OnlineWorkers online');;;
  let* stake := gets (fun s => Stakes (computation s) !! session) in
  let orig_stake := default 0 stake in
  let slashed := snd (calc_final_stake i orig_stake) in
  hook_on_stopped worker orig_stake slashed;;;
  push_system_event (WorkerEventWithKey worker Stopped);;;
  emit (WorkerStopped session).

Definition unbind_session (session : AccountId) (notify_hook : bool) : R unit :=
  let* worker := ensure_session_bound session in
  let* i := get_session session in
  let* i := expect_some i in
  let force := negb (can_unbind (state i)) in
  (if force then stop_computing session else mret tt);;;
  upd_computation (fun c => set_SessionBindings (delete session (SessionBindings c)) c);;;
  upd_computation (fun c => set_WorkerBindings (delete worker (WorkerBindings c)) c);;;
  emit (SessionUnbound session worker);;;
  if notify_hook then hook_on_unbound worker force else mret tt.

Definition start_computing (session : AccountId) (stake : Balance) : R unit :=
  let* worker := gets (fun s => SessionBindings (computation s) !! session) in
  let* worker := ok_or worker (ComputationError SessionNotFound) in
  let* i := get_session session in
  let* i := expect_some i in
  ensure (bool_decide (state i = Ready)) (ComputationError WorkerNotReady);;;
  let* old := gets (fun s => Stakes (computation s) !! session) in
  ensure (bool_decide (old = None)) (ComputationError InternalErrorCannotStartWithExistingStake);;;
  let* info := get_worker worker in
  let* info := expect_some info in
  let* p := ok_or (initial_score info) (ComputationError BenchmarkMissing) in
  ensure (p >=? MinInitP) (ComputationError BenchmarkTooLow);;;
  let* t := tokenomic in
  let* min_stake := minimal_stake t p in
  ensure (stake >=? min_stake) (ComputationError InsufficientStake);;;
  let* ve := tokenomic_ve t stake p (confidence_level info) in
  ensure (ve <=? tokenomic_v_max t) (ComputationError TooMuchStake);;;
  let* now := now_sec in
  upd_computation (fun c => set_Stakes (<[session := stake]> (Stakes c)) c);;;
  upd_computation (fun c => set_Sessions (alter (fun i =>
    set_benchmark (set_p_init p (benchmark i))
      (set_v_updated_at now (set_v ve (set_ve ve (set_state WorkerIdle i))))) session (Sessions c)) c);;;
  let* online := gets (fun s => OnlineWorkers (computation s)) in
  let* online' := arith 32 (online + 1) in
  upd_computation (set_OnlineWorkers online');;;
  let* session_id := gets (fun s => NextSessionId (computation s)) in
  let* next := arith 32 (session_id + 1) in
  upd_computation (set_NextSessionId next);;;
  push_system_event (WorkerEventWithKey worker (Started session_id ve p));;;
  emit (WorkerStarted session ve p).

Definition heartbeat_challenge : R unit :=
  let* paused := gets (fun s => HeartbeatPaused (computation s)) in
  if paused then mret tt
  else
    let* sd := gets (fun s => randomness RANDOMNESS_SUBJECT (ext s)) in
    let* online_workers := gets (fun s => OnlineWorkers (computation s)) in
    let* n := gets (fun s => ExpectedHeartbeatCount (computation s)) in
    let num_tx := default DEFAULT_EXPECTED_HEARTBEAT_COUNT n in
    let* target := pow_target num_tx online_workers ExpectedBlockTimeSec in
    push_system_event (HeartbeatChallengeEvent (mkHeartbeatChallenge sd target)).

(** The body shared by the two heartbeat variants *)
Definition on_heartbeat (worker : WorkerPublicKey) (iterations challenge_time : Z) : R unit :=
  let* session := ensure_worker_bound worker in
  let* i := get_session session in
  let* i := expect_some i in
  let* w := get_worker worker in
  let* _ := expect_some w in
  let* now := now_sec in
  let* b := benchmark_update (benchmark i) now iterations (challenge_time / 1000) in
  let* b := expect_some b in
  emit (BenchmarkUpdated session (p_instant b));;;
  put_session session (set_benchmark b i).

Definition on_working_message_received (m : DecodedMessage WorkingReportEvent) : R unit :=
  match dm_sender m with
  | Worker worker =>
      match dm_payload m with
      | Heartbeat _ _ challenge_time iterations => on_heartbeat worker iterations challenge_time
      | HeartbeatV2 _ _ challenge_time iterations _ _ => on_heartbeat worker iterations challenge_time
      end
  | _ => mret tt
  end.

Definition try_handle_settle (info : SettleInfo) (now emit_ts : Z) : R unit :=
  let* account := gets (fun s => WorkerBindings (computation s) !! si_pubkey info) in
  match account with
  | None => mret tt
  | Some account =>
      let* i := get_session account in
      let* i := ok_or i (ComputationError SessionNotFound) in
      debug_assert (can_settle (state i));;;
      if v_updated_at i >=? emit_ts then
        emit (SessionSettlementDropped account (si_v info) (si_payout info))
      else
        let* st := stats_on_reward (stats i) (si_payout info) in
        put_session account (set_stats st (set_v_updated_at now (set_v (si_v info) i)));;;
        let* treasury_deposit := from_bits (si_treasury info) in
        let* imbalance := withdraw_imbalance_from_subsidy_pool treasury_deposit in
        extc (on_treasury_settled imbalance);;;
        emit (SessionSettled account (si_v info) (si_payout info))
  end.

(** The body of the [offline] loop ([target] is [WorkerUnresponsive]) and of
    the [recovered_to_online] loop ([target] is [WorkerIdle]) *)
Definition set_responsive (target : WorkerState) (ev : AccountId -> Event) (msg : WorkerEvent)
    (worker : WorkerPublicKey) : R unit :=
  let* account := gets (fun s => WorkerBindings (computation s) !! worker) in
  match account with
  | None => mret tt
  | Some account =>
      let* i := get_session account in
      match i with
      | None => mret tt
      | Some i =>
          if negb (is_computing (state i)) then mret tt
          else
            put_session account (set_state target i);;;
            emit (ev account);;;
            push_system_event (WorkerEventWithKey worker msg)
      end
  end.

Definition on_gk_message_received (m : DecodedMessage WorkingInfoUpdateEvent) : R unit :=
  if negb (is_gatekeeper (dm_sender m)) then fail (ComputationError BadSender)
  else
    let event := dm_payload m in
    if is_empty_update event then mret tt
    else
      let emit_ts := timestamp_ms event / 1000 in
      let* now := now_sec in
      for_each (offline event)
        (set_responsive WorkerUnresponsive WorkerEnterUnresponsive EnterUnresponsive);;;
      for_each (recovered_to_online event)
        (set_responsive WorkerIdle WorkerExitUnresponsive ExitUnresponsive);;;
      for_each (settle event) (fun info =>
        let* r := catch (try_handle_settle info now emit_ts) in
        match r with
        | inl _ => mret tt
        | inr _ => emit (InternalErrorWorkerSettleFailed (si_pubkey info))
        end);;;
      hook_on_reward (settle event).

(** ** Calls and hooks *)

Definition set_cool_down_expiration (origin : Origin) (period : Z) : R unit :=
  ensure_root origin;;;
  upd_computation (set_CoolDownPeriod period);;;
  emit (CoolDownExpirationChanged period).

Definition unbind (origin : Origin) (session : AccountId) : R unit :=
  let* who := ensure_signed origin in
  let* pubkey := ensure_session_bound session in
  let* worker := get_worker pubkey in
  let* worker := ok_or worker (ComputationError WorkerNotRegistered) in
  ensure (bool_decide (operator worker = Some who)) (ComputationError BadSender);;;
  unbind_session session true.

Definition force_heartbeat (origin : Origin) : R unit :=
  ensure_root origin;;;
  push_system_event (HeartbeatChallengeEvent (mkHeartbeatChallenge 0 (2 ^ 256 - 1))).

Definition force_start_computing (origin : Origin) (session : AccountId) (stake : Balance) : R unit :=
  ensure_root origin;;;
  start_computing session stake.

Definition force_stop_computing (origin : Origin) (session : AccountId) : R unit :=
  ensure_root origin;;;
  stop_computing session.

(** An [EnsureOrigin] whose instance is outside this repository *)
Definition ensure_council (origin : Origin) : R unit :=
  if root_or_half_council origin then mret tt else fail BadOrigin.

Definition update_tokenomic (origin : Origin) (new_params : TokenomicParams) : R unit :=
  ensure_council origin;;;
  upd_computation (set_ScheduledTokenomicUpdate (Some new_params)).

Definition set_heartbeat_paused (origin : Origin) (paused : bool) : R unit :=
  ensure_council origin;;;
  upd_computation (set_HeartbeatPaused paused).

(** [SetBudgetOrigins] of the runtime: signed by the contract account *)
Definition ensure_set_budget_origin (origin : Origin) : R unit :=
  let* a := gets (fun s => ContractAccount (computation s)) in
  match origin with
  | Signed who => if bool_decide (who = a) then mret tt else fail BadOrigin
  | _ => fail BadOrigin
  end.

Definition set_budget_per_block (origin : Origin) (nonce block_number budget : Z) : R unit :=
  transactional (
    ensure_set_budget_origin origin;;;
    let* n := gets (fun s => BudgetUpdateNonce (computation s)) in
    ensure (nonce >? n) (ComputationError NonceIndexInvalid);;;
    let* b := gets (fun s => LastBudgetUpdateBlock (computation s)) in
    ensure (block_number >? b) (ComputationError BudgetUpdateBlockInvalid);;;
    let* limit := gets (fun s => MaxBudgetLimit (computation s)) in
    let* bound := arith 128 (limit * BUDGET_SAFE_MULTIPLIER) in
    ensure (budget <=? bound) (ComputationError BudgetExceedMaxLimit);;;
    let* t := tokenomic in
    upd_computation (set_BudgetUpdateNonce nonce);;;
    upd_computation (set_LastBudgetUpdateBlock block_number);;;
    update_tokenomic_parameters (set_budget_per_block budget t);;;
    emit (BudgetUpdated nonce budget)).

Definition update_contract_root (origin : Origin) (account_id : AccountId) : R unit :=
  ensure_council origin;;;
  upd_computation (set_ContractAccount account_id).

Definition on_finalize : R unit :=
  heartbeat_challenge;;;
  let* t := gets (fun s => ScheduledTokenomicUpdate (computation s)) in
  match t with
  | None => mret tt
  | Some t =>
      upd_computation (set_ScheduledTokenomicUpdate None);;;
      update_tokenomic_parameters t
  end.

End Pallet.
End Computation.
