(* ===== verification/ComputationInv.v ===== *)
(** * Invariants of the computation pallet

    The storage invariant of pallets/cyrux/src/compute/computation.rs, that
    every operation preserves it, and the life cycle of a session. *)
From stdpp Require Import prelude gmap list strings.
From Stdlib Require Import ZArith Lia.
From S2P Require Import Prelude Types Externals BalanceConvert Reference Mq Computation.

(** What the pallet needs of its subscribers: they leave its storage and the
    registry alone, and they do not return errors. *)
Class ComputationHooksSpec {cfg : Config} (hooks : ComputationHooks) := {
  hook_on_reward_keeps : forall l, keeps (fun s => (registry s, computation s)) (hook_on_reward l);
  hook_on_unbound_keeps : forall k b, keeps (fun s => (registry s, computation s)) (hook_on_unbound k b);
  hook_on_stopped_keeps : forall k x y, keeps (fun s => (registry s, computation s)) (hook_on_stopped k x y);
}.

(** The default methods of the hook traits *)
Definition hooks_nothing {cfg : Config} : ComputationHooks := {|
  hook_on_reward _ := mret tt;
  hook_on_unbound _ _ := mret tt;
  hook_on_stopped _ _ _ := mret tt;
|}.

#[export] Instance hooks_nothing_spec {cfg : Config} : ComputationHooksSpec hooks_nothing.
Proof. by split. Qed.

Module ComputationInv.
Import Computation ComputationT.

Section Count.
Context {cfg : Config}.

(** ** Counting the computing sessions *)
Definition computing_count (m : gmap AccountId SessionInfo) : Z :=
  Z.of_nat (size (filter (fun p : AccountId * SessionInfo => is_computing (state p.2) = true) m)).

Definition contrib (o : option SessionInfo) : Z :=
  match o with Some i => Z.b2z (is_computing (state i)) | None => 0 end.

Lemma computing_count_insert_None m a i :
  m !! a = None -> computing_count (<[a := i]> m) = computing_count m + contrib (Some i).
Proof.
  intros Ha. unfold computing_count, contrib. rewrite map_filter_insert. simpl.
  destruct (is_computing (state i)) eqn:Hc; case_decide as Hd; try done; simpl.
  - rewrite map_size_insert_None; [lia|]. apply map_lookup_filter_None. by left.
  - rewrite delete_id by done. lia.
Qed.

Lemma computing_count_split m a :
  computing_count m = computing_count (delete a m) + contrib (m !! a).
Proof.
  destruct (m !! a) as [i|] eqn:Ha.
  - rewrite <- (insert_delete_id m a i Ha) at 1.
    by rewrite computing_count_insert_None by apply lookup_delete_eq.
  - rewrite delete_id by done. simpl. lia.
Qed.

Lemma computing_count_insert m a i :
  computing_count (<[a := i]> m) = computing_count m - contrib (m !! a) + contrib (Some i).
Proof.
  rewrite <- insert_delete_eq, computing_count_insert_None by apply lookup_delete_eq.
  rewrite (computing_count_split m a). lia.
Qed.

Lemma computing_count_pos m a i :
  m !! a = Some i -> is_computing (state i) = true -> 1 <= computing_count m.
Proof.
  intros Ha Hc. rewrite (computing_count_split m a), Ha. simpl. rewrite Hc. simpl.
  unfold computing_count. lia.
Qed.

Lemma computing_count_le_size m : 0 <= computing_count m <= Z.of_nat (size m).
Proof.
  unfold computing_count. split; [lia|]. apply inj_le. rewrite <- !size_dom.
  apply subseteq_size, dom_filter_subseteq.
Qed.

(** ** The invariant *)
Record comp_inv (reg : RegistryT.Store) (c : Store) : Prop := {
  inv_bij : forall a k, SessionBindings c !! a = Some k <-> WorkerBindings c !! k = Some a;
  inv_info : forall a k, SessionBindings c !! a = Some k -> is_Some (Sessions c !! a);
  inv_worker : forall a k, SessionBindings c !! a = Some k -> is_Some (RegistryT.Workers reg !! k);
  inv_used : forall a i, Sessions c !! a = Some i -> state i <> Unused_;
  inv_bound : forall a i, Sessions c !! a = Some i -> is_computing (state i) = true ->
    is_Some (SessionBindings c !! a);
  inv_stake : forall a, is_Some (Stakes c !! a) <->
    exists i, Sessions c !! a = Some i /\ state i <> Ready;
  inv_online : OnlineWorkers c = computing_count (Sessions c) mod 2 ^ 32;
}.

Definition Inv (s : State) : Prop := comp_inv (registry s) (computation s).

(** A session rewritten without changing how it counts *)
Lemma inv_put_same reg c a i i' :
  comp_inv reg c -> Sessions c !! a = Some i ->
  is_computing (state i') = is_computing (state i) ->
  (state i' = Ready <-> state i = Ready) -> state i' <> Unused_ ->
  comp_inv reg (set_Sessions (<[a := i']> (Sessions c)) c).
Proof.
  intros [Hbij Hinfo Hw Hu Hb Hs Ho] Ha Hc Hr Hn. split; simpl; auto.
  - intros b k Hbk. destruct (decide (a = b)) as [<-|]; simplify_map_eq; eauto.
  - intros b j. destruct (decide (a = b)) as [<-|]; intros; simplify_map_eq; eauto.
  - intros b j. destruct (decide (a = b)) as [<-|]; intros; simplify_map_eq; [|eauto].
    eapply Hb; [done|]. congruence.
  - intros b. rewrite Hs. destruct (decide (a = b)) as [<-|]; simplify_map_eq; [|done].
    split; intros (j & ? & ?); simplify_eq; eexists; split; eauto; tauto.
  - rewrite computing_count_insert, Ha. simpl. rewrite Hc, Ho. f_equal. lia.
Qed.

Lemma inv_bind reg c a k i' :
  comp_inv reg c -> SessionBindings c !! a = None -> WorkerBindings c !! k = None ->
  (forall i, Sessions c !! a = Some i -> state i = Ready) ->
  is_Some (RegistryT.Workers reg !! k) -> state i' = Ready ->
  comp_inv reg (set_Sessions (<[a := i']> (Sessions c))
    (set_WorkerBindings (<[k := a]> (WorkerBindings c))
      (set_SessionBindings (<[a := k]> (SessionBindings c)) c))).
Proof.
  intros [Hbij Hinfo Hw Hu Hb Hs Ho] Ha Hk Hr Hwk Hi'. split; simpl.
  - intros b j. destruct (decide (a = b)) as [<-|], (decide (k = j)) as [<-|];
      simplify_map_eq; rewrite <- ?Hbij; split; intros; simplify_eq; try done.
    all: exfalso; first [apply Hbij in H | apply Hbij in H0]; congruence.
  - intros b j. destruct (decide (a = b)) as [<-|]; intros; simplify_map_eq; eauto.
  - intros b j. destruct (decide (a = b)) as [<-|]; intros; simplify_map_eq; eauto.
  - intros b j. destruct (decide (a = b)) as [<-|]; intros; simplify_map_eq; [congruence|eauto].
  - intros b j. destruct (decide (a = b)) as [<-|]; intros; simplify_map_eq; eauto.
  - intros b. rewrite Hs. destruct (decide (a = b)) as [<-|]; simplify_map_eq; [|done].
    split; intros (j & Hj & Hn); [by apply Hr in Hj|]. by simplify_eq.
  - rewrite computing_count_insert. simpl. rewrite Hi'. simpl.
    destruct (Sessions c !! a) as [i|] eqn:Hia; simpl.
    + rewrite (Hr i) by done. simpl. rewrite Ho. f_equal. lia.
    + rewrite Ho. f_equal. lia.
Qed.

Lemma inv_unbind reg c a k i :
  comp_inv reg c -> SessionBindings c !! a = Some k ->
  Sessions c !! a = Some i -> is_computing (state i) = false ->
  comp_inv reg (set_WorkerBindings (delete k (WorkerBindings c))
    (set_SessionBindings (delete a (SessionBindings c)) c)).
Proof.
  intros [Hbij Hinfo Hw Hu Hb Hs Ho] Ha Hi Hc. split; simpl; auto.
  - intros b j. destruct (decide (a = b)) as [<-|], (decide (k = j)) as [<-|];
      simplify_map_eq; rewrite <- ?Hbij; split; intros; simplify_eq; try done.
    all: apply Hbij in Ha; first [apply Hbij in H | idtac]; congruence.
  - intros b j Hj. apply lookup_delete_Some in Hj as [_ Hj]. eauto.
  - intros b j Hj. apply lookup_delete_Some in Hj as [_ Hj]. eauto.
  - intros b j Hj Hjc. rewrite lookup_delete_ne; [by eapply Hb|]. intros <-. congruence.
Qed.

(** A session that starts or stops computing, its stake in place *)
Lemma inv_switch reg c a k i i' st :
  comp_inv reg c -> SessionBindings c !! a = Some k -> Sessions c !! a = Some i ->
  state i' <> Ready -> state i' <> Unused_ -> is_Some (st !! a) ->
  (forall b, b <> a -> st !! b = Stakes c !! b) ->
  comp_inv reg (set_OnlineWorkers
    ((computing_count (Sessions c) + (contrib (Some i') - contrib (Some i))) mod 2 ^ 32)
    (set_Sessions (<[a := i']> (Sessions c)) (set_Stakes st c))).
Proof.
  intros [Hbij Hinfo Hw Hu Hb Hs Ho] Ha Hi Hr Hn Hst Hoth. split; simpl; auto.
  - intros b j. destruct (decide (a = b)) as [<-|]; intros; simplify_map_eq; eauto.
  - intros b j. destruct (decide (a = b)) as [<-|]; intros; simplify_map_eq; eauto.
  - intros b j. destruct (decide (a = b)) as [<-|]; intros; simplify_map_eq; eauto.
  - intros b. destruct (decide (a = b)) as [<-|]; simplify_map_eq.
    + split; [eauto|done].
    + by rewrite Hoth, Hs by done.
  - rewrite computing_count_insert, Hi. f_equal. simpl. lia.
Qed.

Lemma inv_next_session reg c n : comp_inv reg c -> comp_inv reg (set_NextSessionId n c).
Proof. by intros []. Qed.

Lemma alter_lookup {A} (m : gmap AccountId A) a x f :
  m !! a = Some x -> alter f a m = <[a := f x]> m.
Proof.
  intros Hx. apply map_eq. intros b. destruct (decide (a = b)) as [<-|].
  - by rewrite lookup_alter_eq, lookup_insert_eq, Hx.
  - by rewrite lookup_alter_ne, lookup_insert_ne.
Qed.

(** Online workers, updated by [arith] *)
Lemma wp_online d c reg (Q : Z -> State -> Prop) (Rr : DispatchError -> State -> Prop) (s : State) n :
  comp_inv reg c -> n = OnlineWorkers c + d ->
  (forall r, r = (computing_count (Sessions c) + d) mod 2 ^ 32 -> Q r s) ->
  wp True (arith 32 n) Q Rr s.
Proof.
  intros Hi -> HQ. rewrite (inv_online _ _ Hi). apply wp_arith; [|done|]; intros.
  - apply HQ. rewrite <- Zplus_mod_idemp_l. symmetry. by apply Z.mod_small.
  - apply HQ. by rewrite Zplus_mod_idemp_l.
Qed.

End Count.

Section Preservation.
Context {cfg : Config} {F : FixedLib} {codec : Codec} {pal : Pallets}
  {notify : QueueNotifyConfig} {hooks : ComputationHooks}
  {qs : QuietTopic notify SystemEvent_topic} {qg : QuietTopic notify GatekeeperEvent_topic}
  {hs : ComputationHooksSpec hooks}.

(** What the pallet's storage and its invariant depend on *)
Definition view (s : State) := (registry s, computation s).

Lemma Inv_view s s' : view s' = view s -> Inv s -> Inv s'.
Proof. unfold view, Inv. intros Hv. by injection Hv as -> ->. Qed.

Lemma keeps_push_system {T} (f : State -> T) e :
  (forall s q, f (set_mq q s) = f s) -> keeps f (push_system_event e).
Proof. intros. by apply MqFacts.keeps_push_quiet. Qed.

Lemma keeps_push_gatekeeper {T} (f : State -> T) e :
  (forall s q, f (set_mq q s) = f s) -> keeps f (push_gatekeeper_event e).
Proof. intros. by apply MqFacts.keeps_push_quiet. Qed.

Lemma wp_push_system P e (Q : unit -> State -> Prop) (Rr : DispatchError -> State -> Prop) s :
  (forall q, Q tt (set_mq q s)) -> wp P (push_system_event e) Q Rr s.
Proof.
  intros HQ. unfold wp, push_system_event. rewrite MqFacts.push_bound_message_quiet by done.
  apply HQ.
Qed.

Lemma wp_emit P e (Q : unit -> State -> Prop) (Rr : DispatchError -> State -> Prop) s :
  (forall l, Q tt (set_events l s)) -> wp P (emit e) Q Rr s.
Proof. intros HQ. apply HQ. Qed.

Lemma keeps_emit {T} (f : State -> T) e :
  (forall s l, f (set_events l s) = f s) -> keeps f (emit e).
Proof. intros Hf s. apply Hf. Qed.

Lemma keeps_pow_target {T} (f : State -> T) n w b : keeps f (pow_target (E := DispatchError) n w b).
Proof. unfold pow_target. solve_keeps. Qed.

Lemma keeps_from_bits {T} (f : State -> T) b : keeps f (from_bits (E := DispatchError) b).
Proof. unfold from_bits, from_fixed. solve_keeps. Qed.

Lemma keeps_to_fixed {T} (f : State -> T) b : keeps f (to_fixed (E := DispatchError) b).
Proof. unfold to_fixed. solve_keeps. Qed.

Lemma keeps_benchmark_update {T} (f : State -> T) b n i c :
  keeps f (benchmark_update (E := DispatchError) b n i c).
Proof. unfold benchmark_update. solve_keeps. Qed.

End Preservation.
#[export] Hint Extern 1 (keeps _ (push_system_event _)) => apply keeps_push_system; reflexivity : keeps.
#[export] Hint Extern 1 (keeps _ (push_gatekeeper_event _)) => apply keeps_push_gatekeeper; reflexivity : keeps.
#[export] Hint Extern 1 (keeps _ (emit _)) => apply keeps_emit; reflexivity : keeps.
#[export] Hint Resolve keeps_pow_target keeps_from_bits keeps_to_fixed keeps_benchmark_update
  hook_on_reward_keeps hook_on_unbound_keeps hook_on_stopped_keeps : keeps.

(** Runs a call that leaves [view] alone. *)
Ltac wp_frame := eapply (keeps_wp view); [done|solve_keeps| |].

(** ** Each operation preserves the invariant *)
Section Operations.
Context {cfg : Config} {F : FixedLib} {codec : Codec} {pal : Pallets}
  {notify : QueueNotifyConfig} {hooks : ComputationHooks}
  {qs : QuietTopic notify SystemEvent_topic} {qg : QuietTopic notify GatekeeperEvent_topic}
  {hs : ComputationHooksSpec hooks}.

Lemma preserves_view {A} (m : R A) : keeps view m -> preserves Inv m.
Proof. apply keeps_preserves. intros s s'. apply Inv_view. Qed.

Lemma wp_keep_inv {A} (m : R A) (Q : A -> State -> Prop) (Rr : DispatchError -> State -> Prop) s :
  keeps view m -> Inv s ->
  (forall a s', view s' = view s -> Inv s' -> Q a s') -> (forall e s', Inv s' -> Rr e s') ->
  wp True m Q Rr s.
Proof.
  intros Hm Hs HQ HR. eapply keeps_wp; [done|exact Hm| |]; intros; eauto using Inv_view.
Qed.

(** Writes of the parameters, outside the invariant *)
Lemma preserves_params {A} (m : R A) :
  keeps (fun s => (registry s, Sessions (computation s), SessionBindings (computation s),
    WorkerBindings (computation s), Stakes (computation s), OnlineWorkers (computation s))) m ->
  preserves Inv m.
Proof.
  apply keeps_preserves. intros s s' He [H1 H2 H3 H4 H5 H6 H7]. injection He as E1 E2 E3 E4 E5 E6.
  split; rewrite ?E1, ?E2, ?E3, ?E4, ?E5, ?E6; done.
Qed.

Lemma wp_can_reclaim i b s :
  wp True (can_reclaim i b)
    (fun r s' => s' = s /\ (r = true -> state i = WorkerCoolingDown)) (fun _ _ => False) s.
Proof.
  unfold can_reclaim. wp_step.
  - by wp_steps.
  - apply negb_false_iff, bool_decide_eq_true in Heqb0. wp_step; [by wp_steps|].
    unfold now_sec. wp_steps. apply wp_arith; intros; wp_steps; done.
Qed.

Lemma reclaim_preserves a b : preserves Inv (reclaim a b).
Proof.
  intros s Hs. unfold reclaim, get_session, put_session, upd_computation. wp_steps; [|done].
  eapply wp_mono; [apply wp_can_reclaim| |done]. intros r ? [-> Hr]. simpl.
  wp_steps; [|done]. specialize (Hr H0). wp_frame; [|intros e s' Hv; eapply Inv_view; [exact Hv|]].
  1: intros [] s' Hv; apply wp_ret; eapply Inv_view; [exact Hv|].
  all: destruct Hs as [Hbij Hinfo Hw Hu Hb Hst Ho]; unfold Inv; split; simpl; auto.
  all: try (intros x; destruct (decide (a = x)) as [<-|]; intros; simplify_map_eq; eauto; fail).
  all: try (rewrite computing_count_insert, H; simpl; rewrite Hr; simpl; rewrite Ho; f_equal; lia).
  all: intros x; destruct (decide (a = x)) as [<-|]; simplify_map_eq; [|apply Hst].
  all: split; [by intros []|intros (j & ? & ?); by simplify_map_eq].
Qed.

Lemma bind_preserves a k : preserves Inv (bind a k).
Proof.
  intros s Hs. unfold bind, get_worker. do 2 wp_step. cbv beta. wp_step; wp_step; [|done].
  apply wp_bind. apply wp_mono with (Q := fun _ s' => s' = s) (R := fun _ s' => s' = s);
    [|intros [] ? ->|by intros ? ? ->].
  { destruct CheckWorkerRegisterTime; [|by wp_steps].
    unfold is_worker_registered_after_gk_launched. by wp_steps. }
  unfold ensure_session_bound, ensure_worker_bound, get_session, put_session, now_sec, upd_computation.
  wp_steps; try done.
  eapply wp_mono; [apply preserves_view; [solve_keeps|]|done|done].
  unfold Inv. simpl. apply inv_bind; try done.
  - intros i Hi. rewrite Hi in H5. by apply bool_decide_eq_true in H5.
Qed.

Lemma stop_state i :
  negb (bool_decide (state i = Ready)) && negb (bool_decide (state i = WorkerCoolingDown)) = true ->
  state i <> Unused_ -> is_computing (state i) = true.
Proof. by destruct (state i). Qed.

(** A stopped session is cooling down from now on, still bound, and the rest
    of the sessions did not move. *)
Lemma stop_computing_spec a s :
  Inv s ->
  wp True (stop_computing a) (fun _ s' => Inv s' /\ exists k i,
      SessionBindings (computation s) !! a = Some k /\ Sessions (computation s) !! a = Some i /\
      is_computing (state i) = true /\
      view s' = (registry s, set_OnlineWorkers ((computing_count (Sessions (computation s)) - 1) mod 2 ^ 32)
        (set_Sessions (<[a := set_cool_down_start (unix_time_ms s / 1000) (set_state WorkerCoolingDown i)]>
          (Sessions (computation s))) (computation s))))
    (fun _ s' => Inv s') s.
Proof.
  intros Hs. unfold stop_computing, get_session, put_session, now_sec, upd_computation.
  wp_steps; try done. rename a0 into k, a1 into i, H into Hk, H0 into Hi.
  pose proof (stop_state i H1 (inv_used _ _ Hs _ _ Hi)) as Hc.
  apply (wp_online (-1) (computation s) (registry s)); [done|simpl; lia|]. intros r ->.
  apply wp_bind, wp_modify, wp_bind, wp_gets. cbv zeta. simpl.
  set (s1 := set_computation _ _). assert (HI : Inv s1).
  { unfold Inv, s1; simpl. destruct (inv_stake _ _ Hs a) as [_ Hst].
    eapply (inv_switch _ _ a k i (set_cool_down_start (unix_time_ms s / 1000)
      (set_state WorkerCoolingDown i)) (Stakes (computation s))) in Hs; try done.
    - replace (contrib _ - contrib _) with (-1) in Hs by (simpl; rewrite Hc; done). exact Hs.
    - apply Hst. exists i. split; [done|]. by destruct (state i). }
  eapply wp_mono; [apply (keeps_wp view _ True (fun _ s' => view s' = view s1)
    (fun _ s' => view s' = view s1)); [done|solve_keeps|done|done]| |].
  - intros [] s' Hv. split; [by apply (Inv_view s1)|]. rewrite Hv. by exists k, i.
  - intros e s' Hv. by apply (Inv_view s1).
Qed.


Lemma stop_computing_preserves a : preserves Inv (stop_computing a).
Proof. intros s Hs. eapply wp_mono; [by apply stop_computing_spec| |done]. by intros _ s' []. Qed.

Lemma unbind_session_preserves a b : preserves Inv (unbind_session a b).
Proof.
  intros s Hs. unfold unbind_session, ensure_session_bound, get_session, upd_computation.
  wp_lines; try done. rename a0 into k, a1 into i, H into Hk, H0 into Hi.
  apply wp_mono with (R := fun _ s' => Inv s') (Q := fun _ s' => Inv s' /\ exists i',
    SessionBindings (computation s') !! a = Some k /\ Sessions (computation s') !! a = Some i' /\
    is_computing (state i') = false); [| |done].
  - destruct (can_unbind (state i)) eqn:Hc; simpl.
    + apply wp_ret. split; [done|]. exists i. split_and!; try done. by destruct (state i).
    + eapply wp_mono; [by apply stop_computing_spec| |done].
      intros _ s' (HI & k' & i' & Hk' & Hi' & _ & Hv). split; [done|].
      injection Hv as _ ->. simpl. rewrite lookup_insert_eq. eauto.
  - intros [] s1 (HI & i' & Hk1 & Hi1 & Hc1). wp_steps. wp_frame.
    + intros [] s2 Hv. apply preserves_view; [destruct b; solve_keeps|].
      eapply Inv_view; [exact Hv|]. unfold Inv; simpl. by eapply inv_unbind.
    + intros e s2 Hv. eapply Inv_view; [exact Hv|]. unfold Inv; simpl. by eapply inv_unbind.
Qed.

Lemma set_responsive_preserves target ev msg k :
  is_computing target = true -> preserves Inv (set_responsive target ev msg k).
Proof.
  intros Ht s Hs. unfold set_responsive, get_session, put_session, upd_computation.
  wp_steps; try done. rename a into a, s0 into i.
  apply negb_false_iff in Heqb. eapply preserves_view; [solve_keeps|]. unfold Inv; simpl.
  eapply inv_put_same; [done|eassumption|..]; simpl; try congruence;
    destruct target, (state i); done.
Qed.

Lemma on_heartbeat_preserves k n t : preserves Inv (on_heartbeat k n t).
Proof.
  intros s Hs. unfold on_heartbeat, ensure_worker_bound, get_session, get_worker, now_sec, put_session,
    upd_computation.
  wp_steps; try done. apply wp_keep_inv; [solve_keeps|done| |done]. intros b s1 Hv1 Hs1.
  wp_steps; try done. apply wp_keep_inv; [solve_keeps|done| |done]. intros [] s2 Hv2 Hs2.
  apply wp_modify. unfold Inv; simpl. rewrite Hv1 in Hv2. injection Hv2 as E1 E2.
  eapply inv_put_same; [done|rewrite E2; eassumption|done|done|]. simpl. eapply (inv_used _ _ Hs); eassumption.
Qed.

Lemma on_working_message_received_preserves m : preserves Inv (on_working_message_received m).
Proof.
  unfold on_working_message_received. destruct (dm_sender m), (dm_payload m);
    apply on_heartbeat_preserves || (apply preserves_view; solve_keeps).
Qed.

Lemma stats_on_reward_keeps {T} (f : State -> T) st b :
  keeps f (stats_on_reward (E := DispatchError) st b).
Proof. unfold stats_on_reward. solve_keeps. Qed.

Lemma try_handle_settle_preserves info now ts : preserves Inv (try_handle_settle info now ts).
Proof.
  intros s Hs. pose proof @stats_on_reward_keeps.
  unfold try_handle_settle, get_session, put_session, upd_computation,
    withdraw_imbalance_from_subsidy_pool.
  wp_steps; try done.
  apply wp_keep_inv; [solve_keeps|done| |done]. intros st s1 Hv1 Hs1. apply wp_bind, wp_modify.
  injection Hv1 as E1 E2. eapply preserves_view; [solve_keeps|]. unfold Inv; simpl.
  eapply inv_put_same; [done|rewrite E2; eassumption|done|done|]. simpl. eapply (inv_used _ _ Hs); eassumption.
Qed.

Lemma on_gk_message_received_preserves m : preserves Inv (on_gk_message_received m).
Proof.
  unfold on_gk_message_received. destruct (negb _); [apply preserves_view; solve_keeps|].
  destruct (is_empty_update _); [apply preserves_view; solve_keeps|].
  apply preserves_bind; [apply preserves_view; unfold now_sec; solve_keeps|intros now].
  apply preserves_bind; [apply preserves_for_each; intros; by apply set_responsive_preserves|intros []].
  apply preserves_bind; [apply preserves_for_each; intros; by apply set_responsive_preserves|intros []].
  apply preserves_bind; [|intros; apply preserves_view; solve_keeps].
  apply preserves_for_each. intros x. apply preserves_bind.
  - apply preserves_catch, try_handle_settle_preserves.
  - intros []; apply preserves_view; solve_keeps.
Qed.

Lemma keeps_minimal_stake {T} (f : State -> T) t p : keeps f (minimal_stake (E := DispatchError) t p).
Proof. unfold minimal_stake, from_fixed. solve_keeps. Qed.

Lemma keeps_ve {T} (f : State -> T) t x p l : keeps f (tokenomic_ve (E := DispatchError) t x p l).
Proof. unfold tokenomic_ve, rig_cost. solve_keeps. Qed.

(** A started session was bound and ready, with no stake; it is idle now, with
    its stake recorded and its expected value below the maximum. *)
Lemma start_computing_spec a x s :
  Inv s ->
  wp True (start_computing a x) (fun _ s' => Inv s' /\ exists k i w p t ve,
      SessionBindings (computation s) !! a = Some k /\ Sessions (computation s) !! a = Some i /\
      state i = Ready /\ Stakes (computation s) !! a = None /\
      RegistryT.Workers (registry s) !! k = Some w /\ initial_score w = Some p /\ MinInitP <= p /\
      TokenomicParameters (computation s) = Some t /\ ve <= v_max_bits t /\
      registry s' = registry s /\
      computation s' = set_NextSessionId (NextSessionId (computation s')) (set_OnlineWorkers
        ((computing_count (Sessions (computation s)) + 1) mod 2 ^ 32)
        (set_Sessions (<[a := set_benchmark (set_p_init p (benchmark i))
          (set_v_updated_at (unix_time_ms s / 1000) (set_v ve (set_ve ve (set_state WorkerIdle i))))]>
            (Sessions (computation s)))
        (set_Stakes (<[a := x]> (Stakes (computation s))) (computation s)))))
    (fun _ s' => s' = s) s.
Proof.
  intros Hs. unfold start_computing, get_session, get_worker, tokenomic, now_sec, upd_computation.
  wp_steps; try done. rename a0 into k, a1 into i, a2 into w, a3 into p, a4 into t.
  apply bool_decide_eq_true in H1, H2. apply Z.geb_le in H5.
  eapply (keeps_wp id); [done|apply keeps_minimal_stake| |by intros]. unfold id. intros ms ? ->.
  wp_steps; [|done]. eapply (keeps_wp id); [done|apply keeps_ve| |by intros]. unfold id. intros ve ? ->.
  wp_steps; [|done]. apply Z.leb_le in H8.
  apply (wp_online 1 (computation s) (registry s)); [done|done|]. intros r ->. wp_steps.
  apply wp_arith_any; [lia|done|]. intros n Hn. wp_steps.
  apply wp_push_system. intros q. apply wp_emit. intros ev. simpl.
  rewrite (alter_lookup _ _ i) by done. split.
  - unfold Inv; simpl. apply inv_next_session.
    lazymatch goal with |- context [<[a := ?i']> (Sessions _)] =>
      replace 1 with (contrib (Some i') - contrib (Some i)) by (simpl; rewrite H1; done) end.
    apply (inv_switch _ _ a k); try done; simpl; [by rewrite lookup_insert_eq|].
    intros b Hb. by rewrite lookup_insert_ne.
  - exists k, i, w, p, t, ve. by split_and!.
Qed.

Lemma start_computing_preserves a x : preserves Inv (start_computing a x).
Proof.
  intros s Hs. eapply wp_mono; [by apply start_computing_spec| |by intros ? ? ->]. by intros [] s' [].
Qed.

Lemma heartbeat_challenge_keeps : keeps view heartbeat_challenge.
Proof. unfold heartbeat_challenge. solve_keeps. Qed.

Lemma update_tokenomic_parameters_preserves t : preserves Inv (update_tokenomic_parameters t).
Proof. apply preserves_params. unfold update_tokenomic_parameters. solve_keeps. Qed.

Lemma set_budget_per_block_preserves o n b x : preserves Inv (set_budget_per_block o n b x).
Proof.
  apply preserves_params. unfold set_budget_per_block, ensure_set_budget_origin, tokenomic,
    update_tokenomic_parameters. solve_keeps.
Qed.

Lemma on_finalize_preserves : preserves Inv on_finalize.
Proof.
  apply preserves_params. unfold on_finalize, heartbeat_challenge, update_tokenomic_parameters.
  solve_keeps.
Qed.

End Operations.

(** ** Runs of the pallet *)
Section Runs.
Context {cfg : Config} {F : FixedLib} {codec : Codec} {pal : Pallets}
  {notify : QueueNotifyConfig} {hooks : ComputationHooks}.

Inductive op :=
| BindOp (session : AccountId) (pubkey : WorkerPublicKey)
| UnbindSessionOp (session : AccountId) (notify_hook : bool)
| StartOp (session : AccountId) (stake : Balance)
| StopOp (session : AccountId)
| ReclaimOp (session : AccountId) (check_cooldown : bool)
| WorkingMessageOp (m : DecodedMessage WorkingReportEvent)
| GkMessageOp (m : DecodedMessage WorkingInfoUpdateEvent)
| FinalizeOp
| SetCoolDownOp (origin : Origin) (period : Z)
| UnbindCall (origin : Origin) (session : AccountId)
| ForceHeartbeatCall (origin : Origin)
| ForceStartCall (origin : Origin) (session : AccountId) (stake : Balance)
| ForceStopCall (origin : Origin) (session : AccountId)
| UpdateTokenomicCall (origin : Origin) (t : TokenomicParams)
| SetHeartbeatPausedCall (origin : Origin) (paused : bool)
| SetBudgetCall (origin : Origin) (nonce block budget : Z)
| UpdateContractRootCall (origin : Origin) (account : AccountId).

Definition run_op (o : op) : R unit :=
  match o with
  | BindOp a k => bind a k
  | UnbindSessionOp a b => unbind_session a b
  | StartOp a x => start_computing a x
  | StopOp a => stop_computing a
  | ReclaimOp a b => let* _ := reclaim a b in mret tt
  | WorkingMessageOp m => on_working_message_received m
  | GkMessageOp m => on_gk_message_received m
  | FinalizeOp => on_finalize
  | SetCoolDownOp o p => set_cool_down_expiration o p
  | UnbindCall o a => unbind o a
  | ForceHeartbeatCall o => force_heartbeat o
  | ForceStartCall o a x => force_start_computing o a x
  | ForceStopCall o a => force_stop_computing o a
  | UpdateTokenomicCall o t => update_tokenomic o t
  | SetHeartbeatPausedCall o b => set_heartbeat_paused o b
  | SetBudgetCall o n b x => set_budget_per_block o n b x
  | UpdateContractRootCall o a => update_contract_root o a
  end.

(** A step is an operation of the pallet, its writes kept even when it returns
    an error, or anything else on the chain: other code does not write the
    pallet's storage and never unregisters a worker. *)
Inductive comp_step : option op -> State -> State -> Prop :=
| step_ok o s s' : run_op o s = Ok tt s' -> comp_step (Some o) s s'
| step_err o e s s' : run_op o s = Err e s' -> comp_step (Some o) s s'
| step_env s s' :
    computation s' = computation s ->
    (forall k, is_Some (RegistryT.Workers (registry s) !! k) ->
      is_Some (RegistryT.Workers (registry s') !! k)) ->
    comp_step None s s'.

Inductive comp_run : State -> list (option op) -> State -> Prop :=
| comp_run_nil s : comp_run s [] s
| comp_run_snoc s l s' o s'' : comp_run s l s' -> comp_step o s' s'' -> comp_run s (l ++ [o]) s''.

(** The pallet before any session was bound *)
Definition no_sessions (s : State) : Prop :=
  Sessions (computation s) = ∅ /\ SessionBindings (computation s) = ∅ /\
  WorkerBindings (computation s) = ∅ /\ Stakes (computation s) = ∅ /\
  OnlineWorkers (computation s) = 0.

Lemma no_sessions_inv s : no_sessions s -> Inv s.
Proof.
  intros (H1 & H2 & H3 & H4 & H5).
  split; rewrite ?H1, ?H2, ?H3, ?H4, ?H5; intros; try by simplify_map_eq.
  - rewrite lookup_empty. split; [by intros []|intros (i & Hi & _); by simplify_map_eq].
Qed.

Context {qs : QuietTopic notify SystemEvent_topic} {qg : QuietTopic notify GatekeeperEvent_topic}
  {hs : ComputationHooksSpec hooks}.

Lemma run_op_preserves o : preserves Inv (run_op o).
Proof.
  destruct o; simpl.
  - apply bind_preserves.
  - apply unbind_session_preserves.
  - apply start_computing_preserves.
  - apply stop_computing_preserves.
  - apply preserves_bind; [apply reclaim_preserves|intros; apply preserves_view; solve_keeps].
  - apply on_working_message_received_preserves.
  - apply on_gk_message_received_preserves.
  - apply on_finalize_preserves.
  - apply preserves_params. unfold set_cool_down_expiration, ensure_root. solve_keeps.
  - unfold unbind, ensure_signed, ensure_session_bound, get_worker.
    intros s Hs. wp_steps; try done. by apply unbind_session_preserves.
  - apply preserves_params. unfold force_heartbeat, ensure_root. solve_keeps.
  - unfold force_start_computing, ensure_root. intros s Hs. wp_steps; try done.
    by apply start_computing_preserves.
  - unfold force_stop_computing, ensure_root. intros s Hs. wp_steps; try done.
    by apply stop_computing_preserves.
  - apply preserves_params. unfold update_tokenomic, ensure_council. solve_keeps.
  - apply preserves_params. unfold set_heartbeat_paused, ensure_council. solve_keeps.
  - apply set_budget_per_block_preserves.
  - apply preserves_params. unfold update_contract_root, ensure_council. solve_keeps.
Qed.

Lemma comp_step_inv o s s' : comp_step o s s' -> Inv s -> Inv s'.
Proof.
  intros [o' s1 s1' H|o' e s1 s1' H|s1 s1' Hc Hw] Hs.
  - by apply (wp_ok True _ _ _ _ _ _ (run_op_preserves o' s1 Hs) H).
  - by apply (wp_err True _ _ _ _ _ _ (run_op_preserves o' s1 Hs) H).
  - unfold Inv. rewrite Hc. destruct Hs. split; eauto.
Qed.

Lemma comp_run_inv s l s' : comp_run s l s' -> Inv s -> Inv s'.
Proof. induction 1; eauto using comp_step_inv. Qed.

End Runs.


End ComputationInv.
