(* ===== verification/ComputationProps.v ===== *)
(** * Properties of the computation pallet

    The life cycle of sessions and the custody of their stake, over all the
    operations of pallets/cyrux/src/compute/computation.rs. *)
From stdpp Require Import prelude gmap list strings.
From Stdlib Require Import ZArith Lia.
From S2P Require Import Prelude Types Externals BalanceConvert Reference Mq Computation ComputationInv.

Module ComputationProps.
Import Computation ComputationT ComputationInv.

(** The bodies of the calls, for frame conditions *)
Create HintDb comp_calls.
#[export] Hint Unfold unbind ensure_signed ensure_session_bound get_worker force_stop_computing
  force_start_computing ensure_root on_finalize heartbeat_challenge update_tokenomic_parameters
  set_cool_down_expiration force_heartbeat update_tokenomic set_heartbeat_paused
  set_budget_per_block tokenomic ensure_set_budget_origin update_contract_root ensure_council
  : comp_calls.

(** The bodies of the other operations *)
Create HintDb comp_ops.
#[export] Hint Unfold bind unbind_session start_computing stop_computing reclaim can_reclaim
  on_working_message_received on_heartbeat on_gk_message_received set_responsive try_handle_settle
  withdraw_imbalance_from_subsidy_pool is_worker_registered_after_gk_launched ensure_worker_bound
  get_session put_session now_sec : comp_ops.

(** ** Life cycle

    The moves of one session, as its worker state and its stake. *)
Inductive edge : option WorkerState * option Balance -> option WorkerState * option Balance -> Prop :=
| edge_stay p : edge p p
| edge_bound o x : o = None \/ o = Some Ready -> edge (o, x) (Some Ready, x)
| edge_started x : edge (Some Ready, None) (Some WorkerIdle, Some x)
| edge_responsive st st' x :
    is_computing st = true -> is_computing st' = true -> edge (Some st, x) (Some st', x)
| edge_stopped st x : is_computing st = true -> edge (Some st, x) (Some WorkerCoolingDown, x)
| edge_reclaimed x : edge (Some WorkerCoolingDown, x) (Some Ready, None).

Section Moves.
Context {cfg : Config}.

Definition session_at (a : AccountId) (s : State) : option WorkerState * option Balance :=
  (state <$> Sessions (computation s) !! a, Stakes (computation s) !! a).

Definition moves (s s' : State) : Prop := forall a, edge (session_at a s) (session_at a s').

(** The moves of a message of the gatekeeper, closed under composition *)
Definition responsive_moves (s s' : State) : Prop := forall a,
  session_at a s' = session_at a s \/
  exists st st' x, session_at a s = (Some st, x) /\ session_at a s' = (Some st', x) /\
    is_computing st = true /\ is_computing st' = true.

Lemma responsive_moves_refl s s' :
  Sessions (computation s') = Sessions (computation s) ->
  Stakes (computation s') = Stakes (computation s) -> responsive_moves s s'.
Proof. intros E1 E2 a. left. unfold session_at. by rewrite E1, E2. Qed.

Lemma responsive_moves_trans s s' s'' :
  responsive_moves s s' -> responsive_moves s' s'' -> responsive_moves s s''.
Proof.
  intros H1 H2 a. specialize (H1 a). specialize (H2 a).
  destruct H1 as [H1|(x1 & y1 & b1 & E1 & F1 & C1 & D1)],
    H2 as [H2|(x2 & y2 & b2 & E2 & F2 & C2 & D2)].
  - left. congruence.
  - right. exists x2, y2, b2. split_and!; congruence.
  - right. exists x1, y1, b1. split_and!; congruence.
  - right. exists x1, y2, b1. split_and!; congruence.
Qed.

Lemma responsive_moves_edges s s' : responsive_moves s s' -> moves s s'.
Proof.
  intros H a. destruct (H a) as [->|(x & y & b & -> & -> & Hx & Hy)]; [apply edge_stay|].
  by apply edge_responsive.
Qed.

Lemma session_at_view s s' : view s' = view s -> forall a, session_at a s' = session_at a s.
Proof. intros [=E1 E2] a. unfold session_at. by rewrite E2. Qed.

(** One session rewritten, the others as they were *)
Lemma moves_put s s' a :
  (forall b, b <> a -> session_at b s' = session_at b s) ->
  edge (session_at a s) (session_at a s') -> moves s s'.
Proof.
  intros Ho Ha b. destruct (decide (b = a)) as [->|Hb]; [done|].
  rewrite Ho by done. apply edge_stay.
Qed.

Lemma responsive_put s s' a i i' :
  Sessions (computation s) !! a = Some i ->
  Sessions (computation s') = <[a := i']> (Sessions (computation s)) ->
  Stakes (computation s') = Stakes (computation s) ->
  (state i' = state i \/ is_computing (state i) = true /\ is_computing (state i') = true) ->
  responsive_moves s s'.
Proof.
  intros Hi E1 E2 Hc b. unfold session_at. rewrite E1, E2.
  destruct (decide (b = a)) as [->|Hb].
  - rewrite lookup_insert_eq, Hi. simpl. destruct Hc as [->|[H1 H2]]; [by left|].
    right. by eexists _, _, _.
  - rewrite lookup_insert_ne by done. by left.
Qed.

End Moves.

Section Lifecycle.
Context {cfg : Config} {F : FixedLib} {codec : Codec} {pal : Pallets}
  {notify : QueueNotifyConfig} {hooks : ComputationHooks}
  {qs : QuietTopic notify SystemEvent_topic} {qg : QuietTopic notify GatekeeperEvent_topic}
  {hs : ComputationHooksSpec hooks}.

(** [responds m]: [m] moves sessions only between the computing states. *)
Definition responds {A} (m : R A) : Prop :=
  forall s, wp True m (fun _ s' => responsive_moves s s') (fun _ s' => responsive_moves s s') s.

Lemma responds_keeps {A} (m : R A) :
  keeps (fun s => (Sessions (computation s), Stakes (computation s))) m -> responds m.
Proof.
  intros Hm s. eapply wp_mono; [apply Hm| |]; simpl; intros ? s' [=E1 E2];
    by apply responsive_moves_refl.
Qed.

Lemma responds_bind {A B} (m : R A) (k : A -> R B) :
  responds m -> (forall a, responds (k a)) -> responds (mbind m k).
Proof.
  intros Hm Hk s. apply wp_bind. eapply wp_mono; [apply Hm| |done]. intros a s1 H1.
  eapply wp_mono; [apply Hk| |]; intros ? s2 H2; exact (responsive_moves_trans _ _ _ H1 H2).
Qed.

Lemma responds_for_each {A} (l : list A) body :
  (forall x, responds (body x)) -> responds (for_each l body).
Proof.
  intros Hb. induction l; simpl; [apply responds_keeps; solve_keeps|]. by apply responds_bind.
Qed.

Lemma responds_catch {A} (m : R A) : responds m -> responds (catch m).
Proof. intros Hm s. apply wp_catch. apply Hm. Qed.

(** A frame of calls around one write of a session *)
Lemma responds_after {A} (m : R A) s s1 :
  responds m -> responsive_moves s s1 ->
  wp True m (fun _ s' => responsive_moves s s') (fun _ s' => responsive_moves s s') s1.
Proof.
  intros Hm H1. eapply wp_mono; [apply Hm| |]; intros ? s2 H2; exact (responsive_moves_trans _ _ _ H1 H2).
Qed.

Lemma set_responsive_responds target ev msg k :
  is_computing target = true -> responds (set_responsive target ev msg k).
Proof.
  intros Ht s. unfold set_responsive, get_session, put_session, upd_computation.
  wp_steps; try by apply responsive_moves_refl.
  apply negb_false_iff in Heqb. apply responds_after; [apply responds_keeps; solve_keeps|].
  eapply (responsive_put _ _ a s0); try done. by right.
Qed.

Lemma keeps_wp_sessions {A} (m : R A) (Q : A -> State -> Prop) (Rr : DispatchError -> State -> Prop) s :
  keeps id m -> (forall a, Q a s) -> (forall e, Rr e s) -> wp True m Q Rr s.
Proof. intros Hm HQ HR. eapply (keeps_wp id); [done|exact Hm| |]; unfold id; intros ? ? ->; eauto. Qed.

Lemma on_heartbeat_responds k n t : responds (on_heartbeat k n t).
Proof.
  intros s. unfold on_heartbeat, ensure_worker_bound, get_session, get_worker, now_sec, put_session,
    upd_computation.
  wp_steps; try (by apply responsive_moves_refl); try done.
  apply keeps_wp_sessions; [solve_keeps| |intros; by apply responsive_moves_refl]. intros b.
  wp_steps; [|done]. apply wp_emit. intros l. wp_steps.
  eapply (responsive_put _ _ a a0); try done. by left.
Qed.

Lemma try_handle_settle_responds info now ts : responds (try_handle_settle info now ts).
Proof.
  intros s. pose proof @stats_on_reward_keeps.
  unfold try_handle_settle, get_session, put_session, upd_computation,
    withdraw_imbalance_from_subsidy_pool.
  wp_steps; try (by apply responsive_moves_refl); try done.
  apply keeps_wp_sessions; [solve_keeps| |intros; by apply responsive_moves_refl]. intros st.
  apply wp_bind, wp_modify. apply responds_after; [apply responds_keeps; solve_keeps|].
  eapply (responsive_put _ _ a a0); try done. by left.
Qed.

Lemma on_gk_message_received_responds m : responds (on_gk_message_received m).
Proof.
  unfold on_gk_message_received. destruct (negb _); [apply responds_keeps; solve_keeps|].
  destruct (is_empty_update _); [apply responds_keeps; solve_keeps|].
  apply responds_bind; [apply responds_keeps; unfold now_sec; solve_keeps|intros now].
  apply responds_bind; [apply responds_for_each; intros; by apply set_responsive_responds|intros []].
  apply responds_bind; [apply responds_for_each; intros; by apply set_responsive_responds|intros []].
  apply responds_bind.
  - apply responds_for_each. intros x. apply responds_bind; [apply responds_catch, try_handle_settle_responds|].
    intros []; apply responds_keeps; solve_keeps.
  - intros []. intros s. eapply keeps_wp; [done|apply hook_on_reward_keeps| |];
      intros ? s' [=E1 E2]; apply responsive_moves_refl; congruence.
Qed.

(** ** Each operation moves sessions along the edges *)
Definition walks {A} (m : R A) : Prop :=
  forall s, Inv s -> wp True m (fun _ s' => moves s s') (fun _ s' => moves s s') s.

Lemma responds_walks {A} (m : R A) : responds m -> walks m.
Proof.
  intros Hm s _. eapply wp_mono; [apply Hm| |]; intros ? s' H; by apply responsive_moves_edges.
Qed.

Lemma moves_view s s1 s2 : moves s s1 -> view s2 = view s1 -> moves s s2.
Proof. intros Hm Hv a. rewrite (session_at_view _ _ Hv). apply Hm. Qed.

Lemma moves_refl s : moves s s.
Proof. intros a. apply edge_stay. Qed.

(** Calls outside the pallet's storage after a write *)
Lemma walks_after {A} (m : R A) s s1 :
  keeps view m -> moves s s1 -> wp True m (fun _ s' => moves s s') (fun _ s' => moves s s') s1.
Proof.
  intros Hm H1. eapply (keeps_wp view); [done|done| |]; intros ? s2 H2; by eapply moves_view.
Qed.

Lemma reclaim_walks a b : walks (reclaim a b).
Proof.
  intros s Hs. unfold reclaim, get_session, put_session, upd_computation.
  wp_steps; [|apply moves_refl]. eapply wp_mono; [apply wp_can_reclaim| |done].
  intros r ? [-> Hr]. wp_steps; [|apply moves_refl]. specialize (Hr H0).
  apply wp_emit. intros l. wp_steps. apply (moves_put _ _ a); unfold session_at; simpl.
  - intros c Hc. by rewrite lookup_insert_ne, lookup_delete_ne.
  - rewrite lookup_insert_eq, lookup_delete_eq, H. simpl. rewrite Hr. apply edge_reclaimed.
Qed.

Lemma bind_walks a k : walks (bind a k).
Proof.
  intros s Hs. unfold bind, get_worker. do 2 wp_step. cbv beta. wp_step; wp_step; [|apply moves_refl].
  apply wp_bind. apply wp_mono with (Q := fun _ s' => s' = s) (R := fun _ s' => s' = s);
    [|intros [] ? ->|intros ? ? ->; apply moves_refl].
  { destruct CheckWorkerRegisterTime; [|by wp_steps].
    unfold is_worker_registered_after_gk_launched. by wp_steps. }
  unfold ensure_session_bound, ensure_worker_bound, get_session, put_session, now_sec, upd_computation.
  wp_steps; try done; try apply moves_refl. apply wp_emit. intros l.
  apply (moves_put _ _ a); unfold session_at; simpl.
  - intros c Hc. by rewrite lookup_insert_ne.
  - rewrite lookup_insert_eq. apply edge_bound. destruct (Sessions (computation s) !! a); [|by left].
    right. apply bool_decide_eq_true in H5. simpl. by rewrite H5.
Qed.

Lemma stop_computing_walks a : walks (stop_computing a).
Proof.
  intros s Hs. unfold stop_computing, get_session, put_session, now_sec, upd_computation.
  wp_steps; try apply moves_refl.
  apply (wp_online (-1) (computation s) (registry s)); [done|simpl; lia|]. intros r ->.
  apply wp_bind, wp_modify, wp_bind, wp_gets. apply walks_after; [solve_keeps|]. apply (moves_put _ _ a); unfold session_at; simpl.
  - intros c Hc. by rewrite lookup_insert_ne.
  - rewrite lookup_insert_eq, H0. apply edge_stopped.
    apply stop_state; [done|]. by apply (inv_used _ _ Hs a).
Qed.

Lemma unbind_session_walks a b : walks (unbind_session a b).
Proof.
  intros s Hs. unfold unbind_session, ensure_session_bound, get_session, upd_computation.
  wp_lines; try apply moves_refl; try done.
  apply wp_mono with (R := fun _ s' => moves s s') (Q := fun _ s' => moves s s'); [| |done].
  - destruct (negb _); [by apply stop_computing_walks|]. apply wp_ret, moves_refl.
  - intros [] s1 H1. apply wp_bind, wp_modify, wp_bind, wp_modify.
    apply walks_after; [solve_keeps|done].
Qed.

Lemma start_computing_walks a x : walks (start_computing a x).
Proof.
  intros s Hs. eapply wp_mono; [by apply start_computing_spec| |intros ? ? ->; apply moves_refl].
  intros [] s' (_ & k & i & w & p & t & ve & _ & Hi & Hr & Hst & _ & _ & _ & _ & _ & _ & E).
  apply (moves_put _ _ a); unfold session_at; rewrite E; simpl.
  - intros c Hc. by rewrite !lookup_insert_ne.
  - rewrite !lookup_insert_eq, Hi, Hst. simpl. rewrite Hr. apply edge_started.
Qed.

Lemma run_op_walks o : walks (run_op o).
Proof.
  destruct o; simpl.
  all: try (apply responds_walks, responds_keeps; autounfold with comp_calls; solve_keeps; fail).
  - apply bind_walks.
  - apply unbind_session_walks.
  - apply start_computing_walks.
  - apply stop_computing_walks.
  - intros s Hs. apply wp_bind. eapply wp_mono; [by apply reclaim_walks|done|done].
  - apply responds_walks. unfold on_working_message_received. destruct (dm_sender m), (dm_payload m);
      apply on_heartbeat_responds || (apply responds_keeps; solve_keeps).
  - apply responds_walks, on_gk_message_received_responds.
  - unfold unbind, ensure_signed, ensure_session_bound, get_worker. intros s Hs.
    wp_steps; try apply moves_refl. by apply unbind_session_walks.
  - unfold force_start_computing, ensure_root. intros s Hs. wp_steps; try apply moves_refl.
    by apply start_computing_walks.
  - unfold force_stop_computing, ensure_root. intros s Hs. wp_steps; try apply moves_refl.
    by apply stop_computing_walks.
Qed.

End Lifecycle.
(** ** Custody of the stake *)
Section Custody.
Context {cfg : Config} {F : FixedLib} {codec : Codec} {pal : Pallets}
  {notify : QueueNotifyConfig} {hooks : ComputationHooks}
  {qs : QuietTopic notify SystemEvent_topic} {qg : QuietTopic notify GatekeeperEvent_topic}
  {hs : ComputationHooksSpec hooks}.

Definition stake_of (a : AccountId) (s : State) : option Balance := Stakes (computation s) !! a.

Definition holds {A} (a : AccountId) (x : Balance) (m : R A) : Prop :=
  forall s, Inv s -> stake_of a s = Some x ->
    wp True m (fun _ s' => stake_of a s' = Some x) (fun _ s' => stake_of a s' = Some x) s.

Lemma holds_keeps {A} a x (m : R A) : keeps (fun s => Stakes (computation s)) m -> holds a x m.
Proof.
  intros Hm s _ Ha. unfold stake_of in *. eapply wp_mono; [apply Hm| |];
    simpl; intros ? s' E; by rewrite E.
Qed.

(** The subscribers, seen from the stakes *)
Lemma keeps_of_view {A T} (f : State -> T) (m : R A) :
  keeps (fun s => (registry s, computation s)) m ->
  (forall s s', computation s' = computation s -> f s' = f s) -> keeps f m.
Proof.
  intros Hm Hf s. eapply wp_mono; [apply Hm| |]; simpl; intros ? s' [=_ E]; by apply Hf.
Qed.

Lemma hooks_keep_stakes l k b x y :
  keeps (fun s => Stakes (computation s)) (hook_on_reward l) /\
  keeps (fun s => Stakes (computation s)) (hook_on_unbound k b) /\
  keeps (fun s => Stakes (computation s)) (hook_on_stopped k x y).
Proof.
  split_and!; eapply keeps_of_view;
    eauto using hook_on_reward_keeps, hook_on_unbound_keeps, hook_on_stopped_keeps;
    by intros s s' ->.
Qed.

Lemma stop_keeps_stakes a : keeps (fun s => Stakes (computation s)) (stop_computing a).
Proof.
  unfold stop_computing, get_session, put_session, now_sec.
  pose proof (fun k x y => proj2 (proj2 (hooks_keep_stakes [] k false x y))). solve_keeps.
Qed.

Lemma unbind_keeps_stakes a b : keeps (fun s => Stakes (computation s)) (unbind_session a b).
Proof.
  unfold unbind_session, ensure_session_bound, get_session. pose proof stop_keeps_stakes.
  pose proof (fun k b => proj1 (proj2 (hooks_keep_stakes [] k b 0 0))). solve_keeps.
Qed.

Lemma working_keeps_stakes m :
  keeps (fun s => Stakes (computation s)) (on_working_message_received m).
Proof.
  unfold on_working_message_received, on_heartbeat, ensure_worker_bound, get_session, get_worker,
    put_session, now_sec. solve_keeps.
Qed.

Lemma gk_keeps_stakes m : keeps (fun s => Stakes (computation s)) (on_gk_message_received m).
Proof.
  unfold on_gk_message_received, set_responsive, try_handle_settle, get_session, put_session,
    withdraw_imbalance_from_subsidy_pool, now_sec.
  pose proof (fun l => proj1 (hooks_keep_stakes l 0 false 0 0)).
  pose proof @stats_on_reward_keeps. solve_keeps.
Qed.

Lemma start_holds a b x y : holds a x (start_computing b y).
Proof.
  intros s Hs Ha. eapply wp_mono; [by apply start_computing_spec| |by intros ? ? ->].
  intros [] s' (_ & k & i & w & p & t & ve & _ & _ & _ & Hb & _ & _ & _ & _ & _ & _ & E).
  unfold stake_of in *. rewrite E. simpl. rewrite lookup_insert_ne; [done|]. intros ->. congruence.
Qed.

Lemma reclaim_holds a b c x : b <> a -> holds a x (reclaim b c).
Proof.
  intros Hab s Hs Ha. unfold reclaim, get_session, put_session, upd_computation.
  wp_steps; [|done]. eapply wp_mono; [apply wp_can_reclaim| |done].
  intros r ? [-> _]. wp_steps; [|done]. apply wp_emit. intros l. wp_steps.
  unfold stake_of. simpl. by rewrite lookup_delete_ne.
Qed.

#[local] Hint Resolve unbind_keeps_stakes stop_keeps_stakes working_keeps_stakes gk_keeps_stakes : keeps.
Lemma run_op_holds a x o : (forall b, o <> ReclaimOp a b) -> holds a x (run_op o).
Proof.
  intros Ho. destruct o; simpl.
  all: try (apply holds_keeps; autounfold with comp_calls; solve_keeps; fail).
  - apply holds_keeps. unfold bind, is_worker_registered_after_gk_launched, ensure_session_bound,
      ensure_worker_bound, get_session, put_session, get_worker, now_sec. solve_keeps.
  - apply start_holds.
  - intros s Hs Ha. apply wp_bind. eapply wp_mono; [apply reclaim_holds; try done|done|done].
    intros ->. by destruct (Ho check_cooldown).
  - intros s Hs Ha. unfold force_start_computing, ensure_root. wp_steps; try done. by apply start_holds.
Qed.

Lemma comp_run_holds a x s l s' :
  comp_run s l s' -> Inv s -> stake_of a s = Some x -> (forall b, Some (ReclaimOp a b) ∉ l) ->
  Inv s' /\ stake_of a s' = Some x.
Proof.
  intros Hr Hs Ha. induction Hr as [s|s l s1 o s2 Hr IH Hst]; intros Hl; [done|].
  destruct IH as [HI Hx]; [done|done|intros b Hb; apply (Hl b); set_solver|].
  split; [by eapply comp_step_inv|].
  destruct Hst as [o s1 s2 H|o e s1 s2 H|s1 s2 Hc _].
  1,2: assert (Hh : holds a x (run_op o)) by (apply run_op_holds; intros b ->; apply (Hl b); set_solver).
  - by apply (wp_ok True _ _ _ _ _ _ (Hh s1 HI Hx) H).
  - by apply (wp_err True _ _ _ _ _ _ (Hh s1 HI Hx) H).
  - unfold stake_of in *. by rewrite Hc.
Qed.

(** ** Properties *)

(** C17: along any run of the pallet that starts with no session, with the
    writes of failed operations kept and any other code interleaved, sessions
    and workers are bound one to one, a bound session has its record and its
    worker is registered, a computing session is bound, a stake is locked
    exactly for the sessions that are not ready, and [OnlineWorkers] counts the
    computing sessions modulo 2^32. *)
Theorem computation_invariant s0 l s : no_sessions s0 -> comp_run s0 l s -> Inv s.
Proof. intros H0 Hr. eapply comp_run_inv; [exact Hr|]. by apply no_sessions_inv. Qed.

(** C19: one step moves every session along the edges of its life cycle: a
    session goes ready, idle, unresponsive or back, cooling down, ready; its
    stake appears when it starts, stays while it computes and cools down, and
    goes away only from cooling down. *)
Theorem session_lifecycle o s s' :
  Inv s -> comp_step o s s' -> forall a, edge (session_at a s) (session_at a s').
Proof.
  intros Hs Hst. revert Hs. destruct Hst as [o' s1 s1' H|o' e s1 s1' H|s1 s1' Hc Hw]; intros Hs a.
  - by apply (wp_ok True _ _ _ _ _ _ (run_op_walks o' s1 Hs) H).
  - by apply (wp_err True _ _ _ _ _ _ (run_op_walks o' s1 Hs) H).
  - unfold session_at. rewrite Hc. apply edge_stay.
Qed.

Lemma start_stake a x s s1 : Inv s -> start_computing a x s = Ok tt s1 -> Inv s1 /\ stake_of a s1 = Some x.
Proof.
  intros Hs H. apply (wp_ok True _ _ _ _ _ _ (start_computing_spec a x s Hs)) in H
    as (HI & k & i & w & p & t & ve & _ & _ & _ & _ & _ & _ & _ & _ & _ & _ & E).
  split; [done|]. unfold stake_of. rewrite E. simpl. by rewrite lookup_insert_eq.
Qed.

Lemma wp_can_reclaim_time i b s :
  wp True (can_reclaim i b)
    (fun r s' => s' = s /\ (r = true -> state i = WorkerCoolingDown /\
       (b = true -> 0 <= cool_down_start i <= unix_time_ms s / 1000 -> unix_time_ms s / 1000 < 2 ^ 64 ->
        CoolDownPeriod (computation s) <= unix_time_ms s / 1000 - cool_down_start i)))
    (fun _ _ => False) s.
Proof.
  unfold can_reclaim. case_bool_decide as Hc; simpl; [|by wp_steps].
  destruct b; simpl; [|by wp_steps]. unfold now_sec. wp_steps.
  apply wp_arith; [|done|]; intros; wp_steps; (split; [done|]); intros Hd%Z.geb_le; (split; [done|]); lia.
Qed.

Lemma reclaim_ok a b s r s' :
  reclaim a b s = Ok r s' ->
  r = (default 0 (stake_of a s), 0) /\ stake_of a s' = None /\
  exists i, Sessions (computation s) !! a = Some i /\ state i = WorkerCoolingDown /\
    (b = true -> 0 <= cool_down_start i <= unix_time_ms s / 1000 -> unix_time_ms s / 1000 < 2 ^ 64 ->
       CoolDownPeriod (computation s) <= unix_time_ms s / 1000 - cool_down_start i).
Proof.
  apply (wp_ok True _ (fun r s' => r = (default 0 (stake_of a s), 0) /\ stake_of a s' = None /\
    exists i, Sessions (computation s) !! a = Some i /\ state i = WorkerCoolingDown /\
    (b = true -> 0 <= cool_down_start i <= unix_time_ms s / 1000 -> unix_time_ms s / 1000 < 2 ^ 64 ->
       CoolDownPeriod (computation s) <= unix_time_ms s / 1000 - cool_down_start i)) (fun _ _ => True)).
  unfold reclaim, get_session, put_session, upd_computation. wp_steps; [|done].
  eapply wp_mono; [apply wp_can_reclaim_time| |done]. intros c ? [-> Hc].
  wp_steps; [|done]. apply wp_emit. intros l. wp_steps. unfold stake_of; simpl.
  rewrite lookup_delete_eq. destruct (Hc H0). split_and!; [done|done|]. by exists a0.
Qed.

(** Reclaiming a session returns exactly the stake it was started with and
    slashes nothing, whatever happened in between except another reclaim; the
    stake is then gone and cannot be reclaimed twice. *)
Theorem reclaim_returns_started_stake a x b s s1 l s2 r s3 :
  Inv s -> start_computing a x s = Ok tt s1 -> comp_run s1 l s2 ->
  (forall c, Some (ReclaimOp a c) ∉ l) -> reclaim a b s2 = Ok r s3 ->
  r = (x, 0) /\ stake_of a s3 = None.
Proof.
  intros Hs H1 Hr Hl H3. destruct (start_stake a x s s1 Hs H1) as [HI Hx].
  destruct (comp_run_holds a x s1 l s2 Hr HI Hx Hl) as [_ Hx2].
  apply reclaim_ok in H3 as (-> & Hn & _). by rewrite Hx2.
Qed.

(** A reclaim that checks the cool-down succeeds only on a session that
    is cooling down and, time not going backwards, only when the whole
    cool-down period has passed since it stopped. *)
Theorem reclaim_waits_for_cooldown a s r s' :
  reclaim a true s = Ok r s' ->
  exists i, Sessions (computation s) !! a = Some i /\ state i = WorkerCoolingDown /\
    (0 <= cool_down_start i <= unix_time_ms s / 1000 -> unix_time_ms s / 1000 < 2 ^ 64 ->
     CoolDownPeriod (computation s) <= unix_time_ms s / 1000 - cool_down_start i).
Proof.
  intros H. apply reclaim_ok in H as (_ & _ & i & Hi & Hc & Hd). exists i. split_and!; [done|done|].
  by apply Hd.
Qed.

End Custody.
Section Calls.
Context {cfg : Config} {F : FixedLib} {codec : Codec} {pal : Pallets}
  {notify : QueueNotifyConfig} {hooks : ComputationHooks}
  {qs : QuietTopic notify SystemEvent_topic} {qg : QuietTopic notify GatekeeperEvent_topic}
  {hs : ComputationHooksSpec hooks}.

(** ** The budget of a block *)
Definition nonce_of (s : State) : Z := BudgetUpdateNonce (computation s).

Lemma set_budget_spec o n b x s :
  wp True (set_budget_per_block o n b x)
    (fun _ s' => o = Signed (ContractAccount (computation s)) /\ nonce_of s < n /\ nonce_of s' = n /\
      LastBudgetUpdateBlock (computation s) < b /\ LastBudgetUpdateBlock (computation s') = b /\
      (0 <= MaxBudgetLimit (computation s) < 2 ^ 127 ->
       x <= 2 * MaxBudgetLimit (computation s)) /\
      exists t, TokenomicParameters (computation s) = Some t /\
        TokenomicParameters (computation s') = Some (Types.set_budget_per_block x t) /\
        MqT.OutboundMessages (mq s') = MqT.OutboundMessages (mq s) ++
          [mkMessage message_origin GatekeeperEvent_topic
             (encode_GatekeeperEvent (TokenomicParametersChanged (Types.set_budget_per_block x t)))])
    (fun _ s' => s' = s) s.
Proof.
  unfold set_budget_per_block, ensure_set_budget_origin, tokenomic, update_tokenomic_parameters,
    upd_computation, BUDGET_SAFE_MULTIPLIER.
  apply wp_transactional. wp_steps; try done.
  apply bool_decide_eq_true in Heqb0. apply Z.gtb_lt in H, H0.
  apply wp_mono with (Q := fun r s' => s' = s /\
    (0 <= MaxBudgetLimit (computation s) < 2 ^ 127 -> r = MaxBudgetLimit (computation s) * 2))
    (R := fun _ _ => False); [apply wp_arith; [done|done|]; intros; split; [done|lia]| |done].
  intros r ? [-> Hr]. wp_steps; [|done|done]. apply Z.leb_le in H1.
  unfold wp, push_gatekeeper_event. rewrite MqFacts.push_bound_message_quiet by done. simpl.
  split_and!; try done; [by subst|intros Hm; rewrite Hr in H1 by done; lia|by eexists].
Qed.

#[local] Hint Extern 2 (keeps nonce_of (hook_on_reward _)) =>
  eapply keeps_of_view; [apply hook_on_reward_keeps|by unfold nonce_of; intros s s' ->] : keeps.
#[local] Hint Extern 2 (keeps nonce_of (hook_on_unbound _ _)) =>
  eapply keeps_of_view; [apply hook_on_unbound_keeps|by unfold nonce_of; intros s s' ->] : keeps.
#[local] Hint Extern 2 (keeps nonce_of (hook_on_stopped _ _ _)) =>
  eapply keeps_of_view; [apply hook_on_stopped_keeps|by unfold nonce_of; intros s s' ->] : keeps.

Lemma run_op_keeps_nonce o :
  (forall r n b x, o <> SetBudgetCall r n b x) -> keeps nonce_of (run_op o).
Proof.
  pose proof @keeps_minimal_stake. pose proof @keeps_ve. pose proof @stats_on_reward_keeps.
  intros Ho. destruct o; simpl; try (by destruct (Ho origin nonce block budget));
    repeat autounfold with comp_calls comp_ops; solve_keeps.
Qed.

Lemma comp_step_nonce o s s' : comp_step o s s' -> nonce_of s <= nonce_of s'.
Proof.
  assert (forall o, (exists r n b x, o = SetBudgetCall r n b x) \/
    (forall r n b x, o <> SetBudgetCall r n b x)) as Hd by (intros []; eauto 10; by right).
  intros [o' s1 s1' H|o' e s1 s1' H|s1 s1' Hc Hw]; [destruct (Hd o') as [(r & n & b & x & ->)|Hn]..|].
  - apply (wp_ok True _ _ _ _ _ _ (set_budget_spec r n b x s1)) in H as (_ & ? & -> & _). lia.
  - by rewrite (keeps_ok _ _ _ _ _ (run_op_keeps_nonce o' Hn) H).
  - apply (wp_err True _ _ _ _ _ _ (set_budget_spec r n b x s1)) in H. by rewrite H.
  - by rewrite (keeps_err _ _ _ _ _ (run_op_keeps_nonce o' Hn) H).
  - unfold nonce_of. by rewrite Hc.
Qed.

(** [set_budget_per_block] accepts only the contract account, with a
    nonce and a block above the recorded ones and a budget of at most twice the
    limit; it then records them, changes the budget of the tokenomic parameters
    and nothing else of them, and tells the gatekeepers in the same block.  A
    rejected call changes nothing. *)
Theorem set_budget_per_block_guarded o n b x s :
  match set_budget_per_block o n b x s with
  | Ok _ s' =>
      o = Signed (ContractAccount (computation s)) /\ nonce_of s < n /\ nonce_of s' = n /\
      LastBudgetUpdateBlock (computation s) < b /\ LastBudgetUpdateBlock (computation s') = b /\
      (0 <= MaxBudgetLimit (computation s) < 2 ^ 127 -> x <= 2 * MaxBudgetLimit (computation s)) /\
      exists t, TokenomicParameters (computation s) = Some t /\
        TokenomicParameters (computation s') = Some (Types.set_budget_per_block x t) /\
        MqT.OutboundMessages (mq s') = MqT.OutboundMessages (mq s) ++
          [mkMessage message_origin GatekeeperEvent_topic
             (encode_GatekeeperEvent (TokenomicParametersChanged (Types.set_budget_per_block x t)))]
  | Err _ s' => s' = s
  | _ => True
  end.
Proof.
  pose proof (set_budget_spec o n b x s) as H. unfold wp in H.
  by destruct (set_budget_per_block o n b x s).
Qed.

(** A budget update is never accepted twice: whatever runs in between, the
    next accepted update has a larger nonce. *)
Theorem budget_nonce_never_reused o n b x s s1 l s2 o' n' b' x' s3 :
  set_budget_per_block o n b x s = Ok tt s1 -> comp_run s1 l s2 ->
  set_budget_per_block o' n' b' x' s2 = Ok tt s3 -> n < n'.
Proof.
  intros H1 Hr H3. assert (nonce_of s1 <= nonce_of s2).
  { clear H1 H3. induction Hr as [|s1 l s2 lo s4 Hr IH Hst]; [done|]. apply comp_step_nonce in Hst. lia. }
  apply (wp_ok True _ _ _ _ _ _ (set_budget_spec o n b x s)) in H1 as (_ & _ & E1 & _).
  apply (wp_ok True _ _ _ _ _ _ (set_budget_spec o' n' b' x' s2)) in H3 as (_ & ? & _). lia.
Qed.

(** ** Heartbeats and settlements *)

(** A heartbeat that reports [iterations] gives the instant score of the
    iterations done per 6 seconds since the last challenge, zero after a
    restart of the worker, capped at 120% of the initial score; a report not
    after the last challenge is refused. *)
Theorem benchmark_update_score b now iterations challenge (s : State) :
  0 <= p_init b -> p_init b * 12 < 2 ^ 32 -> 0 <= bm_iterations b -> 0 <= iterations ->
  iterations * 6 < 2 ^ 64 ->
  benchmark_update (E := DispatchError) b now iterations challenge s =
  Ok (if now <=? challenge_time_last b then None
      else Some (mkBenchmark (p_init b)
        (Z.min ((Z.max 0 (iterations - bm_iterations b) * 6 / (now - challenge_time_last b)) mod 2 ^ 32)
           (p_init b * 12 / 10)) iterations (working_start_time b) challenge)) s.
Proof.
  intros Hp Hp12 Hb Hi H6. unfold benchmark_update. destruct (Z.leb_spec now (challenge_time_last b)); [done|].
  assert (Hd : iterations - (if iterations <? bm_iterations b then iterations else bm_iterations b)
    = Z.max 0 (iterations - bm_iterations b)) by (destruct (Z.ltb_spec iterations (bm_iterations b)); lia).
  cbv zeta. rewrite Hd. unfold mbind. rewrite arith_fits by lia. unfold div_u.
  destruct (Z.eqb_spec (now - challenge_time_last b) 0); [lia|]. simpl.
  rewrite arith_fits by lia. done.
Qed.

(** A settlement that was handled leaves a record at least as recent. *)
Lemma try_handle_settle_recent info now ts a s :
  WorkerBindings (computation s) !! si_pubkey info = Some a -> ts <= now ->
  wp True (try_handle_settle info now ts) (fun _ s' => exists i,
      WorkerBindings (computation s') !! si_pubkey info = Some a /\
      Sessions (computation s') !! a = Some i /\ ts <= v_updated_at i /\
      debug_assertions && negb (can_settle (state i)) = false) (fun _ _ => True) s.
Proof.
  intros Ha Ht. unfold try_handle_settle, get_session, put_session, upd_computation,
    withdraw_imbalance_from_subsidy_pool.
  apply wp_bind, wp_gets. rewrite Ha. wp_lines; [|done|done].
  destruct (Z.geb_spec (v_updated_at a0) ts).
  - apply wp_emit. intros l. simpl. by exists a0.
  - pose proof @stats_on_reward_keeps. apply wp_bind, keeps_wp_sessions; [solve_keeps| |done]. intros st.
    apply wp_bind, wp_modify. eapply (keeps_wp computation); [done|solve_keeps| |done].
    intros [] s' E. rewrite E. simpl. eexists. rewrite lookup_insert_eq. split_and!; done.
Qed.

(** A settlement of a worker is accounted once per message of the
    gatekeeper: handling a second one of the same time for the same worker
    succeeds and changes neither the session, nor the subsidy pool. *)
Theorem settlement_not_replayed info info' now ts a s s1 :
  si_pubkey info' = si_pubkey info ->
  WorkerBindings (computation s) !! si_pubkey info = Some a -> ts <= now ->
  try_handle_settle info now ts s = Ok tt s1 ->
  exists s2, try_handle_settle info' now ts s1 = Ok tt s2 /\
    computation s2 = computation s1 /\ ext s2 = ext s1.
Proof.
  intros Hk Ha Ht H.
  apply (wp_ok True _ _ _ _ _ _ (try_handle_settle_recent info now ts a s Ha Ht)) in H
    as (i & Ha1 & Hi1 & Hts & Hd).
  unfold try_handle_settle, get_session, mbind, gets. rewrite Hk, Ha1, Hi1. simpl.
  unfold debug_assert. rewrite Hd. simpl. destruct (Z.geb_spec (v_updated_at i) ts); [|lia].
  by eexists.
Qed.

(** A worker is unbound by its operator only: for anyone else the call
    [unbind] fails and changes nothing. *)
Theorem unbind_only_by_operator o a k w s :
  SessionBindings (computation s) !! a = Some k -> RegistryT.Workers (registry s) !! k = Some w ->
  (forall who, o = Signed who -> operator w <> Some who) ->
  exists e, unbind o a s = Err e s /\ (e = ComputationError BadSender \/ e = BadOrigin).
Proof.
  intros Hk Hw Ho. unfold unbind, ensure_signed, ensure_session_bound, get_worker.
  destruct o as [|who|]; try (eexists; split; [reflexivity|by right]).
  eexists. unfold mbind, gets. simpl. rewrite Hk. simpl. rewrite Hw. simpl.
  rewrite bool_decide_eq_false_2 by by apply Ho. split; [reflexivity|by left].
Qed.

End Calls.

(** ** Witnesses

    On the reference runtime: worker 5, benchmarked and registered after the
    gatekeeper was launched, is bound, started, stopped and reclaimed. *)
Section Witnesses.
Import RefInstances.
#[local] Existing Instance notify_nothing.
#[local] Existing Instance hooks_nothing.

Definition wit_worker : WorkerInfoV2 :=
  mkWorkerInfoV2 5 55 0 0 (Some (acct 1)) (Some RootProvider) 1 (Some 400) [].

Definition wit_registry : RegistryT.Store :=
  RegistryT.set_GatekeeperLaunchedAt (Some (2, 2))
    (RegistryT.set_WorkerAddedAt {[5 := 3]} (RegistryT.set_Workers {[5 := wit_worker]} ref_registry)).

Definition wit_genesis : State := set_registry wit_registry ref_state.

Definition wit_at (t : Z) (s : State) : State := set_unix_time_ms t s.

Definition wit_run_op (o : op) (s : State) : State := final (run_op o) s.

Definition wit_stake : Balance := 3000 * PHA.

Definition wit_bound : State := wit_run_op (BindOp (acct 1) 5) wit_genesis.
Definition wit_started : State := wit_run_op (StartOp (acct 1) wit_stake) wit_bound.
Definition wit_stopped : State := wit_run_op (StopOp (acct 1)) wit_started.
Definition wit_later : State := wit_at 1000000000 wit_stopped.

Lemma wit_bound_run : comp_run wit_genesis [Some (BindOp (acct 1) 5)] wit_bound.
Proof.
  apply (comp_run_snoc wit_genesis [] wit_genesis); [apply comp_run_nil|].
  apply step_ok. vm_compute. reflexivity.
Qed.

Lemma wit_genesis_empty : no_sessions wit_genesis.
Proof. by split_and!. Qed.

Lemma wit_bound_inv : Inv wit_bound.
Proof. eapply comp_run_inv; [apply wit_bound_run|apply no_sessions_inv, wit_genesis_empty]. Qed.

Lemma wit_at_step t s : comp_step None s (wit_at t s).
Proof. by apply step_env. Qed.

Lemma wit_stopped_run : comp_run wit_started [Some (StopOp (acct 1)); None] wit_later.
Proof.
  apply (comp_run_snoc _ [Some (StopOp (acct 1))] wit_stopped).
  - apply (comp_run_snoc _ [] wit_started); [apply comp_run_nil|].
    apply step_ok. vm_compute. reflexivity.
  - apply wit_at_step.
Qed.

Lemma computation_invariant_witness : Inv wit_bound.
Proof.
  apply (computation_invariant wit_genesis [Some (BindOp (acct 1) 5)]).
  - apply wit_genesis_empty.
  - apply wit_bound_run.
Defined.

Lemma session_lifecycle_witness :
  edge (session_at (acct 1) wit_bound) (session_at (acct 1) wit_started).
Proof.
  apply (session_lifecycle (Some (StartOp (acct 1) wit_stake))).
  - apply wit_bound_inv.
  - apply step_ok. vm_compute. reflexivity.
Defined.

Lemma reclaim_returns_started_stake_witness :
  (wit_stake, 0) = (wit_stake, 0) /\ stake_of (acct 1) (wit_run_op (ReclaimOp (acct 1) true) wit_later) = None.
Proof.
  apply (reclaim_returns_started_stake (acct 1) wit_stake true wit_bound wit_started
    [Some (StopOp (acct 1)); None] wit_later (wit_stake, 0)
    (wit_run_op (ReclaimOp (acct 1) true) wit_later)).
  - apply wit_bound_inv.
  - vm_compute. reflexivity.
  - apply wit_stopped_run.
  - intros c Hc. repeat (apply elem_of_cons in Hc as [Hc|Hc]; [discriminate|]). by apply elem_of_nil in Hc.
  - vm_compute. reflexivity.
Defined.

Lemma reclaim_waits_for_cooldown_witness :
  exists i, Sessions (computation wit_later) !! acct 1 = Some i /\ state i = WorkerCoolingDown /\
    (0 <= cool_down_start i <= unix_time_ms wit_later / 1000 -> unix_time_ms wit_later / 1000 < 2 ^ 64 ->
     CoolDownPeriod (computation wit_later) <= unix_time_ms wit_later / 1000 - cool_down_start i).
Proof.
  apply (reclaim_waits_for_cooldown (acct 1) wit_later (wit_stake, 0)
    (wit_run_op (ReclaimOp (acct 1) true) wit_later)).
  vm_compute. reflexivity.
Defined.

Definition wit_budget (n : Z) (s : State) : State :=
  final (set_budget_per_block (Signed (acct 9005)) n n 1000) s.

Lemma set_budget_per_block_guarded_witness :
  nonce_of (wit_budget 1 wit_genesis) = 1.
Proof.
  pose proof (set_budget_per_block_guarded (Signed (acct 9005)) 1 1 1000 wit_genesis) as H.
  assert (E : set_budget_per_block (Signed (acct 9005)) 1 1 1000 wit_genesis
    = Ok tt (wit_budget 1 wit_genesis)) by (vm_compute; reflexivity).
  rewrite E in H. apply H.
Defined.

Lemma budget_nonce_never_reused_witness : 1 < 2.
Proof.
  apply (budget_nonce_never_reused (Signed (acct 9005)) 1 1 1000 wit_genesis (wit_budget 1 wit_genesis) []
    (wit_budget 1 wit_genesis) (Signed (acct 9005)) 2 2 1000 (wit_budget 2 (wit_budget 1 wit_genesis))).
  - vm_compute. reflexivity.
  - apply comp_run_nil.
  - vm_compute. reflexivity.
Defined.

Lemma benchmark_update_score_witness :
  benchmark_update (E := DispatchError) (mkBenchmark 400 0 1000 0 10) 22 2200 20 wit_genesis
  = Ok (Some (mkBenchmark 400 480 2200 0 20)) wit_genesis.
Proof.
  rewrite (benchmark_update_score (mkBenchmark 400 0 1000 0 10) 22 2200 20 wit_genesis);
    [vm_compute; reflexivity|simpl; lia..].
Defined.

Definition wit_settle : SettleInfo := mkSettleInfo 5 (2 ^ 64) (2 ^ 64) 0.

Lemma settlement_not_replayed_witness :
  exists s2, try_handle_settle wit_settle 2000 1500
      (final (try_handle_settle wit_settle 2000 1500) wit_started) = Ok tt s2 /\
    computation s2 = computation (final (try_handle_settle wit_settle 2000 1500) wit_started) /\
    ext s2 = ext (final (try_handle_settle wit_settle 2000 1500) wit_started).
Proof.
  apply (settlement_not_replayed wit_settle wit_settle 2000 1500 (acct 1) wit_started).
  - reflexivity.
  - vm_compute. reflexivity.
  - lia.
  - vm_compute. reflexivity.
Defined.

Lemma unbind_only_by_operator_witness :
  exists e, unbind (Signed (acct 2)) (acct 1) wit_bound = Err e wit_bound /\
    (e = ComputationError BadSender \/ e = BadOrigin).
Proof.
  apply (unbind_only_by_operator (Signed (acct 2)) (acct 1) 5 wit_worker).
  - vm_compute. reflexivity.
  - vm_compute. reflexivity.
  - intros who [= <-]. discriminate.
Defined.

End Witnesses.
End ComputationProps.
