(* ===== verification/BasePool.v ===== *)
(** * The base pool: pallets/cyrux/src/compute/base_pool.rs and pool_proxy.rs

    Shares of a pool held in NFTs, their price, contributions, the withdraw
    queue, rewards passed on to subscribed vaults, and the contribution
    whitelist. *)
From stdpp Require Import prelude gmap list strings pretty.
From Stdlib Require Import ZArith Lia.
From S2P Require Import Prelude Types Externals BalanceConvert Computation.

Module BasePool.
Import BasePoolT.

Definition MAX_WHITELIST_LEN : Z := 100.
Definition RESERVE_CID_START : CollectionId := 10000.
Definition NFT_PROPERTY_KEY : bytes := bytes_of_string "stake-info".
Definition CREATETIME_KEY : bytes := bytes_of_string "createtime".

(** ** Dust *)
Definition balance_close_to_zero (n : Balance) : bool := n <=? 1000.
Definition is_nondust_balance (n : Balance) : bool := negb (balance_close_to_zero n).
Definition extract_dust (n : Balance) : Balance * Balance :=
  if balance_close_to_zero n then (0, n) else (n, 0).

(** [checked_sub] of a balance *)
Definition checked_sub (a b : Balance) : option Balance := if b <=? a then Some (a - b) else None.

(** [StakePool::remove_worker] and [remove_cd_worker] *)
Definition retain_not (w : WorkerPublicKey) (l : list WorkerPublicKey) : list WorkerPublicKey :=
  filter (fun x => x <> w) l.

Section Pure.
Context {cfg : Config}.

Definition remove_worker (w : WorkerPublicKey) (p : StakePool) : StakePool :=
  set_workers (retain_not w (workers p)) p.

Definition remove_cd_worker (w : WorkerPublicKey) (p : StakePool) : StakePool :=
  set_cd_workers (retain_not w (cd_workers p)) p.

Definition basepool_of (p : PoolProxy) : BasePool :=
  match p with VaultProxy v => vt_basepool v | StakePoolProxy sp => sp_basepool sp end.

End Pure.

Section Pallet.
Context {cfg : Config} {F : FixedLib} {codec : Codec} {pal : Pallets}.

Definition emit (e : Event) : R unit := deposit_event (BasePoolEv e).

Definition err {A} (e : Error) : R A := fail (BasePoolError e).

Definition pool_collection (p : Z) : R (option PoolProxy) :=
  gets (fun s => Pools (base_pool s) !! p).

Definition put_pool (p : Z) (x : PoolProxy) : R unit :=
  upd_base_pool (fun b => set_Pools (<[p := x]> (Pools b)) b).

Definition ensure_stake_pool (p : Z) : R StakePool :=
  let* o := pool_collection p in
  let* proxy := ok_or o (BasePoolError PoolDoesNotExist) in
  match proxy with StakePoolProxy res => mret res | VaultProxy _ => err PoolTypeNotMatch end.

Definition ensure_vault (p : Z) : R Vault :=
  let* o := pool_collection p in
  let* proxy := ok_or o (BasePoolError PoolDoesNotExist) in
  match proxy with VaultProxy res => mret res | StakePoolProxy _ => err PoolTypeNotMatch end.

(** [wrapped_balances::Pallet::min_balance] *)
Definition min_balance : R Balance :=
  let* b := gets (fun s => asset_exists (ext s)) in
  if b then gets (fun s => asset_minimum_balance (ext s)) else panic.

(** ** Prices *)
Definition share_price (p : BasePool) : R (option Z) :=
  let* v := to_fixed (total_value p) in
  let* sh := to_fixed (total_shares p) in
  mret (fx_checked_div v sh).

Definition slash (p : BasePool) (amount : Balance) : R BasePool :=
  debug_assert (is_nondust_balance (total_shares p));;;
  debug_assert (total_value p >=? amount);;;
  let amount := Z.min (total_value p) amount in
  mret (set_total_value (fst (extract_dust (total_value p - amount))) p).

Definition get_free_stakes (p : BasePool) : R Balance :=
  gets (fun s => asset_balance (pool_account_id p) (ext s)).

(** [StakePool::get_owner_stakes] *)
Definition get_owner_stakes (p : StakePool) : R Balance :=
  gets (fun s => asset_balance (owner_reward_account p) (ext s)).

(** ** NFTs *)

(** The body of [NftGuard]'s [drop] *)
Definition release (c : CollectionId) (n : NftId) : R unit :=
  upd_base_pool (fun b => set_NftLocks (NftLocks b ∖ {[(c, n)]}) b).

Definition get_nft_attr (c : CollectionId) (n : NftId) : R NftAttr :=
  let* raw := gets (fun s => properties c n NFT_PROPERTY_KEY (ext s)) in
  let* raw := ok_or raw (BasePoolError MissCollectionId) in
  expect_some (decode_NftAttr raw).

(** The guard is the attribute it carries; its owner calls [release]. *)
Definition get_nft_attr_guard (c : CollectionId) (n : NftId) : R NftAttr :=
  let* nft := get_nft_attr c n in
  let* locks := gets (fun s => NftLocks (base_pool s)) in
  ensure (negb (bool_decide ((c, n) ∈ locks))) (BasePoolError AttrLocked);;;
  upd_base_pool (fun b => set_NftLocks ({[(c, n)]} ∪ NftLocks b) b);;;
  mret nft.

(** A guard read and unlocked at once *)
Definition read_nft (c : CollectionId) (n : NftId) : R NftAttr :=
  let* nft := get_nft_attr_guard c n in
  release c n;;;
  mret nft.

Definition set_nft_attr (c : CollectionId) (n : NftId) (a : NftAttr) : R unit :=
  transactional (
    extc (set_lock c n false);;;
    extc (do_set_property c n NFT_PROPERTY_KEY (encode_NftAttr a));;;
    extc (set_lock c n true)).

(** [NftGuard::save]: the guard is dropped when it returns, either way. *)
Definition save (c : CollectionId) (n : NftId) (a : NftAttr) : R unit :=
  let* r := catch (set_nft_attr c n a) in
  release c n;;;
  match r with inl _ => mret tt | inr e => fail e end.

Definition set_nft_desc_attr (c : CollectionId) (n : NftId) : R unit :=
  extc (set_lock c n false);;;
  let* now := now_sec in
  extc (do_set_property c n CREATETIME_KEY (bytes_of_string (pretty now)));;;
  extc (set_lock c n true).

Definition get_next_nft_id (c : CollectionId) : R NftId :=
  let* o := gets (fun s => NextNftId (base_pool s) !! c) in
  let current := default 0 o in
  ensure (current + 1 <? 2 ^ 32) (BasePoolError NftIdNotFound);;;
  upd_base_pool (fun b => set_NextNftId (<[c := current + 1]> (NextNftId b)) b);;;
  mret current.

Definition mint_nft (c : CollectionId) (contributer : AccountId) (sh : Balance) (p : Z) : R NftId :=
  transactional (
    let* ex := gets (fun s => collection_exists c (ext s)) in
    ensure ex CollectionUnknown;;;
    let* n := get_next_nft_id c in
    extc (rmrk_mint_nft basepool_pallet_id contributer n c);;;
    set_nft_attr c n (mkNftAttr sh);;;
    set_nft_desc_attr c n;;;
    extc (set_lock c n true);;;
    emit (NftCreated p c n contributer sh);;;
    mret n).

Definition remove_properties (c : CollectionId) (n : NftId) : R unit :=
  let* _ := catch (extc (do_remove_property c n CREATETIME_KEY)) in
  mret tt.

Definition burn_nft (o : AccountId) (c : CollectionId) (n : NftId) : R unit :=
  transactional (
    extc (set_lock c n false);;;
    let* r := catch (extc (nft_burn o c n)) in
    ensure (match r with inl _ => true | inr _ => false end) (BasePoolError BurnNftFailed);;;
    remove_properties c n;;;
    extc (lock_remove c n)).

Definition merge_nft_for_staker (c : CollectionId) (staker : AccountId) (p : Z) : R (option NftId) :=
  let* nfts := gets (fun s => owned_in_collection c staker (ext s)) in
  match nfts with
  | [] => mret None
  | [n] => mret (Some n)
  | _ =>
      let* total := for_fold nfts 0 (fun total n =>
        let* nft := expect_ok (read_nft c n) in
        let* total := arith 128 (total + shares nft) in
        expect_ok (burn_nft staker c n);;;
        mret total) in
      let* n := mint_nft c staker total p in
      mret (Some n)
  end.

(** ** Contributions *)
Definition add_stake_to_new_nft (p : BasePool) (account : AccountId) (amount : Balance) :
    R (BasePool * Balance) :=
  let* price := share_price p in
  let* sh := match price with
             | Some price => if price =? 0 then mret amount else bdiv amount price
             | None => mret amount
             end in
  let* _ := expect_ok (mint_nft (cid p) account sh (pid p)) in
  let* ts := arith 128 (total_shares p + sh) in
  let* tv := arith 128 (total_value p + amount) in
  expect_ok (extc (asset_transfer account (pool_account_id p) amount));;;
  mret (set_total_value tv (set_total_shares ts p), sh).

Definition contribute (p : BasePool) (account : AccountId) (amount : Balance) : R (BasePool * Balance) :=
  transactional (
    ensure ((total_shares p =? 0) || (total_value p >? 0)) (BasePoolError PoolBankrupt);;;
    let* wl := gets (fun s => PoolContributionWhitelists (base_pool s) !! pid p) in
    match wl with
    | Some wl => ensure (bool_decide (account ∈ wl) || bool_decide (owner p = account))
                   (BasePoolError NotInContributeWhitelist)
    | None => mret tt
    end;;;
    let* _ := merge_nft_for_staker (cid p) account (pid p) in
    add_stake_to_new_nft p account amount).

(** ** Withdrawals *)
Definition push_withdraw_in_queue (p : BasePool) (nft : NftAttr) (account : AccountId) (sh : Balance) :
    R (BasePool * NftAttr * option NftId) :=
  transactional (
    let* price := share_price p in
    match price with
    | None =>
        let* remain := ok_or (checked_sub (shares nft) sh) (BasePoolError InvalidShareToWithdraw) in
        mret (p, mkNftAttr remain, None)
    | Some _ =>
        let in_queue := filter (fun w => user w = account) (withdraw_queue p) in
        let rest := filter (fun w => user w <> account) (withdraw_queue p) in
        let* held := for_fold in_queue (shares nft) (fun held w =>
          let* q := read_nft (cid p) (wd_nft_id w) in
          let* held := arith 128 (held + shares q) in
          expect_ok (burn_nft basepool_pallet_id (cid p) (wd_nft_id w));;;
          mret held) in
        let* split := expect_ok (mint_nft (cid p) basepool_pallet_id sh (pid p)) in
        let* remain := ok_or (checked_sub held sh) (BasePoolError InvalidShareToWithdraw) in
        let* now := now_sec in
        mret (set_withdraw_queue (rest ++ [mkWithdrawInfo account now split]) p,
              mkNftAttr remain, Some split)
    end).

(** The scan of the queue in [has_expired_withdrawal] *)
Fixpoint expired_scan (p : BasePool) (price now grace_period : Z) (vault_period : option Z)
    (queue : list WithdrawInfo) (budget : Balance) : R bool :=
  match queue with
  | [] => mret false
  | w :: queue' =>
      let* timed_out := match vault_period with
                        | Some period =>
                            let* d := arith 64 (now - start_time w) in
                            mret (d >? period)
                        | None => mret false
                        end in
      if timed_out then mret true
      else
        let* nft := expect_ok (read_nft (cid p) (wd_nft_id w)) in
        let* amount := bmul (shares nft) price in
        if amount >? budget then
          let* d := arith 64 (now - start_time w) in
          mret (d >? grace_period)
        else expired_scan p price now grace_period vault_period queue' (budget - amount)
  end.

Definition has_expired_withdrawal (p : BasePool) (now grace_period : Z) (vault_period : option Z)
    (releasing_stake : Balance) : R bool :=
  let* price := share_price p in
  match price with
  | None => mret false
  | Some price =>
      if price =? 0 then mret false
      else
        let* free := get_free_stakes p in
        let* budget := arith 128 (free + releasing_stake) in
        expired_scan p price now grace_period vault_period (withdraw_queue p) budget
  end.

(** [None] is returned before anything is written. *)
Definition remove_stake_from_nft (p : BasePool) (sh : Balance) (nft : NftAttr) (userid : AccountId) :
    R (option (BasePool * NftAttr * (Balance * Balance))) :=
  let* price := share_price p in
  match price with
  | None => mret None
  | Some price =>
      let* amount := bmul sh price in
      let* free := get_free_stakes p in
      let amount := Z.min amount free in
      match checked_sub (shares nft) sh with
      | None => mret None
      | Some remain =>
          let '(user_shares, dust) := extract_dust remain in
          let* removed := arith 128 (sh + dust) in
          match checked_sub (total_shares p) removed with
          | None => mret None
          | Some ts =>
              let* rest := arith 128 (total_value p - amount) in
              let total_stake := fst (extract_dust rest) in
              expect_ok (extc (asset_transfer (pool_account_id p) userid amount));;;
              mret (Some (set_total_shares ts (set_total_value (if total_stake >? 0 then rest else 0) p),
                          mkNftAttr user_shares, (amount, removed)))
          end
      end
  end.

Definition maybe_remove_dust (p : BasePool) (nft : NftAttr) : R (BasePool * bool) :=
  let* price := share_price p in
  match price with
  | None => mret (p, false)
  | Some price =>
      let* current_balance := bmul (shares nft) price in
      let* wpha_min := min_balance in
      if current_balance >? wpha_min then mret (p, false)
      else
        let* ts := arith 128 (total_shares p - shares nft) in
        mret (set_total_shares ts p, true)
  end.

(** [WithdrawEventStats]: amount, shares and burnt shares of a user *)
Definition Stats : Type := Balance * Balance * Balance.

Definition add_stats (u : AccountId) (d : Stats) (m : gmap AccountId Stats) : R (gmap AccountId Stats) :=
  let '(a, b, c) := default (0, 0, 0) (m !! u) in
  let '(da, db, dc) := d in
  let* a := arith 128 (a + da) in
  let* b := arith 128 (b + db) in
  let* c := arith 128 (c + dc) in
  mret (<[u := (a, b, c)]> m).

(** One turn of the loop of [try_process_withdraw_queue] on the request [w] at
    the front of the queue *)
Definition process_front (price : Z) (p : BasePool) (w : WithdrawInfo) (wd : gmap AccountId Stats) :
    R (BasePool * gmap AccountId Stats) :=
  let* nft := expect_ok (get_nft_attr_guard (cid p) (wd_nft_id w)) in
  let* (p, dust) := maybe_remove_dust p nft in
  if dust then
    let* wd := add_stats (user w) (0, 0, shares nft) wd in
    release (cid p) (wd_nft_id w);;;
    expect_ok (burn_nft basepool_pallet_id (cid p) (wd_nft_id w));;;
    mret (set_withdraw_queue (tail (withdraw_queue p)) p, wd)
  else
    let* free_shares := (if price =? 0 then mret (shares nft)
                         else let* free := get_free_stakes p in bdiv free price) in
    let withdrawing_shares := Z.min free_shares (shares nft) in
    debug_assert (is_nondust_balance withdrawing_shares);;;
    let* r := remove_stake_from_nft p withdrawing_shares nft (user w) in
    let* (p, nft, (reduced, withdrawn_shares)) := expect_some r in
    let* wd := add_stats (user w) (reduced, withdrawn_shares, 0) wd in
    expect_ok (save (cid p) (wd_nft_id w) nft);;;
    let* (p, dust) := (if shares nft =? 0 then mret (p, true) else maybe_remove_dust p nft) in
    if dust then
      let* wd := (if shares nft =? 0 then mret wd else add_stats (user w) (0, 0, shares nft) wd) in
      expect_ok (burn_nft basepool_pallet_id (cid p) (wd_nft_id w));;;
      mret (set_withdraw_queue (tail (withdraw_queue p)) p, wd)
    else mret (p, wd).

(** The condition and the body of that loop; it goes on after a request. *)
Definition process_turn (price wpha_min : Z) (r : BasePool * gmap AccountId Stats) :
    R ((BasePool * gmap AccountId Stats) * bool) :=
  let* free := get_free_stakes (fst r) in
  if free >? wpha_min then
    match withdraw_queue (fst r) with
    | [] => mret (r, false)
    | w :: _ =>
        let* r := process_front price (fst r) w (snd r) in
        mret (r, true)
    end
  else mret (r, false).

(** A turn pops a request or takes shares from the pool, which has fewer than [2 ^ 128]. *)
Definition process_fuel (p : BasePool) : nat := 129 + length (withdraw_queue p).

Definition try_process_withdraw_queue (p : BasePool) : R BasePool :=
  let* price := share_price p in
  match price with
  | None => mret p
  | Some price =>
      let* wpha_min := min_balance in
      let* (p', wd) := while_loop (process_fuel p) (process_turn price wpha_min) (p, ∅) in
      for_each (btree_order (fst <$> map_to_list wd)) (fun u =>
        let '(a, b, c) := default (0, 0, 0) (wd !! u) in
        emit (Withdrawal (pid p') u a b c));;;
      mret p'
  end.

Definition try_withdraw (p : BasePool) (nft : NftAttr) (userid : AccountId) (sh : Balance) (nft_id : NftId)
    (as_vault : option Z) : R (BasePool * NftAttr) :=
  let* (p, nft, split) := push_withdraw_in_queue p nft userid sh in
  match split with
  | None => mret (p, nft)
  | Some split =>
      emit (WithdrawalQueued (pid p) userid sh nft_id as_vault split);;;
      let* p := try_process_withdraw_queue p in
      mret (p, nft)
  end.

(** ** Rewards

    A vault that subscribes to a pool gets its part of the reward, and passes
    it on to its own subscribers; [fuel] bounds this nesting. *)
Fixpoint distribute_reward (fuel : nat) (p : BasePool) (rewards : Balance) : R BasePool :=
  match fuel with
  | O => fun _ => NoFuel
  | S fuel =>
      let* tv := arith 128 (total_value p + rewards) in
      let p := set_total_value tv p in
      for_each (value_subscribers p) (fun vault_staker =>
        let* vault := expect_ok (ensure_vault vault_staker) in
        let vacc := pool_account_id (vt_basepool vault) in
        let* maybe_nft := expect_ok (merge_nft_for_staker (cid p) vacc (pid p)) in
        match maybe_nft with
        | None => mret tt
        | Some n =>
            let* nft := expect_ok (read_nft (cid p) n) in
            let* sh := to_fixed (shares nft) in
            let* sh := for_fold (filter (fun w => user w = vacc) (withdraw_queue p)) sh (fun sh w =>
              let* q := expect_ok (read_nft (cid p) (wd_nft_id w)) in
              let* x := to_fixed (shares q) in
              expect_some (fx_add sh x)) in
            let* ts := to_fixed (total_shares p) in
            match fx_checked_div sh ts with
            | None => mret tt
            | Some ratio =>
                let* stake_ratio := from_fixed ratio in
                let* r := to_fixed rewards in
                let* settled := bmul stake_ratio r in
                let* bp := distribute_reward fuel (vt_basepool vault) settled in
                put_pool vault_staker (VaultProxy (set_vt_basepool bp vault))
            end
        end);;;
      mret p
  end.

(** Vaults have no subscribers, so two levels are enough. *)
Definition distribute_fuel : nat := 2.

(** ** Identifiers *)
Definition consume_new_pid : R Z :=
  let* p := gets (fun s => PoolCount (base_pool s)) in
  let* next := arith 64 (p + 1) in
  upd_base_pool (set_PoolCount next);;;
  mret p.

Definition consume_new_cid : R CollectionId :=
  let* n := gets (fun s => CollectionIndex (base_pool s)) in
  let n := if n <=? RESERVE_CID_START then RESERVE_CID_START else n in
  let* next := arith 32 (n + 1) in
  upd_base_pool (set_CollectionIndex next);;;
  mret n.

Definition ensure_migration_root (u : AccountId) : R unit :=
  ensure (bool_decide (u = MigrationAccountId)) (BasePoolError NotMigrationRoot).

(** ** Calls *)
Definition ensure_pool_owner (who : AccountId) (p : Z) : R unit :=
  let* o := pool_collection p in
  let* proxy := ok_or o (BasePoolError PoolDoesNotExist) in
  ensure (bool_decide (owner (basepool_of proxy) = who)) (BasePoolError UnauthorizedPoolOwner).

Definition set_whitelist (p : Z) (l : list AccountId) : R unit :=
  upd_base_pool (fun b => set_PoolContributionWhitelists (<[p := l]> (PoolContributionWhitelists b)) b).

Definition add_staker_to_whitelist (origin : Origin) (p : Z) (staker : AccountId) : R unit :=
  let* who := ensure_signed origin in
  ensure_pool_owner who p;;;
  let* wl := gets (fun s => PoolContributionWhitelists (base_pool s) !! p) in
  match wl with
  | Some wl =>
      ensure (negb (bool_decide (staker ∈ wl))) (BasePoolError AlreadyInContributeWhitelist);;;
      ensure (Z.of_nat (length wl) <? MAX_WHITELIST_LEN) (BasePoolError ExceedWhitelistMaxLen);;;
      set_whitelist p (wl ++ [staker])
  | None =>
      set_whitelist p [staker];;;
      emit (PoolWhitelistCreated p)
  end;;;
  emit (PoolWhitelistStakerAdded p staker).

Definition set_pool_description (origin : Origin) (p : Z) (description : bytes) : R unit :=
  let* who := ensure_signed origin in
  ensure_pool_owner who p;;;
  upd_base_pool (fun b => set_PoolDescriptions (<[p := description]> (PoolDescriptions b)) b).

Definition remove_staker_from_whitelist (origin : Origin) (p : Z) (staker : AccountId) : R unit :=
  let* who := ensure_signed origin in
  ensure_pool_owner who p;;;
  let* wl := gets (fun s => PoolContributionWhitelists (base_pool s) !! p) in
  let* wl := ok_or wl (BasePoolError NoWhitelistCreated) in
  ensure (bool_decide (staker ∈ wl)) (BasePoolError NotInContributeWhitelist);;;
  let wl := filter (fun a => a <> staker) wl in
  match wl with
  | [] =>
      upd_base_pool (fun b => set_PoolContributionWhitelists (delete p (PoolContributionWhitelists b)) b);;;
      emit (PoolWhitelistStakerRemoved p staker);;;
      emit (PoolWhitelistDeleted p)
  | _ =>
      set_whitelist p wl;;;
      emit (PoolWhitelistStakerRemoved p staker)
  end.

Definition claim_reimbursement (origin : Origin) (p : Z) (target : AccountId) : R unit :=
  transactional (
    let* who := ensure_signed origin in
    let* rewards := gets (fun s => Reimbursements (base_pool s) !! (who, p)) in
    upd_base_pool (fun b => set_Reimbursements (delete (who, p) (Reimbursements b)) b);;;
    let* rewards := ok_or rewards (BasePoolError NoReimbursementToClaim) in
    or_err (Computation.withdraw_subsidy_pool target rewards)
      (BasePoolError InternalSubsidyPoolCannotWithdraw)).

Definition set_reimbursements (origin : Origin) (input : list (AccountId * Z * Balance)) (add : bool) :
    R unit :=
  let* who := ensure_signed origin in
  ensure_migration_root who;;;
  for_each input (fun '(account_id, p, balance) =>
    let* old := gets (fun s => Reimbursements (base_pool s) !! (account_id, p)) in
    let* new := (if add then arith 128 (default 0 old + balance) else mret balance) in
    upd_base_pool (fun b => set_Reimbursements (<[(account_id, p) := new]> (Reimbursements b)) b)).

End Pallet.
End BasePool.
