(* ===== verification/BasePoolFacts.v ===== *)
(** * Facts on the base pool

    Locks of NFTs, the arithmetic of shares, the withdraw queue and the
    whitelist of pallets/cyrux/src/compute/base_pool.rs. *)
From stdpp Require Import prelude gmap list strings.
From Stdlib Require Import ZArith Lia.
From S2P Require Import Prelude Types Externals BalanceConvert Reference Mq Computation BasePool.

Module BasePoolFacts.
Import BasePool BasePoolT.

(** ** Frames *)
Section Frames.
Context {cfg : Config} {F : FixedLib} {codec : Codec} {pal : Pallets}.

Lemma keeps_emit_pool {T} (f : State -> T) e :
  (forall s l, f (set_events l s) = f s) -> keeps f (emit e).
Proof. intros Hf s. apply Hf. Qed.

Lemma keeps_bmul {T} (f : State -> T) x y : keeps f (bmul (E := DispatchError) x y).
Proof. unfold bmul, to_fixed, from_fixed. solve_keeps. Qed.

Lemma keeps_bdiv {T} (f : State -> T) x y : keeps f (bdiv (E := DispatchError) x y).
Proof. unfold bdiv, to_fixed, from_fixed. solve_keeps. Qed.

Lemma keeps_to_fixed_pool {T} (f : State -> T) x : keeps f (to_fixed (E := DispatchError) x).
Proof. unfold to_fixed. solve_keeps. Qed.

Lemma keeps_from_fixed {T} (f : State -> T) x : keeps f (from_fixed (E := DispatchError) x).
Proof. unfold from_fixed. solve_keeps. Qed.

Lemma keeps_share_price {T} (f : State -> T) p : keeps f (share_price p).
Proof. unfold share_price. pose proof @keeps_to_fixed_pool. solve_keeps. Qed.

Lemma keeps_get_free_stakes {T} (f : State -> T) p : keeps f (get_free_stakes p).
Proof. unfold get_free_stakes. solve_keeps. Qed.

Lemma keeps_min_balance {T} (f : State -> T) : keeps f min_balance.
Proof. unfold min_balance. solve_keeps. Qed.

Lemma keeps_maybe_remove_dust {T} (f : State -> T) p nft : keeps f (maybe_remove_dust p nft).
Proof.
  unfold maybe_remove_dust. pose proof @keeps_share_price. pose proof @keeps_bmul.
  pose proof @keeps_min_balance. solve_keeps.
Qed.

Lemma keeps_add_stats {T} (f : State -> T) u d m : keeps f (add_stats u d m).
Proof. unfold add_stats. destruct (default _ _) as [[? ?] ?], d as [[? ?] ?]. solve_keeps. Qed.

Lemma keeps_pool_collection {T} (f : State -> T) p : keeps f (pool_collection p).
Proof. unfold pool_collection. solve_keeps. Qed.

Lemma keeps_ensure_stake_pool {T} (f : State -> T) p : keeps f (ensure_stake_pool p).
Proof. unfold ensure_stake_pool, err. pose proof @keeps_pool_collection. solve_keeps. Qed.

Lemma keeps_ensure_vault {T} (f : State -> T) p : keeps f (ensure_vault p).
Proof. unfold ensure_vault, err. pose proof @keeps_pool_collection. solve_keeps. Qed.

End Frames.
#[export] Hint Resolve keeps_pool_collection keeps_ensure_stake_pool keeps_ensure_vault : keeps.
#[export] Hint Extern 1 (keeps _ (emit _)) => apply keeps_emit_pool; reflexivity : keeps.
#[export] Hint Resolve keeps_bmul keeps_bdiv keeps_to_fixed_pool keeps_from_fixed keeps_share_price
  keeps_get_free_stakes keeps_min_balance keeps_maybe_remove_dust keeps_add_stats : keeps.

(** ** Locks

    Every operation gives back the NFT locks it takes. *)
Section Locks.
Context {cfg : Config} {F : FixedLib} {codec : Codec} {pal : Pallets}.

Definition locks (s : State) : gset (CollectionId * NftId) := NftLocks (base_pool s).

Lemma get_nft_attr_guard_spec c n s :
  wp True (get_nft_attr_guard c n)
    (fun a s' => ~ (c, n) ∈ locks s /\
       s' = set_base_pool (set_NftLocks ({[(c, n)]} ∪ locks s) (base_pool s)) s)
    (fun _ s' => s' = s) s.
Proof.
  unfold get_nft_attr_guard, get_nft_attr, upd_base_pool. wp_steps; try done.
  apply negb_true_iff, bool_decide_eq_false in H1. done.
Qed.

Lemma unlock_locked (x : CollectionId * NftId) (L : gset (CollectionId * NftId)) :
  ~ x ∈ L -> ({[x]} ∪ L) ∖ {[x]} = L.
Proof. intros. set_solver. Qed.

Lemma keeps_release {T} (f : State -> T) c n :
  (forall s L, f (set_base_pool (set_NftLocks L (base_pool s)) s) = f s) -> keeps f (release c n).
Proof. intros Hf s. apply Hf. Qed.

Lemma read_nft_keeps_locks c n : keeps locks (read_nft c n).
Proof.
  intros s. unfold read_nft, release, upd_base_pool. apply wp_bind.
  eapply wp_mono; [apply get_nft_attr_guard_spec| |by intros ? ? ->].
  intros a s' [Hn ->]. wp_steps. unfold locks in *; simpl. by rewrite unlock_locked.
Qed.

Lemma set_nft_attr_keeps {T} (f : State -> T) c n a :
  (forall s e, f (set_ext e s) = f s) -> keeps f (set_nft_attr c n a).
Proof. intros Hf. unfold set_nft_attr. pose proof @keeps_extc. solve_keeps; by apply keeps_extc. Qed.

Lemma mint_nft_keeps_locks c a x p : keeps locks (mint_nft c a x p).
Proof.
  unfold mint_nft, set_nft_attr, set_nft_desc_attr, get_next_nft_id. solve_keeps.
Qed.

Lemma burn_nft_keeps_locks o c n : keeps locks (burn_nft o c n).
Proof. unfold burn_nft, remove_properties. solve_keeps. Qed.

Lemma merge_keeps_locks c a p : keeps locks (merge_nft_for_staker c a p).
Proof.
  unfold merge_nft_for_staker. pose proof read_nft_keeps_locks. pose proof mint_nft_keeps_locks.
  pose proof burn_nft_keeps_locks. solve_keeps.
Qed.

Lemma add_stake_keeps_locks p a x : keeps locks (add_stake_to_new_nft p a x).
Proof. unfold add_stake_to_new_nft. pose proof mint_nft_keeps_locks. solve_keeps. Qed.

Lemma contribute_keeps_locks p a x : keeps locks (contribute p a x).
Proof.
  unfold contribute. pose proof merge_keeps_locks. pose proof add_stake_keeps_locks. solve_keeps.
Qed.

Lemma push_withdraw_keeps_locks p nft a x : keeps locks (push_withdraw_in_queue p nft a x).
Proof.
  unfold push_withdraw_in_queue. pose proof read_nft_keeps_locks. pose proof mint_nft_keeps_locks.
  pose proof burn_nft_keeps_locks. solve_keeps.
Qed.

Lemma remove_stake_keeps {T} (f : State -> T) p x nft u :
  (forall s e, f (set_ext e s) = f s) -> keeps f (remove_stake_from_nft p x nft u).
Proof.
  intros Hf. unfold remove_stake_from_nft. assert (forall A (m : X A), keeps f (extc m)) by
    (intros; by apply keeps_extc). solve_keeps.
Qed.

Lemma save_spec c n a s :
  wp True (save c n a)
    (fun _ s' => locks s' = locks s ∖ {[(c, n)]}) (fun _ s' => locks s' = locks s ∖ {[(c, n)]}) s.
Proof.
  unfold save, release, upd_base_pool. apply wp_bind, wp_catch.
  assert (keeps locks (set_nft_attr c n a)) as Hk by by apply set_nft_attr_keeps.
  eapply (keeps_wp locks); [done|exact Hk| |]; intros x s' E; wp_steps; unfold locks in *; simpl; by rewrite E.
Qed.

(** ** Code of the pallet that returns no error *)
Lemma infallible_share_price p : infallible (share_price p).
Proof. unfold share_price, to_fixed. solve_infallible. Qed.

Lemma infallible_bmul x y : infallible (bmul (S := State) (E := DispatchError) x y).
Proof. unfold bmul, to_fixed, from_fixed. solve_infallible. Qed.

Lemma infallible_bdiv x y : infallible (bdiv (S := State) (E := DispatchError) x y).
Proof. unfold bdiv, to_fixed, from_fixed. solve_infallible. Qed.

Lemma infallible_to_fixed x : infallible (to_fixed (S := State) (E := DispatchError) x).
Proof. unfold to_fixed. solve_infallible. Qed.

Lemma infallible_from_fixed x : infallible (from_fixed (S := State) (E := DispatchError) x).
Proof. unfold from_fixed. solve_infallible. Qed.

Lemma infallible_min_balance : infallible min_balance.
Proof. unfold min_balance. solve_infallible. Qed.

Lemma infallible_get_free_stakes p : infallible (get_free_stakes p).
Proof. unfold get_free_stakes. solve_infallible. Qed.

Lemma infallible_release c n : infallible (release c n).
Proof. unfold release, upd_base_pool. solve_infallible. Qed.

Lemma infallible_emit e : infallible (emit e).
Proof. unfold emit, deposit_event. solve_infallible. Qed.

Lemma infallible_add_stats u d m : infallible (add_stats u d m).
Proof. unfold add_stats. destruct (default _ _) as [[? ?] ?], d as [[? ?] ?]. solve_infallible. Qed.
#[local] Hint Resolve infallible_share_price infallible_bmul infallible_bdiv infallible_to_fixed
  infallible_from_fixed infallible_min_balance infallible_get_free_stakes infallible_release
  infallible_emit infallible_add_stats : infallible.

Lemma infallible_maybe_remove_dust p nft : infallible (maybe_remove_dust p nft).
Proof. unfold maybe_remove_dust. solve_infallible. Qed.

Lemma infallible_remove_stake p x nft u : infallible (remove_stake_from_nft p x nft u).
Proof. unfold remove_stake_from_nft. solve_infallible. Qed.
#[local] Hint Resolve infallible_maybe_remove_dust infallible_remove_stake : infallible.

Lemma infallible_process_front price p w wd : infallible (process_front price p w wd).
Proof. unfold process_front. solve_infallible. Qed.
#[local] Hint Resolve infallible_process_front : infallible.

Lemma infallible_process_turn price m r : infallible (process_turn price m r).
Proof. unfold process_turn. solve_infallible. Qed.
#[local] Hint Resolve infallible_process_turn : infallible.

Lemma infallible_try_process p : infallible (try_process_withdraw_queue p).
Proof. unfold try_process_withdraw_queue. solve_infallible. Qed.

End Locks.
#[export] Hint Resolve infallible_share_price infallible_bmul infallible_bdiv infallible_to_fixed
  infallible_from_fixed infallible_min_balance infallible_get_free_stakes infallible_release
  infallible_emit infallible_add_stats infallible_maybe_remove_dust infallible_remove_stake
  infallible_process_front infallible_process_turn infallible_try_process : infallible.

(** ** The arithmetic of shares *)
Section Shares.
Context {cfg : Config} {F : FixedLib} {FS : FixedSpec F} {codec : Codec} {pal : Pallets}.

Lemma extract_dust_spec n : 0 <= n ->
  let '(a, d) := extract_dust n in a + d = n /\ 0 <= a /\ 0 <= d <= 1000 /\ (a = 0 \/ 1000 < a).
Proof.
  intros Hn. unfold extract_dust, balance_close_to_zero. destruct (Z.leb_spec n 1000); lia.
Qed.

Lemma checked_sub_Some a b c : checked_sub a b = Some c <-> b <= a /\ c = a - b.
Proof.
  unfold checked_sub. destruct (Z.leb_spec b a); split; intros; [simplify_eq; lia|f_equal; lia|done|lia].
Qed.

(** The price a pool sells at, when it sells *)
Definition price_val (p : BasePool) : Z :=
  to_fixed_val (total_value p) * 2 ^ 64 / to_fixed_val (total_shares p).

Lemma share_price_spec p s :
  0 <= total_value p -> 0 <= total_shares p ->
  wp True (share_price p) (fun r s' => s' = s /\ total_value p < 2 ^ 80 /\ total_shares p < 2 ^ 80 /\
    (r = None /\ (to_fixed_val (total_shares p) = 0 \/ 2 ^ 128 <= price_val p) \/
     r = Some (price_val p) /\ 0 < to_fixed_val (total_shares p) /\
       0 <= price_val p < 2 ^ 128)) (fun _ _ => False) s.
Proof.
  intros Hv Hs. unfold share_price.
  apply wp_bind, wp_to_fixed; [done| |done]. intros Hv80.
  apply wp_bind, wp_to_fixed; [done| |done]. intros Hs80. apply wp_ret. do 3 (split; [done|]).
  pose proof (to_fixed_val_nonneg _ Hv). pose proof (to_fixed_val_nonneg _ Hs).
  destruct (Z.eq_dec (to_fixed_val (total_shares p)) 0) as [->|Hz].
  - left. split; [apply fx_checked_div_zero|by left].
  - fold (price_val p). destruct (Z.lt_ge_cases (price_val p) (2 ^ 128)).
    + right. rewrite fx_checked_div_spec by (unfold price_val in *; lia).
      split_and!; try done; try lia. apply Z.div_pos; lia.
    + left. split; [|by right]. apply fx_checked_div_over; unfold price_val in *; lia.
Qed.

(** Shares of the pool are worth at most its value. *)
Lemma shares_worth p x :
  0 <= total_value p < 2 ^ 80 -> 0 <= x <= total_shares p -> 0 < to_fixed_val (total_shares p) ->
  let v := to_fixed_val x * price_val p / 2 ^ 64 in
  0 <= v < 2 ^ 128 /\ 0 <= from_fixed_val v <= total_value p.
Proof.
  intros Hv Hx Ht v. unfold price_val in v.
  pose proof (to_fixed_val_nonneg (total_value p) ltac:(lia)) as Hf.
  pose proof (to_fixed_val_nonneg x ltac:(lia)) as Hx0.
  pose proof (to_fixed_val_mono x (total_shares p) ltac:(lia)) as Hm.
  set (tv := to_fixed_val (total_value p)) in *. set (ts := to_fixed_val (total_shares p)) in *.
  pose proof (Z.mul_div_le (tv * 2 ^ 64) ts Ht) as Hd.
  assert (0 <= tv * 2 ^ 64 / ts) by (apply Z.div_pos; lia).
  assert (Hle : 0 <= v <= tv).
  { split; [apply Z.div_pos; nia|]. apply Z.lt_succ_r, Z.div_lt_upper_bound; [lia|]. nia. }
  destruct (to_fixed_val_fits (total_value p) Hv) as [Hfit _].
  split_and!; try lia; [apply from_fixed_val_nonneg; lia|].
  etransitivity; [apply from_fixed_val_mono; exact (proj2 Hle)|]. apply from_to_fixed_val. lia.
Qed.

Lemma wp_bmul_price p x (Q : Z -> State -> Prop) (Rr : DispatchError -> State -> Prop) s :
  0 <= total_value p < 2 ^ 80 -> 0 <= x <= total_shares p -> 0 < to_fixed_val (total_shares p) ->
  0 <= price_val p ->
  (forall v, 0 <= v <= total_value p -> Q v s) -> wp True (bmul x (price_val p)) Q Rr s.
Proof.
  intros Hv Hx Ht Hp HQ. destruct (shares_worth p x Hv Hx Ht) as [Hr Hle].
  apply wp_bmul; [done|lia|done|lia|]. by apply HQ.
Qed.

(** A pool and an NFT of it, in their ranges *)
Definition sane (p : BasePool) (nft : NftAttr) : Prop :=
  0 <= total_value p < 2 ^ 128 /\ 0 <= shares nft <= total_shares p /\ total_shares p < 2 ^ 128.

Lemma remove_stake_spec p sh nft u s :
  sane p nft -> 0 <= sh -> (forall e, 0 <= asset_balance (pool_account_id p) e) ->
  wp True (remove_stake_from_nft p sh nft u) (fun r s' =>
    match r with
    | None => s' = s
    | Some (p', nft', (amount, removed)) =>
        (exists e, asset_transfer (pool_account_id p) u amount (ext s) = Ok tt e /\ s' = set_ext e s) /\
        p' = set_total_shares (total_shares p') (set_total_value (total_value p') p) /\
        0 <= amount <= asset_balance (pool_account_id p) (ext s) /\ amount <= total_value p /\
        sh <= removed <= sh + 1000 /\
        total_shares p' = total_shares p - removed /\ shares nft' = shares nft - removed /\
        0 <= total_value p' /\ total_value p - amount - 1000 <= total_value p' <= total_value p - amount /\
        sane p' nft'
    end) (fun _ _ => False) s.
Proof.
  intros (Hv & Hn & Hts) Hsh Hfree. unfold remove_stake_from_nft. apply wp_bind.
  eapply wp_mono; [apply share_price_spec; lia| |done].
  intros r ? (-> & Hv80 & _ & [[-> _]|(-> & Ht & Hp)]); [by apply wp_ret|].
  destruct (Z.le_gt_cases sh (shares nft)) as [Hle|Hgt].
  2:{ apply wp_bind, (wp_keep_ok id); [auto with keeps|auto with infallible|]. unfold id.
      intros v ? ->. wp_lines. unfold get_free_stakes. wp_lines.
      unfold checked_sub. destruct (Z.leb_spec sh (shares nft)); [lia|]. by apply wp_ret. }
  apply wp_bind, wp_bmul_price; [lia|lia|done|lia|]. intros v Hvb.
  unfold get_free_stakes. wp_lines. specialize (Hfree (ext s)).
  set (amount := Z.min v _). assert (0 <= amount <= total_value p) by lia.
  rewrite (proj2 (checked_sub_Some (shares nft) sh (shares nft - sh))) by lia.
  pose proof (extract_dust_spec (shares nft - sh) ltac:(lia)) as Hd.
  destruct (extract_dust (shares nft - sh)) as [us dust]. cbv beta iota zeta.
  apply wp_bind. unfold wp at 1. rewrite arith_fits by lia.
  rewrite (proj2 (checked_sub_Some (total_shares p) (sh + dust) (total_shares p - (sh + dust)))) by lia.
  apply wp_bind. unfold wp at 1. rewrite arith_fits by lia.
  pose proof (extract_dust_spec (total_value p - amount) ltac:(lia)) as Hd2.
  destruct (extract_dust (total_value p - amount)) as [tst d2]. cbv beta iota zeta. simpl fst.
  apply wp_bind, wp_expect_ok. unfold extc, wp at 1.
  destruct (asset_transfer _ _ _ (ext s)) as [[] e| | |] eqn:Htr; try done.
  apply wp_ret. split_and!; [by exists e|done|..]; simpl; try lia.
  all: cbv beta iota in Hd, Hd2; unfold sane; simpl; destruct (Z.gtb_spec tst 0); lia.
Qed.

End Shares.

End BasePoolFacts.
