(* ===== verification/PoolShares.v ===== *)
(** * Shares of a pool in its NFTs

    The operations of pallets/cyrux/src/compute/base_pool.rs on the NFTs of a
    pool, and that the shares recorded in the live NFTs of its collection add
    up to the pool's [total_shares]. *)
From stdpp Require Import prelude gmap list strings pretty.
From Stdlib Require Import ZArith Lia.
From S2P Require Import Prelude Types Externals BalanceConvert Reference Mq Computation BasePool.
From S2P Require Import BasePoolFacts.

Module PoolShares.
Import BasePool BasePoolT BasePoolFacts.

(** ** Sums over identifiers *)
Definition sum_upto (f : Z -> Z) (n : Z) : Z := foldr (fun i acc => f i + acc) 0 (seqZ 0 n).

Lemma foldr_sum_ext (f g : Z -> Z) l :
  (forall i, i ∈ l -> f i = g i) -> foldr (fun i acc => f i + acc) 0 l = foldr (fun i acc => g i + acc) 0 l.
Proof.
  induction l as [|x l IH]; intros H; simpl; [done|]. rewrite (H x) by set_solver.
  rewrite IH by (intros; apply H; set_solver). done.
Qed.

Lemma sum_upto_ext f g n : (forall i, 0 <= i < n -> f i = g i) -> sum_upto f n = sum_upto g n.
Proof. intros H. apply foldr_sum_ext. intros i Hi. apply elem_of_seqZ in Hi. apply H. lia. Qed.

Lemma foldr_sum_app (f : Z -> Z) l1 l2 :
  foldr (fun i acc => f i + acc) 0 (l1 ++ l2)
  = foldr (fun i acc => f i + acc) 0 l1 + foldr (fun i acc => f i + acc) 0 l2.
Proof. induction l1; simpl; lia. Qed.

Lemma seqZ_single m : seqZ m 1 = [m].
Proof. done. Qed.

Lemma sum_upto_snoc f n : 0 <= n -> sum_upto f (n + 1) = sum_upto f n + f n.
Proof.
  intros Hn. unfold sum_upto. rewrite seqZ_app by lia. rewrite foldr_sum_app.
  rewrite seqZ_single. simpl. replace (0 + n) with n by lia. lia.
Qed.

Lemma sum_upto_split f n k : 0 <= k < n ->
  sum_upto f n = sum_upto (fun i => if decide (i = k) then 0 else f i) n + f k.
Proof.
  intros Hk. replace n with (k + 1 + (n - k - 1)) by lia.
  unfold sum_upto. rewrite !seqZ_app by lia. rewrite !foldr_sum_app.
  rewrite (foldr_sum_ext (fun i => if decide (i = k) then 0 else f i) f (seqZ 0 k))
    by (intros i Hi; apply elem_of_seqZ in Hi; rewrite decide_False by lia; done).
  rewrite (foldr_sum_ext (fun i => if decide (i = k) then 0 else f i) f (seqZ (0 + (k + 1)) _))
    by (intros i Hi; apply elem_of_seqZ in Hi; rewrite decide_False by lia; done).
  rewrite !seqZ_single. simpl. rewrite decide_True by done. rewrite Z.add_0_l. lia.
Qed.

Lemma sum_upto_update f g n k : 0 <= k < n -> (forall i, i <> k -> g i = f i) ->
  sum_upto g n = sum_upto f n - f k + g k.
Proof.
  intros Hk Hfg. rewrite (sum_upto_split g n k), (sum_upto_split f n k) by done.
  rewrite (sum_upto_ext (fun i => if decide (i = k) then 0 else g i)
    (fun i => if decide (i = k) then 0 else f i)); [lia|].
  intros i _. case_decide; [done|]. by apply Hfg.
Qed.

Lemma sum_upto_nonneg f n : (forall i, 0 <= f i) -> 0 <= sum_upto f n.
Proof. intros Hf. unfold sum_upto. induction (seqZ 0 n); simpl; [lia|]. specialize (Hf a). lia. Qed.

Lemma sum_upto_le f n k : (forall i, 0 <= f i) -> 0 <= k < n -> f k <= sum_upto f n.
Proof.
  intros Hf Hk. rewrite (sum_upto_split f n k) by done.
  assert (0 <= sum_upto (fun i => if decide (i = k) then 0 else f i) n); [|lia].
  apply sum_upto_nonneg. intros i. case_decide; [lia|done].
Qed.

(** ** The NFTs of a collection *)
Section Nfts.
Context {cfg : Config} {F : FixedLib} {codec : Codec} {pal : Pallets}
  {NS : NftSpec pal} {AS : AssetSpec pal} {NA : NftAttrSpec codec}.

(** What the pallet reads of an NFT: its owner and its attribute *)
Definition nft_at (c : CollectionId) (n : NftId) (e : Ext) : option AccountId * option bytes :=
  (nft_owner c n e, properties c n NFT_PROPERTY_KEY e).

Definition shares_at (c : CollectionId) (e : Ext) (n : NftId) : Balance :=
  match nft_at c n e with
  | (Some _, Some raw) => match decode_NftAttr raw with Some a => shares a | None => 0 end
  | _ => 0
  end.

Definition next_id (c : CollectionId) (s : State) : NftId := default 0 (NextNftId (base_pool s) !! c).

(** The shares in the live NFTs of a collection *)
Definition pool_sum (c : CollectionId) (s : State) : Balance := sum_upto (shares_at c (ext s)) (next_id c s).

(** The live NFTs of a collection have identifiers below the next one. *)
Definition ids_wf (c : CollectionId) (s : State) : Prop :=
  0 <= next_id c s /\ forall n o, nft_owner c n (ext s) = Some o -> 0 <= n < next_id c s.

Lemma shares_at_range c e n : 0 <= shares_at c e n < 2 ^ 128.
Proof.
  unfold shares_at. destruct (nft_at c n e) as [[o|] [raw|]]; try lia.
  destruct (decode_NftAttr raw) as [a|] eqn:Hd; [|lia]. by apply decode_NftAttr_range in Hd.
Qed.

Lemma pool_sum_nonneg c s : 0 <= pool_sum c s.
Proof. apply sum_upto_nonneg. intros i. apply shares_at_range. Qed.

(** [nft_step c n v e e']: the NFT [(c, n)] now reads [v]; no other NFT and no
    balance changed. *)
Definition nft_step (c : CollectionId) (n : NftId) (v : option AccountId * option bytes) (e e' : Ext) : Prop :=
  nft_at c n e' = v /\
  (forall c' n', (c', n') <> (c, n) -> nft_at c' n' e' = nft_at c' n' e) /\
  (forall a, asset_balance a e' = asset_balance a e).

Lemma nft_step_refl c n e : nft_step c n (nft_at c n e) e e.
Proof. done. Qed.

Lemma nft_step_trans c n v v' e e' e'' :
  nft_step c n v e e' -> nft_step c n v' e' e'' -> nft_step c n v' e e''.
Proof.
  intros (H1 & H2 & H3) (G1 & G2 & G3). split_and!; [done| |].
  - intros c' n' Hn. by rewrite G2, H2.
  - intros a. by rewrite G3, H3.
Qed.

(** A step followed by one that leaves the NFT as it reads *)
Lemma nft_step_quiet c n v e e' e'' :
  nft_step c n v e e' -> nft_step c n (nft_at c n e') e' e'' -> nft_step c n v e e''.
Proof. intros H1 H2. rewrite (proj1 H1) in H2. by eapply nft_step_trans. Qed.

Lemma set_lock_step c n b e e' : set_lock c n b e = Ok tt e' -> nft_step c n (nft_at c n e) e e'.
Proof.
  intros H. destruct (set_lock_law _ _ _ _ _ H) as [H1 H2]. unfold nft_step, nft_at.
  split_and!; [by rewrite H1, H2|intros; by rewrite H1, H2|intros a; by eapply set_lock_balance].
Qed.

Lemma lock_remove_step c n e e' : lock_remove c n e = Ok tt e' -> nft_step c n (nft_at c n e) e e'.
Proof.
  intros H. destruct (lock_remove_law _ _ _ _ H) as [H1 H2]. unfold nft_step, nft_at.
  split_and!; [by rewrite H1, H2|intros; by rewrite H1, H2|intros a; by eapply lock_remove_balance].
Qed.

Lemma set_property_step c n k v e e' : do_set_property c n k v e = Ok tt e' ->
  nft_step c n (nft_owner c n e,
    if decide (k = NFT_PROPERTY_KEY) then Some v else properties c n NFT_PROPERTY_KEY e) e e'.
Proof.
  intros H. destruct (set_property_law _ _ _ _ _ _ H) as (H1 & H2 & H3). unfold nft_step, nft_at.
  split_and!; [|intros; rewrite H2, H3 by congruence; done|intros a; by eapply set_property_balance].
  rewrite H2. f_equal. case_decide as Hk; [by rewrite <- Hk|]. apply H3. congruence.
Qed.

(** A call of another pallet that ends as [nft_step] says *)
Lemma wp_extc_step {A} (m : X A) (Q : A -> State -> Prop) (Rr : DispatchError -> State -> Prop) s :
  (forall a e, m (ext s) = Ok a e -> Q a (set_ext e s)) ->
  (forall er e, m (ext s) = Err er e -> Rr er (set_ext e s)) -> wp True (extc m) Q Rr s.
Proof. intros HQ HR. unfold wp, extc. destruct (m (ext s)); auto. Qed.

Lemma set_nft_attr_spec c n a s :
  wp True (set_nft_attr c n a)
    (fun _ s' => exists e, s' = set_ext e s /\
       nft_step c n (nft_owner c n (ext s), Some (encode_NftAttr a)) (ext s) e)
    (fun _ s' => s' = s) s.
Proof.
  unfold set_nft_attr. apply wp_transactional.
  apply wp_bind, wp_extc_step; [|done]. intros [] e1 H1. apply set_lock_step in H1.
  apply wp_bind, wp_extc_step; [|done]. intros [] e2 H2. simpl in H2. apply set_property_step in H2.
  apply wp_extc_step; [|done]. intros [] e3 H3. simpl in H3. apply set_lock_step in H3.
  exists e3. split; [done|]. rewrite decide_True in H2 by done.
  assert (Ho : nft_owner c n e1 = nft_owner c n (ext s)) by (destruct H1 as [[= -> _] _]; done).
  rewrite <- Ho. eapply nft_step_trans; [exact H1|]. by eapply nft_step_quiet.
Qed.

Lemma createtime_key : CREATETIME_KEY <> NFT_PROPERTY_KEY.
Proof. discriminate. Qed.

Lemma set_nft_desc_attr_spec c n s :
  wp True (set_nft_desc_attr c n)
    (fun _ s' => exists e, s' = set_ext e s /\ nft_step c n (nft_at c n (ext s)) (ext s) e)
    (fun _ _ => True) s.
Proof.
  unfold set_nft_desc_attr, now_sec.
  apply wp_bind, wp_extc_step; [|done]. intros [] e1 H1. apply set_lock_step in H1.
  apply wp_bind, wp_gets, wp_bind, wp_extc_step; [|done]. intros [] e2 H2. simpl in H2.
  apply set_property_step in H2. rewrite decide_False in H2 by apply createtime_key.
  apply wp_extc_step; [|done]. intros [] e3 H3. simpl in H3. apply set_lock_step in H3.
  exists e3. split; [done|]. eapply nft_step_quiet; [|exact H3]. by eapply nft_step_quiet.
Qed.

(** A new NFT: the next identifier of the collection, with its shares *)
Lemma mint_nft_spec c o x p s :
  wp True (mint_nft c o x p)
    (fun n s' => n = next_id c s /\ nft_owner c n (ext s) = None /\ exists e ev,
       s' = set_events ev (set_ext e
         (set_base_pool (set_NextNftId (<[c := n + 1]> (NextNftId (base_pool s))) (base_pool s)) s)) /\
       nft_step c n (Some o, Some (encode_NftAttr (mkNftAttr x))) (ext s) e)
    (fun _ s' => s' = s) s.
Proof.
  unfold mint_nft. apply wp_transactional. wp_lines; [|done].
  unfold get_next_nft_id, upd_base_pool. wp_lines; [|done].
  apply wp_extc_step; [|done]. intros [] e1 H1. simpl in H1.
  destruct (mint_law _ _ _ _ _ _ H1) as (N0 & N1 & N2 & N3).
  apply wp_bind. eapply wp_mono; [apply set_nft_attr_spec| |done].
  intros [] s2 (e2 & -> & H2). simpl in H2. rewrite N1 in H2.
  apply wp_bind. eapply wp_mono; [apply set_nft_desc_attr_spec| |done].
  intros [] s3 (e3 & -> & H3). simpl in H3.
  apply wp_bind, wp_extc_step; [|done]. intros [] e4 H4. simpl in H4. apply set_lock_step in H4.
  unfold emit, deposit_event. wp_lines. split_and!; [done|done|]. eexists e4, _. split; [reflexivity|].
  assert (nft_step c (next_id c s) (nft_at c (next_id c s) e1) (ext s) e1) as Hm.
  { split_and!; [done| |intros a; by eapply mint_balance].
    intros c' n' Hn. unfold nft_at. by rewrite N2, N3. }
  eapply nft_step_quiet; [|exact H4]. eapply nft_step_quiet; [|exact H3].
  by eapply nft_step_trans.
Qed.

(** A burnt NFT is no longer live. *)
Lemma burn_nft_spec o c n s :
  wp True (burn_nft o c n)
    (fun _ s' => nft_owner c n (ext s) = Some o /\ exists e raw, s' = set_ext e s /\
       nft_step c n (None, raw) (ext s) e)
    (fun _ s' => s' = s) s.
Proof.
  unfold burn_nft. apply wp_transactional.
  apply wp_bind, wp_extc_step; [|done]. intros [] e1 H1. apply set_lock_step in H1.
  apply wp_bind, wp_catch, wp_extc_step; simpl; [|intros; by wp_lines].
  intros [] e2 H2. destruct (burn_law _ _ _ _ _ H2) as (B0 & B1 & B2 & B3).
  apply wp_bind, wp_ret. unfold remove_properties. apply wp_bind, wp_bind, wp_catch.
  apply wp_mono with (Q := fun _ s' => exists e3, s' = set_ext e3 s /\ nft_step c n (None, properties c n NFT_PROPERTY_KEY e2) e2 e3)
    (R := fun _ s' => exists e3, s' = set_ext e3 s /\ nft_step c n (None, properties c n NFT_PROPERTY_KEY e2) e2 e3).
  { apply wp_extc. simpl. pose proof (remove_property_law c n CREATETIME_KEY e2) as Hr.
    pose proof (fun a => remove_property_balance a c n CREATETIME_KEY e2) as Hb. unfold wp in *.
    destruct (do_remove_property c n CREATETIME_KEY e2); try done; destruct Hr as [R1 R2];
      (eexists; split; [reflexivity|]); unfold nft_step, nft_at;
      (split_and!; [rewrite R1, B1, R2; [done|]|intros; rewrite R1, R2; [done|]|done]);
      intros [=]. all: try by apply createtime_key. }
  all: intros ? s3 (e3 & -> & H3); wp_lines; apply wp_extc_step; [|done]; intros [] e4 H4; simpl in H4;
    apply lock_remove_step in H4.
  all: assert (Ho : nft_owner c n e1 = nft_owner c n (ext s)) by (destruct H1 as [[= -> _] _]; done).
  all: split; [by rewrite <- Ho|]; eexists e4, _; split; [reflexivity|].
  all: eapply nft_step_trans; [exact H1|]; eapply nft_step_quiet; [|exact H4].
  all: eapply nft_step_trans; [|exact H3]; split_and!; [reflexivity| |intros ?; by eapply burn_balance].
  all: intros c' n' Hn; unfold nft_at; by rewrite B2, B3.
Qed.

(** ** Sums with one NFT held in memory

    [Some (h, x)]: the NFT [h] is held by a guard whose attribute has [x]
    shares, not written back yet. *)
Definition held := option (NftId * Balance).

Definition shares_ov (c : CollectionId) (e : Ext) (o : held) (n : NftId) : Balance :=
  match o with
  | Some (h, x) => if decide (n = h) then x else shares_at c e n
  | None => shares_at c e n
  end.

Definition pool_sum_ov (c : CollectionId) (o : held) (s : State) : Balance :=
  sum_upto (shares_ov c (ext s) o) (next_id c s).

Definition not_held (o : held) (n : NftId) : Prop := forall h x, o = Some (h, x) -> n <> h.

Definition held_wf (c : CollectionId) (o : held) (s : State) : Prop :=
  forall h x, o = Some (h, x) -> 0 <= x < 2 ^ 128 /\
    exists u, nft_owner c h (ext s) = Some u /\ u <> basepool_pallet_id.

Lemma shares_ov_nonneg c o s n : held_wf c o s -> 0 <= shares_ov c (ext s) o n.
Proof.
  intros Hh. pose proof (shares_at_range c (ext s) n). unfold shares_ov.
  destruct o as [[h x]|]; [|lia]. destruct (Hh h x eq_refl). case_decide; lia.
Qed.

Lemma shares_ov_not_held c e o n : not_held o n -> shares_ov c e o n = shares_at c e n.
Proof.
  intros Hn. unfold shares_ov. destruct o as [[h x]|]; [|done].
  rewrite decide_False by by apply (Hn h x). done.
Qed.

Lemma shares_at_step c n v e e' n' : nft_step c n v e e' -> n' <> n -> shares_at c e' n' = shares_at c e n'.
Proof. intros (_ & H & _) Hn. unfold shares_at. by rewrite H by congruence. Qed.

Lemma shares_at_other c n v e e' c' n' : nft_step c n v e e' -> c' <> c ->
  shares_at c' e' n' = shares_at c' e n'.
Proof. intros (_ & H & _) Hn. unfold shares_at. by rewrite H by congruence. Qed.

Lemma shares_at_live c n o a e :
  nft_at c n e = (Some o, Some (encode_NftAttr a)) -> 0 <= shares a < 2 ^ 128 -> shares_at c e n = shares a.
Proof. intros H Ha. unfold shares_at. rewrite H. by rewrite decode_encode_NftAttr. Qed.

Lemma shares_at_dead c n raw e : nft_at c n e = (None, raw) -> shares_at c e n = 0.
Proof. intros H. unfold shares_at. by rewrite H. Qed.

Lemma pool_sum_ov_step c n v o s s' :
  nft_step c n v (ext s) (ext s') -> next_id c s' = next_id c s -> 0 <= n < next_id c s -> not_held o n ->
  pool_sum_ov c o s' = pool_sum_ov c o s - shares_at c (ext s) n + shares_at c (ext s') n.
Proof.
  intros Hst Hid Hn Ho. unfold pool_sum_ov. rewrite Hid.
  rewrite (sum_upto_update (shares_ov c (ext s) o) _ _ n Hn).
  - by rewrite !shares_ov_not_held.
  - intros i Hi. unfold shares_ov. destruct o as [[h x]|]; [case_decide; [done|]|];
      by eapply shares_at_step.
Qed.

Lemma pool_sum_ov_same c o s s' :
  (forall n, shares_at c (ext s') n = shares_at c (ext s) n) -> next_id c s' = next_id c s ->
  pool_sum_ov c o s' = pool_sum_ov c o s.
Proof.
  intros Hs Hid. unfold pool_sum_ov. rewrite Hid. apply sum_upto_ext. intros i _.
  unfold shares_ov. destruct o as [[h x]|]; by rewrite Hs.
Qed.

Lemma pool_sum_ov_mint c n v o s s' :
  nft_step c n v (ext s) (ext s') -> n = next_id c s -> next_id c s' = n + 1 -> 0 <= n -> not_held o n ->
  pool_sum_ov c o s' = pool_sum_ov c o s + shares_at c (ext s') n.
Proof.
  intros Hst Hn Hid H0 Ho. unfold pool_sum_ov. rewrite Hid, sum_upto_snoc by done.
  rewrite shares_ov_not_held by done. rewrite <- Hn. f_equal. apply sum_upto_ext.
  intros i Hi. unfold shares_ov. destruct o as [[h x]|]; [case_decide; [done|]|];
    eapply shares_at_step; try done; lia.
Qed.

Lemma pool_sum_ov_le c n o s :
  held_wf c o s -> 0 <= n < next_id c s -> not_held o n -> shares_at c (ext s) n <= pool_sum_ov c o s.
Proof.
  intros Hh Hn Ho. rewrite <- (shares_ov_not_held c (ext s) o n Ho).
  apply (sum_upto_le (shares_ov c (ext s) o)); [|done]. intros i. by apply shares_ov_nonneg.
Qed.

(** ** The invariant of a pool

    [pool_inv d o p s]: the shares in the NFTs of [p], the one held in [o]
    counted as held, exceed [total_shares p] by [d] ([0] between operations);
    the NFTs of the withdraw queue are distinct and belong to the pallet. *)
Record pool_inv (d : Balance) (o : held) (p : BasePool) (s : State) : Prop := {
  pi_sum : pool_sum_ov (cid p) o s = total_shares p + d;
  pi_ids : ids_wf (cid p) s;
  pi_held : held_wf (cid p) o s;
  pi_value : 0 <= total_value p < 2 ^ 128;
  pi_shares : total_shares p < 2 ^ 128;
  pi_queue : forall w, w ∈ withdraw_queue p ->
    nft_owner (cid p) (wd_nft_id w) (ext s) = Some basepool_pallet_id;
  pi_nodup : NoDup (wd_nft_id <$> withdraw_queue p);
}.

Lemma pool_inv_quiet d o p s s' :
  pool_inv d o p s -> (forall n, nft_at (cid p) n (ext s') = nft_at (cid p) n (ext s)) ->
  next_id (cid p) s' = next_id (cid p) s -> pool_inv d o p s'.
Proof.
  intros [Hs Hi Hh Hv Hsh Hq Hnd] Hn Hid.
  assert (forall n, nft_owner (cid p) n (ext s') = nft_owner (cid p) n (ext s)) as Ho
    by (intros n; specialize (Hn n); unfold nft_at in Hn; congruence).
  split; auto.
  - rewrite (pool_sum_ov_same (cid p) o s s'); [done| |done]. intros n. unfold shares_at. by rewrite Hn.
  - destruct Hi as [H0 Hi]. split; rewrite Hid; [done|]. intros n u. rewrite Ho. apply Hi.
  - intros h x Hx. rewrite Ho. by apply Hh.
  - intros w Hw. rewrite Ho. by apply Hq.
Qed.

Lemma pool_inv_totals d o p s ts tv d' :
  pool_inv d o p s -> total_shares p + d = ts + d' -> ts < 2 ^ 128 -> 0 <= tv < 2 ^ 128 ->
  pool_inv d' o (set_total_shares ts (set_total_value tv p)) s.
Proof. intros [Hs Hi Hh Hv Hsh Hq Hnd] He Ht Htv. split; simpl; auto. lia. Qed.

Lemma pool_inv_front_range d o p s w q :
  pool_inv d o p s -> withdraw_queue p = w :: q ->
  0 <= wd_nft_id w < next_id (cid p) s /\ not_held o (wd_nft_id w) /\
  0 <= shares_at (cid p) (ext s) (wd_nft_id w) <= total_shares p + d.
Proof.
  intros Hp Hq. pose proof (pi_queue _ _ _ _ Hp w ltac:(rewrite Hq; set_solver)) as Ho.
  assert (Hn : 0 <= wd_nft_id w < next_id (cid p) s) by by eapply (pi_ids _ _ _ _ Hp).
  assert (Hnh : not_held o (wd_nft_id w)).
  { intros h x -> <-. destruct (pi_held _ _ _ _ Hp _ _ eq_refl) as (_ & u & Hu & Hne). congruence. }
  split_and!; try done; try apply shares_at_range; try lia.
  rewrite <- (pi_sum _ _ _ _ Hp). apply pool_sum_ov_le; try done. apply (pi_held _ _ _ _ Hp).
Qed.

(** The NFT at the front of the queue changes to [v], still owned by the pallet
    or burnt. *)
Lemma pool_inv_front_step d o p s s' w q v :
  pool_inv d o p s -> withdraw_queue p = w :: q ->
  nft_step (cid p) (wd_nft_id w) v (ext s) (ext s') -> next_id (cid p) s' = next_id (cid p) s ->
  let d' := d - shares_at (cid p) (ext s) (wd_nft_id w) + shares_at (cid p) (ext s') (wd_nft_id w) in
  (v.1 = Some basepool_pallet_id -> pool_inv d' o p s') /\
  (v.1 = None -> pool_inv d' o (set_withdraw_queue q p) s').
Proof.
  intros Hp Hq Hst Hid d'. destruct (pool_inv_front_range _ _ _ _ _ _ Hp Hq) as (Hn & Hnh & _).
  pose proof (pool_sum_ov_step _ _ _ o s s' Hst Hid Hn Hnh) as Hsum.
  destruct Hp as [Hs Hi Hh Hv Hsh Hqo Hnd]. destruct Hst as (E & Hoth & _).
  assert (Ho : forall n, n <> wd_nft_id w -> nft_owner (cid p) n (ext s') = nft_owner (cid p) n (ext s)).
  { intros n Hne. specialize (Hoth (cid p) n ltac:(congruence)). unfold nft_at in Hoth. congruence. }
  assert (Hheld : held_wf (cid p) o s') by (intros h x Hx; rewrite Ho; [by apply Hh|]; symmetry; by eapply Hnh).
  unfold nft_at in E. rewrite Hq in *. split; intros Hv1; split; simpl; auto; try lia.
  - destruct Hi as [H0 Hi]. split; [by rewrite Hid|]. intros n u Hu. rewrite Hid.
    destruct (decide (n = wd_nft_id w)) as [->|Hne]; [done|]. rewrite Ho in Hu by done. eauto.
  - intros w' Hw'. rewrite Hq in Hw'. apply elem_of_cons in Hw' as [->|Hw'].
    + by rewrite <- E in Hv1.
    + rewrite Ho; [apply Hqo; set_solver|]. intros Heq. simpl in Hnd. apply NoDup_cons in Hnd as [Hnd _].
      apply Hnd. rewrite <- Heq. by apply list_elem_of_fmap_2.
  - by rewrite Hq.
  - destruct Hi as [H0 Hi]. split; [by rewrite Hid|]. intros n u Hu. rewrite Hid.
    destruct (decide (n = wd_nft_id w)) as [->|Hne]; [by rewrite <- E in Hv1; simpl in Hv1; congruence|].
    rewrite Ho in Hu by done. eauto.
  - intros w' Hw'. rewrite Ho; [apply Hqo; set_solver|]. intros Heq. simpl in Hnd.
    apply NoDup_cons in Hnd as [Hnd _]. apply Hnd. rewrite <- Heq. by apply list_elem_of_fmap_2.
  - simpl in Hnd. by apply NoDup_cons in Hnd as [_ Hnd].
Qed.

End Nfts.
(** ** The withdraw queue *)
Section Queue.
Context {cfg : Config} {F : FixedLib} {FS : FixedSpec F} {codec : Codec} {pal : Pallets}
  {NS : NftSpec pal} {AS : AssetSpec pal} {NA : NftAttrSpec codec}.

(** Two states that differ in what the queue's processing may write *)
Definition lock_on (x : CollectionId * NftId) (s : State) : State :=
  set_base_pool (set_NftLocks ({[x]} ∪ locks s) (base_pool s)) s.

Lemma get_guard_spec c n s :
  wp True (get_nft_attr_guard c n)
    (fun a s' => ~ (c, n) ∈ locks s /\ s' = lock_on (c, n) s /\ 0 <= shares a < 2 ^ 128 /\
       (forall u, nft_owner c n (ext s) = Some u -> shares a = shares_at c (ext s) n))
    (fun _ s' => s' = s) s.
Proof.
  unfold get_nft_attr_guard, get_nft_attr, upd_base_pool. wp_steps; try done.
  apply negb_true_iff, bool_decide_eq_false in H1. pose proof (decode_NftAttr_range _ _ H0).
  split_and!; try done; try lia. intros u Hu. unfold shares_at, nft_at. by rewrite Hu, H, H0.
Qed.

(** What the processing of a queue keeps of a pool *)
Definition same_pool (p p' : BasePool) : Prop :=
  pid p' = pid p /\ cid p' = cid p /\ owner p' = owner p /\
  pool_account_id p' = pool_account_id p /\ value_subscribers p' = value_subscribers p.

Definition shrinks (p p' : BasePool) : Prop :=
  total_shares p' <= total_shares p /\ total_value p' <= total_value p.

Lemma maybe_remove_dust_spec p nft s :
  0 <= shares nft <= total_shares p -> total_shares p < 2 ^ 128 ->
  wp True (maybe_remove_dust p nft)
    (fun r s' => s' = s /\ (r = (p, false) \/ r = (set_total_shares (total_shares p - shares nft) p, true)))
    (fun _ _ => False) s.
Proof.
  intros Hn Ht. unfold maybe_remove_dust.
  apply wp_bind, (wp_keep_ok id); [auto with keeps|auto with infallible|]. unfold id. intros r ? ->.
  destruct r as [price|]; [|apply wp_ret; auto].
  apply wp_bind, (wp_keep_ok id); [auto with keeps|auto with infallible|]. unfold id. intros v ? ->.
  apply wp_bind, (wp_keep_ok id); [auto with keeps|auto with infallible|]. unfold id. intros m ? ->.
  destruct (v >? m); [apply wp_ret; auto|]. apply wp_bind. unfold wp at 1. rewrite arith_fits by lia.
  apply wp_ret. auto.
Qed.

Lemma burn_front_spec o p s w q :
  pool_inv (shares_at (cid p) (ext s) (wd_nft_id w)) o p s -> withdraw_queue p = w :: q ->
  wp True (expect_ok (burn_nft basepool_pallet_id (cid p) (wd_nft_id w)))
    (fun _ s' => pool_inv 0 o (set_withdraw_queue q p) s' /\ base_pool s' = base_pool s)
    (fun _ _ => False) s.
Proof.
  intros Hp Hq. apply wp_expect_ok. eapply wp_mono; [apply burn_nft_spec| |done].
  intros [] s' (_ & e & raw & -> & Hst). split; [|done].
  destruct (pool_inv_front_step _ _ _ s (set_ext e s) _ _ _ Hp Hq Hst eq_refl) as [_ H2].
  specialize (H2 eq_refl). rewrite (shares_at_dead _ _ _ _ (proj1 Hst)) in H2.
  by replace (_ - _ + 0) with 0 in H2 by lia.
Qed.

(** Releasing the lock taken on a state gives its [base_pool] back. *)
Lemma release_lock x s b :
  ~ x ∈ locks s -> b = base_pool (lock_on x s) -> set_NftLocks (NftLocks b ∖ {[x]}) b = base_pool s.
Proof.
  intros Hx ->. unfold lock_on; simpl. rewrite unlock_locked by done.
  unfold locks. by destruct (base_pool s).
Qed.

Lemma save_front_spec d o p s s0 w q nft :
  pool_inv d o p s -> withdraw_queue p = w :: q -> 0 <= shares nft < 2 ^ 128 ->
  ~ (cid p, wd_nft_id w) ∈ locks s0 -> base_pool s = base_pool (lock_on (cid p, wd_nft_id w) s0) ->
  wp True (expect_ok (save (cid p) (wd_nft_id w) nft))
    (fun _ s' => pool_inv (d - shares_at (cid p) (ext s) (wd_nft_id w) + shares nft) o p s' /\
       shares_at (cid p) (ext s') (wd_nft_id w) = shares nft /\ base_pool s' = base_pool s0)
    (fun _ _ => False) s.
Proof.
  intros Hp Hq Hn Hlk Hb. unfold save, release, upd_base_pool. apply wp_expect_ok, wp_bind, wp_catch.
  pose proof (pi_queue _ _ _ _ Hp w ltac:(rewrite Hq; set_solver)) as Ho.
  eapply wp_mono; [apply set_nft_attr_spec| |intros; wp_lines; by simpl].
  intros [] s' (e & -> & Hst). wp_lines. rewrite Ho in Hst. simpl.
  set (s2 := set_base_pool _ _).
  assert (Hid : next_id (cid p) s2 = next_id (cid p) s) by done.
  destruct (pool_inv_front_step _ _ _ s s2 _ _ _ Hp Hq Hst Hid) as [H1 _]. specialize (H1 eq_refl).
  assert (Hsh : shares_at (cid p) e (wd_nft_id w) = shares nft) by (eapply shares_at_live; [apply Hst|done]).
  simpl in H1. rewrite Hsh in H1. split_and!; [done|done|]. by apply release_lock.
Qed.

(** The post-condition of one turn on the request [w] *)
Definition turn_post (o : held) (p : BasePool) (s : State) (w : WithdrawInfo) (q : list WithdrawInfo)
    (p' : BasePool) (s' : State) : Prop :=
  pool_inv 0 o p' s' /\ base_pool s' = base_pool s /\ same_pool p p' /\ shrinks p p' /\
  (withdraw_queue p' = q \/ withdraw_queue p' = w :: q).

(** The front request is dust: its NFT is burnt, the lock released first. *)
Lemma turn_dust_spec o p s w q nft wd :
  pool_inv 0 o p s -> withdraw_queue p = w :: q ->
  shares nft = shares_at (cid p) (ext s) (wd_nft_id w) -> ~ (cid p, wd_nft_id w) ∈ locks s ->
  let p1 := set_total_shares (total_shares p - shares nft) p in
  wp True (let* wd := add_stats (user w) (0, 0, shares nft) wd in
           release (cid p1) (wd_nft_id w);;;
           expect_ok (burn_nft basepool_pallet_id (cid p1) (wd_nft_id w));;;
           mret (set_withdraw_queue (tail (withdraw_queue p1)) p1, wd))
    (fun r s' => turn_post o p s w q r.1 s') (fun _ _ => False) (lock_on (cid p, wd_nft_id w) s).
Proof.
  intros Hp Hq Hn Hlk p1. apply wp_bind, (wp_keep_ok id); [auto with keeps|auto with infallible|].
  unfold id. intros wd1 ? ->. unfold release, upd_base_pool. apply wp_bind, wp_modify.
  set (s1 := set_base_pool _ _). assert (Hb : base_pool s1 = base_pool s).
  { by apply release_lock. }
  destruct (pool_inv_front_range _ _ _ _ _ _ Hp Hq) as (_ & _ & Hr).
  assert (Hp1 : pool_inv (shares_at (cid p1) (ext s1) (wd_nft_id w)) o p1 s1).
  { apply (pool_inv_quiet _ _ _ s); [|done|unfold next_id; by rewrite Hb].
    pose proof (pi_value _ _ _ _ Hp). pose proof (pi_shares _ _ _ _ Hp).
    assert (pool_inv (shares nft) o (set_total_shares (total_shares p - shares nft)
      (set_total_value (total_value p) p)) s) as H2 by (eapply pool_inv_totals; [exact Hp|lia..]).
    change (shares_at (cid p1) (ext s1) (wd_nft_id w)) with (shares_at (cid p) (ext s) (wd_nft_id w)).
    rewrite <- Hn. unfold p1. destruct p. exact H2. }
  apply wp_bind. eapply wp_mono; [apply (burn_front_spec o p1 s1 w q); [done|by simpl]| |done].
  intros [] s2 [H2 Hb2]. apply wp_ret. simpl. rewrite Hq in *. simpl in *.
  split_and!; try done; [congruence|unfold shrinks; simpl; lia|by left].
Qed.

(** Part of the front request is paid: the shares leave the NFT in memory and
    the pool, not yet the NFT in the storage. *)
Lemma front_remove_spec o p s w q nft sh :
  pool_inv 0 o p s -> withdraw_queue p = w :: q ->
  shares nft = shares_at (cid p) (ext s) (wd_nft_id w) -> 0 <= sh ->
  let s1 := lock_on (cid p, wd_nft_id w) s in
  wp True (remove_stake_from_nft p sh nft (user w)) (fun r s' =>
    match r with
    | None => True
    | Some (p', nft', _) =>
        same_pool p p' /\ shrinks p p' /\ withdraw_queue p' = w :: q /\ 0 <= shares nft' < 2 ^ 128 /\
        base_pool s' = base_pool s1 /\ shares_at (cid p) (ext s') (wd_nft_id w) = shares nft /\
        pool_inv (shares nft - shares nft') o p' s'
    end) (fun _ _ => False) s1.
Proof.
  intros Hp Hq Hval Hsh s1. destruct (pool_inv_front_range _ _ _ _ _ _ Hp Hq) as (Hn & Hnh & Hr).
  pose proof (pi_value _ _ _ _ Hp). pose proof (pi_shares _ _ _ _ Hp).
  eapply wp_mono; [apply remove_stake_spec|..]; [unfold sane; lia|lia|apply asset_balance_range| |done].
  intros [[[p' nft'] [amount removed]]|] s'; [|done].
  intros ((e & Htr & ->) & Hp' & Ha & Hav & Hrm & Hts & Hns & Htv & Htv2 & Hsane).
  destruct (transfer_nft_law _ _ _ _ _ Htr) as [T1 T2].
  rewrite Hp'. unfold sane in Hsane. split_and!; simpl; try done; try lia.
  - unfold shrinks; simpl; lia.
  - rewrite Hval. unfold shares_at, nft_at. by rewrite T1, T2.
  - apply (pool_inv_quiet _ _ _ s); [|intros n; unfold nft_at; simpl; by rewrite T1, T2|done].
    eapply pool_inv_totals; [exact Hp|lia..].
Qed.

(** The end of a turn: the request is popped when nothing but dust is left. *)
Lemma turn_finish_spec o p s w q nft wd :
  pool_inv 0 o p s -> withdraw_queue p = w :: q ->
  shares_at (cid p) (ext s) (wd_nft_id w) = shares nft ->
  wp True (let* (p, dust) := (if shares nft =? 0 then mret (p, true) else maybe_remove_dust p nft) in
           if dust then
             let* wd := (if shares nft =? 0 then mret wd else add_stats (user w) (0, 0, shares nft) wd) in
             expect_ok (burn_nft basepool_pallet_id (cid p) (wd_nft_id w));;;
             mret (set_withdraw_queue (tail (withdraw_queue p)) p, wd)
           else mret (p, wd))
    (fun r s' => turn_post o p s w q r.1 s') (fun _ _ => False) s.
Proof.
  intros Hp Hq Hval. destruct (pool_inv_front_range _ _ _ _ _ _ Hp Hq) as (Hn & Hnh & Hr).
  pose proof (pi_value _ _ _ _ Hp). pose proof (pi_shares _ _ _ _ Hp). apply wp_bind.
  apply wp_mono with (Q := fun r s' => s' = s /\ (r = (p, false) \/
    r = (set_total_shares (total_shares p - shares nft) p, true))) (R := fun _ _ => False); [| |done].
  { destruct (Z.eqb_spec (shares nft) 0) as [Hz|]; [|by apply maybe_remove_dust_spec; lia].
    apply wp_ret. split; [done|]. right. rewrite Hz, Z.sub_0_r. by destruct p. }
  intros r ? [-> [->| ->]]; cbv iota.
  { apply wp_ret. unfold turn_post, same_pool, shrinks. simpl. split_and!; auto; lia. }
  set (p1 := set_total_shares _ p). apply wp_bind.
  apply (wp_keep_ok id); [destruct (_ =? _); auto with keeps|destruct (_ =? _); auto with infallible|].
  unfold id. intros wd1 ? ->.
  assert (Hp1 : pool_inv (shares_at (cid p1) (ext s) (wd_nft_id w)) o p1 s).
  { change (cid p1) with (cid p). rewrite Hval.
    assert (pool_inv (shares nft) o (set_total_shares (total_shares p - shares nft)
      (set_total_value (total_value p) p)) s) as H2 by (eapply pool_inv_totals; [exact Hp|lia..]).
    unfold p1. destruct p. exact H2. }
  apply wp_bind. eapply wp_mono; [apply (burn_front_spec o p1 s w q); [done|by simpl]| |done].
  intros [] s2 [H2 Hb2]. apply wp_ret. simpl. rewrite Hq in *. simpl in *.
  split_and!; try done; [unfold shrinks; simpl; lia|by left].
Qed.

Lemma process_front_spec price o p s w q wd :
  pool_inv 0 o p s -> withdraw_queue p = w :: q ->
  wp True (process_front price p w wd) (fun r s' => turn_post o p s w q r.1 s') (fun _ _ => False) s.
Proof.
  intros Hp Hq. unfold process_front. apply wp_bind, wp_expect_ok.
  eapply wp_mono; [apply get_guard_spec| |done]. intros nft s1 (Hlk & -> & Hrange & Hval).
  pose proof (pi_queue _ _ _ _ Hp w ltac:(rewrite Hq; set_solver)) as Ho. specialize (Hval _ Ho).
  destruct (pool_inv_front_range _ _ _ _ _ _ Hp Hq) as (Hn & Hnh & Hr).
  apply wp_bind. eapply wp_mono; [apply maybe_remove_dust_spec; [lia|apply (pi_shares _ _ _ _ Hp)]| |done].
  intros r s1 [-> [->| ->]]; cbv iota; [|by apply turn_dust_spec].
  apply wp_bind. apply wp_mono with (Q := fun x s' => s' = lock_on (cid p, wd_nft_id w) s /\ 0 <= x)
    (R := fun _ _ => False); [| |done].
  { destruct (price =? 0); [apply wp_ret; split; [done|lia]|]. unfold get_free_stakes.
    apply wp_bind, wp_gets, wp_bdiv_any. intros x Hx. split; [done|lia]. }
  intros free s1 [-> Hfree]. wp_lines; [|done].
  eapply wp_mono; [apply (front_remove_spec o p s w q); try done; lia| |done].
  intros r s1 Hr1. apply wp_bind, wp_expect_some; [|done]. intros [[p1 nft1] [amount removed]] ->.
  destruct Hr1 as (Hsame & Hshr & Hq1 & Hn1 & Hb1 & Hsh1 & Hp1).
  apply wp_bind, (wp_keep_ok id); [auto with keeps|auto with infallible|]. unfold id. intros wd1 ? ->.
  pose proof Hsame as (_ & Hcid & _). rewrite <- Hcid in Hlk, Hb1, Hsh1.
  apply wp_bind. eapply wp_mono; [eapply (save_front_spec _ o p1 s1 s w q nft1); [exact Hp1|done..]| |done].
  intros [] s2 (Hp2 & Hsh2 & Hb2). rewrite Hsh1 in Hp2.
  replace (_ - _ - _ + _) with 0 in Hp2 by lia.
  eapply wp_mono; [apply (turn_finish_spec o p1 s2 w q nft1); done| |done].
  intros [p3 wd3] s3 (H1 & H2 & H3 & H4 & H5). unfold turn_post, same_pool, shrinks in *. simpl in *.
  destruct Hsame as (? & ? & ? & ? & ?), H3 as (? & ? & ? & ? & ?).
  split_and!; try done; try congruence; lia.
Qed.

Lemma same_pool_trans p p1 p2 : same_pool p p1 -> same_pool p1 p2 -> same_pool p p2.
Proof. unfold same_pool. intros (? & ? & ? & ? & ?) (? & ? & ? & ? & ?). split_and!; congruence. Qed.

(** What processing the queue does to a pool *)
Definition queue_post (o : held) (p : BasePool) (s : State) (p' : BasePool) (s' : State) : Prop :=
  pool_inv 0 o p' s' /\ base_pool s' = base_pool s /\ same_pool p p' /\ shrinks p p' /\
  withdraw_queue p' `suffix_of` withdraw_queue p.

Lemma queue_post_refl o p s : pool_inv 0 o p s -> queue_post o p s p s.
Proof. intros. unfold queue_post, same_pool, shrinks. split_and!; try done; lia. Qed.

Lemma queue_post_trans o p s p1 s1 p2 s2 :
  queue_post o p s p1 s1 -> queue_post o p1 s1 p2 s2 -> queue_post o p s p2 s2.
Proof.
  intros (H1 & H2 & H3 & H4 & H5) (G1 & G2 & G3 & G4 & G5).
  unfold queue_post, shrinks in *. split_and!; try done; try congruence; try lia.
  - by eapply same_pool_trans.
  - by etransitivity.
Qed.

Lemma queue_post_turn o p s w q p1 s1 :
  withdraw_queue p = w :: q -> turn_post o p s w q p1 s1 -> queue_post o p s p1 s1.
Proof.
  intros Hq (H1 & H2 & H3 & H4 & H5). unfold queue_post. split_and!; try done.
  rewrite Hq. destruct H5 as [-> | ->]; [by apply suffix_cons_r|done].
Qed.

Lemma process_turn_spec price m o r s :
  pool_inv 0 o r.1 s ->
  wp True (process_turn price m r) (fun r' s' => queue_post o r.1 s r'.1.1 s') (fun _ _ => False) s.
Proof.
  intros Hp. unfold process_turn, get_free_stakes. apply wp_bind, wp_gets.
  destruct (_ >? m); [|by apply wp_ret, queue_post_refl].
  destruct (withdraw_queue r.1) as [|w q] eqn:Hq; [by apply wp_ret, queue_post_refl|].
  apply wp_bind. eapply wp_mono; [by apply (process_front_spec price o r.1 s w q r.2)| |done].
  intros r1 s1 Ht. by apply wp_ret, (queue_post_turn _ _ _ w q).
Qed.

Lemma process_loop_spec fuel price m o p s wd :
  pool_inv 0 o p s ->
  wp True (while_loop fuel (process_turn price m) (p, wd)) (fun r s' => queue_post o p s r.1 s') (fun _ _ => False) s.
Proof.
  intros Hp. apply (wp_while _ _ (fun r s' => queue_post o p s r.1 s')); [|by apply queue_post_refl].
  intros r s1 Hr. eapply wp_mono; [apply (process_turn_spec price m o); apply Hr| |done].
  intros [r' go] s2 Hr'. destruct go; by eapply queue_post_trans.
Qed.

Lemma try_process_spec o p s :
  pool_inv 0 o p s ->
  wp True (try_process_withdraw_queue p) (fun p' s' => queue_post o p s p' s') (fun _ _ => False) s.
Proof.
  intros Hp. unfold try_process_withdraw_queue.
  apply wp_bind, (wp_keep_ok id); [auto with keeps|auto with infallible|]. unfold id. intros r ? ->.
  destruct r as [price|]; [|by apply wp_ret, queue_post_refl].
  apply wp_bind, (wp_keep_ok id); [auto with keeps|auto with infallible|]. unfold id. intros m ? ->.
  apply wp_bind. eapply wp_mono; [by apply (process_loop_spec _ price m o)| |done].
  intros [p' wd] s1 H1. simpl in H1. apply wp_bind.
  eapply (wp_keep_ok (fun s => (base_pool s, ext s))); [|solve_infallible; auto with infallible|].
  { apply keeps_for_each. intros u. destruct (default _ _) as [[a b] c]. auto with keeps. }
  intros [] s2 [=E1 E2]. apply wp_ret. destruct H1 as (G1 & G2 & G3).
  split_and!; try apply G3; [|congruence].
  apply (pool_inv_quiet _ _ _ s1); [done|by rewrite E2|unfold next_id; by rewrite E1].
Qed.

End Queue.
End PoolShares.
