(* ===== verification/PoolQueue.v ===== *)
(** * The withdraw queue ends

    Every turn of the loop in [try_process_withdraw_queue] of
    pallets/cyrux/src/compute/base_pool.rs pops a request or takes shares from
    the pool, as long as the smallest balance buys a share. *)
From stdpp Require Import prelude gmap list strings.
From Stdlib Require Import ZArith Lia.
From S2P Require Import Prelude Types Externals BalanceConvert Mq Computation BasePool.
From S2P Require Import BasePoolFacts PoolShares.

Module PoolQueue.
Import BasePool BasePoolT BasePoolFacts PoolShares.

(** *** Calls that return *)
Section Halting.
Context {cfg : Config} {F : FixedLib} {codec : Codec} {pal : Pallets} {RS : ReturnSpec pal}.

#[local] Hint Extern 2 (halts (extc _)) => apply halts_extc : halts.
#[local] Hint Resolve asset_transfer_returns nft_burn_returns set_lock_returns lock_remove_returns
  set_property_returns remove_property_returns : halts.

Lemma halts_to_fixed x : halts (to_fixed (S := State) (E := DispatchError) x).
Proof. unfold to_fixed. solve_halts. Qed.
Lemma halts_from_fixed x : halts (from_fixed (S := State) (E := DispatchError) x).
Proof. unfold from_fixed. solve_halts. Qed.
#[local] Hint Resolve halts_to_fixed halts_from_fixed : halts.

Lemma halts_bmul x y : halts (bmul (S := State) (E := DispatchError) x y).
Proof. unfold bmul. solve_halts. Qed.
Lemma halts_bdiv x y : halts (bdiv (S := State) (E := DispatchError) x y).
Proof. unfold bdiv. solve_halts. Qed.
Lemma halts_share_price p : halts (share_price p).
Proof. unfold share_price. solve_halts. Qed.
Lemma halts_min_balance : halts min_balance.
Proof. unfold min_balance. solve_halts. Qed.
#[local] Hint Resolve halts_bmul halts_bdiv halts_share_price halts_min_balance : halts.

Lemma halts_guard c n : halts (get_nft_attr_guard c n).
Proof. unfold get_nft_attr_guard, get_nft_attr, upd_base_pool. solve_halts. Qed.
Lemma halts_save c n a : halts (save c n a).
Proof. unfold save, set_nft_attr, release, upd_base_pool. solve_halts. Qed.
Lemma halts_burn o c n : halts (burn_nft o c n).
Proof. unfold burn_nft, remove_properties. solve_halts. Qed.
Lemma halts_add_stats u d m : halts (add_stats u d m).
Proof. unfold add_stats. solve_halts. Qed.
Lemma halts_maybe_remove_dust p nft : halts (maybe_remove_dust p nft).
Proof. unfold maybe_remove_dust. solve_halts. Qed.
Lemma halts_remove_stake p x nft u : halts (remove_stake_from_nft p x nft u).
Proof. unfold remove_stake_from_nft, get_free_stakes. solve_halts. Qed.
#[local] Hint Resolve halts_guard halts_save halts_burn halts_add_stats halts_maybe_remove_dust
  halts_remove_stake : halts.

Lemma halts_process_front price p w wd : halts (process_front price p w wd).
Proof. unfold process_front, get_free_stakes, release, upd_base_pool. solve_halts. Qed.

Lemma halts_process_turn price m r : halts (process_turn price m r).
Proof.
  pose proof halts_process_front. unfold process_turn, get_free_stakes. solve_halts.
Qed.
End Halting.

(** *** Turns make progress *)
Section Progress.
Context {cfg : Config} {F : FixedLib} {FS : FixedSpec F} {codec : Codec} {pal : Pallets}
  {NS : NftSpec pal} {AS : AssetSpec pal} {NA : NftAttrSpec codec} {RS : ReturnSpec pal}.

(** At this price the minimum balance buys a share, and no quotient overflows. *)
Definition sensible (m price : Z) : Prop :=
  price = 0 \/
  0 < price /\ to_fixed_val (2 ^ 80) * 2 ^ 64 / price < 2 ^ 128 /\
  1 <= from_fixed_val (to_fixed_val m * 2 ^ 64 / price).

Lemma bdiv_sensible m price free (s : State) :
  sensible m price -> price <> 0 -> m <= free -> 0 <= m ->
  wp True (bdiv (E := DispatchError) free price) (fun x s' => s' = s /\ 1 <= x) (fun _ _ => False) s.
Proof.
  intros [?|(Hp & Hfit & H1)] Hz Hle Hm; [done|].
  destruct (Z.lt_ge_cases free (2 ^ 80)) as [Hf|Hf].
  2:{ unfold bdiv. apply wp_bind, wp_to_fixed; [lia| |done]. lia. }
  assert (Hmono : forall a b, a <= b -> to_fixed_val a * 2 ^ 64 / price <= to_fixed_val b * 2 ^ 64 / price).
  { intros a b Hab. apply Z.div_le_mono; [done|]. apply Z.mul_le_mono_nonneg_r; [lia|]. by apply to_fixed_val_mono. }
  apply wp_bdiv; [done|lia|done| |].
  - eapply Z.le_lt_trans; [apply (Hmono free (2 ^ 80)); lia|done].
  - split; [done|]. etransitivity; [exact H1|]. by apply from_fixed_val_mono, Hmono.
Qed.

(** A pool without a price pays nothing out. *)
Definition unpriced (p : BasePool) : Prop :=
  to_fixed_val (total_shares p) = 0 \/ 2 ^ 128 <= price_val p.

Lemma remove_unpriced p sh nft u s :
  0 <= total_value p -> 0 <= total_shares p -> unpriced p ->
  wp True (remove_stake_from_nft p sh nft u) (fun r _ => r = None) (fun _ _ => False) s.
Proof.
  intros Hv Hs Hu. unfold remove_stake_from_nft. apply wp_bind.
  eapply wp_mono; [by apply share_price_spec| |done].
  intros r s' (_ & _ & _ & [[-> _]|(-> & H1 & H2)]); [by apply wp_ret|]. destruct Hu; lia.
Qed.

(** What is not swept away as dust has shares. *)
Lemma not_dust_spec p nft s :
  0 <= total_value p -> 0 <= total_shares p -> 0 <= shares nft ->
  wp True (maybe_remove_dust p nft)
    (fun r _ => snd r = false -> unpriced p \/ 0 < shares nft) (fun _ _ => True) s.
Proof.
  intros Hv Hs Hn. unfold maybe_remove_dust. apply wp_bind.
  eapply wp_mono; [by apply share_price_spec| |done].
  intros r ? (-> & _ & _ & [[-> Hu]|(-> & H1 & H2)]); [apply wp_ret; by left|].
  destruct (Z.eq_dec (shares nft) 0) as [E|Hne].
  2:{ unfold wp. destruct (mbind _ _ _); try done. intros _. right. lia. }
  assert (Hz : to_fixed_val 0 * price_val p / 2 ^ 64 = 0) by done.
  rewrite E. apply wp_bind, wp_bmul; rewrite ?Hz; [done|lia|lia|lia|]. change (from_fixed_val 0) with 0.
  unfold min_balance. apply wp_bind, wp_bind, wp_gets. destruct (asset_exists _); [|done]. apply wp_gets.
  pose proof (minimum_balance_nonneg (ext s)) as Hm. destruct (Z.gtb_spec 0 (asset_minimum_balance (ext s))); [lia|].
  apply wp_bind. unfold wp at 1. destruct (arith _ _ _); try done.
Qed.

(** The end of a turn that took shares: the request is popped or stays. *)
Lemma turn_end_progress p0 p nft w q wd s :
  total_shares p < total_shares p0 -> withdraw_queue p = w :: q -> sane p nft ->
  wp True (expect_ok (save (cid p) (wd_nft_id w) nft);;;
           let* (p, dust) := (if shares nft =? 0 then mret (p, true) else maybe_remove_dust p nft) in
           if dust then
             let* wd := (if shares nft =? 0 then mret wd else add_stats (user w) (0, 0, shares nft) wd) in
             expect_ok (burn_nft basepool_pallet_id (cid p) (wd_nft_id w));;;
             mret (set_withdraw_queue (tail (withdraw_queue p)) p, wd)
           else mret (p, wd))
    (fun r _ => withdraw_queue r.1 = q \/ total_shares r.1 < total_shares p0) (fun _ _ => True) s.
Proof.
  intros Hlt Hq Hs. unfold sane in Hs. apply wp_bind, wp_any. intros _ s1. apply wp_bind.
  apply wp_mono with (Q := fun r _ => withdraw_queue r.1 = w :: q /\ (r.2 = false -> r.1 = p)) (R := fun _ _ => True); [| |done].
  { destruct (_ =? _); [apply wp_ret; split; done|].
    eapply wp_mono; [apply maybe_remove_dust_spec; lia| |done]. by intros r s2 [_ [->| ->]]. }
  intros [p2 []] s2 [Hq2 Hp2]; simpl in *; cbv iota.
  - apply wp_bind, wp_any. intros wd2 s3. apply wp_bind, wp_any. intros [] s4. apply wp_ret. left. simpl. by rewrite Hq2.
  - apply wp_ret. right. by rewrite (Hp2 eq_refl).
Qed.

Lemma remove_progress p sh nft u s :
  sane p nft -> 0 <= sh -> unpriced p \/ 1 <= sh ->
  wp True (remove_stake_from_nft p sh nft u) (fun r _ =>
    match r with
    | None => True
    | Some (p', nft', _) =>
        total_shares p' < total_shares p /\ withdraw_queue p' = withdraw_queue p /\ cid p' = cid p /\ sane p' nft'
    end) (fun _ _ => False) s.
Proof.
  intros Hs Hsh [Hu|H1].
  - unfold sane in Hs. eapply wp_mono; [apply remove_unpriced; [lia|lia|done]| |done]. by intros r s' ->.
  - eapply wp_mono; [apply remove_stake_spec; [done|lia|apply asset_balance_range]| |done].
    intros [[[p' nft'] [amount removed]]|] s'; [|done].
    intros (_ & Hp' & _ & _ & Hrm & Hts & _ & _ & _ & Hsane). split_and!; [lia|by rewrite Hp'..|done].
Qed.

Lemma process_front_progress m price p s w q wd :
  pool_inv 0 None p s -> withdraw_queue p = w :: q -> sensible m price -> 0 <= m ->
  m < asset_balance (pool_account_id p) (ext s) ->
  wp True (process_front price p w wd)
    (fun r _ => withdraw_queue r.1 = q \/ total_shares r.1 < total_shares p) (fun _ _ => True) s.
Proof.
  intros Hp Hq Hse Hm Hfree. unfold process_front. apply wp_bind, wp_expect_ok.
  eapply wp_mono; [apply get_guard_spec| |done]. intros nft s1 (_ & -> & _ & Hval).
  pose proof (pi_queue _ _ _ _ Hp w ltac:(rewrite Hq; set_solver)) as Ho. specialize (Hval _ Ho).
  destruct (pool_inv_front_range _ _ _ _ _ _ Hp Hq) as (_ & _ & Hr). rewrite <- Hval, Z.add_0_r in Hr.
  pose proof (pi_value _ _ _ _ Hp). pose proof (pi_shares _ _ _ _ Hp).
  apply wp_bind. eapply wp_mono; [exact (wp_and _ _ _ _ _ _ _
    (maybe_remove_dust_spec p nft _ ltac:(lia) ltac:(lia)) (not_dust_spec p nft _ ltac:(lia) ltac:(lia) ltac:(lia)))| |done].
  intros r s1 [[-> [->| ->]] Hnd]; cbv iota.
  2:{ unfold release, upd_base_pool. apply wp_bind, wp_any. intros wd1 s1. apply wp_bind, wp_modify, wp_bind, wp_any. intros [] s2.
      apply wp_ret. left. simpl. by rewrite Hq. }
  specialize (Hnd eq_refl). apply wp_bind.
  apply wp_mono with (Q := fun x s' => s' = lock_on (cid p, wd_nft_id w) s /\ (1 <= x \/ x = shares nft))
    (R := fun _ _ => True); [| |done].
  { destruct (Z.eqb_spec price 0) as [|Hz]; [apply wp_ret; auto|]. unfold get_free_stakes. apply wp_bind, wp_gets.
    eapply wp_mono; [apply (bdiv_sensible m); [done|done|simpl; lia|done]| |done]. intros x ? [-> ?]. auto. }
  intros free s1 [-> Hx]. wp_lines; [|done].
  eapply wp_mono; [apply (remove_progress p _ nft); [unfold sane; lia|lia|destruct Hnd; [by left|right; lia]]| |done].
  intros r s1 Hrm. apply wp_bind, wp_expect_some; [|done]. intros [[p1 nft1] [amount removed]] ->.
  destruct Hrm as (Hlt & Hq1 & Hc & Hs1). apply wp_bind, wp_any. intros wd1 s2. apply turn_end_progress; [done|by rewrite Hq1|done].
Qed.

Definition measure (r : BasePool * gmap AccountId Stats) (_ : State) : Z :=
  total_shares r.1 + Z.of_nat (length (withdraw_queue r.1)).

Lemma total_shares_nonneg o p s : pool_inv 0 o p s -> 0 <= total_shares p.
Proof.
  intros Hp. pose proof (pi_sum _ _ _ _ Hp) as H. rewrite Z.add_0_r in H. rewrite <- H. unfold pool_sum_ov.
  apply sum_upto_nonneg. intros i. apply shares_ov_nonneg, (pi_held _ _ _ _ Hp).
Qed.

Lemma process_turn_progress m price r s :
  sensible m price -> 0 <= m -> pool_inv 0 None r.1 s ->
  wp True (process_turn price m r)
    (fun r' s' => r'.2 = true -> pool_inv 0 None r'.1.1 s' /\ 0 <= measure r'.1 s' < measure r s) (fun _ _ => True) s.
Proof.
  intros Hse Hm Hp. unfold process_turn, get_free_stakes. apply wp_bind, wp_gets.
  destruct (Z.gtb_spec (asset_balance (pool_account_id r.1) (ext s)) m) as [Hf|]; [|by apply wp_ret].
  destruct (withdraw_queue r.1) as [|w q] eqn:Hq; [by apply wp_ret|]. apply wp_bind.
  eapply wp_mono; [exact (wp_and _ _ _ _ _ _ _ (process_front_spec price None r.1 s w q r.2 Hp Hq)
    (process_front_progress m price r.1 s w q r.2 Hp Hq Hse Hm Hf))| |done].
  intros r1 s1 [(H1 & _ & _ & [Hsh _] & H5) H6]. apply wp_ret. intros _. split; [done|].
  pose proof (total_shares_nonneg _ _ _ H1). unfold measure. rewrite Hq. simpl.
  split; [lia|]. destruct H5 as [E|E]; rewrite E in *; cbn [length]; [lia|].
  destruct H6 as [H6|H6]; [|lia]. exfalso. apply (f_equal length) in H6. simpl in H6. lia.
Qed.

(** The price the loop is run at *)
Definition priced (p : BasePool) (s : State) : Prop :=
  forall price s', share_price p s = Ok (Some price) s' -> sensible (asset_minimum_balance (ext s)) price.

Lemma bind_halts {A B} (m : R A) (k : A -> R B) s :
  m s <> NoFuel -> (forall a s', m s = Ok a s' -> k a s' <> NoFuel) -> mbind m k s <> NoFuel.
Proof. intros Hm Hk. unfold mbind. destruct (m s); auto; done. Qed.

Lemma process_fuel_enough o p s wd : pool_inv 0 o p s -> measure (p, wd) s < 2 ^ Z.of_nat (process_fuel p).
Proof.
  intros Hp. pose proof (pi_shares _ _ _ _ Hp). unfold measure, process_fuel. simpl fst.
  set (n := Z.of_nat (length (withdraw_queue p))). replace (Z.of_nat (129 + _)) with (129 + n) by lia.
  rewrite Z.pow_add_r by lia. pose proof (Z.pow_gt_lin_r 2 n ltac:(lia) ltac:(lia)). lia.
Qed.

Lemma process_loop_halts m price p s :
  pool_inv 0 None p s -> sensible m price -> 0 <= m ->
  while_loop (process_fuel p) (process_turn price m) (p, ∅) s <> NoFuel.
Proof.
  intros Hp Hse Hm. apply (while_halts _ _ (fun r s => pool_inv 0 None r.1 s) measure).
  - intros r s' _. apply halts_process_turn.
  - intros r s' Hr. by apply process_turn_progress.
  - done.
  - by eapply process_fuel_enough.
Qed.

Lemma try_process_halts p s :
  pool_inv 0 None p s -> priced p s -> try_process_withdraw_queue p s <> NoFuel.
Proof.
  intros Hp Hpr. unfold try_process_withdraw_queue. apply bind_halts; [apply halts_share_price|].
  intros [price|] s1 E; [|done]. specialize (Hpr _ _ E).
  assert (s1 = s) as ->.
  { refine (wp_ok True _ (fun _ s' => s' = s) (fun _ _ => False) _ _ _ _ E).
    eapply wp_mono; [apply share_price_spec; [apply (pi_value _ _ _ _ Hp)|by eapply total_shares_nonneg]| |done].
    by intros r s' [-> _]. }
  apply bind_halts; [apply halts_min_balance|]. intros m s1 Em.
  assert (s1 = s /\ m = asset_minimum_balance (ext s)) as [-> ->].
  { revert Em. unfold min_balance, mbind, gets. by destruct (asset_exists (ext s)); intros [= <- <-]. }
  apply bind_halts; [by apply process_loop_halts, minimum_balance_nonneg|].
  intros [p' wd] s2 _. apply halts_bind; [|intros; apply halts_ret]. apply halts_for_each.
  intros u. destruct (default _ _) as [[a b] c]. apply halts_modify.
Qed.
End Progress.
End PoolQueue.
