(* ===== verification/PoolOps.v ===== *)
(** * Contributions and withdrawals of a pool

    [contribute], [push_withdraw_in_queue] and [try_withdraw] of
    pallets/cyrux/src/compute/base_pool.rs against the invariant of
    [PoolShares], and the properties of the pool. *)
From stdpp Require Import prelude gmap list strings.
From Stdlib Require Import ZArith Lia.
From S2P Require Import Prelude Types Externals BalanceConvert Reference Mq Computation BasePool.
From S2P Require Import BasePoolFacts PoolShares.

Module PoolOps.
Import BasePool BasePoolT BasePoolFacts PoolShares.

Section Ops.
Context {cfg : Config} {F : FixedLib} {FS : FixedSpec F} {codec : Codec} {pal : Pallets}
  {NS : NftSpec pal} {AS : AssetSpec pal} {NA : NftAttrSpec codec}.

(** ** Moves of the invariant *)

(** The held NFT gets another number of shares in memory. *)
Lemma pool_inv_held d h x x' p s :
  pool_inv d (Some (h, x)) p s -> 0 <= x' < 2 ^ 128 -> pool_inv (d + x' - x) (Some (h, x')) p s.
Proof.
  intros [Hs Hi Hh Hv Hsh Hq Hnd] Hx'. destruct (Hh h x eq_refl) as [Hx (u & Hu & Hne)].
  assert (Hr : 0 <= h < next_id (cid p) s) by by eapply Hi.
  split; auto.
  - unfold pool_sum_ov in *. rewrite (sum_upto_update (shares_ov (cid p) (ext s) (Some (h, x))) _ _ h Hr).
    + rewrite Hs. simpl. rewrite !decide_True by done. lia.
    + intros i Hne'. simpl. by rewrite !decide_False.
  - intros h' y [= <- <-]. split; [done|]. by exists u.
Qed.

(** A queue of the same requests in another order *)
Lemma pool_inv_perm d o p s q :
  pool_inv d o p s -> q ≡ₚ withdraw_queue p -> pool_inv d o (set_withdraw_queue q p) s.
Proof.
  intros [Hs Hi Hh Hv Hsh Hq Hnd] Hp. split; simpl; auto.
  - intros w Hw. apply Hq. by rewrite <- Hp.
  - by rewrite Hp.
Qed.

(** A new NFT of [x] shares *)
Lemma pool_inv_mint d o p s s' u x :
  pool_inv d o p s -> 0 <= x < 2 ^ 128 ->
  nft_step (cid p) (next_id (cid p) s) (Some u, Some (encode_NftAttr (mkNftAttr x))) (ext s) (ext s') ->
  next_id (cid p) s' = next_id (cid p) s + 1 -> nft_owner (cid p) (next_id (cid p) s) (ext s) = None ->
  pool_inv (d + x) o p s'.
Proof.
  intros [Hs Hi Hh Hv Hsh Hq Hnd] Hx Hst Hid Hfree. pose proof (proj1 Hi) as Hn0.
  assert (Hnh : not_held o (next_id (cid p) s)).
  { intros h y -> <-. destruct (Hh _ _ eq_refl) as (_ & v & Hv' & _). congruence. }
  assert (Ho : forall n v, nft_owner (cid p) n (ext s) = Some v -> nft_owner (cid p) n (ext s') = Some v).
  { intros n v Hn. destruct (decide (n = next_id (cid p) s)) as [->|Hne]; [congruence|].
    destruct Hst as (_ & Hoth & _). specialize (Hoth (cid p) n ltac:(congruence)).
    unfold nft_at in Hoth. congruence. }
  split; auto.
  - rewrite (pool_sum_ov_mint _ _ _ o s s' Hst eq_refl Hid Hn0 Hnh), Hs.
    rewrite (shares_at_live _ _ _ _ _ (proj1 Hst)) by done. simpl. lia.
  - split; [lia|]. intros n v Hnv. rewrite Hid. destruct (decide (n = next_id (cid p) s)) as [->|Hne]; [lia|].
    destruct Hst as (_ & Hoth & _). specialize (Hoth (cid p) n ltac:(congruence)). unfold nft_at in Hoth.
    assert (Hb : 0 <= n < next_id (cid p) s); [|lia]. apply (proj2 Hi n v). congruence.
  - intros h y Hy. destruct (Hh h y Hy) as (? & v & Hv' & ?). split; [done|]. exists v. eauto.
Qed.

(** The new NFT as a request at the back of the queue *)
Lemma pool_inv_push d o p s w :
  pool_inv d o p s -> nft_owner (cid p) (wd_nft_id w) (ext s) = Some basepool_pallet_id ->
  wd_nft_id w ∉ (wd_nft_id <$> withdraw_queue p) ->
  pool_inv d o (set_withdraw_queue (withdraw_queue p ++ [w]) p) s.
Proof.
  intros [Hs Hi Hh Hv Hsh Hq Hnd] Ho Hn. split; simpl; auto.
  - intros w' Hw'. apply elem_of_app in Hw' as [Hw'|Hw']; [auto|].
    by apply list_elem_of_singleton in Hw' as ->.
  - rewrite fmap_app. apply NoDup_app. split_and!; [done| |apply NoDup_singleton].
    intros n Hn1 Hn2. apply list_elem_of_singleton in Hn2 as ->. done.
Qed.

(** ** The requests a user already has in the queue go back to the user. *)
Definition return_body (c : CollectionId) (acc : Balance) (w : WithdrawInfo) : R Balance :=
  let* q := read_nft c (wd_nft_id w) in
  let* acc := arith 128 (acc + shares q) in
  expect_ok (burn_nft basepool_pallet_id c (wd_nft_id w));;;
  mret acc.

Lemma read_nft_spec c n s :
  wp True (read_nft c n)
    (fun a s' => s' = s /\ 0 <= shares a < 2 ^ 128 /\
       (forall u, nft_owner c n (ext s) = Some u -> shares a = shares_at c (ext s) n))
    (fun _ s' => s' = s) s.
Proof.
  unfold read_nft, release, upd_base_pool. apply wp_bind.
  eapply wp_mono; [apply get_guard_spec| |done]. intros a s1 (Hlk & -> & Hr & Hv). wp_lines.
  split_and!; try done; try lia. unfold lock_on. simpl.
  rewrite unlock_locked by done. unfold locks. destruct s as [? ? ? ? ? ? []]; done.
Qed.

Lemma return_spec h rest p l x s :
  pool_inv 0 (Some (h, x)) (set_withdraw_queue (l ++ rest) p) s ->
  wp True (for_fold l x (return_body (cid p)))
    (fun x' s' => pool_inv 0 (Some (h, x')) (set_withdraw_queue rest p) s' /\ base_pool s' = base_pool s /\
       unix_time_ms s' = unix_time_ms s)
    (fun _ _ => True) s.
Proof.
  revert x s. induction l as [|w l IH]; intros x s Hp; simpl; [by apply wp_ret|].
  apply wp_bind. unfold return_body at 1. apply wp_bind.
  eapply wp_mono; [apply read_nft_spec| |done]. intros a s1 (-> & Hr & Hv).
  pose proof (pi_queue _ _ _ _ Hp w ltac:(simpl; set_solver)) as Ho. specialize (Hv _ Ho).
  set (p1 := set_withdraw_queue ((w :: l) ++ rest) p) in *.
  assert (H0 : pool_inv (- x) (Some (h, 0)) p1 s)
    by (apply (pool_inv_held _ _ _ 0) in Hp; [by replace (- x) with (0 + 0 - x) by lia|lia]).
  destruct (pool_inv_front_range _ _ _ _ _ _ H0 eq_refl) as (_ & _ & Hle).
  destruct (pi_held _ _ _ _ Hp h x eq_refl) as [Hx _]. pose proof (pi_shares _ _ _ _ Hp).
  change (cid p1) with (cid p) in *. simpl in Hle. simpl in H.
  apply wp_bind. unfold wp at 1. rewrite arith_fits by lia.
  apply wp_bind, wp_expect_ok. eapply wp_mono; [apply burn_nft_spec| |done].
  intros [] s1 (_ & e & raw & -> & Hst). apply wp_ret.
  destruct (pool_inv_front_step _ _ _ s (set_ext e s) _ _ _ Hp eq_refl Hst eq_refl) as [_ H2].
  specialize (H2 eq_refl). simpl in H2. rewrite (shares_at_dead _ _ _ _ (proj1 Hst)) in H2.
  apply (pool_inv_held _ _ _ (x + shares a)) in H2; [|lia].
  rewrite <- Hv in H2. replace (_ + _ - x) with 0 in H2 by lia.
  eapply wp_mono; [apply IH; exact H2|done|done].
Qed.

(** ** A withdraw request *)

(** A pool that has no price: it has no share, or the price does not fit. *)
Definition priceless (p : BasePool) : Prop :=
  to_fixed_val (total_shares p) = 0 \/ 2 ^ 128 <= price_val p.

Definition push_post (h : NftId) (p : BasePool) (nft : NftAttr) (account : AccountId) (sh : Balance) (s : State)
    (r : BasePool * NftAttr * option NftId) (s' : State) : Prop :=
  match r with
  | (p', nft', None) =>
      s' = s /\ p' = p /\ priceless p /\ sh <= shares nft /\ shares nft' = shares nft - sh
  | (p', nft', Some n) =>
      pool_inv 0 (Some (h, shares nft')) p' s' /\ same_pool p p' /\
      total_shares p' = total_shares p /\ total_value p' = total_value p /\
      withdraw_queue p' = filter (fun w => user w <> account) (withdraw_queue p)
        ++ [mkWithdrawInfo account (unix_time_ms s / 1000) n] /\
      locks s' = locks s
  end.

Lemma push_withdraw_spec h p nft account sh s :
  pool_inv 0 (Some (h, shares nft)) p s -> 0 <= sh < 2 ^ 128 ->
  wp True (push_withdraw_in_queue p nft account sh) (push_post h p nft account sh s) (fun _ s' => s' = s) s.
Proof.
  intros Hp Hsh. pose proof (pi_value _ _ _ _ Hp) as Hv.
  assert (0 <= total_shares p).
  { pose proof (pi_sum _ _ _ _ Hp). assert (0 <= pool_sum_ov (cid p) (Some (h, shares nft)) s); [|lia].
    apply sum_upto_nonneg. intros i. apply shares_ov_nonneg, (pi_held _ _ _ _ Hp). }
  unfold push_withdraw_in_queue. apply wp_transactional, wp_bind.
  eapply wp_mono; [apply share_price_spec; lia| |done]. intros r ? (-> & _ & _ & [[-> Hr]|(-> & _)]).
  { wp_lines; [|done]. apply checked_sub_Some in H0 as [? ->]. done. }
  set (rest := filter (fun w => user w <> account) (withdraw_queue p)).
  set (mine := filter (fun w => user w = account) (withdraw_queue p)).
  apply wp_bind. eapply wp_mono; [eapply (return_spec h rest p mine); apply pool_inv_perm; [exact Hp|]| |done].
  { apply filter_app_complement. }
  intros x s1 (Hp1 & Hb1 & Ht1). apply wp_bind, wp_expect_ok.
  eapply wp_mono; [apply mint_nft_spec| |done]. intros n s2 (-> & Hfree & e & ev & -> & Hst).
  wp_lines; [|done]. apply checked_sub_Some in H0 as [Hx ->]. unfold now_sec. wp_lines.
  set (s2 := set_events _ _). set (n := next_id (cid p) s1) in *.
  assert (Hid : next_id (cid p) s2 = n + 1) by (unfold next_id; simpl; by rewrite lookup_insert_eq).
  pose proof (pool_inv_mint _ _ _ s1 s2 _ sh Hp1 Hsh Hst Hid Hfree) as Hp2.
  destruct (pi_held _ _ _ _ Hp1 h x eq_refl) as [Hxr _].
  apply (pool_inv_held _ _ _ (x - sh)) in Hp2; [|lia].
  replace (0 + sh + (x - sh) - x) with 0 in Hp2 by lia.
  unfold push_post. simpl. split_and!; try done.
  - apply (pool_inv_push _ _ _ _ (mkWithdrawInfo account (unix_time_ms s1 / 1000) n)) in Hp2; [exact Hp2|..].
    + simpl. destruct Hst as [E _]. unfold nft_at in E. by injection E.
    + simpl. intros (w & Hw & Hin)%list_elem_of_fmap.
      pose proof (pi_queue _ _ _ _ Hp1 w Hin) as Hw'. simpl in Hw'. rewrite <- Hw in Hw'. congruence.
  - by rewrite <- Ht1.
  - unfold locks. simpl. by rewrite Hb1.
Qed.

(** [try_withdraw]: the request is queued, then the queue is processed. *)
Definition withdraw_post (h : NftId) (p : BasePool) (nft : NftAttr) (account : AccountId) (sh : Balance)
    (s : State) (r : BasePool * NftAttr) (s' : State) : Prop :=
  let '(p', nft') := r in
  (p' = p /\ s' = s /\ priceless p /\ shares nft' = shares nft - sh) \/
  exists n, pool_inv 0 (Some (h, shares nft')) p' s' /\ same_pool p p' /\ shrinks p p' /\
    withdraw_queue p' `suffix_of` filter (fun w => user w <> account) (withdraw_queue p)
      ++ [mkWithdrawInfo account (unix_time_ms s / 1000) n] /\
    locks s' = locks s.

Lemma try_withdraw_spec h p nft account sh nid v s :
  pool_inv 0 (Some (h, shares nft)) p s -> 0 <= sh < 2 ^ 128 ->
  wp True (try_withdraw p nft account sh nid v) (withdraw_post h p nft account sh s) (fun _ s' => s' = s) s.
Proof.
  intros Hp Hsh. unfold try_withdraw. apply wp_bind.
  eapply wp_mono; [by apply push_withdraw_spec| |done].
  intros [[p1 nft1] [n|]] s1; simpl.
  - intros (H1 & H2 & H3 & H4 & H5 & H6). unfold emit, deposit_event. apply wp_bind, wp_modify.
    set (s1' := set_events _ s1).
    assert (H1' : pool_inv 0 (Some (h, shares nft1)) p1 s1') by by apply (pool_inv_quiet _ _ _ s1).
    apply wp_bind. eapply wp_mono; [by apply (try_process_spec (Some (h, shares nft1)))| |done].
    intros p2 s2 (G1 & G2 & G3 & G4 & G5). apply wp_ret. right. exists n. unfold shrinks in *.
    split_and!; try done; try lia; [by eapply same_pool_trans|by rewrite <- H5|].
    unfold locks in *. rewrite G2. done.
  - intros (-> & -> & H3 & H4 & H5). apply wp_ret. left. done.
Qed.

(** ** Contributions *)

(** An NFT of a user is burnt. *)
Lemma pool_inv_burn_user d p s s' n u raw :
  pool_inv d None p s -> nft_owner (cid p) n (ext s) = Some u -> u <> basepool_pallet_id ->
  nft_step (cid p) n (None, raw) (ext s) (ext s') -> next_id (cid p) s' = next_id (cid p) s ->
  0 <= shares_at (cid p) (ext s) n <= total_shares p + d /\
  pool_inv (d - shares_at (cid p) (ext s) n) None p s'.
Proof.
  intros [Hs Hi Hh Hv Hsh Hq Hnd] Hu Hne Hst Hid.
  assert (Hr : 0 <= n < next_id (cid p) s) by by eapply Hi.
  assert (Hnh : not_held None n) by by intros h x.
  assert (Ho : forall m, m <> n -> nft_owner (cid p) m (ext s') = nft_owner (cid p) m (ext s)).
  { intros m Hm. destruct Hst as (_ & Hoth & _). specialize (Hoth (cid p) m ltac:(congruence)).
    unfold nft_at in Hoth. congruence. }
  pose proof (pool_sum_ov_step _ _ _ None s s' Hst Hid Hr Hnh) as Hsum.
  rewrite (shares_at_dead _ _ _ _ (proj1 Hst)) in Hsum.
  pose proof (pool_sum_ov_le _ n None s Hh Hr Hnh). pose proof (shares_at_range (cid p) (ext s) n).
  split; [lia|]. split; auto; try lia.
  - destruct Hi as [H0' Hi]. split; [by rewrite Hid|]. intros m v Hm. rewrite Hid.
    destruct (decide (m = n)) as [->|Hmn]; [done|]. rewrite Ho in Hm by done. eauto.
  - by intros h x.
  - intros w Hw. rewrite Ho; [by apply Hq|]. intros <-. specialize (Hq w Hw). congruence.
Qed.

Definition merge_body (c : CollectionId) (staker : AccountId) (total : Balance) (n : NftId) : R Balance :=
  let* nft := expect_ok (read_nft c n) in
  let* total := arith 128 (total + shares nft) in
  expect_ok (burn_nft staker c n);;;
  mret total.

Lemma merge_fold_spec p u l x s :
  pool_inv (- x) None p s -> 0 <= x -> u <> basepool_pallet_id -> NoDup l ->
  (forall n, n ∈ l -> nft_owner (cid p) n (ext s) = Some u) ->
  wp True (for_fold l x (merge_body (cid p) u))
    (fun x' s' => pool_inv (- x') None p s' /\ 0 <= x' < 2 ^ 128 /\ base_pool s' = base_pool s /\
      unix_time_ms s' = unix_time_ms s)
    (fun _ _ => False) s.
Proof.
  intros Hp Hx Hu Hnd Hl. revert x s Hp Hx Hl. induction l as [|n l IH]; intros x s Hp Hx Hl; simpl.
  { apply wp_ret. pose proof (pi_shares _ _ _ _ Hp). split_and!; try done.
    pose proof (pi_sum _ _ _ _ Hp). assert (0 <= pool_sum_ov (cid p) None s); [|lia].
    apply sum_upto_nonneg. intros i. by apply shares_ov_nonneg. }
  apply NoDup_cons in Hnd as [Hn Hnd]. pose proof (Hl n ltac:(set_solver)) as Hown.
  apply wp_bind. unfold merge_body at 1. apply wp_bind, wp_expect_ok.
  eapply wp_mono; [apply read_nft_spec| |done]. intros a s1 (-> & Hr & Hv). specialize (Hv _ Hown).
  pose proof (pi_sum _ _ _ _ Hp). pose proof (pi_shares _ _ _ _ Hp).
  assert (shares_at (cid p) (ext s) n <= pool_sum_ov (cid p) None s).
  { apply pool_sum_ov_le; [by intros h y|by eapply (pi_ids _ _ _ _ Hp)|by intros h y]. }
  apply wp_bind. unfold wp at 1. rewrite arith_fits by lia.
  apply wp_bind, wp_expect_ok. eapply wp_mono; [apply burn_nft_spec| |done].
  intros [] s1 (_ & e & raw & -> & Hst). apply wp_ret.
  destruct (pool_inv_burn_user _ _ s (set_ext e s) n u raw Hp Hown Hu Hst eq_refl) as [_ Hp1].
  eapply wp_mono; [apply (IH Hnd (x + shares a) (set_ext e s))|done|done].
  - by replace (- (x + shares a)) with (- x - shares_at (cid p) (ext s) n) by lia.
  - lia.
  - intros m Hm. destruct Hst as (_ & Hoth & _). specialize (Hoth (cid p) m).
    unfold nft_at in Hoth. simpl. assert (m <> n) by (intros ->; done).
    injection (Hoth ltac:(congruence)) as -> _. apply Hl. set_solver.
Qed.

Lemma merge_spec p u s :
  pool_inv 0 None p s -> u <> basepool_pallet_id ->
  wp True (merge_nft_for_staker (cid p) u (pid p))
    (fun _ s' => pool_inv 0 None p s' /\ locks s' = locks s) (fun _ _ => True) s.
Proof.
  intros Hp Hu. unfold merge_nft_for_staker. apply wp_bind, wp_gets.
  destruct (owned_law (cid p) u (ext s)) as [Hnd Hown].
  destruct (owned_in_collection (cid p) u (ext s)) as [|n [|n' l]] eqn:Hl; [by apply wp_ret..|].
  apply wp_bind. eapply wp_mono; [apply (merge_fold_spec p u (n :: n' :: l) 0 s)| |done]; try done.
  { intros m Hm. by apply Hown. }
  intros x s1 (Hp1 & Hx & Hb & _). apply wp_bind.
  eapply wp_mono; [apply mint_nft_spec| |done]. intros m s2 (-> & Hfree & e & ev & -> & Hst).
  apply wp_ret. split.
  - replace 0 with (- x + x) by lia. eapply pool_inv_mint; [exact Hp1|done|exact Hst| |done].
    unfold next_id; simpl. by rewrite lookup_insert_eq.
  - unfold locks. simpl. by rewrite Hb.
Qed.

(** The shares sold for [amount] *)
Definition sold (p : BasePool) (amount sh : Balance) : Prop :=
  0 <= sh < 2 ^ 80 /\
  (priceless p \/ price_val p = 0 -> sh = amount) /\
  (~ priceless p -> 0 < price_val p -> to_fixed_val amount * 2 ^ 64 / price_val p < 2 ^ 128 ->
   from_fixed_val (to_fixed_val sh * price_val p / 2 ^ 64) <= amount).

Definition contribute_post (p : BasePool) (account : AccountId) (amount : Balance) (s : State)
    (r : BasePool * Balance) (s' : State) : Prop :=
  let '(p', sh) := r in
  pool_inv 0 None p' s' /\ same_pool p p' /\ withdraw_queue p' = withdraw_queue p /\
  total_shares p' = total_shares p + sh /\ total_value p' = total_value p + amount /\
  sold p amount sh /\ locks s' = locks s.

Lemma add_stake_spec p account amount s :
  pool_inv 0 None p s -> 0 <= total_shares p -> 0 <= amount < 2 ^ 80 ->
  wp True (add_stake_to_new_nft p account amount) (contribute_post p account amount s) (fun _ _ => False) s.
Proof.
  intros Hp Hts Ha. pose proof (pi_value _ _ _ _ Hp) as Hv. pose proof (pi_shares _ _ _ _ Hp) as Hs.
  unfold add_stake_to_new_nft. apply wp_bind.
  eapply wp_mono; [apply share_price_spec; lia| |done]. intros r ? (-> & Hv80 & Hs80 & Hr).
  apply wp_bind. apply wp_mono with (Q := fun sh s' => s' = s /\ sold p amount sh) (R := fun _ _ => False); [| |done].
  { unfold sold. destruct Hr as [[-> Hr]|(-> & Ht & Hpr)]; [by apply wp_ret; split_and!; try lia|].
    assert (Hnp : ~ priceless p) by (unfold priceless; lia).
    destruct (Z.eqb_spec (price_val p) 0); [apply wp_ret; split_and!; try lia; done|].
    apply wp_bdiv_full. intros sh Hsh Hval. split_and!; try done; try lia; [tauto|].
    intros _ Hpos Hfit. rewrite Hval by lia. apply shares_value_le; lia. }
  intros sh ? [-> Hsold]. pose proof Hsold as [Hsh _].
  apply wp_bind, wp_expect_ok. eapply wp_mono; [apply mint_nft_spec| |done].
  intros n s1 (-> & Hfree & e & ev & -> & Hst).
  do 2 (apply wp_bind; unfold wp at 1; rewrite arith_fits by lia).
  apply wp_bind, wp_expect_ok, wp_extc_step; [|done]. intros [] e2 Htr. simpl in Htr.
  destruct (transfer_nft_law _ _ _ _ _ Htr) as [T1 T2]. apply wp_ret.
  set (s1 := set_events ev _) in *. unfold contribute_post. split_and!; try done.
  assert (pool_inv (0 + sh) None p s1) as H1.
  { eapply pool_inv_mint; [exact Hp|lia|exact Hst| |done]. unfold next_id; simpl. by rewrite lookup_insert_eq. }
  apply (pool_inv_totals _ _ _ _ (total_shares p + sh) (total_value p + amount) 0) in H1; try lia.
  apply (pool_inv_quiet _ _ _ s1); [|intros n; unfold nft_at; simpl; by rewrite T1, T2|done].
  destruct p; exact H1.
Qed.

Lemma contribute_spec p account amount s :
  pool_inv 0 None p s -> account <> basepool_pallet_id -> 0 <= amount < 2 ^ 80 ->
  wp True (contribute p account amount)
    (fun r s' => contribute_post p account amount s r s' /\
       (total_shares p = 0 \/ 0 < total_value p) /\
       (forall wl, PoolContributionWhitelists (base_pool s) !! pid p = Some wl ->
          account ∈ wl \/ owner p = account))
    (fun _ s' => s' = s) s.
Proof.
  intros Hp Hu Ha. assert (0 <= total_shares p).
  { pose proof (pi_sum _ _ _ _ Hp). assert (0 <= pool_sum_ov (cid p) None s); [|lia].
    apply sum_upto_nonneg. intros i. by apply shares_ov_nonneg. }
  unfold contribute. apply wp_transactional, wp_bind, wp_ensure; [|done].
  intros Hb%orb_true_iff. rewrite Z.eqb_eq, Z.gtb_lt in Hb. apply wp_bind, wp_gets, wp_bind.
  apply wp_mono with (Q := fun _ s' => s' = s /\ forall wl,
    PoolContributionWhitelists (base_pool s) !! pid p = Some wl -> account ∈ wl \/ owner p = account)
    (R := fun _ s' => True); [| |done].
  { destruct (PoolContributionWhitelists (base_pool s) !! pid p) as [wl|] eqn:Hwl; [|by apply wp_ret].
    apply wp_ensure; [|done]. rewrite orb_true_iff, !bool_decide_eq_true. intros ?. split; [done|].
    by intros ? [= <-]. }
  intros [] ? [-> Hwl]. apply wp_bind. eapply wp_mono; [by apply merge_spec| |done].
  intros o s1 [Hp1 Hl1]. eapply wp_mono; [by apply add_stake_spec| |done].
  intros [p' sh] s2 (H1 & H2 & H3 & H4 & H5 & H6 & H7). unfold contribute_post.
  split_and!; try done; congruence.
Qed.

(** ** A guard on the NFT of a user *)
Lemma pool_inv_hold d p s h u :
  pool_inv d None p s -> nft_owner (cid p) h (ext s) = Some u -> u <> basepool_pallet_id ->
  pool_inv d (Some (h, shares_at (cid p) (ext s) h)) p s.
Proof.
  intros [Hs Hi Hh Hv Hsh Hq Hnd] Hu Hne. split; auto.
  - rewrite <- Hs. apply sum_upto_ext. intros i _. simpl. case_decide; by subst.
  - intros h' x [= <- <-]. split; [apply shares_at_range|eauto].
Qed.

Lemma pool_inv_save d p s s' h x u :
  pool_inv d (Some (h, x)) p s -> u <> basepool_pallet_id ->
  nft_owner (cid p) h (ext s) = Some u ->
  nft_step (cid p) h (Some u, Some (encode_NftAttr (mkNftAttr x))) (ext s) (ext s') ->
  next_id (cid p) s' = next_id (cid p) s -> pool_inv d None p s'.
Proof.
  intros [Hs Hi Hh Hv Hsh Hq Hnd] Hne Hown Hst Hid. destruct (Hh h x eq_refl) as [Hx _].
  assert (Ho : forall m, nft_owner (cid p) m (ext s') = nft_owner (cid p) m (ext s)).
  { intros m. destruct Hst as (E & Hoth & _). destruct (decide (m = h)) as [->|Hm].
    - unfold nft_at in E. congruence.
    - specialize (Hoth (cid p) m ltac:(congruence)). unfold nft_at in Hoth. congruence. }
  split; auto.
  - rewrite <- Hs. unfold pool_sum_ov. rewrite Hid. apply sum_upto_ext. intros i _. simpl.
    case_decide as Hih; [subst i; by rewrite (shares_at_live _ _ _ _ _ (proj1 Hst))|by eapply shares_at_step].
  - destruct Hi as [H0 Hi]. split; [by rewrite Hid|]. intros n v. rewrite Ho, Hid. apply Hi.
  - by intros h' y.
  - intros w Hw. rewrite Ho. by apply Hq.
Qed.

End Ops.
End PoolOps.
