(* ===== verification/PoolProps.v ===== *)
(** * Properties of the base pool

    Conservation of shares, fairness of the withdraw queue, bounds of what is
    paid out, the whitelist and the reimbursements of
    pallets/cyrux/src/compute/base_pool.rs. *)
From stdpp Require Import prelude gmap list strings.
From Stdlib Require Import ZArith Lia.
From S2P Require Import Prelude Types Externals BalanceConvert Reference Mq Computation BasePool.
From S2P Require Import BasePoolFacts PoolShares PoolQueue PoolOps.

Module PoolProps.
Import BasePool BasePoolT BasePoolFacts PoolShares PoolQueue PoolOps.

Section Properties.
Context {cfg : Config} {F : FixedLib} {FS : FixedSpec F} {codec : Codec} {pal : Pallets}
  {NS : NftSpec pal} {AS : AssetSpec pal} {NA : NftAttrSpec codec}.

(** A contribution mints as many shares into NFTs as it adds to the pool,
    so the shares of the live NFTs still add up to [total_shares]; the pool's
    value grows by the amount, the shares sold are worth at most the amount at
    the price before, and the contributor is in the whitelist if there is one.
    A refused contribution changes nothing. *)
Theorem contribute_conserves_shares p account amount s :
  pool_inv 0 None p s -> account <> basepool_pallet_id -> 0 <= amount < 2 ^ 80 ->
  match contribute p account amount s with
  | Ok (p', sh) s' =>
      pool_sum_ov (cid p) None s' = total_shares p' /\ total_shares p' = total_shares p + sh /\
      total_value p' = total_value p + amount /\ sold p amount sh /\
      (total_shares p = 0 \/ 0 < total_value p) /\
      (forall wl, PoolContributionWhitelists (base_pool s) !! pid p = Some wl ->
         account ∈ wl \/ owner p = account) /\
      locks s' = locks s
  | Err _ s' => s' = s
  | _ => True
  end.
Proof.
  intros Hp Hu Ha. pose proof (contribute_spec p account amount s Hp Hu Ha) as H. unfold wp in H.
  destruct (contribute p account amount s) as [[p' sh] s'|e s'| |]; try done.
  destruct H as ((H1 & (_ & Hc & _) & _ & H4 & H5 & H6 & H7) & H8 & H9).
  pose proof (pi_sum _ _ _ _ H1) as Hsum. rewrite Hc in Hsum. split_and!; try done. lia.
Qed.


(** A withdraw request takes the place of the user's earlier ones at the
    back of the queue and then the queue is processed; with the shares still
    held by the user's NFT, the shares of the pool's NFTs add up to
    [total_shares] before and after.  Only a pool that has no price (no share,
    or a price that does not fit 64 bits) takes the shares away without a
    request. *)
Theorem try_withdraw_conserves_shares h p nft account sh nid v s :
  pool_inv 0 (Some (h, shares nft)) p s -> 0 <= sh < 2 ^ 128 ->
  match try_withdraw p nft account sh nid v s with
  | Ok (p', nft') s' =>
      (priceless p /\ p' = p /\ s' = s /\ shares nft' = shares nft - sh) \/
      (pool_sum_ov (cid p) (Some (h, shares nft')) s' = total_shares p' /\
       total_shares p' <= total_shares p /\ total_value p' <= total_value p /\
       exists n, withdraw_queue p' `suffix_of` filter (fun w => user w <> account) (withdraw_queue p)
         ++ [mkWithdrawInfo account (unix_time_ms s / 1000) n])
  | Err _ s' => s' = s
  | _ => True
  end.
Proof.
  intros Hp Hsh. pose proof (try_withdraw_spec h p nft account sh nid v s Hp Hsh) as H. unfold wp in H.
  destruct (try_withdraw p nft account sh nid v s) as [[p' nft'] s'|e s'| |]; try done.
  destruct H as [(H1 & H2 & H3 & H4)|(n & H1 & (_ & Hc & _) & [H3 H3'] & H4 & _)]; [by left|].
  right. pose proof (pi_sum _ _ _ _ H1) as Hsum. rewrite Hc in Hsum. split_and!; try done; [lia|by exists n].
Qed.

(** Paying out [sh] shares of an NFT pays no more than the free stake of
    the pool and no more than its value, and takes the same number of shares,
    [sh] or the at most 1000 of dust more, from the NFT and from the pool: no
    subtraction of the payout can underflow. *)
Theorem remove_stake_bounds p sh nft u s :
  sane p nft -> 0 <= sh ->
  match remove_stake_from_nft p sh nft u s with
  | Ok (Some (p', nft', (amount, removed))) s' =>
      0 <= amount <= asset_balance (pool_account_id p) (ext s) /\ amount <= total_value p /\
      sh <= removed <= sh + 1000 /\ 0 <= shares nft' /\
      total_shares p' = total_shares p - removed /\ shares nft' = shares nft - removed /\
      total_value p - amount - 1000 <= total_value p' <= total_value p - amount /\ sane p' nft'
  | Ok None s' => s' = s
  | Err _ _ => False
  | _ => True
  end.
Proof.
  intros Hs Hsh.
  pose proof (remove_stake_spec p sh nft u s Hs Hsh (fun e => proj1 (asset_balance_range _ e))) as H.
  unfold wp in H. destruct (remove_stake_from_nft p sh nft u s) as [[[[p' nft'] [am rm]]|] s'|e s'| |]; try done.
  destruct H as (_ & _ & H1 & H2 & H3 & H4 & H5 & H6 & H7 & H8). unfold sane in H8. split_and!; try done; lia.
Qed.

End Properties.

(** ** The calls of the pallet *)
Section Calls.
Context {cfg : Config} {pal : Pallets} {codec : Codec}.

Inductive call :=
| AddStaker (origin : Origin) (p : Z) (staker : AccountId)
| RemoveStaker (origin : Origin) (p : Z) (staker : AccountId)
| SetDescription (origin : Origin) (p : Z) (description : bytes)
| ClaimReimbursement (origin : Origin) (p : Z) (target : AccountId)
| SetReimbursements (origin : Origin) (input : list (AccountId * Z * Balance)) (add : bool).

Definition run_call (c : call) : R unit :=
  match c with
  | AddStaker o p a => add_staker_to_whitelist o p a
  | RemoveStaker o p a => remove_staker_from_whitelist o p a
  | SetDescription o p d => set_pool_description o p d
  | ClaimReimbursement o p t => claim_reimbursement o p t
  | SetReimbursements o l b => set_reimbursements o l b
  end.

Definition run_calls (l : list call) (s : State) : State := foldl (fun s c => final (run_call c) s) s l.

Definition whitelist (p : Z) (s : State) : option (list AccountId) :=
  PoolContributionWhitelists (base_pool s) !! p.

Definition whitelists_ok (s : State) : Prop :=
  forall p l, whitelist p s = Some l -> NoDup l /\ 1 <= Z.of_nat (length l) <= MAX_WHITELIST_LEN.

Lemma whitelists_ok_insert p l s s' :
  whitelists_ok s -> NoDup l -> 1 <= Z.of_nat (length l) <= MAX_WHITELIST_LEN ->
  PoolContributionWhitelists (base_pool s') = <[p := l]> (PoolContributionWhitelists (base_pool s)) ->
  whitelists_ok s'.
Proof.
  intros Hs Hn Hl E q m. unfold whitelist. rewrite E. destruct (decide (q = p)) as [->|Hq].
  - rewrite lookup_insert_eq. by intros [= <-].
  - rewrite lookup_insert_ne by done. apply Hs.
Qed.

Lemma add_staker_ok o p a : preserves whitelists_ok (add_staker_to_whitelist o p a).
Proof.
  intros s Hs. unfold add_staker_to_whitelist, ensure_signed, ensure_pool_owner, pool_collection,
    set_whitelist, emit, deposit_event, upd_base_pool, MAX_WHITELIST_LEN.
  wp_steps; try done; simpl.
  - destruct (Hs p l Heqo1) as [Hnd Hlen]. apply negb_true_iff, bool_decide_eq_false in H1.
    apply Z.ltb_lt in H2.
    eapply (whitelists_ok_insert p (l ++ [a])); [exact Hs| | |reflexivity].
    + apply NoDup_app. split_and!; [done| |apply NoDup_singleton].
      intros x Hx Hy. apply list_elem_of_singleton in Hy as ->. done.
    + rewrite length_app. unfold MAX_WHITELIST_LEN in *. simpl. lia.
  - eapply (whitelists_ok_insert p [a]); [exact Hs|apply NoDup_singleton| |reflexivity].
    unfold MAX_WHITELIST_LEN. simpl. lia.
Qed.

Lemma remove_staker_ok o p a : preserves whitelists_ok (remove_staker_from_whitelist o p a).
Proof.
  intros s Hs. unfold remove_staker_from_whitelist, ensure_signed, ensure_pool_owner, pool_collection,
    set_whitelist, emit, deposit_event, upd_base_pool.
  wp_steps; try done; simpl.
  - intros q m. unfold whitelist. simpl. intros Hq. apply lookup_delete_Some in Hq as [_ Hq]. by eapply Hs.
  - destruct (Hs p a1 H1) as [Hnd Hlen].
    pose proof (length_filter (fun x => x <> a) a1) as Hle. rewrite Heql in Hle.
    eapply (whitelists_ok_insert p (a2 :: l)); [exact Hs| | |reflexivity].
    + rewrite <- Heql. by apply NoDup_filter.
    + simpl in *. lia.
Qed.

Lemma whitelist_frame {A} (m : R A) :
  keeps (fun s => PoolContributionWhitelists (base_pool s)) m -> preserves whitelists_ok m.
Proof.
  apply keeps_preserves. intros s s' E Hs p l. unfold whitelist. rewrite E. apply Hs.
Qed.

Lemma run_call_ok c : preserves whitelists_ok (run_call c).
Proof.
  destruct c; simpl; [apply add_staker_ok|apply remove_staker_ok|..]; apply whitelist_frame;
    unfold set_pool_description, ensure_pool_owner, pool_collection, claim_reimbursement,
      Computation.withdraw_subsidy_pool, set_reimbursements, ensure_migration_root || idtac; solve_keeps.
Qed.

(** After any sequence of calls of the pallet, every whitelist has between
    1 and 100 distinct accounts. *)
Theorem whitelists_bounded l s : whitelists_ok s -> whitelists_ok (run_calls l s).
Proof.
  revert s. induction l as [|c l IH]; intros s Hs; simpl; [done|]. apply IH.
  apply preserves_final; [apply run_call_ok|done].
Qed.

(** Only the owner of a pool changes its whitelist or its description: a
    call by anyone else fails and changes nothing. *)
Theorem pool_calls_owner_only o p a d proxy s :
  Pools (base_pool s) !! p = Some proxy -> o <> Signed (owner (basepool_of proxy)) ->
  (exists e, add_staker_to_whitelist o p a s = Err e s) /\
  (exists e, remove_staker_from_whitelist o p a s = Err e s) /\
  (exists e, set_pool_description o p d s = Err e s).
Proof.
  intros Hp Ho. unfold add_staker_to_whitelist, remove_staker_from_whitelist, set_pool_description,
    ensure_signed, ensure_pool_owner, pool_collection, mbind, gets.
  destruct o as [|who|]; simpl; [by split_and!; eexists| |by split_and!; eexists].
  rewrite Hp. simpl. rewrite bool_decide_eq_false_2 by congruence. by split_and!; eexists.
Qed.

(** A reimbursement is paid once: a claim that succeeds pays the recorded
    amount from the subsidy pool and forgets it, so that the next claim fails;
    a claim that fails changes nothing. *)
Theorem reimbursement_claimed_once who p target s :
  match claim_reimbursement (Signed who) p target s with
  | Ok _ s' =>
      exists x e, Reimbursements (base_pool s) !! (who, p) = Some x /\
        currency_transfer computing_account_id target x true (ext s) = Ok tt e /\ ext s' = e /\
        claim_reimbursement (Signed who) p target s' = Err (BasePoolError NoReimbursementToClaim) s'
  | Err _ s' => s' = s
  | _ => True
  end.
Proof.
  unfold claim_reimbursement, transactional, mbind, ensure_signed, gets, upd_base_pool, modify, mret, or_err,
    Computation.withdraw_subsidy_pool, extc, ok_or, fail.
  destruct (Reimbursements (base_pool s) !! (who, p)) as [x|] eqn:Hx; simpl; [|done].
  destruct (currency_transfer computing_account_id target x true (ext s)) as [[] e|er e| |] eqn:Ht; try done.
  exists x, e. split_and!; try done. simpl. by rewrite lookup_delete_eq.
Qed.

End Calls.

(** ** Witnesses

    A pool of the reference runtime: account 7 contributes 50 tokens, then asks
    for 20 of them back. *)
Section Witnesses.
Import RefInstances.

Definition wit_pool : BasePool :=
  mkBasePool 1 (acct 1) 0 0 [] [] 10001 (acct 100001).

Definition wit_ext : RefExt :=
  mkRefExt {[7 := 100 * PHA]} {[9004 := 1000 * PHA]} {[10001]} ∅ ∅ ∅ [].

Definition wit_state : State (cfg := ref_config) :=
  set_base_pool (set_Pools {[1 := StakePoolProxy (mkStakePool wit_pool None None [] [] 300001 200001)]}
    (base_pool ref_state)) (set_ext (wit_ext : Ext (Config := ref_config)) ref_state).

Lemma wit_pool_inv : pool_inv 0 None wit_pool wit_state.
Proof.
  split; simpl; [done|split; [done|]; by intros n o Ho|by intros h x|lia|lia|intros w Hw; by apply not_elem_of_nil in Hw|constructor].
Qed.

Definition wit_contributed : BasePool * State :=
  match contribute wit_pool (acct 7) (50 * PHA) wit_state with
  | Ok (p, _) s => (p, s)
  | _ => (wit_pool, wit_state)
  end.

Lemma wit_contributed_inv : pool_inv 0 None wit_contributed.1 wit_contributed.2.
Proof.
  pose proof (contribute_spec wit_pool (acct 7) (50 * PHA) wit_state wit_pool_inv) as H.
  unfold wit_contributed. unfold wp in H.
  destruct (contribute wit_pool (acct 7) (50 * PHA) wit_state) as [[p sh] s| | |]; try apply wit_pool_inv.
  by apply H.
Qed.

Lemma contribute_conserves_shares_witness :
  match contribute wit_pool (acct 7) (50 * PHA) wit_state with
  | Ok (p', sh) s' => pool_sum_ov 10001 None s' = total_shares p' /\ sh =? 50 * PHA
  | _ => False
  end.
Proof.
  assert (0 <= 50 * PHA < 2 ^ 80) as Ha by done.
  assert (acct 7 <> basepool_pallet_id) as Hu by done.
  pose proof (contribute_conserves_shares wit_pool (acct 7) (50 * PHA) wit_state wit_pool_inv Hu Ha) as H.
  assert (match contribute wit_pool (acct 7) (50 * PHA) wit_state with
          | Ok (_, sh) _ => sh =? 50 * PHA | _ => false end) as E by by vm_compute.
  destruct (contribute wit_pool (acct 7) (50 * PHA) wit_state) as [[p' sh] s'| | |]; try done.
  split; [exact (proj1 H)|done].
Defined.

(** The contributor's NFT, held by a guard. *)
Definition wit_nft : NftAttr := mkNftAttr (50 * PHA).

Lemma wit_held : pool_inv 0 (Some (0, shares wit_nft)) wit_contributed.1 wit_contributed.2.
Proof. exact (pool_inv_hold 0 _ _ 0 (acct 7) wit_contributed_inv eq_refl ltac:(done)). Qed.

Definition wit_request : R (BasePool * NftAttr) :=
  try_withdraw wit_contributed.1 wit_nft (acct 7) (20 * PHA) 0 None.

Lemma try_withdraw_conserves_shares_witness :
  match wit_request wit_contributed.2 with
  | Ok (p', nft') s' => shares nft' = shares wit_nft - 20 * PHA \/
      pool_sum_ov (cid wit_contributed.1) (Some (0, shares nft')) s' = total_shares p'
  | _ => False
  end.
Proof.
  pose proof (try_withdraw_conserves_shares 0 wit_contributed.1 wit_nft (acct 7) (20 * PHA) 0 None
    wit_contributed.2 wit_held ltac:(done)) as H.
  fold wit_request in H.
  assert (match wit_request wit_contributed.2 with
          | Ok (p', _) _ => total_shares p' =? 30 * PHA | _ => false end) as E by by vm_compute.
  destruct (wit_request wit_contributed.2) as [[p' nft'] s'| | |]; try done.
  destruct H as [(_ & _ & _ & H)|(H & _)]; [by left|by right].
Defined.

Lemma wit_priced : priced wit_contributed.1 wit_contributed.2.
Proof.
  intros price s' E.
  assert (H : forall r, share_price wit_contributed.1 wit_contributed.2 = r ->
    match r with Ok (Some x) _ => x =? 2 ^ 64 | _ => false end = true) by (intros r <-; vm_compute; reflexivity).
  specialize (H _ E). apply Z.eqb_eq in H as ->. right.
  assert (Hm : asset_minimum_balance (ext wit_contributed.2) = 10000) by (vm_compute; reflexivity).
  rewrite Hm. vm_compute. split_and!; try reflexivity; discriminate.
Qed.


Definition wit_payout :=
  remove_stake_from_nft wit_contributed.1 (20 * PHA) wit_nft (acct 7) wit_contributed.2.

Lemma remove_stake_bounds_witness :
  match wit_payout with
  | Ok (Some (p', nft', (amount, removed))) s' =>
      amount <= total_value wit_contributed.1 /\ amount =? 20 * PHA
  | _ => False
  end.
Proof.
  assert (sane wit_contributed.1 wit_nft) as Hs by by vm_compute.
  pose proof (remove_stake_bounds wit_contributed.1 (20 * PHA) wit_nft (acct 7) wit_contributed.2
    Hs ltac:(done)) as H.
  fold wit_payout in H.
  assert (match wit_payout with Ok (Some (_, _, (a, _))) _ => a =? 20 * PHA | _ => false end)
    as E by by vm_compute.
  destruct wit_payout as [[[[p' nft'] [a r]]|] s'|e s'| |]; try done.
  split; [exact (proj1 (proj2 H))|done].
Defined.

Lemma whitelists_bounded_witness :
  whitelists_ok (run_calls [AddStaker (Signed (acct 1)) 1 (acct 7); AddStaker (Signed (acct 1)) 1 (acct 7)] wit_state)
  /\ whitelist 1 (run_calls [AddStaker (Signed (acct 1)) 1 (acct 7)] wit_state) = Some [acct 7].
Proof. split; [apply whitelists_bounded; by intros p l|by vm_compute]. Defined.

Lemma pool_calls_owner_only_witness :
  exists e, add_staker_to_whitelist (Signed (acct 7)) 1 (acct 7) wit_state = Err e wit_state.
Proof.
  by refine (proj1 (pool_calls_owner_only (Signed (acct 7)) 1 (acct 7) []
    (StakePoolProxy (mkStakePool wit_pool None None [] [] 300001 200001)) wit_state eq_refl _)).
Defined.

End Witnesses.
End PoolProps.
