(* ===== verification/WrappedBalances.v ===== *)
(** * Wrapped balances: pallets/cyrux/src/compute/wrapped_balances.rs

    PHA is locked in the pallet's account and the same amount of W-PHA minted;
    W-PHA votes on referenda, free or staked in pools. *)
From stdpp Require Import prelude gmap list strings.
From Stdlib Require Import ZArith Lia.
From S2P Require Import Prelude Types Externals BalanceConvert Mq Computation BasePool.

Module WrappedBalances.
Import WrappedT BasePool.

Definition MAX_ITERRATIONS : Z := 100.

Section Pallet.
Context {cfg : Config} {F : FixedLib} {codec : Codec} {pal : Pallets}.

Definition emit (e : Event) : R unit := deposit_event (WrappedEv e).

(** ** Hooks of NFT transfers *)
Definition pre_check (collection_id : CollectionId) : R bool :=
  let* o := gets (fun s => BasePoolT.PoolCollections (base_pool s) !! collection_id) in
  match o with Some _ => mret false | None => mret true end.

Definition post_transfer (recipient : AccountId) (collection_id : CollectionId) : R bool :=
  let* o := gets (fun s => BasePoolT.PoolCollections (base_pool s) !! collection_id) in
  match o with
  | Some pid => expect_ok (merge_nft_for_staker collection_id recipient pid);;; mret tt
  | None => mret tt
  end;;;
  mret true.

(** ** Minting and burning *)

(** [remove_dust] *)
Definition remove_dust (who : AccountId) (dust : Balance) : R unit :=
  debug_assert (negb (dust =? 0));;;
  if negb (dust =? 0) then
    let* actual_removed := expect_ok (extc (asset_burn_from who dust)) in
    let* imbalance := extc (currency_slash computing_account_id dust) in
    extc (on_slashed imbalance);;;
    emit (DustRemoved who actual_removed)
  else mret tt.

Definition mint_into (target : AccountId) (amount : Balance) : R bool :=
  let* result := catch (extc (asset_mint_into target amount)) in
  match result with
  | inr TokenBelowMinimum =>
      let* value := gets (fun s => UnmintableDust (wrapped s)) in
      let* value := arith 128 (value + amount) in
      upd_wrapped (set_UnmintableDust value);;;
      mret false
  | inr e => fail e
  | inl _ => mret true
  end.

Definition burn_from (target : AccountId) (amount : Balance) : R unit :=
  extc (asset_burn_from target amount);;;
  mret tt.

Definition put_account (who : AccountId) (a : FinanceAccount) : R unit :=
  upd_wrapped (fun w => set_StakerAccounts (<[who := a]> (StakerAccounts w)) w).

Definition maybe_subscribe_to_pool (who : AccountId) (pid : Z) (cid : CollectionId) : R unit :=
  let* o := gets (fun s => StakerAccounts (wrapped s) !! who) in
  let account_status := default (mkFinanceAccount [] 0) o in
  put_account who
    (if bool_decide ((pid, cid) ∈ fa_invest_pools account_status) then account_status
     else set_fa_invest_pools (fa_invest_pools account_status ++ [(pid, cid)]) account_status).

(** ** The net value of a user *)
Definition get_net_value (who : AccountId) : R Balance :=
  let* free := gets (fun s => asset_balance who (ext s)) in
  let* o := gets (fun s => StakerAccounts (wrapped s) !! who) in
  match o with
  | None => mret free
  | Some account_status =>
      for_fold (fa_invest_pools account_status) free (fun total '(pid, cid) =>
        let* nfts := gets (fun s => owned_in_collection cid who (ext s)) in
        for_fold nfts total (fun total nftid =>
          let* property := expect_ok (get_nft_attr_guard cid nftid) in
          let* pool_proxy := pool_collection pid in
          let* pool_proxy := expect_some pool_proxy in
          let* price := share_price (basepool_of pool_proxy) in
          let* total := (match price with
                         | Some price =>
                             let* v := bmul (shares property) price in
                             arith 128 (total + v)
                         | None => mret total
                         end) in
          release cid nftid;;;
          mret total))
  end.

(** ** Votes *)
Definition vote_of (vote_id : Z) (user : AccountId) (w : Store) : option (Balance * Balance) :=
  VoteAccountMap w !! vote_id ≫= fun m => m !! user.

Definition voters (vote_id : Z) (w : Store) : gmap AccountId (Balance * Balance) :=
  default ∅ (VoteAccountMap w !! vote_id).

Definition votes_by (user : AccountId) (w : Store) : gset Z := default ∅ (AccountVoteMap w !! user).

Definition is_ongoing (vote_id : Z) : R bool := gets (fun s => referendum_ongoing vote_id (ext s)).

(** The closure of [accumulate_account_vote] *)
Definition tally_step (total : Balance * Balance) (x : AccountId * (Balance * Balance)) : R (Balance * Balance) :=
  let* total_aye := arith 128 (fst total + fst (snd x)) in
  let* total_nay := arith 128 (snd total + snd (snd x)) in
  mret (total_aye, total_nay).

(** The sums do not depend on the order of the iteration. *)
Definition accumulate_account_vote (vote_id : Z) : R (Balance * Balance) :=
  let* m := gets (fun s => voters vote_id (wrapped s)) in
  for_fold (map_to_list m) (0, 0) tally_step.

(** The closure of the loop of [update_user_locked] *)
Definition lock_step (user : AccountId) (max_lock vote_id : Z) : R Z :=
  let* v := gets (fun s => vote_of vote_id user (wrapped s)) in
  let* (aye, nay) := expect_some v in
  let* l := arith 128 (aye + nay) in
  mret (Z.max max_lock l).

Definition update_user_locked (user : AccountId) : R unit :=
  let* ids := gets (fun s => votes_by user (wrapped s)) in
  let* max_lock := for_fold (elements ids) 0 (lock_step user) in
  let* o := gets (fun s => StakerAccounts (wrapped s) !! user) in
  let* account_status := ok_or o (WrappedError StakerAccountNotFound) in
  put_account user (set_locked max_lock account_status).

(** ** Calls *)
Definition wrap (origin : Origin) (amount : Balance) : R unit :=
  transactional (
    let* user := ensure_signed origin in
    extc (currency_transfer user WrappedBalancesAccountId amount true);;;
    mint_into user amount;;;
    let* known := gets (fun s => bool_decide (is_Some (StakerAccounts (wrapped s) !! user))) in
    (if known then mret tt else put_account user (mkFinanceAccount [] 0));;;
    emit (Wrapped user amount)).

(** [StakerAccounts::get(&user).map_or(Zero::zero(), |status| status.locked)] *)
Definition locked_of (user : AccountId) (s : State) : Balance :=
  match StakerAccounts (wrapped s) !! user with Some a => locked a | None => 0 end.

Definition unwrap_all (origin : Origin) : R unit :=
  transactional (
    let* user := ensure_signed origin in
    let* active_stakes := get_net_value user in
    let* free_stakes := gets (fun s => asset_balance user (ext s)) in
    let* locked := gets (locked_of user) in
    let* rest := arith 128 (active_stakes - locked) in
    let withdraw_amount := Z.min rest free_stakes in
    extc (currency_transfer WrappedBalancesAccountId user withdraw_amount false);;;
    burn_from user withdraw_amount).

Definition unwrap (origin : Origin) (amount : Balance) : R unit :=
  transactional (
    let* user := ensure_signed origin in
    let* free_stakes := gets (fun s => asset_balance user (ext s)) in
    ensure (amount <=? free_stakes) (WrappedError UnwrapAmountExceedsAvaliableStake);;;
    let* active_stakes := get_net_value user in
    let* locked := gets (locked_of user) in
    let* total := arith 128 (amount + locked) in
    ensure (total <=? active_stakes) (WrappedError UnwrapAmountExceedsAvaliableStake);;;
    extc (currency_transfer WrappedBalancesAccountId user amount false);;;
    burn_from user amount;;;
    emit (Unwrapped user amount)).

Definition vote (origin : Origin) (aye_amount nay_amount : Balance) (vote_id : Z) : R unit :=
  transactional (
    let* user := ensure_signed origin in
    let* ongoing := is_ongoing vote_id in
    ensure ongoing (WrappedError ReferendumInvalid);;;
    let* active_stakes := get_net_value user in
    let* total := arith 128 (aye_amount + nay_amount) in
    ensure (active_stakes >=? total) (WrappedError VoteAmountLargerThanTotalStakes);;;
    upd_wrapped (fun w => set_VoteAccountMap
      (<[vote_id := <[user := (aye_amount, nay_amount)]> (voters vote_id w)]> (VoteAccountMap w)) w);;;
    upd_wrapped (fun w => set_AccountVoteMap (<[user := {[vote_id]} ∪ votes_by user w]> (AccountVoteMap w)) w);;;
    let* (aye, nay) := accumulate_account_vote vote_id in
    extc (democracy_vote WrappedBalancesAccountId vote_id aye nay);;;
    update_user_locked user;;;
    emit (Voted user vote_id aye_amount nay_amount)).

(** One step of the draining iterator and the body of the loop of [unlock] *)
Definition unlock_user (vote_id : Z) (user : AccountId) : R unit :=
  upd_wrapped (fun w => set_VoteAccountMap
    (<[vote_id := delete user (voters vote_id w)]> (VoteAccountMap w)) w);;;
  upd_wrapped (fun w => set_AccountVoteMap (<[user := votes_by user w ∖ {[vote_id]}]> (AccountVoteMap w)) w);;;
  expect_ok (update_user_locked user).

Definition unlock (origin : Origin) (vote_id max_iterations : Z) : R unit :=
  transactional (
    ensure_signed origin;;;
    let* ongoing := is_ongoing vote_id in
    ensure (negb ongoing) (WrappedError ReferendumOngoing);;;
    ensure ((max_iterations >? 0) && (max_iterations <=? MAX_ITERRATIONS)) (WrappedError IterationsIsNotVaild);;;
    let* users := gets (fun s => iter_order (fst <$> map_to_list (voters vote_id (wrapped s)))) in
    for_each (take (Z.to_nat max_iterations) users) (unlock_user vote_id)).

End Pallet.
End WrappedBalances.
