(* ===== verification/StakePool.v ===== *)
(** * Stake pools: pallets/cyrux/src/compute/stake_pool_v2.rs

    A stake pool collects W-PHA, starts its workers with it, gets it back when
    they are reclaimed, and passes rewards on to its owner and its stakers.  The
    pallet is the subscriber of the computation pallet's hooks. *)
From stdpp Require Import prelude gmap list strings pretty.
From Stdlib Require Import ZArith Lia.
From S2P Require Import Prelude Types Externals BalanceConvert Mq Computation BasePool WrappedBalances.

Module StakePool.
Import StakePoolT.

Section Hooks.
Context {cfg : Config} {F : FixedLib} {codec : Codec} {pal : Pallets}.

Definition emit (e : Event) : R unit := deposit_event (StakePoolEv e).

Definition put_stake_pool (p : Z) (x : Types.StakePool) : R unit := BasePool.put_pool p (StakePoolProxy x).

(** ** Hooks of the computation pallet *)
Definition handle_pool_new_reward (pool_info : Types.StakePool) (rewards : Balance) : R Types.StakePool :=
  let bp := sp_basepool pool_info in
  if rewards =? 0 then mret pool_info
  else if BasePool.balance_close_to_zero rewards then
    emit (RewardDismissedDust (pid bp) rewards);;;
    mret pool_info
  else if BasePool.balance_close_to_zero (total_shares bp) then
    emit (RewardDismissedNoShare (pid bp) rewards);;;
    mret pool_info
  else
    expect_ok (Computation.withdraw_subsidy_pool WrappedBalancesAccountId rewards);;;
    let commission := permill_mul (default 0 (payout_commission pool_info)) rewards in
    let* owner_minted := expect_ok (WrappedBalances.mint_into (owner_reward_account pool_info) commission) in
    (if negb owner_minted then emit (RewardToOwnerDismissedDust (pid bp) commission) else mret tt);;;
    let* to_distribute := arith 128 (rewards - commission) in
    let* to_distribute_minted := expect_ok (WrappedBalances.mint_into (pool_account_id bp) to_distribute) in
    let* (pool_info, distributed) :=
      (if to_distribute_minted && BasePool.is_nondust_balance to_distribute then
         let* bp := BasePool.distribute_reward BasePool.distribute_fuel bp to_distribute in
         mret (set_sp_basepool bp pool_info, true)
       else if to_distribute >? 0 then
         emit (RewardToDistributionDismissedDust (pid bp) to_distribute);;;
         mret (pool_info, false)
       else mret (pool_info, false)) in
    (if distributed || owner_minted then emit (RewardReceived (pid bp) commission to_distribute) else mret tt);;;
    mret pool_info.

Definition on_reward (settle : list SettleInfo) : R unit :=
  for_each settle (fun info =>
    let* reward := from_fixed (si_payout info) in
    let* assigned := gets (fun s => WorkerAssignments (stake_pool s) !! si_pubkey info) in
    match assigned with
    | None => emit (RewardDismissedNotInPool (si_pubkey info) reward)
    | Some p =>
        let* pool_info := expect_ok (BasePool.ensure_stake_pool p) in
        let* pool_info := handle_pool_new_reward pool_info reward in
        put_stake_pool p pool_info
    end).

Definition remove_worker_from_pool (worker : WorkerPublicKey) : R unit :=
  let* o := gets (fun s => WorkerAssignments (stake_pool s) !! worker) in
  upd_stake_pool (fun s => set_WorkerAssignments (delete worker (WorkerAssignments s)) s);;;
  let* p := expect_some o in
  let* value := BasePool.pool_collection p in
  match value with
  | Some (StakePoolProxy pool) =>
      put_stake_pool p (BasePool.remove_worker worker pool);;;
      emit (PoolWorkerRemoved p worker)
  | _ => mret tt
  end.

Definition on_unbound (worker : WorkerPublicKey) (force : bool) : R unit := remove_worker_from_pool worker.

Definition on_stopped (worker : WorkerPublicKey) (orig_stake slashed : Balance) : R unit := mret tt.

Definition stake_pool_hooks : ComputationHooks := {|
  hook_on_reward := on_reward;
  hook_on_unbound := on_unbound;
  hook_on_stopped := on_stopped;
|}.

(** Called when a worker is reclaimed: its stake is free again. *)
Definition handle_reclaim (p : Z) (orig_stake slashed : Balance) : R unit :=
  let* pool_info := expect_ok (BasePool.ensure_stake_pool p) in
  let* returned := arith 128 (orig_stake - slashed) in
  let* bp := (if negb (slashed =? 0) then
                let* bp := BasePool.slash (sp_basepool pool_info) slashed in
                emit (PoolSlashed p slashed);;;
                mret bp
              else mret (sp_basepool pool_info)) in
  expect_ok (extc (asset_transfer (lock_account pool_info) (pool_account_id bp) returned));;;
  let* bp := BasePool.try_process_withdraw_queue bp in
  put_stake_pool p (set_sp_basepool bp pool_info).

End Hooks.

Section Pallet.
Context {cfg : Config} {F : FixedLib} {codec : Codec} {pal : Pallets} {notify : QueueNotifyConfig}.
#[local] Existing Instance stake_pool_hooks.

Definition err {A} (e : Error) : R A := fail (StakePoolError e).
Definition check (b : bool) (e : Error) : R unit := ensure b (StakePoolError e).

(** ** Working *)
Definition do_start_computing (who : AccountId) (p : Z) (worker : WorkerPublicKey) (stake : Balance) : R unit :=
  let* pool_info := BasePool.ensure_stake_pool p in
  let bp := sp_basepool pool_info in
  check (bool_decide (owner bp = who)) UnauthorizedPoolOwner;;;
  let* free := BasePool.get_free_stakes bp in
  check (free >=? stake) InsufficientFreeStake;;;
  check (bool_decide (worker ∈ workers pool_info)) WorkerDoesNotExist;;;
  let session := pool_sub_account p worker in
  Computation.start_computing session stake;;;
  extc (asset_transfer (pool_account_id bp) (lock_account pool_info) stake);;;
  put_stake_pool p pool_info;;;
  emit (WorkingStarted p worker stake).

Definition do_stop_computing (who : AccountId) (p : Z) (worker : WorkerPublicKey) : R unit :=
  let* pool_info := BasePool.ensure_stake_pool p in
  check (bool_decide (owner (sp_basepool pool_info) = who)) UnauthorizedPoolOwner;;;
  check (bool_decide (worker ∈ workers pool_info)) WorkerDoesNotExist;;;
  check (negb (bool_decide (worker ∈ cd_workers pool_info))) WorkerAlreadyStopped;;;
  let session := pool_sub_account p worker in
  Computation.stop_computing session;;;
  put_stake_pool p (set_cd_workers (cd_workers pool_info ++ [worker]) pool_info).

Definition do_reclaim (p : Z) (sub_account : AccountId) (worker : WorkerPublicKey) (check_cooldown : bool) :
    R (Balance * Balance) :=
  let* (orig_stake, slashed) := Computation.reclaim sub_account check_cooldown in
  handle_reclaim p orig_stake slashed;;;
  emit (WorkerReclaimed p worker);;;
  let* pool_info := BasePool.ensure_stake_pool p in
  put_stake_pool p (BasePool.remove_cd_worker worker pool_info);;;
  mret (orig_stake, slashed).

(** ** Calls *)
Definition create (origin : Origin) : R unit :=
  transactional (
    let* who := ensure_signed origin in
    let* p := BasePool.consume_new_pid in
    let* collection_id := BasePool.consume_new_cid in
    extc (create_collection basepool_pallet_id collection_id (bytes_of_string ("STAKEPOOL-" +:+ pretty p)));;;
    let account_id := generate_staker_account p who in
    put_stake_pool p (mkStakePool (mkBasePool p who 0 0 [] [] collection_id account_id) None None [] []
      (lock_account_of p who) (owner_reward_account_of p who));;;
    upd_base_pool (fun b => BasePoolT.set_PoolCollections (<[collection_id := p]> (BasePoolT.PoolCollections b)) b);;;
    emit (PoolCreated who p collection_id account_id)).

Definition add_worker (origin : Origin) (p : Z) (pubkey : WorkerPublicKey) : R unit :=
  let* who := ensure_signed origin in
  let* worker_info := Computation.get_worker pubkey in
  let* worker_info := ok_or worker_info (StakePoolError WorkerNotRegistered) in
  check (bool_decide (operator worker_info = Some who)) UnauthorizedOperator;;;
  check (bool_decide (is_Some (initial_score worker_info))) BenchmarkMissing;;;
  let* pool_info := BasePool.ensure_stake_pool p in
  check (bool_decide (owner (sp_basepool pool_info) = who)) UnauthorizedPoolOwner;;;
  check (negb (bool_decide (pubkey ∈ workers pool_info))) WorkerExists;;;
  check (Z.of_nat (length (workers pool_info)) <? MaxPoolWorkers) WorkersExceedLimit;;;
  let session := pool_sub_account p pubkey in
  or_err (Computation.bind session pubkey) (StakePoolError FailedToBindSessionAndWorker);;;
  upd_stake_pool (fun s => set_SubAccountPreimages (<[session := (p, pubkey)]> (SubAccountPreimages s)) s);;;
  put_stake_pool p (set_workers (workers pool_info ++ [pubkey]) pool_info);;;
  upd_stake_pool (fun s => set_WorkerAssignments (<[pubkey := p]> (WorkerAssignments s)) s);;;
  emit (PoolWorkerAdded p pubkey session).

Definition remove_worker (origin : Origin) (p : Z) (worker : WorkerPublicKey) : R unit :=
  let* who := ensure_signed origin in
  let* pool := BasePool.ensure_stake_pool p in
  check (bool_decide (owner (sp_basepool pool) = who)) UnauthorizedPoolOwner;;;
  let* lookup_pid := gets (fun s => WorkerAssignments (stake_pool s) !! worker) in
  let* lookup_pid := ok_or lookup_pid (StakePoolError WorkerDoesNotExist) in
  check (p =? lookup_pid) WorkerInAnotherPool;;;
  let sub_account := pool_sub_account p worker in
  let* session := Computation.get_session sub_account in
  let* session := ok_or session (StakePoolError SessionDoesNotExist) in
  check (bool_decide (state session = Ready)) WorkerIsNotReady;;;
  Computation.unbind_session sub_account false;;;
  remove_worker_from_pool worker.

Definition set_cap (origin : Origin) (p : Z) (c : Balance) : R unit :=
  let* who := ensure_signed origin in
  let* pool_info := BasePool.ensure_stake_pool p in
  check (bool_decide (owner (sp_basepool pool_info) = who)) UnauthorizedPoolOwner;;;
  check (total_value (sp_basepool pool_info) <=? c) InadequateCapacity;;;
  put_stake_pool p (Types.set_cap (Some c) pool_info);;;
  emit (PoolCapacitySet p c).

Definition set_payout_pref (origin : Origin) (p : Z) (payout : option Z) : R unit :=
  let* who := ensure_signed origin in
  let* pool_info := BasePool.ensure_stake_pool p in
  check (bool_decide (owner (sp_basepool pool_info) = who)) UnauthorizedPoolOwner;;;
  put_stake_pool p (set_payout_commission payout pool_info);;;
  emit (PoolCommissionSet p (default 0 payout)).

Definition claim_legacy_rewards (origin : Origin) (p : Z) (target : AccountId) : R unit :=
  transactional (
    let* who := ensure_signed origin in
    let* rewards := gets (fun s => LegacyRewards (stake_pool s) !! (who, p)) in
    upd_stake_pool (fun s => set_LegacyRewards (delete (who, p) (LegacyRewards s)) s);;;
    let* rewards := ok_or rewards (StakePoolError NoLegacyRewardToClaim) in
    or_err (Computation.withdraw_subsidy_pool target rewards) (StakePoolError InternalSubsidyPoolCannotWithdraw)).

Definition claim_owner_rewards (origin : Origin) (p : Z) (target : AccountId) : R unit :=
  let* who := ensure_signed origin in
  let* pool_info := BasePool.ensure_stake_pool p in
  check (bool_decide (who = owner (sp_basepool pool_info))) UnauthorizedPoolOwner;;;
  let* rewards := BasePool.get_owner_stakes pool_info in
  check (rewards >? 0) NoRewardToClaim;;;
  extc (asset_transfer (owner_reward_account pool_info) target rewards);;;
  emit (OwnerRewardsWithdrawn p who rewards).

Definition check_and_maybe_force_withdraw (origin : Origin) (p : Z) : R unit :=
  transactional (
    ensure_signed origin;;;
    let* now := now_sec in
    let* pool := BasePool.ensure_stake_pool p in
    let* bp := BasePool.try_process_withdraw_queue (sp_basepool pool) in
    let pool := set_sp_basepool bp pool in
    let* releasing_stake := for_fold (cd_workers pool) 0 (fun releasing worker =>
      let* stakes := gets (fun s => ComputationT.Stakes (computation s) !! pool_sub_account p worker) in
      let* stakes := expect_some stakes in
      arith 128 (releasing + stakes)) in
    put_stake_pool p pool;;;
    let* expired := BasePool.has_expired_withdrawal bp now GracePeriod None releasing_stake in
    if expired then
      for_each (workers pool) (fun worker =>
        let* session := Computation.get_session (pool_sub_account p worker) in
        match session with
        | None => mret tt
        | Some session =>
            if negb (Computation.is_computing (state session)) then mret tt
            else if negb (bool_decide (worker ∈ cd_workers pool)) then
              do_stop_computing (owner bp) p worker
            else mret tt
        end)
    else mret tt).

(** Who contributes or withdraws: the caller, or the vault the caller owns *)
Definition acting_as (who : AccountId) (as_vault : option Z) : R (AccountId * option (Z * Vault)) :=
  match as_vault with
  | None => mret (who, None)
  | Some vault_pid =>
      let* vault_info := BasePool.ensure_vault vault_pid in
      let* is_locked := gets (fun s => bool_decide (vault_pid ∈ vault_locks s)) in
      check (negb is_locked) VaultIsLocked;;;
      check (bool_decide (who = owner (vt_basepool vault_info))) UnauthorizedPoolOwner;;;
      mret (pool_account_id (vt_basepool vault_info), Some (vault_pid, vault_info))
  end.

Definition contribute (origin : Origin) (p : Z) (amount : Balance) (as_vault : option Z) : R unit :=
  transactional (
    let* who := ensure_signed origin in
    let* (who, maybe_vault) := acting_as who as_vault in
    let* pool_info := BasePool.ensure_stake_pool p in
    check (amount >=? MinContribution) InsufficientContribution;;;
    let* free := match maybe_vault with
                 | Some (_, vault_info) => BasePool.get_free_stakes (vt_basepool vault_info)
                 | None => gets (fun s => asset_balance who (ext s))
                 end in
    check (free >=? amount) InsufficientBalance;;;
    let* (bp, sh) := BasePool.contribute (sp_basepool pool_info) who amount in
    let* bp := match maybe_vault with
               | None => mret bp
               | Some (vault_pid, vault_info) =>
                   let invest := invest_pools vault_info in
                   BasePool.put_pool vault_pid (VaultProxy (set_invest_pools
                     (if bool_decide (p ∈ invest) then invest else invest ++ [p]) vault_info));;;
                   mret (if bool_decide (vault_pid ∈ value_subscribers bp) then bp
                         else set_value_subscribers (value_subscribers bp ++ [vault_pid]) bp)
               end in
    let* bp := BasePool.try_process_withdraw_queue bp in
    match cap pool_info with
    | Some c => check (total_value bp <=? c) StakeExceedsCapacity
    | None => mret tt
    end;;;
    put_stake_pool p (set_sp_basepool bp pool_info);;;
    BasePool.merge_nft_for_staker (cid bp) who (pid bp);;;
    match as_vault with
    | None => WrappedBalances.maybe_subscribe_to_pool who p (cid bp)
    | Some _ => mret tt
    end;;;
    emit (Contribution p who amount sh as_vault)).

(** The shares of the first request of [who] in the queue *)
Definition in_queue_shares (bp : BasePool) (who : AccountId) : R Balance :=
  match list_find (fun w => user w = who) (withdraw_queue bp) with
  | Some (_, w) =>
      let* nft := expect_ok (BasePool.read_nft (cid bp) (wd_nft_id w)) in
      mret (shares nft)
  | None => mret 0
  end.

Definition withdraw (origin : Origin) (p : Z) (sh : Balance) (as_vault : option Z) : R unit :=
  transactional (
    let* who := ensure_signed origin in
    let* (who, _) := acting_as who as_vault in
    let* pool_info := BasePool.ensure_stake_pool p in
    let bp := sp_basepool pool_info in
    let* maybe_nft_id := BasePool.merge_nft_for_staker (cid bp) who (pid bp) in
    let* nft_id := ok_or maybe_nft_id (StakePoolError NoNftToWithdraw) in
    let* nft := BasePool.get_nft_attr_guard (cid bp) nft_id in
    let* queued := in_queue_shares bp who in
    let* enough := (if BasePool.is_nondust_balance sh then
                      let* total := arith 128 (shares nft + queued) in
                      mret (sh <=? total)
                    else mret false) in
    check enough InvalidWithdrawalAmount;;;
    let* (bp, nft) := BasePool.try_withdraw bp nft who sh nft_id as_vault in
    BasePool.save (cid bp) nft_id nft;;;
    BasePool.merge_nft_for_staker (cid bp) who (pid bp);;;
    put_stake_pool p (set_sp_basepool bp pool_info)).

Definition start_computing (origin : Origin) (p : Z) (worker : WorkerPublicKey) (stake : Balance) : R unit :=
  let* who := ensure_signed origin in
  do_start_computing who p worker stake.

Definition stop_computing (origin : Origin) (p : Z) (worker : WorkerPublicKey) : R unit :=
  let* who := ensure_signed origin in
  do_stop_computing who p worker.

Definition reclaim_pool_worker (origin : Origin) (p : Z) (worker : WorkerPublicKey) : R unit :=
  ensure_signed origin;;;
  BasePool.ensure_stake_pool p;;;
  do_reclaim p (pool_sub_account p worker) worker true;;;
  mret tt.

Definition restart_computing (origin : Origin) (p : Z) (worker : WorkerPublicKey) (stake : Balance) : R unit :=
  transactional (
    let* who := ensure_signed origin in
    let* pool := BasePool.ensure_stake_pool p in
    check (Z.of_nat (length (withdraw_queue (sp_basepool pool))) <=? 0) WithdrawQueueNotEmpty;;;
    do_stop_computing who p worker;;;
    let* (orig_stake, slashed) := do_reclaim p (pool_sub_account p worker) worker false in
    let* released := arith 128 (orig_stake - slashed) in
    check (stake >? released) CannotRestartWithLessStake;;;
    do_start_computing who p worker stake).

End Pallet.
End StakePool.
