(* ===== verification/Vault.v ===== *)
(** * Vaults: pallets/cyrux/src/compute/vault.rs

    A vault is a pool whose owner invests its W-PHA in stake pools.  The owner
    is paid in shares of the vault for the growth of its share price. *)
From stdpp Require Import prelude gmap list strings pretty.
From Stdlib Require Import ZArith Lia.
From S2P Require Import Prelude Types Externals BalanceConvert Mq Computation BasePool WrappedBalances.
From S2P Require Import StakePool.

Module Vault.
Import VaultT.

Section Pallet.
Context {cfg : Config} {F : FixedLib} {codec : Codec} {pal : Pallets} {notify : QueueNotifyConfig}.

Definition emit (e : Event) : R unit := deposit_event (VaultEv e).
Definition check (b : bool) (e : Error) : R unit := ensure b (VaultError e).
Definition put_vault (p : Z) (x : Types.Vault) : R unit := BasePool.put_pool p (VaultProxy x).

(** ** Owner shares *)
Definition do_gain_owner_share (vault_pid : Z) : R unit :=
  let* pool_info := BasePool.ensure_vault vault_pid in
  let bp := vt_basepool pool_info in
  let* price := BasePool.share_price bp in
  match price with
  | None => mret tt
  | Some price =>
      let* current_price := from_fixed price in
      let checkpoint := last_share_price_checkpoint pool_info in
      if checkpoint =? 0 then
        put_vault vault_pid (set_last_share_price_checkpoint current_price pool_info)
      else if current_price <=? checkpoint then mret tt
      else
        let* growth := arith 128 (current_price - checkpoint) in
        let delta_price := permill_mul (default 0 (commission pool_info)) growth in
        let* new_price := arith 128 (current_price - delta_price) in
        let* new_fixed := to_fixed new_price in
        let* sh := bdiv (total_value bp) new_fixed in
        let adjust_shares := default 0 (BasePool.checked_sub sh (total_shares bp)) in
        let* ts := arith 128 (total_shares bp + adjust_shares) in
        let* os := arith 128 (owner_shares pool_info + adjust_shares) in
        put_vault vault_pid (set_last_share_price_checkpoint new_price
          (set_owner_shares os (set_vt_basepool (set_total_shares ts bp) pool_info)));;;
        emit (OwnerSharesGained vault_pid adjust_shares new_price)
  end.

(** ** Calls *)
Definition create (origin : Origin) : R unit :=
  transactional (
    let* who := ensure_signed origin in
    let* p := BasePool.consume_new_pid in
    let* collection_id := BasePool.consume_new_cid in
    extc (create_collection basepool_pallet_id collection_id (bytes_of_string ("VAULT-" +:+ pretty p)));;;
    let account_id := generate_staker_account p who in
    put_vault p (mkVault (mkBasePool p who 0 0 [] [] collection_id account_id)
      InitialPriceCheckPoint None 0 []);;;
    upd_base_pool (fun b => BasePoolT.set_PoolCollections (<[collection_id := p]> (BasePoolT.PoolCollections b)) b);;;
    emit (PoolCreated who p collection_id account_id)).

Definition maybe_gain_owner_shares (origin : Origin) (vault_pid : Z) : R unit :=
  let* who := ensure_signed origin in
  let* pool_info := BasePool.ensure_vault vault_pid in
  check (bool_decide (who = owner (vt_basepool pool_info))) UnauthorizedPoolOwner;;;
  do_gain_owner_share vault_pid.

Definition set_payout_pref (origin : Origin) (p : Z) (payout_commission : option Z) : R unit :=
  let* who := ensure_signed origin in
  let* pool_info := BasePool.ensure_vault p in
  check (bool_decide (owner (vt_basepool pool_info) = who)) UnauthorizedPoolOwner;;;
  check (negb (bool_decide (commission pool_info = payout_commission))) CommissionNotChanged;;;
  maybe_gain_owner_shares origin p;;;
  let* pool_info := expect_ok (BasePool.ensure_vault p) in
  put_vault p (set_commission payout_commission pool_info);;;
  emit (VaultCommissionSet p (default 0 payout_commission)).

Definition claim_owner_shares (origin : Origin) (vault_pid : Z) (target : AccountId) (sh : Balance) : R unit :=
  let* who := ensure_signed origin in
  let* pool_info := BasePool.ensure_vault vault_pid in
  let bp := vt_basepool pool_info in
  check (bool_decide (who = owner bp)) UnauthorizedPoolOwner;;;
  check (owner_shares pool_info >=? sh) NoEnoughShareToClaim;;;
  check (sh >? 0) NoRewardToClaim;;;
  BasePool.mint_nft (cid bp) target sh vault_pid;;;
  BasePool.merge_nft_for_staker (cid bp) target (pid bp);;;
  let* os := arith 128 (owner_shares pool_info - sh) in
  WrappedBalances.maybe_subscribe_to_pool who vault_pid (cid bp);;;
  put_vault vault_pid (set_owner_shares os pool_info);;;
  emit (OwnerSharesClaimed vault_pid who sh).

Definition contribute (origin : Origin) (p : Z) (amount : Balance) : R unit :=
  transactional (
    let* who := ensure_signed origin in
    check (amount >=? MinContribution) InsufficientContribution;;;
    let* free := gets (fun s => asset_maybe_balance who (ext s)) in
    let* free := ok_or free (VaultError AssetAccountNotExist) in
    check (free >=? amount) InsufficientBalance;;;
    do_gain_owner_share p;;;
    let* pool_info := BasePool.ensure_vault p in
    let* (bp, sh) := BasePool.contribute (vt_basepool pool_info) who amount in
    let* bp := BasePool.try_process_withdraw_queue bp in
    put_vault p (set_vt_basepool bp pool_info);;;
    BasePool.merge_nft_for_staker (cid bp) who (pid bp);;;
    WrappedBalances.maybe_subscribe_to_pool who p (cid bp);;;
    emit (Contribution p who amount sh)).

Definition withdraw (origin : Origin) (p : Z) (sh : Balance) : R unit :=
  transactional (
    let* who := ensure_signed origin in
    do_gain_owner_share p;;;
    let* pool_info := BasePool.ensure_vault p in
    let bp := vt_basepool pool_info in
    let* maybe_nft_id := BasePool.merge_nft_for_staker (cid bp) who (pid bp) in
    let* nft_id := ok_or maybe_nft_id (VaultError NoNftToWithdraw) in
    let* nft := BasePool.get_nft_attr_guard (cid bp) nft_id in
    let* queued := StakePool.in_queue_shares bp who in
    let* enough := (if BasePool.is_nondust_balance sh then
                      let* total := arith 128 (shares nft + queued) in
                      mret (sh <=? total)
                    else mret false) in
    check enough NoEnoughShareToClaim;;;
    let* (bp, nft) := BasePool.try_withdraw bp nft who sh nft_id None in
    BasePool.save (cid bp) nft_id nft;;;
    BasePool.merge_nft_for_staker (cid bp) who (pid bp);;;
    put_vault p (set_vt_basepool bp pool_info)).

(** ** Forced withdrawal *)

(** The requests of the vault in the queue of a stake pool *)
Definition requests_of (vault stake_pool : BasePool) : list WithdrawInfo :=
  filter (fun x => user x = pool_account_id vault) (withdraw_queue stake_pool).

Definition releasing_stake (vault : Types.Vault) : R Balance :=
  for_fold (invest_pools vault) 0 (fun releasing p =>
    let* pool := BasePool.ensure_stake_pool p in
    let sp := sp_basepool pool in
    for_fold (requests_of (vt_basepool vault) sp) releasing (fun releasing w =>
      let* nft := BasePool.get_nft_attr_guard (cid sp) (wd_nft_id w) in
      let* price := BasePool.share_price sp in
      let* price := ok_or price (VaultError VaultBankrupt) in
      let* v := bmul (shares nft) price in
      let* releasing := arith 128 (releasing + v) in
      BasePool.release (cid sp) (wd_nft_id w);;;
      mret releasing)).

Definition shutdown_reason (vault : Types.Vault) : R (option ForceShutdownReason) :=
  let bp := vt_basepool vault in
  let* now := now_sec in
  let* overdue := match withdraw_queue bp with
                  | w :: _ =>
                      let* period := arith 64 (3 * GracePeriod) in
                      let* limit := arith 64 (start_time w + period) in
                      mret (limit <? now)
                  | [] => mret false
                  end in
  if overdue then mret (Some Waiting3xGracePeriod)
  else
    let* releasing := releasing_stake vault in
    let* expired := BasePool.has_expired_withdrawal bp now GracePeriod (Some VaultQueuePeriod) releasing in
    mret (if expired then Some NoEnoughReleasingStake else None).

(** Withdraws all that the vault has in the stake pool [p]; [false] if there is
    nothing. *)
Definition withdraw_from_pool (vault_pid : Z) (vault : Types.Vault) (p : Z) : R bool :=
  let vbp := vt_basepool vault in
  let* stake_pool := BasePool.ensure_stake_pool p in
  let sp := sp_basepool stake_pool in
  let* queued := for_fold (requests_of vbp sp) 0 (fun total w =>
    let* nft := expect_ok (BasePool.read_nft (cid sp) (wd_nft_id w)) in
    arith 128 (total + shares nft)) in
  let* maybe_nft := BasePool.merge_nft_for_staker (cid sp) (pool_account_id vbp) (pid sp) in
  let* (should_withdraw, total) :=
    match maybe_nft with
    | None => mret (false, queued)
    | Some nft_id =>
        let* property := expect_ok (BasePool.get_nft_attr_guard (cid sp) nft_id) in
        if negb (BasePool.is_nondust_balance (shares property)) then
          catch (BasePool.burn_nft basepool_pallet_id (cid sp) nft_id);;;
          BasePool.release (cid sp) nft_id;;;
          mret (false, queued)
        else
          let* total := arith 128 (queued + shares property) in
          BasePool.release (cid sp) nft_id;;;
          mret (BasePool.is_nondust_balance total, total)
    end in
  if negb should_withdraw then mret false
  else
    StakePool.withdraw (Signed (owner vbp)) (pid sp) total (Some vault_pid);;;
    mret true.

Definition check_and_maybe_force_withdraw (origin : Origin) (vault_pid : Z) : R unit :=
  transactional (
    ensure_signed origin;;;
    let* vault := BasePool.ensure_vault vault_pid in
    let* bp := BasePool.try_process_withdraw_queue (vt_basepool vault) in
    let vault := set_vt_basepool bp vault in
    (match withdraw_queue bp with
     | [] => modify (fun s => set_vault_locks (vault_locks s ∖ {[vault_pid]}) s)
     | _ => mret tt
     end);;;
    put_vault vault_pid vault;;;
    let* is_locked := gets (fun s => bool_decide (vault_pid ∈ vault_locks s)) in
    if (is_locked : bool) then mret tt
    else
      let* reason := shutdown_reason vault in
      match reason with
      | None => mret tt
      | Some reason =>
          let* to_remove := for_fold (invest_pools vault) [] (fun to_remove p =>
            let* withdrawn := withdraw_from_pool vault_pid vault p in
            mret (if (withdrawn : bool) then to_remove else to_remove ++ [p])) in
          (match to_remove with
           | [] => mret tt
           | _ => put_vault vault_pid
                    (set_invest_pools (filter (fun p => ~ p ∈ to_remove) (invest_pools vault)) vault)
           end);;;
          modify (fun s => set_vault_locks ({[vault_pid]} ∪ vault_locks s) s);;;
          emit (ForceShutdown vault_pid reason)
      end).

End Pallet.
End Vault.
