(* ===== verification/Solvency.v ===== *)
(** * Backing of W-PHA

    Every call of the pallets of compute/ that moves W-PHA or PHA keeps the
    account of wrapped_balances.rs funded for all the W-PHA there is. *)
From stdpp Require Import prelude gmap list strings.
From Stdlib Require Import ZArith Lia.
From S2P Require Import Prelude Types Externals BalanceConvert Reference Mq Computation ComputationInv.
From S2P Require Import BasePool BasePoolFacts PoolShares PoolOps PoolProps WrappedBalances StakePool Vault.

Module Solvency.

Section Frames.
Context {cfg : Config} {F : FixedLib} {codec : Codec} {pal : Pallets} {BS : BackingSpec pal}.

(** The account holds the PHA of all the W-PHA, and its existential deposit. *)
Definition funded (e : Ext) : Prop :=
  wpha_issuance e + existential_deposit <= pha_balance WrappedBalancesAccountId e.

(** [Permill] is at most one. *)
Definition permill_ok (o : option Z) : Prop := 0 <= default 0 o <= 1000000.

Definition commissions_ok (m : gmap Z PoolProxy) : Prop :=
  forall p pool, m !! p = Some (StakePoolProxy pool) -> permill_ok (payout_commission pool).

Definition solvent (s : State) : Prop := funded (ext s) /\ commissions_ok (BasePoolT.Pools (base_pool s)).

Definition seen (s : State) := (ext s, BasePoolT.Pools (base_pool s)).

Definition ffunds (e : Ext) : Z * Z := funds WrappedBalancesAccountId e.

Lemma funded_up e e' :
  wpha_issuance e' <= wpha_issuance e ->
  pha_balance WrappedBalancesAccountId e <= pha_balance WrappedBalancesAccountId e' ->
  funded e -> funded e'.
Proof. unfold funded. lia. Qed.

Lemma funded_same e e' : ffunds e' = ffunds e -> funded e -> funded e'.
Proof. unfold ffunds, funds. intros [= H1 H2]. apply funded_up; lia. Qed.

Lemma solvent_extc {A} (m : X A) : preserves funded m -> preserves solvent (extc m).
Proof.
  intros Hm s [Hf Hc]. apply wp_extc. eapply wp_mono; [exact (Hm _ Hf)| |]; by split.
Qed.

Lemma solvent_seen {A} (m : R A) : keeps seen m -> preserves solvent m.
Proof. apply keeps_preserves. unfold solvent, seen. by intros s s' [= -> ->]. Qed.

Lemma solvent_put_vault p v : preserves solvent (BasePool.put_pool p (VaultProxy v)).
Proof.
  intros s [Hf Hc]. split; [done|]. intros q pool. simpl.
  destruct (decide (q = p)) as [->|Hq]; [by rewrite lookup_insert_eq|].
  rewrite lookup_insert_ne by done. apply Hc.
Qed.

Lemma solvent_put_stake_pool p pool :
  permill_ok (payout_commission pool) -> preserves solvent (StakePool.put_stake_pool p pool).
Proof.
  intros Hp s [Hf Hc]. split; [done|]. intros q pool'. simpl.
  destruct (decide (q = p)) as [->|Hq]; [rewrite lookup_insert_eq; by intros [= <-]|].
  rewrite lookup_insert_ne by done. apply Hc.
Qed.

(** Code that reads a stake pool and goes on with it *)
Lemma bind_stake_pool {A} p (k : StakePool -> R A) :
  (forall pool, permill_ok (payout_commission pool) -> preserves solvent (k pool)) ->
  preserves solvent (mbind (BasePool.ensure_stake_pool p) k).
Proof.
  intros Hk s Hs. unfold BasePool.ensure_stake_pool, BasePool.pool_collection, BasePool.err.
  wp_steps; try done. apply Hk; [|done]. by apply (proj2 Hs p).
Qed.

Lemma bind_expect_stake_pool {A} p (k : StakePool -> R A) :
  (forall pool, permill_ok (payout_commission pool) -> preserves solvent (k pool)) ->
  preserves solvent (mbind (expect_ok (BasePool.ensure_stake_pool p)) k).
Proof.
  intros Hk s Hs. unfold BasePool.ensure_stake_pool, BasePool.pool_collection, BasePool.err.
  wp_steps; try done. apply Hk; [|done]. by apply (proj2 Hs p).
Qed.

Lemma funded_keeps {A} (m : X A) : keeps ffunds m -> preserves funded m.
Proof. apply keeps_preserves. intros e e'. apply funded_same. Qed.

Lemma asset_transfer_funded a b x : preserves funded (asset_transfer a b x).
Proof.
  intros e He. eapply wp_mono; [apply (asset_transfer_funds WrappedBalancesAccountId)| |].
  - intros ? e' [H1 H2]. revert He. apply funded_up; lia.
  - intros ? e' H. by apply (funded_same e).
Qed.

Lemma asset_burn_funded a x : 0 <= x -> (forall e, 0 <= asset_balance a e) -> preserves funded (asset_burn_from a x).
Proof.
  intros Hx Hb e He. eapply wp_mono; [apply (asset_burn_funds WrappedBalancesAccountId)| |].
  - intros y e' [H1 H2]. specialize (Hb e). revert He. apply funded_up; lia.
  - intros ? e' H. by apply (funded_same e).
Qed.

(** PHA paid by another account *)
Lemma currency_transfer_funded a b x k :
  WrappedBalancesAccountId <> a -> preserves funded (currency_transfer a b x k).
Proof.
  intros Ha e He. eapply wp_mono; [apply currency_transfer_funds| |].
  - intros ? e' (H1 & _ & _ & H2). specialize (H2 _ Ha). revert He. apply funded_up; lia.
  - by intros ? e' ->.
Qed.

Lemma on_treasury_settled_funded x : preserves funded (on_treasury_settled x).
Proof.
  intros e He. eapply wp_mono; [apply (on_treasury_settled_funds WrappedBalancesAccountId)| |].
  - intros ? e' [H1 H2]. revert He. apply funded_up; lia.
  - intros ? e' H. by apply (funded_same e).
Qed.

Lemma on_slashed_funded x : preserves funded (on_slashed x).
Proof.
  intros e He. eapply wp_mono; [apply (on_slashed_funds WrappedBalancesAccountId)| |].
  - intros ? e' [H1 H2]. revert He. apply funded_up; lia.
  - intros ? e' H. by apply (funded_same e).
Qed.

End Frames.

#[export] Hint Resolve asset_transfer_funded on_treasury_settled_funded on_slashed_funded : preserves.
#[export] Hint Extern 1 (preserves funded (rmrk_mint_nft _ _ _ _)) =>
  apply funded_keeps, rmrk_mint_funds : preserves.
#[export] Hint Extern 1 (preserves funded (nft_burn _ _ _)) => apply funded_keeps, nft_burn_funds : preserves.
#[export] Hint Extern 1 (preserves funded (set_lock _ _ _)) => apply funded_keeps, set_lock_funds : preserves.
#[export] Hint Extern 1 (preserves funded (lock_remove _ _)) => apply funded_keeps, lock_remove_funds : preserves.
#[export] Hint Extern 1 (preserves funded (do_set_property _ _ _ _)) =>
  apply funded_keeps, set_property_funds : preserves.
#[export] Hint Extern 1 (preserves funded (do_remove_property _ _ _)) =>
  apply funded_keeps, remove_property_funds : preserves.
#[export] Hint Extern 1 (preserves funded (democracy_vote _ _ _ _)) =>
  apply funded_keeps, democracy_vote_funds : preserves.
#[export] Hint Extern 2 (preserves solvent (extc _)) => apply solvent_extc : preserves.
#[export] Hint Extern 3 (preserves solvent _) => apply solvent_seen; solve [eauto with keeps] : preserves.
#[export] Hint Resolve solvent_put_vault : preserves.

(** [solve_preserves], with the commission of a stake pool that is read *)
Ltac solve_solvent :=
  repeat (lazymatch goal with
          | |- preserves _ (mbind (BasePool.ensure_stake_pool _) _) => apply bind_stake_pool; intros ? ?
          | |- preserves _ (mbind (expect_ok (BasePool.ensure_stake_pool _)) _) =>
              apply bind_expect_stake_pool; intros ? ?
          | _ => preserves_step
          end).

#[export] Hint Extern 1 (preserves _ (BasePool.emit _)) => apply preserves_modify; by intros : preserves.
#[export] Hint Extern 1 (preserves _ (WrappedBalances.emit _)) => apply preserves_modify; by intros : preserves.
#[export] Hint Extern 1 (preserves _ (StakePool.emit _)) => apply preserves_modify; by intros : preserves.
#[export] Hint Extern 1 (preserves _ (Vault.emit _)) => apply preserves_modify; by intros : preserves.
#[export] Hint Extern 1 (preserves _ (Computation.emit _)) => apply preserves_modify; by intros : preserves.
#[export] Hint Extern 1 (preserves _ (BasePool.release _ _)) => apply preserves_modify; by intros : preserves.

Import (hints) BasePoolFacts.
Import (hints) ComputationInv.

(** ** The base pool *)
Section Pools.
Context {cfg : Config} {F : FixedLib} {codec : Codec} {pal : Pallets} {BS : BackingSpec pal}.
Import BasePool.

Lemma guard_solvent c n : preserves solvent (get_nft_attr_guard c n).
Proof. unfold get_nft_attr_guard, get_nft_attr. solve_preserves. Qed.
#[local] Hint Resolve guard_solvent : preserves.

Lemma read_nft_solvent c n : preserves solvent (read_nft c n).
Proof. unfold read_nft. solve_preserves. Qed.
#[local] Hint Resolve read_nft_solvent : preserves.

Lemma set_nft_attr_solvent c n a : preserves solvent (set_nft_attr c n a).
Proof. unfold set_nft_attr. solve_preserves. Qed.
#[local] Hint Resolve set_nft_attr_solvent : preserves.

Lemma save_solvent c n a : preserves solvent (save c n a).
Proof. unfold save. solve_preserves. Qed.

Lemma mint_nft_solvent c a x p : preserves solvent (mint_nft c a x p).
Proof. unfold mint_nft, set_nft_desc_attr, get_next_nft_id. solve_preserves. Qed.
#[local] Hint Resolve mint_nft_solvent : preserves.

Lemma burn_nft_solvent o c n : preserves solvent (burn_nft o c n).
Proof. unfold burn_nft, remove_properties. solve_preserves. Qed.
#[local] Hint Resolve burn_nft_solvent save_solvent : preserves.

Lemma merge_solvent c a p : preserves solvent (merge_nft_for_staker c a p).
Proof. unfold merge_nft_for_staker. solve_preserves. Qed.
#[local] Hint Resolve merge_solvent : preserves.

Lemma contribute_solvent p a x : preserves solvent (contribute p a x).
Proof. unfold contribute, add_stake_to_new_nft. solve_preserves. Qed.

Lemma push_withdraw_solvent p nft a x : preserves solvent (push_withdraw_in_queue p nft a x).
Proof. unfold push_withdraw_in_queue. solve_preserves. Qed.
#[local] Hint Resolve push_withdraw_solvent : preserves.

Lemma expired_scan_solvent p price now g v q b : preserves solvent (expired_scan p price now g v q b).
Proof. revert b. induction q; intros b; simpl; solve_preserves. Qed.
#[local] Hint Resolve expired_scan_solvent : preserves.

Lemma has_expired_solvent p now g v r : preserves solvent (has_expired_withdrawal p now g v r).
Proof. unfold has_expired_withdrawal. solve_preserves. Qed.

Lemma remove_stake_solvent p x nft u : preserves solvent (remove_stake_from_nft p x nft u).
Proof. unfold remove_stake_from_nft. solve_preserves. Qed.
#[local] Hint Resolve remove_stake_solvent : preserves.

Lemma process_front_solvent price p w wd : preserves solvent (process_front price p w wd).
Proof. unfold process_front. solve_preserves. Qed.
#[local] Hint Resolve process_front_solvent : preserves.

Lemma process_turn_solvent price m r : preserves solvent (process_turn price m r).
Proof. unfold process_turn. solve_preserves. Qed.
#[local] Hint Resolve process_turn_solvent : preserves.

Lemma try_process_solvent p : preserves solvent (try_process_withdraw_queue p).
Proof. unfold try_process_withdraw_queue. solve_preserves. Qed.
#[local] Hint Resolve try_process_solvent : preserves.

Lemma try_withdraw_solvent p nft a x n v : preserves solvent (try_withdraw p nft a x n v).
Proof. unfold try_withdraw. solve_preserves. Qed.

Lemma distribute_solvent fuel p x : preserves solvent (distribute_reward fuel p x).
Proof. revert p x. induction fuel; intros; simpl; solve_preserves. Qed.

End Pools.
#[export] Hint Resolve guard_solvent read_nft_solvent set_nft_attr_solvent save_solvent mint_nft_solvent
  burn_nft_solvent merge_solvent contribute_solvent has_expired_solvent try_process_solvent
  try_withdraw_solvent distribute_solvent : preserves.
#[export] Hint Extern 1 (preserves solvent (StakePool.put_stake_pool _ _)) =>
  apply solvent_put_stake_pool; assumption : preserves.

(** ** The stake pools *)
Section Calls.
Context {cfg : Config} {F : FixedLib} {codec : Codec} {pal : Pallets} {BS : BackingSpec pal}
  {notify : QueueNotifyConfig} {qs : QuietTopic notify SystemEvent_topic}.
#[local] Existing Instance StakePool.stake_pool_hooks.

Lemma keeps_push_seen e : keeps seen (Computation.push_system_event e).
Proof. by apply ComputationInv.keeps_push_system. Qed.
#[local] Hint Resolve keeps_push_seen : keeps.

Lemma start_computing_solvent a x : preserves solvent (Computation.start_computing a x).
Proof.
  unfold Computation.start_computing, Computation.get_session, Computation.get_worker, Computation.tokenomic,
    Computation.minimal_stake, Computation.tokenomic_ve, Computation.rig_cost. solve_preserves.
Qed.

Lemma stop_computing_solvent a : preserves solvent (Computation.stop_computing a).
Proof. unfold Computation.stop_computing, Computation.get_session, Computation.put_session. solve_preserves. Qed.

Lemma reclaim_solvent a b : preserves solvent (Computation.reclaim a b).
Proof.
  unfold Computation.reclaim, Computation.get_session, Computation.put_session, Computation.can_reclaim.
  solve_preserves.
Qed.

Lemma bind_solvent a k : preserves solvent (Computation.bind a k).
Proof.
  unfold Computation.bind, Computation.get_session, Computation.put_session, Computation.get_worker,
    Computation.is_worker_registered_after_gk_launched, Computation.ensure_session_bound,
    Computation.ensure_worker_bound. solve_preserves.
Qed.

#[local] Hint Resolve start_computing_solvent stop_computing_solvent reclaim_solvent bind_solvent : preserves.

(** *** Rewards

    [margin m]: besides the W-PHA there is, [m] more is funded. *)
Definition margin (m : Z) (s : State) : Prop :=
  wpha_issuance (ext s) + existential_deposit + m <= pha_balance WrappedBalancesAccountId (ext s) /\
  commissions_ok (BasePoolT.Pools (base_pool s)).

Lemma margin_solvent m s : 0 <= m -> margin m s -> solvent s.
Proof. intros Hm [H1 H2]. split; [unfold funded; lia|done]. Qed.

Lemma solvent_margin s : solvent s -> margin 0 s.
Proof. intros [H1 H2]. split; [unfold funded in H1; lia|done]. Qed.

Lemma mint_into_margin a x m s :
  0 <= x -> margin (m + x) s ->
  wp True (WrappedBalances.mint_into a x) (fun _ => margin m) (fun _ => margin m) s.
Proof.
  intros Hx [H1 H2]. unfold WrappedBalances.mint_into. apply wp_bind, wp_catch, wp_extc.
  eapply wp_mono; [apply (asset_mint_funds WrappedBalancesAccountId)| |].
  - intros [] e [H3 H4]. apply wp_ret. split; simpl; [lia|done].
  - intros er e [= H3 H4].
    assert (margin m (set_ext e s)) by (split; simpl; [lia|done]).
    destruct er; wp_steps; try done. apply wp_arith_any; [lia|done|]. intros r _. wp_steps. done.
Qed.

Lemma currency_transfer_margin a b x k e :
  a <> WrappedBalancesAccountId -> funded e -> b = WrappedBalancesAccountId ->
  wp True (currency_transfer a b x k)
    (fun _ e' => wpha_issuance e' + existential_deposit + x <= pha_balance b e') (fun _ e' => e' = e) e.
Proof.
  intros Ha He Hb. eapply wp_mono; [apply currency_transfer_funds| |done]. unfold funded in He.
  intros [] e' (H1 & H2 & _). rewrite <- Hb in *. specialize (H2 Ha). lia.
Qed.

Context {FS : FixedSpec F} {PS : PermillSpec pal}.
Hypothesis computing_apart : computing_account_id <> WrappedBalancesAccountId.

Lemma withdraw_subsidy_solvent a x : preserves solvent (Computation.withdraw_subsidy_pool a x).
Proof. by apply solvent_extc, currency_transfer_funded. Qed.

(** The reward is paid to the account before as much W-PHA is minted. *)
Lemma new_reward_solvent pool x s :
  permill_ok (payout_commission pool) -> 0 <= x < 2 ^ 128 -> solvent s ->
  wp True (StakePool.handle_pool_new_reward pool x)
    (fun pool' s' => solvent s' /\ permill_ok (payout_commission pool')) (fun _ s' => solvent s') s.
Proof.
  intros Hp Hx Hs. unfold StakePool.handle_pool_new_reward, Computation.withdraw_subsidy_pool, StakePool.emit.
  pose proof (permill_mul_bound (default 0 (payout_commission pool)) x Hp (proj1 Hx)) as Hc.
  set (c := permill_mul _ _) in *. destruct (x =? 0); [by wp_steps|].
  do 2 (destruct (BasePool.balance_close_to_zero _); [by wp_steps|]).
  apply wp_bind, wp_expect_ok, wp_extc.
  eapply wp_mono; [apply currency_transfer_margin; [done|apply Hs|done]| |done].
  intros [] e He. apply wp_bind, wp_expect_ok.
  eapply wp_mono; [apply (mint_into_margin _ c (x - c)); [lia|split; [simpl; lia|apply Hs]]| |done].
  intros minted s1 H1. apply wp_bind.
  apply wp_mono with (Q := fun _ => margin (x - c)) (R := fun _ _ => False); [by destruct minted| |done].
  intros [] s2 H2. apply wp_bind, wp_arith; [intros _|done|lia].
  apply wp_bind, wp_expect_ok.
  eapply wp_mono; [apply (mint_into_margin _ (x - c) 0); [lia|done]| |done].
  intros dm s3 H3%margin_solvent; [|done]. apply wp_bind.
  apply wp_mono with (Q := fun r s' => solvent s' /\ permill_ok (payout_commission r.1))
    (R := fun _ s' => solvent s').
  - repeat case_match; wp_lines; try done. eapply wp_mono; [by apply distribute_solvent| |by intros].
    intros bp s4 H4. wp_steps. done.
  - intros [pool' d] s4 [H4 H5]. simpl in H5. wp_steps; done.
  - by intros.
Qed.

Lemma on_reward_solvent l : preserves solvent (StakePool.on_reward l).
Proof.
  intros s Hs. apply (wp_for_each True solvent); [done| |done].
  clear s Hs. intros info s _ Hs. unfold StakePool.on_reward, from_fixed.
  wp_lines; try done. set (x := u80f48_to_u128 _). wp_lines.
  assert (0 <= x < 2 ^ 80) as Hx by apply u80f48_to_u128_range.
  destruct (_ !! _); [|by apply wp_modify]. revert s Hs. apply bind_expect_stake_pool.
  intros pool Hp s Hs. apply wp_bind.
  eapply wp_mono; [apply (new_reward_solvent pool x s Hp); [lia|done]| |by intros].
  intros pool' s' [H1 H2]. by apply solvent_put_stake_pool.
Qed.

Lemma remove_worker_from_pool_solvent k : preserves solvent (StakePool.remove_worker_from_pool k).
Proof.
  intros s Hs. unfold StakePool.remove_worker_from_pool, BasePool.pool_collection, upd_stake_pool, StakePool.emit.
  wp_lines; try done. destruct (_ !! a) as [[pool|]|] eqn:Hl; [|by wp_lines|by wp_lines].
  apply wp_bind. eapply wp_mono; [apply solvent_put_stake_pool; [exact (proj2 Hs _ _ Hl)|done]| |by intros].
  by intros [] s' Hs'.
Qed.
#[local] Hint Resolve remove_worker_from_pool_solvent withdraw_subsidy_solvent : preserves.

Lemma unbind_session_solvent a b : preserves solvent (Computation.unbind_session a b).
Proof.
  unfold Computation.unbind_session, Computation.get_session, Computation.ensure_session_bound.
  simpl. unfold StakePool.on_unbound. solve_preserves.
Qed.

Lemma handle_reclaim_solvent p x y : preserves solvent (StakePool.handle_reclaim p x y).
Proof. unfold StakePool.handle_reclaim, BasePool.slash. solve_solvent. Qed.
#[local] Hint Resolve unbind_session_solvent handle_reclaim_solvent : preserves.

Lemma do_start_solvent a p k x : preserves solvent (StakePool.do_start_computing a p k x).
Proof. unfold StakePool.do_start_computing, StakePool.check. solve_solvent. Qed.

Lemma do_stop_solvent a p k : preserves solvent (StakePool.do_stop_computing a p k).
Proof. unfold StakePool.do_stop_computing, StakePool.check. solve_solvent. Qed.

Lemma do_reclaim_solvent p a k b : preserves solvent (StakePool.do_reclaim p a k b).
Proof.
  unfold StakePool.do_reclaim.
  solve_solvent.
Qed.
#[local] Hint Resolve do_start_solvent do_stop_solvent do_reclaim_solvent : preserves.

Lemma subscribe_solvent a p c : preserves solvent (WrappedBalances.maybe_subscribe_to_pool a p c).
Proof. unfold WrappedBalances.maybe_subscribe_to_pool, WrappedBalances.put_account. solve_preserves. Qed.
#[local] Hint Resolve subscribe_solvent : preserves.

Lemma get_net_value_solvent a : preserves solvent (WrappedBalances.get_net_value a).
Proof. unfold WrappedBalances.get_net_value. solve_preserves. Qed.

Lemma update_user_locked_solvent a : preserves solvent (WrappedBalances.update_user_locked a).
Proof. unfold WrappedBalances.update_user_locked, WrappedBalances.lock_step, WrappedBalances.put_account. solve_preserves. Qed.
#[local] Hint Resolve get_net_value_solvent update_user_locked_solvent : preserves.

Lemma in_queue_solvent bp a : preserves solvent (StakePool.in_queue_shares bp a).
Proof. unfold StakePool.in_queue_shares. solve_preserves. Qed.

Lemma acting_as_solvent a v : preserves solvent (StakePool.acting_as a v).
Proof. unfold StakePool.acting_as, StakePool.check. solve_preserves. Qed.
#[local] Hint Resolve in_queue_solvent acting_as_solvent : preserves.

Lemma sp_contribute_solvent o p x v : preserves solvent (StakePool.contribute o p x v).
Proof. unfold StakePool.contribute, StakePool.check. solve_solvent. Qed.

Lemma sp_withdraw_solvent o p x v : preserves solvent (StakePool.withdraw o p x v).
Proof. unfold StakePool.withdraw, StakePool.check. solve_solvent. Qed.

Lemma gain_owner_share_solvent p : preserves solvent (Vault.do_gain_owner_share p).
Proof. unfold Vault.do_gain_owner_share. solve_solvent. Qed.
#[local] Hint Resolve sp_contribute_solvent sp_withdraw_solvent gain_owner_share_solvent : preserves.

(** *** Wrapping and unwrapping *)
Lemma wrap_solvent who x :
  who <> WrappedBalancesAccountId -> 0 <= x -> preserves solvent (WrappedBalances.wrap (Signed who) x).
Proof.
  intros Hw Hx s Hs. unfold WrappedBalances.wrap, WrappedBalances.put_account, WrappedBalances.emit.
  apply wp_transactional, wp_bind. apply wp_ret. apply wp_bind, wp_extc.
  eapply wp_mono; [apply currency_transfer_margin; [done|apply Hs|done]| |done].
  intros [] e He. apply wp_bind.
  eapply wp_mono; [apply (mint_into_margin _ x 0); [done|split; [simpl; lia|apply Hs]]| |done].
  intros b s' Hs'%margin_solvent; [|done]. wp_steps; done.
Qed.

Context {AS : AssetSpec pal}.

(** PHA paid out against W-PHA that is then burnt *)
Lemma pay_and_burn_solvent who x s :
  0 <= x <= asset_balance who (ext s) -> solvent s ->
  wp True (extc (currency_transfer WrappedBalancesAccountId who x false))
    (fun _ => wp True (WrappedBalances.burn_from who x) (fun _ s' => solvent s') (fun _ _ => True))
    (fun _ _ => True) s.
Proof.
  intros Hx [Hf Hc]. pose proof (balance_le_issuance who (ext s)). unfold funded in Hf.
  apply wp_extc.
  eapply wp_mono; [apply wp_and; [apply currency_transfer_funds|apply (currency_transfer_assets _ _ _ _ who)]| |done].
  intros [] e [(H1 & _ & H2 & _) H3]. unfold WrappedBalances.burn_from. apply wp_bind, wp_extc.
  eapply wp_mono; [apply (asset_burn_funds WrappedBalancesAccountId)| |done].
  intros y e' [H4 H5]. apply wp_ret. split; [|done]. simpl in *. unfold funded. lia.
Qed.

Lemma get_net_value_keeps_ext a : keeps ext (WrappedBalances.get_net_value a).
Proof.
  unfold WrappedBalances.get_net_value, BasePool.get_nft_attr_guard, BasePool.get_nft_attr, BasePool.release,
    upd_base_pool. solve_keeps.
Qed.

Lemma unwrap_solvent o x : 0 <= x -> preserves solvent (WrappedBalances.unwrap o x).
Proof.
  intros Hx s Hs. unfold WrappedBalances.unwrap, ensure_signed, WrappedBalances.emit, deposit_event.
  apply wp_transactional, wp_bind. destruct o as [|who|]; [done| |done]. wp_lines; [|done].
  apply Z.leb_le in H.
  eapply wp_mono; [apply wp_and; [by apply get_net_value_solvent|apply get_net_value_keeps_ext]| |done].
  intros net s1 [H1 E1]. apply wp_bind, wp_gets, wp_bind, wp_arith_any; [lia|done|]. intros total _.
  apply wp_bind, wp_ensure; [intros _|done]. apply wp_bind.
  eapply wp_mono; [apply pay_and_burn_solvent; [rewrite E1; lia|done]| |done].
  intros [] s2 H2. apply wp_bind. eapply wp_mono; [exact H2| |done]. by intros [] s3 H3.
Qed.

Lemma unwrap_all_solvent o : preserves solvent (WrappedBalances.unwrap_all o).
Proof.
  intros s Hs. unfold WrappedBalances.unwrap_all, ensure_signed.
  apply wp_transactional, wp_bind. destruct o as [|who|]; [done| |done]. apply wp_ret, wp_bind.
  eapply wp_mono; [by apply get_net_value_solvent| |done].
  intros net s1 H1. apply wp_bind, wp_gets, wp_bind, wp_gets, wp_bind, wp_arith_any; [lia|done|].
  intros rest Hr. apply wp_bind. pose proof (asset_balance_range who (ext s1)).
  eapply wp_mono; [apply pay_and_burn_solvent; [lia|done]| |done].
  intros [] s2 H2. eapply wp_mono; [exact H2|done|done].
Qed.

Lemma vote_solvent o x y i : preserves solvent (WrappedBalances.vote o x y i).
Proof.
  unfold WrappedBalances.vote, WrappedBalances.is_ongoing, WrappedBalances.accumulate_account_vote,
    WrappedBalances.tally_step. solve_preserves.
Qed.

Lemma unlock_solvent o i n : preserves solvent (WrappedBalances.unlock o i n).
Proof.
  unfold WrappedBalances.unlock, WrappedBalances.is_ongoing, WrappedBalances.unlock_user. solve_preserves.
Qed.

(** *** The remaining calls *)
Lemma sp_create_solvent o :
  WrappedBalancesAccountId <> basepool_pallet_id -> preserves solvent (StakePool.create o).
Proof.
  intros Hb. unfold StakePool.create, BasePool.consume_new_pid, BasePool.consume_new_cid.
  pose proof (fun c y => solvent_extc _ (funded_keeps _ (create_collection_funds _ _ c y Hb))).
  solve_solvent. by apply solvent_put_stake_pool.
Qed.

Lemma v_create_solvent o :
  WrappedBalancesAccountId <> basepool_pallet_id -> preserves solvent (Vault.create o).
Proof.
  intros Hb. unfold Vault.create, BasePool.consume_new_pid, BasePool.consume_new_cid, Vault.put_vault.
  pose proof (fun c y => solvent_extc _ (funded_keeps _ (create_collection_funds _ _ c y Hb))).
  solve_solvent.
Qed.

Lemma add_worker_solvent o p k : preserves solvent (StakePool.add_worker o p k).
Proof. unfold StakePool.add_worker, StakePool.check, Computation.get_worker. solve_solvent. Qed.

Lemma remove_worker_solvent o p k : preserves solvent (StakePool.remove_worker o p k).
Proof. unfold StakePool.remove_worker, StakePool.check, Computation.get_session. solve_solvent. Qed.

Lemma sp_set_cap_solvent o p x : preserves solvent (StakePool.set_cap o p x).
Proof. unfold StakePool.set_cap, StakePool.check. solve_solvent. Qed.

Lemma sp_set_payout_solvent o p c : permill_ok c -> preserves solvent (StakePool.set_payout_pref o p c).
Proof. intros Hc. unfold StakePool.set_payout_pref, StakePool.check. solve_solvent. Qed.

Lemma claim_legacy_solvent o p a : preserves solvent (StakePool.claim_legacy_rewards o p a).
Proof. unfold StakePool.claim_legacy_rewards. solve_solvent. Qed.

Lemma claim_owner_rewards_solvent o p a : preserves solvent (StakePool.claim_owner_rewards o p a).
Proof. unfold StakePool.claim_owner_rewards, StakePool.check, BasePool.get_owner_stakes. solve_solvent. Qed.

Lemma sp_force_solvent o p : preserves solvent (StakePool.check_and_maybe_force_withdraw o p).
Proof. unfold StakePool.check_and_maybe_force_withdraw, Computation.get_session. solve_solvent. Qed.

Lemma restart_solvent o p k x : preserves solvent (StakePool.restart_computing o p k x).
Proof. unfold StakePool.restart_computing, StakePool.check. solve_solvent. Qed.

Lemma v_set_payout_solvent o p c : preserves solvent (Vault.set_payout_pref o p c).
Proof. unfold Vault.set_payout_pref, Vault.maybe_gain_owner_shares, Vault.check, Vault.put_vault. solve_solvent. Qed.

Lemma claim_owner_shares_solvent o p a x : preserves solvent (Vault.claim_owner_shares o p a x).
Proof. unfold Vault.claim_owner_shares, Vault.check, Vault.put_vault. solve_solvent. Qed.

Lemma v_contribute_solvent o p x : preserves solvent (Vault.contribute o p x).
Proof. unfold Vault.contribute, Vault.check, Vault.put_vault. solve_solvent. Qed.

Lemma v_withdraw_solvent o p x : preserves solvent (Vault.withdraw o p x).
Proof. unfold Vault.withdraw, Vault.check, Vault.put_vault. solve_solvent. Qed.

Lemma v_force_solvent o p : preserves solvent (Vault.check_and_maybe_force_withdraw o p).
Proof.
  unfold Vault.check_and_maybe_force_withdraw, Vault.shutdown_reason, Vault.releasing_stake,
    Vault.withdraw_from_pool, Vault.put_vault. solve_solvent.
Qed.

(** *** The computation pallet *)
Context {qg : QuietTopic notify GatekeeperEvent_topic}.

Lemma keeps_push_gk_seen e : keeps seen (Computation.push_gatekeeper_event e).
Proof. by apply ComputationInv.keeps_push_gatekeeper. Qed.
#[local] Hint Resolve keeps_push_gk_seen on_reward_solvent : keeps preserves.

Lemma settle_solvent info now ts : preserves solvent (Computation.try_handle_settle info now ts).
Proof.
  unfold Computation.try_handle_settle, Computation.get_session, Computation.put_session,
    Computation.stats_on_reward, Computation.withdraw_imbalance_from_subsidy_pool.
  pose proof (fun x => solvent_extc _ (funded_keeps _ (currency_withdraw_funds _ _ x (not_eq_sym computing_apart)))).
  solve_preserves.
Qed.
#[local] Hint Resolve settle_solvent : preserves.

Lemma gk_message_solvent m : preserves solvent (Computation.on_gk_message_received m).
Proof.
  unfold Computation.on_gk_message_received, Computation.set_responsive, Computation.get_session,
    Computation.put_session. simpl. solve_preserves.
Qed.

#[local] Hint Resolve gk_message_solvent : preserves.

Lemma run_op_solvent o : preserves solvent (ComputationInv.run_op o).
Proof.
  destruct o; unfold ComputationInv.run_op, Computation.on_working_message_received, Computation.on_heartbeat,
    Computation.on_finalize, Computation.heartbeat_challenge, Computation.unbind, Computation.force_heartbeat,
    Computation.force_start_computing, Computation.force_stop_computing, Computation.update_tokenomic,
    Computation.set_heartbeat_paused, Computation.set_budget_per_block, Computation.update_contract_root,
    Computation.ensure_council, Computation.ensure_set_budget_origin, Computation.update_tokenomic_parameters,
    Computation.tokenomic, Computation.ensure_session_bound, Computation.ensure_worker_bound,
    Computation.get_session, Computation.get_worker, Computation.put_session, Computation.set_cool_down_expiration;
    solve_preserves.
Qed.

Lemma pool_call_solvent c : preserves solvent (PoolProps.run_call c).
Proof.
  destruct c; unfold PoolProps.run_call, BasePool.add_staker_to_whitelist, BasePool.remove_staker_from_whitelist,
    BasePool.set_pool_description, BasePool.claim_reimbursement, BasePool.set_reimbursements,
    BasePool.ensure_pool_owner, BasePool.set_whitelist, BasePool.ensure_migration_root; solve_preserves.
Qed.

(** ** The calls of the runtime that move W-PHA or PHA of these pallets *)
Inductive call :=
| WrapCall (o : Origin) (x : Balance)
| UnwrapCall (o : Origin) (x : Balance)
| UnwrapAllCall (o : Origin)
| VoteCall (o : Origin) (aye nay : Balance) (vote_id : Z)
| UnlockCall (o : Origin) (vote_id n : Z)
| PoolCall (c : PoolProps.call)
| SpCreate (o : Origin)
| SpAddWorker (o : Origin) (p : Z) (k : WorkerPublicKey)
| SpRemoveWorker (o : Origin) (p : Z) (k : WorkerPublicKey)
| SpSetCap (o : Origin) (p : Z) (c : Balance)
| SpSetPayout (o : Origin) (p : Z) (c : option Z)
| SpClaimLegacy (o : Origin) (p : Z) (target : AccountId)
| SpClaimOwner (o : Origin) (p : Z) (target : AccountId)
| SpForceWithdraw (o : Origin) (p : Z)
| SpContribute (o : Origin) (p : Z) (x : Balance) (v : option Z)
| SpWithdraw (o : Origin) (p : Z) (x : Balance) (v : option Z)
| SpStart (o : Origin) (p : Z) (k : WorkerPublicKey) (x : Balance)
| SpStop (o : Origin) (p : Z) (k : WorkerPublicKey)
| SpReclaim (o : Origin) (p : Z) (k : WorkerPublicKey)
| SpRestart (o : Origin) (p : Z) (k : WorkerPublicKey) (x : Balance)
| VtCreate (o : Origin)
| VtSetPayout (o : Origin) (p : Z) (c : option Z)
| VtClaimShares (o : Origin) (p : Z) (target : AccountId) (x : Balance)
| VtGainShares (o : Origin) (p : Z)
| VtForceWithdraw (o : Origin) (p : Z)
| VtContribute (o : Origin) (p : Z) (x : Balance)
| VtWithdraw (o : Origin) (p : Z) (x : Balance)
| ComputationOp (o : ComputationInv.op).

Definition run_call (c : call) : R unit :=
  match c with
  | WrapCall o x => WrappedBalances.wrap o x
  | UnwrapCall o x => WrappedBalances.unwrap o x
  | UnwrapAllCall o => WrappedBalances.unwrap_all o
  | VoteCall o x y i => WrappedBalances.vote o x y i
  | UnlockCall o i n => WrappedBalances.unlock o i n
  | PoolCall c => PoolProps.run_call c
  | SpCreate o => StakePool.create o
  | SpAddWorker o p k => StakePool.add_worker o p k
  | SpRemoveWorker o p k => StakePool.remove_worker o p k
  | SpSetCap o p c => StakePool.set_cap o p c
  | SpSetPayout o p c => StakePool.set_payout_pref o p c
  | SpClaimLegacy o p a => StakePool.claim_legacy_rewards o p a
  | SpClaimOwner o p a => StakePool.claim_owner_rewards o p a
  | SpForceWithdraw o p => StakePool.check_and_maybe_force_withdraw o p
  | SpContribute o p x v => StakePool.contribute o p x v
  | SpWithdraw o p x v => StakePool.withdraw o p x v
  | SpStart o p k x => StakePool.start_computing o p k x
  | SpStop o p k => StakePool.stop_computing o p k
  | SpReclaim o p k => StakePool.reclaim_pool_worker o p k
  | SpRestart o p k x => StakePool.restart_computing o p k x
  | VtCreate o => Vault.create o
  | VtSetPayout o p c => Vault.set_payout_pref o p c
  | VtClaimShares o p a x => Vault.claim_owner_shares o p a x
  | VtGainShares o p => Vault.maybe_gain_owner_shares o p
  | VtForceWithdraw o p => Vault.check_and_maybe_force_withdraw o p
  | VtContribute o p x => Vault.contribute o p x
  | VtWithdraw o p x => Vault.withdraw o p x
  | ComputationOp o => ComputationInv.run_op o
  end.

(** Amounts are unsigned, commissions are at most one, and the pallet's own
    account, which has no key, does not wrap. *)
Definition wf_call (c : call) : Prop :=
  match c with
  | WrapCall o x => o <> Signed WrappedBalancesAccountId /\ 0 <= x
  | UnwrapCall _ x => 0 <= x
  | SpSetPayout _ _ c => permill_ok c
  | _ => True
  end.

Lemma run_call_solvent c :
  WrappedBalancesAccountId <> basepool_pallet_id -> wf_call c -> preserves solvent (run_call c).
Proof.
  intros Hb Hc. destruct c; simpl in Hc; unfold run_call, StakePool.start_computing, StakePool.stop_computing,
    StakePool.reclaim_pool_worker, Vault.maybe_gain_owner_shares, Vault.check; try done.
  1: destruct Hc as [Ho Hx]; destruct o; [by intros s| |by intros s]; apply wrap_solvent; congruence.
  all: eauto using unwrap_solvent, unwrap_all_solvent, vote_solvent, unlock_solvent, pool_call_solvent,
    sp_create_solvent, v_create_solvent, add_worker_solvent, remove_worker_solvent, sp_set_cap_solvent,
    sp_set_payout_solvent, claim_legacy_solvent, claim_owner_rewards_solvent, sp_force_solvent,
    sp_contribute_solvent, sp_withdraw_solvent, restart_solvent, v_set_payout_solvent,
    claim_owner_shares_solvent, v_force_solvent, v_contribute_solvent, v_withdraw_solvent, run_op_solvent.
  all: solve_solvent.
Qed.

Definition run_calls (l : list call) (s : State) : State := foldl (fun s c => final (run_call c) s) s l.

Lemma run_calls_solvent l s :
  WrappedBalancesAccountId <> basepool_pallet_id -> Forall wf_call l -> solvent s -> solvent (run_calls l s).
Proof.
  intros Hb Hl. revert s. induction Hl as [|c l Hc _ IH]; intros s Hs; simpl; [done|].
  apply IH, preserves_final; [by apply run_call_solvent|done].
Qed.

End Calls.
(** ** The theorem *)
Section Properties.
Context {cfg : Config} {F : FixedLib} {codec : Codec} {pal : Pallets} {BS : BackingSpec pal}
  {FS : FixedSpec F} {PS : PermillSpec pal} {AS : AssetSpec pal} {notify : QueueNotifyConfig}
  {qs : QuietTopic notify SystemEvent_topic} {qg : QuietTopic notify GatekeeperEvent_topic}.

(** C2: over any sequence of calls and messages, wrapping, unwrapping, votes,
    stake pools, vaults, rewards and settlements, whatever fails among them,
    the account of the pallet holds PHA for all the W-PHA there is (and its
    existential deposit): every W-PHA can be redeemed. *)
Theorem wpha_backed l s :
  computing_account_id <> WrappedBalancesAccountId -> WrappedBalancesAccountId <> basepool_pallet_id ->
  Forall wf_call l -> commissions_ok (BasePoolT.Pools (base_pool s)) ->
  wpha_issuance (ext s) + existential_deposit <= pha_balance WrappedBalancesAccountId (ext s) ->
  wpha_issuance (ext (run_calls l s)) + existential_deposit
    <= pha_balance WrappedBalancesAccountId (ext (run_calls l s)).
Proof. intros Hc Hb Hl Hp Hs. apply (run_calls_solvent Hc l s Hb Hl). by split. Qed.

End Properties.

(** ** Witness: wrap, create a pool, contribute, withdraw and unwrap *)
Section Witnesses.
Import RefInstances.
#[local] Existing Instance notify_nothing.

Definition wit_state : State (cfg := ref_config) :=
  set_ext (mkRefExt ∅ {[7 := 500 * PHA; 9002 := 1; 9004 := 1000 * PHA]} ∅ ∅ ∅ ∅ [] : Ext (Config := ref_config))
    ref_state.

Definition wit_calls : list call := [
  WrapCall (Signed (acct 7)) (300 * PHA); SpCreate (Signed (acct 1)); SpContribute (Signed (acct 7)) 0 (100 * PHA) None;
  SpWithdraw (Signed (acct 7)) 0 (40 * PHA) None; UnwrapCall (Signed (acct 7)) (200 * PHA)].

Lemma wpha_backed_witness :
  let e := ext (run_calls wit_calls wit_state) in
  wpha_issuance e + existential_deposit <= pha_balance (acct 9002) e /\ wpha_issuance e =? 100 * PHA.
Proof.
  split.
  - apply (wpha_backed wit_calls wit_state); [done|done| | |done].
    + repeat (apply Forall_cons_2; [done|]). apply Forall_nil_2.
    + by intros p pool.
  - by vm_compute.
Defined.

End Witnesses.
End Solvency.
