(* ===== verification/WrappedProps.v ===== *)
(** * Properties of the wrapped balances

    The two maps of votes of pallets/cyrux/src/compute/wrapped_balances.rs agree,
    and the locked amount of an account is the largest of its votes. *)
From stdpp Require Import prelude gmap list strings.
From Stdlib Require Import ZArith Lia.
From S2P Require Import Prelude Types Externals BalanceConvert Reference Mq Computation BasePool.
From S2P Require Import BasePoolFacts WrappedBalances StakePool Vault Solvency.

Module WrappedProps.
Import WrappedT WrappedBalances.
Import (hints) BasePoolFacts.

Section Votes.
Context {cfg : Config} {F : FixedLib} {codec : Codec} {pal : Pallets}.

(** What a vote locks: the 128-bit sum of its amounts *)
Definition weight (v : Balance * Balance) : Z := (v.1 + v.2) mod 2 ^ 128.

(** The sum does not panic in this profile. *)
Definition fits (v : Balance * Balance) : Prop := overflow_checks = true -> 0 <= v.1 + v.2 < 2 ^ 128.

(** [l] is the largest weight of the votes of [u]. *)
Definition is_lock (u : AccountId) (l : Balance) (w : Store) : Prop :=
  0 <= l /\ (forall i v, vote_of i u w = Some v -> weight v <= l) /\
  (l = 0 \/ exists i v, vote_of i u w = Some v /\ weight v = l).

Record votes_ok (w : Store) : Prop := {
  vo_mirror : forall i u, i ∈ votes_by u w <-> is_Some (vote_of i u w);
  vo_known : forall i u, is_Some (vote_of i u w) -> is_Some (StakerAccounts w !! u);
  vo_locked : forall u a, StakerAccounts w !! u = Some a -> is_lock u (locked a) w;
  vo_fits : forall i u v, vote_of i u w = Some v -> fits v;
}.

Lemma arith_weight v (s : State) : fits v -> arith (E := DispatchError) 128 (v.1 + v.2) s = Ok (weight v) s.
Proof.
  intros Hv. unfold arith, weight, fits in *. destruct (in_width 128 _) eqn:Hw.
  - apply in_width_spec in Hw. by rewrite Z.mod_small.
  - destruct overflow_checks eqn:Ho; [|done]. by apply in_width_spec in Hv; [congruence|].
Qed.

(** ** The loop of [update_user_locked] *)
Definition max_weight (u : AccountId) (w : Store) (m : Z) (ids : list Z) : Z :=
  foldl (fun m i => Z.max m (weight (default (0, 0) (vote_of i u w)))) m ids.

Lemma max_weight_spec u w ids m :
  m <= max_weight u w m ids /\
  (forall i, i ∈ ids -> weight (default (0, 0) (vote_of i u w)) <= max_weight u w m ids) /\
  (max_weight u w m ids = m \/ exists i, i ∈ ids /\ max_weight u w m ids = weight (default (0, 0) (vote_of i u w))).
Proof.
  revert m. induction ids as [|j ids IH]; intros m; simpl.
  - split_and!; [lia|by intros i ?%not_elem_of_nil|by left].
  - destruct (IH (Z.max m (weight (default (0, 0) (vote_of j u w))))) as (H1 & H2 & H3).
    split_and!; [lia| |].
    + intros i [->|Hi]%elem_of_cons; [lia|by apply H2].
    + destruct H3 as [->|(i & Hi & ->)]; [|right; exists i; split; [by right|done]].
      destruct (Z.max_spec m (weight (default (0, 0) (vote_of j u w)))) as [[_ ->]|[_ ->]]; [|by left].
      right. exists j. split; [by left|done].
Qed.

Lemma lock_fold u ids m s :
  (forall i, i ∈ ids -> exists v, vote_of i u (wrapped s) = Some v /\ fits v) ->
  for_fold ids m (lock_step u) s = Ok (max_weight u (wrapped s) m ids) s.
Proof.
  revert m. induction ids as [|i ids IH]; intros m H; simpl; [done|].
  destruct (H i) as (v & Hv & Hf); [by left|]. unfold lock_step at 1, mbind, gets. rewrite Hv. simpl.
  destruct v as [aye nay]. pose proof (arith_weight _ s Hf) as Ha. simpl in Ha. rewrite Ha. simpl.
  rewrite IH; [done|]. intros j Hj. apply H. by right.
Qed.

(** What [update_user_locked] writes *)
Lemma update_user_locked_spec u s :
  (forall i, i ∈ votes_by u (wrapped s) <-> is_Some (vote_of i u (wrapped s))) ->
  (forall i v, vote_of i u (wrapped s) = Some v -> fits v) ->
  match StakerAccounts (wrapped s) !! u with
  | Some a => exists l, is_lock u l (wrapped s) /\
      update_user_locked u s = Ok tt (set_wrapped (set_StakerAccounts
        (<[u := set_locked l a]> (StakerAccounts (wrapped s))) (wrapped s)) s)
  | None => update_user_locked u s = Err (WrappedError StakerAccountNotFound) s
  end.
Proof.
  intros Hm Hf. set (ids := elements (votes_by u (wrapped s))).
  assert (forall i, i ∈ ids <-> is_Some (vote_of i u (wrapped s))) as Hids
    by (intros i; unfold ids; by rewrite elem_of_elements).
  assert (for_fold ids 0 (lock_step u) s = Ok (max_weight u (wrapped s) 0 ids) s) as Hl.
  { apply lock_fold. intros i [v Hv]%Hids. eauto. }
  unfold update_user_locked, mbind, gets. fold ids. rewrite Hl. simpl.
  destruct (StakerAccounts (wrapped s) !! u) as [a|] eqn:Ha; simpl; [|done].
  exists (max_weight u (wrapped s) 0 ids). split; [|done].
  destruct (max_weight_spec u (wrapped s) ids 0) as (H1 & H2 & H3). split_and!; [done| |].
  - intros i v Hv. specialize (H2 i). rewrite Hv in H2. apply H2, Hids. by rewrite Hv.
  - destruct H3 as [H3|(i & Hi & ->)]; [by left|right]. apply Hids in Hi as [v Hv]. exists i, v. by rewrite Hv.
Qed.

(** ** Adding and removing a vote *)
Definition with_vote (i : Z) (u : AccountId) (v : Balance * Balance) (w : Store) : Store :=
  set_AccountVoteMap (<[u := {[i]} ∪ votes_by u w]> (AccountVoteMap w))
    (set_VoteAccountMap (<[i := <[u := v]> (voters i w)]> (VoteAccountMap w)) w).

Definition without_vote (i : Z) (u : AccountId) (w : Store) : Store :=
  set_AccountVoteMap (<[u := votes_by u w ∖ {[i]}]> (AccountVoteMap w))
    (set_VoteAccountMap (<[i := delete u (voters i w)]> (VoteAccountMap w)) w).

Lemma vote_of_voters i u w : vote_of i u w = voters i w !! u.
Proof. unfold vote_of, voters. by destruct (VoteAccountMap w !! i); simpl; rewrite ?lookup_empty. Qed.

Lemma vote_of_with i u v w j x :
  vote_of j x (with_vote i u v w) = if decide (j = i /\ x = u) then Some v else vote_of j x w.
Proof.
  unfold vote_of at 1. simpl. destruct (decide (j = i)) as [->|Hj].
  - rewrite lookup_insert_eq. simpl. rewrite vote_of_voters. destruct (decide (x = u)) as [->|Hx].
    + rewrite decide_True by done. by rewrite lookup_insert_eq.
    + rewrite decide_False by naive_solver. by rewrite lookup_insert_ne.
  - rewrite lookup_insert_ne by done. by rewrite decide_False by naive_solver.
Qed.

Lemma vote_of_without i u w j x :
  vote_of j x (without_vote i u w) = if decide (j = i /\ x = u) then None else vote_of j x w.
Proof.
  unfold vote_of at 1. simpl. destruct (decide (j = i)) as [->|Hj].
  - rewrite lookup_insert_eq. simpl. rewrite vote_of_voters. destruct (decide (x = u)) as [->|Hx].
    + rewrite decide_True by done. by rewrite lookup_delete_eq.
    + rewrite decide_False by naive_solver. by rewrite lookup_delete_ne.
  - rewrite lookup_insert_ne by done. by rewrite decide_False by naive_solver.
Qed.

Lemma votes_by_insert u (X : gset Z) w w' x :
  AccountVoteMap w' = <[u := X]> (AccountVoteMap w) -> votes_by x w' = if decide (x = u) then X else votes_by x w.
Proof.
  intros E. unfold votes_by. rewrite E.
  case_decide; subst; [by rewrite lookup_insert_eq|by rewrite lookup_insert_ne].
Qed.

(** The votes agree and are accounted, except for the lock of [u]. *)
Record votes_but (u : AccountId) (w : Store) : Prop := {
  vb_mirror : forall i x, i ∈ votes_by x w <-> is_Some (vote_of i x w);
  vb_known : forall i x, x <> u -> is_Some (vote_of i x w) -> is_Some (StakerAccounts w !! x);
  vb_locked : forall x a, x <> u -> StakerAccounts w !! x = Some a -> is_lock x (locked a) w;
  vb_fits : forall i x v, vote_of i x w = Some v -> fits v;
}.

Lemma is_lock_same u l w w' : (forall i, vote_of i u w' = vote_of i u w) -> is_lock u l w -> is_lock u l w'.
Proof.
  intros E (H1 & H2 & H3). split_and!; [done|intros i v; rewrite E; apply H2|].
  destruct H3 as [H3|(i & v & H3)]; [by left|right]. exists i, v. by rewrite E.
Qed.

Lemma with_vote_but i u v w : votes_ok w -> fits v -> votes_but u (with_vote i u v w).
Proof.
  intros [H1 H2 H3 H4] Hv. split.
  - intros j x. rewrite vote_of_with. rewrite (votes_by_insert u ({[i]} ∪ votes_by u w) w) by done.
    specialize (H1 j x). repeat case_decide; simplify_eq; set_solver.
  - intros j x Hx. rewrite vote_of_with, decide_False by naive_solver. apply H2.
  - intros x a Hx Ha. apply (is_lock_same x _ w); [|by apply H3].
    intros j. by rewrite vote_of_with, decide_False by naive_solver.
  - intros j x v'. rewrite vote_of_with. case_decide; [by intros [= <-]|apply H4].
Qed.

Lemma without_vote_but i u w : votes_ok w -> votes_but u (without_vote i u w).
Proof.
  intros [H1 H2 H3 H4]. split.
  - intros j x. rewrite vote_of_without. rewrite (votes_by_insert u (votes_by u w ∖ {[i]}) w) by done.
    specialize (H1 j x). repeat case_decide; simplify_eq; set_solver.
  - intros j x Hx. rewrite vote_of_without, decide_False by naive_solver. apply H2.
  - intros x a Hx Ha. apply (is_lock_same x _ w); [|by apply H3].
    intros j. by rewrite vote_of_without, decide_False by naive_solver.
  - intros j x v'. rewrite vote_of_without. case_decide; [done|apply H4].
Qed.

(** Recomputing the lock of [u] restores the invariant. *)
Lemma relock u s a :
  votes_but u (wrapped s) -> StakerAccounts (wrapped s) !! u = Some a ->
  exists w' l, update_user_locked u s = Ok tt (set_wrapped w' s) /\ votes_ok w' /\
    (forall i x, vote_of i x w' = vote_of i x (wrapped s)) /\
    StakerAccounts w' = <[u := set_locked l a]> (StakerAccounts (wrapped s)) /\ is_lock u l w'.
Proof.
  intros [H1 H2 H3 H4] Ha.
  pose proof (update_user_locked_spec u s (fun i => H1 i u) (fun i => H4 i u)) as H. rewrite Ha in H.
  destruct H as (l & Hl & E). rewrite E. eexists _, l. split_and!; [done| |done|done|exact Hl]. split; simpl.
  - exact H1.
  - intros i x Hx. destruct (decide (x = u)) as [->|Hne]; [by rewrite lookup_insert_eq|].
    rewrite lookup_insert_ne by done. by apply (H2 i).
  - intros x b. destruct (decide (x = u)) as [->|Hne].
    + rewrite lookup_insert_eq. intros [= <-]. exact Hl.
    + rewrite lookup_insert_ne by done. intros Hb. by apply (H3 x b).
  - exact H4.
Qed.

(** ** Voting *)

(** What all the voters of a referendum put on one side *)
Definition side (f : Balance * Balance -> Z) (l : list (AccountId * (Balance * Balance))) : Z :=
  foldr (fun x t => f x.2 + t) 0 l.

Lemma tally_fold l a s :
  wp True (for_fold l a tally_step)
    (fun r s' => s' = s /\ (overflow_checks = true -> r = (a.1 + side fst l, a.2 + side snd l)))
    (fun _ _ => False) s.
Proof.
  revert a. induction l as [|x l IH]; intros [a b]; simpl; [apply wp_ret; split; [done|]; intros; f_equal; lia|].
  unfold tally_step at 1. simpl. apply wp_bind, wp_bind, wp_arith; [|done|]; intros _;
    [|intros Ho; apply wp_bind, wp_arith_any; [lia|done|]; intros r _; apply wp_ret;
      eapply wp_mono; [apply IH| |done]; intros r' s' [-> _]; split; [done|congruence]].
  apply wp_bind, wp_arith; [|done|]; intros _.
  - apply wp_ret. eapply wp_mono; [apply IH| |done]. intros r s' [-> H]. split; [done|].
    intros Ho. rewrite (H Ho). simpl. f_equal; lia.
  - intros Ho. apply wp_ret. eapply wp_mono; [apply IH| |done]. intros r s' [-> _]. split; [done|congruence].
Qed.

(** What an accepted vote means *)
Definition voted (who : AccountId) (x y : Balance) (i : Z) (s s' : State) : Prop :=
  referendum_ongoing i (ext s) = true /\
  (exists net s1, get_net_value who s = Ok net s1 /\ weight (x, y) <= net) /\
  fits (x, y) /\ votes_ok (wrapped s') /\
  (forall j u, vote_of j u (wrapped s') = if decide (j = i /\ u = who) then Some (x, y) else vote_of j u (wrapped s)) /\
  weight (x, y) <= locked_of who s' /\
  exists e e' a n, democracy_vote WrappedBalancesAccountId i a n e = Ok tt e' /\
    (overflow_checks = true ->
       a = side fst (map_to_list (voters i (wrapped s'))) /\ n = side snd (map_to_list (voters i (wrapped s')))).

Lemma keeps_net_value {T} (f : Store -> T) u : keeps (fun s => f (wrapped s)) (get_net_value u).
Proof.
  unfold get_net_value, BasePool.get_nft_attr_guard, BasePool.get_nft_attr, BasePool.release,
    upd_base_pool. solve_keeps.
Qed.

Lemma wp_run {A} (m : R A) (Q : A -> State -> Prop) (Rr : DispatchError -> State -> Prop) s :
  (forall a s', m s = Ok a s' -> Q a s') -> (forall e s', m s = Err e s' -> Rr e s') -> wp True m Q Rr s.
Proof. intros HQ HR. unfold wp. destruct (m s) eqn:E; auto. Qed.

Lemma wp_run_ext {A} (m : X A) (Q : A -> Ext -> Prop) (Rr : DispatchError -> Ext -> Prop) e :
  (forall a e', m e = Ok a e' -> Q a e') -> (forall er e', m e = Err er e' -> Rr er e') -> wp True m Q Rr e.
Proof. intros HQ HR. unfold wp. destruct (m e) eqn:E; auto. Qed.

Lemma locked_of_insert u l a s s' :
  StakerAccounts (wrapped s') = <[u := set_locked l a]> (StakerAccounts (wrapped s)) -> locked_of u s' = l.
Proof. intros E. unfold locked_of. by rewrite E, lookup_insert_eq. Qed.

Lemma vote_spec o x y i s :
  votes_ok (wrapped s) ->
  wp True (vote o x y i) (fun _ s' => exists who, o = Signed who /\ voted who x y i s s') (fun _ s' => s' = s) s.
Proof.
  intros Hs. unfold vote, ensure_signed, is_ongoing, upd_wrapped, emit, deposit_event.
  apply wp_transactional, wp_bind. destruct o as [|who|]; [done| |done]. apply wp_ret, wp_bind, wp_gets, wp_bind.
  apply wp_ensure; [intros Hon|done]. apply wp_bind, wp_run; [|done]. intros net s1 Hnet.
  pose proof (keeps_ok _ _ _ _ _ (keeps_net_value id who) Hnet) as Hw. unfold id in Hw.
  apply wp_bind. apply wp_mono with (Q := fun r s' => s' = s1 /\ r = weight (x, y) /\ fits (x, y)) (R := fun _ _ => True).
  { unfold weight, fits. simpl. apply wp_arith; [|done|]; intros Hr.
    - by rewrite Z.mod_small.
    - intros Ho. split_and!; [done|done|congruence]. }
  2: done. intros total s1' (-> & -> & Hfit). apply wp_bind, wp_ensure; [intros Hle%Z.geb_le|done].
  apply wp_bind, wp_modify, wp_bind, wp_modify, wp_bind. set (s2 := set_wrapped _ _).
  assert (wrapped s2 = with_vote i who (x, y) (wrapped s)) as E2 by (unfold s2; simpl; by rewrite Hw).
  clearbody s2.
  apply wp_bind, wp_gets. eapply wp_mono; [apply tally_fold| |done]. intros [a n] s2' [-> Ht]. simpl in Ht.
  apply wp_bind, wp_extc, wp_run_ext; [|done]. intros [] e Hd.
  assert (votes_but who (wrapped (set_ext e s2))) as Hb by (simpl; rewrite E2; by apply with_vote_but).
  apply wp_bind. destruct (StakerAccounts (wrapped (set_ext e s2)) !! who) as [acc|] eqn:Ha.
  - destruct (relock who _ acc Hb Ha) as (w' & l & E & Hok & Hv & Hst & Hl). unfold wp. rewrite E.
    exists who. split; [done|].
    assert (forall j u, vote_of j u w' = vote_of j u (with_vote i who (x, y) (wrapped s))) as Hv'
      by (intros; rewrite Hv; simpl; by rewrite E2).
    assert (voters i w' = voters i (wrapped s2)) as Evo.
    { apply map_eq. intros u. rewrite <- !vote_of_voters. by rewrite Hv', E2. }
    unfold voted. split_and!; try done; simpl.
    + eauto.
    + intros j u. by rewrite Hv', vote_of_with.
    + rewrite (locked_of_insert who l acc (set_ext e s2)) by done. apply Hl with i.
      by rewrite Hv', vote_of_with, decide_True.
    + exists (ext s2), e, a, n. split; [done|]. intros Ho. injection (Ht Ho) as -> ->. by rewrite Evo.
  - pose proof (update_user_locked_spec who _ (fun j => vb_mirror _ _ Hb j who) (fun j => vb_fits _ _ Hb j who)) as H.
    rewrite Ha in H. unfold wp. by rewrite H.
Qed.

(** ** Unlocking *)
Lemma unlock_user_spec i u s :
  votes_ok (wrapped s) -> is_Some (vote_of i u (wrapped s)) ->
  exists s', unlock_user i u s = Ok tt s' /\ votes_ok (wrapped s') /\
    forall j x, vote_of j x (wrapped s') = if decide (j = i /\ x = u) then None else vote_of j x (wrapped s).
Proof.
  intros Hs [v Hv]. destruct (vo_known _ Hs i u) as [a Ha]; [by rewrite Hv|].
  pose proof (without_vote_but i u _ Hs) as Hb.
  destruct (relock u (set_wrapped (without_vote i u (wrapped s)) s) a Hb Ha) as (w' & l & E & Hok & Hvo & _ & _).
  exists (set_wrapped w' s). split_and!; [|done|].
  - unfold unlock_user, mbind, upd_wrapped, modify, expect_ok.
    change (set_wrapped _ (set_wrapped _ s)) with (set_wrapped (without_vote i u (wrapped s)) s). by rewrite E.
  - intros j x. simpl. rewrite Hvo. simpl. apply vote_of_without.
Qed.

Lemma unlock_users i l s :
  votes_ok (wrapped s) -> NoDup l -> (forall u, u ∈ l -> is_Some (vote_of i u (wrapped s))) ->
  exists s', for_each l (unlock_user i) s = Ok tt s' /\ votes_ok (wrapped s') /\
    forall j x, vote_of j x (wrapped s') = if decide (j = i /\ x ∈ l) then None else vote_of j x (wrapped s).
Proof.
  intros Hs Hnd. revert s Hs. induction Hnd as [|u l Hu Hnd IH]; intros s Hs Hl; simpl.
  - exists s. split_and!; [done|done|]. intros j x. rewrite decide_False; [done|]. intros [_ H]. set_solver.
  - destruct (unlock_user_spec i u s Hs) as (s1 & E1 & Hs1 & Hv1); [apply Hl; set_solver|].
    destruct (IH s1 Hs1) as (s2 & E2 & Hs2 & Hv2).
    { intros x Hx. rewrite Hv1, decide_False; [apply Hl; set_solver|]. intros [_ ->]. done. }
    exists s2. split_and!; [|done|].
    + unfold mbind. by rewrite E1.
    + intros j x. rewrite Hv2, Hv1. repeat case_decide; set_solver.
Qed.

Lemma voters_left i l s s' :
  NoDup l -> (forall u, u ∈ l -> is_Some (vote_of i u (wrapped s))) ->
  (forall x, vote_of i x (wrapped s') = if decide (x ∈ l) then None else vote_of i x (wrapped s)) ->
  size (voters i (wrapped s')) = (size (voters i (wrapped s)) - length l)%nat.
Proof.
  intros Hnd Hl Hv.
  assert (dom (voters i (wrapped s')) = dom (voters i (wrapped s)) ∖ list_to_set l) as Hd.
  { apply set_eq. intros x. rewrite elem_of_difference, !elem_of_dom, <- !vote_of_voters, Hv, elem_of_list_to_set.
    destruct (decide (x ∈ l)) as [Hx|Hx]; [|by intuition]. split; [by intros [? [=]]|by intros [_ ?]]. }
  rewrite <- !size_dom, Hd, size_difference.
  - by rewrite size_list_to_set.
  - intros x. rewrite elem_of_list_to_set, elem_of_dom, <- vote_of_voters. apply Hl.
Qed.

End Votes.
(** ** Runs of the pallet *)
Section Runs.
Context {cfg : Config} {F : FixedLib} {codec : Codec} {pal : Pallets}.

(** The calls, and what the pools call *)
Inductive op :=
| WrapOp (o : Origin) (x : Balance)
| UnwrapOp (o : Origin) (x : Balance)
| UnwrapAllOp (o : Origin)
| VoteOp (o : Origin) (aye nay : Balance) (vote_id : Z)
| UnlockOp (o : Origin) (vote_id n : Z)
| SubscribeOp (who : AccountId) (p : Z) (c : CollectionId)
| MintOp (target : AccountId) (x : Balance)
| RemoveDustOp (who : AccountId) (dust : Balance).

Definition run_op (c : op) : R unit :=
  match c with
  | WrapOp o x => wrap o x
  | UnwrapOp o x => unwrap o x
  | UnwrapAllOp o => unwrap_all o
  | VoteOp o x y i => vote o x y i
  | UnlockOp o i n => unlock o i n
  | SubscribeOp a p c => maybe_subscribe_to_pool a p c
  | MintOp a x => mint_into a x;;; mret tt
  | RemoveDustOp a x => remove_dust a x
  end.

Definition run_ops (l : list op) (s : State) : State := foldl (fun s c => final (run_op c) s) s l.

(** What the invariant reads *)
Definition ballots (s : State) :=
  let w := wrapped s in (VoteAccountMap w, AccountVoteMap w, StakerAccounts w).

Lemma votes_same s s' : ballots s' = ballots s -> votes_ok (wrapped s) -> votes_ok (wrapped s').
Proof.
  intros [= H1 H2 H3] [Ha Hb Hc Hd].
  assert (forall i u, vote_of i u (wrapped s') = vote_of i u (wrapped s)) as Ev
    by (intros; unfold vote_of; by rewrite H1).
  split.
  - intros i u. rewrite Ev. unfold votes_by. rewrite H2. apply Ha.
  - intros i u. rewrite Ev, H3. apply Hb.
  - intros u a. rewrite H3. intros Hu. eapply is_lock_same; [|by apply Hc]. intros. apply Ev.
  - intros i u v. rewrite Ev. apply Hd.
Qed.

Lemma ballots_ok {A} (m : R A) : keeps ballots m -> preserves (fun s => votes_ok (wrapped s)) m.
Proof. apply keeps_preserves, votes_same. Qed.

(** An account written with the lock it has, 0 for a new one *)
Lemma put_account_ok u a s :
  votes_ok (wrapped s) -> locked a = locked_of u s ->
  wp True (put_account u a) (fun _ s' => votes_ok (wrapped s')) (fun _ _ => False) s.
Proof.
  intros [Ha Hb Hc Hd] Hl. split; simpl; [exact Ha| | |exact Hd].
  - intros i x Hx. destruct (decide (x = u)) as [->|Hne]; [by rewrite lookup_insert_eq|].
    rewrite lookup_insert_ne by done. by apply (Hb i).
  - intros x b. destruct (decide (x = u)) as [->|Hne].
    + rewrite lookup_insert_eq. intros [= <-]. rewrite Hl. unfold locked_of.
      destruct (StakerAccounts (wrapped s) !! u) eqn:Hu; [by apply Hc|]. split_and!; [done| |by left].
      intros i v Hv. change (vote_of i u (wrapped s) = Some v) in Hv.
      destruct (Hb i u) as [? ?]; [by rewrite Hv|]. congruence.
    + rewrite lookup_insert_ne by done. apply Hc.
Qed.

Lemma unlock_user_votes i u : preserves (fun s => votes_ok (wrapped s)) (unlock_user i u).
Proof.
  intros s Hs. unfold unlock_user, upd_wrapped.
  apply wp_bind, wp_modify, wp_bind, wp_modify, wp_expect_ok.
  change (set_wrapped _ (set_wrapped _ s)) with (set_wrapped (without_vote i u (wrapped s)) s).
  set (s1 := set_wrapped _ s). pose proof (without_vote_but i u _ Hs) as Hb.
  pose proof (update_user_locked_spec u s1 (fun j => vb_mirror _ _ Hb j u) (fun j => vb_fits _ _ Hb j u)) as H.
  destruct (StakerAccounts (wrapped s1) !! u) as [a|] eqn:Ha; [|unfold wp; by rewrite H].
  destruct (relock u s1 a Hb Ha) as (w' & l' & E & Hok & _). unfold wp. by rewrite E.
Qed.

Lemma wrap_votes o x : preserves (fun s => votes_ok (wrapped s)) (wrap o x).
Proof.
  unfold wrap, mint_into, ensure_signed, upd_wrapped, emit, deposit_event. apply preserves_transactional.
  apply preserves_bind; [destruct o; by intros s|]. intros who.
  apply preserves_bind; [by apply ballots_ok, keeps_extc|]. intros [].
  apply preserves_bind; [apply ballots_ok; solve_keeps|]. intros b s Hs.
  apply wp_bind, wp_gets, wp_bind. case_bool_decide as Hk; [by apply wp_ret|].
  eapply wp_mono; [apply put_account_ok; [done|]|done|done].
  unfold locked_of. by destruct (StakerAccounts (wrapped s) !! who); [destruct Hk|].
Qed.

Lemma run_op_votes c : preserves (fun s => votes_ok (wrapped s)) (run_op c).
Proof.
  assert (forall u, keeps ballots (get_net_value u)) as Hn.
  { intros u. apply (keeps_net_value (fun w => (VoteAccountMap w, AccountVoteMap w, StakerAccounts w))). }
  destruct c; simpl.
  - apply wrap_votes.
  - apply ballots_ok. unfold unwrap, burn_from, ensure_signed, emit, deposit_event. solve_keeps.
  - apply ballots_ok. unfold unwrap_all, burn_from, ensure_signed. solve_keeps.
  - intros s Hs. eapply wp_mono; [by apply vote_spec| |by intros ? ? ->]. by intros [] s' (who & _ & _ & _ & _ & Hv & _).
  - unfold unlock, ensure_signed, is_ongoing. pose proof unlock_user_votes. solve_preserves.
  - intros s Hs. unfold maybe_subscribe_to_pool. apply wp_bind, wp_gets.
    eapply wp_mono; [apply put_account_ok; [done|]|done|done]. unfold locked_of.
    destruct (StakerAccounts (wrapped s) !! who); simpl; by try case_bool_decide.
  - apply ballots_ok. unfold mint_into, upd_wrapped. solve_keeps.
  - apply ballots_ok. unfold remove_dust, emit, deposit_event. solve_keeps.
Qed.

End Runs.
(** ** Theorems *)
Section Properties.
Context {cfg : Config} {F : FixedLib} {codec : Codec} {pal : Pallets}.

(** C27: over any run of the pallet, the map from votes to accounts and the map
    from accounts to votes have the same entries, every voter has an account,
    and the amount locked in an account is exactly the largest of its votes. *)
Theorem votes_lock_invariant l s : votes_ok (wrapped s) -> votes_ok (wrapped (run_ops l s)).
Proof.
  revert s. induction l as [|c l IH]; intros s Hs; simpl; [done|].
  apply IH, (preserves_final (fun s => votes_ok (wrapped s))); [apply run_op_votes|done].
Qed.

(** An accepted vote is on an ongoing referendum, is covered by the net
    value of the voter, locks at least its amount, and the referendum gets the
    exact sums of all the votes; a refused vote changes nothing.  This is the
    profile with overflow checks. *)
Theorem vote_covered o x y i s :
  overflow_checks = true -> votes_ok (wrapped s) ->
  match vote o x y i s with
  | Ok _ s' => exists who, o = Signed who /\ referendum_ongoing i (ext s) = true /\
      (exists net s1, get_net_value who s = Ok net s1 /\ x + y <= net) /\
      vote_of i who (wrapped s') = Some (x, y) /\ x + y <= locked_of who s' /\
      exists e e', democracy_vote WrappedBalancesAccountId i
        (side fst (map_to_list (voters i (wrapped s')))) (side snd (map_to_list (voters i (wrapped s')))) e = Ok tt e'
  | Err _ s' => s' = s
  | _ => True
  end.
Proof.
  intros Ho Hs. pose proof (vote_spec o x y i s Hs) as H. unfold wp in H.
  destruct (vote o x y i s) as [[] s'|e s'| |]; try done.
  destruct H as (who & -> & Hon & (net & s1 & Hn & Hle) & Hfit & _ & Hv & Hl & e & e' & a & n & Hd & Hs').
  specialize (Hfit Ho). assert (weight (x, y) = x + y) as Ew by (unfold weight; by apply Z.mod_small).
  rewrite Ew in *. destruct (Hs' Ho) as [-> ->]. exists who. split_and!; eauto.
  by rewrite Hv, decide_True.
Qed.

(** Once a referendum is over, [unlock] with an admissible bound always
    succeeds, removes that many of its votes (or all of them), leaves the other
    referenda alone and keeps the locks exact: a vote can always be unlocked. *)
Theorem unlock_succeeds `{!IterSpec pal} who i n s :
  votes_ok (wrapped s) -> referendum_ongoing i (ext s) = false -> 0 < n <= MAX_ITERRATIONS ->
  exists s', unlock (Signed who) i n s = Ok tt s' /\ votes_ok (wrapped s') /\
    size (voters i (wrapped s')) = (size (voters i (wrapped s)) - Z.to_nat n)%nat /\
    forall j x, j <> i -> vote_of j x (wrapped s') = vote_of j x (wrapped s).
Proof.
  intros Hs Ho Hn. set (users := iter_order (fst <$> map_to_list (voters i (wrapped s)))).
  set (l := take (Z.to_nat n) users).
  assert (users ≡ₚ (fst <$> map_to_list (voters i (wrapped s)))) as Hp by apply iter_order_perm.
  assert (NoDup l) as Hnd.
  { apply (sublist_NoDup _ users); [|apply sublist_take]. rewrite Hp. apply NoDup_fst_map_to_list. }
  assert (forall u, u ∈ l -> is_Some (vote_of i u (wrapped s))) as Hl.
  { intros u Hu. apply (fun H => elem_of_sublist _ _ _ H (sublist_take _ _)) in Hu.
    rewrite Hp, list_elem_of_fmap in Hu. destruct Hu as ([u' v] & -> & Hu). apply elem_of_map_to_list in Hu.
    rewrite vote_of_voters. by exists v. }
  destruct (unlock_users i l s Hs Hnd Hl) as (s' & E & Hok & Hv). exists s'. split_and!.
  - unfold unlock, transactional, mbind, ensure_signed, is_ongoing, gets. simpl. rewrite Ho. simpl.
    assert ((n >? 0) && (n <=? MAX_ITERRATIONS) = true) as -> by lia. simpl. fold users l. by rewrite E.
  - done.
  - rewrite (voters_left i l s s' Hnd Hl).
    + unfold l. rewrite length_take, Hp, length_fmap, length_map_to_list. lia.
    + intros x. rewrite Hv. destruct (decide (x ∈ l)); [by rewrite decide_True|rewrite decide_False; naive_solver].
  - intros j x Hj. rewrite Hv, decide_False by naive_solver. done.
Qed.

(** [unwrap] pays out only what is free, and only if the net value of the
    user still covers the votes: the amount and the lock together are at most
    the net value.  The lock stays; a refused call changes nothing. *)
Theorem unwrap_respects_lock o x s :
  0 <= x -> (forall who, o = Signed who -> 0 <= x + locked_of who s < 2 ^ 128) ->
  match unwrap o x s with
  | Ok _ s' => exists who net s1, o = Signed who /\ get_net_value who s = Ok net s1 /\
      x <= asset_balance who (ext s) /\ x + locked_of who s <= net /\ locked_of who s' = locked_of who s
  | Err _ s' => s' = s
  | _ => True
  end.
Proof.
  intros Hx Hb.
  cut (wp True (unwrap o x) (fun _ s' => exists who net s1, o = Signed who /\ get_net_value who s = Ok net s1 /\
      x <= asset_balance who (ext s) /\ x + locked_of who s <= net /\ wrapped s' = wrapped s)
    (fun _ s' => s' = s) s).
  { unfold wp. destruct (unwrap o x s); try done. intros (who & net & s1 & H1 & H2 & H3 & H4 & H5).
    exists who, net, s1. split_and!; try done. unfold locked_of. by rewrite H5. }
  unfold unwrap, ensure_signed, emit, deposit_event. apply wp_transactional, wp_bind.
  destruct o as [|who|]; [done| |done]. specialize (Hb who eq_refl). apply wp_ret, wp_bind, wp_gets, wp_bind.
  apply wp_ensure; [intros Hf%Z.leb_le|done]. apply wp_bind, wp_run; [|done]. intros net s1 Hn.
  pose proof (keeps_ok _ _ _ _ _ (keeps_net_value id who) Hn) as Hw. unfold id in Hw.
  assert (locked_of who s1 = locked_of who s) as El by (unfold locked_of; by rewrite Hw).
  apply wp_bind, wp_gets, wp_bind. rewrite El. apply wp_arith; [intros _|lia|lia].
  apply wp_bind, wp_ensure; [intros Hle%Z.leb_le|done]. apply wp_bind.
  eapply (keeps_wp wrapped); [done|by apply keeps_extc| |done]. intros [] s2 H2. apply wp_bind.
  eapply (keeps_wp wrapped); [done|unfold burn_from; solve_keeps| |done]. intros [] s3 H3. apply wp_modify.
  exists who, net, s1. split_and!; try done. simpl. congruence.
Qed.

End Properties.
(** ** Witnesses *)
Section Witnesses.
Import RefInstances.

Definition wit_ext : RefExt :=
  mkRefExt ∅ {[7 := 500 * PHA; 8 := 500 * PHA; 9002 := 1]} ∅ ∅ ∅ {[3]} [].

Definition wit_state : State (cfg := ref_config) := set_ext (wit_ext : Ext (Config := ref_config)) ref_state.

Definition wit_votes : State :=
  run_ops [WrapOp (Signed (acct 7)) (300 * PHA); VoteOp (Signed (acct 7)) (100 * PHA) (50 * PHA) 3] wit_state.

Lemma wit_state_ok : votes_ok (wrapped wit_state).
Proof. split; [intros i u; split; [set_solver|by intros [? ?]]|by intros i u [? ?]|done|done]. Qed.

Lemma votes_lock_invariant_witness :
  votes_ok (wrapped wit_votes) /\ (locked_of (acct 7) wit_votes =? 150 * PHA).
Proof. split; [apply votes_lock_invariant, wit_state_ok|by vm_compute]. Defined.

Lemma wit_votes_inv : votes_ok (wrapped wit_votes).
Proof.
  do 2 (apply (preserves_final (fun s => votes_ok (wrapped s))); [apply run_op_votes|]). apply wit_state_ok.
Qed.

Lemma vote_covered_witness :
  match vote (Signed (acct 7)) (200 * PHA) 0 3 wit_votes with
  | Ok _ s' => exists who, vote_of 3 who (wrapped s') = Some (200 * PHA, 0) /\ 200 * PHA + 0 <= locked_of who s'
  | _ => False
  end.
Proof.
  pose proof (vote_covered (Signed (acct 7)) (200 * PHA) 0 3 wit_votes eq_refl wit_votes_inv) as H.
  assert (match vote (Signed (acct 7)) (200 * PHA) 0 3 wit_votes with Ok _ _ => true | _ => false end) as E
    by by vm_compute.
  destruct (vote (Signed (acct 7)) (200 * PHA) 0 3 wit_votes) as [[] s'| | |]; try done.
  destruct H as (who & _ & _ & _ & H1 & H2 & _). by exists who.
Defined.

(** The referendum is over. *)
Definition wit_over : State :=
  set_ext (mkRefExt (rx_assets (ext wit_votes)) (rx_currency (ext wit_votes)) ∅ ∅ ∅ ∅ [] : Ext (Config := ref_config))
    wit_votes.

Lemma unlock_succeeds_witness :
  exists s', unlock (Signed (acct 9)) 3 1 wit_over = Ok tt s' /\
    size (voters 3 (wrapped s')) = (size (voters 3 (wrapped wit_over)) - 1)%nat.
Proof.
  destruct (unlock_succeeds (acct 9) 3 1 wit_over wit_votes_inv ltac:(by vm_compute) ltac:(done)) as (s' & H1 & _ & H2 & _).
  by exists s'.
Defined.

Lemma unwrap_respects_lock_witness :
  match unwrap (Signed (acct 7)) (100 * PHA) wit_votes with
  | Ok _ s' => exists who net s1, get_net_value who wit_votes = Ok net s1 /\ 100 * PHA + locked_of who wit_votes <= net
  | _ => False
  end.
Proof.
  assert (forall who, Signed (acct 7) = Signed who -> 0 <= 100 * PHA + locked_of who wit_votes < 2 ^ 128) as Hb.
  { intros who [= <-]. by vm_compute. }
  pose proof (unwrap_respects_lock (Signed (acct 7)) (100 * PHA) wit_votes ltac:(done) Hb) as H.
  assert (match unwrap (Signed (acct 7)) (100 * PHA) wit_votes with Ok _ _ => true | _ => false end) as E
    by by vm_compute.
  destruct (unwrap (Signed (acct 7)) (100 * PHA) wit_votes) as [[] s'| | |]; try done.
  destruct H as (who & net & s1 & _ & H1 & _ & H2 & _). by exists who, net, s1.
Defined.

End Witnesses.
(** ** The release profile

    Without overflow checks two sums of the pallet wrap. *)
Section Release.
Import RefInstances ReleaseInstances.
#[local] Existing Instance notify_nothing.

Definition rel_ext : RefExt :=
  mkRefExt ∅ {[7 := 10000 * PHA; 8 := 500 * PHA; 9002 := 1]} ∅ ∅ ∅ {[3]} [].

(** Worker 5, of operator 1, registered after the gatekeeper was launched *)
Definition rel_registry : RegistryT.Store :=
  RegistryT.set_GatekeeperLaunchedAt (Some (2, 2))
    (RegistryT.set_WorkerAddedAt {[5 := 3]} (RegistryT.set_Workers
      {[5 := mkWorkerInfoV2 5 55 0 0 (Some (acct 1)) (Some RootProvider) 1 (Some 400) []]} ref_registry)).

Definition rel_state : State (cfg := ref_config) :=
  set_registry rel_registry (set_ext (rel_ext : Ext (Config := ref_config)) ref_state).

Definition rel_honest : State :=
  run_ops [WrapOp (Signed (acct 7)) (100 * PHA); VoteOp (Signed (acct 7)) (100 * PHA) 0 3;
    WrapOp (Signed (acct 8)) PHA] rel_state.

(** In the release profile the sum of the two amounts of a vote wraps.
    Account 8, with 1 token, casts [2^128 - 100] tokens for and 100 against: the
    sum is 0, so nothing is locked, and the total for wraps as well: the 100
    tokens that account 7 voted for are gone, 100 count against. *)
Theorem vote_sum_wraps :
  match vote (Signed (acct 8)) (2 ^ 128 - 100 * PHA) (100 * PHA) 3 rel_honest with
  | Ok _ s' => locked_of (acct 8) s' = 0 /\ head (rx_votes (ext rel_honest)) = Some (3, 100 * PHA, 0) /\
      head (rx_votes (ext s')) = Some (3, 0, 100 * PHA)
  | _ => False
  end.
Proof. vm_compute. done. Qed.

(** Account 7 wraps 5000 tokens, stakes 3000 of them, which the pool uses,
    votes with all 5000 and then asks for its stake back. *)
Definition rel_pledged : State :=
  Solvency.run_calls [
    Solvency.WrapCall (Signed (acct 7)) (5000 * PHA); Solvency.SpCreate (Signed (acct 1));
    Solvency.SpAddWorker (Signed (acct 1)) 0 5; Solvency.SpContribute (Signed (acct 7)) 0 (3000 * PHA) None;
    Solvency.SpStart (Signed (acct 1)) 0 5 (3000 * PHA); Solvency.VoteCall (Signed (acct 7)) (5000 * PHA) 0 3;
    Solvency.SpWithdraw (Signed (acct 7)) 0 (2999 * PHA) None] rel_state.

(** In the release profile [active_stakes - locked] of [unwrap_all] wraps
    when the net value is below the lock, as it is while a withdrawal waits in a
    queue: all the free W-PHA of the account is paid out although every token
    of it is locked by a vote on an ongoing referendum, and though [unwrap]
    refuses even one unit. *)
Theorem unwrap_all_ignores_lock :
  locked_of (acct 7) rel_pledged = 5000 * PHA /\ asset_balance (acct 7) (ext rel_pledged) = 2000 * PHA /\
  referendum_ongoing 3 (ext rel_pledged) = true /\
  match unwrap (Signed (acct 7)) 1 rel_pledged with Err _ _ => True | _ => False end /\
  match unwrap_all (Signed (acct 7)) rel_pledged with
  | Ok _ s' => asset_balance (acct 7) (ext s') = 0 /\ locked_of (acct 7) s' = 5000 * PHA
  | _ => False
  end.
Proof. vm_compute. done. Qed.

End Release.
End WrappedProps.
