(* ===== verification/Attestation.v ===== *)
(** * Remote attestation: pallets/cyrux/src/utils/attestation.rs

    A worker proves with a report of Intel's attestation service (IAS) or a
    DCAP quote that it runs an allowed binary, and which registration it stands
    behind.  The same checks in their older form are in
    utils/attestation_legacy.rs. *)
From stdpp Require Import prelude list strings.
From Stdlib Require Import ZArith Lia.
From S2P Require Import Prelude Types.

(** ** The [sgx-attestation] crate

    The parsed fields of a report and of the quote in it. *)
Record Quote := mkQuote {
  mr_enclave : bytes;
  mr_signer : bytes;
  isv_prod_id : bytes;
  isv_svn : bytes;
  report_data : bytes;
}.

Record RaReport := mkRaReport {
  ra_timestamp : option Z;
  isv_enclave_quote_status : string;
  ra_advisory_ids : list string;
  ra_quote : option Quote;
}.

(** [ias::verify_signature], [serde_json::from_slice] with the RFC 3339 time
    and [decode_quote], and [dcap::verify] *)
Class SgxAttestation := {
  ias_verify_signature : bytes -> bytes -> bytes -> Z -> bool;
  parse_ra_report : bytes -> option RaReport;
  dcap_verify : bytes -> bytes -> Z -> option (bytes * bytes * string * list string);
}.

Module Attestation.

Inductive Error :=
| PRuntimeRejected | InvalidIASSigningCert | InvalidReport | InvalidQuoteStatus | BadIASReport
| OutdatedIASReport | UnknownQuoteBodyFormat | InvalidUserDataHash | NoneAttestationDisabled
| UnsupportedAttestationType | InvalidDCAPQuote.

(** [crates/pink/pink-types/src/sgx.rs]; a collateral is its encoding. *)
Inductive AttestationReport :=
| SgxIas (ra_report signature raw_signing_cert : bytes)
| SgxDcap (quote : bytes) (collateral : option bytes).

Record ConfidentialReport := mkConfidentialReport {
  cr_confidence_level : Z;
  cr_provider : option AttestationProvider;
  cr_runtime_hash : bytes;
}.

Record IasFields := mkIasFields {
  if_quote : Quote;
  if_confidence_level : Z;
}.

(** ** Confidence levels: utils/constants.rs *)
Definition SGX_QUOTE_STATUS_LEVEL_1 : list string := ["OK"; "UpToDate"]%string.
Definition SGX_QUOTE_STATUS_LEVEL_2 : list string := ["SW_HARDENING_NEEDED"; "SWHardeningNeeded"]%string.
Definition SGX_QUOTE_STATUS_LEVEL_3 : list string :=
  ["CONFIGURATION_NEEDED"; "CONFIGURATION_AND_SW_HARDENING_NEEDED"; "ConfigurationNeeded";
   "ConfigurationAndSWHardeningNeeded"]%string.
Definition SGX_QUOTE_STATUS_LEVEL_5 : list string :=
  ["GROUP_OUT_OF_DATE"; "OutOfDate"; "OutOfDateConfigurationNeeded"]%string.
Definition SGX_QUOTE_ADVISORY_ID_WHITELIST : list string :=
  ["INTEL-SA-00334"; "INTEL-SA-00219"; "INTEL-SA-00381"; "INTEL-SA-00389"]%string.

(** The classification of a quote status and its advisories *)
Definition confidence_of (status : string) (advisory_ids : list string) : Error + Z :=
  let level :=
    if bool_decide (status ∈ SGX_QUOTE_STATUS_LEVEL_1) then 1
    else if bool_decide (status ∈ SGX_QUOTE_STATUS_LEVEL_2) then 2
    else if bool_decide (status ∈ SGX_QUOTE_STATUS_LEVEL_3) then 3
    else if bool_decide (status ∈ SGX_QUOTE_STATUS_LEVEL_5) then 5
    else 128 in
  if level =? 128 then inl InvalidQuoteStatus
  else if level =? 3 then
    inr (foldl (fun l id => if bool_decide (id ∈ SGX_QUOTE_ADVISORY_ID_WHITELIST) then l else 4) level advisory_ids)
  else inr level.

Section Validate.
Context {sgx : SgxAttestation}.

(** [IasFields::from_ias_report] *)
Definition from_ias_report (report : bytes) : Error + (IasFields * Z) :=
  match parse_ra_report report with
  | None => inl InvalidReport
  | Some parsed =>
      match ra_timestamp parsed with
      | None => inl BadIASReport
      | Some report_timestamp =>
          match confidence_of (isv_enclave_quote_status parsed) (ra_advisory_ids parsed) with
          | inl e => inl e
          | inr level =>
              match ra_quote parsed with
              | None => inl UnknownQuoteBodyFormat
              | Some quote => inr (mkIasFields quote level, report_timestamp)
              end
          end
      end
  end.

Definition extend_mrenclave (q : Quote) : bytes := mr_enclave q ++ isv_prod_id q ++ isv_svn q ++ mr_signer q.

Definition rejected (verify_pruntime_hash : bool) (pruntime_allowlist : list bytes) (pruntime_hash : bytes) : bool :=
  verify_pruntime_hash && negb (bool_decide (pruntime_hash ∈ pruntime_allowlist)).

Definition validate_ias_report (user_data_hash report signature raw_signing_cert : bytes) (now : Z)
    (verify_pruntime_hash : bool) (pruntime_allowlist : list bytes) : Error + ConfidentialReport :=
  if negb (ias_verify_signature report signature raw_signing_cert now) then inl InvalidIASSigningCert
  else
    match from_ias_report report with
    | inl e => inl e
    | inr (fields, report_timestamp) =>
        let pruntime_hash := extend_mrenclave (if_quote fields) in
        if rejected verify_pruntime_hash pruntime_allowlist pruntime_hash then inl PRuntimeRejected
        else if now - report_timestamp >=? 7200 then inl OutdatedIASReport
        else if negb (bool_decide (take 32 (report_data (if_quote fields)) = user_data_hash)) then
          inl InvalidUserDataHash
        else inr (mkConfidentialReport (if_confidence_level fields) (Some Ias) pruntime_hash)
    end.

Definition validate_dcap (quote collateral : bytes) (now : Z) (user_data_hash : bytes)
    (verify_pruntime_hash : bool) (pruntime_allowlist : list bytes) : Error + ConfidentialReport :=
  match dcap_verify quote collateral now with
  | None => inl InvalidDCAPQuote
  | Some (data, pruntime_hash, tcb_status, advisory_ids) =>
      if rejected verify_pruntime_hash pruntime_allowlist pruntime_hash then inl PRuntimeRejected
      else if negb (bool_decide (take 32 data = user_data_hash)) then inl InvalidUserDataHash
      else
        match confidence_of tcb_status advisory_ids with
        | inl e => inl e
        | inr level => inr (mkConfidentialReport level (Some Dcap) pruntime_hash)
        end
  end.

Definition validate (attestation : option AttestationReport) (user_data_hash : bytes) (now : Z)
    (verify_pruntime_hash : bool) (pruntime_allowlist : list bytes) (opt_out_enabled : bool) :
    Error + ConfidentialReport :=
  match attestation with
  | Some (SgxIas ra_report signature raw_signing_cert) =>
      validate_ias_report user_data_hash ra_report signature raw_signing_cert now
        verify_pruntime_hash pruntime_allowlist
  | Some (SgxDcap quote collateral) =>
      match collateral with
      | None => inl UnsupportedAttestationType
      | Some collateral =>
          validate_dcap quote collateral now user_data_hash verify_pruntime_hash pruntime_allowlist
      end
  | None =>
      if opt_out_enabled then inr (mkConfidentialReport 128 None []) else inl NoneAttestationDisabled
  end.

(** [attestation_legacy::IasValidator::validate] *)
Definition validate_legacy (ra_report signature raw_signing_cert user_data_hash : bytes) (now : Z)
    (verify_pruntime : bool) (pruntime_allowlist : list bytes) : Error + IasFields :=
  if negb (ias_verify_signature ra_report signature raw_signing_cert now) then inl InvalidIASSigningCert
  else
    match from_ias_report ra_report with
    | inl e => inl e
    | inr (fields, report_timestamp) =>
        if rejected verify_pruntime pruntime_allowlist (extend_mrenclave (if_quote fields)) then inl PRuntimeRejected
        else if now - report_timestamp >=? 7200 then inl OutdatedIASReport
        else if negb (bool_decide (take 32 (report_data (if_quote fields)) = user_data_hash)) then
          inl InvalidUserDataHash
        else inr fields
    end.

End Validate.
End Attestation.
