(* ===== verification/Registry.v ===== *)
(** * The registry: pallets/cyrux/src/registry.rs

    Workers and their attestation, the gatekeepers, their master key and its
    rotation, and the allow lists.  [check_message] and [verify_signature] are
    in Mq.v, [is_worker_registered_after_gk_launched] in Computation.v. *)
From stdpp Require Import prelude gmap list strings.
From Stdlib Require Import ZArith Lia.
From S2P Require Import Prelude Types Externals Mq Computation Attestation.

(** ** Signed content: crates/cyrux-types/src/lib.rs *)
Inductive SignedContentType :=
| MqMessage | RpcResponse | EndpointInfo | MasterKeyRotation | MasterKeyStore | ClusterStateRequest
| EventChainBlock.

Definition content_type_byte (t : SignedContentType) : Z :=
  match t with
  | MqMessage => 0 | RpcResponse => 1 | EndpointInfo => 2 | MasterKeyRotation => 3 | MasterKeyStore => 4
  | ClusterStateRequest => 5 | EventChainBlock => 6
  end.

Definition wrap_content_to_sign (data : bytes) (t : SignedContentType) : bytes :=
  match t with
  | MqMessage => data
  | _ => 255 :: content_type_byte t :: data
  end.

Module Registry.
Import RegistryT.

Definition MAX_SCORE : Z := 6000.

(** [impl From<AttestationError> for Error] *)
Definition of_attestation_error (e : Attestation.Error) : Error :=
  match e with
  | Attestation.PRuntimeRejected => PRuntimeRejected
  | Attestation.InvalidIASSigningCert => InvalidIASSigningCert
  | Attestation.InvalidReport => InvalidReport
  | Attestation.InvalidQuoteStatus => InvalidQuoteStatus
  | Attestation.BadIASReport => BadIASReport
  | Attestation.OutdatedIASReport => OutdatedIASReport
  | Attestation.UnknownQuoteBodyFormat => UnknownQuoteBodyFormat
  | Attestation.InvalidUserDataHash => InvalidRuntimeInfoHash
  | Attestation.NoneAttestationDisabled => NoneAttestationDisabled
  | Attestation.UnsupportedAttestationType => UnsupportedAttestationType
  | Attestation.InvalidDCAPQuote => InvalidDCAPQuote
  end.

Section Pallet.
Context {cfg : Config} {codec : Codec} {pal : Pallets} {sgx : SgxAttestation} {notify : QueueNotifyConfig}.

Definition message_origin : MessageOrigin := Pallet (bytes_of_string "cyruxRegistry").

Definition push_system_event (e : SystemEvent) : R unit :=
  Mq.push_bound_message SystemEvent_topic message_origin (encode_SystemEvent e).
Definition push_launch (e : GatekeeperLaunch) : R unit :=
  Mq.push_bound_message GatekeeperLaunch_topic message_origin (encode_GatekeeperLaunch e).
Definition push_change (e : GatekeeperChange) : R unit :=
  Mq.push_bound_message GatekeeperChange_topic message_origin (encode_GatekeeperChange e).

Definition emit (e : Event) : R unit := deposit_event (RegistryEv e).
Definition check (b : bool) (e : Error) : R unit := ensure b (RegistryError e).

(** [GovernanceOrigin] of the runtime: root or half of the council *)
Definition ensure_governance (origin : Origin) : R unit :=
  if root_or_half_council origin then mret tt else fail BadOrigin.

Definition put_worker (k : WorkerPublicKey) (w : WorkerInfoV2) : R unit :=
  upd_registry (fun r => set_Workers (<[k := w]> (Workers r)) r).

Definition mark_added (k : WorkerPublicKey) : R unit :=
  let* now := gets block_number in
  upd_registry (fun r => set_WorkerAddedAt (<[k := now]> (WorkerAddedAt r)) r).

(** ** Workers *)
Definition force_set_benchmark_duration (origin : Origin) (value : Z) : R unit :=
  ensure_governance origin;;;
  upd_registry (set_BenchmarkDuration (Some value)).

Definition force_register_worker (origin : Origin) (pubkey : WorkerPublicKey) (ecdh_pubkey : EcdhPublicKey)
    (op : option AccountId) : R unit :=
  ensure_root origin;;;
  put_worker pubkey (mkWorkerInfoV2 pubkey ecdh_pubkey 0 1 op (Some RootProvider) 128 None [1; 4]);;;
  mark_added pubkey;;;
  push_system_event (WorkerEventWithKey pubkey (Registered 128));;;
  emit (WorkerAdded pubkey (Some RootProvider) 128).

Definition force_register_topic_pubkey (origin : Origin) (topic pubkey : bytes) : R unit :=
  ensure_root origin;;;
  upd_registry (fun r => set_TopicKey (<[topic := pubkey]> (TopicKey r)) r).

(** The update of [Workers] shared by the two versions of [register_worker] *)
Definition add_or_refresh_worker (info : WorkerRegistrationInfo) (now : Z)
    (provider : option AttestationProvider) (level : Z) : R unit :=
  let pubkey := wr_pubkey info in
  let* v := Computation.get_worker pubkey in
  match v with
  | Some w =>
      push_system_event (WorkerEventWithKey pubkey (Registered level));;;
      emit (WorkerUpdated pubkey provider level);;;
      put_worker pubkey (mkWorkerInfoV2 (wi_pubkey w) (wi_ecdh_pubkey w) (wr_version info) now (wr_operator info)
        (attestation_provider w) level (initial_score w) (wr_features info))
  | None =>
      push_system_event (WorkerEventWithKey pubkey (Registered level));;;
      emit (WorkerAdded pubkey provider level);;;
      mark_added pubkey;;;
      put_worker pubkey (mkWorkerInfoV2 pubkey (wr_ecdh_pubkey info) (wr_version info) now (wr_operator info)
        provider level None (wr_features info))
  end.

Definition check_genesis (info : WorkerRegistrationInfo) : R unit :=
  if VerifyRelaychainGenesisBlockHash then
    let* allowlist := gets (fun s => RelaychainGenesisBlockHashAllowList (registry s)) in
    check (bool_decide (wr_genesis_block_hash info ∈ allowlist)) GenesisBlockHashRejected
  else mret tt.

Definition start_benchmark (pubkey : WorkerPublicKey) : R unit :=
  let* duration := gets (fun s => BenchmarkDuration (registry s)) in
  push_system_event (WorkerEventWithKey pubkey (BenchStart (default 0 duration))).

Definition register_worker (origin : Origin) (info : WorkerRegistrationInfo)
    (ra_report signature raw_signing_cert : bytes) : R unit :=
  ensure_signed origin;;;
  let* now := now_sec in
  let* allowlist := gets (fun s => PRuntimeAllowList (registry s)) in
  match Attestation.validate_legacy ra_report signature raw_signing_cert (hash_WorkerRegistrationInfo info) now
          VerifyPRuntime allowlist with
  | inl e => fail (RegistryError (of_attestation_error e))
  | inr fields =>
      check_genesis info;;;
      add_or_refresh_worker info now (Some Ias) (Attestation.if_confidence_level fields);;;
      start_benchmark (wr_pubkey info)
  end.

Definition note_consensus_version (v : Z) : R unit :=
  let* known := gets (fun s => MaxKnownPRuntimeConsensusVersion (registry s)) in
  let '(version, count) := known in
  if version <? v then upd_registry (set_MaxKnownPRuntimeConsensusVersion (v, 1))
  else if version =? v then
    let* count := arith 32 (count + 1) in
    upd_registry (set_MaxKnownPRuntimeConsensusVersion (version, count))
  else mret tt.

Definition register_worker_v2 (origin : Origin) (info : WorkerRegistrationInfoV2)
    (attestation : option Attestation.AttestationReport) : R unit :=
  ensure_signed origin;;;
  let* now := now_sec in
  let* allowlist := gets (fun s => PRuntimeAllowList (registry s)) in
  match Attestation.validate attestation (hash_WorkerRegistrationInfoV2 info) now VerifyPRuntime allowlist
          NoneAttestationEnabled with
  | inl e => fail (RegistryError (of_attestation_error e))
  | inr report =>
      check (para_id info =? ParachainId) ParachainIdMismatch;;;
      check_genesis (wr_info info);;;
      note_consensus_version (max_consensus_version info);;;
      add_or_refresh_worker (wr_info info) now (Attestation.cr_provider report)
        (Attestation.cr_confidence_level report);;;
      start_benchmark (wr_pubkey (wr_info info))
  end.

Definition update_worker_endpoint (origin : Origin) (payload : WorkerEndpointPayload) (signature : bytes) : R unit :=
  ensure_signed origin;;;
  check (bool_decide (length signature = 64%nat)) InvalidSignatureLength;;;
  check (sr25519_signature_ok signature) MalformedSignature;;;
  let data := wrap_content_to_sign (encode_WorkerEndpointPayload payload) EndpointInfo in
  check (sr25519_verify signature data (ep_pubkey payload)) InvalidSignature;;;
  let* now := now_millis in
  let* fresh := (if signing_time payload <? now then
                   let* limit := arith 64 (signing_time payload + 4 * 60 * 60 * 1000) in
                   mret (now <=? limit)
                 else mret false) in
  check fresh InvalidEndpointSigningTime;;;
  let* w := Computation.get_worker (ep_pubkey payload) in
  check (bool_decide (is_Some w)) InvalidPubKey;;;
  upd_registry (fun r => set_Endpoints (<[ep_pubkey payload := versioned_endpoints payload]> (Endpoints r)) r).

(** ** Gatekeepers *)
Definition register_gatekeeper (origin : Origin) (gatekeeper : WorkerPublicKey) : R unit :=
  ensure_governance origin;;;
  let* r := gets registry in
  check (bool_decide (MasterKeyRotationLock r = None)) MasterKeyInRotation;;;
  let gatekeepers := Gatekeepers r in
  check (bool_decide (gatekeepers = []) || bool_decide (is_Some (GatekeeperMasterPubkey r))) MasterKeyUninitialized;;;
  (if bool_decide (gatekeeper ∈ gatekeepers) then mret tt
   else
     let* worker_info := ok_or (Workers r !! gatekeeper) (RegistryError WorkerNotFound) in
     let gatekeepers := gatekeepers ++ [gatekeeper] in
     upd_registry (set_Gatekeepers gatekeepers);;;
     if bool_decide (length gatekeepers = 1%nat) then
       push_launch (FirstGatekeeper gatekeeper (wi_ecdh_pubkey worker_info))
     else push_change (GkRegistered gatekeeper (wi_ecdh_pubkey worker_info)));;;
  emit (GatekeeperAdded gatekeeper).

Definition unregister_gatekeeper (origin : Origin) (gatekeeper : WorkerPublicKey) : R unit :=
  ensure_governance origin;;;
  let* r := gets registry in
  check (bool_decide (MasterKeyRotationLock r = None)) MasterKeyInRotation;;;
  check (bool_decide (gatekeeper ∈ Gatekeepers r)) InvalidGatekeeper;;;
  check (bool_decide (1 < length (Gatekeepers r))%nat) CannotRemoveLastGatekeeper;;;
  upd_registry (set_Gatekeepers (filter (fun g => g <> gatekeeper) (Gatekeepers r)));;;
  push_change (GkUnregistered gatekeeper).

(** The identities of the gatekeepers, [None] if one is not registered *)
Definition gk_identities (r : Store) : option (list (WorkerPublicKey * EcdhPublicKey)) :=
  mapM (fun gk => w ← Workers r !! gk; Some (wi_pubkey w, wi_ecdh_pubkey w)) (Gatekeepers r).

Definition rotate_master_key (origin : Origin) : R unit :=
  ensure_governance origin;;;
  let* r := gets registry in
  check (bool_decide (MasterKeyRotationLock r = None)) MasterKeyInRotation;;;
  let* identities := ok_or (gk_identities r) (RegistryError WorkerNotFound) in
  let* rotation_id := arith 64 (RotationCounter r + 1) in
  upd_registry (set_RotationCounter rotation_id);;;
  upd_registry (set_MasterKeyRotationLock (Some rotation_id));;;
  push_launch (RotateMasterKey rotation_id identities).

Definition on_gatekeeper_launched : R unit :=
  let* b := gets block_number in
  let* now := now_sec in
  upd_registry (set_GatekeeperLaunchedAt (Some (b, now)));;;
  emit GatekeeperLaunched.

(** ** Messages of workers and gatekeepers *)
Definition on_bench_report (worker : WorkerPublicKey) (start_time iterations : Z) : R unit :=
  let* now := now_millis in
  check (negb (now <=? start_time)) InvalidBenchReport;;;
  let* q := div_u iterations ((now - start_time) / 1000) in
  let* score := arith 64 (q * 6) in
  let score := Z.min MAX_SCORE (score mod 2 ^ 32) in
  let* w := Computation.get_worker worker in
  match w with
  | Some w => put_worker worker (set_last_updated (now / 1000) (set_initial_score (Some score) w))
  | None => mret tt
  end;;;
  push_system_event (WorkerEventWithKey worker (BenchScore score));;;
  emit (InitialScoreSet worker score).

Definition on_master_pubkey (worker : WorkerPublicKey) (master_pubkey : MasterPublicKey) : R unit :=
  let* r := gets registry in
  check (bool_decide (worker ∈ Gatekeepers r)) InvalidGatekeeper;;;
  match GatekeeperMasterPubkey r with
  | Some saved => check (saved =? master_pubkey) MasterKeyMismatch
  | None =>
      upd_registry (set_GatekeeperMasterPubkey (Some master_pubkey));;;
      push_launch (MasterPubkeyOnChain master_pubkey);;;
      on_gatekeeper_launched
  end.

Definition on_message_received (m : DecodedMessage RegistryEvent) : R unit :=
  match dm_sender m with
  | Worker worker =>
      match dm_payload m with
      | BenchReport start_time iterations => on_bench_report worker start_time iterations
      | MasterPubkey master_pubkey => on_master_pubkey worker master_pubkey
      end
  | _ => fail (RegistryError InvalidSender)
  end.

Definition on_gk_message_received (m : DecodedMessage GatekeeperRegistryEvent) : R unit :=
  if negb (is_gatekeeper (dm_sender m)) then fail (RegistryError InvalidSender)
  else
    let '(RotatedMasterPubkey rotation_id master_pubkey) := dm_payload m in
    let* rotating := gets (fun s => MasterKeyRotationLock (registry s)) in
    if negb (bool_decide (rotating = Some rotation_id)) then
      emit (MasterKeyRotationFailed rotating rotation_id);;;
      fail (RegistryError InvalidRotatedMasterPubkey)
    else
      upd_registry (set_GatekeeperMasterPubkey (Some master_pubkey));;;
      upd_registry (set_MasterKeyRotationLock None);;;
      emit (MasterKeyRotated rotation_id master_pubkey);;;
      push_launch (MasterPubkeyRotated master_pubkey).

(** ** Allow lists and versions *)
Definition add_pruntime (origin : Origin) (pruntime_hash : bytes) : R unit :=
  ensure_governance origin;;;
  let* allowlist := gets (fun s => PRuntimeAllowList (registry s)) in
  check (negb (bool_decide (pruntime_hash ∈ allowlist))) PRuntimeAlreadyExists;;;
  upd_registry (set_PRuntimeAllowList (allowlist ++ [pruntime_hash]));;;
  let* now := gets block_number in
  upd_registry (fun r => set_PRuntimeAddedAt (<[pruntime_hash := now]> (PRuntimeAddedAt r)) r).

Definition remove_pruntime (origin : Origin) (pruntime_hash : bytes) : R unit :=
  ensure_governance origin;;;
  let* allowlist := gets (fun s => PRuntimeAllowList (registry s)) in
  check (bool_decide (pruntime_hash ∈ allowlist)) PRuntimeNotFound;;;
  upd_registry (set_PRuntimeAllowList (filter (fun h => h <> pruntime_hash) allowlist));;;
  upd_registry (fun r => set_PRuntimeAddedAt (delete pruntime_hash (PRuntimeAddedAt r)) r).

Definition add_relaychain_genesis_block_hash (origin : Origin) (h : H256) : R unit :=
  ensure_governance origin;;;
  let* allowlist := gets (fun s => RelaychainGenesisBlockHashAllowList (registry s)) in
  check (negb (bool_decide (h ∈ allowlist))) GenesisBlockHashAlreadyExists;;;
  upd_registry (set_RelaychainGenesisBlockHashAllowList (allowlist ++ [h])).

Definition remove_relaychain_genesis_block_hash (origin : Origin) (h : H256) : R unit :=
  ensure_governance origin;;;
  let* allowlist := gets (fun s => RelaychainGenesisBlockHashAllowList (registry s)) in
  check (bool_decide (h ∈ allowlist)) GenesisBlockHashNotFound;;;
  upd_registry (set_RelaychainGenesisBlockHashAllowList (filter (fun x => x <> h) allowlist)).

Definition set_minimum_pruntime_version (origin : Origin) (major minor patch : Z) : R unit :=
  ensure_governance origin;;;
  upd_registry (set_MinimumPRuntimeVersion (major, minor, patch));;;
  emit (MinimumPRuntimeVersionChangedTo major minor patch).

Definition set_pruntime_consensus_version (origin : Origin) (version : Z) : R unit :=
  ensure_governance origin;;;
  upd_registry (set_PRuntimeConsensusVersion version);;;
  emit (PRuntimeConsensusVersionChangedTo version).

Definition set_trusted_ntp_servers (origin : Origin) (servers : list bytes) : R unit :=
  ensure_governance origin;;;
  upd_registry (set_TrustedNtpServers servers).

(** ** Genesis *)

(** A key of 32 bytes as a number *)
Definition key_of_bytes (b : bytes) : option Z :=
  if bool_decide (length b = 32%nat) then Some (foldl (fun n x => n * 256 + x) 0 b) else None.

Definition queue_system_event (e : SystemEvent) : R unit :=
  Mq.queue_bound_message SystemEvent_topic message_origin (encode_SystemEvent e).

Definition genesis_worker (benchmark_duration : Z) (w : WorkerPublicKey * bytes * option AccountId) : R unit :=
  let '(pubkey, ecdh_pubkey, operator) := w in
  let* ecdh := expect_some (key_of_bytes ecdh_pubkey) in
  put_worker pubkey (mkWorkerInfoV2 pubkey ecdh 0 0 operator (Some RootProvider) 128 None [1; 4]);;;
  queue_system_event (WorkerEventWithKey pubkey (Registered 128));;;
  queue_system_event (WorkerEventWithKey pubkey (BenchStart benchmark_duration));;;
  upd_registry (set_BenchmarkDuration (Some benchmark_duration)).

Definition genesis_gatekeeper (gatekeepers : list WorkerPublicKey) (gatekeeper : WorkerPublicKey) :
    R (list WorkerPublicKey) :=
  let* w := Computation.get_worker gatekeeper in
  match w with
  | Some worker_info =>
      let gatekeepers := gatekeepers ++ [gatekeeper] in
      upd_registry (set_Gatekeepers gatekeepers);;;
      (if bool_decide (length gatekeepers = 1%nat) then
         Mq.queue_bound_message GatekeeperLaunch_topic message_origin
           (encode_GatekeeperLaunch (FirstGatekeeper gatekeeper (wi_ecdh_pubkey worker_info)))
       else
         Mq.queue_bound_message GatekeeperChange_topic message_origin
           (encode_GatekeeperChange (GkRegistered gatekeeper (wi_ecdh_pubkey worker_info))));;;
      mret gatekeepers
  | None => mret gatekeepers
  end.

Definition genesis_build (workers : list (WorkerPublicKey * bytes * option AccountId))
    (gatekeepers : list WorkerPublicKey) (benchmark_duration : Z) : R unit :=
  for_each workers (genesis_worker benchmark_duration);;;
  let* _ := for_fold gatekeepers [] genesis_gatekeeper in
  mret tt.

End Pallet.
End Registry.
