(* ===== verification/Phat.v ===== *)
(** * Phat contract clusters: pallets/cyrux/src/phat.rs

    Clusters of workers, the contracts in them, and the messages with which
    the gatekeepers, clusters and workers report keys and deployments.
    [contract_id] and [command_topic] are crates/cyrux-types/src/contract.rs. *)
From stdpp Require Import prelude gmap list strings.
From Stdlib Require Import ZArith Lia.
From S2P Require Import Prelude Types Externals Mq Computation Registry.

Definition contract_id_preimage (deployer code_hash cluster_id salt : bytes) : bytes :=
  deployer ++ code_hash ++ cluster_id ++ salt.

Definition contract_id {cfg : Config} {codec : Codec} (i : ContractInfo) : H256 :=
  blake2_256 (contract_id_preimage (account_bytes (deployer i)) (h256_bytes (code_index i))
    (h256_bytes (cluster_id i)) (salt i)).

(** [hex::encode] *)
Definition hex_digit (n : Z) : Z := if n <? 10 then 48 + n else 87 + n.
Definition hex_encode (b : bytes) : bytes := b ≫= (fun x => [hex_digit (x / 16); hex_digit (x mod 16)]).

Definition command_topic {cfg : Config} {codec : Codec} (id : H256) : Topic :=
  bytes_of_string "cyrux/contract/" ++ hex_encode (h256_bytes id) ++ bytes_of_string "/command".

Module Phat.
Import PhatT.

Section Pallet.
Context {cfg : Config} {codec : Codec} {pal : Pallets} {notify : QueueNotifyConfig}.

Definition message_origin : MessageOrigin := Pallet (bytes_of_string "cyruxPhatContracts").

Definition push_cluster_event (e : ClusterEvent) : R unit :=
  Mq.push_bound_message ClusterEvent_topic message_origin (encode_ClusterEvent e).
Definition push_cluster_operation (e : ClusterOperation) : R unit :=
  Mq.push_bound_message ClusterOperation_topic message_origin (encode_ClusterOperation e).
Definition push_contract_operation (e : ContractOperation) : R unit :=
  Mq.push_bound_message ContractOperation_topic message_origin (encode_ContractOperation e).

Definition emit (e : Event) : R unit := deposit_event (PhatEv e).
Definition check (b : bool) (e : Error) : R unit := ensure b (PhatError e).

Definition check_cluster_permission (deployer : AccountId) (cluster : ClusterInfo) : bool :=
  match permission cluster with
  | Public => true
  | OnlyOwner owner => bool_decide (deployer = owner)
  end.

Definition cluster_account (cluster : H256) : AccountId :=
  account_of_h256 (blake2_256 (bytes_of_string "cluster:" ++ h256_bytes cluster)).

Definition get_cluster (cluster : H256) : R ClusterInfo :=
  let* p := gets phat in
  ok_or (Clusters p !! cluster) (PhatError ClusterNotFound).

Definition put_cluster (cluster : H256) (info : ClusterInfo) : R unit :=
  upd_phat (fun p => set_Clusters (<[cluster := info]> (Clusters p)) p).

Definition assign_worker (worker : WorkerPublicKey) (cluster : H256) : R unit :=
  upd_phat (fun p => set_ClusterByWorkers (<[worker := cluster]> (ClusterByWorkers p)) p).

Definition put_cluster_workers (cluster : H256) (l : list WorkerPublicKey) : R unit :=
  upd_phat (fun p => set_ClusterWorkers (<[cluster := l]> (ClusterWorkers p)) p).

Definition workers_of (cluster : H256) (p : Store) : list WorkerPublicKey :=
  default [] (ClusterWorkers p !! cluster).

(** The identities of registered workers *)
Definition worker_identities (l : list WorkerPublicKey) (r : RegistryT.Store) :
    option (list (WorkerPublicKey * EcdhPublicKey)) :=
  mapM (fun k => w ← RegistryT.Workers r !! k; Some (wi_pubkey w, wi_ecdh_pubkey w)) l.

(** ** Clusters *)
Definition add_cluster (origin : Origin) (owner : AccountId) (permission : ClusterPermission)
    (deploy_workers : list WorkerPublicKey) (deposit gas_price deposit_per_item deposit_per_byte : Balance)
    (treasury_account : AccountId) : R unit :=
  Registry.ensure_governance origin;;;
  check (negb (bool_decide (deploy_workers = []))) NoWorkerSpecified;;;
  let* r := gets registry in
  let* workers := ok_or (worker_identities deploy_workers r) (PhatError WorkerNotFound) in
  let* p := gets phat in
  let* cluster := arith 64 (ClusterCounter p + 1) in
  upd_phat (set_ClusterCounter cluster);;;
  for_each deploy_workers (fun worker =>
    let* p := gets phat in
    check (bool_decide (ClusterByWorkers p !! worker = None)) WorkerIsBusy;;;
    assign_worker worker cluster);;;
  put_cluster_workers cluster deploy_workers;;;
  let* p := gets phat in
  let* system_code_hash := ok_or (PinkSystemCodeHash p) (PhatError NoPinkSystemCode) in
  let system_contract :=
    contract_id (mkContractInfo owner system_code_hash [] cluster [237; 75; 157; 27]) in
  put_cluster cluster
    (mkClusterInfo owner permission system_contract gas_price deposit_per_item deposit_per_byte);;;
  emit (ClusterCreated cluster system_contract);;;
  extc (currency_transfer owner (cluster_account cluster) deposit true);;;
  push_cluster_event (DeployCluster owner cluster workers deposit gas_price deposit_per_item deposit_per_byte
    treasury_account).

Definition size_limit (t : ResourceType) : Z :=
  match t with
  | InkCode => InkCodeSizeLimit
  | SidevmCode => SidevmCodeSizeLimit
  | IndeterministicInkCode => InkCodeSizeLimit
  end.

Definition cluster_upload_resource (origin : Origin) (cluster : H256) (resource_type : ResourceType)
    (resource_data : bytes) : R unit :=
  let* who := ensure_signed origin in
  let* cluster_info := get_cluster cluster in
  check (check_cluster_permission who cluster_info) ClusterPermissionDenied;;;
  check (Z.of_nat (length resource_data) <=? size_limit resource_type) PayloadTooLarge;;;
  push_cluster_operation (UploadResource who cluster resource_type resource_data).

Definition transfer_to_cluster (origin : Origin) (amount : Balance) (cluster : H256) (dest_account : AccountId) :
    R unit :=
  let* user := ensure_signed origin in
  extc (currency_transfer user (cluster_account cluster) amount true);;;
  push_cluster_operation (Deposit cluster (into_h256 dest_account) amount);;;
  emit (Transfered cluster (into_h256 dest_account) amount).

Definition push_contract_message (origin : Origin) (contract : H256) (payload : bytes) (deposit : Balance) : R unit :=
  let* user := ensure_signed origin in
  (if deposit =? 0 then mret tt
   else
     let* p := gets phat in
     let* info := ok_or (Contracts p !! contract) (PhatError ContractNotFound) in
     transfer_to_cluster origin deposit (bc_cluster info) user);;;
  Mq.push_message origin (command_topic contract) payload.

Definition instantiate_contract (origin : Origin) (code_index : H256) (data salt : bytes) (cluster : H256)
    (transfer : Balance) (gas_limit : Z) (storage_deposit_limit : option Balance) (deposit : Balance) : R unit :=
  let* who := ensure_signed origin in
  let* cluster_info := get_cluster cluster in
  check (check_cluster_permission who cluster_info) ClusterPermissionDenied;;;
  (if deposit =? 0 then mret tt else transfer_to_cluster origin deposit cluster who);;;
  let contract_info := mkContractInfo who code_index salt cluster data in
  let id := contract_id contract_info in
  let* p := gets phat in
  check (bool_decide (Contracts p !! id = None)) DuplicatedContract;;;
  upd_phat (fun p => set_Contracts (<[id := mkBasicContractInfo who cluster]> (Contracts p)) p);;;
  push_contract_operation (InstantiateCode contract_info transfer gas_limit storage_deposit_limit);;;
  emit (Instantiating id cluster who).

Definition cluster_destroy (origin : Origin) (cluster : H256) : R unit :=
  ensure_root origin;;;
  let* info := get_cluster cluster in
  upd_phat (fun p => set_Clusters (delete cluster (Clusters p)) p);;;
  push_cluster_operation (DestroyCluster cluster);;;
  emit (ClusterDestroyed cluster).

Definition set_pink_system_code (origin : Origin) (code : bytes) : R unit :=
  Registry.ensure_governance origin;;;
  upd_phat (set_NextPinkSystemCode (Some code)).

Definition set_pink_runtime_version (origin : Origin) (version : Z * Z) : R unit :=
  Registry.ensure_governance origin;;;
  upd_phat (set_PinkRuntimeVersion (Some version)).

Definition add_worker_to_cluster (origin : Origin) (worker : WorkerPublicKey) (cluster : H256) : R unit :=
  let* who := ensure_signed origin in
  let* cluster_info := get_cluster cluster in
  check (bool_decide (cl_owner cluster_info = who)) ClusterPermissionDenied;;;
  let* w := Computation.get_worker worker in
  check (bool_decide (is_Some w)) WorkerNotFound;;;
  let* p := gets phat in
  check (bool_decide (ClusterByWorkers p !! worker = None)) WorkerIsBusy;;;
  assign_worker worker cluster;;;
  put_cluster_workers cluster (workers_of cluster p ++ [worker]);;;
  put_cluster cluster cluster_info;;;
  emit (WorkerAddedToCluster worker cluster).

Definition remove_worker_from_cluster (origin : Origin) (worker : WorkerPublicKey) (cluster : H256) : R unit :=
  let* who := ensure_signed origin in
  let* cluster_info := get_cluster cluster in
  check (bool_decide (cl_owner cluster_info = who)) ClusterPermissionDenied;;;
  let* p := gets phat in
  check (bool_decide (ClusterByWorkers p !! worker = Some cluster)) WorkerNotFound;;;
  assign_worker worker 0;;;
  put_cluster_workers cluster (filter (fun k => k <> worker) (workers_of cluster p));;;
  emit (WorkerRemovedFromCluster worker cluster);;;
  push_cluster_operation (RemoveWorker cluster worker).

Definition cleanup_removed_workers (origin : Origin) (cluster : H256) : R unit :=
  ensure_root origin;;;
  let* p := gets phat in
  put_cluster_workers cluster (filter (fun k => ClusterByWorkers p !! k <> Some 0) (workers_of cluster p)).

(** ** Messages *)
Definition on_cluster_message_received (m : DecodedMessage ClusterRegistryEvent) : R unit :=
  check (bool_decide (dm_sender m = Gatekeeper)) InvalidSender;;;
  let '(ClusterPubkey cluster pubkey) := dm_payload m in
  upd_registry (fun r => RegistryT.set_ClusterKeys (<[cluster := pubkey]> (RegistryT.ClusterKeys r)) r);;;
  emit (ClusterPubkeyAvailable cluster pubkey).

Definition on_contract_message_received (m : DecodedMessage ContractRegistryEvent) : R unit :=
  match dm_sender m with
  | Cluster cluster =>
      let '(ContractPubkey contract pubkey deployer) := dm_payload m in
      upd_registry (fun r => RegistryT.set_ContractKeys (<[contract := pubkey]> (RegistryT.ContractKeys r)) r);;;
      emit (ContractPubkeyAvailable contract cluster pubkey);;;
      upd_phat (fun p => set_ClusterContracts
        (<[cluster := default [] (ClusterContracts p !! cluster) ++ [contract]]> (ClusterContracts p)) p);;;
      upd_phat (fun p => match Contracts p !! contract with
        | Some _ => p
        | None => set_Contracts
            (<[contract := mkBasicContractInfo (account_of_h256 deployer) cluster]> (Contracts p)) p
        end);;;
      emit (Instantiated contract cluster deployer)
  | _ => fail (PhatError InvalidSender)
  end.

Definition on_worker_cluster_message_received (m : DecodedMessage WorkerClusterReport) : R unit :=
  match dm_sender m with
  | Worker worker =>
      match dm_payload m with
      | ClusterDeployedReport id pubkey => emit (ClusterDeployed id pubkey worker)
      | ClusterDeploymentFailedReport id => emit (ClusterDeploymentFailed id worker)
      end
  | _ => fail (PhatError InvalidSender)
  end.

Definition get_system_contract (contract : H256) (p : Store) : option H256 :=
  i ← Contracts p !! contract; c ← Clusters p !! bc_cluster i; Some (system_contract c).

(** The hook at the start of a block *)
Definition on_initialize : R unit :=
  let* p := gets phat in
  match NextPinkSystemCode p with
  | None => mret tt
  | Some next_code =>
      upd_phat (set_NextPinkSystemCode None);;;
      upd_phat (set_PinkSystemCodeHash (Some (blake2_256 next_code)));;;
      let* ver := arith 16 ((PinkSystemCode p).1 + 1) in
      upd_phat (set_PinkSystemCode (ver, next_code))
  end.

End Pallet.
End Phat.
