(* ===== verification/MsgRouting.v ===== *)
(** * Routing of messages: standalone/runtime/src/msg_routing.rs

    The [QueueNotifyConfig] of the runtime.  A handler may push messages, which
    are routed again; [route] is the router with a bound on that nesting. *)
From stdpp Require Import prelude gmap list strings.
From Stdlib Require Import ZArith Lia.
From S2P Require Import Prelude Types Externals Mq Computation Registry Phat BasePool StakePool.

Module MsgRouting.
Section Router.
Context {cfg : Config} {F : FixedLib} {codec : Codec} {pal : Pallets}.

(** [topic] is [Msg::topic()], [decode] is [Msg::decode]. *)
Definition try_dispatch {Msg} (topic : Topic) (decode : bytes -> option Msg) (func : DecodedMessage Msg -> R unit)
    (m : Message) : R unit :=
  if bool_decide (destination m = topic) then
    let* msg := ok_or (decode (payload m)) MessageCodecError in
    func (mkDecodedMessage (sender m) (destination m) msg)
  else mret tt.

(** [MessageRouteConfig::on_message_received]; [inner] routes what the handlers push. *)
Definition route_handlers (inner : QueueNotifyConfig) (m : Message) : R unit :=
  try_dispatch RegistryEvent_topic decode_RegistryEvent
    (Registry.on_message_received (notify := inner)) m;;;
  try_dispatch GatekeeperRegistryEvent_topic decode_GatekeeperRegistryEvent
    (Registry.on_gk_message_received (notify := inner)) m;;;
  try_dispatch WorkingInfoUpdateEvent_topic decode_WorkingInfoUpdateEvent
    (Computation.on_gk_message_received (notify := inner) (hooks := StakePool.stake_pool_hooks)) m;;;
  try_dispatch WorkingReportEvent_topic decode_WorkingReportEvent Computation.on_working_message_received m;;;
  try_dispatch WorkerClusterReport_topic decode_WorkerClusterReport Phat.on_worker_cluster_message_received m;;;
  try_dispatch ClusterRegistryEvent_topic decode_ClusterRegistryEvent Phat.on_cluster_message_received m;;;
  try_dispatch ContractRegistryEvent_topic decode_ContractRegistryEvent Phat.on_contract_message_received m.

Fixpoint route (depth : nat) : QueueNotifyConfig :=
  match depth with
  | O => {| on_message_received _ := fun _ => NoFuel |}
  | S d => {| on_message_received := route_handlers (route d) |}
  end.

(** No handler pushes a message that has a handler, so two levels are enough. *)
Definition MessageRouteConfig : QueueNotifyConfig := route 2.

(** The topics with a handler *)
Definition routed_topics : list Topic :=
  [RegistryEvent_topic; GatekeeperRegistryEvent_topic; WorkingInfoUpdateEvent_topic; WorkingReportEvent_topic;
   WorkerClusterReport_topic; ClusterRegistryEvent_topic; ContractRegistryEvent_topic].

End Router.
End MsgRouting.
