(* ===== verification/RoutingProps.v ===== *)
(** * Properties of message routing

    The router of the runtime meets what the queue and the pallets ask of it,
    and messages that accounts push have no handler's effect. *)
From stdpp Require Import prelude gmap list strings.
From Stdlib Require Import ZArith Lia.
From S2P Require Import Prelude Types Externals BalanceConvert Reference Mq Computation ComputationInv.
From S2P Require Import BasePool BasePoolFacts WrappedBalances StakePool Registry Phat MsgRouting.

Module RoutingProps.
Import MsgRouting.

Section Router.
Context {cfg : Config} {F : FixedLib} {codec : Codec} {pal : Pallets}.

Lemma try_dispatch_other {Msg} t decode (f : DecodedMessage Msg -> R unit) m s :
  destination m <> t -> try_dispatch t decode f m s = Ok tt s.
Proof. intros H. unfold try_dispatch. by rewrite bool_decide_eq_false_2. Qed.

Lemma route_quiet d m s : destination m ∉ routed_topics -> on_message_received (QueueNotifyConfig := route (S d)) m s = Ok tt s.
Proof.
  intros H. unfold routed_topics in H. simpl. unfold route_handlers, mbind.
  repeat (rewrite !not_elem_of_cons in H). destruct H as (H1 & H2 & H3 & H4 & H5 & H6 & H7 & _).
  by rewrite !try_dispatch_other by done.
Qed.

Lemma route_quiet_topic d t : bool_decide (t ∉ routed_topics) = true -> QuietTopic (route (S d)) t.
Proof. intros H m s <-. apply bool_decide_eq_true in H. by apply route_quiet. Qed.

#[export] Instance route_SystemEvent d : QuietTopic (route (S d)) SystemEvent_topic.
Proof. by apply route_quiet_topic. Qed.
#[export] Instance route_GatekeeperEvent d : QuietTopic (route (S d)) GatekeeperEvent_topic.
Proof. by apply route_quiet_topic. Qed.
#[export] Instance route_GatekeeperLaunch d : QuietTopic (route (S d)) GatekeeperLaunch_topic.
Proof. by apply route_quiet_topic. Qed.
#[export] Instance route_GatekeeperChange d : QuietTopic (route (S d)) GatekeeperChange_topic.
Proof. by apply route_quiet_topic. Qed.
#[export] Instance route_ClusterEvent d : QuietTopic (route (S d)) ClusterEvent_topic.
Proof. by apply route_quiet_topic. Qed.
#[export] Instance route_ClusterOperation d : QuietTopic (route (S d)) ClusterOperation_topic.
Proof. by apply route_quiet_topic. Qed.
#[export] Instance route_ContractOperation d : QuietTopic (route (S d)) ContractOperation_topic.
Proof. by apply route_quiet_topic. Qed.

(** ** Nesting *)
Lemma same_push n n' t o p : QuietTopic n t -> QuietTopic n' t ->
  same (Mq.push_bound_message (notify := n) t o p) (Mq.push_bound_message (notify := n') t o p).
Proof. intros H H' s. by rewrite !MqFacts.push_bound_message_quiet. Qed.

End Router.
#[export] Hint Extern 1 (same (Mq.push_bound_message _ _ _) _) => apply same_push; apply _ : same.

Section Nesting.
Context {cfg : Config} {F : FixedLib} {codec : Codec} {pal : Pallets}.

Lemma same_registry d m :
  same (Registry.on_message_received (notify := route (S d)) m)
    (Registry.on_message_received (notify := route 1) m).
Proof.
  unfold Registry.on_message_received, Registry.on_bench_report, Registry.on_master_pubkey,
    Registry.push_system_event, Registry.push_launch. solve_same.
Qed.

Lemma same_registry_gk d m :
  same (Registry.on_gk_message_received (notify := route (S d)) m)
    (Registry.on_gk_message_received (notify := route 1) m).
Proof. unfold Registry.on_gk_message_received, Registry.push_launch. solve_same. Qed.

Lemma same_computation_gk d m :
  same (Computation.on_gk_message_received (notify := route (S d)) (hooks := StakePool.stake_pool_hooks) m)
    (Computation.on_gk_message_received (notify := route 1) (hooks := StakePool.stake_pool_hooks) m).
Proof.
  unfold Computation.on_gk_message_received, Computation.set_responsive, Computation.push_system_event. solve_same.
Qed.

Lemma same_try_dispatch {Msg} t decode (f f' : DecodedMessage Msg -> R unit) m :
  (forall x, same (f x) (f' x)) -> same (try_dispatch t decode f m) (try_dispatch t decode f' m).
Proof. intros Hf. unfold try_dispatch. destruct (bool_decide _); [|done]. by apply same_bind. Qed.

Lemma route_depth d m : same (route_handlers (route (S d)) m) (route_handlers (route 1) m).
Proof.
  pose proof same_registry. pose proof same_registry_gk. pose proof same_computation_gk.
  unfold route_handlers. repeat (apply same_bind; [|intros []]); try apply same_refl; by apply same_try_dispatch.
Qed.

End Nesting.

(** ** What the pool code leaves alone *)
Section Outside.
Context {cfg : Config} {F : FixedLib} {codec : Codec} {pal : Pallets}.

Definition outside (s : State) := (block_number s, unix_time_ms s, mq s, registry s, computation s, phat s).

Lemma keeps_view {A T T'} (f : State -> T) (g : State -> T') (m : R A) :
  (forall s s', g s' = g s -> f s' = f s) -> keeps g m -> keeps f m.
Proof. intros Hf Hm s. eapply keeps_wp; [done|exact Hm|eauto|eauto]. Qed.

Import (hints) BasePoolFacts.

Lemma outside_read_nft c n : keeps outside (BasePool.read_nft c n).
Proof.
  unfold BasePool.read_nft, BasePool.get_nft_attr_guard, BasePool.get_nft_attr, BasePool.release, upd_base_pool.
  solve_keeps.
Qed.

Lemma outside_merge c a p : keeps outside (BasePool.merge_nft_for_staker c a p).
Proof.
  pose proof outside_read_nft.
  unfold BasePool.merge_nft_for_staker, BasePool.mint_nft, BasePool.set_nft_attr, BasePool.set_nft_desc_attr,
    BasePool.get_next_nft_id, BasePool.burn_nft, BasePool.remove_properties, upd_base_pool. solve_keeps.
Qed.

Lemma outside_distribute n p x : keeps outside (BasePool.distribute_reward n p x).
Proof.
  pose proof outside_read_nft. pose proof outside_merge.
  revert p x. induction n as [|n IH]; intros p x; simpl; [by intros s|].
  unfold BasePool.put_pool, upd_base_pool. solve_keeps.
Qed.

Lemma outside_mint_into a x : keeps outside (WrappedBalances.mint_into a x).
Proof. unfold WrappedBalances.mint_into, upd_wrapped. solve_keeps. Qed.

Lemma on_reward_outside l : keeps outside (StakePool.on_reward l).
Proof.
  pose proof outside_distribute. pose proof outside_mint_into.
  unfold StakePool.on_reward, StakePool.handle_pool_new_reward, Computation.withdraw_subsidy_pool,
    StakePool.put_stake_pool, StakePool.emit, BasePool.put_pool, upd_base_pool, deposit_event.
  solve_keeps.
Qed.

Lemma on_unbound_outside k b : keeps outside (StakePool.on_unbound k b).
Proof.
  unfold StakePool.on_unbound, StakePool.remove_worker_from_pool, StakePool.put_stake_pool, StakePool.emit,
    BasePool.put_pool, upd_base_pool, upd_stake_pool, deposit_event. solve_keeps.
Qed.

End Outside.

(** ** What the handlers do to the queue *)
Section Queue.
Context {cfg : Config} {F : FixedLib} {codec : Codec} {pal : Pallets}.

(** The queue of a storage reached from [q] by pushing messages *)
Definition pushed_from (q : MqT.Store) (s : State) : Prop :=
  MqT.OffchainIngress (mq s) = MqT.OffchainIngress q /\
  MqT.QueuedOutboundMessage (mq s) = MqT.QueuedOutboundMessage q /\
  MqT.OutboundMessages q `prefix_of` MqT.OutboundMessages (mq s).

Lemma pushed_from_push (n : QueueNotifyConfig) q t o p :
  QuietTopic n t -> preserves (pushed_from q) (Mq.push_bound_message (notify := n) t o p).
Proof.
  intros Hq s (H1 & H2 & H3). unfold wp. rewrite MqFacts.push_bound_message_quiet by done.
  destruct (topic_is_offchain t); [|done]. split_and!; [done..|]. simpl. by apply prefix_app_r.
Qed.

Lemma pushed_from_outside {A} q (m : R A) : keeps outside m -> preserves (pushed_from q) m.
Proof. apply keeps_preserves. unfold pushed_from, outside. by intros s s' [= _ _ -> _ _ _]. Qed.

End Queue.
#[export] Hint Extern 1 (preserves (pushed_from _) (Mq.push_bound_message _ _ _)) =>
  apply pushed_from_push; apply _ : preserves.
#[export] Hint Extern 3 (preserves (pushed_from _) (StakePool.on_reward _)) =>
  apply pushed_from_outside, on_reward_outside : preserves.
#[export] Hint Extern 3 (preserves (pushed_from _) (extc _)) =>
  apply pushed_from_outside, keeps_extc; reflexivity : preserves.

Section Handlers.
Context {cfg : Config} {F : FixedLib} {codec : Codec} {pal : Pallets}.
Import (hints) BasePoolFacts.

Lemma registry_pushes d q m : preserves (pushed_from q) (Registry.on_message_received (notify := route (S d)) m).
Proof.
  unfold Registry.on_message_received, Registry.on_bench_report, Registry.on_master_pubkey,
    Registry.on_gatekeeper_launched, Registry.push_system_event, Registry.push_launch, Registry.put_worker,
    Registry.check, Registry.emit, Computation.get_worker, now_sec, now_millis, upd_registry, deposit_event.
  solve_preserves.
Qed.

Lemma registry_gk_pushes d q m : preserves (pushed_from q) (Registry.on_gk_message_received (notify := route (S d)) m).
Proof.
  unfold Registry.on_gk_message_received, Registry.push_launch, Registry.emit, upd_registry, deposit_event.
  solve_preserves.
Qed.

Lemma computation_gk_pushes d q m : preserves (pushed_from q)
  (Computation.on_gk_message_received (notify := route (S d)) (hooks := StakePool.stake_pool_hooks) m).
Proof.
  unfold Computation.on_gk_message_received, Computation.set_responsive, Computation.try_handle_settle,
    Computation.push_system_event, Computation.stats_on_reward, Computation.get_session, Computation.put_session,
    Computation.ensure_worker_bound, Computation.withdraw_imbalance_from_subsidy_pool, Computation.emit,
    now_sec, upd_computation, deposit_event.
  cbn [hook_on_reward StakePool.stake_pool_hooks]. solve_preserves.
Qed.

Lemma computation_pushes q m : preserves (pushed_from q) (Computation.on_working_message_received m).
Proof.
  unfold Computation.on_working_message_received, Computation.on_heartbeat, Computation.benchmark_update,
    Computation.ensure_worker_bound, Computation.get_session, Computation.put_session, Computation.get_worker,
    Computation.emit, now_sec, upd_computation, deposit_event.
  solve_preserves.
Qed.

Lemma phat_cluster_pushes q m : preserves (pushed_from q) (Phat.on_cluster_message_received m).
Proof.
  unfold Phat.on_cluster_message_received, Phat.check, Phat.emit, upd_registry, deposit_event. solve_preserves.
Qed.

Lemma phat_contract_pushes q m : preserves (pushed_from q) (Phat.on_contract_message_received m).
Proof.
  unfold Phat.on_contract_message_received, Phat.emit, upd_registry, upd_phat, deposit_event. solve_preserves.
Qed.

Lemma phat_worker_pushes q m : preserves (pushed_from q) (Phat.on_worker_cluster_message_received m).
Proof. unfold Phat.on_worker_cluster_message_received, Phat.emit, deposit_event. solve_preserves. Qed.

Lemma dispatch_pushes {Msg} q t decode (f : DecodedMessage Msg -> R unit) m :
  (forall x, preserves (pushed_from q) (f x)) -> preserves (pushed_from q) (try_dispatch t decode f m).
Proof. intros Hf. unfold try_dispatch. solve_preserves. Qed.

Lemma route_pushes d q m : preserves (pushed_from q) (route_handlers (route (S d)) m).
Proof.
  unfold route_handlers. repeat (apply preserves_bind; [|intros []]); apply dispatch_pushes; intros x.
  - apply registry_pushes.
  - apply registry_gk_pushes.
  - apply computation_gk_pushes.
  - apply computation_pushes.
  - apply phat_worker_pushes.
  - apply phat_cluster_pushes.
  - apply phat_contract_pushes.
Qed.

End Handlers.

(** ** The interfaces, for the runtime *)
Section Interfaces.
Context {cfg : Config} {F : FixedLib} {codec : Codec} {pal : Pallets}.

Lemma route_queue m s :
  wp True (on_message_received (QueueNotifyConfig := MessageRouteConfig) m)
    (fun _ s' => pushed_from (mq s) s') (fun _ s' => pushed_from (mq s) s') s.
Proof. by apply (route_pushes 0). Qed.

#[export] Instance message_route_spec : QueueNotifySpec MessageRouteConfig.
Proof.
  split; intros m s; (eapply wp_mono; [apply route_queue| |]); by intros ? s' (? & ? & ?).
Qed.

#[export] Instance stake_pool_hooks_spec : ComputationHooksSpec StakePool.stake_pool_hooks.
Proof.
  split; intros; apply (keeps_view _ outside); try (unfold outside; by intros s s' [= _ _ _ -> -> _]).
  - apply on_reward_outside.
  - apply on_unbound_outside.
  - apply keeps_ret.
Qed.

End Interfaces.

(** ** Sender checks

    A message from an account reaches no storage: every handler tests who sent
    it first. *)
Section Accounts.
Context {cfg : Config} {F : FixedLib} {codec : Codec} {pal : Pallets}.

Definition inert (m : R unit) : Prop := forall s, m s = Ok tt s \/ exists e, m s = Err e s.

Lemma inert_fail e : inert (fail e).
Proof. intros s. right. by exists e. Qed.

Lemma inert_bind m (k : unit -> R unit) : inert m -> inert (k tt) -> inert (mbind m k).
Proof.
  intros Hm Hk s. unfold mbind. destruct (Hm s) as [->|[e ->]]; [apply Hk|]. right. by exists e.
Qed.

Lemma dispatch_inert {Msg} t decode (f : DecodedMessage Msg -> R unit) m :
  (forall x, dm_sender x = sender m -> inert (f x)) -> inert (try_dispatch t decode f m).
Proof.
  intros Hf s. unfold try_dispatch. case_bool_decide; [|by left].
  unfold mbind, ok_or. destruct (decode (payload m)); [by apply Hf|apply inert_fail].
Qed.

Lemma route_inert n m h : sender m = AccountIdOrigin h -> inert (route_handlers n m).
Proof.
  intros Hm. unfold route_handlers. repeat (apply inert_bind); apply dispatch_inert; intros x Hx; rewrite Hm in Hx.
  - unfold Registry.on_message_received. rewrite Hx. apply inert_fail.
  - unfold Registry.on_gk_message_received. rewrite Hx. apply inert_fail.
  - unfold Computation.on_gk_message_received. rewrite Hx. apply inert_fail.
  - unfold Computation.on_working_message_received. rewrite Hx. by left.
  - unfold Phat.on_worker_cluster_message_received. rewrite Hx. apply inert_fail.
  - unfold Phat.on_cluster_message_received, Phat.check. rewrite Hx.
    rewrite bool_decide_eq_false_2 by done. intros s. right. by eexists.
  - unfold Phat.on_contract_message_received. rewrite Hx. apply inert_fail.
Qed.

End Accounts.

(** ** Properties *)
Section Properties.
Context {cfg : Config} {F : FixedLib} {codec : Codec} {pal : Pallets}.

(** The handler of a message, with the payload decoded *)
Definition decoded {Msg} (decode : bytes -> option Msg) (f : DecodedMessage Msg -> R unit) (m : Message) : R unit :=
  match decode (payload m) with
  | Some msg => f (mkDecodedMessage (sender m) (destination m) msg)
  | None => fail MessageCodecError
  end.

Definition handler_of (m : Message) : option (R unit) :=
  let t := destination m in
  if bool_decide (t = RegistryEvent_topic) then
    Some (decoded decode_RegistryEvent (Registry.on_message_received (notify := MessageRouteConfig)) m)
  else if bool_decide (t = GatekeeperRegistryEvent_topic) then
    Some (decoded decode_GatekeeperRegistryEvent (Registry.on_gk_message_received (notify := MessageRouteConfig)) m)
  else if bool_decide (t = WorkingInfoUpdateEvent_topic) then
    Some (decoded decode_WorkingInfoUpdateEvent (Computation.on_gk_message_received
      (notify := MessageRouteConfig) (hooks := StakePool.stake_pool_hooks)) m)
  else if bool_decide (t = WorkingReportEvent_topic) then
    Some (decoded decode_WorkingReportEvent Computation.on_working_message_received m)
  else if bool_decide (t = WorkerClusterReport_topic) then
    Some (decoded decode_WorkerClusterReport Phat.on_worker_cluster_message_received m)
  else if bool_decide (t = ClusterRegistryEvent_topic) then
    Some (decoded decode_ClusterRegistryEvent Phat.on_cluster_message_received m)
  else if bool_decide (t = ContractRegistryEvent_topic) then
    Some (decoded decode_ContractRegistryEvent Phat.on_contract_message_received m)
  else None.

Lemma try_dispatch_hit {Msg} t decode (f f' : DecodedMessage Msg -> R unit) m s :
  destination m = t -> (forall x, same (f x) (f' x)) ->
  try_dispatch t decode f m s = decoded decode f' m s.
Proof.
  intros Ht Hf. unfold try_dispatch, decoded. rewrite bool_decide_eq_true_2 by done.
  unfold mbind, ok_or. destruct (decode (payload m)); [apply Hf|done].
Qed.

(** Closed topics are told apart by computation. *)
Ltac routed_away := first [done | match goal with H : destination _ = _ |- _ => rewrite H; discriminate end].

Ltac same_handler :=
  lazymatch goal with
  | |- same (Registry.on_message_received _) _ => intro; symmetry; apply (same_registry 1)
  | |- same (Registry.on_gk_message_received _) _ => intro; symmetry; apply (same_registry_gk 1)
  | |- same (Computation.on_gk_message_received _) _ => intro; symmetry; apply (same_computation_gk 1)
  | |- same _ _ => apply same_refl
  end.

Ltac skip_handler :=
  match goal with
  | |- context [try_dispatch ?t ?d ?f ?m ?s] =>
      rewrite (try_dispatch_other t d f m s) by routed_away
  end.

(** The router runs exactly one handler for a message, the one bound to
    its topic, on the decoded payload; it fails with the codec error if the
    payload does not decode, and does nothing on a topic without a handler.
    What handlers push is routed by the same router. *)
Theorem route_one_handler m s :
  on_message_received (QueueNotifyConfig := MessageRouteConfig) m s =
  match handler_of m with Some h => h s | None => Ok tt s end.
Proof.
  change (route_handlers (route 1) m s = match handler_of m with Some h => h s | None => Ok tt s end).
  unfold handler_of. repeat case_bool_decide; unfold route_handlers, mbind.
  all: repeat skip_handler.
  1-7: lazymatch goal with |- _ = decoded ?d ?f ?m ?s =>
    erewrite (try_dispatch_hit _ d _ f m s) by (assumption || (intros; same_handler)) end.
  1-7: match goal with |- context [decoded ?d ?f ?m ?s] => destruct (decoded d f m s) as [[] ?|?| |] end; try reflexivity.
  all: repeat skip_handler; reflexivity.
Qed.

(** A message that an account pushes is only put in the outbound queue, and
    only if its topic is one workers listen to: whatever the topic and the
    payload, it changes no other storage, emits no event and cannot fail. *)
Theorem account_messages_inert who t p s :
  Mq.push_message (notify := MessageRouteConfig) (Signed who) t p s =
  Ok tt (if topic_is_offchain t
         then set_mq (MqT.set_OutboundMessages
                (MqT.OutboundMessages (mq s) ++ [mkMessage (AccountIdOrigin (into_h256 who)) t p]) (mq s)) s
         else s).
Proof.
  unfold Mq.push_message, ensure_signed, Mq.dispatch_message, mbind, mret, catch.
  set (m := mkMessage _ t p).
  assert (on_message_received (QueueNotifyConfig := MessageRouteConfig) m s = Ok tt s \/
    exists e, on_message_received (QueueNotifyConfig := MessageRouteConfig) m s = Err e s) as [->|[e ->]]
    by by apply (route_inert _ m (into_h256 who)).
  all: unfold Mq.should_push_message; simpl; by destruct (topic_is_offchain t).
Qed.

(** The router of the runtime is what the queue expects of its handlers:
    they leave the ingress counters and the next-block queue alone and only
    append to the outbound queue; the topics that pallets push to have no
    handler; and the stake pools, which listen to the computation pallet, leave
    its sessions and the registry alone. *)
Theorem runtime_discharges_interfaces :
  QueueNotifySpec MessageRouteConfig /\
  (forall t, t ∈ [SystemEvent_topic; GatekeeperEvent_topic; GatekeeperLaunch_topic; GatekeeperChange_topic;
     ClusterEvent_topic; ClusterOperation_topic; ContractOperation_topic] -> QuietTopic MessageRouteConfig t) /\
  ComputationHooksSpec StakePool.stake_pool_hooks.
Proof.
  split_and!; [apply _| |apply _]. intros t Ht. unfold MessageRouteConfig.
  repeat (apply elem_of_cons in Ht as [->|Ht]; [apply _|]). by apply not_elem_of_nil in Ht.
Qed.

End Properties.
End RoutingProps.
