(* ===== verification/RegistryProps.v ===== *)
(** * Properties of the registry

    Registration is attested, the gatekeeper set and the master key only change
    the way they should, and what workers report is bounded. *)
From stdpp Require Import prelude gmap list strings.
From Stdlib Require Import ZArith Lia.
From S2P Require Import Prelude Types Externals BalanceConvert Reference Mq Computation Attestation Registry.

Module RegistryProps.
Import RegistryT Registry.
Import Attestation (SgxIas, SgxDcap, AttestationReport).

(** ** Attestation *)
Section Attested.
Context {cfg : Config} {sgx : SgxAttestation}.

(** Confidence levels: 4 is a level 3 with an advisory that is not allowed. *)
Inductive confidence (status : string) (advisories : list string) : Z -> Prop :=
| confidence_1 : status ∈ Attestation.SGX_QUOTE_STATUS_LEVEL_1 -> confidence status advisories 1
| confidence_2 : status ∈ Attestation.SGX_QUOTE_STATUS_LEVEL_2 -> confidence status advisories 2
| confidence_3 : status ∈ Attestation.SGX_QUOTE_STATUS_LEVEL_3 ->
    (forall a, a ∈ advisories -> a ∈ Attestation.SGX_QUOTE_ADVISORY_ID_WHITELIST) -> confidence status advisories 3
| confidence_4 a : status ∈ Attestation.SGX_QUOTE_STATUS_LEVEL_3 ->
    a ∈ advisories -> a ∉ Attestation.SGX_QUOTE_ADVISORY_ID_WHITELIST -> confidence status advisories 4
| confidence_5 : status ∈ Attestation.SGX_QUOTE_STATUS_LEVEL_5 -> confidence status advisories 5.

Lemma advisories_level l :
  let f l id := if bool_decide (id ∈ Attestation.SGX_QUOTE_ADVISORY_ID_WHITELIST) then l else 4 in
  foldl f 4 l = 4 /\
  ((foldl f 3 l = 3 /\ forall a, a ∈ l -> a ∈ Attestation.SGX_QUOTE_ADVISORY_ID_WHITELIST) \/
   (foldl f 3 l = 4 /\ exists a, a ∈ l /\ a ∉ Attestation.SGX_QUOTE_ADVISORY_ID_WHITELIST)).
Proof.
  intros f. induction l as [|a l [IH4 IH3]]; simpl.
  - split; [done|left]. split; [done|]. intros a Ha. by apply not_elem_of_nil in Ha.
  - unfold f at 2 4 6. case_bool_decide as Ha.
    + split; [done|]. destruct IH3 as [[E H]|[E (b & Hb & Hn)]]; [left|right]; (split; [done|]).
      * intros b [->|Hb]%elem_of_cons; [done|by apply H].
      * exists b. split; [by right|done].
    + split; [done|right]. split; [done|]. exists a. split; [by left|done].
Qed.

Lemma confidence_of_sound status advisories level :
  Attestation.confidence_of status advisories = inr level -> confidence status advisories level.
Proof.
  unfold Attestation.confidence_of. repeat case_bool_decide; simpl; intros [= <-].
  - by apply confidence_1.
  - by apply confidence_2.
  - destruct (advisories_level advisories) as [_ [[-> H']|[-> (a & Ha & Hn)]]].
    + by apply confidence_3.
    + by apply (confidence_4 _ _ a).
  - by apply confidence_5.
Qed.

(** What an accepted attestation shows of the registration with hash [h] *)
Inductive attested (now : Z) (h : bytes) (allowed : list bytes) :
    option AttestationReport -> option AttestationProvider -> Z -> Prop :=
| attested_ias report sig cert parsed quote ts level :
    ias_verify_signature report sig cert now = true ->
    parse_ra_report report = Some parsed ->
    ra_timestamp parsed = Some ts -> now - ts < 7200 ->
    ra_quote parsed = Some quote -> take 32 (report_data quote) = h ->
    (VerifyPRuntime = true -> Attestation.extend_mrenclave quote ∈ allowed) ->
    confidence (isv_enclave_quote_status parsed) (ra_advisory_ids parsed) level ->
    attested now h allowed (Some (SgxIas report sig cert)) (Some Ias) level
| attested_dcap quote collateral data hash status advisories level :
    dcap_verify quote collateral now = Some (data, hash, status, advisories) ->
    take 32 data = h -> (VerifyPRuntime = true -> hash ∈ allowed) -> confidence status advisories level ->
    attested now h allowed (Some (SgxDcap quote (Some collateral))) (Some Dcap) level
| attested_none :
    NoneAttestationEnabled = true -> attested now h allowed None None 128.

Lemma rejected_false v allowed h :
  Attestation.rejected v allowed h = false -> v = true -> h ∈ allowed.
Proof.
  unfold Attestation.rejected. intros H ->. apply negb_false_iff in H. by apply bool_decide_eq_true in H.
Qed.

Lemma validate_sound a h now allowed r :
  Attestation.validate a h now VerifyPRuntime allowed NoneAttestationEnabled = inr r ->
  attested now h allowed a (Attestation.cr_provider r) (Attestation.cr_confidence_level r).
Proof.
  unfold Attestation.validate. destruct a as [[report sig cert|quote [collateral|]]|]; [| |done|].
  - unfold Attestation.validate_ias_report, Attestation.from_ias_report.
    destruct (ias_verify_signature _ _ _ _) eqn:Hs; [|done]. destruct (parse_ra_report report) as [p|] eqn:Hp; [|done].
    destruct (ra_timestamp p) as [ts|] eqn:Ht; [|done].
    destruct (Attestation.confidence_of _ _) as [|level] eqn:Hc; [done|].
    destruct (ra_quote p) as [q|] eqn:Hq; [|done]. simpl.
    destruct (Attestation.rejected _ _ _) eqn:Hr; [done|]. destruct (_ >=? _) eqn:Hn; [done|].
    case_bool_decide as Hh; [|done]. intros [= <-]. simpl.
    eapply attested_ias; eauto using confidence_of_sound, rejected_false. lia.
  - unfold Attestation.validate_dcap. destruct (dcap_verify _ _ _) as [[[[data hash] st] adv]|] eqn:Hd; [|done].
    destruct (Attestation.rejected _ _ _) eqn:Hr; [done|]. case_bool_decide as Hh; [|done]. simpl.
    destruct (Attestation.confidence_of _ _) as [|level] eqn:Hc; [done|]. intros [= <-].
    eapply attested_dcap; eauto using confidence_of_sound, rejected_false.
  - destruct NoneAttestationEnabled eqn:Hn; [|done]. intros [= <-]. by apply attested_none.
Qed.

End Attested.

(** ** The calls and messages of the pallet *)
Section Ops.
Context {cfg : Config} {codec : Codec} {pal : Pallets} {sgx : SgxAttestation} {notify : QueueNotifyConfig}.

Inductive op :=
| ForceSetBenchmarkDuration (origin : Origin) (value : Z)
| ForceRegisterWorker (origin : Origin) (k : WorkerPublicKey) (h : EcdhPublicKey) (o : option AccountId)
| ForceRegisterTopicPubkey (origin : Origin) (topic pubkey : bytes)
| RegisterGatekeeper (origin : Origin) (k : WorkerPublicKey)
| UnregisterGatekeeper (origin : Origin) (k : WorkerPublicKey)
| Rotate (origin : Origin)
| Register (origin : Origin) (info : WorkerRegistrationInfo) (report sig cert : bytes)
| RegisterV2 (origin : Origin) (info : WorkerRegistrationInfoV2) (att : option AttestationReport)
| UpdateEndpoint (origin : Origin) (p : WorkerEndpointPayload) (sig : bytes)
| AddPRuntime (origin : Origin) (h : bytes)
| RemovePRuntime (origin : Origin) (h : bytes)
| AddGenesis (origin : Origin) (h : H256)
| RemoveGenesis (origin : Origin) (h : H256)
| SetMinimumVersion (origin : Origin) (major minor patch : Z)
| SetConsensusVersion (origin : Origin) (v : Z)
| SetNtpServers (origin : Origin) (l : list bytes)
| WorkerMessage (m : DecodedMessage RegistryEvent)
| GatekeeperMessage (m : DecodedMessage GatekeeperRegistryEvent).

Definition run_op (o : op) : R unit :=
  match o with
  | ForceSetBenchmarkDuration origin value => force_set_benchmark_duration origin value
  | ForceRegisterWorker origin k h o => force_register_worker origin k h o
  | ForceRegisterTopicPubkey origin topic pubkey => force_register_topic_pubkey origin topic pubkey
  | RegisterGatekeeper origin k => register_gatekeeper origin k
  | UnregisterGatekeeper origin k => unregister_gatekeeper origin k
  | Rotate origin => rotate_master_key origin
  | Register origin info report sig cert => register_worker origin info report sig cert
  | RegisterV2 origin info att => register_worker_v2 origin info att
  | UpdateEndpoint origin p sig => update_worker_endpoint origin p sig
  | AddPRuntime origin h => add_pruntime origin h
  | RemovePRuntime origin h => remove_pruntime origin h
  | AddGenesis origin h => add_relaychain_genesis_block_hash origin h
  | RemoveGenesis origin h => remove_relaychain_genesis_block_hash origin h
  | SetMinimumVersion origin major minor patch => set_minimum_pruntime_version origin major minor patch
  | SetConsensusVersion origin v => set_pruntime_consensus_version origin v
  | SetNtpServers origin l => set_trusted_ntp_servers origin l
  | WorkerMessage m => on_message_received m
  | GatekeeperMessage m => on_gk_message_received m
  end.

(** A message of the gatekeeper is signed with the master key, see [gatekeeper_signed]. *)
Definition admissible (o : op) (s : State) : Prop :=
  match o with
  | GatekeeperMessage m => dm_sender m = Gatekeeper -> is_Some (GatekeeperMasterPubkey (registry s))
  | _ => True
  end.

Lemma gatekeeper_signed m s s' :
  Mq.check_message m s = Ok tt s' -> sender (message m) = Gatekeeper ->
  is_Some (GatekeeperMasterPubkey (registry s)).
Proof.
  intros H Hm. unfold Mq.check_message, mbind, gets in H. rewrite Hm in H.
  destruct (GatekeeperMasterPubkey (registry s)); [by eexists|done].
Qed.

(** Runs of the chain seen from the registry; other code may write the keys of
    clusters and contracts only. *)
Inductive reg_run : State -> State -> Prop :=
| reg_nil s : reg_run s s
| reg_ok s s' o s'' : reg_run s s' -> admissible o s' -> run_op o s' = Ok tt s'' -> reg_run s s''
| reg_err s s' o e s'' : reg_run s s' -> admissible o s' -> run_op o s' = Err e s'' -> reg_run s s''
| reg_other s s' s'' ck uk : reg_run s s' ->
    registry s'' = set_ClusterKeys ck (set_ContractKeys uk (registry s')) -> reg_run s s''.

(** The gatekeepers are distinct registered workers; there is a master key only
    with a gatekeeper; the launch is recorded with the first key; the rotation
    in progress is the latest one; what is stored by worker or binary has its
    worker or binary.  Seen from an earlier storage [r0], no worker is gone, and
    if there was a gatekeeper or a master key there still is one. *)
Record Inv (r0 r : Store) : Prop := mkInv {
  workers_kept : forall k, is_Some (Workers r0 !! k) -> is_Some (Workers r !! k);
  gk_kept : Gatekeepers r0 <> [] -> Gatekeepers r <> [];
  master_kept : is_Some (GatekeeperMasterPubkey r0) -> is_Some (GatekeeperMasterPubkey r);
  gk_nodup : NoDup (Gatekeepers r);
  gk_registered : forall k, k ∈ Gatekeepers r -> is_Some (Workers r !! k);
  master_has_gk : is_Some (GatekeeperMasterPubkey r) -> Gatekeepers r <> [];
  launched_master : is_Some (GatekeeperLaunchedAt r) <-> is_Some (GatekeeperMasterPubkey r);
  lock_latest : forall i, MasterKeyRotationLock r = Some i -> i = RotationCounter r;
  worker_key : forall k w, Workers r !! k = Some w -> wi_pubkey w = k;
  added_registered : forall k, is_Some (WorkerAddedAt r !! k) -> is_Some (Workers r !! k);
  endpoint_registered : forall k, is_Some (Endpoints r !! k) -> is_Some (Workers r !! k);
  pruntime_nodup : NoDup (PRuntimeAllowList r);
  pruntime_added : forall h, is_Some (PRuntimeAddedAt r !! h) <-> h ∈ PRuntimeAllowList r;
  genesis_nodup : NoDup (RelaychainGenesisBlockHashAllowList r);
}.

End Ops.

(** *** Symbolic execution through pushed messages *)
Section Push.
Context {cfg : Config} {codec : Codec} {notify : QueueNotifyConfig}.

Lemma wp_push P t `{!QuietTopic notify t} o p (Q : unit -> State -> Prop) (Rr : DispatchError -> State -> Prop) s :
  (forall q, Q tt (set_mq q s)) -> wp P (Mq.push_bound_message t o p) Q Rr s.
Proof.
  intros HQ. unfold wp. rewrite MqFacts.push_bound_message_quiet by done.
  destruct (topic_is_offchain t); [apply HQ|]. specialize (HQ (mq s)). by destruct s.
Qed.

End Push.

Ltac reg_steps :=
  repeat (first [apply wp_push; [apply _|intros ?]
                |wp_step]; cbv beta; try done).

Section Preservation.
Context {cfg : Config} {codec : Codec} {pal : Pallets} {sgx : SgxAttestation} {notify : QueueNotifyConfig}.
Context {qs : QuietTopic notify SystemEvent_topic} {ql : QuietTopic notify GatekeeperLaunch_topic}
  {qc : QuietTopic notify GatekeeperChange_topic}.

(** Registering a worker, new or known *)
Definition refreshed (info : WorkerRegistrationInfo) (now : Z) (provider : option AttestationProvider) (level : Z)
    (o : option WorkerInfoV2) : WorkerInfoV2 :=
  match o with
  | Some w => mkWorkerInfoV2 (wi_pubkey w) (wi_ecdh_pubkey w) (wr_version info) now (wr_operator info)
      (attestation_provider w) level (initial_score w) (wr_features info)
  | None => mkWorkerInfoV2 (wr_pubkey info) (wr_ecdh_pubkey info) (wr_version info) now (wr_operator info)
      provider level None (wr_features info)
  end.

Definition with_worker (info : WorkerRegistrationInfo) (now : Z) (provider : option AttestationProvider) (level : Z)
    (block : Z) (r : Store) : Store :=
  let k := wr_pubkey info in
  let r' := match Workers r !! k with
            | Some _ => r
            | None => set_WorkerAddedAt (<[k := block]> (WorkerAddedAt r)) r
            end in
  set_Workers (<[k := refreshed info now provider level (Workers r !! k)]> (Workers r')) r'.

Lemma add_or_refresh_spec info now provider level s :
  wp True (add_or_refresh_worker info now provider level)
    (fun _ s' => registry s' = with_worker info now provider level (block_number s) (registry s))
    (fun _ _ => False) s.
Proof.
  unfold add_or_refresh_worker, Computation.get_worker, push_system_event, emit, mark_added, put_worker,
    upd_registry, deposit_event, with_worker.
  apply wp_bind, wp_gets. destruct (Workers (registry s) !! wr_pubkey info) eqn:E;
    apply wp_bind, wp_push; try apply _; intros q; wp_steps; done.
Qed.

(** *** Writes that keep the invariant *)
Context (r0 : Store).

Lemma is_Some_insert {V} (m : gmap Z V) k v j : is_Some (m !! j) -> is_Some (<[k := v]> m !! j).
Proof. intros H. destruct (decide (k = j)) as [->|]; by simplify_map_eq. Qed.

Lemma inv_put_worker k w r : wi_pubkey w = k -> Inv r0 r -> Inv r0 (set_Workers (<[k := w]> (Workers r)) r).
Proof.
  intros Hw []. split; simpl; auto using is_Some_insert.
  intros j w'. destruct (decide (k = j)) as [->|]; intros; simplify_map_eq; eauto.
Qed.

Lemma inv_add_worker k w b r : wi_pubkey w = k -> Inv r0 r ->
  Inv r0 (set_Workers (<[k := w]> (Workers r)) (set_WorkerAddedAt (<[k := b]> (WorkerAddedAt r)) r)).
Proof.
  intros Hw [H1 H2 H3 Hn Hr Hm Hl Hk Hwk Ha He Hp Hpa Hg]. split; simpl; auto using is_Some_insert.
  - intros j w'. destruct (decide (k = j)) as [->|]; intros; simplify_map_eq; eauto.
  - intros j. destruct (decide (k = j)) as [->|]; intros; simplify_map_eq; eauto.
Qed.

Lemma inv_with_worker info now provider level b r : Inv r0 r -> Inv r0 (with_worker info now provider level b r).
Proof.
  intros Hr. unfold with_worker, refreshed. destruct (Workers r !! wr_pubkey info) as [w|] eqn:Hw.
  - apply inv_put_worker; [|done]. simpl. by apply (worker_key r0 r Hr).
  - by apply (inv_add_worker (wr_pubkey info) _ b r).
Qed.

Lemma inv_add_gatekeeper k r :
  Inv r0 r -> k ∉ Gatekeepers r -> is_Some (Workers r !! k) -> Inv r0 (set_Gatekeepers (Gatekeepers r ++ [k]) r).
Proof.
  intros [] Hk Hw.
  assert (Gatekeepers r ++ [k] <> []) by (intros Hn; by apply app_eq_nil in Hn as [_ ?]).
  split; simpl; auto.
  - apply NoDup_app. split_and!; [done| |apply NoDup_singleton]. set_solver.
  - set_solver.
Qed.

Lemma others_left (k : Z) l : NoDup l -> (1 < length l)%nat -> filter (fun g => g <> k) l <> [].
Proof.
  intros Hn Hlen Hnil. destruct l as [|a [|b l]]; simpl in Hlen; [lia..|].
  apply NoDup_cons in Hn as [Hab _]. rewrite !filter_cons in Hnil. repeat case_decide; try done. set_solver.
Qed.

Lemma inv_remove_gatekeeper k r :
  Inv r0 r -> (1 < length (Gatekeepers r))%nat ->
  Inv r0 (set_Gatekeepers (filter (fun g => g <> k) (Gatekeepers r)) r).
Proof.
  intros [] Hlen. pose proof (others_left k (Gatekeepers r)). split; simpl; auto.
  - by apply NoDup_filter.
  - intros j [_ Hj]%list_elem_of_filter. auto.
Qed.

Lemma inv_rotate i r :
  Inv r0 r -> Inv r0 (set_MasterKeyRotationLock (Some i) (set_RotationCounter i r)).
Proof. intros []. split; simpl; auto. by intros j [= ->]. Qed.

Lemma inv_launch k at_ r :
  Inv r0 r -> Gatekeepers r <> [] ->
  Inv r0 (set_GatekeeperLaunchedAt (Some at_) (set_GatekeeperMasterPubkey (Some k) r)).
Proof. intros [] Hg. split; simpl; auto. by split; eexists. Qed.

Lemma inv_rotated k i r :
  Inv r0 r -> MasterKeyRotationLock r = Some i -> Gatekeepers r <> [] -> is_Some (GatekeeperLaunchedAt r) ->
  Inv r0 (set_MasterKeyRotationLock None (set_GatekeeperMasterPubkey (Some k) r)).
Proof. intros [] Hl Hg Ha. split; simpl; auto; done. Qed.

Lemma inv_add_pruntime h b r : Inv r0 r -> h ∉ PRuntimeAllowList r ->
  Inv r0 (set_PRuntimeAddedAt (<[h := b]> (PRuntimeAddedAt r)) (set_PRuntimeAllowList (PRuntimeAllowList r ++ [h]) r)).
Proof.
  intros [H1 H2 H3 Hn Hr Hm Hl Hk Hwk Ha He Hp Hpa Hg] Hh. split; simpl; auto.
  - apply NoDup_app. split_and!; [done| |apply NoDup_singleton]. set_solver.
  - intros j. rewrite elem_of_app, list_elem_of_singleton, <- Hpa.
    destruct (decide (h = j)) as [->|]; simplify_map_eq; naive_solver.
Qed.

Lemma inv_remove_pruntime h r : Inv r0 r ->
  Inv r0 (set_PRuntimeAddedAt (delete h (PRuntimeAddedAt r))
        (set_PRuntimeAllowList (filter (fun x => x <> h) (PRuntimeAllowList r)) r)).
Proof.
  intros [H1 H2 H3 Hn Hr Hm Hl Hk Hwk Ha He Hp Hpa Hg]. split; simpl; auto.
  - by apply NoDup_filter.
  - intros j. rewrite list_elem_of_filter, <- Hpa.
    destruct (decide (h = j)) as [->|]; simplify_map_eq; [|naive_solver].
    split; [by intros []|naive_solver].
Qed.

Lemma inv_genesis_hashes l r : Inv r0 r -> NoDup l -> Inv r0 (set_RelaychainGenesisBlockHashAllowList l r).
Proof. intros [] Hl. by split. Qed.

Lemma inv_endpoint k e r : Inv r0 r -> is_Some (Workers r !! k) -> Inv r0 (set_Endpoints (<[k := e]> (Endpoints r)) r).
Proof.
  intros [H1 H2 H3 Hn Hr Hm Hl Hk Hwk Ha He Hp Hpa Hg] Hw. split; simpl; auto.
  intros j. destruct (decide (k = j)) as [->|]; intros; simplify_map_eq; eauto.
Qed.

(** *** Every operation keeps the invariant *)
Definition reg_inv (s : State) : Prop := Inv r0 (registry s).

Lemma inv_keeps {A} (m : R A) : keeps registry m -> preserves reg_inv m.
Proof. apply keeps_preserves. unfold reg_inv. by intros s s' ->. Qed.

Lemma register_gatekeeper_inv origin k : preserves reg_inv (register_gatekeeper origin k).
Proof.
  intros s Hs. unfold register_gatekeeper, ensure_governance, check, push_launch, push_change, emit, upd_registry,
    deposit_event. reg_steps.
  all: match goal with H : bool_decide (_ ∈ _) = false |- _ => apply bool_decide_eq_false in H end.
  all: by apply inv_add_gatekeeper.
Qed.

Lemma unregister_gatekeeper_inv origin k : preserves reg_inv (unregister_gatekeeper origin k).
Proof.
  intros s Hs. unfold unregister_gatekeeper, ensure_governance, check, push_change, upd_registry. reg_steps.
  apply inv_remove_gatekeeper; [done|]. by eapply bool_decide_eq_true.
Qed.

Lemma rotate_inv origin : preserves reg_inv (rotate_master_key origin).
Proof.
  intros s Hs. unfold rotate_master_key, ensure_governance, check, push_launch, upd_registry. reg_steps.
  apply wp_arith; intros; [|done|]; reg_steps; by apply inv_rotate.
Qed.

Lemma add_or_refresh_inv info now provider level : preserves reg_inv (add_or_refresh_worker info now provider level).
Proof.
  intros s Hs. eapply wp_mono; [apply add_or_refresh_spec| |done].
  unfold reg_inv. intros ? s' ->. by apply inv_with_worker.
Qed.

Lemma start_benchmark_inv k : preserves reg_inv (start_benchmark k).
Proof. intros s Hs. unfold start_benchmark, push_system_event. reg_steps. Qed.

Lemma check_genesis_inv info : preserves reg_inv (check_genesis info).
Proof. apply inv_keeps. unfold check_genesis, check. solve_keeps. Qed.

Lemma note_consensus_inv v : preserves reg_inv (note_consensus_version v).
Proof.
  intros s Hs. unfold note_consensus_version, upd_registry. apply wp_bind, wp_gets.
  destruct (MaxKnownPRuntimeConsensusVersion (registry s)) as [version count]. wp_steps; [by destruct Hs; split| |done].
  apply wp_arith; intros; [|done|]; wp_steps; by destruct Hs; split.
Qed.

Lemma register_inv origin info report sig cert : preserves reg_inv (register_worker origin info report sig cert).
Proof.
  pose proof add_or_refresh_inv. pose proof start_benchmark_inv. pose proof check_genesis_inv.
  unfold register_worker, ensure_signed. solve_preserves.
Qed.

Lemma register_v2_inv origin info att : preserves reg_inv (register_worker_v2 origin info att).
Proof.
  pose proof add_or_refresh_inv. pose proof start_benchmark_inv. pose proof check_genesis_inv.
  pose proof note_consensus_inv. unfold register_worker_v2, ensure_signed, check. solve_preserves.
Qed.

Lemma update_endpoint_inv origin p sig : preserves reg_inv (update_worker_endpoint origin p sig).
Proof.
  intros s Hs. unfold update_worker_endpoint, ensure_signed, check, Computation.get_worker, now_millis, upd_registry.
  reg_steps. apply wp_arith; intros; [|done|]; reg_steps; (apply inv_endpoint; [done|]); by eapply bool_decide_eq_true.
Qed.

Lemma add_pruntime_inv origin h : preserves reg_inv (add_pruntime origin h).
Proof.
  intros s Hs. unfold add_pruntime, ensure_governance, check, upd_registry. reg_steps.
  apply (inv_add_pruntime h (block_number s) (registry s)); [done|]. by apply negb_true_iff, bool_decide_eq_false in H.
Qed.

Lemma remove_pruntime_inv origin h : preserves reg_inv (remove_pruntime origin h).
Proof.
  intros s Hs. unfold remove_pruntime, ensure_governance, check, upd_registry. reg_steps.
  by apply (inv_remove_pruntime h (registry s)).
Qed.

Lemma add_genesis_inv origin h : preserves reg_inv (add_relaychain_genesis_block_hash origin h).
Proof.
  intros s Hs. unfold add_relaychain_genesis_block_hash, ensure_governance, check, upd_registry. reg_steps.
  apply negb_true_iff, bool_decide_eq_false in H. apply inv_genesis_hashes; [done|].
  apply NoDup_app. split_and!; [apply Hs| |apply NoDup_singleton]. set_solver.
Qed.

Lemma remove_genesis_inv origin h : preserves reg_inv (remove_relaychain_genesis_block_hash origin h).
Proof.
  intros s Hs. unfold remove_relaychain_genesis_block_hash, ensure_governance, check, upd_registry. reg_steps.
  apply inv_genesis_hashes; [done|]. apply NoDup_filter, Hs.
Qed.

Lemma worker_message_inv m : preserves reg_inv (on_message_received m).
Proof.
  intros s Hs. unfold on_message_received, on_bench_report, on_master_pubkey, on_gatekeeper_launched, check,
    Computation.get_worker, now_millis, now_sec, put_worker, push_system_event, push_launch, emit, upd_registry,
    deposit_event.
  reg_steps.
  - apply wp_div_u; intros; [done|]. reg_steps.
    apply wp_arith; intros; [|done|]; reg_steps;
      (apply inv_put_worker; [simpl; by eapply (worker_key _ _ Hs)|done]).
  - apply inv_launch; [done|]. apply bool_decide_eq_true in H. intros Hn. rewrite Hn in H.
    by apply not_elem_of_nil in H.
Qed.

Lemma gk_message_inv m s :
  reg_inv s -> admissible (GatekeeperMessage m) s ->
  wp True (on_gk_message_received m) (fun _ => reg_inv) (fun _ => reg_inv) s.
Proof.
  intros Hs Ha. unfold on_gk_message_received, push_launch, emit, upd_registry, deposit_event.
  destruct (is_gatekeeper (dm_sender m)) eqn:Hg; simpl; [|done]. destruct (dm_payload m) as [i k].
  simpl in Ha. assert (is_Some (GatekeeperMasterPubkey (registry s))) as Hm by (apply Ha; by destruct (dm_sender m)).
  reg_steps. apply negb_false_iff, bool_decide_eq_true in Heqb.
  apply (inv_rotated k i); [done|done|by apply (master_has_gk _ _ Hs)|by apply (launched_master _ _ Hs)].
Qed.

Lemma run_op_inv o s :
  reg_inv s -> admissible o s -> wp True (run_op o) (fun _ => reg_inv) (fun _ => reg_inv) s.
Proof.
  intros Hs Ha. destruct o; simpl.
  - unfold force_set_benchmark_duration, ensure_governance, upd_registry. reg_steps; by destruct Hs; split.
  - unfold force_register_worker, ensure_root, put_worker, mark_added, push_system_event, emit, upd_registry,
      deposit_event. reg_steps. by apply (inv_add_worker _ _ _ (registry s)).
  - unfold force_register_topic_pubkey, ensure_root, upd_registry. reg_steps; by destruct Hs; split.
  - by apply register_gatekeeper_inv.
  - by apply unregister_gatekeeper_inv.
  - by apply rotate_inv.
  - by apply register_inv.
  - by apply register_v2_inv.
  - by apply update_endpoint_inv.
  - by apply add_pruntime_inv.
  - by apply remove_pruntime_inv.
  - by apply add_genesis_inv.
  - by apply remove_genesis_inv.
  - unfold set_minimum_pruntime_version, ensure_governance, emit, upd_registry, deposit_event. reg_steps; by destruct Hs; split.
  - unfold set_pruntime_consensus_version, ensure_governance, emit, upd_registry, deposit_event. reg_steps; by destruct Hs; split.
  - unfold set_trusted_ntp_servers, ensure_governance, upd_registry. reg_steps; by destruct Hs; split.
  - by apply worker_message_inv.
  - by apply gk_message_inv.
Qed.

Lemma reg_run_inv s s' : reg_run s s' -> reg_inv s -> reg_inv s'.
Proof.
  induction 1 as [|s s' o s'' _ IH Ha H|s s' o e s'' _ IH Ha H|s s' s'' ck uk _ IH H]; intros Hs; [done|..].
  - by apply (wp_ok True _ _ _ _ _ _ (run_op_inv o s' (IH Hs) Ha) H).
  - by apply (wp_err True _ _ _ _ _ _ (run_op_inv o s' (IH Hs) Ha) H).
  - unfold reg_inv. rewrite H. by destruct (IH Hs); split.
Qed.

(** *** Genesis *)
Lemma genesis_worker_inv d w : preserves (reg_inv) (genesis_worker d w).
Proof.
  destruct w as [[k e] o]. intros s Hs.
  unfold genesis_worker, put_worker, queue_system_event, Mq.queue_bound_message, upd_registry, upd_mq. reg_steps.
  unfold reg_inv. simpl. pose proof (inv_put_worker k (mkWorkerInfoV2 k a 0 0 o (Some RootProvider) 128 None [1; 4])
    (registry s) eq_refl Hs) as []. by split.
Qed.

Lemma genesis_gatekeepers_inv l acc s :
  reg_inv s -> Gatekeepers (registry s) = acc -> NoDup (acc ++ l) ->
  wp True (for_fold l acc genesis_gatekeeper) (fun _ => reg_inv) (fun _ => reg_inv) s.
Proof.
  revert acc s. induction l as [|k l IH]; intros acc s Hs Hacc Hn; simpl; [by apply wp_ret|].
  unfold genesis_gatekeeper at 1, Computation.get_worker, Mq.queue_bound_message, upd_registry, upd_mq.
  assert (k ∉ acc) as Hk by (apply NoDup_app in Hn as (_ & Hd & _); intros Hk; apply (Hd k Hk); by left).
  reg_steps; subst acc.
  1, 2: apply IH; simpl; [|done|by rewrite <- app_assoc]; apply inv_add_gatekeeper; [done..|by eexists].
  apply IH; [done..|]. eapply sublist_NoDup; [exact Hn|]. apply sublist_app; [done|by apply sublist_cons].
Qed.

End Preservation.

(** A registry with nothing in it *)
Definition fresh_registry {cfg : Config} : Store :=
  mkStore [] None None 0 None ∅ ∅ ∅ ∅ ∅ None [] ∅ [] (0, 0, 0) 0 (0, 0) ∅ [].

Lemma inv_fresh {cfg : Config} : Inv fresh_registry fresh_registry.
Proof.
  split; simpl; try done; try apply NoDup_nil_2; try (intros k; rewrite ?lookup_empty; by intros []).
  - intros k Hk. by apply not_elem_of_nil in Hk.
  - intros h. rewrite lookup_empty. split; [by intros []|]. intros H. by apply not_elem_of_nil in H.
Qed.

Lemma inv_rebase {cfg : Config} r0 r : Inv r0 r -> Inv r r.
Proof. intros []. by split. Qed.

(** ** Properties *)
Section Properties.
Context {cfg : Config} {codec : Codec} {pal : Pallets} {sgx : SgxAttestation} {notify : QueueNotifyConfig}.
Context {qs : QuietTopic notify SystemEvent_topic} {ql : QuietTopic notify GatekeeperLaunch_topic}
  {qc : QuietTopic notify GatekeeperChange_topic}.

Lemma genesis_inv ws gks d s s' :
  registry s = fresh_registry -> NoDup gks -> genesis_build ws gks d s = Ok tt s' ->
  reg_inv fresh_registry s'.
Proof.
  intros Hr Hn. apply (wp_ok True _ (fun _ => reg_inv fresh_registry) (fun _ _ => True)).
  unfold genesis_build. apply wp_bind.
  apply (wp_for_each True (fun s => reg_inv fresh_registry s /\ Gatekeepers (registry s) = [])).
  - unfold reg_inv. rewrite Hr. split; [apply inv_fresh|done].
  - intros w s1 _ [H1 H2].
    assert (keeps (fun s => Gatekeepers (registry s)) (genesis_worker d w)) as Hk.
    { destruct w as [[k e] o]. unfold genesis_worker, put_worker, queue_system_event, Mq.queue_bound_message,
        upd_registry, upd_mq. solve_keeps. }
    eapply wp_mono; [apply wp_and; [by apply genesis_worker_inv|apply Hk]| |done].
    simpl. intros ? s2 [H3 H4]. split; [done|congruence].
  - intros s1 [H1 H2]. apply wp_bind. eapply wp_mono; [by apply genesis_gatekeepers_inv|done|done].
Qed.

(** C18: whatever calls and messages a chain has processed since its genesis,
    the gatekeepers are distinct registered workers, a master key comes with a
    gatekeeper and a recorded launch, the rotation in progress is the latest,
    the allow lists have no duplicates and match what is stored for them; and
    between any two storages of the run no worker is unregistered and the last
    gatekeeper and the master key are never lost. *)
Theorem registry_invariant ws gks d s0 s1 s2 s3 :
  registry s0 = fresh_registry -> NoDup gks -> genesis_build ws gks d s0 = Ok tt s1 ->
  reg_run s1 s2 -> reg_run s2 s3 -> Inv (registry s2) (registry s3).
Proof.
  intros Hr Hn Hg H12 H23. pose proof (genesis_inv _ _ _ _ _ Hr Hn Hg) as H1.
  pose proof (reg_run_inv _ _ _ H12 H1) as H2. exact (reg_run_inv _ _ _ H23 (inv_rebase _ _ H2)).
Qed.

(** What a registration leaves behind *)
Definition registered (info : WorkerRegistrationInfoV2) (att : option AttestationReport) (s s' : State) : Prop :=
  let k := wr_pubkey (wr_info info) in
  let now := unix_time_ms s / 1000 in
  exists provider level w,
    attested now (hash_WorkerRegistrationInfoV2 info) (PRuntimeAllowList (registry s)) att provider level /\
    para_id info = ParachainId /\
    (VerifyRelaychainGenesisBlockHash = true ->
       wr_genesis_block_hash (wr_info info) ∈ RelaychainGenesisBlockHashAllowList (registry s)) /\
    Workers (registry s') = <[k := w]> (Workers (registry s)) /\
    wi_ecdh_pubkey w = default (wr_ecdh_pubkey (wr_info info)) (wi_ecdh_pubkey <$> Workers (registry s) !! k) /\
    confidence_level w = level /\ operator w = wr_operator (wr_info info) /\ last_updated w = now.

Lemma check_genesis_spec info s :
  wp True (check_genesis info)
    (fun _ s' => s' = s /\ (VerifyRelaychainGenesisBlockHash = true ->
       wr_genesis_block_hash info ∈ RelaychainGenesisBlockHashAllowList (registry s))) (fun _ _ => True) s.
Proof. unfold check_genesis, check. destruct VerifyRelaychainGenesisBlockHash; wp_steps; split; try done. by intros _; apply bool_decide_eq_true in H. Qed.

Lemma note_consensus_keeps v : keeps (fun s => Workers (registry s)) (note_consensus_version v).
Proof. unfold note_consensus_version, upd_registry. solve_keeps. Qed.

Lemma start_benchmark_keeps k : keeps registry (start_benchmark k).
Proof. unfold start_benchmark, push_system_event. solve_keeps. by apply MqFacts.keeps_push_quiet. Qed.

Lemma register_v2_spec origin info att s :
  wp True (register_worker_v2 origin info att) (fun _ s' => registered info att s s') (fun _ _ => True) s.
Proof.
  unfold register_worker_v2, ensure_signed, now_sec, check. apply wp_bind. destruct origin; try done. wp_lines.
  destruct (Attestation.validate _ _ _ _ _ _) as [|r] eqn:Hv; [done|]. apply validate_sound in Hv.
  wp_lines; [|done]. eapply wp_mono; [apply check_genesis_spec| |done]. intros [] s1 [-> Hg].
  apply wp_bind. eapply keeps_wp; [done|apply note_consensus_keeps| |done]. intros [] s1 Hs1.
  apply wp_bind. eapply wp_mono; [apply add_or_refresh_spec| |done]. intros [] s2 Hs2.
  eapply keeps_wp; [done|apply start_benchmark_keeps| |done]. intros [] s3 Hs3.
  exists (Attestation.cr_provider r), (Attestation.cr_confidence_level r), (refreshed (wr_info info)
    (unix_time_ms s / 1000) (Attestation.cr_provider r) (Attestation.cr_confidence_level r)
    (Workers (registry s) !! wr_pubkey (wr_info info))).
  split_and!; [exact Hv|lia|done|..].
  { rewrite Hs3, Hs2. unfold with_worker. cbn [Workers set_Workers]. rewrite <- Hs1.
    by destruct (Workers (registry s1) !! _). }
  all: by destruct (Workers (registry s) !! _).
Qed.


(** The older [register_worker] and [register_worker_v2] accept the same
    IAS reports, with the same confidence and the same errors. *)
Theorem legacy_validation_agrees report sig cert h now v allowed opt_out :
  Attestation.validate (Some (SgxIas report sig cert)) h now v allowed opt_out =
  match Attestation.validate_legacy report sig cert h now v allowed with
  | inl e => inl e
  | inr f => inr (Attestation.mkConfidentialReport (Attestation.if_confidence_level f) (Some Ias)
      (Attestation.extend_mrenclave (Attestation.if_quote f)))
  end.
Proof.
  unfold Attestation.validate, Attestation.validate_ias_report, Attestation.validate_legacy.
  destruct (ias_verify_signature _ _ _ _); [|done]. simpl.
  destruct (Attestation.from_ias_report report) as [|[f ts]]; [done|].
  destruct (Attestation.rejected _ _ _); [done|]. destruct (_ >=? _); [done|]. by case_bool_decide.
Qed.

(** *** The master key *)
Definition master (s : State) : option MasterPublicKey := GatekeeperMasterPubkey (registry s).

Lemma master_push t `{!QuietTopic notify t} o p : keeps master (Mq.push_bound_message t o p).
Proof. by apply MqFacts.keeps_push_quiet. Qed.
#[local] Hint Extern 1 (keeps master (Mq.push_bound_message _ _ _)) => apply master_push; apply _ : keeps.

(** The operations that install a master key *)
Definition installs (o : op) (s s' : State) : Prop :=
  match o with
  | WorkerMessage m => exists k key, dm_sender m = Worker k /\ k ∈ Gatekeepers (registry s) /\
      dm_payload m = MasterPubkey key /\ master s = None /\ master s' = Some key
  | GatekeeperMessage m => exists i key, dm_sender m = Gatekeeper /\ dm_payload m = RotatedMasterPubkey i key /\
      MasterKeyRotationLock (registry s) = Some i /\ MasterKeyRotationLock (registry s') = None /\
      master s' = Some key
  | _ => False
  end.

Lemma calls_keep_master o :
  match o with WorkerMessage _ | GatekeeperMessage _ => True | _ => keeps master (run_op o) end.
Proof.
  destruct o; try done; simpl;
    unfold force_set_benchmark_duration, force_register_worker, force_register_topic_pubkey, register_gatekeeper,
      unregister_gatekeeper, rotate_master_key, register_worker, register_worker_v2, update_worker_endpoint,
      add_pruntime, remove_pruntime, add_relaychain_genesis_block_hash, remove_relaychain_genesis_block_hash,
      set_minimum_pruntime_version, set_pruntime_consensus_version, set_trusted_ntp_servers, check_genesis,
      note_consensus_version, add_or_refresh_worker, start_benchmark, mark_added, put_worker, push_system_event,
      push_launch, push_change, ensure_governance, ensure_root, ensure_signed, check, emit, Computation.get_worker,
      now_sec, now_millis, upd_registry, deposit_event; solve_keeps.
Qed.

Lemma worker_message_master m s :
  wp True (on_message_received m) (fun _ s' => master s' = master s \/ installs (WorkerMessage m) s s')
    (fun _ s' => master s' = master s) s.
Proof.
  unfold on_message_received. destruct (dm_sender m) as [| |k| | | | |] eqn:Hk; try done.
  destruct (dm_payload m) as [st it|key] eqn:Hp.
  - eapply keeps_wp; [done| |by left|done].
    unfold on_bench_report, check, Computation.get_worker, now_millis, put_worker, push_system_event, emit,
      upd_registry, deposit_event. solve_keeps.
  - unfold on_master_pubkey, on_gatekeeper_launched, check, push_launch, emit, now_sec, upd_registry, deposit_event.
    reg_steps; [by left|]. right. apply bool_decide_eq_true in H. simpl. eauto 10.
Qed.

Lemma gk_message_master m s :
  wp True (on_gk_message_received m) (fun _ s' => installs (GatekeeperMessage m) s s')
    (fun _ s' => master s' = master s) s.
Proof.
  unfold on_gk_message_received, push_launch, emit, upd_registry, deposit_event.
  destruct (dm_sender m) eqn:Hk; try done. simpl. destruct (dm_payload m) as [i key] eqn:Hp.
  reg_steps. apply negb_false_iff, bool_decide_eq_true in Heqb. simpl. eauto 10.
Qed.

(** The master public key changes in two ways only: while there is none, a
    registered gatekeeper reports the first one; and the gatekeepers report the
    new one of the rotation in progress, which that ends.  No call changes it. *)
Theorem master_key_authority o s s' :
  run_op o s = Ok tt s' -> master s' = master s \/ installs o s s'.
Proof.
  pose proof (calls_keep_master o) as Hc. destruct o; simpl in Hc;
    try (intros H; left; exact (keeps_ok _ _ _ _ _ Hc H)); simpl.
  - apply (wp_ok True _ _ _ _ _ _ (worker_message_master m s)).
  - intros H. right. exact (wp_ok True _ _ _ _ _ _ (gk_message_master m s) H).
Qed.

(** *** A rotation without a master key *)
Definition launch_state (s : State) :=
  (Gatekeepers (registry s), GatekeeperMasterPubkey (registry s), MasterKeyRotationLock (registry s)).

Definition stuck (s : State) : Prop := exists i, launch_state s = ([], None, Some i).

Lemma stuck_keeps {A} (m : R A) : keeps launch_state m -> preserves stuck m.
Proof. apply keeps_preserves. unfold stuck. by intros s s' ->. Qed.

Lemma launch_state_push t `{!QuietTopic notify t} o p : keeps launch_state (Mq.push_bound_message t o p).
Proof. by apply MqFacts.keeps_push_quiet. Qed.
#[local] Hint Extern 1 (keeps launch_state (Mq.push_bound_message _ _ _)) =>
  apply launch_state_push; apply _ : keeps.

Lemma stuck_step o s :
  stuck s -> admissible o s -> wp True (run_op o) (fun _ => stuck) (fun _ => stuck) s.
Proof.
  intros Hs Ha. pose proof Hs as [i Hi]. unfold launch_state in Hi. injection Hi as Hg Hm Hl.
  destruct o; simpl;
    try (apply stuck_keeps; [|done];
      unfold force_set_benchmark_duration, force_register_worker, force_register_topic_pubkey, register_worker,
        register_worker_v2, update_worker_endpoint, add_pruntime, remove_pruntime,
        add_relaychain_genesis_block_hash, remove_relaychain_genesis_block_hash,
        set_minimum_pruntime_version, set_pruntime_consensus_version, set_trusted_ntp_servers, check_genesis,
        note_consensus_version, add_or_refresh_worker, start_benchmark, mark_added, put_worker, push_system_event,
        ensure_governance, ensure_root, ensure_signed, check, emit, Computation.get_worker,
        now_sec, now_millis, upd_registry, deposit_event; by solve_keeps).
  1-3: unfold register_gatekeeper, unregister_gatekeeper, rotate_master_key, ensure_governance, check; wp_lines;
    destruct (root_or_half_council origin); [|done]; wp_lines; try done; by rewrite Hl in *.
  - unfold on_message_received. destruct (dm_sender m) as [| |k| | | | |]; try done.
    destruct (dm_payload m).
    + apply stuck_keeps; [|done]. unfold on_bench_report, check, Computation.get_worker, now_millis, put_worker,
        push_system_event, emit, upd_registry, deposit_event. solve_keeps.
    + unfold on_master_pubkey, check. wp_lines; [|done].
      apply bool_decide_eq_true in H. rewrite Hg in H. by apply not_elem_of_nil in H.
  - unfold on_gk_message_received. destruct (dm_sender m) eqn:Hd; try done.
    destruct (Ha Hd) as [k Hk]. congruence.
Qed.

Lemma stuck_run s s' : reg_run s s' -> stuck s -> stuck s'.
Proof.
  induction 1 as [|s s' o s'' _ IH Ha H|s s' o e s'' _ IH Ha H|s s' s'' ck uk _ IH H]; intros Hs; [done|..].
  - exact (wp_ok True _ _ _ _ _ _ (stuck_step o s' (IH Hs) Ha) H).
  - exact (wp_err True _ _ _ _ _ _ (stuck_step o s' (IH Hs) Ha) H).
  - destruct (IH Hs) as [i Hi]. exists i. unfold launch_state in *. by rewrite H.
Qed.

(** [rotate_master_key] does not ask for a master key.  Called before there
    is a gatekeeper, it takes the rotation lock for good: gatekeepers cannot be
    registered while it is held, and only a message signed with the master key
    releases it. *)
Theorem early_rotation_locks_out origin s s1 s2 :
  Gatekeepers (registry s) = [] -> master s = None -> rotate_master_key origin s = Ok tt s1 -> reg_run s1 s2 ->
  Gatekeepers (registry s2) = [] /\ master s2 = None /\ MasterKeyRotationLock (registry s2) <> None /\
  forall o k, exists e, register_gatekeeper o k s2 = Err e s2.
Proof.
  intros Hg Hm Hr H12. assert (stuck s1) as H1.
  { revert Hr. apply (wp_ok True _ (fun _ => stuck) (fun _ _ => True)).
    unfold rotate_master_key, ensure_governance, check, push_launch, upd_registry. unfold master in Hm.
    reg_steps. apply wp_arith; intros; [|done|]; reg_steps; eexists; unfold launch_state; simpl; by rewrite Hg, Hm. }
  apply (stuck_run _ _ H12) in H1 as [i Hi]. unfold launch_state in Hi. injection Hi as Hg2 Hm2 Hl2.
  split_and!; [done|done|by rewrite Hl2|]. intros o k.
  unfold register_gatekeeper, ensure_governance, check, mbind, gets, ensure.
  destruct (root_or_half_council o); [|by eexists]. simpl. rewrite Hl2. by eexists.
Qed.

End Properties.

(** ** Witnesses, on the reference runtime with no handler *)
Section Witnesses.
Import RefInstances.
#[local] Existing Instance notify_nothing.

(** A report is the data of its quote, and every signature verifies. *)
#[local] Instance wit_sgx : SgxAttestation := {|
  ias_verify_signature _ _ _ _ := true;
  parse_ra_report r := Some (mkRaReport (Some 900) "CONFIGURATION_NEEDED" ["INTEL-SA-00334"]%string
    (Some (mkQuote [1] [2] [3] [4] r)));
  dcap_verify _ _ _ := None;
|}.

Definition wit_key : list Z := replicate 31 0 ++ [55].
Definition wit_genesis : R unit := genesis_build [(5, wit_key, Some (acct 1))] [5] 8.
Definition wit_s1 : State := final wit_genesis ref_state.
Definition wit_s2 : State := final (run_op (AddPRuntime Root [1; 3; 4; 2])) wit_s1.
Definition wit_s3 : State := final (run_op (AddGenesis Root 77)) wit_s2.
Definition wit_info : WorkerRegistrationInfoV2 :=
  mkWorkerRegistrationInfoV2 (mkWorkerRegistrationInfo 1 [] 6 66 77 [] (Some (acct 2))) 2000 1.
Definition wit_att : option AttestationReport := Some (SgxIas [6; 66; 2000] [] []).
Definition wit_s4 : State := final (register_worker_v2 (Signed (acct 9)) wit_info wit_att) wit_s3.

Lemma wit_registers : register_worker_v2 (Signed (acct 9)) wit_info wit_att wit_s3 = Ok tt wit_s4.
Proof. unfold wit_s4. apply returns_final. vm_compute. reflexivity. Qed.

Lemma wit_run12 : reg_run wit_s1 wit_s2.
Proof.
  apply (reg_ok wit_s1 wit_s1 (AddPRuntime Root [1; 3; 4; 2])); [apply reg_nil|exact I|].
  unfold wit_s2. apply returns_final. vm_compute. reflexivity.
Qed.

Lemma wit_run24 : reg_run wit_s2 wit_s4.
Proof.
  apply (reg_ok wit_s2 wit_s3 (RegisterV2 (Signed (acct 9)) wit_info wit_att)); [|exact I|].
  - apply (reg_ok wit_s2 wit_s2 (AddGenesis Root 77)); [apply reg_nil|exact I|].
    unfold wit_s3. apply returns_final. vm_compute. reflexivity.
  - exact wit_registers.
Qed.

Lemma registry_invariant_witness : Inv (registry wit_s2) (registry wit_s4).
Proof.
  apply (registry_invariant [(5, wit_key, Some (acct 1))] [5] 8 ref_state wit_s1).
  - reflexivity.
  - apply NoDup_singleton.
  - unfold wit_s1. apply returns_final. vm_compute. reflexivity.
  - apply wit_run12.
  - apply wit_run24.
Defined.


Definition wit_first : op := WorkerMessage (mkDecodedMessage (Worker 5) [] (MasterPubkey 99)).
Definition wit_s5 : State := final (run_op wit_first) wit_s4.

Lemma master_key_authority_witness :
  (master wit_s5 = master wit_s4 \/ installs wit_first wit_s4 wit_s5) /\ master wit_s5 = Some 99.
Proof.
  split; [|vm_compute; reflexivity].
  apply master_key_authority. unfold wit_s5. apply returns_final. vm_compute. reflexivity.
Defined.

Definition wit_locked : State := final (rotate_master_key Root) ref_state.

Lemma early_rotation_locks_out_witness :
  Gatekeepers (registry wit_locked) = [] /\ master wit_locked = None /\
  MasterKeyRotationLock (registry wit_locked) <> None /\
  forall o k, exists e, register_gatekeeper o k wit_locked = Err e wit_locked.
Proof.
  apply (early_rotation_locks_out Root ref_state wit_locked).
  - reflexivity.
  - reflexivity.
  - unfold wit_locked. apply returns_final. vm_compute. reflexivity.
  - apply reg_nil.
Defined.

End Witnesses.
End RegistryProps.
