(* ===== verification/SendQueue.v ===== *)
(** * Egress of a worker: crates/cyrux-mq/src/send_queue.rs

    The queue in which pRuntime keeps the signed messages of its senders until
    they are on the chain.  [SigningMessage::sign] is crates/cyrux-mq/src/types.rs. *)
From stdpp Require Import prelude gmap list strings.
From Stdlib Require Import ZArith Lia.
From S2P Require Import Prelude Types Externals BalanceConvert Reference Mq.

Record Channel := mkChannel {
  ch_sequence : Z;
  ch_messages : list SignedMessage;
  ch_dummy : bool;
}.

(** [Channel::default] *)
Definition channel_default : Channel := mkChannel 0 [] false.

Record MessageChannel := mkMessageChannel {
  mc_sender : MessageOrigin;
  mc_signer : bytes -> bytes;
}.

Module SendQueue.

(** [MessageSendQueue]: the map behind its lock *)
Abbreviation Queue := (gmap MessageOrigin Channel).

Section Queue.
Context {cfg : Config} {codec : Codec} {E : Type}.
Abbreviation Q := (M Queue E).

(** [inner.entry(sender).or_default()] *)
Definition entry (q : Queue) (sender : MessageOrigin) : Channel := default channel_default (q !! sender).

Definition enqueue_message (sender : MessageOrigin) (constructor : Z -> SignedMessage) : Q unit :=
  let* q := gets (fun q => q) in
  let e := entry q sender in
  let msgs := if ch_dummy e then ch_messages e else ch_messages e ++ [constructor (ch_sequence e)] in
  let* next := arith 64 (ch_sequence e + 1) in
  modify (<[sender := mkChannel next msgs (ch_dummy e)]>).

Definition set_dummy_mode (sender : MessageOrigin) (dummy : bool) : Q unit :=
  modify (fun q => <[sender := mkChannel (ch_sequence (entry q sender)) (ch_messages (entry q sender)) dummy]> q).

Definition messages (sender : MessageOrigin) (q : Queue) : list SignedMessage :=
  default [] (ch_messages <$> q !! sender).

Definition all_messages_grouped (q : Queue) : gmap MessageOrigin (list SignedMessage) := ch_messages <$> q.

Definition count_messages (q : Queue) : Z := map_fold (fun _ v n => Z.of_nat (length (ch_messages v)) + n) 0 q.

(** Messages that the chain has accepted are dropped. *)
Definition purge_channel (seq : Z) (c : Channel) : Channel :=
  mkChannel (ch_sequence c) (filter (fun m => seq <= sequence m) (ch_messages c)) (ch_dummy c).

Definition purge (next_sequence_for : MessageOrigin -> Z) : Q unit :=
  modify (map_imap (fun k c => Some (purge_channel (next_sequence_for k) c))).

Definition dump_state (sender : MessageOrigin) (q : Queue) : option Channel := q !! sender.

Definition load_state (sender : MessageOrigin) (state : Channel) : Q unit := modify (<[sender := state]>).

(** ** Channels *)
Definition sign (signer : bytes -> bytes) (m : Message) (sequence : Z) : SignedMessage :=
  mkSignedMessage m sequence (signer (encode_to_be_signed m sequence)).

Definition prepare_with_data (ch : MessageChannel) (payload : bytes) (to : Topic) : Message :=
  mkMessage (mc_sender ch) to payload.

Definition push_data (ch : MessageChannel) (payload : bytes) (to : Topic) : Q unit :=
  let m := prepare_with_data ch payload to in
  enqueue_message (mc_sender ch) (sign (mc_signer ch) m).

Definition set_dummy (ch : MessageChannel) (dummy : bool) : Q unit := set_dummy_mode (mc_sender ch) dummy.

Definition set_signer (ch : MessageChannel) (signer : bytes -> bytes) : MessageChannel :=
  mkMessageChannel (mc_sender ch) signer.

End Queue.
End SendQueue.
