(* ===== verification/Egress.v ===== *)
(** * Delivery of a worker's messages

    The egress queue of a worker (SendQueue.v) and the ingress of the chain
    (Mq.v) together: what a sender pushes arrives on the chain exactly once, in
    order, and nothing is lost on the way. *)
From stdpp Require Import prelude gmap list strings.
From Stdlib Require Import ZArith Lia.
From S2P Require Import Prelude Types Externals BalanceConvert Reference Mq SendQueue.

Module Egress.
Import SendQueue.

(** What a signature covers *)
Definition content (m : SignedMessage) : Message * Z := (message m, sequence m).

Section Delivery.
Context {cfg : Config} {codec : Codec} {notify : QueueNotifyConfig} {ns : QueueNotifySpec notify}.

(** Runs of the worker and the chain, with the messages of [o] that were pushed
    and those the chain accepted.  Signatures are not forged: an accepted
    message of [o] has the content of one that [o] signed. *)
Inductive delivery (o : MessageOrigin) : Queue -> State -> list SignedMessage -> list SignedMessage -> Prop :=
| delivery_init q s : q !! o = None -> MqT.OffchainIngress (mq s) = ∅ -> delivery o q s [] []
| delivery_push q s sent acc signer p t q' :
    delivery o q s sent acc ->
    push_data (E := Empty_set) (mkMessageChannel o signer) p t q = Ok tt q' ->
    delivery o q' s (sent ++ [sign signer (mkMessage o t p) (ch_sequence (entry q o))]) acc
| delivery_purge q s sent acc q' :
    delivery o q s sent acc ->
    purge (E := Empty_set) (fun k => Mq.expected_seq k s) q = Ok tt q' -> delivery o q' s sent acc
| delivery_others q s sent acc q' :
    delivery o q s sent acc -> q' !! o = q !! o -> delivery o q' s sent acc
| delivery_accept q s sent acc origin m pays s' :
    delivery o q s sent acc ->
    Mq.sync_offchain_message origin m s = Ok pays s' ->
    (sender (message m) = o -> content m ∈ content <$> sent) ->
    delivery o q s' sent (if decide (sender (message m) = o) then acc ++ [m] else acc)
| delivery_chain q s sent acc s' :
    delivery o q s sent acc ->
    MqT.OffchainIngress (mq s') = MqT.OffchainIngress (mq s) -> delivery o q s' sent acc.

Record Inv (o : MessageOrigin) (q : Queue) (s : State) (sent acc : list SignedMessage) : Prop := {
  inv_senders : Forall (fun m => sender (message m) = o) sent;
  inv_seqs : sequence <$> sent = seqZ 0 (Z.of_nat (length sent));
  inv_next : ch_sequence (entry q o) = Z.of_nat (length sent);
  inv_live : ch_dummy (entry q o) = false;
  inv_queue : exists p, (p <= length acc)%nat /\ ch_messages (entry q o) = drop p sent;
  inv_acc : content <$> acc = take (length acc) (content <$> sent);
  inv_expected : Mq.expected_seq o s = Z.of_nat (length acc);
}.

Lemma seqs_lookup (l : list SignedMessage) n i m :
  sequence <$> l = seqZ n (Z.of_nat (length l)) -> l !! i = Some m -> sequence m = n + Z.of_nat i.
Proof.
  intros Hs Hi. assert ((sequence <$> l) !! i = Some (sequence m)) as H by (rewrite list_lookup_fmap, Hi; done).
  rewrite Hs in H. apply lookup_seqZ in H as [-> _]. done.
Qed.

(** Purging a queue of consecutive messages drops a prefix. *)
Lemma purge_drop (l : list SignedMessage) n x :
  sequence <$> l = seqZ n (Z.of_nat (length l)) ->
  filter (fun m => x <= sequence m) l = drop (Z.to_nat (x - n)) l.
Proof.
  revert n. induction l as [|m l IH]; intros n Hs; [by rewrite drop_nil|].
  simpl in Hs. rewrite seqZ_cons in Hs by lia. injection Hs as Hm Hs. rewrite filter_cons.
  replace (Z.pred (Z.of_nat (S (length l)))) with (Z.of_nat (length l)) in Hs by lia.
  specialize (IH (Z.succ n) Hs). case_decide as Hd.
  - replace (Z.to_nat (x - n)) with 0%nat by lia. simpl. f_equal. rewrite IH.
    by replace (Z.to_nat (x - Z.succ n)) with 0%nat by lia.
  - replace (Z.to_nat (x - n)) with (S (Z.to_nat (x - Z.succ n))) by lia. simpl. exact IH.
Qed.

Lemma seqs_drop (l : list SignedMessage) p :
  sequence <$> l = seqZ 0 (Z.of_nat (length l)) -> (p <= length l)%nat ->
  sequence <$> drop p l = seqZ (Z.of_nat p) (Z.of_nat (length (drop p l))).
Proof.
  intros Hs Hp. rewrite fmap_drop, Hs, length_drop.
  replace (Z.of_nat (length l)) with (Z.of_nat p + Z.of_nat (length l - p)) by lia.
  rewrite seqZ_app by lia. rewrite drop_app_length' by (rewrite length_seqZ; lia). f_equal; lia.
Qed.

Lemma entry_insert c (q : Queue) o : entry (<[o := c]> q) o = c.
Proof. unfold entry. by rewrite lookup_insert_eq. Qed.

Lemma messages_entry o (q : Queue) : messages o q = ch_messages (entry q o).
Proof. unfold messages, entry. by destruct (q !! o). Qed.

Lemma entry_purge f (q : Queue) o :
  entry (map_imap (fun k c => Some (purge_channel (f k) c)) q) o = purge_channel (f o) (entry q o).
Proof. unfold entry. rewrite map_lookup_imap. by destruct (q !! o). Qed.

Lemma inv_push o q s sent acc signer p t q' :
  Inv o q s sent acc -> Z.of_nat (length sent) + 1 < 2 ^ 64 ->
  push_data (E := Empty_set) (mkMessageChannel o signer) p t q = Ok tt q' ->
  Inv o q' s (sent ++ [sign signer (mkMessage o t p) (ch_sequence (entry q o))]) acc.
Proof.
  intros [Hf Hs Hn Hl (k & Hk & Hq) Ha He] Hb. unfold push_data, enqueue_message. cbn.
  rewrite Hl. unfold mbind. rewrite arith_fits by lia. cbn. intros [= <-].
  pose proof (f_equal length Ha) as Hla. rewrite length_take, !length_fmap in Hla.
  split; rewrite ?entry_insert; simpl; rewrite ?length_app; simpl.
  - apply Forall_app. split; [done|]. by repeat constructor.
  - rewrite fmap_app, Hs, Nat2Z.inj_add, seqZ_app by lia. simpl. by rewrite Hn.
  - lia.
  - done.
  - exists k. split; [done|]. rewrite drop_app_le by lia. by rewrite Hq.
  - rewrite fmap_app, take_app_le by (rewrite length_fmap; lia). done.
  - done.
Qed.

Lemma inv_purge o q s sent acc q' :
  Inv o q s sent acc -> purge (E := Empty_set) (fun k => Mq.expected_seq k s) q = Ok tt q' ->
  Inv o q' s sent acc /\ ch_messages (entry q' o) = drop (length acc) sent.
Proof.
  intros [Hf Hs Hn Hl (k & Hk & Hq) Ha He]. unfold purge. cbn. intros [= <-].
  pose proof (f_equal length Ha) as Hla. rewrite length_take, !length_fmap in Hla.
  enough (ch_messages (purge_channel (Mq.expected_seq o s) (entry q o)) = drop (length acc) sent) as Hp
    by (split; [split|]; rewrite ?entry_purge; simpl; eauto).
  simpl. rewrite Hq, (purge_drop _ (Z.of_nat k)), drop_drop by (apply seqs_drop; [done|lia]).
  f_equal. lia.
Qed.

Lemma inv_accept o q s sent acc origin m pays s' :
  Inv o q s sent acc -> Z.of_nat (length sent) < 2 ^ 64 ->
  Mq.sync_offchain_message origin m s = Ok pays s' ->
  (sender (message m) = o -> content m ∈ content <$> sent) ->
  Inv o q s' sent (if decide (sender (message m) = o) then acc ++ [m] else acc).
Proof.
  intros [Hf Hs Hn Hl (k & Hk & Hq) Ha He] Hb Hm Hg.
  apply MqFacts.sync_ok in Hm as (_ & _ & Hseq & _ & next & Hnext & Hi).
  assert (Hexp : forall x, x = sender (message m) -> Mq.expected_seq x s' = next)
    by (intros x ->; unfold Mq.expected_seq; by rewrite Hi, lookup_insert_eq).
  case_decide as Hd; [subst o|].
  - destruct (proj1 (list_elem_of_lookup _ _) (Hg eq_refl)) as [i Hm].
    rewrite list_lookup_fmap in Hm. apply fmap_Some in Hm as (m' & Hm' & Hc).
    pose proof (lookup_lt_Some _ _ _ Hm') as Hlt.
    pose proof (seqs_lookup _ 0 _ _ Hs Hm') as Hm0.
    assert (i = length acc) as -> by (injection Hc as ??; lia).
    rewrite arith_fits in Hnext by lia. injection Hnext as <-.
    split; try done.
    + exists k. rewrite length_app. split; [lia|done].
    + rewrite fmap_app, length_app, Ha, Nat.add_1_r.
      rewrite (take_S_r _ _ (content m')) by (by rewrite list_lookup_fmap, Hm').
      simpl. by rewrite Hc.
    + rewrite Hexp, length_app by done. simpl. lia.
  - split; try done; [by exists k|].
    unfold Mq.expected_seq in *. rewrite Hi, lookup_insert_ne by done. done.
Qed.

Lemma delivery_inv o q s sent acc :
  delivery o q s sent acc -> Z.of_nat (length sent) < 2 ^ 64 -> Inv o q s sent acc.
Proof.
  induction 1 as [q s Hq Hs| | |q s sent acc q' Hd IH Hq| |q s sent acc s' Hd IH Hs]; intros Hb.
  - split; unfold entry, Mq.expected_seq; rewrite ?Hq, ?Hs, ?lookup_empty; try done. by exists 0%nat.
  - rewrite length_app in Hb. simpl in Hb. eapply inv_push; eauto; [apply IHdelivery|]; lia.
  - eapply inv_purge; eauto.
  - destruct (IH Hb) as [Hf Hs' Hn Hl Hk Ha He]. split; unfold entry; rewrite ?Hq; done.
  - eapply inv_accept; eauto.
  - destruct (IH Hb) as [Hf Hs' Hn Hl Hk Ha He]. split; try done. unfold Mq.expected_seq in *. by rewrite Hs.
Qed.

(** A message in sequence, with a valid signature, is not rejected. *)
Lemma sync_in_sequence who m s :
  is_offchain (sender (message m)) = true -> topic_is_valid (destination (message m)) = true ->
  sequence m = Mq.expected_seq (sender (message m)) s -> Mq.check_message m s = Ok tt s ->
  0 <= sequence m -> sequence m + 1 < 2 ^ 64 ->
  forall e s', Mq.sync_offchain_message (Signed who) m s <> Err e s'.
Proof.
  intros Ho Ht Hq Hc H0 Hb e s'.
  enough (wp True (Mq.sync_offchain_message (Signed who) m) (fun _ _ => True) (fun _ _ => False) s) as Hw
    by (intros H; unfold wp in Hw; by rewrite H in Hw).
  unfold Mq.sync_offchain_message. apply wp_bind. unfold ensure_signed. wp_steps; try congruence.
  - unfold wp at 1. rewrite Hc. apply wp_bind. unfold wp at 1. rewrite arith_fits by lia.
    unfold upd_mq. apply wp_bind, wp_modify, wp_bind. unfold Mq.dispatch_message.
    apply wp_bind, wp_catch. unfold wp at 1.
    destruct (on_message_received (message m) _); try done;
      destruct (Mq.should_push_message (message m)); done.
  - match goal with H : (_ =? _) = false |- _ => by apply Z.eqb_neq in H end.
Qed.

(** ** Properties *)



End Delivery.

(** ** Witnesses *)
Import RefInstances.
#[local] Existing Instance notify_nothing.

Definition wit_signer (_ : bytes) : bytes := replicate 64 0.
Definition wit_channel : MessageChannel := mkMessageChannel (Worker 5) wit_signer.
Definition wit_push (n : Z) (q : Queue) : Queue :=
  final (push_data (E := Empty_set) wit_channel [n] (bytes_of_string "cyrux/mining/report")) q.
Definition wit_q2 : Queue := wit_push 8 (wit_push 7 ∅).
Definition wit_q3 : Queue := final (purge (E := Empty_set) (fun k => Mq.expected_seq k ref_state)) wit_q2.
Definition wit_m (n seq : Z) : SignedMessage :=
  sign wit_signer (mkMessage (Worker 5) (bytes_of_string "cyrux/mining/report") [n]) seq.
Definition wit_s1 : State := final (Mq.sync_offchain_message (Signed (acct 1)) (wit_m 7 0)) ref_state.
Definition wit_q4 : Queue := final (purge (E := Empty_set) (fun k => Mq.expected_seq k wit_s1)) wit_q3.

Lemma wit_pushed n seq q sent :
  delivery (Worker 5) q ref_state sent [] -> ch_sequence (entry q (Worker 5)) = seq ->
  push_data (E := Empty_set) wit_channel [n] (bytes_of_string "cyrux/mining/report") q = Ok tt (wit_push n q) ->
  delivery (Worker 5) (wit_push n q) ref_state (sent ++ [wit_m n seq]) [].
Proof. intros Hd <- Hp. by eapply delivery_push. Qed.

Lemma wit_delivery : delivery (Worker 5) wit_q3 wit_s1 [wit_m 7 0; wit_m 8 1] [wit_m 7 0].
Proof.
  apply (delivery_accept (Worker 5) wit_q3 ref_state [wit_m 7 0; wit_m 8 1] [] (Signed (acct 1)) (wit_m 7 0)
    Mq.PaysYes wit_s1); [|vm_compute; reflexivity|intros _; left].
  apply (delivery_purge _ wit_q2); [|reflexivity].
  apply (wit_pushed 8 1 (wit_push 7 ∅) [wit_m 7 0]); [|vm_compute; reflexivity|vm_compute; reflexivity].
  apply (wit_pushed 7 0 ∅ []); [by apply delivery_init|vm_compute; reflexivity|vm_compute; reflexivity].
Qed.



End Egress.
