(* ===== verification/Dispatcher.v ===== *)
(** * Message dispatching inside pRuntime: crates/cyrux-mq/src/dispatcher.rs

    The channels between the dispatcher and the components that subscribe to a
    topic (crates/cyrux-mq/src/simple_mpsc.rs), the dispatcher itself and the
    [select!] macro by which a component reads several of its channels.  A
    channel is shared by its senders and receivers: the store of channels is
    part of the state, and both ends hold an index into it. *)
From stdpp Require Import prelude gmap list sorting.
From Stdlib Require Import ZArith Lia.
From S2P Require Import Prelude Types.

(** ** simple_mpsc.rs *)
Record Chan := mkChan {
  deque : list (Z * Message);
  sender_count : Z;
  receiver_count : Z;
}.

Definition with_deque (q : list (Z * Message)) (c : Chan) : Chan := mkChan q (sender_count c) (receiver_count c).

(** ** dispatcher.rs *)
Record MessageDispatcher := mkMessageDispatcher {
  subscribers : gmap Topic (list nat);
  local_index : Z;
}.

Record Bus := mkBus {
  chans : list Chan;
  dispatcher : MessageDispatcher;
}.

(** [Receiver<Message>]: a channel and the topic it was subscribed with *)
Record Receiver := mkReceiver {
  rx_chan : nat;
  rx_topic : Topic;
}.

Inductive ReceiveError := SenderGone.

Inductive TypedReceiveError := TSenderGone | CodecError.

Definition is_sender_gone (e : TypedReceiveError) : bool := match e with TSenderGone => true | CodecError => false end.

Module Dispatcher.

Section Ops.
Context {prof : Profile} {E : Type}.
Abbreviation B := (M Bus E).

Definition set_chans (cs : list Chan) (b : Bus) : Bus := mkBus cs (dispatcher b).

Definition set_dispatcher (d : MessageDispatcher) (b : Bus) : Bus := mkBus (chans b) d.

(** An index held by a sender or a receiver is one of the store. *)
Definition get_chan (i : nat) : B Chan := let* c := gets (fun b => chans b !! i) in expect_some c.

Definition put_chan (i : nat) (c : Chan) : B unit := modify (fun b => set_chans (<[i := c]> (chans b)) b).

(** [channel()] *)
Definition channel : B nat :=
  let* i := gets (fun b => length (chans b)) in
  modify (fun b => set_chans (chans b ++ [mkChan [] 1 1]) b);;;
  mret i.

(** [Sender::send]; [false] is [ReceiverGone] *)
Definition send (i : nat) (value : Z * Message) : B bool :=
  let* ch := get_chan i in
  if receiver_count ch =? 0 then mret false
  else
    put_chan i (with_deque (deque ch ++ [value]) ch);;;
    mret true.

Definition clear_chan (i : nat) : B Z :=
  let* ch := get_chan i in
  put_chan i (with_deque [] ch);;;
  mret (Z.of_nat (length (deque ch))).

Definition clone_sender (i : nat) : B unit :=
  let* ch := get_chan i in
  let* n := arith 64 (sender_count ch + 1) in
  put_chan i (mkChan (deque ch) n (receiver_count ch)).

Definition drop_sender (i : nat) : B unit :=
  let* ch := get_chan i in
  let* n := arith 64 (sender_count ch - 1) in
  put_chan i (mkChan (deque ch) n (receiver_count ch)).

Definition clone_receiver (i : nat) : B unit :=
  let* ch := get_chan i in
  let* n := arith 64 (receiver_count ch + 1) in
  put_chan i (mkChan (deque ch) (sender_count ch) n).

Definition drop_receiver (i : nat) : B unit :=
  let* ch := get_chan i in
  let* n := arith 64 (receiver_count ch - 1) in
  put_chan i (mkChan (deque ch) (sender_count ch) n).

(** [Receiver::try_next] *)
Definition try_next (i : nat) : B (option (Z * Message) + ReceiveError) :=
  let* ch := get_chan i in
  match deque ch with
  | value :: rest => put_chan i (with_deque rest ch);;; mret (inl (Some value))
  | [] => mret (if sender_count ch =? 0 then inr SenderGone else inl None)
  end.

Definition drain (i : nat) : B (list (Z * Message)) :=
  let* ch := get_chan i in
  put_chan i (with_deque [] ch);;;
  mret (deque ch).

Definition peek_ind (i : nat) : B (option Z + ReceiveError) :=
  let* ch := get_chan i in
  mret (match deque ch with
        | value :: _ => inl (Some (fst value))
        | [] => if sender_count ch =? 0 then inr SenderGone else inl None
        end).

(** ** The dispatcher *)
Definition subscribe (path : Topic) : B Receiver :=
  let* i := channel in
  modify (fun b => set_dispatcher (mkMessageDispatcher
    (<[path := default [] (subscribers (dispatcher b) !! path) ++ [i]]> (subscribers (dispatcher b)))
    (local_index (dispatcher b))) b);;;
  mret (mkReceiver i path).

(** [receivers.retain(...)]: a sender whose receiver is gone is dropped. *)
Fixpoint send_all (value : Z * Message) (receivers : list nat) : B (list nat) :=
  match receivers with
  | [] => mret []
  | i :: rest =>
      let* ok := send i value in
      if ok then
        let* kept := send_all value rest in
        mret (i :: kept)
      else
        drop_sender i;;;
        send_all value rest
  end.

Definition dispatch (message : Message) : B Z :=
  let* d := gets dispatcher in
  let sn := local_index d in
  let* next := arith 64 (sn + 1) in
  modify (set_dispatcher (mkMessageDispatcher (subscribers d) next));;;
  match subscribers d !! destination message with
  | None => mret 0
  | Some receivers =>
      let* kept := send_all (sn, message) receivers in
      modify (set_dispatcher (mkMessageDispatcher (<[destination message := kept]> (subscribers d)) next));;;
      mret (Z.of_nat (length kept))
  end.

Definition reset_local_index : B unit :=
  modify (fun b => set_dispatcher (mkMessageDispatcher (subscribers (dispatcher b)) 0) b).

Definition clear : B Z :=
  let* d := gets dispatcher in
  for_fold (concat (map_to_list (subscribers d)).*2) 0 (fun count i =>
    let* n := clear_chan i in
    arith 64 (count + n)).

(** [TypedReceiver::try_next] *)
Definition typed_next {T} (decode : bytes -> option T) (i : nat) :
    B (option (Z * T * MessageOrigin) + TypedReceiveError) :=
  let* m := try_next i in
  match m with
  | inr SenderGone => mret (inr TSenderGone)
  | inl None => mret (inl None)
  | inl (Some (sn, msg)) =>
      match decode (payload msg) with
      | Some typed => mret (inl (Some (sn, typed, sender msg)))
      | None => if always_well_formed (sender msg) then panic else mret (inr CodecError)
      end
  end.

(** ** [select!]

    The first pass finds the channel whose first message is the oldest; a
    closed channel is taken in any case. *)
Definition select_step (acc : option Z * nat) (ind : nat) (p : option Z + ReceiveError) : option Z * nat :=
  match p with
  | inl (Some sn) =>
      match fst acc with
      | None => (Some sn, ind)
      | Some old => if sn <? old then (Some sn, ind) else acc
      end
  | inr _ => (Some 0, ind)
  | inl None => acc
  end.

Fixpoint select_min (ind : nat) (acc : option Z * nat) (mqs : list nat) : B (option Z * nat) :=
  match mqs with
  | [] => mret acc
  | i :: rest =>
      let* p := peek_ind i in
      select_min (S ind) (select_step acc ind p) rest
  end.

(** The arm to run, if any *)
Definition select (mqs : list nat) : B (option nat) :=
  let* r := select_min 0 (None, 0%nat) mqs in
  mret (match fst r with Some _ => Some (snd r) | None => None end).

End Ops.

(** ** Reading loops

    [loop { let ok = select! { ... }; if ok.is_none() { break; } }] in a component
    whose own state is [C]; [arm] is what an arm does with its message. *)
Section Loop.
Context {prof : Profile} {E C : Type}.

Definition on_bus {A} (m : M Bus E A) : M (Bus * C) E A := fun s =>
  match m (fst s) with
  | Ok a b => Ok a (b, snd s)
  | Err e b => Err e (b, snd s)
  | Panic => Panic
  | NoFuel => NoFuel
  end.

Definition on_component {A} (m : M C E A) : M (Bus * C) E A := fun s =>
  match m (snd s) with
  | Ok a c => Ok a (fst s, c)
  | Err e c => Err e (fst s, c)
  | Panic => Panic
  | NoFuel => NoFuel
  end.

(** One arm of [select!]: [true] when it ran *)
Definition run_arm (mqs : list nat) (arm : nat -> (Z * Message) + ReceiveError -> M C E unit) (k : nat) :
    M (Bus * C) E bool :=
  let* i := on_bus (expect_some (mqs !! k)) in
  let* m := on_bus (try_next i) in
  match m with
  | inl None => mret false
  | inl (Some v) => on_component (arm k (inl v));;; mret true
  | inr e => on_component (arm k (inr e));;; mret true
  end.

Fixpoint select_loop (fuel : nat) (mqs : list nat) (arm : nat -> (Z * Message) + ReceiveError -> M C E unit) :
    M (Bus * C) E unit :=
  match fuel with
  | O => fun _ => NoFuel
  | S fuel =>
      let* k := on_bus (select mqs) in
      match k with
      | None => mret tt
      | Some k =>
          let* ok := run_arm mqs arm k in
          if (ok : bool) then select_loop fuel mqs arm else mret tt
      end
  end.

End Loop.

(** A typed arm: the payload is decoded before the block of the arm runs. *)
Definition typed_arm {T C E} (decode : bytes -> option T)
    (block : (T * MessageOrigin) + TypedReceiveError -> M C E unit) (v : (Z * Message) + ReceiveError) :
    M C E unit :=
  match v with
  | inr SenderGone => block (inr TSenderGone)
  | inl (_, msg) =>
      match decode (payload msg) with
      | Some typed => block (inl (typed, sender msg))
      | None => if always_well_formed (sender msg) then panic else block (inr CodecError)
      end
  end.

(** An arm of [select_ignore_errors!] *)
Definition ignore_errors {T C E} (block : T -> MessageOrigin -> M C E unit)
    (v : (T * MessageOrigin) + TypedReceiveError) : M C E unit :=
  match v with
  | inl (msg, origin) => block msg origin
  | inr e => if is_sender_gone e then panic else mret tt
  end.

End Dispatcher.
