(* ===== verification/DispatcherProps.v ===== *)
(** * Message dispatching: properties

    A component that reads several topics with [select!] handles their messages
    in the order in which they were dispatched, each exactly once. *)
From stdpp Require Import prelude gmap list sorting.
From Stdlib Require Import ZArith Lia.
From S2P Require Import Prelude Types Dispatcher.

Module DispatcherProps.
Import Dispatcher.

(** What has been dispatched, numbered *)
Definition tagged (ms : list Message) : list (Z * Message) := imap (fun j m => (Z.of_nat j, m)) ms.

Definition mailbox (t : Topic) (l : list (Z * Message)) : list (Z * Message) :=
  filter (fun v => destination (snd v) = t) l.

(** The channels with a topic, when channel [i] was subscribed with [ts !! i] *)
Definition positions (t : Topic) (ts : list Topic) : list nat :=
  filter (fun i => ts !! i = Some t) (seq 0 (length ts)).

(** The arms of a [select!] on [mqs] that a message is for *)
Definition arms (ts : list Topic) (mqs : list nat) (d : Topic) : list nat :=
  filter (fun k => (mqs !! k) ≫= (ts !!.) = Some d) (seq 0 (length mqs)).

Lemma filter_ext_in {A} (P Q : A -> Prop) `{!forall x, Decision (P x), !forall x, Decision (Q x)} (l : list A) :
  (forall x, x ∈ l -> P x <-> Q x) -> filter P l = filter Q l.
Proof.
  induction l as [|x l IH]; intros Hl; [done|]. rewrite !filter_cons.
  destruct (Hl x ltac:(by left)) as [H1 H2].
  rewrite IH by (intros y Hy; apply Hl; by right). repeat case_decide; tauto.
Qed.

Lemma positions_snoc t ts x :
  positions t (ts ++ [x]) = positions t ts ++ (if decide (x = t) then [length ts] else []).
Proof.
  unfold positions. rewrite length_app, seq_app, filter_app. f_equal.
  - apply filter_ext_in. intros i Hi. apply elem_of_seq in Hi. by rewrite lookup_app_l by lia.
  - simpl. rewrite filter_cons, filter_nil, lookup_app_r, Nat.sub_diag by lia. simpl.
    repeat case_decide; simplify_eq; done.
Qed.

Lemma elem_of_positions t ts i : i ∈ positions t ts <-> ts !! i = Some t.
Proof.
  unfold positions. rewrite list_elem_of_filter, elem_of_seq. split; [tauto|].
  intros H. split; [done|]. apply lookup_lt_Some in H. lia.
Qed.

Lemma NoDup_positions t ts : NoDup (positions t ts).
Proof. apply NoDup_filter, NoDup_seq. Qed.

Lemma tagged_snoc ms m : tagged (ms ++ [m]) = tagged ms ++ [(Z.of_nat (length ms), m)].
Proof. unfold tagged. rewrite imap_app. simpl. by rewrite Nat.add_0_r. Qed.

(** ** Subscribing and dispatching *)
Section Dispatch.
Context {prof : Profile} {E : Type}.

(** A bus on which the topics [ts] were subscribed, then [ms] dispatched *)
Record After (ts : list Topic) (ms : list Message) (b : Bus) : Prop := {
  after_length : length (chans b) = length ts;
  after_chan : forall i t, ts !! i = Some t -> chans b !! i = Some (mkChan (mailbox t (tagged ms)) 1 1);
  after_subs : forall t, default [] (subscribers (dispatcher b) !! t) = positions t ts;
  after_index : local_index (dispatcher b) = Z.of_nat (length ms);
}.

Definition empty_bus : Bus := mkBus [] (mkMessageDispatcher ∅ 0).

Lemma after_empty : After [] [] empty_bus.
Proof. split; try done. Qed.

Lemma subscribe_after ts t b :
  After ts [] b ->
  exists b', subscribe (E := E) t b = Ok (mkReceiver (length ts) t) b' /\ After (ts ++ [t]) [] b'.
Proof.
  intros [Hl Hc Hs Hi]. eexists. split; [cbn; by rewrite Hl|]. split; simpl.
  - rewrite !length_app, Hl. done.
  - intros i t' Ht. destruct (decide (i < length ts)%nat).
    + rewrite lookup_app_l in Ht by lia. rewrite lookup_app_l by lia. auto.
    + rewrite lookup_app_r in Ht by lia. rewrite lookup_app_r, Hl by lia.
      destruct (i - length ts)%nat eqn:?; [|done]. done.
  - intros t'. rewrite positions_snoc. case_decide as Ht.
    + subst. rewrite lookup_insert_eq. simpl. by rewrite Hs.
    + rewrite lookup_insert_ne, app_nil_r by done. apply Hs.
  - done.
Qed.

Lemma get_chan_ok i c b : chans b !! i = Some c -> get_chan (E := E) i b = Ok c b.
Proof. intros H. unfold get_chan. cbn. by rewrite H. Qed.

Lemma send_ok i v q b :
  chans b !! i = Some (mkChan q 1 1) ->
  send (E := E) i v b = Ok true (set_chans (<[i := mkChan (q ++ [v]) 1 1]> (chans b)) b).
Proof. intros H. unfold send, mbind at 1. by rewrite (get_chan_ok _ _ _ H). Qed.

Lemma send_all_ok v l : forall b, NoDup l ->
  (forall i, i ∈ l -> exists q, chans b !! i = Some (mkChan q 1 1)) ->
  exists b', send_all (E := E) v l b = Ok l b' /\ dispatcher b' = dispatcher b /\
    length (chans b') = length (chans b) /\
    forall i, chans b' !! i
      = (fun c => if decide (i ∈ l) then with_deque (deque c ++ [v]) c else c) <$> chans b !! i.
Proof.
  induction l as [|i l IH]; intros b Hn Hc.
  - exists b. split_and!; [done..|]. intros i. by destruct (chans b !! i).
  - apply NoDup_cons in Hn as [Hi Hn]. destruct (Hc i ltac:(by left)) as [q Hq].
    pose (b1 := set_chans (<[i := mkChan (q ++ [v]) 1 1]> (chans b)) b).
    destruct (IH b1 Hn) as (b' & Hs & Hd & Hl & Hb).
    { intros j Hj. simpl. rewrite list_lookup_insert_ne by set_solver. apply Hc. by right. }
    exists b'. split_and!.
    + cbn [send_all]. unfold mbind at 1. rewrite (send_ok _ _ _ _ Hq). unfold mbind. fold b1. by rewrite Hs.
    + by rewrite Hd.
    + rewrite Hl. simpl. by rewrite length_insert.
    + intros j. rewrite Hb. simpl. destruct (decide (j = i)) as [->|Hj].
      * rewrite list_lookup_insert_eq by (by eapply lookup_lt_Some). rewrite Hq. simpl.
        rewrite decide_False by done. rewrite decide_True by set_solver. done.
      * rewrite list_lookup_insert_ne by done. apply option_fmap_ext. intros c.
        repeat case_decide; set_solver.
Qed.

Lemma mailbox_snoc t l v : mailbox t (l ++ [v]) = mailbox t l ++ (if decide (destination (snd v) = t) then [v] else []).
Proof. unfold mailbox. rewrite filter_app, filter_cons, filter_nil. by case_decide. Qed.

Lemma dispatch_after ts ms m b :
  After ts ms b -> Z.of_nat (length ms) + 1 < 2 ^ 64 ->
  exists n b', dispatch (E := E) m b = Ok n b' /\ After ts (ms ++ [m]) b'.
Proof.
  intros [Hl Hc Hs Hi] Hb. unfold dispatch, mbind. cbn [gets modify]. rewrite Hi, arith_fits by lia.
  assert (Hlen : Z.of_nat (length ms) + 1 = Z.of_nat (length (ms ++ [m]))) by (rewrite length_app; simpl; lia).
  pose proof (Hs (destination m)) as Hd.
  destruct (subscribers (dispatcher b) !! destination m) as [l|] eqn:Hsub; simpl in Hd.
  - subst l. set (b1 := set_dispatcher _ b).
    destruct (send_all_ok (Z.of_nat (length ms), m) (positions (destination m) ts) b1)
      as (b' & Hsend & Hdisp & Hlb & Hch); [apply NoDup_positions| |].
    { intros i Hp%elem_of_positions. eexists. by apply Hc. }
    rewrite Hsend. eexists _, _. split; [done|]. split; simpl.
    + rewrite Hlb. done.
    + intros i t Ht. rewrite Hch. simpl. rewrite (Hc _ _ Ht). simpl.
      rewrite tagged_snoc, mailbox_snoc. simpl. do 2 f_equal.
      destruct (decide (destination m = t)) as [->|Hne].
      * rewrite decide_True by (by apply elem_of_positions). done.
      * rewrite decide_False by (rewrite elem_of_positions; congruence). by rewrite app_nil_r.
    + intros t. destruct (decide (t = destination m)) as [->|Hne]; [by rewrite lookup_insert_eq|].
      by rewrite lookup_insert_ne.
    + done.
  - eexists _, _. split; [done|]. split; simpl; try done.
    intros i t Ht. rewrite (Hc _ _ Ht), tagged_snoc, mailbox_snoc. simpl.
    rewrite decide_False; [by rewrite app_nil_r|]. intros <-.
    apply elem_of_positions in Ht. rewrite <- Hd in Ht. by apply not_elem_of_nil in Ht.
Qed.

End Dispatch.

(** ** Selecting *)

(** What waits for arm [k] *)
Definition queue_of (k : nat) (Q : list (nat * (Z * Message))) : list (Z * Message) :=
  snd <$> filter (fun x => fst x = k) Q.

(** Order of dispatch, then order of the arms *)
Definition before (x y : nat * (Z * Message)) : Prop :=
  fst (snd x) < fst (snd y) \/ (fst (snd x) = fst (snd y) /\ (fst x < fst y)%nat).

Definition pending (mqs : list nat) (Q : list (nat * (Z * Message))) (b : Bus) : Prop :=
  forall k i, mqs !! k = Some i -> chans b !! i = Some (mkChan (queue_of k Q) 1 1).

Definition oldest (Q : list (nat * (Z * Message))) (k : nat) : option Z := fst <$> head (queue_of k Q).

Definition min_of (Q : list (nat * (Z * Message))) (ks : list nat) (acc : option Z * nat) : option Z * nat :=
  foldl (fun acc k => select_step acc k (inl (oldest Q k))) acc ks.

Lemma oldest_elem Q k sn : oldest Q k = Some sn -> exists m, (k, (sn, m)) ∈ Q.
Proof.
  unfold oldest, queue_of. destruct (filter _ Q) as [|[k' [sn' m]] l] eqn:Hf; [done|].
  intros [= <-]. exists m.
  assert ((k', (sn', m)) ∈ filter (fun x => fst x = k) Q) as Hin by (rewrite Hf; by left).
  apply list_elem_of_filter in Hin as [<- Hin]. done.
Qed.

(** The fold of [select!] finds the least, and the first of equal ones. *)
Lemma min_of_least Q n k0 sn0 :
  oldest Q k0 = Some sn0 ->
  (forall k sn, oldest Q k = Some sn -> sn0 <= sn /\ ((k < k0)%nat -> sn0 < sn)) ->
  if decide (k0 < n)%nat then min_of Q (seq 0 n) (None, 0%nat) = (Some sn0, k0)
  else match fst (min_of Q (seq 0 n) (None, 0%nat)) with Some sn => sn0 < sn | None => True end.
Proof.
  intros H0 Hmin. induction n as [|n IH]; [by rewrite decide_False by lia|].
  unfold min_of in *. rewrite seq_S, foldl_app. simpl.
  set (r := foldl _ _ (seq 0 n)) in *. destruct (decide (k0 < n)%nat) as [Hk|Hk].
  - rewrite decide_True by lia. rewrite IH. unfold select_step. simpl.
    destruct (oldest Q n) as [sn|] eqn:Hn; [|done]. apply Hmin in Hn as [Hn _].
    by rewrite (proj2 (Z.ltb_ge sn sn0) Hn).
  - unfold select_step. destruct (decide (k0 = n)) as [->|Hne].
    + rewrite decide_True, H0 by lia. destruct (fst r) as [old|]; [|done].
      by rewrite (proj2 (Z.ltb_lt sn0 old) IH).
    + rewrite decide_False by lia. destruct (oldest Q n) as [sn|] eqn:Hn; [|done].
      apply Hmin in Hn as [_ Hn]. specialize (Hn ltac:(lia)).
      destruct (fst r) as [old|] eqn:Hr; simpl; [|done]. destruct (sn <? old); simpl; [done|]. by rewrite Hr.
Qed.

Lemma min_of_none Q n : (forall k, oldest Q k = None) -> min_of Q (seq 0 n) (None, 0%nat) = (None, 0%nat).
Proof.
  intros H. induction n as [|n IH]; [done|]. unfold min_of in *. rewrite seq_S, foldl_app, IH. simpl.
  by rewrite H.
Qed.

Section Select.
Context {prof : Profile} {E : Type}.

Lemma select_min_ok Q b mqs : forall ind acc,
  (forall k i, mqs !! k = Some i -> chans b !! i = Some (mkChan (queue_of (ind + k) Q) 1 1)) ->
  select_min (E := E) ind acc mqs b = Ok (min_of Q (seq ind (length mqs)) acc) b.
Proof.
  induction mqs as [|i mqs IH]; intros ind acc Hp; [done|].
  pose proof (Hp 0%nat i eq_refl) as Hi. rewrite Nat.add_0_r in Hi.
  cbn [select_min]. unfold peek_ind, mbind at 1 2. rewrite (get_chan_ok _ _ _ Hi). cbn [mret].
  rewrite IH by (intros k j Hj; rewrite Nat.add_succ_comm; by apply (Hp (S k))).
  unfold min_of, oldest. simpl. by destruct (queue_of ind Q).
Qed.

Lemma select_head mqs Q b :
  pending mqs Q b -> StronglySorted before Q -> Forall (fun x => (fst x < length mqs)%nat) Q ->
  select (E := E) mqs b = Ok (fst <$> head Q) b.
Proof.
  intros Hp Hs Hf. unfold select, mbind. rewrite (select_min_ok Q) by (exact Hp).
  destruct Q as [|[k0 [sn0 m0]] Q].
  - by rewrite min_of_none by done.
  - apply Forall_cons in Hf as [Hk _]. simpl in Hk.
    inversion Hs as [|? ? _ Hall]; subst. rewrite Forall_forall in Hall.
    pose proof (min_of_least ((k0, (sn0, m0)) :: Q) (length mqs) k0 sn0) as Hm.
    rewrite decide_True in Hm by done. rewrite Hm; [done| |].
    + unfold oldest, queue_of. rewrite filter_cons_True by done. done.
    + intros k sn Ho. apply oldest_elem in Ho as [m [[= -> -> ->]|Hin]%elem_of_cons]; [lia|].
      destruct (Hall _ Hin); simpl in *; lia.
Qed.

End Select.

(** ** Reading loops *)
Section Loop.
Context {prof : Profile} {E C : Type}.

(** The component's part of a result *)
Definition component {A} (o : outcome (Bus * C) E A) : outcome C E A :=
  match o with
  | Ok a s => Ok a (snd s)
  | Err e s => Err e (snd s)
  | Panic => Panic
  | NoFuel => NoFuel
  end.

Lemma pending_next mqs Q k v i b :
  NoDup mqs -> mqs !! k = Some i -> pending mqs ((k, v) :: Q) b ->
  pending mqs Q (set_chans (<[i := mkChan (queue_of k Q) 1 1]> (chans b)) b).
Proof.
  intros Hn Hk Hp k' i' Hk'. simpl. pose proof (Hp _ _ Hk) as Hc. pose proof (Hp _ _ Hk') as Hc'.
  destruct (decide (k' = k)) as [->|Hne].
  - replace i' with i by congruence. apply list_lookup_insert_eq. by eapply lookup_lt_Some.
  - rewrite list_lookup_insert_ne by (intros ->; by eapply Hne, NoDup_lookup).
    rewrite Hc'. unfold queue_of. by rewrite filter_cons_False by (simpl; congruence).
Qed.

Lemma run_arm_ok mqs arm k v Q i b (c : C) :
  mqs !! k = Some i -> pending mqs ((k, v) :: Q) b ->
  run_arm (E := E) mqs arm k (b, c)
  = (on_component (arm k (inl v));;; mret true)
      (set_chans (<[i := mkChan (queue_of k Q) 1 1]> (chans b)) b, c).
Proof.
  intros Hk Hp. pose proof (Hp _ _ Hk) as Hc. unfold queue_of in Hc.
  rewrite filter_cons_True in Hc by done. simpl in Hc.
  unfold run_arm. rewrite Hk. unfold mbind at 1. cbn [on_bus expect_some mret]. simpl.
  unfold mbind at 1, on_bus at 1, try_next, mbind at 1. simpl. by rewrite (get_chan_ok _ _ _ Hc).
Qed.

(** The loop handles what is pending in the order of dispatch. *)
Lemma select_loop_pending mqs arm Q : NoDup mqs ->
  forall fuel b (c : C), pending mqs Q b -> StronglySorted before Q ->
  Forall (fun x => (fst x < length mqs)%nat) Q -> (length Q < fuel)%nat ->
  component (select_loop (E := E) fuel mqs arm (b, c)) = for_each Q (fun x => arm (fst x) (inl (snd x))) c.
Proof.
  intros Hn. induction Q as [|[k v] Q IH]; intros fuel b c Hp Hs Hf Hl; (destruct fuel as [|fuel]; [simpl in Hl; lia|]).
  - cbn [select_loop]. unfold mbind, on_bus. simpl. by rewrite (select_head _ _ _ Hp Hs Hf).
  - cbn [select_loop]. unfold mbind at 1, on_bus at 1. simpl fst. rewrite (select_head _ _ _ Hp Hs Hf). simpl.
    inversion Hs as [|? ? Hs' _]; subst. apply Forall_cons in Hf as [Hk Hf]. simpl in Hk, Hl.
    destruct (lookup_lt_is_Some_2 mqs k Hk) as [i Hi].
    unfold mbind at 1. rewrite (run_arm_ok _ _ _ _ _ _ _ _ Hi Hp).
    pose proof (pending_next _ _ _ _ _ _ Hn Hi Hp) as Hp'.
    unfold mbind, on_component. simpl. destruct (arm k (inl v) c) as [[] c'|e c'| |]; try done.
    simpl. apply IH; [done..|lia].
Qed.

End Loop.

(** ** The deliveries of a run *)
Section Deliveries.
Context (ts : list Topic) (mqs : list nat).

(** The messages of [l] for the arms, in the order of [l] *)
Definition deliver (l : list (Z * Message)) : list (nat * (Z * Message)) :=
  l ≫= fun v => (fun k => (k, v)) <$> arms ts mqs (destination (snd v)).

Lemma deliver_snoc l v :
  deliver (l ++ [v]) = deliver l ++ ((fun k => (k, v)) <$> arms ts mqs (destination (snd v))).
Proof. unfold deliver. rewrite bind_app. simpl. by rewrite app_nil_r. Qed.

Lemma elem_of_deliver l k v : (k, v) ∈ deliver l -> v ∈ l /\ k ∈ arms ts mqs (destination (snd v)).
Proof.
  unfold deliver. rewrite list_elem_of_bind. intros (v' & Hin & Hv).
  apply list_elem_of_fmap in Hin as (k' & [= -> ->] & Hk). done.
Qed.

Lemma arms_sorted d : StronglySorted lt (arms ts mqs d).
Proof.
  unfold arms. generalize 0%nat. induction (length mqs) as [|n IH]; intros x; [constructor|].
  simpl. rewrite filter_cons. case_decide; [|done]. apply StronglySorted_cons. split; [|done].
  apply Forall_forall. intros y [_ Hy%elem_of_seq]%list_elem_of_filter. lia.
Qed.

Lemma deliver_sorted l : StronglySorted (fun x y => fst x < fst y) l -> StronglySorted before (deliver l).
Proof.
  induction l as [|v l IH] using rev_ind; [constructor|].
  rewrite deliver_snoc, !StronglySorted_app. intros (Hlt & Hl & _). split_and!.
  - intros [k1 v1] x Hx (k & -> & _)%list_elem_of_fmap. apply elem_of_deliver in Hx as [Hv _].
    left. apply Hlt; [done|by left].
  - by apply IH.
  - eapply StronglySorted_fmap, arms_sorted. intros x y Hxy. right. done.
Qed.

Lemma tagged_bound ms v : v ∈ tagged ms -> fst v < Z.of_nat (length ms).
Proof.
  unfold tagged. rewrite list_elem_of_lookup. intros [i Hi].
  rewrite list_lookup_imap in Hi. apply fmap_Some in Hi as (m & Hm & ->).
  apply lookup_lt_Some in Hm. simpl. lia.
Qed.

Lemma tagged_sorted ms : StronglySorted (fun x y => fst x < fst y) (tagged ms).
Proof.
  induction ms as [|m ms IH] using rev_ind; [constructor|]. rewrite tagged_snoc.
  apply StronglySorted_app_2; [|done|by repeat constructor].
  intros x y Hx ->%list_elem_of_singleton. by apply tagged_bound.
Qed.

Lemma queue_of_arm k v ks :
  NoDup ks -> queue_of k ((fun k' => (k', v)) <$> ks) = if decide (k ∈ ks) then [v] else [].
Proof.
  induction ks as [|k' ks IH]; intros Hn; [done|]. apply NoDup_cons in Hn as [Hk Hn].
  unfold queue_of in *. specialize (IH Hn). rewrite fmap_cons.
  destruct (decide (k' = k)) as [->|Hne];
    [rewrite filter_cons_True by done; rewrite fmap_cons|rewrite filter_cons_False by done]; rewrite IH.
  - rewrite decide_False by done. by rewrite decide_True by set_solver.
  - repeat case_decide; set_solver.
Qed.

Lemma queue_of_deliver k i t l :
  mqs !! k = Some i -> ts !! i = Some t -> queue_of k (deliver l) = mailbox t l.
Proof.
  intros Hk Hi. induction l as [|v l IH] using rev_ind; [done|].
  rewrite deliver_snoc, mailbox_snoc, <- IH. unfold queue_of at 1. rewrite filter_app, fmap_app. f_equal.
  fold (queue_of k ((fun k' => (k', v)) <$> arms ts mqs (destination (snd v)))).
  rewrite queue_of_arm by apply NoDup_filter, NoDup_seq. unfold arms.
  assert (k ∈ arms ts mqs (destination (snd v)) <-> destination (snd v) = t) as Hiff.
  { unfold arms. rewrite list_elem_of_filter, elem_of_seq, Hk. simpl. rewrite Hi.
    apply lookup_lt_Some in Hk. split; [intros [[=] _]; done|intros ->; split; [done|lia]]. }
  repeat case_decide; tauto.
Qed.

Lemma deliver_arms l : Forall (fun x => (fst x < length mqs)%nat) (deliver l).
Proof.
  apply Forall_forall. intros [k v] [_ Hk]%elem_of_deliver. unfold arms in Hk.
  apply list_elem_of_filter in Hk as [_ Hk%elem_of_seq]. simpl. lia.
Qed.

Lemma deliver_length l : (length (deliver l) <= length mqs * length l)%nat.
Proof.
  induction l as [|v l IH] using rev_ind; [unfold deliver; simpl; lia|].
  rewrite deliver_snoc, !length_app, length_fmap. unfold arms.
  pose proof (length_filter (fun k => (mqs !! k) ≫= (ts !!.) = Some (destination (snd v))) (seq 0 (length mqs))) as Hf.
  rewrite length_seq in Hf. simpl. lia.
Qed.

End Deliveries.

(** ** Properties *)
Section Properties.
Context {prof : Profile} {E C : Type}.

(** [recv_mq.subscribe(...)] for each topic *)
Definition subscribe_all (ts : list Topic) : M Bus E unit :=
  for_each ts (fun t => let* _ := subscribe t in mret tt).

Definition dispatch_all (ms : list Message) : M Bus E unit :=
  for_each ms (fun m => let* _ := dispatch m in mret tt).

Lemma subscribe_all_after ts : forall ts0 b, After ts0 [] b ->
  exists b', subscribe_all ts b = Ok tt b' /\ After (ts0 ++ ts) [] b'.
Proof.
  unfold subscribe_all. induction ts as [|t ts IH]; intros ts0 b Hb; [exists b; by rewrite app_nil_r|].
  destruct (subscribe_after (E := E) _ t _ Hb) as (b1 & Hs & Hb1).
  destruct (IH _ _ Hb1) as (b2 & Hs2 & Hb2). exists b2. rewrite <- app_assoc in Hb2. split; [|done].
  simpl. unfold mbind. by rewrite Hs.
Qed.

Lemma dispatch_all_after ts ms : forall ms0 b, After ts ms0 b ->
  Z.of_nat (length ms0) + Z.of_nat (length ms) < 2 ^ 64 ->
  exists b', dispatch_all ms b = Ok tt b' /\ After ts (ms0 ++ ms) b'.
Proof.
  unfold dispatch_all. induction ms as [|m ms IH]; intros ms0 b Hb Hl; [exists b; by rewrite app_nil_r|].
  simpl in Hl. destruct (dispatch_after (E := E) _ _ m _ Hb ltac:(lia)) as (n & b1 & Hs & Hb1).
  destruct (IH _ _ Hb1) as (b2 & Hs2 & Hb2); [rewrite length_app; simpl; lia|].
  exists b2. rewrite <- app_assoc in Hb2. split; [|done]. simpl. unfold mbind. by rewrite Hs.
Qed.

(** The loop after any subscriptions and dispatches *)
Lemma loop_after_dispatch ts ms mqs (arm : nat -> (Z * Message) + ReceiveError -> M C E unit) (c : C) fuel :
  NoDup mqs -> Forall (fun i => (i < length ts)%nat) mqs ->
  Z.of_nat (length ms) < 2 ^ 64 -> (length mqs * length ms < fuel)%nat ->
  exists b0 b1, subscribe_all ts empty_bus = Ok tt b0 /\ dispatch_all ms b0 = Ok tt b1 /\
    component (select_loop fuel mqs arm (b1, c))
    = for_each (deliver ts mqs (tagged ms)) (fun x => arm (fst x) (inl (snd x))) c.
Proof.
  intros Hn Hf Hl Hfuel.
  destruct (subscribe_all_after ts [] empty_bus after_empty) as (b0 & H0 & Ha0).
  destruct (dispatch_all_after ts ms [] b0 Ha0) as (b1 & H1 & Ha1); [simpl; lia|].
  exists b0, b1. split_and!; [done..|].
  apply select_loop_pending; [done| |apply deliver_sorted, tagged_sorted|apply deliver_arms|].
  - intros k i Hk. pose proof (Forall_lookup_1 _ _ _ _ Hf Hk) as Hi.
    destruct (lookup_lt_is_Some_2 ts i Hi) as [t Ht].
    rewrite (queue_of_deliver ts mqs k i t) by done. by apply (after_chan _ _ _ Ha1).
  - pose proof (deliver_length ts mqs (tagged ms)) as Hd. unfold tagged in Hd at 2. rewrite length_imap in Hd. lia.
Qed.

(** C36: a component that subscribed to several topics and reads its channels
    with a [select!] loop handles every message dispatched to one of them
    exactly once and in the global order of dispatch, whatever else is
    subscribed; the loop ends. *)
Theorem select_in_dispatch_order ts ms mqs (arm : nat -> (Z * Message) + ReceiveError -> M C E unit) (c : C) fuel :
  NoDup mqs -> Forall (fun i => (i < length ts)%nat) mqs ->
  Z.of_nat (length ms) < 2 ^ 64 -> (length mqs * length ms < fuel)%nat ->
  exists b0 b1, subscribe_all ts empty_bus = Ok tt b0 /\ dispatch_all ms b0 = Ok tt b1 /\
    component (select_loop fuel mqs arm (b1, c))
    = for_each (deliver ts mqs (tagged ms)) (fun x => arm (fst x) (inl (snd x))) c.
Proof. apply loop_after_dispatch. Qed.

End Properties.

(** ** Witness *)
Definition wit_ms : list Message :=
  [mkMessage Gatekeeper [7] [1]; mkMessage Gatekeeper [8] [2]; mkMessage Gatekeeper [9] [3]; mkMessage Gatekeeper [7] [4]].
Definition wit_arm (k : nat) (v : (Z * Message) + ReceiveError) : M (list (nat * bytes)) Empty_set unit :=
  match v with inl (_, m) => modify (fun l => l ++ [(k, payload m)]) | inr _ => mret tt end.
Definition wit_profile : Profile := {| overflow_checks := true; debug_assertions := true |}.

Lemma select_in_dispatch_order_witness :
  exists b1, component (select_loop 9 [2; 0]%nat wit_arm (b1, []))
  = Ok tt [(1%nat, [1]); (0%nat, [2]); (1%nat, [4])].
Proof.
  destruct (select_in_dispatch_order (prof := wit_profile) [[7]; [9]; [8]] wit_ms [2; 0]%nat wit_arm [] 9%nat)
    as (b0 & b1 & _ & _ & H).
  - apply (bool_decide_unpack _). reflexivity.
  - apply (bool_decide_unpack _). reflexivity.
  - simpl. lia.
  - simpl. lia.
  - exists b1. rewrite H. reflexivity.
Defined.

End DispatcherProps.
