(* ===== verification/Benchmark.v ===== *)
(** * The benchmark of a worker: crates/phactory/src/benchmark.rs

    The counter and the flags that the worker's state machine reads and sets,
    and the workload whose rounds are counted. *)
From stdpp Require Import prelude list.
From Stdlib Require Import ZArith Lia.
From S2P Require Import Prelude.

(** [Flags]: bits 0, 1 and 2 *)
Definition BENCH_PAUSED : Z := 1.
Definition SYNCING : Z := 2.
Definition CONTRACT_RUNNING : Z := 4.

(** The statics of the module, and [State] *)
Record Bench := mkBench {
  ITERATION_COUNTER : Z;
  SCORE : Z;
  FLAGS : Z;
}.

Module Benchmark.

Definition initial : Bench := mkBench 0 0 BENCH_PAUSED.

Definition dump_state (b : Bench) : Bench := b.

Definition restore_state (state : Bench) (_ : Bench) : Bench := state.

Definition iteration_counter (b : Bench) : Z := ITERATION_COUNTER b.

Definition reset_iteration_counter (b : Bench) : Bench := mkBench 0 (SCORE b) (FLAGS b).

Definition set_flag (flag : Z) (on : bool) (b : Bench) : Bench :=
  mkBench (ITERATION_COUNTER b) (SCORE b)
    (if on then Z.lor (FLAGS b) flag else Z.ldiff (FLAGS b) flag).

Definition check_flag (flag : Z) (b : Bench) : bool := Z.land (FLAGS b) flag =? flag.

Definition pause : Bench -> Bench := set_flag BENCH_PAUSED true.

Definition resume : Bench -> Bench := set_flag BENCH_PAUSED false.

Definition paused (b : Bench) : bool := negb (FLAGS b =? 0).

Definition syncing (b : Bench) : bool := check_flag SYNCING b.

Section Score.
Context {prof : Profile} {S E : Type}.

(** [est_score], at the time [now] *)
Definition est_score (counter now since start : Z) : M S E Z :=
  if now <=? since then mret 0
  else
    let* n := arith 64 (counter - start) in
    let* n := arith 64 (n * 6) in
    div_u n (now - since).

End Score.

(** [a..=b] *)
Definition range_incl (a b : Z) : list Z := seqZ a (b - a + 1).

Definition is_prime (num : Z) : bool :=
  let tmp := num - 1 in
  forallb (fun i => negb (num mod i =? 0)) (range_incl tmp 2).

Definition count_prime (max : Z) : Z :=
  Z.of_nat (length (filter (fun i => is_prime i = true) (seqZ 2 (max - 2)))).

(** The range of divisors runs the wrong way: it is empty from 4 on. *)
Lemma is_prime_tests_nothing num : 4 <= num -> is_prime num = true.
Proof.
  intros H. unfold is_prime, range_incl. rewrite (seqZ_nil _ (2 - (num - 1) + 1)) by lia. done.
Qed.

(** So composite numbers pass, and 2 does not. *)
Lemma is_prime_wrong : is_prime 9 = true /\ is_prime 2 = false.
Proof. split; reflexivity. Qed.

(** The benchmark runs exactly when no flag is set. *)
Lemma paused_flags b : 0 <= FLAGS b < 8 ->
  paused b = check_flag BENCH_PAUSED b || syncing b || check_flag CONTRACT_RUNNING b.
Proof.
  intros H. unfold paused, syncing, check_flag.
  assert (FLAGS b ∈ seqZ 0 8) as Hin by (apply elem_of_seqZ; lia).
  revert Hin. generalize (FLAGS b). intros f Hf.
  repeat (apply elem_of_cons in Hf as [->|Hf]; [reflexivity|]). by apply not_elem_of_nil in Hf.
Qed.

End Benchmark.
