(* ===== verification/WorkerSM.v ===== *)
(** * The worker's state machine: crates/phactory/src/system/mod.rs

    [WorkerState], which follows the chain's system events.  A worker runs it
    with callbacks that push its reports ([WorkerSMDelegate]); a gatekeeper
    replays it for every worker with callbacks that only note the heartbeats to
    expect ([WorkerSMTracker], crates/phactory/src/system/gk.rs). *)
From stdpp Require Import prelude gmap list strings.
From Stdlib Require Import ZArith Lia.
From S2P Require Import Prelude Types Externals SendQueue.

(** ** Data *)
Record BenchState := mkBenchState {
  bs_start_block : Z;
  bs_start_time : Z;
  bs_start_iter : Z;
  bs_duration : Z;
}.

Inductive WorkingState := Computing | Paused.

Record WorkingInfo := mkWorkingInfo {
  wi_session_id : Z;
  wi_state : WorkingState;
  wi_start_time : Z;
  wi_start_iter : Z;
}.

Record WorkerState := mkWorkerState {
  ws_pubkey : WorkerPublicKey;
  ws_hashed_id : Z;
  ws_registered : bool;
  ws_bench_state : option BenchState;
  ws_working_state : option WorkingInfo;
}.

(** What the state machines use of [BaseBlockInfo] *)
Record BlockInfo := mkBlockInfo {
  block_number : Z;
  now_ms : Z;
}.

Definition set_registered (x : bool) (w : WorkerState) : WorkerState :=
  mkWorkerState (ws_pubkey w) (ws_hashed_id w) x (ws_bench_state w) (ws_working_state w).
Definition set_bench_state (x : option BenchState) (w : WorkerState) : WorkerState :=
  mkWorkerState (ws_pubkey w) (ws_hashed_id w) (ws_registered w) x (ws_working_state w).
Definition set_working_state (x : option WorkingInfo) (w : WorkerState) : WorkerState :=
  mkWorkerState (ws_pubkey w) (ws_hashed_id w) (ws_registered w) (ws_bench_state w) x.
Definition set_wi_state (x : WorkingState) (i : WorkingInfo) : WorkingInfo :=
  mkWorkingInfo (wi_session_id i) x (wi_start_time i) (wi_start_iter i).

(** ** [WorkerStateMachineCallback] *)
Class WorkerStateMachineCallback (E C : Type) := {
  bench_iterations : C -> Z;
  bench_resume : M C E unit;
  bench_pause : M C E unit;
  bench_report : Z -> Z -> M C E unit;
  heartbeat : Z -> Z -> Z -> Z -> M C E unit;
}.

Module WorkerSM.

(** [WorkerState::new] *)
Definition new {cfg : Config} {codec : Codec} (pubkey : WorkerPublicKey) : WorkerState :=
  mkWorkerState pubkey (blake2_256 (h256_bytes pubkey)) false None None.

Definition need_pause (w : WorkerState) : bool :=
  bool_decide (ws_bench_state w = None) && bool_decide (ws_working_state w = None).

Section Machine.
Context {prof : Profile} {E C : Type} {cb : WorkerStateMachineCallback E C}.
Abbreviation W := (M (WorkerState * C) E).

Definition on_state (f : WorkerState -> WorkerState) : W unit := modify (fun s => (f (fst s), snd s)).

Definition callback (m : M C E unit) : W unit := fun s =>
  match m (snd s) with
  | Ok a c => Ok a (fst s, c)
  | Err e c => Err e (fst s, c)
  | Panic => Panic
  | NoFuel => NoFuel
  end.

Definition handle_heartbeat_challenge (block : BlockInfo) (seed_info : HeartbeatChallenge) : W unit :=
  let* w := gets fst in
  if negb (ws_registered w) then mret tt
  else match ws_working_state w with
  | None => mret tt
  | Some working_state =>
      match wi_state working_state with
      | Paused => mret tt
      | Computing =>
          let x := Z.lxor (ws_hashed_id w) (seed seed_info) in
          let online_hit := x <=? online_target seed_info in
          if online_hit then
            let* iter := gets (fun s => bench_iterations (snd s)) in
            let* iterations := arith 64 (iter - wi_start_iter working_state) in
            callback (heartbeat (wi_session_id working_state) (block_number block) (now_ms block) iterations)
          else mret tt
      end
  end.

Definition process_event (block : BlockInfo) (event : SystemEvent) : W unit :=
  match event with
  | WorkerEventWithKey pubkey evt =>
      let* w := gets fst in
      if negb (pubkey =? ws_pubkey w) then mret tt
      else match evt with
      | Registered _ => on_state (set_registered true)
      | BenchStart duration =>
          let* iter := gets (fun s => bench_iterations (snd s)) in
          on_state (set_bench_state (Some (mkBenchState (block_number block) (now_ms block) iter duration)));;;
          callback bench_resume
      | BenchScore _ => mret tt
      | Started session_id _ _ =>
          let* iter := gets (fun s => bench_iterations (snd s)) in
          on_state (set_working_state (Some (mkWorkingInfo session_id Computing (now_ms block) iter)));;;
          callback bench_resume
      | Stopped =>
          on_state (set_working_state None);;;
          let* w := gets fst in
          if need_pause w then callback bench_pause else mret tt
      | EnterUnresponsive =>
          match ws_working_state w with
          | Some info =>
              match wi_state info with
              | Computing => on_state (set_working_state (Some (set_wi_state Paused info)))
              | Paused => mret tt
              end
          | None => mret tt
          end
      | ExitUnresponsive =>
          match ws_working_state w with
          | Some info =>
              match wi_state info with
              | Paused => on_state (set_working_state (Some (set_wi_state Computing info)))
              | Computing => mret tt
              end
          | None => mret tt
          end
      end
  | HeartbeatChallengeEvent seed_info => handle_heartbeat_challenge block seed_info
  end.

Definition on_block_processed (block : BlockInfo) : W unit :=
  let* w := gets fst in
  match ws_bench_state w with
  | Some b =>
      let* elapsed := arith 32 (block_number block - bs_start_block b) in
      if bs_duration b <=? elapsed then
        on_state (set_bench_state None);;;
        let* iter := gets (fun s => bench_iterations (snd s)) in
        let* iterations := arith 64 (iter - bs_start_iter b) in
        callback (bench_report (bs_start_time b) iterations);;;
        let* w := gets fst in
        if need_pause w then callback bench_pause else mret tt
      else mret tt
  | None => mret tt
  end.

End Machine.
End WorkerSM.
