(* ===== verification/Crypto.v ===== *)
(** * Keys of a worker: crates/cyrux-crypto and the master key store

    Key derivation, key agreement and authenticated encryption
    (crates/cyrux-crypto/src/{aead,ecdh,sr25519,key_share}.rs), and the sealed
    master key history of a gatekeeper (crates/phactory/src/system/master_key.rs).
    The primitives of schnorrkel, ring and sp_core are parameters. *)
From stdpp Require Import prelude list strings.
From Stdlib Require Import ZArith Lia.
From S2P Require Import Prelude Types Externals Registry.

Inductive CryptoError :=
| HkdfExpandError | EcdhInvalidSecretKey | EcdhInvalidPublicKey | AeadInvalidKey | AeadEncryptError
| AeadDecryptError | Sr25519InvalidSecret.

(** ** The primitives *)
Class PrCrypto := {
  (** [sr25519::Pair] *)
  Pair : Type;
  pair_public : Pair -> WorkerPublicKey;
  pair_secret : Pair -> bytes;
  pair_from_seed : bytes -> Pair;
  pair_from_seed_slice : bytes -> option Pair;
  pair_sign : Pair -> bytes -> bytes;
  (** [ring::hkdf], SHA-256: salt, input key, info, output length *)
  hkdf_sha256 : bytes -> bytes -> list bytes -> Z -> option bytes;
  (** [schnorrkel::Keypair] *)
  Keypair : Type;
  keypair_from_secret : bytes -> option Keypair;
  keypair_from_mini_secret : bytes -> option Keypair;
  keypair_public : Keypair -> EcdhPublicKey;
  keypair_secret : Keypair -> bytes;
  (** [(Scalar::from_canonical_bytes(k) * PublicKey::from_bytes(pk).as_point()).compress()] *)
  scalar_mul : bytes -> EcdhPublicKey -> option bytes;
  (** AES-256-GCM of ring; [None] when the key has not 32 bytes *)
  aes_key : bytes -> bool;
  aes_seal : bytes -> bytes -> bytes -> option bytes;
  aes_open : bytes -> bytes -> bytes -> option bytes;
}.

(** What their documentation promises: key agreement is symmetric and gives 32
    bytes, decryption inverts encryption under the same key and nonce, secret
    bytes restore their key, and a signature verifies under its public key. *)
Class CryptoSpec {cfg : Config} {codec : Codec} (P : PrCrypto) := {
  scalar_mul_comm : forall a b,
    scalar_mul (take 32 (keypair_secret a)) (keypair_public b)
    = scalar_mul (take 32 (keypair_secret b)) (keypair_public a);
  scalar_mul_total : forall a b, exists s,
    scalar_mul (take 32 (keypair_secret a)) (keypair_public b) = Some s /\ aes_key s = true;
  aes_open_seal : forall k iv m c, aes_seal k iv m = Some c -> aes_open k iv c = Some m;
  aes_seal_total : forall k iv m, aes_key k = true -> exists c, aes_seal k iv m = Some c;
  pair_secret_length : forall p, length (pair_secret p) = 64%nat;
  pair_restore : forall p, pair_from_seed_slice (pair_secret p) = Some p;
  keypair_of_pair : forall p, exists k, keypair_from_secret (pair_secret p) = Some k;
  hkdf_total : forall salt k info, exists o, hkdf_sha256 salt k info 32 = Some o;
  pair_sign_verify : forall p m, sr25519_verify (pair_sign p m) m (pair_public p) = true;
}.

Definition SEED_BYTES : Z := 32.
Definition SECRET_KEY_LENGTH : nat := 64.
Definition IV_BYTES : nat := 12.

(** ** aead.rs *)
Module Aead.
Section Aead.
Context {S : Type} {P : PrCrypto}.
Abbreviation K := (M S CryptoError).

(** [copy_from_slice] panics unless both sides have the same length. *)
Definition generate_iv (nonce : bytes) : K bytes :=
  let min_len := Nat.min (length nonce) IV_BYTES in
  if Nat.eqb (length (take min_len nonce)) IV_BYTES then mret (take min_len nonce) else panic.

Definition load_key (raw : bytes) : K bytes := ensure (aes_key raw) AeadInvalidKey;;; mret raw.

Definition encrypt (iv secret in_out : bytes) : K bytes :=
  let* key := load_key secret in
  ok_or (aes_seal key iv in_out) AeadEncryptError.

Definition decrypt (iv secret in_out : bytes) : K bytes :=
  let* iv_arr := (if Nat.ltb (length iv) IV_BYTES then panic else mret (take IV_BYTES iv)) in
  let* key := load_key secret in
  ok_or (aes_open key iv_arr in_out) AeadDecryptError.

End Aead.
End Aead.

(** ** ecdh.rs *)
Module Ecdh.
Section Ecdh.
Context {S : Type} {P : PrCrypto}.
Abbreviation K := (M S CryptoError).

Definition create (seed : bytes) : K Keypair := expect_some (keypair_from_mini_secret seed).

Definition from_secret (secret : bytes) : K Keypair := expect_some (keypair_from_secret secret).

Definition agree (sk : Keypair) (pk : EcdhPublicKey) : K bytes :=
  expect_some (scalar_mul (take 32 (keypair_secret sk)) pk).

End Ecdh.
End Ecdh.

(** ** sr25519.rs *)
Module Crypto.
Section Crypto.
Context {S : Type} {P : PrCrypto}.
Abbreviation K := (M S CryptoError).

Definition KDF_SALT : bytes :=
  [0x18; 0xe8; 0x76; 0xad; 0xfa; 0x74; 0xcc; 0x74; 0x3b; 0x4b; 0x7d; 0x7f; 0x92; 0xc9; 0x6e; 0x03;
   0xde; 0x55; 0x9a; 0x3c; 0x15; 0x27; 0x05; 0x81; 0xfc; 0xe4; 0x45; 0x96; 0x3d; 0x90; 0xf8; 0x5e].

Definition derive_sr25519_pair (my_key : Pair) (info : list bytes) : K Pair :=
  let* seed := ok_or (hkdf_sha256 KDF_SALT (pair_secret my_key) info SEED_BYTES) HkdfExpandError in
  mret (pair_from_seed seed).

Definition derive_ecdh_key (my_key : Pair) : K Keypair := Ecdh.from_secret (pair_secret my_key).

Definition dump_secret_key (my_key : Pair) : bytes := pair_secret my_key.

Definition restore_from_seed (seed : bytes) : Pair := pair_from_seed seed.

Definition restore_from_secret_key (secret : bytes) : K Pair := expect_some (pair_from_seed_slice secret).

(** ** key_share.rs *)
Definition encrypt_secret_to (my_key : Pair) (key_derive_info : list bytes) (ecdh_pubkey : EcdhPublicKey)
    (secret_key iv : bytes) : K (EcdhPublicKey * bytes) :=
  let* derived_key := derive_sr25519_pair my_key key_derive_info in
  let* my_ecdh_key := derive_ecdh_key derived_key in
  let* secret := Ecdh.agree my_ecdh_key ecdh_pubkey in
  let* data := Aead.encrypt iv secret secret_key in
  mret (keypair_public my_ecdh_key, data).

Definition decrypt_secret_from (my_ecdh_key : Keypair) (ecdh_pubkey : EcdhPublicKey) (encrypted_key iv : bytes) :
    K bytes :=
  let* secret := Ecdh.agree my_ecdh_key ecdh_pubkey in
  let* secret_key := Aead.decrypt iv secret encrypted_key in
  ensure (Nat.eqb (length secret_key) SECRET_KEY_LENGTH) Sr25519InvalidSecret;;;
  mret secret_key.

End Crypto.
End Crypto.

(** ** The sealed master key: master_key.rs *)
Record RotatedMasterKey := mkRotatedMasterKey {
  rotation_id : Z;
  block_height : Z;
  secret : bytes;
}.

#[export] Instance RotatedMasterKey_eq_dec : EqDecision RotatedMasterKey.
Proof. solve_decision. Defined.

Inductive MasterKeySeal :=
| V1 (secret signature : bytes)
| V2 (payload : list RotatedMasterKey) (signature : bytes).

(** SCALE of the sealed file, and the platform's sealing *)
Class SealLib := {
  encode_MasterKeyHistory : list RotatedMasterKey -> bytes;
  encode_MasterKeySeal : MasterKeySeal -> bytes;
  decode_MasterKeySeal : bytes -> option MasterKeySeal;
}.

Class SealSpec (L : SealLib) := {
  decode_encode_MasterKeySeal : forall s, decode_MasterKeySeal (encode_MasterKeySeal s) = Some s;
}.

Module MasterKey.
Section MasterKey.
Context {cfg : Config} {codec : Codec} {P : PrCrypto} {L : SealLib} {E : Type}.

(** The files of the platform, by path; [seal_data] and [unseal_data] fail as
    the parameter [io_ok] says. *)
Record Files := mkFiles {
  io_ok : bool;
  sealed : option bytes;
}.

Definition seal_data (data : bytes) : M Files E unit :=
  let* ok := gets io_ok in
  if ok then modify (fun f => mkFiles (io_ok f) (Some data)) else panic.

Definition unseal_data : M Files E (option bytes) :=
  let* ok := gets io_ok in
  if ok then gets sealed else panic.

Definition assert_true (b : bool) : M Files E unit := if b then mret tt else panic.

Definition seal (master_key_history : list RotatedMasterKey) (identity_key : Pair) : M Files E unit :=
  let encoded := encode_MasterKeyHistory master_key_history in
  let wrapped := wrap_content_to_sign encoded MasterKeyStore in
  let signature := pair_sign identity_key wrapped in
  seal_data (encode_MasterKeySeal (V2 master_key_history signature)).

Definition gk_master_key_exists (f : Files) : bool := bool_decide (is_Some (sealed f)).

Definition try_unseal (identity_key : Pair) : M Files E (list RotatedMasterKey) :=
  let* sealed_data := unseal_data in
  match sealed_data with
  | None => mret []
  | Some data =>
      let* versioned_data := expect_some (decode_MasterKeySeal data) in
      match versioned_data with
      | V1 secret signature =>
          assert_true (sr25519_verify signature secret (pair_public identity_key));;;
          mret [mkRotatedMasterKey 0 0 secret]
      | V2 payload signature =>
          let wrapped := wrap_content_to_sign (encode_MasterKeyHistory payload) MasterKeyStore in
          assert_true (sr25519_verify signature wrapped (pair_public identity_key));;;
          mret payload
      end
  end.

End MasterKey.
End MasterKey.
