(* ===== verification/Tokenomic.v ===== *)
(** * V, performance and payouts of a worker: crates/phactory/src/system/gk.rs

    Module [tokenomic]: the value promise V of a worker, its performance and
    share, and the payout of a heartbeat.  Numbers are the bits of [U64F64]. *)
From stdpp Require Import prelude list.
From Stdlib Require Import ZArith Lia.
From S2P Require Import Prelude Types Externals.

Record TokenomicInfo := mkTokenomicInfo {
  v : Z;
  v_init : Z;
  v_deductible : Z;
  v_update_at : Z;
  v_update_block : Z;
  iteration_last : Z;
  challenge_time_last : Z;
  p_bench : Z;
  p_instant : Z;
  confidence_level : Z;
  contract_running : bool;
}.

Definition tokenomic_default : TokenomicInfo := mkTokenomicInfo 0 0 0 0 0 0 0 0 0 0 false.

Record Params := mkParams {
  tp_rho : Z;
  tp_slash_rate : Z;
  tp_budget_per_block : Z;
  tp_v_max : Z;
  tp_cost_k : Z;
  tp_cost_b : Z;
  tp_treasury_ration : Z;
  tp_payout_ration : Z;
  tp_heartbeat_window : Z;
}.

(** The literal [num / den], rounded to the nearest *)
Definition fp (num den : Z) : Z := (num * 2 ^ 65 / den + 1) / 2.

Module Tokenomic.

Definition set_v (x d : Z) (t : TokenomicInfo) : TokenomicInfo :=
  mkTokenomicInfo x (v_init t) d (v_update_at t) (v_update_block t) (iteration_last t)
    (challenge_time_last t) (p_bench t) (p_instant t) (confidence_level t) (contract_running t).
Definition set_update (at_ms block : Z) (t : TokenomicInfo) : TokenomicInfo :=
  mkTokenomicInfo (v t) (v_init t) (v_deductible t) at_ms block (iteration_last t)
    (challenge_time_last t) (p_bench t) (p_instant t) (confidence_level t) (contract_running t).
Definition set_iteration_last (x : Z) (t : TokenomicInfo) : TokenomicInfo :=
  mkTokenomicInfo (v t) (v_init t) (v_deductible t) (v_update_at t) (v_update_block t) x
    (challenge_time_last t) (p_bench t) (p_instant t) (confidence_level t) (contract_running t).
Definition set_challenge_time_last (x : Z) (t : TokenomicInfo) : TokenomicInfo :=
  mkTokenomicInfo (v t) (v_init t) (v_deductible t) (v_update_at t) (v_update_block t) (iteration_last t)
    x (p_bench t) (p_instant t) (confidence_level t) (contract_running t).
Definition set_p_instant (x : Z) (t : TokenomicInfo) : TokenomicInfo :=
  mkTokenomicInfo (v t) (v_init t) (v_deductible t) (v_update_at t) (v_update_block t) (iteration_last t)
    (challenge_time_last t) (p_bench t) x (confidence_level t) (contract_running t).
Definition set_confidence_level (x : Z) (t : TokenomicInfo) : TokenomicInfo :=
  mkTokenomicInfo (v t) (v_init t) (v_deductible t) (v_update_at t) (v_update_block t) (iteration_last t)
    (challenge_time_last t) (p_bench t) (p_instant t) x (contract_running t).
Definition set_contract_running (x : bool) (t : TokenomicInfo) : TokenomicInfo :=
  mkTokenomicInfo (v t) (v_init t) (v_deductible t) (v_update_at t) (v_update_block t) (iteration_last t)
    (challenge_time_last t) (p_bench t) (p_instant t) (confidence_level t) x.

Definition conf_score (level : Z) : Z :=
  if bool_decide (level ∈ [1; 2; 3; 128]) then fp 1 1
  else if level =? 4 then fp 8 10
  else if level =? 5 then fp 7 10
  else 0.

Definition test_params : Params :=
  mkParams (fp 1000000666600231 1000000000000000) (fp 33333333333333240063 10000000000000000000000000)
    (fp 100 1) (fp 30000 1) (fp 15815258751856933056 1000000000000000000000000000)
    (fp 33711472602739674283 1000000000000000000000000) (fp 2 10) (fp 8 10) 10.

Section Tokenomic.
Context {prof : Profile} {F : FixedLib} {E : Type}.
Abbreviation T := (M TokenomicInfo E).

(** [impl From<TokenomicParameters> for Params] *)
Definition params_from {S} (params : TokenomicParams) : M S E Params :=
  let treasury_ration := treasury_ratio params in
  let* payout_ration := expect_some (fx_sub (fp 1 1) treasury_ration) in
  mret (mkParams (rho params) (slash_rate params) (budget_per_block params) (v_max_bits params) (cost_k params)
    (cost_b params) treasury_ration payout_ration (heartbeat_window params)).

Definition square {S} (x : Z) : M S E Z := expect_some (fx_mul x x).

Definition p (t : TokenomicInfo) : Z := if contract_running t then p_bench t else p_instant t.

Definition update_v_idle (params : Params) : T unit :=
  let* self := gets (fun t => t) in
  let* kp := expect_some (fx_mul (tp_cost_k params) (p_bench self)) in
  let* cost_idle := expect_some (fx_add kp (tp_cost_b params)) in
  let* perf_multiplier := (if p_bench self =? 0 then mret (fp 1 1) else expect_some (fx_div (p self) (p_bench self))) in
  let* r := expect_some (fx_sub (tp_rho params) (fp 1 1)) in
  let* rv := expect_some (fx_mul r (v self)) in
  let* d := expect_some (fx_add rv cost_idle) in
  let* delta_v := expect_some (fx_mul perf_multiplier d) in
  let* v' := expect_some (fx_add (v self) delta_v) in
  let* deductible := expect_some (fx_add (v_deductible self) delta_v) in
  modify (set_v (Z.min v' (tp_v_max params)) deductible).

Definition share {S} (self : TokenomicInfo) : M S E Z :=
  let* v2 := square (v self) in
  let* a := expect_some (fx_mul (fp 2 1) (p self)) in
  let* b := expect_some (fx_mul a (conf_score (confidence_level self))) in
  let* b2 := square b in
  let* s := expect_some (fx_add v2 b2) in
  mret (fx_sqrt s).

(** The payout and the treasury's part *)
Definition update_v_heartbeat (params : Params) (sum_share now_ms block_number : Z) : T (Z * Z) :=
  let* self := gets (fun t => t) in
  if sum_share =? 0 then mret (0, 0)
  else if v_deductible self =? 0 then mret (0, 0)
  else if block_number <=? v_update_block self then mret (0, 0)
  else
    let* share := share self in
    if share =? 0 then mret (0, 0)
    else
      let* n := arith 32 (block_number - v_update_block self) in
      let blocks := fx_from_num n in
      let* q := expect_some (fx_div share sum_share) in
      let* qb := expect_some (fx_mul q (tp_budget_per_block params)) in
      let* budget := expect_some (fx_mul qb blocks) in
      let* actual_payout := expect_some (fx_mul budget (tp_payout_ration params)) in
      let* actual_treasury := expect_some (fx_mul budget (tp_treasury_ration params)) in
      let actual_v_deduct := Z.min (Z.max (v_deductible self) 0) actual_payout in
      let* v' := expect_some (fx_sub (v self) actual_v_deduct) in
      modify (set_v v' 0);;;
      modify (set_update now_ms block_number);;;
      mret (actual_payout, actual_treasury).

Definition update_v_recover (now_ms block_number : Z) : T unit :=
  modify (fun t => set_update now_ms block_number (set_v (v t) 0 t)).

Definition update_v_slash (params : Params) (block_number : Z) : T unit :=
  let* self := gets (fun t => t) in
  let* slash := expect_some (fx_mul (v self) (tp_slash_rate params)) in
  let* v' := expect_some (fx_sub (v self) slash) in
  modify (set_v v' 0).

Definition update_p_instant (now iterations : Z) (running : bool) : T unit :=
  modify (set_contract_running running);;;
  let* self := gets (fun t => t) in
  if now <=? challenge_time_last self then mret tt
  else
    (if iterations <? iteration_last self then modify (set_iteration_last iterations) else mret tt);;;
    let* self := gets (fun t => t) in
    let* ms := arith 64 (now - challenge_time_last self) in
    let* dt := expect_some (fx_div_int (fx_from_num ms) 1000) in
    let* it := arith 64 (iterations - iteration_last self) in
    let* r := expect_some (fx_div (fx_from_num it) dt) in
    let* p := expect_some (fx_mul_int r 6) in
    let* cap := expect_some (fx_mul (p_bench self) (fp 12 10)) in
    modify (set_p_instant (Z.min p cap)).

End Tokenomic.
End Tokenomic.
