(* ===== verification/Economics.v ===== *)
(** * The gatekeeper's ledger of workers: crates/phactory/src/system/gk.rs

    [ComputingEconomics]: the gatekeeper replays the state machine of every
    worker, matches the heartbeats it expects with those that arrive, updates V
    and reports payouts and unresponsive workers to the chain.  The egress queue
    of pRuntime is shared, so it is part of the state of the operations.  The
    economic event listener is the [()] of the gatekeeper. *)
From stdpp Require Import prelude gmap list strings sorting.
From Stdlib Require Import ZArith Lia.
From S2P Require Import Prelude Types Externals SendQueue Dispatcher Benchmark WorkerSM Tokenomic.

(** SCALE encodings used inside pRuntime *)
Class PrCodec := {
  encode_WorkingReportEvent : WorkingReportEvent -> bytes;
  encode_RegistryEvent : RegistryEvent -> bytes;
  encode_WorkingInfoUpdateEvent : WorkingInfoUpdateEvent -> bytes;
  decode_SystemEvent : bytes -> option SystemEvent;
  decode_GatekeeperEvent : bytes -> option GatekeeperEvent;
}.

(** ** The callbacks of a worker *)
Record WorkerSMDelegate := mkWorkerSMDelegate {
  d_egress : MessageChannel;
  d_n_clusters : Z;
  d_n_contracts : Z;
  d_queue : gmap MessageOrigin Channel;
  d_bench : Bench;
}.

Definition set_d_bench (b : Bench) (d : WorkerSMDelegate) : WorkerSMDelegate :=
  mkWorkerSMDelegate (d_egress d) (d_n_clusters d) (d_n_contracts d) (d_queue d) b.
Definition set_d_queue (q : gmap MessageOrigin Channel) (d : WorkerSMDelegate) : WorkerSMDelegate :=
  mkWorkerSMDelegate (d_egress d) (d_n_clusters d) (d_n_contracts d) q (d_bench d).

Section Delegate.
Context {prof : Profile} {cfg : Config} {codec : Codec} {prcodec : PrCodec} {E : Type}.

Definition d_push (payload : bytes) (topic : Topic) : M WorkerSMDelegate E unit := fun d =>
  match SendQueue.push_data (d_egress d) payload topic (d_queue d) with
  | Ok _ q => Ok tt (set_d_queue q d)
  | Err e q => Err e (set_d_queue q d)
  | Panic => Panic
  | NoFuel => NoFuel
  end.

#[export] Instance delegate_callback : WorkerStateMachineCallback E WorkerSMDelegate := {|
  bench_iterations d := Benchmark.iteration_counter (d_bench d);
  bench_resume := modify (fun d => set_d_bench (Benchmark.resume (d_bench d)) d);
  bench_pause := modify (fun d => set_d_bench (Benchmark.pause (d_bench d)) d);
  bench_report start_time iterations :=
    d_push (encode_RegistryEvent (BenchReport start_time iterations)) RegistryEvent_topic;
  heartbeat session_id challenge_block challenge_time iterations :=
    let* d := gets (fun d => d) in
    d_push (encode_WorkingReportEvent (HeartbeatV2 session_id challenge_block challenge_time iterations
      (d_n_clusters d) (d_n_contracts d))) WorkingReportEvent_topic;
|}.

End Delegate.

(** ** The callbacks of a replay *)
Record WorkerSMTracker := mkWorkerSMTracker {
  tr_waiting : list Z;
  tr_challenge_received : bool;
}.

#[export] Instance tracker_callback {E : Type} : WorkerStateMachineCallback E WorkerSMTracker := {|
  bench_iterations _ := 0;
  bench_resume := mret tt;
  bench_pause := mret tt;
  bench_report _ _ := mret tt;
  heartbeat _ challenge_block _ _ := modify (fun t => mkWorkerSMTracker (tr_waiting t ++ [challenge_block]) true);
|}.

(** ** [WorkerInfo] and [ComputingEconomics] *)
Record WorkerInfo := mkWorkerInfo {
  wk_state : WorkerState;
  waiting_heartbeats : list Z;
  unresponsive : bool;
  tokenomic : TokenomicInfo;
  heartbeat_flag : bool;
}.

Definition set_wk (st : WorkerState) (waiting : list Z) (w : WorkerInfo) : WorkerInfo :=
  mkWorkerInfo st waiting (unresponsive w) (tokenomic w) (heartbeat_flag w).
Definition set_waiting (x : list Z) (w : WorkerInfo) : WorkerInfo :=
  mkWorkerInfo (wk_state w) x (unresponsive w) (tokenomic w) (heartbeat_flag w).
Definition set_unresponsive (x : bool) (w : WorkerInfo) : WorkerInfo :=
  mkWorkerInfo (wk_state w) (waiting_heartbeats w) x (tokenomic w) (heartbeat_flag w).
Definition set_tokenomic (x : TokenomicInfo) (w : WorkerInfo) : WorkerInfo :=
  mkWorkerInfo (wk_state w) (waiting_heartbeats w) (unresponsive w) x (heartbeat_flag w).
Definition set_heartbeat_flag (x : bool) (w : WorkerInfo) : WorkerInfo :=
  mkWorkerInfo (wk_state w) (waiting_heartbeats w) (unresponsive w) (tokenomic w) x.

Record EconomicCalcCache := mkEconomicCalcCache {
  cache_sum_share : Z;
  report : WorkingInfoUpdateEvent;
}.

Record ComputingEconomics := mkComputingEconomics {
  eco_egress : MessageChannel;
  workers : gmap WorkerPublicKey WorkerInfo;
  tokenomic_params : Params;
  eco_cache : EconomicCalcCache;
  (** the shared egress queue *)
  eco_queue : gmap MessageOrigin Channel;
}.

Definition set_workers (x : gmap WorkerPublicKey WorkerInfo) (e : ComputingEconomics) : ComputingEconomics :=
  mkComputingEconomics (eco_egress e) x (tokenomic_params e) (eco_cache e) (eco_queue e).
Definition set_params (x : Params) (e : ComputingEconomics) : ComputingEconomics :=
  mkComputingEconomics (eco_egress e) (workers e) x (eco_cache e) (eco_queue e).
Definition set_eco_cache (x : EconomicCalcCache) (e : ComputingEconomics) : ComputingEconomics :=
  mkComputingEconomics (eco_egress e) (workers e) (tokenomic_params e) x (eco_queue e).
Definition set_eco_queue (x : gmap MessageOrigin Channel) (e : ComputingEconomics) : ComputingEconomics :=
  mkComputingEconomics (eco_egress e) (workers e) (tokenomic_params e) (eco_cache e) x.
Definition upd_report (f : WorkingInfoUpdateEvent -> WorkingInfoUpdateEvent) (e : ComputingEconomics) : ComputingEconomics :=
  set_eco_cache (mkEconomicCalcCache (cache_sum_share (eco_cache e)) (f (report (eco_cache e)))) e.

(** [WorkingInfoUpdateEvent::new] and its [Default] *)
Definition new_report (block_number timestamp_ms : Z) : WorkingInfoUpdateEvent :=
  mkWorkingInfoUpdateEvent block_number timestamp_ms [] [] [].
Definition push_offline (k : WorkerPublicKey) (r : WorkingInfoUpdateEvent) : WorkingInfoUpdateEvent :=
  mkWorkingInfoUpdateEvent (wu_block_number r) (timestamp_ms r) (offline r ++ [k]) (recovered_to_online r) (settle r).
Definition push_recovered (k : WorkerPublicKey) (r : WorkingInfoUpdateEvent) : WorkingInfoUpdateEvent :=
  mkWorkingInfoUpdateEvent (wu_block_number r) (timestamp_ms r) (offline r) (recovered_to_online r ++ [k]) (settle r).
Definition push_settle (i : SettleInfo) (r : WorkingInfoUpdateEvent) : WorkingInfoUpdateEvent :=
  mkWorkingInfoUpdateEvent (wu_block_number r) (timestamp_ms r) (offline r) (recovered_to_online r) (settle r ++ [i]).

Module Economics.

(** The keys of an [OrdMap], in order *)
Definition ordmap_keys (m : gmap WorkerPublicKey WorkerInfo) : list WorkerPublicKey :=
  merge_sort Z.le (map_to_list m).*1.

Section Economics.
Context {prof : Profile} {cfg : Config} {codec : Codec} {prcodec : PrCodec} {F : FixedLib} {E : Type}.
Abbreviation G := (M ComputingEconomics E).

(** [WorkerInfo::new] *)
Definition new_worker (pubkey : WorkerPublicKey) : WorkerInfo :=
  mkWorkerInfo (WorkerSM.new pubkey) [] false tokenomic_default false.

(** [ComputingEconomics::new]; the channels are subscribed by the caller *)
Definition new (egress : MessageChannel) (q : gmap MessageOrigin Channel) : ComputingEconomics :=
  mkComputingEconomics egress ∅ Tokenomic.test_params (mkEconomicCalcCache 0 (new_report 0 0)) q.

Definition get_worker (k : WorkerPublicKey) : G (option WorkerInfo) := gets (fun e => workers e !! k).

Definition put_worker (k : WorkerPublicKey) (w : WorkerInfo) : G unit :=
  modify (fun e => set_workers (<[k := w]> (workers e)) e).

(** [ordmap_for_each_mut] *)
Definition ordmap_for_each_mut (f : WorkerPublicKey -> WorkerInfo -> G unit) : G unit :=
  let* snapshot := gets (fun e => ordmap_keys (workers e)) in
  for_each snapshot (fun k =>
    let* w := get_worker k in
    let* w := expect_some w in
    f k w).

(** A step of a worker's replayed state machine, its heartbeats collected *)
Definition replay (m : M (WorkerState * WorkerSMTracker) E unit) (w : WorkerInfo) : G WorkerInfo := fun e =>
  match m (wk_state w, mkWorkerSMTracker (waiting_heartbeats w) false) with
  | Ok _ (st, tracker) => Ok (set_wk st (tr_waiting tracker) w) e
  | Err x _ => Err x e
  | Panic => Panic
  | NoFuel => NoFuel
  end.

(** An update of a worker's [TokenomicInfo] *)
Definition on_tokenomic {A} (m : M TokenomicInfo E A) (w : WorkerInfo) : G (A * WorkerInfo) := fun e =>
  match m (tokenomic w) with
  | Ok a t => Ok (a, set_tokenomic t w) e
  | Err x _ => Err x e
  | Panic => Panic
  | NoFuel => NoFuel
  end.

Definition egress_push (payload : bytes) (topic : Topic) : G unit := fun e =>
  match SendQueue.push_data (eco_egress e) payload topic (eco_queue e) with
  | Ok _ q => Ok tt (set_eco_queue q e)
  | Err x q => Err x (set_eco_queue q e)
  | Panic => Panic
  | NoFuel => NoFuel
  end.

Definition counted (w : WorkerInfo) : bool :=
  negb (unresponsive w) && bool_decide (is_Some (ws_working_state (wk_state w))).

Definition sum_share : G Z :=
  let* e := gets (fun e => e) in
  for_fold (ordmap_keys (workers e)) 0 (fun sum k =>
    let* w := expect_some (workers e !! k) in
    if counted w then
      let* s := Tokenomic.share (tokenomic w) in
      expect_some (fx_add sum s)
    else mret sum).

Definition will_process_block (block : BlockInfo) : G unit :=
  let* sum := sum_share in
  modify (set_eco_cache (mkEconomicCalcCache sum (new_report (block_number block) (now_ms block))));;;
  ordmap_for_each_mut (fun k w => put_worker k (set_heartbeat_flag false w)).

(** The end of a block for one worker: responsiveness, then V *)
Definition judge_worker (block : BlockInfo) (params : Params) (w : WorkerInfo) : G WorkerInfo :=
  if unresponsive w then
    if heartbeat_flag w then
      modify (upd_report (push_recovered (ws_pubkey (wk_state w))));;;
      mret (set_unresponsive false w)
    else mret w
  else match waiting_heartbeats w with
  | hb_sent_at :: _ =>
      let* age := arith 32 (block_number block - hb_sent_at) in
      if tp_heartbeat_window params <? age then
        modify (upd_report (push_offline (ws_pubkey (wk_state w))));;;
        mret (set_unresponsive true w)
      else mret w
  | [] => mret w
  end.

Definition charge_worker (block : BlockInfo) (params : Params) (w : WorkerInfo) : G WorkerInfo :=
  if unresponsive w then
    let* (_, w) := on_tokenomic (Tokenomic.update_v_slash params (block_number block)) w in mret w
  else if negb (heartbeat_flag w) then
    let* (_, w) := on_tokenomic (Tokenomic.update_v_idle params) w in mret w
  else mret w.

Definition finish_worker (block : BlockInfo) (params : Params) (k : WorkerPublicKey) (w : WorkerInfo) : G unit :=
  let* w := replay (WorkerSM.on_block_processed block) w in
  match ws_working_state (wk_state w) with
  | None => put_worker k w
  | Some _ =>
      let* w := judge_worker block params w in
      let* w := charge_worker block params w in
      put_worker k w
  end.

Definition did_process_block (block : BlockInfo) : G unit :=
  let* params := gets tokenomic_params in
  ordmap_for_each_mut (finish_worker block params);;;
  let* r := gets (fun e => report (eco_cache e)) in
  modify (upd_report (fun _ => new_report 0 0));;;
  if negb (is_empty_update r) then egress_push (encode_WorkingInfoUpdateEvent r) WorkingInfoUpdateEvent_topic
  else mret tt.

(** A heartbeat of the running session *)
Definition settle_heartbeat (block : BlockInfo) (k : WorkerPublicKey) (w : WorkerInfo)
    (challenge_time iterations : Z) (contract_running : bool) : G unit :=
  let w := set_heartbeat_flag true w in
  let* (_, w) := on_tokenomic (
    Tokenomic.update_p_instant (now_ms block) iterations contract_running;;;
    modify (Tokenomic.set_challenge_time_last challenge_time);;;
    modify (Tokenomic.set_iteration_last iterations)) w in
  if unresponsive w then
    let* (_, w) := on_tokenomic (Tokenomic.update_v_recover (now_ms block) (block_number block)) w in
    put_worker k w
  else
    let* e := gets (fun e => e) in
    let* ((payout, treasury), w) := on_tokenomic (Tokenomic.update_v_heartbeat (tokenomic_params e)
      (cache_sum_share (eco_cache e)) (now_ms block) (block_number block)) w in
    modify (upd_report (push_settle (mkSettleInfo k (v (tokenomic w)) payout treasury)));;;
    put_worker k w.

(** The heartbeat is for the oldest challenge that waits for one. *)
Definition expected (w : WorkerInfo) (challenge_block : Z) : bool :=
  bool_decide (Some challenge_block = head (waiting_heartbeats w)).

Definition process_computing_report (origin : MessageOrigin) (event : WorkingReportEvent) (block : BlockInfo) : G unit :=
  match origin with
  | Worker worker_pubkey =>
      let '(session_id, challenge_block, challenge_time, iterations, contract_running) :=
        match event with
        | Heartbeat a b c d => (a, b, c, d, false)
        | HeartbeatV2 a b c d n_clusters _ => (a, b, c, d, 0 <? n_clusters)
        end in
      let* w := get_worker worker_pubkey in
      match w with
      | None => mret tt
      | Some w =>
          if negb (expected w challenge_block) then panic
          else
            let w := set_waiting (tail (waiting_heartbeats w)) w in
            match ws_working_state (wk_state w) with
            | None => put_worker worker_pubkey w
            | Some working_state =>
                if negb (session_id =? wi_session_id working_state) then put_worker worker_pubkey w
                else settle_heartbeat block worker_pubkey w challenge_time iterations contract_running
            end
      end
  | _ => mret tt
  end.

(** [TokenomicInfo] of a session that starts *)
Definition started (block : BlockInfo) (init_v init_p : Z) (prev : TokenomicInfo) : TokenomicInfo :=
  mkTokenomicInfo init_v init_v 0 (now_ms block) (block_number block) 0 (now_ms block) (fx_from_num init_p)
    (fx_from_num init_p) (confidence_level prev) false.

Definition process_system_event (origin : MessageOrigin) (event : SystemEvent) (block : BlockInfo) : G unit :=
  if negb (is_pallet origin) then mret tt
  else
    match event with
    | WorkerEventWithKey pubkey (Registered _) =>
        modify (fun e => match workers e !! pubkey with
          | Some _ => e
          | None => set_workers (<[pubkey := new_worker pubkey]> (workers e)) e
          end)
    | _ => mret tt
    end;;;
    ordmap_for_each_mut (fun k w =>
      let* w := replay (WorkerSM.process_event block event) w in
      put_worker k w);;;
    match event with
    | WorkerEventWithKey pubkey evt =>
        let* w := get_worker pubkey in
        match w with
        | None => mret tt
        | Some w =>
            match evt with
            | Registered confidence =>
                put_worker pubkey (set_tokenomic (Tokenomic.set_confidence_level confidence (tokenomic w)) w)
            | Started _ init_v init_p =>
                put_worker pubkey (set_tokenomic (started block init_v init_p (tokenomic w)) (set_unresponsive false w))
            | Stopped =>
                modify (upd_report (push_settle (mkSettleInfo (ws_pubkey (wk_state w)) (v (tokenomic w)) 0 0)))
            | _ => mret tt
            end
        end
    | HeartbeatChallengeEvent _ => mret tt
    end.

Definition update_tokenomic_parameters (params : TokenomicParams) : G unit :=
  let* p := Tokenomic.params_from params in
  modify (set_params p).

Definition process_gatekeeper_event (origin : MessageOrigin) (event : GatekeeperEvent) : G unit :=
  match event with
  | NewRandomNumber _ _ _ => mret tt
  | TokenomicParametersChanged params =>
      if is_pallet origin then update_tokenomic_parameters params else mret tt
  | _RepairV | _cyruxLaunched | _UnrespFix => panic
  end.

(** An arm of [process_messages]: what cannot be decoded is logged. *)
Definition logged {T} (block : T -> MessageOrigin -> G unit) (v : (T * MessageOrigin) + TypedReceiveError) : G unit :=
  match v with
  | inl (event, origin) => block event origin
  | inr _ => mret tt
  end.

(** The arms, in the order of the [select!] *)
Definition arm (block : BlockInfo) (k : nat) : (Z * Message) + ReceiveError -> G unit :=
  match k with
  | 0%nat => Dispatcher.typed_arm decode_WorkingReportEvent
      (logged (fun event origin => process_computing_report origin event block))
  | 1%nat => Dispatcher.typed_arm decode_SystemEvent
      (logged (fun event origin => process_system_event origin event block))
  | _ => Dispatcher.typed_arm decode_GatekeeperEvent
      (logged (fun event origin => process_gatekeeper_event origin event))
  end.

Definition process_messages (fuel : nat) (computing_events system_events gatekeeper_events : Receiver)
    (block : BlockInfo) : M (Bus * ComputingEconomics) E unit :=
  Dispatcher.select_loop fuel [rx_chan computing_events; rx_chan system_events; rx_chan gatekeeper_events] (arm block).

End Economics.
End Economics.
