(* ===== verification/GatekeeperPr.v ===== *)
(** * The gatekeeper inside pRuntime: crates/phactory/src/system/gk.rs

    [Gatekeeper]: the master key and its rotation, sharing keys with other
    gatekeepers and with the workers of a cluster, on-chain randomness, and the
    economics it drives.  A [MessageChannel] holds its own signer: the gatekeeper
    and its economics have one each, over the same queue. *)
From stdpp Require Import prelude gmap list strings.
From Stdlib Require Import ZArith Lia.
From S2P Require Import Prelude Types Externals Registry SendQueue Dispatcher WorkerSM Crypto Economics.

(** ** Messages *)
Record EncryptedKey := mkEncryptedKey {
  ek_ecdh_pubkey : EcdhPublicKey;
  encrypted_key : bytes;
  ek_iv : bytes;
}.

Record BatchRotateMasterKeyEvent := mkBatchRotateMasterKeyEvent {
  br_rotation_id : Z;
  br_secret_keys : gmap WorkerPublicKey EncryptedKey;
  br_sender : WorkerPublicKey;
  br_sig : bytes;
}.

Inductive KeyDistribution :=
| MasterKeyDistribution (dest : WorkerPublicKey) (ecdh_pubkey : EcdhPublicKey) (encrypted_master_key iv : bytes)
| MasterKeyRotationEvent (event : BatchRotateMasterKeyEvent)
| MasterKeyHistory (dest : WorkerPublicKey) (encrypted_master_key_history : list (Z * Z * EncryptedKey)).

Definition KeyDistribution_topic : Topic := bytes_of_string "cyrux/gatekeeper/key".

Record BatchDispatchClusterKeyEvent {cfg : Config} := mkBatchDispatchClusterKeyEvent {
  bd_secret_keys : gmap WorkerPublicKey EncryptedKey;
  bd_cluster : H256;
  bd_owner : AccountId;
  bd_deposit : Z;
  bd_gas_price : Z;
  bd_deposit_per_item : Z;
  bd_deposit_per_byte : Z;
  bd_treasury_account : AccountId;
}.

(** Their SCALE encodings *)
Class GkCodec {cfg : Config} := {
  encode_KeyDistribution : KeyDistribution -> bytes;
  encode_DispatchKeys : BatchDispatchClusterKeyEvent -> bytes;
  encode_ClusterRegistryEvent : ClusterRegistryEvent -> bytes;
  encode_GatekeeperRegistryEvent : GatekeeperRegistryEvent -> bytes;
  decode_ClusterEvent : bytes -> option ClusterEvent;
  (** [BatchRotateMasterKeyData::encode] *)
  encode_rotate_data : Z -> gmap WorkerPublicKey EncryptedKey -> WorkerPublicKey -> bytes;
}.

(** ** State *)
Record GatekeeperState {P : PrCrypto} := mkGatekeeper {
  master_key : Pair;
  master_pubkey_on_chain : bool;
  registered_on_chain : bool;
  master_key_history : list RotatedMasterKey;
  gk_egress : MessageChannel;
  last_random_number : Z;
  iv_seq : Z;
  computing_economics : ComputingEconomics;
}.

(** [to_be_bytes] of a [w]-byte integer *)
Fixpoint be_bytes (w : nat) (z : Z) : bytes :=
  match w with
  | O => []
  | S w => be_bytes w (z / 256) ++ [z mod 256]
  end.

Definition VRF_INTERVAL : Z := 5.
Definition MASTER_KEY_SHARING_SALT : bytes := bytes_of_string "master_key_sharing".

Module Gk.

Section Setters.
Context {P : PrCrypto}.

Definition set_master_key (k : Pair) (g : GatekeeperState) : GatekeeperState :=
  mkGatekeeper _ k (master_pubkey_on_chain g) (registered_on_chain g) (master_key_history g) (gk_egress g)
    (last_random_number g) (iv_seq g) (computing_economics g).
Definition set_on_chain (x : bool) (g : GatekeeperState) : GatekeeperState :=
  mkGatekeeper _ (master_key g) x (registered_on_chain g) (master_key_history g) (gk_egress g)
    (last_random_number g) (iv_seq g) (computing_economics g).
Definition set_registered_on_chain (x : bool) (g : GatekeeperState) : GatekeeperState :=
  mkGatekeeper _ (master_key g) (master_pubkey_on_chain g) x (master_key_history g) (gk_egress g)
    (last_random_number g) (iv_seq g) (computing_economics g).
Definition set_history (x : list RotatedMasterKey) (g : GatekeeperState) : GatekeeperState :=
  mkGatekeeper _ (master_key g) (master_pubkey_on_chain g) (registered_on_chain g) x (gk_egress g)
    (last_random_number g) (iv_seq g) (computing_economics g).
Definition set_gk_egress (x : MessageChannel) (g : GatekeeperState) : GatekeeperState :=
  mkGatekeeper _ (master_key g) (master_pubkey_on_chain g) (registered_on_chain g) (master_key_history g) x
    (last_random_number g) (iv_seq g) (computing_economics g).
Definition set_last_random_number (x : Z) (g : GatekeeperState) : GatekeeperState :=
  mkGatekeeper _ (master_key g) (master_pubkey_on_chain g) (registered_on_chain g) (master_key_history g)
    (gk_egress g) x (iv_seq g) (computing_economics g).
Definition set_iv_seq (x : Z) (g : GatekeeperState) : GatekeeperState :=
  mkGatekeeper _ (master_key g) (master_pubkey_on_chain g) (registered_on_chain g) (master_key_history g)
    (gk_egress g) (last_random_number g) x (computing_economics g).
Definition set_economics (x : ComputingEconomics) (g : GatekeeperState) : GatekeeperState :=
  mkGatekeeper _ (master_key g) (master_pubkey_on_chain g) (registered_on_chain g) (master_key_history g)
    (gk_egress g) (last_random_number g) (iv_seq g) x.

End Setters.

Section Gatekeeper.
Context {prof : Profile} {cfg : Config} {codec : Codec} {prcodec : PrCodec} {gkcodec : GkCodec}.
Context {P : PrCrypto} {F : FixedLib} {E : Type}.
Abbreviation G := (M GatekeeperState E).

(** [.expect(...)] on a result of the crypto crate *)
Definition expect_crypto {S A} (m : M S CryptoError A) : M S E A := fun s =>
  match m s with
  | Ok a s' => Ok a s'
  | Err _ _ => Panic
  | Panic => Panic
  | NoFuel => NoFuel
  end.

Definition on_queue (m : M (gmap MessageOrigin Channel) E unit) : G unit := fun g =>
  let e := computing_economics g in
  match m (eco_queue e) with
  | Ok _ q => Ok tt (set_economics (set_eco_queue q e) g)
  | Err x q => Err x (set_economics (set_eco_queue q e) g)
  | Panic => Panic
  | NoFuel => NoFuel
  end.

Definition on_economics (m : M ComputingEconomics E unit) : G unit := fun g =>
  match m (computing_economics g) with
  | Ok _ e => Ok tt (set_economics e g)
  | Err x e => Err x (set_economics e g)
  | Panic => Panic
  | NoFuel => NoFuel
  end.

Definition push (payload : bytes) (topic : Topic) : G unit :=
  let* g := gets (fun g => g) in
  on_queue (SendQueue.push_data (gk_egress g) payload topic).

Definition next_random_number {S} (key : Pair) (block_number last : Z) : M S E Z :=
  let* derived_random_key := expect_crypto (Crypto.derive_sr25519_pair key [bytes_of_string "random_number"]) in
  mret (blake2_256 (h256_bytes last ++ be_bytes 4 block_number ++ Crypto.dump_secret_key derived_random_key)).

Definition get_cluster_key {S} (key : Pair) (cluster : H256) : M S E Pair :=
  expect_crypto (Crypto.derive_sr25519_pair key [bytes_of_string "cluster_key"; h256_bytes cluster]).

(** [Gatekeeper::new], on a channel and the shared queue *)
Definition new (history : list RotatedMasterKey) (egress : MessageChannel) (q : gmap MessageOrigin Channel) :
    M unit E GatekeeperState :=
  let* first := expect_some (head history) in
  let* key := expect_crypto (Crypto.restore_from_secret_key (secret first)) in
  let* q := (fun s => match SendQueue.set_dummy (E := E) egress true q with
    | Ok _ q => Ok q s | Err e _ => Err e s | Panic => Panic | NoFuel => NoFuel end) in
  mret (mkGatekeeper _ key false false history egress 0 0 (Economics.new egress q)).

(** What is hashed for a nonce *)
Definition iv_preimage (derived_key : Pair) (block_number seq : Z) : bytes :=
  Crypto.dump_secret_key derived_key ++ be_bytes 4 block_number ++ be_bytes 8 seq.

Definition generate_iv (block_number : Z) : G bytes :=
  let* g := gets (fun g => g) in
  let* derived_key := expect_crypto (Crypto.derive_sr25519_pair (master_key g) [bytes_of_string "iv_generator"]) in
  let buf := iv_preimage derived_key block_number (iv_seq g) in
  let* next := arith 64 (iv_seq g + 1) in
  modify (set_iv_seq next);;;
  mret (take 12 (h256_bytes (blake2_256 buf))).

Definition register_on_chain : G unit :=
  let* g := gets (fun g => g) in
  on_queue (SendQueue.set_dummy (gk_egress g) false);;;
  modify (set_registered_on_chain true).

Definition unregister_on_chain : G unit :=
  let* g := gets (fun g => g) in
  on_queue (SendQueue.set_dummy (gk_egress g) true);;;
  modify (set_registered_on_chain false).

Definition master_pubkey_uploaded (master_pubkey : MasterPublicKey) : G unit :=
  let* g := gets (fun g => g) in
  if negb (pair_public (master_key g) =? master_pubkey) then panic
  else modify (set_on_chain true).

Definition set_master_key_history (history : list RotatedMasterKey) : G bool :=
  let* g := gets (fun g => g) in
  if Nat.leb (length history) (length (master_key_history g)) then mret false
  else modify (set_history history);;; mret true.

Definition append_master_key (k : RotatedMasterKey) : G bool :=
  let* g := gets (fun g => g) in
  if bool_decide (k ∈ master_key_history g) then mret false
  else if negb (rotation_id k =? Z.of_nat (length (master_key_history g))) then panic
  else modify (set_history (master_key_history g ++ [k]));;; mret true.

Definition switch_master_key (id height : Z) : G bool :=
  let* g := gets (fun g => g) in
  match master_key_history g !! Z.to_nat id with
  | None => mret false
  | Some raw_key =>
      if negb ((rotation_id raw_key =? id) && (block_height raw_key =? height)) then panic
      else
        let* new_master_key := expect_crypto (Crypto.restore_from_secret_key (secret raw_key)) in
        push (encode_GatekeeperRegistryEvent (RotatedMasterPubkey (rotation_id raw_key) (pair_public new_master_key)))
          GatekeeperRegistryEvent_topic;;;
        modify (set_master_key new_master_key);;;
        modify (fun g => set_gk_egress (SendQueue.set_signer (gk_egress g) (pair_sign new_master_key)) g);;;
        mret true
  end.

(** ** Sharing keys *)
Definition encrypt_key_to (key_derive_info : list bytes) (ecdh_pubkey : EcdhPublicKey) (secret_key : bytes)
    (block_number : Z) : G EncryptedKey :=
  let* iv := generate_iv block_number in
  let* g := gets (fun g => g) in
  let* (pubkey, encrypted) :=
    expect_crypto (Crypto.encrypt_secret_to (master_key g) key_derive_info ecdh_pubkey secret_key iv) in
  mret (mkEncryptedKey pubkey encrypted iv).

Definition share_latest_master_key (pubkey : WorkerPublicKey) (ecdh_pubkey : EcdhPublicKey) (block_number : Z) :
    G unit :=
  let* g := gets (fun g => g) in
  let* k := encrypt_key_to [MASTER_KEY_SHARING_SALT] ecdh_pubkey (Crypto.dump_secret_key (master_key g)) block_number in
  push (encode_KeyDistribution (MasterKeyDistribution pubkey (ek_ecdh_pubkey k) (encrypted_key k) (ek_iv k)))
    KeyDistribution_topic.

Definition share_master_key_history (pubkey : WorkerPublicKey) (ecdh_pubkey : EcdhPublicKey) (block_number : Z) :
    G unit :=
  let* g := gets (fun g => g) in
  let* encrypted := for_fold (master_key_history g) [] (fun acc key =>
    let* k := encrypt_key_to [MASTER_KEY_SHARING_SALT] ecdh_pubkey (secret key) block_number in
    mret (acc ++ [(rotation_id key, block_height key, k)])) in
  push (encode_KeyDistribution (MasterKeyHistory pubkey encrypted)) KeyDistribution_topic.

Definition share_master_key (pubkey : WorkerPublicKey) (ecdh_pubkey : EcdhPublicKey) (block_number : Z) : G unit :=
  let* g := gets (fun g => g) in
  if Nat.ltb 1 (length (master_key_history g)) then share_master_key_history pubkey ecdh_pubkey block_number
  else share_latest_master_key pubkey ecdh_pubkey block_number.

(** One secret for each of the recipients, with their own nonces *)
Definition encrypt_for_all (info : list bytes) (recipients : list (WorkerPublicKey * EcdhPublicKey)) (secret_key : bytes)
    (block_number : Z) : G (gmap WorkerPublicKey EncryptedKey) :=
  for_fold recipients ∅ (fun acc r =>
    let* k := encrypt_key_to info (snd r) secret_key block_number in
    mret (<[fst r := k]> acc)).

(** [new_master_key] is the result of [crate::new_sr25519_key()]. *)
Definition process_master_key_rotation_request (new_master_key : Pair) (block : BlockInfo) (id : Z)
    (gk_identities : list (WorkerPublicKey * EcdhPublicKey)) (identity_key : Pair) : G unit :=
  let* secret_keys := encrypt_for_all [MASTER_KEY_SHARING_SALT] gk_identities
    (Crypto.dump_secret_key new_master_key) (block_number block) in
  let data := encode_rotate_data id secret_keys (pair_public identity_key) in
  let sig := pair_sign identity_key (wrap_content_to_sign data MasterKeyRotation) in
  push (encode_KeyDistribution (MasterKeyRotationEvent
    (mkBatchRotateMasterKeyEvent id secret_keys (pair_public identity_key) sig))) KeyDistribution_topic.

(** ** Blocks and messages *)
Definition will_process_block (block : BlockInfo) : G unit := on_economics (Economics.will_process_block block).

Definition process_cluster_event (block : BlockInfo) (origin : MessageOrigin) (event : ClusterEvent) : G unit :=
  match event with
  | DeployCluster owner cluster workers deposit gas_price deposit_per_item deposit_per_byte treasury_account =>
      if negb (is_pallet origin) then mret tt
      else
        let* g := gets (fun g => g) in
        let* cluster_key := get_cluster_key (master_key g) cluster in
        push (encode_ClusterRegistryEvent (ClusterPubkey cluster (pair_public cluster_key)))
          ClusterRegistryEvent_topic;;;
        let* secret_keys := encrypt_for_all [bytes_of_string "cluster_key_sharing"] workers
          (Crypto.dump_secret_key cluster_key) (block_number block) in
        push (encode_DispatchKeys (mkBatchDispatchClusterKeyEvent _ secret_keys cluster owner deposit gas_price
          deposit_per_item deposit_per_byte treasury_account)) ClusterOperation_topic
  end.

Definition process_random_number_event (origin : MessageOrigin) (block_number random last : Z) : G unit :=
  if negb (is_gatekeeper origin) then mret tt
  else
    let* g := gets (fun g => g) in
    let history := master_key_history g in
    let* latest := expect_some (list.last history) in
    let* key :=
      (if block_number <? block_height latest then
         if Nat.ltb (length history) 2 then panic
         else
           let* old := expect_some (history !! (length history - 2)%nat) in
           expect_crypto (Crypto.restore_from_secret_key (secret old))
       else mret (master_key g)) in
    let* expect_random := next_random_number key block_number last in
    if negb (expect_random =? random) then panic else mret tt.

Definition process_gatekeeper_event (origin : MessageOrigin) (event : GatekeeperEvent) : G unit :=
  match event with
  | NewRandomNumber block_number random last => process_random_number_event origin block_number random last
  | TokenomicParametersChanged _ => mret tt
  | _RepairV | _cyruxLaunched | _UnrespFix => panic
  end.

Definition emit_random_number (block_number : Z) : G unit :=
  if negb (block_number mod VRF_INTERVAL =? 0) then mret tt
  else
    let* g := gets (fun g => g) in
    let* random := next_random_number (master_key g) block_number (last_random_number g) in
    push (encode_GatekeeperEvent (NewRandomNumber block_number random (last_random_number g))) GatekeeperEvent_topic;;;
    modify (set_last_random_number random).

Definition arm (block : BlockInfo) (k : nat) : (Z * Message) + ReceiveError -> G unit :=
  match k with
  | 0%nat => Dispatcher.typed_arm decode_GatekeeperEvent
      (Dispatcher.ignore_errors (fun event origin => process_gatekeeper_event origin event))
  | _ => Dispatcher.typed_arm decode_ClusterEvent
      (Dispatcher.ignore_errors (fun event origin => process_cluster_event block origin event))
  end.

(** The economics' loop, on the economics inside the gatekeeper *)
Definition economics_messages (m : M (Bus * ComputingEconomics) E unit) : M (Bus * GatekeeperState) E unit := fun s =>
  match m (fst s, computing_economics (snd s)) with
  | Ok _ (b, e) => Ok tt (b, set_economics e (snd s))
  | Err x (b, e) => Err x (b, set_economics e (snd s))
  | Panic => Panic
  | NoFuel => NoFuel
  end.

Definition process_messages (fuel : nat) (gatekeeper_events cluster_events : Receiver)
    (eco_computing eco_system eco_gatekeeper : Receiver) (block : BlockInfo) : M (Bus * GatekeeperState) E unit :=
  let* s := gets (fun s => s) in
  if negb (master_pubkey_on_chain (snd s)) then mret tt
  else
    Dispatcher.select_loop fuel [rx_chan gatekeeper_events; rx_chan cluster_events] (arm block);;;
    economics_messages (Economics.process_messages fuel eco_computing eco_system eco_gatekeeper block).

Definition did_process_block (block : BlockInfo) : G unit :=
  let* g := gets (fun g => g) in
  (if master_pubkey_on_chain g then on_economics (Economics.did_process_block block) else mret tt);;;
  emit_random_number (block_number block).

End Gatekeeper.
End Gk.
