(* ===== verification/System.v ===== *)
(** * A worker's system: crates/phactory/src/system/mod.rs

    [System] without contracts: the worker's own state machine, the life of the
    gatekeeper inside it and the exchange of master keys.  The egress queue is
    one for the worker and the gatekeeper.  A process that terminates on purpose
    after writing to disk is the error [Terminated], which keeps the state. *)
From stdpp Require Import prelude gmap list strings.
From Stdlib Require Import ZArith Lia.
From S2P Require Import Prelude Types Externals Registry SendQueue Dispatcher Benchmark WorkerSM Crypto Tokenomic Economics GatekeeperPr.

Inductive TransactionError :=
| BadInput | TxBadOrigin | Other (s : string)
| InsufficientBalance | NoBalance | UnknownError | BadContractId | BadCommand | SymbolExist | AssetIdNotFound
| NotAssetOwner | BadSecret | BadMachineId | FailedToSign | BadDecimal | DestroyNotAllowed | ChannelError
| NotGatekeeper | MasterKeyLeakage | BadSenderSignature
| BadAccountInfo | BadLedgerInfo | BadTrustedStateData | BadEpochChangedProofData | BadTrustedState
| InvalidAccount | BadTransactionWithProof | FailedToVerify | FailedToGetTransaction | FailedToCalculateBalance
| BadChainId | TransferringNotAllowed
| CodeNotFound | DuplicatedClusterDeploy | FailedToUploadResourceToCluster | NoClusterOnGatekeeper
| NoPinkSystemCode | BadPinkSystemVersion.

Inductive SysError :=
| Tx (e : TransactionError)
| Terminated.

Record SystemState {P : PrCrypto} := mkSystemState {
  egress : MessageChannel;
  identity_key : Pair;
  worker_state : WorkerState;
  gatekeeper : option GatekeeperState;
  sys_block_number : Z;
  sys_now_ms : Z;
  genesis_block : Z;
  (** lengths of [contract_cluster] and [contracts] *)
  n_clusters : Z;
  n_contracts : Z;
  (** the shared egress queue, the benchmark and the sealed file *)
  queue : gmap MessageOrigin Channel;
  bench : Bench;
  files : MasterKey.Files;
}.

(** What is read of the chain's state *)
Record ChainView := mkChainView {
  cv_gatekeepers : list WorkerPublicKey;
  cv_tokenomic_parameters : option TokenomicParams;
}.

Definition is_gatekeeper_on (pubkey : WorkerPublicKey) (c : ChainView) : bool :=
  bool_decide (pubkey ∈ cv_gatekeepers c).

Module Sys.

Section Setters.
Context {P : PrCrypto}.

Definition set_worker_state (x : WorkerState) (s : SystemState) : SystemState :=
  mkSystemState _ (egress s) (identity_key s) x (gatekeeper s) (sys_block_number s) (sys_now_ms s)
    (genesis_block s) (n_clusters s) (n_contracts s) (queue s) (bench s) (files s).
Definition set_gatekeeper (x : option GatekeeperState) (s : SystemState) : SystemState :=
  mkSystemState _ (egress s) (identity_key s) (worker_state s) x (sys_block_number s) (sys_now_ms s)
    (genesis_block s) (n_clusters s) (n_contracts s) (queue s) (bench s) (files s).
Definition set_block (n t : Z) (s : SystemState) : SystemState :=
  mkSystemState _ (egress s) (identity_key s) (worker_state s) (gatekeeper s) n t
    (genesis_block s) (n_clusters s) (n_contracts s) (queue s) (bench s) (files s).
Definition set_queue (x : gmap MessageOrigin Channel) (s : SystemState) : SystemState :=
  mkSystemState _ (egress s) (identity_key s) (worker_state s) (gatekeeper s) (sys_block_number s) (sys_now_ms s)
    (genesis_block s) (n_clusters s) (n_contracts s) x (bench s) (files s).
Definition set_bench (x : Bench) (s : SystemState) : SystemState :=
  mkSystemState _ (egress s) (identity_key s) (worker_state s) (gatekeeper s) (sys_block_number s) (sys_now_ms s)
    (genesis_block s) (n_clusters s) (n_contracts s) (queue s) x (files s).
Definition set_files (x : MasterKey.Files) (s : SystemState) : SystemState :=
  mkSystemState _ (egress s) (identity_key s) (worker_state s) (gatekeeper s) (sys_block_number s) (sys_now_ms s)
    (genesis_block s) (n_clusters s) (n_contracts s) (queue s) (bench s) x.

End Setters.

Section System.
Context {prof : Profile} {cfg : Config} {codec : Codec} {prcodec : PrCodec} {gkcodec : GkCodec}.
Context {P : PrCrypto} {L : SealLib} {F : FixedLib}.
Abbreviation Y := (M SystemState SysError).

(** [System::new] *)
Definition new (key : Pair) (f : MasterKey.Files) : SystemState :=
  mkSystemState _ (mkMessageChannel (Worker (pair_public key)) (pair_sign key)) key
    (WorkerSM.new (pair_public key)) None 0 0 0 0 0 ∅ Benchmark.initial f.

Definition my_pubkey (s : SystemState) : WorkerPublicKey := pair_public (identity_key s).

(** [self.egress.push_message] *)
Definition push (payload : bytes) (topic : Topic) : Y unit := fun s =>
  match SendQueue.push_data (E := SysError) (egress s) payload topic (queue s) with
  | Ok _ q => Ok tt (set_queue q s)
  | Err e q => Err e (set_queue q s)
  | Panic => Panic
  | NoFuel => NoFuel
  end.

(** The worker's state machine with its callbacks *)
Definition on_worker (m : M (WorkerState * WorkerSMDelegate) SysError unit) : Y unit := fun s =>
  match m (worker_state s, mkWorkerSMDelegate (egress s) (n_clusters s) (n_contracts s) (queue s) (bench s)) with
  | Ok _ (w, d) => Ok tt (set_worker_state w (set_queue (d_queue d) (set_bench (d_bench d) s)))
  | Err e (w, d) => Err e (set_worker_state w (set_queue (d_queue d) (set_bench (d_bench d) s)))
  | Panic => Panic
  | NoFuel => NoFuel
  end.

(** An operation of the gatekeeper, on the shared queue *)
Definition on_gatekeeper {A} (g : GatekeeperState) (m : M GatekeeperState SysError A) : Y A := fun s =>
  match m (Gk.set_economics (set_eco_queue (queue s) (computing_economics g)) g) with
  | Ok a g' => Ok a (set_gatekeeper (Some g') (set_queue (eco_queue (computing_economics g')) s))
  | Err e g' => Err e (set_gatekeeper (Some g') (set_queue (eco_queue (computing_economics g')) s))
  | Panic => Panic
  | NoFuel => NoFuel
  end.

Definition on_files {A} (m : M MasterKey.Files SysError A) : Y A := fun s =>
  match m (files s) with
  | Ok a f => Ok a (set_files f s)
  | Err e f => Err e (set_files f s)
  | Panic => Panic
  | NoFuel => NoFuel
  end.

Definition process_system_event (block : BlockInfo) (event : SystemEvent) : Y unit :=
  on_worker (WorkerSM.process_event block event).

(** ** Master keys *)
Definition set_master_key_history (history : list RotatedMasterKey) : Y unit :=
  let* s := gets (fun s => s) in
  match gatekeeper s with
  | None =>
      on_files (MasterKey.seal history (identity_key s));;;
      fail Terminated
  | Some g =>
      let* updated := on_gatekeeper g (Gk.set_master_key_history history) in
      if (updated : bool) then on_files (MasterKey.seal history (identity_key s)) else mret tt
  end.

Definition decrypt_key_from (ecdh_pubkey : EcdhPublicKey) (encrypted iv : bytes) : Y Pair :=
  let* s := gets (fun s => s) in
  let* my_ecdh_key := Gk.expect_crypto (Crypto.derive_ecdh_key (identity_key s)) in
  let* secret := Gk.expect_crypto (Crypto.decrypt_secret_from my_ecdh_key ecdh_pubkey encrypted iv) in
  Gk.expect_crypto (Crypto.restore_from_secret_key secret).

Definition process_master_key_distribution (origin : MessageOrigin) (dest : WorkerPublicKey)
    (ecdh_pubkey : EcdhPublicKey) (encrypted_master_key iv : bytes) : Y unit :=
  if negb (is_gatekeeper origin) then fail (Tx TxBadOrigin)
  else
    let* s := gets (fun s => s) in
    if my_pubkey s =? dest then
      let* master_pair := decrypt_key_from ecdh_pubkey encrypted_master_key iv in
      set_master_key_history [mkRotatedMasterKey 0 0 (Crypto.dump_secret_key master_pair)]
    else mret tt.

Definition process_master_key_history (origin : MessageOrigin) (dest : WorkerPublicKey)
    (encrypted : list (Z * Z * EncryptedKey)) : Y unit :=
  if negb (is_gatekeeper origin) then fail (Tx TxBadOrigin)
  else
    let* s := gets (fun s => s) in
    if my_pubkey s =? dest then
      let* history := for_fold encrypted [] (fun acc x =>
        let '(id, height, key) := x in
        let* key_pair := decrypt_key_from (ek_ecdh_pubkey key) (encrypted_key key) (ek_iv key) in
        mret (acc ++ [mkRotatedMasterKey id height (Crypto.dump_secret_key key_pair)])) in
      set_master_key_history history
    else mret tt.

Definition process_batch_rotate_master_key (chain : ChainView) (origin : MessageOrigin)
    (event : BatchRotateMasterKeyEvent) : Y unit :=
  if negb (is_gatekeeper origin) then fail (Tx TxBadOrigin)
  else
    let data := encode_rotate_data (br_rotation_id event) (br_secret_keys event) (br_sender event) in
    ensure (sr25519_signature_ok (br_sig event)) (Tx BadSenderSignature);;;
    let data := wrap_content_to_sign data MasterKeyRotation in
    ensure (sr25519_verify (br_sig event) data (br_sender event)) (Tx BadSenderSignature);;;
    ensure (is_gatekeeper_on (br_sender event) chain) (Tx MasterKeyLeakage);;;
    let* s := gets (fun s => s) in
    let mine := br_secret_keys event !! my_pubkey s in
    match gatekeeper s with
    | None => match mine with Some _ => panic | None => mret tt end
    | Some g =>
        match mine with
        | Some key =>
            let* new_master_key := decrypt_key_from (ek_ecdh_pubkey key) (encrypted_key key) (ek_iv key) in
            let* appended := on_gatekeeper g (Gk.append_master_key (mkRotatedMasterKey (br_rotation_id event)
              (sys_block_number s) (Crypto.dump_secret_key new_master_key))) in
            if (appended : bool) then
              let* s := gets (fun s => s) in
              let* g := expect_some (gatekeeper s) in
              on_files (MasterKey.seal (master_key_history g) (identity_key s))
            else mret tt
        | None => mret tt
        end;;;
        let* s := gets (fun s => s) in
        let* g := expect_some (gatekeeper s) in
        let* switched := on_gatekeeper g (Gk.switch_master_key (br_rotation_id event) (sys_block_number s)) in
        if (switched : bool) then mret tt else modify (set_gatekeeper None)
    end.

(** Errors of the handlers are logged, unless the process is over. *)
Definition log_error (m : Y unit) : Y unit := fun s =>
  match m s with
  | Err (Tx _) s' => Ok tt s'
  | r => r
  end.

Definition process_key_distribution_event (chain : ChainView) (origin : MessageOrigin) (event : KeyDistribution) :
    Y unit :=
  log_error
    match event with
    | MasterKeyDistribution dest ecdh_pubkey encrypted_master_key iv =>
        process_master_key_distribution origin dest ecdh_pubkey encrypted_master_key iv
    | MasterKeyRotationEvent event => process_batch_rotate_master_key chain origin event
    | MasterKeyHistory dest encrypted => process_master_key_history origin dest encrypted
    end.

(** ** The life of the gatekeeper *)
Definition init_gatekeeper (chain : ChainView) (history : list RotatedMasterKey) : Y unit :=
  let* s := gets (fun s => s) in
  match gatekeeper s, history with
  | Some _, _ | _, [] => panic
  | None, first :: _ =>
      if negb (genesis_block s =? 0) then panic
      else
        let* key := Gk.expect_crypto (Crypto.restore_from_secret_key (secret first)) in
        let* g := (fun s => match Gk.new history (mkMessageChannel Gatekeeper (pair_sign key)) (queue s) tt with
          | Ok g _ => Ok g s | Err e _ => Err e s | Panic => Panic | NoFuel => NoFuel end) in
        modify (set_queue (eco_queue (computing_economics g)));;;
        match cv_tokenomic_parameters chain with
        | Some params => on_gatekeeper g (Gk.on_economics (Economics.update_tokenomic_parameters params))
        | None => modify (set_gatekeeper (Some g))
        end
  end.

(** [new_key] is the result of [crate::new_sr25519_key()], if it is called. *)
Definition process_first_gatekeeper_event (new_key : Pair) (chain : ChainView) (pubkey : WorkerPublicKey) : Y unit :=
  if negb (is_gatekeeper_on pubkey chain) then panic
  else
    let* s := gets (fun s => s) in
    let* history := on_files (MasterKey.try_unseal (identity_key s)) in
    let* history :=
      (if my_pubkey s =? pubkey then
         let* history :=
           match history with
           | [] =>
               let history := [mkRotatedMasterKey 0 0 (Crypto.dump_secret_key new_key)] in
               on_files (MasterKey.seal history (identity_key s));;;
               mret history
           | _ => mret history
           end in
         let* first := expect_some (head history) in
         let* key := Gk.expect_crypto (Crypto.restore_from_secret_key (secret first)) in
         push (encode_RegistryEvent (MasterPubkey (pair_public key))) RegistryEvent_topic;;;
         mret history
       else mret history) in
    (match history with [] => mret tt | _ => init_gatekeeper chain history end);;;
    if my_pubkey s =? pubkey then
      let* s := gets (fun s => s) in
      let* g := expect_some (gatekeeper s) in
      on_gatekeeper g Gk.register_on_chain
    else mret tt.

Definition process_master_key_rotation_request (new_key : Pair) (block : BlockInfo) (id : Z)
    (gk_identities : list (WorkerPublicKey * EcdhPublicKey)) : Y unit :=
  let* s := gets (fun s => s) in
  match gatekeeper s with
  | Some g => on_gatekeeper g
      (Gk.process_master_key_rotation_request new_key block id gk_identities (identity_key s))
  | None => mret tt
  end.

Definition process_gatekeeper_launch_event (new_key : Pair) (chain : ChainView) (block : BlockInfo)
    (origin : MessageOrigin) (event : GatekeeperLaunch) : Y unit :=
  if negb (is_pallet origin) then mret tt
  else match event with
  | FirstGatekeeper pubkey _ => process_first_gatekeeper_event new_key chain pubkey
  | MasterPubkeyOnChain master_pubkey =>
      let* s := gets (fun s => s) in
      match gatekeeper s with
      | Some g => on_gatekeeper g (Gk.master_pubkey_uploaded master_pubkey)
      | None => mret tt
      end
  | RotateMasterKey id gk_identities => process_master_key_rotation_request new_key block id gk_identities
  | MasterPubkeyRotated _ => mret tt
  end.

Definition process_new_gatekeeper_event (chain : ChainView) (block : BlockInfo) (origin : MessageOrigin)
    (pubkey : WorkerPublicKey) (ecdh_pubkey : EcdhPublicKey) : Y unit :=
  if negb (is_pallet origin) then mret tt
  else if negb (is_gatekeeper_on pubkey chain) then panic
  else
    let* s := gets (fun s => s) in
    match gatekeeper s with
    | Some g =>
        on_gatekeeper g (Gk.share_master_key pubkey ecdh_pubkey (block_number block));;;
        if my_pubkey s =? pubkey then
          let* s := gets (fun s => s) in
          let* g := expect_some (gatekeeper s) in
          on_gatekeeper g Gk.register_on_chain
        else mret tt
    | None => mret tt
    end.

Definition process_remove_gatekeeper_event (origin : MessageOrigin) (pubkey : WorkerPublicKey) : Y unit :=
  if negb (is_pallet origin) then mret tt
  else
    let* s := gets (fun s => s) in
    match gatekeeper s with
    | Some g => if my_pubkey s =? pubkey then on_gatekeeper g Gk.unregister_on_chain else mret tt
    | None => mret tt
    end.

Definition process_gatekeeper_change_event (chain : ChainView) (block : BlockInfo) (origin : MessageOrigin)
    (event : GatekeeperChange) : Y unit :=
  match event with
  | GkRegistered pubkey ecdh_pubkey => process_new_gatekeeper_event chain block origin pubkey ecdh_pubkey
  | GkUnregistered pubkey => process_remove_gatekeeper_event origin pubkey
  end.

(** ** Blocks *)
Definition will_process_block (block : BlockInfo) : Y unit :=
  modify (set_block (block_number block) (now_ms block));;;
  let* s := gets (fun s => s) in
  match gatekeeper s with
  | Some g => on_gatekeeper g (Gk.will_process_block block)
  | None => mret tt
  end.

(** The first half of [did_process_block]: the gatekeeper, then the worker.  The
    whole of it, with the contracts, is [did_process_block] of Node.v. *)
Definition finish_block (block : BlockInfo) : Y unit :=
  let* s := gets (fun s => s) in
  match gatekeeper s with
  | Some g => on_gatekeeper g (Gk.did_process_block block)
  | None => mret tt
  end;;;
  on_worker (WorkerSM.on_block_processed block).

(** Its last lines *)
Definition note_contracts : Y unit :=
  modify (fun s => set_bench (Benchmark.set_flag CONTRACT_RUNNING (0 <? n_clusters s) (bench s)) s).

Inductive GatekeeperRole := RoleNone | RoleDummy | RoleActive.

Definition gatekeeper_role (s : SystemState) : GatekeeperRole :=
  match gatekeeper s with
  | Some g => if registered_on_chain g then RoleActive else RoleDummy
  | None => RoleNone
  end.

End System.
End Sys.
