(* ===== verification/Replica.v ===== *)
(** * The gatekeeper's replica of a worker

    The worker's state machine refines an abstract machine that says when a
    heartbeat is due; so does the copy the gatekeeper replays.  Fed with the
    same events, both agree, and every heartbeat the worker sends is the one the
    gatekeeper waits for. *)
From stdpp Require Import prelude gmap list strings sorting.
From Stdlib Require Import ZArith Lia.
From S2P Require Import Prelude Types Externals BalanceConvert Reference Mq SendQueue Egress Dispatcher Benchmark WorkerSM Tokenomic Economics.

Module Replica.
Import SendQueue.

(** ** The abstract machine *)
Record View := mkView {
  vw_key : WorkerPublicKey;
  vw_hash : Z;
  vw_registered : bool;
  vw_session : option (Z * WorkingState);
}.

Definition view (w : WorkerState) : View :=
  mkView (ws_pubkey w) (ws_hashed_id w) (ws_registered w)
    ((fun i => (wi_session_id i, wi_state i)) <$> ws_working_state w).

Definition set_session (x : option (Z * WorkingState)) (v : View) : View :=
  mkView (vw_key v) (vw_hash v) (vw_registered v) x.

(** A session in the state [from] goes to [to]. *)
Definition toggle (from to : WorkingState) (x : option (Z * WorkingState)) : option (Z * WorkingState) :=
  match x with
  | Some (id, st) =>
      match from, st with
      | Computing, Computing | Paused, Paused => Some (id, to)
      | _, _ => x
      end
  | None => None
  end.

Definition worker_step (evt : WorkerEvent) (v : View) : View :=
  match evt with
  | Registered _ => mkView (vw_key v) (vw_hash v) true (vw_session v)
  | Started id _ _ => set_session (Some (id, Computing)) v
  | Stopped => set_session None v
  | EnterUnresponsive => set_session (toggle Computing Paused (vw_session v)) v
  | ExitUnresponsive => set_session (toggle Paused Computing (vw_session v)) v
  | BenchStart _ | BenchScore _ => v
  end.

(** A heartbeat is due when the worker is registered, computes and is hit. *)
Definition due (c : HeartbeatChallenge) (v : View) : bool :=
  vw_registered v
  && match vw_session v with Some (_, Computing) => true | _ => false end
  && (Z.lxor (vw_hash v) (seed c) <=? online_target c).

(** The next view, and the blocks to answer *)
Definition abs_step (block : BlockInfo) (event : SystemEvent) (v : View) : View * list Z :=
  match event with
  | WorkerEventWithKey k evt => (if k =? vw_key v then worker_step evt v else v, [])
  | HeartbeatChallengeEvent c => (v, if due c v then [block_number block] else [])
  end.

(** ** Refinement, for any callbacks that record the heartbeats *)
Class CallbackSpec {E C : Type} (cb : WorkerStateMachineCallback E C) (ok : C -> Prop) (obs : C -> list Z) := {
  resume_spec : forall c, ok c ->
    wp True (bench_resume (E := E)) (fun _ c' => ok c' /\ obs c' = obs c) (fun _ _ => True) c;
  pause_spec : forall c, ok c ->
    wp True (bench_pause (E := E)) (fun _ c' => ok c' /\ obs c' = obs c) (fun _ _ => True) c;
  report_spec : forall t i c, ok c ->
    wp True (bench_report (E := E) t i) (fun _ c' => ok c' /\ obs c' = obs c) (fun _ _ => True) c;
  heartbeat_spec : forall id b t i c, ok c ->
    wp True (heartbeat (E := E) id b t i) (fun _ c' => ok c' /\ obs c' = obs c ++ [b]) (fun _ _ => True) c;
}.

Section Refinement.
Context {prof : Profile} {E C : Type} {cb : WorkerStateMachineCallback E C}.
Context (ok : C -> Prop) (obs : C -> list Z) {spec : CallbackSpec cb ok obs}.

Definition reaches (s : WorkerState * C) (v : View) (l : list Z) (s' : WorkerState * C) : Prop :=
  ok (snd s') /\ view (fst s') = v /\ obs (snd s') = obs (snd s) ++ l.

Lemma wp_callback (m : M C E unit) (Q : unit -> WorkerState * C -> Prop) w c :
  wp True m (fun _ c' => Q tt (w, c')) (fun _ _ => True) c ->
  wp True (WorkerSM.callback (E := E) m) Q (fun _ _ => True) (w, c).
Proof. unfold wp, WorkerSM.callback. simpl. by destruct (m c) as [[]| | |]. Qed.

Lemma reaches_quiet (m : M C E unit) v w0 c w :
  (forall c, ok c -> wp True m (fun _ c' => ok c' /\ obs c' = obs c) (fun _ _ => True) c) -> ok c -> view w = v ->
  wp True (WorkerSM.callback (E := E) m) (fun _ => reaches (w0, c) v []) (fun _ _ => True) (w, c).
Proof.
  intros Hm Hc Hv. apply wp_callback. eapply wp_mono; [by apply Hm| |done].
  intros _ c' [Hok Ho]. unfold reaches. simpl. by rewrite Ho, app_nil_r.
Qed.

Lemma reaches_refl v w0 w c : ok c -> view w = v -> reaches (w0, c) v [] (w, c).
Proof. intros Hc Hv. unfold reaches. simpl. by rewrite app_nil_r. Qed.

Lemma challenge_refines block ch w c : ok c ->
  wp True (WorkerSM.handle_heartbeat_challenge (E := E) block ch)
    (fun _ => reaches (w, c) (view w) (if due ch (view w) then [block_number block] else []))
    (fun _ _ => True) (w, c).
Proof.
  intros Hc. unfold WorkerSM.handle_heartbeat_challenge, due. do 2 wp_step. simpl.
  destruct (ws_registered w); simpl; [|by apply reaches_refl].
  destruct (ws_working_state w) as [i|]; simpl; [|by apply reaches_refl].
  destruct (wi_state i); [|by apply reaches_refl].
  destruct (_ <=? _); [|by apply reaches_refl].
  do 3 wp_step. eapply wp_mono; [apply (keeps_arith id)| |done]. unfold id. intros n s' ->.
  apply wp_callback. eapply wp_mono; [by apply heartbeat_spec| |done].
  intros _ c' [Hok Ho]. done.
Qed.

Lemma process_event_refines block event w c : ok c ->
  wp True (WorkerSM.process_event (E := E) block event)
    (fun _ => reaches (w, c) (fst (abs_step block event (view w))) (snd (abs_step block event (view w))))
    (fun _ _ => True) (w, c).
Proof.
  intros Hc. destruct event as [k evt|ch]; simpl; [|apply challenge_refines; done].
  wp_step. wp_step. simpl. destruct (k =? ws_pubkey w); simpl; [|by apply reaches_refl].
  destruct evt; unfold WorkerSM.on_state; wp_steps; simpl;
    first [apply reaches_quiet; [apply resume_spec || apply pause_spec|done|] | apply reaches_refl; [done|]];
    unfold view, set_session, toggle; simpl;
    repeat match goal with H : _ = _ |- _ => rewrite H; simpl end; done.
Qed.

Lemma on_block_processed_refines block w c : ok c ->
  wp True (WorkerSM.on_block_processed (E := E) block) (fun _ => reaches (w, c) (view w) [])
    (fun _ _ => True) (w, c).
Proof.
  intros Hc. unfold WorkerSM.on_block_processed, WorkerSM.on_state. do 2 wp_step. simpl.
  destruct (ws_bench_state w) as [b|]; [|by apply reaches_refl].
  wp_step. eapply wp_mono; [apply (keeps_arith id)| |done]. unfold id. intros n s' ->.
  destruct (_ <=? _); [|by apply reaches_refl].
  do 4 wp_step. wp_step. eapply wp_mono; [apply (keeps_arith id)| |done]. unfold id. intros m s' ->.
  wp_step. apply wp_callback. eapply wp_mono; [by apply report_spec| |done].
  intros _ c' [Hok Ho]. do 2 wp_step. cbv beta. destruct (WorkerSM.need_pause _).
  - eapply wp_mono; [apply (reaches_quiet _ (view w) w); [apply pause_spec|done|done]| |done].
    intros _ s' (H1 & H2 & H3). unfold reaches in *. simpl in *. by rewrite H3, Ho.
  - apply wp_ret. unfold reaches. simpl. by rewrite Ho, app_nil_r.
Qed.

End Refinement.

#[export] Instance tracker_spec {E : Type} :
  CallbackSpec (E := E) tracker_callback (fun _ => True) tr_waiting.
Proof. by split. Qed.

(** ** The worker's callbacks *)

(** SCALE decodes what it encoded *)
Class PrCodecSpec {cfg : Config} {codec : Codec} (pc : PrCodec) := {
  decode_encode_report : forall e, decode_WorkingReportEvent (encode_WorkingReportEvent e) = Some e;
}.

Definition challenge_block_of (e : WorkingReportEvent) : Z :=
  match e with Heartbeat _ b _ _ | HeartbeatV2 _ b _ _ _ _ => b end.

Section Worker.
Context {prof : Profile} {cfg : Config} {codec : Codec} {prcodec : PrCodec} {ps : PrCodecSpec prcodec}.

(** The reports in a channel *)
Definition report_in (m : SignedMessage) : option WorkingReportEvent :=
  if decide (destination (message m) = WorkingReportEvent_topic) then decode_WorkingReportEvent (payload (message m))
  else None.

Definition own_channel (d : WorkerSMDelegate) : Channel := entry (d_queue d) (mc_sender (d_egress d)).

Definition reports (d : WorkerSMDelegate) : list WorkingReportEvent := omap report_in (ch_messages (own_channel d)).

Definition live (d : WorkerSMDelegate) : Prop := ch_dummy (own_channel d) = false.

Lemma d_push_spec {E} p t d : live d ->
  wp True (d_push (E := E) p t)
    (fun _ d' => live d' /\ exists n, reports d' = reports d ++
       option_list (report_in (sign (mc_signer (d_egress d)) (mkMessage (mc_sender (d_egress d)) t p) n)))
    (fun _ _ => True) d.
Proof.
  intros Hl. unfold wp, d_push, push_data, enqueue_message, mbind, gets, modify.
  destruct (arith 64 _ (d_queue d)) as [n q|e q| |] eqn:Ha; [|done..].
  pose proof (keeps_ok id _ _ _ _ (keeps_arith id 64 _) Ha) as Hq. unfold id in Hq. subst q.
  unfold live, reports, own_channel in *. simpl.
  rewrite Egress.entry_insert, Hl. simpl. split; [done|]. exists 0.
  rewrite omap_app. simpl. by destruct (report_in _).
Qed.

#[export] Instance delegate_spec {E : Type} :
  CallbackSpec (E := E) delegate_callback live (fun d => challenge_block_of <$> reports d).
Proof.
  split; simpl.
  - done.
  - done.
  - intros t i d Hd. eapply wp_mono; [by apply d_push_spec| |done]. intros _ d' [Hl [n Hr]].
    split; [done|]. rewrite Hr. unfold report_in. simpl. by rewrite app_nil_r.
  - intros id b t i d Hd. do 2 wp_step. eapply wp_mono; [by apply d_push_spec| |done].
    intros _ d' [Hl [n Hr]]. split; [done|]. rewrite Hr, fmap_app. unfold report_in. simpl.
    by rewrite decode_encode_report.
Qed.

End Worker.

(** ** The gatekeeper's ledger *)
Section Ledger.
Context {prof : Profile} {cfg : Config} {codec : Codec} {prcodec : PrCodec} {F : FixedLib} {E : Type}.
Abbreviation Ledger := (gmap WorkerPublicKey WorkerInfo).

(** Each entry of the ledger makes a [Step]. *)
Definition pointwise (Step : WorkerInfo -> WorkerInfo -> Prop) (m m' : Ledger) : Prop :=
  forall k, match m !! k with
    | Some w => exists w', m' !! k = Some w' /\ Step w w'
    | None => m' !! k = None
    end.

Lemma elem_of_ordmap_keys (m : Ledger) k : k ∈ Economics.ordmap_keys m <-> is_Some (m !! k).
Proof.
  unfold Economics.ordmap_keys. rewrite merge_sort_Permutation, list_elem_of_fmap. split.
  - intros ([k' w] & -> & Hin). apply elem_of_map_to_list in Hin. by exists w.
  - intros [w Hw]. exists (k, w). split; [done|]. by apply elem_of_map_to_list.
Qed.

Lemma NoDup_ordmap_keys (m : Ledger) : NoDup (Economics.ordmap_keys m).
Proof. unfold Economics.ordmap_keys. rewrite merge_sort_Permutation. apply NoDup_fst_map_to_list. Qed.

Lemma for_keys_pointwise (f : WorkerPublicKey -> WorkerInfo -> M ComputingEconomics E unit) Step l :
  (forall k w e, wp True (f k w) (fun _ e' => exists w', Step w w' /\ workers e' = <[k := w']> (workers e))
     (fun _ _ => True) e) ->
  NoDup l -> forall e,
  wp True (for_each l (fun k => let* w := Economics.get_worker k in let* w := expect_some w in f k w))
    (fun _ e' => forall k, if decide (k ∈ l) then exists w w', workers e !! k = Some w /\ workers e' !! k = Some w' /\ Step w w'
                           else workers e' !! k = workers e !! k) (fun _ _ => True) e.
Proof.
  intros Hf. induction l as [|k l IH]; intros Hn e; simpl.
  - apply wp_ret. by intros k.
  - apply NoDup_cons in Hn as [Hk Hn]. wp_step. unfold Economics.get_worker. wp_steps; [|done].
    eapply wp_mono; [apply Hf| |done]. intros _ e1 (w' & Hs & He1).
    eapply wp_mono; [by apply IH| |done]. intros [] e2 Hall k'. specialize (Hall k').
    rewrite He1 in Hall. destruct (decide (k = k')) as [<-|Hne].
    + rewrite decide_True by set_solver. rewrite decide_False in Hall by done.
      rewrite lookup_insert_eq in Hall. eauto.
    + rewrite lookup_insert_ne in Hall by done. repeat case_decide; set_solver.
Qed.

Lemma ordmap_pointwise (f : WorkerPublicKey -> WorkerInfo -> M ComputingEconomics E unit) Step e :
  (forall k w e, wp True (f k w) (fun _ e' => exists w', Step w w' /\ workers e' = <[k := w']> (workers e))
     (fun _ _ => True) e) ->
  wp True (Economics.ordmap_for_each_mut f) (fun _ e' => pointwise Step (workers e) (workers e')) (fun _ _ => True) e.
Proof.
  intros Hf. unfold Economics.ordmap_for_each_mut. do 2 wp_step.
  eapply wp_mono; [by apply (for_keys_pointwise f Step _ Hf (NoDup_ordmap_keys _))| |done].
  intros [] e' Hall k. specialize (Hall k).
  destruct (decide (k ∈ _)) as [_|Hk].
  - destruct Hall as (w & w' & -> & H). eauto.
  - rewrite Hall. destruct (workers e !! k) eqn:Hw; [|done].
    destruct Hk. apply elem_of_ordmap_keys. eauto.
Qed.

(** The replayed machine and its waiting heartbeats: unchanged *)
Definition same_replica (w w' : WorkerInfo) : Prop :=
  view (wk_state w') = view (wk_state w) /\ waiting_heartbeats w' = waiting_heartbeats w.

Definition replica_step (block : BlockInfo) (event : SystemEvent) (w w' : WorkerInfo) : Prop :=
  view (wk_state w') = fst (abs_step block event (view (wk_state w))) /\
  waiting_heartbeats w' = waiting_heartbeats w ++ snd (abs_step block event (view (wk_state w))).

Lemma wp_replay m w v l (Q : WorkerInfo -> ComputingEconomics -> Prop) e :
  (forall tr, wp True m (fun _ => reaches (fun _ => True) tr_waiting (wk_state w, tr) v l) (fun _ _ => True)
     (wk_state w, tr)) ->
  (forall st, view st = v -> Q (set_wk st (waiting_heartbeats w ++ l) w) e) ->
  wp True (Economics.replay (E := E) m w) Q (fun _ _ => True) e.
Proof.
  intros Hm HQ. unfold wp, Economics.replay.
  specialize (Hm (mkWorkerSMTracker (waiting_heartbeats w) false)). unfold wp in Hm.
  destruct (m _) as [[] [st tr]|x s| |]; try done. destruct Hm as (_ & Hv & Ho). simpl in *.
  rewrite Ho. by apply HQ.
Qed.

Lemma wp_on_tokenomic {A} (m : M TokenomicInfo E A) w (Q : A * WorkerInfo -> ComputingEconomics -> Prop) e :
  (forall a t, Q (a, set_tokenomic t w) e) ->
  wp True (Economics.on_tokenomic m w) Q (fun _ _ => True) e.
Proof. intros HQ. unfold wp, Economics.on_tokenomic. destruct (m _); done. Qed.

(** An operation that writes the entry of [k] only, as [Step] says *)
Definition writes (k : WorkerPublicKey) (w : WorkerInfo) (Step : WorkerInfo -> WorkerInfo -> Prop)
    (e e' : ComputingEconomics) : Prop :=
  exists w', Step w w' /\ workers e' = <[k := w']> (workers e).

Lemma judge_worker_replica block params w e :
  wp True (Economics.judge_worker (E := E) block params w)
    (fun w' e' => same_replica w w' /\ workers e' = workers e) (fun _ _ => True) e.
Proof.
  unfold Economics.judge_worker. destruct (unresponsive w), (heartbeat_flag w); simpl; repeat wp_step; try done.
  all: destruct (waiting_heartbeats w) eqn:Hh; repeat wp_step; try done.
  all: eapply wp_mono; [apply (keeps_arith id)| |done]; unfold id; intros n s' ->; repeat wp_step; done.
Qed.

Lemma charge_worker_replica block params w e :
  wp True (Economics.charge_worker (E := E) block params w)
    (fun w' e' => same_replica w w' /\ workers e' = workers e) (fun _ _ => True) e.
Proof.
  unfold Economics.charge_worker. destruct (unresponsive w), (heartbeat_flag w); simpl; try (by apply wp_ret).
  all: wp_step; apply wp_on_tokenomic; intros; by apply wp_ret.
Qed.

Lemma finish_worker_writes block params k w e :
  wp True (Economics.finish_worker (E := E) block params k w) (fun _ => writes k w same_replica e) (fun _ _ => True) e.
Proof.
  unfold Economics.finish_worker. wp_step.
  apply (wp_replay _ _ (view (wk_state w)) []); [intros tr; by apply on_block_processed_refines|].
  intros st Hst. set (w1 := set_wk _ _ w).
  assert (same_replica w w1) as [Hv Hh] by (by split; simpl; [|rewrite app_nil_r]).
  destruct (ws_working_state (wk_state w1)); [|apply wp_modify; by exists w1].
  wp_step. eapply wp_mono; [apply judge_worker_replica| |done]. intros w2 e2 [[Hv2 Hh2] He2].
  wp_step. eapply wp_mono; [apply charge_worker_replica| |done]. intros w3 e3 [[Hv3 Hh3] He3].
  apply wp_modify. exists w3. split; [split; congruence|]. simpl. by rewrite He3, He2.
Qed.

Lemma did_process_block_replicas block e :
  wp True (Economics.did_process_block (E := E) block)
    (fun _ e' => pointwise same_replica (workers e) (workers e')) (fun _ _ => True) e.
Proof.
  unfold Economics.did_process_block. do 3 wp_step.
  eapply wp_mono; [apply ordmap_pointwise; intros; apply finish_worker_writes| |done].
  intros [] e1 H1. do 4 wp_step. destruct (negb _); [|by apply wp_ret].
  unfold wp, Economics.egress_push. destruct (push_data _ _ _ _); done.
Qed.

Lemma will_process_block_replicas block e :
  wp True (Economics.will_process_block (E := E) block)
    (fun _ e' => pointwise same_replica (workers e) (workers e')) (fun _ _ => True) e.
Proof.
  unfold Economics.will_process_block. wp_step.
  assert (keeps workers (Economics.sum_share (E := E))) as Hk
    by (unfold Economics.sum_share, Tokenomic.share, Tokenomic.square; solve_keeps).
  eapply wp_mono; [apply Hk| |done]. intros n e1 <-. do 2 wp_step.
  change (workers e1) with (workers (set_eco_cache (mkEconomicCalcCache n (new_report (block_number block) (now_ms block))) e1)).
  apply ordmap_pointwise. intros k w e'. apply wp_modify. by exists (set_heartbeat_flag false w).
Qed.

Lemma settle_writes block k w ct it cr e :
  wp True (Economics.settle_heartbeat (E := E) block k w ct it cr) (fun _ => writes k w same_replica e)
    (fun _ _ => True) e.
Proof.
  unfold Economics.settle_heartbeat, Economics.put_worker. wp_step. apply wp_on_tokenomic. intros _ t. simpl.
  destruct (unresponsive w).
  - wp_step. apply wp_on_tokenomic. intros _ t'. apply wp_modify. (eexists; split; [|reflexivity]; done).
  - do 3 wp_step. apply wp_on_tokenomic. intros [payout treasury] t'. do 3 wp_step. (eexists; split; [|reflexivity]; done).
Qed.

(** A report of [k] consumes its oldest waiting heartbeat. *)
Lemma computing_report_writes k event block e :
  wp True (Economics.process_computing_report (E := E) (Worker k) event block)
    (fun _ e' => match workers e !! k with
       | None => workers e' = workers e
       | Some w => Economics.expected w (challenge_block_of event) = true /\
           writes k w (fun w w' => view (wk_state w') = view (wk_state w) /\
             waiting_heartbeats w' = tail (waiting_heartbeats w)) e e'
       end) (fun _ _ => True) e.
Proof.
  unfold Economics.process_computing_report.
  assert (exists id ct it cr, match event with
    | Heartbeat a b c d => (a, b, c, d, false)
    | HeartbeatV2 a b c d n _ => (a, b, c, d, 0 <? n)
    end = (id, challenge_block_of event, ct, it, cr)) as (id & ct & it & cr & ->) by (destruct event; by repeat eexists).
  unfold Economics.get_worker. do 2 wp_step. cbv beta. destruct (workers e !! k) as [w|] eqn:Hw; [|by apply wp_ret].
  destruct (Economics.expected w (challenge_block_of event)) eqn:Hx; simpl; [|done].
  destruct (ws_working_state (wk_state w)) as [i|].
  2: { apply wp_modify. split; [done|]. (eexists; split; [|reflexivity]; done). }
  destruct (id =? wi_session_id i); simpl.
  2: { apply wp_modify. split; [done|]. (eexists; split; [|reflexivity]; done). }
  eapply wp_mono; [apply settle_writes| |done]. intros _ e' (w' & [Hv Hh] & He'). split; [done|].
  exists w'. by rewrite Hv, Hh.
Qed.

(** The ledger once the worker of a [Registered] event has its entry *)
Definition with_registered (event : SystemEvent) (m : Ledger) : Ledger :=
  match event with
  | WorkerEventWithKey k (Registered _) =>
      match m !! k with Some _ => m | None => <[k := Economics.new_worker k]> m end
  | _ => m
  end.

Lemma pointwise_put (R : WorkerInfo -> WorkerInfo -> Prop) (m m' : Ledger) k w w' :
  pointwise R m m' -> m' !! k = Some w -> (forall w0, R w0 w -> R w0 w') -> pointwise R m (<[k := w']> m').
Proof.
  intros Hp Hk Hr k'. specialize (Hp k'). destruct (decide (k' = k)) as [->|Hne].
  - rewrite lookup_insert_eq. destruct (m !! k) as [w0|]; [|congruence].
    destruct Hp as (w1 & Hw1 & HR). exists w'. split; [done|]. apply Hr. by replace w with w1 by congruence.
  - by rewrite lookup_insert_ne.
Qed.

Lemma system_event_replicas name event block e :
  wp True (Economics.process_system_event (E := E) (Pallet name) event block)
    (fun _ e' => pointwise (replica_step block event) (with_registered event (workers e)) (workers e'))
    (fun _ _ => True) e.
Proof.
  unfold Economics.process_system_event. simpl. wp_step.
  apply (wp_mono _ _ (fun _ e1 => workers e1 = with_registered event (workers e)) _ (fun _ _ => True)); [| |done].
  { destruct event as [k []|]; simpl; try by apply wp_ret. apply wp_modify. by destruct (workers e !! k) eqn:?. }
  intros [] e1 <-. wp_step. eapply wp_mono; [apply (ordmap_pointwise _ (replica_step block event))| |done].
  - intros k w e'. wp_step. eapply wp_replay; [intros tr; by apply process_event_refines|].
    intros st Hst. apply wp_modify. eexists. split; [|reflexivity]. by split.
  - intros [] e2 He2. destruct event as [k evt|ch]; [|by apply wp_ret].
    unfold Economics.get_worker. do 2 wp_step. cbv beta. destruct (workers e2 !! k) as [w|] eqn:Hw; [|by apply wp_ret].
    destruct evt; try (by apply wp_ret); apply wp_modify; simpl; try done.
    all: eapply pointwise_put; [done|done|done].
Qed.

Lemma gatekeeper_event_replicas origin event e :
  wp True (Economics.process_gatekeeper_event (E := E) origin event) (fun _ e' => workers e' = workers e)
    (fun _ _ => True) e.
Proof.
  unfold Economics.process_gatekeeper_event, Economics.update_tokenomic_parameters, Tokenomic.params_from.
  destruct event; try by (apply wp_ret || apply wp_panic). destruct (is_pallet origin); [|by apply wp_ret].
  repeat wp_step; done.
Qed.

End Ledger.

(** ** Runs of a worker and a gatekeeper

    Both follow the same chain.  [sent] is what the worker reported, [n] how many
    of the reports the gatekeeper has processed.  The chain starts no session of
    a worker that is not registered. *)
Section Runs.
Context {prof : Profile} {cfg : Config} {codec : Codec} {prcodec : PrCodec} {ps : PrCodecSpec prcodec}.
Context {F : FixedLib} {E : Type} (pk : WorkerPublicKey).

Definition admissible (w : WorkerState) (event : SystemEvent) : Prop :=
  match event with
  | WorkerEventWithKey k (Started _ _ _) => k = pk -> ws_registered w = true
  | _ => True
  end.

Inductive run : WorkerState -> WorkerSMDelegate -> ComputingEconomics -> list WorkingReportEvent -> nat -> Prop :=
| run_init d e : live d -> workers e !! pk = None -> run (WorkerSM.new pk) d e [] 0
| run_event w d e sent n name event block w' d' e' fresh :
    run w d e sent n -> admissible w event ->
    WorkerSM.process_event (E := E) block event (w, d) = Ok tt (w', d') -> reports d' = reports d ++ fresh ->
    Economics.process_system_event (E := E) (Pallet name) event block e = Ok tt e' ->
    run w' d' e' (sent ++ fresh) n
| run_report w d e sent n event block e' :
    run w d e sent n -> sent !! n = Some event ->
    Economics.process_computing_report (E := E) (Worker pk) event block e = Ok tt e' ->
    run w d e' sent (S n)
| run_other_report w d e sent n k event block e' :
    run w d e sent n -> k <> pk ->
    Economics.process_computing_report (E := E) (Worker k) event block e = Ok tt e' -> run w d e' sent n
| run_gatekeeper_event w d e sent n origin event e' :
    run w d e sent n -> Economics.process_gatekeeper_event (E := E) origin event e = Ok tt e' -> run w d e' sent n
| run_will w d e sent n block e' :
    run w d e sent n -> Economics.will_process_block (E := E) block e = Ok tt e' -> run w d e' sent n
| run_did w d e sent n block e' :
    run w d e sent n -> Economics.did_process_block (E := E) block e = Ok tt e' -> run w d e' sent n
| run_worker_end w d e sent n block w' d' :
    run w d e sent n -> WorkerSM.on_block_processed (E := E) block (w, d) = Ok tt (w', d') -> run w' d' e sent n
| run_worker_env w d e sent n d' :
    run w d e sent n -> live d' -> run w d' e sent n.

Record Agree (w : WorkerState) (d : WorkerSMDelegate) (e : ComputingEconomics) (sent : list WorkingReportEvent) (n : nat) :
    Prop := {
  agree_live : live d;
  agree_key : vw_key (view w) = pk;
  agree_le : (n <= length sent)%nat;
  agree_entry : match workers e !! pk with
    | None => view w = view (WorkerSM.new pk) /\ sent = []
    | Some i => view (wk_state i) = view w /\ waiting_heartbeats i = drop n (challenge_block_of <$> sent)
    end;
}.

Lemma agree_ledger w d e e' sent n :
  Agree w d e sent n -> pointwise same_replica (workers e) (workers e') -> Agree w d e' sent n.
Proof.
  intros [Hl Hk Hn He] Hp. split; try done. specialize (Hp pk).
  destruct (workers e !! pk) as [i|]; [|by rewrite Hp].
  destruct Hp as (i' & -> & Hv & Hh). by rewrite Hv, Hh.
Qed.

Lemma agree_same_ledger w d e e' sent n :
  Agree w d e sent n -> workers e' = workers e -> Agree w d e' sent n.
Proof. intros [Hl Hk Hn He] Hw. split; try done. by rewrite Hw. Qed.

(** Before its registration a worker's view does not move. *)
Lemma unregistered_step block event w :
  admissible w event -> view w = view (WorkerSM.new pk) ->
  (forall c, event <> WorkerEventWithKey pk (Registered c)) ->
  abs_step block event (view w) = (view (WorkerSM.new pk), []).
Proof.
  intros Ha Hv Hr. rewrite Hv. destruct event as [k evt|ch]; [|done]. simpl.
  destruct (Z.eqb_spec k pk) as [->|]; [|done].
  destruct evt; try done; [by edestruct Hr|]. simpl in Ha. injection Hv as _ _ Hreg _.
  by rewrite (Ha eq_refl) in Hreg.
Qed.

Lemma with_registered_lookup event m :
  with_registered event m !! pk = m !! pk \/
  (m !! pk = None /\ with_registered event m !! pk = Some (Economics.new_worker pk)).
Proof.
  destruct event as [k []|]; simpl; auto. destruct (m !! k) eqn:Hk; [by left|].
  destruct (decide (k = pk)) as [->|]; [right|left].
  - by rewrite lookup_insert_eq.
  - by rewrite lookup_insert_ne.
Qed.

Lemma with_registered_none event m :
  with_registered event m !! pk = None -> forall c, event <> WorkerEventWithKey pk (Registered c).
Proof.
  intros H c ->. simpl in H. destruct (m !! pk) eqn:Hk; [congruence|]. by rewrite lookup_insert_eq in H.
Qed.

Lemma agree_event w d e sent n name event block w' d' e' fresh :
  Agree w d e sent n -> admissible w event ->
  WorkerSM.process_event (E := E) block event (w, d) = Ok tt (w', d') -> reports d' = reports d ++ fresh ->
  Economics.process_system_event (E := E) (Pallet name) event block e = Ok tt e' ->
  Agree w' d' e' (sent ++ fresh) n.
Proof.
  intros [Hl Hk Hn He] Ha Hw Hf Hg.
  destruct (wp_ok _ _ _ _ _ _ _ (process_event_refines live _ block event w d Hl) Hw) as (Hl' & Hv' & Ho).
  simpl in *. rewrite Hf, fmap_app in Ho. apply app_inv_head in Ho.
  pose proof (wp_ok _ _ _ _ _ _ _ (system_event_replicas name event block e) Hg pk) as Hp. simpl in Hp.
  split; [done| |rewrite length_app; lia|].
  - rewrite Hv'. unfold abs_step. destruct event as [k evt|ch]; simpl; [|done].
    destruct (_ =? _); [|done]. by destruct evt.
  - rewrite fmap_app, drop_app_le, Ho by (rewrite length_fmap; lia).
    destruct (with_registered_lookup event (workers e)) as [Heq|[Hnone Hnew]].
    + rewrite Heq in Hp. destruct (workers e !! pk) as [i|] eqn:Hi.
      * destruct Hp as (i' & -> & Hvi & Hhi). destruct He as [Hv Hh]. by rewrite Hvi, Hhi, Hv, Hh, Hv'.
      * rewrite Hp. destruct He as [Hv ->].
        rewrite (unregistered_step block event w Ha Hv (with_registered_none _ _ Heq)) in Hv', Ho.
        split; [done|]. by apply fmap_nil_inv in Ho as ->.
    + rewrite Hnew in Hp. destruct Hp as (i' & -> & Hvi & Hhi). rewrite Hnone in He. destruct He as [Hv ->].
      simpl in *. rewrite Hvi, Hhi, Hv', <- Hv. simpl. split; [done|]. by rewrite drop_nil.
Qed.

Lemma agree_report w d e sent n event block e' :
  Agree w d e sent n -> sent !! n = Some event ->
  Economics.process_computing_report (E := E) (Worker pk) event block e = Ok tt e' ->
  Agree w d e' sent (S n).
Proof.
  intros [Hl Hk Hn He] Hs Hg. pose proof (lookup_lt_Some _ _ _ Hs) as Hlt.
  pose proof (wp_ok _ _ _ _ _ _ _ (computing_report_writes pk event block e) Hg) as Hp. simpl in Hp.
  split; [done|done|lia|]. destruct (workers e !! pk) as [i|].
  - destruct Hp as (_ & i' & [Hv Hh] & ->). rewrite lookup_insert_eq. destruct He as [Hv0 Hh0].
    rewrite Hv, Hh, Hh0. split; [done|].
    rewrite (drop_S (challenge_block_of <$> sent) (challenge_block_of event) n); [done|].
    by rewrite list_lookup_fmap, Hs.
  - destruct He as [_ ->]. done.
Qed.

Lemma agree_other_report w d e sent n k event block e' :
  Agree w d e sent n -> k <> pk ->
  Economics.process_computing_report (E := E) (Worker k) event block e = Ok tt e' -> Agree w d e' sent n.
Proof.
  intros [Hl Hk Hn He] Hne Hg.
  pose proof (wp_ok _ _ _ _ _ _ _ (computing_report_writes k event block e) Hg) as Hp. simpl in Hp.
  split; try done. destruct (workers e !! k) as [i|]; [|by rewrite Hp].
  destruct Hp as (_ & i' & _ & ->). by rewrite lookup_insert_ne.
Qed.

Lemma run_agree w d e sent n : run w d e sent n -> Agree w d e sent n.
Proof.
  induction 1 as [d e Hd He| | | | | | |w d e sent n block w' d' Hr IH Hw|w d e sent n d' Hr IH Hd].
  - split; [done|done|simpl; lia|]. by rewrite He.
  - by eapply agree_event.
  - by eapply agree_report.
  - by eapply agree_other_report.
  - eapply agree_same_ledger; [done|].
    match goal with H : _ = Ok tt _ |- _ => exact (wp_ok _ _ _ _ _ _ _ (gatekeeper_event_replicas _ _ _) H) end.
  - eapply agree_ledger; [done|].
    match goal with H : _ = Ok tt _ |- _ => exact (wp_ok _ _ _ _ _ _ _ (will_process_block_replicas _ _) H) end.
  - eapply agree_ledger; [done|].
    match goal with H : _ = Ok tt _ |- _ => exact (wp_ok _ _ _ _ _ _ _ (did_process_block_replicas _ _) H) end.
  - destruct IH as [Hl Hk Hn He].
    destruct (wp_ok _ _ _ _ _ _ _ (on_block_processed_refines live _ block w d Hl) Hw) as (Hl' & Hv' & _).
    simpl in *. split; try done; by rewrite Hv'.
  - destruct IH as [Hl Hk Hn He]. by split.
Qed.

(** ** Properties *)

(** C15: the gatekeeper's replica of a worker never diverges from the worker.
    In every run in which both follow the same chain and the worker's reports
    arrive in order, the next report of the worker answers the oldest challenge
    the gatekeeper waits for, so the check that stops a gatekeeper with a
    poisoned state never fires; and what the gatekeeper waits for is exactly
    what the worker has sent and the gatekeeper has not yet seen. *)
Theorem heartbeat_always_expected w d e sent n event :
  run w d e sent n -> sent !! n = Some event ->
  exists i, workers e !! pk = Some i /\
    Economics.expected i (challenge_block_of event) = true /\
    waiting_heartbeats i = drop n (challenge_block_of <$> sent).
Proof.
  intros Hr Hs. destruct (run_agree _ _ _ _ _ Hr) as [Hl Hk Hn He].
  destruct (workers e !! pk) as [i|]; [|destruct He as [_ ->]; done].
  exists i. destruct He as [_ Hh]. split_and!; [done| |done].
  apply bool_decide_eq_true. rewrite Hh.
  by rewrite (drop_S _ (challenge_block_of event)) by (by rewrite list_lookup_fmap, Hs).
Qed.

End Runs.
End Replica.
