(* ===== verification/PrReference.v ===== *)
(** * A reference pRuntime

    Concrete instances of the primitives and encodings of a worker, on small
    numbers.  The witnesses evaluate on them. *)
From stdpp Require Import prelude gmap list strings.
From Stdlib Require Import ZArith Lia.
From S2P Require Import Prelude Types Externals BalanceConvert Reference SendQueue Benchmark WorkerSM Crypto Economics GatekeeperPr Replica.

Import RefInstances.

(** A key is its number; a secret is the number and zeros. *)
Definition secret_of (x : Z) : bytes := x :: replicate 63 0.
Definition of_secret (b : bytes) : option Z := head b.

#[local] Instance ref_crypto : PrCrypto := {|
  Pair := Z;
  pair_public p := p;
  pair_secret := secret_of;
  pair_from_seed b := foldr Z.add 1 b;
  pair_from_seed_slice := of_secret;
  pair_sign p _ := secret_of p;
  hkdf_sha256 _ k info _ := Some (k ++ concat info);
  Keypair := Z;
  keypair_from_secret := of_secret;
  keypair_from_mini_secret := of_secret;
  keypair_public k := k;
  keypair_secret := secret_of;
  scalar_mul b pk := match b with x :: _ => Some (x * pk :: replicate 31 0) | [] => None end;
  aes_key k := Nat.eqb (length k) 32;
  aes_seal k iv m := Some (foldr Z.add 0 (k ++ iv) :: m);
  aes_open k iv c :=
    match c with h :: m => if h =? foldr Z.add 0 (k ++ iv) then Some m else None | [] => None end;
|}.

#[local] Instance ref_crypto_spec : CryptoSpec ref_crypto.
Proof.
  split; simpl.
  - intros a b. by rewrite Z.mul_comm.
  - intros a b. by eexists.
  - intros k iv m c [= <-]. by rewrite Z.eqb_refl.
  - intros k iv m _. by eexists.
  - done.
  - done.
  - intros p. by eexists.
  - intros. by eexists.
  - intros p m. rewrite Z.eqb_refl. by rewrite orb_true_r.
Qed.

#[local] Instance ref_prcodec : PrCodec := {|
  encode_WorkingReportEvent e :=
    match e with Heartbeat i c t n => [i; c; t; n] | HeartbeatV2 i c t n k l => [i; c; t; n; k; l] end;
  encode_RegistryEvent e := match e with BenchReport t i => [0; t; i] | MasterPubkey k => [1; k] end;
  encode_WorkingInfoUpdateEvent e := [wu_block_number e; timestamp_ms e];
  decode_SystemEvent b :=
    match b with
    | [0; k; 0; c] => Some (WorkerEventWithKey k (Registered c))
    | [0; k; 1; d] => Some (WorkerEventWithKey k (BenchStart d))
    | [0; k; 2; b] => Some (WorkerEventWithKey k (BenchScore b))
    | [0; k; 3; i; iv; ip] => Some (WorkerEventWithKey k (Started i iv ip))
    | [0; k; 4] => Some (WorkerEventWithKey k Stopped)
    | [0; k; 5] => Some (WorkerEventWithKey k EnterUnresponsive)
    | [0; k; 6] => Some (WorkerEventWithKey k ExitUnresponsive)
    | [1; s; o] => Some (HeartbeatChallengeEvent (mkHeartbeatChallenge s o))
    | _ => None
    end;
  decode_GatekeeperEvent b :=
    match b with
    | [0; n; r; l] => Some (NewRandomNumber n r l)
    | [2] => Some _RepairV | [3] => Some _cyruxLaunched | [4] => Some _UnrespFix
    | _ => None
    end;
|}.

#[local] Instance ref_prcodec_spec : Replica.PrCodecSpec ref_prcodec.
Proof. split. by intros []. Qed.

Definition encode_key (k : EncryptedKey) : bytes := ek_ecdh_pubkey k :: encrypted_key k ++ ek_iv k.

#[local] Instance ref_gkcodec : GkCodec := {|
  encode_KeyDistribution e :=
    match e with
    | MasterKeyDistribution d k c iv => 0 :: d :: k :: c ++ iv
    | MasterKeyRotationEvent e => [1; br_rotation_id e; br_sender e]
    | MasterKeyHistory d l => 2 :: d :: concat ((fun x => encode_key (snd x)) <$> l)
    end;
  encode_DispatchKeys e := [0; bd_cluster e];
  encode_ClusterRegistryEvent e := let '(ClusterPubkey c k) := e in [0; c; k];
  encode_GatekeeperRegistryEvent e := let '(RotatedMasterPubkey i k) := e in [0; i; k];
  decode_ClusterEvent b := None;
  encode_rotate_data i keys s := i :: s :: concat ((fun x => fst x :: encode_key (snd x)) <$> map_to_list keys);
|}.

(** The history is its keys; the sealed file is a tag and its content. *)
Definition encode_rotated (k : RotatedMasterKey) : bytes :=
  rotation_id k :: block_height k :: Z.of_nat (length (secret k)) :: secret k.

Fixpoint decode_keys (n : nat) (b : bytes) : option (list RotatedMasterKey * bytes) :=
  match n, b with
  | O, _ => Some ([], b)
  | S n, i :: h :: len :: rest =>
      match decode_keys n (drop (Z.to_nat len) rest) with
      | Some (l, sig) => Some (mkRotatedMasterKey i h (take (Z.to_nat len) rest) :: l, sig)
      | None => None
      end
  | S _, _ => None
  end.

Lemma decode_keys_encode l sig : decode_keys (length l) (concat (encode_rotated <$> l) ++ sig) = Some (l, sig).
Proof.
  induction l as [|[i h k] l IH]; [done|]. cbn [length fmap list_fmap concat encode_rotated decode_keys].
  unfold encode_rotated at 1. simpl. rewrite <- app_assoc, Nat2Z.id, drop_app_length, take_app_length.
  by rewrite IH.
Qed.

#[local] Instance ref_seal : SealLib := {|
  encode_MasterKeyHistory l := concat (encode_rotated <$> l);
  encode_MasterKeySeal s :=
    match s with
    | V1 k sig => 1 :: Z.of_nat (length k) :: k ++ sig
    | V2 l sig => 2 :: Z.of_nat (length l) :: concat (encode_rotated <$> l) ++ sig
    end;
  decode_MasterKeySeal b :=
    match b with
    | 1 :: n :: rest => Some (V1 (take (Z.to_nat n) rest) (drop (Z.to_nat n) rest))
    | 2 :: n :: rest => (fun x => V2 (fst x) (snd x)) <$> decode_keys (Z.to_nat n) rest
    | _ => None
    end;
|}.

#[local] Instance ref_seal_spec : SealSpec ref_seal.
Proof.
  split. intros [k sig|l sig]; simpl; rewrite Nat2Z.id.
  - by rewrite take_app_length, drop_app_length.
  - by rewrite decode_keys_encode.
Qed.

Module PrInstances.
#[export] Existing Instance ref_crypto.
#[export] Existing Instance ref_crypto_spec.
#[export] Existing Instance ref_prcodec.
#[export] Existing Instance ref_prcodec_spec.
#[export] Existing Instance ref_gkcodec.
#[export] Existing Instance ref_seal.
#[export] Existing Instance ref_seal_spec.
End PrInstances.

(** ** A worker and a gatekeeper: a witness *)
Module PrWitness.
Import PrInstances Replica SendQueue.

Abbreviation Er := Empty_set.
Definition wit_block (n : Z) : BlockInfo := mkBlockInfo n (1000 * n).
Definition wit_egress : MessageChannel := mkMessageChannel (Worker 5) (pair_sign 5).
Definition wit_d0 : WorkerSMDelegate := mkWorkerSMDelegate wit_egress 0 0 ∅ Benchmark.initial.
Definition wit_e0 : ComputingEconomics := Economics.new (mkMessageChannel Gatekeeper (pair_sign 7)) ∅.

(** One event at the worker and at the gatekeeper *)
Definition wit_worker (n : Z) (ev : SystemEvent) (s : WorkerState * WorkerSMDelegate) : WorkerState * WorkerSMDelegate :=
  final (E := Er) (WorkerSM.process_event (wit_block n) ev) s.
Definition wit_gk (n : Z) (ev : SystemEvent) (e : ComputingEconomics) : ComputingEconomics :=
  final (E := Er) (Economics.process_system_event (Pallet []) ev (wit_block n)) e.

Lemma wit_event s e sent k n ev fresh :
  run (E := Er) 5 (fst s) (snd s) e sent k -> admissible 5 (fst s) ev ->
  returns (E := Er) (WorkerSM.process_event (wit_block n) ev) s = true ->
  returns (E := Er) (Economics.process_system_event (Pallet []) ev (wit_block n)) e = true ->
  reports (snd (wit_worker n ev s)) = reports (snd s) ++ fresh ->
  run (E := Er) 5 (fst (wit_worker n ev s)) (snd (wit_worker n ev s)) (wit_gk n ev e) (sent ++ fresh) k.
Proof.
  intros Hr Ha Hw Hg Hf. apply returns_final in Hw, Hg. destruct s as [w d].
  eapply (run_event _ w d e sent k [] ev (wit_block n)); [exact Hr|exact Ha| |exact Hf|exact Hg].
  fold (wit_worker n ev (w, d)) in Hw. rewrite Hw. by destruct (wit_worker n ev (w, d)).
Qed.

Definition wit_ev1 : SystemEvent := WorkerEventWithKey 5 (Registered 1).
Definition wit_ev2 : SystemEvent := WorkerEventWithKey 5 (Started 3 (2 ^ 64) 100).
Definition wit_ev3 : SystemEvent := HeartbeatChallengeEvent (mkHeartbeatChallenge 0 (2 ^ 256)).
Definition wit_s0 := (WorkerSM.new 5, wit_d0).
Definition wit_s1 := wit_worker 1 wit_ev1 wit_s0.
Definition wit_s2 := wit_worker 2 wit_ev2 wit_s1.
Definition wit_s3 := wit_worker 3 wit_ev3 wit_s2.
Definition wit_e3 := wit_gk 3 wit_ev3 (wit_gk 2 wit_ev2 (wit_gk 1 wit_ev1 wit_e0)).
Definition wit_hb : WorkingReportEvent := HeartbeatV2 3 3 3000 0 0 0.

Lemma wit_replica_run : run (E := Er) 5 (fst wit_s3) (snd wit_s3) wit_e3 [wit_hb] 0.
Proof.
  apply (wit_event wit_s2 _ [] 0 3 wit_ev3 [wit_hb]); [|done|vm_compute; reflexivity..].
  apply (wit_event wit_s1 _ [] 0 2 wit_ev2 []); [|by intros _; vm_compute|vm_compute; reflexivity..].
  apply (wit_event wit_s0 _ [] 0 1 wit_ev1 []); [|done|vm_compute; reflexivity..].
  by apply run_init.
Qed.

Lemma heartbeat_always_expected_witness :
  exists i, workers wit_e3 !! 5 = Some i /\ Economics.expected i 3 = true.
Proof.
  destruct (heartbeat_always_expected (E := Er) 5 (fst wit_s3) (snd wit_s3) wit_e3 [wit_hb] 0 wit_hb)
    as (i & Hi & He & _); [exact wit_replica_run|reflexivity|].
  exists i. split; [exact Hi|exact He].
Defined.

End PrWitness.
