(* ===== verification/KeyProps.v ===== *)
(** * Keys: properties

    Secrets that one worker encrypts to another are recovered there, the sealed
    master key file gives back what was sealed, and a gatekeeper's shared master
    key arrives. *)
From stdpp Require Import prelude gmap list strings.
From Stdlib Require Import ZArith Lia.
From S2P Require Import Prelude Types Externals BalanceConvert Reference Mq Registry SendQueue Egress Dispatcher Benchmark WorkerSM Crypto Tokenomic Economics GatekeeperPr System Replica PrReference.

Module KeyProps.

Section Keys.
Context {prof : Profile} {cfg : Config} {codec : Codec} {P : PrCrypto} {spec : CryptoSpec P}.

Lemma ensure_true {S E} b (e : E) (s : S) : b = true -> ensure b e s = Ok tt s.
Proof. by intros ->. Qed.

Lemma derive_ecdh_ok p : exists k, forall S (s : S), Crypto.derive_ecdh_key p s = Ok k s.
Proof.
  destruct (keypair_of_pair p) as [k Hk]. exists k. intros S s.
  unfold Crypto.derive_ecdh_key, Ecdh.from_secret. by rewrite Hk.
Qed.

Lemma derive_pair_ok p info : exists k, forall S (s : S), Crypto.derive_sr25519_pair p info s = Ok k s.
Proof.
  destruct (hkdf_total Crypto.KDF_SALT (pair_secret p) info) as [o Ho].
  eexists. intros S s. unfold Crypto.derive_sr25519_pair, SEED_BYTES. rewrite Ho. done.
Qed.

(** What is encrypted to a key pair is decrypted with it. *)
Lemma key_share_ok my_key info kp (sec iv : bytes) :
  length iv = IV_BYTES -> length sec = SECRET_KEY_LENGTH ->
  exists pk c,
    (forall S (s : S), Crypto.encrypt_secret_to my_key info (keypair_public kp) sec iv s = Ok (pk, c) s) /\
    (forall S (s : S), Crypto.decrypt_secret_from kp pk c iv s = Ok sec s).
Proof.
  intros Hiv Hsec. destruct (derive_pair_ok my_key info) as [dk Hdk]. destruct (derive_ecdh_ok dk) as [mk Hmk].
  destruct (scalar_mul_total mk kp) as (z & Hz & Hkey). destruct (aes_seal_total z iv sec Hkey) as [c Hc].
  exists (keypair_public mk), c. unfold IV_BYTES, SECRET_KEY_LENGTH in *. split; intros S s.
  - unfold Crypto.encrypt_secret_to, mbind. rewrite Hdk, Hmk. unfold Ecdh.agree. rewrite Hz. simpl.
    unfold Aead.encrypt, Aead.load_key, mbind. rewrite ensure_true by done. simpl. by rewrite Hc.
  - unfold Crypto.decrypt_secret_from, mbind, Ecdh.agree. rewrite scalar_mul_comm, Hz. simpl.
    unfold Aead.decrypt, Aead.load_key, IV_BYTES, mbind. rewrite Hiv. simpl.
    rewrite ensure_true by done. rewrite take_ge by lia. simpl.
    rewrite (aes_open_seal _ _ _ _ Hc). simpl. unfold SECRET_KEY_LENGTH. by rewrite Hsec.
Qed.

(** A nonce shorter than 12 bytes is not padded: it stops the process. *)
Lemma generate_iv_short {S} nonce (s : S) :
  (length nonce < IV_BYTES)%nat -> Aead.generate_iv nonce s = Panic.
Proof.
  intros H. unfold Aead.generate_iv. rewrite length_take, Nat.min_l, Nat.min_l by lia.
  by rewrite (proj2 (Nat.eqb_neq _ _)) by lia.
Qed.

End Keys.

(** ** The sealed master key *)
Section Sealed.
Context {cfg : Config} {codec : Codec} {P : PrCrypto} {spec : CryptoSpec P} {L : SealLib} {ls : SealSpec L} {E : Type}.

Lemma seal_unseal history key f :
  MasterKey.io_ok f = true ->
  exists f', (forall E, MasterKey.seal (E := E) history key f = Ok tt f') /\ MasterKey.io_ok f' = true /\
    (forall E, MasterKey.try_unseal (E := E) key f' = Ok history f').
Proof.
  intros Hio. eexists. split_and!.
  - intros E'. unfold MasterKey.seal, MasterKey.seal_data, mbind. cbn. by rewrite Hio.
  - done.
  - intros E'. unfold MasterKey.try_unseal, MasterKey.unseal_data, mbind. cbn. rewrite Hio. simpl.
    rewrite decode_encode_MasterKeySeal. simpl. by rewrite pair_sign_verify.
Qed.

(** What is unsealed was signed with the identity key. *)
Lemma unseal_signed key f history f' :
  MasterKey.try_unseal (E := E) key f = Ok history f' -> history <> [] ->
  exists sig, sr25519_verify sig (wrap_content_to_sign (encode_MasterKeyHistory history) MasterKeyStore)
      (pair_public key) = true \/
    (exists k, history = [k] /\ rotation_id k = 0 /\ block_height k = 0 /\
       sr25519_verify sig (secret k) (pair_public key) = true).
Proof.
  intros H Hne. unfold MasterKey.try_unseal, MasterKey.unseal_data, MasterKey.assert_true, mbind in H. cbn in H.
  destruct (MasterKey.io_ok f); [|done]. cbn in H. destruct (MasterKey.sealed f) as [data|]; [|by injection H as <- <-].
  destruct (decode_MasterKeySeal data) as [[k sig|l sig]|]; cbn in H; [| |done].
  - destruct (sr25519_verify _ _ _) eqn:Hv; [|done]. injection H as <- <-. exists sig. right. by eexists.
  - destruct (sr25519_verify _ _ _) eqn:Hv; [|done]. injection H as <- <-. exists sig. by left.
Qed.

End Sealed.

(** ** Sharing the master key with a new gatekeeper *)
Section Sharing.
Context {prof : Profile} {cfg : Config} {codec : Codec} {bs : BytesSpec codec}.
Context {prcodec : PrCodec} {gkcodec : GkCodec} {P : PrCrypto} {spec : CryptoSpec P}.
Context {L : SealLib} {ls : SealSpec L} {F : FixedLib} {E : Type}.

(** An encrypted key that the owner of [kp] decrypts to [sec] *)
Definition opens (kp : Keypair) (sec : bytes) (k : EncryptedKey) : Prop :=
  forall S (s : S), Crypto.decrypt_secret_from kp (ek_ecdh_pubkey k) (encrypted_key k) (ek_iv k) s = Ok sec s.

(** The gatekeeper has used nonces and nothing else. *)
Definition nonces_used (g g' : GatekeeperState) : Prop := exists n, g' = Gk.set_iv_seq n g.

Lemma nonces_trans g1 g2 g3 : nonces_used g1 g2 -> nonces_used g2 g3 -> nonces_used g1 g3.
Proof. intros [n ->] [m ->]. by exists m. Qed.

Lemma expect_crypto_ok {S A} (m : M S CryptoError A) (a : A) s Q R :
  m s = Ok a s -> Q a s -> wp True (Gk.expect_crypto (E := E) m) Q R s.
Proof. intros H HQ. unfold wp, Gk.expect_crypto. by rewrite H. Qed.

Lemma generate_iv_length bn g :
  wp True (Gk.generate_iv (E := E) bn) (fun iv g' => length iv = IV_BYTES /\ nonces_used g g') (fun _ _ => False) g.
Proof.
  unfold Gk.generate_iv. do 3 wp_step. cbv beta.
  destruct (derive_pair_ok (master_key g) [bytes_of_string "iv_generator"]) as [dk Hdk].
  eapply expect_crypto_ok; [apply Hdk|]. wp_step. apply wp_arith_any; [lia|done|]. intros n _. do 3 wp_step.
  split; [|by exists n]. rewrite length_take, h256_bytes_length. done.
Qed.

Lemma encrypt_key_to_opens info kp sec bn g :
  length sec = SECRET_KEY_LENGTH ->
  wp True (Gk.encrypt_key_to (E := E) info (keypair_public kp) sec bn)
    (fun k g' => nonces_used g g' /\ opens kp sec k) (fun _ _ => False) g.
Proof.
  intros Hsec. unfold Gk.encrypt_key_to. wp_step. eapply wp_mono; [apply generate_iv_length| |done].
  intros iv g' [Hiv Hg]. do 3 wp_step. cbv beta.
  destruct (key_share_ok (master_key g') info kp sec iv Hiv Hsec) as (pk & c & He & Hd).
  eapply expect_crypto_ok; [apply He|]. apply wp_ret. by split.
Qed.

Lemma encrypt_history_opens info kp bn l : Forall (fun k => length (secret k) = SECRET_KEY_LENGTH) l ->
  forall acc g,
  wp True (for_fold l acc (fun acc key =>
      let* k := Gk.encrypt_key_to (E := E) info (keypair_public kp) (secret key) bn in
      mret (acc ++ [(rotation_id key, block_height key, k)])))
    (fun acc' g' => nonces_used g g' /\ exists new, acc' = acc ++ new /\
       Forall2 (fun key x => fst x = (rotation_id key, block_height key) /\ opens kp (secret key) (snd x)) l new)
    (fun _ _ => False) g.
Proof.
  induction 1 as [|key l Hk Hl IH]; intros acc g; simpl.
  - apply wp_ret. split; [by exists (iv_seq g); destruct g|]. exists []. by rewrite app_nil_r.
  - do 2 wp_step. eapply wp_mono; [by apply encrypt_key_to_opens| |done]. intros k g1 [Hg1 Ho].
    wp_step. cbv beta. eapply wp_mono; [apply IH| |done]. intros acc' g2 (Hg2 & new & -> & Hf).
    split; [by eapply nonces_trans|]. eexists. rewrite <- app_assoc. split; [done|]. by constructor.
Qed.

(** [payload] is appended to what the gatekeeper sends. *)
Definition pushed (payload : bytes) (topic : Topic) (g g' : GatekeeperState) : Prop :=
  exists seq, ch_messages (SendQueue.entry (eco_queue (computing_economics g')) (mc_sender (gk_egress g)))
    = ch_messages (SendQueue.entry (eco_queue (computing_economics g)) (mc_sender (gk_egress g)))
      ++ [SendQueue.sign (mc_signer (gk_egress g)) (mkMessage (mc_sender (gk_egress g)) topic payload) seq].

Definition talks (g : GatekeeperState) : Prop :=
  ch_dummy (SendQueue.entry (eco_queue (computing_economics g)) (mc_sender (gk_egress g))) = false.

Lemma gk_push_pushed payload topic g : talks g ->
  wp True (Gk.push (E := E) payload topic) (fun _ => pushed payload topic g) (fun _ _ => False) g.
Proof.
  intros Ht. unfold Gk.push. do 2 wp_step. cbv beta.
  unfold wp, Gk.on_queue, SendQueue.push_data, SendQueue.enqueue_message, mbind, gets, modify.
  destruct (arith 64 _ (eco_queue (computing_economics g))) as [n q|e q| |] eqn:Ha; [|by unfold arith in Ha; repeat case_match|done..].
  pose proof (keeps_ok id _ _ _ _ (keeps_arith id 64 _) Ha) as Hq. unfold id in Hq. subst q.
  unfold talks in Ht. eexists. simpl. rewrite Egress.entry_insert, Ht. done.
Qed.

(** The keys that a new gatekeeper ends up with *)
Definition shared_history (g : GatekeeperState) : list RotatedMasterKey :=
  if Nat.ltb 1 (length (master_key_history g)) then master_key_history g
  else [mkRotatedMasterKey 0 0 (pair_secret (master_key g))].

(** Every secret in the history is one of a key. *)
Definition genuine (k : RotatedMasterKey) : Prop := exists p, secret k = pair_secret p.

Definition key_event (dest : WorkerPublicKey) (kp : Keypair) (h : list RotatedMasterKey) (ev : KeyDistribution) : Prop :=
  match ev with
  | MasterKeyDistribution d pk c iv => d = dest /\ exists k, h = [k] /\ rotation_id k = 0 /\ block_height k = 0 /\
      opens kp (secret k) (mkEncryptedKey pk c iv)
  | MasterKeyHistory d l => d = dest /\
      Forall2 (fun key x => fst x = (rotation_id key, block_height key) /\ opens kp (secret key) (snd x)) h l
  | MasterKeyRotationEvent _ => False
  end.

Lemma share_master_key_event dest kp bn g : talks g -> Forall genuine (master_key_history g) ->
  wp True (Gk.share_master_key (E := E) dest (keypair_public kp) bn)
    (fun _ g' => exists ev, key_event dest kp (shared_history g) ev /\
       pushed (encode_KeyDistribution ev) KeyDistribution_topic g g') (fun _ _ => False) g.
Proof.
  intros Ht Hg. unfold Gk.share_master_key, shared_history. do 2 wp_step. cbv beta.
  assert (forall k, genuine k -> length (secret k) = SECRET_KEY_LENGTH) as Hlen
    by (intros k [p ->]; apply pair_secret_length).
  destruct (Nat.ltb 1 _).
  - unfold Gk.share_master_key_history. do 3 wp_step. cbv beta.
    eapply wp_mono; [apply encrypt_history_opens; by eapply Forall_impl| |done].
    intros l g1 ([n ->] & new & -> & Hf). eapply wp_mono; [by apply gk_push_pushed| |done].
    intros [] g2 Hp. eexists. split; [|exact Hp]. by split.
  - unfold Gk.share_latest_master_key. do 3 wp_step. cbv beta.
    eapply wp_mono; [apply encrypt_key_to_opens, pair_secret_length| |done].
    intros k g1 [[n ->] Ho]. eapply wp_mono; [by apply gk_push_pushed| |done].
    intros [] g2 Hp. eexists. split; [|exact Hp]. split; [done|]. eexists. split_and!; [done..|]. by destruct k.
Qed.

(** ** The receiving worker *)
Lemma decrypt_key_from_ok kp k p s :
  Crypto.derive_ecdh_key (identity_key s) s = Ok kp s -> opens kp (pair_secret p) k ->
  Sys.decrypt_key_from (ek_ecdh_pubkey k) (encrypted_key k) (ek_iv k) s = Ok p s.
Proof.
  intros Hkp Ho. unfold Sys.decrypt_key_from, mbind, Gk.expect_crypto. cbn. rewrite Hkp, (Ho _ s).
  unfold Crypto.restore_from_secret_key. by rewrite pair_restore.
Qed.

Lemma set_master_key_history_seals h s :
  gatekeeper s = None -> MasterKey.io_ok (files s) = true ->
  exists s', Sys.set_master_key_history h s = Err Terminated s' /\
    MasterKey.try_unseal (E := E) (identity_key s) (files s') = Ok h (files s').
Proof.
  intros Hg Hio. destruct (seal_unseal h (identity_key s) (files s) Hio) as (f' & Hs & Hio' & Hu).
  exists (Sys.set_files f' s). unfold Sys.set_master_key_history, mbind. cbn. rewrite Hg.
  unfold Sys.on_files. by rewrite Hs.
Qed.

Lemma decrypt_history_ok kp h l : Forall genuine h -> forall s acc,
  Crypto.derive_ecdh_key (identity_key s) s = Ok kp s ->
  Forall2 (fun key x => fst x = (rotation_id key, block_height key) /\ opens kp (secret key) (snd x)) h l ->
  for_fold l acc (fun acc x =>
    let '(id, height, key) := x in
    let* key_pair := Sys.decrypt_key_from (ek_ecdh_pubkey key) (encrypted_key key) (ek_iv key) in
    mret (acc ++ [mkRotatedMasterKey id height (Crypto.dump_secret_key key_pair)])) s = Ok (acc ++ h) s.
Proof.
  intros Hgen s acc Hkp Hf. revert acc Hgen. induction Hf as [|key [[id height] k] h l [Hid Ho] Hf IH]; intros acc Hgen.
  - simpl. by rewrite app_nil_r.
  - apply Forall_cons in Hgen as [[p Hp] Hgen]. simpl in Hid. injection Hid as -> ->.
    simpl in Ho. rewrite Hp in Ho. cbn [for_fold]. unfold mbind at 1 2.
    rewrite (decrypt_key_from_ok kp k p s Hkp Ho). cbn [mret].
    rewrite IH by done. rewrite <- app_assoc. do 2 f_equal. simpl. unfold Crypto.dump_secret_key.
    rewrite <- Hp. by destruct key.
Qed.

Lemma receive_key_event chain kp h ev s :
  Crypto.derive_ecdh_key (identity_key s) s = Ok kp s -> gatekeeper s = None ->
  MasterKey.io_ok (files s) = true -> Forall genuine h -> key_event (Sys.my_pubkey s) kp h ev ->
  exists s', Sys.process_key_distribution_event chain Gatekeeper ev s = Err Terminated s' /\
    MasterKey.try_unseal (E := E) (identity_key s) (files s') = Ok h (files s').
Proof.
  intros Hkp Hg Hio Hgen Hev. destruct (set_master_key_history_seals h s Hg Hio) as (s' & Hs & Hu).
  exists s'. split; [|done]. unfold Sys.process_key_distribution_event, Sys.log_error.
  destruct ev as [d pk c iv|?|d l]; [|done|].
  - destruct Hev as (-> & k & -> & Hid & Hh & Ho). apply Forall_singleton in Hgen as [p Hp]. rewrite Hp in Ho.
    unfold Sys.process_master_key_distribution. cbn [is_gatekeeper negb]. unfold mbind, gets. rewrite Z.eqb_refl.
    pose proof (decrypt_key_from_ok kp _ p s Hkp Ho) as Hd. simpl in Hd. rewrite Hd.
    unfold Crypto.dump_secret_key. rewrite <- Hp. destruct k. simpl in *. subst. by rewrite Hs.
  - destruct Hev as [-> Hf]. unfold Sys.process_master_key_history. cbn [is_gatekeeper negb]. unfold mbind at 1 2, gets.
    rewrite Z.eqb_refl, (decrypt_history_ok kp h l Hgen s [] Hkp Hf). simpl. by rewrite Hs.
Qed.


End Sharing.

(** ** Witness *)
Import RefInstances PrInstances.

Definition wit_channel : MessageChannel := mkMessageChannel Gatekeeper (pair_sign 7).
Definition wit_g : GatekeeperState :=
  mkGatekeeper _ 9 true true [mkRotatedMasterKey 0 0 (secret_of 7); mkRotatedMasterKey 1 10 (secret_of 9)] wit_channel 0 0
    (Economics.new wit_channel (<[Gatekeeper := mkChannel 0 [] false]> ∅)).
Definition wit_worker : SystemState := Sys.new 5 (MasterKey.mkFiles true None).
Definition wit_g' : GatekeeperState := final (E := Empty_set) (Gk.share_master_key 5 5 20) wit_g.

Lemma wit_shares : Gk.share_master_key (E := Empty_set) (Sys.my_pubkey wit_worker) (keypair_public 5) 20 wit_g = Ok tt wit_g'.
Proof. unfold wit_g'. apply returns_final. vm_compute. reflexivity. Qed.


End KeyProps.
