(* ===== verification/GkProps.v ===== *)
(** * The gatekeeper: properties

    What messages can stop a gatekeeper or a worker, and with which key a
    gatekeeper's reports are signed after a rotation of the master key. *)
From stdpp Require Import prelude gmap list strings sorting.
From Stdlib Require Import ZArith Lia.
From S2P Require Import Prelude Types Externals BalanceConvert Reference Mq MsgRouting RoutingProps.
From S2P Require Import Registry SendQueue Egress Dispatcher DispatcherProps Benchmark WorkerSM Crypto Tokenomic Economics GatekeeperPr System Replica PrReference.

Module GkProps.
Import DispatcherProps.

(** ** Messages that stop a reading loop *)
Section Stop.
Context {prof : Profile} {E C : Type}.

Lemma for_each_app {S A} (l1 l2 : list A) (f : A -> M S E unit) s s' :
  for_each l1 f s = Ok tt s' -> for_each (l1 ++ l2) f s = for_each l2 f s'.
Proof.
  revert s. induction l1 as [|x l1 IH]; intros s; simpl; [by intros [= ->]|].
  unfold mbind. destruct (f x s) as [[] s1|e s1| |]; try done. apply IH.
Qed.

Lemma tagged_middle pre m post :
  exists post', tagged (pre ++ m :: post) = tagged pre ++ (Z.of_nat (length pre), m) :: post'.
Proof.
  unfold tagged. rewrite imap_app. simpl. rewrite Nat.add_0_r. by eexists.
Qed.

Lemma deliver_app ts mqs l1 l2 : deliver ts mqs (l1 ++ l2) = deliver ts mqs l1 ++ deliver ts mqs l2.
Proof. unfold deliver. apply bind_app. Qed.

(** A message for the first arm on which that arm panics stops the loop, once
    what was dispatched before it has been handled. *)
Lemma loop_stops ts mqs i (arm : nat -> (Z * Message) + ReceiveError -> M C E unit) pre m post c c1 fuel :
  NoDup mqs -> Forall (fun j => (j < length ts)%nat) mqs -> head mqs = Some i ->
  ts !! i = Some (destination m) ->
  Z.of_nat (length (pre ++ m :: post)) < 2 ^ 64 -> (length mqs * length (pre ++ m :: post) < fuel)%nat ->
  for_each (deliver ts mqs (tagged pre)) (fun x => arm (fst x) (inl (snd x))) c = Ok tt c1 ->
  (forall n, arm 0%nat (inl (n, m)) c1 = Panic) ->
  exists b0 b1, subscribe_all (E := E) ts empty_bus = Ok tt b0 /\ dispatch_all (E := E) (pre ++ m :: post) b0 = Ok tt b1 /\
    Dispatcher.select_loop fuel mqs arm (b1, c) = Panic.
Proof.
  intros Hn Hf Hh Hi Hb Hfuel Hpre Harm.
  destruct (loop_after_dispatch ts (pre ++ m :: post) mqs arm c fuel Hn Hf Hb Hfuel) as (b0 & b1 & H0 & H1 & Hl).
  exists b0, b1. split_and!; [done..|].
  destruct (tagged_middle pre m post) as [post' Ht].
  rewrite Ht, deliver_app, (for_each_app _ _ _ _ _ Hpre) in Hl. clear Ht.
  destruct mqs as [|i' mqs]; [done|]. injection Hh as ->.
  assert (exists ks, arms ts (i :: mqs) (destination m) = 0%nat :: ks) as [ks Hk].
  { unfold arms. simpl. rewrite filter_cons_True by done. by eexists. }
  unfold deliver in Hl. simpl in Hl. rewrite Hk in Hl. simpl in Hl. unfold mbind in Hl. rewrite Harm in Hl.
  by destruct (Dispatcher.select_loop _ _ _ _).
Qed.

End Stop.

(** ** The gatekeeper's loops *)
Section Gatekeeper.
Context {prof : Profile} {cfg : Config} {codec : Codec} {prcodec : PrCodec} {gkcodec : GkCodec}.
Context {P : PrCrypto} {F : FixedLib} {pal : Pallets} {E : Type}.

(** The events kept only for the numbering of the type *)
Definition retired (ev : GatekeeperEvent) : bool :=
  match ev with _RepairV | _cyruxLaunched | _UnrespFix => true | _ => false end.

(** Receivers of the topics a gatekeeper reads *)
Record Wired (ts : list Topic) (gk_rx cl_rx : Receiver) : Prop := {
  wired_gk : ts !! rx_chan gk_rx = Some GatekeeperEvent_topic;
  wired_cl : ts !! rx_chan cl_rx = Some ClusterEvent_topic;
}.

(** What the gatekeeper does with the messages of its own loop, in order *)
Definition handle (ts : list Topic) (gk_rx cl_rx : Receiver) (block : BlockInfo) (ms : list Message) :
    M GatekeeperState E unit :=
  for_each (deliver ts [rx_chan gk_rx; rx_chan cl_rx] (tagged ms)) (fun x => Gk.arm block (fst x) (inl (snd x))).

(** A message for the gatekeepers that the first arm panics on stops them. *)
Lemma gatekeeper_stops ts gk_rx cl_rx r1 r2 r3 block pre m post g g1 fuel :
  Wired ts gk_rx cl_rx -> master_pubkey_on_chain g = true -> destination m = GatekeeperEvent_topic ->
  Z.of_nat (length (pre ++ m :: post)) < 2 ^ 64 -> (2 * length (pre ++ m :: post) < fuel)%nat ->
  handle ts gk_rx cl_rx block pre g = Ok tt g1 ->
  (forall n, Gk.arm (E := E) block 0 (inl (n, m)) g1 = Panic) ->
  exists b0 b1, subscribe_all (E := E) ts empty_bus = Ok tt b0 /\ dispatch_all (E := E) (pre ++ m :: post) b0 = Ok tt b1 /\
    Gk.process_messages (E := E) fuel gk_rx cl_rx r1 r2 r3 block (b1, g) = Panic.
Proof.
  intros [Hgk Hcl] Hon Hm Hb Hfuel Hpre Harm.
  destruct (loop_stops (E := E) ts [rx_chan gk_rx; rx_chan cl_rx] (rx_chan gk_rx) (Gk.arm block) pre m post g g1 fuel)
    as (b0 & b1 & H0 & H1 & Hl); try done.
  - apply NoDup_cons. split; [|apply NoDup_singleton]. rewrite list_elem_of_singleton. intros Heq.
    rewrite Heq, Hcl in Hgk. discriminate.
  - repeat constructor; by eapply lookup_lt_Some.
  - by rewrite Hm.
  - exists b0, b1. split_and!; [done..|]. unfold Gk.process_messages, mbind. cbn [gets snd]. rewrite Hon. cbn [negb].
    by rewrite Hl.
Qed.

(** Any account can stop every gatekeeper.  A message that anyone pushes to
    the gatekeepers' topic is put in the outbound queue of the chain; if its
    payload is the encoding of one of the three events that are no longer used,
    a launched gatekeeper that reads it panics, whoever the sender is and
    whatever comes before or after it, unless it stopped even earlier. *)
Theorem account_stops_gatekeeper who payload ev ts gk_rx cl_rx r1 r2 r3 block pre post g g1 fuel :
  decode_GatekeeperEvent payload = Some ev -> retired ev = true ->
  Wired ts gk_rx cl_rx -> master_pubkey_on_chain g = true ->
  let m := mkMessage (AccountIdOrigin (into_h256 who)) GatekeeperEvent_topic payload in
  Z.of_nat (length (pre ++ m :: post)) < 2 ^ 64 -> (2 * length (pre ++ m :: post) < fuel)%nat ->
  handle ts gk_rx cl_rx block pre g = Ok tt g1 ->
  (forall s, exists s', Mq.push_message (notify := MsgRouting.MessageRouteConfig) (Signed who) GatekeeperEvent_topic payload s
      = Ok tt s' /\ m ∈ MqT.OutboundMessages (mq s')) /\
  exists b0 b1, subscribe_all (E := E) ts empty_bus = Ok tt b0 /\ dispatch_all (E := E) (pre ++ m :: post) b0 = Ok tt b1 /\
    Gk.process_messages (E := E) fuel gk_rx cl_rx r1 r2 r3 block (b1, g) = Panic.
Proof.
  intros Hd Hr Hw Hon m Hb Hfuel Hpre. split.
  - intros s. eexists. unfold Mq.push_message, ensure_signed, Mq.dispatch_message, mbind, mret, catch.
    pose proof (RoutingProps.route_GatekeeperEvent 1 m s eq_refl) as Hq. fold MsgRouting.MessageRouteConfig in Hq.
    fold m. rewrite Hq. split; [reflexivity|]. simpl.
    apply elem_of_app. right. by left.
  - apply (gatekeeper_stops ts gk_rx cl_rx r1 r2 r3 block pre m post g g1 fuel); try done.
    intros n. simpl. rewrite Hd. by destruct ev.
Qed.

Lemma bind_ok {S X A B} (m : M S X A) (k : A -> M S X B) s a s' : m s = Ok a s' -> mbind m k s = k a s'.
Proof. intros H. unfold mbind. by rewrite H. Qed.

(** The chain accepts the first message of any key, registered or not. *)
Lemma first_message_accepted who k payload sig s :
  let m := mkMessage (Worker k) GatekeeperEvent_topic payload in
  length sig = 64%nat -> sr25519_signature_ok sig = true -> sr25519_verify sig (encode_to_be_signed m 0) k = true ->
  Mq.expected_seq (Worker k) s = 0 ->
  exists s', Mq.sync_offchain_message (notify := MsgRouting.MessageRouteConfig) (Signed who) (mkSignedMessage m 0 sig) s
      = Ok Mq.PaysYes s' /\ m ∈ MqT.OutboundMessages (mq s').
Proof.
  intros m Hl Hok Hv Hs. assert (Hc : Mq.check_message (mkSignedMessage m 0 sig) s = Ok tt s).
  { unfold Mq.check_message. do 2 (erewrite bind_ok by reflexivity). unfold Mq.verify_signature. cbn [signature message sequence].
    rewrite Hl. do 1 (erewrite bind_ok by reflexivity). rewrite Hok. erewrite bind_ok by reflexivity. by rewrite Hv. }
  eexists. unfold Mq.sync_offchain_message. do 4 (erewrite bind_ok by reflexivity).
  cbn [message sender sequence m]. rewrite Hs. erewrite bind_ok by reflexivity.
  rewrite (bind_ok _ _ _ _ _ Hc), (bind_ok _ _ _ _ _ (arith_fits 64 (0 + 1) s ltac:(lia))).
  erewrite bind_ok by reflexivity. split; [|].
  - unfold Mq.dispatch_message, mbind, catch. cbn [message].
    match goal with |- context [on_message_received m ?s1] =>
      pose proof (RoutingProps.route_GatekeeperEvent 1 m s1 eq_refl) as Hq end.
    fold MsgRouting.MessageRouteConfig in Hq. rewrite Hq. reflexivity.
  - simpl. apply elem_of_app. right. by left.
Qed.

(** Any key can stop every gatekeeper, without being registered.  A message
    of a fresh key, with its own signature, is accepted by the chain whatever the
    registry says; pRuntime takes messages of workers for well-formed, and a
    launched gatekeeper panics on one whose payload it cannot decode. *)
Theorem unregistered_key_stops_gatekeeper who k payload sig ts gk_rx cl_rx r1 r2 r3 block pre post g g1 fuel :
  let m := mkMessage (Worker k) GatekeeperEvent_topic payload in
  decode_GatekeeperEvent payload = None ->
  length sig = 64%nat -> sr25519_signature_ok sig = true -> sr25519_verify sig (encode_to_be_signed m 0) k = true ->
  Wired ts gk_rx cl_rx -> master_pubkey_on_chain g = true ->
  Z.of_nat (length (pre ++ m :: post)) < 2 ^ 64 -> (2 * length (pre ++ m :: post) < fuel)%nat ->
  handle ts gk_rx cl_rx block pre g = Ok tt g1 ->
  (forall s, Mq.expected_seq (Worker k) s = 0 ->
     exists s', Mq.sync_offchain_message (notify := MsgRouting.MessageRouteConfig) (Signed who) (mkSignedMessage m 0 sig) s
       = Ok Mq.PaysYes s' /\ m ∈ MqT.OutboundMessages (mq s')) /\
  exists b0 b1, subscribe_all (E := E) ts empty_bus = Ok tt b0 /\ dispatch_all (E := E) (pre ++ m :: post) b0 = Ok tt b1 /\
    Gk.process_messages (E := E) fuel gk_rx cl_rx r1 r2 r3 block (b1, g) = Panic.
Proof.
  intros m Hd Hl Hok Hv Hw Hon Hb Hfuel Hpre. split.
  - intros s Hs. by apply first_message_accepted.
  - apply (gatekeeper_stops ts gk_rx cl_rx r1 r2 r3 block pre m post g g1 fuel); try done.
    intros n. simpl. by rewrite Hd.
Qed.

(** ** The signer of the reports *)
Definition eco_channel (g : GatekeeperState) : MessageChannel := eco_egress (computing_economics g).

Lemma keeps_expect_crypto {S T A} (f : S -> T) (m : M S CryptoError A) :
  keeps f m -> keeps f (Gk.expect_crypto (E := E) m).
Proof. intros H s. specialize (H s). unfold wp, Gk.expect_crypto in *. by destruct (m s). Qed.

Lemma keeps_derive {S T} (f : S -> T) k info : keeps f (Crypto.derive_sr25519_pair k info).
Proof. unfold Crypto.derive_sr25519_pair. solve_keeps. Qed.

Lemma keeps_encrypt {S T} (f : S -> T) k info pk sec iv : keeps f (Crypto.encrypt_secret_to k info pk sec iv).
Proof.
  pose proof (fun k info => keeps_derive f k info).
  unfold Crypto.encrypt_secret_to, Crypto.derive_ecdh_key, Ecdh.from_secret, Ecdh.agree, Aead.encrypt, Aead.load_key.
  solve_keeps.
Qed.

Lemma keeps_restore {S T} (f : S -> T) sec : keeps f (Crypto.restore_from_secret_key sec).
Proof. unfold Crypto.restore_from_secret_key. solve_keeps. Qed.

Lemma keeps_on_queue m : keeps eco_channel (Gk.on_queue (E := E) m).
Proof. intros g. unfold wp, Gk.on_queue. by destruct (m _). Qed.

Lemma keeps_push payload topic : keeps eco_channel (Gk.push (E := E) payload topic).
Proof. unfold Gk.push. apply keeps_bind; [apply keeps_gets|intros g]. apply keeps_on_queue. Qed.

Lemma keeps_on_economics m : keeps eco_egress m -> keeps eco_channel (Gk.on_economics (E := E) m).
Proof.
  intros Hm g. specialize (Hm (computing_economics g)). unfold wp, Gk.on_economics in *.
  by destruct (m (computing_economics g)).
Qed.

End Gatekeeper.
#[export] Hint Resolve keeps_expect_crypto keeps_derive keeps_encrypt keeps_restore keeps_on_queue keeps_push : keeps.

Section Signer.
Context {prof : Profile} {cfg : Config} {codec : Codec} {prcodec : PrCodec} {gkcodec : GkCodec}.
Context {P : PrCrypto} {F : FixedLib} {E : Type}.

Lemma keeps_replay m w : keeps eco_egress (Economics.replay (E := E) m w).
Proof. intros e. unfold wp, Economics.replay. by destruct (m _) as [? []|? []| |]. Qed.

Lemma keeps_on_tokenomic {A} (m : M TokenomicInfo E A) w : keeps eco_egress (Economics.on_tokenomic m w).
Proof. intros e. unfold wp, Economics.on_tokenomic. by destruct (m _). Qed.

Lemma keeps_egress_push p t : keeps eco_egress (Economics.egress_push (E := E) p t).
Proof. intros e. unfold wp, Economics.egress_push. by destruct (SendQueue.push_data _ _ _ _). Qed.

Lemma keeps_ordmap f : (forall k w, keeps eco_egress (f k w)) ->
  keeps eco_egress (Economics.ordmap_for_each_mut (E := E) f).
Proof. intros Hf. unfold Economics.ordmap_for_each_mut, Economics.get_worker. solve_keeps. Qed.

#[local] Hint Resolve keeps_replay keeps_on_tokenomic keeps_egress_push : keeps.
#[local] Hint Unfold Economics.put_worker Economics.get_worker : keeps.

Lemma keeps_will block : keeps eco_egress (Economics.will_process_block (E := E) block).
Proof.
  unfold Economics.will_process_block, Economics.sum_share, Tokenomic.share, Tokenomic.square.
  repeat (keeps_step || apply keeps_ordmap). unfold Economics.put_worker. solve_keeps.
Qed.

Lemma keeps_did block : keeps eco_egress (Economics.did_process_block (E := E) block).
Proof.
  unfold Economics.did_process_block. repeat (apply keeps_ordmap || keeps_step).
  unfold Economics.finish_worker, Economics.judge_worker, Economics.charge_worker, Economics.put_worker. solve_keeps.
Qed.

Lemma keeps_system_event origin event block : keeps eco_egress (Economics.process_system_event (E := E) origin event block).
Proof.
  unfold Economics.process_system_event, Economics.get_worker, Economics.put_worker.
  repeat (apply keeps_ordmap || keeps_step).
  all: apply keeps_modify; intros e; by destruct (workers e !! _).
Qed.

Lemma keeps_computing_report origin event block :
  keeps eco_egress (Economics.process_computing_report (E := E) origin event block).
Proof.
  unfold Economics.process_computing_report, Economics.settle_heartbeat, Economics.get_worker, Economics.put_worker.
  solve_keeps.
Qed.

Lemma keeps_eco_gatekeeper_event origin event :
  keeps eco_egress (Economics.process_gatekeeper_event (E := E) origin event).
Proof.
  unfold Economics.process_gatekeeper_event, Economics.update_tokenomic_parameters, Tokenomic.params_from. solve_keeps.
Qed.

(** ** Runs of a gatekeeper *)
Inductive op :=
| OpRegister | OpUnregister
| OpUploaded (k : MasterPublicKey)
| OpSetHistory (h : list RotatedMasterKey)
| OpAppend (k : RotatedMasterKey)
| OpSwitch (id height : Z)
| OpShare (k : WorkerPublicKey) (h : EcdhPublicKey) (n : Z)
| OpRotate (new_key : Pair) (b : BlockInfo) (id : Z) (l : list (WorkerPublicKey * EcdhPublicKey)) (key : Pair)
| OpCluster (b : BlockInfo) (o : MessageOrigin) (ev : ClusterEvent)
| OpGatekeeper (o : MessageOrigin) (ev : GatekeeperEvent)
| OpWill (b : BlockInfo) | OpDid (b : BlockInfo)
| OpReport (o : MessageOrigin) (ev : WorkingReportEvent) (b : BlockInfo)
| OpSystem (o : MessageOrigin) (ev : SystemEvent) (b : BlockInfo)
| OpParams (o : MessageOrigin) (ev : GatekeeperEvent).

Definition run_op (o : op) : M GatekeeperState E unit :=
  match o with
  | OpRegister => Gk.register_on_chain
  | OpUnregister => Gk.unregister_on_chain
  | OpUploaded k => Gk.master_pubkey_uploaded k
  | OpSetHistory h => Gk.set_master_key_history h;;; mret tt
  | OpAppend k => Gk.append_master_key k;;; mret tt
  | OpSwitch id height => Gk.switch_master_key id height;;; mret tt
  | OpShare k h n => Gk.share_master_key k h n
  | OpRotate new_key b id l key => Gk.process_master_key_rotation_request new_key b id l key
  | OpCluster b o ev => Gk.process_cluster_event b o ev
  | OpGatekeeper o ev => Gk.process_gatekeeper_event o ev
  | OpWill b => Gk.will_process_block b
  | OpDid b => Gk.did_process_block b
  | OpReport o ev b => Gk.on_economics (Economics.process_computing_report o ev b)
  | OpSystem o ev b => Gk.on_economics (Economics.process_system_event o ev b)
  | OpParams o ev => Gk.on_economics (Economics.process_gatekeeper_event o ev)
  end.

#[local] Hint Resolve keeps_will keeps_did keeps_system_event keeps_computing_report keeps_eco_gatekeeper_event
  keeps_on_economics : keeps.

Lemma keeps_encrypt_key_to info pk sec n : keeps eco_channel (Gk.encrypt_key_to (E := E) info pk sec n).
Proof. unfold Gk.encrypt_key_to, Gk.generate_iv. solve_keeps. Qed.

#[local] Hint Resolve keeps_encrypt_key_to : keeps.

(** No operation of the gatekeeper, a rotation of the master key included,
    touches the channel of its economics. *)
Lemma run_op_keeps o : keeps eco_channel (run_op o).
Proof.
  destruct o; simpl; unfold Gk.register_on_chain, Gk.unregister_on_chain, Gk.master_pubkey_uploaded,
    Gk.set_master_key_history, Gk.append_master_key, Gk.switch_master_key, Gk.share_master_key,
    Gk.share_master_key_history, Gk.share_latest_master_key, Gk.process_master_key_rotation_request,
    Gk.encrypt_for_all, Gk.process_cluster_event, Gk.get_cluster_key, Gk.process_gatekeeper_event,
    Gk.process_random_number_event, Gk.next_random_number, Gk.will_process_block, Gk.did_process_block,
    Gk.emit_random_number; solve_keeps.
  all: unfold Gk.encrypt_for_all, Gk.next_random_number; solve_keeps.
Qed.

Inductive gk_run : GatekeeperState -> GatekeeperState -> Prop :=
| gk_nil g : gk_run g g
| gk_step g g1 o g2 : gk_run g g1 -> run_op o g1 = Ok tt g2 -> gk_run g g2.

Lemma gk_run_channel g g' : gk_run g g' -> eco_channel g' = eco_channel g.
Proof.
  induction 1 as [|g g1 o g2 Hr IH Ho]; [done|]. rewrite <- IH. exact (keeps_ok _ _ _ _ _ (run_op_keeps o) Ho).
Qed.

(** ** The reports *)
Definition outbox (e : ComputingEconomics) : list SignedMessage :=
  ch_messages (SendQueue.entry (eco_queue e) (mc_sender (eco_egress e))).

Lemma keeps_queue_ordmap f : (forall k w, keeps eco_queue (f k w)) ->
  keeps eco_queue (Economics.ordmap_for_each_mut (E := E) f).
Proof. intros Hf. unfold Economics.ordmap_for_each_mut, Economics.get_worker. solve_keeps. Qed.

Lemma keeps_queue_finish block params k w : keeps eco_queue (Economics.finish_worker (E := E) block params k w).
Proof.
  assert (forall m w, keeps eco_queue (Economics.replay (E := E) m w)) as H1
    by (intros m w' e; unfold wp, Economics.replay; by destruct (m _) as [? []|? []| |]).
  assert (forall A (m : M TokenomicInfo E A) w, keeps eco_queue (Economics.on_tokenomic m w)) as H2
    by (intros A m w' e; unfold wp, Economics.on_tokenomic; by destruct (m _)).
  unfold Economics.finish_worker, Economics.judge_worker, Economics.charge_worker, Economics.put_worker. solve_keeps.
Qed.

(** What the end of a block adds to the queue is signed by the economics'
    signer. *)
Lemma did_process_block_signs block e :
  wp True (Economics.did_process_block (E := E) block)
    (fun _ e' => exists new, outbox e' = outbox e ++ new /\
       Forall (fun m => sender (message m) = mc_sender (eco_egress e) /\
         signature m = mc_signer (eco_egress e) (encode_to_be_signed (message m) (sequence m))) new)
    (fun _ _ => True) e.
Proof.
  unfold Economics.did_process_block. do 3 wp_step.
  assert (forall p, keeps eco_queue (Economics.ordmap_for_each_mut (E := E) (Economics.finish_worker block p)) /\
    keeps eco_egress (Economics.ordmap_for_each_mut (E := E) (Economics.finish_worker block p))) as Hk.
  { intros p. split; [apply keeps_queue_ordmap; intros; apply keeps_queue_finish|].
    apply keeps_ordmap. intros. unfold Economics.finish_worker, Economics.judge_worker, Economics.charge_worker,
      Economics.put_worker. solve_keeps. }
  cbv beta. destruct (Hk (tokenomic_params e)) as [Hq Hg].
  eapply wp_mono; [apply (wp_and _ _ _ _ _ _ _ (Hq e) (Hg e))| |done]. intros [] e1 [Hq1 Hg1].
  do 4 wp_step. cbv beta. destruct (negb _).
  2: { apply wp_ret. exists []. unfold outbox. simpl. by rewrite Hq1, Hg1, app_nil_r. }
  unfold wp, Economics.egress_push, SendQueue.push_data, SendQueue.enqueue_message, mbind, gets, modify. simpl.
  destruct (arith 64 _ (eco_queue e1)) as [n q|x q| |] eqn:Ha; [|done..].
  pose proof (keeps_ok id _ _ _ _ (keeps_arith id 64 _) Ha) as Hid. unfold id in Hid. subst q.
  unfold outbox. simpl. rewrite Egress.entry_insert, Hq1, Hg1. simpl. destruct (ch_dummy _).
  - exists []. by rewrite app_nil_r.
  - eexists. split; [reflexivity|]. by repeat constructor.
Qed.

(** A gatekeeper's message whose signature is not by the key on chain *)
Lemma bad_signature_rejected who m pk s {notify : QueueNotifyConfig} :
  sender (message m) = Gatekeeper -> RegistryT.GatekeeperMasterPubkey (registry s) = Some pk ->
  sr25519_verify (signature m) (encode_to_be_signed (message m) (sequence m)) pk = false ->
  exists e, Mq.sync_offchain_message (Signed who) m s = Err e s.
Proof.
  intros Hs Hk Hv.
  assert (wp False (Mq.sync_offchain_message (Signed who) m) (fun _ _ => False) (fun _ s' => s' = s) s) as Hw.
  { unfold Mq.sync_offchain_message, Mq.check_message, Mq.verify_signature. rewrite Hs. simpl.
    unfold ensure_signed. wp_steps; try done; congruence. }
  unfold wp in Hw. destruct (Mq.sync_offchain_message (Signed who) m s) as [|e s'| |]; try done.
  subst. by exists e.
Qed.

Lemma new_channel history egress q u :
  wp True (Gk.new (E := E) history egress q) (fun g _ => eco_channel g = egress) (fun _ _ => True) u.
Proof.
  unfold Gk.new. do 2 wp_step; [|done]. wp_step. unfold wp at 1, Gk.expect_crypto.
  by destruct (Crypto.restore_from_secret_key _ _) as [k []| | |].
Qed.

(** Rotating the master key strands the gatekeeper's reports.  Whatever a
    gatekeeper does after its start, rotations included, its economics keep
    signing with the first master key: once the chain knows another key, under
    which signatures of the first do not verify, every report it sends at the end
    of a block is rejected by the chain. *)
Theorem rotation_strands_reports {notify : QueueNotifyConfig} history key0 q g0 g block e' s pk :
  Gk.new (E := E) history (mkMessageChannel Gatekeeper (pair_sign key0)) q tt = Ok g0 tt ->
  gk_run g0 g ->
  Economics.did_process_block (E := E) block (computing_economics g) = Ok tt e' ->
  RegistryT.GatekeeperMasterPubkey (registry s) = Some pk ->
  (forall d, sr25519_verify (pair_sign key0 d) d pk = false) ->
  exists new, outbox e' = outbox (computing_economics g) ++ new /\
    Forall (fun m => forall who, exists x, Mq.sync_offchain_message (Signed who) m s = Err x s) new.
Proof.
  intros Hnew Hr Hd Hk Hv.
  pose proof (wp_ok _ _ _ _ _ _ _ (new_channel _ _ _ _) Hnew) as H0. simpl in H0.
  pose proof (gk_run_channel _ _ Hr) as Hc. rewrite H0 in Hc. unfold eco_channel in Hc.
  destruct (wp_ok _ _ _ _ _ _ _ (did_process_block_signs block _) Hd) as (new & Ho & Hf).
  exists new. split; [done|]. rewrite Hc in Hf. eapply Forall_impl; [exact Hf|].
  intros m [Hs Hsig] who. eapply bad_signature_rejected; [done|done|]. rewrite Hsig. apply Hv.
Qed.

End Signer.

(** ** Witnesses *)
Import RefInstances PrInstances.

Definition wit_block (n : Z) : BlockInfo := mkBlockInfo n (1000 * n).
Definition wit_history : list RotatedMasterKey := [mkRotatedMasterKey 0 0 (secret_of 7)].
Definition wit_channel : MessageChannel := mkMessageChannel Gatekeeper (pair_sign 7).
Abbreviation Er := Empty_set.

Definition wit_ops : list op :=
  [OpRegister; OpUploaded 7; OpSystem (Pallet []) (WorkerEventWithKey 5 (Registered 1)) (wit_block 2);
   OpAppend (mkRotatedMasterKey 1 10 (secret_of 9)); OpSwitch 1 10;
   OpWill (wit_block 11); OpSystem (Pallet []) (WorkerEventWithKey 5 Stopped) (wit_block 11)].

Fixpoint run_ops (l : list op) (g : GatekeeperState) : option GatekeeperState :=
  match l with
  | [] => Some g
  | o :: l => match run_op (E := Er) o g with Ok _ g' => run_ops l g' | _ => None end
  end.

Lemma run_ops_run l : forall g0 g g', gk_run (E := Er) g0 g -> run_ops l g = Some g' -> gk_run (E := Er) g0 g'.
Proof.
  induction l as [|o l IH]; intros g0 g g' Hr H; simpl in H; [by injection H as <-|].
  destruct (run_op o g) as [[] g1| | |] eqn:Ho; try done. eapply IH; [|done]. by eapply gk_step.
Qed.

Definition wit_g0 : GatekeeperState :=
  mkGatekeeper _ 7 false false wit_history wit_channel 0 0
    (Economics.new wit_channel (<[Gatekeeper := mkChannel 0 [] true]> ∅)).
Definition wit_g : GatekeeperState := default wit_g0 (run_ops wit_ops wit_g0).
Definition wit_e : ComputingEconomics := final (E := Er) (Economics.did_process_block (wit_block 11)) (computing_economics wit_g).
Definition wit_chain : State := set_registry (RegistryT.set_GatekeeperMasterPubkey (Some 9) (registry ref_state)) ref_state.

Lemma wit_g_run : gk_run (E := Er) wit_g0 wit_g.
Proof. apply (run_ops_run wit_ops wit_g0 wit_g0); [constructor|]. vm_compute. reflexivity. Qed.

Lemma wit_e_did : Economics.did_process_block (E := Er) (wit_block 11) (computing_economics wit_g) = Ok tt wit_e.
Proof. unfold wit_e. apply returns_final. vm_compute. reflexivity. Qed.

Lemma wit_outbox : length (outbox wit_e) = S (length (outbox (computing_economics wit_g))).
Proof. vm_compute. reflexivity. Qed.

Lemma rotation_strands_reports_witness :
  exists m, last (outbox wit_e) = Some m /\
    forall who, exists x, Mq.sync_offchain_message (notify := notify_nothing) (Signed who) m wit_chain = Err x wit_chain.
Proof.
  destruct (rotation_strands_reports (P := ref_crypto) (E := Er) (notify := notify_nothing) wit_history 7 ∅ wit_g0 wit_g (wit_block 11)
    wit_e wit_chain 9) as (new & Ho & Hf);
    [reflexivity|exact wit_g_run|exact wit_e_did|reflexivity|reflexivity|].
  pose proof wit_outbox as Hl. rewrite Ho, length_app in Hl.
  destruct new as [|m [|m' new]]; [simpl in Hl; lia| |simpl in Hl; lia].
  exists m. rewrite Ho, last_snoc. split; [reflexivity|]. inversion Hf. assumption.
Defined.

Definition wit_topics : list Topic := [GatekeeperEvent_topic; ClusterEvent_topic].
Definition wit_rx (i : nat) : Receiver := mkReceiver i [].
Definition wit_launched : GatekeeperState := Gk.set_on_chain true wit_g0.

Lemma wit_wired : Wired wit_topics (wit_rx 0) (wit_rx 1).
Proof. split; reflexivity. Qed.

Lemma account_stops_gatekeeper_witness :
  exists b1, Gk.process_messages (E := Er) 5 (wit_rx 0) (wit_rx 1) (wit_rx 2) (wit_rx 3) (wit_rx 4) (wit_block 3)
    (b1, wit_launched) = Panic.
Proof.
  destruct (account_stops_gatekeeper (E := Er) (acct 1) [2] _RepairV wit_topics (wit_rx 0) (wit_rx 1) (wit_rx 2) (wit_rx 3)
    (wit_rx 4) (wit_block 3) [] [] wit_launched wit_launched 5%nat) as (_ & b0 & b1 & _ & _ & H);
    [reflexivity|reflexivity|exact wit_wired|reflexivity|simpl; lia|simpl; lia|reflexivity|].
  exists b1. exact H.
Defined.

Lemma unregistered_key_stops_gatekeeper_witness :
  exists b1, Gk.process_messages (E := Er) 5 (wit_rx 0) (wit_rx 1) (wit_rx 2) (wit_rx 3) (wit_rx 4) (wit_block 3)
    (b1, wit_launched) = Panic.
Proof.
  destruct (unregistered_key_stops_gatekeeper (E := Er) (acct 1) 77 [9; 9] (secret_of 77) wit_topics (wit_rx 0) (wit_rx 1)
    (wit_rx 2) (wit_rx 3) (wit_rx 4) (wit_block 3) [] [] wit_launched wit_launched 5%nat) as (_ & b0 & b1 & _ & _ & H);
    [reflexivity|reflexivity|reflexivity|reflexivity|exact wit_wired|reflexivity|simpl; lia|simpl; lia|reflexivity|].
  exists b1. exact H.
Defined.

End GkProps.
