(* ===== verification/SessionMirror.v ===== *)
(** * Sessions on the chain and in the worker

    The computation pallet tells a worker about its session by the system
    events it pushes to the message queue.  A worker that is fed with the
    events a run of the pallet pushed is in the state its session has on the
    chain. *)
From stdpp Require Import prelude gmap list strings.
From Stdlib Require Import ZArith Lia.
From S2P Require Import Prelude Types Externals BalanceConvert Reference Mq Computation ComputationInv ComputationProps.
From S2P Require Import WrappedBalances StakePool MsgRouting RoutingProps SendQueue Benchmark WorkerSM Economics Replica PrReference.

Module SessionMirror.
Import Computation ComputationT ComputationInv ComputationProps.

(** What the subscribers and the codec promise *)
Class HooksQuiet {cfg : Config} (hooks : ComputationHooks) := {
  hook_on_reward_quiet : forall l, keeps mq (hook_on_reward l);
  hook_on_unbound_quiet : forall k b, keeps mq (hook_on_unbound k b);
  hook_on_stopped_quiet : forall k x y, keeps mq (hook_on_stopped k x y);
}.

Class SystemEventSpec {cfg : Config} {codec : Codec} (pc : PrCodec) := {
  decode_encode_SystemEvent : forall e, decode_SystemEvent (encode_SystemEvent e) = Some e;
}.

#[export] Instance stake_pool_hooks_quiet {cfg : Config} {F : FixedLib} {codec : Codec} {pal : Pallets} :
  HooksQuiet StakePool.stake_pool_hooks.
Proof.
  split; intros; apply (RoutingProps.keeps_view _ RoutingProps.outside);
    try (unfold RoutingProps.outside; by intros s s' [= _ _ -> _ _ _]).
  - apply RoutingProps.on_reward_outside.
  - apply RoutingProps.on_unbound_outside.
  - apply keeps_ret.
Qed.

(** ** The two views of a session *)
Definition mode (st : Types.WorkerState) : option WorkingState :=
  match st with
  | WorkerIdle => Some Computing
  | WorkerUnresponsive => Some Paused
  | _ => None
  end.

Section Views.
Context {cfg : Config} {codec : Codec} {prcodec : PrCodec} {es : SystemEventSpec prcodec}.

Definition chain_session (k : WorkerPublicKey) (s : State) : option WorkingState :=
  WorkerBindings (computation s) !! k ≫= fun a =>
  Sessions (computation s) !! a ≫= fun i => mode (state i).

Definition worker_session (v : Replica.View) : option WorkingState := snd <$> Replica.vw_session v.

(** The event of a message of the chain, as the worker decodes it *)
Definition system_event (m : Message) : option SystemEvent :=
  if decide (destination m = SystemEvent_topic) then decode_SystemEvent (payload m) else None.

Definition follow_event (e : SystemEvent) (v : Replica.View) : Replica.View :=
  fst (Replica.abs_step (mkBlockInfo 0 0) e v).

Definition follow (ms : list Message) (v : Replica.View) : Replica.View :=
  foldl (fun v e => follow_event e v) v (omap system_event ms).

Lemma follow_app l l' v : follow (l ++ l') v = follow l' (follow l v).
Proof. unfold follow. by rewrite omap_app, foldl_app. Qed.

Lemma follow_key l v : Replica.vw_key (follow l v) = Replica.vw_key v.
Proof.
  unfold follow. revert v. induction (omap system_event l) as [|e es' IH]; intros v; [done|]. simpl.
  rewrite IH. destruct e as [k ev|c]; [|done]. unfold follow_event. simpl. by destruct (k =? _), ev.
Qed.

(** [told s l s']: the messages [l] tell every worker how its session went
    from [s] to [s']. *)
Definition told (s : State) (l : list Message) (s' : State) : Prop := forall v,
  worker_session v = chain_session (Replica.vw_key v) s ->
  worker_session (follow l v) = chain_session (Replica.vw_key v) s'.

Lemma told_nil s s' : (forall k, chain_session k s' = chain_session k s) -> told s [] s'.
Proof. intros H v Hv. by rewrite H. Qed.

Lemma told_trans s l s1 l' s2 : told s l s1 -> told s1 l' s2 -> told s (l ++ l') s2.
Proof.
  intros H1 H2 v Hv. rewrite follow_app, <- (follow_key l v). apply H2. rewrite follow_key. by apply H1.
Qed.

Definition event_message (e : SystemEvent) : Message :=
  mkMessage message_origin SystemEvent_topic (encode_SystemEvent e).

Lemma follow_message e v : follow [event_message e] v = follow_event e v.
Proof. unfold follow, system_event. simpl. by rewrite decode_encode_SystemEvent. Qed.

(** One worker is told, the others did not move. *)
Lemma told_worker s s' k ev :
  (forall k', k' <> k -> chain_session k' s' = chain_session k' s) ->
  (forall v, worker_session v = chain_session k s ->
    worker_session (Replica.worker_step ev v) = chain_session k s') ->
  told s [event_message (WorkerEventWithKey k ev)] s'.
Proof.
  intros Ho Hk v Hv. rewrite follow_message. unfold follow_event. simpl.
  destruct (Z.eqb_spec k (Replica.vw_key v)) as [->|Hne]; [by apply Hk|]. rewrite Ho by done. done.
Qed.

Lemma told_challenge s s' c :
  (forall k, chain_session k s' = chain_session k s) -> told s [event_message (HeartbeatChallengeEvent c)] s'.
Proof. intros H v Hv. rewrite follow_message, H. done. Qed.

(** The pushes of a step and what they tell *)
Definition mirrors_step (s s' : State) : Prop := exists l,
  MqT.OutboundMessages (mq s') = MqT.OutboundMessages (mq s) ++ l /\ told s l s'.

Lemma mirrors_step_still s s' :
  mq s' = mq s -> (forall k, chain_session k s' = chain_session k s) -> mirrors_step s s'.
Proof. intros E H. exists []. rewrite E, app_nil_r. split; [done|]. by apply told_nil. Qed.

Lemma mirrors_step_trans s s1 s2 : mirrors_step s s1 -> mirrors_step s1 s2 -> mirrors_step s s2.
Proof.
  intros (l & E & H) (l' & E' & H'). exists (l ++ l'). split; [by rewrite E', E, app_assoc|].
  by eapply told_trans.
Qed.

(** One session rewritten *)
Lemma chain_session_put s s' a i' :
  WorkerBindings (computation s') = WorkerBindings (computation s) ->
  Sessions (computation s') = <[a := i']> (Sessions (computation s)) ->
  forall k, chain_session k s' =
    if decide (WorkerBindings (computation s) !! k = Some a) then mode (state i') else chain_session k s.
Proof.
  intros E1 E2 k. unfold chain_session. rewrite E1, E2.
  case_decide as Hk.
  - rewrite Hk. simpl. by rewrite lookup_insert_eq.
  - destruct (WorkerBindings (computation s) !! k) as [b|]; [|done]. simpl.
    by rewrite lookup_insert_ne by congruence.
Qed.

End Views.

(** ** Each operation tells the workers what it did *)
Section Operations.
Context {cfg : Config} {F : FixedLib} {codec : Codec} {pal : Pallets} {prcodec : PrCodec}
  {es : SystemEventSpec prcodec}
  {notify : QueueNotifyConfig} {hooks : ComputationHooks}
  {qs : QuietTopic notify SystemEvent_topic} {qg : QuietTopic notify GatekeeperEvent_topic}
  {hs : ComputationHooksSpec hooks} {hq : HooksQuiet hooks}.

(** [mirrors m]: on return; [tells m]: also when it fails *)
Definition mirrors {A} (m : R A) : Prop :=
  forall s, Inv s -> wp True m (fun _ s' => mirrors_step s s') (fun _ _ => True) s.

Definition mirrored_from (s s' : State) : Prop := Inv s' /\ mirrors_step s s'.

Definition tells {A} (m : R A) : Prop :=
  forall s, Inv s -> wp True m (fun _ => mirrored_from s) (fun _ => mirrored_from s) s.

Lemma tells_mirrors {A} (m : R A) : tells m -> mirrors m.
Proof. intros Hm s Hs. eapply wp_mono; [by apply Hm| |done]. by intros ? s' []. Qed.

Lemma tells_intro {A} (m : R A) :
  preserves Inv m ->
  (forall s, Inv s -> wp True m (fun _ s' => mirrors_step s s') (fun _ s' => mirrors_step s s') s) -> tells m.
Proof.
  intros Hp Hm s Hs. unfold mirrored_from. apply wp_and; [|by apply Hm].
  eapply wp_mono; [by apply Hp|done|done].
Qed.

Lemma tells_bind {A B} (m : R A) (k : A -> R B) : tells m -> (forall a, tells (k a)) -> tells (mbind m k).
Proof.
  intros Hm Hk s Hs. apply wp_bind. eapply wp_mono; [by apply Hm| |done]. intros a s1 [Hs1 H1].
  eapply wp_mono; [by apply Hk| |]; intros ? s2 [Hs2 H2]; (split; [done|]); exact (mirrors_step_trans _ _ _ H1 H2).
Qed.

Lemma mirrors_step_sessions s s' :
  mq s' = mq s -> WorkerBindings (computation s') = WorkerBindings (computation s) ->
  Sessions (computation s') = Sessions (computation s) -> mirrors_step s s'.
Proof. intros E1 E2 E3. apply mirrors_step_still; [done|]. intros k. unfold chain_session. by rewrite E2, E3. Qed.

Lemma mirrors_step_refl s : mirrors_step s s.
Proof. by apply mirrors_step_sessions. Qed.

(** The storage that sessions and their messages are made of *)
Definition shown (s : State) :=
  (mq s, registry s, Sessions (computation s), SessionBindings (computation s),
   WorkerBindings (computation s), Stakes (computation s), OnlineWorkers (computation s)).

Lemma tells_keeps {A} (m : R A) : keeps shown m -> tells m.
Proof.
  intros Hm. apply tells_intro.
  - apply preserves_params. eapply RoutingProps.keeps_view; [|exact Hm].
    unfold shown. intros s s' [= _ E1 E2 E3 E4 E5 E6]. by rewrite E1, E2, E3, E4, E5, E6.
  - intros s _. eapply wp_mono; [apply Hm| |]; unfold shown; intros ? s' [= E1 _ E2 _ E3 _ _];
      by apply mirrors_step_sessions.
Qed.

Lemma tells_for_each {A} (l : list A) body : (forall x, tells (body x)) -> tells (for_each l body).
Proof. intros Hb. induction l; simpl; [apply tells_keeps; solve_keeps|]. by apply tells_bind. Qed.

Lemma tells_catch {A} (m : R A) : tells m -> tells (catch m).
Proof. intros Hm s Hs. apply wp_catch. by apply Hm. Qed.

(** The last calls of an operation *)
Lemma step_after {A} (m : R A) s s1 :
  keeps shown m -> mirrors_step s s1 ->
  wp True m (fun _ s' => mirrors_step s s') (fun _ s' => mirrors_step s s') s1.
Proof.
  intros Hm H1. eapply wp_mono; [apply Hm| |]; unfold shown; intros ? s2 [= E1 _ E2 _ E3 _ _];
    (eapply mirrors_step_trans; [exact H1|]); by apply mirrors_step_sessions.
Qed.

(** A push and what it tells, a queue outside the chain being written last *)
Lemma push_system_wp P e (Q : unit -> State -> Prop) (Rr : DispatchError -> State -> Prop) s :
  Q tt (set_mq (MqT.set_OutboundMessages (MqT.OutboundMessages (mq s) ++ [event_message e]) (mq s)) s) ->
  wp P (push_system_event e) Q Rr s.
Proof. intros HQ. unfold wp, push_system_event. by rewrite MqFacts.push_bound_message_quiet. Qed.

Lemma push_gatekeeper_tells e : tells (push_gatekeeper_event e).
Proof.
  apply tells_intro; [apply preserves_view; solve_keeps|]. intros s _.
  unfold wp, push_gatekeeper_event. rewrite MqFacts.push_bound_message_quiet by done. simpl.
  eexists. split; [reflexivity|]. by intros v Hv.
Qed.

Lemma push_challenge_tells c : tells (push_system_event (HeartbeatChallengeEvent c)).
Proof.
  apply tells_intro; [apply preserves_view; solve_keeps|]. intros s _.
  apply push_system_wp. eexists. split; [reflexivity|]. by apply told_challenge.
Qed.

Lemma step_hook {A} (m : R A) s s1 :
  keeps (fun s => (registry s, computation s)) m -> keeps mq m -> mirrors_step s s1 ->
  wp True m (fun _ s' => mirrors_step s s') (fun _ s' => mirrors_step s s') s1.
Proof.
  intros H1 H2 H3. eapply wp_mono; [apply wp_and; [apply H1|apply H2]| |];
    simpl; intros ? s' [[=E1 E2] E3]; (eapply mirrors_step_trans; [exact H3|]);
    apply mirrors_step_sessions; congruence.
Qed.

Lemma on_reward_tells l : tells (hook_on_reward l).
Proof.
  apply tells_intro; [apply preserves_view; solve_keeps|]. intros s _.
  apply step_hook; [apply hook_on_reward_keeps|apply hook_on_reward_quiet|apply mirrors_step_refl].
Qed.

Lemma bound_once s k k' a :
  Inv s -> WorkerBindings (computation s) !! k = Some a -> WorkerBindings (computation s) !! k' = Some a -> k' = k.
Proof. intros Hs H1 H2. apply (inv_bij _ _ Hs) in H1, H2. congruence. Qed.

(** A session rewritten in place, its worker told *)
Lemma mirrors_step_put s s' a k i i' ev :
  Inv s -> WorkerBindings (computation s) !! k = Some a -> Sessions (computation s) !! a = Some i ->
  WorkerBindings (computation s') = WorkerBindings (computation s) ->
  Sessions (computation s') = <[a := i']> (Sessions (computation s)) ->
  mq s' = MqT.set_OutboundMessages
    (MqT.OutboundMessages (mq s) ++ [event_message (WorkerEventWithKey k ev)]) (mq s) ->
  (forall v, worker_session v = mode (state i) -> worker_session (Replica.worker_step ev v) = mode (state i')) ->
  mirrors_step s s'.
Proof.
  intros Hs Hk Hi E1 E2 Eq Hv. eexists. split; [by rewrite Eq|].
  assert (Hput := chain_session_put s s' a i' E1 E2).
  apply told_worker.
  - intros k' Hne. rewrite Hput. rewrite decide_False; [done|]. intros H. by destruct Hne, (bound_once s k k' a).
  - intros v Hw. rewrite Hput, decide_True by done. apply Hv. rewrite Hw. unfold chain_session.
    by rewrite Hk; simpl; rewrite Hi.
Qed.

Lemma mirrors_step_rewrite s s' a i i' :
  Sessions (computation s) !! a = Some i ->
  mq s' = mq s -> WorkerBindings (computation s') = WorkerBindings (computation s) ->
  Sessions (computation s') = <[a := i']> (Sessions (computation s)) ->
  mode (state i') = mode (state i) -> mirrors_step s s'.
Proof.
  intros Hi Eq E1 E2 Hm. apply mirrors_step_still; [done|]. intros k.
  rewrite (chain_session_put s s' a i') by done. case_decide as Hk; [|done].
  unfold chain_session. rewrite Hk. simpl. by rewrite Hi.
Qed.

Lemma set_responsive_tells target ev msg k :
  is_computing target = true ->
  (forall v, is_Some (worker_session v) -> worker_session (Replica.worker_step msg v) = mode target) ->
  tells (set_responsive target ev msg k).
Proof.
  intros Ht Hm. apply tells_intro; [by apply set_responsive_preserves|]. intros s Hs.
  unfold set_responsive, get_session, put_session, upd_computation.
  wp_steps; try apply mirrors_step_refl. apply negb_false_iff in Heqb.
  apply wp_emit. intros l. apply push_system_wp.
  eapply (mirrors_step_put s _ a k s0); try done. simpl. intros v Hv. apply Hm. rewrite Hv.
  by destruct (state s0).
Qed.

Lemma enter_told v : is_Some (worker_session v) ->
  worker_session (Replica.worker_step EnterUnresponsive v) = Some Paused.
Proof. unfold worker_session. destruct v as [? ? ? [[? []]|]]; by try intros []. Qed.

Lemma exit_told v : is_Some (worker_session v) ->
  worker_session (Replica.worker_step ExitUnresponsive v) = Some Computing.
Proof. unfold worker_session. destruct v as [? ? ? [[? []]|]]; by try intros []. Qed.

Lemma on_heartbeat_tells k n t : tells (on_heartbeat k n t).
Proof.
  apply tells_intro; [apply on_heartbeat_preserves|]. intros s Hs.
  unfold on_heartbeat, ensure_worker_bound, get_session, get_worker, now_sec, put_session, upd_computation.
  wp_steps; try (by apply mirrors_step_refl); try done.
  apply keeps_wp_sessions; [solve_keeps| |intros; by apply mirrors_step_refl]. intros b.
  wp_steps; [|done]. apply wp_emit. intros l. wp_steps.
  by eapply (mirrors_step_rewrite _ _ a a0).
Qed.

Lemma try_handle_settle_tells info now ts : tells (try_handle_settle info now ts).
Proof.
  apply tells_intro; [apply try_handle_settle_preserves|]. intros s Hs. pose proof @stats_on_reward_keeps.
  unfold try_handle_settle, get_session, put_session, upd_computation,
    withdraw_imbalance_from_subsidy_pool.
  wp_steps; try (by apply mirrors_step_refl); try done.
  - apply wp_emit. intros l. by apply mirrors_step_sessions.
  - apply keeps_wp_sessions; [solve_keeps| |intros; by apply mirrors_step_refl]. intros st.
    apply wp_bind, wp_modify. apply step_after; [solve_keeps|].
    by eapply (mirrors_step_rewrite _ _ a a0).
Qed.

Lemma on_gk_message_received_tells m : tells (on_gk_message_received m).
Proof.
  unfold on_gk_message_received. destruct (negb _); [apply tells_keeps; solve_keeps|].
  destruct (is_empty_update _); [apply tells_keeps; solve_keeps|].
  apply tells_bind; [apply tells_keeps; unfold now_sec; solve_keeps|intros now].
  apply tells_bind; [apply tells_for_each; intros; apply set_responsive_tells, enter_told; done|intros []].
  apply tells_bind; [apply tells_for_each; intros; apply set_responsive_tells, exit_told; done|intros []].
  apply tells_bind; [|intros []; apply on_reward_tells].
  apply tells_for_each. intros x. apply tells_bind; [apply tells_catch, try_handle_settle_tells|].
  intros []; apply tells_keeps; solve_keeps.
Qed.

Lemma reclaim_mirrors a b : mirrors (reclaim a b).
Proof.
  intros s Hs. unfold reclaim, get_session, put_session, upd_computation.
  wp_steps; [|done]. eapply wp_mono; [apply wp_can_reclaim| |done].
  intros r ? [-> Hr]. wp_steps; [|done]. specialize (Hr H0).
  apply wp_emit. intros l. wp_steps. eapply (mirrors_step_rewrite _ _ a a0); try done.
  simpl. by rewrite Hr.
Qed.

Lemma start_computing_mirrors a x : mirrors (start_computing a x).
Proof.
  intros s Hs. unfold start_computing, get_session, get_worker, tokenomic, now_sec, upd_computation.
  wp_steps; try done. rename a0 into k, a1 into i. apply bool_decide_eq_true in H1.
  eapply (keeps_wp id); [done|apply keeps_minimal_stake| |by intros]. unfold id. intros ms ? ->.
  wp_steps; [|done]. eapply (keeps_wp id); [done|apply keeps_ve| |by intros]. unfold id. intros ve ? ->.
  wp_steps; [|done]. apply (wp_online 1 (computation s) (registry s)); [done|done|]. intros r ->. wp_steps.
  apply wp_arith_any; [lia|done|]. intros n Hn. wp_steps.
  apply push_system_wp, wp_emit. intros l. simpl. rewrite (alter_lookup _ _ i) by done.
  eapply (mirrors_step_put s _ a k i); try done. by apply (inv_bij _ _ Hs).
Qed.

Lemma stop_computing_mirrors a : mirrors (stop_computing a).
Proof.
  intros s Hs. unfold stop_computing, get_session, put_session, now_sec, upd_computation.
  wp_steps; try done. rename a0 into k, a1 into i.
  apply (wp_online (-1) (computation s) (registry s)); [done|simpl; lia|]. intros r ->.
  apply wp_bind, wp_modify, wp_bind, wp_gets. cbv zeta. apply wp_bind.
  eapply wp_mono; [apply wp_and; [apply hook_on_stopped_keeps|apply hook_on_stopped_quiet]| |done].
  simpl. intros [] s1 [[= _ Ec] Eq]. apply wp_bind, push_system_wp, wp_emit. intros l.
  eapply (mirrors_step_put s _ a k i); simpl; rewrite ?Ec, ?Eq; try done. by apply (inv_bij _ _ Hs).
Qed.

Lemma bind_mirrors a k : mirrors (bind a k).
Proof.
  intros s Hs. unfold bind, get_worker. do 2 wp_step. cbv beta. wp_step; wp_step; [|done].
  apply wp_bind. apply wp_mono with (Q := fun _ s' => s' = s) (R := fun _ s' => s' = s); [|intros [] ? ->|done].
  { destruct CheckWorkerRegisterTime; [|by wp_steps].
    unfold is_worker_registered_after_gk_launched. by wp_steps. }
  unfold ensure_session_bound, ensure_worker_bound, get_session, put_session, now_sec, upd_computation.
  wp_steps; try done. apply wp_emit. intros l. apply mirrors_step_still; [done|]. intros k'.
  unfold chain_session; simpl. destruct (decide (k' = k)) as [->|Hk].
  - rewrite lookup_insert_eq, H3. simpl. by rewrite lookup_insert_eq.
  - rewrite lookup_insert_ne by done. destruct (WorkerBindings (computation s) !! k') as [b|] eqn:Hb; [|done].
    simpl. rewrite lookup_insert_ne; [done|]. intros ->. apply (inv_bij _ _ Hs) in Hb. congruence.
Qed.

Lemma mirrors_step_unbind s s' a k i :
  Inv s -> SessionBindings (computation s) !! a = Some k -> Sessions (computation s) !! a = Some i ->
  mode (state i) = None -> mq s' = mq s ->
  WorkerBindings (computation s') = delete k (WorkerBindings (computation s)) ->
  Sessions (computation s') = Sessions (computation s) -> mirrors_step s s'.
Proof.
  intros Hs Hk Hi Hm Eq E1 E2. apply mirrors_step_still; [done|]. intros k'. unfold chain_session.
  rewrite E1, E2. destruct (decide (k' = k)) as [->|Hne].
  - apply (inv_bij _ _ Hs) in Hk. rewrite lookup_delete_eq, Hk. simpl. by rewrite Hi.
  - by rewrite lookup_delete_ne.
Qed.

Lemma unbind_session_mirrors a b : mirrors (unbind_session a b).
Proof.
  intros s Hs. unfold unbind_session, ensure_session_bound, get_session, upd_computation.
  wp_lines; try done. rename a0 into k, a1 into i, H into Hk, H0 into Hi.
  apply wp_mono with (R := fun _ _ => True) (Q := fun _ s' => (Inv s' /\ exists i',
    SessionBindings (computation s') !! a = Some k /\ Sessions (computation s') !! a = Some i' /\
    mode (state i') = None) /\ mirrors_step s s'); [| |done].
  - destruct (can_unbind (state i)) eqn:Hc; simpl.
    + apply wp_ret. split; [|apply mirrors_step_refl]. split; [done|]. exists i. split_and!; try done.
      by destruct (state i).
    + eapply wp_mono; [apply wp_and; [by apply stop_computing_spec|by apply stop_computing_mirrors]| |done].
      intros _ s' [(HI & k' & i' & Hk' & Hi' & _ & Hv) Hm]. split; [|done]. split; [done|].
      injection Hv as _ ->. simpl. rewrite lookup_insert_eq. eauto.
  - intros [] s1 [(HI & i' & Hk1 & Hi1 & Hc1) Hm]. wp_steps. apply wp_emit. intros l.
    set (s2 := set_events _ _). assert (H2 : mirrors_step s s2).
    { eapply mirrors_step_trans; [exact Hm|]. by eapply (mirrors_step_unbind s1 _ a k i'). }
    destruct b; [|by apply wp_ret].
    eapply wp_mono; [apply (step_hook _ s); [apply hook_on_unbound_keeps|apply hook_on_unbound_quiet|done]|done|done].
Qed.

Lemma heartbeat_challenge_tells : tells heartbeat_challenge.
Proof.
  unfold heartbeat_challenge. apply tells_bind; [apply tells_keeps; solve_keeps|intros []];
    [apply tells_keeps; solve_keeps|].
  do 4 (apply tells_bind; [apply tells_keeps; solve_keeps|intros ?]). apply push_challenge_tells.
Qed.

Lemma update_tokenomic_parameters_tells t : tells (update_tokenomic_parameters t).
Proof.
  unfold update_tokenomic_parameters. apply tells_bind; [apply tells_keeps; solve_keeps|intros []].
  apply tells_bind; [apply push_gatekeeper_tells|intros []]. apply tells_keeps; solve_keeps.
Qed.

Lemma on_finalize_tells : tells on_finalize.
Proof.
  unfold on_finalize. apply tells_bind; [apply heartbeat_challenge_tells|intros []].
  apply tells_bind; [apply tells_keeps; solve_keeps|intros [t|]]; [|apply tells_keeps; solve_keeps].
  apply tells_bind; [apply tells_keeps; solve_keeps|intros []]. apply update_tokenomic_parameters_tells.
Qed.

Lemma set_budget_mirrors o n b x : mirrors (Computation.set_budget_per_block o n b x).
Proof.
  intros s Hs. unfold Computation.set_budget_per_block. apply wp_transactional.
  apply wp_mono with (Q := fun _ => mirrored_from s) (R := fun _ => mirrored_from s);
    [|by intros ? ? []|done]. revert s Hs.
  do 9 (apply tells_bind; [apply tells_keeps; autounfold with comp_calls; solve_keeps|intros ?]).
  do 2 (apply tells_bind; [apply tells_keeps; solve_keeps|intros ?]).
  apply tells_bind; [apply update_tokenomic_parameters_tells|intros ?]. apply tells_keeps; solve_keeps.
Qed.

Lemma message_ops_tell o :
  match o with WorkingMessageOp _ | GkMessageOp _ => tells (run_op o) | _ => True end.
Proof.
  destruct o; try done; simpl; [|apply on_gk_message_received_tells].
  unfold on_working_message_received. destruct (dm_sender m), (dm_payload m);
    apply on_heartbeat_tells || (apply tells_keeps; solve_keeps).
Qed.

Lemma run_op_mirrors o : mirrors (run_op o).
Proof.
  destruct o; simpl.
  all: try (apply tells_mirrors, tells_keeps; autounfold with comp_calls; solve_keeps; fail).
  - apply bind_mirrors.
  - apply unbind_session_mirrors.
  - apply start_computing_mirrors.
  - apply stop_computing_mirrors.
  - intros s Hs. apply wp_bind. eapply wp_mono; [by apply reclaim_mirrors|done|done].
  - apply tells_mirrors, (message_ops_tell (WorkingMessageOp m)).
  - apply tells_mirrors, (message_ops_tell (GkMessageOp m)).
  - apply tells_mirrors, on_finalize_tells.
  - unfold unbind, ensure_signed, ensure_session_bound, get_worker. intros s Hs.
    wp_steps; try done. by apply unbind_session_mirrors.
  - apply tells_mirrors. unfold force_heartbeat, ensure_root. destruct origin;
      apply tells_bind; try (apply tells_keeps; solve_keeps); intros []; apply push_challenge_tells.
  - unfold force_start_computing, ensure_root. intros s Hs. wp_steps; try done.
    by apply start_computing_mirrors.
  - unfold force_stop_computing, ensure_root. intros s Hs. wp_steps; try done.
    by apply stop_computing_mirrors.
  - apply set_budget_mirrors.
Qed.


End Operations.

(** ** Runs of the chain and of a worker *)
Section Runs.
Context {cfg : Config} {F : FixedLib} {codec : Codec} {pal : Pallets} {prcodec : PrCodec}
  {es : SystemEventSpec prcodec}
  {notify : QueueNotifyConfig} {hooks : ComputationHooks}
  {qs : QuietTopic notify SystemEvent_topic} {qg : QuietTopic notify GatekeeperEvent_topic}
  {hs : ComputationHooksSpec hooks} {hq : HooksQuiet hooks}.

(** A call that fails is rolled back; a handler of a message that fails is not. *)
Definition committed (o : op) (s s' : State) : Prop :=
  run_op o s = Ok tt s' \/
  (exists e, run_op o s = Err e s') /\ match o with WorkingMessageOp _ | GkMessageOp _ => True | _ => False end.

(** A message that says nothing about a session: not a system event, or one
    of a registration, a benchmark or a challenge *)
Definition no_session_event (m : Message) : Prop :=
  match system_event m with
  | Some (WorkerEventWithKey _ (Started _ _ _ | Stopped | EnterUnresponsive | ExitUnresponsive)) => False
  | _ => True
  end.

(** [chain_run s log s']: the pallet went from [s] to [s'], other code of the
    chain interleaved, and [log] was pushed on the way.  The other code pushes
    what it likes except session events, and may clear the block's messages. *)
Inductive chain_run (s : State) : list Message -> State -> Prop :=
| chain_nil : chain_run s [] s
| chain_op log o s1 new s2 :
    chain_run s log s1 -> committed o s1 s2 ->
    MqT.OutboundMessages (mq s2) = MqT.OutboundMessages (mq s1) ++ new ->
    chain_run s (log ++ new) s2
| chain_env log s1 new s2 :
    chain_run s log s1 -> computation s2 = computation s1 ->
    (forall k, is_Some (RegistryT.Workers (registry s1) !! k) ->
      is_Some (RegistryT.Workers (registry s2) !! k)) ->
    Forall no_session_event new -> chain_run s (log ++ new) s2.

Lemma committed_mirrors o s s' : Inv s -> committed o s s' -> Inv s' /\ mirrors_step s s'.
Proof.
  intros Hs [H|[[e H] Ho]].
  - split; [by eapply comp_step_inv; [apply step_ok|]|].
    exact (wp_ok True _ _ _ _ _ _ (run_op_mirrors o s Hs) H).
  - pose proof (message_ops_tell o) as Ht.
    destruct o; try done; exact (wp_err True _ _ _ _ _ _ (Ht s Hs) H).
Qed.

Lemma follow_no_session l v : Forall no_session_event l -> worker_session (follow l v) = worker_session v.
Proof.
  intros Hl. revert v. induction Hl as [|m l Hm Hl IH]; intros v; [done|].
  change (m :: l) with ([m] ++ l). rewrite follow_app, IH. unfold follow, no_session_event in *. simpl.
  destruct (system_event m) as [[k ev|c]|]; [|done..]. unfold follow_event. simpl.
  by destruct (k =? _), ev.
Qed.

Lemma chain_run_told s log s' : chain_run s log s' -> Inv s -> Inv s' /\ told s log s'.
Proof.
  intros Hr Hs. induction Hr as [|log o s1 new s2 Hr [IH1 IH2] Hc E|log s1 new s2 Hr [IH1 IH2] Ec Hw Hn].
  - split; [done|]. by apply told_nil.
  - destruct (committed_mirrors o s1 s2 IH1 Hc) as (HI & l & El & Ht). split; [done|].
    rewrite E in El. apply app_inv_head in El as ->. by eapply told_trans.
  - split; [by eapply (comp_step_inv None), IH1; apply step_env|]. eapply told_trans; [exact IH2|].
    intros v Hv. rewrite follow_no_session by done. unfold chain_session in *. by rewrite Ec.
Qed.

Context {prof : Profile} {E C : Type} {cb : WorkerStateMachineCallback E C}
  (ok : C -> Prop) (obs : C -> list Z) {spec : Replica.CallbackSpec cb ok obs}.

(** The worker handles the events of the blocks it syncs. *)
Definition sync (l : list (BlockInfo * SystemEvent)) : M (WorkerSM.WorkerState * C) E unit :=
  for_each l (fun x => WorkerSM.process_event (fst x) (snd x)).

Lemma sync_follows l w c : ok c ->
  wp True (sync l) (fun _ s' => ok (snd s') /\
      Replica.view (fst s') = foldl (fun v e => follow_event e v) (Replica.view w) (snd <$> l))
    (fun _ _ => True) (w, c).
Proof.
  revert w c. induction l as [|[b e] l IH]; intros w c Hc; [by apply wp_ret|].
  unfold sync. simpl. apply wp_bind.
  eapply wp_mono; [by apply (Replica.process_event_refines ok obs)| |done].
  intros [] [w1 c1] (Hok & Hv & _). simpl in *.
  eapply wp_mono; [by apply IH| |done]. intros _ s' [Hok' Hv']. split; [done|].
  rewrite Hv', Hv. unfold follow_event. by destruct e.
Qed.

(** C1: along any run of the chain from a state with no session, the messages
    pushed on the way tell every worker the state of its session: a worker
    that starts with no session and handles those events, in order and in
    whatever blocks, computes exactly when its session on the chain is idle, is
    paused exactly when it is unresponsive, and has no session otherwise. *)
Theorem worker_mirrors_chain s0 log s :
  no_sessions s0 -> chain_run s0 log s ->
  forall k, worker_session (follow log (Replica.mkView k 0 false None)) = chain_session k s /\
  forall w c l w' c',
    ok c -> WorkerSM.ws_pubkey w = k -> WorkerSM.ws_working_state w = None ->
    snd <$> l = omap system_event log -> sync l (w, c) = Ok tt (w', c') ->
    WorkerSM.wi_state <$> WorkerSM.ws_working_state w' = chain_session k s.
Proof.
  intros H0 Hr k. destruct (chain_run_told _ _ _ Hr (no_sessions_inv _ H0)) as [_ Ht].
  assert (Hn : forall k, chain_session k s0 = None).
  { intros k'. unfold chain_session. destruct H0 as (_ & _ & -> & _). by rewrite lookup_empty. }
  split; [by apply Ht; rewrite Hn|]. intros w c l w' c' Hc Hk Hw El Hs.
  destruct (wp_ok _ _ _ _ _ _ _ (sync_follows l w c Hc) Hs) as [_ Hv]. simpl in Hv.
  rewrite El in Hv. specialize (Ht (Replica.view w)). unfold follow in Ht. rewrite <- Hv in Ht.
  unfold worker_session, Replica.view in Ht. simpl in Ht. rewrite Hw, Hn, Hk in Ht.
  rewrite <- (Ht eq_refl). by destruct (WorkerSM.ws_working_state w').
Qed.

End Runs.

(** ** A witness

    Worker 5 is bound and started, then the gatekeeper reports it offline. *)
Section Witness.
Import RefInstances PrInstances.
#[local] Existing Instance MsgRouting.MessageRouteConfig.
#[local] Existing Instance StakePool.stake_pool_hooks.

#[local] Instance ref_system_event_spec : SystemEventSpec ref_prcodec.
Proof. split. by intros [k []|[]]. Qed.

Definition wit_offline : op := GkMessageOp (mkDecodedMessage Gatekeeper WorkingInfoUpdateEvent_topic
  (mkWorkingInfoUpdateEvent 7 2000 [5] [] [])).
Definition wit_m1 : State := final (run_op (BindOp (acct 1) 5)) wit_genesis.
Definition wit_m2 : State := final (run_op (StartOp (acct 1) wit_stake)) wit_m1.
Definition wit_m3 : State := final (run_op wit_offline) wit_m2.
Definition wit_log : list Message :=
  [] ++ [] ++ MqT.OutboundMessages (mq wit_m2) ++ drop (length (MqT.OutboundMessages (mq wit_m2))) (MqT.OutboundMessages (mq wit_m3)).

Lemma wit_chain : chain_run wit_genesis wit_log wit_m3.
Proof.
  unfold wit_log. rewrite !app_assoc.
  apply (chain_op _ _ wit_offline wit_m2).
  - apply (chain_op _ _ (StartOp (acct 1) wit_stake) wit_m1).
    + apply (chain_op _ _ (BindOp (acct 1) 5) wit_genesis); [apply chain_nil| |].
      * left. vm_compute. reflexivity.
      * vm_compute. reflexivity.
    + left. vm_compute. reflexivity.
    + vm_compute. reflexivity.
  - left. vm_compute. reflexivity.
  - vm_compute. reflexivity.
Qed.

Definition wit_events : list (BlockInfo * SystemEvent) :=
  (fun e => (mkBlockInfo 9 9000, e)) <$> omap system_event wit_log.
Definition wit_worker_end : WorkerSM.WorkerState * WorkerSMTracker :=
  final (E := Empty_set) (sync wit_events) (WorkerSM.new 5, mkWorkerSMTracker [] false).

Lemma wit_synced : sync (E := Empty_set) wit_events (WorkerSM.new 5, mkWorkerSMTracker [] false)
  = Ok tt (fst wit_worker_end, snd wit_worker_end).
Proof. vm_compute. reflexivity. Qed.

Lemma wit_paused : chain_session 5 wit_m3 = Some Paused.
Proof. vm_compute. reflexivity. Qed.

Lemma worker_mirrors_chain_witness :
  WorkerSM.wi_state <$> WorkerSM.ws_working_state (fst wit_worker_end) = Some Paused.
Proof.
  rewrite <- wit_paused.
  apply (proj2 (worker_mirrors_chain (qs := RoutingProps.route_SystemEvent 1)
      (qg := RoutingProps.route_GatekeeperEvent 1) (hs := RoutingProps.stake_pool_hooks_spec)
      (E := Empty_set) (fun _ => True) tr_waiting (spec := Replica.tracker_spec)
      wit_genesis wit_log wit_m3 wit_genesis_empty wit_chain 5)
    (WorkerSM.new 5) (mkWorkerSMTracker [] false) wit_events _ (snd wit_worker_end)).
  - exact I.
  - reflexivity.
  - reflexivity.
  - unfold wit_events. rewrite <- list_fmap_compose. apply list_fmap_id.
  - exact wit_synced.
Defined.

End Witness.
End SessionMirror.
