(* ===== verification/TokenomicProps.v ===== *)
(** * The payouts of a block

    What the workers of a block are paid, from the rules of one heartbeat. *)
From stdpp Require Import prelude list.
From Stdlib Require Import ZArith Lia.
From S2P Require Import Prelude Types Externals Reference Tokenomic.

Module TokenomicProps.

Record params_ok (params : Params) (blocks : Z) : Prop := {
  po_budget : 0 <= tp_budget_per_block params;
  po_fits : tp_budget_per_block params * Z.max 1 blocks < 2 ^ 128;
  po_payout : 0 <= tp_payout_ration params;
  po_treasury : 0 <= tp_treasury_ration params;
  po_total : tp_payout_ration params + tp_treasury_ration params = 2 ^ 64;
}.

(** A worker that last settled [blocks] blocks ago at most *)
Record worker_ok (block blocks : Z) (t : TokenomicInfo) : Prop := {
  wo_deductible : 0 <= v_deductible t <= v t;
  wo_v : v t < 2 ^ 128;
  wo_last : 0 <= v_update_block t;
  wo_block : block - v_update_block t <= blocks;
}.

Section Rounding.

Lemma floor_le a b : 0 < b -> a / b * b <= a.
Proof. intros Hb. rewrite Z.mul_comm. by apply Z.mul_div_le. Qed.

Lemma mul_floor_le a b c : 0 <= a -> 0 <= b <= c -> 0 < c -> a * b / c <= a.
Proof.
  intros Ha Hb Hc. apply Z.div_le_upper_bound; [done|]. nia.
Qed.

Lemma split_floor x p t : 0 <= x -> 0 <= p -> 0 <= t -> p + t = 2 ^ 64 -> x * p / 2 ^ 64 + x * t / 2 ^ 64 <= x.
Proof.
  intros Hx Hp Ht Hs. pose proof (floor_le (x * p) (2 ^ 64)). pose proof (floor_le (x * t) (2 ^ 64)). nia.
Qed.

(** The part of a share in the budget, rounded down twice *)
Lemma part_le sh sum B :
  0 <= sh -> 0 < sum -> 0 <= B -> sh * 2 ^ 64 / sum * B / 2 ^ 64 * sum <= sh * B.
Proof.
  intros Hs Hsum HB. set (q := sh * 2 ^ 64 / sum).
  assert (Hq : q * sum <= sh * 2 ^ 64) by (apply floor_le; lia).
  pose proof (floor_le (q * B) (2 ^ 64) ltac:(lia)) as Hb.
  assert (0 <= q) by (apply Z.div_pos; lia). nia.
Qed.

End Rounding.

Section Heartbeat.
Context {prof : Profile} {F : FixedLib} {fs : FixedSpec F} {E : Type}.

Definition share_is (t : TokenomicInfo) (sh : Z) : Prop := forall S (s : S), Tokenomic.share (E := E) t s = Ok sh s.

(** The payout of a heartbeat that is paid *)
Definition base (params : Params) (sh sum n : Z) : Z := sh * 2 ^ 64 / sum * tp_budget_per_block params / 2 ^ 64 * n.

Lemma base_bounds params sh sum n blocks :
  params_ok params blocks -> 0 <= sh <= sum -> 0 < sum -> 0 <= n <= blocks ->
  let q := sh * 2 ^ 64 / sum in let qb := q * tp_budget_per_block params / 2 ^ 64 in
  0 <= q <= 2 ^ 64 /\ 0 <= qb <= tp_budget_per_block params /\ 0 <= base params sh sum n < 2 ^ 128 /\
  base params sh sum n * sum <= sh * tp_budget_per_block params * blocks.
Proof.
  intros [HB Hf _ _ _] Hs Hsum Hn q qb. set (B := tp_budget_per_block params) in *.
  assert (Hq : 0 <= q <= 2 ^ 64).
  { split; [apply Z.div_pos; lia|]. unfold q. rewrite Z.mul_comm. apply mul_floor_le; lia. }
  assert (Hqb : 0 <= qb <= B).
  { split; [apply Z.div_pos; lia|]. unfold qb. rewrite Z.mul_comm. apply mul_floor_le; lia. }
  assert (Hp : qb * sum <= sh * B) by (apply part_le; lia).
  split_and!; try lia; unfold base; fold B q qb; nia.
Qed.

Lemma heartbeat_pays params sh sum now block blocks t :
  params_ok params blocks -> worker_ok block blocks t -> share_is t sh -> 0 <= sh <= sum -> 0 < sum ->
  0 < v_deductible t -> v_update_block t < block < 2 ^ 32 -> sh <> 0 ->
  let b := base params sh sum (block - v_update_block t) in
  let pay := b * tp_payout_ration params / 2 ^ 64 in
  Tokenomic.update_v_heartbeat (E := E) params sum now block t =
    Ok (pay, b * tp_treasury_ration params / 2 ^ 64)
       (Tokenomic.set_update now block (Tokenomic.set_v (v t - Z.min (v_deductible t) pay) 0 t)).
Proof.
  intros HP [Hd Hv Hl Hb] Hsh Hs Hsum Hd0 Hblk Hne b pay.
  destruct (base_bounds params sh sum (block - v_update_block t) blocks HP Hs Hsum ltac:(lia))
    as (Hq & Hqb & Hbase & _).
  destruct HP as [HB Hf Hpr Htr Htot]. fold b in Hbase.
  assert (Hpay : 0 <= pay <= b).
  { split; [apply Z.div_pos; lia|]. apply mul_floor_le; lia. }
  assert (Htre : 0 <= b * tp_treasury_ration params / 2 ^ 64 <= b).
  { split; [apply Z.div_pos; lia|]. apply mul_floor_le; lia. }
  unfold Tokenomic.update_v_heartbeat, mbind, gets, mret.
  rewrite (proj2 (Z.eqb_neq sum 0)), (proj2 (Z.eqb_neq _ 0)), (proj2 (Z.leb_gt _ _)), Hsh by lia.
  rewrite (proj2 (Z.eqb_neq sh 0)), (arith_fits 32), fx_from_num_spec by lia.
  assert (HB128 : tp_budget_per_block params < 2 ^ 128) by nia.
  assert (Hb64 : sh * 2 ^ 64 / sum * tp_budget_per_block params / 2 ^ 64 * ((block - v_update_block t) * 2 ^ 64) / 2 ^ 64
    = b) by by rewrite Z.mul_assoc, Z.div_mul.
  do 3 (rewrite ?fx_div_spec, ?fx_mul_spec by (rewrite ?Hb64; lia); cbn [expect_some mret]). rewrite Hb64.
  do 2 (rewrite fx_mul_spec by lia; cbn [expect_some mret]). fold pay.
  rewrite Z.max_l, fx_sub_spec by lia. done.
Qed.

(** A heartbeat that is not paid: nothing to deduct, no share, or paid already *)
Definition unpaid (sum sh block : Z) (t : TokenomicInfo) : Prop :=
  v_deductible t = 0 \/ sum = 0 \/ sh = 0 \/ block <= v_update_block t.

Lemma heartbeat_unpaid params sum sh now block t :
  share_is t sh -> unpaid sum sh block t ->
  Tokenomic.update_v_heartbeat (E := E) params sum now block t = Ok (0, 0) t.
Proof.
  intros Hsh Hu. unfold Tokenomic.update_v_heartbeat, mbind, gets, mret.
  destruct (Z.eqb_spec sum 0), (Z.eqb_spec (v_deductible t) 0), (Z.leb_spec block (v_update_block t)); try done.
  rewrite Hsh. destruct (Z.eqb_spec sh 0); [done|]. unfold unpaid in Hu. lia.
Qed.

Lemma no_deductible params sum now block t :
  v_deductible t = 0 -> Tokenomic.update_v_heartbeat (E := E) params sum now block t = Ok (0, 0) t.
Proof.
  intros Hd. unfold Tokenomic.update_v_heartbeat, mbind, gets, mret. rewrite Hd. by destruct (sum =? 0).
Qed.

(** Any number of heartbeats of a worker in one block, the payouts added up *)
Fixpoint heartbeats (n : nat) (params : Params) (sum now block : Z) : M TokenomicInfo E (Z * Z) :=
  match n with
  | O => mret (0, 0)
  | S n =>
      let* (p, q) := Tokenomic.update_v_heartbeat params sum now block in
      let* (p', q') := heartbeats n params sum now block in
      mret (p + p', q + q')
  end.

Lemma heartbeats_nothing n params sum now block t :
  Tokenomic.update_v_heartbeat (E := E) params sum now block t = Ok (0, 0) t ->
  heartbeats n params sum now block t = Ok (0, 0) t.
Proof. intros H. induction n as [|n IH]; [done|]. simpl. unfold mbind. by rewrite H, IH. Qed.

(** One worker in a block: its part of the budget at most, once *)
Lemma heartbeats_bounded n params sh sum now block blocks t :
  params_ok params blocks -> worker_ok block blocks t -> share_is t sh -> 0 <= sh <= sum ->
  block < 2 ^ 32 -> 0 <= blocks ->
  exists p q t', heartbeats n params sum now block t = Ok (p, q) t' /\ 0 <= p /\ 0 <= q /\
    (p + q) * sum <= sh * tp_budget_per_block params * blocks /\ v t - p <= v t' <= v t.
Proof.
  intros HP HW Hsh Hs Hblk Hn0. pose proof (po_budget _ _ HP) as HB.
  assert (Hno : heartbeats n params sum now block t = Ok (0, 0) t ->
    exists p q t', heartbeats n params sum now block t = Ok (p, q) t' /\ 0 <= p /\ 0 <= q /\
      (p + q) * sum <= sh * tp_budget_per_block params * blocks /\ v t - p <= v t' <= v t).
  { intros H. exists 0, 0, t. split_and!; try done; nia. }
  destruct n as [|n]; [by apply Hno|].
  destruct (Z.eq_dec (v_deductible t) 0), (Z.eq_dec sum 0), (Z.eq_dec sh 0), (Z_le_dec block (v_update_block t));
    try (apply Hno, heartbeats_nothing, (heartbeat_unpaid _ _ sh); [done|unfold unpaid; lia]).
  clear Hno. pose proof HW as [Hd' Hv Hl Hlast].
  destruct (base_bounds params sh sum (block - v_update_block t) blocks HP Hs ltac:(lia) ltac:(lia))
    as (_ & _ & Hbase & Hle).
  pose proof (heartbeat_pays params sh sum now block blocks t HP HW Hsh Hs ltac:(lia) ltac:(lia) ltac:(lia)
    ltac:(lia))    as Hpay. cbv zeta in Hpay. set (b := base params sh sum (block - v_update_block t)) in *.
  set (p := b * tp_payout_ration params / 2 ^ 64) in *. set (q := b * tp_treasury_ration params / 2 ^ 64) in *.
  destruct HP as [_ Hf Hpr Htr Htot].
  assert (0 <= p) by (apply Z.div_pos; lia). assert (0 <= q) by (apply Z.div_pos; lia).
  assert (p + q <= b) by (apply split_floor; lia).
  eexists p, q, (Tokenomic.set_update now block (Tokenomic.set_v (v t - Z.min (v_deductible t) p) 0 t)).
  split_and!; try done.
  - simpl. unfold mbind. rewrite Hpay, heartbeats_nothing by (by apply no_deductible).
    simpl. by rewrite !Z.add_0_r.
  - nia.
  - simpl. lia.
  - simpl. lia.
Qed.

(** A worker of the block: its record, its share, its heartbeats *)
Record entry := mkEntry { en_info : TokenomicInfo; en_share : Z; en_heartbeats : nat }.

Definition entry_ok (block blocks : Z) (x : entry) : Prop :=
  worker_ok block blocks (en_info x) /\ share_is (en_info x) (en_share x) /\ 0 <= en_share x.

Definition total (l : list Z) : Z := foldr Z.add 0 l.

Definition paid (params : Params) (sum now block : Z) (x : entry) (r : Z * Z) : Prop := exists t',
  heartbeats (en_heartbeats x) params sum now block (en_info x) = Ok r t' /\ 0 <= r.1 /\ 0 <= r.2 /\
  v (en_info x) - r.1 <= v t' <= v (en_info x).

Lemma block_parts params sum now block blocks ws :
  params_ok params blocks -> block < 2 ^ 32 -> 0 <= blocks -> Forall (entry_ok block blocks) ws ->
  total (en_share <$> ws) <= sum ->
  exists rs, Forall2 (paid params sum now block) ws rs /\
    total ((fun r => r.1 + r.2) <$> rs) * sum <= total (en_share <$> ws) * tp_budget_per_block params * blocks.
Proof.
  intros HP Hb Hn Hws. induction Hws as [|x ws (Hx & Hsh & H0) Hws IH]; rewrite ?fmap_cons; simpl; intros Hsum.
  { exists []. split; [done|]. simpl. lia. }
  assert (Hpos : 0 <= total (en_share <$> ws)).
  { clear -Hws. induction Hws as [|x ws (_ & _ & H0) _ IH]; [done|].
    rewrite fmap_cons. simpl. lia. }
  destruct IH as (rs & HF & Hle); [lia|].
  destruct (heartbeats_bounded (en_heartbeats x) params (en_share x) sum now block blocks (en_info x))
    as (p & q & t' & Hp & Hp0 & Hq0 & Hb1 & Hv); try done; [lia|].
  exists ((p, q) :: rs). split; [by constructor; [exists t'|]|]. rewrite fmap_cons. simpl.
  rewrite !Z.mul_add_distr_r in *. lia.
Qed.


End Heartbeat.

(** ** A witness: two workers, one of which sends two heartbeats *)
Section Witness.
Import RefInstances.

Definition wit_tokens (x n : Z) : TokenomicInfo :=
  mkTokenomicInfo (fp x 1) (fp x 1) (fp 2 1) 0 n 0 0 (fp 100 1) (fp 100 1) 1 false.
Definition wit_params : Params :=
  mkParams (fp 1 1) 0 (fp 100 1) (fp 30000 1) 0 0 (fp 2 10) (2 ^ 64 - fp 2 10) 10.
Definition wit_share (t : TokenomicInfo) : Z :=
  match Tokenomic.share (E := Empty_set) t tt with Ok x _ => x | _ => 0 end.
Definition wit_entry (t : TokenomicInfo) (n : nat) : entry := mkEntry t (wit_share t) n.
Definition wit_ws : list entry := [wit_entry (wit_tokens 3000 4) 2; wit_entry (wit_tokens 8000 7) 1].

Lemma wit_entry_ok x n h : (x, n) ∈ [(3000, 4); (8000, 7)] ->
  entry_ok (E := Empty_set) 9 5 (wit_entry (wit_tokens x n) h).
Proof.
  intros H. repeat (apply elem_of_cons in H as [[= -> ->]|H]); [..|by apply elem_of_nil in H].
  all: split; [by vm_compute|split; [intros S s; by vm_compute|by vm_compute]].
Qed.


End Witness.
End TokenomicProps.
