(* ===== verification/StopSettle.v ===== *)
(** * The settlement after a stop

    The gatekeeper answers the stop of a session with a last settlement of its
    worker; on the chain the session is cooling down by then. *)
From stdpp Require Import prelude gmap list strings.
From Stdlib Require Import ZArith Lia.
From S2P Require Import Prelude Types Externals BalanceConvert Reference Mq Computation ComputationInv ComputationProps.
From S2P Require Import SendQueue Benchmark WorkerSM Tokenomic Economics Replica PrReference.

Module StopSettle.
Import Computation ComputationT ComputationInv ComputationProps.

Section Gatekeeper.
Context {prof : Profile} {cfg : Config} {codec : Codec} {prcodec : PrCodec} {F : FixedLib} {E : Type}.

Definition settled (e : ComputingEconomics) : list SettleInfo := settle (report (eco_cache e)).

Lemma replay_keeps_cache m w : keeps eco_cache (Economics.replay (E := E) m w).
Proof. intros e. unfold wp, Economics.replay. by destruct (m _) as [? []|? []| |]. Qed.

Lemma replays_keep_cache block event :
  keeps eco_cache (Economics.ordmap_for_each_mut (E := E) (fun k w =>
    let* w := Economics.replay (WorkerSM.process_event block event) w in Economics.put_worker k w)).
Proof.
  pose proof replay_keeps_cache. unfold Economics.ordmap_for_each_mut, Economics.get_worker, Economics.put_worker.
  solve_keeps.
Qed.

(** A stopped worker is settled once more, without a payout. *)
Lemma stop_is_settled k o block w e :
  workers e !! k = Some w -> WorkerSM.ws_pubkey (wk_state w) = k ->
  wp True (Economics.process_system_event (E := E) (Pallet o) (WorkerEventWithKey k Stopped) block)
    (fun _ e' => exists x, settled e' = settled e ++ [mkSettleInfo k x 0 0]) (fun _ _ => True) e.
Proof.
  intros Hw Hk. set (step := Replica.replica_step block (WorkerEventWithKey k Stopped)).
  unfold Economics.process_system_event. cbn [is_pallet negb]. do 3 wp_step.
  eapply wp_mono; [apply wp_and; [apply (Replica.ordmap_pointwise _ step)|apply replays_keep_cache]| |done].
  - intros k' w' e'. wp_step. eapply Replica.wp_replay; [intros tr; by apply Replica.process_event_refines|].
    intros st Hst. apply wp_modify. eexists. split; [|reflexivity]. by split.
  - intros [] e1 [Hp Hc]. specialize (Hp k). rewrite Hw in Hp. destruct Hp as (w1 & Hw1 & Hv & _).
    unfold Economics.get_worker. do 2 wp_step. cbv beta. rewrite Hw1. apply wp_modify.
    apply (f_equal Replica.vw_key) in Hv. simpl in Hv. rewrite Hk, Z.eqb_refl in Hv. simpl in Hv.
    eexists. unfold settled, upd_report. simpl. rewrite Hc, Hv, Hk. reflexivity.
Qed.

End Gatekeeper.

Section Chain.
Context {cfg : Config} {F : FixedLib} {codec : Codec} {pal : Pallets} {prcodec : PrCodec}
  {notify : QueueNotifyConfig} {hooks : ComputationHooks}
  {qs : QuietTopic notify SystemEvent_topic} {qg : QuietTopic notify GatekeeperEvent_topic}
  {hs : ComputationHooksSpec hooks} {E : Type}.

(** The settlement is the latest word on the session. *)
Lemma settle_cooling_down info now ts a i s :
  WorkerBindings (computation s) !! si_pubkey info = Some a -> Sessions (computation s) !! a = Some i ->
  state i = WorkerCoolingDown -> v_updated_at i < ts ->
  if debug_assertions then try_handle_settle info now ts s = Panic
  else wp True (try_handle_settle info now ts) (fun _ s' => exists i',
    Sessions (computation s') !! a = Some i' /\ state i' = WorkerCoolingDown /\ Types.v i' = si_v info)
    (fun _ _ => True) s.
Proof.
  intros Ha Hi Hst Hts. destruct debug_assertions eqn:Hd.
  - unfold try_handle_settle, get_session, mbind, gets, debug_assert. rewrite Ha, Hi. simpl. by rewrite Hd, Hst.
  - unfold try_handle_settle, get_session, put_session, upd_computation, withdraw_imbalance_from_subsidy_pool.
    apply wp_bind, wp_gets. rewrite Ha. wp_lines; [|done|done].
    assert (a0 = i) as -> by congruence.
    destruct (Z.geb_spec (v_updated_at i) ts); [lia|].
    pose proof @stats_on_reward_keeps. apply wp_bind, keeps_wp_sessions; [solve_keeps| |done]. intros st.
    apply wp_bind, wp_modify. eapply (keeps_wp computation); [done|solve_keeps| |done].
    intros [] s' Ec. rewrite Ec. simpl. eexists. rewrite lookup_insert_eq. split_and!; done.
Qed.

(** When a session is stopped, the gatekeeper that handles the stop settles
    the worker once more, and the chain gets that settlement while the session
    is cooling down: a build with debug assertions panics in the block, any
    other takes the settlement and overwrites V, although a settlement of a
    session that cools down is meant to be refused. *)
Theorem stop_settles_while_cooling_down a k i s s1 o block w e e' now ts :
  Inv s -> SessionBindings (computation s) !! a = Some k -> Sessions (computation s) !! a = Some i ->
  stop_computing a s = Ok tt s1 ->
  workers e !! k = Some w -> WorkerSM.ws_pubkey (wk_state w) = k ->
  Economics.process_system_event (E := E) (Pallet o) (WorkerEventWithKey k Stopped) block e = Ok tt e' ->
  v_updated_at i < ts ->
  exists x, settled e' = settled e ++ [mkSettleInfo k x 0 0] /\
    if debug_assertions then try_handle_settle (mkSettleInfo k x 0 0) now ts s1 = Panic
    else forall s2, try_handle_settle (mkSettleInfo k x 0 0) now ts s1 = Ok tt s2 ->
      exists i', Sessions (computation s2) !! a = Some i' /\ state i' = WorkerCoolingDown /\ Types.v i' = x.
Proof.
  intros Hs Hk Hi Hstop Hw Hkey He Hts.
  destruct (wp_ok _ _ _ _ _ _ _ (stop_is_settled k o block w e Hw Hkey) He) as [x Hx].
  destruct (wp_ok _ _ _ _ _ _ _ (stop_computing_spec a s Hs) Hstop) as (Hs1 & k' & i' & Hk' & Hi' & _ & Hv).
  assert (k' = k) as -> by congruence. assert (i' = i) as -> by congruence.
  exists x. split; [done|]. injection Hv as _ Ec.
  pose proof (settle_cooling_down (mkSettleInfo k x 0 0) now ts a
    (set_cool_down_start (unix_time_ms s / 1000) (set_state WorkerCoolingDown i)) s1) as H.
  rewrite Ec in H. simpl in H. rewrite lookup_insert_eq in H.
  specialize (H (proj1 (inv_bij _ _ Hs a k) Hk) eq_refl eq_refl Hts).
  destruct debug_assertions; [done|]. intros s2 H2. exact (wp_ok _ _ _ _ _ _ _ H H2).
Qed.

End Chain.

(** ** A witness: worker 5, with debug assertions *)
Section Witness.
Import RefInstances PrInstances.
#[local] Existing Instance notify_nothing.
#[local] Existing Instance hooks_nothing.

Definition wit_last : ComputingEconomics :=
  PrWitness.wit_gk 4 (WorkerEventWithKey 5 Stopped) PrWitness.wit_e3.

Lemma wit_started_inv : Inv wit_started.
Proof.
  apply (comp_step_inv (Some (StartOp (acct 1) wit_stake)) wit_bound); [|apply wit_bound_inv].
  apply step_ok. vm_compute. reflexivity.
Qed.

Lemma stop_settles_while_cooling_down_witness : exists x,
  settled wit_last = settled PrWitness.wit_e3 ++ [mkSettleInfo 5 x 0 0] /\
  try_handle_settle (mkSettleInfo 5 x 0 0) 2000000 2000000 wit_stopped = Panic.
Proof.
  destruct (Sessions (computation wit_started) !! acct 1) as [i|] eqn:Hi; [|by vm_compute in Hi].
  destruct (workers PrWitness.wit_e3 !! 5) as [w|] eqn:Hw; [|by vm_compute in Hw].
  apply (stop_settles_while_cooling_down (E := Empty_set) (acct 1) 5 i wit_started wit_stopped []
    (PrWitness.wit_block 4) w PrWitness.wit_e3 wit_last 2000000 2000000).
  - exact wit_started_inv.
  - vm_compute. reflexivity.
  - exact Hi.
  - vm_compute. reflexivity.
  - exact Hw.
  - vm_compute in Hw. by injection Hw as <-.
  - vm_compute. reflexivity.
  - vm_compute in Hi. by injection Hi as <-.
Defined.

End Witness.
End StopSettle.
