(* ===== verification/Anchor.v ===== *)
(** * Off-chain rollup: pallets/offchain-rollup

    The anchor pallet (anchor.rs) keeps a key-value store and a message queue for
    each Phat contract that claimed a name, and runs the rollup transactions of
    its submitter; the sample oracle (oracle.rs) receives their replies. *)
From stdpp Require Import prelude gmap list strings.
From Stdlib Require Import ZArith Lia.
From S2P Require Import Prelude Types.

(** ** types.rs *)
Inductive Cond := CondEq (key : bytes) (opt_value : option bytes).

Inductive Action := Reply (data : bytes) | SetQueueHead (head : Z).

Record RollupTx := mkRollupTx {
  conds : list Cond;
  actions : list bytes;
  updates : list (bytes * option bytes);
}.

(** ** oracle.rs *)
Record PriceQuote := mkPriceQuote {
  quote_contract_id : H256;
  quote_price : Z;
  quote_timestamp_ms : Z;
}.

(** [resp_owner] is an [AccountId32] *)
Record ResponseRecord := mkResponseRecord {
  resp_owner : H256;
  resp_contract_id : H256;
  resp_pair : bytes;
  resp_price : Z;
  resp_timestamp_ms : Z;
}.

(** The storage of both pallets, and the constants of their configuration *)
Class RollupConfig := {
  QueuePrefix : bytes;
  QueueCapacity : Z;
  decode_Action : bytes -> option Action;
  decode_ResponseRecord : bytes -> option ResponseRecord;
}.

Inductive AnchorEvent {cfg : Config} :=
| NameClaimed (submitter : AccountId) (name : H256)
| RollupExecuted (submitter : AccountId) (name : H256) (nonce : Z)
| QuoteReceived (contract : H256) (submitter : AccountId) (owner : H256) (pair : bytes) (price : Z).

Inductive AnchorError :=
| NameAlreadyClaimed | NameNotExist | NotOwner | CondNotMet | FailedToDecodeAction | QueueIsFull
| InvalidQueueHead
| FailedToAuthenticateResponse | FailedToDecodeResponse
| AnchorBadOrigin.

Record AnchorStore {cfg : Config} := mkAnchorStore {
  SubmitterByNames : gmap H256 AccountId;
  States : gmap (H256 * bytes) bytes;
  PriceFeeds : gmap (H256 * bytes) PriceQuote;
  anchor_events : list AnchorEvent;
}.

(** The SCALE codec of [u32]: four bytes, the lowest first; decoding ignores what
    follows *)
Definition encode_u32 (n : Z) : bytes :=
  [n mod 256; n / 256 mod 256; n / 65536 mod 256; n / 16777216 mod 256].

Definition decode_u32 (b : bytes) : option Z :=
  match b with
  | a :: b :: c :: d :: _ => Some (a + 256 * b + 65536 * c + 16777216 * d)
  | _ => None
  end.

Definition MAX_KEY_BYTES : nat := 128.
Definition MAX_VALUE_BYTES : nat := 2048.

Module Anchor.
Section Anchor.
Context {cfg : Config} {rc : RollupConfig}.
Abbreviation A := (M AnchorStore AnchorError).

Definition set_SubmitterByNames (x : gmap H256 AccountId) (s : AnchorStore) : AnchorStore :=
  mkAnchorStore _ x (States s) (PriceFeeds s) (anchor_events s).
Definition set_States (x : gmap (H256 * bytes) bytes) (s : AnchorStore) : AnchorStore :=
  mkAnchorStore _ (SubmitterByNames s) x (PriceFeeds s) (anchor_events s).
Definition set_PriceFeeds (x : gmap (H256 * bytes) PriceQuote) (s : AnchorStore) : AnchorStore :=
  mkAnchorStore _ (SubmitterByNames s) (States s) x (anchor_events s).
Definition emit (ev : AnchorEvent) : A unit :=
  modify (fun s => mkAnchorStore _ (SubmitterByNames s) (States s) (PriceFeeds s) (anchor_events s ++ [ev])).

Definition ensure_signed (origin : Origin) : A AccountId :=
  match origin with Signed who => mret who | _ => fail AnchorBadOrigin end.

(** ** The queue, in the key-value store *)
Definition HEAD : bytes := bytes_of_string "_head".
Definition TAIL : bytes := bytes_of_string "_tail".

(** [queue_key]; [index] is encoded already *)
Definition queue_key (index : bytes) : A bytes :=
  let key := QueuePrefix ++ index in
  if (length key <=? MAX_KEY_BYTES)%nat then mret key else panic.

Definition queue_set (name : H256) (index data : bytes) : A unit :=
  let* k := queue_key index in
  modify (fun s => set_States (<[(name, k) := data]> (States s)) s).

Definition queue_get (name : H256) (index : bytes) : A (option bytes) :=
  let* k := queue_key index in
  gets (fun s => States s !! (name, k)).

Definition queue_remove (name : H256) (index : bytes) : A unit :=
  let* k := queue_key index in
  modify (fun s => set_States (delete (name, k) (States s)) s).

(** [None] is a value that is no number *)
Definition queue_get_u32 (name : H256) (index : bytes) : A (option Z) :=
  let* b := queue_get name index in
  mret (match b with None => Some 0 | Some b => decode_u32 b end).

Definition queue_set_u32 (name : H256) (index : bytes) (value : Z) : A unit :=
  queue_set name index (encode_u32 value).

Definition queue_head (name : H256) : A Z := let* n := queue_get_u32 name HEAD in expect_some n.

Definition queue_tail (name : H256) : A Z := let* n := queue_get_u32 name TAIL in expect_some n.

Definition queue_len (name : H256) : A Z :=
  let* tail := queue_tail name in
  let* head := queue_head name in
  mret (Z.max 0 (tail - head)).

Definition queue_tail_set (name : H256) (index : Z) : A unit := queue_set_u32 name TAIL index.

Definition queue_head_set (name : H256) (index : Z) : A unit :=
  let* head := queue_head name in
  let* tail := queue_tail name in
  ensure ((head <=? index) && (index <=? tail)) InvalidQueueHead;;;
  for_each (seqZ head (index - head)) (fun i => queue_remove name (encode_u32 i));;;
  queue_set_u32 name HEAD index.

(** Returns the index of the message *)
Definition push_message (name : H256) (data : bytes) : A Z :=
  let* owner := gets (fun s => SubmitterByNames s !! name) in
  ensure (bool_decide (is_Some owner)) NameNotExist;;;
  let* len := queue_len name in
  ensure (len <? QueueCapacity) QueueIsFull;;;
  let* end_ := queue_tail name in
  queue_set name (encode_u32 end_) data;;;
  let* next := arith 32 (end_ + 1) in
  queue_tail_set name next;;;
  mret end_.

(** ** The oracle *)
Definition on_response (name : H256) (submitter : AccountId) (data : bytes) : A unit :=
  let* resp := ok_or (decode_ResponseRecord data) FailedToDecodeResponse in
  if negb (resp_contract_id resp =? name) then fail FailedToAuthenticateResponse
  else
    modify (fun s => set_PriceFeeds (<[(resp_owner resp, resp_pair resp) :=
      mkPriceQuote (resp_contract_id resp) (resp_price resp) (resp_timestamp_ms resp)]> (PriceFeeds s)) s);;;
    emit (QuoteReceived name submitter (resp_owner resp) (resp_pair resp) (resp_price resp)).

Definition request (origin : Origin) (name : H256) (data : bytes) (nonce : Z) : A unit :=
  transactional (let* _ := ensure_signed origin in mret tt).

(** ** Calls *)
Definition claim_name (origin : Origin) (name : H256) : A unit :=
  transactional (
    let* who := ensure_signed origin in
    let* owner := gets (fun s => SubmitterByNames s !! name) in
    ensure (bool_decide (owner = None)) NameAlreadyClaimed;;;
    modify (fun s => set_SubmitterByNames (<[name := who]> (SubmitterByNames s)) s);;;
    emit (NameClaimed who name)).

Definition ensure_name_owner (name : H256) (caller : AccountId) : A unit :=
  let* owner := gets (fun s => SubmitterByNames s !! name) in
  let* owner := ok_or owner NameNotExist in
  ensure (bool_decide (owner = caller)) NotOwner.

Definition check_cond (name : H256) (c : Cond) : A unit :=
  let '(CondEq key opt_value) := c in
  let* v := gets (fun s => States s !! (name, key)) in
  ensure (bool_decide (v = opt_value)) CondNotMet.

Definition apply_update (name : H256) (u : bytes * option bytes) : A unit :=
  modify (fun s => set_States (match snd u with
    | Some v => <[(name, fst u) := v]> (States s)
    | None => delete (name, fst u) (States s)
    end) s).

Definition exec_action (name : H256) (who : AccountId) (raw_act : bytes) : A unit :=
  let* act := ok_or (decode_Action raw_act) FailedToDecodeAction in
  match act with
  | Reply data => on_response name who data
  | SetQueueHead head => queue_head_set name head
  end.

Definition rollup (origin : Origin) (name : H256) (tx : RollupTx) (nonce : Z) : A unit :=
  transactional (
    let* who := ensure_signed origin in
    ensure_name_owner name who;;;
    for_each (conds tx) (check_cond name);;;
    for_each (updates tx) (apply_update name);;;
    for_each (actions tx) (exec_action name who);;;
    emit (RollupExecuted who name nonce)).

End Anchor.
End Anchor.
