(* ===== verification/AnchorProps.v ===== *)
(** * Properties of the rollup anchor

    The queue of a name behaves as a first-in first-out queue with stable
    indices, rollup transactions are atomic and conditional, and what happens
    when a transaction writes into the queue's keys. *)
From stdpp Require Import prelude gmap list strings.
From Stdlib Require Import ZArith Lia.
From S2P Require Import Prelude Types Reference Anchor.

Module AnchorProps.
Import Anchor.

Section Codec.

Lemma decode_encode_u32 n rest : 0 <= n < 2 ^ 32 -> decode_u32 (encode_u32 n ++ rest) = Some n.
Proof.
  intros Hn. simpl. f_equal.
  pose proof (Z.div_mod n 256 ltac:(lia)). pose proof (Z.div_mod (n / 256) 256 ltac:(lia)).
  pose proof (Z.div_mod (n / 65536) 256 ltac:(lia)).
  replace (n / 256 / 256) with (n / 65536) in * by (rewrite Z.div_div by lia; done).
  replace (n / 65536 / 256) with (n / 16777216) in * by (rewrite Z.div_div by lia; done).
  rewrite (Z.mod_small (n / 16777216)); [lia|]. split; [apply Z.div_pos; lia|].
  apply Z.div_lt_upper_bound; lia.
Qed.

Lemma encode_u32_inj n n' : 0 <= n < 2 ^ 32 -> 0 <= n' < 2 ^ 32 -> encode_u32 n = encode_u32 n' -> n = n'.
Proof.
  intros Hn Hn' He. pose proof (decode_encode_u32 n [] Hn) as H. rewrite He, decode_encode_u32 in H by done.
  congruence.
Qed.

End Codec.

(** ** The abstract queue: the index of its first message and the messages *)
Record Fifo := mkFifo { ff_head : Z; ff_messages : list bytes }.

Definition ff_tail (q : Fifo) : Z := ff_head q + Z.of_nat (length (ff_messages q)).

Definition ff_push (d : bytes) (q : Fifo) : Fifo := mkFifo (ff_head q) (ff_messages q ++ [d]).

Definition ff_set_head (n : Z) (q : Fifo) : Fifo := mkFifo n (drop (Z.to_nat (n - ff_head q)) (ff_messages q)).

Section Queue.
Context {cfg : Config} {rc : RollupConfig}.
Context (Hprefix : (length QueuePrefix <= 123)%nat).

Definition key (index : bytes) : bytes := QueuePrefix ++ index.

Definition counter (name : H256) (index : bytes) (s : AnchorStore) : option Z :=
  match States s !! (name, key index) with None => Some 0 | Some b => decode_u32 b end.

(** The store of [name] holds the queue [q]. *)
Record holds (name : H256) (q : Fifo) (s : AnchorStore) : Prop := {
  h_range : 0 <= ff_head q /\ ff_tail q < 2 ^ 32;
  h_head : counter name HEAD s = Some (ff_head q);
  h_tail : counter name TAIL s = Some (ff_tail q);
  h_messages : forall i d, ff_messages q !! i = Some d ->
    States s !! (name, key (encode_u32 (ff_head q + Z.of_nat i))) = Some d;
}.

Lemma wp_queue_key index P (Q : bytes -> AnchorStore -> Prop) R s :
  (length index <= 5)%nat -> Q (key index) s -> wp P (queue_key index) Q R s.
Proof.
  intros Hl HQ. unfold queue_key. rewrite length_app.
  destruct (Nat.leb_spec (length QueuePrefix + length index) MAX_KEY_BYTES) as [|Hgt]; [by apply wp_ret|].
  unfold MAX_KEY_BYTES in Hgt. lia.
Qed.

Lemma queue_key_ok index s : (length index <= 5)%nat -> queue_key index s = Ok (key index) s.
Proof.
  intros Hl. unfold queue_key. rewrite length_app.
  destruct (Nat.leb_spec (length QueuePrefix + length index) MAX_KEY_BYTES) as [|Hgt]; [done|].
  unfold MAX_KEY_BYTES in Hgt. lia.
Qed.

Lemma queue_set_ok name index d s : (length index <= 5)%nat ->
  queue_set name index d s = Ok tt (set_States (<[(name, key index) := d]> (States s)) s).
Proof. intros Hl. unfold queue_set, mbind. by rewrite queue_key_ok. Qed.

Lemma queue_remove_ok name index s : (length index <= 5)%nat ->
  queue_remove name index s = Ok tt (set_States (delete (name, key index) (States s)) s).
Proof. intros Hl. unfold queue_remove, mbind. by rewrite queue_key_ok. Qed.

Lemma get_u32_ok name index s : (length index <= 5)%nat ->
  queue_get_u32 name index s = Ok (counter name index s) s.
Proof. intros Hl. unfold queue_get_u32, queue_get, mbind. by rewrite queue_key_ok. Qed.

Lemma queue_head_ok name s n : counter name HEAD s = Some n -> queue_head name s = Ok n s.
Proof. intros Hn. unfold queue_head, mbind. rewrite get_u32_ok by (simpl; lia). by rewrite Hn. Qed.

Lemma queue_tail_ok name s n : counter name TAIL s = Some n -> queue_tail name s = Ok n s.
Proof. intros Hn. unfold queue_tail, mbind. rewrite get_u32_ok by (simpl; lia). by rewrite Hn. Qed.

Lemma key_inj a b : key a = key b -> a = b.
Proof. apply app_inv_head. Qed.

Lemma key_index_counter n index : index = HEAD \/ index = TAIL -> key (encode_u32 n) <> key index.
Proof. intros Hi He. apply key_inj in He. by destruct Hi as [-> | ->]. Qed.

(** A write elsewhere *)
Lemma holds_write name q s m :
  (forall index, index = HEAD \/ index = TAIL \/ (exists i, 0 <= i < 2 ^ 32 /\ index = encode_u32 i) ->
     m !! (name, key index) = States s !! (name, key index)) ->
  holds name q s -> holds name q (set_States m s).
Proof.
  intros Hm [Hr Hh Ht Hd]. split; [done| | |].
  - unfold counter in *. simpl. by rewrite Hm by auto.
  - unfold counter in *. simpl. by rewrite Hm by auto.
  - intros i d Hi. simpl. rewrite Hm; [by apply Hd|]. right; right. eexists. split; [|done].
    apply lookup_lt_Some in Hi. unfold ff_tail in Hr. lia.
Qed.

(** What an operation on the queue of [name] leaves alone *)
Definition apart (name : H256) (s s' : AnchorStore) : Prop :=
  SubmitterByNames s' = SubmitterByNames s /\ PriceFeeds s' = PriceFeeds s /\
  forall name' k, name' <> name -> States s' !! (name', k) = States s !! (name', k).

Lemma apart_refl name s : apart name s s.
Proof. done. Qed.

Lemma apart_trans name s s1 s2 : apart name s s1 -> apart name s1 s2 -> apart name s s2.
Proof.
  intros (H1 & H2 & H3) (H1' & H2' & H3'). split_and!; [congruence|congruence|].
  intros name' k Hn. by rewrite H3', H3.
Qed.

Lemma apart_write name k d s : apart name s (set_States (<[(name, k) := d]> (States s)) s).
Proof. split_and!; [done|done|]. intros name' k' Hn. simpl. rewrite lookup_insert_ne; [done|]. congruence. Qed.

Lemma apart_delete name k s : apart name s (set_States (delete (name, k) (States s)) s).
Proof. split_and!; [done|done|]. intros name' k' Hn. simpl. rewrite lookup_delete_ne; [done|]. congruence. Qed.

Lemma queue_len_ok name q s : holds name q s ->
  queue_len name s = Ok (Z.of_nat (length (ff_messages q))) s.
Proof.
  intros [Hr Hh Ht _]. unfold queue_len, mbind. rewrite (queue_tail_ok _ _ _ Ht), (queue_head_ok _ _ _ Hh).
  unfold ff_tail, mret. do 2 f_equal. lia.
Qed.

Lemma push_message_fifo name q d s :
  holds name q s -> is_Some (SubmitterByNames s !! name) ->
  Z.of_nat (length (ff_messages q)) < QueueCapacity -> ff_tail q + 1 < 2 ^ 32 ->
  exists s', push_message name d s = Ok (ff_tail q) s' /\ holds name (ff_push d q) s' /\ apart name s s'.
Proof.
  intros Hq Ho Hc Hmax. pose proof Hq as [Hr Hh Ht Hd].
  unfold push_message, mbind, gets, ensure. rewrite bool_decide_eq_true_2 by done.
  cbn [mret]. rewrite (queue_len_ok _ _ _ Hq), (proj2 (Z.ltb_lt _ _)) by done. cbn [mret].
  rewrite (queue_tail_ok _ _ _ Ht), queue_set_ok by (simpl; lia). rewrite arith_fits by (unfold ff_tail in *; lia).
  unfold queue_tail_set, queue_set_u32. rewrite queue_set_ok by (simpl; lia).
  eexists. split; [reflexivity|]. split; [|eapply apart_trans; apply apart_write].
  assert (Htail : ff_tail (ff_push d q) = ff_tail q + 1).
  { unfold ff_tail. simpl. rewrite length_app. simpl. lia. }
  split.
  - rewrite Htail. simpl. lia.
  - unfold counter. simpl. rewrite lookup_insert_ne by (intros [= He]; by apply key_inj in He).
    rewrite lookup_insert_ne by (intros [= He]; by apply key_inj in He). exact Hh.
  - unfold counter. simpl. rewrite lookup_insert_eq, Htail. rewrite <- (app_nil_r (encode_u32 _)).
    apply decode_encode_u32. unfold ff_tail in *. lia.
  - intros i x Hi. simpl. rewrite lookup_insert_ne by (intros [= He]; by apply key_inj in He).
    simpl in Hi. apply lookup_app_Some in Hi as [Hi|[Hi1 Hi2]].
    + rewrite lookup_insert_ne; [by apply Hd|]. intros [= He]. apply key_inj, encode_u32_inj in He.
      all: apply lookup_lt_Some in Hi; unfold ff_tail in *; lia.
    + apply list_lookup_singleton_Some in Hi2 as [Hi2 <-].
      replace (ff_head q + Z.of_nat i) with (ff_tail q) by (unfold ff_tail; lia). by rewrite lookup_insert_eq.
Qed.

Lemma push_message_full name q d s :
  holds name q s -> is_Some (SubmitterByNames s !! name) ->
  QueueCapacity <= Z.of_nat (length (ff_messages q)) -> push_message name d s = Err QueueIsFull s.
Proof.
  intros Hq Ho Hc. unfold push_message, mbind, gets, ensure. rewrite bool_decide_eq_true_2 by done.
  cbn [mret]. rewrite (queue_len_ok _ _ _ Hq), (proj2 (Z.ltb_ge _ _)) by done. done.
Qed.

Lemma removes_ok name l s : exists s',
  for_each l (fun i => queue_remove name (encode_u32 i)) s = Ok tt s' /\ apart name s s' /\
  forall k, (forall i, i ∈ l -> k <> key (encode_u32 i)) -> States s' !! (name, k) = States s !! (name, k).
Proof.
  revert s. induction l as [|i l IH]; intros s; simpl; [by exists s|].
  unfold mbind. rewrite queue_remove_ok by (simpl; lia).
  destruct (IH (set_States (delete (name, key (encode_u32 i)) (States s)) s)) as (s' & -> & Ha & Hk).
  exists s'. split; [done|]. split; [eapply apart_trans; [apply apart_delete|done]|].
  intros k Hne. rewrite Hk by set_solver. simpl. rewrite lookup_delete_ne; [done|].
  intros [= He]. by apply (Hne i); [set_solver|].
Qed.

Lemma queue_head_set_fifo name q n s :
  holds name q s -> ff_head q <= n <= ff_tail q ->
  exists s', queue_head_set name n s = Ok tt s' /\ holds name (ff_set_head n q) s' /\ apart name s s'.
Proof.
  intros Hq Hn. pose proof Hq as [Hr Hh Ht Hd]. unfold queue_head_set, mbind, ensure.
  rewrite (queue_head_ok _ _ _ Hh), (queue_tail_ok _ _ _ Ht).
  rewrite (proj2 (Z.leb_le _ _)), (proj2 (Z.leb_le _ _)) by lia. cbn [andb mret].
  destruct (removes_ok name (seqZ (ff_head q) (n - ff_head q)) s) as (s1 & -> & Ha & Hk).
  unfold queue_set_u32. rewrite queue_set_ok by (simpl; lia).
  eexists. split; [reflexivity|]. split; [|eapply apart_trans; [done|apply apart_write]].
  assert (Htail : ff_tail (ff_set_head n q) = ff_tail q).
  { unfold ff_tail in *. simpl. rewrite length_drop. lia. }
  split.
  - rewrite Htail. simpl. lia.
  - unfold counter. simpl. rewrite lookup_insert_eq, <- (app_nil_r (encode_u32 _)).
    apply decode_encode_u32. unfold ff_tail in *. lia.
  - unfold counter. simpl. rewrite lookup_insert_ne by (intros [= He]; by apply key_inj in He).
    rewrite Hk by (intros i _ He; by apply key_inj in He). by rewrite Htail.
  - intros i x Hi. simpl in *. rewrite lookup_insert_ne by (intros [= He]; by apply key_inj in He).
    rewrite lookup_drop in Hi. rewrite Hk.
    + replace (n + Z.of_nat i) with (ff_head q + Z.of_nat (Z.to_nat (n - ff_head q) + i)) by lia. by apply Hd.
    + intros j Hj He. apply elem_of_seqZ in Hj. apply lookup_lt_Some in Hi.
      apply key_inj, encode_u32_inj in He; unfold ff_tail in *; lia.
Qed.

Lemma queue_head_set_invalid name q n s :
  holds name q s -> ~ ff_head q <= n <= ff_tail q -> queue_head_set name n s = Err InvalidQueueHead s.
Proof.
  intros [Hr Hh Ht Hd] Hn. unfold queue_head_set, mbind, ensure.
  rewrite (queue_head_ok _ _ _ Hh), (queue_tail_ok _ _ _ Ht).
  destruct (Z.leb_spec (ff_head q) n), (Z.leb_spec n (ff_tail q)); try done. lia.
Qed.

(** ** Rollups and the queue *)
Definition head_after (q : Fifo) (raw : bytes) : Fifo :=
  match decode_Action raw with Some (SetQueueHead n) => ff_set_head n q | _ => q end.

(** No update writes a key of the queue. *)
Definition clean (tx : RollupTx) : Prop := forall u, u ∈ updates tx -> ~ QueuePrefix `prefix_of` fst u.

Definition queues (Q : H256 -> Fifo) (s : AnchorStore) : Prop := forall name, holds name (Q name) s.

Definition upd (name : H256) (q : Fifo) (Q : H256 -> Fifo) : H256 -> Fifo :=
  fun name' => if decide (name' = name) then q else Q name'.

Lemma holds_states name q s s' :
  (forall k, States s' !! (name, k) = States s !! (name, k)) -> holds name q s -> holds name q s'.
Proof.
  intros E [Hr Hh Ht Hd]. split; [done| | |]; unfold counter in *; [by rewrite E..|].
  intros i d Hi. rewrite E. by apply Hd.
Qed.

(** An operation on [name] *)
Lemma queues_upd name q Q s s' :
  queues Q s -> holds name q s' -> apart name s s' -> queues (upd name q Q) s'.
Proof.
  intros HQ Hq (_ & _ & Ha) n. unfold upd. destruct (decide (n = name)) as [->|Hn]; [done|].
  apply (holds_states n _ s); [|done]. intros k. by apply Ha.
Qed.

Lemma check_conds_keep name l : keeps id (for_each l (check_cond name)).
Proof. unfold check_cond. solve_keeps. Qed.

Lemma updates_hold name q l s :
  (forall u, u ∈ l -> ~ QueuePrefix `prefix_of` fst u) -> holds name q s ->
  wp True (for_each l (apply_update name)) (fun _ s' => holds name q s' /\ apart name s s') (fun _ _ => True) s.
Proof.
  revert s. induction l as [|[k o] l IH]; intros s Hl Hq; simpl; [by apply wp_ret|].
  apply wp_bind, wp_modify. set (s1 := set_States _ s).
  assert (Hq1 : holds name q s1).
  { apply holds_write; [|done]. intros index _. simpl.
    assert (k <> key index) by (intros ->; apply (Hl (key index, o)); [set_solver|]; by eexists).
    destruct o; [rewrite lookup_insert_ne|rewrite lookup_delete_ne]; congruence. }
  eapply wp_mono; [apply (IH s1); [set_solver|done]| |done]. intros [] s2 [H1 H2]. split; [done|].
  eapply apart_trans; [|done]. unfold s1. simpl. destruct o; [apply apart_write|apply apart_delete].
Qed.

Lemma on_response_apart name who d s :
  wp True (on_response name who d) (fun _ s' => States s' = States s /\ SubmitterByNames s' = SubmitterByNames s)
    (fun _ _ => True) s.
Proof. unfold on_response, emit. wp_steps; done. Qed.

(** What the actions of [name] leave alone: the quotes may change *)
Definition apart_states (name : H256) (s s' : AnchorStore) : Prop :=
  SubmitterByNames s' = SubmitterByNames s /\
  forall name' k, name' <> name -> States s' !! (name', k) = States s !! (name', k).

Lemma actions_hold name who l q s :
  holds name q s ->
  wp True (for_each l (exec_action name who))
    (fun _ s' => holds name (foldl head_after q l) s' /\ apart_states name s s') (fun _ _ => True) s.
Proof.
  revert q s. induction l as [|raw l IH]; intros q s Hq; simpl; [by apply wp_ret|].
  apply wp_bind. apply wp_mono with (R := fun _ _ => True)
    (Q := fun _ s1 => holds name (head_after q raw) s1 /\ apart_states name s s1); [| |done].
  - unfold exec_action, head_after. wp_step. wp_step; [|done]. rewrite H. destruct a as [d|n].
    + eapply wp_mono; [apply on_response_apart| |done]. intros [] s1 [H1 H2]. split.
      * apply (holds_states name q s); [|done]. intros k. by rewrite H1.
      * split; [done|]. intros. by rewrite H1.
    + destruct (decide (ff_head q <= n <= ff_tail q)) as [Hn|Hn].
      * destruct (queue_head_set_fifo name q n s Hq Hn) as (s1 & E & Hq1 & Ha1 & Ha2 & Ha3).
        unfold wp. rewrite E. by split.
      * unfold wp. by rewrite (queue_head_set_invalid name q n s Hq Hn).
  - intros [] s1 [Hq1 [H1 H2]]. eapply wp_mono; [by apply IH| |done]. intros [] s2 [Hq2 [H3 H4]].
    split; [done|]. split; [congruence|]. intros n k Hn. by rewrite H4, H2.
Qed.

Lemma rollup_queues origin name tx nonce Q s :
  queues Q s -> clean tx ->
  wp True (rollup origin name tx nonce) (fun _ s' =>
    queues (upd name (foldl head_after (Q name) (actions tx)) Q) s') (fun _ _ => True) s.
Proof.
  intros HQ Hc. unfold rollup, ensure_signed, ensure_name_owner. apply wp_transactional.
  destruct origin; wp_steps; try done.
  eapply wp_mono; [apply check_conds_keep| |done]. unfold id. intros [] ? ->.
  apply wp_bind. eapply wp_mono; [by apply (updates_hold name (Q name) (updates tx) s)| |done].
  intros [] s1 (Hq1 & _ & _ & Ha1). apply wp_bind.
  eapply wp_mono; [by apply (actions_hold name _ (actions tx) (Q name) s1)| |done].
  intros [] s2 [Hq2 [_ Ha2]]. apply wp_modify. intros n. unfold upd.
  destruct (decide (n = name)) as [->|Hn]; [by apply (holds_states name _ s2)|].
  apply (holds_states n _ s); [|apply HQ]. intros k. simpl. by rewrite Ha2, Ha1.
Qed.

(** ** Runs *)
Inductive anchor_run : AnchorStore -> (H256 -> Fifo) -> Prop :=
| run_init s : States s = ∅ -> anchor_run s (fun _ => mkFifo 0 [])
| run_claim s Q origin name s' :
    anchor_run s Q -> claim_name origin name s = Ok tt s' -> anchor_run s' Q
| run_push s Q name d i s' :
    anchor_run s Q -> push_message name d s = Ok i s' -> i + 1 < 2 ^ 32 ->
    anchor_run s' (upd name (ff_push d (Q name)) Q)
| run_rollup s Q origin name tx nonce s' :
    anchor_run s Q -> clean tx -> rollup origin name tx nonce s = Ok tt s' ->
    anchor_run s' (upd name (foldl head_after (Q name) (actions tx)) Q).

Lemma push_message_result name q d i s s' :
  holds name q s -> push_message name d s = Ok i s' ->
  i = ff_tail q /\ (i + 1 < 2 ^ 32 -> holds name (ff_push d q) s' /\ apart name s s').
Proof.
  intros Hq H. pose proof Hq as [Hr _ Ht _]. pose proof H as H'.
  unfold push_message, mbind, gets, ensure in H.
  destruct (bool_decide (is_Some (SubmitterByNames s !! name))) eqn:Ho; [|done]. apply bool_decide_eq_true in Ho.
  cbn [mret] in H. rewrite (queue_len_ok _ _ _ Hq) in H.
  destruct (Z.ltb_spec (Z.of_nat (length (ff_messages q))) QueueCapacity) as [Hc|]; [|done]. cbn [mret] in H.
  rewrite (queue_tail_ok _ _ _ Ht), queue_set_ok in H by (simpl; lia).
  assert (i = ff_tail q) as ->.
  { unfold arith in H. destruct (in_width _ _), overflow_checks; cbn [mret panic] in H; try done;
      unfold queue_tail_set, queue_set_u32 in H; rewrite queue_set_ok in H by (simpl; lia); by injection H. }
  split; [done|]. intros Hmax. destruct (push_message_fifo name q d s Hq Ho Hc Hmax) as (s1 & E & Hq1 & Ha).
  rewrite E in H'. injection H' as <-. done.
Qed.

Lemma anchor_run_queues s Q : anchor_run s Q -> queues Q s.
Proof.
  induction 1 as [s Hs|s Q origin name s' Hr IH H|s Q name d i s' Hr IH H Hi|s Q origin name tx nonce s' Hr IH Hc H].
  - intros name. split; [done| | |]; unfold counter; rewrite ?Hs, ?lookup_empty; done.
  - intros n. apply (holds_states n _ s); [|apply IH]. intros k.
    enough (States s' = States s) as -> by done.
    assert (Hk : keeps States (claim_name origin name))
      by (unfold claim_name, ensure_signed, emit; solve_keeps).
    exact (wp_ok True _ _ _ _ _ _ (Hk s) H).
  - destruct (push_message_result name (Q name) d i s s' (IH name) H) as [_ Hq]. specialize (Hq Hi) as [Hq Ha].
    by eapply queues_upd.
  - exact (wp_ok True _ _ _ _ _ _ (rollup_queues origin name tx nonce Q s IH Hc) H).
Qed.

(** The queue of every name refines a first-in first-out queue with stable
    indices.  After any run of claims, pushes and rollups whose updates stay out
    of the queue's keys, head and tail are those of the abstract queue and every
    message is found at its index; a push to a claimed name gives the next index
    unless the queue is full, which fails and changes nothing; and an action
    that moves the head succeeds exactly within the queue. *)
Theorem queue_refines_fifo s Q name d n :
  anchor_run s Q ->
  let q := Q name in
  queue_head name s = Ok (ff_head q) s /\ queue_tail name s = Ok (ff_tail q) s /\
  (forall i x, ff_messages q !! i = Some x ->
     queue_get name (encode_u32 (ff_head q + Z.of_nat i)) s = Ok (Some x) s) /\
  (is_Some (SubmitterByNames s !! name) -> ff_tail q + 1 < 2 ^ 32 ->
     if Z.of_nat (length (ff_messages q)) <? QueueCapacity
     then exists s', push_message name d s = Ok (ff_tail q) s' /\ holds name (ff_push d q) s'
     else push_message name d s = Err QueueIsFull s) /\
  if decide (ff_head q <= n <= ff_tail q)
  then exists s', queue_head_set name n s = Ok tt s' /\ holds name (ff_set_head n q) s'
  else queue_head_set name n s = Err InvalidQueueHead s.
Proof.
  intros Hr q. pose proof (anchor_run_queues s Q Hr name) as Hq. fold q in Hq. pose proof Hq as [_ Hh Ht Hd].
  split_and!; [by apply queue_head_ok|by apply queue_tail_ok| | |].
  - intros i x Hi. unfold queue_get, mbind, gets. rewrite queue_key_ok by (simpl; lia). by rewrite (Hd i x Hi).
  - intros Ho Hmax. destruct (Z.ltb_spec (Z.of_nat (length (ff_messages q))) QueueCapacity) as [Hc|Hc].
    + destruct (push_message_fifo name q d s Hq Ho Hc Hmax) as (s' & E & Hq' & _). by exists s'.
    + by apply (push_message_full name q).
  - case_decide as Hn; [|by apply (queue_head_set_invalid name q)].
    destruct (queue_head_set_fifo name q n s Hq Hn) as (s' & E & Hq' & _). by exists s'.
Qed.

(** ** Rollups as conditional transactions *)

(** The value of a key after the updates *)
Definition written (k : bytes) (old : option bytes) (l : list (bytes * option bytes)) : option bytes :=
  foldl (fun v u => if decide (fst u = k) then snd u else v) old l.

Definition met (name : H256) (s : AnchorStore) (c : Cond) : Prop :=
  let '(CondEq k o) := c in States s !! (name, k) = o.

Lemma conds_met name l s :
  wp True (for_each l (check_cond name)) (fun _ s' => s' = s /\ Forall (met name s) l) (fun _ _ => True) s.
Proof.
  induction l as [|[k o] l IH]; simpl; [by apply wp_ret|].
  unfold check_cond at 1. wp_steps; [|done]. apply bool_decide_eq_true in H.
  eapply wp_mono; [apply IH| |done]. intros [] s' [-> Hl]. split; [done|]. by constructor.
Qed.

Lemma updates_written name l s :
  wp True (for_each l (apply_update name)) (fun _ s' => apart name s s' /\
    forall k, States s' !! (name, k) = written k (States s !! (name, k)) l) (fun _ _ => True) s.
Proof.
  revert s. induction l as [|[k o] l IH]; intros s; simpl; [by apply wp_ret|].
  apply wp_bind, wp_modify. set (s1 := set_States _ s).
  assert (Ha : apart name s s1) by (unfold s1; simpl; destruct o; [apply apart_write|apply apart_delete]).
  assert (Hw : forall k', States s1 !! (name, k') = if decide (k = k') then o else States s !! (name, k')).
  { intros k'. unfold s1. simpl. destruct (decide (k = k')) as [<-|Hne]; destruct o;
      rewrite ?lookup_insert_eq, ?lookup_delete_eq, ?lookup_insert_ne, ?lookup_delete_ne by congruence; done. }
  eapply wp_mono; [apply IH| |done]. intros [] s2 [Ha2 Hw2]. split; [by eapply apart_trans|].
  intros k'. rewrite Hw2, Hw. simpl. done.
Qed.

(** What is not in the queue of [name] *)
Definition outside (name : H256) (s s' : AnchorStore) : Prop :=
  SubmitterByNames s' = SubmitterByNames s /\
  forall name' k, name' <> name \/ ~ QueuePrefix `prefix_of` k -> States s' !! (name', k) = States s !! (name', k).

Lemma outside_refl name s : outside name s s.
Proof. done. Qed.

Lemma outside_trans name s s1 s2 : outside name s s1 -> outside name s1 s2 -> outside name s s2.
Proof. intros [H1 H2] [H3 H4]. split; [congruence|]. intros n k Hk. by rewrite H4, H2. Qed.

Lemma queue_head_set_outside name n s :
  wp True (queue_head_set name n) (fun _ s' => outside name s s') (fun _ _ => True) s.
Proof.
  unfold queue_head_set, queue_head, queue_tail, wp, mbind. rewrite !get_u32_ok by (simpl; lia).
  destruct (counter name HEAD s) as [h|]; cbn [expect_some mret panic]; [|done].
  rewrite ?get_u32_ok by (simpl; lia). destruct (counter name TAIL s) as [t|]; cbn [expect_some mret panic]; [|done].
  unfold ensure. destruct (_ && _); cbn [mret fail]; [|done].
  destruct (removes_ok name (seqZ h (n - h)) s) as (s1 & -> & (H1 & _ & H2) & Hk).
  unfold queue_set_u32. rewrite queue_set_ok by (simpl; lia). split; [done|]. intros name' k Hout. simpl.
  rewrite lookup_insert_ne.
  - destruct (decide (name' = name)) as [->|Hn]; [|by apply H2]. destruct Hout as [|Hout]; [done|].
    apply Hk. intros i _ ->. apply Hout. by eexists.
  - intros [= <- <-]. destruct Hout as [|Hout]; [done|]. apply Hout. by eexists.
Qed.

(** The actions write keys of the queue only. *)
Lemma actions_outside name who l s :
  wp True (for_each l (exec_action name who)) (fun _ s' => outside name s s') (fun _ _ => True) s.
Proof.
  revert s. induction l as [|raw l IH]; intros s; simpl; [by apply wp_ret|].
  apply wp_bind. apply wp_mono with (R := fun _ _ => True) (Q := fun _ s1 => outside name s s1); [| |done].
  - unfold exec_action. wp_step. wp_step; [|done]. destruct a as [d|n]; [|apply queue_head_set_outside].
    eapply wp_mono; [apply on_response_apart| |done]. intros [] s1 [H1 H2].
    split; [done|]. intros. by rewrite H1.
  - intros [] s1 H1. eapply wp_mono; [apply IH| |done]. intros [] s2 H2. by eapply outside_trans.
Qed.

(** A rollup is an atomic conditional transaction of the owner of the name.
    When it is accepted, it was signed by the owner, every condition held in the
    state before, every key outside the queue has the value its last update gave
    it, or its old one, and the store of other names and the owners did not
    change; when it is refused, nothing changed at all. *)
Theorem rollup_conditional origin name tx nonce s :
  match rollup origin name tx nonce s with
  | Ok _ s' =>
      (exists who, origin = Signed who /\ SubmitterByNames s !! name = Some who) /\
      Forall (met name s) (conds tx) /\ SubmitterByNames s' = SubmitterByNames s /\
      (forall name' k, name' <> name -> States s' !! (name', k) = States s !! (name', k)) /\
      forall k, ~ QueuePrefix `prefix_of` k ->
        States s' !! (name, k) = written k (States s !! (name, k)) (updates tx)
  | Err _ s' => s' = s
  | _ => True
  end.
Proof.
  change (wp True (rollup origin name tx nonce) (fun _ s' =>
      (exists who, origin = Signed who /\ SubmitterByNames s !! name = Some who) /\
      Forall (met name s) (conds tx) /\ SubmitterByNames s' = SubmitterByNames s /\
      (forall name' k, name' <> name -> States s' !! (name', k) = States s !! (name', k)) /\
      forall k, ~ QueuePrefix `prefix_of` k ->
        States s' !! (name, k) = written k (States s !! (name, k)) (updates tx)) (fun _ s' => s' = s) s).
  unfold rollup, ensure_signed, ensure_name_owner. apply wp_transactional.
  destruct origin; wp_steps; try done. apply bool_decide_eq_true in H0 as ->.
  eapply wp_mono; [apply conds_met| |done]. intros [] ? [-> Hc].
  apply wp_bind. eapply wp_mono; [apply updates_written| |done]. intros [] s1 [(H1 & _ & H2) Hw].
  apply wp_bind. eapply wp_mono; [apply actions_outside| |done]. intros [] s2 [H3 H4].
  apply wp_modify. simpl. split_and!; [by eexists|done|congruence| |].
  - intros name' k Hn. by rewrite H4, H2 by auto.
  - intros k Hk. by rewrite H4, Hw by auto.
Qed.

(** Whoever claims a name can make its queue unusable.  The updates of a
    rollup may write the keys of the queue; after one that puts a single byte in
    place of the head, every push to the name panics, and so does any rollup with
    an action that moves the head. *)
Theorem owner_breaks_queue who name nonce s :
  SubmitterByNames s !! name = None ->
  exists s1 s2, claim_name (Signed who) name s = Ok tt s1 /\
    rollup (Signed who) name (mkRollupTx [] [] [(key HEAD, Some [0])]) nonce s1 = Ok tt s2 /\
    (forall d, push_message name d s2 = Panic) /\
    (forall raw n, decode_Action raw = Some (SetQueueHead n) ->
       rollup (Signed who) name (mkRollupTx [] [raw] []) nonce s2 = Panic).
Proof.
  intros Hn. eexists _, _. split.
  { unfold claim_name, transactional, ensure_signed, mbind, gets, ensure. cbn [mret]. rewrite Hn. reflexivity. }
  split.
  { unfold rollup, transactional, ensure_signed, ensure_name_owner, mbind, gets, ensure, modify, emit. cbn [mret].
    simpl. rewrite lookup_insert_eq. cbn [ok_or mret]. rewrite bool_decide_eq_true_2 by done. reflexivity. }
  set (s2 := mkAnchorStore _ _ _ _ _).
  assert (Hh : queue_head name s2 = Panic).
  { unfold queue_head, mbind. rewrite get_u32_ok by (simpl; lia). unfold counter, s2. simpl.
    by rewrite lookup_insert_eq. }
  split.
  - intros d. unfold push_message, queue_len, mbind, gets, ensure. simpl. rewrite lookup_insert_eq.
    rewrite bool_decide_eq_true_2 by done. cbn [mret].
    unfold queue_tail at 1. unfold mbind. rewrite get_u32_ok by (simpl; lia).
    destruct (counter name TAIL _); cbn [expect_some mret panic]; [|done]. fold s2. by rewrite Hh.
  - intros raw n Hraw. unfold rollup, transactional, ensure_signed, ensure_name_owner, mbind, gets, ensure. simpl.
    rewrite lookup_insert_eq. cbn [ok_or mret]. rewrite bool_decide_eq_true_2 by done. cbn [mret].
    unfold exec_action, mbind. rewrite Hraw. cbn [ok_or mret]. unfold queue_head_set, mbind. fold s2. by rewrite Hh.
Qed.

End Queue.

(** ** Witnesses

    The configuration of the runtime; an action is its tag and its content. *)
Section Witnesses.
Import RefInstances.

#[local] Instance wit_rollup_config : RollupConfig := {|
  QueuePrefix := bytes_of_string "_queue/";
  QueueCapacity := 128;
  decode_Action b :=
    match b with
    | 0 :: data => Some (Reply data)
    | 1 :: rest => SetQueueHead <$> decode_u32 rest
    | _ => None
    end;
  decode_ResponseRecord b :=
    match b with [o; c; p; n; t] => Some (mkResponseRecord o c [p] n t) | _ => None end;
|}.

Lemma wit_prefix : (length QueuePrefix <= 123)%nat.
Proof. simpl. lia. Qed.

Definition wit_store : AnchorStore := mkAnchorStore _ ∅ ∅ ∅ [].
Definition wit_claimed : AnchorStore := final (claim_name (Signed (acct 1)) 7) wit_store.
Definition wit_pushed1 : AnchorStore := final (push_message 7 [11]) wit_claimed.
Definition wit_pushed2 : AnchorStore := final (push_message 7 [22]) wit_pushed1.
Definition wit_tx : RollupTx :=
  mkRollupTx [CondEq [1] None] [1 :: encode_u32 1; [0; 9; 7; 3; 500; 60]] [([1], Some [2])].
Definition wit_rolled : AnchorStore := final (rollup (Signed (acct 1)) 7 wit_tx 0) wit_pushed2.

Lemma wit_tx_clean : clean wit_tx.
Proof. intros u Hu. apply list_elem_of_singleton in Hu as ->. by intros [k Hk]. Qed.

Lemma wit_anchor_run : exists Q, anchor_run wit_rolled Q /\ Q 7 = mkFifo 1 [[22]].
Proof.
  eexists. split.
  - eapply (run_rollup wit_pushed2 _ (Signed (acct 1)) 7 wit_tx 0); [|exact wit_tx_clean|vm_compute; reflexivity].
    eapply (run_push wit_pushed1 _ 7 [22] 1); [|vm_compute; reflexivity|done].
    eapply (run_push wit_claimed _ 7 [11] 0); [|vm_compute; reflexivity|done].
    eapply (run_claim wit_store _ (Signed (acct 1)) 7); [by apply run_init|vm_compute; reflexivity].
  - vm_compute. reflexivity.
Qed.

Lemma queue_refines_fifo_witness :
  queue_get 7 (encode_u32 1) wit_rolled = Ok (Some [22]) wit_rolled /\ queue_tail 7 wit_rolled = Ok 2 wit_rolled.
Proof.
  destruct wit_anchor_run as (Q & Hr & HQ).
  destruct (queue_refines_fifo wit_prefix wit_rolled Q 7 [33] 2 Hr) as (_ & Ht & Hd & _).
  rewrite HQ in Ht, Hd. split; [|exact Ht]. exact (Hd 0%nat [22] eq_refl).
Defined.

Lemma rollup_conditional_witness : States wit_rolled !! (7, [1]) = Some [2].
Proof.
  pose proof (rollup_conditional wit_prefix (Signed (acct 1)) 7 wit_tx 0 wit_pushed2) as H.
  assert (E : rollup (Signed (acct 1)) 7 wit_tx 0 wit_pushed2 = Ok tt wit_rolled) by (vm_compute; reflexivity).
  rewrite E in H. destruct H as (_ & _ & _ & _ & H). rewrite (H [1]); [vm_compute; reflexivity|].
  by intros [k Hk].
Defined.

Lemma owner_breaks_queue_witness : exists s1 s2,
  claim_name (Signed (acct 3)) 8 wit_store = Ok tt s1 /\
  rollup (Signed (acct 3)) 8 (mkRollupTx [] [] [(key HEAD, Some [0])]) 0 s1 = Ok tt s2 /\
  push_message 8 [44] s2 = Panic.
Proof.
  destruct (owner_breaks_queue wit_prefix (acct 3) 8 0 wit_store) as (s1 & s2 & H1 & H2 & H3 & _).
  - vm_compute. reflexivity.
  - exists s1, s2. split; [exact H1|]. split; [exact H2|]. apply H3.
Defined.

End Witnesses.
End AnchorProps.
