(* ===== verification/OneShot.v ===== *)
(** * One-shot transfers: pallets/cyrux/src/ott.rs

    An account may distribute once, to accounts that never took part before. *)
From stdpp Require Import prelude gmap list strings.
From Stdlib Require Import ZArith Lia.
From S2P Require Import Prelude Types Externals Reference.

Module OneShot.
Import OttT.

Section Pallet.
Context {cfg : Config} {pal : Pallets}.

Definition blacklist (a : AccountId) : R unit :=
  upd_ott (fun t => mkStore _ ({[a]} ∪ BlacklistedAccounts t)).

Definition listed (a : AccountId) (s : State) : bool := bool_decide (a ∈ BlacklistedAccounts (ott s)).

(** The destination is paid and blacklisted. *)
Definition pay (who : AccountId) (t : AccountId * Balance) : R unit :=
  extc (currency_transfer who (fst t) (snd t) true);;;
  blacklist (fst t).

Definition distribute (origin : Origin) (transfers : list (AccountId * Balance)) : R unit :=
  transactional (
    let* who := ensure_signed origin in
    let* b := gets (listed who) in
    ensure (negb b) (OttError SenderAlreadyBlacklisted);;;
    for_each transfers (fun t =>
      let* b := gets (listed (fst t)) in
      ensure (negb b) (OttError DestinationAlreadyBlacklisted));;;
    for_each transfers (pay who);;;
    blacklist who;;;
    deposit_event (OttEv (AccountsBlacklisted (transfers.*1 ++ [who])))).

(** ** Properties *)
Definition blacklisted (s : State) : gset AccountId := BlacklistedAccounts (ott s).

Lemma checks_keep l : keeps id (for_each l (fun t : AccountId * Balance =>
  let* b := gets (listed (fst t)) in ensure (negb b) (OttError DestinationAlreadyBlacklisted))).
Proof. solve_keeps. Qed.

Lemma pays_blacklist who l s :
  wp True (for_each l (pay who)) (fun _ s' => blacklisted s' = list_to_set l.*1 ∪ blacklisted s)
    (fun _ _ => True) s.
Proof.
  revert s. induction l as [|t l IH]; intros s; simpl; [apply wp_ret; set_solver|].
  apply wp_bind. unfold pay at 1. apply wp_bind.
  assert (Hk : keeps ott (extc (currency_transfer who t.1 t.2 true))) by solve_keeps.
  eapply wp_mono; [apply Hk| |done]. intros [] s1 E. apply wp_modify.
  eapply wp_mono; [apply IH| |done]. intros [] s2 E2. rewrite E2. unfold blacklisted. simpl. rewrite E. set_solver.
Qed.

Lemma distribute_blacklists origin l s :
  wp True (distribute origin l) (fun _ s' => exists who, origin = Signed who /\
    blacklisted s' = {[who]} ∪ list_to_set l.*1 ∪ blacklisted s) (fun _ s' => s' = s) s.
Proof.
  unfold distribute, ensure_signed. apply wp_transactional. destruct origin as [|who|]; wp_steps; try done.
  eapply wp_mono; [apply checks_keep| |done]. unfold id. intros [] ? ->. apply wp_bind.
  eapply wp_mono; [apply pays_blacklist| |done]. intros [] s1 E. unfold blacklist, upd_ott.
  apply wp_bind, wp_modify, wp_modify. exists who. split; [done|].
  unfold blacklisted in *. simpl. rewrite E. set_solver.
Qed.

Lemma checks_find l s a : a ∈ l.*1 -> a ∈ blacklisted s ->
  for_each l (fun t : AccountId * Balance =>
    let* b := gets (listed (fst t)) in ensure (negb b) (OttError DestinationAlreadyBlacklisted)) s
  = Err (OttError DestinationAlreadyBlacklisted) s.
Proof.
  intros Ha Hb. induction l as [|t l IH]; [by apply elem_of_nil in Ha|]. simpl.
  unfold mbind, gets, ensure. unfold listed at 1. destruct (bool_decide_reflect (t.1 ∈ BlacklistedAccounts (ott s))) as [|Hn];
    [done|]. cbn [negb mret]. apply IH. rewrite fmap_cons in Ha. apply elem_of_cons in Ha as [->|]; done.
Qed.

(** Anything on the chain, distributions included *)
Inductive ott_run : State -> State -> Prop :=
| ott_nil s : ott_run s s
| ott_call s s1 origin l s2 : ott_run s s1 -> distribute origin l s1 = Ok tt s2 -> ott_run s s2
| ott_env s s1 s2 : ott_run s s1 -> ott s2 = ott s1 -> ott_run s s2.

Lemma ott_run_grows s s' : ott_run s s' -> blacklisted s ⊆ blacklisted s'.
Proof.
  induction 1 as [s|s s1 origin l s2 Hr IH H|s s1 s2 Hr IH E]; [done| |].
  - destruct (wp_ok True _ _ _ _ _ _ (distribute_blacklists origin l s1) H) as (who & _ & ->). set_solver.
  - unfold blacklisted in *. by rewrite E.
Qed.

(** After a distribution neither its sender nor any of its
    destinations can ever take part in another one, whatever happens in between:
    a distribution of theirs, or one to them, fails and changes nothing. *)
Theorem takes_part_once who l s s1 s2 a :
  distribute (Signed who) l s = Ok tt s1 -> ott_run s1 s2 -> a ∈ who :: l.*1 ->
  (forall l', distribute (Signed a) l' s2 = Err (OttError SenderAlreadyBlacklisted) s2) /\
  (forall b l', a ∈ l'.*1 -> b ∉ blacklisted s2 ->
     distribute (Signed b) l' s2 = Err (OttError DestinationAlreadyBlacklisted) s2).
Proof.
  intros H Hr Ha. destruct (wp_ok True _ _ _ _ _ _ (distribute_blacklists (Signed who) l s) H) as (w & [= <-] & E).
  assert (Hin : a ∈ blacklisted s2).
  { apply (ott_run_grows _ _ Hr). rewrite E. apply elem_of_cons in Ha as [->|Ha]; set_solver. }
  split.
  - intros l'. unfold distribute, transactional, ensure_signed, mbind, gets, ensure, listed. cbn [mret].
    by rewrite (bool_decide_eq_true_2 _ Hin).
  - intros b l' Hl Hb. unfold distribute, transactional, ensure_signed, mbind, gets, ensure, listed at 1. cbn [mret].
    rewrite (bool_decide_eq_false_2 _ Hb). cbn [negb mret].
    change (match match for_each l' (fun t : AccountId * Balance => let* b := gets (listed (fst t)) in
      ensure (negb b) (OttError DestinationAlreadyBlacklisted)) s2 with
      | Ok _ s' => (for_each l' (pay b);;; blacklist b;;; deposit_event (OttEv (AccountsBlacklisted (l'.*1 ++ [b])))) s'
      | Err e s' => Err e s' | Panic => Panic | NoFuel => NoFuel end with
      | Err e _ => Err e s2 | r => r end = Err (OttError DestinationAlreadyBlacklisted) s2).
    by rewrite (checks_find l' s2 a Hl Hin).
Qed.

End Pallet.

(** ** Evaluations on the reference runtime *)
Section Evaluations.
Import RefInstances.

Definition wit_rich : State := set_ext (rx_set_currency {[1 := 1000000]} rx_empty) ref_state.
Definition wit_transfers (n : Z) : list (AccountId * Balance) := (fun i => (acct i, 5)) <$> seqZ 2 n.
Definition wit_distributed : State := final (distribute (Signed (acct 1)) (wit_transfers 2)) wit_rich.

(** The module's documentation speaks of up to 100 accounts; there is no limit. *)
Lemma distributes_to_101 : returns (distribute (Signed (acct 1)) (wit_transfers 101)) wit_rich = true.
Proof. vm_compute. reflexivity. Qed.

Lemma takes_part_once_witness :
  distribute (Signed (acct 3)) [(acct 9, 1)] wit_distributed
  = Err (OttError SenderAlreadyBlacklisted) wit_distributed.
Proof.
  apply (takes_part_once (acct 1) (wit_transfers 2) wit_rich wit_distributed wit_distributed (acct 3)).
  - vm_compute. reflexivity.
  - apply ott_nil.
  - vm_compute. do 2 (apply elem_of_cons; right). apply elem_of_cons. by left.
Defined.

End Evaluations.
End OneShot.
