(* ===== verification/PhatTokenomic.v ===== *)
(** * Stakes on contracts: pallets/cyrux/src/phat_tokenomic.rs

    Users lock PHA on contracts; the total of a contract is told to the system
    contract of its cluster. *)
From stdpp Require Import prelude gmap list strings.
From Stdlib Require Import ZArith Lia.
From S2P Require Import Prelude Types Externals Reference Mq Phat MsgRouting RoutingProps.

(** The account of the pallet, and the command [ContractDeposit::change_deposit]
    as an ink message *)
Class PhatTokConfig {cfg : Config} := {
  pallet_id : AccountId;
  encode_change_deposit : H256 -> Balance -> bytes;
  encode_InkMessage : bytes -> bytes;
}.

Module PhatTokenomic.
Import PhatTokT.

Section Pallet.
Context {cfg : Config} {codec : Codec} {pal : Pallets} {notify : QueueNotifyConfig} {tc : PhatTokConfig}.

Definition message_origin : MessageOrigin := Pallet (bytes_of_string "cyruxPhatTokenomic").

(** [MessageOriginInfo::push_ink_message] *)
Definition push_ink_message (contract_id : H256) (message : bytes) : R unit :=
  Mq.push_message_to (command_topic contract_id) message_origin (encode_InkMessage message).

Definition emit (e : Event) : R unit := deposit_event (PhatTokEv e).

Definition total_of (contract : H256) (t : Store) : Balance := default 0 (ContractTotalStakes t !! contract).

Definition stake_of (user : AccountId) (contract : H256) (t : Store) : Balance :=
  default 0 (ContractUserStakes t !! (user, contract)).

Definition adjust_stake (origin : Origin) (contract : H256) (amount : Balance) : R unit :=
  let* user := ensure_signed origin in
  let* t := gets phat_tok in
  ensure ((amount =? 0) || (amount >=? MinStake t)) (PhatTokError InvalidAmountOfStake);;;
  let total := total_of contract t in
  let orig := stake_of user contract t in
  let* total := (if amount >? orig then
      let* delta := arith 128 (amount - orig) in
      let* total := arith 128 (total + delta) in
      extc (currency_transfer user pallet_id delta true);;;
      mret total
    else
      let* delta := arith 128 (orig - amount) in
      let* total := arith 128 (total - delta) in
      extc (currency_transfer pallet_id user delta false);;;
      mret total) in
  upd_phat_tok (fun t => set_ContractUserStakes (<[(user, contract) := amount]> (ContractUserStakes t)) t);;;
  upd_phat_tok (fun t => set_ContractTotalStakes (<[contract := total]> (ContractTotalStakes t)) t);;;
  let* p := gets phat in
  let cluster := bc_cluster <$> PhatT.Contracts p !! contract in
  emit (ContractDepositChanged cluster contract total);;;
  emit (UserStakeChanged cluster user contract amount);;;
  match Phat.get_system_contract contract p with
  | Some the_system_contract => push_ink_message the_system_contract (encode_change_deposit contract total)
  | None => mret tt
  end.

End Pallet.

(** ** Sums over the stakes *)
Section Sums.
Context {cfg : Config}.

Definition sum_where (f : AccountId * H256 -> bool) : gmap (AccountId * H256) Balance -> Z :=
  map_sum (fun k x => if f k then x else 0).

Lemma sum_where_insert f m k x :
  sum_where f (<[k := x]> m) = sum_where f m + if f k then x - default 0 (m !! k) else 0.
Proof. unfold sum_where. rewrite map_sum_insert. destruct (m !! k); simpl; destruct (f k); lia. Qed.

Definition sum_of (contract : H256) : gmap (AccountId * H256) Balance -> Z := sum_where (fun k => snd k =? contract).
Definition sum_all : gmap (AccountId * H256) Balance -> Z := sum_where (fun _ => true).

Lemma sum_where_bounds f m :
  map_Forall (fun _ x => 0 <= x) m -> 0 <= sum_where f m <= sum_all m.
Proof.
  intros Hm. split.
  - apply map_sum_nonneg. intros k x Hk. specialize (Hm k x Hk). simpl in Hm. destruct (f k); lia.
  - apply map_sum_le. intros k x Hk. specialize (Hm k x Hk). simpl in Hm. destruct (f k); lia.
Qed.

End Sums.

(** ** Custody *)
Section Custody.
Context {cfg : Config} {codec : Codec} {pal : Pallets} {notify : QueueNotifyConfig} {tc : PhatTokConfig}
  {bs : BackingSpec pal} {qt : forall id, QuietTopic notify (command_topic id)}.

Record backed (s : State) : Prop := {
  bk_range : forall k x, ContractUserStakes (phat_tok s) !! k = Some x -> 0 <= x < 2 ^ 128;
  bk_total : forall c, total_of c (phat_tok s) = sum_of c (ContractUserStakes (phat_tok s)) mod 2 ^ 128;
  bk_funds : sum_all (ContractUserStakes (phat_tok s)) <= pha_balance pallet_id (ext s);
}.

(** A call leaves at least the existential deposit in the account of the pallet. *)
Definition leaves_deposit (user : AccountId) (contract : H256) (amount : Balance) (s : State) : Prop :=
  existential_deposit <= pha_balance pallet_id (ext s) - (stake_of user contract (phat_tok s) - amount).

Lemma wp_arith_mod w z (Q : Z -> State -> Prop) (Rr : DispatchError -> State -> Prop) s :
  0 < w -> Q (z mod 2 ^ w) s -> wp True (arith w z) Q Rr s.
Proof.
  intros Hw HQ. apply wp_arith; [intros Hz; by rewrite Z.mod_small in HQ|done|done].
Qed.

Lemma keeps_push_ink {T} (f : State -> T) c m :
  (forall s q, f (set_mq q s) = f s) -> keeps f (push_ink_message c m).
Proof. apply (MqFacts.keeps_push_quiet f (command_topic c) message_origin (encode_InkMessage m)). Qed.

(** The transfer of a call: what it moves is the difference to the old stake. *)
Definition moved (user : AccountId) (contract : H256) (amount : Balance) (s : State) (total : Z) (s' : State) : Prop :=
  phat_tok s' = phat_tok s /\
  total = (total_of contract (phat_tok s) + (amount - stake_of user contract (phat_tok s))) mod 2 ^ 128 /\
  pha_balance pallet_id (ext s) + (amount - stake_of user contract (phat_tok s)) <= pha_balance pallet_id (ext s').

Lemma wp_transfer a b x k s (Q : State -> Prop) :
  (forall e', (a <> b -> pha_balance b (ext s) + x <= pha_balance b e') ->
     (existential_deposit <= pha_balance a (ext s) - x -> pha_balance a (ext s) - x <= pha_balance a e') ->
     Q (set_ext e' s)) ->
  wp True (extc (currency_transfer a b x k)) (fun _ s' => Q s') (fun _ _ => True) s.
Proof.
  intros HQ. apply wp_extc. eapply wp_mono; [apply currency_transfer_funds| |done].
  intros [] e' (_ & H1 & H2 & _). by apply HQ.
Qed.

Lemma backed_stored user contract amount total s s' :
  backed s -> 0 <= amount < 2 ^ 128 -> moved user contract amount s total s' ->
  forall s2, phat_tok s2 = set_ContractTotalStakes (<[contract := total]> (ContractTotalStakes (phat_tok s)))
                 (set_ContractUserStakes (<[(user, contract) := amount]> (ContractUserStakes (phat_tok s))) (phat_tok s)) ->
  ext s2 = ext s' -> backed s2.
Proof.
  intros [B1 B2 B3] Ha (_ & E & F) s2 Ht He. unfold stake_of in *.
  split; rewrite ?Ht, ?He; cbn [ContractUserStakes set_ContractTotalStakes set_ContractUserStakes].
  - intros k x. rewrite lookup_insert_Some. intros [[_ <-]|[_ Hk]]; [done|eauto].
  - intros c. unfold total_of, sum_of in *. cbn [ContractTotalStakes set_ContractTotalStakes set_ContractUserStakes].
    rewrite sum_where_insert. cbn [snd]. destruct (Z.eqb_spec contract c) as [->|Hne].
    + rewrite lookup_insert_eq. cbn [default]. rewrite E, B2. by rewrite Zplus_mod_idemp_l.
    + rewrite lookup_insert_ne by done. by rewrite B2, Z.add_0_r.
  - unfold sum_all in *. rewrite sum_where_insert. lia.
Qed.

Lemma stake_of_range user contract s : backed s -> 0 <= stake_of user contract (phat_tok s) < 2 ^ 128.
Proof.
  intros [B _ _]. unfold stake_of. destruct (_ !! _) eqn:E; simpl; [eauto|lia].
Qed.

Lemma transfer_moves user contract amount s :
  backed s -> 0 <= amount < 2 ^ 128 -> user <> pallet_id ->
  leaves_deposit user contract amount s \/ stake_of user contract (phat_tok s) < amount ->
  let total := total_of contract (phat_tok s) in
  let orig := stake_of user contract (phat_tok s) in
  wp True (if amount >? orig then
      let* delta := arith 128 (amount - orig) in
      let* total := arith 128 (total + delta) in
      extc (currency_transfer user pallet_id delta true);;;
      mret total
    else
      let* delta := arith 128 (orig - amount) in
      let* total := arith 128 (total - delta) in
      extc (currency_transfer pallet_id user delta false);;;
      mret total) (moved user contract amount s) (fun _ _ => True) s.
Proof.
  intros B Ha Hu Hl total orig. pose proof (stake_of_range user contract s B) as Ho. fold orig in Ho.
  unfold leaves_deposit in Hl. fold orig in Hl.
  destruct (Z.gtb_spec amount orig) as [Hg|Hg].
  - apply wp_bind, wp_arith_mod, wp_bind, wp_arith_mod, wp_bind; [lia|lia|].
    rewrite (Z.mod_small (amount - orig)) by lia.
    apply wp_transfer. intros e' H1 _. apply wp_ret. unfold moved. simpl. fold total orig. auto.
  - apply wp_bind, wp_arith_mod, wp_bind, wp_arith_mod, wp_bind; [lia|lia|].
    rewrite (Z.mod_small (orig - amount)) by lia.
    apply wp_transfer. intros e' H1 H2. apply wp_ret. unfold moved. simpl. fold total orig.
    split; [done|]. split; [f_equal; lia|]. destruct Hl as [Hl|Hl]; lia.
Qed.

Lemma adjust_stake_backed user contract amount s :
  backed s -> 0 <= amount < 2 ^ 128 -> user <> pallet_id ->
  leaves_deposit user contract amount s \/ stake_of user contract (phat_tok s) < amount ->
  wp True (adjust_stake (Signed user) contract amount) (fun _ s' => backed s') (fun _ _ => True) s.
Proof.
  intros B Ha Hu Hl. unfold adjust_stake, ensure_signed.
  apply wp_bind, wp_ret, wp_bind, wp_gets, wp_bind, wp_ensure; [intros _|done].
  apply wp_bind. eapply wp_mono; [by apply transfer_moves| |done].
  intros total s1 Hm. pose proof Hm as (Et & _ & _).
  set (U := set_ContractUserStakes (<[(user, contract) := amount]> (ContractUserStakes (phat_tok s))) (phat_tok s)).
  set (T := set_ContractTotalStakes (<[contract := total]> (ContractTotalStakes (phat_tok s))) U).
  unfold upd_phat_tok. do 2 apply wp_bind, wp_modify. apply wp_bind, wp_gets. cbv zeta.
  apply (keeps_wp (fun s => (phat_tok s, ext s))); [done| |intros a s2 [= E1 E2]|done].
  - unfold emit. apply keeps_bind; [solve_keeps|intros _]. apply keeps_bind; [solve_keeps|intros _].
    destruct (Phat.get_system_contract _ _); [by apply keeps_push_ink|solve_keeps].
  - apply (backed_stored user contract amount total s s1 B Ha Hm s2); [|done].
    rewrite E1. subst T U. simpl. by rewrite Et.
Qed.

(** Calls of users, each a transaction, between steps of the rest of the chain
    that leave the pallet's storage alone and take nothing from its account. *)
Inductive stake_run : State -> State -> Prop :=
| sr_nil s : stake_run s s
| sr_call s s1 user contract amount s2 :
    stake_run s s1 -> 0 <= amount < 2 ^ 128 -> user <> pallet_id ->
    leaves_deposit user contract amount s1 \/ stake_of user contract (phat_tok s1) < amount ->
    s2 = final (transactional (adjust_stake (Signed user) contract amount)) s1 ->
    stake_run s s2
| sr_env s s1 s2 :
    stake_run s s1 -> phat_tok s2 = phat_tok s1 ->
    pha_balance pallet_id (ext s1) <= pha_balance pallet_id (ext s2) -> stake_run s s2.

Lemma backed_final user contract amount s :
  backed s -> 0 <= amount < 2 ^ 128 -> user <> pallet_id ->
  leaves_deposit user contract amount s \/ stake_of user contract (phat_tok s) < amount ->
  backed (final (transactional (adjust_stake (Signed user) contract amount)) s).
Proof.
  intros B Ha Hu Hl. pose proof (adjust_stake_backed user contract amount s B Ha Hu Hl) as H.
  unfold final, transactional, wp in *. by destruct (adjust_stake _ _ _ s).
Qed.

Lemma stake_run_backed s s' : stake_run s s' -> backed s -> backed s'.
Proof.
  induction 1 as [s|s s1 user contract amount s2 _ IH Ha Hu Hl ->|s s1 s2 _ IH Et Hf]; intros B; [done| |].
  - by apply backed_final; auto.
  - destruct (IH B) as [B1 B2 B3]. split; rewrite ?Et; [done..|lia].
Qed.

End Custody.

(** No handler of the runtime listens to the commands of contracts. *)
#[export] Instance route_command {cfg : Config} {F : FixedLib} {codec : Codec} {pal : Pallets} id :
  QuietTopic MsgRouting.MessageRouteConfig (command_topic id).
Proof.
  intros m s Hd. apply RoutingProps.route_quiet. rewrite Hd. unfold command_topic, MsgRouting.routed_topics.
  rewrite !not_elem_of_cons. split_and!; [discriminate..|apply not_elem_of_nil].
Qed.

(** ** Evaluations on the reference runtime *)
Section Evaluations.
Import RefInstances.

#[local] Instance wit_tok_config : PhatTokConfig := {|
  pallet_id := acct 77; encode_change_deposit _ _ := []; encode_InkMessage b := b |}.

#[local] Instance wit_route : QueueNotifyConfig := MsgRouting.MessageRouteConfig.
#[local] Instance wit_quiet id : QuietTopic wit_route (command_topic id) := route_command id.

Definition wit_rich : State := set_ext (rx_set_currency {[1 := 1000; 2 := 1000; 77 := 1]} rx_empty) ref_state.
Definition wit_calls : list (Z * Z * Z) := [(1, 5, 300); (2, 5, 400); (1, 5, 100); (2, 6, 50); (1, 5, 0)].
Definition wit_staked : State :=
  fold_left (fun s c => final (transactional (adjust_stake (Signed (acct (fst (fst c)))) (snd (fst c)) (snd c))) s)
    wit_calls wit_rich.

Definition wit_call (c : Z * Z * Z) (s : State) : bool :=
  let '(u, k, x) := c in
  (0 <=? x) && (x <? 2 ^ 128) && negb (u =? 77) &&
  ((1 <=? ledger_get (rx_currency (ext s)) 77 - (stake_of (acct u) k (phat_tok s) - x))
   || (stake_of (acct u) k (phat_tok s) <? x)).

Fixpoint wit_ok (l : list (Z * Z * Z)) (s : State) : bool :=
  match l with
  | [] => true
  | c :: l => wit_call c s &&
      wit_ok l (final (transactional (adjust_stake (Signed (acct (fst (fst c)))) (snd (fst c)) (snd c))) s)
  end.

Lemma wit_calls_run l s s1 : stake_run s s1 -> wit_ok l s1 = true ->
  stake_run s (fold_left (fun s c => final (transactional
    (adjust_stake (Signed (acct (fst (fst c)))) (snd (fst c)) (snd c))) s) l s1).
Proof.
  revert s1. induction l as [|[[u k] x] l IH]; intros s1 Hr H; [done|].
  cbn [wit_ok fold_left fst snd] in *. apply andb_true_iff in H as [Hc H]. apply IH; [|done].
  unfold wit_call in Hc. rewrite !andb_true_iff, orb_true_iff, negb_true_iff, Z.eqb_neq in Hc.
  destruct Hc as [[[H1 H2] H3] H4].
  eapply sr_call; [exact Hr| |exact H3| |reflexivity]; [lia|].
  destruct H4 as [H4|H4]; [left|right]; [by apply Z.leb_le in H4|by apply Z.ltb_lt in H4].
Qed.


Lemma wit_staked_totals :
  (fun c => total_of c (phat_tok wit_staked)) <$> [5; 6] = [400; 50].
Proof. vm_compute. reflexivity. Qed.
End Evaluations.
End PhatTokenomic.
