(* ===== verification/RequestSched.v ===== *)
(** * Fair queueing of requests: crates/cyrux-scheduler/src/request_scheduler.rs

    Contract queries wait for one of [depth] slots in the order of their start
    tags.  A [RequestScheduler] is shared behind a mutex; a request is answered
    through a oneshot channel with a guard that gives the slot back when it is
    dropped. *)
From stdpp Require Import prelude gmap list sorting.
From Stdlib Require Import ZArith Lia.
From S2P Require Import Prelude.

(** The [rbtree] crate: a tree is the list of its entries in key order, and an
    insertion keeps an entry that has the same key. *)
Class RbTree := {
  rb_insert {V : Type} : Z -> V -> list (Z * V) -> list (Z * V);
}.

Definition key_sorted {V} : list (Z * V) -> Prop := StronglySorted (fun a b => fst a <= fst b).

Class RbTreeSpec (T : RbTree) := {
  rb_insert_perm {V} : forall k (v : V) l, rb_insert k v l ≡ₚ (k, v) :: l;
  rb_insert_sorted {V} : forall k (v : V) l, key_sorted l -> key_sorted (rb_insert k v l);
}.

Definition pop_first {V} (l : list (Z * V)) : option ((Z * V) * list (Z * V)) :=
  match l with [] => None | x :: l => Some (x, l) end.

(** The last entry and the ones before it *)
Definition pop_last {V} (l : list (Z * V)) : option ((Z * V) * list (Z * V)) :=
  match reverse l with [] => None | x :: l => Some (x, reverse l) end.

Module RequestSched.
Section Scheduler.
Context {prof : Profile} {T : RbTree} {FlowId : Type} `{Countable FlowId}.

Record Counters := mkCounters { total : Z; dropped : Z; time : Z }.

Definition counters_default : Counters := mkCounters 0 0 0.

Record Flow := mkFlow {
  previous_finish_tag : Z;
  average_cost : Z;
  recent_active_time : Z;
  fl_counters : Counters;
}.

(** [start_signal] names the oneshot channel of the request. *)
Record Request := mkRequest {
  rq_flow : FlowId;
  start_tag : Z;
  rq_cost : Z;
  start_signal : nat;
}.

Record ServingGuard := mkGuard {
  sg_flow : FlowId;
  start_time : Z;
  actual_cost : option Z;
}.

Record SchedulerInner := mkInner {
  flows : gmap FlowId Flow;
  backlog : list (Z * Request);
  backlog_cap : Z;
  depth : Z;
  serving : Z;
  virtual_time : Z;
  counters : Counters;
}.

(** The scheduler with its mutex, and the oneshot channels: how many there are,
    which receivers were dropped before they got a guard, the guards that were
    sent and not dropped yet, and all the requests that were answered. *)
Record Sched := mkSched {
  inner : SchedulerInner;
  locked : bool;
  channels : nat;
  gone : gset nat;
  guards : gmap nat ServingGuard;
  answered : list Request;
}.

Inductive AcquireError := Overloaded.

(** [Mutex::lock] on a lock the thread already holds does not return. *)
Inductive Stuck := NeverReturns.

Abbreviation Q := (M Sched Stuck) (only parsing).

Definition set_total x (c : Counters) := mkCounters x (dropped c) (time c).
Definition set_dropped x (c : Counters) := mkCounters (total c) x (time c).
Definition set_time x (c : Counters) := mkCounters (total c) (dropped c) x.

Definition set_finish x (f : Flow) := mkFlow x (average_cost f) (recent_active_time f) (fl_counters f).
Definition set_average x (f : Flow) := mkFlow (previous_finish_tag f) x (recent_active_time f) (fl_counters f).
Definition set_fl_counters x (f : Flow) := mkFlow (previous_finish_tag f) (average_cost f) (recent_active_time f) x.

Definition set_flows x (i : SchedulerInner) :=
  mkInner x (backlog i) (backlog_cap i) (depth i) (serving i) (virtual_time i) (counters i).
Definition set_backlog x (i : SchedulerInner) :=
  mkInner (flows i) x (backlog_cap i) (depth i) (serving i) (virtual_time i) (counters i).
Definition set_serving x (i : SchedulerInner) :=
  mkInner (flows i) (backlog i) (backlog_cap i) (depth i) x (virtual_time i) (counters i).
Definition set_virtual_time x (i : SchedulerInner) :=
  mkInner (flows i) (backlog i) (backlog_cap i) (depth i) (serving i) x (counters i).
Definition set_counters x (i : SchedulerInner) :=
  mkInner (flows i) (backlog i) (backlog_cap i) (depth i) (serving i) (virtual_time i) x.

Definition set_inner x (s : Sched) := mkSched x (locked s) (channels s) (gone s) (guards s) (answered s).
Definition set_locked x (s : Sched) := mkSched (inner s) x (channels s) (gone s) (guards s) (answered s).
Definition set_channels x (s : Sched) := mkSched (inner s) (locked s) x (gone s) (guards s) (answered s).
Definition set_gone x (s : Sched) := mkSched (inner s) (locked s) (channels s) x (guards s) (answered s).
Definition set_guards x (s : Sched) := mkSched (inner s) (locked s) (channels s) (gone s) x (answered s).
Definition set_answered x (s : Sched) := mkSched (inner s) (locked s) (channels s) (gone s) (guards s) x.

Definition upd (f : SchedulerInner -> SchedulerInner) : Q unit := modify (fun s => set_inner (f (inner s)) s).
Definition upd_flow (k : FlowId) (f : Flow -> Flow) : Q unit := upd (fun i => set_flows (alter f k (flows i)) i).

(** ** SchedulerInner *)
Definition new (backlog_cap depth : Z) : Sched :=
  mkSched (mkInner ∅ [] backlog_cap depth 0 0 counters_default) false 0 ∅ ∅ [].

(** [inner.lock().unwrap()], and the end of the statement that holds the guard *)
Definition with_lock {A} (m : Q A) : Q A :=
  let* b := gets locked in
  if b then fail NeverReturns
  else
    modify (set_locked true);;;
    let* a := m in
    modify (set_locked false);;;
    mret a.

(** A guard that cannot be sent is dropped here, with the mutex held. *)
Definition dispatch (now : Z) (request : Request) : Q unit :=
  let* i := gets inner in
  let* n := arith 32 (serving i + 1) in
  upd (set_serving n);;;
  upd (set_virtual_time (start_tag request));;;
  let guard := mkGuard (rq_flow request) now None in
  let* g := gets gone in
  if bool_decide (start_signal request ∈ g) then fail NeverReturns
  else
    modify (fun s => set_guards (<[start_signal request := guard]> (guards s)) s);;;
    modify (fun s => set_answered (answered s ++ [request]) s).

Definition try_pickup_next (now : Z) : Q unit :=
  let* i := gets inner in
  match pop_first (backlog i) with
  | Some ((_, request), rest) => upd (set_backlog rest);;; dispatch now request
  | None => mret tt
  end.

Definition count_dropped (flow : FlowId) : Q unit :=
  let* i := gets inner in
  match flows i !! flow with
  | None => mret tt
  | Some f =>
      let* n := arith 64 (dropped (fl_counters f) + 1) in
      upd_flow flow (set_fl_counters (set_dropped n (fl_counters f)));;;
      let* n := arith 64 (dropped (counters i) + 1) in
      upd (fun i => set_counters (set_dropped n (counters i)) i)
  end.

(** The previous low priority request makes room. *)
Definition evict_last : Q unit :=
  let* i := gets inner in
  match pop_last (backlog i) with
  | None => mret tt
  | Some ((_, req), rest) =>
      upd (set_backlog rest);;;
      match flows i !! rq_flow req with
      | None => mret tt
      | Some f =>
          let* tag := arith 128 (previous_finish_tag f - rq_cost req) in
          upd_flow (rq_flow req) (set_finish tag);;;
          count_dropped (rq_flow req)
      end
  end.

Definition acquire_inner (now : Z) (flow_id : FlowId) (weight : Z) : Q (AcquireError + nat) :=
  let* i := gets inner in
  let flow := default (mkFlow 0 0 now counters_default) (flows i !! flow_id) in
  let start := Z.max (virtual_time i) (previous_finish_tag flow) in
  let cost := Z.max (average_cost flow / Z.max weight 1) 1 in
  let* finish := arith 128 (start + cost) in
  let* n := arith 64 (total (fl_counters flow) + 1) in
  let* m := arith 64 (total (counters i) + 1) in
  upd (fun i => set_flows (<[flow_id := set_fl_counters (set_total n (fl_counters flow)) (set_finish finish flow)]> (flows i)) i);;;
  upd (fun i => set_counters (set_total m (counters i)) i);;;
  let* full := (if Z.of_nat (length (backlog i)) >=? backlog_cap i then
      let* (x, _) := expect_some (pop_last (backlog i)) in
      if start >=? fst x then
        let* tag := arith 128 (finish - cost) in
        upd_flow flow_id (set_finish tag);;;
        count_dropped flow_id;;;
        mret true
      else evict_last;;; mret false
    else mret false) in
  if (full : bool) then mret (inl Overloaded)
  else
    let* signal := gets channels in
    modify (set_channels (S signal));;;
    let request := mkRequest flow_id start cost signal in
    let* i := gets inner in
    (if serving i <? depth i then dispatch now request
     else upd (set_backlog (rb_insert start request (backlog i))));;;
    mret (inr signal).

Definition release (now : Z) (flow : FlowId) (cost : Z) : Q unit :=
  let* i := gets inner in
  (match flows i !! flow with
   | None => mret tt
   | Some f =>
       let* x := arith 128 (average_cost f * 4) in
       let* x := arith 128 (x + cost) in
       upd_flow flow (set_average (x / 5));;;
       let* t := arith 128 (time (fl_counters f) + cost) in
       upd_flow flow (fun f => set_fl_counters (set_time t (fl_counters f)) f)
   end);;;
  let* t := arith 128 (time (counters i) + cost) in
  upd (fun i => set_counters (set_time t (counters i)) i);;;
  let* n := arith 32 (serving i - 1) in
  upd (set_serving n);;;
  try_pickup_next now.

(** ** RequestScheduler and its guards *)

(** The part of [acquire] before it awaits the channel *)
Definition acquire (now : Z) (flow_id : FlowId) (weight : Z) : Q (AcquireError + nat) :=
  with_lock (acquire_inner now flow_id weight).

Definition purge_inactive_flows (now duration : Z) : Q unit :=
  with_lock (upd (fun i => set_flows (filter (fun kf => now - recent_active_time (snd kf) < duration) (flows i)) i)).

Definition set_cost (signal : nat) (cost : Z) : Q unit :=
  modify (fun s => set_guards (alter (fun g => mkGuard (sg_flow g) (start_time g) (Some cost)) signal (guards s)) s).

(** [Drop for ServingGuard] *)
Definition drop_guard (now : Z) (signal : nat) : Q unit :=
  let* s := gets (fun s => s) in
  match guards s !! signal with
  | None => mret tt
  | Some g =>
      let cost := default ((now - start_time g) * 2 ^ 32 mod 2 ^ 128) (actual_cost g) in
      modify (fun s => set_guards (delete signal (guards s)) s);;;
      with_lock (release now (sg_flow g) cost)
  end.

(** The future of [acquire] is dropped: a guard that was sent is dropped with
    it, otherwise the channel has no receiver any more. *)
Definition cancel (now : Z) (signal : nat) : Q unit :=
  let* s := gets (fun s => s) in
  match guards s !! signal with
  | Some _ => drop_guard now signal
  | None => modify (fun s => set_gone ({[signal]} ∪ gone s) s)
  end.

(** *** Statistics *)
Definition time_ms (c : Counters) : Z := Z.shiftr (time c) 32 / 1000000.

Definition dump (s : Sched) : list (FlowId * Z) * list (FlowId * Z * Z) * Z * Z :=
  ((fun kv => (rq_flow (snd kv), fst kv)) <$> backlog (inner s),
   (fun kf => (fst kf, average_cost (snd kf), previous_finish_tag (snd kf))) <$> map_to_list (flows (inner s)),
   serving (inner s), virtual_time (inner s)).

Definition stats (s : Sched) : Counters * list (FlowId * Counters) :=
  (counters (inner s), (fun kf => (fst kf, fl_counters (snd kf))) <$> map_to_list (flows (inner s))).

Definition stats_for (flow : FlowId) (s : Sched) : Counters :=
  default counters_default (fl_counters <$> flows (inner s) !! flow).

Definition stats_global (s : Sched) : Counters := counters (inner s).

End Scheduler.
Arguments Request FlowId : clear implicits.
Arguments ServingGuard FlowId : clear implicits.
Arguments SchedulerInner FlowId {_ _}.
Arguments Sched FlowId {_ _}.
End RequestSched.
