(* ===== verification/RequestSchedProps.v ===== *)
(** * Fair queueing: properties

    Requests are served in the order of their start tags, every flow is charged
    for disjoint intervals of the virtual time, no slot stays free while a
    request waits; and what happens when a waiting request is cancelled. *)
From stdpp Require Import prelude gmap list sorting.
From Stdlib Require Import ZArith Lia.
From S2P Require Import Prelude RequestSched.

Module RequestSchedProps.
Import RequestSched.

(** ** Sorted trees *)
Section Trees.
Context {V : Type}.
Implicit Types l : list (Z * V).

Lemma pop_last_spec l x rest : pop_last l = Some (x, rest) -> l = rest ++ [x].
Proof.
  unfold pop_last. destruct (reverse l) as [|y r] eqn:E; [done|]. intros [= -> <-].
  rewrite <- (reverse_involutive l), E. by rewrite reverse_cons.
Qed.

Lemma pop_last_nil l : pop_last l = None -> l = [].
Proof.
  unfold pop_last. destruct (reverse l) eqn:E; [|done]. intros _.
  by rewrite <- (reverse_involutive l), E.
Qed.

Lemma key_sorted_app l1 l2 :
  key_sorted (l1 ++ l2) <-> key_sorted l1 /\ key_sorted l2 /\ Forall (fun a => Forall (fun b => fst a <= fst b) l2) l1.
Proof.
  unfold key_sorted. induction l1 as [|a l1 IH]; simpl.
  - split; [intros; split_and!; [constructor|done|done]|naive_solver].
  - split.
    + intros [Hs Ha]%StronglySorted_inv. apply IH in Hs as (H1 & H2 & H3). apply Forall_app in Ha as [Ha1 Ha2].
      split_and!; [by constructor|done|by constructor].
    + intros (Hs & H2 & H3). apply StronglySorted_inv in Hs as [H1 Ha]. apply Forall_cons in H3 as [H3 H4].
      constructor; [by apply IH|by apply Forall_app].
Qed.
End Trees.

(** ** The invariant *)
Section Invariant.
Context {prof : Profile} {T : RbTree} {TS : RbTreeSpec T} {FlowId : Type} `{Countable FlowId}.
Implicit Types (s : Sched FlowId) (r a b : Request FlowId).

(** The finish tags of the flows *)
Definition tags s : gmap FlowId Z := previous_finish_tag <$> flows (inner s).

Definition waiting s : list (Request FlowId) := snd <$> backlog (inner s).

(** The requests that were answered or wait *)
Definition live s : list (Request FlowId) := answered s ++ waiting s.

Definition finish_tag r : Z := start_tag r + rq_cost r.

Definition apart a b : Prop := finish_tag a <= start_tag b \/ finish_tag b <= start_tag a.

Record core s : Prop := mkCore {
  c_sorted : key_sorted (backlog (inner s));
  c_keys : Forall (fun kv => fst kv = start_tag (snd kv) /\ virtual_time (inner s) <= fst kv) (backlog (inner s));
  c_cap : Z.of_nat (length (backlog (inner s))) <= backlog_cap (inner s);
  c_params : 1 <= backlog_cap (inner s) /\ 0 <= depth (inner s) < 2 ^ 32;
  c_vt : 0 <= virtual_time (inner s);
  c_old : Forall (fun r => start_tag r <= virtual_time (inner s)) (answered s);
  c_served : StronglySorted Z.le (start_tag <$> answered s);
  c_sig : NoDup (start_signal <$> live s);
  c_fresh : Forall (fun r => start_signal r < channels s)%nat (live s);
  c_guards : forall k, is_Some (guards s !! k) -> k ∈ start_signal <$> answered s;
  c_heard : Forall (fun r => start_signal r ∉ gone s) (waiting s);
  c_serving : serving (inner s) = Z.of_nat (size (guards s));
  c_apart : forall a b, a ∈ live s -> b ∈ live s -> start_signal a <> start_signal b -> rq_flow a = rq_flow b -> apart a b;
  c_charged : Forall (fun r => 1 <= rq_cost r /\ exists t, tags s !! rq_flow r = Some t /\ finish_tag r <= t) (live s);
  c_gone : forall k, k ∈ gone s -> (k < channels s)%nat;
  c_range : forall k t, tags s !! k = Some t -> 0 <= t < 2 ^ 128;
}.

(** All slots are taken while a request waits. *)
Definition busy s : Prop :=
  serving (inner s) <= depth (inner s) /\ (backlog (inner s) <> [] -> serving (inner s) = depth (inner s)).

Definition view s :=
  (backlog (inner s), backlog_cap (inner s), depth (inner s), serving (inner s), virtual_time (inner s), tags s,
   (channels s, gone s, guards s, answered s)).

Lemma view_inj s s' : view s' = view s ->
  (backlog (inner s') = backlog (inner s) /\ backlog_cap (inner s') = backlog_cap (inner s) /\
   depth (inner s') = depth (inner s) /\ serving (inner s') = serving (inner s) /\
   virtual_time (inner s') = virtual_time (inner s) /\ tags s' = tags s) /\
  channels s' = channels s /\ gone s' = gone s /\ guards s' = guards s /\ answered s' = answered s.
Proof. unfold view. intros [= E1 E2 E3 E4 E5 E6 E7 E8 E9 E10]. by split_and!. Qed.

Lemma core_frame s s' : view s' = view s -> core s -> core s'.
Proof.
  unfold view. intros [= E1 E2 E3 E4 E5 E6 E7 E8 E9 E10] [].
  split; unfold live, waiting in *; rewrite ?E1, ?E2, ?E3, ?E4, ?E5, ?E6, ?E7, ?E8, ?E9, ?E10; done.
Qed.

Lemma busy_frame s s' : view s' = view s -> busy s -> busy s'.
Proof. unfold view, busy. intros [= E1 _ E3 E4 _ _ _ _ _ _]. by rewrite E1, E3, E4. Qed.

(** *** Code that only counts *)
Lemma tags_counters k f c (i : SchedulerInner FlowId) :
  flows i !! k = Some f ->
  previous_finish_tag <$> alter (set_fl_counters c) k (flows i) = previous_finish_tag <$> flows i.
Proof.
  intros Hf. apply map_eq. intros j. rewrite !lookup_fmap.
  destruct (decide (j = k)) as [->|Hne]; [rewrite lookup_alter_eq, Hf|rewrite lookup_alter_ne]; done.
Qed.

Lemma count_dropped_view k : keeps view (count_dropped k).
Proof.
  intros s. unfold count_dropped, upd_flow, upd. apply wp_bind, wp_gets. destruct (flows (inner s) !! k) as [f|] eqn:E; [|by apply wp_ret].
  apply wp_bind, wp_arith_any; [lia|done|]. intros n _. apply wp_bind, wp_modify.
  apply wp_bind, wp_arith_any; [lia|done|]. intros m _. apply wp_modify.
  unfold view, tags. simpl. by rewrite (tags_counters k f).
Qed.

Lemma infallible_count_dropped k : infallible (count_dropped (FlowId := FlowId) k).
Proof. unfold count_dropped, upd_flow, upd. solve_infallible. Qed.

(** *** Answering a request *)

(** A request that may be answered: nobody else has its channel, its interval is
    free, it comes before all that wait, and it is paid for. *)
Record servable r s : Prop := mkServable {
  sv_vt : virtual_time (inner s) <= start_tag r;
  sv_first : Forall (fun kv => start_tag r <= fst kv) (backlog (inner s));
  sv_new : start_signal r ∉ start_signal <$> live s;
  sv_issued : (start_signal r < channels s)%nat;
  sv_heard : start_signal r ∉ gone s;
  sv_apart : Forall (fun a => rq_flow a = rq_flow r -> apart a r) (live s);
  sv_charged : 1 <= rq_cost r /\ exists t, tags s !! rq_flow r = Some t /\ finish_tag r <= t;
}.

Lemma apart_sym a b : apart a b -> apart b a.
Proof. unfold apart. tauto. Qed.

(** Adding a request to the live ones *)
Lemma live_apart_add r (l l' : list (Request FlowId)) :
  l' ≡ₚ r :: l -> Forall (fun a => rq_flow a = rq_flow r -> apart a r) l ->
  (forall a b, a ∈ l -> b ∈ l -> start_signal a <> start_signal b -> rq_flow a = rq_flow b -> apart a b) ->
  forall a b, a ∈ l' -> b ∈ l' -> start_signal a <> start_signal b -> rq_flow a = rq_flow b -> apart a b.
Proof.
  intros Hp Hr Hl a b. rewrite Hp, !elem_of_cons. rewrite Forall_forall in Hr.
  intros [->|Ha] [->|Hb] Hs Hf; [done| | |by apply Hl]; [by apply apart_sym, Hr|by apply Hr].
Qed.

Definition answer (g : ServingGuard FlowId) r s : Sched FlowId :=
  set_answered (answered s ++ [r]) (set_guards (<[start_signal r := g]> (guards s))
    (set_inner (set_virtual_time (start_tag r) (set_serving (serving (inner s) + 1) (inner s))) s)).

Lemma live_answer g r s : live (answer g r s) ≡ₚ r :: live s.
Proof. unfold live. simpl. solve_Permutation. Qed.

Lemma guard_free s k : core s -> k ∉ start_signal <$> live s -> guards s !! k = None.
Proof.
  intros Hc Hk. apply eq_None_not_Some. intros Hg. apply Hk, (c_guards _ Hc) in Hg || apply Hk.
  unfold live. rewrite fmap_app, elem_of_app. left. by apply (c_guards _ Hc).
Qed.

Lemma core_answer g r s : core s -> servable r s -> core (answer g r s).
Proof.
  intros Hc Hr. pose proof (guard_free s (start_signal r) Hc (sv_new _ _ Hr)) as Hg.
  destruct Hc as [? Hk ? ? ? Hold Hss Hsig Hfr Hgu Hhe Hse Hap Hch Hgo Hra], Hr as [R1 R2 R3 R4 R5 R6 R7].
  split; simpl; try done.
  - apply Forall_and. apply Forall_and in Hk as [Hk _]. by split.
  - lia.
  - apply Forall_app. split; [eapply Forall_impl; [exact Hold|simpl; lia]|by apply Forall_singleton].
  - rewrite fmap_app. apply StronglySorted_app_2; [|done|by repeat constructor].
    intros x y Hx Hy. apply list_elem_of_fmap in Hx as (a & -> & Ha). rewrite Forall_forall in Hold.
    specialize (Hold a Ha). simpl in Hy. apply list_elem_of_singleton in Hy as ->. lia.
  - rewrite live_answer. by constructor.
  - rewrite live_answer. by constructor.
  - intros k Hk'. rewrite fmap_app, elem_of_app. simpl in Hk'.
    destruct (decide (k = start_signal r)) as [->|Hne]; [right; simpl; set_solver|].
    left. apply Hgu. by rewrite lookup_insert_ne in Hk'.
  - rewrite map_size_insert_None by done. lia.
  - by apply (live_apart_add r (live s)); [apply live_answer|..].
  - rewrite live_answer. by constructor.
Qed.

Lemma dispatch_spec now r s :
  core s -> servable r s -> 0 <= serving (inner s) < depth (inner s) ->
  wp True (dispatch now r) (fun _ s' => s' = answer (mkGuard (rq_flow r) now None) r s) (fun _ _ => False) s.
Proof.
  intros Hc Hr Hs. pose proof (c_params _ Hc) as [_ Hd]. unfold dispatch, upd. apply wp_bind, wp_gets.
  apply wp_bind. unfold wp at 1. rewrite arith_fits by lia. do 2 apply wp_bind, wp_modify. apply wp_bind, wp_gets.
  simpl. rewrite bool_decide_eq_false_2 by apply (sv_heard _ _ Hr). apply wp_bind, wp_modify, wp_modify.
  by destruct s as [[] ? ? ? ? ?].
Qed.

(** *** Taking a request out of the queue *)
Definition with_backlog l s : Sched FlowId := set_inner (set_backlog l (inner s)) s.

Lemma core_remove kv rest s :
  core s -> backlog (inner s) ≡ₚ kv :: rest -> key_sorted rest -> core (with_backlog rest s).
Proof.
  intros [? Hk Hcap ? ? ? ? Hsig Hfr Hgu Hhe ? Hap Hch ? ?] Hp Hs.
  assert (Hl : live s ≡ₚ snd kv :: live (with_backlog rest s)).
  { unfold live, waiting. simpl. rewrite Hp. simpl. solve_Permutation. }
  assert (Hw : waiting s ≡ₚ snd kv :: waiting (with_backlog rest s)) by (unfold waiting; simpl; by rewrite Hp).
  rewrite Hl in Hsig, Hfr, Hch. rewrite Hw in Hhe. rewrite Hp in Hk.
  apply Forall_cons in Hfr as [_ Hfr], Hch as [_ Hch], Hhe as [_ Hhe], Hk as [_ Hk].
  apply Permutation_length in Hp. simpl in *. split; simpl; try done; [lia|by apply NoDup_cons in Hsig as [_ ?]|].
  intros a b Ha Hb. apply Hap; rewrite Hl; by right.
Qed.

Lemma servable_head k r rest s :
  core s -> backlog (inner s) = (k, r) :: rest -> servable r (with_backlog rest s).
Proof.
  intros [Hso Hk ? ? ? ? ? Hsig Hfr ? Hhe ? Hap Hch ? ?] Hb.
  assert (Hl : live s ≡ₚ r :: live (with_backlog rest s)).
  { unfold live, waiting. simpl. rewrite Hb. simpl. solve_Permutation. }
  assert (Hw : waiting s = r :: waiting (with_backlog rest s)) by (unfold waiting; by rewrite Hb).
  rewrite Hb in Hso, Hk. apply StronglySorted_inv in Hso as [_ Hso]. apply Forall_cons in Hk as [[Hk1 Hk2] _]. simpl in *.
  rewrite Hw in Hhe. apply Forall_cons in Hhe as [Hhe _].
  assert (Hap' : Forall (fun a => rq_flow a = rq_flow r -> apart a r) (live (with_backlog rest s))).
  { apply Forall_forall. intros a Ha. rewrite Hl in Hsig. apply NoDup_cons in Hsig as [Hn _].
    apply Hap; [rewrite Hl; by right|rewrite Hl; by left|]. intros E. apply Hn. rewrite <- E. by apply list_elem_of_fmap_2. }
  rewrite Hl in Hsig, Hfr, Hch. apply NoDup_cons in Hsig as [Hn _]. apply Forall_cons in Hfr as [Hfr _], Hch as [Hch _].
  split; try done; [simpl; lia|]. simpl. eapply Forall_impl; [exact Hso|]. simpl. lia.
Qed.

(** What a step may do to the order of service: the virtual time does not go
    back, and what it answers comes before all that still waits. *)
Definition in_order s s' : Prop :=
  virtual_time (inner s) <= virtual_time (inner s') /\
  exists served, answered s' = answered s ++ served /\
    Forall (fun r => Forall (fun w => start_tag r <= start_tag w) (waiting s')) served.

Lemma in_order_refl s : in_order s s.
Proof. split; [lia|]. exists []. by rewrite app_nil_r. Qed.

Lemma pickup_spec now s :
  core s -> serving (inner s) < depth (inner s) ->
  (backlog (inner s) <> [] -> serving (inner s) + 1 = depth (inner s)) ->
  wp True (try_pickup_next now) (fun _ s' => core s' /\ busy s' /\ in_order s s') (fun _ _ => False) s.
Proof.
  intros Hc Hlt Hb. pose proof (c_serving _ Hc). unfold try_pickup_next, upd. apply wp_bind, wp_gets.
  destruct (backlog (inner s)) as [|[k r] rest] eqn:E; simpl.
  - apply wp_ret. split_and!; [done|split; [lia|by rewrite E]|apply in_order_refl].
  - specialize (Hb ltac:(done)). pose proof (servable_head k r rest s Hc E) as Hr.
    assert (Hc' : core (with_backlog rest s)).
    { apply (core_remove (k, r)); [done|by rewrite E|]. pose proof (c_sorted _ Hc) as Hs. rewrite E in Hs.
      by apply StronglySorted_inv in Hs as [? _]. }
    apply wp_bind, wp_modify. eapply wp_mono; [apply (dispatch_spec now r (with_backlog rest s)); [done..|simpl; lia]| |done].
    intros [] s' ->. split_and!; [by apply core_answer|split; simpl; [lia|intros _; lia]|split; [apply (sv_vt _ _ Hr)|]].
    exists [r]. split; [done|]. apply Forall_singleton. unfold waiting. simpl.
    pose proof (sv_first _ _ Hr) as Hf. pose proof (c_keys _ Hc') as Hk. simpl in Hf, Hk.
    apply Forall_fmap, Forall_forall. intros kv Hkv. rewrite Forall_forall in Hf, Hk.
    destruct (Hk _ Hkv). specialize (Hf _ Hkv). simpl in *. lia.
Qed.

(** *** Giving a slot back *)

Lemma tags_average k x (i : SchedulerInner FlowId) :
  previous_finish_tag <$> alter (set_average x) k (flows i) = previous_finish_tag <$> flows i.
Proof.
  apply map_eq. intros j. rewrite !lookup_fmap.
  destruct (decide (j = k)) as [->|Hne]; [rewrite lookup_alter_eq|by rewrite lookup_alter_ne].
  by destruct (flows i !! k).
Qed.

Lemma tags_time k t (m : gmap FlowId Flow) :
  previous_finish_tag <$> alter (fun f => set_fl_counters (set_time t (fl_counters f)) f) k m
  = previous_finish_tag <$> m.
Proof.
  apply map_eq. intros j. rewrite !lookup_fmap.
  destruct (decide (j = k)) as [->|Hne]; [rewrite lookup_alter_eq|by rewrite lookup_alter_ne].
  by destruct (m !! k).
Qed.

(** The locked part of an operation, seen from outside *)
Lemma wp_with_lock {A} (m : M (Sched FlowId) Stuck A) (Q : A -> Sched FlowId -> Prop) (R : Stuck -> Sched FlowId -> Prop) s :
  locked s = false ->
  wp True m (fun x s' => Q x (set_locked false s')) R (set_locked true s) -> wp True (with_lock m) Q R s.
Proof.
  intros Hl Hm. unfold with_lock. apply wp_bind, wp_gets. rewrite Hl. apply wp_bind, wp_modify, wp_bind.
  eapply wp_mono; [exact Hm| |done]. intros x s' HQ. apply wp_bind, wp_modify. by apply wp_ret.
Qed.

(** A flow whose accounts change keeps its finish tag. *)
Lemma charge_view flow cost (i : SchedulerInner FlowId) s :
  inner s = i ->
  wp True (match flows i !! flow with
   | None => mret tt
   | Some f =>
       let* x := arith 128 (average_cost f * 4) in
       let* x := arith 128 (x + cost) in
       upd_flow flow (set_average (x / 5));;;
       let* t := arith 128 (time (fl_counters f) + cost) in
       upd_flow flow (fun f => set_fl_counters (set_time t (fl_counters f)) f)
   end) (fun _ s' => view s' = view s) (fun _ _ => False) s.
Proof.
  intros <-. destruct (flows (inner s) !! flow) as [f|]; [|by apply wp_ret]. unfold upd_flow, upd.
  apply wp_bind, wp_arith_any; [lia|done|]. intros x _. apply wp_bind, wp_arith_any; [lia|done|]. intros y _.
  apply wp_bind, wp_modify, wp_bind, wp_arith_any; [lia|done|]. intros t _. apply wp_modify.
  unfold view, tags. simpl. by rewrite tags_time, tags_average.
Qed.

(** A guard is gone, its slot not yet given back. *)
Definition freed k s : Sched FlowId := set_guards (delete k (guards s)) s.

Lemma core_freed k g s n :
  core s -> guards s !! k = Some g -> n = serving (inner s) - 1 ->
  core (set_inner (set_serving n (inner s)) (freed k s)).
Proof.
  intros [? ? ? ? ? ? ? ? ? Hgu ? Hse ? ? ? ?] Hg ->. split; simpl; try done.
  - intros j [x Hj]. apply Hgu. apply lookup_delete_Some in Hj as [_ ?]. by exists x.
  - rewrite map_size_delete_Some by done. pose proof (map_size_ne_0_lookup_2 (guards s) k ltac:(by rewrite Hg)).
    rewrite Hse, Nat2Z.inj_pred; lia.
Qed.

Lemma release_spec now flow cost k g s :
  core s -> busy s -> guards s !! k = Some g ->
  wp True (release now flow cost) (fun _ s' => core s' /\ busy s' /\ in_order s s') (fun _ _ => False) (freed k s).
Proof.
  intros Hc [Hb1 Hb2] Hg. unfold release, upd. apply wp_bind, wp_gets. apply wp_bind.
  eapply wp_mono; [by apply charge_view| |done]. intros [] s1 Hv1.
  apply wp_bind, wp_arith_any; [lia|done|]. intros t _. apply wp_bind, wp_modify.
  pose proof (c_serving _ Hc) as Hse. pose proof (map_size_ne_0_lookup_2 (guards s) k ltac:(by rewrite Hg)).
  pose proof (c_params _ Hc) as [_ Hd].
  apply wp_bind. unfold wp at 1. simpl. rewrite arith_fits by lia. apply wp_bind, wp_modify. simpl.
  set (s2 := set_inner _ _). assert (Hv2 : view s2 = view (set_inner (set_serving (serving (inner s) - 1) (inner s)) (freed k s))).
  { apply view_inj in Hv1 as [(E1 & E2 & E3 & E4 & E5 & E6) (E7 & E8 & E9 & E10)].
    unfold view, tags in *. simpl in *. congruence. }
  assert (Hc2 : core s2) by (eapply core_frame; [exact Hv2|by eapply core_freed]).
  clearbody s2. apply view_inj in Hv2 as [(E1 & E2 & E3 & E4 & E5 & E6) (E7 & E8 & E9 & E10)]. simpl in *.
  eapply wp_mono; [apply pickup_spec; [done|rewrite E3, E4; lia|]| |done].
  - rewrite E1, E3, E4. intros Hne. specialize (Hb2 Hne). lia.
  - intros [] s3 (H1 & H2 & H3). split_and!; [done..|]. unfold in_order in *. by rewrite <- E5, <- E10.
Qed.

Definition inv s : Prop := core s /\ busy s /\ locked s = false.

Lemma inv_unlock s : core s -> busy s -> inv (set_locked false s).
Proof. intros Hc Hb. split_and!; [by eapply core_frame; [|exact Hc]|by eapply busy_frame; [|exact Hb]|done]. Qed.

Lemma drop_spec now k s :
  inv s -> is_Some (guards s !! k) ->
  wp True (drop_guard now k) (fun _ s' => inv s' /\ in_order s s') (fun _ _ => False) s.
Proof.
  intros (Hc & Hb & Hl) [g Hg]. unfold drop_guard. apply wp_bind, wp_gets. rewrite Hg. apply wp_bind, wp_modify.
  apply wp_with_lock; [done|]. set (s' := set_locked true s).
  eapply wp_mono; [apply (release_spec now _ _ k g s'); [by eapply core_frame; [|exact Hc]|by eapply busy_frame; [|exact Hb]|done]| |done].
  intros [] s1 (H1 & H2 & H3). split; [by apply inv_unlock|exact H3].
Qed.

(** *** Acquiring a slot *)

(** The finish tag of a flow moves to [t], at least as far as it was. *)
Definition with_tag k (t : Z) s (s' : Sched FlowId) : Prop :=
  (backlog (inner s') = backlog (inner s) /\ backlog_cap (inner s') = backlog_cap (inner s) /\
   depth (inner s') = depth (inner s) /\ serving (inner s') = serving (inner s) /\
   virtual_time (inner s') = virtual_time (inner s) /\ tags s' = <[k := t]> (tags s)) /\
  channels s' = channels s /\ gone s' = gone s /\ guards s' = guards s /\ answered s' = answered s.

Lemma core_with_tag k t s s' :
  core s -> with_tag k t s s' ->
  0 <= t < 2 ^ 128 -> Forall (fun r => rq_flow r = k -> finish_tag r <= t) (live s) -> core s'.
Proof.
  intros [] [(E1 & E2 & E3 & E4 & E5 & E6) (E7 & E8 & E9 & E10)] Hr Ht.
  split; unfold live, waiting in *; rewrite ?E1, ?E2, ?E3, ?E4, ?E5, ?E6, ?E7, ?E8, ?E9, ?E10; try done.
  2:{ intros j u. rewrite lookup_insert_Some. intros [[_ <-]|[_ ?]]; eauto. }
  clear Hr. apply Forall_forall. intros r Hr. rewrite Forall_forall in Ht, c_charged0. destruct (c_charged0 r Hr) as (H1 & t0 & H2 & H3).
  split; [done|]. destruct (decide (rq_flow r = k)) as [<-|Hne].
  - exists t. split; [by rewrite lookup_insert_eq|by apply Ht].
  - exists t0. by rewrite lookup_insert_ne.
Qed.

Lemma tags_set k f t (m : gmap FlowId Flow) :
  m !! k = Some f -> previous_finish_tag <$> alter (set_finish t) k m = <[k := t]> (previous_finish_tag <$> m).
Proof.
  intros Hf. apply map_eq. intros j. rewrite lookup_fmap.
  destruct (decide (j = k)) as [->|Hne]; [by rewrite lookup_alter_eq, Hf, lookup_insert_eq|].
  by rewrite lookup_alter_ne, lookup_insert_ne, lookup_fmap.
Qed.

Lemma with_tag_view k t s s1 s2 : with_tag k t s s1 -> view s2 = view s1 -> with_tag k t s s2.
Proof.
  intros [(E1 & E2 & E3 & E4 & E5 & E6) (E7 & E8 & E9 & E10)] Hv.
  apply view_inj in Hv as [(F1 & F2 & F3 & F4 & F5 & F6) (F7 & F8 & F9 & F10)]. unfold with_tag. split_and!; congruence.
Qed.

(** The request that waits with the latest tag ends after its flow's other ones. *)
Lemma last_finish s x rest r :
  core s -> backlog (inner s) = rest ++ [x] -> r ∈ live (with_backlog rest s) -> rq_flow r = rq_flow (snd x) ->
  finish_tag r <= start_tag (snd x).
Proof.
  intros Hc Hx Hr Hf. destruct Hc as [Hso Hk _ _ _ Hold _ Hsig _ _ _ _ Hap Hch _ _].
  assert (Hl : live s ≡ₚ snd x :: live (with_backlog rest s)).
  { unfold live, waiting. simpl. rewrite Hx, fmap_app. simpl. solve_Permutation. }
  rewrite Hl in Hsig, Hch. apply NoDup_cons in Hsig as [Hn _]. apply Forall_cons in Hch as [[Hc1 _] Hch].
  assert (Hle : start_tag r <= start_tag (snd x)).
  { rewrite Hx in Hso, Hk. apply key_sorted_app in Hso as (_ & _ & Hso). apply Forall_app in Hk as [Hk Hkx].
    apply Forall_singleton in Hkx as [Hkx Hvx]. unfold live in Hr. apply elem_of_app in Hr as [Hr|Hr].
    - rewrite Forall_forall in Hold. specialize (Hold r Hr). simpl in *. lia.
    - unfold waiting in Hr. simpl in Hr. apply list_elem_of_fmap in Hr as (kv & -> & Hkv).
      rewrite Forall_forall in Hso, Hk. destruct (Hk _ Hkv). specialize (Hso _ Hkv). rewrite Forall_singleton in Hso. lia. }
  destruct (Hap r (snd x)) as [|Hb]; [rewrite Hl; by right|rewrite Hl; by left| |done|done|unfold finish_tag in *; lia].
  intros E. apply Hn. rewrite <- E. by apply list_elem_of_fmap_2.
Qed.

(** Room is made by the request that waits with the latest tag. *)
Lemma evict_spec s x rest :
  core s -> backlog (inner s) = rest ++ [x] ->
  wp True evict_last (fun _ s' => exists t, with_tag (rq_flow (snd x)) t (with_backlog rest s) s' /\
      0 <= t < 2 ^ 128 /\ start_tag (snd x) <= t) (fun _ _ => False) s.
Proof.
  intros Hc Hx. unfold evict_last, upd_flow, upd. apply wp_bind, wp_gets.
  assert (Hp : pop_last (backlog (inner s)) = Some (x, rest)).
  { unfold pop_last. by rewrite Hx, reverse_snoc, reverse_involutive. }
  rewrite Hp. destruct x as [k req]. cbn [fst snd]. apply wp_bind, wp_modify.
  assert (Hin : req ∈ live s) by (unfold live, waiting; rewrite Hx, fmap_app; set_solver).
  pose proof (c_charged _ Hc) as Hch. rewrite Forall_forall in Hch. destruct (Hch _ Hin) as (Hc1 & t0 & Ht0 & Hle).
  pose proof (c_range _ Hc _ _ Ht0) as Hra. pose proof (c_keys _ Hc) as Hk. rewrite Hx in Hk.
  apply Forall_app in Hk as [_ Hk]. apply Forall_singleton in Hk as [Hk1 Hk2]. pose proof (c_vt _ Hc). simpl in *.
  unfold tags in Ht0. rewrite lookup_fmap in Ht0. destruct (flows (inner s) !! rq_flow req) as [f|] eqn:Hf; [|done].
  injection Ht0 as <-. unfold finish_tag in *. apply wp_bind. unfold wp at 1. rewrite arith_fits by lia.
  apply wp_bind, wp_modify. simpl.
  apply (wp_keep_ok view); [apply count_dropped_view|apply infallible_count_dropped|]. intros [] s' Hv.
  exists (previous_finish_tag f - rq_cost req). split; [|lia]. eapply with_tag_view; [|exact Hv].
  unfold with_tag, tags. simpl. split_and!; try done. by apply (tags_set _ f).
Qed.

(** *** A new request is answered or waits *)
Definition opened s : Sched FlowId := set_channels (S (channels s)) s.

(** The request fits behind the ones of its flow. *)
Record entering r s : Prop := mkEntering {
  en_signal : start_signal r = channels s;
  en_vt : virtual_time (inner s) <= start_tag r;
  en_cost : 1 <= rq_cost r;
  en_after : Forall (fun a => rq_flow a = rq_flow r -> finish_tag a <= start_tag r) (live s);
  en_tag : tags s !! rq_flow r = Some (finish_tag r);
}.

Lemma core_opened s : core s -> core (opened s).
Proof.
  intros []. split; try done.
  - eapply Forall_impl; [exact c_fresh0|]. simpl. lia.
  - intros k Hk. specialize (c_gone0 k Hk). simpl. lia.
Qed.

Lemma entering_new r s : core s -> entering r s -> start_signal r ∉ (start_signal <$> live s) /\ start_signal r ∉ gone s.
Proof.
  intros Hc [E _ _ _ _]. rewrite E. split.
  - intros (a & Ha & Hin)%list_elem_of_fmap. pose proof (c_fresh _ Hc) as Hf. rewrite Forall_forall in Hf.
    specialize (Hf a Hin). simpl in Hf. lia.
  - intros Hg%(c_gone _ Hc). lia.
Qed.

Lemma entering_servable r s : core s -> entering r s -> backlog (inner s) = [] -> servable r (opened s).
Proof.
  intros Hc He Hb. destruct (entering_new r s Hc He) as [H1 H2]. destruct He as [E1 E2 E3 E4 E5].
  split; simpl; try done; [by rewrite Hb|lia| |split; [done|]; by exists (finish_tag r)].
  eapply Forall_impl; [exact E4|]. intros a Ha Hf. left. by apply Ha.
Qed.

Definition queued r s : Sched FlowId := with_backlog (rb_insert (start_tag r) r (backlog (inner s))) (opened s).

Lemma core_queued r s :
  core s -> entering r s -> Z.of_nat (length (backlog (inner s))) < backlog_cap (inner s) -> core (queued r s).
Proof.
  intros Hc He Hcap. destruct (entering_new r s Hc He) as [N1 N2]. apply core_opened in Hc as Hc'.
  pose proof (rb_insert_perm (start_tag r) r (backlog (inner s))) as Hp.
  assert (Hl : live (queued r s) ≡ₚ r :: live s).
  { unfold live, waiting. simpl. rewrite Hp. simpl. solve_Permutation. }
  assert (Hw : waiting (queued r s) ≡ₚ r :: waiting s) by (unfold waiting; simpl; by rewrite Hp).
  destruct Hc', He as [E1 E2 E3 E4 E5].
  split; rewrite ?Hl, ?Hw; try done; try (simpl; rewrite Hp); try (by constructor).
  - by apply rb_insert_sorted.
  - simpl. lia.
  - constructor; [rewrite E1; simpl; lia|done].
  - apply (live_apart_add r (live s)); [done| |done].
    eapply Forall_impl; [exact E4|]. intros a Ha Hf. left. by apply Ha.
  - constructor; [split; [done|by exists (finish_tag r)]|done].
Qed.

Lemma enter_spec now r s :
  core s -> busy s -> entering r s -> Z.of_nat (length (backlog (inner s))) < backlog_cap (inner s) ->
  wp True (if serving (inner s) <? depth (inner s) then dispatch now r
           else upd (set_backlog (rb_insert (start_tag r) r (backlog (inner s)))))
    (fun _ s' => core s' /\ busy s' /\ in_order s s') (fun _ _ => False) (opened s).
Proof.
  intros Hc [Hb1 Hb2] He Hcap. pose proof (c_serving _ Hc).
  destruct (Z.ltb_spec (serving (inner s)) (depth (inner s))) as [Hlt|Hge].
  - assert (Hb : backlog (inner s) = []) by (destruct (backlog (inner s)); [done|]; specialize (Hb2 ltac:(done)); lia).
    pose proof (entering_servable r s Hc He Hb) as Hr. pose proof (core_opened s Hc) as Hc'.
    eapply wp_mono; [apply (dispatch_spec now r (opened s)); [done..|simpl; lia]| |done].
    intros [] s' ->. split_and!; [by apply core_answer|split; simpl; [lia|by rewrite Hb]|split; [apply (en_vt _ _ He)|]].
    exists [r]. split; [done|]. apply Forall_singleton. unfold waiting. simpl. by rewrite Hb.
  - unfold upd. apply wp_modify. split_and!; [by apply core_queued|split; simpl; [lia|intros _; lia]|].
    split; [simpl; lia|]. exists []. by rewrite app_nil_r.
Qed.

(** *** Acquiring *)
Definition flow_of now k s : Flow := default (mkFlow 0 0 now counters_default) (flows (inner s) !! k).

Definition start_of now k s : Z := Z.max (virtual_time (inner s)) (previous_finish_tag (flow_of now k s)).

Definition cost_of now k weight s : Z := Z.max (average_cost (flow_of now k s) / Z.max weight 1) 1.

(** The virtual times do not wrap around. *)
Definition room now k weight s : Prop :=
  overflow_checks = true \/ start_of now k s + cost_of now k weight s < 2 ^ 128.

Lemma start_after now k s :
  core s -> Forall (fun r => rq_flow r = k -> finish_tag r <= start_of now k s) (live s).
Proof.
  intros Hc. pose proof (c_charged _ Hc) as Hch. eapply Forall_impl; [exact Hch|].
  intros r (_ & t & Ht & Hle) <-. unfold start_of, flow_of. unfold tags in Ht. rewrite lookup_fmap in Ht.
  destruct (flows (inner s) !! rq_flow r); [|done]. injection Ht as <-. simpl. lia.
Qed.

Lemma core_tagged now k t s s' :
  core s -> with_tag k t s s' -> start_of now k s <= t < 2 ^ 128 -> core s'.
Proof.
  intros Hc Hw Ht. pose proof (c_vt _ Hc). apply (core_with_tag k t s); [done|done|unfold start_of in Ht; lia|].
  eapply Forall_impl; [by apply (start_after now)|]. intros r Hr E. specialize (Hr E). lia.
Qed.

Lemma busy_tagged k t s s' : with_tag k t s s' -> busy s -> busy s'.
Proof. intros [(E1 & E2 & E3 & E4 & _) _]. unfold busy. by rewrite E1, E3, E4. Qed.

(** Nothing is answered. *)
Definition no_answer s s' : Prop :=
  virtual_time (inner s) <= virtual_time (inner s') /\ answered s' = answered s.

Lemma no_answer_tagged k t s s' : with_tag k t s s' -> no_answer s s'.
Proof. intros [(_ & _ & _ & _ & E5 & _) (_ & _ & _ & E10)]. unfold no_answer. by rewrite E5, E10. Qed.

Lemma no_answer_in_order s s' : no_answer s s' -> in_order s s'.
Proof. intros [H1 H2]. split; [done|]. exists []. by rewrite app_nil_r. Qed.

Lemma in_order_after s s1 s2 : no_answer s s1 -> in_order s1 s2 -> in_order s s2.
Proof. intros [H1 H2] [H3 H4]. split; [lia|]. by rewrite <- H2. Qed.

Lemma live_tagged k t s s' : with_tag k t s s' -> live s' = live s.
Proof. intros [(E1 & _) (_ & _ & _ & E10)]. unfold live, waiting. by rewrite E1, E10. Qed.

(** A request that is too late: its flow gets the old accounts back. *)
Lemma refuse_spec k finish start s s1 :
  with_tag k finish s s1 ->
  wp True (upd_flow k (set_finish start);;; count_dropped k;;; mret true)
    (fun full s2 => full = true /\ with_tag k start s s2) (fun _ _ => False) s1.
Proof.
  intros [(E1 & E2 & E3 & E4 & E5 & E6) (E7 & E8 & E9 & E10)]. unfold upd_flow, upd. apply wp_bind, wp_modify.
  apply wp_bind, (wp_keep_ok view); [apply count_dropped_view|apply infallible_count_dropped|]. intros [] s2 Hv.
  apply wp_ret. split; [done|]. eapply with_tag_view; [|exact Hv]. unfold with_tag, tags in *. simpl.
  assert (Hk : (previous_finish_tag <$> flows (inner s1)) !! k = Some finish) by (rewrite E6; apply lookup_insert_eq).
  rewrite lookup_fmap in Hk. destruct (flows (inner s1) !! k) as [f|] eqn:Hf; [|done].
  split_and!; try done. by rewrite (tags_set k f), E6, insert_insert_eq.
Qed.

(** The latest waiting request is of another flow when it waits for longer. *)
Lemma latest_other now k x rest s :
  core s -> backlog (inner s) = rest ++ [x] -> start_of now k s < fst x -> rq_flow (snd x) <> k.
Proof.
  intros Hc Hx Hlt E. assert (Hin : snd x ∈ live s) by (unfold live, waiting; rewrite Hx, fmap_app; set_solver).
  pose proof (start_after now k s Hc) as Ha. pose proof (c_charged _ Hc) as Hch. rewrite Forall_forall in Ha, Hch.
  specialize (Ha _ Hin E). destruct (Hch _ Hin) as [H1 _]. pose proof (c_keys _ Hc) as Hk. rewrite Hx in Hk.
  apply Forall_app in Hk as [_ Hk]. rewrite Forall_singleton in Hk. unfold finish_tag in *. lia.
Qed.

Lemma evicted_core x rest t s s2 :
  core s -> backlog (inner s) = rest ++ [x] -> with_tag (rq_flow (snd x)) t (with_backlog rest s) s2 ->
  0 <= t < 2 ^ 128 -> start_tag (snd x) <= t -> core s2.
Proof.
  intros Hc Hx Hw Hr Ht. apply (core_with_tag (rq_flow (snd x)) t (with_backlog rest s)); try done.
  - apply (core_remove x); [done|rewrite Hx; solve_Permutation|]. pose proof (c_sorted _ Hc) as Hs.
    rewrite Hx in Hs. by apply key_sorted_app in Hs as [? _].
  - apply Forall_forall. intros r Hin E. pose proof (last_finish s x rest r Hc Hx Hin E). lia.
Qed.

(** Room for one more request, after the flow has its new finish tag *)
Lemma make_room_spec now k finish cost s s1 :
  core s -> busy s -> with_tag k finish s s1 -> start_of now k s + cost = finish -> 1 <= cost -> finish < 2 ^ 128 ->
  let start := start_of now k s in
  wp True (if Z.of_nat (length (backlog (inner s))) >=? backlog_cap (inner s) then
      let* (x, _) := expect_some (pop_last (backlog (inner s))) in
      if start >=? fst x then
        let* tag := arith 128 (finish - cost) in
        upd_flow k (set_finish tag);;;
        count_dropped k;;;
        mret true
      else evict_last;;; mret false
    else mret false)
    (fun full s2 => core s2 /\ busy s2 /\ no_answer s s2 /\
      (full = false -> Z.of_nat (length (backlog (inner s2))) < backlog_cap (inner s2) /\
        virtual_time (inner s2) <= start /\ tags s2 !! k = Some finish /\
        Forall (fun a => rq_flow a = k -> finish_tag a <= start) (live s2))) (fun _ _ => False) s1.
Proof.
  intros Hc Hb Hw Hfin Hcost Hlt start. assert (Hc1 : core s1) by (eapply (core_tagged now); [exact Hc|exact Hw|lia]).
  pose proof (busy_tagged _ _ _ _ Hw Hb) as Hb1. pose proof (no_answer_tagged _ _ _ _ Hw) as Ho1.
  pose proof (start_after now k s Hc) as Haf. pose proof (live_tagged _ _ _ _ Hw) as Hl1.
  pose proof Hw as [(E1 & E2 & E3 & E4 & E5 & E6) (E7 & E8 & E9 & E10)].
  destruct (Z.geb_spec (Z.of_nat (length (backlog (inner s)))) (backlog_cap (inner s))) as [Hfull|Hfree].
  2:{ apply wp_ret. split_and!; try done. intros _. rewrite E1, E2, E5, E6, lookup_insert_eq, Hl1.
      split_and!; [lia|unfold start, start_of; lia|done|done]. }
  apply wp_bind, wp_expect_some; [|done]. intros [x rest] Hx. apply pop_last_spec in Hx.
  destruct (Z.geb_spec start (fst x)) as [Hge|Hls].
  - apply wp_bind. unfold wp at 1. pose proof (c_vt _ Hc). rewrite arith_fits by (unfold start, start_of in *; lia).
    replace (finish - cost) with start by (unfold start; lia).
    eapply wp_mono; [by apply (refuse_spec k finish start s)| |done]. intros full s2 [-> Hw2].
    split_and!; [by eapply (core_tagged now); [exact Hc|exact Hw2|unfold start; lia]|by eapply busy_tagged|by eapply no_answer_tagged|done].
  - pose proof (latest_other now k x rest s Hc Hx Hls) as Hne. rewrite <- E1 in Hx.
    apply wp_bind. eapply wp_mono; [by apply (evict_spec s1 x rest)| |done]. intros [] s2 (t & Hw2 & Ht & Hst).
    apply wp_ret. pose proof Hw2 as [(F1 & F2 & F3 & F4 & F5 & F6) (F7 & F8 & F9 & F10)]. simpl in *.
    assert (Hsrv : serving (inner s) = depth (inner s)).
    { apply (proj2 Hb). rewrite <- E1, Hx. by destruct rest. }
    split_and!; [by eapply evicted_core|unfold busy; rewrite F3, F4; lia|split; [rewrite F5; lia|by rewrite F10]|].
    intros _. pose proof (c_cap _ Hc1) as Hcap. rewrite Hx, length_app in Hcap. simpl in Hcap.
    rewrite F1, F2, F5, F6, lookup_insert_ne by done. unfold tags in *. simpl. rewrite E6, lookup_insert_eq.
    split_and!; [lia|rewrite E5; unfold start, start_of; lia|done|].
    rewrite (live_tagged _ _ _ _ Hw2). rewrite <- Hl1 in Haf. unfold live, waiting in *. simpl.
    rewrite Hx, fmap_app, app_assoc in Haf. by apply Forall_app in Haf as [? _].
Qed.

Lemma acquire_inner_spec now k weight s :
  core s -> busy s -> room now k weight s ->
  wp True (acquire_inner now k weight) (fun _ s' => core s' /\ busy s' /\ in_order s s') (fun _ _ => False) s.
Proof.
  intros Hc Hb Hroom. unfold acquire_inner, upd. apply wp_bind, wp_gets. fold (flow_of now k s). fold (start_of now k s).
  set (start := start_of now k s). change (Z.max (_ / _) 1) with (cost_of now k weight s). set (cost := cost_of now k weight s).
  assert (Hcost : 1 <= cost) by (unfold cost, cost_of; lia). pose proof (c_vt _ Hc) as Hvt.
  assert (Hst : virtual_time (inner s) <= start) by (unfold start, start_of; lia).
  apply wp_bind, wp_arith; [|done|].
  2:{ intros Hn Ho. destruct Hroom as [Hr|Hr]; [congruence|]. fold start cost in Hr. lia. }
  intros Hfin. set (finish := start + cost) in *.
  apply wp_bind, wp_arith_any; [lia|done|]. intros n _. apply wp_bind, wp_arith_any; [lia|done|]. intros m _.
  do 2 apply wp_bind, wp_modify. set (s1 := set_inner _ _).
  assert (Hw : with_tag k finish s s1).
  { unfold with_tag, tags. simpl. split_and!; try done. by rewrite fmap_insert. }
  clearbody s1. apply wp_bind.
  eapply wp_mono; [apply (make_room_spec now k finish cost s s1); [done..|lia]| |done].
  intros full s2 (Hc2 & Hb2 & Ho2 & Hfull). destruct full.
  { apply wp_ret. split_and!; [done..|by apply no_answer_in_order]. }
  destruct (Hfull eq_refl) as (Hlen & Hv2 & Ht2 & Ha2). apply wp_bind, wp_gets. apply wp_bind, wp_modify.
  set (r := mkRequest k start cost (channels s2)).
  assert (He : entering r s2) by by split.
  apply wp_bind, wp_gets. apply wp_bind. eapply wp_mono; [exact (enter_spec now r s2 Hc2 Hb2 He Hlen)| |done].
  intros [] s3 (H1 & H2 & H3). apply wp_ret. split_and!; [done..|by eapply in_order_after].
Qed.

Lemma acquire_spec now k weight s :
  inv s -> room now k weight s ->
  wp True (acquire now k weight) (fun _ s' => inv s' /\ in_order s s') (fun _ _ => False) s.
Proof.
  intros (Hc & Hb & Hl) Hr. apply wp_with_lock; [done|].
  eapply wp_mono; [apply (acquire_inner_spec now k weight (set_locked true s))| |done].
  - by eapply core_frame; [|exact Hc].
  - by eapply busy_frame; [|exact Hb].
  - exact Hr.
  - intros x s1 (H1 & H2 & H3). split; [by apply inv_unlock|exact H3].
Qed.

Lemma set_cost_inv k cost s : inv s -> inv (final (set_cost k cost) s).
Proof.
  intros ([] & Hb & Hl). split_and!; [|done|done]. split; try done; simpl.
  - intros j Hj. apply c_guards0. destruct Hj as [x Hj].
    destruct (decide (j = k)) as [->|Hne]; [|rewrite lookup_alter_ne in Hj by done; by exists x].
    rewrite lookup_alter_eq in Hj. destruct (guards s !! k); [by eexists|done].
  - rewrite c_serving0. f_equal. by rewrite <- !size_dom, dom_alter_L.
Qed.

(** The future of a request that does not wait is dropped. *)
Lemma cancel_spec now k s :
  inv s -> (k < channels s)%nat -> k ∉ start_signal <$> waiting s ->
  wp True (cancel now k) (fun _ s' => inv s' /\ in_order s s') (fun _ _ => False) s.
Proof.
  intros Hi Hk Hn. unfold cancel. apply wp_bind, wp_gets. destruct (guards s !! k) eqn:E; [by apply drop_spec; [|eexists]|].
  apply wp_modify. destruct Hi as ([] & Hb & Hl). split; [|apply no_answer_in_order; by split].
  split_and!; [|done|done]. split; try done; simpl.
  - apply Forall_forall. intros r Hr. rewrite Forall_forall in c_heard0. specialize (c_heard0 r Hr).
    intros [Er%elem_of_singleton|?]%elem_of_union; [|done]. apply Hn. rewrite <- Er. by apply list_elem_of_fmap_2.
  - intros j [->%elem_of_singleton|?]%elem_of_union; auto.
Qed.

(** ** Runs

    Calls from any threads, one after the other under the mutex.  A request that
    waits is not cancelled, and the flows are not purged. *)
Inductive reach : Sched FlowId -> Prop :=
| reach_new cap n : 1 <= cap -> 0 <= n < 2 ^ 32 -> reach (new cap n)
| reach_acquire s now k weight x s' :
    reach s -> room now k weight s -> acquire now k weight s = Ok x s' -> reach s'
| reach_drop s now k s' : reach s -> is_Some (guards s !! k) -> drop_guard now k s = Ok tt s' -> reach s'
| reach_cost s k cost : reach s -> reach (final (set_cost k cost) s)
| reach_cancel s now k s' :
    reach s -> (k < channels s)%nat -> k ∉ start_signal <$> waiting s -> cancel now k s = Ok tt s' -> reach s'.

Lemma new_inv cap n : 1 <= cap -> 0 <= n < 2 ^ 32 -> inv (new (FlowId := FlowId) cap n).
Proof.
  intros Hcap Hn. split_and!; [|split; simpl; [lia|done]|done].
  split; simpl; [constructor|constructor|lia|lia|lia|constructor|constructor|constructor|constructor| |constructor|done| |constructor| |].
  - intros k [x Hx]. by rewrite lookup_empty in Hx.
  - intros a b Ha. by apply not_elem_of_nil in Ha.
  - by intros k Hk%elem_of_empty.
  - intros k t Ht. unfold tags in Ht. simpl in Ht. rewrite fmap_empty in Ht. by rewrite lookup_empty in Ht.
Qed.

Lemma reach_inv s : reach s -> inv s.
Proof.
  induction 1 as [cap n Hc Hn|s now k w x s' _ IH Hr E|s now k s' _ IH Hg E|s k c _ IH|s now k s' _ IH Hk Hw E].
  - by apply new_inv.
  - apply (wp_ok True _ _ _ _ _ _ (acquire_spec now k w s IH Hr) E).
  - apply (wp_ok True _ _ _ _ _ _ (drop_spec now k s IH Hg) E).
  - by apply set_cost_inv.
  - apply (wp_ok True _ _ _ _ _ _ (cancel_spec now k s IH Hk Hw) E).
Qed.

(** ** Intervals of the virtual time *)
Lemma signals_filter (P : Request FlowId -> Prop) `{!forall x, Decision (P x)} l :
  NoDup (start_signal <$> l) -> NoDup (start_signal <$> filter P l).
Proof.
  induction l as [|r l IH]; [done|]. intros [Hn Hd]%NoDup_cons. rewrite filter_cons. case_decide; [|auto].
  constructor; [|auto]. intros (a & E & Ha)%list_elem_of_fmap. apply Hn. rewrite list_elem_of_filter in Ha.
  apply list_elem_of_fmap. exists a. tauto.
Qed.

Definition costs (l : list (Request FlowId)) : Z := foldr (fun r n => rq_cost r + n) 0 l.

Lemma costs_filter (P : Request FlowId -> Prop) `{!forall x, Decision (P x)} l :
  costs l = costs (filter P l) + costs (filter (fun x => ~ P x) l).
Proof.
  induction l as [|r l IH]; [done|]. rewrite !filter_cons. simpl. rewrite IH.
  destruct (decide (P r)), (decide (~ P r)); simpl; try done; lia.
Qed.

Lemma apart_costs n l t1 t2 :
  (length l <= n)%nat -> t1 <= t2 -> NoDup (start_signal <$> l) ->
  (forall a b, a ∈ l -> b ∈ l -> start_signal a <> start_signal b -> apart a b) ->
  Forall (fun r => 1 <= rq_cost r /\ t1 <= start_tag r /\ finish_tag r <= t2) l -> costs l <= t2 - t1.
Proof.
  revert l t1 t2. induction n as [|n IH]; intros l t1 t2 Hn Ht Hd Ha Hf.
  { destruct l; [simpl; lia|simpl in Hn; lia]. }
  destruct l as [|r l]; [simpl; lia|]. apply Forall_cons in Hf as [(Hr1 & Hr2 & Hr3) Hf]. apply NoDup_cons in Hd as [Hnr Hd].
  assert (Hsub : forall (P : Request FlowId -> Prop) `{!forall x, Decision (P x)} u1 u2, u1 <= u2 ->
    (forall x, x ∈ l -> P x -> u1 <= start_tag x /\ finish_tag x <= u2) -> costs (filter P l) <= u2 - u1).
  { intros P HP u1 u2 Hu Hx. apply IH; [pose proof (length_filter P l); simpl in Hn; lia|done| | |].
    - by apply signals_filter.
    - intros a b [_ Hia]%list_elem_of_filter [_ Hib]%list_elem_of_filter. apply Ha; by right.
    - rewrite Forall_forall in Hf. apply Forall_forall. intros x [Hpx Hix]%list_elem_of_filter. destruct (Hf x Hix).
      split; [lia|by apply Hx]. }
  assert (Hor : forall x, x ∈ l -> apart x r).
  { intros x Hx. apply Ha; [by right|by left|]. intros E. apply Hnr. rewrite <- E. by apply list_elem_of_fmap_2. }
  rewrite Forall_forall in Hf. simpl. rewrite (costs_filter (fun x => finish_tag x <= start_tag r) l).
  assert (costs (filter (fun x => finish_tag x <= start_tag r) l) <= start_tag r - t1).
  { apply Hsub; [lia|]. intros x Hx. destruct (Hf x Hx) as (? & ? & ?). done. }
  assert (costs (filter (fun x => ~ finish_tag x <= start_tag r) l) <= t2 - finish_tag r); [|unfold finish_tag in *; lia].
  apply Hsub; [done|]. intros x Hx Hnx. destruct (Hf x Hx) as (? & ? & ?). destruct (Hor x Hx); lia.
Qed.

(** ** Properties *)


(** Requests are answered in the order of their start tags, all that wait
    come later, and a flow is never charged twice for the same virtual time:
    the costs of its answered requests inside a stretch of virtual time add up
    to at most its length.  A cost is the average cost of the flow divided by its
    weight, so flows share the slots in proportion to their weights. *)
Theorem flows_share_virtual_time s flow t1 t2 :
  reach s -> t1 <= t2 ->
  StronglySorted Z.le (start_tag <$> answered s) /\
  (forall a b, a ∈ answered s -> b ∈ waiting s -> start_tag a <= start_tag b) /\
  costs (filter (fun r => rq_flow r = flow /\ t1 <= start_tag r /\ finish_tag r <= t2) (answered s)) <= t2 - t1.
Proof.
  intros Hi%reach_inv Ht. destruct Hi as (Hc & _ & _). split_and!; [apply (c_served _ Hc)| |].
  - intros a b Ha Hb. pose proof (c_old _ Hc) as Ho. pose proof (c_keys _ Hc) as Hk. rewrite Forall_forall in Ho. rewrite Forall_forall in Hk.
    unfold waiting in Hb. apply list_elem_of_fmap in Hb as (kv & -> & Hkv). specialize (Ho _ Ha).
    destruct (Hk _ Hkv). simpl in *. lia.
  - pose proof (c_sig _ Hc) as Hs. unfold live in Hs. rewrite fmap_app in Hs. apply NoDup_app in Hs as (Hs & _ & _).
    eapply apart_costs; [reflexivity|done| | |].
    + by apply signals_filter.
    + intros a b [(E1 & _) Ha]%list_elem_of_filter [(E2 & _) Hb]%list_elem_of_filter Hne.
      apply (c_apart _ Hc); [unfold live; set_solver..|done|congruence].
    + apply Forall_forall. intros r [(_ & H1 & H2) Hr]%list_elem_of_filter. pose proof (c_charged _ Hc) as Hch.
      rewrite Forall_forall in Hch. destruct (Hch r) as [H3 _]; [unfold live; set_solver|]. done.
Qed.

Lemma locked_acquire now k weight s : locked s = true -> acquire now k weight s = Err NeverReturns s.
Proof. intros Hl. unfold acquire, with_lock, mbind, gets. by rewrite Hl. Qed.

(** A waiting request whose future is dropped blocks the scheduler for ever.
    When its turn comes, the guard that cannot be sent is dropped inside the
    lock, and its destructor locks again: the operation does not return (unless
    an overflow panics before), the mutex stays locked, and so no later
    acquisition returns. *)
Theorem cancelled_waiter_blocks s key r rest now k :
  locked s = false -> backlog (inner s) = (key, r) :: rest -> start_signal r ∈ gone s -> is_Some (guards s !! k) ->
  match drop_guard now k s with
  | Ok _ _ => False
  | Err NeverReturns s' => forall now' k' weight, acquire now' k' weight s' = Err NeverReturns s'
  | _ => True
  end.
Proof.
  intros Hl Hb Hg [g Hk].
  assert (H1 : wp True (drop_guard now k) (fun _ _ => False) (fun _ s' => locked s' = true) s).
  { unfold drop_guard. apply wp_bind, wp_gets. rewrite Hk. apply wp_bind, wp_modify. unfold with_lock.
    apply wp_bind, wp_gets. simpl. rewrite Hl. apply wp_bind, wp_modify, wp_bind. unfold release, upd.
    apply wp_bind, wp_gets. apply wp_bind.
    apply wp_mono with (Q := fun _ s' => backlog (inner s') = (key, r) :: rest /\ gone s' = gone s /\ locked s' = true)
      (R := fun _ _ => False); [| |done].
    { simpl. destruct (flows (inner s) !! sg_flow g); [|by apply wp_ret]. unfold upd_flow, upd.
      do 2 (apply wp_bind, wp_arith_any; [lia|done|]; intros ? _). apply wp_bind, wp_modify.
      apply wp_bind, wp_arith_any; [lia|done|]; intros ? _. by apply wp_modify. }
    intros [] s1 (E1 & E2 & E3). apply wp_bind, wp_arith_any; [lia|done|]. intros t _. apply wp_bind, wp_modify.
    apply wp_bind, wp_arith_any; [lia|done|]. intros n _. apply wp_bind, wp_modify.
    unfold try_pickup_next, dispatch, upd. apply wp_bind, wp_gets. simpl. rewrite E1. simpl.
    apply wp_bind, wp_modify, wp_bind, wp_gets. apply wp_bind, wp_arith_any; [lia|done|]. intros u _.
    do 2 apply wp_bind, wp_modify. apply wp_bind, wp_gets. simpl. rewrite E2, bool_decide_eq_true_2 by done.
    by apply wp_fail. }
  unfold wp in H1. destruct (drop_guard now k s) as [| [] s'| |]; try done. intros. by apply locked_acquire.
Qed.
End Invariant.

(** ** Evaluations *)
Section Evaluations.
#[local] Instance wit_profile : Profile := {| overflow_checks := false; debug_assertions := false |}.

(** A tree that puts an entry behind those with the same key *)
Fixpoint insert_after {V} (k : Z) (v : V) (l : list (Z * V)) : list (Z * V) :=
  match l with
  | [] => [(k, v)]
  | x :: l => if fst x <=? k then x :: insert_after k v l else (k, v) :: x :: l
  end.

#[local] Instance wit_tree : RbTree := {| rb_insert V := insert_after |}.

Lemma insert_after_perm {V} k (v : V) l : insert_after k v l ≡ₚ (k, v) :: l.
Proof. induction l as [|x l IH]; [done|]. simpl. destruct (_ <=? _); [rewrite IH; solve_Permutation|done]. Qed.

#[local] Instance wit_tree_spec : RbTreeSpec wit_tree.
Proof.
  split; [intros; apply insert_after_perm|]. intros V k v l. unfold key_sorted. simpl.
  induction l as [|x l IH]; simpl; [by repeat constructor|]. intros [Hs Hx]%StronglySorted_inv.
  destruct (Z.leb_spec (fst x) k) as [Hle|Hlt].
  - constructor; [auto|]. rewrite insert_after_perm. by constructor.
  - constructor; [by constructor|]. constructor; [simpl; lia|]. eapply Forall_impl; [exact Hx|]. simpl. intros. lia.
Qed.

(** One slot; flow 1 asks twice, flow 2 once, and the first guard is dropped. *)
Definition wit_a (now flow : Z) (s : Sched Z) : Sched Z := final (acquire now flow 1) s.
Definition wit_s3 : Sched Z := wit_a 2 2 (wit_a 1 1 (wit_a 0 1 (new 10 1))).
Definition wit_s4 : Sched Z := final (drop_guard 3 0) wit_s3.

Lemma wit_acquire now k s :
  reach s -> start_of now k s + cost_of now k 1 s < 2 ^ 128 ->
  match acquire now k 1 s with Ok _ _ => true | _ => false end = true -> reach (wit_a now k s).
Proof.
  intros Hs Hr Ha. unfold wit_a, final. destruct (acquire now k 1 s) as [x s'| | |] eqn:E; try done.
  eapply reach_acquire; [exact Hs|right; exact Hr|exact E].
Qed.

Lemma wit_reach3 : reach wit_s3.
Proof. repeat (apply wit_acquire; [|vm_compute; reflexivity..]). by apply reach_new. Qed.

Lemma wit_reach4 : reach wit_s4.
Proof.
  eapply (reach_drop wit_s3 3 0); [exact wit_reach3|by vm_compute; eexists|].
  unfold wit_s4. apply returns_final. vm_compute. reflexivity.
Qed.


(** Flow 2 is served before the second request of flow 1. *)
Lemma flows_share_virtual_time_witness :
  rq_flow <$> answered wit_s4 = [1; 2] /\
  costs (filter (fun r => rq_flow r = 1 /\ 0 <= start_tag r /\ finish_tag r <= 10) (answered wit_s4)) <= 10.
Proof.
  destruct (flows_share_virtual_time wit_s4 1 0 10 wit_reach4 ltac:(lia)) as (_ & _ & H).
  split; [vm_compute; reflexivity|exact H].
Defined.

(** The future of the second request of flow 1 is dropped while it waits. *)
Definition wit_cancelled : Sched Z := final (cancel 2 1) (wit_a 1 1 (wit_a 0 1 (new 10 1))).

Lemma cancelled_waiter_blocks_witness :
  match drop_guard 3 0 wit_cancelled with
  | Err NeverReturns s' => acquire 4 7 1 s' = Err NeverReturns s'
  | _ => False
  end.
Proof.
  pose proof (cancelled_waiter_blocks wit_cancelled 1 (mkRequest 1 1 1 1) [] 3 0) as H.
  assert (E : match drop_guard 3 0 wit_cancelled with Err _ _ => true | _ => false end = true) by (vm_compute; reflexivity).
  specialize (H ltac:(vm_compute; reflexivity) ltac:(vm_compute; reflexivity) ltac:(apply (bool_decide_unpack _); vm_compute; exact I)
    ltac:(vm_compute; by eexists)).
  destruct (drop_guard 3 0 wit_cancelled) as [? ?|[] s'| |]; [done|apply H|done..].
Defined.
End Evaluations.
End RequestSchedProps.
