(* ===== verification/TaskSched.v ===== *)
(** * Fair scheduling of tasks: crates/cyrux-scheduler/src/task_scheduler.rs

    The side programs of contracts share [virtual_cores] cores: a task that was
    polled waits in the order of its virtual run time, is woken when a core is
    free, runs while it holds a guard, and is parked when the guard is dropped.
    The mutex is held during one operation and none nests. *)
From stdpp Require Import prelude gmap list.
From Stdlib Require Import ZArith Lia.
From S2P Require Import Prelude RequestSched.

Module TaskSched.

Inductive TaskState := Idle | Ready | ToRun | Running.

#[export] Instance TaskState_eq_dec : EqDecision TaskState.
Proof. solve_decision. Defined.

Record Task := mkTask { state : TaskState; virtual_runtime : Z }.

Section Scheduler.
Context {prof : Profile} {T : RbTree} {TaskId : Type} `{Countable TaskId} {E : Type}.

(** A waker is the number of the future it wakes. *)
Record ReadyTask := mkReadyTask { rt_id : TaskId; waker : Z }.

Record RunningGuard := mkRunningGuard {
  rg_task : TaskId;
  start_time : Z;
  actual_cost : option Z;
  rg_weight : Z;
}.

(** [woken] is what the wakers were told, in order. *)
Record Scheduler := mkScheduler {
  tasks : gmap TaskId Task;
  ready_tasks : list (Z * ReadyTask);
  virtual_clock : Z;
  virtual_cores : Z;
  running_tasks : Z;
  woken : list Z;
}.

Abbreviation S := (M Scheduler E) (only parsing).

Definition set_tasks x (s : Scheduler) :=
  mkScheduler x (ready_tasks s) (virtual_clock s) (virtual_cores s) (running_tasks s) (woken s).
Definition set_ready x (s : Scheduler) :=
  mkScheduler (tasks s) x (virtual_clock s) (virtual_cores s) (running_tasks s) (woken s).
Definition set_clock x (s : Scheduler) :=
  mkScheduler (tasks s) (ready_tasks s) x (virtual_cores s) (running_tasks s) (woken s).
Definition set_running x (s : Scheduler) :=
  mkScheduler (tasks s) (ready_tasks s) (virtual_clock s) (virtual_cores s) x (woken s).
Definition set_woken x (s : Scheduler) :=
  mkScheduler (tasks s) (ready_tasks s) (virtual_clock s) (virtual_cores s) (running_tasks s) x.

Definition put_task (id : TaskId) (t : Task) : S unit := modify (fun s => set_tasks (<[id := t]> (tasks s)) s).

Definition new (virtual_cores : Z) : Scheduler := mkScheduler ∅ [] 0 virtual_cores 0 [].

(** The loop of [schedule]; [ready] are the ready tasks left. *)
Fixpoint schedule_loop (ready : list (Z * ReadyTask)) : S unit :=
  let* s := gets (fun s => s) in
  if running_tasks s <? virtual_cores s then
    match ready with
    | [] => mret tt
    | (vruntime, ready_task) :: rest =>
        modify (set_ready rest);;;
        match tasks s !! rt_id ready_task with
        | None => schedule_loop rest
        | Some task =>
            let* n := arith 32 (running_tasks s + 1) in
            modify (set_running n);;;
            modify (set_clock vruntime);;;
            put_task (rt_id ready_task) (mkTask ToRun (virtual_runtime task));;;
            modify (fun s => set_woken (woken s ++ [waker ready_task]) s);;;
            schedule_loop rest
        end
    end
  else mret tt.

Definition schedule : S unit := let* ready := gets ready_tasks in schedule_loop ready.

Definition exit (id : TaskId) : S unit :=
  let* s := gets (fun s => s) in
  match tasks s !! id with
  | None => mret tt
  | Some task =>
      modify (fun s => set_tasks (delete id (tasks s)) s);;;
      match state task with
      | ToRun | Running =>
          let* n := arith 32 (running_tasks s - 1) in
          modify (set_running n);;;
          schedule
      | _ => mret tt
      end
  end.

Definition reset (id : TaskId) : S unit := exit id.

Definition maybe_reset_clock : S unit :=
  let* s := gets (fun s => s) in
  if virtual_clock s >? (2 ^ 128 - 1) / 2 then
    modify (fun s => set_tasks ((fun t => mkTask (state t) (Z.max 0 (virtual_runtime t - virtual_clock s))) <$> tasks s) s);;;
    modify (set_clock 0)
  else mret tt.

(** The waker of a waiting task is replaced. *)
Fixpoint rewake (id : TaskId) (w : Z) (l : list (Z * ReadyTask)) : list (Z * ReadyTask) :=
  match l with
  | [] => []
  | (k, t) :: l => if bool_decide (rt_id t = id) then (k, mkReadyTask (rt_id t) w) :: l else (k, t) :: rewake id w l
  end.

Definition poll_resume (now : Z) (w : Z) (id : TaskId) (weight : Z) : S (option RunningGuard) :=
  maybe_reset_clock;;;
  let* s := gets (fun s => s) in
  let task := default (mkTask Idle (virtual_clock s)) (tasks s !! id) in
  put_task id task;;;
  match state task with
  | Idle =>
      let vruntime := Z.max (virtual_runtime task) (virtual_clock s) in
      put_task id (mkTask Ready vruntime);;;
      modify (fun s => set_ready (rb_insert vruntime (mkReadyTask id w) (ready_tasks s)) s);;;
      schedule;;;
      mret None
  | Ready =>
      modify (fun s => set_ready (rewake id w (ready_tasks s)) s);;;
      mret None
  | ToRun =>
      put_task id (mkTask Running (virtual_runtime task));;;
      mret (Some (mkRunningGuard id now None weight))
  | Running => panic
  end.

Definition park (task_id : TaskId) (vruntime : Z) : S unit :=
  let* s := gets (fun s => s) in
  match tasks s !! task_id with
  | None => mret tt
  | Some task =>
      if negb (bool_decide (state task = Running)) then panic
      else
        let* v := arith 128 (virtual_runtime task + Z.max vruntime 1) in
        put_task task_id (mkTask Idle v);;;
        let* n := arith 32 (running_tasks s - 1) in
        modify (set_running n);;;
        schedule
  end.

Definition set_cost (cost : Z) (g : RunningGuard) : RunningGuard :=
  mkRunningGuard (rg_task g) (start_time g) (Some cost) (rg_weight g).

(** [Drop for RunningGuard] *)
Definition drop_running (now : Z) (g : RunningGuard) : S unit :=
  let cost := default ((now - start_time g) * 2 ^ 32 mod 2 ^ 128) (actual_cost g) in
  park (rg_task g) (Z.max (cost / Z.max (rg_weight g) 1) 1).

End Scheduler.
Arguments Scheduler TaskId {_ _}.
Arguments ReadyTask TaskId : clear implicits.
Arguments RunningGuard TaskId : clear implicits.
End TaskSched.
