(* ===== verification/TaskSchedProps.v ===== *)
(** * Scheduling of tasks: properties

    No core is idle while a task waits, and a core is never given out twice; and
    what happens when a task that waits is restarted. *)
From stdpp Require Import prelude gmap list sorting.
From Stdlib Require Import ZArith Lia.
From S2P Require Import Prelude RequestSched RequestSchedProps TaskSched.

Module TaskSchedProps.
Import TaskSched.

Section Invariant.
Context {prof : Profile} {T : RbTree} {TS : RbTreeSpec T} {TaskId : Type} `{Countable TaskId} {E : Type}.
Implicit Types (s : Scheduler TaskId) (id : TaskId).

(** The tasks that have a core *)
Definition occupies (t : Task) : Z := match state t with ToRun | Running => 1 | _ => 0 end.

Definition occupied s : Z := map_sum (fun _ => occupies) (tasks s).

Definition entries s : list TaskId := (fun e => rt_id (snd e)) <$> ready_tasks s.

Definition is_ready (o : option Task) : Prop := match o with Some t => state t = Ready | None => False end.

Record core s : Prop := mkCore {
  c_run : running_tasks s = occupied s;
  c_cores : running_tasks s <= virtual_cores s < 2 ^ 32;
  c_sorted : key_sorted (ready_tasks s);
  c_nodup : NoDup (entries s);
  c_entry : forall id, id ∈ entries s -> tasks s !! id = None \/ is_ready (tasks s !! id);
  c_ready : forall id, is_ready (tasks s !! id) -> id ∈ entries s;
}.

(** While a task waits every core is taken. *)
Definition busy s : Prop := ready_tasks s <> [] -> running_tasks s = virtual_cores s.

Lemma occupied_put id t s : occupied (set_tasks (<[id := t]> (tasks s)) s)
  = occupied s - at_key (fun _ => occupies) id (tasks s !! id) + occupies t.
Proof. unfold occupied. simpl. apply map_sum_insert. Qed.

Lemma occupied_nonneg s : 0 <= occupied s.
Proof. apply map_sum_nonneg. intros k x _. unfold occupies. destruct (state x); lia. Qed.

(** The first task in the queue gets a core. *)
Definition awake v (r : ReadyTask TaskId) t rest s : Scheduler TaskId :=
  set_woken (woken s ++ [waker r]) (set_tasks (<[rt_id r := mkTask ToRun (virtual_runtime t)]> (tasks s))
    (set_clock v (set_running (running_tasks s + 1) (set_ready rest s)))).

Lemma core_awake v r t rest s :
  core s -> ready_tasks s = (v, r) :: rest -> tasks s !! rt_id r = Some t -> running_tasks s < virtual_cores s ->
  core (awake v r t rest s).
Proof.
  intros [H1 H2 H3 H4 H5 H6] Hr Ht Hlt. unfold entries in *. rewrite Hr in *. simpl in *.
  apply NoDup_cons in H4 as [Hn H4].
  assert (Hst : is_ready (tasks s !! rt_id r)) by (destruct (H5 (rt_id r)) as [|]; [by left|congruence|done]).
  rewrite Ht in Hst. simpl in Hst. split; simpl.
  - assert (Ho : occupies t = 0) by (unfold occupies; by rewrite Hst). unfold occupied in *. simpl.
    rewrite map_sum_insert, Ht. cbn [at_key]. rewrite Ho. change (occupies (mkTask ToRun _)) with 1. lia.
  - lia.
  - by apply StronglySorted_inv in H3 as [? _].
  - done.
  - intros id Hid. rewrite lookup_insert_ne; [apply H5; by right|]. by intros <-.
  - intros id. destruct (decide (id = rt_id r)) as [->|Hne]; [by rewrite lookup_insert_eq|].
    rewrite lookup_insert_ne by done. intros Hid. apply H6 in Hid. by apply elem_of_cons in Hid as [|].
Qed.

Lemma core_stale v r rest s :
  core s -> ready_tasks s = (v, r) :: rest -> tasks s !! rt_id r = None -> core (set_ready rest s).
Proof.
  intros [H1 H2 H3 H4 H5 H6] Hr Ht. unfold entries in *. rewrite Hr in *. simpl in *.
  apply NoDup_cons in H4 as [Hn H4]. split; simpl; try done.
  - by apply StronglySorted_inv in H3 as [? _].
  - intros id Hid. apply H5. by right.
  - intros id Hid. pose proof (H6 id Hid) as [->|]%elem_of_cons; [|done]. by rewrite Ht in Hid.
Qed.

Lemma schedule_loop_spec ready s :
  core s -> ready_tasks s = ready ->
  wp (E := E) True (schedule_loop ready) (fun _ s' => core s' /\ busy s') (fun _ _ => False) s.
Proof.
  revert s. induction ready as [|[v r] rest IH]; intros s Hc Hr; simpl; apply wp_bind, wp_gets;
    (destruct (Z.ltb_spec (running_tasks s) (virtual_cores s)) as [Hlt|Hge];
     [|apply wp_ret; split; [done|]; intros _; pose proof (c_cores _ Hc); lia]).
  { apply wp_ret. split; [done|]. intros Hne. by rewrite Hr in Hne. }
  apply wp_bind, wp_modify. destruct (tasks s !! rt_id r) as [t|] eqn:Ht; [|apply IH; [by eapply core_stale|done]].
  pose proof (c_cores _ Hc). pose proof (c_run _ Hc). pose proof (occupied_nonneg s).
  apply wp_bind. unfold wp at 1. rewrite arith_fits by lia. unfold put_task. do 4 apply wp_bind, wp_modify. simpl.
  apply (IH (awake v r t rest s)); [by apply core_awake|done].
Qed.

Lemma schedule_spec s :
  core s -> wp (E := E) True schedule (fun _ s' => core s' /\ busy s') (fun _ _ => False) s.
Proof. intros Hc. unfold schedule. apply wp_bind, wp_gets. by apply schedule_loop_spec. Qed.

(** *** The operations *)
Definition inv s : Prop := core s /\ busy s.

Lemma exit_spec id s : inv s -> wp (E := E) True (exit id) (fun _ s' => inv s') (fun _ _ => False) s.
Proof.
  intros [Hc Hb]. unfold exit. apply wp_bind, wp_gets. destruct (tasks s !! id) as [t|] eqn:Ht; [|by apply wp_ret].
  apply wp_bind, wp_modify. pose proof (c_cores _ Hc) as Hcores. pose proof (c_run _ Hc) as Hrun.
  assert (Hocc : map_sum (fun _ => occupies) (delete id (tasks s)) = occupied s - occupies t)
    by (unfold occupied; by rewrite map_sum_delete, Ht).
  assert (Hdel : forall n, n = running_tasks s - occupies t ->
    core (set_running n (set_tasks (delete id (tasks s)) s))).
  { intros n ->. destruct Hc as [H1 H2 H3 H4 H5 H6]. split; simpl; try done.
    - unfold occupied. simpl. rewrite Hocc. lia.
    - unfold occupies. destruct (state t); lia.
    - intros j Hj. destruct (decide (j = id)) as [->|Hne]; [left; by rewrite lookup_delete_eq|].
      rewrite lookup_delete_ne by done. by apply H5.
    - intros j. destruct (decide (j = id)) as [->|Hne]; [by rewrite lookup_delete_eq|]. rewrite lookup_delete_ne by done. apply H6. }
  assert (Hfree : occupies t = 0 -> inv (set_tasks (delete id (tasks s)) s)).
  { intros Ho. specialize (Hdel (running_tasks s) ltac:(lia)). split; [|done]. by destruct Hdel. }
  assert (Htake : occupies t = 1 -> wp (E := E) True (let* n := arith 32 (running_tasks s - 1) in modify (set_running n);;; schedule)
    (fun _ s' => inv s') (fun _ _ => False) (set_tasks (delete id (tasks s)) s)).
  { intros Ho. pose proof (occupied_nonneg (set_tasks (delete id (tasks s)) s)) as Hn.
    change (0 <= map_sum (fun _ => occupies) (delete id (tasks s))) in Hn.
    apply wp_bind. unfold wp at 1. rewrite arith_fits by lia. apply wp_bind, wp_modify. apply schedule_spec, Hdel. lia. }
  unfold occupies in Hfree, Htake. destruct (state t); [by apply wp_ret, Hfree|by apply wp_ret, Hfree|by apply Htake..].
Qed.

(** A task of this name may be polled: no entry is left of an earlier one. *)
Definition fresh id s : Prop := tasks s !! id = None -> id ∉ entries s.

Lemma reset_clock_spec s :
  inv s -> wp (E := E) True maybe_reset_clock (fun _ s' => inv s' /\ ready_tasks s' = ready_tasks s /\
    forall id, (state <$> tasks s' !! id) = (state <$> tasks s !! id)) (fun _ _ => False) s.
Proof.
  intros [Hc Hb]. unfold maybe_reset_clock. apply wp_bind, wp_gets. destruct (_ >? _); [|by apply wp_ret].
  apply wp_bind, wp_modify, wp_modify. set (f := fun t => mkTask (state t) _).
  assert (Hl : forall id, (f <$> tasks s) !! id = f <$> tasks s !! id) by (intros; apply lookup_fmap).
  split_and!; [split; [|done]|done|].
  - destruct Hc as [H1 H2 H3 H4 H5 H6]. split; simpl; try done.
    + rewrite H1. unfold occupied. simpl. symmetry. by apply map_sum_fmap.
    + intros id Hid. rewrite Hl. destruct (H5 id Hid) as [->|Hr]; [by left|right]. by destruct (tasks s !! id).
    + intros id. rewrite Hl. intros Hid. apply H6. by destruct (tasks s !! id).
  - intros id. simpl. rewrite Hl. by destruct (tasks s !! id).
Qed.

(** A task changes its state without touching the queue. *)
Lemma core_put id t s n :
  core s -> state t <> Ready -> ~ is_ready (tasks s !! id) -> fresh id s ->
  n = running_tasks s - at_key (fun _ => occupies) id (tasks s !! id) + occupies t -> n <= virtual_cores s ->
  core (set_running n (set_tasks (<[id := t]> (tasks s)) s)).
Proof.
  intros [H1 H2 H3 H4 H5 H6] Ht Hnr Hf -> Hn. split; simpl; try done.
  - unfold occupied. simpl. rewrite map_sum_insert. unfold occupied in H1. lia.
  - lia.
  - intros j Hj. destruct (decide (j = id)) as [->|Hne]; [|rewrite lookup_insert_ne by done; by apply H5].
    destruct (H5 id Hj) as [Hno|?]; [|done]. by apply Hf in Hno.
  - intros j. destruct (decide (j = id)) as [->|Hne]; [by rewrite lookup_insert_eq|]. rewrite lookup_insert_ne by done. apply H6.
Qed.

Lemma park_spec id v s t :
  inv s -> tasks s !! id = Some t -> state t = Running ->
  wp (E := E) True (park id v) (fun _ s' => inv s') (fun _ _ => False) s.
Proof.
  intros [Hc Hb] Ht Hst. unfold park, put_task. apply wp_bind, wp_gets. rewrite Ht, Hst. simpl.
  apply wp_bind, wp_arith_any; [lia|done|]. intros x _. apply wp_bind, wp_modify.
  assert (Ho : occupies t = 1) by (unfold occupies; by rewrite Hst). pose proof (c_run _ Hc). pose proof (c_cores _ Hc).
  assert (1 <= occupied s).
  { pose proof (at_key_le (fun _ => occupies) (tasks s) id) as Hle. rewrite Ht in Hle. simpl in Hle. rewrite Ho in Hle.
    apply Hle. intros k y _. unfold occupies. destruct (state y); lia. }
  apply wp_bind. unfold wp at 1. rewrite arith_fits by lia. apply wp_bind, wp_modify. apply schedule_spec.
  apply (core_put id (mkTask Idle x) s); [done|done|rewrite Ht; simpl; congruence|unfold fresh; congruence| |lia].
  rewrite Ht. cbn [at_key]. rewrite Ho. change (occupies (mkTask Idle x)) with 0. lia.
Qed.

Lemma rewake_entries id w l : (fun e : Z * ReadyTask TaskId => rt_id (snd e)) <$> rewake id w l = (fun e => rt_id (snd e)) <$> l.
Proof. induction l as [|[k t] l IH]; [done|]. simpl. case_bool_decide; [done|]. simpl. f_equal. exact IH. Qed.

Lemma rewake_keys id w (l : list (Z * ReadyTask TaskId)) : fst <$> rewake id w l = fst <$> l.
Proof. induction l as [|[k t] l IH]; [done|]. simpl. case_bool_decide; [done|]. simpl. f_equal. exact IH. Qed.

Lemma key_sorted_keys {V W} (l1 : list (Z * V)) (l2 : list (Z * W)) : fst <$> l1 = fst <$> l2 -> key_sorted l1 -> key_sorted l2.
Proof.
  revert l2. induction l1 as [|x l1 IH]; intros [|y l2] He; simplify_eq/=; [constructor|].
  intros [Hs Hx]%StronglySorted_inv. constructor; [by apply IH|]. apply Forall_fmap with (f := fst) (P := fun k => fst y <= k).
  rewrite <- H1. apply Forall_fmap. rewrite <- H0. exact Hx.
Qed.

(** A task starts to wait. *)
Lemma core_wait id w v s :
  core s -> (forall t, tasks s !! id = Some t -> state t = Idle) -> fresh id s ->
  core (set_ready (rb_insert v (mkReadyTask id w) (ready_tasks s)) (set_tasks (<[id := mkTask Ready v]> (tasks s)) s)).
Proof.
  intros [H1 H2 H3 H4 H5 H6] Ht Hf. pose proof (rb_insert_perm v (mkReadyTask id w) (ready_tasks s)) as Hp.
  set (s' := set_ready _ _). assert (Hen : entries s' ≡ₚ id :: entries s) by (unfold entries; simpl; by rewrite Hp).
  assert (Hnew : id ∉ entries s).
  { intros Hin. destruct (H5 id Hin) as [Hno|Hr]; [by apply Hf in Hno|]. destruct (tasks s !! id) as [t|]; [|done].
    simpl in Hr. specialize (Ht t eq_refl). congruence. }
  split.
  - simpl. rewrite H1. unfold occupied. simpl. rewrite map_sum_insert. change (occupies (mkTask Ready v)) with 0.
    destruct (tasks s !! id) as [t|] eqn:Et; simpl; [|lia]. unfold occupies at 3. rewrite (Ht t eq_refl). lia.
  - done.
  - by apply rb_insert_sorted.
  - rewrite Hen. by constructor.
  - intros j. rewrite Hen. intros [->|Hj]%elem_of_cons; simpl; [right; by rewrite lookup_insert_eq|].
    rewrite lookup_insert_ne by (by intros ->). by apply H5.
  - intros j. simpl. rewrite Hen, elem_of_cons. destruct (decide (j = id)) as [->|Hne]; [by left|].
    rewrite lookup_insert_ne by done. intros Hj. right. by apply H6.
Qed.

Lemma poll_spec now w id weight s :
  inv s -> fresh id s ->
  wp (E := E) True (poll_resume now w id weight) (fun _ s' => inv s') (fun _ _ => False) s.
Proof.
  intros Hi Hf. unfold poll_resume. apply wp_bind. eapply wp_mono; [by apply reset_clock_spec| |done].
  intros [] s1 ([Hc Hb] & Hrd & Hst). clear Hi. apply wp_bind, wp_gets. unfold put_task. apply wp_bind, wp_modify.
  assert (Hf1 : fresh id s1).
  { unfold fresh, entries. intros Hn. rewrite Hrd. apply Hf. specialize (Hst id). rewrite Hn in Hst. by destruct (tasks s !! id). }
  set (task := default _ _). set (s2 := set_tasks _ _).
  assert (Hs2 : forall t, set_tasks (<[id := t]> (tasks s2)) s2 = set_tasks (<[id := t]> (tasks s1)) s1)
    by (intros t; unfold s2, set_tasks; simpl; by rewrite insert_insert_eq).
  destruct (state task) eqn:Et.
  - apply wp_bind, wp_modify, wp_bind, wp_modify, wp_bind.
    eapply wp_mono; [apply schedule_spec| |done]; [|intros; by apply wp_ret]. rewrite Hs2.
    refine (core_wait id w _ s1 Hc _ Hf1). intros t Ht. unfold task in Et. by rewrite Ht in Et.
  - assert (Hsame : s2 = s1).
    { unfold s2, task in *. destruct (tasks s1 !! id) as [t|] eqn:Ht; [|done]. simpl. rewrite insert_id by done. by destruct s1. }
    rewrite Hsame. apply wp_bind, wp_modify, wp_ret. destruct Hc as [H1 H2 H3 H4 H5 H6]. split.
    + assert (He : entries (set_ready (rewake id w (ready_tasks s1)) s1) = entries s1) by apply rewake_entries.
      split; rewrite ?He; try done. simpl. eapply key_sorted_keys; [|exact H3]. symmetry. apply rewake_keys.
    + unfold busy. simpl. intros Hne. apply Hb. intros E0. by rewrite E0 in Hne.
  - apply wp_bind, wp_modify, wp_ret. rewrite Hs2.
    assert (Ht : tasks s1 !! id = Some task) by (unfold task in *; by destruct (tasks s1 !! id)).
    pose proof (core_put id (mkTask Running (virtual_runtime task)) s1 (running_tasks s1) Hc) as Hput.
    split; [|done]. rewrite Ht in Hput. cbn [at_key] in Hput. apply Hput; try done; [simpl; congruence| |apply (c_cores _ Hc)].
    unfold occupies at 1. rewrite Et. change (occupies (mkTask Running _)) with 1. lia.
  - done.
Qed.

(** ** Runs

    A task of a name is polled only when nothing is left of an earlier task of
    that name, and a guard is dropped while its task runs. *)
Inductive reach : Scheduler TaskId -> Prop :=
| reach_new n : 0 <= n < 2 ^ 32 -> reach (new n)
| reach_poll s now w id weight g s' :
    reach s -> fresh id s -> poll_resume (E := E) now w id weight s = Ok g s' -> reach s'
| reach_exit s id s' : reach s -> exit (E := E) id s = Ok tt s' -> reach s'
| reach_park s now g t s' :
    reach s -> tasks s !! rg_task g = Some t -> state t = Running -> drop_running (E := E) now g s = Ok tt s' -> reach s'.

Lemma task_reach_inv s : reach s -> inv s.
Proof.
  induction 1 as [n Hn|s now w id weight g s' _ IH Hf Hp|s id s' _ IH He|s now g t s' _ IH Ht Hst Hp].
  - split; [|by intros Hne]. split; simpl; try done; [constructor|constructor|]. intros id Hid. by apply not_elem_of_nil in Hid.
  - apply (wp_ok True _ _ _ _ _ _ (poll_spec now w id weight s IH Hf) Hp).
  - apply (wp_ok True _ _ _ _ _ _ (exit_spec id s IH) He).
  - apply (wp_ok True _ _ _ _ _ _ (park_spec (rg_task g) _ s t IH Ht Hst) Hp).
Qed.

(** In every reachable state [running_tasks] is the number of tasks that
    were given a core, at most [virtual_cores]; every task that waits has exactly
    one entry in the queue, the queue is in the order of the virtual run times,
    and while a task waits no core is free. *)
Theorem cores_work_conserving s :
  reach s ->
  running_tasks s = occupied s /\ running_tasks s <= virtual_cores s /\
  key_sorted (ready_tasks s) /\ NoDup (entries s) /\
  (forall id, is_ready (tasks s !! id) -> id ∈ entries s /\ running_tasks s = virtual_cores s).
Proof.
  intros [Hc Hb]%task_reach_inv. destruct Hc as [H1 H2 H3 H4 H5 H6]. split_and!; try done; [lia|].
  intros id Hid. pose proof (H6 id Hid) as Hin. split; [done|]. apply Hb. intros E0.
  unfold entries in Hin. rewrite E0 in Hin. by apply not_elem_of_nil in Hin.
Qed.

Lemma schedule_one v r rest t s :
  ready_tasks s = (v, r) :: rest -> tasks s !! rt_id r = Some t -> 0 <= running_tasks s ->
  running_tasks s + 1 = virtual_cores s -> virtual_cores s < 2 ^ 32 ->
  schedule (E := E) s = Ok tt (awake v r t rest s).
Proof.
  intros Hr Ht H0 H1 H2. unfold schedule, mbind, gets. rewrite Hr. cbn [schedule_loop]. unfold mbind at 1, gets.
  destruct (Z.ltb_spec (running_tasks s) (virtual_cores s)) as [_|]; [|lia]. unfold mbind at 1, modify. rewrite Ht.
  unfold mbind at 1. rewrite arith_fits by lia. unfold put_task, mbind, modify.
  change (schedule_loop (E := E) rest (awake v r t rest s) = Ok tt (awake v r t rest s)).
  destruct rest; cbn [schedule_loop]; unfold mbind, gets, awake; simpl;
    (destruct (Z.ltb_spec (running_tasks s + 1) (virtual_cores s)) as [|_]; [lia|done]).
Qed.

(** An entry that is left of a restarted task is fatal.  When the task runs
    while an old entry of it heads the queue, the next guard that is dropped
    gives it a second core, and the drop of its own guard panics in [park], with
    the mutex held. *)
Theorem restarted_task_panics s b c v r rest tb tc x :
  ready_tasks s = (v, r) :: rest -> rt_id r = b -> b <> c ->
  tasks s !! b = Some tb -> tasks s !! c = Some tc -> state tc = Running ->
  1 <= running_tasks s -> running_tasks s = virtual_cores s -> virtual_cores s < 2 ^ 32 ->
  0 <= virtual_runtime tc + Z.max x 1 < 2 ^ 128 ->
  exists s', park (E := E) c x s = Ok tt s' /\ forall y, park (E := E) b y s' = Panic.
Proof.
  intros Hr Hb Hbc Htb Htc Hrun H1 H2 H3 Hv.
  set (s1 := set_running (running_tasks s - 1) (set_tasks (<[c := mkTask Idle (virtual_runtime tc + Z.max x 1)]> (tasks s)) s)).
  exists (awake v r tb rest s1). split.
  - unfold park, mbind, gets. rewrite Htc, Hrun. simpl. rewrite arith_fits by done. unfold put_task, modify.
    rewrite arith_fits by lia. apply (schedule_one v r rest tb s1); simpl; try done; try lia.
    rewrite Hb, lookup_insert_ne by done. done.
  - intros y. unfold park, mbind, gets. simpl. rewrite Hb, lookup_insert_eq. done.
Qed.
End Invariant.

(** ** Evaluations *)
Section Evaluations.
#[local] Existing Instance RequestSchedProps.wit_profile.
#[local] Existing Instance RequestSchedProps.wit_tree.
#[local] Existing Instance RequestSchedProps.wit_tree_spec.

Definition wit_poll (id : Z) (s : Scheduler Z) : Scheduler Z := final (E := Empty_set) (poll_resume 0 id id 1) s.

(** Two cores run 1 and 2 while 3 waits; 3 is restarted, and gets the core of 1. *)
Definition wit_two : Scheduler Z := wit_poll 3 (wit_poll 2 (wit_poll 1 (wit_poll 2 (wit_poll 1 (new 2))))).
Definition wit_restarted : Scheduler Z := wit_poll 3 (final (E := Empty_set) (exit 3) wit_two).
Definition wit_runs : Scheduler Z := wit_poll 3 (final (E := Empty_set) (park 1 5) wit_restarted).

Lemma wit_reach_poll id s :
  reach (E := Empty_set) s -> fresh id s ->
  match poll_resume (E := Empty_set) 0 id id 1 s with Ok _ _ => true | _ => false end = true -> reach (E := Empty_set) (wit_poll id s).
Proof.
  intros Hs Hf Hp. unfold wit_poll, final. destruct (poll_resume 0 id id 1 s) as [g s'| | |] eqn:E; try done.
  eapply reach_poll; [exact Hs|exact Hf|exact E].
Qed.

Lemma wit_two_reach : reach (E := Empty_set) wit_two.
Proof.
  unfold wit_two. repeat (apply wit_reach_poll; [|by intros _; apply (bool_decide_unpack _); vm_compute|vm_compute; reflexivity]).
  by apply reach_new.
Qed.

Lemma cores_work_conserving_witness : running_tasks wit_two = 2 /\ 3 ∈ entries wit_two.
Proof.
  destruct (cores_work_conserving wit_two wit_two_reach) as (_ & _ & _ & _ & H).
  destruct (H 3) as [H1 H2]; [by vm_compute|]. split; [rewrite H2; vm_compute; reflexivity|exact H1].
Defined.

Lemma restarted_task_panics_witness :
  exists s', park (E := Empty_set) 2 5 wit_runs = Ok tt s' /\ park (E := Empty_set) 3 5 s' = Panic.
Proof.
  assert (Hb : running_tasks wit_runs = 2 /\ virtual_cores wit_runs = 2) by (vm_compute; split; reflexivity).
  destruct Hb as [Hb1 Hb2].
  destruct (restarted_task_panics (E := Empty_set) wit_runs 3 2 0 (mkReadyTask 3 3) [] (mkTask Running 0) (mkTask Running 0) 5)
    as (s' & H1 & H2);
    [vm_compute; reflexivity|reflexivity|lia|vm_compute; reflexivity|vm_compute; reflexivity|reflexivity|lia|lia|lia|simpl; lia|].
  exists s'. split; [exact H1|apply H2].
Defined.
End Evaluations.
End TaskSchedProps.
