(* ===== verification/MemDb.v ===== *)
(** * Trie storage: crates/cyrux-trie-storage

    The reference-counted node database of [memdb.rs] and the storage of
    [lib.rs] on top of it: the state root with the nodes it is read from, the
    changes of a block, and the snapshot written to a checkpoint.  Patricia
    tries and their transactions are sp_trie and sp_state_machine: parameters. *)
From stdpp Require Import prelude gmap list.
From Stdlib Require Import ZArith Lia.
From S2P Require Import Prelude Types.

(** [hash_db::Hasher] *)
Class Hasher := { hash : bytes -> H256 }.

(** [MemoryDB<H, HashKey<H>, DBValue>] *)
Record MemoryDB := mkMemoryDB {
  data : gmap H256 (bytes * Z);
  hashed_null_node : H256;
  null_node_data : bytes;
}.

(** [sp_trie::PrefixedMemoryDB]: what [drain] yields *)
Abbreviation BackendTransaction := (list (bytes * (bytes * Z))) (only parsing).

(** A hash from its 32 bytes *)
Definition h256_of_be (b : bytes) : H256 := foldl (fun z x => 256 * z + x) 0 b.

Module MemDb.

Definition set_data (x : gmap H256 (bytes * Z)) (db : MemoryDB) : MemoryDB :=
  mkMemoryDB x (hashed_null_node db) (null_node_data db).

Section MemDb.
Context {prof : Profile} {H : Hasher} {E : Type}.
Abbreviation D := (M MemoryDB E).

(** A key is its hash alone; [prefix] is dropped. *)
Definition hash_key (key : H256) (prefix : bytes * option Z) : H256 := key.

Definition from_null_node (null_key null_node_data : bytes) : MemoryDB :=
  mkMemoryDB ∅ (hash null_key) null_node_data.

Definition new (data : bytes) : MemoryDB := from_null_node data data.

Definition default : MemoryDB := from_null_node [0] [0].

Definition from_inner (data : gmap H256 (bytes * Z)) : MemoryDB := set_data data default.

Definition default_with_root : MemoryDB * H256 := (default, hashed_null_node default).

Definition clear : D unit := modify (set_data ∅).

Definition drain : D (gmap H256 (bytes * Z)) :=
  let* d := gets data in
  modify (set_data ∅);;;
  mret d.

Definition raw (key : H256) (prefix : bytes * option Z) (db : MemoryDB) : option (bytes * Z) :=
  if key =? hashed_null_node db then Some (null_node_data db, 1)
  else data db !! hash_key key prefix.

Definition keys (db : MemoryDB) : gmap H256 Z :=
  omap (fun v : bytes * Z => if snd v =? 0 then None else Some (snd v)) (data db).

Definition set_entry (k : H256) (v : bytes) (rc : Z) : D unit :=
  modify (fun db => set_data (<[k := (v, rc)]> (data db)) db).

Definition remove_entry (k : H256) : D unit :=
  modify (fun db => set_data (delete k (data db)) db).

Definition remove_and_purge (key : H256) (prefix : bytes * option Z) : D (option bytes) :=
  let* db := gets (fun db => db) in
  if key =? hashed_null_node db then mret None
  else
    let key := hash_key key prefix in
    match data db !! key with
    | Some (value, rc) =>
        if rc =? 1 then remove_entry key;;; mret (Some value)
        else let* rc := arith_i 32 (rc - 1) in set_entry key value rc;;; mret None
    | None => set_entry key [] (-1);;; mret None
    end.

(** ** [HashDB] *)
Definition get (key : H256) (prefix : bytes * option Z) (db : MemoryDB) : option bytes :=
  if key =? hashed_null_node db then Some (null_node_data db)
  else
    match data db !! hash_key key prefix with
    | Some (d, rc) => if 0 <? rc then Some d else None
    | None => None
    end.

Definition contains (key : H256) (prefix : bytes * option Z) (db : MemoryDB) : bool :=
  if key =? hashed_null_node db then true
  else
    match data db !! hash_key key prefix with
    | Some (_, x) => 0 <? x
    | None => false
    end.

Definition emplace (key : H256) (prefix : bytes * option Z) (value : bytes) : D unit :=
  let* db := gets (fun db => db) in
  if bool_decide (value = null_node_data db) then mret tt
  else
    let key := hash_key key prefix in
    match data db !! key with
    | Some (old_value, rc) =>
        let old_value := if rc <=? 0 then value else old_value in
        let* rc := arith_i 32 (rc + 1) in
        if rc =? 0 then remove_entry key else set_entry key old_value rc
    | None => set_entry key value 1
    end.

Definition insert (prefix : bytes * option Z) (value : bytes) : D H256 :=
  let* db := gets (fun db => db) in
  if bool_decide (value = null_node_data db) then mret (hashed_null_node db)
  else
    let key := hash value in
    emplace key prefix value;;;
    mret key.

Definition remove (key : H256) (prefix : bytes * option Z) : D unit :=
  let* db := gets (fun db => db) in
  if key =? hashed_null_node db then mret tt
  else
    let key := hash_key key prefix in
    match data db !! key with
    | Some (value, rc) =>
        let* rc := arith_i 32 (rc - 1) in
        if rc =? 0 then remove_entry key else set_entry key value rc
    | None => set_entry key [] (-1)
    end.

(** ** [PlainDB]: no null node *)
Definition plain_get (key : H256) (db : MemoryDB) : option bytes :=
  match data db !! key with
  | Some (d, rc) => if 0 <? rc then Some d else None
  | None => None
  end.

Definition plain_contains (key : H256) (db : MemoryDB) : bool :=
  match data db !! key with
  | Some (_, x) => 0 <? x
  | None => false
  end.

Definition plain_emplace (key : H256) (value : bytes) : D unit :=
  let* d := gets data in
  match d !! key with
  | Some (old_value, rc) =>
      let old_value := if rc <=? 0 then value else old_value in
      let* rc := arith_i 32 (rc + 1) in
      if rc =? 0 then remove_entry key else set_entry key old_value rc
  | None => set_entry key value 1
  end.

Definition plain_remove (key : H256) : D unit :=
  let* d := gets data in
  match d !! key with
  | Some (value, rc) =>
      let* rc := arith_i 32 (rc - 1) in
      if rc =? 0 then remove_entry key else set_entry key value rc
  | None => set_entry key [] (-1)
  end.

(** ** Transactions of a trie *)

(** [&key[key.len() - 32..]] *)
Definition tx_key (key : bytes) : D H256 :=
  if Nat.ltb (length key) 32 then panic else mret (h256_of_be (drop (length key - 32) key)).

(** One turn of [consolidate] *)
Definition consolidate_entry (e : bytes * (bytes * Z)) : D unit :=
  let '(key, (value, rc)) := e in
  let* key := tx_key key in
  let* d := gets data in
  match d !! key with
  | Some (old_value, n) =>
      let old_value := if n <? 0 then value else old_value in
      let* n := arith_i 32 (n + rc) in
      if n =? 0 then remove_entry key else set_entry key old_value n
  | None => set_entry key value rc
  end.

Definition consolidate (other : BackendTransaction) : D unit := for_each other consolidate_entry.

End MemDb.
End MemDb.

(** ** lib.rs *)

Abbreviation StorageCollection := (list (bytes * option bytes)) (only parsing).
Abbreviation ChildStorageCollection := (list (bytes * StorageCollection)) (only parsing).

(** ser.rs *)
Record StorageChanges := mkStorageChanges {
  main_storage_changes : StorageCollection;
  child_storage_changes : ChildStorageCollection;
}.

(** Tries over a node database: sp_trie and sp_state_machine *)
Class TrieLib := {
  trie_hasher :: Hasher;
  (** [TrieDBMut::insert] of every pair into an empty database, then the root *)
  trie_of_pairs : list (bytes * bytes) -> option (H256 * MemoryDB);
  (** [TrieBackend::full_storage_root], state version 0, children by their key *)
  full_storage_root : MemoryDB -> H256 -> StorageCollection -> ChildStorageCollection ->
    H256 * BackendTransaction;
  (** [TrieBackend::storage] *)
  backend_storage : MemoryDB -> H256 -> bytes -> option (option bytes);
  (** [TrieBackend::pairs] with a prefix; [None] for an error *)
  backend_pairs : MemoryDB -> H256 -> bytes -> option (list (bytes * bytes));
}.

(** [TrieStorage(TrieBackend<MemoryDB>)] *)
Record TrieStorage := mkTrieStorage {
  root : H256;
  backend : MemoryDB;
}.

Module TrieStorage.
Section TrieStorage.
Context {prof : Profile} {T : TrieLib} {E : Type}.
Abbreviation D := (M TrieStorage E).

Definition default : TrieStorage := mkTrieStorage 0 MemDb.default.

Definition snapshot (s : TrieStorage) : TrieStorage := mkTrieStorage (root s) (backend s).

(** [load_trie_backend] *)
Definition load (pairs : list (bytes * bytes)) : D unit :=
  let* r := expect_some (trie_of_pairs pairs) in
  modify (fun _ => mkTrieStorage (fst r) (snd r)).

Definition calc_root_if_changes (changes : StorageChanges) (s : TrieStorage) : H256 * BackendTransaction :=
  full_storage_root (backend s) (root s) (main_storage_changes changes) (child_storage_changes changes).

(** An operation on the nodes, under the root [r] *)
Definition on_backend {A} (r : H256) (m : M MemoryDB E A) (db : MemoryDB) : outcome TrieStorage E A :=
  match m db with
  | Ok a db => Ok a (mkTrieStorage r db)
  | Err e db => Err e (mkTrieStorage r db)
  | Panic => Panic
  | NoFuel => NoFuel
  end.

Definition apply_changes (r : H256) (transaction : BackendTransaction) : D unit := fun s =>
  on_backend r (MemDb.consolidate transaction) (backend s).

Definition get (key : bytes) (s : TrieStorage) : option bytes :=
  match backend_storage (backend s) (root s) key with Some v => v | None => None end.

Definition pairs (prefix : bytes) : D (list (bytes * bytes)) :=
  let* s := gets (fun s => s) in
  expect_some (backend_pairs (backend s) (root s) prefix).

Definition set_root (r : H256) : D unit := modify (fun s => mkTrieStorage r (backend s)).

Definition load_proof (proof : list bytes) : D unit := fun s =>
  on_backend (root s)
    (for_each proof (fun value => let* _ := MemDb.insert ([], None) value in mret tt)) MemDb.default.

(** [serialize_trie_backend]: the nodes in the order of their keys, without them *)
Definition serialize (s : TrieStorage) : H256 * list (bytes * Z) :=
  (root s, snd <$> map_to_list (data (backend s))).

(** [deserialize_trie_backend] hashes every node again. *)
Definition deserialize (x : H256 * list (bytes * Z)) : TrieStorage :=
  mkTrieStorage (fst x) (MemDb.from_inner (list_to_map (rev ((fun v => (hash (fst v), v)) <$> snd x)))).

End TrieStorage.
End TrieStorage.
