(* ===== verification/MemDbProps.v ===== *)
(** * Properties of the trie storage

    The node database counts references: over any run its counts are the sums
    of what the operations add, it yields a node exactly while its count is
    positive, and the node it yields hashes to the key.  A storage whose
    counts are not negative survives a checkpoint. *)
From stdpp Require Import prelude gmap list.
From Stdlib Require Import ZArith Lia.
From S2P Require Import Prelude Types MemDb.

Module MemDbProps.

(** ** The operations as data *)
Inductive Op :=
| Insert (prefix : bytes * option Z) (value : bytes)
| Remove (key : H256) (prefix : bytes * option Z)
| RemoveAndPurge (key : H256) (prefix : bytes * option Z)
| Consolidate (entry : bytes * (bytes * Z)).

Definition i32 (z : Z) : Prop := - 2 ^ 31 <= z < 2 ^ 31.

Definition ignored {S E A} (m : M S E A) : M S E unit := let* _ := m in mret tt.

Section Counts.
Context {prof : Profile} {H : Hasher} {E : Type}.
Abbreviation D := (M MemoryDB E).

Definition run_op (op : Op) : D unit :=
  match op with
  | Insert prefix value => ignored (MemDb.insert prefix value)
  | Remove key prefix => MemDb.remove key prefix
  | RemoveAndPurge key prefix => ignored (MemDb.remove_and_purge key prefix)
  | Consolidate entry => MemDb.consolidate_entry entry
  end.

Definition suffix (key : bytes) : H256 := h256_of_be (drop (length key - 32) key).

(** The key an operation is about and what it adds there; the null node is not counted. *)
Definition effect (db : MemoryDB) (op : Op) : option (H256 * Z) :=
  match op with
  | Insert _ value => if bool_decide (value = null_node_data db) then None else Some (hash value, 1)
  | Remove key _ | RemoveAndPurge key _ => if key =? hashed_null_node db then None else Some (key, -1)
  | Consolidate (key, (_, rc)) => Some (suffix key, rc)
  end.

Definition delta (db : MemoryDB) (op : Op) (k : H256) : Z :=
  match effect db op with
  | Some (j, n) => if k =? j then n else 0
  | None => 0
  end.

Definition deltas (db : MemoryDB) (ops : list Op) (k : H256) : Z :=
  foldr (fun op z => delta db op k + z) 0 ops.

(** An entry of a transaction is a node under a prefix and its own hash, unless
    it only takes references away. *)
Definition op_ok (op : Op) : Prop :=
  match op with
  | Consolidate (key, (value, rc)) =>
      (32 <= length key)%nat /\ i32 rc /\ (0 <= rc -> hash value = suffix key)
  | _ => True
  end.

Definition count (db : MemoryDB) (k : H256) : Z :=
  match data db !! k with Some (_, n) => n | None => 0 end.

(** Counts have 32 bits; a node with a count that is not negative hashes to its key. *)
Definition typed (db : MemoryDB) : Prop :=
  forall k v n, data db !! k = Some (v, n) -> i32 n /\ (0 <= n -> hash v = k).

Definition same_null (db db' : MemoryDB) : Prop :=
  hashed_null_node db' = hashed_null_node db /\ null_node_data db' = null_node_data db.

(** The count of [k] goes to [n]. *)
Definition adjusted (k : H256) (n : Z) (db db' : MemoryDB) : Prop :=
  typed db' /\ same_null db db' /\ forall j, count db' j = if j =? k then n else count db j.

Lemma set_adjusted k v n db : typed db -> i32 n -> (0 <= n -> hash v = k) ->
  adjusted k n db (MemDb.set_data (<[k := (v, n)]> (data db)) db).
Proof.
  intros Ht Hn Hv. split; [|split; [done|]].
  - intros j w m Hj. simpl in Hj. apply lookup_insert_Some in Hj as [[<- [= <- <-]]|[_ Hj]]; [done|by apply Ht].
  - intros j. unfold count. simpl. destruct (Z.eqb_spec j k) as [->|]; [by rewrite lookup_insert_eq|by rewrite lookup_insert_ne].
Qed.

Lemma remove_adjusted k db : typed db -> adjusted k 0 db (MemDb.set_data (delete k (data db)) db).
Proof.
  intros Ht. split; [|split; [done|]].
  - intros j w m Hj. simpl in Hj. apply lookup_delete_Some in Hj as [_ Hj]. by apply Ht.
  - intros j. unfold count. simpl. destruct (Z.eqb_spec j k) as [->|]; [by rewrite lookup_delete_eq|by rewrite lookup_delete_ne].
Qed.

(** A count that reaches zero frees its entry, another one is stored. *)
Lemma put_adjusted k v n db : typed db -> i32 n -> (0 < n -> hash v = k) ->
  exists db', (let* rc := arith_i 32 n in
               if rc =? 0 then MemDb.remove_entry k else MemDb.set_entry (E := E) k v rc) db = Ok tt db'
    /\ adjusted k n db db'.
Proof.
  intros Ht Hn Hv. unfold mbind. rewrite arith_i_fits by (unfold i32 in Hn; lia). simpl.
  destruct (Z.eqb_spec n 0) as [->|].
  - eexists. split; [done|by apply remove_adjusted].
  - eexists. split; [done|]. apply set_adjusted; [done|done|]. intros. apply Hv. lia.
Qed.

Lemma i32_small : i32 1 /\ i32 (-1).
Proof. unfold i32. lia. Qed.

Definition entry_at (db : MemoryDB) (k : H256) (o : option (bytes * Z)) : Prop :=
  match o with Some (v, n) => i32 n /\ (0 <= n -> hash v = k) /\ count db k = n | None => count db k = 0 end.

Lemma typed_entry db k : typed db -> entry_at db k (data db !! k).
Proof.
  intros Ht. unfold entry_at, count. destruct (data db !! k) as [[v n]|] eqn:Hk; [|done]. by destruct (Ht k v n Hk).
Qed.

(** ** One operation *)
Lemma emplace_counts key prefix value db : typed db -> value <> null_node_data db -> hash value = key ->
  i32 (count db key + 1) ->
  exists db', MemDb.emplace (E := E) key prefix value db = Ok tt db' /\ adjusted key (count db key + 1) db db'.
Proof.
  intros Ht Hv Hkey Hc. pose proof (typed_entry db key Ht) as Hk. unfold entry_at in Hk.
  unfold MemDb.emplace, MemDb.hash_key, mbind at 1, gets.
  rewrite bool_decide_eq_false_2 by done. destruct (data db !! key) as [[v n]|].
  - destruct Hk as (Hn & Hh & <-). apply put_adjusted; [done|done|].
    intros. destruct (Z.leb_spec (count db key) 0); [done|]. apply Hh. lia.
  - rewrite Hk in *. eexists. split; [done|]. apply set_adjusted; [done|apply i32_small|done].
Qed.

Lemma insert_counts prefix value db : typed db -> value <> null_node_data db -> i32 (count db (hash value) + 1) ->
  exists db', run_op (Insert prefix value) db = Ok tt db'
    /\ adjusted (hash value) (count db (hash value) + 1) db db'.
Proof.
  intros Ht Hv Hc. destruct (emplace_counts (hash value) prefix value db) as (db' & Hr & Ha); [done..|].
  exists db'. split; [|done]. unfold run_op, ignored, MemDb.insert, mbind, gets.
  by rewrite bool_decide_eq_false_2, Hr.
Qed.

Lemma remove_counts key prefix db : typed db -> key <> hashed_null_node db -> i32 (count db key - 1) ->
  exists db', run_op (Remove key prefix) db = Ok tt db' /\ adjusted key (count db key - 1) db db'.
Proof.
  intros Ht Hv Hc. pose proof (typed_entry db key Ht) as Hk. unfold entry_at in Hk.
  unfold run_op, MemDb.remove, MemDb.hash_key, mbind at 1, gets. simpl.
  rewrite (proj2 (Z.eqb_neq _ _) Hv). destruct (data db !! key) as [[v n]|].
  - destruct Hk as (Hn & Hh & <-). apply put_adjusted; [done|done|]. intros. apply Hh. lia.
  - rewrite Hk in *. eexists. split; [done|]. apply set_adjusted; [done|apply i32_small|lia].
Qed.

Lemma remove_and_purge_counts key prefix db : typed db -> key <> hashed_null_node db -> i32 (count db key - 1) ->
  exists db', run_op (RemoveAndPurge key prefix) db = Ok tt db' /\ adjusted key (count db key - 1) db db'.
Proof.
  intros Ht Hv Hc. pose proof (typed_entry db key Ht) as Hk. unfold entry_at in Hk.
  unfold run_op, ignored, MemDb.remove_and_purge, MemDb.hash_key, mbind, gets. simpl.
  rewrite (proj2 (Z.eqb_neq _ _) Hv). destruct (data db !! key) as [[v n]|].
  - destruct Hk as (Hn & Hh & <-). destruct (Z.eqb_spec (count db key) 1) as [->|].
    + eexists. split; [done|]. by apply remove_adjusted.
    + rewrite arith_i_fits by (unfold i32 in Hc; lia). simpl. eexists. split; [done|].
      apply set_adjusted; [done|done|]. intros. apply Hh. lia.
  - rewrite Hk in *. eexists. split; [done|]. apply set_adjusted; [done|apply i32_small|lia].
Qed.

Lemma consolidate_counts key value rc db : typed db -> op_ok (Consolidate (key, (value, rc))) ->
  i32 (count db (suffix key) + rc) ->
  exists db', run_op (Consolidate (key, (value, rc))) db = Ok tt db'
    /\ adjusted (suffix key) (count db (suffix key) + rc) db db'.
Proof.
  intros Ht (Hlen & Hrc & Hval) Hc. pose proof (typed_entry db (suffix key) Ht) as Hk. unfold entry_at in Hk.
  unfold run_op, MemDb.consolidate_entry, MemDb.tx_key, mbind at 1 2, gets.
  rewrite (proj2 (Nat.ltb_ge _ _) Hlen). fold (suffix key). simpl.
  destruct (data db !! suffix key) as [[v n]|].
  - destruct Hk as (Hn & Hh & <-). apply put_adjusted; [done|done|].
    intros. destruct (Z.ltb_spec (count db (suffix key)) 0); [apply Hval; lia|apply Hh; lia].
  - rewrite Hk in *. eexists. split; [done|]. by apply set_adjusted.
Qed.

Lemma op_counts op db : typed db -> op_ok op -> (forall k, i32 (count db k + delta db op k)) ->
  exists db', run_op op db = Ok tt db' /\ typed db' /\ same_null db db'
    /\ forall k, count db' k = count db k + delta db op k.
Proof.
  intros Ht Ho Hc.
  assert (forall k n db', effect db op = Some (k, n) -> adjusted k (count db k + n) db db' ->
    typed db' /\ same_null db db' /\ forall k, count db' k = count db k + delta db op k) as Hadj.
  { intros k n db' He (H1 & H2 & H3). split; [done|split; [done|]]. intros j. rewrite H3. unfold delta. rewrite He.
    destruct (Z.eqb_spec j k) as [->|]; lia. }
  assert (forall k n, effect db op = Some (k, n) -> i32 (count db k + n)) as Hfit.
  { intros k n He. specialize (Hc k). unfold delta in Hc. by rewrite He, Z.eqb_refl in Hc. }
  assert (effect db op = None -> forall k, count db k = count db k + delta db op k) as Hnone.
  { intros He k. unfold delta. rewrite He. lia. }
  destruct op as [prefix value|key prefix|key prefix|[key [value rc]]]; simpl in Hadj, Hfit, Hnone.
  - case_bool_decide as Hv.
    + exists db. split; [|by split; [|split; [|apply Hnone]]].
      unfold run_op, ignored, MemDb.insert, mbind, gets. by rewrite bool_decide_eq_true_2.
    + destruct (insert_counts prefix value db) as (db' & Hr & Ha); [done|done|by apply Hfit|eauto].
  - destruct (Z.eqb_spec key (hashed_null_node db)) as [->|Hv].
    + exists db. split; [|by split; [|split; [|apply Hnone]]].
      unfold run_op, MemDb.remove, mbind, gets. by rewrite Z.eqb_refl.
    + destruct (remove_counts key prefix db) as (db' & Hr & Ha); [done|done|by apply Hfit|eauto].
  - destruct (Z.eqb_spec key (hashed_null_node db)) as [->|Hv].
    + exists db. split; [|by split; [|split; [|apply Hnone]]].
      unfold run_op, ignored, MemDb.remove_and_purge, mbind, gets. by rewrite Z.eqb_refl.
    + destruct (remove_and_purge_counts key prefix db) as (db' & Hr & Ha); [done|done|by apply Hfit|eauto].
  - destruct (consolidate_counts key value rc db) as (db' & Hr & Ha); [done|done|by apply Hfit|eauto].
Qed.

(** ** Runs *)
Lemma delta_same db db' op : same_null db db' -> delta db' op = delta db op.
Proof. intros [H1 H2]. unfold delta, effect. by rewrite H1, H2. Qed.

Definition in_range (db : MemoryDB) (ops : list Op) : Prop :=
  forall n k, i32 (count db k + deltas db (take n ops) k).

Lemma run_counts ops db : typed db -> Forall op_ok ops -> in_range db ops ->
  exists db', for_each ops run_op db = Ok tt db' /\ typed db' /\ same_null db db'
    /\ forall k, count db' k = count db k + deltas db ops k.
Proof.
  revert db. induction ops as [|op ops IH]; intros db Ht Ho Hr.
  { exists db. split; [done|split; [done|split; [done|]]]. intros k. simpl. lia. }
  apply Forall_cons in Ho as [Ho Hos]. destruct (op_counts op db Ht Ho) as (db1 & H1 & Ht1 & Hn1 & Hc1).
  { intros k. specialize (Hr 1%nat k). replace (take 1 (op :: ops)) with [op] in Hr by by destruct ops. simpl in Hr. by rewrite Z.add_0_r in Hr. }
  assert (forall ops' k, deltas db1 ops' k = deltas db ops' k) as Hd.
  { intros ops' k. induction ops' as [|o l IHl]; simpl; [done|]. by rewrite IHl, (delta_same db db1). }
  destruct (IH db1 Ht1 Hos) as (db2 & H2 & Ht2 & Hn2 & Hc2).
  { intros n k. specialize (Hr (S n) k). simpl in Hr. rewrite Hc1, Hd. by rewrite <- Z.add_assoc. }
  exists db2. split; [simpl; unfold mbind; by rewrite H1|]. split; [done|]. split.
  { destruct Hn1, Hn2. split; congruence. }
  intros k. rewrite Hc2, Hc1, Hd. simpl. lia.
Qed.

Lemma typed_default : typed MemDb.default.
Proof. intros k v n Hk. simpl in Hk. by rewrite lookup_empty in Hk. Qed.

Lemma consolidate_run other db : MemDb.consolidate (E := E) other db = for_each (Consolidate <$> other) run_op db.
Proof.
  unfold MemDb.consolidate. revert db. induction other as [|e l IH]; intros db; [done|].
  rewrite fmap_cons. simpl. unfold mbind. destruct (MemDb.consolidate_entry e db) as [[]| | |]; [apply IH|done..].
Qed.

Lemma get_count db k prefix : k <> hashed_null_node db ->
  match MemDb.get k prefix db with
  | Some v => 0 < count db k /\ (typed db -> hash v = k)
  | None => count db k <= 0
  end.
Proof.
  intros Hk. unfold MemDb.get, MemDb.hash_key, count. rewrite (proj2 (Z.eqb_neq _ _) Hk).
  destruct (data db !! k) as [[v n]|] eqn:Hd; [|done]. destruct (Z.ltb_spec 0 n); [|lia].
  split; [done|]. intros Ht. destruct (Ht k v n Hd) as [_ Hh]. apply Hh. lia.
Qed.

(** Every operation on a well-typed database returns and leaves a well-typed
    one: counts fit their 32 bits and a node whose count is not negative is the
    preimage of its key, so what [get] yields always hashes to the key asked for. *)
Theorem nodes_well_typed op db :
  typed db -> op_ok op -> (forall k, i32 (count db k + delta db op k)) ->
  hash (null_node_data db) = hashed_null_node db ->
  exists db', run_op op db = Ok tt db' /\ typed db'
    /\ forall k prefix v, MemDb.get k prefix db' = Some v -> hash v = k.
Proof.
  intros Ht Ho Hc Hnull. destruct (op_counts op db Ht Ho Hc) as (db' & Hr & Ht' & [Hn1 Hn2] & _).
  exists db'. split; [done|split; [done|]]. intros k prefix v Hg.
  destruct (decide (k = hashed_null_node db')) as [->|Hk].
  - unfold MemDb.get in Hg. rewrite Z.eqb_refl in Hg. injection Hg as <-. congruence.
  - pose proof (get_count db' k prefix Hk) as H0. rewrite Hg in H0. by apply H0.
Qed.

(** C31: the database is a reference counter: over any run of insertions, removals
    and consolidated transactions whose sums fit 32 bits, it yields a node exactly
    while more references were added than taken away, and the node it yields is
    the one of that hash. *)
Theorem memory_db_counts ops :
  Forall op_ok ops -> in_range MemDb.default ops ->
  exists db, for_each ops run_op MemDb.default = Ok tt db
    /\ forall k prefix, k <> hashed_null_node MemDb.default ->
         (MemDb.contains k prefix db = true <-> 0 < deltas MemDb.default ops k)
         /\ match MemDb.get k prefix db with
            | Some v => 0 < deltas MemDb.default ops k /\ hash v = k
            | None => deltas MemDb.default ops k <= 0
            end.
Proof.
  intros Ho Hr. destruct (run_counts ops _ typed_default Ho Hr) as (db & Hrun & Ht & [Hn _] & Hc).
  exists db. split; [done|]. intros k prefix Hk.
  assert (count db k = deltas MemDb.default ops k) as Hck.
  { rewrite Hc. unfold count at 1. simpl. by rewrite lookup_empty. }
  rewrite <- Hn in Hk. rewrite <- Hck. split.
  - unfold MemDb.contains, MemDb.hash_key, count. rewrite (proj2 (Z.eqb_neq _ _) Hk).
    destruct (data db !! k) as [[v n]|]; [by rewrite Z.ltb_lt|done].
  - pose proof (get_count db k prefix Hk) as H0. destruct (MemDb.get k prefix db); [|done]. destruct H0. auto.
Qed.

End Counts.

(** ** Checkpoints *)
Section RoundTrip.
Context {T : TrieLib}.

(** A storage without negative counts is restored from a checkpoint as it
    was, although only the nodes are written and their keys are hashed again. *)
Theorem checkpoint_round_trip s :
  typed (backend s) -> (forall k, 0 <= count (backend s) k) -> same_null MemDb.default (backend s) ->
  TrieStorage.deserialize (TrieStorage.serialize s) = s.
Proof.
  intros Ht Hc [Hn1 Hn2]. destruct s as [r [d h b]]. simpl in *. subst h b.
  unfold TrieStorage.deserialize, TrieStorage.serialize, MemDb.from_inner, MemDb.set_data. simpl. f_equal. f_equal.
  rewrite <- list_fmap_compose. assert (((fun v : bytes * Z => (hash (fst v), v)) ∘ snd) <$> map_to_list d = map_to_list d) as ->.
  { rewrite <- (list_fmap_id (map_to_list d)) at 2. apply list_fmap_ext. intros i [k [v n]] Hi. simpl. f_equal.
    apply list_elem_of_lookup_2, elem_of_map_to_list in Hi. apply (Ht k v n Hi). specialize (Hc k). unfold count in Hc. simpl in Hc.
    by rewrite Hi in Hc. }
  rewrite <- (list_to_map_to_list d) at 2. apply list_to_map_proper.
  - rewrite <- Permutation_rev. apply NoDup_fst_map_to_list.
  - symmetry. apply Permutation_rev.
Qed.

End RoundTrip.
(** ** A run *)
Definition wit_hasher : Hasher := {| hash := h256_of_be |}.
Definition wit_checked : Profile := {| overflow_checks := true; debug_assertions := true |}.
Definition wit_node (prefix : bytes) (b rc : Z) : bytes * (bytes * Z) := (prefix ++ replicate 31 0 ++ [b], ([b], rc)).
Definition wit_ops : list Op :=
  [Insert ([], None) [7]; Insert ([], None) [7]; Remove 7 ([], None); Consolidate (wit_node [1; 2] 9 2);
   RemoveAndPurge 9 ([], None)].

Lemma wit_ops_ok : Forall (op_ok (H := wit_hasher)) wit_ops.
Proof. repeat constructor; unfold i32; simpl; try lia. Qed.

Lemma wit_in_range : in_range (H := wit_hasher) (MemDb.default (H := wit_hasher)) wit_ops.
Proof.
  intros n k. unfold i32, count. simpl. rewrite lookup_empty.
  destruct n as [|[|[|[|[|[|n]]]]]]; unfold wit_ops, wit_node; simpl; unfold delta; simpl;
    repeat case_match; simpl; try lia.
Qed.

Lemma memory_db_counts_witness : exists db,
  for_each wit_ops (run_op (prof := wit_checked) (H := wit_hasher) (E := unit)) (MemDb.default (H := wit_hasher)) = Ok tt db
  /\ MemDb.get 7 ([], None) db = Some [7] /\ MemDb.get 9 ([], None) db = Some [9] /\ MemDb.get 8 ([], None) db = None.
Proof.
  destruct (memory_db_counts (prof := wit_checked) (H := wit_hasher) (E := unit) wit_ops wit_ops_ok wit_in_range)
    as (db & Hr & _).
  exists db. split; [exact Hr|]. vm_compute in Hr. injection Hr as <-. by vm_compute.
Defined.

Definition wit_db : MemoryDB :=
  final (for_each wit_ops (run_op (prof := wit_checked) (H := wit_hasher) (E := unit))) (MemDb.default (H := wit_hasher)).

Lemma wit_data : data wit_db = {[ 7 := ([7], 1); 9 := ([9], 1) ]}.
Proof. by vm_compute. Qed.

Lemma wit_typed : typed (H := wit_hasher) wit_db.
Proof.
  intros k v n Hk. rewrite wit_data in Hk.
  apply lookup_insert_Some in Hk as [[<- [= <- <-]]|[_ [<- [= <- <-]]%lookup_singleton_Some]];
    (split; [unfold i32; lia|reflexivity]).
Qed.

Lemma nodes_well_typed_witness : exists db,
  run_op (prof := wit_checked) (H := wit_hasher) (E := unit) (Remove 3 ([], None)) wit_db = Ok tt db
  /\ typed (H := wit_hasher) db /\ count db 3 = -1.
Proof.
  destruct (nodes_well_typed (prof := wit_checked) (H := wit_hasher) (E := unit) (Remove 3 ([], None)) wit_db)
    as (db & Hr & Ht & _).
  - exact wit_typed.
  - exact I.
  - intros k. unfold count, delta. rewrite wit_data.
    assert (effect (H := wit_hasher) wit_db (Remove 3 ([], None)) = Some (3, -1)) as -> by by vm_compute.
    destruct (_ !! k) as [[v n]|] eqn:Hk; [|case_match; unfold i32; lia].
    apply lookup_insert_Some in Hk as [[<- [= <- <-]]|[_ [<- [= <- <-]]%lookup_singleton_Some]]; simpl; unfold i32; lia.
  - reflexivity.
  - exists db. split; [exact Hr|split; [exact Ht|]]. vm_compute in Hr. injection Hr as <-. by vm_compute.
Defined.

#[local] Instance wit_trie : TrieLib := {|
  trie_hasher := wit_hasher;
  trie_of_pairs _ := None;
  full_storage_root _ r _ _ := (r, []);
  backend_storage _ _ _ := None;
  backend_pairs _ _ _ := None;
|}.

Lemma checkpoint_round_trip_witness :
  TrieStorage.deserialize (TrieStorage.serialize (mkTrieStorage 5 wit_db)) = mkTrieStorage 5 wit_db
  /\ snd (TrieStorage.serialize (mkTrieStorage 5 wit_db)) = [([7], 1); ([9], 1)].
Proof.
  split; [apply checkpoint_round_trip|by vm_compute].
  - exact wit_typed.
  - intros k. unfold count. simpl backend. rewrite wit_data. destruct (_ !! k) as [[v n]|] eqn:Hk; [|lia].
    apply lookup_insert_Some in Hk as [[_ [= _ <-]]|[_ [_ [= _ <-]]%lookup_singleton_Some]]; lia.
  - by split.
Defined.

End MemDbProps.
