(* ===== verification/LightClient.v ===== *)
(** * Light client: crates/phactory/src/light_validation

    Tracks the finalized headers of a chain: the ancestry of a submitted
    header, its GRANDPA justification under the current authorities, and the
    hand-over to the next authorities (mod.rs, justification.rs,
    storage_proof.rs, and [find_scheduled_change] of api/src/blocks.rs).  Hashes,
    the codec, the trie reader and the [finality_grandpa] crate are parameters. *)
From stdpp Require Import prelude gmap list strings.
From Stdlib Require Import ZArith Lia.
From S2P Require Import Prelude Types.

(** ** Headers and finality proofs *)
Record ScheduledChange := mkScheduledChange {
  next_authorities : list (Z * Z);
  delay : Z;
}.

(** [sp_consensus_grandpa::ConsensusLog] *)
Inductive ConsensusLog :=
| LogScheduledChange (c : ScheduledChange)
| LogForcedChange (median : Z) (c : ScheduledChange)
| LogOnDisabled (i : Z)
| LogPause (d : Z)
| LogResume (d : Z).

(** [sp_runtime::DigestItem] *)
Inductive DigestItem :=
| PreRuntime (engine data : bytes)
| ConsensusItem (engine data : bytes)
| Seal (engine data : bytes)
| OtherItem (data : bytes)
| RuntimeEnvironmentUpdated.

Record Header := mkHeader {
  number : Z;
  parent_hash : H256;
  state_root : H256;
  extrinsics_root : H256;
  digest : list DigestItem;
}.

Record AuthoritySet := mkAuthoritySet {
  as_list : list (Z * Z);
  as_id : Z;
}.

Record Precommit := mkPrecommit {
  pc_target_hash : H256;
  pc_target_number : Z;
}.

Record SignedPrecommit := mkSignedPrecommit {
  precommit : Precommit;
  pc_signature : bytes;
  pc_id : Z;
}.

Record Commit := mkCommit {
  commit_target_hash : H256;
  commit_target_number : Z;
  precommits : list SignedPrecommit;
}.

(** [sp_consensus_grandpa::GrandpaJustification] *)
Record Justification := mkJustification {
  round : Z;
  commit : Commit;
  votes_ancestries : list Header;
}.

Inductive GrandpaError := NotDescendent.

#[export] Instance Precommit_eq_dec : EqDecision Precommit.
Proof. solve_decision. Defined.

(** ** Other crates *)
Class Grandpa := {
  header_hash : Header -> H256;
  encode_header : Header -> bytes;
  encode_authorities : list (Z * Z) -> bytes;
  decode_consensus_log : bytes -> option ConsensusLog;
  decode_justification : bytes -> option Justification;
  (** [finality_grandpa] *)
  VoterSet : Type;
  voter_set_new : list (Z * Z) -> option VoterSet;
  (** valid or not, over the [Chain] it is given *)
  validate_commit : (H256 -> H256 -> M unit GrandpaError (list H256)) -> Commit -> VoterSet ->
    M unit GrandpaError bool;
  (** [check_message_signature] of a precommit: signer, signature, round, set id *)
  check_precommit_signature : Precommit -> Z -> bytes -> Z -> Z -> bool;
  (** [TrieDB::get] over the nodes of a proof, under a root; the error as text *)
  trie_get : H256 -> list bytes -> bytes -> option bytes + string;
  twox_128 : bytes -> bytes;
  twox_64 : bytes -> bytes;
  encode_u32 : Z -> bytes;
  (** a byte string with its length *)
  encode_bytes : bytes -> bytes;
}.

Definition GRANDPA_ENGINE_ID : bytes := bytes_of_string "FRNK".

Abbreviation StorageProof := (list bytes) (only parsing).

(** ** Errors *)
Inductive Error :=
| StorageValueUnavailable | ValidatorSetMismatch | InvalidAncestryProof | NoSuchBridgeExists
| InvalidFinalityProof | StorageValueMismatch | UnsupportedScheduledChangeDelay.

Inductive JustificationError :=
| JustificationDecode
| BadJustification (msg : string).

(** [anyhow::Error], by what it was made from *)
Inductive AnyError :=
| OfError (e : Error)
| OfJustification (e : JustificationError)
| OfText (msg : string).

Definition error_text (e : Error) : string :=
  match e with
  | StorageValueUnavailable => "storage value unavailable"
  | ValidatorSetMismatch => "validator set mismatch"
  | InvalidAncestryProof => "invalid ancestry proof"
  | NoSuchBridgeExists => "no such bridge exists"
  | InvalidFinalityProof => "invalid finality proof"
  | StorageValueMismatch => "storage value mismatch"
  | UnsupportedScheduledChangeDelay => "scheduled change should not have delay"
  end.

Definition to_string (e : AnyError) : string :=
  match e with
  | OfError e => error_text e
  | OfJustification JustificationDecode => "error decoding justification for header"
  | OfJustification (BadJustification msg) => "bad justification for header: " +:+ msg
  | OfText msg => msg
  end.

Record BridgeInfo := mkBridgeInfo {
  last_finalized_block_header : Header;
  current_set : AuthoritySet;
}.

Record LightValidation := mkLightValidation {
  num_bridges : Z;
  tracked_bridges : gmap Z BridgeInfo;
}.

(** [m] on a part of the state it does not have *)
Definition detached {S E E' A} (f : E -> E') (m : M unit E A) : M S E' A := fun s =>
  match m tt with
  | Ok a _ => Ok a s
  | Err e _ => Err (f e) s
  | Panic => Panic
  | NoFuel => NoFuel
  end.

Module LightClient.
Section LightClient.
Context {prof : Profile} {G : Grandpa}.

(** ** blocks.rs *)

(** [DigestItem::consensus_try_to] *)
Definition consensus_try_to (engine : bytes) (i : DigestItem) : option ConsensusLog :=
  match i with
  | ConsensusItem e d => if bool_decide (e = engine) then decode_consensus_log d else None
  | _ => None
  end.

Definition filter_log (log : ConsensusLog) : option ScheduledChange :=
  match log with LogScheduledChange change => Some change | _ => None end.

Definition find_scheduled_change (header : Header) : option ScheduledChange :=
  head (omap (fun l => consensus_try_to GRANDPA_ENGINE_ID l ≫= filter_log) (digest header)).

(** ** justification.rs *)
Section Justification.
Abbreviation J := (M unit JustificationError).

(** [AncestryChain::new] *)
Definition ancestry_chain (ancestry : list Header) : gmap H256 Header :=
  list_to_map (rev ((fun h => (header_hash h, h)) <$> ancestry)).

(** The loop of [Chain::ancestry] *)
Fixpoint ancestry_loop (fuel : nat) (chain : gmap H256 Header) (base current_hash : H256) (route : list H256) :
    M unit GrandpaError (list H256) :=
  match fuel with
  | O => fun _ => NoFuel
  | S fuel =>
      if current_hash =? base then mret route
      else
        match chain !! current_hash with
        | Some current_header =>
            ancestry_loop fuel chain base (parent_hash current_header) (route ++ [parent_hash current_header])
        | None => fail NotDescendent
        end
  end.

Definition ancestry (chain : gmap H256 Header) (base block : H256) : M unit GrandpaError (list H256) :=
  let* route := ancestry_loop (S (size chain)) chain base block [] in
  mret (removelast route).

(** [iter().min_by_key(target_number)]: the first one of the least number *)
Definition lowest (l : list SignedPrecommit) : option SignedPrecommit :=
  foldl (fun best s =>
    match best with
    | Some b => if pc_target_number (precommit s) <? pc_target_number (precommit b) then Some s else best
    | None => Some s
    end) None l.

Definition verify_precommit (j : Justification) (set_id : Z) (chain : gmap H256 Header) (base_hash : H256)
    (visited_hashes : gset H256) (signed : SignedPrecommit) : J (gset H256) :=
  ensure (check_precommit_signature (precommit signed) (pc_id signed) (pc_signature signed) (round j) set_id)
    (BadJustification "invalid signature for precommit in grandpa justification");;;
  let target := pc_target_hash (precommit signed) in
  if base_hash =? target then mret visited_hashes
  else
    let* route := detached
      (fun _ => BadJustification "invalid precommit ancestry proof in grandpa justification")
      (ancestry chain base_hash target) in
    mret (visited_hashes ∪ {[target]} ∪ list_to_set route).

Definition verify_with_voter_set (j : Justification) (set_id : Z) (voters : VoterSet) : J unit :=
  let chain := ancestry_chain (votes_ancestries j) in
  let* valid := detached (fun _ => BadJustification "invalid commit in grandpa justification")
    (validate_commit (ancestry chain) (commit j) voters) in
  ensure valid (BadJustification "invalid commit in grandpa justification");;;
  let* base := expect_some (lowest (precommits (commit j))) in
  let base_hash := pc_target_hash (precommit base) in
  let* visited_hashes := for_fold (precommits (commit j)) ∅ (verify_precommit j set_id chain base_hash) in
  let ancestry_hashes : gset H256 := list_to_set (header_hash <$> votes_ancestries j) in
  ensure (bool_decide (visited_hashes = ancestry_hashes))
    (BadJustification "invalid precommit ancestries in grandpa justification with unused headers").

Definition decode_and_verify_finalizes (encoded : bytes) (finalized_target : H256 * Z) (set_id : Z)
    (voters : VoterSet) : J Justification :=
  let* justification := ok_or (decode_justification encoded) JustificationDecode in
  if bool_decide ((commit_target_hash (commit justification), commit_target_number (commit justification))
                  = finalized_target)
  then verify_with_voter_set justification set_id voters;;; mret justification
  else fail (BadJustification "invalid commit target in grandpa justification").

End Justification.

(** ** storage_proof.rs: the nodes of the proof under a root *)
Definition read_value {S} (r : H256) (proof : StorageProof) (key : bytes) : M S AnyError (option bytes) :=
  match trie_get r proof key with
  | inl v => mret v
  | inr err => fail (OfText ("Failed to read value from trie: " +:+ err))
  end.

(** [.context(..)] replaces the text *)
Definition context {S A} (text : string) (m : M S AnyError A) : M S AnyError A := or_err m (OfText text).

(** ** mod.rs *)
Abbreviation L := (M LightValidation AnyError).

Definition grandpa_authorities_key : bytes :=
  [0x5f; 0x9c; 0xc4; 0x5b; 0x7a; 0x00; 0xc5; 0x89; 0x93; 0x61; 0xe1; 0xc6; 0x09; 0x96; 0x78; 0xdc;
   0x5e; 0x06; 0x21; 0xc4; 0x86; 0x9a; 0xa6; 0x0c; 0x02; 0xbe; 0x9a; 0xdc; 0xc9; 0x8a; 0x0d; 0x1d].

Definition calc_storage_prefix (module storage_item : string) : bytes :=
  twox_128 (bytes_of_string module) ++ twox_128 (bytes_of_string storage_item).

Definition storage_prefix (module storage_item : string) : bytes :=
  if bool_decide (module = "Grandpa" /\ storage_item = "Authorities")
  then grandpa_authorities_key
  else calc_storage_prefix module storage_item.

Definition storage_map_prefix_twox_64_concat (module storage_item key : bytes) : bytes :=
  twox_128 module ++ twox_128 storage_item ++ twox_64 key ++ key.

Definition check_validator_set_proof (r : H256) (proof : StorageProof) (validator_set : list (Z * Z)) : L unit :=
  let encoded_validator_set := encode_authorities validator_set in
  let* v := context "Faield to read Grandpa::Authorities" (read_value r proof (storage_prefix "Grandpa" "Authorities")) in
  let* matches :=
    match v with
    | Some authorities => mret (bool_decide (encoded_validator_set = authorities))
    | None =>
        let* v := context "Faield to read :grandpa_authorities"
          (read_value r proof (bytes_of_string ":grandpa_authorities")) in
        let* authorities := ok_or v (OfText "Missing grandpa authorities") in
        (** [Some(a) == authorities.get(1..)], which is none of an empty slice *)
        mret (negb (bool_decide (authorities = [])) && bool_decide (encoded_validator_set = drop 1 authorities))
    end in
  ensure matches (OfError ValidatorSetMismatch).

(** [LightValidation::new] *)
Definition new : LightValidation := mkLightValidation 0 ∅.

Definition track (id : Z) (info : BridgeInfo) (s : LightValidation) : LightValidation :=
  mkLightValidation (num_bridges s) (<[id := info]> (tracked_bridges s)).

Definition initialize_bridge (block_header : Header) (validator_set : AuthoritySet) (proof : StorageProof) : L Z :=
  check_validator_set_proof (state_root block_header) proof (as_list validator_set);;;
  let bridge_info := mkBridgeInfo block_header validator_set in
  let* s := gets (fun s => s) in
  let* new_bridge_id := arith 64 (num_bridges s + 1) in
  modify (track new_bridge_id bridge_info);;;
  modify (fun s => mkLightValidation new_bridge_id (tracked_bridges s));;;
  mret new_bridge_id.

(** The loop of [verify_ancestry] *)
Fixpoint ancestry_reaches (proof : list Header) (ancestor_hash parent : H256) : bool :=
  match proof with
  | [] => false
  | header :: proof =>
      if negb (header_hash header =? parent) then false
      else if parent_hash header =? ancestor_hash then true
      else ancestry_reaches proof ancestor_hash (parent_hash header)
  end.

Definition verify_ancestry (proof : list Header) (ancestor_hash : H256) (child : Header) : L unit :=
  if parent_hash child =? ancestor_hash then mret tt
  else ensure (ancestry_reaches proof ancestor_hash (parent_hash child)) (OfError InvalidAncestryProof).

Definition verify_grandpa_proof (justification : bytes) (hash : H256) (number : Z) (set_id : Z) (voters : VoterSet) :
    L unit :=
  let* _ := detached OfJustification (decode_and_verify_finalizes justification (hash, number) set_id voters) in
  mret tt.

Definition submit_finalized_headers (bridge_id : Z) (header : Header) (ancestry_proof : list Header)
    (grandpa_proof : bytes) : L unit :=
  let* s := gets (fun s => s) in
  let* bridge := ok_or (tracked_bridges s !! bridge_id) (OfError NoSuchBridgeExists) in
  let last_header := last_finalized_block_header bridge in
  verify_ancestry ancestry_proof (header_hash last_header) header;;;
  let block_hash := header_hash header in
  let block_num := number header in
  let voters := current_set bridge in
  let* voter_set := expect_some (voter_set_new (as_list voters)) in
  let voter_set_id := as_id voters in
  verify_grandpa_proof grandpa_proof block_hash block_num voter_set_id voter_set;;;
  match find_scheduled_change header with
  | Some scheduled_change =>
      ensure (delay scheduled_change =? 0) (OfError UnsupportedScheduledChangeDelay);;;
      let* next_id := arith 64 (voter_set_id + 1) in
      modify (track bridge_id (mkBridgeInfo header (mkAuthoritySet (next_authorities scheduled_change) next_id)))
  | None => modify (track bridge_id (mkBridgeInfo header voters))
  end.

Definition validate_storage_proof (r : H256) (proof : StorageProof) (items : list (bytes * bytes)) : L unit :=
  for_each items (fun kv =>
    let* v := read_value r proof (fst kv) in
    let* actual_value := ok_or v (OfError StorageValueUnavailable) in
    ensure (bool_decide (actual_value = snd kv)) (OfError StorageValueMismatch)).

End LightClient.
End LightClient.
