(* ===== verification/LightClientProps.v ===== *)
(** * Properties of the light client

    A header it accepts descends from the last one and was finalized by a
    supermajority of the tracked authorities; when GRANDPA keeps its promise,
    the light client follows the one finalized chain and its authorities. *)
From stdpp Require Import prelude gmap list strings.
From Stdlib Require Import ZArith Lia.
From S2P Require Import Prelude Types LightClient.

Module LightClientProps.

Section Ancestry.
Context {G : Grandpa}.
Implicit Types (chain : gmap H256 Header) (base : H256).

(** ** The walk of [ancestry]

    After [size chain + 1] turns it either ended or never does. *)
Definition next chain base (h : H256) : option H256 :=
  if h =? base then None else parent_hash <$> chain !! h.

Definition walk chain base (start : H256) (n : nat) : option H256 :=
  Nat.iter n (fun o => o ≫= next chain base) (Some start).

Lemma walk_S chain base start n : walk chain base start (S n) = walk chain base start n ≫= next chain base.
Proof. done. Qed.

Lemma walk_add chain base start n m :
  walk chain base start (m + n) = Nat.iter m (fun o => o ≫= next chain base) (walk chain base start n).
Proof. unfold walk. by rewrite Nat.iter_add. Qed.

Lemma walk_next chain base start n :
  walk chain base start (S n) = next chain base start ≫= fun h => walk chain base h n.
Proof.
  induction n as [|n IH].
  - rewrite walk_S. simpl. by destruct (next chain base start).
  - rewrite walk_S, IH. destruct (next chain base start); [done|done].
Qed.

Lemma walk_le chain base start n m : (n <= m)%nat -> is_Some (walk chain base start m) -> is_Some (walk chain base start n).
Proof.
  induction 1 as [|m _ IH]; [done|]. rewrite walk_S. intros Hm. apply IH.
  by destruct (walk chain base start m); [|by destruct Hm].
Qed.

Lemma loop_fuel fuel chain base start route :
  LightClient.ancestry_loop fuel chain base start route tt = NoFuel <-> is_Some (walk chain base start fuel).
Proof.
  revert start route. induction fuel as [|fuel IH]; intros start route; simpl LightClient.ancestry_loop; [done|].
  rewrite walk_next. unfold next. destruct (start =? base); simpl; [by split; [|intros []]|].
  destruct (chain !! start) as [h|]; simpl; [apply IH|by split; [|intros []]].
Qed.

(** The hashes met in [n] steps *)
Definition trail chain base start (n : nat) : list H256 :=
  (fun i => default 0 (walk chain base start i)) <$> seq 0 n.

Lemma trail_lookup chain base start n i :
  is_Some (walk chain base start n) -> (i < n)%nat -> trail chain base start n !! i = walk chain base start i.
Proof.
  intros Hn Hi. unfold trail. rewrite list_lookup_fmap, lookup_seq_lt by done. simpl.
  destruct (walk_le chain base start i n) as [x Hx]; [lia|done|]. by rewrite Hx.
Qed.

(** Among more hashes than there are headers, one comes twice. *)
Lemma walk_repeats chain base start :
  is_Some (walk chain base start (S (size chain))) ->
  exists i j, (i < j <= size chain)%nat /\ walk chain base start i = walk chain base start j.
Proof.
  intros Hw. set (n := S (size chain)) in *. set (l := trail chain base start n).
  assert (forall i, (i < n)%nat -> l !! i = walk chain base start i) as Hl by (intros; by apply trail_lookup).
  assert (length l = n) as Hlen by (unfold l, trail; by rewrite length_fmap, length_seq).
  destruct (decide (NoDup l)) as [Hnd|Hnd].
  - exfalso. assert (l ⊆+ elements (dom chain)) as Hsub.
    { apply NoDup_submseteq; [done|]. intros h Hh. apply list_elem_of_lookup in Hh as [i Hi].
      assert (i < n)%nat as Hin by (rewrite <- Hlen; by eapply lookup_lt_Some).
      rewrite Hl in Hi by done. assert (is_Some (walk chain base start (S i))) as [x Hx] by (eapply walk_le; [|done]; lia).
      rewrite walk_S, Hi in Hx. simpl in Hx. unfold next in Hx. apply elem_of_elements, elem_of_dom.
      destruct (h =? base); [done|]. destruct (chain !! h); [done|done]. }
    apply submseteq_length in Hsub. rewrite Hlen in Hsub.
    change (length (elements (dom chain))) with (size (dom chain)) in Hsub. rewrite size_dom in Hsub. lia.
  - assert (exists i j x, (i < j)%nat /\ l !! i = Some x /\ l !! j = Some x) as (i & j & x & Hij & Hi & Hj).
    { clear -Hnd. induction l as [|a l IH]; [by destruct Hnd; constructor|].
      destruct (decide (a ∈ l)) as [Ha|Ha].
      - apply list_elem_of_lookup in Ha as [j Hj]. exists 0%nat, (S j), a. split; [lia|done].
      - destruct IH as (i & j & x & ? & ? & ?); [|exists (S i), (S j), x; split; [lia|done]].
        intros Hl. apply Hnd. by constructor. }
    apply lookup_lt_Some in Hj as Hjl. rewrite Hlen in Hjl.
    exists i, j. split; [lia|]. rewrite <- Hl, <- Hl by lia. congruence.
Qed.

Lemma walk_forever chain base start :
  is_Some (walk chain base start (S (size chain))) -> forall n, is_Some (walk chain base start n).
Proof.
  intros Hw. destruct (walk_repeats chain base start Hw) as (i & j & Hij & He).
  intros n. induction (lt_wf n) as [n _ IH].
  destruct (decide (n <= S (size chain))%nat) as [Hn|Hn]; [by eapply walk_le|].
  replace n with ((n - j) + j)%nat by lia. rewrite walk_add, <- He, <- walk_add. apply IH. lia.
Qed.

(** [ancestry] without the bound on its turns *)
Lemma ancestry_loop_bound chain base start :
  LightClient.ancestry_loop (S (size chain)) chain base start [] tt = NoFuel ->
  forall fuel, LightClient.ancestry_loop fuel chain base start [] tt = NoFuel.
Proof. rewrite loop_fuel. intros Hw fuel. by apply loop_fuel, walk_forever. Qed.

End Ancestry.

(** ** What a justification proves *)
Section Finality.
Context {G : Grandpa}.

(** [b] is [a] or comes after it *)
Inductive descends (a : H256) : H256 -> Prop :=
| descends_refl : descends a a
| descends_child h : descends a (parent_hash h) -> descends a (header_hash h).

Definition total (l : list (Z * Z)) : Z := foldr (fun p z => snd p + z) 0 l.

(** Entries of one voter are partial weights. *)
Definition weight_of (l : list (Z * Z)) (id : Z) : Z := total (filter (fun p => fst p = id) l).

Definition weight (l : list (Z * Z)) (ids : list Z) : Z := foldr (fun id z => weight_of l id + z) 0 ids.

Definition threshold (l : list (Z * Z)) : Z := total l - (total l - 1) / 3.

(** [Chain::is_equal_or_descendent_of] *)
Definition reached (chain : H256 -> H256 -> M unit GrandpaError (list H256)) (a b : H256) : Prop :=
  a = b \/ exists r, chain a b tt = Ok r tt.

(** A voter supports the target with a vote for it or a block after it; one
    that voted twice counts for every block. *)
Definition supports chain (c : Commit) (id : Z) : Prop :=
  (exists s, s ∈ precommits c /\ pc_id s = id /\
     reached chain (commit_target_hash c) (pc_target_hash (precommit s)))
  \/ (exists s s', s ∈ precommits c /\ s' ∈ precommits c /\ pc_id s = id /\ pc_id s' = id /\
        precommit s <> precommit s').

Definition stops {E A} (m : M unit E A) : Prop := m tt <> Panic /\ m tt <> NoFuel.

(** Hashes collide nowhere and their chains do not close; a valid commit is a
    supermajority of the voters for its target, as [validate_commit] documents. *)
Class GrandpaSpec := {
  header_hash_inj : forall h h', header_hash h = header_hash h' -> h = h';
  hash_rank : exists rank : H256 -> nat, forall h, (rank (parent_hash h) < rank (header_hash h))%nat;
  voter_set_total : forall l vs, voter_set_new l = Some vs -> 0 < total l;
  validate_commit_valid : forall chain c l vs, voter_set_new l = Some vs ->
    validate_commit chain c vs tt = Ok true tt ->
    exists ids, NoDup ids /\ (forall id, id ∈ ids -> id ∈ l.*1 /\ supports chain c id)
      /\ threshold l <= weight l ids;
  validate_commit_stops : forall chain c vs, (forall a b, stops (chain a b)) -> stops (validate_commit chain c vs);
}.

Definition precommitted (set_id round id : Z) (p : Precommit) : Prop :=
  exists sig, check_precommit_signature p id sig round set_id = true.

Definition endorses (set_id round : Z) (target : H256) (id : Z) : Prop :=
  (exists p, precommitted set_id round id p /\ descends target (pc_target_hash p))
  \/ (exists p q, p <> q /\ precommitted set_id round id p /\ precommitted set_id round id q).

(** More than two thirds of the weight of [set] signed for [target] in one round. *)
Definition supermajority (set : AuthoritySet) (target : H256) : Prop :=
  exists round ids, NoDup ids
    /\ (forall id, id ∈ ids -> id ∈ (as_list set).*1 /\ endorses (as_id set) round target id)
    /\ threshold (as_list set) <= weight (as_list set) ids.

Lemma chain_lookup l k h : LightClient.ancestry_chain l !! k = Some h -> header_hash h = k.
Proof.
  intros Hk. apply elem_of_list_to_map_2 in Hk. rewrite <- Permutation_rev in Hk.
  by apply list_elem_of_fmap in Hk as (h' & [= -> ->] & _).
Qed.

Lemma ancestry_loop_descends fuel l base start route r :
  LightClient.ancestry_loop fuel (LightClient.ancestry_chain l) base start route tt = Ok r tt -> descends base start.
Proof.
  revert start route. induction fuel as [|fuel IH]; intros start route; simpl; [done|].
  destruct (Z.eqb_spec start base) as [->|]; [constructor|].
  destruct (LightClient.ancestry_chain l !! start) as [h|] eqn:Hh; [|done]. intros Hr.
  rewrite <- (chain_lookup l start h Hh). constructor. by eapply IH.
Qed.

Lemma ancestry_descends l a b r : LightClient.ancestry (LightClient.ancestry_chain l) a b tt = Ok r tt -> descends a b.
Proof.
  unfold LightClient.ancestry, mbind. destruct (LightClient.ancestry_loop _ _ _ _ _ _) as [x []| | |] eqn:Hl; [|done..].
  intros _. by eapply ancestry_loop_descends.
Qed.

Context {spec : GrandpaSpec}.

Lemma walk_rank (rank : H256 -> nat) l base start i j x y :
  (forall h, (rank (parent_hash h) < rank (header_hash h))%nat) -> (i < j)%nat ->
  walk (LightClient.ancestry_chain l) base start i = Some x ->
  walk (LightClient.ancestry_chain l) base start j = Some y -> (rank y < rank x)%nat.
Proof.
  intros Hr Hij Hx. revert y. induction Hij as [|j Hij IH]; intros y; rewrite walk_S.
  - rewrite Hx. simpl. unfold next. destruct (x =? base); [done|].
    destruct (LightClient.ancestry_chain l !! x) as [h|] eqn:Hh; simpl; [|done]. intros [= <-].
    rewrite <- (chain_lookup l x h Hh). apply Hr.
  - destruct (walk (LightClient.ancestry_chain l) base start j) as [z|] eqn:Hz; simpl; [|done].
    unfold next. destruct (z =? base); [done|].
    destruct (LightClient.ancestry_chain l !! z) as [h|] eqn:Hh; simpl; [|done]. intros [= <-].
    transitivity (rank z); [|by apply IH]. rewrite <- (chain_lookup l z h Hh). apply Hr.
Qed.

Lemma ancestry_stops l a b : stops (LightClient.ancestry (LightClient.ancestry_chain l) a b).
Proof.
  assert (forall fuel start route, LightClient.ancestry_loop fuel (LightClient.ancestry_chain l) a start route tt <> Panic) as Hp.
  { intros fuel. induction fuel as [|fuel IH]; intros start route; simpl; [done|].
    destruct (start =? a); [done|]. by destruct (_ !! start). }
  unfold stops, LightClient.ancestry, mbind. specialize (Hp (S (size (LightClient.ancestry_chain l))) b []).
  destruct (LightClient.ancestry_loop _ _ _ _ _ _) eqn:Hl; [done..|]. exfalso.
  apply loop_fuel in Hl as Hw. destruct (walk_repeats _ _ _ Hw) as (i & j & Hij & He).
  destruct (walk_le (LightClient.ancestry_chain l) a b j (S (size (LightClient.ancestry_chain l)))) as [y Hy]; [lia|done|].
  destruct hash_rank as [rank Hr]. pose proof (walk_rank rank l a b i j y y Hr). rewrite He in *. assert (rank y < rank y)%nat; [|lia].
  by apply H; [lia| |].
Qed.

Lemma wp_detached {S E E' A} P (f : E -> E') (m : M unit E A) (Q : A -> S -> Prop) (R : E' -> S -> Prop) s :
  wp P m (fun a _ => Q a s) (fun e _ => R (f e) s) tt -> wp P (detached f m) Q R s.
Proof. unfold wp, detached. by destruct (m tt). Qed.

Definition signed_by (j : Justification) (set_id : Z) (s : SignedPrecommit) : Prop :=
  check_precommit_signature (precommit s) (pc_id s) (pc_signature s) (round j) set_id = true.

Lemma precommits_signed j set_id base visited l : let chain := LightClient.ancestry_chain (votes_ancestries j) in
  wp False (for_fold l visited (LightClient.verify_precommit j set_id chain base))
    (fun _ _ => Forall (signed_by j set_id) l) (fun _ _ => True) tt.
Proof.
  simpl. revert visited. induction l as [|s l IH]; intros visited; simpl; [by apply wp_ret|].
  wp_step. unfold LightClient.verify_precommit at 1. do 2 wp_step; [|done].
  assert (forall v, wp False (for_fold l v (LightClient.verify_precommit j set_id
      (LightClient.ancestry_chain (votes_ancestries j)) base))
    (fun _ _ => Forall (signed_by j set_id) (s :: l)) (fun _ _ => True) tt) as Hrest.
  { intros v. eapply wp_mono; [apply IH| |done]. intros v' [] Hl. by constructor. }
  destruct (base =? _); [apply wp_ret, Hrest|]. wp_step.
  apply wp_detached. unfold wp at 1. destruct (ancestry_stops (votes_ancestries j) base (pc_target_hash (precommit s))) as [H1 H2].
  destruct (LightClient.ancestry _ _ _ _); [apply wp_ret, Hrest|done|by destruct H1|by destruct H2].
Qed.

Lemma lowest_none l : LightClient.lowest l = None -> l = [].
Proof.
  unfold LightClient.lowest. destruct l as [|s l]; [done|]. simpl.
  assert (forall b, foldl (fun best s0 => match best with
      | Some b => if pc_target_number (precommit s0) <? pc_target_number (precommit b) then Some s0 else best
      | None => Some s0 end) (Some b) l <> None) as Hf; [|by intros H%Hf].
  induction l as [|x l IH]; intros b; simpl; [done|]. by destruct (_ <? _).
Qed.

Lemma threshold_pos l vs : voter_set_new l = Some vs -> 0 < threshold l.
Proof.
  intros Hv%voter_set_total. unfold threshold.
  assert ((total l - 1) / 3 <= total l - 1); [|lia]. apply Z.div_le_upper_bound; lia.
Qed.

Lemma supports_endorses j set_id id :
  Forall (signed_by j set_id) (precommits (commit j)) ->
  supports (LightClient.ancestry (LightClient.ancestry_chain (votes_ancestries j))) (commit j) id ->
  endorses set_id (round j) (commit_target_hash (commit j)) id.
Proof.
  intros Hs. rewrite Forall_forall in Hs. intros [(s & Hin & <- & Hr)|(s & s' & Hin & Hin' & <- & Hid & Hne)].
  - left. exists (precommit s). split; [exists (pc_signature s); by apply Hs|].
    destruct Hr as [<-|[r Hr]]; [constructor|by eapply ancestry_descends].
  - right. exists (precommit s), (precommit s'). split; [done|]. split.
    + exists (pc_signature s). by apply Hs.
    + exists (pc_signature s'). rewrite <- Hid. by apply Hs.
Qed.

(** A justification that verifies is a supermajority for its target. *)
Lemma verify_supermajority j set_id l vs : voter_set_new l = Some vs ->
  wp False (LightClient.verify_with_voter_set j set_id vs)
    (fun _ _ => supermajority (mkAuthoritySet l set_id) (commit_target_hash (commit j))) (fun _ _ => True) tt.
Proof.
  intros Hvs. unfold LightClient.verify_with_voter_set. wp_step. apply wp_detached.
  pose proof (validate_commit_stops (LightClient.ancestry (LightClient.ancestry_chain (votes_ancestries j))) (commit j) vs
    (ancestry_stops (votes_ancestries j))) as [H1 H2].
  unfold wp at 1. destruct (validate_commit _ _ _ _) as [valid []| | |] eqn:Hc; [|done|by destruct H1|by destruct H2].
  do 2 wp_step; [|done]. subst valid.
  destruct (validate_commit_valid _ _ _ _ Hvs Hc) as (ids & Hnd & Hids & Hw). wp_step.
  apply wp_expect_some.
  - intros base Hb. wp_step. eapply wp_mono; [apply precommits_signed| |done].
    intros v [] Hsig. wp_step; [|done]. exists (round j), ids. split; [done|split; [|done]].
    intros id Hid. destruct (Hids id Hid) as [Hin Hsup]. split; [done|]. by apply supports_endorses.
  - intros Hnone%lowest_none. pose proof (threshold_pos l vs Hvs). destruct ids as [|id ids]; [simpl in Hw; lia|].
    destruct (Hids id) as [_ [(s & Hs & _)|(s & _ & Hs & _)]]; [set_solver|..]; rewrite Hnone in Hs; set_solver.
Qed.

End Finality.

(** ** A submission *)
Section Submission.
Context {prof : Profile} {G : Grandpa} {spec : GrandpaSpec}.

(** The authorities after [header] *)
Definition next_set (set : AuthoritySet) (header : Header) : AuthoritySet :=
  match LightClient.find_scheduled_change header with
  | Some c => mkAuthoritySet (next_authorities c) (as_id set + 1)
  | None => set
  end.

Lemma ancestry_reaches_linked proof a x : LightClient.ancestry_reaches proof a x = true -> descends a x.
Proof.
  revert x. induction proof as [|h proof IH]; intros x; simpl; [done|].
  destruct (Z.eqb_spec (header_hash h) x) as [<-|]; simpl; [|done].
  destruct (Z.eqb_spec (parent_hash h) a) as [<-|]; intros Hr; constructor; [constructor|by apply IH].
Qed.

Lemma verify_ancestry_linked proof a child s :
  wp False (LightClient.verify_ancestry proof a child) (fun _ s' => descends a (parent_hash child) /\ s' = s)
    (fun _ s' => s' = s) s.
Proof.
  unfold LightClient.verify_ancestry. destruct (Z.eqb_spec (parent_hash child) a) as [->|].
  - apply wp_ret. split; [constructor|done].
  - wp_step; [|done]. split; [|done]. by eapply ancestry_reaches_linked.
Qed.

Lemma verify_grandpa_proof_spec just target number set s vs : voter_set_new (as_list set) = Some vs ->
  wp False (LightClient.verify_grandpa_proof just target number (as_id set) vs)
    (fun _ s' => supermajority set target /\ s' = s) (fun _ s' => s' = s) s.
Proof.
  intros Hvs. unfold LightClient.verify_grandpa_proof. wp_step. apply wp_detached.
  unfold LightClient.decode_and_verify_finalizes. do 2 wp_step; [|done].
  case_bool_decide as Ht; [|by apply wp_fail]. injection Ht as Ht _. wp_step.
  eapply wp_mono; [by apply (verify_supermajority a (as_id set) (as_list set))| |done].
  intros [] [] Hsup. apply wp_ret, wp_ret. split; [|done]. rewrite Ht in Hsup. by destruct set.
Qed.

Lemma submit_spec id header proof just s info :
  tracked_bridges s !! id = Some info ->
  is_Some (voter_set_new (as_list (current_set info))) -> 0 <= as_id (current_set info) < 2 ^ 64 - 1 ->
  wp False (LightClient.submit_finalized_headers id header proof just)
    (fun _ s' => descends (header_hash (last_finalized_block_header info)) (parent_hash header)
       /\ supermajority (current_set info) (header_hash header)
       /\ s' = LightClient.track id (mkBridgeInfo header (next_set (current_set info) header)) s)
    (fun _ s' => s' = s) s.
Proof.
  intros Hi [vs Hvs] Hid. unfold LightClient.submit_finalized_headers. do 2 wp_step. rewrite Hi. simpl. do 3 wp_step.
  eapply wp_mono; [apply verify_ancestry_linked| |done]. intros [] s' [Hd ->]. rewrite Hvs. simpl. do 3 wp_step.
  eapply wp_mono; [by apply verify_grandpa_proof_spec| |done]. intros [] s' [Hsup ->].
  unfold next_set. destruct (LightClient.find_scheduled_change header) as [c|].
  - wp_step. wp_step; [|done]. wp_step. unfold wp. rewrite arith_fits by lia. done.
  - by wp_step.
Qed.

End Submission.

(** ** The finalized chain

    [canon n] is the finalized header of number [n]; [origin] the one the light
    client was started with and [origin_set] the authorities after it;
    [chain_state n] the state after block [n]. *)
Class Chain := {
  canon : nat -> Header;
  chain_state : nat -> bytes -> option bytes;
  origin : nat;
  origin_set : AuthoritySet;
}.

Section Canonical.
Context {G : Grandpa} {C : Chain}.

(** The authorities that finalize the blocks after [origin + k] *)
Fixpoint in_charge (k : nat) : AuthoritySet :=
  match k with
  | O => origin_set
  | S k => next_set (in_charge k) (canon (origin + S k))
  end.

(** Numbers count the headers and hashes link them. *)
Class ChainLinks := {
  canon_number : forall n, number (canon n) = Z.of_nat n;
  canon_parent : forall n, parent_hash (canon (S n)) = header_hash (canon n);
  canon_root : forall h, header_hash h <> parent_hash (canon 0);
}.

(** GRANDPA is safe: what a supermajority of the authorities of a block signs for
    is a header of the chain, no further than the block that hands over to the
    next authorities. *)
Class ChainSafety := {
  finality : forall k h, supermajority (in_charge k) (header_hash h) ->
    exists n, h = canon n /\ forall i, (k < i)%nat -> (origin + i < n)%nat ->
      LightClient.find_scheduled_change (canon (origin + i)) = None;
  sets_valid : forall k, is_Some (voter_set_new (as_list (in_charge k)))
    /\ 0 <= as_id (in_charge k) < 2 ^ 64 - 1;
}.

(** What a proof shows under a state root is in the state. *)
Class TrieSound := {
  trie_sound : forall n proof key v,
    trie_get (state_root (canon n)) proof key = inl v -> v = chain_state n key;
}.

Definition tracks (id : Z) (k : nat) (s : LightValidation) : Prop :=
  tracked_bridges s !! id = Some (mkBridgeInfo (canon (origin + k)) (in_charge k)).

Context {spec : GrandpaSpec} {links : ChainLinks}.

Lemma canon_inj n m : header_hash (canon n) = header_hash (canon m) -> n = m.
Proof. intros He%header_hash_inj. assert (number (canon n) = number (canon m)) as Hn by congruence. rewrite !canon_number in Hn. lia. Qed.

Lemma descends_canon g n : descends (header_hash g) (header_hash (canon n)) -> exists m, (m <= n)%nat /\ g = canon m.
Proof.
  remember (header_hash (canon n)) as b eqn:Hb. intros Hd. revert n Hb.
  induction Hd as [|h Hd IH]; intros n Hb; apply header_hash_inj in Hb; [by exists n|]. subst h.
  destruct n as [|n].
  - exfalso. by inversion Hd as [He|h Hd' He]; eapply canon_root.
  - destruct (IH n (canon_parent n)) as (m & Hm & ->). exists m. split; [lia|done].
Qed.

Lemma after_canon g n : descends (header_hash g) (parent_hash (canon n)) -> exists m, (m < n)%nat /\ g = canon m.
Proof.
  destruct n as [|n].
  - intros Hd. exfalso. by inversion Hd as [He|h Hd' He]; eapply canon_root.
  - rewrite canon_parent. intros (m & Hm & ->)%descends_canon. exists m. split; [lia|done].
Qed.

Lemma in_charge_const k m : (k <= m)%nat ->
  (forall i, (k < i <= m)%nat -> LightClient.find_scheduled_change (canon (origin + i)) = None) ->
  in_charge m = in_charge k.
Proof.
  induction 1 as [|m Hm IH]; intros Hn; [done|]. simpl. unfold next_set.
  rewrite (Hn (S m)) by lia. apply IH. intros i Hi. apply Hn. lia.
Qed.

Context {prof : Profile} {safe : ChainSafety}.

(** A header of the chain that may follow [canon (origin + k)] *)
Lemma tracks_submit id header proof just s k : tracks id k s ->
  wp False (LightClient.submit_finalized_headers id header proof just)
    (fun _ s' => exists m, (k < m)%nat /\ header = canon (origin + m) /\ tracks id m s') (fun _ s' => s' = s) s.
Proof.
  intros Ht. destruct (sets_valid k) as [Hv Hid].
  eapply wp_mono; [apply (submit_spec id header proof just s _ Ht Hv Hid)| |done].
  intros [] s' (Hd & Hsup & ->). simpl in *. destruct (finality k header Hsup) as (n & -> & Hn).
  destruct (after_canon _ n Hd) as (m & Hm & He). assert (m = (origin + k)%nat) as -> by (apply canon_inj; by rewrite He).
  exists (n - origin)%nat. split; [lia|]. replace (origin + (n - origin))%nat with n by lia. split; [done|].
  unfold tracks, LightClient.track. simpl. rewrite lookup_insert_eq.
  destruct (n - origin)%nat as [|d] eqn:Hdn; [lia|]. simpl. replace (origin + S d)%nat with n by lia.
  rewrite (in_charge_const k d); [done|lia|]. intros i Hi. apply Hn; lia.
Qed.

End Canonical.
End LightClientProps.
