(* ===== verification/StorageSync.v ===== *)
(** * Synchronization of the chain state: crates/phactory/api/src/storage_sync.rs

    Headers go through a validator and leave their state roots in a queue; the
    storage changes of a block are applied when they lead to the next root of the
    queue.  One state for a chain of its own, one for a parachain whose headers
    are read from the state of the relay chain.  The validator is an interface;
    the light client implements it as in crates/phactory/src/storage.rs. *)
From stdpp Require Import prelude gmap list strings.
From Stdlib Require Import ZArith Lia.
From S2P Require Import Prelude Types MemDb LightClient.

Inductive SyncError :=
| EmptyRequest
| MissingJustification
| HeaderValidateFailed (msg : string)
| StorageProofFailed (msg : string)
| RelaychainHeaderNotSynced
| HeaderHashMismatch
| BlockNumberMismatch
| NoStateRoot
| StateRootMismatch (block : Z) (expected actual : H256)
| ChainModeMismatch
| CannotLoadStateAfterSyncing.

(** [trait BlockValidator] *)
Class BlockValidator (V : Type) := {
  submit_finalized_headers : Z -> Header -> list Header -> bytes -> M V SyncError unit;
  validate_storage_proof : H256 -> StorageProof -> list (bytes * bytes) -> M V SyncError unit;
}.

(** blocks.rs *)
Record HeaderToSync := mkHeaderToSync {
  hs_header : Header;
  hs_justification : option bytes;
}.

Record AuthoritySetChange := mkAuthoritySetChange {
  authority_set : AuthoritySet;
  authority_proof : StorageProof;
}.

Record BlockHeaderWithChanges := mkBlockHeaderWithChanges {
  block_header : Header;
  storage_changes : StorageChanges;
}.

Record GenesisBlockInfo := mkGenesisBlockInfo {
  gen_block_header : Header;
  gen_authority_set : AuthoritySet;
  gen_proof : StorageProof;
}.

Record BlockSyncState (V : Type) := mkBlockSyncState {
  validator : V;
  main_bridge : Z;
  header_number_next : Z;
  block_number_next : Z;
  genesis_state_validated : bool;
}.
Arguments mkBlockSyncState {V}.
Arguments validator {V}.
Arguments main_bridge {V}.
Arguments header_number_next {V}.
Arguments block_number_next {V}.
Arguments genesis_state_validated {V}.

Record Counters := mkCounters {
  next_header_number : Z;
  next_para_header_number : Z;
  next_block_number : Z;
  waiting_for_paraheaders : bool;
}.

Record SolochainSynchronizer (V : Type) := mkSolochainSynchronizer {
  solo_sync_state : BlockSyncState V;
  state_roots : list H256;
}.
Arguments mkSolochainSynchronizer {V}.
Arguments solo_sync_state {V}.
Arguments state_roots {V}.

Record ParachainSynchronizer (V : Type) := mkParachainSynchronizer {
  para_sync_state : BlockSyncState V;
  last_relaychain_state_root : option H256;
  para_header_number_next : Z;
  para_state_roots : list H256;
}.
Arguments mkParachainSynchronizer {V}.
Arguments para_sync_state {V}.
Arguments last_relaychain_state_root {V}.
Arguments para_header_number_next {V}.
Arguments para_state_roots {V}.

Inductive Synchronizer (V : Type) :=
| Solo (s : SolochainSynchronizer V)
| Para (p : ParachainSynchronizer V).
Arguments Solo {V}.
Arguments Para {V}.

(** storage.rs *)
#[export] Instance light_validator {prof : Profile} {G : Grandpa} : BlockValidator LightValidation := {|
  submit_finalized_headers bridge_id header ancestry_proof grandpa_proof := fun s =>
    match LightClient.submit_finalized_headers bridge_id header ancestry_proof grandpa_proof s with
    | Ok a s => Ok a s
    | Err e s => Err (HeaderValidateFailed (to_string e)) s
    | Panic => Panic
    | NoFuel => NoFuel
    end;
  validate_storage_proof r proof items := fun s =>
    match LightClient.validate_storage_proof r proof items s with
    | Ok a s => Ok a s
    | Err e s => Err (StorageProofFailed (to_string e)) s
    | Panic => Panic
    | NoFuel => NoFuel
    end;
|}.

(** ** [BlockSyncState] *)
Module BlockSync.
Section BlockSync.
Context {prof : Profile} {G : Grandpa} {T : TrieLib} {V : Type} {B : BlockValidator V}.

Definition new (validator : V) (main_bridge header_number_next block_number_next : Z) : BlockSyncState V :=
  mkBlockSyncState validator main_bridge header_number_next block_number_next false.

Definition set_validator (v : V) (b : BlockSyncState V) : BlockSyncState V :=
  mkBlockSyncState v (main_bridge b) (header_number_next b) (block_number_next b) (genesis_state_validated b).
Definition set_header_number_next (n : Z) (b : BlockSyncState V) : BlockSyncState V :=
  mkBlockSyncState (validator b) (main_bridge b) n (block_number_next b) (genesis_state_validated b).
Definition set_block_number_next (n : Z) (b : BlockSyncState V) : BlockSyncState V :=
  mkBlockSyncState (validator b) (main_bridge b) (header_number_next b) n (genesis_state_validated b).
Definition set_validated (b : BlockSyncState V) : BlockSyncState V :=
  mkBlockSyncState (validator b) (main_bridge b) (header_number_next b) (block_number_next b) true.

(** The state and the queue of roots it is called with *)
Abbreviation Q := (M (BlockSyncState V * list H256) SyncError).

Definition on_state (f : BlockSyncState V -> BlockSyncState V) : Q unit := modify (fun s => (f (fst s), snd s)).
Definition on_roots (f : list H256 -> list H256) : Q unit := modify (fun s => (fst s, f (snd s))).

Definition on_validator {A} (m : M V SyncError A) : Q A := fun s =>
  match m (validator (fst s)) with
  | Ok a v => Ok a (set_validator v (fst s), snd s)
  | Err e v => Err e (set_validator v (fst s), snd s)
  | Panic => Panic
  | NoFuel => NoFuel
  end.

(** Every header names the hash of the one before it. *)
Fixpoint linked (prev : Header) (l : list Header) : bool :=
  match l with
  | [] => true
  | h :: l => (header_hash prev =? parent_hash h) && linked h l
  end.

Definition check_sequence (l : list Header) : bool :=
  match l with
  | [] => true
  | h :: l => linked h l
  end.

Definition sync_header (headers : list HeaderToSync) (authority_set_change : option AuthoritySetChange)
    (skip_blocks_below : Z) : Q Z :=
  let* s := gets fst in
  let headers := filter (fun h => header_number_next s <= number (hs_header h)) headers in
  match head headers with
  | None => arith 32 (header_number_next s - 1)
  | Some first_header =>
      ensure (number (hs_header first_header) =? header_number_next s) BlockNumberMismatch;;;
      let* last_header := ok_or (last headers) EmptyRequest in
      let* justification := ok_or (hs_justification last_header) MissingJustification in
      ensure (check_sequence (hs_header <$> headers)) HeaderHashMismatch;;;
      let accenstor_proof := rev (removelast (hs_header <$> headers)) in
      on_validator (submit_finalized_headers (main_bridge s) (hs_header last_header) accenstor_proof justification);;;
      for_each headers (fun h =>
        if number (hs_header h) <? skip_blocks_below then mret tt
        else on_roots (fun roots => roots ++ [state_root (hs_header h)]));;;
      let* n := arith 32 (number (hs_header last_header) + 1) in
      on_state (set_header_number_next n);;;
      mret (number (hs_header last_header))
  end.

End BlockSync.

(** [feed_block] also has the storage. *)
Section Feed.
Context {prof : Profile} {T : TrieLib} {V : Type}.
Abbreviation F := (M (BlockSyncState V * list H256 * TrieStorage) SyncError).

Definition set_state (f : BlockSyncState V -> BlockSyncState V) : F unit :=
  modify (fun s => (f (fst (fst s)), snd (fst s), snd s)).

Definition front : F (option H256) := gets (fun s => head (snd (fst s))).

Definition pop_front : F (option H256) := fun s =>
  Ok (head (snd (fst s))) (fst (fst s), tail (snd (fst s)), snd s).

Definition on_storage {A} (m : M TrieStorage SyncError A) : F A := fun s =>
  match m (snd s) with
  | Ok a t => Ok a (fst s, t)
  | Err e t => Err e (fst s, t)
  | Panic => Panic
  | NoFuel => NoFuel
  end.

Definition bump_block : F unit :=
  let* b := gets (fun s => block_number_next (fst (fst s))) in
  let* n := arith 32 (b + 1) in
  set_state (set_block_number_next n).

(** The state before the first block against the root in its header *)
Definition validate_genesis_state : F unit :=
  let* r := front in
  let* genesis_state_root := ok_or r NoStateRoot in
  let* s := gets (fun s => s) in
  if root (snd s) =? genesis_state_root then
    let* _ := pop_front in
    set_state set_validated
  else
    let* block := arith 32 (block_number_next (fst (fst s)) - 1) in
    fail (StateRootMismatch block genesis_state_root (root (snd s))).

Definition feed_block (block : BlockHeaderWithChanges) (drop_proofs : bool) : F unit :=
  let* s := gets (fun s => fst (fst s)) in
  ensure (number (block_header block) =? block_number_next s) BlockNumberMismatch;;;
  if drop_proofs then
    bump_block;;;
    let* r := pop_front in
    let* r := ok_or r NoStateRoot in
    on_storage (TrieStorage.set_root r)
  else
    (if genesis_state_validated s then mret tt else validate_genesis_state);;;
    let* r := front in
    let* expected_root := ok_or r NoStateRoot in
    let* storage := gets snd in
    let '(new_root, transaction) := TrieStorage.calc_root_if_changes (storage_changes block) storage in
    if expected_root =? new_root then
      on_storage (TrieStorage.apply_changes new_root transaction);;;
      bump_block;;;
      let* _ := pop_front in
      mret tt
    else fail (StateRootMismatch (number (block_header block)) expected_root new_root).

End Feed.
End BlockSync.

(** ** [trait StorageSynchronizer] *)
Module Sync.
Section Sync.
Context {prof : Profile} {G : Grandpa} {T : TrieLib} {V : Type} {B : BlockValidator V}.
Abbreviation W := (M (Synchronizer V) SyncError).

Definition new_solochain (validator : V) (main_bridge : Z) : Synchronizer V :=
  Solo (mkSolochainSynchronizer (BlockSync.new validator main_bridge 0 1) []).

Definition new_parachain (validator : V) (main_bridge headernum_next : Z) : Synchronizer V :=
  Para (mkParachainSynchronizer (BlockSync.new validator main_bridge headernum_next 1) None 0 []).

Definition counters (s : Synchronizer V) : Counters :=
  match s with
  | Solo s =>
      mkCounters (header_number_next (solo_sync_state s)) 0 (block_number_next (solo_sync_state s)) false
  | Para p =>
      mkCounters (header_number_next (para_sync_state p)) (para_header_number_next p)
        (block_number_next (para_sync_state p)) (bool_decide (is_Some (last_relaychain_state_root p)))
  end.

Definition state_validated (s : Synchronizer V) : bool :=
  match s with
  | Solo s => genesis_state_validated (solo_sync_state s)
  | Para p => genesis_state_validated (para_sync_state p)
  end.

(** [SolochainSynchronizer::sync_header] *)
Definition solo_sync_header (headers : list HeaderToSync) (change : option AuthoritySetChange) :
    M (SolochainSynchronizer V) SyncError Z := fun s =>
  let b := block_number_next (solo_sync_state s) in
  (** [checked_sub(1).unwrap()] *)
  if b <? 1 then Panic
  else
    match BlockSync.sync_header headers change (b - 1) (solo_sync_state s, state_roots s) with
    | Ok a (b, r) => Ok a (mkSolochainSynchronizer b r)
    | Err e (b, r) => Err e (mkSolochainSynchronizer b r)
    | Panic => Panic
    | NoFuel => NoFuel
    end.

(** [ParachainSynchronizer::sync_header], with a queue of its own *)
Definition para_sync_header (headers : list HeaderToSync) (change : option AuthoritySetChange) :
    M (ParachainSynchronizer V) SyncError Z := fun p =>
  match BlockSync.sync_header headers change 0 (para_sync_state p, []) with
  | Ok last_header (b, r) =>
      Ok last_header (mkParachainSynchronizer b
        (match last r with Some last_root => Some last_root | None => last_relaychain_state_root p end)
        (para_header_number_next p) (para_state_roots p))
  | Err e (b, _) =>
      Err e (mkParachainSynchronizer b (last_relaychain_state_root p) (para_header_number_next p) (para_state_roots p))
  | Panic => Panic
  | NoFuel => NoFuel
  end.

Definition sync_header (headers : list HeaderToSync) (change : option AuthoritySetChange) : W Z := fun s =>
  match s with
  | Solo s =>
      match solo_sync_header headers change s with
      | Ok a s => Ok a (Solo s) | Err e s => Err e (Solo s) | Panic => Panic | NoFuel => NoFuel
      end
  | Para p =>
      match para_sync_header headers change p with
      | Ok a p => Ok a (Para p) | Err e p => Err e (Para p) | Panic => Panic | NoFuel => NoFuel
      end
  end.

(** A call of the validator in a parachain's state *)
Definition on_para_validator {A} (m : M V SyncError A) : M (ParachainSynchronizer V) SyncError A := fun p =>
  match m (validator (para_sync_state p)) with
  | Ok a v => Ok a (mkParachainSynchronizer (BlockSync.set_validator v (para_sync_state p))
                      (last_relaychain_state_root p) (para_header_number_next p) (para_state_roots p))
  | Err e v => Err e (mkParachainSynchronizer (BlockSync.set_validator v (para_sync_state p))
                      (last_relaychain_state_root p) (para_header_number_next p) (para_state_roots p))
  | Panic => Panic
  | NoFuel => NoFuel
  end.

(** [ParachainSynchronizer::sync_parachain_header] *)
Definition para_sync_parachain_header (headers : list Header) (proof : StorageProof) (storage_key : bytes) :
    M (ParachainSynchronizer V) SyncError Z :=
  let* p := gets (fun p => p) in
  let headers := filter (fun h => para_header_number_next p <= number h) headers in
  match head headers with
  | None => arith 32 (para_header_number_next p - 1)
  | Some first_hdr =>
      ensure (para_header_number_next p =? number first_hdr) BlockNumberMismatch;;;
      let* last_hdr := ok_or (last headers) EmptyRequest in
      let* r := ok_or (last_relaychain_state_root p) RelaychainHeaderNotSynced in
      on_para_validator
        (validate_storage_proof r proof [(storage_key, encode_bytes (encode_header last_hdr))]);;;
      ensure (BlockSync.check_sequence headers) HeaderHashMismatch;;;
      for_each headers (fun hdr =>
        modify (fun p => mkParachainSynchronizer (para_sync_state p) (last_relaychain_state_root p)
          (para_header_number_next p) (para_state_roots p ++ [state_root hdr])));;;
      let* n := arith 32 (number last_hdr + 1) in
      modify (fun p => mkParachainSynchronizer (para_sync_state p) None n (para_state_roots p));;;
      mret (number last_hdr)
  end.

Definition sync_parachain_header (headers : list Header) (proof : StorageProof) (storage_key : bytes) : W Z := fun s =>
  match s with
  | Solo _ => Err ChainModeMismatch s
  | Para p =>
      match para_sync_parachain_header headers proof storage_key p with
      | Ok a p => Ok a (Para p) | Err e p => Err e (Para p) | Panic => Panic | NoFuel => NoFuel
      end
  end.

(** The state and the queue of roots that blocks are checked against *)
Definition parts (s : Synchronizer V) : BlockSyncState V * list H256 :=
  match s with
  | Solo s => (solo_sync_state s, state_roots s)
  | Para p => (para_sync_state p, para_state_roots p)
  end.

Definition set_parts (b : BlockSyncState V) (r : list H256) (s : Synchronizer V) : Synchronizer V :=
  match s with
  | Solo _ => Solo (mkSolochainSynchronizer b r)
  | Para p => Para (mkParachainSynchronizer b (last_relaychain_state_root p) (para_header_number_next p) r)
  end.

Definition feed_block (block : BlockHeaderWithChanges) (drop_proofs : bool) :
    M (Synchronizer V * TrieStorage) SyncError unit := fun '(s, t) =>
  match BlockSync.feed_block block drop_proofs (parts s, t) with
  | Ok a (b, r, t) => Ok a (set_parts b r s, t)
  | Err e (b, r, t) => Err e (set_parts b r s, t)
  | Panic => Panic
  | NoFuel => NoFuel
  end.

Definition assume_at_block (block_number : Z) : W unit :=
  let* s := gets (fun s => s) in
  match s with
  | Solo x =>
      ensure (negb ((1 <? block_number_next (solo_sync_state x)) || (0 <? header_number_next (solo_sync_state x))))
        CannotLoadStateAfterSyncing;;;
      let* n := arith 32 (block_number + 1) in
      modify (fun _ => Solo (mkSolochainSynchronizer
        (BlockSync.set_block_number_next n (solo_sync_state x)) (state_roots x)))
  | Para p =>
      ensure (negb ((1 <? block_number_next (para_sync_state p)) || (1 <? para_header_number_next p)))
        CannotLoadStateAfterSyncing;;;
      let* n := arith 32 (block_number + 1) in
      modify (fun _ => Para (mkParachainSynchronizer (BlockSync.set_block_number_next n (para_sync_state p))
        (last_relaychain_state_root p) block_number (para_state_roots p)))
  end.

End Sync.
End Sync.
