(* ===== verification/StorageSyncProps.v ===== *)
(** * Properties of the state synchronization

    The state of the chain a worker reads is the one of the finalized chain: a
    synchronizer accepts the headers of that chain only, and a block only when it
    leads to the state root in its header. *)
From stdpp Require Import prelude gmap list strings.
From Stdlib Require Import ZArith Lia.
From S2P Require Import Prelude Types MemDb LightClient LightClientProps StorageSync.

Module StorageSyncProps.
Import LightClientProps.

(** ** What the synchronizers need of a validator

    [follows k v]: it accepted the chain up to [canon (origin + k)]. *)
Class ValidatorSpec {C : Chain} {V : Type} (B : BlockValidator V) (bridge : Z) := {
  follows : nat -> V -> Prop;
  submit_follows : forall header proof just k v, follows k v ->
    wp False (submit_finalized_headers bridge header proof just)
      (fun _ v' => exists m, (k < m)%nat /\ header = canon (origin + m) /\ follows m v') (fun _ v' => v' = v) v;
  proof_sound : forall r proof items v,
    wp False (validate_storage_proof r proof items)
      (fun _ v' => v' = v /\ forall n, r = state_root (canon n) -> Forall (fun kx => chain_state n (fst kx) = Some (snd kx)) items)
      (fun _ v' => v' = v) v;
}.

(** The transaction of a trie applies to the nodes it was computed on. *)
Class TrieApplies {prof : Profile} (T : TrieLib) := {
  transaction_applies : forall db r delta children, exists db',
    MemDb.consolidate (E := SyncError) (snd (full_storage_root db r delta children)) db = Ok tt db';
}.

(** ** Headers linked by their hashes *)
Section Linked.
Context {G : Grandpa} {spec : GrandpaSpec} {C : Chain} {links : ChainLinks}.

Lemma linked_snoc prev l h x : last (prev :: l) = Some h ->
  BlockSync.linked prev (l ++ [x]) = BlockSync.linked prev l && (header_hash h =? parent_hash x).
Proof.
  revert prev. induction l as [|y l IH]; intros prev Hl; simpl.
  - injection Hl as ->. by rewrite andb_true_r.
  - rewrite (IH y); [by rewrite andb_assoc|done].
Qed.

Lemma sequence_snoc l h x : last l = Some h ->
  BlockSync.check_sequence (l ++ [x]) = BlockSync.check_sequence l && (header_hash h =? parent_hash x).
Proof. destruct l as [|y l]; [done|]. simpl. apply linked_snoc. Qed.

(** A linked list that ends on the chain is a segment of it. *)
Lemma sequence_canon l n : last l = Some (canon n) -> BlockSync.check_sequence l = true ->
  exists a, l = canon <$> seq a (length l) /\ (a + length l = S n)%nat.
Proof.
  revert n. induction l as [|x l IH] using rev_ind; intros n Hlast Hseq; [done|].
  rewrite last_snoc in Hlast. injection Hlast as ->. rewrite length_app. simpl.
  destruct (last l) as [h|] eqn:Hh; [|apply last_None in Hh as ->; exists n; simpl; split; [done|lia]].
  rewrite (sequence_snoc l h) in Hseq by done. apply andb_true_iff in Hseq as [Hseq He%Z.eqb_eq].
  destruct n as [|n]; [by apply canon_root in He|]. rewrite canon_parent in He. apply header_hash_inj in He. subst h.
  destruct (IH n eq_refl Hseq) as (a & Hl & Hn). exists a. split; [|lia].
  rewrite Nat.add_1_r, seq_S, fmap_app. simpl. rewrite <- Hl. f_equal. do 2 f_equal. lia.
Qed.

End Linked.

(** ** Feeding blocks *)
Section Feed.
Context {prof : Profile} {T : TrieLib} {ta : TrieApplies T} {V : Type}.
Implicit Types (b : BlockSyncState V) (h : nat -> Header).

(** The number of the root at the front of the queue *)
Definition first_root b : nat :=
  Z.to_nat (if genesis_state_validated b then block_number_next b else block_number_next b - 1).

Definition roots_of h (a n : nat) : list H256 := (fun i => state_root (h i)) <$> seq a (n - a).

(** The queue holds the roots of the headers before [hn] that no block was fed
    for; once validated, the storage is the state of the last block fed. *)
Record Following h (hn : nat) b (roots : list H256) (t : TrieStorage) : Prop := {
  fw_block : 1 <= block_number_next b < 2 ^ 32;
  fw_headers : Z.of_nat hn < 2 ^ 32;
  fw_roots : roots = roots_of h (first_root b) hn;
  fw_state : genesis_state_validated b = true ->
    block_number_next b <= Z.of_nat hn /\ root t = state_root (h (Z.to_nat (block_number_next b - 1)));
}.

Lemma roots_of_cons h a n r rest : roots_of h a n = r :: rest ->
  (a < n)%nat /\ r = state_root (h a) /\ rest = roots_of h (S a) n.
Proof.
  unfold roots_of. intros Hr. destruct (n - a)%nat as [|m] eqn:Hm; [done|]. simpl in Hr. injection Hr as <- <-.
  split; [lia|]. split; [done|]. replace (n - S a)%nat with m by lia. done.
Qed.

Lemma wp_set_state P f (Q : unit -> _ -> Prop) R b roots t :
  Q tt (f b, roots, t) -> wp P (BlockSync.set_state (V := V) f) Q R (b, roots, t).
Proof. done. Qed.

Lemma wp_bump P (Q : unit -> _ -> Prop) R b roots t : 0 <= block_number_next b < 2 ^ 32 - 1 ->
  Q tt (BlockSync.set_block_number_next (block_number_next b + 1) b, roots, t) ->
  wp P (BlockSync.bump_block (V := V)) Q R (b, roots, t).
Proof. intros Hb HQ. unfold wp, BlockSync.bump_block, mbind, gets. simpl. by rewrite arith_fits by lia. Qed.

(** Feeding leaves the side of the headers alone. *)
Definition same_headers b b' : Prop :=
  validator b' = validator b /\ main_bridge b' = main_bridge b /\ header_number_next b' = header_number_next b.

Lemma genesis_follows h hn b roots t : Following h hn b roots t -> genesis_state_validated b = false ->
  wp False (BlockSync.validate_genesis_state (V := V))
    (fun _ s' => exists b' roots', s' = (b', roots', t) /\ Following h hn b' roots' t
       /\ genesis_state_validated b' = true /\ block_number_next b' = block_number_next b /\ same_headers b b')
    (fun _ s' => s' = (b, roots, t)) (b, roots, t).
Proof.
  intros [Hb Hh Hr Hs] Hv. unfold BlockSync.validate_genesis_state, BlockSync.front. do 2 wp_step. simpl.
  destruct roots as [|r rest]; simpl; [by wp_step|]. do 4 wp_step. simpl.
  unfold first_root in Hr. rewrite Hv in Hr. symmetry in Hr. apply roots_of_cons in Hr as (Hlt & -> & ->).
  destruct (Z.eqb_spec (root t) (state_root (h (Z.to_nat (block_number_next b - 1))))) as [He|].
  - wp_step. unfold wp. simpl. eexists _, _. split; [done|]. split; [|done].
    constructor; simpl; [done|done| |].
    + unfold first_root. simpl. f_equal. lia.
    + intros _. split; [lia|done].
  - wp_step. unfold wp. rewrite arith_fits by lia. done.
Qed.

Definition fed h hn b block (s' : BlockSyncState V * list H256 * TrieStorage) : Prop :=
  exists b' roots' t', s' = (b', roots', t') /\ Following h hn b' roots' t' /\ same_headers b b'
    /\ genesis_state_validated b' = true /\ number (block_header block) = block_number_next b
    /\ block_number_next b' = block_number_next b + 1.

Definition unfed h hn b t (s' : BlockSyncState V * list H256 * TrieStorage) : Prop :=
  exists b' roots', s' = (b', roots', t) /\ Following h hn b' roots' t /\ same_headers b b'
    /\ block_number_next b' = block_number_next b.

(** The last part of [feed_block], on a validated state *)
Definition feed_changes (block : BlockHeaderWithChanges) : M (BlockSyncState V * list H256 * TrieStorage) SyncError unit :=
  let* r := BlockSync.front in
  let* expected_root := ok_or r NoStateRoot in
  let* storage := gets snd in
  let '(new_root, transaction) := TrieStorage.calc_root_if_changes (storage_changes block) storage in
  if expected_root =? new_root then
    BlockSync.on_storage (TrieStorage.apply_changes new_root transaction);;;
    BlockSync.bump_block;;;
    let* _ := BlockSync.pop_front in
    mret tt
  else fail (StateRootMismatch (number (block_header block)) expected_root new_root).

Lemma changes_follow h hn b roots t block : Following h hn b roots t -> genesis_state_validated b = true ->
  number (block_header block) = block_number_next b ->
  wp False (feed_changes block) (fun _ => fed h hn b block) (fun _ => unfed h hn b t) (b, roots, t).
Proof.
  intros HF Hv Hn. assert (unfed h hn b t (b, roots, t)) as Hun by (exists b, roots; done).
  destruct HF as [Hb Hh Hr Hs]. unfold feed_changes, BlockSync.front. do 2 wp_step. simpl.
  destruct roots as [|r rest]; simpl; [by wp_step|]. do 4 wp_step. simpl.
  destruct (TrieStorage.calc_root_if_changes _ _) as [new_root tx] eqn:Hc.
  destruct (Z.eqb_spec r new_root) as [<-|]; [|by apply wp_fail].
  unfold first_root in Hr. rewrite Hv in Hr. symmetry in Hr. apply roots_of_cons in Hr as (Hlt & -> & ->).
  destruct (Hs Hv) as [Hle _]. wp_step.
  destruct (transaction_applies (backend t) (root t) (main_storage_changes (storage_changes block))
    (child_storage_changes (storage_changes block))) as [db' Hdb].
  unfold TrieStorage.calc_root_if_changes in Hc. rewrite Hc in Hdb. simpl in Hdb.
  unfold wp at 1, BlockSync.on_storage, TrieStorage.apply_changes, TrieStorage.on_backend. simpl. rewrite Hdb.
  wp_step. apply wp_bump; [lia|]. unfold wp. simpl. eexists _, _, _. split; [done|]. split; [|by repeat split].
  constructor; simpl; [lia|done| |].
  - unfold first_root. simpl. rewrite Hv. f_equal. lia.
  - intros _. split; [lia|]. do 2 f_equal. lia.
Qed.

(** A block is applied when it is the next one and leads to the state root in the
    header of its number; anything else leaves the storage as it was. *)
Lemma feed_follows h hn b roots t block : Following h hn b roots t ->
  wp False (BlockSync.feed_block (V := V) block false)
    (fun _ => fed h hn b block) (fun _ => unfed h hn b t) (b, roots, t).
Proof.
  intros HF. assert (unfed h hn b t (b, roots, t)) as Hun by (exists b, roots; done).
  unfold BlockSync.feed_block. do 2 wp_step. simpl. do 2 wp_step; [|done].
  assert (number (block_header block) = block_number_next b) as Hn by by apply Z.eqb_eq.
  fold (feed_changes block). wp_step. destruct (genesis_state_validated b) eqn:Hv.
  - apply wp_ret. by apply changes_follow.
  - eapply wp_mono; [by apply (genesis_follows h hn)| |].
    + intros [] s' (b' & roots' & -> & HF' & Hv' & Hb' & Hsame). eapply wp_mono.
      * apply (changes_follow h hn); [done|done|congruence].
      * intros [] s' (b2 & r2 & t2 & -> & HF2 & Hs2 & Hv2 & Hn2 & Hb2). exists b2, r2, t2.
        split; [done|]. split; [done|]. split; [|split; [done|split; congruence]].
        unfold same_headers in *. intuition congruence.
      * intros e s' (b2 & r2 & -> & HF2 & Hs2 & Hb2). exists b2, r2. split; [done|]. split; [done|].
        split; [|congruence]. unfold same_headers in *. intuition congruence.
    + intros e s' ->. done.
Qed.

End Feed.

(** ** Synchronizing headers *)
Section Headers.
Context {prof : Profile} {G : Grandpa} {spec : GrandpaSpec} {C : Chain} {links : ChainLinks}.
Context {V : Type} {B : BlockValidator V} {bridge : Z} {vs : ValidatorSpec B bridge}.
Implicit Types b : BlockSyncState V.

Lemma push_roots skip headers b roots :
  for_each headers (fun h => if number (hs_header h) <? skip then mret tt
                             else BlockSync.on_roots (fun roots => roots ++ [state_root (hs_header h)])) (b, roots)
  = Ok tt (b, roots ++ (state_root <$> filter (fun h => skip <= number h) (hs_header <$> headers))).
Proof.
  revert roots. induction headers as [|h l IH]; intros roots; [by rewrite app_nil_r|].
  rewrite fmap_cons. simpl. unfold mbind. destruct (Z.ltb_spec (number (hs_header h)) skip).
  - rewrite filter_cons_False by lia. apply IH.
  - rewrite filter_cons_True by lia. unfold BlockSync.on_roots, modify. simpl. rewrite IH. by rewrite <- app_assoc.
Qed.

Lemma filter_chain (skip a n : nat) :
  filter (fun h => Z.of_nat skip <= number h) (canon <$> seq a n)
  = canon <$> seq (Nat.max a skip) (a + n - Nat.max a skip).
Proof.
  revert a. induction n as [|n IH]; intros a.
  - replace (a + 0 - Nat.max a skip)%nat with 0%nat by lia. done.
  - simpl seq. rewrite fmap_cons. destruct (decide (skip <= a)%nat) as [Hs|Hs].
    + rewrite filter_cons_True by (rewrite canon_number; lia). rewrite IH.
      replace (Nat.max (S a) skip) with (S a) by lia. replace (Nat.max a skip) with a by lia.
      replace (a + S n - a)%nat with (S n) by lia. simpl. do 3 f_equal. lia.
    + rewrite filter_cons_False by (rewrite canon_number; lia). rewrite IH.
      replace (Nat.max (S a) skip) with skip by lia. replace (Nat.max a skip) with skip by lia. do 2 f_equal. lia.
Qed.

(** What a request may hold: headers numbered below the last 32-bit number *)
Definition request_ok (l : list Header) : Prop := l <> [] /\ Forall (fun h => 0 <= number h < 2 ^ 32 - 1) l.

Lemma headers_chain (l : list Header) (hn : nat) x n : last l = Some (canon n) -> BlockSync.check_sequence l = true ->
  head l = Some x -> number x = Z.of_nat hn -> l = canon <$> seq hn (length l) /\ (hn + length l = S n)%nat.
Proof.
  intros Hl Hs Hx Hn. destruct (sequence_canon l n Hl Hs) as (a & Ha & Hlen).
  assert (a = hn) as ->; [|done]. rewrite Ha in Hx. destruct (length l); [done|]. simpl in Hx. injection Hx as <-.
  rewrite canon_number in Hn. lia.
Qed.

Lemma filter_pass {A} (P : A -> Prop) `{forall x, Decision (P x)} l : Forall P l -> filter P l = l.
Proof. induction 1; [done|]. rewrite filter_cons_True by done. by f_equal. Qed.

Lemma request_kept (l : list HeaderToSync) (hn : nat) : request_ok (hs_header <$> l) ->
  filter (fun h => Z.of_nat hn <= number (hs_header h)) l = [] -> (0 < hn)%nat.
Proof.
  intros [Hne Hf] He. destruct hn; [|lia]. exfalso. apply Hne. rewrite filter_pass in He; [by rewrite He|].
  rewrite Forall_fmap in Hf. eapply Forall_impl; [exact Hf|]. simpl. lia.
Qed.

Definition synced b roots (skip : Z) (hn k : nat) (s' : BlockSyncState V * list H256) : Prop :=
  exists n k' b', s' = (b', roots ++ (state_root <$> filter (fun h => skip <= number h) (canon <$> seq hn n)))
    /\ follows k' (validator b') /\ main_bridge b' = main_bridge b
    /\ header_number_next b' = Z.of_nat (hn + n) /\ Z.of_nat (hn + n) < 2 ^ 32
    /\ block_number_next b' = block_number_next b /\ genesis_state_validated b' = genesis_state_validated b.

(** Whatever is requested, the headers accepted are the next ones of the chain. *)
Lemma sync_header_spec headers change skip b roots hn k :
  request_ok (hs_header <$> headers) -> follows k (validator b) -> main_bridge b = bridge ->
  header_number_next b = Z.of_nat hn -> Z.of_nat hn < 2 ^ 32 ->
  wp False (BlockSync.sync_header headers change skip) (fun _ => synced b roots skip hn k)
    (fun _ s' => s' = (b, roots)) (b, roots).
Proof.
  intros Hreq Hf Hbr Hhn Hmax. unfold BlockSync.sync_header. do 2 wp_step. simpl. rewrite Hhn.
  set (l := filter _ headers). destruct (head l) as [x|] eqn:Hx.
  - do 2 wp_step; [|done]. wp_step. wp_step; [|done]. wp_step. wp_step; [|done].
    rename a into lh, a0 into just. wp_step. wp_step; [|done]. wp_step.
    assert (last (hs_header <$> l) = Some (hs_header lh)) as Hlast by (by rewrite fmap_last, H0).
    assert (forall P Q R s, wp P (submit_finalized_headers (main_bridge b) (hs_header lh)
        (rev (removelast (hs_header <$> l))) just) (fun a v => Q a (BlockSync.set_validator v (fst s), snd s))
        (fun e v => R e (BlockSync.set_validator v (fst s), snd s)) (validator (fst s)) ->
      wp P (BlockSync.on_validator (submit_finalized_headers (main_bridge b) (hs_header lh)
        (rev (removelast (hs_header <$> l))) just)) Q R s) as Hval.
    { intros P Q R s Hw. unfold wp, BlockSync.on_validator in *. by destruct (submit_finalized_headers _ _ _ _ _). }
    apply Hval. simpl. rewrite Hbr. eapply wp_mono; [by apply (submit_follows _ _ _ k)| |].
    2: { intros e v ->. by destruct b. }
    intros [] v (m & Hkm & Hm & Hfm). wp_step. unfold wp at 1. rewrite push_roots.
    destruct (headers_chain (hs_header <$> l) hn (hs_header x) (origin + m)) as [Hl Hlen].
    { by rewrite <- Hm. } { done. } { destruct l; [done|]. by injection Hx as ->. } { by apply Z.eqb_eq. }
    rewrite length_fmap in Hlen, Hl. assert (0 <= number (hs_header lh) < 2 ^ 32 - 1) as Hrange.
    { destruct Hreq as [_ Hall]. rewrite Forall_forall in Hall. apply Hall, list_elem_of_fmap_2.
      apply last_Some_elem_of in H0. by apply list_elem_of_filter in H0 as [_ ?]. }
    rewrite Hm, canon_number in Hrange. wp_step. unfold wp. rewrite Hm, canon_number, arith_fits by lia. simpl.
    exists (length l), m. eexists. rewrite <- Hl. split; [done|]. simpl. split_and!; done || lia.
  - assert (l = []) as Hnil by by destruct l. pose proof (request_kept headers hn Hreq Hnil).
    unfold wp. rewrite arith_fits by lia. exists 0%nat, k, b. simpl. rewrite app_nil_r.
    split; [done|]. split_and!; done || lia.
Qed.

End Headers.

(** ** A chain of its own *)
Section Solo.
Context {prof : Profile} {G : Grandpa} {spec : GrandpaSpec} {C : Chain} {links : ChainLinks}.
Context {T : TrieLib} {ta : TrieApplies T}.
Context {V : Type} {B : BlockValidator V} {bridge : Z} {vs : ValidatorSpec B bridge}.

Record SoloFollows (s : SolochainSynchronizer V) (t : TrieStorage) (hn k : nat) : Prop := {
  sf_follows : follows k (validator (solo_sync_state s));
  sf_bridge : main_bridge (solo_sync_state s) = bridge;
  sf_header : header_number_next (solo_sync_state s) = Z.of_nat hn;
  sf_following : Following canon hn (solo_sync_state s) (state_roots s) t;
}.

(** New roots are appended from the first one that is still needed. *)
Lemma roots_extend (b b' : BlockSyncState V) roots t (hn n : nat) :
  Following canon hn b roots t -> block_number_next b' = block_number_next b ->
  genesis_state_validated b' = genesis_state_validated b -> Z.of_nat (hn + n) < 2 ^ 32 ->
  Following canon (hn + n) b'
    (roots ++ (state_root <$> filter (fun h => block_number_next b - 1 <= number h) (canon <$> seq hn n))) t.
Proof.
  intros [Hb Hh Hr Hs] He Hv Hmax. constructor; [lia|done| |].
  - assert (first_root b' = first_root b) as -> by (unfold first_root; by rewrite He, Hv).
    rewrite Hr. replace (block_number_next b - 1) with (Z.of_nat (Z.to_nat (block_number_next b - 1))) by lia.
    rewrite filter_chain, <- list_fmap_compose. unfold roots_of, compose.
    set (sk := Z.to_nat (block_number_next b - 1)).
    assert (first_root b <= hn \/ first_root b = sk)%nat as Hcase.
    { unfold first_root, sk. destruct (genesis_state_validated b) eqn:Hg; [left|by right]. destruct (Hs eq_refl). lia. }
    assert (sk <= first_root b)%nat by (unfold first_root, sk; destruct (genesis_state_validated b); lia).
    rewrite <- fmap_app. f_equal. destruct (decide (first_root b <= hn)%nat).
    + replace (Nat.max hn sk) with (first_root b + (hn - first_root b))%nat by lia.
      rewrite <- seq_app. f_equal. lia.
    + replace (hn - first_root b)%nat with 0%nat by lia. simpl. f_equal; lia.
  - rewrite He, Hv. intros Hg. destruct (Hs Hg). split; [lia|done].
Qed.

Lemma solo_header_follows s t hn k headers change : SoloFollows s t hn k -> request_ok (hs_header <$> headers) ->
  wp False (Sync.solo_sync_header headers change)
    (fun _ s' => exists hn' k', SoloFollows s' t hn' k' /\ block_number_next (solo_sync_state s') = block_number_next (solo_sync_state s))
    (fun _ s' => s' = s) s.
Proof.
  intros [Hf Hbr Hhn HF] Hreq. pose proof (fw_block _ _ _ _ _ HF) as Hb. pose proof (fw_headers _ _ _ _ _ HF) as Hh.
  unfold wp, Sync.solo_sync_header. rewrite (proj2 (Z.ltb_ge _ _)) by lia.
  pose proof (sync_header_spec headers change (block_number_next (solo_sync_state s) - 1) (solo_sync_state s) (state_roots s)
    hn k Hreq Hf Hbr Hhn Hh) as Hw. unfold wp in Hw.
  destruct (BlockSync.sync_header _ _ _ _) as [a [b' r']|e [b' r']| |]; [|injection Hw as -> ->; by destruct s|done..].
  destruct Hw as (n & k' & b2 & [= -> ->] & Hf' & Hbr' & Hhn' & Hmax & Hbn & Hval).
  exists (hn + n)%nat, k'. split; [|done]. constructor; simpl; [done|congruence|done|]. by apply roots_extend.
Qed.

End Solo.

(** ** A parachain, whose headers are read from the relay chain's state *)
Class HeaderCodec {G : Grandpa} := {
  encode_header_inj : forall h h', encode_header h = encode_header h' -> h = h';
  encode_bytes_inj : forall b b', encode_bytes b = encode_bytes b' -> b = b';
}.

(** The head the relay chain holds under [key] is a header of the parachain. *)
Class ParaSpec {G : Grandpa} (C P : Chain) (key : bytes) := {
  para_heads : forall n v, chain_state (Chain := C) n key = Some v ->
    exists m, v = encode_bytes (encode_header (canon (Chain := P) m));
}.

Section Para.
Context {prof : Profile} {G : Grandpa} {spec : GrandpaSpec} {C : Chain} {links : ChainLinks}.
Context {P : Chain} {plinks : ChainLinks (C := P)} {key : bytes} {hc : HeaderCodec} {ps : ParaSpec C P key}.
Context {T : TrieLib} {ta : TrieApplies T}.
Context {V : Type} {B : BlockValidator V} {bridge : Z} {vs : ValidatorSpec (C := C) B bridge}.
Abbreviation pcanon := (canon (Chain := P)).

Record ParaFollows (p : ParachainSynchronizer V) (t : TrieStorage) (hn pn k : nat) : Prop := {
  pf_follows : follows k (validator (para_sync_state p));
  pf_bridge : main_bridge (para_sync_state p) = bridge;
  pf_header : header_number_next (para_sync_state p) = Z.of_nat hn /\ Z.of_nat hn < 2 ^ 32;
  pf_para : para_header_number_next p = Z.of_nat pn /\ (first_root (para_sync_state p) <= pn)%nat;
  pf_relay : forall r, last_relaychain_state_root p = Some r -> exists n, r = state_root (canon (Chain := C) n);
  pf_following : Following pcanon pn (para_sync_state p) (para_state_roots p) t;
}.

Lemma para_header_follows p t hn pn k headers change : ParaFollows p t hn pn k -> request_ok (hs_header <$> headers) ->
  wp False (Sync.para_sync_header headers change)
    (fun _ p' => exists hn' k', ParaFollows p' t hn' pn k' /\ block_number_next (para_sync_state p') = block_number_next (para_sync_state p))
    (fun _ p' => p' = p) p.
Proof.
  intros [Hf Hbr [Hhn Hh] [Hpn Hle] Hrelay HF] Hreq. unfold wp, Sync.para_sync_header.
  pose proof (sync_header_spec (C := C) headers change 0 (para_sync_state p) [] hn k Hreq Hf Hbr Hhn Hh) as Hw. unfold wp in Hw.
  destruct (BlockSync.sync_header _ _ _ _) as [a [b' r']|e [b' r']| |]; [|injection Hw as -> ->; by destruct p|done..].
  destruct Hw as (n & k' & b2 & [= -> ->] & Hf' & Hbr' & Hhn' & Hmax & Hbn & Hval).
  exists (hn + n)%nat, k'. split; [|done].
  assert (first_root b2 = first_root (para_sync_state p)) as Hfr by (unfold first_root; by rewrite Hbn, Hval).
  constructor; simpl; [done|congruence|done|by rewrite Hfr| |].
  - intros r Hr. rewrite fmap_last in Hr.
    destruct (last (filter _ _)) as [h|] eqn:Hl; simpl in Hr; [|by apply Hrelay].
    injection Hr as <-. apply last_Some_elem_of, list_elem_of_filter in Hl as [_ (i & -> & _)%list_elem_of_fmap].
    by exists i.
  - destruct HF as [Hb Hph Hroots Hs]. constructor; [by rewrite Hbn|done|by rewrite Hfr|]. rewrite Hval, Hbn. done.
Qed.

Definition push_root (r : H256) (p : ParachainSynchronizer V) : ParachainSynchronizer V :=
  mkParachainSynchronizer (para_sync_state p) (last_relaychain_state_root p) (para_header_number_next p)
    (para_state_roots p ++ [r]).

Lemma push_para_roots headers (p : ParachainSynchronizer V) :
  for_each headers (fun hdr => modify (push_root (state_root hdr))) p
  = Ok (E := SyncError) tt (mkParachainSynchronizer (para_sync_state p) (last_relaychain_state_root p)
      (para_header_number_next p) (para_state_roots p ++ (state_root <$> headers))).
Proof.
  revert p. induction headers as [|h l IH]; intros p; simpl.
  - rewrite app_nil_r. by destruct p.
  - unfold mbind, modify. rewrite IH. unfold push_root. simpl. by rewrite <- app_assoc.
Qed.

Lemma wp_para_validator {A} Pr (m : M V SyncError A) (Q : A -> ParachainSynchronizer V -> Prop) R p :
  wp Pr m (fun a v => v = validator (para_sync_state p) /\ Q a p) (fun e v => v = validator (para_sync_state p) /\ R e p)
    (validator (para_sync_state p)) -> wp Pr (Sync.on_para_validator m) Q R p.
Proof.
  unfold wp, Sync.on_para_validator. destruct p as [b r n q]. simpl. destruct b.
  destruct (m _); simpl; [intros [-> ?]|intros [-> ?]|done..]; done.
Qed.

(** The roots of a segment of the parachain behind those in the queue *)
Lemma para_roots_extend (b : BlockSyncState V) roots t (pn n : nat) :
  Following pcanon pn b roots t -> (first_root b <= pn)%nat -> Z.of_nat (pn + n) < 2 ^ 32 ->
  Following pcanon (pn + n) b (roots ++ (state_root <$> (pcanon <$> seq pn n))) t.
Proof.
  intros [Hb Hh Hr Hs] Hle Hmax. constructor; [done|done| |].
  - rewrite Hr, <- list_fmap_compose. unfold roots_of, compose. rewrite <- fmap_app. f_equal.
    replace pn with (first_root b + (pn - first_root b))%nat at 2 by lia. rewrite <- seq_app. f_equal. lia.
  - intros Hg. destruct (Hs Hg). split; [lia|done].
Qed.

Lemma para_parachain_follows p t hn pn k headers proof : ParaFollows p t hn pn k -> request_ok headers ->
  wp False (Sync.para_sync_parachain_header headers proof key)
    (fun _ p' => exists pn', ParaFollows p' t hn pn' k /\ para_sync_state p' = para_sync_state p)
    (fun _ p' => p' = p) p.
Proof.
  intros HP [Hne Hall]. pose proof HP as [Hf Hbr Hhn [Hpn Hle] Hrelay HF]. unfold Sync.para_sync_parachain_header.
  do 2 wp_step. rewrite Hpn. set (l := filter _ headers). destruct (head l) as [x|] eqn:Hx.
  - wp_step. wp_step; [|done]. wp_step. wp_step; [|done]. wp_step. wp_step; [|done]. wp_step.
    rename a into lh, a0 into r. destruct (Hrelay r) as [n ->]; [done|]. apply wp_para_validator.
    eapply wp_mono; [apply proof_sound| |by intros e v ->]. intros [] v [-> Hread]. split; [done|].
    specialize (Hread n eq_refl). rewrite Forall_singleton in Hread. simpl in Hread. destruct (para_heads (C := C) n _ Hread) as [m Hm].
    simpl in Hm. apply encode_bytes_inj, encode_header_inj in Hm. subst lh. wp_step. wp_step; [|done]. wp_step.
    unfold wp at 1. change (fun hdr => modify _) with (fun hdr => modify (E := SyncError) (push_root (state_root hdr))).
    rewrite push_para_roots.
    destruct (headers_chain (C := P) l pn x m) as [Hl Hlen]; [done|done|done|symmetry; by apply Z.eqb_eq|].
    assert (0 <= number (pcanon m) < 2 ^ 32 - 1) as Hrange.
    { rewrite Forall_forall in Hall. apply Hall. apply last_Some_elem_of in H0.
      by apply list_elem_of_filter in H0 as [_ ?]. }
    rewrite canon_number in Hrange. wp_step. unfold wp. rewrite canon_number, arith_fits by lia. simpl.
    exists (pn + length l)%nat. split; [|done]. constructor; simpl; [done|done|done|split; lia|done|].
    assert (state_root <$> l = state_root <$> (pcanon <$> seq pn (length l))) as -> by by rewrite <- Hl.
    apply para_roots_extend; [done|done|lia].
  - assert (l = []) as Hnil by by destruct l. assert (0 < pn)%nat.
    { destruct pn; [|lia]. exfalso. apply Hne. subst l. rewrite filter_pass in Hnil; [done|].
      eapply Forall_impl; [exact Hall|]. simpl. lia. }
    pose proof (fw_headers _ _ _ _ _ HF). unfold wp. rewrite arith_fits by lia. by exists pn.
Qed.

End Para.

(** ** Synchronizers *)
Section Runs.
Context {prof : Profile} {G : Grandpa} {spec : GrandpaSpec} {C : Chain} {links : ChainLinks}.
Context {P : Chain} {plinks : ChainLinks (C := P)} {key : bytes} {hc : HeaderCodec} {ps : ParaSpec C P key}.
Context {T : TrieLib} {ta : TrieApplies T}.
Context {V : Type} {B : BlockValidator V} {bridge : Z} {vs : ValidatorSpec (C := C) B bridge}.

Definition Good (s : Synchronizer V) (t : TrieStorage) : Prop :=
  match s with
  | Solo s => exists hn k, SoloFollows (C := C) (vs := vs) s t hn k
  | Para p => exists hn pn k, ParaFollows (C := C) (P := P) (vs := vs) p t hn pn k
  end.

(** The chain whose state is kept *)
Definition chain_of (s : Synchronizer V) : nat -> Header :=
  match s with Solo _ => canon (Chain := C) | Para _ => canon (Chain := P) end.

Definition next_block (s : Synchronizer V) : Z := next_block_number (Sync.counters s).

(** The state of the last block fed, once the state it was started with proved right *)
Definition at_tip (s : Synchronizer V) (t : TrieStorage) : Prop :=
  Sync.state_validated s = true -> root t = state_root (chain_of s (Z.to_nat (next_block s - 1))).

Lemma good_at_tip s t : Good s t -> at_tip s t.
Proof.
  destruct s as [s|p].
  - intros (hn & k & [_ _ _ HF]) Hv. by apply (fw_state _ _ _ _ _ HF).
  - intros (hn & pn & k & [_ _ _ _ _ HF]) Hv. by apply (fw_state _ _ _ _ _ HF).
Qed.

Lemma sync_header_good s t headers change : Good s t -> request_ok (hs_header <$> headers) ->
  wp False (Sync.sync_header headers change)
    (fun _ s' => Good s' t /\ next_block s' = next_block s /\ chain_of s' = chain_of s) (fun _ s' => s' = s) s.
Proof.
  intros Hg Hreq. unfold wp, Sync.sync_header. destruct s as [s|p]; simpl in Hg.
  - destruct Hg as (hn & k & Hs). pose proof (solo_header_follows s t hn k headers change Hs Hreq) as Hw. unfold wp in Hw.
    destruct (Sync.solo_sync_header _ _ _); [|by rewrite Hw|done..]. destruct Hw as (hn' & k' & Hs' & Hb).
    split; [by exists hn', k'|done].
  - destruct Hg as (hn & pn & k & Hs). pose proof (para_header_follows p t hn pn k headers change Hs Hreq) as Hw. unfold wp in Hw.
    destruct (Sync.para_sync_header _ _ _); [|by rewrite Hw|done..]. destruct Hw as (hn' & k' & Hs' & Hb).
    split; [by exists hn', pn, k'|done].
Qed.

Lemma sync_parachain_good s t headers proof : Good s t -> request_ok headers ->
  wp False (Sync.sync_parachain_header headers proof key)
    (fun _ s' => Good s' t /\ next_block s' = next_block s /\ chain_of s' = chain_of s) (fun _ s' => s' = s) s.
Proof.
  intros Hg Hreq. unfold wp, Sync.sync_parachain_header. destruct s as [s|p]; simpl in Hg; [done|].
  destruct Hg as (hn & pn & k & Hs). pose proof (para_parachain_follows p t hn pn k headers proof Hs Hreq) as Hw. unfold wp in Hw.
  destruct (Sync.para_sync_parachain_header _ _ _ _) as [a p'|e p'| |]; [|by rewrite Hw|done..].
  destruct Hw as (pn' & Hs' & Hb). split; [by exists hn, pn', k|]. split; [|done]. unfold next_block. simpl. by rewrite Hb.
Qed.

(** A block is fed *)
Definition advanced (block : BlockHeaderWithChanges) (s : Synchronizer V) (st' : Synchronizer V * TrieStorage) : Prop :=
  Good (fst st') (snd st') /\ number (block_header block) = next_block s /\ next_block (fst st') = next_block s + 1
  /\ Sync.state_validated (fst st') = true /\ chain_of (fst st') = chain_of s.

Definition rejected (s : Synchronizer V) (t : TrieStorage) (st' : Synchronizer V * TrieStorage) : Prop :=
  Good (fst st') t /\ snd st' = t /\ next_block (fst st') = next_block s /\ chain_of (fst st') = chain_of s.

Lemma feed_good s t block : Good s t ->
  wp False (Sync.feed_block block false) (fun _ => advanced block s) (fun _ => rejected s t) (s, t).
Proof.
  intros Hg. unfold wp, Sync.feed_block. destruct s as [s|p]; simpl Sync.parts; simpl in Hg.
  - destruct Hg as (hn & k & [Hf Hbr Hh HF]). pose proof (feed_follows canon hn _ _ t block HF) as Hw. unfold wp in Hw.
    destruct (BlockSync.feed_block _ _ _) as [a [[b' r'] t']|e [[b' r'] t']| |]; [| |done..].
    + destruct Hw as (b2 & r2 & t2 & [= -> -> ->] & HF2 & (H1 & H2 & H3) & Hv & Hn & Hb).
      split; [|done]. exists hn, k. by constructor; simpl; rewrite ?H1, ?H2, ?H3.
    + destruct Hw as (b2 & r2 & [= -> -> ->] & HF2 & (H1 & H2 & H3) & Hb).
      split; [|done]. exists hn, k. by constructor; simpl; rewrite ?H1, ?H2, ?H3.
  - destruct Hg as (hn & pn & k & [Hf Hbr Hh [Hp Hle] Hrelay HF]).
    pose proof (feed_follows (canon (Chain := P)) pn _ _ t block HF) as Hw. unfold wp in Hw.
    destruct (BlockSync.feed_block _ _ _) as [a [[b' r'] t']|e [[b' r'] t']| |]; [| |done..].
    + destruct Hw as (b2 & r2 & t2 & [= -> -> ->] & HF2 & (H1 & H2 & H3) & Hv & Hn & Hb).
      split; [|done]. exists hn, pn, k. constructor; simpl; rewrite ?H1, ?H2, ?H3; try done. split; [done|].
      destruct (fw_state _ _ _ _ _ HF2 Hv). unfold first_root. rewrite Hv. lia.
    + destruct Hw as (b2 & r2 & [= -> -> ->] & HF2 & (H1 & H2 & H3) & Hb).
      split; [|done]. exists hn, pn, k. constructor; simpl; rewrite ?H1, ?H2, ?H3; try done. split; [done|].
      destruct (genesis_state_validated b2) eqn:Hv.
      * destruct (fw_state _ _ _ _ _ HF2 Hv). unfold first_root. rewrite Hv. lia.
      * unfold first_root in *. rewrite Hv. rewrite Hb. destruct (genesis_state_validated (para_sync_state p)); lia.
Qed.

(** ** Runs *)
Inductive reach : Synchronizer V -> TrieStorage -> Prop :=
| reach_solo v t : follows 0 v -> reach (Sync.new_solochain v bridge) t
| reach_para v n t : follows 0 v -> 0 <= n < 2 ^ 32 -> reach (Sync.new_parachain v bridge n) t
| reach_assume_solo v n t s' : follows 0 v -> 0 <= n < 2 ^ 32 - 1 ->
    Sync.assume_at_block n (Sync.new_solochain v bridge) = Ok tt s' -> reach s' t
| reach_assume_para v h n t s' : follows 0 v -> 0 <= h < 2 ^ 32 -> 0 <= n < 2 ^ 32 - 1 ->
    Sync.assume_at_block n (Sync.new_parachain v bridge h) = Ok tt s' -> reach s' t
| reach_header s t headers change : reach s t -> request_ok (hs_header <$> headers) ->
    reach (final (Sync.sync_header headers change) s) t
| reach_para_header s t headers proof : reach s t -> request_ok headers ->
    reach (final (Sync.sync_parachain_header headers proof key) s) t
| reach_feed s t block : reach s t ->
    reach (fst (final (Sync.feed_block block false) (s, t))) (snd (final (Sync.feed_block block false) (s, t))).

Lemma wp_final {S E A} (m : M S E A) (Q : A -> S -> Prop) (R : E -> S -> Prop) (I : S -> Prop) s :
  wp False m Q R s -> (forall a s', Q a s' -> I s') -> (forall e s', R e s' -> I s') -> I (final m s).
Proof. unfold wp, final. destruct (m s); naive_solver. Qed.

Lemma new_following (b : BlockSyncState V) h hn t : 1 <= block_number_next b < 2 ^ 32 ->
  genesis_state_validated b = false -> (hn <= first_root b)%nat -> Z.of_nat hn < 2 ^ 32 -> Following h hn b [] t.
Proof.
  intros Hb Hv Hle Hh. constructor; [done|done| |by rewrite Hv]. unfold roots_of.
  by replace (hn - first_root b)%nat with 0%nat by lia.
Qed.

Lemma reach_good s t : reach s t -> Good s t.
Proof.
  induction 1 as [v t Hf|v n t Hf Hn|v n t s' Hf Hn Ha|v h n t s' Hf Hh Hn Ha|s t headers change _ IH Hreq
    |s t headers proof _ IH Hreq|s t block _ IH].
  - exists 0%nat, 0%nat. constructor; simpl; [done|done|done|]. apply new_following; simpl; [lia|done|lia|lia].
  - exists (Z.to_nat n), 0%nat, 0%nat. constructor; simpl; [done|done|lia|done|done|].
    apply new_following; simpl; [lia|done|lia|lia].
  - unfold Sync.assume_at_block, mbind, gets in Ha. simpl in Ha. rewrite arith_fits in Ha by lia. injection Ha as <-.
    exists 0%nat, 0%nat. constructor; simpl; [done|done|done|]. apply new_following; simpl; [lia|done|lia|lia].
  - unfold Sync.assume_at_block, mbind, gets in Ha. simpl in Ha. rewrite arith_fits in Ha by lia. injection Ha as <-.
    exists (Z.to_nat h), (Z.to_nat n), 0%nat. constructor; simpl; [done|done|lia| |done|].
    + unfold first_root. simpl. split; lia.
    + apply new_following; simpl; [lia|done| |lia]. unfold first_root. simpl. lia.
  - eapply wp_final; [by apply (sync_header_good s t)|by intros a s' []|by intros e s' ->].
  - eapply wp_final; [by apply (sync_parachain_good s t)|by intros a s' []|by intros e s' ->].
  - eapply (wp_final _ _ _ (fun st => Good (fst st) (snd st))); [by apply feed_good| |].
    + by intros a s' [].
    + by intros e s' (? & -> & ?).
Qed.

End Runs.
(** ** The light client as the validator *)
Section Light.
Context {prof : Profile} {G : Grandpa} {spec : GrandpaSpec} {C : Chain} {links : ChainLinks}.
Context {safe : ChainSafety} {sound : TrieSound}.

Lemma light_submit bridge header proof just k v : tracks bridge k v ->
  wp False (submit_finalized_headers (BlockValidator := light_validator) bridge header proof just)
    (fun _ v' => exists m, (k < m)%nat /\ header = canon (origin + m) /\ tracks bridge m v') (fun _ v' => v' = v) v.
Proof.
  intros Ht. pose proof (tracks_submit bridge header proof just v k Ht) as Hw. unfold wp in *. simpl.
  by destruct (LightClient.submit_finalized_headers _ _ _ _ _).
Qed.

Lemma light_proof r proof items v :
  wp False (validate_storage_proof (BlockValidator := light_validator) r proof items)
    (fun _ v' => v' = v /\ forall n, r = state_root (canon n) -> Forall (fun kx => chain_state n (fst kx) = Some (snd kx)) items)
    (fun _ v' => v' = v) v.
Proof.
  assert (wp False (LightClient.validate_storage_proof r proof items)
    (fun _ v' => v' = v /\ forall n, r = state_root (canon n) -> Forall (fun kx => chain_state n (fst kx) = Some (snd kx)) items)
    (fun _ v' => v' = v) v) as Hw.
  { unfold LightClient.validate_storage_proof. induction items as [|[key x] items IH]; simpl; [by apply wp_ret|].
    wp_step. unfold LightClient.read_value at 1. wp_step. destruct (trie_get r proof key) as [[y|]|err] eqn:Hg; simpl.
    - do 3 wp_step; [|done]. wp_step; [|done]. eapply wp_mono; [apply IH| |done]. intros [] v' [-> Hall]. split; [done|].
      intros n ->. constructor; [|by apply Hall]. simpl. rewrite <- (trie_sound n proof key _ Hg). f_equal.
      apply bool_decide_eq_true_1 in H0. congruence.
    - by wp_step.
    - done. }
  unfold wp in *. simpl. by destruct (LightClient.validate_storage_proof _ _ _ _).
Qed.

#[export] Instance light_validator_spec bridge : ValidatorSpec light_validator bridge := {|
  follows := tracks bridge;
  submit_follows := light_submit bridge;
  proof_sound := light_proof;
|}.

End Light.
End StorageSyncProps.
