(* ===== verification/SyncProps.v ===== *)
(** * The worker follows the finalized chain

    What the light client and the synchronizers promise together, and a small
    chain with its authorities, its parachain and its votes on which every
    assumption about GRANDPA, hashes and tries holds. *)
From stdpp Require Import prelude gmap list strings countable.
From Stdlib Require Import ZArith Lia.
From S2P Require Import Prelude Types MemDb LightClient LightClientProps StorageSync StorageSyncProps.

Module SyncProps.
Import LightClientProps StorageSyncProps.

Section Claims.
Context {prof : Profile} {G : Grandpa} {spec : GrandpaSpec}.

(** C12: the light client accepts a header only when it descends from the last
    one it accepted and more than two thirds of the weight of the current
    authorities signed, in one round, for it or a block after it; it then tracks
    that header and, if the header schedules a change, the next authorities
    under the next set id.  It always answers, and a rejected submission changes
    nothing. *)
Theorem accepted_header_final id header proof just s info :
  tracked_bridges s !! id = Some info ->
  is_Some (voter_set_new (as_list (current_set info))) -> 0 <= as_id (current_set info) < 2 ^ 64 - 1 ->
  wp False (LightClient.submit_finalized_headers id header proof just)
    (fun _ s' => descends (header_hash (last_finalized_block_header info)) (parent_hash header)
       /\ supermajority (current_set info) (header_hash header)
       /\ s' = LightClient.track id (mkBridgeInfo header (next_set (current_set info) header)) s)
    (fun _ s' => s' = s) s.
Proof. apply submit_spec. Qed.

Context {C : Chain} {links : ChainLinks}.

Section Light.
Context {safe : ChainSafety}.

(** C13: when GRANDPA is safe, the light client follows the finalized chain: from
    a header of the chain with the authorities in charge after it, whatever is
    submitted, it answers, and it accepts only a later header of the chain and
    then holds the authorities in charge after that one. *)
Theorem light_client_tracks_chain id header proof just s k : tracks id k s ->
  wp False (LightClient.submit_finalized_headers id header proof just)
    (fun _ s' => exists m, (k < m)%nat /\ header = canon (origin + m) /\ tracks id m s') (fun _ s' => s' = s) s.
Proof. apply tracks_submit. Qed.

End Light.

Context {P : Chain} {plinks : ChainLinks (C := P)} {key : bytes} {hc : HeaderCodec} {ps : ParaSpec C P key}.
Context {T : TrieLib} {ta : TrieApplies T}.
Context {V : Type} {B : BlockValidator V} {bridge : Z} {vs : ValidatorSpec (C := C) B bridge}.

(** C11: the storage of a synchronizer follows the finalized chain.  From a light
    client at a finalized header and any initial state, whatever headers, proofs
    and blocks are sent: once the initial state was checked, the storage is the
    state of the last block fed; a block is taken only as the next number and the
    storage is then the state of that block on the chain; a block that is refused
    leaves the storage alone.  The chain is the tracked one, or the parachain
    whose heads it finalizes. *)
Theorem storage_follows_chain s t block : reach (key := key) (vs := vs) s t ->
  at_tip (C := C) (P := P) s t /\
  wp False (Sync.feed_block block false)
    (fun _ st' => number (block_header block) = next_block s
       /\ root (snd st') = state_root (chain_of (C := C) (P := P) s (Z.to_nat (next_block s))) /\ next_block (fst st') = next_block s + 1)
    (fun _ st' => snd st' = t /\ next_block (fst st') = next_block s) (s, t).
Proof.
  intros Hr%(reach_good (C := C) (P := P)). split; [by apply good_at_tip|].
  eapply wp_mono; [by apply feed_good| |by intros e st' (? & ? & ? & ?)].
  intros [] [s' t'] (Hg & Hn & Hb & Hv & Hc). simpl in *. split; [done|split; [|done]].
  rewrite (good_at_tip s' t' Hg Hv), Hb, Hc. do 2 f_equal. lia.
Qed.

End Claims.

(** ** A chain

    The second and the fourth header hand over to one authority, numbered like
    its set, which votes for the last block of the set only. *)
Definition digest_code (d : DigestItem) : Z * (bytes * bytes) :=
  match d with
  | PreRuntime e b => (0, (e, b))
  | ConsensusItem e b => (1, (e, b))
  | Seal e b => (2, (e, b))
  | OtherItem b => (3, ([], b))
  | RuntimeEnvironmentUpdated => (4, ([], []))
  end.

Definition ref_rest (h : Header) : Z * Z * Z * list (Z * (bytes * bytes)) :=
  (number h, state_root h, extrinsics_root h, digest_code <$> digest h).

Definition ref_hash (h : Header) : H256 :=
  Zpos (Pos.app ((encode (ref_rest h))~1~0)%positive (Pos.dup (encode (parent_hash h)))).

Lemma digest_code_inj d d' : digest_code d = digest_code d' -> d = d'.
Proof. destruct d, d'; simpl; congruence. Qed.

Lemma ref_hash_inj h h' : ref_hash h = ref_hash h' -> h = h'.
Proof.
  unfold ref_hash. intros [= He]. apply Pos.dup_suffix_eq in He as Hp. rewrite Hp in He.
  apply encode_inj in Hp. apply (inj (fun p => Pos.app p _)) in He. injection He as He. apply encode_inj in He.
  destruct h as [n p s x d], h' as [n' p' s' x' d']. unfold ref_rest in He. simpl in *. injection He as -> -> -> Hd.
  subst p'. f_equal. revert d' Hd. induction d as [|a d IH]; intros [|a' d']; rewrite ?fmap_cons; try done.
  intros [= Ha Hd]. f_equal; [by apply digest_code_inj|by apply IH].
Qed.

Lemma length_dup p : Pos.length (Pos.dup p) = (2 * Pos.length p)%nat.
Proof. induction p; simpl; lia. Qed.

Definition ref_rank (h : H256) : nat := match h with Zpos p => Pos.length p | _ => 0%nat end.

Lemma ref_hash_rank h : (ref_rank (parent_hash h) < ref_rank (ref_hash h))%nat.
Proof.
  unfold ref_hash. simpl. rewrite Pos.length_app, length_dup. simpl.
  destruct (parent_hash h); simpl; lia.
Qed.

Definition ref_digest (n : nat) : list DigestItem :=
  if Nat.even n && Nat.leb n 4 then [ConsensusItem GRANDPA_ENGINE_ID [1; Z.of_nat (Nat.div2 n)]] else [].

Fixpoint ref_canon (n : nat) : Header :=
  match n with
  | O => mkHeader 0 0 100 0 []
  | S m => mkHeader (Z.of_nat n) (ref_hash (ref_canon m)) (100 + Z.of_nat n) 0 (ref_digest n)
  end.

Fixpoint ref_pcanon (n : nat) : Header :=
  match n with
  | O => mkHeader 0 0 200 0 []
  | S m => mkHeader (Z.of_nat n) (ref_hash (ref_pcanon m)) (200 + Z.of_nat n) 0 []
  end.

(** The block the authorities of a set vote for *)
Definition ref_vote (set_id : Z) : Precommit :=
  mkPrecommit (ref_hash (ref_canon (Z.to_nat (2 * set_id + 2)))) (2 * set_id + 2).

Definition ref_signed (p : Precommit) (id : Z) (sig : bytes) (round set_id : Z) : bool :=
  bool_decide (sig = [1]) && (id =? set_id) && (0 <=? set_id) && (round =? 0) && bool_decide (p = ref_vote set_id).

Definition ref_justification (set_id : Z) : Justification :=
  mkJustification 0 (mkCommit (pc_target_hash (ref_vote set_id)) (pc_target_number (ref_vote set_id))
    [mkSignedPrecommit (ref_vote set_id) [1] set_id]) [].

Definition ref_authorities (id : Z) : list (Z * Z) := [(id, 1)].

Definition ref_para_key : bytes := bytes_of_string "Paras" ++ bytes_of_string "Heads" ++ [7; 7].

Definition ref_state (n : nat) (key : bytes) : option bytes :=
  if bool_decide (key = LightClient.grandpa_authorities_key) then Some [Z.of_nat (Nat.min (Nat.div2 n) 2)]
  else if bool_decide (key = ref_para_key) then Some [1; ref_hash (ref_pcanon n)]
  else None.

(** A voter supports the target, as a test *)
Definition ref_supports (chain : H256 -> H256 -> M unit GrandpaError (list H256)) (c : Commit) (id : Z) : bool :=
  existsb (fun s => (pc_id s =? id) &&
    ((commit_target_hash c =? pc_target_hash (precommit s))
     || match chain (commit_target_hash c) (pc_target_hash (precommit s)) tt with Ok _ _ => true | _ => false end))
    (precommits c).

Definition ref_validate (chain : H256 -> H256 -> M unit GrandpaError (list H256)) (c : Commit) (l : list (Z * Z)) :
    M unit GrandpaError bool :=
  mret (threshold l <=? weight l (filter (fun id => ref_supports chain c id = true) (remove_dups l.*1))).

#[export] Instance ref_grandpa : Grandpa := {|
  header_hash := ref_hash;
  encode_header h := [ref_hash h];
  encode_authorities l := fst <$> l;
  decode_consensus_log b :=
    match b with [1; id] => Some (LogScheduledChange (mkScheduledChange (ref_authorities id) 0)) | _ => None end;
  decode_justification b := match b with [1; id] => Some (ref_justification id) | _ => None end;
  VoterSet := list (Z * Z);
  voter_set_new l := if 0 <? total l then Some l else None;
  validate_commit := ref_validate;
  check_precommit_signature := ref_signed;
  trie_get r proof key :=
    match proof with [] => inr "incomplete proof"%string | _ => inl (ref_state (Z.to_nat (r - 100)) key) end;
  twox_128 b := b;
  twox_64 b := b;
  encode_u32 n := [n];
  encode_bytes b := Z.of_nat (length b) :: b;
|}.

#[export] Instance ref_chain : Chain := {|
  canon := ref_canon;
  chain_state := ref_state;
  origin := 0;
  origin_set := mkAuthoritySet (ref_authorities 0) 0;
|}.

Definition ref_para : Chain := {|
  canon := ref_pcanon;
  chain_state := fun _ _ => None;
  origin := 0;
  origin_set := mkAuthoritySet [] 0;
|}.

Lemma ref_supports_spec chain c id : ref_supports chain c id = true -> supports chain c id.
Proof.
  intros Hs. apply existsb_exists in Hs as (s & Hin & Hs). apply andb_true_iff in Hs as [Hid%Z.eqb_eq Hr]. left.
  exists s. split; [by apply list_elem_of_In|]. split; [done|].
  apply orb_true_iff in Hr as [Hr%Z.eqb_eq|Hr]; [by left|]. right.
  destruct (chain _ _ _) as [r []| | |]; [by exists r|done..].
Qed.

#[export] Instance ref_grandpa_spec : GrandpaSpec.
Proof.
  split.
  - apply ref_hash_inj.
  - exists ref_rank. apply ref_hash_rank.
  - intros l vs. simpl. destruct (Z.ltb_spec 0 (total l)); [done|done].
  - intros chain c l vs Hv Hc. simpl in *. destruct (0 <? total l); [|done]. injection Hv as <-.
    injection Hc as Hc%Z.leb_le. eexists. split; [|split; [|exact Hc]].
    + apply list.NoDup_filter, NoDup_remove_dups.
    + intros id [Hs Hin]%list_elem_of_filter. split; [by apply elem_of_remove_dups|by apply ref_supports_spec].
  - done.
Qed.

#[export] Instance ref_links : ChainLinks (C := ref_chain).
Proof. split; [by intros []|done|done]. Qed.

#[export] Instance ref_para_links : ChainLinks (C := ref_para).
Proof. split; [by intros []|done|done]. Qed.

Lemma ref_change n : LightClient.find_scheduled_change (ref_canon (S n)) =
  if Nat.even (S n) && Nat.leb (S n) 4
  then Some (mkScheduledChange (ref_authorities (Z.of_nat (Nat.div2 (S n)))) 0) else None.
Proof.
  unfold LightClient.find_scheduled_change. change (digest (ref_canon (S n))) with (ref_digest (S n)).
  unfold ref_digest. by destruct (_ && _).
Qed.

Definition ref_set (k : nat) : nat := Nat.min (Nat.div2 k) 2.

Lemma ref_in_charge k : in_charge k = mkAuthoritySet (ref_authorities (Z.of_nat (ref_set k))) (Z.of_nat (ref_set k)).
Proof.
  induction k as [|k IH]; [done|]. change (in_charge (S k)) with (next_set (in_charge k) (ref_canon (S k))).
  rewrite IH. unfold next_set. rewrite ref_change. unfold ref_set.
  pose proof (Nat.div2_odd k) as Hk. pose proof (Nat.div2_odd (S k)) as HSk.
  rewrite Nat.even_succ. rewrite Nat.odd_succ in HSk. rewrite <- Nat.negb_odd in HSk.
  destruct (Nat.leb_spec (S k) 4); destruct (Nat.odd k); simpl Nat.b2n in *; simpl andb; cbv iota;
    cbn [as_id next_authorities]; f_equal; f_equal; lia.
Qed.

Lemma ref_signed_vote p id sig round set_id : ref_signed p id sig round set_id = true -> p = ref_vote set_id.
Proof. unfold ref_signed. rewrite !andb_true_iff. intros (_ & Hp). by apply bool_decide_eq_true_1 in Hp. Qed.

Lemma ref_before h n : descends (ref_hash h) (ref_hash (ref_canon n)) -> exists m, (m <= n)%nat /\ h = ref_canon m.
Proof. apply (descends_canon (G := ref_grandpa) (C := ref_chain)). Qed.

Lemma ref_finality k h : supermajority (in_charge k) (header_hash h) ->
  exists m, (m <= 2 * ref_set k + 2)%nat /\ h = ref_canon m.
Proof.
  intros (rnd & ids & _ & Hids & Hw). rewrite ref_in_charge in *. set (i := ref_set k) in *.
  destruct ids as [|id ids]; [done|]. destruct (Hids id) as [Hid Hend]; [set_solver|].
  destruct Hend as [(p & [sig Hp%ref_signed_vote] & Hd)|(p & q & Hne & [? Hp%ref_signed_vote] & [? Hq%ref_signed_vote])];
    [|congruence].
  subst p. simpl in Hd. replace (Z.to_nat (2 * Z.of_nat i + 2)) with (2 * i + 2)%nat in Hd by lia. by apply ref_before.
Qed.

#[export] Instance ref_safety : ChainSafety.
Proof.
  split.
  - intros k h (m & Hm & ->)%ref_finality. exists m. split; [done|]. intros [|j] Hj Hjm; [done|].
    change (canon (origin + S j)) with (ref_canon (S j)). rewrite ref_change. change (origin + S j)%nat with (S j) in Hjm.
    unfold ref_set in Hm. pose proof (Nat.div2_odd k) as Hk. pose proof (Nat.div2_odd (S j)) as HSj.
    rewrite <- Nat.negb_odd. destruct (Nat.leb_spec (S j) 4); [|by rewrite andb_false_r].
    destruct (Nat.odd (S j)); [done|]. exfalso. destruct (Nat.odd k); cbn [Nat.b2n] in *; lia.
  - intros k. rewrite ref_in_charge. cbn [as_list as_id]. split; [by eexists|]. assert (ref_set k <= 2)%nat by (unfold ref_set; lia).
    change (2 ^ 64 - 1) with 18446744073709551615. lia.
Qed.

#[export] Instance ref_sound : TrieSound.
Proof.
  split. intros n [|b proof] key v; [done|]. intros [= <-]. f_equal.
  destruct n; [done|]. change (Z.to_nat (100 + Z.of_nat (S n) - 100) = S n). lia.
Qed.

#[export] Instance ref_codec : HeaderCodec.
Proof.
  split; [|by intros b b' [= _ ->]]. intros h h' He. apply ref_hash_inj. by apply (f_equal head), (inj Some) in He.
Qed.

#[export] Instance ref_heads : ParaSpec ref_chain ref_para ref_para_key.
Proof.
  split. intros n v. change (chain_state n ref_para_key) with (Some [1; ref_hash (ref_pcanon n)]).
  intros [= <-]. by exists n.
Qed.

(** The root of a state is the first byte of its first key. *)
Definition ref_hasher : Hasher := {| hash := h256_of_be |}.

#[export] Instance ref_trie : TrieLib := {|
  trie_hasher := ref_hasher;
  trie_of_pairs l := match l with ([r], _) :: _ => Some (r, MemDb.default (H := ref_hasher)) | _ => None end;
  full_storage_root _ r delta _ := (match delta with ([x], _) :: _ => x | _ => r end, []);
  backend_storage _ _ _ := None;
  backend_pairs _ _ _ := None;
|}.

#[export] Instance ref_applies {prof : Profile} : TrieApplies ref_trie.
Proof. split. intros db r delta children. by exists db. Qed.

(** ** Runs *)
Definition wit_prof : Profile := {| overflow_checks := true; debug_assertions := true |}.

(** A light client started at the first header *)
Definition wit_light : LightValidation :=
  mkLightValidation 1 {[ 1 := mkBridgeInfo (ref_canon 0) (mkAuthoritySet (ref_authorities 0) 0) ]}.

Lemma wit_started :
  LightClient.initialize_bridge (prof := wit_prof) (ref_canon 0) (mkAuthoritySet (ref_authorities 0) 0) [[0]] LightClient.new
  = Ok 1 wit_light.
Proof. by vm_compute. Qed.

Lemma wit_tracks : tracks 1 0 wit_light.
Proof. done. Qed.

Definition wit_submit : M LightValidation AnyError unit :=
  LightClient.submit_finalized_headers (prof := wit_prof) 1 (ref_canon 2) [ref_canon 1] [1; 0].

Lemma accepted_header_final_witness :
  returns wit_submit wit_light = true
  /\ supermajority (mkAuthoritySet (ref_authorities 0) 0) (header_hash (ref_canon 2)).
Proof.
  split; [by vm_compute|].
  pose proof (accepted_header_final (prof := wit_prof) 1 (ref_canon 2) [ref_canon 1] [1; 0] wit_light _ wit_tracks
    ltac:(by exists (ref_authorities 0)) ltac:(split; [discriminate|reflexivity])) as Hw.
  assert (returns wit_submit wit_light = true) as Hr by by vm_compute.
  apply returns_final in Hr. unfold wit_submit in Hr. apply (wp_ok _ _ _ _ _ _ _ Hw) in Hr as (_ & Hs & _). exact Hs.
Defined.

Lemma light_client_tracks_chain_witness :
  returns wit_submit wit_light = true /\ exists m, (0 < m)%nat /\ tracks 1 m (final wit_submit wit_light).
Proof.
  split; [by vm_compute|].
  pose proof (light_client_tracks_chain (prof := wit_prof) 1 (ref_canon 2) [ref_canon 1] [1; 0] wit_light 0 wit_tracks) as Hw.
  assert (returns wit_submit wit_light = true) as Hr by by vm_compute.
  apply returns_final in Hr. unfold wit_submit in Hr. apply (wp_ok _ _ _ _ _ _ _ Hw) in Hr as (m & Hm & _ & Ht).
  exists m. split; [exact Hm|exact Ht].
Defined.

(** The relay chain up to its second block, the parachain's head in it, and the
    first block of the parachain *)
Definition wit_headers : list HeaderToSync :=
  [mkHeaderToSync (ref_canon 1) None; mkHeaderToSync (ref_canon 2) (Some [1; 0])].
Definition wit_block : BlockHeaderWithChanges :=
  mkBlockHeaderWithChanges (ref_pcanon 1) (mkStorageChanges [([201], None)] []).
Definition wit_genesis : TrieStorage := mkTrieStorage 200 (MemDb.default (H := ref_hasher)).
Definition wit_sync0 : Synchronizer LightValidation := Sync.new_parachain wit_light 1 1.
Definition wit_sync1 : Synchronizer LightValidation :=
  final (Sync.sync_header (prof := wit_prof) (B := light_validator (prof := wit_prof)) wit_headers None) wit_sync0.
Definition wit_sync2 : Synchronizer LightValidation :=
  final (Sync.sync_parachain_header (prof := wit_prof) (B := light_validator (prof := wit_prof))
    (ref_pcanon <$> [0; 1; 2]%nat) [[0]] ref_para_key) wit_sync1.

#[local] Existing Instance wit_prof.

Lemma wit_reach : reach (key := ref_para_key) (vs := light_validator_spec (prof := wit_prof) 1) wit_sync2 wit_genesis.
Proof.
  apply reach_para_header; [apply reach_header; [apply reach_para|]|].
  - exact wit_tracks.
  - lia.
  - split; [done|]. repeat constructor; simpl; lia.
  - split; [done|]. repeat constructor; simpl; lia.
Qed.

Lemma storage_follows_chain_witness : exists st,
  Sync.feed_block (prof := wit_prof) wit_block false (wit_sync2, wit_genesis) = Ok tt st /\ root (snd st) = 201
  /\ root (snd st) = state_root (ref_pcanon 1).
Proof.
  destruct (storage_follows_chain (prof := wit_prof) (P := ref_para) wit_sync2 wit_genesis wit_block wit_reach) as [_ Hw].
  assert (returns (Sync.feed_block (prof := wit_prof) wit_block false) (wit_sync2, wit_genesis) = true) as Hr by by vm_compute.
  apply returns_final in Hr. eexists. split; [exact Hr|].
  apply (wp_ok _ _ _ _ _ _ _ Hw) in Hr as (_ & Hroot & _).
  assert (next_block wit_sync2 = 1) as Hn by by vm_compute. rewrite Hroot, Hn. split; reflexivity.
Defined.

End SyncProps.
