(* ===== verification/Phactory.v ===== *)
(** * pRuntime's RPCs: crates/phactory/src/lib.rs and prpc_service.rs

    [Phactory], the state behind the RPC server: initialization with the
    genesis and the sealed identity key, synchronization of headers and blocks,
    dispatch of the messages of a block to the system, and the attestation of
    the worker.  [System] is an interface here; its parts are System.v and what
    it uses. *)
From stdpp Require Import prelude gmap list strings.
From Stdlib Require Import ZArith Lia.
From S2P Require Import Prelude Types Externals Registry Attestation SendQueue Dispatcher Benchmark WorkerSM Crypto GatekeeperPr MemDb LightClient StorageSync.

(** ** Data *)

(** ecall_args.rs: what is used here *)
Record InitArgs := mkInitArgs {
  init_bench : bool;
  enable_checkpoint : bool;
  checkpoint_interval : Z;
  safe_mode_level : Z;
  no_rcu : bool;
  ra_max_retries : Z;
}.

Record PersistentRuntimeData := mkPersistentRuntimeData {
  rd_genesis_block_hash : H256;
  rd_para_id : Z;
  rd_sk : bytes;
  rd_trusted_sk : bool;
  rd_dev_mode : bool;
}.

(** crates/cyrux-types/src/lib.rs *)
Record HandoverChallenge := mkHandoverChallenge {
  hc_sgx_target_info : bytes;
  hc_block_number : Z;
  hc_now : Z;
  hc_dev_mode : bool;
  hc_nonce : bytes;
}.

Record ChallengeHandlerInfo := mkChallengeHandlerInfo {
  ch_challenge : HandoverChallenge;
  ch_sgx_local_report : bytes;
  ch_ecdh_pubkey : EcdhPublicKey;
}.

Record DcapHandoverChallenge := mkDcapHandoverChallenge {
  dc_challenge : HandoverChallenge;
  dc_ntp_time_secs : Z;
}.

Record DcapChallengeHandlerInfo := mkDcapChallengeHandlerInfo {
  dh_challenge : DcapHandoverChallenge;
  dh_ecdh_pubkey : EcdhPublicKey;
}.

Record EncryptedWorkerKey := mkEncryptedWorkerKey {
  ewk_genesis_block_hash : H256;
  ewk_para_id : Z;
  ewk_dev_mode : bool;
  ewk_encrypted_key : EncryptedKey;
}.

#[export] Instance HandoverChallenge_eq_dec : EqDecision HandoverChallenge.
Proof. solve_decision. Defined.
#[export] Instance AttestationProvider_eq_dec : EqDecision AttestationProvider.
Proof. solve_decision. Defined.
#[export] Instance DcapHandoverChallenge_eq_dec : EqDecision DcapHandoverChallenge.
Proof. solve_decision. Defined.

(** [pb::Attestation]: the report and when it was made *)
Record AttestationResponse := mkAttestationResponse {
  at_provider : option AttestationProvider;
  at_encoded_report : bytes;
  at_timestamp : Z;
}.

Inductive RpcError :=
| AppError (msg : string)
| SyncFailed (e : SyncError)
| Opaque.

(** ** What the platform and the chain's storage provide *)
Class RpcCodec {cfg : Config} := {
  encode_RuntimeDataSeal : PersistentRuntimeData -> bytes;
  decode_RuntimeDataSeal : bytes -> option PersistentRuntimeData;
  encode_WorkerRegistrationInfoV2 : WorkerRegistrationInfoV2 -> bytes;
  decode_WorkerRegistrationInfoV2 : bytes -> option WorkerRegistrationInfoV2;
  encode_ChallengeHandlerInfo : ChallengeHandlerInfo -> bytes;
  encode_DcapChallengeHandlerInfo : DcapChallengeHandlerInfo -> bytes;
  decode_DcapChallengeHandlerInfo : bytes -> option DcapChallengeHandlerInfo;
  encode_EncryptedWorkerKey : EncryptedWorkerKey -> bytes;
  (** [Option<AttestationReport>] *)
  decode_AttestationReport : bytes -> option (option Attestation.AttestationReport);
}.

(** [pal::Platform]; [create_attestation_report] as the sequence of its attempts *)
Class PlatformLib := {
  app_version : Z * Z * Z;
  measurement : option bytes;
  cpu_core_num : Z;
  cpu_feature_level : Z;
  quote_test : option AttestationProvider -> bool;
  create_attestation_report : option AttestationProvider -> bytes -> Z -> option bytes;
}.

(** Storage items of the pallets, read from the trie *)
Class ChainReader := {
  read_parachain_id : TrieStorage -> Z;
  read_mq_messages : TrieStorage -> list Message;
  read_timestamp_now : TrieStorage -> Z;
  read_offchain_ingress : TrieStorage -> MessageOrigin -> option Z;
  read_pruntime_added_at : TrieStorage -> bytes -> option Z;
  read_worker_registered : TrieStorage -> WorkerPublicKey -> bool;
  read_minimum_pruntime_version : TrieStorage -> Z * Z * Z;
  read_pruntime_allow_list : TrieStorage -> list bytes;
  read_pruntime_consensus_version : TrieStorage -> Z;
}.

(** ** storage.rs: [ChainStorage] *)
Module ChainStorage.
Section ChainStorage.
Context {R : ChainReader}.

Definition para_id (s : TrieStorage) : Z := read_parachain_id s.
Definition mq_messages (s : TrieStorage) : list Message := read_mq_messages s.
Definition timestamp_now (s : TrieStorage) : Z := read_timestamp_now s.
Definition mq_sequence (s : TrieStorage) (sender : MessageOrigin) : Z := default 0 (read_offchain_ingress s sender).
Definition get_pruntime_added_at (s : TrieStorage) (runtime_hash : bytes) : option Z := read_pruntime_added_at s runtime_hash.
Definition is_worker_registered (s : TrieStorage) (worker : WorkerPublicKey) : bool := read_worker_registered s worker.
Definition minimum_pruntime_version (s : TrieStorage) : Z * Z * Z := read_minimum_pruntime_version s.
Definition pruntime_consensus_version (s : TrieStorage) : Z := read_pruntime_consensus_version s.

Definition is_pruntime_in_whitelist (s : TrieStorage) (measurement : bytes) : bool :=
  existsb (fun hash => bool_decide (take (length measurement) hash = measurement)) (read_pruntime_allow_list s).

End ChainStorage.
End ChainStorage.

(** Lexicographic [<] on versions *)
Definition version_lt (a b : Z * Z * Z) : bool :=
  let '(a1, a2, a3) := a in
  let '(b1, b2, b3) := b in
  (a1 <? b1) || ((a1 =? b1) && ((a2 <? b2) || ((a2 =? b2) && (a3 <? b3)))).

Definition MAX_SUPPORTED_CONSENSUS_VERSION : Z := 0.

(** ** What the RPCs use of [System]

    A block is processed on the system, the egress queue and the dispatcher. *)
Class SystemApi {P : PrCrypto} (Sys Effects Cluster : Type) := {
  sys_new : Pair -> Keypair -> gmap MessageOrigin Channel -> Bus -> Sys * gmap MessageOrigin Channel * Bus;
  sys_identity_key : Sys -> Pair;
  sys_ecdh_key : Sys -> Keypair;
  sys_registered : Sys -> bool;
  sys_block_number : Sys -> Z;
  sys_set_genesis_block : Z -> Sys -> Sys;
  sys_is_gatekeeper : Sys -> bool;
  sys_in_cluster : Sys -> bool;
  sys_install_cluster : Cluster -> Sys -> Sys;
  sys_will_process_block : BlockInfo -> TrieStorage -> M (Sys * gmap MessageOrigin Channel * Bus) RpcError unit;
  sys_process_messages : BlockInfo -> TrieStorage -> M (Sys * gmap MessageOrigin Channel * Bus) RpcError unit;
  sys_did_process_block : BlockInfo -> TrieStorage -> M (Sys * gmap MessageOrigin Channel * Bus) RpcError unit;
  sys_apply_side_effects : Effects -> TrieStorage -> Sys -> Sys;
}.

Record RuntimeState := mkRuntimeState {
  send_mq : gmap MessageOrigin Channel;
  recv_mq : Bus;
  storage_synchronizer : Synchronizer LightValidation;
  chain_storage : TrieStorage;
  rs_genesis_block_hash : H256;
  rs_para_id : Z;
}.

(** [InitRuntimeResponse] *)
Record RuntimeInfo := mkRuntimeInfo {
  ri_encoded_runtime_info : bytes;
  ri_genesis_block_hash : H256;
  ri_public_key : WorkerPublicKey;
  ri_ecdh_public_key : EcdhPublicKey;
  ri_attestation : option AttestationResponse;
}.

Module Phactory.
Section Phactory.
Context {prof : Profile} {cfg : Config} {codec : Codec} {P : PrCrypto} {G : Grandpa} {T : TrieLib}.
Context {rc : RpcCodec} {pal : PlatformLib} {R : ChainReader}.
Context {Sys Effects Cluster : Type} {api : SystemApi Sys Effects Cluster}.

Record ClusterState := mkClusterState {
  cs_block_number : Z;
  cs_pending_messages : list (MessageOrigin * Channel);
  cs_cluster : Cluster;
}.

(** Without the signed endpoints, the network configuration, the query scheduler
    (RequestSched.v) and the spawner of side programs, which no operation here uses *)
Record Phactory := mkPhactory {
  ph_args : InitArgs;
  ph_dev_mode : bool;
  ph_attestation_provider : option AttestationProvider;
  ph_machine_id : bytes;
  ph_runtime_info : option RuntimeInfo;
  ph_runtime_state : option RuntimeState;
  ph_system : option Sys;
  ph_endpoints : list bytes;
  ph_handover_ecdh_key : option Keypair;
  ph_handover_last_challenge : option HandoverChallenge;
  ph_dcap_handover_last_challenge : option DcapHandoverChallenge;
  ph_last_checkpoint : Z;
  ph_can_load_chain_state : bool;
  ph_trusted_sk : bool;
  ph_rcu_dispatching : bool;
  ph_pending_effects : list Effects;
  ph_cluster_state_to_apply : option ClusterState;
}.

(** The process: the state behind the lock, the statics of the benchmark, and the disk *)
Record Process := mkProcess {
  phactory : Phactory;
  proc_bench : Bench;
  proc_files : MasterKey.Files;
}.

Definition set_dev_mode (x : bool) (p : Phactory) : Phactory :=
  mkPhactory
    (ph_args p) x (ph_attestation_provider p) (ph_machine_id p) (ph_runtime_info p) (ph_runtime_state p)
    (ph_system p) (ph_endpoints p) (ph_handover_ecdh_key p) (ph_handover_last_challenge p)
    (ph_dcap_handover_last_challenge p) (ph_last_checkpoint p) (ph_can_load_chain_state p) (ph_trusted_sk p)
    (ph_rcu_dispatching p) (ph_pending_effects p) (ph_cluster_state_to_apply p).
Definition set_attestation_provider (x : option AttestationProvider) (p : Phactory) : Phactory :=
  mkPhactory
    (ph_args p) (ph_dev_mode p) x (ph_machine_id p) (ph_runtime_info p) (ph_runtime_state p) (ph_system p)
    (ph_endpoints p) (ph_handover_ecdh_key p) (ph_handover_last_challenge p)
    (ph_dcap_handover_last_challenge p) (ph_last_checkpoint p) (ph_can_load_chain_state p) (ph_trusted_sk p)
    (ph_rcu_dispatching p) (ph_pending_effects p) (ph_cluster_state_to_apply p).
Definition set_runtime_info (x : option RuntimeInfo) (p : Phactory) : Phactory :=
  mkPhactory
    (ph_args p) (ph_dev_mode p) (ph_attestation_provider p) (ph_machine_id p) x (ph_runtime_state p)
    (ph_system p) (ph_endpoints p) (ph_handover_ecdh_key p) (ph_handover_last_challenge p)
    (ph_dcap_handover_last_challenge p) (ph_last_checkpoint p) (ph_can_load_chain_state p) (ph_trusted_sk p)
    (ph_rcu_dispatching p) (ph_pending_effects p) (ph_cluster_state_to_apply p).
Definition set_runtime_state (x : option RuntimeState) (p : Phactory) : Phactory :=
  mkPhactory
    (ph_args p) (ph_dev_mode p) (ph_attestation_provider p) (ph_machine_id p) (ph_runtime_info p) x
    (ph_system p) (ph_endpoints p) (ph_handover_ecdh_key p) (ph_handover_last_challenge p)
    (ph_dcap_handover_last_challenge p) (ph_last_checkpoint p) (ph_can_load_chain_state p) (ph_trusted_sk p)
    (ph_rcu_dispatching p) (ph_pending_effects p) (ph_cluster_state_to_apply p).
Definition set_system (x : option Sys) (p : Phactory) : Phactory :=
  mkPhactory
    (ph_args p) (ph_dev_mode p) (ph_attestation_provider p) (ph_machine_id p) (ph_runtime_info p)
    (ph_runtime_state p) x (ph_endpoints p) (ph_handover_ecdh_key p) (ph_handover_last_challenge p)
    (ph_dcap_handover_last_challenge p) (ph_last_checkpoint p) (ph_can_load_chain_state p) (ph_trusted_sk p)
    (ph_rcu_dispatching p) (ph_pending_effects p) (ph_cluster_state_to_apply p).
Definition set_handover_ecdh_key (x : option Keypair) (p : Phactory) : Phactory :=
  mkPhactory
    (ph_args p) (ph_dev_mode p) (ph_attestation_provider p) (ph_machine_id p) (ph_runtime_info p)
    (ph_runtime_state p) (ph_system p) (ph_endpoints p) x (ph_handover_last_challenge p)
    (ph_dcap_handover_last_challenge p) (ph_last_checkpoint p) (ph_can_load_chain_state p) (ph_trusted_sk p)
    (ph_rcu_dispatching p) (ph_pending_effects p) (ph_cluster_state_to_apply p).
Definition set_handover_last_challenge (x : option HandoverChallenge) (p : Phactory) : Phactory :=
  mkPhactory
    (ph_args p) (ph_dev_mode p) (ph_attestation_provider p) (ph_machine_id p) (ph_runtime_info p)
    (ph_runtime_state p) (ph_system p) (ph_endpoints p) (ph_handover_ecdh_key p) x
    (ph_dcap_handover_last_challenge p) (ph_last_checkpoint p) (ph_can_load_chain_state p) (ph_trusted_sk p)
    (ph_rcu_dispatching p) (ph_pending_effects p) (ph_cluster_state_to_apply p).
Definition set_dcap_handover_last_challenge (x : option DcapHandoverChallenge) (p : Phactory) : Phactory :=
  mkPhactory
    (ph_args p) (ph_dev_mode p) (ph_attestation_provider p) (ph_machine_id p) (ph_runtime_info p)
    (ph_runtime_state p) (ph_system p) (ph_endpoints p) (ph_handover_ecdh_key p)
    (ph_handover_last_challenge p) x (ph_last_checkpoint p) (ph_can_load_chain_state p) (ph_trusted_sk p)
    (ph_rcu_dispatching p) (ph_pending_effects p) (ph_cluster_state_to_apply p).
Definition set_last_checkpoint (x : Z) (p : Phactory) : Phactory :=
  mkPhactory
    (ph_args p) (ph_dev_mode p) (ph_attestation_provider p) (ph_machine_id p) (ph_runtime_info p)
    (ph_runtime_state p) (ph_system p) (ph_endpoints p) (ph_handover_ecdh_key p)
    (ph_handover_last_challenge p) (ph_dcap_handover_last_challenge p) x (ph_can_load_chain_state p)
    (ph_trusted_sk p) (ph_rcu_dispatching p) (ph_pending_effects p) (ph_cluster_state_to_apply p).
Definition set_can_load_chain_state (x : bool) (p : Phactory) : Phactory :=
  mkPhactory
    (ph_args p) (ph_dev_mode p) (ph_attestation_provider p) (ph_machine_id p) (ph_runtime_info p)
    (ph_runtime_state p) (ph_system p) (ph_endpoints p) (ph_handover_ecdh_key p)
    (ph_handover_last_challenge p) (ph_dcap_handover_last_challenge p) (ph_last_checkpoint p) x
    (ph_trusted_sk p) (ph_rcu_dispatching p) (ph_pending_effects p) (ph_cluster_state_to_apply p).
Definition set_trusted_sk (x : bool) (p : Phactory) : Phactory :=
  mkPhactory
    (ph_args p) (ph_dev_mode p) (ph_attestation_provider p) (ph_machine_id p) (ph_runtime_info p)
    (ph_runtime_state p) (ph_system p) (ph_endpoints p) (ph_handover_ecdh_key p)
    (ph_handover_last_challenge p) (ph_dcap_handover_last_challenge p) (ph_last_checkpoint p)
    (ph_can_load_chain_state p) x (ph_rcu_dispatching p) (ph_pending_effects p) (ph_cluster_state_to_apply p).
Definition set_rcu_dispatching (x : bool) (p : Phactory) : Phactory :=
  mkPhactory
    (ph_args p) (ph_dev_mode p) (ph_attestation_provider p) (ph_machine_id p) (ph_runtime_info p)
    (ph_runtime_state p) (ph_system p) (ph_endpoints p) (ph_handover_ecdh_key p)
    (ph_handover_last_challenge p) (ph_dcap_handover_last_challenge p) (ph_last_checkpoint p)
    (ph_can_load_chain_state p) (ph_trusted_sk p) x (ph_pending_effects p) (ph_cluster_state_to_apply p).
Definition set_pending_effects (x : list Effects) (p : Phactory) : Phactory :=
  mkPhactory
    (ph_args p) (ph_dev_mode p) (ph_attestation_provider p) (ph_machine_id p) (ph_runtime_info p)
    (ph_runtime_state p) (ph_system p) (ph_endpoints p) (ph_handover_ecdh_key p)
    (ph_handover_last_challenge p) (ph_dcap_handover_last_challenge p) (ph_last_checkpoint p)
    (ph_can_load_chain_state p) (ph_trusted_sk p) (ph_rcu_dispatching p) x (ph_cluster_state_to_apply p).
Definition set_cluster_state_to_apply (x : option ClusterState) (p : Phactory) : Phactory :=
  mkPhactory
    (ph_args p) (ph_dev_mode p) (ph_attestation_provider p) (ph_machine_id p) (ph_runtime_info p)
    (ph_runtime_state p) (ph_system p) (ph_endpoints p) (ph_handover_ecdh_key p)
    (ph_handover_last_challenge p) (ph_dcap_handover_last_challenge p) (ph_last_checkpoint p)
    (ph_can_load_chain_state p) (ph_trusted_sk p) (ph_rcu_dispatching p) (ph_pending_effects p) x.

Abbreviation RPC := (M Process RpcError).

Definition get {A} (f : Phactory -> A) : RPC A := gets (fun s => f (phactory s)).
Definition update (f : Phactory -> Phactory) : RPC unit :=
  modify (fun s => mkProcess (f (phactory s)) (proc_bench s) (proc_files s)).

(** [self.runtime_state()?] and [self.system()?] *)
Definition runtime_state : RPC RuntimeState :=
  let* s := get ph_runtime_state in ok_or s (AppError "Runtime not initialized").
Definition system : RPC Sys :=
  let* s := get ph_system in ok_or s (AppError "Runtime not initialized").

Definition put_state (x : RuntimeState) : RPC unit := update (set_runtime_state (Some x)).

Definition with_synchronizer (y : Synchronizer LightValidation) (x : RuntimeState) : RuntimeState :=
  mkRuntimeState (send_mq x) (recv_mq x) y (chain_storage x) (rs_genesis_block_hash x) (rs_para_id x).
Definition with_storage (t : TrieStorage) (x : RuntimeState) : RuntimeState :=
  mkRuntimeState (send_mq x) (recv_mq x) (storage_synchronizer x) t (rs_genesis_block_hash x) (rs_para_id x).
Definition with_mq (q : gmap MessageOrigin Channel) (b : Bus) (x : RuntimeState) : RuntimeState :=
  mkRuntimeState q b (storage_synchronizer x) (chain_storage x) (rs_genesis_block_hash x) (rs_para_id x).

(** A call of the synchronizer *)
Definition on_synchronizer {A} (m : M (Synchronizer LightValidation) SyncError A) : RPC A :=
  let* x := runtime_state in
  match m (storage_synchronizer x) with
  | Ok a y => put_state (with_synchronizer y x);;; mret a
  | Err e y => put_state (with_synchronizer y x);;; fail (SyncFailed e)
  | Panic => panic
  | NoFuel => fun _ => NoFuel
  end.

(** The same with the chain's storage *)
Definition on_storage {A} (m : M (Synchronizer LightValidation * TrieStorage) SyncError A) : RPC A :=
  let* x := runtime_state in
  match m (storage_synchronizer x, chain_storage x) with
  | Ok a (y, t) => put_state (with_storage t (with_synchronizer y x));;; mret a
  | Err e (y, t) => put_state (with_storage t (with_synchronizer y x));;; fail (SyncFailed e)
  | Panic => panic
  | NoFuel => fun _ => NoFuel
  end.

Definition current_block : RPC (Z * Z) :=
  let* x := runtime_state in
  let now_ms := ChainStorage.timestamp_now (chain_storage x) in
  let block := Z.max 0 (next_block_number (Sync.counters (storage_synchronizer x)) - 1) in
  mret (block, now_ms).

(** ** Synchronization *)
Definition sync_header (headers : list HeaderToSync) (change : option AuthoritySetChange) : RPC Z :=
  update (set_can_load_chain_state false);;;
  on_synchronizer (Sync.sync_header headers change).

(** [Paras.Heads] of the parachain *)
Definition heads_key (para_id : Z) : bytes :=
  LightClient.storage_map_prefix_twox_64_concat (bytes_of_string "Paras") (bytes_of_string "Heads") (encode_u32 para_id).

Definition sync_para_header (headers : list Header) (proof : StorageProof) : RPC Z :=
  let* x := runtime_state in
  on_synchronizer (Sync.sync_parachain_header headers proof (heads_key (rs_para_id x))).

Definition sync_combined_headers (relaychain_headers : list HeaderToSync) (change : option AuthoritySetChange)
    (parachain_headers : list Header) (proof : StorageProof) : RPC (Z * Z) :=
  let* relaychain_synced_to := sync_header relaychain_headers change in
  let* parachain_synced_to :=
    (if bool_decide (parachain_headers = []) then
       let* x := runtime_state in
       arith 32 (next_para_header_number (Sync.counters (storage_synchronizer x)) - 1)
     else sync_para_header parachain_headers proof) in
  mret (relaychain_synced_to, parachain_synced_to).

(** [RuntimeState::purge_mq] *)
Definition purge_mq : RPC unit :=
  let* x := runtime_state in
  match SendQueue.purge (E := RpcError) (ChainStorage.mq_sequence (chain_storage x)) (send_mq x) with
  | Ok _ q => put_state (with_mq q (recv_mq x) x)
  | Err e q => put_state (with_mq q (recv_mq x) x);;; fail e
  | Panic => panic
  | NoFuel => fun _ => NoFuel
  end.

(** [std::process::abort()] when this version is too old for the chain *)
Definition check_requirements : RPC unit :=
  let* o := get ph_runtime_state in
  let* x := expect_some o in
  let ver := app_version in
  let min_version := ChainStorage.minimum_pruntime_version (chain_storage x) in
  let measurement := default (replicate 32 0) measurement in
  let in_whitelist := ChainStorage.is_pruntime_in_whitelist (chain_storage x) measurement in
  (if version_lt ver min_version && negb in_whitelist then panic else mret tt);;;
  (if MAX_SUPPORTED_CONSENSUS_VERSION <? ChainStorage.pruntime_consensus_version (chain_storage x) then panic
   else mret tt).

(** ** The messages of a block *)
Abbreviation Core := (Sys * gmap MessageOrigin Channel * Bus)%type.

Definition on_bus {A} (m : M Bus RpcError A) : M Core RpcError A := fun c =>
  match m (snd c) with
  | Ok a b => Ok a (fst c, b)
  | Err e b => Err e (fst c, b)
  | Panic => Panic
  | NoFuel => NoFuel
  end.

Definition process_block (block : BlockInfo) (storage : TrieStorage) : M Core RpcError unit :=
  on_bus Dispatcher.reset_local_index;;;
  sys_will_process_block block storage;;;
  for_each (ChainStorage.mq_messages storage) (fun message =>
    let* _ := on_bus (Dispatcher.dispatch message) in
    sys_process_messages block storage);;;
  sys_did_process_block block storage;;;
  let* _ := on_bus Dispatcher.clear in
  mret tt.

Definition on_core (m : M Core RpcError unit) : RPC unit :=
  let* x := runtime_state in
  let* s := system in
  match m (s, send_mq x, recv_mq x) with
  | Ok _ (s', q, b) => put_state (with_mq q b x);;; update (set_system (Some s'))
  | Err e (s', q, b) => put_state (with_mq q b x);;; update (set_system (Some s'));;; fail e
  | Panic => panic
  | NoFuel => fun _ => NoFuel
  end.

Definition handle_inbound_messages (block_number sys_time : Z) : RPC unit :=
  let* x := runtime_state in
  let now_ms := ChainStorage.timestamp_now (chain_storage x) in
  on_core (process_block (mkBlockInfo block_number now_ms) (chain_storage x));;;
  let block_time := now_ms / 1000 in
  let* limit := arith 64 (block_time + 3600) in
  modify (fun s => mkProcess (phactory s) (Benchmark.set_flag SYNCING (limit <=? sys_time) (proc_bench s)) (proc_files s)).

(** ** Checkpoints

    [take_checkpoint] writes files and notes the time; [clock] is the time it
    starts at.  An error of it is logged by both callers. *)
Definition take_checkpoint (clock : Z) : RPC Z :=
  let* a := get ph_args in
  ensure (negb (0 <? safe_mode_level a)) (AppError "Checkpoint is disabled in safe mode");;;
  let* b := current_block in
  let* _ := system in
  let* files := gets proc_files in
  ensure (MasterKey.io_ok files) Opaque;;;
  update (set_last_checkpoint clock);;;
  mret (fst b).

Definition maybe_take_checkpoint (clock : Z) : RPC unit :=
  let* a := get ph_args in
  if negb (enable_checkpoint a) then mret tt
  else
    let* last := get ph_last_checkpoint in
    if clock - last <? checkpoint_interval a then mret tt
    else let* _ := take_checkpoint clock in mret tt.

Definition maybe_apply_cluster_state (clock : Z) : RPC unit :=
  let* p := get (fun p => p) in
  match ph_system p, ph_runtime_state p with
  | Some sys, Some x =>
      match ph_cluster_state_to_apply p with
      | None => mret tt
      | Some cluster_state =>
          update (set_cluster_state_to_apply None);;;
          if sys_is_gatekeeper sys then mret tt
          else if sys_in_cluster sys then mret tt
          else if negb (cs_block_number cluster_state =? sys_block_number sys) then
            update (set_cluster_state_to_apply (Some cluster_state))
          else
            update (set_system (Some (sys_install_cluster (cs_cluster cluster_state) sys)));;;
            put_state (with_mq (foldl (fun q e => <[fst e := snd e]> q) (send_mq x) (cs_pending_messages cluster_state))
                         (recv_mq x) x);;;
            let* _ := catch (take_checkpoint clock) in
            mret tt
      end
  | _, _ => mret tt
  end.

(** ** Blocks *)
Definition dispatch_block (sys_time clock : Z) (block : BlockHeaderWithChanges) : RPC unit :=
  let* a := get ph_args in
  let drop_proofs := 1 <? safe_mode_level a in
  on_storage (Sync.feed_block block drop_proofs);;;
  if 0 <? safe_mode_level a then mret tt
  else
    purge_mq;;;
    let* _ := system in
    check_requirements;;;
    handle_inbound_messages (number (block_header block)) sys_time;;;
    maybe_apply_cluster_state clock;;;
    let* _ := catch (maybe_take_checkpoint clock) in
    mret tt.

(** [sys_time] and [clock] are the readings of the two clocks. *)
Definition dispatch_blocks (sys_time clock : Z) (blocks : list BlockHeaderWithChanges) : RPC Z :=
  let* x := runtime_state in
  let next := next_block_number (Sync.counters (storage_synchronizer x)) in
  let blocks := filter (fun b => next <= number (block_header b)) blocks in
  let* synced := arith 32 (next - 1) in
  let last_block := default synced ((fun b => number (block_header b)) <$> last blocks) in
  for_each blocks (dispatch_block sys_time clock);;;
  mret last_block.

(** ** The sealed identity: lib.rs *)
Definition save_runtime_data (genesis_block_hash : H256) (para_id : Z) (sr25519_sk : Pair) (trusted_sk dev_mode : bool) :
    RPC PersistentRuntimeData :=
  let data := mkPersistentRuntimeData genesis_block_hash para_id (Crypto.dump_secret_key sr25519_sk) trusted_sk dev_mode in
  let* files := gets proc_files in
  ensure (MasterKey.io_ok files) Opaque;;;
  modify (fun s => mkProcess (phactory s) (proc_bench s)
    (MasterKey.mkFiles (MasterKey.io_ok files) (Some (encode_RuntimeDataSeal data))));;;
  mret data.

(** [None] is [PersistentRuntimeNotFound]. *)
Definition load_runtime_data : RPC (option PersistentRuntimeData) :=
  let* files := gets proc_files in
  ensure (MasterKey.io_ok files) Opaque;;;
  match MasterKey.sealed files with
  | None => mret None
  | Some data => let* d := ok_or (decode_RuntimeDataSeal data) Opaque in mret (Some d)
  end.

Definition persistent_runtime_data : RPC PersistentRuntimeData :=
  let* d := load_runtime_data in ok_or d Opaque.

(** [new_key] is the key generated when there is none. *)
Definition init_runtime_data (genesis_block_hash : H256) (para_id : Z) (predefined_identity_key : option Pair)
    (new_key : Pair) : RPC PersistentRuntimeData :=
  let* data :=
    match predefined_identity_key with
    | Some identity_sk => save_runtime_data genesis_block_hash para_id identity_sk false true
    | None =>
        let* d := load_runtime_data in
        match d with
        | Some data => mret data
        | None => save_runtime_data genesis_block_hash para_id new_key true false
        end
    end in
  ensure (genesis_block_hash =? rd_genesis_block_hash data)
    (AppError "Genesis block hash mismatches with saved keys");;;
  ensure (para_id =? rd_para_id data) (AppError "Parachain id mismatches");;;
  mret data.

(** A computation of the key library *)
Definition crypto {A} (m : M Process CryptoError A) : RPC A := fun s =>
  match m s with
  | Ok a s => Ok a s
  | Err _ s => Err Opaque s
  | Panic => Panic
  | NoFuel => NoFuel
  end.

(** [PersistentRuntimeData::decode_keys] *)
Definition decode_keys (data : PersistentRuntimeData) : RPC (Pair * Keypair) :=
  let* identity_sk := crypto (Crypto.restore_from_secret_key (rd_sk data)) in
  let* ecdh_key := crypto (Crypto.derive_ecdh_key identity_sk) in
  mret (identity_sk, ecdh_key).

Definition shl32 (a n : Z) : Z := Z.shiftl a n mod 2 ^ 32.

Definition compat_app_version : RPC Z :=
  let '(major, minor, patch) := app_version in
  let* a := arith 32 (shl32 major 16 + shl32 minor 8) in
  arith 32 (a + patch).

(** A call that takes no part of the process *)
Definition local {S E A} (e : RpcError) (m : M S E A) (s0 : S) : RPC (A * S) :=
  match m s0 with
  | Ok a s => mret (a, s)
  | Err _ _ => fail e
  | Panic => panic
  | NoFuel => fun _ => NoFuel
  end.

Definition init_runtime (is_parachain : bool) (genesis : GenesisBlockInfo) (genesis_state : list (bytes * bytes))
    (operator : option AccountId) (debug_set_key : option bytes) (provider : option AttestationProvider)
    (new_key : Pair) : RPC RuntimeInfo :=
  let* running := get ph_system in
  match running with
  | Some _ => fail (AppError "Runtime already initialized")
  | None =>
      let genesis_block_hash := header_hash (gen_block_header genesis) in
      let* st := local Opaque (TrieStorage.load (E := RpcError) genesis_state) TrieStorage.default in
      let storage := snd st in
      let para_id := ChainStorage.para_id storage in
      let* rt_data :=
        match debug_set_key with
        | Some raw_key =>
            let* priv_key := ok_or (pair_from_seed_slice raw_key) Opaque in
            init_runtime_data genesis_block_hash para_id (Some priv_key) new_key
        | None => init_runtime_data genesis_block_hash para_id None new_key
        end in
      update (set_dev_mode (rd_dev_mode rt_data));;;
      update (set_trusted_sk (rd_trusted_sk rt_data));;;
      update (set_attestation_provider provider);;;
      ensure (negb (rd_dev_mode rt_data && bool_decide (is_Some provider)))
        (AppError "RA is disallowed when debug_set_key is enabled");;;
      ensure (quote_test provider) Opaque;;;
      let* keys := decode_keys rt_data in
      let '(identity_key, ecdh_key) := keys in
      let ecdsa_pk := pair_public identity_key in
      let ecdh_pubkey := keypair_public ecdh_key in
      let* next_headernum := arith 32 (number (gen_block_header genesis) + 1) in
      let* bridge := expect_ok (local Opaque (LightClient.initialize_bridge (gen_block_header genesis)
        (gen_authority_set genesis) (gen_proof genesis)) LightClient.new) in
      let '(main_bridge, light_client) := bridge in
      let synchronizer := if is_parachain then Sync.new_parachain light_client main_bridge next_headernum
                          else Sync.new_solochain light_client main_bridge in
      ensure (is_parachain || (root storage =? state_root (gen_block_header genesis))) (AppError "state root mismatch");;;
      let '(sys, q, b) := sys_new identity_key ecdh_key ∅ (mkBus [] (mkMessageDispatcher ∅ 0)) in
      let* version := compat_app_version in
      let* machine := get ph_machine_id in
      let runtime_info := mkWorkerRegistrationInfoV2
        (mkWorkerRegistrationInfo version machine ecdsa_pk ecdh_pubkey genesis_block_hash
           [cpu_core_num; cpu_feature_level] operator) para_id MAX_SUPPORTED_CONSENSUS_VERSION in
      let resp := mkRuntimeInfo (encode_WorkerRegistrationInfoV2 runtime_info) genesis_block_hash ecdsa_pk ecdh_pubkey None in
      update (set_runtime_info (Some resp));;;
      put_state (mkRuntimeState q b synchronizer storage genesis_block_hash para_id);;;
      update (set_system (Some sys));;;
      mret resp
  end.

(** ** Attestation *)
Definition allow_attestation (p : Phactory) : bool :=
  match ph_system p, ph_runtime_state p with
  | Some sys, Some x =>
      let validated_identity_key := ph_trusted_sk p || sys_registered sys in
      let validated_state := Sync.state_validated (storage_synchronizer x) in
      validated_state && (validated_identity_key || bool_decide (ph_attestation_provider p = None))
  | _, _ => false
  end.

(** The attempts from [tried] on; [1 << tried] has 64 bits. *)
Fixpoint report_attempts (retries : nat) (tried : Z) (provider : option AttestationProvider) (data : bytes) : RPC bytes :=
  match create_attestation_report provider data tried with
  | Some r => mret r
  | None =>
      match retries with
      | O => fail Opaque
      | S retries =>
          if (64 <=? tried) && overflow_checks then panic
          else report_attempts retries (tried + 1) provider data
      end
  end.

Definition create_attestation_report_on (provider : option AttestationProvider) (data : bytes) (now : Z) :
    RPC AttestationResponse :=
  let* a := get ph_args in
  let* encoded_report := report_attempts (Z.to_nat (ra_max_retries a)) 0 provider data in
  mret (mkAttestationResponse provider encoded_report now).

Definition update_runtime_info (f : WorkerRegistrationInfo -> WorkerRegistrationInfo) : RPC unit :=
  let* o := get ph_runtime_info in
  match o with
  | None => mret tt
  | Some resp =>
      let* info := expect_some (decode_WorkerRegistrationInfoV2 (ri_encoded_runtime_info resp)) in
      let* version := compat_app_version in
      let i := wr_info info in
      let i := f (mkWorkerRegistrationInfo version (wr_machine_id i) (wr_pubkey i) (wr_ecdh_pubkey i)
                    (wr_genesis_block_hash i) (wr_features i) (wr_operator i)) in
      let info := mkWorkerRegistrationInfoV2 i (Types.para_id info) MAX_SUPPORTED_CONSENSUS_VERSION in
      update (set_runtime_info (Some (mkRuntimeInfo (encode_WorkerRegistrationInfoV2 info) (ri_genesis_block_hash resp)
        (ri_public_key resp) (ri_ecdh_public_key resp) None)))
  end.

Definition set_operator (operator : option AccountId) (i : WorkerRegistrationInfo) : WorkerRegistrationInfo :=
  mkWorkerRegistrationInfo (wr_version i) (wr_machine_id i) (wr_pubkey i) (wr_ecdh_pubkey i)
    (wr_genesis_block_hash i) (wr_features i) operator.

Definition with_attestation (a : option AttestationResponse) (r : RuntimeInfo) : RuntimeInfo :=
  mkRuntimeInfo (ri_encoded_runtime_info r) (ri_genesis_block_hash r) (ri_public_key r) (ri_ecdh_public_key r) a.

Definition MAX_ATTESTATION_AGE : Z := 60 * 60.

Definition get_runtime_info (refresh_ra : bool) (operator : option AccountId) (now : Z) : RPC RuntimeInfo :=
  let* _ := system in
  let* _ := runtime_state in
  let* allowed := get allow_attestation in
  let reset_operator := bool_decide (is_Some operator) in
  (if reset_operator then update_runtime_info (set_operator operator) else mret tt);;;
  let* o := get ph_runtime_info in
  let* cached := ok_or o (AppError "Uninitiated runtime info") in
  let* cached :=
    match ri_attestation cached with
    | None => mret cached
    | Some a =>
        (** [||] stops at the first true *)
        let* stale := (if refresh_ra || reset_operator then mret true
                       else let* limit := arith 64 (at_timestamp a + MAX_ATTESTATION_AGE) in mret (limit <? now)) in
        if stale then
          update (set_runtime_info (Some (with_attestation None cached)));;;
          mret (with_attestation None cached)
        else mret cached
    end in
  if allowed && bool_decide (ri_attestation cached = None) then
    let* provider := get ph_attestation_provider in
    let hash := h256_bytes (blake2_256 (ri_encoded_runtime_info cached)) in
    let* report := create_attestation_report_on provider hash now in
    update (set_runtime_info (Some (with_attestation (Some report) cached)));;;
    mret (with_attestation (Some report) cached)
  else mret cached.

(** ** State loaded by the operator *)
Definition load_chain_state (block : Z) (pairs : list (bytes * bytes)) : RPC unit :=
  let* p := get (fun p => p) in
  ensure (ph_can_load_chain_state p) (AppError "Can not load chain state");;;
  ensure (negb (block =? 0)) (AppError "Can not load chain state from block 0");;;
  let* sys := ok_or (ph_system p) (AppError "System is uninitialized") in
  let* x := ok_or (ph_runtime_state p) (AppError "Runtime is uninitialized") in
  let* st := local Opaque (TrieStorage.load (E := RpcError) pairs) TrieStorage.default in
  let storage := snd st in
  ensure (ChainStorage.para_id storage =? rs_para_id x) (AppError "Loading different parachain state");;;
  ensure (negb (ChainStorage.is_worker_registered storage (pair_public (sys_identity_key sys))))
    (AppError "Failed to load state: the worker is already registered");;;
  on_synchronizer (Sync.assume_at_block block);;;
  let* x := runtime_state in
  put_state (with_storage storage x);;;
  update (set_system (Some (sys_set_genesis_block block sys)));;;
  update (set_can_load_chain_state false).

Definition load_storage_proof (proof : list bytes) : RPC unit :=
  let* a := get ph_args in
  ensure (negb (safe_mode_level a <? 2)) (AppError "Can not load storage proof when safe_mode_level < 2");;;
  let* x := runtime_state in
  let* st := local Opaque (TrieStorage.load_proof (E := RpcError) proof) (chain_storage x) in
  put_state (with_storage (snd st) x).

(** ** Side effects of queries *)
Definition MAX_PENDING : nat := 64.

Definition apply_side_effects (effects : Effects) : RPC unit :=
  let* p := get (fun p => p) in
  if ph_rcu_dispatching p then
    if Nat.leb MAX_PENDING (length (ph_pending_effects p)) then mret tt
    else update (set_pending_effects (ph_pending_effects p ++ [effects]))
  else
    match ph_runtime_state p, ph_system p with
    | Some x, Some sys => update (set_system (Some (sys_apply_side_effects effects (chain_storage x) sys)))
    | _, _ => mret tt
    end.

(** ** The lock *)
Definition lock_phactory (allow_rcu allow_safemode : bool) : RPC unit :=
  let* p := get (fun p => p) in
  ensure (allow_rcu || negb (ph_rcu_dispatching p)) (AppError "RCU in progress, please try the request again later");;;
  ensure (allow_safemode || negb (0 <? safe_mode_level (ph_args p))) (AppError "This RPC is disabled in safe mode").

(** [dispatch_blocks] of the RPC server without holding the lock: the state is
    cloned, the blocks are dispatched on the clone, the clone is put back.
    What it returns: the blocks were dispatched under the lock, or a clone *)
Definition rcu_begin (sys_time clock : Z) (blocks : list BlockHeaderWithChanges) : RPC (Z + Phactory) :=
  lock_phactory false true;;;
  let* p := get (fun p => p) in
  let* b := gets proc_bench in
  if no_rcu (ph_args p) || Benchmark.check_flag SYNCING b then
    let* n := dispatch_blocks sys_time clock blocks in
    mret (inl n)
  else
    update (set_rcu_dispatching true);;;
    mret (inr p).

(** [clone] after its dispatch replaces the state; the effects queries had in
    the meantime are applied to it. *)
Definition rcu_finish (clone : Phactory) : RPC unit :=
  let* pending := get ph_pending_effects in
  update (fun _ => clone);;;
  for_each pending apply_side_effects.

(** The RPC; [during] is what other RPCs do between the two locks.  The dispatch
    of the clone works on the statics and the disk of the process. *)
Definition rpc_dispatch_blocks (sys_time clock : Z) (blocks : list BlockHeaderWithChanges) (during : RPC unit) : RPC Z :=
  let* r := rcu_begin sys_time clock blocks in
  match r with
  | inl synced_to => mret synced_to
  | inr clone =>
      during;;;
      fun s =>
      let back s' := mkProcess (phactory s) (proc_bench s') (proc_files s') in
      match dispatch_blocks sys_time clock blocks (mkProcess clone (proc_bench s) (proc_files s)) with
      | Ok synced_to s' => (rcu_finish (phactory s');;; mret synced_to) (back s')
      | Err e s' => (rcu_finish (phactory s');;; fail e) (back s')
      | Panic => Panic
      | NoFuel => NoFuel
      end
  end.

(** ** RPCs that synchronize, with their locks, and what queries leave behind *)
Inductive Rpc :=
| SyncHeader (headers : list HeaderToSync) (change : option AuthoritySetChange)
| SyncParaHeader (headers : list Header) (proof : StorageProof)
| SyncCombinedHeaders (relaychain_headers : list HeaderToSync) (change : option AuthoritySetChange)
    (parachain_headers : list Header) (proof : StorageProof)
| DispatchBlocks (sys_time clock : Z) (blocks : list BlockHeaderWithChanges) (meanwhile : list Effects)
| GetRuntimeInfo (refresh_ra : bool) (operator : option AccountId) (now : Z)
| ContractQuery (effects : Effects).

Definition query_effects (effects : Effects) : RPC unit :=
  lock_phactory true false;;; apply_side_effects effects.

Definition serve (r : Rpc) : RPC unit :=
  match r with
  | SyncHeader headers change =>
      lock_phactory false true;;; let* _ := sync_header headers change in mret tt
  | SyncParaHeader headers proof =>
      lock_phactory false true;;; let* _ := sync_para_header headers proof in mret tt
  | SyncCombinedHeaders relay change para proof =>
      lock_phactory false true;;; let* _ := sync_combined_headers relay change para proof in mret tt
  | DispatchBlocks sys_time clock blocks meanwhile =>
      let* _ := rpc_dispatch_blocks sys_time clock blocks (for_each meanwhile query_effects) in mret tt
  | GetRuntimeInfo refresh_ra operator now =>
      lock_phactory true false;;; let* _ := get_runtime_info refresh_ra operator now in mret tt
  | ContractQuery effects => query_effects effects
  end.

End Phactory.
End Phactory.
