(* ===== verification/Handover.v ===== *)
(** * Handover of a worker's key: crates/phactory/src/prpc_service.rs

    A worker that is replaced by a new version of pRuntime on the same machine
    sends its identity key to it: a challenge of the old worker, the answer of the
    new one with its attestation, the encrypted key, its reception.  One protocol
    for EPID attestation and one for DCAP.  Local attestation is
    crates/sgx-api-lite; the instructions of the processor are parameters. *)
From stdpp Require Import prelude gmap list strings.
From Stdlib Require Import ZArith Lia.
From S2P Require Import Prelude Types Externals Registry Attestation SendQueue Dispatcher Benchmark WorkerSM Crypto GatekeeperPr MemDb LightClient StorageSync Phactory.

(** ** sgx-api-lite *)
Record ReportBody := mkReportBody {
  rb_quote : Quote;
  (** attributes, misc select, configuration id and version: 86 bytes *)
  rb_config : bytes;
}.

Record Report := mkReport {
  body : ReportBody;
  key_id : bytes;
  mac : bytes;
}.

Record TargetInfo := mkTargetInfo {
  ti_mr_enclave : bytes;
  ti_config : bytes;
}.

(** The enclave a process runs in: EREPORT, EGETKEY of a report key, AES-CMAC,
    and the layout of the structures in memory *)
Class Sgx := {
  sgx_report : TargetInfo -> bytes -> option Report;
  sgx_getkey : bytes -> option bytes;
  cmac : bytes -> bytes -> bytes;
  body_bytes : ReportBody -> bytes;
  encode_report : Report -> bytes;
  decode_report : bytes -> option Report;
  encode_target_info : TargetInfo -> bytes;
  decode_target_info : bytes -> option TargetInfo;
}.

Module SgxLite.
Section SgxLite.
Context {sgx : Sgx}.

Definition target_info_from_report (report : Report) : TargetInfo :=
  mkTargetInfo (mr_enclave (rb_quote (body report))) (rb_config (body report)).

Definition zero_target : TargetInfo := mkTargetInfo (replicate 32 0) (replicate 86 0).

Definition target_info : option TargetInfo := target_info_from_report <$> sgx_report zero_target (replicate 64 0).

Definition report (remote_target_info : TargetInfo) (reportdata : bytes) : option Report :=
  sgx_report remote_target_info reportdata.

Definition verify (r : Report) : bool :=
  match sgx_getkey (key_id r) with
  | None => false
  | Some key => bool_decide (cmac key (body_bytes (body r)) = mac r)
  end.

End SgxLite.
End SgxLite.

Module Handover.
Import Phactory.
Section Handover.
Context {prof : Profile} {cfg : Config} {codec : Codec} {P : PrCrypto} {G : Grandpa} {T : TrieLib}.
Context {rc : RpcCodec} {pal : PlatformLib} {R : ChainReader} {sa : SgxAttestation} {sgx : Sgx}.
Context {Sys Effects Cluster : Type} {api : SystemApi Sys Effects Cluster}.
Abbreviation RPC := (M (Process (Sys := Sys) (Effects := Effects) (Cluster := Cluster)) RpcError).

Definition hash_bytes (data : bytes) : bytes := h256_bytes (blake2_256 data).

(** [report_data[..32]] of 64 bytes *)
Definition report_data_of (hash : bytes) : bytes := hash ++ replicate 32 0.

Definition measurement_of (r : Report) : bytes := Attestation.extend_mrenclave (rb_quote (body r)).

(** ** Challenges: [nonce] is drawn by the caller *)
Definition challenge_target (dev_mode : bool) : RPC bytes :=
  if dev_mode then mret []
  else let* t := expect_some SgxLite.target_info in mret (encode_target_info t).

Definition get_worker_key_challenge (block_number now : Z) (nonce : bytes) : RPC HandoverChallenge :=
  let* dev_mode := get ph_dev_mode in
  let* sgx_target_info := challenge_target dev_mode in
  let challenge := mkHandoverChallenge sgx_target_info block_number now dev_mode nonce in
  update (set_handover_last_challenge (Some challenge));;;
  mret challenge.

Definition get_dcap_worker_key_challenge (block_number now ntp_time_secs : Z) (nonce : bytes) :
    RPC DcapHandoverChallenge :=
  let* dev_mode := get ph_dev_mode in
  let* sgx_target_info := challenge_target dev_mode in
  let challenge := mkDcapHandoverChallenge (mkHandoverChallenge sgx_target_info block_number now dev_mode nonce)
    ntp_time_secs in
  update (set_dcap_handover_last_challenge (Some challenge));;;
  mret challenge.

(** A challenge is taken by its first use. *)
Definition verify_worker_key_challenge (challenge : HandoverChallenge) : RPC bool :=
  let* last := get ph_handover_last_challenge in
  update (set_handover_last_challenge None);;;
  mret (bool_decide (last = Some challenge)).

Definition dcap_verify_worker_key_challenge (challenge : DcapHandoverChallenge) : RPC bool :=
  let* last := get ph_dcap_handover_last_challenge in
  update (set_dcap_handover_last_challenge None);;;
  mret (bool_decide (last = Some challenge)).

Definition handover_create_challenge (nonce : bytes) : RPC HandoverChallenge :=
  lock_phactory false true;;;
  let* b := current_block in
  get_worker_key_challenge (fst b) (snd b) nonce.

(** ** The server *)

(** The client's report, checked unless the server has no EPID attestation *)
Definition check_client_report (checked : bool) (handler : ChallengeHandlerInfo) (attestation : option bytes)
    (block_sec : Z) : RPC (option Attestation.AttestationReport) :=
  if checked then
    let payload_hash := hash_bytes (encode_ChallengeHandlerInfo handler) in
    let* raw := ok_or attestation (AppError "Client attestation not found") in
    let* attn := ok_or (decode_AttestationReport raw) (AppError "Decode client attestation failed") in
    match Attestation.validate attn payload_hash block_sec false [] false with
    | inr _ => mret attn
    | inl _ => fail (AppError "Invalid client RA report")
    end
  else mret None.

(** The report made for this enclave on this machine *)
Definition check_local_report (encoded : bytes) : RPC Report :=
  let* r := ok_or (decode_report encoded) (AppError "Invalid client LA report") in
  ensure (SgxLite.verify r) (AppError "No remote handover");;;
  mret r.

(** When the chain allowed a version of pRuntime *)
Definition added_at (storage : TrieStorage) (runtime_hash : bytes) (msg : string) : RPC Z :=
  ok_or (ChainStorage.get_pruntime_added_at storage runtime_hash) (AppError msg).

(** Never to a version that is not newer *)
Definition check_runtime_age (my_runtime_timestamp req_runtime_timestamp : Z) : RPC unit :=
  ensure (negb (req_runtime_timestamp <=? my_runtime_timestamp)) (AppError "No handover for old pRuntime").

(** The runtime hash of the client *)
Definition attested_hash (attestation : option Attestation.AttestationReport) : RPC bytes :=
  let* a := ok_or attestation (AppError "Client attestation not found") in
  match a with
  | Attestation.SgxIas ra_report _ _ =>
      match Attestation.from_ias_report ra_report with
      | inr (fields, _) => mret (Attestation.extend_mrenclave (Attestation.if_quote fields))
      | inl _ => fail (AppError "Invalid client RA report")
      end
  | Attestation.SgxDcap _ _ => panic
  end.

Definition check_newer (storage : TrieStorage) (attestation : option Attestation.AttestationReport) : RPC unit :=
  let* target_info := expect_some SgxLite.target_info in
  let* my_la_report := ok_or (SgxLite.report target_info (replicate 64 0)) (AppError "Cannot read server pRuntime info") in
  let my_hash := measurement_of my_la_report in
  let* my_runtime_timestamp := added_at storage my_hash "Server pRuntime not allowed on chain" in
  let* runtime_hash := attested_hash attestation in
  let* req_runtime_timestamp := added_at storage runtime_hash "Client pRuntime not allowed on chain" in
  check_runtime_age my_runtime_timestamp req_runtime_timestamp.

(** The identity key, encrypted to the client's key *)
Definition share_key (ecdh_pubkey : EcdhPublicKey) (iv : bytes) : RPC EncryptedWorkerKey :=
  let* runtime_data := persistent_runtime_data in
  let* keys := decode_keys runtime_data in
  let my_identity_key := fst keys in
  let* e := crypto (Crypto.encrypt_secret_to my_identity_key [bytes_of_string "worker_key_handover"] ecdh_pubkey
    (Crypto.dump_secret_key my_identity_key) iv) in
  let* x := runtime_state in
  let* dev_mode := get ph_dev_mode in
  mret (mkEncryptedWorkerKey (rs_genesis_block_hash x) (rs_para_id x) dev_mode (mkEncryptedKey (fst e) (snd e) iv)).

Definition handover_start (handler : option ChallengeHandlerInfo) (attestation : option bytes) (iv : bytes) (now : Z) :
    RPC (EncryptedWorkerKey * option AttestationResponse) :=
  lock_phactory false true;;;
  let* attestation_provider := get ph_attestation_provider in
  let* dev_mode := get ph_dev_mode in
  let in_sgx := bool_decide (attestation_provider = Some Ias) in
  let checked := negb dev_mode && in_sgx in
  let* b := current_block in
  let '(block_number, now_ms) := b in
  let* challenge_handler := ok_or handler Opaque in
  let block_sec := now_ms / 1000 in
  let* attn := check_client_report checked challenge_handler attestation block_sec in
  let challenge := ch_challenge challenge_handler in
  let* fresh := verify_worker_key_challenge challenge in
  ensure fresh (AppError "Invalid challenge");;;
  (if checked then let* _ := check_local_report (ch_sgx_local_report challenge_handler) in mret tt else mret tt);;;
  let challenge_height := hc_block_number challenge in
  ensure ((challenge_height <=? block_number) && (block_number - challenge_height <=? 150)) (AppError "Outdated challenge");;;
  (if checked then let* x := runtime_state in check_newer (chain_storage x) attn else mret tt);;;
  let* encrypted_worker_key := share_key (ch_ecdh_pubkey challenge_handler) iv in
  let worker_key_hash := hash_bytes (encode_EncryptedWorkerKey encrypted_worker_key) in
  let* a := (if checked then
               let* r := create_attestation_report_on attestation_provider worker_key_hash now in mret (Some r)
             else mret None) in
  mret (encrypted_worker_key, a).

(** ** The client: [new_key] is drawn by the caller *)
Definition handover_key (new_key : Pair) : RPC EcdhPublicKey :=
  let* k := crypto (Crypto.derive_ecdh_key new_key) in
  update (set_handover_ecdh_key (Some k));;;
  mret (keypair_public k).

Definition handover_accept_challenge (request : option HandoverChallenge) (new_key : Pair) (now : Z) :
    RPC (ChallengeHandlerInfo * option AttestationResponse) :=
  lock_phactory false true;;;
  let* ecdh_pubkey := handover_key new_key in
  let* challenge := ok_or request Opaque in
  let dev_mode := hc_dev_mode challenge in
  let* sgx_local_report :=
    (if negb dev_mode then
       let* t := ok_or (decode_target_info (hc_sgx_target_info challenge)) (AppError "Invalid client sgx target info") in
       let* r := ok_or (SgxLite.report t (replicate 64 0)) (AppError "Failed to create client LA report") in
       mret (encode_report r)
     else mret []) in
  let challenge_handler := mkChallengeHandlerInfo challenge sgx_local_report ecdh_pubkey in
  let handler_hash := hash_bytes (encode_ChallengeHandlerInfo challenge_handler) in
  let* a := (if negb dev_mode then
               let* r := create_attestation_report_on (Some Ias) handler_hash now in mret (Some r)
             else mret None) in
  mret (challenge_handler, a).

(** The last steps of both protocols *)
Definition install_key (encrypted_worker_key : EncryptedWorkerKey) : RPC unit :=
  let e := ewk_encrypted_key encrypted_worker_key in
  let* k := get ph_handover_ecdh_key in
  let* my_ecdh_key := ok_or k (AppError "Handover ecdhkey not initialized") in
  let* secret := crypto (Crypto.decrypt_secret_from my_ecdh_key (ek_ecdh_pubkey e) (encrypted_key e) (ek_iv e)) in
  let* sk := crypto (Crypto.restore_from_secret_key secret) in
  let* _ := save_runtime_data (ewk_genesis_block_hash encrypted_worker_key) (ewk_para_id encrypted_worker_key) sk false
    (ewk_dev_mode encrypted_worker_key) in
  update (set_runtime_info None);;;
  update (set_handover_ecdh_key None).

Definition handover_receive (request : option EncryptedWorkerKey) (attestation : option bytes) (now : Z) : RPC unit :=
  lock_phactory false true;;;
  let* encrypted_worker_key := ok_or request Opaque in
  (if negb (ewk_dev_mode encrypted_worker_key) then
     let worker_key_hash := hash_bytes (encode_EncryptedWorkerKey encrypted_worker_key) in
     let* raw := ok_or attestation (AppError "Server attestation not found") in
     let* attn := ok_or (decode_AttestationReport raw) (AppError "Decode server attestation failed") in
     match Attestation.validate attn worker_key_hash now false [] false with
     | inr _ => mret tt
     | inl _ => fail (AppError "Invalid server RA report")
     end
   else mret tt);;;
  install_key encrypted_worker_key.

(** ** DCAP: [ntp] is the answer of the time servers *)
Definition a_week : Z := 7 * 24 * 60 * 60.

Definition dcap_handover_create_challenge (ntp : option Z) (nonce : bytes) : RPC DcapHandoverChallenge :=
  lock_phactory false true;;;
  let* _ := runtime_state in
  let* ntp_time_secs := ok_or ntp Opaque in
  lock_phactory false true;;;
  let* provider := get ph_attestation_provider in
  ensure (bool_decide (provider = Some Dcap)) (AppError "DCAP not enabled");;;
  let* b := current_block in
  let* limit := arith 64 (snd b / 1000 + a_week) in
  ensure (negb (limit <? ntp_time_secs)) (AppError "Current block is too old, please sync to latest");;;
  get_dcap_worker_key_challenge (fst b) (snd b) ntp_time_secs nonce.

Definition CLIENT_TIMEOUT_SECS : Z := 60.

Definition my_measurement : RPC bytes :=
  let* t := expect_some SgxLite.target_info in
  let* r := expect_some (SgxLite.report t (replicate 64 0)) in
  mret (measurement_of r).

(** Step 4 of [dcap_handover_start] *)
Definition check_launch_date (dev_mode : bool) (recv_local_report : Report) : RPC unit :=
  if negb dev_mode then
    let* x := runtime_state in
    let* mine := my_measurement in
    let* my_runtime_timestamp := added_at (chain_storage x) mine "Server pRuntime not allowed on chain" in
    let* req_runtime_timestamp := added_at (chain_storage x) (measurement_of recv_local_report)
      "Client pRuntime not allowed on chain" in
    check_runtime_age my_runtime_timestamp req_runtime_timestamp
  else mret tt.

Definition dcap_handover_start (ntp : option Z) (encoded_challenge_handler la_report iv : bytes) :
    RPC (EncryptedWorkerKey * bytes) :=
  lock_phactory false true;;;
  let* _ := runtime_state in
  let* ntp_now := ok_or ntp Opaque in
  lock_phactory false true;;;
  let* provider := get ph_attestation_provider in
  ensure (bool_decide (provider = Some Dcap)) (AppError "DCAP not enabled");;;
  let* dev_mode := get ph_dev_mode in
  let* challenge_handler := ok_or (decode_DcapChallengeHandlerInfo encoded_challenge_handler) Opaque in
  let challenge := dh_challenge challenge_handler in
  let* fresh := dcap_verify_worker_key_challenge challenge in
  ensure fresh (AppError "Invalid challenge");;;
  ensure (negb ((ntp_now <? dc_ntp_time_secs challenge) || (CLIENT_TIMEOUT_SECS <? ntp_now - dc_ntp_time_secs challenge)))
    (AppError "Invalid NTP time");;;
  let* recv_local_report := check_local_report la_report in
  let handler_hash := hash_bytes encoded_challenge_handler in
  ensure (bool_decide (handler_hash = take 32 (report_data (rb_quote (body recv_local_report)))))
    (AppError "Invalid challenge handler");;;
  check_launch_date dev_mode recv_local_report;;;
  let* encrypted_worker_key := share_key (dh_ecdh_pubkey challenge_handler) iv in
  let worker_key_hash := hash_bytes (encode_EncryptedWorkerKey encrypted_worker_key) in
  let remote_target_info := SgxLite.target_info_from_report recv_local_report in
  let* r := ok_or (SgxLite.report remote_target_info (report_data_of worker_key_hash))
    (AppError "Failed to create attestation report for worker key handover") in
  mret (encrypted_worker_key, encode_report r).

Definition dcap_handover_accept_challenge (request : option DcapHandoverChallenge) (new_key : Pair) :
    RPC (DcapChallengeHandlerInfo * bytes) :=
  lock_phactory false true;;;
  let* ecdh_pubkey := handover_key new_key in
  let* challenge := ok_or request Opaque in
  let challenge_handler := mkDcapChallengeHandlerInfo challenge ecdh_pubkey in
  let handler_hash := hash_bytes (encode_DcapChallengeHandlerInfo challenge_handler) in
  let* t := ok_or (decode_target_info (hc_sgx_target_info (dc_challenge challenge)))
    (AppError "Invalid client sgx target info") in
  let* r := ok_or (SgxLite.report t (report_data_of handler_hash)) (AppError "Failed to create client LA report") in
  mret (challenge_handler, encode_report r).

Definition dcap_handover_receive (request : option EncryptedWorkerKey) (la_report : bytes) : RPC unit :=
  lock_phactory false true;;;
  let* encrypted_worker_key := ok_or request Opaque in
  let worker_key_hash := hash_bytes (encode_EncryptedWorkerKey encrypted_worker_key) in
  let* r := ok_or (decode_report la_report) (AppError "Invalid server LA report") in
  ensure (SgxLite.verify r) (AppError "Invalid LA report");;;
  ensure (bool_decide (worker_key_hash = take 32 (report_data (rb_quote (body r))))) (AppError "Invalid key received");;;
  install_key encrypted_worker_key.

End Handover.
End Handover.
