(* ===== verification/PhReference.v ===== *)
(** * A reference process

    Concrete instances of what the RPCs take from the platform, from the chain's
    storage and from [System], on small numbers.  The witnesses evaluate on
    them. *)
From stdpp Require Import prelude gmap list strings.
From Stdlib Require Import ZArith Lia.
From S2P Require Import Prelude Types Externals BalanceConvert Reference Registry Attestation SendQueue Dispatcher Benchmark WorkerSM Crypto Economics GatekeeperPr Replica PrReference MemDb LightClient StorageSync Phactory Handover.

Module PhReference.
Import RefInstances PrInstances.

(** ** Fields, each behind its length *)
Definition frame (l : list bytes) : bytes := concat ((fun b => Z.of_nat (length b) :: b) <$> l).

Fixpoint unframe (n : nat) (b : bytes) : option (list bytes) :=
  match n, b with
  | O, _ => Some []
  | S n, len :: rest => cons (take (Z.to_nat len) rest) <$> unframe n (drop (Z.to_nat len) rest)
  | S _, [] => None
  end.

Lemma unframe_frame l : unframe (length l) (frame l) = Some l.
Proof.
  induction l as [|b l IH]; [done|]. unfold frame. rewrite fmap_cons. cbn [concat length unframe app].
  rewrite Nat2Z.id, take_app_length, drop_app_length. fold (frame l). by rewrite IH.
Qed.

(** ** SCALE *)
Definition b2z (b : bool) : Z := if b then 1 else 0.

Definition challenge_fields (c : HandoverChallenge) : list bytes :=
  [hc_sgx_target_info c; [hc_block_number c; hc_now c; b2z (hc_dev_mode c)]; hc_nonce c].

Definition provider_code (o : option AttestationProvider) : Z :=
  match o with None => 0 | Some RootProvider => 1 | Some Ias => 2 | Some Dcap => 3 end.

Definition ref_rpc_codec : RpcCodec := {|
  encode_RuntimeDataSeal d :=
    rd_genesis_block_hash d :: rd_para_id d :: b2z (rd_trusted_sk d) :: b2z (rd_dev_mode d) :: rd_sk d;
  decode_RuntimeDataSeal b :=
    match b with
    | g :: p :: t :: dev :: sk => Some (mkPersistentRuntimeData g p sk (t =? 1) (dev =? 1))
    | _ => None
    end;
  encode_WorkerRegistrationInfoV2 i := [wr_pubkey (wr_info i); wr_genesis_block_hash (wr_info i); Types.para_id i];
  decode_WorkerRegistrationInfoV2 b :=
    match b with
    | [k; g; p] => Some (mkWorkerRegistrationInfoV2 (mkWorkerRegistrationInfo 0 [] k k g [] None) p 0)
    | _ => None
    end;
  encode_ChallengeHandlerInfo h := frame (challenge_fields (ch_challenge h) ++ [ch_sgx_local_report h; [ch_ecdh_pubkey h]]);
  encode_DcapChallengeHandlerInfo h :=
    frame (challenge_fields (dc_challenge (dh_challenge h)) ++ [[dc_ntp_time_secs (dh_challenge h); dh_ecdh_pubkey h]]);
  decode_DcapChallengeHandlerInfo b :=
    match unframe 4 b with
    | Some [t; [n; now; dev]; nonce; [ntp; pk]] =>
        Some (mkDcapChallengeHandlerInfo (mkDcapHandoverChallenge (mkHandoverChallenge t n now (dev =? 1) nonce) ntp) pk)
    | _ => None
    end;
  encode_EncryptedWorkerKey k :=
    ewk_genesis_block_hash k :: ewk_para_id k :: b2z (ewk_dev_mode k) :: encode_key (ewk_encrypted_key k);
  decode_AttestationReport b := Some (Some (Attestation.SgxIas b [] []));
|}.

(** ** The platform *)
Definition ref_platform : PlatformLib := {|
  app_version := (2, 2, 0);
  measurement := None;
  cpu_core_num := 4;
  cpu_feature_level := 1;
  quote_test _ := true;
  create_attestation_report p data _ := Some (provider_code p :: data);
|}.

(** Two versions of pRuntime, allowed at times 10 and 20; the clock of the chain
    follows the root of its state. *)
Definition ref_reader : ChainReader := {|
  read_parachain_id _ := 7;
  read_mq_messages _ := [];
  read_timestamp_now s := 1000 * root s;
  read_offchain_ingress _ _ := None;
  read_pruntime_added_at _ h := match h with 1 :: _ => Some 10 | 2 :: _ => Some 20 | _ => None end;
  read_worker_registered _ _ := false;
  read_minimum_pruntime_version _ := (2, 0, 0);
  read_pruntime_allow_list _ := [];
  read_pruntime_consensus_version _ := 0;
|}.

(** Enclave [id] of a machine: the report key is the enclave's own measurement. *)
Definition ref_body_bytes (b : ReportBody) : bytes := mr_enclave (rb_quote b) ++ report_data (rb_quote b).

Definition ref_sgx (id : Z) : Sgx := {|
  sgx_report t d :=
    let b := mkReportBody (mkQuote [id] [9] [0] [0] d) [100 + id] in
    Some (mkReport b [77] (ti_mr_enclave t ++ ref_body_bytes b));
  sgx_getkey _ := Some [id];
  cmac k b := k ++ b;
  body_bytes := ref_body_bytes;
  encode_report r :=
    let q := rb_quote (body r) in
    frame [mr_enclave q; mr_signer q; isv_prod_id q; isv_svn q; report_data q; rb_config (body r); key_id r; mac r];
  decode_report b :=
    match unframe 8 b with
    | Some [e; s; p; v; d; c; k; m] => Some (mkReport (mkReportBody (mkQuote e s p v d) c) k m)
    | _ => None
    end;
  encode_target_info t := frame [ti_mr_enclave t; ti_config t];
  decode_target_info b := match unframe 2 b with Some [e; c] => Some (mkTargetInfo e c) | _ => None end;
|}.

(** ** A system that records what it is given *)
Record RefSys := mkRefSys {
  rf_key : Pair;
  rf_ecdh : Keypair;
  (** the blocks it has processed, and the root of the storage each came with *)
  rf_log : list (Z * H256);
}.

Definition ref_log (block : BlockInfo) (storage : TrieStorage) (y : RefSys) : RefSys :=
  mkRefSys (rf_key y) (rf_ecdh y) (rf_log y ++ [(block_number block, root storage)]).

Definition ref_system : SystemApi RefSys unit unit := {|
  sys_new k e q b := (mkRefSys k e [], q, b);
  sys_identity_key := rf_key;
  sys_ecdh_key := rf_ecdh;
  sys_registered _ := false;
  sys_block_number y := match last (rf_log y) with Some (n, _) => n | None => 0 end;
  sys_set_genesis_block _ y := y;
  sys_is_gatekeeper _ := false;
  sys_in_cluster _ := false;
  sys_install_cluster _ y := y;
  sys_will_process_block _ _ := mret tt;
  sys_process_messages _ _ := mret tt;
  sys_did_process_block block storage := modify (fun c => (ref_log block storage (fst (fst c)), snd (fst c), snd c));
  sys_apply_side_effects _ _ y := y;
|}.

(** A report of the attestation service is the data of a quote of version 2. *)
Definition ref_sgx_attestation : SgxAttestation := {|
  ias_verify_signature _ _ _ _ := true;
  parse_ra_report r := Some (mkRaReport (Some 900) "OK" [] (Some (mkQuote [2] [9] [0] [0] r)));
  dcap_verify _ _ _ := None;
|}.

End PhReference.
