(* ===== verification/HandoverProps.v ===== *)
(** * Handover: properties

    The identity key leaves a worker only to a newer version of pRuntime on the
    same machine, and it arrives there; the EPID protocol on a worker that is
    attested with DCAP gives it to anybody. *)
From stdpp Require Import prelude gmap list strings.
From Stdlib Require Import ZArith Lia.
From S2P Require Import Prelude Types Externals BalanceConvert Reference Registry Attestation SendQueue Dispatcher Benchmark WorkerSM Crypto Economics GatekeeperPr System Replica PrReference KeyProps MemDb LightClient StorageSync LightClientProps StorageSyncProps SyncProps Phactory Handover PhReference.

Module HandoverProps.
Import Phactory Handover.

(** A run that returns *)
Abbreviation runs m Q s := (wp False m Q (fun _ _ => False) s).

Lemma runs_ok {S E A} (m : M S E A) Q s : runs m Q s -> exists a s', m s = Ok a s' /\ Q a s'.
Proof. unfold wp. destruct (m s) as [a s'| | |]; [|done..]. by exists a, s'. Qed.

Section Guards.
Context {prof : Profile} {cfg : Config} {codec : Codec} {P : PrCrypto} {G : Grandpa} {T : TrieLib}.
Context {rc : RpcCodec} {pal : PlatformLib} {R : ChainReader} {sa : SgxAttestation} {sgx : Sgx}.
Context {Sys Effects Cluster : Type} {api : SystemApi Sys Effects Cluster}.
Abbreviation Proc := (Process (Sys := Sys) (Effects := Effects) (Cluster := Cluster)).
Implicit Types s : Proc.

(** The chain allows version [hash] since a later time than version [mine]. *)
Definition newer (storage : TrieStorage) (mine hash : bytes) : Prop :=
  exists t t', ChainStorage.get_pruntime_added_at storage mine = Some t
    /\ ChainStorage.get_pruntime_added_at storage hash = Some t' /\ t < t'.

(** The worker's own measurement *)
Definition measures (mine : bytes) : Prop :=
  exists t r, SgxLite.target_info = Some t /\ SgxLite.report t (replicate 64 0) = Some r /\ mine = measurement_of r.

(** The identity key on the disk *)
Definition sealed_key s (key : Pair) : Prop :=
  MasterKey.io_ok (proc_files s) = true
  /\ exists b data, MasterKey.sealed (proc_files s) = Some b /\ decode_RuntimeDataSeal b = Some data
    /\ pair_from_seed_slice (rd_sk data) = Some key.

(** [ek] is the worker's key, encrypted to [pk]. *)
Definition shares s (pk : EcdhPublicKey) (iv : bytes) (ek : EncryptedWorkerKey) : Prop :=
  exists key epk c, sealed_key s key
    /\ Crypto.encrypt_secret_to key [bytes_of_string "worker_key_handover"] pk (pair_secret key) iv tt = Ok (epk, c) tt
    /\ ewk_encrypted_key ek = mkEncryptedKey epk c iv.

(** The client of the EPID protocol proved to be a newer version on this machine. *)
Definition epid_proved s (handler : ChallengeHandlerInfo) (attestation : option bytes) : Prop :=
  exists x mine raw ra sig cert fields rest r,
    ph_runtime_state (phactory s) = Some x /\ attestation = Some raw
    /\ decode_AttestationReport raw = Some (Some (Attestation.SgxIas ra sig cert))
    /\ (exists c, Attestation.validate (Some (Attestation.SgxIas ra sig cert)) (hash_bytes (encode_ChallengeHandlerInfo handler))
          (ChainStorage.timestamp_now (chain_storage x) / 1000) false [] false = inr c)
    /\ Attestation.from_ias_report ra = inr (fields, rest)
    /\ decode_report (ch_sgx_local_report handler) = Some r /\ SgxLite.verify r = true
    /\ measures mine /\ newer (chain_storage x) mine (Attestation.extend_mrenclave (Attestation.if_quote fields)).

(** So did the client of the DCAP protocol. *)
Definition dcap_proved s (ntp : option Z) (encoded la_report : bytes) : Prop :=
  exists x now handler r,
    ph_runtime_state (phactory s) = Some x /\ ntp = Some now
    /\ decode_DcapChallengeHandlerInfo encoded = Some handler
    /\ ph_dcap_handover_last_challenge (phactory s) = Some (dh_challenge handler)
    /\ 0 <= now - dc_ntp_time_secs (dh_challenge handler) <= CLIENT_TIMEOUT_SECS
    /\ decode_report la_report = Some r /\ SgxLite.verify r = true
    /\ take 32 (report_data (rb_quote (body r))) = hash_bytes encoded
    /\ (ph_dev_mode (phactory s) = false -> exists mine, measures mine /\ newer (chain_storage x) mine (measurement_of r)).

(** Lookups do not change the process. *)
Lemma lock_looks a b : keeps (fun s => s) (lock_phactory a b : M Proc _ _).
Proof. unfold lock_phactory, get. solve_keeps. Qed.

Lemma keeps_runtime_state : keeps (fun s => s) (runtime_state : M Proc _ _).
Proof. unfold runtime_state, get. solve_keeps. Qed.

Lemma keeps_crypto {A} (m : M Proc CryptoError A) : keeps (fun s => s) m -> keeps (fun s => s) (crypto m).
Proof. intros Hm s. specialize (Hm s). unfold wp, crypto in *. by destruct (m s). Qed.

Lemma persistent_spec s (Q : PersistentRuntimeData -> Proc -> Prop) :
  (forall data, (forall key, pair_from_seed_slice (rd_sk data) = Some key -> sealed_key s key) -> Q data s) ->
  wp True persistent_runtime_data Q (fun _ _ => True) s.
Proof.
  intros HQ. unfold persistent_runtime_data, load_runtime_data. wp_steps; simplify_eq; try done.
  apply HQ. intros key Hkey. split; [done|]. by do 2 eexists.
Qed.

Lemma encrypt_pure {S} key info pk sk iv (s s' : S) r :
  Crypto.encrypt_secret_to key info pk sk iv s = Ok r s' -> Crypto.encrypt_secret_to key info pk sk iv tt = Ok r tt.
Proof.
  unfold Crypto.encrypt_secret_to, Crypto.derive_sr25519_pair, Crypto.derive_ecdh_key, Ecdh.from_secret, Ecdh.agree,
    Aead.encrypt, Aead.load_key, mbind, ok_or, expect_some, ensure.
  destruct (hkdf_sha256 _ _ _ _); [|done]. cbn. destruct (keypair_from_secret _); [|done]. cbn.
  destruct (scalar_mul _ _); [|done]. cbn. destruct (aes_key _); [|done]. cbn. destruct (aes_seal _ _ _); [|done].
  cbn. by intros [= -> _].
Qed.

Lemma keeps_encrypt_secret {S} key info pk sk iv : keeps (fun s : S => s) (Crypto.encrypt_secret_to key info pk sk iv).
Proof.
  unfold Crypto.encrypt_secret_to, Crypto.derive_sr25519_pair, Crypto.derive_ecdh_key, Ecdh.from_secret, Ecdh.agree,
    Aead.encrypt, Aead.load_key. solve_keeps.
Qed.

Lemma current_block_spec s (Q : Z * Z -> Proc -> Prop) :
  (forall x, ph_runtime_state (phactory s) = Some x ->
     Q (Z.max 0 (next_block_number (Sync.counters (storage_synchronizer x)) - 1), ChainStorage.timestamp_now (chain_storage x)) s) ->
  wp True current_block Q (fun _ _ => True) s.
Proof. intros HQ. unfold current_block, runtime_state, get. wp_steps; auto. Qed.

Lemma share_spec s pk iv (Q : EncryptedWorkerKey -> Proc -> Prop) :
  (forall ek, shares s pk iv ek -> Q ek s) -> wp True (share_key pk iv) Q (fun _ _ => True) s.
Proof.
  intros HQ. unfold share_key. apply wp_bind, persistent_spec. intros data Hdata.
  apply wp_bind. unfold decode_keys, Crypto.restore_from_secret_key. apply wp_bind.
  unfold wp at 1, crypto at 1. destruct (pair_from_seed_slice (rd_sk data)) as [key|] eqn:Hkey; simpl; [|done].
  apply wp_bind, wp_look.
  { apply keeps_crypto. unfold Crypto.derive_ecdh_key, Ecdh.from_secret. solve_keeps. }
  intros kp _. apply wp_ret. apply wp_bind, wp_look; [apply keeps_crypto, keeps_encrypt_secret|]. intros [epk c] He.
  unfold runtime_state, get. wp_steps; [|done]. apply HQ. exists key, epk, c. split_and!; [by apply Hdata| |done].
  unfold crypto in He. simpl in He. destruct (Crypto.encrypt_secret_to _ _ _ _ _ _) eqn:Hr; simplify_eq.
  by apply encrypt_pure in Hr.
Qed.

Lemma report_spec s provider data now (Q : AttestationResponse -> Proc -> Prop) :
  (forall r, at_provider r = provider -> Q r s) -> wp True (create_attestation_report_on provider data now) Q (fun _ _ => True) s.
Proof.
  intros HQ. unfold create_attestation_report_on, get. wp_steps. apply wp_look; [|intros r _; apply wp_ret; by apply HQ].
  generalize 0 at 1. induction (Z.to_nat _) as [|n IH]; intros t; simpl; solve_keeps.
Qed.

(** The checks of the two servers *)
Lemma client_report_spec s handler attestation sec (Q : _ -> Proc -> Prop) :
  (forall raw attn c, attestation = Some raw -> decode_AttestationReport raw = Some attn ->
     Attestation.validate attn (hash_bytes (encode_ChallengeHandlerInfo handler)) sec false [] false = inr c -> Q attn s) ->
  wp True (check_client_report true handler attestation sec) Q (fun _ _ => True) s.
Proof. intros HQ. unfold check_client_report. wp_steps; eauto. Qed.

Lemma local_report_spec s encoded (Q : Report -> Proc -> Prop) :
  (forall r, decode_report encoded = Some r -> SgxLite.verify r = true -> Q r s) ->
  wp True (check_local_report encoded) Q (fun _ _ => True) s.
Proof. intros HQ. unfold check_local_report. wp_steps; auto. Qed.

Lemma check_newer_spec s storage attn (Q : unit -> Proc -> Prop) :
  (forall mine ra sig cert fields rest, attn = Some (Attestation.SgxIas ra sig cert) -> measures mine ->
     Attestation.from_ias_report ra = inr (fields, rest) ->
     newer storage mine (Attestation.extend_mrenclave (Attestation.if_quote fields)) -> Q tt s) ->
  wp True (check_newer storage attn) Q (fun _ _ => True) s.
Proof.
  intros HQ. unfold check_newer, attested_hash, added_at, check_runtime_age. wp_steps; try done.
  simplify_eq. eapply HQ; [done|by do 2 eexists|done|]. do 2 eexists. split_and!; [done|done|].
  match goal with H : negb _ = true |- _ => apply negb_true_iff, Z.leb_gt in H; done end.
Qed.

(** The last challenge is the client's, and it is gone afterwards. *)
Lemma verify_challenge_spec s challenge (Q : bool -> Proc -> Prop) :
  (forall s', proc_files s' = proc_files s -> phactory s' = set_handover_last_challenge None (phactory s) ->
     Q (bool_decide (ph_handover_last_challenge (phactory s) = Some challenge)) s') ->
  wp True (verify_worker_key_challenge challenge) Q (fun _ _ => True) s.
Proof. intros HQ. unfold verify_worker_key_challenge, get, update. wp_steps. by apply HQ. Qed.

Lemma epid_guarded s handler attestation iv now :
  ph_attestation_provider (phactory s) = Some Ias -> ph_dev_mode (phactory s) = false ->
  wp True (handover_start handler attestation iv now) (fun r s' =>
    exists h, handler = Some h /\ epid_proved s h attestation
      /\ ph_handover_last_challenge (phactory s) = Some (ch_challenge h)
      /\ shares s (ch_ecdh_pubkey h) iv (fst r) /\ ph_handover_last_challenge (phactory s') = None)
    (fun _ _ => True) s.
Proof.
  intros Hp Hd. unfold handover_start, get.
  apply wp_bind, wp_look; [apply lock_looks|]. intros [] _. apply wp_bind, wp_gets, wp_bind, wp_gets.
  rewrite Hp, Hd. cbn [negb andb]. rewrite bool_decide_eq_true_2 by done.
  apply wp_bind, current_block_spec. intros x Hx. apply wp_bind, wp_ok_or; [|done]. intros h ->.
  apply wp_bind, client_report_spec. intros raw attn c -> Hraw Hval.
  apply wp_bind, verify_challenge_spec. intros s1 Hf Hs1.
  apply wp_bind, wp_ensure; [|done]. intros Hc%bool_decide_eq_true_1.
  apply wp_bind, wp_bind, local_report_spec. intros r Hr Hv. apply wp_ret.
  apply wp_bind, wp_ensure; [|done]. intros _. apply wp_bind, wp_bind. unfold runtime_state, get.
  wp_lines; [|done]. rewrite Hs1 in *. cbn [ph_runtime_state set_handover_last_challenge] in *. simplify_eq.
  apply check_newer_spec. intros mine ra sig cert fields rest -> Hm Hias Hnew.
  apply wp_bind, share_spec. intros ek (key & epk & ct & Hkey & He & Hek). apply wp_bind, wp_bind, report_spec.
  intros resp _. do 2 apply wp_ret. exists h. split; [done|]. rewrite Hs1. split_and!; [|done| |done].
  - exists x, mine, raw, ra, sig, cert, fields, rest, r. split_and!; try done. by exists c.
  - exists key, epk, ct. split_and!; [|done|done]. unfold sealed_key in *. by rewrite <- Hf.
Qed.

Lemma verify_dcap_challenge_spec s challenge (Q : bool -> Proc -> Prop) :
  (forall s', proc_files s' = proc_files s -> phactory s' = set_dcap_handover_last_challenge None (phactory s) ->
     Q (bool_decide (ph_dcap_handover_last_challenge (phactory s) = Some challenge)) s') ->
  wp True (dcap_verify_worker_key_challenge challenge) Q (fun _ _ => True) s.
Proof. intros HQ. unfold dcap_verify_worker_key_challenge, get, update. wp_steps. by apply HQ. Qed.

(** The age of the client's version, unless in dev mode *)
Lemma launch_date_spec s x r (dev : bool) (Q : unit -> Proc -> Prop) :
  ph_runtime_state (phactory s) = Some x ->
  ((dev = false -> exists mine, measures mine /\ newer (chain_storage x) mine (measurement_of r)) -> Q tt s) ->
  wp True (check_launch_date dev r) Q (fun _ _ => True) s.
Proof.
  intros Hx HQ. unfold check_launch_date. destruct dev; simpl; [by apply wp_ret, HQ|].
  unfold runtime_state, get, my_measurement, added_at, check_runtime_age. wp_steps; try done. simplify_eq.
  apply HQ. intros _. eexists. split; [by do 2 eexists|]. do 2 eexists. split_and!; [done|done|].
  match goal with H : negb _ = true |- _ => apply negb_true_iff, Z.leb_gt in H; done end.
Qed.

Lemma dcap_guarded s ntp encoded la_report iv :
  wp True (dcap_handover_start ntp encoded la_report iv) (fun r s' =>
    dcap_proved s ntp encoded la_report /\ ph_dcap_handover_last_challenge (phactory s') = None
    /\ exists h, decode_DcapChallengeHandlerInfo encoded = Some h /\ shares s (dh_ecdh_pubkey h) iv (fst r))
    (fun _ _ => True) s.
Proof.
  unfold dcap_handover_start, runtime_state, get.
  apply wp_bind, wp_look; [apply lock_looks|]. intros [] _.
  apply wp_bind, wp_bind, wp_gets, wp_ok_or; [|done]. intros x Hx. apply wp_bind, wp_ok_or; [|done]. intros now ->.
  apply wp_bind, wp_look; [apply lock_looks|]. intros [] _. apply wp_bind, wp_gets, wp_bind, wp_ensure; [|done].
  intros _. apply wp_bind, wp_gets, wp_bind, wp_ok_or; [|done]. intros h Hh.
  apply wp_bind, verify_dcap_challenge_spec. intros s1 Hf Hs1.
  apply wp_bind, wp_ensure; [|done]. intros Hc%bool_decide_eq_true_1.
  apply wp_bind, wp_ensure; [|done]. intros Ht%negb_true_iff. apply orb_false_iff in Ht as [Ht1%Z.ltb_ge Ht2%Z.ltb_ge].
  apply wp_bind, local_report_spec. intros r Hr Hv.
  apply wp_bind, wp_ensure; [|done]. intros Hd%bool_decide_eq_true_1. apply wp_bind.
  apply (launch_date_spec _ x); [by rewrite Hs1|]. intros Hnew.
  apply wp_bind, share_spec. intros ek (key & epk & ct & Hkey & He & Hek). apply wp_bind, wp_ok_or; [|done].
  intros rep _. apply wp_ret. rewrite Hs1. split_and!; [|done|].
  - exists x, now, h, r. split_and!; try done; lia.
  - exists h. split; [done|]. exists key, epk, ct. split_and!; [|done|done]. unfold sealed_key in *. by rewrite <- Hf.
Qed.


End Guards.
(** ** Two enclaves on one machine *)

(** The enclave behind the instructions: its reports carry its identity. *)
Definition with_data (d : bytes) (q : Quote) : Quote :=
  mkQuote (mr_enclave q) (mr_signer q) (isv_prod_id q) (isv_svn q) d.

Class Enclave (A : Sgx) := {
  en_quote : Quote;
  en_config : bytes;
  reports : forall t d, length d = 64%nat ->
    exists r, sgx_report t d = Some r /\ body r = mkReportBody (with_data d en_quote) en_config;
}.
#[global] Arguments en_quote A {_}.
#[global] Arguments en_config A {_}.

Definition own_target (A : Sgx) {EA : Enclave A} : TargetInfo := mkTargetInfo (mr_enclave (en_quote A)) (en_config A).

(** A report that [B] makes for [A] is readable there, and has the MAC under the
    report key of [A]. *)
Class Attests (A B : Sgx) {EA : Enclave A} {EB : Enclave B} := {
  report_layout : forall r, decode_report (Sgx := A) (encode_report (Sgx := B) r) = Some r;
  target_layout : forall t, decode_target_info (Sgx := B) (encode_target_info (Sgx := A) t) = Some t;
  report_key : forall d r, sgx_report (Sgx := B) (own_target A) d = Some r ->
    exists key, sgx_getkey (Sgx := A) (key_id r) = Some key /\ cmac (Sgx := A) key (body_bytes (Sgx := A) (body r)) = mac r;
}.

Lemma target_info_own {A} {EA : Enclave A} : SgxLite.target_info (sgx := A) = Some (own_target A).
Proof.
  unfold SgxLite.target_info. destruct (reports SgxLite.zero_target (replicate 64 0)) as (r & -> & Hb); [done|].
  simpl. unfold SgxLite.target_info_from_report. by rewrite Hb.
Qed.

Lemma verify_attests {A B} {EA : Enclave A} {EB : Enclave B} `{!Attests A B} d r :
  SgxLite.report (sgx := B) (own_target A) d = Some r -> SgxLite.verify (sgx := A) r = true.
Proof.
  intros (key & Hk & Hm)%report_key. unfold SgxLite.verify. rewrite Hk. by apply bool_decide_eq_true_2.
Qed.

Class HandoverCodec {cfg : Config} (rc : RpcCodec) := {
  decode_encode_DcapChallengeHandlerInfo : forall h,
    decode_DcapChallengeHandlerInfo (encode_DcapChallengeHandlerInfo h) = Some h;
  decode_encode_RuntimeDataSeal : forall d, decode_RuntimeDataSeal (encode_RuntimeDataSeal d) = Some d;
}.

Section Arrives.
Context {prof : Profile} {cfg : Config} {codec : Codec} {bs : BytesSpec codec} {P : PrCrypto} {spec : CryptoSpec P}.
Context {G : Grandpa} {T : TrieLib} {rc : RpcCodec} {hc : HandoverCodec rc} {pal : PlatformLib} {R : ChainReader}.
Context {sa : SgxAttestation}.
Context {Sys Effects Cluster : Type} {api : SystemApi Sys Effects Cluster}.
Abbreviation Proc := (Process (Sys := Sys) (Effects := Effects) (Cluster := Cluster)).
Implicit Types s c : Proc.

(** A worker that runs outside an RCU dispatch *)
Definition serves s (x : RuntimeState) : Prop :=
  ph_rcu_dispatching (phactory s) = false /\ ph_runtime_state (phactory s) = Some x.

(** The key in [ek], for the holder of [kp] *)
Definition opens (kp : Keypair) (ek : EncryptedWorkerKey) (secret : bytes) : Prop :=
  let e := ewk_encrypted_key ek in
  forall S (s : S), Crypto.decrypt_secret_from kp (ek_ecdh_pubkey e) (encrypted_key e) (ek_iv e) s = Ok secret s.

Lemma lock_runs s (Q : unit -> Proc -> Prop) :
  ph_rcu_dispatching (phactory s) = false -> Q tt s -> runs (lock_phactory false true) Q s.
Proof. intros Hr HQ. unfold lock_phactory, get. wp_steps; try done. by rewrite Hr in *. Qed.

Lemma current_block_runs s x (Q : Z * Z -> Proc -> Prop) : ph_runtime_state (phactory s) = Some x ->
  Q (Z.max 0 (next_block_number (Sync.counters (storage_synchronizer x)) - 1), ChainStorage.timestamp_now (chain_storage x)) s ->
  runs current_block Q s.
Proof. intros Hx HQ. unfold current_block, runtime_state, get. wp_steps; congruence. Qed.

Lemma share_runs s x key kp iv (Q : EncryptedWorkerKey -> Proc -> Prop) :
  ph_runtime_state (phactory s) = Some x -> sealed_key s key -> length iv = IV_BYTES ->
  (forall ek, opens kp ek (pair_secret key) -> ewk_genesis_block_hash ek = rs_genesis_block_hash x ->
     ewk_para_id ek = rs_para_id x -> ewk_dev_mode ek = ph_dev_mode (phactory s) -> Q ek s) ->
  runs (share_key (keypair_public kp) iv) Q s.
Proof.
  intros Hx (Hio & b & data & Hb & Hdata & Hkey) Hiv HQ. unfold share_key, persistent_runtime_data, load_runtime_data.
  apply wp_bind, wp_bind, wp_bind, wp_gets, wp_bind. rewrite Hio. apply wp_ret. rewrite Hb, Hdata.
  apply wp_bind, wp_ret, wp_ret, wp_ret. apply wp_bind. unfold decode_keys, Crypto.restore_from_secret_key. apply wp_bind.
  unfold wp at 1, crypto at 1. rewrite Hkey. simpl. apply wp_bind.
  destruct (KeyProps.derive_ecdh_ok key) as [my Hmy]. unfold wp at 1, crypto at 1. rewrite Hmy. apply wp_ret.
  destruct (KeyProps.key_share_ok key [bytes_of_string "worker_key_handover"] kp (pair_secret key) iv) as (pk & c & He & Hd);
    [done|apply pair_secret_length|].
  apply wp_bind. unfold wp at 1, crypto at 1. cbn [fst]. unfold Crypto.dump_secret_key. rewrite He.
  unfold runtime_state, get. wp_steps; [|congruence]. simplify_eq. by apply HQ.
Qed.

(** ** The EPID protocol without EPID *)
Lemma challenge_target_runs {A} {EA : Enclave A} s (dev : bool) (Q : bytes -> Proc -> Prop) :
  Q (if dev then [] else encode_target_info (Sgx := A) (own_target A)) s -> runs (challenge_target (sgx := A) dev) Q s.
Proof. intros HQ. unfold challenge_target. rewrite target_info_own. destruct dev; wp_steps; simplify_eq; done. Qed.

Lemma unchecked_runs {A : Sgx} s x key kp iv now report challenge (Q : _ -> Proc -> Prop) :
  serves s x -> ph_attestation_provider (phactory s) <> Some Ias -> sealed_key s key -> length iv = IV_BYTES ->
  ph_handover_last_challenge (phactory s) = Some challenge ->
  hc_block_number challenge = Z.max 0 (next_block_number (Sync.counters (storage_synchronizer x)) - 1) ->
  (forall ek s', opens kp ek (pair_secret key) -> Q (ek, None) s') ->
  runs (handover_start (sgx := A) (Some (mkChallengeHandlerInfo challenge report (keypair_public kp))) None iv now) Q s.
Proof.
  intros [Hr Hx] Hp Hkey Hiv Hc Hn HQ. unfold handover_start, get, verify_worker_key_challenge, update.
  apply wp_bind, lock_runs; [done|]. apply wp_bind, wp_gets, wp_bind, wp_gets.
  rewrite bool_decide_eq_false_2 by done. rewrite andb_false_r.
  apply wp_bind, (current_block_runs _ x); [done|]. apply wp_bind, wp_ret, wp_bind, wp_ret.
  cbn [ch_challenge ch_ecdh_pubkey]. unfold get. wp_lines;
    try (match goal with H : bool_decide _ = false |- _ => apply bool_decide_eq_false_1 in H; congruence end).
  2: { match goal with H : _ && _ = false |- _ => apply andb_false_iff in H end. rewrite Hn in *.
       match goal with H : _ \/ _ |- _ => destruct H as [?%Z.leb_gt|?%Z.leb_gt]; lia end. }
  apply (share_runs _ x key kp); [done|done|done|]. intros ek Hek _ _ _. wp_lines. by apply HQ.
Qed.

(** C40: On a worker that is not attested with EPID, the EPID protocol checks
    nothing of the client: for every key pair [kp] that whoever reaches the RPC
    chooses, a challenge and an answer to it with any bytes as the local report
    and no attestation return the worker's identity key, and [kp] opens it.
    Neither dev mode nor a dev key is needed. *)
Theorem epid_handover_unchecked {A} {EA : Enclave A} s x key nonce kp iv now report :
  serves s x -> ph_attestation_provider (phactory s) <> Some Ias -> ph_dev_mode (phactory s) = false ->
  sealed_key s key -> length iv = IV_BYTES ->
  exists challenge s1 ek s2,
    handover_create_challenge (sgx := A) nonce s = Ok challenge s1
    /\ handover_start (sgx := A) (Some (mkChallengeHandlerInfo challenge report (keypair_public kp))) None iv now s1
       = Ok (ek, None) s2
    /\ opens kp ek (pair_secret key).
Proof.
  intros Hs Hp Hd Hkey Hiv. pose proof Hs as [Hr Hx].
  assert (runs (handover_create_challenge (sgx := A) nonce) (fun challenge s1 => serves s1 x /\ sealed_key s1 key
    /\ ph_attestation_provider (phactory s1) <> Some Ias /\ ph_handover_last_challenge (phactory s1) = Some challenge
    /\ hc_block_number challenge = Z.max 0 (next_block_number (Sync.counters (storage_synchronizer x)) - 1)) s) as Hw.
  { unfold handover_create_challenge, get_worker_key_challenge, get, update. apply wp_bind, lock_runs; [done|].
    apply wp_bind, (current_block_runs _ x); [done|]. apply wp_bind, wp_gets, wp_bind, challenge_target_runs.
    wp_lines. done. }
  apply runs_ok in Hw as (challenge & s1 & H1 & Hs1 & Hk1 & Hp1 & Hc & Hn).
  assert (runs (handover_start (sgx := A) (Some (mkChallengeHandlerInfo challenge report (keypair_public kp))) None iv now)
    (fun r _ => exists ek, r = (ek, None) /\ opens kp ek (pair_secret key)) s1) as Hw.
  { eapply (unchecked_runs s1 x key kp); try done. intros ek s' Ho. by exists ek. }
  apply runs_ok in Hw as (r & s2 & H2 & ek & -> & Ho).
  by exists challenge, s1, ek, s2.
Qed.

(** ** The DCAP protocol *)
Lemma hash_data data : length (report_data_of (hash_bytes data)) = 64%nat /\ take 32 (report_data_of (hash_bytes data)) = hash_bytes data.
Proof.
  unfold report_data_of, hash_bytes. rewrite length_app, h256_bytes_length, length_replicate.
  split; [done|]. by rewrite take_app_length' by by rewrite h256_bytes_length.
Qed.

Lemma measurement_own {A} {EA : Enclave A} d r : body r = mkReportBody (with_data d (en_quote A)) (en_config A) ->
  measurement_of r = Attestation.extend_mrenclave (en_quote A).
Proof. intros Hb. unfold measurement_of. by rewrite Hb. Qed.

(** The challenge *)
Definition dcap_challenge (A : Sgx) {EA : Enclave A} (x : RuntimeState) (t : Z) (nonce : bytes) : DcapHandoverChallenge :=
  mkDcapHandoverChallenge
    (mkHandoverChallenge (encode_target_info (Sgx := A) (own_target A))
       (Z.max 0 (next_block_number (Sync.counters (storage_synchronizer x)) - 1))
       (ChainStorage.timestamp_now (chain_storage x)) false nonce) t.

Lemma dcap_create_runs {A} {EA : Enclave A} s x t nonce :
  serves s x -> ph_attestation_provider (phactory s) = Some Dcap -> ph_dev_mode (phactory s) = false ->
  0 <= ChainStorage.timestamp_now (chain_storage x) / 1000 + a_week < 2 ^ 64 ->
  t <= ChainStorage.timestamp_now (chain_storage x) / 1000 + a_week ->
  dcap_handover_create_challenge (sgx := A) (Some t) nonce s
  = Ok (dcap_challenge A x t nonce)
       (mkProcess (set_dcap_handover_last_challenge (Some (dcap_challenge A x t nonce)) (phactory s)) (proc_bench s) (proc_files s)).
Proof.
  intros [Hr Hx] Hp Hd Hfit Ht.
  assert (runs (dcap_handover_create_challenge (sgx := A) (Some t) nonce) (fun ch s' => ch = dcap_challenge A x t nonce
    /\ s' = mkProcess (set_dcap_handover_last_challenge (Some ch) (phactory s)) (proc_bench s) (proc_files s)) s) as Hw.
  { unfold dcap_handover_create_challenge, runtime_state, get, get_dcap_worker_key_challenge, get, update.
    apply wp_bind, lock_runs; [done|]. apply wp_bind, wp_bind, wp_gets. rewrite Hx. apply wp_ret, wp_bind, wp_ret.
    apply wp_bind, lock_runs; [done|]. apply wp_bind, wp_gets, wp_bind. rewrite Hp. rewrite bool_decide_eq_true_2 by done.
    apply wp_ret, wp_bind, (current_block_runs _ x); [done|]. cbn [fst snd]. apply wp_bind. unfold wp at 1.
    rewrite arith_fits by done. apply wp_bind. rewrite (proj2 (Z.ltb_ge _ _)) by done. apply wp_ret.
    apply wp_bind, wp_gets, wp_bind, challenge_target_runs. rewrite Hd. wp_lines. done. }
  by apply runs_ok in Hw as (ch & s' & -> & -> & ->).
Qed.

(** The answer: the client keeps the key pair it is encrypted to. *)
Lemma dcap_accept_runs {A B} {EA : Enclave A} {EB : Enclave B} `{!Attests A B} c challenge new_key kp :
  ph_rcu_dispatching (phactory c) = false -> keypair_from_secret (pair_secret new_key) = Some kp ->
  hc_sgx_target_info (dc_challenge challenge) = encode_target_info (Sgx := A) (own_target A) ->
  let h := mkDcapChallengeHandlerInfo challenge (keypair_public kp) in
  exists r, SgxLite.report (sgx := B) (own_target A) (report_data_of (hash_bytes (encode_DcapChallengeHandlerInfo h))) = Some r
    /\ body r = mkReportBody (with_data (report_data_of (hash_bytes (encode_DcapChallengeHandlerInfo h))) (en_quote B)) (en_config B)
    /\ dcap_handover_accept_challenge (sgx := B) (Some challenge) new_key c
       = Ok (h, encode_report (Sgx := B) r)
            (mkProcess (set_handover_ecdh_key (Some kp) (phactory c)) (proc_bench c) (proc_files c)).
Proof.
  intros Hr Hkp Ht h.
  destruct (reports (A := B) (own_target A) (report_data_of (hash_bytes (encode_DcapChallengeHandlerInfo h)))) as (r & Hrep & Hb);
    [apply hash_data|]. exists r. split_and!; [done|done|].
  assert (runs (dcap_handover_accept_challenge (sgx := B) (Some challenge) new_key) (fun a c' => a = (h, encode_report (Sgx := B) r)
    /\ c' = mkProcess (set_handover_ecdh_key (Some kp) (phactory c)) (proc_bench c) (proc_files c)) c) as Hw.
  { unfold dcap_handover_accept_challenge, handover_key, update. apply wp_bind, lock_runs; [done|].
    apply wp_bind, wp_bind. unfold wp at 1, crypto at 1, Crypto.derive_ecdh_key, Ecdh.from_secret. rewrite Hkp. simpl expect_some.
    cbv beta iota delta [mret]. apply wp_bind, wp_modify, wp_ret, wp_bind, wp_ret. apply wp_bind. rewrite Ht, target_layout.
    apply wp_ret, wp_bind. unfold SgxLite.report. fold h. rewrite Hrep. by do 2 apply wp_ret. }
  apply runs_ok in Hw as (a & c' & -> & -> & ->). done.
Qed.

(** The server's answer to a client that is newer *)
Lemma launch_date_runs {A B} {EA : Enclave A} {EB : Enclave B} s x d r (Q : unit -> Proc -> Prop) :
  ph_runtime_state (phactory s) = Some x -> body r = mkReportBody (with_data d (en_quote B)) (en_config B) ->
  newer (chain_storage x) (Attestation.extend_mrenclave (en_quote A)) (Attestation.extend_mrenclave (en_quote B)) ->
  Q tt s -> runs (check_launch_date (sgx := A) false r) Q s.
Proof.
  intros Hx Hb (m & m' & Hm & Hm' & Hlt) HQ. unfold check_launch_date, runtime_state, get, my_measurement, added_at, check_runtime_age.
  cbn [negb]. apply wp_bind, wp_bind, wp_gets. rewrite Hx. apply wp_ret. rewrite target_info_own.
  apply wp_bind, wp_bind, wp_ret, wp_bind. destruct (reports (A := A) (own_target A) (replicate 64 0)) as (r0 & Hr0 & Hb0); [done|].
  unfold SgxLite.report. rewrite Hr0. apply wp_ret, wp_ret. rewrite (measurement_own _ _ Hb0), (measurement_own _ _ Hb), Hm, Hm'.
  wp_lines; simplify_eq/=; [done|].
  match goal with H : negb _ = false |- _ => apply negb_false_iff, Z.leb_le in H; lia end.
Qed.

Lemma dcap_start_runs {A B} {EA : Enclave A} {EB : Enclave B} `{!Attests A B} s x key kp iv t h d r (Q : _ -> Proc -> Prop) :
  serves s x -> ph_attestation_provider (phactory s) = Some Dcap -> ph_dev_mode (phactory s) = false ->
  sealed_key s key -> length iv = IV_BYTES ->
  ph_dcap_handover_last_challenge (phactory s) = Some (dh_challenge h) -> dh_ecdh_pubkey h = keypair_public kp ->
  0 <= t - dc_ntp_time_secs (dh_challenge h) <= CLIENT_TIMEOUT_SECS ->
  SgxLite.report (sgx := B) (own_target A) d = Some r -> body r = mkReportBody (with_data d (en_quote B)) (en_config B) ->
  d = report_data_of (hash_bytes (encode_DcapChallengeHandlerInfo h)) ->
  newer (chain_storage x) (Attestation.extend_mrenclave (en_quote A)) (Attestation.extend_mrenclave (en_quote B)) ->
  (forall ek r', opens kp ek (pair_secret key) -> ewk_genesis_block_hash ek = rs_genesis_block_hash x ->
     ewk_para_id ek = rs_para_id x -> ewk_dev_mode ek = false ->
     SgxLite.report (sgx := A) (own_target B) (report_data_of (hash_bytes (encode_EncryptedWorkerKey ek))) = Some r' ->
     Q (ek, encode_report (Sgx := A) r')
       (mkProcess (set_dcap_handover_last_challenge None (phactory s)) (proc_bench s) (proc_files s))) ->
  runs (dcap_handover_start (sgx := A) (Some t) (encode_DcapChallengeHandlerInfo h) (encode_report (Sgx := B) r) iv) Q s.
Proof.
  intros [Hr Hx] Hp Hd Hkey Hiv Hc Hpk Ht Hrep Hb -> Hnew HQ.
  unfold dcap_handover_start, runtime_state, get, dcap_verify_worker_key_challenge, get, update, check_local_report.
  apply wp_bind, lock_runs; [done|]. apply wp_bind, wp_bind, wp_gets. rewrite Hx. apply wp_ret, wp_bind, wp_ret.
  apply wp_bind, lock_runs; [done|]. apply wp_bind, wp_gets, wp_bind. rewrite Hp, bool_decide_eq_true_2 by done.
  apply wp_ret, wp_bind, wp_gets, wp_bind. rewrite decode_encode_DcapChallengeHandlerInfo. apply wp_ret.
  apply wp_bind, wp_bind, wp_gets, wp_bind, wp_modify, wp_ret, wp_bind. rewrite Hc, bool_decide_eq_true_2 by done.
  apply wp_ret, wp_bind. rewrite !(proj2 (Z.ltb_ge _ _)) by (unfold CLIENT_TIMEOUT_SECS in *; lia). apply wp_ret, wp_bind.
  rewrite report_layout. apply wp_bind, wp_ret, wp_bind. rewrite (verify_attests _ r Hrep). apply wp_ret, wp_ret, wp_bind.
  rewrite Hb. cbn [rb_quote report_data with_data]. rewrite (proj2 (hash_data _)), bool_decide_eq_true_2 by done.
  apply wp_ret, wp_bind. rewrite Hd. eapply (launch_date_runs (A := A) (B := B)); [done|done|done|].
  rewrite Hpk. apply wp_bind, (share_runs _ x key kp); [done|done|done|]. intros ek Ho Hg Hpa Hdv. apply wp_bind.
  replace (SgxLite.target_info_from_report r) with (own_target B) by (unfold SgxLite.target_info_from_report; by rewrite Hb).
  destruct (reports (A := A) (own_target B) (report_data_of (hash_bytes (encode_EncryptedWorkerKey ek)))) as (r' & Hr' & _);
    [apply hash_data|]. unfold SgxLite.report in *. rewrite Hr'. do 2 apply wp_ret.
  apply HQ; [done..|by rewrite Hdv|done].
Qed.

(** The client installs it. *)
Lemma dcap_receive_runs {A B} {EA : Enclave A} {EB : Enclave B} `{!Attests B A} c ek r' key kp (Q : unit -> Proc -> Prop) :
  ph_rcu_dispatching (phactory c) = false -> MasterKey.io_ok (proc_files c) = true ->
  ph_handover_ecdh_key (phactory c) = Some kp -> opens kp ek (pair_secret key) ->
  SgxLite.report (sgx := A) (own_target B) (report_data_of (hash_bytes (encode_EncryptedWorkerKey ek))) = Some r' ->
  body r' = mkReportBody (with_data (report_data_of (hash_bytes (encode_EncryptedWorkerKey ek))) (en_quote A)) (en_config A) ->
  (forall c', ph_handover_ecdh_key (phactory c') = None -> load_runtime_data c' = Ok (Some (mkPersistentRuntimeData
      (ewk_genesis_block_hash ek) (ewk_para_id ek) (pair_secret key) false (ewk_dev_mode ek))) c' -> Q tt c') ->
  runs (dcap_handover_receive (sgx := B) (Some ek) (encode_report (Sgx := A) r')) Q c.
Proof.
  intros Hr Hio Hk Ho Hrep Hb HQ. unfold dcap_handover_receive, install_key, save_runtime_data, get, update.
  apply wp_bind, lock_runs; [done|]. apply wp_bind, wp_ret, wp_bind. rewrite report_layout. apply wp_ret, wp_bind.
  rewrite (verify_attests _ r' Hrep). apply wp_ret, wp_bind. rewrite Hb. cbn [rb_quote report_data with_data].
  rewrite (proj2 (hash_data _)), bool_decide_eq_true_2 by done. apply wp_ret, wp_bind, wp_gets, wp_bind. rewrite Hk.
  apply wp_ret, wp_bind. unfold wp at 1, crypto at 1. rewrite Ho. apply wp_bind.
  unfold wp at 1, crypto at 1, Crypto.restore_from_secret_key. rewrite pair_restore. cbv beta iota delta [expect_some mret].
  apply wp_bind, wp_bind, wp_gets, wp_bind. rewrite Hio. apply wp_ret. wp_lines. apply HQ; [done|].
  unfold load_runtime_data, mbind, gets, ensure. simpl. by rewrite decode_encode_RuntimeDataSeal.
Qed.

(** C30: The DCAP handover delivers the identity key.  Two enclaves on one
    machine, [A] with the worker and [B] whose version the chain allows since a
    later time: the challenge, the answer, the transfer and the reception all
    return, and afterwards the disk of [B] holds the worker's identity key for
    the same genesis and parachain, not marked as generated there; the challenge
    and the key of the exchange are gone. *)
Theorem dcap_handover_delivers {A B} {EA : Enclave A} {EB : Enclave B} `{!Attests A B, !Attests B A}
    s c x key nonce new_key iv t0 t1 :
  serves s x -> ph_attestation_provider (phactory s) = Some Dcap -> ph_dev_mode (phactory s) = false ->
  sealed_key s key -> length iv = IV_BYTES ->
  0 <= ChainStorage.timestamp_now (chain_storage x) / 1000 + a_week < 2 ^ 64 ->
  t0 <= ChainStorage.timestamp_now (chain_storage x) / 1000 + a_week -> 0 <= t1 - t0 <= CLIENT_TIMEOUT_SECS ->
  newer (chain_storage x) (Attestation.extend_mrenclave (en_quote A)) (Attestation.extend_mrenclave (en_quote B)) ->
  ph_rcu_dispatching (phactory c) = false -> MasterKey.io_ok (proc_files c) = true ->
  exists challenge s1 h la c1 ek la' s2 c2,
    dcap_handover_create_challenge (sgx := A) (Some t0) nonce s = Ok challenge s1
    /\ dcap_handover_accept_challenge (sgx := B) (Some challenge) new_key c = Ok (h, la) c1
    /\ dcap_handover_start (sgx := A) (Some t1) (encode_DcapChallengeHandlerInfo h) la iv s1 = Ok (ek, la') s2
    /\ dcap_handover_receive (sgx := B) (Some ek) la' c1 = Ok tt c2
    /\ load_runtime_data c2 = Ok (Some (mkPersistentRuntimeData (rs_genesis_block_hash x) (rs_para_id x)
         (pair_secret key) false false)) c2
    /\ ph_dcap_handover_last_challenge (phactory s2) = None /\ ph_handover_ecdh_key (phactory c2) = None.
Proof.
  intros Hs Hp Hd Hkey Hiv Hfit Ht0 Ht1 Hnew Hrc Hio. pose proof (dcap_create_runs (A := A) s x t0 nonce Hs Hp Hd Hfit Ht0) as H1.
  set (challenge := dcap_challenge A x t0 nonce) in *. destruct (keypair_of_pair new_key) as [kp Hkp].
  destruct (dcap_accept_runs (A := A) (B := B) c challenge new_key kp Hrc Hkp eq_refl) as (r & Hr & Hb & H2).
  set (h := mkDcapChallengeHandlerInfo challenge (keypair_public kp)) in *.
  set (s1 := mkProcess _ (proc_bench s) _) in *. set (c1 := mkProcess _ (proc_bench c) _) in *.
  assert (runs (dcap_handover_start (sgx := A) (Some t1) (encode_DcapChallengeHandlerInfo h) (encode_report (Sgx := B) r) iv)
    (fun a s2 => ph_dcap_handover_last_challenge (phactory s2) = None
      /\ runs (dcap_handover_receive (sgx := B) (Some (fst a)) (snd a)) (fun _ c2 => ph_handover_ecdh_key (phactory c2) = None
        /\ load_runtime_data c2 = Ok (Some (mkPersistentRuntimeData (rs_genesis_block_hash x) (rs_para_id x)
             (pair_secret key) false false)) c2) c1) s1) as Hw.
  { eapply (dcap_start_runs (A := A) (B := B) s1 x key kp iv t1 h _ r); try done.
    intros ek r' Ho Hg Hpa Hdv Hr'. split; [done|].
    destruct (reports (A := A) (own_target B) (report_data_of (hash_bytes (encode_EncryptedWorkerKey ek)))) as (r0 & Hr0 & Hb0);
      [apply hash_data|]. unfold SgxLite.report in Hr'. simplify_eq.
    eapply (dcap_receive_runs (A := A) (B := B) c1 ek r' key kp); try done.
    intros c' Hc' Hl. split; [done|]. by rewrite Hl, Hg, Hpa, Hdv. }
  apply runs_ok in Hw as ([ek la'] & s2 & H3 & Hc3 & Hw). apply runs_ok in Hw as ([] & c2 & H4 & Hc4 & Hl).
  by exists challenge, s1, h, (encode_report (Sgx := B) r), c1, ek, la', s2, c2.
Qed.

End Arrives.
(** ** Witnesses, on the reference process *)
Section Witnesses.
Import RefInstances PrInstances SyncProps PhReference.
#[local] Existing Instances ref_rpc_codec ref_platform ref_reader ref_system ref_sgx_attestation.

Lemma wit_reports id t d : length d = 64%nat -> exists r, sgx_report (Sgx := ref_sgx id) t d = Some r
  /\ body r = mkReportBody (with_data d (mkQuote [id] [9] [0] [0] [])) [100 + id].
Proof. intros _. by eexists. Qed.

#[local] Instance wit_enclave id : Enclave (ref_sgx id) := {|
  en_quote := mkQuote [id] [9] [0] [0] [];
  en_config := [100 + id];
  reports := wit_reports id;
|}.

#[local] Instance wit_attests a b : Attests (ref_sgx a) (ref_sgx b).
Proof.
  split.
  - intros [[[] ?] ? ?]. cbn -[frame unframe]. by rewrite (unframe_frame [_; _; _; _; _; _; _; _]).
  - intros []. cbn -[frame unframe]. by rewrite (unframe_frame [_; _]).
  - intros d r [= <-]. by eexists.
Qed.

#[local] Instance wit_handover_codec : HandoverCodec ref_rpc_codec.
Proof.
  split.
  - intros [[[t n now dev nonce] ntp] pk]. cbn -[frame unframe].
    rewrite (unframe_frame [_; _; _; _]). by destruct dev.
  - intros [g p sk [] []]; done.
Qed.

(** A worker on version 1 with key 5, and a fresh process *)
Definition wit_args : InitArgs := mkInitArgs false false 0 0 false 0.
Definition wit_state : RuntimeState := mkRuntimeState ∅ (mkBus [] (mkMessageDispatcher ∅ 0)) wit_sync2 wit_genesis 44 7.
Definition wit_process (provider : option AttestationProvider) (state : option RuntimeState) (sealed : option bytes) :
    Process (Sys := RefSys) (Effects := unit) (Cluster := unit) :=
  mkProcess (mkPhactory wit_args false provider [] None state None [] None None None 0 true true false [] None)
    Benchmark.initial (MasterKey.mkFiles true sealed).
Definition wit_server (provider : AttestationProvider) :=
  wit_process (Some provider) (Some wit_state) (Some ([44; 7; 1; 0] ++ secret_of 5)).
Definition wit_client := wit_process None None None.
Definition wit_iv : bytes := replicate 12 3.

Lemma epid_handover_unchecked_witness : exists challenge s1 ek s2,
  handover_create_challenge (sgx := ref_sgx 1) [8] (wit_server Dcap) = Ok challenge s1
  /\ handover_start (sgx := ref_sgx 1) (Some (mkChallengeHandlerInfo challenge [] 66)) None wit_iv 0 s1 = Ok (ek, None) s2
  /\ Crypto.decrypt_secret_from (66 : Keypair) (ek_ecdh_pubkey (ewk_encrypted_key ek)) (encrypted_key (ewk_encrypted_key ek))
       (ek_iv (ewk_encrypted_key ek)) tt = Ok (secret_of 5) tt.
Proof.
  destruct (epid_handover_unchecked (A := ref_sgx 1) (wit_server Dcap) wit_state 5 [8] 66 wit_iv 0 [])
    as (challenge & s1 & ek & s2 & H1 & H2 & Ho); [done|done|done| |done|].
  - split; [done|]. by do 2 eexists.
  - exists challenge, s1, ek, s2. split_and!; [exact H1|exact H2|apply Ho].
Defined.

Lemma dcap_handover_delivers_witness : exists c2 : Process (Sys := RefSys) (Effects := unit) (Cluster := unit),
  load_runtime_data c2 = Ok (Some (mkPersistentRuntimeData 44 7 (secret_of 5) false false)) c2.
Proof.
  destruct (dcap_handover_delivers (A := ref_sgx 1) (B := ref_sgx 2) (wit_server Dcap) wit_client wit_state 5 [8] 66 wit_iv 200 230)
    as (? & ? & ? & ? & ? & ? & ? & ? & c2 & _ & _ & _ & _ & Hl & _);
    [done|done|done| |done|by vm_compute|by vm_compute|by vm_compute| |done|done|].
  - split; [done|]. by do 2 eexists.
  - exists 10, 20. split_and!; by vm_compute.
  - exists c2. exact Hl.
Defined.

(** Version 2 on the same machine answers the worker's EPID challenge. *)
Definition wit_asked := final (handover_create_challenge (sgx := ref_sgx 1) [8]) (wit_server Ias).
Definition wit_local_report : bytes :=
  match SgxLite.report (sgx := ref_sgx 2) (own_target (ref_sgx 1)) (replicate 64 0) with
  | Some r => encode_report (Sgx := ref_sgx 2) r
  | None => []
  end.
Definition wit_answer : option ChallengeHandlerInfo :=
  (fun c => mkChallengeHandlerInfo c wit_local_report 66) <$> ph_handover_last_challenge (phactory wit_asked).
Definition wit_attestation : option bytes := (fun h => hash_bytes (encode_ChallengeHandlerInfo h)) <$> wit_answer.
Abbreviation wit_handover :=
  (handover_start (Sys := RefSys) (Effects := unit) (Cluster := unit) (sgx := ref_sgx 1) wit_answer wit_attestation wit_iv 0).


End Witnesses.
End HandoverProps.
