(* ===== verification/PhactoryProps.v ===== *)
(** * The RPC server: properties

    [System] is given the blocks of the chain, in order and once each, with the
    storage of each block; a dispatch on a clone of the state is the dispatch
    under the lock; a worker is attested only over a state that proved right. *)
From stdpp Require Import prelude gmap list strings.
From Stdlib Require Import ZArith Lia Sorted.
From S2P Require Import Prelude Types Externals BalanceConvert Reference Registry Attestation SendQueue Dispatcher Benchmark WorkerSM Crypto Economics GatekeeperPr System Replica PrReference KeyProps MemDb LightClient StorageSync LightClientProps StorageSyncProps SyncProps Phactory Handover PhReference.

Module PhactoryProps.
Import Phactory LightClientProps StorageSyncProps.

(** ** A system and the blocks it was given *)
Definition Trace : Type := list (Z * H256).

Section Traced.
Context {P : PrCrypto} {Sys Effects Cluster : Type}.
Abbreviation Queues := (gmap MessageOrigin Channel).

Definition under {A} (m : M (Sys * Queues * Bus) RpcError A) : M (Sys * Trace * Queues * Bus) RpcError A :=
  fun '(y, tr, q, b) =>
  match m (y, q, b) with
  | Ok a (y, q, b) => Ok a (y, tr, q, b)
  | Err e (y, q, b) => Err e (y, tr, q, b)
  | Panic => Panic
  | NoFuel => NoFuel
  end.

(** The block and the root of the storage it comes with *)
Definition note (block : BlockInfo) (storage : TrieStorage) : M (Sys * Trace * Queues * Bus) RpcError unit :=
  modify (fun '(y, tr, q, b) => (y, tr ++ [(block_number block, root storage)], q, b)).

(** Any system, noting each block before it is processed *)
Definition traced (api : SystemApi Sys Effects Cluster) : SystemApi (Sys * Trace) Effects Cluster := {|
  sys_new k e q b := let '(y, q, b) := sys_new k e q b in (y, [], q, b);
  sys_identity_key y := sys_identity_key (fst y);
  sys_ecdh_key y := sys_ecdh_key (fst y);
  sys_registered y := sys_registered (fst y);
  sys_block_number y := sys_block_number (fst y);
  sys_set_genesis_block n y := (sys_set_genesis_block n (fst y), snd y);
  sys_is_gatekeeper y := sys_is_gatekeeper (fst y);
  sys_in_cluster y := sys_in_cluster (fst y);
  sys_install_cluster c y := (sys_install_cluster c (fst y), snd y);
  sys_will_process_block block storage := note block storage;;; under (sys_will_process_block block storage);
  sys_process_messages block storage := under (sys_process_messages block storage);
  sys_did_process_block block storage := under (sys_did_process_block block storage);
  sys_apply_side_effects f storage y := (sys_apply_side_effects f storage (fst y), snd y);
|}.

Lemma keeps_under {A} (m : M (Sys * Queues * Bus) RpcError A) : keeps (fun c => snd (fst (fst c))) (under m).
Proof. intros [[[y tr] q] b]. unfold wp, under. simpl. by destruct (m _) as [? [[] ?]|? [[] ?]| |]. Qed.

End Traced.

Section Executes.
Context {prof : Profile} {cfg : Config} {codec : Codec} {K : PrCrypto} {G : Grandpa} {T : TrieLib}.
Context {rc : RpcCodec} {pal : PlatformLib} {R : ChainReader}.
Context {Sys Effects Cluster : Type} (api : SystemApi Sys Effects Cluster).
#[local] Instance tapi : SystemApi (Sys * Trace) Effects Cluster := traced api.
Abbreviation Proc := (Process (Sys := Sys * Trace) (Effects := Effects) (Cluster := Cluster)).
Implicit Types s : Proc.

(** What the synchronization of blocks is about *)
Definition obs s : InitArgs * option (Synchronizer LightValidation * TrieStorage * Z) * option Trace :=
  (ph_args (phactory s),
   (fun x => (storage_synchronizer x, chain_storage x, rs_para_id x)) <$> ph_runtime_state (phactory s),
   snd <$> ph_system (phactory s)).

Lemma keeps_bus {A} (m : M Bus RpcError A) :
  keeps (fun c : Sys * Trace * gmap MessageOrigin Channel * Bus => snd (fst (fst c))) (on_bus m).
Proof. intros [[[y tr] q] b]. unfold wp, on_bus. simpl. by destruct (m _). Qed.

(** A block is noted before the system sees it. *)
Lemma process_block_notes block storage y tr q b :
  wp True (process_block (api := tapi) block storage)
    (fun _ c => snd (fst (fst c)) = tr ++ [(block_number block, root storage)])
    (fun _ c => snd (fst (fst c)) = tr \/ snd (fst (fst c)) = tr ++ [(block_number block, root storage)]) (y, tr, q, b).
Proof.
  unfold process_block. apply wp_bind. eapply wp_mono; [apply (keeps_bus Dispatcher.reset_local_index)| |by left].
  intros [] [[[y1 tr1] q1] b1] Htr. simpl in Htr. subst tr1. apply wp_bind. simpl sys_will_process_block.
  apply wp_bind, wp_modify. eapply wp_mono; [apply keeps_under| |by right]. intros [] c1 Hc1. simpl in Hc1.
  assert (keeps (fun c : Sys * Trace * gmap MessageOrigin Channel * Bus => snd (fst (fst c)))
    (for_each (ChainStorage.mq_messages storage) (fun message =>
       let* _ := on_bus (Dispatcher.dispatch message) in sys_process_messages block storage);;;
     sys_did_process_block block storage;;; let* _ := on_bus Dispatcher.clear in mret tt)) as Hk.
  { repeat first [apply keeps_bind; [|intros ?]|apply keeps_for_each; intros ?|apply keeps_bus|apply keeps_under|apply keeps_ret]. }
  eapply wp_mono; [apply Hk| |].
  - intros a c2 Hc2. simpl in Hc2. congruence.
  - intros e c2 Hc2. right. simpl in Hc2. congruence.
Qed.

Lemma keeps_update (f : Phactory -> Phactory) :
  (forall s, obs (mkProcess (f (phactory s)) (proc_bench s) (proc_files s)) = obs s) -> keeps obs (update f : M Proc RpcError unit).
Proof. intros Hf. unfold update. by apply keeps_modify. Qed.

Lemma keeps_put (x y : RuntimeState) s :
  ph_runtime_state (phactory s) = Some x -> storage_synchronizer y = storage_synchronizer x -> chain_storage y = chain_storage x ->
  rs_para_id y = rs_para_id x -> wp True (put_state y) (fun _ s' => obs s' = obs s) (fun _ s' => obs s' = obs s) s.
Proof. intros Hx H1 H2 H3. unfold put_state, update. apply wp_modify. unfold obs. rewrite Hx. cbn. by rewrite H1, H2, H3. Qed.

Lemma keeps_purge : keeps obs (purge_mq : M Proc RpcError unit).
Proof.
  intros s. unfold purge_mq, runtime_state, get. apply wp_bind, wp_bind, wp_gets, wp_ok_or; [|done]. intros x Hx.
  destruct (SendQueue.purge _ _) as [? q|? q| |]; [by apply (keeps_put x)| |done..].
  apply wp_bind. eapply wp_mono; [by apply (keeps_put x)|done|done].
Qed.

Lemma keeps_requirements : keeps obs (check_requirements : M Proc RpcError unit).
Proof. unfold check_requirements, get. solve_keeps. Qed.

Lemma keeps_take_checkpoint clock : keeps obs (take_checkpoint clock : M Proc RpcError Z).
Proof. unfold take_checkpoint, get, current_block, runtime_state, system, get, update. solve_keeps. Qed.

Lemma keeps_maybe_checkpoint clock : keeps obs (maybe_take_checkpoint clock : M Proc RpcError unit).
Proof.
  unfold maybe_take_checkpoint, get. repeat first [apply keeps_take_checkpoint|keeps_step].
Qed.

Lemma keeps_cluster clock : keeps obs (maybe_apply_cluster_state (api := tapi) clock).
Proof.
  intros s. unfold maybe_apply_cluster_state, get. apply wp_bind, wp_gets.
  destruct (ph_system (phactory s)) as [[y tr]|] eqn:Hy; [|done].
  destruct (ph_runtime_state (phactory s)) as [x|] eqn:Hx; [|done].
  destruct (ph_cluster_state_to_apply _) as [cs|]; [|done]. unfold update. apply wp_bind, wp_modify.
  case_match; [done|]. case_match; [done|]. case_match; [done|].
  apply wp_bind, wp_modify, wp_bind. unfold put_state, update. apply wp_modify, wp_bind, wp_catch.
  match goal with |- wp _ _ _ _ ?s' => assert (obs s' = obs s) as Ho by (unfold obs; simpl; by rewrite Hx, Hy) end.
  eapply wp_mono; [apply keeps_take_checkpoint| |]; intros a s' Hs'; apply wp_ret; exact (eq_trans Hs' Ho).
Qed.

(** ** The invariant *)
Context {spec : GrandpaSpec} {C : Chain} {links : ChainLinks (C := C)}.
Context {P : Chain} {plinks : ChainLinks (C := P)} {key : bytes} {hc : HeaderCodec} {ps : ParaSpec C P key}.
Context {safe : ChainSafety (C := C)} {sound : TrieSound (C := C)} {ta : TrieApplies T}.

(** Blocks of the chain before [next], in their order, each with its state *)
Definition genuine (h : nat -> Header) (next : Z) (tr : Trace) : Prop :=
  StronglySorted Z.lt tr.*1
  /\ Forall (fun e => 0 <= fst e < next /\ snd e = state_root (h (Z.to_nat (fst e)))) tr.

Abbreviation good := (Good (C := C) (P := P) (vs := light_validator_spec (C := C) 1)).
Abbreviation chain := (chain_of (V := LightValidation) (C := C) (P := P)).

(** The process follows chain [h]: its next block is [next], it has given [tr] to the system. *)
Definition following (h : nat -> Header) (next : Z) (tr : Trace) s : Prop :=
  exists y t i, obs s = (ph_args (phactory s), Some (y, t, i), Some tr) /\ safe_mode_level (ph_args (phactory s)) = 0
    /\ heads_key i = key /\ chain y = h /\ next_block y = next /\ 1 <= next /\ good y t /\ genuine h next tr.

Lemma following_obs h next tr s s' : obs s' = obs s -> following h next tr s -> following h next tr s'.
Proof.
  intros Ho (y & t & i & Hs & Hrest). exists y, t, i. rewrite Ho.
  assert (ph_args (phactory s') = ph_args (phactory s)) as Ha by (unfold obs in Ho; congruence). by rewrite Ha.
Qed.

Lemma keeps_following {A} (m : M Proc RpcError A) h next tr s :
  keeps obs m -> following h next tr s -> wp True m (fun _ => following h next tr) (fun _ => following h next tr) s.
Proof. intros Hk Hf. eapply wp_mono; [apply Hk| |]; simpl; intros a s' Hs'; by eapply following_obs. Qed.

(** A step that the synchronization does not see *)
Lemma wp_follow {A} (m : M Proc RpcError A) (Q : A -> Proc -> Prop) h next tr s :
  keeps obs m -> following h next tr s -> (forall a s', obs s' = obs s -> following h next tr s' -> Q a s') ->
  wp True m Q (fun _ s' => exists next' tr', following h next' tr' s') s.
Proof.
  intros Hk Hf HQ. eapply wp_mono; [apply Hk| |]; simpl; intros a s' Hs'.
  - apply HQ; [done|]. by eapply following_obs.
  - exists next, tr. by eapply following_obs.
Qed.

Lemma following_state h next tr s : following h next tr s ->
  exists x y, ph_runtime_state (phactory s) = Some x /\ ph_system (phactory s) = Some (y, tr)
    /\ safe_mode_level (ph_args (phactory s)) = 0 /\ heads_key (rs_para_id x) = key
    /\ chain (storage_synchronizer x) = h /\ next_block (storage_synchronizer x) = next
    /\ 1 <= next /\ good (storage_synchronizer x) (chain_storage x) /\ genuine h next tr.
Proof.
  intros (y & t & i & Ho & Hrest). unfold obs in Ho. destruct (ph_runtime_state (phactory s)) as [x|]; [|done].
  destruct (ph_system (phactory s)) as [[y0 tr0]|]; [|done]. simpl in Ho. simplify_eq. by exists x, y0.
Qed.

(** How to follow, in one line *)
Lemma follow h next tr s x y : ph_runtime_state (phactory s) = Some x -> ph_system (phactory s) = Some (y, tr) ->
  safe_mode_level (ph_args (phactory s)) = 0 -> heads_key (rs_para_id x) = key ->
  chain (storage_synchronizer x) = h -> next_block (storage_synchronizer x) = next -> 1 <= next ->
  good (storage_synchronizer x) (chain_storage x) -> genuine h next tr -> following h next tr s.
Proof.
  intros Hx Hy. intros. exists (storage_synchronizer x), (chain_storage x), (rs_para_id x). unfold obs. rewrite Hx, Hy. done.
Qed.

Lemma genuine_later h next next' tr : next <= next' -> genuine h next tr -> genuine h next' tr.
Proof. intros Hle [Hs Hf]. split; [done|]. eapply Forall_impl; [exact Hf|]. simpl. intros e [? ?]. split; [lia|done]. Qed.

Lemma genuine_snoc h n tr : 0 <= n -> genuine h n tr -> genuine h (n + 1) (tr ++ [(n, state_root (h (Z.to_nat n)))]).
Proof.
  intros Hn Hg. pose proof (genuine_later h n (n + 1) tr ltac:(lia) Hg) as [Hs Hf]. destruct Hg as [_ Hlt]. split.
  - rewrite fmap_app. simpl. clear Hf. induction tr as [|e tr IH]; simpl in *; [by repeat constructor|].
    inversion Hs; subst. inversion Hlt; subst. constructor; [by apply IH|].
    apply Forall_app. split; [done|]. constructor; [lia|done].
  - apply Forall_app. split; [done|]. constructor; [|done]. simpl. split; [lia|done].
Qed.

(** ** Blocks *)
(** A block is fed: the storage is the chain's at that block. *)
Lemma feed_follows_chain h next tr s block : following h next tr s ->
  wp True (on_storage (Sync.feed_block block false))
    (fun _ s' => number (block_header block) = next /\ following h (next + 1) tr s'
       /\ exists x, ph_runtime_state (phactory s') = Some x /\ root (chain_storage x) = state_root (h (Z.to_nat next)))
    (fun _ => following h next tr) s.
Proof.
  intros Hf. destruct (following_state _ _ _ _ Hf) as (x & y & Hx & Hy & Ha & Hk & Hc & Hn & Hle & Hg & Htr).
  unfold on_storage, runtime_state, get. apply wp_bind, wp_bind, wp_gets. rewrite Hx. apply wp_ret.
  pose proof (feed_good (C := C) (P := P) _ _ block Hg) as Hw. unfold wp in Hw.
  destruct (Sync.feed_block _ _ _) as [a [z t]|e [z t]| |]; [| |done..]; unfold put_state, update; apply wp_bind, wp_modify.
  - destruct Hw as (Hg' & Hnum & Hn' & Hv & Hc'). simpl in *. apply wp_ret. split; [congruence|].
    assert (chain z = h) as Hz by congruence. assert (next_block z = next + 1) as Hn2 by lia.
    split; [|eexists; split; [reflexivity|]].
    + eapply follow; simpl; try done; [lia|]. apply (genuine_later h next); [lia|done].
    + simpl. rewrite (good_at_tip (C := C) (P := P) z t Hg' Hv), Hn2. unfold chain_of in Hz |- *. rewrite Hz. do 2 f_equal. lia.
  - destruct Hw as (Hg' & Ht & Hn' & Hc'). cbn [fst snd] in *. subst t h next. apply wp_fail. by eapply follow.
Qed.

(** The system gets the block. *)
Lemma inbound_follows h n tr s x sys_time : following h (n + 1) tr s -> genuine h n tr -> 0 <= n ->
  ph_runtime_state (phactory s) = Some x -> root (chain_storage x) = state_root (h (Z.to_nat n)) ->
  wp True (handle_inbound_messages (api := tapi) n sys_time)
    (fun _ => following h (n + 1) (tr ++ [(n, state_root (h (Z.to_nat n)))]))
    (fun _ s' => exists tr', following h (n + 1) tr' s') s.
Proof.
  intros Hf Htr Hn0 Hx Hroot. destruct (following_state _ _ _ _ Hf) as (x' & y & Hx' & Hy & Ha & Hk & Hc & Hn & Hle & Hg & Htr').
  simplify_eq. pose proof (genuine_snoc _ n tr Hn0 Htr) as Hsnoc.
  unfold handle_inbound_messages, on_core, runtime_state, system, get. apply wp_bind, wp_bind, wp_gets. rewrite Hx.
  apply wp_ret, wp_bind, wp_bind, wp_bind, wp_gets. rewrite Hx. apply wp_ret, wp_bind, wp_bind, wp_gets. rewrite Hy. apply wp_ret.
  pose proof (process_block_notes (mkBlockInfo n (ChainStorage.timestamp_now (chain_storage x))) (chain_storage x)
    y tr (send_mq x) (recv_mq x)) as Hw. unfold wp in Hw. rewrite Hroot in Hw. cbn [block_number] in Hw.
  destruct (process_block _ _ _) as [[] [[[y' tr'] q] b]|e [[[y' tr'] q] b]| |]; [| |done..];
    unfold put_state, update; apply wp_bind, wp_modify; [|apply wp_bind]; apply wp_modify.
  - apply wp_bind, wp_arith_any; [lia|done|]. intros limit _. apply wp_modify. simpl in Hw. subst tr'.
    by eapply follow.
  - apply wp_fail. exists tr'. destruct Hw as [Hw|Hw]; simpl in Hw; subst tr'; by eapply follow.
Qed.

Lemma dispatch_block_follows h next tr s sys_time clock block : following h next tr s ->
  wp True (dispatch_block (api := tapi) sys_time clock block)
    (fun _ s' => number (block_header block) = next /\ following h (next + 1) (tr ++ [(next, state_root (h (Z.to_nat next)))]) s')
    (fun _ s' => exists next' tr', following h next' tr' s') s.
Proof.
  intros Hf. destruct (following_state _ _ _ _ Hf) as (_ & _ & _ & _ & Ha & _ & _ & _ & Hle & _ & Htr).
  unfold dispatch_block, get. apply wp_bind, wp_gets. rewrite Ha. apply wp_bind.
  change (1 <? 0) with false. change (0 <? 0) with false. cbv iota.
  eapply wp_mono; [by apply (feed_follows_chain h next tr)| |by intros e s' ?; exists next, tr].
  intros [] s1 (Hnum & Hf1 & x & Hx & Hroot).
  apply wp_bind, (wp_follow _ _ h (next + 1) tr); [apply keeps_purge|done|]. intros [] s2 Hs2 Hf2.
  apply wp_bind, (wp_follow _ _ h (next + 1) tr); [unfold system, get; solve_keeps|done|]. intros _ s3 Hs3 Hf3.
  apply wp_bind, (wp_follow _ _ h (next + 1) tr); [apply keeps_requirements|done|]. intros [] s4 Hs4 Hf4.
  assert (exists x4, ph_runtime_state (phactory s4) = Some x4 /\ chain_storage x4 = chain_storage x) as (x4 & Hx4 & Hst).
  { assert (obs s4 = obs s1) as Ho by congruence. unfold obs in Ho. rewrite Hx in Ho.
    destruct (ph_runtime_state (phactory s4)) as [x4|]; [|done]. exists x4. simpl in Ho. by simplify_eq. }
  apply wp_bind. rewrite Hnum. eapply wp_mono; [apply (inbound_follows h next tr _ x4); try done; [lia|congruence]| |intros e s' [tr' ?]; by exists (next + 1), tr'].
  intros [] s5 Hf5. apply wp_bind, (wp_follow _ _ h (next + 1) _ _ (keeps_cluster clock) Hf5). intros [] s6 _ Hf6.
  apply wp_bind, wp_catch. eapply wp_mono; [apply (keeps_maybe_checkpoint clock)| |]; intros a s7 Hs7; apply wp_ret;
    (split; [done|exact (following_obs _ _ _ _ _ Hs7 Hf6)]).
Qed.

(** A list of blocks *)
Lemma dispatch_list_follows h sys_time clock (l : list BlockHeaderWithChanges) next tr s : following h next tr s ->
  wp True (for_each l (dispatch_block (api := tapi) sys_time clock))
    (fun _ s' => exists tr', following h (next + Z.of_nat (length l)) (tr ++ tr') s'
       /\ tr' = (fun b => (number (block_header b), state_root (h (Z.to_nat (number (block_header b)))))) <$> l
       /\ tr'.*1 = seqZ next (Z.of_nat (length l)))
    (fun _ s' => exists next' tr', following h next' tr' s') s.
Proof.
  revert next tr s. induction l as [|block l IH]; intros next tr s Hf.
  - apply wp_ret. exists []. rewrite app_nil_r. simpl. by rewrite Z.add_0_r.
  - cbn [for_each length]. apply wp_bind. eapply wp_mono; [by apply (dispatch_block_follows h next tr)| |done].
    intros [] s1 [Hnum Hf1]. eapply wp_mono; [exact (IH (next + 1) _ s1 Hf1)| |done].
    intros [] s2 (tr' & Hf2 & Htr & Hnums). exists ((next, state_root (h (Z.to_nat next))) :: tr'). split_and!.
    + rewrite <- app_assoc in Hf2. by replace (next + Z.of_nat (S (length l))) with (next + 1 + Z.of_nat (length l)) by lia.
    + by rewrite fmap_cons, Hnum, Htr.
    + rewrite fmap_cons, Hnums, (seqZ_cons next) by lia. simpl. do 2 f_equal; lia.
Qed.

(** The blocks of a request that are not behind, all of them given to the system *)
Definition taken (next : Z) (blocks : list BlockHeaderWithChanges) : list BlockHeaderWithChanges :=
  filter (fun b => next <= number (block_header b)) blocks.

Lemma dispatch_blocks_follows h next tr s sys_time clock blocks : following h next tr s ->
  wp True (dispatch_blocks (api := tapi) sys_time clock blocks)
    (fun _ s' => exists tr', following h (next + Z.of_nat (length (taken next blocks))) (tr ++ tr') s'
       /\ tr' = (fun b => (number (block_header b), state_root (h (Z.to_nat (number (block_header b)))))) <$> taken next blocks
       /\ tr'.*1 = seqZ next (Z.of_nat (length (taken next blocks))))
    (fun _ s' => exists next' tr', following h next' tr' s') s.
Proof.
  intros Hf. destruct (following_state _ _ _ _ Hf) as (x & y & Hx & Hy & Ha & Hk & Hc & Hn & Hle & Hg & Htr).
  unfold dispatch_blocks, runtime_state, get. apply wp_bind, wp_bind, wp_gets. rewrite Hx. apply wp_ret.
  apply wp_bind, wp_arith_any; [lia|done|]. intros synced _. apply wp_bind.
  unfold next_block in Hn. rewrite Hn. fold (taken next blocks).
  eapply wp_mono; [by apply (dispatch_list_follows h)| |done]. done.
Qed.

Lemma keeps_effects f : keeps obs (apply_side_effects (api := tapi) f).
Proof.
  intros s. unfold apply_side_effects, get, update. apply wp_bind, wp_gets. case_match; [case_match; [done|by apply wp_modify]|].
  destruct (ph_runtime_state (phactory s)) as [x|] eqn:Hx; [|done].
  destruct (ph_system (phactory s)) as [[y tr]|] eqn:Hy; [|done]. apply wp_modify. unfold obs. simpl. by rewrite Hx, Hy.
Qed.

Lemma keeps_lock a b : keeps obs (lock_phactory a b : M Proc RpcError unit).
Proof. unfold lock_phactory, get. solve_keeps. Qed.

Lemma keeps_query f : keeps obs (query_effects (api := tapi) f).
Proof. apply keeps_bind; [apply keeps_lock|intros _; apply keeps_effects]. Qed.

Lemma keeps_report p d now : keeps obs (create_attestation_report_on p d now : M Proc RpcError AttestationResponse).
Proof.
  unfold create_attestation_report_on, get. apply keeps_bind; [apply keeps_gets|]. intros a. apply keeps_bind; [|intros; apply keeps_ret].
  generalize 0. induction (Z.to_nat _) as [|n IH]; intros t; simpl; solve_keeps.
Qed.

Lemma keeps_get_runtime_info b o now : keeps obs (get_runtime_info (api := tapi) b o now).
Proof.
  unfold get_runtime_info, system, runtime_state, update_runtime_info, compat_app_version, get, update.
  repeat first [apply keeps_report|keeps_step].
Qed.

(** ** Headers *)
Lemma on_synchronizer_follows {A} (m : M (Synchronizer LightValidation) SyncError A) h next tr s :
  following h next tr s ->
  (forall y t, good y t -> wp True m (fun _ y' => good y' t /\ next_block y' = next_block y /\ chain y' = chain y)
     (fun _ y' => y' = y) y) ->
  wp True (on_synchronizer m) (fun _ => following h next tr) (fun _ => following h next tr) s.
Proof.
  intros Hf Hm. destruct (following_state _ _ _ _ Hf) as (x & y & Hx & Hy & Ha & Hk & Hc & Hn & Hle & Hg & Htr).
  unfold on_synchronizer, runtime_state, get. apply wp_bind, wp_bind, wp_gets. rewrite Hx. apply wp_ret.
  specialize (Hm _ _ Hg). unfold wp in Hm. destruct (m _) as [a z|e z| |]; [| |done..]; unfold put_state, update; apply wp_bind, wp_modify.
  - destruct Hm as (Hg' & Hn' & Hc'). apply wp_ret. subst h next. rewrite <- Hn', <- Hc' in *. by eapply follow.
  - subst z. apply wp_fail. by eapply follow.
Qed.

Lemma sync_header_follows h next tr s headers change : following h next tr s -> request_ok (hs_header <$> headers) ->
  wp True (sync_header headers change) (fun _ => following h next tr) (fun _ => following h next tr) s.
Proof.
  intros Hf Hreq. unfold sync_header. apply wp_bind. eapply wp_mono; [apply keeps_following; [|exact Hf]| |done].
  { apply keeps_update. done. }
  intros [] s1 Hf1. apply on_synchronizer_follows; [done|]. intros y t Hg.
  pose proof (sync_header_good (C := C) (P := P) y t headers change Hg Hreq) as Hw. unfold wp in *. by destruct (Sync.sync_header _ _ _).
Qed.

Lemma sync_para_follows h next tr s headers proof : following h next tr s -> request_ok headers ->
  wp True (sync_para_header headers proof) (fun _ => following h next tr) (fun _ => following h next tr) s.
Proof.
  intros Hf Hreq. destruct (following_state _ _ _ _ Hf) as (x & y & Hx & Hy & Ha & Hk & _).
  unfold sync_para_header, runtime_state, get. apply wp_bind, wp_bind, wp_gets. rewrite Hx. apply wp_ret. rewrite Hk.
  apply on_synchronizer_follows; [done|]. intros z t Hg.
  pose proof (sync_parachain_good (C := C) (P := P) z t headers proof Hg Hreq) as Hw. unfold wp in *.
  by destruct (Sync.sync_parachain_header _ _ _ _).
Qed.

(** ** Requests *)
Definition rpc_ok (r : Rpc (Effects := Effects)) : Prop :=
  match r with
  | SyncHeader headers _ => request_ok (hs_header <$> headers)
  | SyncParaHeader headers _ => request_ok headers
  | SyncCombinedHeaders relay _ para _ => request_ok (hs_header <$> relay) /\ (para = [] \/ request_ok para)
  | _ => True
  end.

(** The clone is put back. *)
Lemma finish_follows {A} (k : M Proc RpcError A) h s s0 : (exists next tr, following h next tr s) ->
  keeps obs k ->
  wp True (rcu_finish (api := tapi) (phactory s);;; k) (fun _ s' => exists next tr, following h next tr s')
    (fun _ s' => exists next tr, following h next tr s') s0.
Proof.
  intros (next & tr & Hf) Hk. unfold rcu_finish, get, update. apply wp_bind, wp_bind, wp_gets, wp_bind, wp_modify.
  set (s1 := mkProcess (phactory s) _ _). assert (following h next tr s1) as Hf1 by (by eapply following_obs; [|exact Hf]).
  eapply (wp_follow _ _ h next tr); [apply keeps_for_each; intros; apply keeps_effects|done|].
  intros [] s2 _ Hf2. eapply (wp_follow _ _ h next tr); [done|done|]. by eauto.
Qed.

(** The dispatch on a clone *)
Lemma clone_follows h next tr s sys_time clock blocks (during : M Proc RpcError unit) : following h next tr s ->
  keeps obs during ->
  wp True (rpc_dispatch_blocks (api := tapi) sys_time clock blocks during)
    (fun _ s' => exists next' tr', following h next' tr' s') (fun _ s' => exists next' tr', following h next' tr' s') s.
Proof.
  intros Hf Hd. assert (forall s1, obs s1 = obs s -> following h next tr s1) as Hsame by (intros; by eapply following_obs).
  unfold rpc_dispatch_blocks, rcu_begin, get. apply wp_bind, wp_bind, (wp_follow _ _ h next tr); [apply keeps_lock|done|].
  intros [] s1 Ho1 Hf1. apply wp_bind, wp_gets, wp_bind, wp_gets. case_match.
  { apply wp_bind. eapply wp_mono; [by apply (dispatch_blocks_follows h next tr)| |done].
    intros n s2 (tr' & Hf2 & _). do 2 apply wp_ret. by do 2 eexists. }
  unfold update. apply wp_bind, wp_modify, wp_ret, wp_bind. eapply (wp_follow _ _ h next tr); [done|by eapply following_obs; [|exact Hf1]|].
  intros [] s2 _ _. set (s3 := mkProcess (phactory s1) (proc_bench s2) (proc_files s2)).
  assert (following h next tr s3) as Hf3 by (by eapply following_obs; [|exact Hf1]).
  pose proof (dispatch_blocks_follows h next tr s3 sys_time clock blocks Hf3) as Hw. unfold wp in Hw. unfold wp at 1. cbv beta zeta. fold s3.
  destruct (dispatch_blocks _ _ _ s3) as [n s4|e s4| |]; [| |done..]; apply finish_follows;
    [|apply keeps_ret|done|apply keeps_fail]. destruct Hw as (tr' & Hf4 & _). by do 2 eexists.
Qed.

Lemma serve_follows h next tr s r : following h next tr s -> rpc_ok r ->
  wp True (serve (api := tapi) r) (fun _ s' => exists next' tr', following h next' tr' s')
    (fun _ s' => exists next' tr', following h next' tr' s') s.
Proof.
  intros Hf Hr. destruct r as [headers change|headers proof|relay change para proof|t c blocks fs|b o now|f]; simpl in *.
  - apply wp_bind, (wp_follow _ _ h next tr); [apply keeps_lock|done|]. intros [] s1 _ Hf1. apply wp_bind.
    eapply wp_mono; [by apply (sync_header_follows h next tr)| |by intros e s' ?; exists next, tr]. intros n s2 Hf2. apply wp_ret. by exists next, tr.
  - apply wp_bind, (wp_follow _ _ h next tr); [apply keeps_lock|done|]. intros [] s1 _ Hf1. apply wp_bind.
    eapply wp_mono; [by apply (sync_para_follows h next tr)| |by intros e s' ?; exists next, tr]. intros n s2 Hf2. apply wp_ret. by exists next, tr.
  - destruct Hr as [Hr1 Hr2]. apply wp_bind, (wp_follow _ _ h next tr); [apply keeps_lock|done|]. intros [] s1 _ Hf1.
    unfold sync_combined_headers. apply wp_bind, wp_bind.
    eapply wp_mono; [by apply (sync_header_follows h next tr)| |by intros e s' ?; exists next, tr]. intros n s2 Hf2. apply wp_bind. case_bool_decide.
    + eapply (wp_follow _ _ h next tr); [|done|intros m s3 _ Hf3; do 2 apply wp_ret; by exists next, tr].
      unfold runtime_state, get. solve_keeps.
    + destruct Hr2 as [->|Hr2]; [done|]. eapply wp_mono; [by apply (sync_para_follows h next tr)| |by intros e s' ?; exists next, tr].
      intros m s3 Hf3. do 2 apply wp_ret. by exists next, tr.
  - apply wp_bind. eapply wp_mono; [apply (clone_follows h next tr); [done|]| |done]; [|intros n s1 Hs1; by apply wp_ret].
    apply keeps_for_each. intros f. apply keeps_query.
  - apply wp_bind, (wp_follow _ _ h next tr); [apply keeps_lock|done|]. intros [] s1 _ Hf1.
    apply wp_bind, (wp_follow _ _ h next tr); [apply keeps_get_runtime_info|done|]. intros i s2 _ Hf2. apply wp_ret. by exists next, tr.
  - eapply (wp_follow _ _ h next tr); [apply keeps_query|done|]. intros [] s1 _ ?. by exists next, tr.
Qed.

(** ** Initialization *)
Lemma bridge_tracks proof :
  wp True (LightClient.initialize_bridge (canon (Chain := C) (origin (Chain := C))) (origin_set (Chain := C)) proof)
    (fun id v => id = 1 /\ tracks (C := C) 1 0 v) (fun _ _ => True) LightClient.new.
Proof.
  unfold LightClient.initialize_bridge. apply wp_bind, wp_look.
  { unfold LightClient.check_validator_set_proof, LightClient.read_value, LightClient.context. solve_keeps. }
  intros [] _. apply wp_bind, wp_gets, wp_bind. unfold wp at 1. rewrite arith_fits by (simpl; lia).
  apply wp_bind, wp_modify, wp_bind, wp_modify, wp_ret. split; [done|]. unfold tracks. simpl. by rewrite Nat.add_0_r.
Qed.

Lemma keeps_local {S E A} e (m : M S E A) (s0 : S) :
  keeps (fun s => ph_args (phactory s)) (local e m s0 : M Proc RpcError (A * S)).
Proof. intros s. unfold local. by destruct (m s0). Qed.

Lemma keeps_init_data g i k nk : keeps (fun s => ph_args (phactory s)) (init_runtime_data g i k nk : M Proc RpcError _).
Proof. unfold init_runtime_data, save_runtime_data, load_runtime_data. solve_keeps. Qed.

Lemma keeps_decode_keys d : keeps (fun s => ph_args (phactory s)) (decode_keys d : M Proc RpcError _).
Proof.
  assert (forall A (m : M Proc CryptoError A), keeps (fun s => s) m -> keeps (fun s => ph_args (phactory s)) (crypto m)) as Hc.
  { intros A m Hm s. specialize (Hm s). unfold wp, crypto in *. by destruct (m s); subst. }
  unfold decode_keys, Crypto.restore_from_secret_key, Crypto.derive_ecdh_key, Ecdh.from_secret.
  repeat first [apply Hc; solve_keeps|keeps_step].
Qed.

(** The genesis of the chain is what the worker is started with. *)
Definition genesis_ok (genesis : GenesisBlockInfo) : Prop :=
  gen_block_header genesis = canon (Chain := C) (origin (Chain := C)) /\ gen_authority_set genesis = origin_set (Chain := C).

Lemma keeps_version : keeps (fun s => ph_args (phactory s)) (compat_app_version : M Proc RpcError Z).
Proof. unfold compat_app_version. solve_keeps. Qed.

Lemma synchronizer_good is_para (light : LightValidation) n t : tracks (C := C) 1 0 light -> 0 <= n < 2 ^ 32 ->
  let y := if is_para : bool then Sync.new_parachain light 1 n else Sync.new_solochain light 1 in
  good y t /\ next_block y = 1.
Proof.
  intros Ht Hn y. split; [|by destruct is_para].
  apply (reach_good (C := C) (P := P) (key := key)). destruct is_para; [by apply reach_para|by apply reach_solo].
Qed.

Lemma init_follows s is_para genesis gstate op dbg provider nk : genesis_ok genesis ->
  safe_mode_level (ph_args (phactory s)) = 0 ->
  wp True (init_runtime (api := tapi) is_para genesis gstate op dbg provider nk)
    (fun _ s' => exists x, ph_runtime_state (phactory s') = Some x
       /\ (heads_key (rs_para_id x) = key -> following (chain (storage_synchronizer x)) 1 [] s')) (fun _ _ => True) s.
Proof.
  intros [Hh Hset] Ha. unfold init_runtime, get. apply wp_bind, wp_gets. case_match; [done|].
  rewrite Hh, Hset. apply wp_bind, (wp_frame (fun s => ph_args (phactory s))); [apply keeps_local|]. intros st s1 H1.
  apply wp_bind, (wp_frame (fun s => ph_args (phactory s))).
  { destruct dbg; [apply keeps_bind; [apply keeps_ok_or|intros]|]; apply keeps_init_data. }
  intros data s2 H2. unfold update. do 3 (apply wp_bind, wp_modify). do 2 (apply wp_bind, wp_ensure; [intros _|done]).
  apply wp_bind, (wp_frame (fun s => ph_args (phactory s))); [apply keeps_decode_keys|]. intros [ik ek] s3 H3.
  apply wp_bind, wp_arith_any; [lia|done|]. intros n Hn. apply wp_bind, wp_expect_ok.
  pose proof (bridge_tracks (gen_proof genesis)) as Hw. unfold wp in Hw. unfold local.
  destruct (LightClient.initialize_bridge _ _ _ _) as [id light| | |]; [|done..]. destruct Hw as [-> Ht]. apply wp_ret.
  destruct (synchronizer_good is_para light n (snd st) Ht Hn) as [Hg Hnext]. set (y := if is_para then _ else _) in *.
  apply wp_bind, wp_ensure; [intros _|done]. destruct (sys_new _ _ _ _) as [[[z tr] q] b] eqn:Hnew.
  assert (tr = []) as ->. { simpl in Hnew. by destruct (sys_new _ _ _ _) as [[] ?]; simplify_eq. }
  apply wp_bind, (wp_frame (fun s => ph_args (phactory s))); [apply keeps_version|]. intros v s4 H4. simpl in H2, H3.
  apply wp_bind, wp_gets, wp_bind, wp_modify, wp_bind. unfold put_state, update. apply wp_modify, wp_bind, wp_modify, wp_ret.
  eexists. split; [done|]. intros Hk. eapply follow; simpl; try done; [congruence|by split; constructor].
Qed.

(** ** Runs *)
Inductive rpc_run (s0 : Proc) : Proc -> Prop :=
| run_start : rpc_run s0 s0
| run_ok s r s' : rpc_run s0 s -> rpc_ok r -> serve (api := tapi) r s = Ok tt s' -> rpc_run s0 s'
| run_err s r e s' : rpc_run s0 s -> rpc_ok r -> serve (api := tapi) r s = Err e s' -> rpc_run s0 s'.

Lemma run_follows h s0 s : (exists next tr, following h next tr s0) -> rpc_run s0 s -> exists next tr, following h next tr s.
Proof.
  intros Hs0. induction 1 as [|s r s' _ (next & tr & Hf) Hr Hs|s r e s' _ (next & tr & Hf) Hr Hs]; [done|..].
  - exact (wp_ok _ _ _ _ _ _ _ (serve_follows h next tr s r Hf Hr) Hs).
  - exact (wp_err _ _ _ _ _ _ _ (serve_follows h next tr s r Hf Hr) Hs).
Qed.

(** C3: A worker executes the finalized chain.  After [init_runtime] with the
    genesis of the chain, whatever sequence of synchronization RPCs, queries and
    dispatches is served and however each of them ends, the blocks that were
    given to the system are blocks of the chain that were finalized, in strictly
    increasing order, each with a storage whose root is the state root of that
    block; a dispatch that returns has given the system exactly the blocks of
    the request from the next one on, without a gap. *)
Theorem system_executes_chain s00 is_para genesis gstate op dbg provider nk info s0 s :
  genesis_ok genesis -> safe_mode_level (ph_args (phactory s00)) = 0 ->
  init_runtime (api := tapi) is_para genesis gstate op dbg provider nk s00 = Ok info s0 ->
  (forall x, ph_runtime_state (phactory s0) = Some x -> heads_key (rs_para_id x) = key) ->
  rpc_run s0 s ->
  exists x y tr, ph_runtime_state (phactory s) = Some x /\ ph_system (phactory s) = Some (y, tr)
    /\ let next := next_block (storage_synchronizer x) in
       let root_of n := state_root (chain (storage_synchronizer x) (Z.to_nat n)) in
       StronglySorted Z.lt tr.*1 /\ Forall (fun e => 0 <= fst e < next /\ snd e = root_of (fst e)) tr
       /\ forall sys_time clock blocks n s', dispatch_blocks (api := tapi) sys_time clock blocks s = Ok n s' ->
          exists y' tr', ph_system (phactory s') = Some (y', tr ++ tr')
            /\ tr' = (fun b => (number (block_header b), root_of (number (block_header b)))) <$> taken next blocks
            /\ tr'.*1 = seqZ next (Z.of_nat (length (taken next blocks))).
Proof.
  intros Hgen Ha Hinit Hkey Hrun.
  destruct (wp_ok _ _ _ _ _ _ _ (init_follows s00 is_para genesis gstate op dbg provider nk Hgen Ha) Hinit) as (x0 & Hx0 & Hf0).
  specialize (Hf0 (Hkey x0 Hx0)).
  destruct (run_follows _ s0 s ltac:(by eauto) Hrun) as (next & tr & Hf).
  destruct (following_state _ _ _ _ Hf) as (x & y & Hx & Hy & _ & _ & Hc & Hn & _ & _ & Hs & Hall).
  exists x, y, tr. split; [done|]. split; [done|]. rewrite Hc, Hn. split; [done|]. split; [done|].
  intros sys_time clock blocks n s' Hd.
  destruct (wp_ok _ _ _ _ _ _ _ (dispatch_blocks_follows _ next tr s sys_time clock blocks Hf) Hd) as (tr' & Hf' & Htr & Hnums).
  destruct (following_state _ _ _ _ Hf') as (x' & y' & _ & Hy' & _). by exists y', tr'.
Qed.

End Executes.
(** ** The dispatch on a clone *)
Section Rcu.
Context {prof : Profile} {cfg : Config} {codec : Codec} {K : PrCrypto} {G : Grandpa} {T : TrieLib}.
Context {rc : RpcCodec} {pal : PlatformLib} {R : ChainReader}.
Context {Sys Effects Cluster : Type} {api : SystemApi Sys Effects Cluster}.
Abbreviation Proc := (Process (Sys := Sys) (Effects := Effects) (Cluster := Cluster)).
Implicit Types s : Proc.

(** Queries leave their effects for later. *)
Lemma queries_queue fs s : ph_rcu_dispatching (phactory s) = true -> safe_mode_level (ph_args (phactory s)) = 0 ->
  (length (ph_pending_effects (phactory s)) + length fs <= MAX_PENDING)%nat ->
  for_each fs query_effects s
  = Ok tt (mkProcess (set_pending_effects (ph_pending_effects (phactory s) ++ fs) (phactory s)) (proc_bench s) (proc_files s)).
Proof.
  revert s. induction fs as [|f fs IH]; intros s Hr Ha Hlen.
  - simpl. rewrite app_nil_r. unfold mret. f_equal. by destruct s as [[] ? ?].
  - cbn [for_each]. unfold mbind at 1. unfold query_effects at 1, lock_phactory, apply_side_effects, get, update.
    unfold mbind, gets, ensure. rewrite Hr, Ha. cbn -[Nat.leb MAX_PENDING].
    rewrite Hr. rewrite (proj2 (Nat.leb_gt _ _)) by (simpl in Hlen; lia). unfold modify.
    rewrite IH; simpl; [|done|done|rewrite length_app; simpl in *; lia]. by rewrite <- app_assoc.
Qed.


(** ** Attestation *)

(** A report is made by the platform. *)
Lemma report_made p d now s (Q : AttestationResponse -> Proc -> Prop) :
  (forall a, at_provider a = p -> at_timestamp a = now ->
     (exists tried, create_attestation_report p d tried = Some (at_encoded_report a)) -> Q a s) ->
  wp True (create_attestation_report_on p d now) Q (fun _ _ => True) s.
Proof.
  intros HQ. unfold create_attestation_report_on, get. apply wp_bind, wp_gets, wp_bind.
  generalize 0. induction (Z.to_nat _) as [|n IH]; intros t; simpl;
    (destruct (create_attestation_report p d t) as [r|] eqn:Hr; [apply wp_ret, wp_ret, HQ; [done|done|by exists t]|]); [done|].
  case_match; [done|]. apply IH.
Qed.

(** The information that is cached, after the operator was set *)
Lemma update_info_clears f s (Q : unit -> Proc -> Prop) :
  (forall s', allow_attestation (phactory s') = allow_attestation (phactory s) ->
     ph_attestation_provider (phactory s') = ph_attestation_provider (phactory s) ->
     (forall r, ph_runtime_info (phactory s') = Some r -> ri_attestation r = None) -> Q tt s') ->
  wp True (update_runtime_info f) Q (fun _ _ => True) s.
Proof.
  intros HQ. unfold update_runtime_info, get, update. apply wp_bind, wp_gets.
  destruct (ph_runtime_info (phactory s)) as [r|] eqn:Hr; [|apply wp_ret, HQ; try done; by rewrite Hr].
  apply wp_bind, wp_expect_some; [|done]. intros i _. apply wp_bind, wp_look.
  { unfold compat_app_version. solve_keeps. }
  intros v _. apply wp_modify, HQ; [done|done|]. by intros r' [= <-].
Qed.

(** Why a worker may be attested *)
Definition attestable (p : Phactory (Sys := Sys) (Effects := Effects) (Cluster := Cluster)) : Prop :=
  exists y x, ph_system p = Some y /\ ph_runtime_state p = Some x /\ Sync.state_validated (storage_synchronizer x) = true
    /\ (ph_trusted_sk p = true \/ sys_registered y = true \/ ph_attestation_provider p = None).

Lemma allow_attestable p : allow_attestation p = true -> attestable p.
Proof.
  unfold allow_attestation. destruct (ph_system p) as [y|] eqn:Hy; [|done]. destruct (ph_runtime_state p) as [x|] eqn:Hx; [|done].
  intros [Hv Hk]%andb_true_iff. exists y, x. split_and!; [done..|].
  apply orb_true_iff in Hk as [[Hk|Hk]%orb_true_iff|Hk%bool_decide_eq_true_1]; auto.
Qed.

(** The report in what is returned: made now, or cached and fresh *)
Definition report_of s (refresh_ra : bool) (operator : option AccountId) (now : Z) (info : RuntimeInfo) (a : AttestationResponse) : Prop :=
  (attestable (phactory s) /\ at_provider a = ph_attestation_provider (phactory s) /\ at_timestamp a = now
   /\ exists tried, create_attestation_report (ph_attestation_provider (phactory s))
        (h256_bytes (blake2_256 (ri_encoded_runtime_info info))) tried = Some (at_encoded_report a))
  \/ (refresh_ra = false /\ operator = None /\ ph_runtime_info (phactory s) = Some info).

Lemma cached_report s (refresh_ra : bool) (operator : option AccountId) now s1 cached :
  (operator = None -> s1 = s) -> (operator <> None -> forall r, ph_runtime_info (phactory s1) = Some r -> ri_attestation r = None) ->
  ph_runtime_info (phactory s1) = Some cached ->
  wp True (match ri_attestation cached with
    | None => mret cached
    | Some a =>
        let* stale := (if refresh_ra || bool_decide (is_Some operator) then mret true
                       else let* limit := arith 64 (at_timestamp a + MAX_ATTESTATION_AGE) in mret (limit <? now)) in
        if stale then
          update (set_runtime_info (Some (with_attestation None cached)));;;
          mret (with_attestation None cached)
        else mret cached
    end) (fun c s' => allow_attestation (phactory s') = allow_attestation (phactory s1)
       /\ ph_attestation_provider (phactory s') = ph_attestation_provider (phactory s1)
       /\ (ri_attestation c <> None -> refresh_ra = false /\ operator = None /\ ph_runtime_info (phactory s) = Some c))
    (fun _ _ => True) s1.
Proof.
  intros Hnone Hsome Hc. destruct (ri_attestation cached) as [a|] eqn:Hat; [|by apply wp_ret].
  apply wp_bind. destruct (refresh_ra || bool_decide (is_Some operator)) eqn:Hre.
  - apply wp_ret. unfold update. apply wp_bind, wp_modify, wp_ret. by simpl.
  - apply orb_false_iff in Hre as [-> Hop%bool_decide_eq_false_1]. assert (operator = None) as -> by by destruct operator; [destruct Hop|].
    apply wp_bind, wp_arith_any; [lia|done|]. intros limit _. apply wp_ret. destruct (limit <? now); [unfold update; apply wp_bind, wp_modify|];
      apply wp_ret; simpl; [done|]. rewrite <- (Hnone eq_refl). done.
Qed.

(** C33: A worker is attested only over a state that proved right.  Whenever
    [get_runtime_info] returns a report, either it is the cached one, and
    neither a new report nor a new operator was asked for, or it was made now,
    by the provider of the worker, over the hash of exactly the registration
    that is returned, while the state the worker started from has been checked
    against a finalized state root, and the identity key was generated in the
    enclave or is registered on the chain (or there is no attestation at all). *)
Theorem attested_over_validated_state s refresh_ra operator now info s' a :
  get_runtime_info refresh_ra operator now s = Ok info s' -> ri_attestation info = Some a ->
  report_of s refresh_ra operator now info a.
Proof.
  intros Hrun Ha.
  assert (wp True (get_runtime_info refresh_ra operator now)
    (fun info _ => forall a, ri_attestation info = Some a -> report_of s refresh_ra operator now info a) (fun _ _ => True) s) as Hw;
    [|exact (wp_ok _ _ _ _ _ _ _ Hw Hrun a Ha)].
  clear. unfold get_runtime_info, system, runtime_state, get. apply wp_bind, wp_bind, wp_gets, wp_ok_or; [intros y Hy|done].
  apply wp_bind, wp_bind, wp_gets, wp_ok_or; [intros x Hx|done]. apply wp_bind, wp_gets, wp_bind.
  eapply wp_mono with (R := fun _ _ => True) (Q := fun _ s1 => allow_attestation (phactory s1) = allow_attestation (phactory s)
    /\ ph_attestation_provider (phactory s1) = ph_attestation_provider (phactory s) /\ (operator = None -> s1 = s)
    /\ (operator <> None -> forall r, ph_runtime_info (phactory s1) = Some r -> ri_attestation r = None)); [| |done].
  { case_bool_decide as Hop; [apply update_info_clears; intros; split_and!; [done..|by intros ->; destruct Hop|done]|].
    apply wp_ret. split_and!; [done..|]. intros Hne. by destruct operator; [destruct Hop|]. }
  intros [] s1 (Hal & Hp & Hnone & Hsome). apply wp_bind, wp_gets, wp_bind, wp_ok_or; [|done]. intros cached Hc.
  apply wp_bind. eapply wp_mono; [by apply (cached_report s refresh_ra operator now s1 cached)| |done].
  intros c s2 (Hal2 & Hp2 & Hcached). destruct (allow_attestation (phactory s) && bool_decide (ri_attestation c = None)) eqn:Hnew.
  - apply andb_true_iff in Hnew as [Hallow _]. apply wp_bind, wp_gets, wp_bind. rewrite Hp2, Hp. apply report_made.
    intros r Hpr Hts Hmade. unfold update. apply wp_bind, wp_modify, wp_ret. intros a [= <-]. left.
    split_and!; [by apply allow_attestable|done|done|done].
  - apply wp_ret. intros a Hat. right. apply Hcached. by rewrite Hat.
Qed.

End Rcu.
(** ** Witnesses, on the reference process *)
Section Witnesses.
Import RefInstances PrInstances SyncProps PhReference.
#[local] Existing Instances ref_rpc_codec ref_platform ref_reader.

(** A parachain worker, initialized; then the headers of SyncProps.v, and the first block *)
Definition wit_fresh {Sys} : Process (Sys := Sys) (Effects := unit) (Cluster := unit) :=
  mkProcess (mkPhactory (mkInitArgs false false 0 0 false 0) false None [] None None None [] None None None 0 true false false [] None)
    Benchmark.initial (MasterKey.mkFiles true None).
Definition wit_gen : GenesisBlockInfo := mkGenesisBlockInfo (ref_canon 0) (mkAuthoritySet (ref_authorities 0) 0) [[0]].
#[local] Instance wit_traced : SystemApi (RefSys * Trace) unit unit := traced ref_system.
Abbreviation wit_init := (init_runtime (api := wit_traced) true wit_gen [([200], [])] None None (Some Dcap) (5 : Pair)).
Definition wit_sync : Rpc (Effects := unit) := SyncCombinedHeaders wit_headers None (ref_pcanon <$> [0; 1; 2]%nat) [[0]].
Definition wit_dispatch : Rpc (Effects := unit) := DispatchBlocks 0 0 [wit_block] [tt].
Definition wit_p0 := final wit_init wit_fresh.
Definition wit_p1 := final (serve (api := wit_traced) wit_sync) wit_p0.
Definition wit_p2 := final (serve (api := wit_traced) wit_dispatch) wit_p1.

Lemma wit_rpc_run : rpc_run ref_system wit_p0 wit_p2.
Proof.
  eapply (run_ok _ _ wit_p1 wit_dispatch); [eapply (run_ok _ _ wit_p0 wit_sync); [apply run_start|..]|done|].
  - split; [|right]; (split; [done|]); repeat constructor; simpl; lia.
  - unfold wit_p1. apply returns_final. by vm_compute.
  - unfold wit_p2. apply returns_final. by vm_compute.
Qed.

Lemma system_executes_chain_witness : exists x y tr,
  ph_runtime_state (phactory wit_p2) = Some x /\ ph_system (phactory wit_p2) = Some (y, tr) /\ tr = [(1, 201)]
  /\ Forall (fun e => 0 <= fst e < next_block (storage_synchronizer x)) tr.
Proof.
  assert (exists info, wit_init wit_fresh = Ok info wit_p0) as [info Hinit] by (unfold wit_p0; vm_compute; by eexists).
  destruct (system_executes_chain ref_system (C := ref_chain) (P := ref_para) (key := ref_para_key)
    wit_fresh true wit_gen [([200], [])] None None (Some Dcap) 5 info wit_p0 wit_p2)
    as (x & y & tr & Hx & Hy & _ & Hall & _); [done|done|exact Hinit| |exact wit_rpc_run|].
  - assert (rs_para_id <$> ph_runtime_state (phactory wit_p0) = Some 7) as H7 by by vm_compute.
    intros x Hx. rewrite Hx in H7. injection H7 as H7. rewrite H7. by vm_compute.
  - exists x, y, tr. split; [exact Hx|]. split; [exact Hy|]. split.
    + assert (snd <$> ph_system (phactory wit_p2) = Some [(1, 201)]) as Ht by by vm_compute. rewrite Hy in Ht. by injection Ht.
    + eapply Forall_impl; [exact Hall|]. intros e [He _]. exact He.
Defined.


(** The worker asks for a report after its first block. *)
Abbreviation wit_info := (get_runtime_info (api := wit_traced) true None 1000).

Lemma attested_over_validated_state_witness : exists info a s',
  wit_info wit_p2 = Ok info s' /\ ri_attestation info = Some a /\ attestable (api := wit_traced) (phactory wit_p2).
Proof.
  assert (match wit_info wit_p2 with Ok info _ => bool_decide (is_Some (ri_attestation info)) | _ => false end = true) as Hr by by vm_compute.
  destruct (wit_info wit_p2) as [info s'| | |] eqn:Hrun; try discriminate Hr.
  apply bool_decide_eq_true_1 in Hr. destruct Hr as [a Ha]. exists info, a, s'. split; [reflexivity|]. split; [exact Ha|].
  destruct (attested_over_validated_state (api := wit_traced) wit_p2 true None 1000 info s' a Hrun Ha) as [[Hat _]|[Hf _]];
    [exact Hat|discriminate Hf].
Defined.

End Witnesses.
End PhactoryProps.
