(* ===== verification/Relate.v ===== *)
(** * Pairs of computations

    Two runs that stay related and give the same results: the tool with which the
    replicas of a computation are compared. *)
From stdpp Require Import prelude list.
From Stdlib Require Import ZArith Lia.
From S2P Require Import Prelude.

Section Related.
Context {S1 S2 E : Type} {P : Prop}.
Implicit Types R : S1 -> S2 -> Prop.

(** What two outcomes have in common: both return, with results related by [T], or both
    fail with the same error; [P] tells whether one side may panic alone. *)
Definition alike {A B} (T : A -> B -> Prop) R (o1 : outcome S1 E A) (o2 : outcome S2 E B) : Prop :=
  match o1, o2 with
  | Ok a s1, Ok b s2 => T a b /\ R s1 s2
  | Err e s1, Err e' s2 => e = e' /\ R s1 s2
  | Panic, Panic => True
  | NoFuel, NoFuel => True
  | Panic, _ | _, Panic => P
  | _, _ => False
  end.

Definition related {A B} (T : A -> B -> Prop) R (m1 : M S1 E A) (m2 : M S2 E B) : Prop :=
  forall s1 s2, R s1 s2 -> alike T R (m1 s1) (m2 s2).

Definition coupled {A} R (m1 : M S1 E A) (m2 : M S2 E A) : Prop := related eq R m1 m2.

Lemma related_ret {A B} (T : A -> B -> Prop) R a b : T a b -> related T R (mret a) (mret b).
Proof. by intros HT s1 s2 HR. Qed.

Lemma related_bind {A B A' B'} (T : A -> A' -> Prop) (U : B -> B' -> Prop) R (m1 : M S1 E A) (m2 : M S2 E A')
    (k1 : A -> M S1 E B) (k2 : A' -> M S2 E B') :
  related T R m1 m2 -> (forall a b, T a b -> related U R (k1 a) (k2 b)) -> related U R (mbind m1 k1) (mbind m2 k2).
Proof.
  intros Hm Hk s1 s2 HR. specialize (Hm s1 s2 HR). unfold mbind.
  destruct (m1 s1) as [a1 t1|e1 t1| |], (m2 s2) as [a2 t2|e2 t2| |]; simpl in Hm; try done.
  - destruct Hm as [HT HR']. by apply Hk.
  - by destruct (k1 a1 t1).
  - by destruct (k2 a2 t2).
Qed.

Lemma related_weaken {A B} (T U : A -> B -> Prop) R (m1 : M S1 E A) (m2 : M S2 E B) :
  related T R m1 m2 -> (forall a b, T a b -> U a b) -> related U R m1 m2.
Proof. intros Hm HU s1 s2 HR. specialize (Hm s1 s2 HR). unfold alike in *. destruct (m1 s1), (m2 s2); naive_solver. Qed.

Lemma coupled_ret {A} R (a : A) : coupled R (mret a) (mret a).
Proof. by apply related_ret. Qed.

Lemma coupled_bind {A B} R (m1 : M S1 E A) (m2 : M S2 E A) (k1 : A -> M S1 E B) (k2 : A -> M S2 E B) :
  coupled R m1 m2 -> (forall a, coupled R (k1 a) (k2 a)) -> coupled R (mbind m1 k1) (mbind m2 k2).
Proof. intros Hm Hk. eapply related_bind; [exact Hm|]. intros a ? <-. apply Hk. Qed.

Lemma related_fail {A B} (T : A -> B -> Prop) R (e : E) : related T R (fail e) (fail e).
Proof. by intros s1 s2 HR. Qed.

Lemma related_panic {A B} (T : A -> B -> Prop) R : related T R panic panic.
Proof. by intros s1 s2 HR. Qed.

Lemma coupled_fail {A} R (e : E) : coupled (A := A) R (fail e) (fail e).
Proof. apply related_fail. Qed.

Lemma coupled_panic {A} R : coupled (A := A) R panic panic.
Proof. apply related_panic. Qed.

Lemma related_gets {A B} (T : A -> B -> Prop) R (f1 : S1 -> A) (f2 : S2 -> B) :
  (forall s1 s2, R s1 s2 -> T (f1 s1) (f2 s2)) -> related T R (gets f1) (gets f2).
Proof. intros Hf s1 s2 HR. simpl. auto. Qed.

Lemma coupled_gets {A} R (f1 : S1 -> A) (f2 : S2 -> A) :
  (forall s1 s2, R s1 s2 -> f1 s1 = f2 s2) -> coupled R (gets f1) (gets f2).
Proof. apply related_gets. Qed.

Lemma coupled_modify R f1 f2 : (forall s1 s2, R s1 s2 -> R (f1 s1) (f2 s2)) -> coupled R (modify f1) (modify f2).
Proof. intros Hf s1 s2 HR. simpl. auto. Qed.

Lemma coupled_ensure R b (e : E) : coupled R (ensure b e) (ensure b e).
Proof. unfold ensure. destruct b; [apply coupled_ret|apply coupled_fail]. Qed.

Lemma coupled_ok_or {A} R (o : option A) (e : E) : coupled R (ok_or o e) (ok_or o e).
Proof. unfold ok_or. destruct o; [apply coupled_ret|apply coupled_fail]. Qed.

Lemma coupled_expect_some {A} R (o : option A) : coupled R (expect_some o) (expect_some o).
Proof. unfold expect_some. destruct o; [apply coupled_ret|apply coupled_panic]. Qed.

Lemma coupled_catch {A} R (m1 : M S1 E A) (m2 : M S2 E A) : coupled R m1 m2 -> coupled R (catch m1) (catch m2).
Proof.
  intros Hm s1 s2 HR. specialize (Hm s1 s2 HR). unfold catch. destruct (m1 s1), (m2 s2); simpl in *; try done; by destruct Hm as [<- ?].
Qed.

Lemma coupled_for_each {A} R (l : list A) (b1 : A -> M S1 E unit) (b2 : A -> M S2 E unit) :
  (forall x, coupled R (b1 x) (b2 x)) -> coupled R (for_each l b1) (for_each l b2).
Proof. intros Hb. induction l; simpl; [apply coupled_ret|]. by apply coupled_bind. Qed.

Lemma coupled_for_fold {A B} R (l : list A) (b : B) (b1 : B -> A -> M S1 E B) (b2 : B -> A -> M S2 E B) :
  (forall y x, coupled R (b1 y x) (b2 y x)) -> coupled R (for_fold l b b1) (for_fold l b b2).
Proof. intros Hb. revert b. induction l; intros b; simpl; [apply coupled_ret|]. by apply coupled_bind. Qed.

Lemma coupled_arith {prof : Profile} R w z : coupled R (arith w z) (arith w z).
Proof. unfold arith. repeat case_match; first [apply coupled_ret|apply coupled_panic]. Qed.

(** A step of both sides that need not do the same *)
Lemma coupled_silent R (m1 : M S1 E unit) (m2 : M S2 E unit) :
  (forall s1, exists s1', m1 s1 = Ok tt s1' /\ forall s2, R s1 s2 -> R s1' s2) ->
  (forall s2, exists s2', m2 s2 = Ok tt s2' /\ forall s1, R s1 s2 -> R s1 s2') ->
  coupled R m1 m2.
Proof.
  intros H1 H2 s1 s2 HR. destruct (H1 s1) as (s1' & E1 & HR1). destruct (H2 s2) as (s2' & E2 & HR2).
  rewrite E1, E2. simpl. split; [done|]. apply HR1, HR2, HR.
Qed.

End Related.

Create HintDb coupled.
Ltac coupled_step :=
  lazymatch goal with
  | |- forall _, _ => intro
  | |- coupled _ (mret _) (mret _) => apply coupled_ret
  | |- coupled _ panic panic => apply coupled_panic
  | |- coupled _ (fail _) (fail _) => apply coupled_fail
  | |- coupled _ (ensure _ _) (ensure _ _) => apply coupled_ensure
  | |- coupled _ (ok_or _ _) (ok_or _ _) => apply coupled_ok_or
  | |- coupled _ (expect_some _) (expect_some _) => apply coupled_expect_some
  | |- coupled _ (arith _ _) (arith _ _) => apply coupled_arith
  | |- coupled _ (catch _) (catch _) => apply coupled_catch
  | |- coupled _ (for_each ?l _) (for_each ?l _) => apply coupled_for_each
  | |- coupled _ (for_fold ?l ?b _) (for_fold ?l ?b _) => apply coupled_for_fold
  | |- coupled _ (mbind _ _) (mbind _ _) => first [solve [eauto 2 with coupled nocore] | apply coupled_bind]
  | |- coupled _ (match ?x with _ => _ end) (match ?x with _ => _ end) => destruct x eqn:?
  | |- coupled _ _ _ => solve [eauto with coupled]
  end.
Ltac solve_coupled := repeat (coupled_step; cbv beta).

(** ** Views

    Two runs over the same type of state that agree on a view of it: a step that
    leaves the view alone may be done by one side only. *)
Section View.
Context {S E V : Type} (view : S -> V).

Definition same_view (s1 s2 : S) : Prop := view s1 = view s2.

(** A step that returns or panics, and leaves the view alone *)
Definition silent {A} (m : M S E A) : Prop := forall s,
  match m s with
  | Ok _ s' => view s' = view s
  | Panic => True
  | Err _ _ | NoFuel => False
  end.

Lemma silent_ret {A} (a : A) : silent (mret a).
Proof. by intros s. Qed.

Lemma silent_bind {A B} (m : M S E A) (k : A -> M S E B) : silent m -> (forall a, silent (k a)) -> silent (mbind m k).
Proof.
  intros Hm Hk s. specialize (Hm s). unfold mbind. destruct (m s) as [a s'| | |]; try done. rewrite <- Hm. apply Hk.
Qed.

Lemma silent_panic {A} : silent (panic (A := A)).
Proof. by intros s. Qed.

Lemma silent_gets {A} (f : S -> A) : silent (gets f).
Proof. by intros s. Qed.

Lemma silent_modify f : (forall s, view (f s) = view s) -> silent (modify f).
Proof. intros Hf s. apply Hf. Qed.

Lemma silent_expect_some {A} (o : option A) : silent (expect_some o).
Proof. intros s. by destruct o. Qed.

Lemma silent_for_each {A} (l : list A) b : (forall x, silent (b x)) -> silent (for_each l b).
Proof. intros Hb. induction l; simpl; [apply silent_ret|]. by apply silent_bind. Qed.

Lemma silent_for_fold {A B} (l : list A) (y : B) b : (forall y x, silent (b y x)) -> silent (for_fold l y b).
Proof. intros Hb. revert y. induction l; intros y; simpl; [apply silent_ret|]. by apply silent_bind. Qed.

Lemma silent_arith {prof : Profile} w z : silent (arith w z).
Proof. intros s. unfold arith. destruct (in_width w z), overflow_checks; by simpl. Qed.

Lemma silent_div_u a b : silent (div_u a b).
Proof. intros s. unfold div_u. by destruct (b =? 0)%Z. Qed.

(** Each side does its own. *)
Lemma related_silent {A B} (m1 : M S E A) (m2 : M S E B) : silent m1 -> silent m2 ->
  related (P := True) (fun _ _ => True) same_view m1 m2.
Proof.
  intros H1 H2 s1 s2 HR. specialize (H1 s1). specialize (H2 s2). unfold alike, same_view in *.
  destruct (m1 s1), (m2 s2); try done. split; [done|]. congruence.
Qed.

Lemma coupled_local (m1 m2 : M S E unit) : silent m1 -> silent m2 -> coupled (P := True) same_view m1 m2.
Proof. intros H1 H2. eapply related_weaken; [by apply related_silent|]. by intros [] []. Qed.

End View.

Create HintDb silent.
#[export] Hint Resolve silent_ret silent_panic silent_gets silent_expect_some silent_arith silent_div_u : silent.
Ltac silent_step :=
  lazymatch goal with
  | |- forall _, _ => intro
  | |- silent _ (mbind _ _) => apply silent_bind
  | |- silent _ (for_each _ _) => apply silent_for_each
  | |- silent _ (for_fold _ _ _) => apply silent_for_fold
  | |- silent _ (match ?x with _ => _ end) => destruct x eqn:?
  | |- silent _ _ => solve [eauto with silent]
  end.
Ltac solve_silent := repeat (silent_step; cbv beta).

(** ** Transitions

    Computations that return, fail or panic, and whose states before and after are
    related. *)
Section Moves.
Context {S E : Type} (R : relation S).

Definition moves {A} (m : M S E A) : Prop := forall s,
  match m s with
  | Ok _ s' | Err _ s' => R s s'
  | Panic => True
  | NoFuel => False
  end.

Lemma moves_halts {A} (m : M S E A) : halts m -> (forall s, wp True m (fun _ s' => R s s') (fun _ s' => R s s') s) -> moves m.
Proof. intros Hh Hm s. specialize (Hh s). specialize (Hm s). unfold wp in Hm. by destruct (m s). Qed.

Lemma moves_modify f : (forall s, R s (f s)) -> moves (modify f).
Proof. intros Hf s. apply Hf. Qed.

Context `{!PreOrder R}.

Lemma moves_ret {A} (a : A) : moves (mret a).
Proof. intros s. simpl. reflexivity. Qed.

Lemma moves_bind {A B} (m : M S E A) (k : A -> M S E B) : moves m -> (forall a, moves (k a)) -> moves (mbind m k).
Proof.
  intros Hm Hk s. specialize (Hm s). unfold mbind. destruct (m s) as [a s'|e s'| |]; try done.
  specialize (Hk a s'). destruct (k a s'); try done; by etrans.
Qed.

Lemma moves_fail {A} e : moves (fail (A := A) e).
Proof. intros s. simpl. reflexivity. Qed.

Lemma moves_panic {A} : moves (panic (A := A)).
Proof. by intros s. Qed.

Lemma moves_gets {A} (f : S -> A) : moves (gets f).
Proof. intros s. simpl. reflexivity. Qed.

Lemma moves_expect_some {A} (o : option A) : moves (expect_some o).
Proof. intros s. destruct o; simpl; [reflexivity|done]. Qed.

Lemma moves_arith {prof : Profile} w z : moves (arith w z).
Proof. intros s. unfold arith. destruct (in_width w z); [simpl; reflexivity|]. destruct overflow_checks; [done|simpl; reflexivity]. Qed.

Lemma moves_div_u a b : moves (div_u a b).
Proof. intros s. unfold div_u. destruct (b =? 0)%Z; [done|simpl; reflexivity]. Qed.

Lemma moves_for_each {A} (l : list A) b : (forall x, moves (b x)) -> moves (for_each l b).
Proof. intros Hb. induction l; simpl; [apply moves_ret|]. by apply moves_bind. Qed.

Lemma moves_for_fold {A B} (l : list A) (y : B) b : (forall y x, moves (b y x)) -> moves (for_fold l y b).
Proof. intros Hb. revert y. induction l; intros y; simpl; [apply moves_ret|]. by apply moves_bind. Qed.

End Moves.

Create HintDb moves.
#[export] Hint Resolve moves_ret moves_fail moves_panic moves_gets moves_expect_some moves_arith moves_div_u : moves.
Ltac moves_step :=
  lazymatch goal with
  | |- forall _, _ => intro
  | |- moves _ (mbind _ _) => apply moves_bind; [solve [typeclasses eauto]|..]
  | |- moves _ (for_each _ _) => apply moves_for_each; [solve [typeclasses eauto]|..]
  | |- moves _ (for_fold _ _ _) => apply moves_for_fold; [solve [typeclasses eauto]|..]
  | |- moves _ (match ?x with _ => _ end) => destruct x eqn:?
  | |- moves _ _ => solve [eauto with moves typeclass_instances]
  end.
Ltac solve_moves := repeat (moves_step; cbv beta).
