(* ===== verification/LocalCache.v ===== *)
(** * The local cache of contracts: crates/pink/chain-extension/src/local_cache.rs

    Values that the contracts of a worker keep outside the replicated state, with
    a quota and an expiration, and the quotas a worker gives to its contracts by
    their weights (crates/phactory/src/contracts/support/keeper.rs).  Times are
    seconds; an operation that reads the clock several times gets a reading for
    each of them. *)
From stdpp Require Import prelude gmap list sorting.
From Stdlib Require Import ZArith Lia.
From S2P Require Import Prelude Types.

Inductive StorageQuotaExceeded := QuotaExceeded.

(** [CacheOp] of crates/pink/pink/src/lib.rs *)
Inductive CacheOp :=
| CacheSet (key value : bytes)
| CacheSetExpiration (key : bytes) (expiration : Z)
| CacheRemove (key : bytes).

Record StorageValue := mkStorageValue {
  expire_at : Z;
  value : bytes;
}.

(** [Storage] *)
Record CacheStorage := mkCacheStorage {
  cs_size : Z;
  max_size : Z;
  kvs : gmap bytes StorageValue;
}.

Record LocalCache := mkLocalCache {
  gc_interval : Z;
  sets_since_last_gc : Z;
  default_value_lifetime : Z;
  storages : gmap bytes CacheStorage;
}.

(** The order of [Vec<u8>] *)
Fixpoint bytes_le (a b : bytes) : bool :=
  match a, b with
  | [], _ => true
  | _ :: _, [] => false
  | x :: a, y :: b => (x <? y) || ((x =? y) && bytes_le a b)
  end.

(** The order of [fit_size]: the pairs of a [BTreeMap] after the stable
    [sort_by_key] on the expiration *)
Definition expires_before (x y : bytes * StorageValue) : Prop :=
  (expire_at x.2 <? expire_at y.2) || ((expire_at x.2 =? expire_at y.2) && bytes_le x.1 y.1) = true.

#[export] Instance expires_before_dec : RelDecision expires_before.
Proof. intros x y. unfold expires_before. apply _. Defined.

Definition len (b : bytes) : Z := Z.of_nat (length b).

(** What a pair counts for *)
Definition pair_size (k : bytes) (v : StorageValue) : Z := len k + len (value v).

Definition saturating_add64 (a b : Z) : Z := Z.min (a + b) (2 ^ 64 - 1).

Module Cache.

(** ** [Storage] *)
Section Storage.
Context {prof : Profile}.
Abbreviation C := (M CacheStorage StorageQuotaExceeded).

Definition new_storage (max : Z) : CacheStorage := mkCacheStorage 0 max ∅.

Definition set_kvs (x : gmap bytes StorageValue) (s : CacheStorage) : CacheStorage :=
  mkCacheStorage (cs_size s) (max_size s) x.
Definition set_size (x : Z) (s : CacheStorage) : CacheStorage := mkCacheStorage x (max_size s) (kvs s).
Definition set_max_size (x : Z) (s : CacheStorage) : CacheStorage := mkCacheStorage (cs_size s) x (kvs s).

(** [self.size -= n] *)
Definition shrink (n : Z) : C unit :=
  let* size := gets cs_size in
  let* size := arith 64 (size - n) in
  modify (set_size size).

Definition fit_size : C unit :=
  let* s := gets (fun s => s) in
  if cs_size s <=? max_size s then mret tt
  else
    modify (set_kvs ∅);;;
    for_each (merge_sort expires_before (map_to_list (kvs s))) (fun kv =>
      let* s := gets (fun s => s) in
      if cs_size s <=? max_size s then modify (fun s => set_kvs (<[kv.1 := kv.2]> (kvs s)) s)
      else shrink (pair_size kv.1 kv.2)).

Definition clear_expired_storage (now : Z) : C unit :=
  let* s := gets (fun s => s) in
  for_each (map_to_list (kvs s)) (fun kv =>
    if now <? expire_at kv.2 then mret tt
    else
      shrink (pair_size kv.1 kv.2);;;
      modify (fun s => set_kvs (delete kv.1 (kvs s)) s)).

Definition remove_key (key : bytes) : C (option bytes) :=
  let* s := gets (fun s => s) in
  let v := value <$> kvs s !! key in
  modify (set_kvs (delete key (kvs s)));;;
  match v with
  | Some v => shrink (len v + len key);;; mret (Some v)
  | None => mret None
  end.

(** [clock] has the readings of [now()]: for the clean-up and for the new value *)
Definition set_value (clock : Z * Z) (key val : bytes) (lifetime : Z) : C unit :=
  remove_key key;;;
  let data_len := len key + len val in
  let* size := gets cs_size in
  let* store_size := arith 64 (size + data_len) in
  let* max := gets max_size in
  let* store_size :=
    (if max <? store_size then
       clear_expired_storage clock.1;;;
       let* size := gets cs_size in
       let* store_size := arith 64 (size + data_len) in
       ensure (store_size <=? max) QuotaExceeded;;;
       mret store_size
     else mret store_size) in
  modify (set_size store_size);;;
  modify (fun s => set_kvs (<[key := mkStorageValue (saturating_add64 clock.2 lifetime) val]> (kvs s)) s).

End Storage.

(** ** [LocalCache] *)
Section LocalCache.
Context {prof : Profile}.
Abbreviation L := (M LocalCache StorageQuotaExceeded).

Definition new : LocalCache := mkLocalCache 1000 0 (3600 * 24 * 7) ∅.

Definition set_sets (x : Z) (c : LocalCache) : LocalCache :=
  mkLocalCache (gc_interval c) x (default_value_lifetime c) (storages c).
Definition set_storages (x : gmap bytes CacheStorage) (c : LocalCache) : LocalCache :=
  mkLocalCache (gc_interval c) (sets_since_last_gc c) (default_value_lifetime c) x.

(** An operation on the storage of a contract, if it has one *)
Definition on_storage {A} (id : bytes) (none : L A) (m : M CacheStorage StorageQuotaExceeded A) : L A := fun c =>
  match storages c !! id with
  | None => none c
  | Some s =>
      match m s with
      | Ok a s' => Ok a (set_storages (<[id := s']> (storages c)) c)
      | Err e s' => Err e (set_storages (<[id := s']> (storages c)) c)
      | Panic => Panic
      | NoFuel => NoFuel
      end
  end.

Definition clear_expired (now : Z) : L unit :=
  modify (set_sets 0);;;
  let* c := gets (fun c => c) in
  for_each (map_to_list (storages c)).*1 (fun id => on_storage id (mret tt) (clear_expired_storage now)).

Definition maybe_clear_expired (now : Z) : L unit :=
  let* c := gets (fun c => c) in
  let* sets := arith 64 (sets_since_last_gc c + 1) in
  modify (set_sets sets);;;
  if sets =? gc_interval c then clear_expired now else mret tt.

Definition get (now : Z) (id key : bytes) (c : LocalCache) : option bytes :=
  match storages c !! id with
  | None => None
  | Some s =>
      match kvs s !! key with
      | None => None
      | Some entry => if expire_at entry <=? now then None else Some (value entry)
      end
  end.

Definition set (clock : Z * Z * Z) (id key val : bytes) : L unit :=
  maybe_clear_expired clock.1.1;;;
  let* lifetime := gets default_value_lifetime in
  on_storage id (fail QuotaExceeded) (set_value (clock.1.2, clock.2) key val lifetime).

Definition remove (now : Z) (id key : bytes) : L (option bytes) :=
  maybe_clear_expired now;;;
  on_storage id (mret None) (remove_key key).

Definition set_expire (clock : Z * Z * Z) (id key : bytes) (expire : Z) : L unit :=
  maybe_clear_expired clock.1.1;;;
  if expire =? 0 then
    remove clock.1.2 id key;;;
    mret tt
  else
    let* c := gets (fun c => c) in
    match storages c !! id ≫= (fun s => kvs s !! key) with
    | Some v =>
        let now := clock.1.2 in
        if now <=? expire_at v then
          on_storage id (mret tt) (modify (fun s =>
            set_kvs (<[key := mkStorageValue (saturating_add64 now expire) (value v)]> (kvs s)) s))
        else
          remove clock.2 id key;;;
          mret tt
    | None => mret tt
    end.

Definition apply_quotas (quotas : list (bytes * Z)) : L unit :=
  for_each quotas (fun q =>
    let '(contract, max) := q in
    if max =? 0 then modify (fun c => set_storages (delete contract (storages c)) c)
    else
      let* c := gets (fun c => c) in
      match storages c !! contract with
      | Some _ =>
          on_storage contract (mret tt)
            (modify (set_max_size max);;;
             fit_size)
      | None => modify (fun c => set_storages (<[contract := new_storage max]> (storages c)) c)
      end).

(** The result of [set] is dropped. *)
Definition apply_cache_op (clock : Z * Z * Z) (contract : bytes) (op : CacheOp) : L unit :=
  match op with
  | CacheSet key val =>
      catch (set clock contract key val);;;
      mret tt
  | CacheSetExpiration key expiration => set_expire clock contract key expiration
  | CacheRemove key =>
      remove clock.1.1 contract key;;;
      mret tt
  end.

(** ** keeper.rs *)
Definition TOTAL_MEMORY : Z := 1024 * 1024 * 20.

(** [contracts] has the weights, which are 32 bits wide. *)
Definition calc_cache_quotas {S E} (contracts : list (bytes * Z)) : M S E (list (bytes * Z)) :=
  let* total := for_fold contracts 0 (fun acc c => arith 64 (acc + c.2)) in
  let total_weight := Z.max total 1 in
  for_fold contracts [] (fun acc c =>
    let* quota := arith 64 (TOTAL_MEMORY * c.2) in
    let* quota := div_u quota total_weight in
    mret (acc ++ [(c.1, quota)])).

End LocalCache.
End Cache.
