(* ===== verification/LocalCacheProps.v ===== *)
(** * Properties of the local cache

    Sizes are what they count, every contract stays within its quota and all of
    them within [TOTAL_MEMORY], and a read gives the last value that was set. *)
From stdpp Require Import prelude gmap list sorting.
From Stdlib Require Import ZArith Lia.
From S2P Require Import Prelude Types LocalCache.

Module LocalCacheProps.
Import Cache.

(** ** Operations end *)
Section Ends.
Context {prof : Profile}.

Lemma halts_on_storage {A} id (none : M LocalCache StorageQuotaExceeded A) m :
  halts none -> halts m -> halts (on_storage id none m).
Proof.
  intros Hn Hm c. unfold on_storage. destruct (storages c !! id) as [s|]; [|apply Hn]. specialize (Hm s). by destruct (m s).
Qed.

Lemma halts_apply_quotas quotas : halts (apply_quotas quotas).
Proof. unfold apply_quotas, fit_size, shrink. solve_halts. apply halts_on_storage; solve_halts. Qed.

Lemma halts_maybe_clear now : halts (maybe_clear_expired now).
Proof.
  unfold maybe_clear_expired, clear_expired, clear_expired_storage, shrink. solve_halts. apply halts_on_storage; solve_halts.
Qed.

Lemma halts_remove now id key : halts (remove now id key).
Proof.
  unfold remove, remove_key, shrink. pose proof halts_maybe_clear. solve_halts. apply halts_on_storage; solve_halts.
Qed.

Lemma halts_cache_op clock id op : halts (apply_cache_op clock id op).
Proof.
  unfold apply_cache_op, set, set_expire, set_value, remove_key, clear_expired_storage, shrink.
  pose proof halts_maybe_clear. pose proof halts_remove. solve_halts; apply halts_on_storage; solve_halts.
Qed.

End Ends.

(** ** The other contracts

    An operation of one contract can only clear values of the others. *)
Section Others.
Context {prof : Profile}.

Definition loses (o o' : option CacheStorage) : Prop :=
  match o, o' with
  | Some s, Some s' => kvs s' ⊆ kvs s /\ max_size s' = max_size s
  | None, None => True
  | _, _ => False
  end.

Lemma loses_refl o : loses o o.
Proof. by destruct o. Qed.

Lemma loses_trans o1 o2 o3 : loses o1 o2 -> loses o2 o3 -> loses o1 o3.
Proof.
  destruct o1, o2, o3; simpl; try done. intros [H1 ->] [H2 ->]. split; [by etrans|done].
Qed.

Definition kept_by (id : bytes) (c0 c : LocalCache) : Prop := forall j, j <> id -> loses (storages c0 !! j) (storages c !! j).

Lemma preserves_own {A} id c0 (none : M LocalCache StorageQuotaExceeded A) m :
  preserves (kept_by id c0) none -> preserves (kept_by id c0) (on_storage id none m).
Proof.
  intros Hn c Hc. unfold wp, on_storage. destruct (storages c !! id) as [s|]; [|by apply Hn].
  destruct (m s); try done; intros j Hj; simpl; rewrite lookup_insert_ne by done; by apply Hc.
Qed.

Lemma clear_storage_loses now s0 :
  preserves (fun s => kvs s ⊆ kvs s0 /\ max_size s = max_size s0) (clear_expired_storage now).
Proof.
  unfold clear_expired_storage, shrink. solve_preserves. intros s [Hk Hm]. split; [|done]. simpl. etrans; [apply delete_subseteq|done].
Qed.

Lemma preserves_any id c0 j now : preserves (kept_by id c0) (on_storage j (mret tt) (clear_expired_storage now)).
Proof.
  intros c Hc. unfold wp, on_storage. destruct (storages c !! j) as [s|] eqn:Hs; [|done].
  pose proof (clear_storage_loses now s s ltac:(done)) as H. unfold wp in H.
  destruct (clear_expired_storage now s) as [a s'|e s'| |]; try done; intros k Hk; simpl;
    (destruct (decide (k = j)) as [->|Hkj]; [rewrite lookup_insert_eq|rewrite lookup_insert_ne by done; by apply Hc]);
    (eapply loses_trans; [by apply Hc|rewrite Hs; exact H]).
Qed.

Hint Resolve preserves_own preserves_any : preserves.

Lemma preserves_maybe_clear id c0 now : preserves (kept_by id c0) (maybe_clear_expired now).
Proof. unfold maybe_clear_expired, clear_expired. solve_preserves. Qed.

Hint Resolve preserves_maybe_clear : preserves.

Lemma preserves_cache_op clock id op c0 : preserves (kept_by id c0) (apply_cache_op clock id op).
Proof.
  unfold apply_cache_op, set, set_expire, remove. solve_preserves; apply preserves_own; solve_preserves.
Qed.

End Others.

(** ** One storage *)
Section Storage.
Context {prof : Profile}.
Implicit Types s : CacheStorage.

Lemma len_nonneg b : 0 <= len b.
Proof. unfold len. lia. Qed.

Lemma pair_size_nonneg k v : 0 <= pair_size k v.
Proof. unfold pair_size. pose proof (len_nonneg k). pose proof (len_nonneg (value v)). lia. Qed.

Definition sized s : Prop := cs_size s = map_sum pair_size (kvs s).

Definition storage_ok s : Prop := sized s /\ cs_size s <= max_size s < 2 ^ 63.

Lemma sized_nonneg s : sized s -> 0 <= cs_size s.
Proof. intros ->. apply map_sum_nonneg. intros. apply pair_size_nonneg. Qed.

(** What an operation that only drops values leaves *)
Definition shrunk s s' : Prop := storage_ok s' /\ max_size s' = max_size s /\ kvs s' ⊆ kvs s.

Lemma shrunk_refl s : storage_ok s -> shrunk s s.
Proof. by intros. Qed.

Lemma shrunk_trans s1 s2 s3 : shrunk s1 s2 -> shrunk s2 s3 -> shrunk s1 s3.
Proof. intros (_ & H1 & H2) (H3 & H4 & H5). split; [done|]. split; [congruence|by transitivity (kvs s2)]. Qed.

Lemma shrink_spec n s (Q : unit -> CacheStorage -> Prop) R :
  0 <= cs_size s - n < 2 ^ 64 -> Q tt (set_size (cs_size s - n) s) -> wp False (shrink n) Q R s.
Proof. intros Hn HQ. unfold shrink, wp, mbind, gets. by rewrite arith_fits. Qed.

(** Dropping one pair *)
Lemma drop_ok s k v : storage_ok s -> kvs s !! k = Some v ->
  0 <= cs_size s - pair_size k v < 2 ^ 64 /\
  shrunk s (set_kvs (delete k (kvs s)) (set_size (cs_size s - pair_size k v) s)).
Proof.
  intros [Hs Hm] Hk. pose proof (pair_size_nonneg k v) as Hp.
  assert (map_sum pair_size (delete k (kvs s)) = cs_size s - pair_size k v) as Hd.
  { rewrite map_sum_delete, Hk, <- Hs. done. }
  assert (0 <= cs_size s - pair_size k v).
  { rewrite <- Hd. apply map_sum_nonneg. intros. apply pair_size_nonneg. }
  split; [lia|]. split; [split; [by unfold sized|simpl; lia]|]. split; [done|apply delete_subseteq].
Qed.

Lemma remove_key_ok key s : storage_ok s ->
  wp False (remove_key key) (fun _ s' => shrunk s s' /\ kvs s' !! key = None) (fun _ _ => False) s.
Proof.
  intros Hs. unfold remove_key. do 3 (wp_step; cbv beta). wp_step. destruct (kvs s !! key) as [v|] eqn:Hk; simpl.
  - wp_step. destruct (drop_ok s key v Hs Hk) as [Hn Hd]. unfold pair_size in *.
    rewrite (Z.add_comm (len (value v))). apply shrink_spec; [done|]. apply wp_ret. split; [done|apply lookup_delete_eq].
  - apply wp_ret. rewrite delete_id by done. split; [|done]. destruct s. by apply shrunk_refl.
Qed.

Lemma clear_ok now s : storage_ok s ->
  wp False (clear_expired_storage now) (fun _ s' => shrunk s s') (fun _ _ => False) s.
Proof.
  intros Hs. unfold clear_expired_storage. do 2 (wp_step; cbv beta).
  assert (forall l s', shrunk s s' -> NoDup l.*1 -> (forall kv, kv ∈ l -> kvs s' !! kv.1 = Some kv.2) ->
    wp False (for_each l (fun kv => if now <? expire_at kv.2 then mret tt
       else shrink (pair_size kv.1 kv.2);;; modify (fun s => set_kvs (delete kv.1 (kvs s)) s)))
      (fun _ s' => shrunk s s') (fun _ _ => False) s') as Hloop.
  { induction l as [|[k v] l IH]; intros s' Hs' Hnd Hl; simpl; [done|]. apply NoDup_cons in Hnd as [Hnd1 Hnd2].
    wp_step. destruct (now <? expire_at v); simpl.
    - apply wp_ret, IH; [done|done|]. intros kv Hkv. apply Hl. by right.
    - pose proof (Hl (k, v) ltac:(by left)) as Hk. destruct (drop_ok s' k v (proj1 Hs') Hk) as [Hn Hd].
      wp_step. apply shrink_spec; [done|]. wp_step. apply IH; [by apply (shrunk_trans _ s')|done|].
      intros [k' v'] Hkv. simpl. rewrite lookup_delete_ne; [apply (Hl (k', v')); by right|].
      intros ->. apply Hnd1. by apply (list_elem_of_fmap_2 fst _ (k', v')). }
  apply Hloop; [by apply shrunk_refl|apply NoDup_fst_map_to_list|].
  intros [k v] Hkv. by apply elem_of_map_to_list.
Qed.

Lemma set_value_ok clock key val lifetime s : storage_ok s -> len key + len val <= 2 ^ 63 ->
  wp False (set_value clock key val lifetime)
    (fun _ s' => storage_ok s' /\ max_size s' = max_size s /\ exists s0 t, kvs s0 ⊆ kvs s /\
       kvs s' = <[key := mkStorageValue t val]> (kvs s0))
    (fun _ s' => shrunk s s' /\ kvs s' !! key = None) s.
Proof.
  intros Hs Hlen. pose proof (len_nonneg key). pose proof (len_nonneg val). unfold set_value. wp_step.
  eapply wp_mono; [by apply remove_key_ok| |done]. intros _ s1 [Hs1 Hk1].
  do 2 (wp_step; cbv beta). wp_step.
  assert (forall s', storage_ok s' -> 0 <= cs_size s' + (len key + len val) < 2 ^ 64) as Hr.
  { intros s' [Hz Hm]. apply sized_nonneg in Hz. lia. }
  unfold wp at 1. rewrite (arith_fits 64) by by apply Hr, Hs1. do 3 (wp_step; cbv beta).
  assert (forall s', shrunk s s' -> kvs s' !! key = None -> cs_size s' + (len key + len val) <= max_size s' ->
    wp (E := StorageQuotaExceeded) False (modify (set_size (cs_size s' + (len key + len val)));;;
      modify (fun s => set_kvs (<[key := mkStorageValue (saturating_add64 clock.2 lifetime) val]> (kvs s)) s))
    (fun _ s' => storage_ok s' /\ max_size s' = max_size s /\ exists s0 t, kvs s0 ⊆ kvs s /\
       kvs s' = <[key := mkStorageValue t val]> (kvs s0)) (fun _ s' => shrunk s s' /\ kvs s' !! key = None) s') as Hput.
  { intros s' ([Hz Hm] & Hm' & Hsub) Hk Hle. wp_steps. split; [split|].
    - unfold sized in *. simpl. rewrite map_sum_new by done. rewrite Hz. unfold pair_size at 2. simpl. lia.
    - simpl in *. lia.
    - split; [done|]. by eexists s', _. }
  destruct (max_size s1 <? _) eqn:Hmax; simpl.
  - wp_step. eapply wp_mono; [by apply clear_ok, Hs1| |done]. intros [] s2 Hs2.
    do 2 (wp_step; cbv beta). wp_step. unfold wp at 1. rewrite (arith_fits 64) by by apply Hr, Hs2.
    assert (max_size s1 = max_size s2) as -> by by rewrite (proj1 (proj2 Hs2)).
    assert (kvs s2 !! key = None).
    { destruct (kvs s2 !! key) eqn:Hk2; [|done]. destruct Hs2 as (_ & _ & Hsub).
      by rewrite (lookup_weaken _ _ _ _ Hk2 Hsub) in Hk1. }
    do 2 (wp_step; cbv beta).
    + wp_step. apply Hput; [by apply (shrunk_trans _ s1)|done|by apply Z.leb_le].
    + split; [by apply (shrunk_trans _ s1)|done].
  - apply wp_ret, Hput; [done|done|]. apply Z.ltb_ge in Hmax. lia.
Qed.

(** ** Sums over lists of pairs *)
Definition pairs_size (l : list (bytes * StorageValue)) : Z := foldr (fun kv acc => pair_size kv.1 kv.2 + acc) 0 l.

Lemma pairs_size_perm l l' : l ≡ₚ l' -> pairs_size l = pairs_size l'.
Proof. induction 1; simpl; lia. Qed.

Lemma map_sum_pairs m : map_sum pair_size m = pairs_size (map_to_list m).
Proof. unfold map_sum, pairs_size. rewrite map_fold_foldr. by induction (map_to_list m) as [|[k v] l IH]; simpl; [|rewrite IH]. Qed.

Lemma pairs_size_nonneg l : 0 <= pairs_size l.
Proof. induction l as [|[k v] l IH]; simpl; [done|]. pose proof (pair_size_nonneg k v). lia. Qed.

(** [fit_size] may start above the limit. *)
Lemma fit_size_ok s : sized s -> 0 <= max_size s < 2 ^ 63 -> cs_size s < 2 ^ 64 ->
  wp False fit_size (fun _ s' => shrunk (set_size (cs_size s') s) s') (fun _ _ => False) s.
Proof.
  intros Hs Hm Hw. unfold fit_size. do 2 (wp_step; cbv beta). destruct (Z.leb_spec (cs_size s) (max_size s)).
  { apply wp_ret. destruct s. apply shrunk_refl. split; [done|simpl in *; lia]. }
  wp_step. wp_step. set (l0 := merge_sort expires_before (map_to_list (kvs s))).
  assert (l0 ≡ₚ map_to_list (kvs s)) as Hperm by apply merge_sort_Permutation.
  assert (forall l s', max_size s' = max_size s -> cs_size s' = map_sum pair_size (kvs s') + pairs_size l ->
    cs_size s' < 2 ^ 64 -> (max_size s' < cs_size s' -> kvs s' = ∅) -> kvs s' ⊆ kvs s -> NoDup l.*1 ->
    (forall kv, kv ∈ l -> kvs s' !! kv.1 = None /\ kvs s !! kv.1 = Some kv.2) ->
    wp False (for_each l (fun kv =>
      let* s := gets (fun s => s) in
      if cs_size s <=? max_size s then modify (fun s => set_kvs (<[kv.1 := kv.2]> (kvs s)) s)
      else shrink (pair_size kv.1 kv.2))) (fun _ s' => shrunk (set_size (cs_size s') s) s') (fun _ _ => False) s') as Hloop.
  { induction l as [|[k v] l IH]; intros s' Hm' Hsz Hw' He Hsub Hnd Hl; simpl in *.
    - split; [split|].
      + unfold sized. simpl. lia.
      + destruct (Z.le_gt_cases (cs_size s') (max_size s')) as [|Hgt]; [lia|].
        rewrite (He ltac:(lia)) in Hsz. unfold map_sum in Hsz. rewrite map_fold_empty in Hsz. lia.
      + by split.
    - apply NoDup_cons in Hnd as [Hnd1 Hnd2]. destruct (Hl (k, v) ltac:(by left)) as [Hk Hk']. simpl in *.
      pose proof (pair_size_nonneg k v). pose proof (pairs_size_nonneg l).
      assert (0 <= map_sum pair_size (kvs s')) by (apply map_sum_nonneg; intros; apply pair_size_nonneg).
      do 2 (wp_step; cbv beta). wp_step. destruct (Z.leb_spec (cs_size s') (max_size s')).
      + wp_step. apply IH; simpl; [done| |done|lia| |done|].
        * rewrite map_sum_new by done. lia.
        * by apply insert_subseteq_l.
        * intros [k' v'] Hkv. destruct (Hl (k', v') ltac:(by right)) as [? ?]. simpl in *. split; [|done].
          rewrite lookup_insert_ne; [done|]. intros ->. apply Hnd1. by apply (list_elem_of_fmap_2 fst _ (k', v')).
      + apply shrink_spec; [lia|]. apply IH; simpl; [done|lia|lia| |done|done|].
        * intros _. apply He. lia.
        * intros kv Hkv. by apply Hl; right. }
  apply Hloop; simpl; [done| |done|done|apply map_empty_subseteq| |].
  - rewrite (pairs_size_perm _ _ Hperm), <- map_sum_pairs. unfold map_sum at 1. rewrite map_fold_empty. unfold sized in Hs. lia.
  - rewrite Hperm. apply NoDup_fst_map_to_list.
  - intros [k v] Hkv. split; [apply lookup_empty|]. rewrite Hperm in Hkv. by apply elem_of_map_to_list.
Qed.

End Storage.

(** ** The cache of all contracts *)
Section Cache.
Context {prof : Profile}.
Implicit Types c : LocalCache.

Definition cache_ok c : Prop :=
  0 <= sets_since_last_gc c < gc_interval c /\ gc_interval c < 2 ^ 63 /\
  forall id s, storages c !! id = Some s -> storage_ok s.

Lemma cache_ok_at c id s : cache_ok c -> storages c !! id = Some s -> storage_ok s.
Proof. intros (_ & _ & H). apply H. Qed.

(** Every value is one of the map [spec], and quotas are as before. *)
Definition values_in (spec : gmap (bytes * bytes) bytes) c : Prop :=
  forall id s k v, storages c !! id = Some s -> kvs s !! k = Some v -> spec !! (id, k) = Some (value v).

Definition same_quotas c c' : Prop := max_size <$> storages c' = max_size <$> storages c.

Definition dropped c c' : Prop :=
  cache_ok c' /\ same_quotas c c' /\ forall spec, values_in spec c -> values_in spec c'.

Lemma dropped_refl c : cache_ok c -> dropped c c.
Proof. intros Hc. split; [done|]. by split. Qed.

Lemma dropped_trans c1 c2 c3 : dropped c1 c2 -> dropped c2 c3 -> dropped c1 c3.
Proof.
  intros (_ & H1 & H2) (H3 & H4 & H5). split; [done|]. split; [|auto]. unfold same_quotas in *. congruence.
Qed.

Lemma put_ok c id s s' : cache_ok c -> storages c !! id = Some s -> storage_ok s' -> max_size s' = max_size s ->
  cache_ok (set_storages (<[id := s']> (storages c)) c) /\ same_quotas c (set_storages (<[id := s']> (storages c)) c).
Proof.
  intros (H1 & H2 & H3) Hs Hs' Hm. split.
  - split; [done|]. split; [done|]. simpl. intros id' s0 [[-> <-]|[_ H]]%lookup_insert_Some; [done|by apply (H3 id')].
  - unfold same_quotas. simpl. rewrite fmap_insert, Hm, insert_id; [done|]. by rewrite lookup_fmap, Hs.
Qed.

(** An operation that drops values of one storage *)
Lemma on_storage_dropped {A} id none (m : M CacheStorage StorageQuotaExceeded A) (Q : option CacheStorage -> Prop) c :
  cache_ok c ->
  (forall s, storages c !! id = Some s ->
     wp False m (fun _ s' => shrunk s s' /\ Q (Some s')) (fun _ _ => False) s) ->
  (storages c !! id = None -> Q None /\ exists a, none c = Ok a c) ->
  wp False (on_storage id none m) (fun _ c' => dropped c c' /\ Q (storages c' !! id)) (fun _ _ => False) c.
Proof.
  intros Hc Hm Hn. unfold wp, on_storage in *. destruct (storages c !! id) as [s|] eqn:Hs.
  - specialize (Hm s eq_refl). destruct (m s) as [a s'|?| |]; [|done..].
    destruct Hm as [Hd HQ]. simpl. rewrite lookup_insert_eq. split; [|done]. destruct Hd as (H1 & H2 & H3).
    destruct (put_ok c id s s' Hc Hs H1 H2) as [Hc' Hq']. split; [done|]. split; [done|].
    intros spec Hv id' s0 k v. simpl. intros [[-> <-]|[_ H]]%lookup_insert_Some Hk; [|by apply (Hv id' s0)].
    apply (Hv _ s); [done|]. by apply (lookup_weaken (kvs s')).
  - destruct (Hn eq_refl) as [HQ [a ->]]. rewrite Hs. split; [by apply dropped_refl|done].
Qed.

Lemma set_sets_dropped n c : cache_ok c -> 0 <= n < gc_interval c -> dropped c (set_sets n c).
Proof. intros (H1 & H2 & H3) Hn. split; [by split|]. by split. Qed.

Lemma clear_expired_ok now c : (cache_ok (set_sets 0 c)) ->
  wp False (clear_expired now) (fun _ c' => dropped (set_sets 0 c) c' /\ gc_interval c' = gc_interval c)
    (fun _ _ => False) c.
Proof.
  intros Hc. unfold clear_expired. do 3 (wp_step; cbv beta). wp_step.
  apply (wp_for_each False (fun c' => dropped (set_sets 0 c) c' /\ gc_interval c' = gc_interval c)).
  - split; [by apply dropped_refl|done].
  - intros id c' _ [Hd Hg].
    assert (wp False (on_storage id (mret tt) (clear_expired_storage now)) (fun _ c2 => dropped c' c2 /\ True)
      (fun _ _ => False) c') as Hw.
    { apply (on_storage_dropped id (mret tt) _ (fun _ => True)); [apply Hd| |by eauto]. intros s Hs.
      eapply wp_mono; [apply clear_ok, (cache_ok_at c' id); [apply Hd|done]| |done]. by intros [] s' H. }
    unfold wp in *. destruct (on_storage id (mret tt) _ c') as [[] c2|?| |] eqn:Ho; [|done..].
    split; [by apply (dropped_trans _ c'), Hw|]. rewrite <- Hg. unfold on_storage in Ho.
    destruct (storages c' !! id); [|by inversion Ho].
    destruct (clear_expired_storage now _); inversion Ho. done.
  - done.
Qed.

Lemma maybe_clear_ok now c : cache_ok c ->
  wp False (maybe_clear_expired now) (fun _ c' => dropped c c') (fun _ _ => False) c.
Proof.
  intros Hc. pose proof Hc as (H1 & H2 & H3). unfold maybe_clear_expired. do 2 (wp_step; cbv beta). wp_step.
  unfold wp at 1. rewrite (arith_fits 64) by lia. do 2 (wp_step; cbv beta).
  destruct (Z.eqb_spec (sets_since_last_gc c + 1) (gc_interval c)).
  - eapply wp_mono; [apply clear_expired_ok; split; simpl; [lia|by split]| |done].
    intros [] c' [Hd _]. change (dropped (set_sets 0 c) c') in Hd.
    eapply dropped_trans; [|exact Hd]. apply set_sets_dropped; [done|lia].
  - apply wp_ret. apply set_sets_dropped; [done|lia].
Qed.

Lemma remove_ok now id key c : cache_ok c ->
  wp False (remove now id key) (fun _ c' => dropped c c' /\
    forall s, storages c' !! id = Some s -> kvs s !! key = None) (fun _ _ => False) c.
Proof.
  intros Hc. unfold remove. wp_step. eapply wp_mono; [by apply maybe_clear_ok| |done]. intros [] c1 Hd.
  eapply wp_mono.
  - apply (on_storage_dropped id _ _ (fun o => forall s, o = Some s -> kvs s !! key = None)).
    + apply Hd.
    + intros s Hs. eapply wp_mono; [apply remove_key_ok, (cache_ok_at c1 id); [apply Hd|done]| |done].
      intros v s' [H1 H2]. split; [done|]. by intros ? [= <-].
    + intros _. split; [done|]. by eexists.
  - intros v c2 [H1 H2]. split; [by apply (dropped_trans _ c1)|done].
  - done.
Qed.

Lemma values_delete spec id key c :
  values_in spec c -> (forall s, storages c !! id = Some s -> kvs s !! key = None) ->
  values_in (delete (id, key) spec) c.
Proof.
  intros Hv Hk id' s k v Hs Hkv. rewrite lookup_delete_ne; [by apply (Hv _ s)|].
  intros [= <- <-]. by rewrite (Hk s Hs) in Hkv.
Qed.

Lemma values_insert spec id key val c : values_in (delete (id, key) spec) c -> values_in (<[(id, key) := val]> spec) c.
Proof.
  intros Hv id' s k v Hs Hkv. specialize (Hv id' s k v Hs Hkv). apply lookup_delete_Some in Hv as [Hn Hv].
  by rewrite lookup_insert_ne.
Qed.

Lemma set_ok spec clock id key val c : cache_ok c -> values_in spec c -> len key + len val <= 2 ^ 63 ->
  let Q c' := cache_ok c' /\ same_quotas c c' /\ values_in (<[(id, key) := val]> spec) c' in
  wp False (set clock id key val) (fun _ => Q) (fun _ => Q) c.
Proof.
  intros Hc Hv Hlen Q. unfold set. wp_step. eapply wp_mono; [by apply maybe_clear_ok| |done].
  intros [] c1 (Hc1 & Hq1 & Hv1). specialize (Hv1 spec Hv). do 2 (wp_step; cbv beta). unfold on_storage, wp.
  destruct (storages c1 !! id) as [s|] eqn:Hs; simpl.
  2:{ split; [done|]. split; [done|]. intros id' s0 k v Hs0 Hk. rewrite lookup_insert_ne; [by apply (Hv1 _ s0)|].
      intros [= <- _]. congruence. }
  pose proof (set_value_ok (clock.1.2, clock.2) key val (default_value_lifetime c1) s (cache_ok_at c1 id s Hc1 Hs) Hlen) as Hw.
  assert (forall s', storage_ok s' -> max_size s' = max_size s ->
    (forall k v, kvs s' !! k = Some v -> kvs s !! k = Some v \/ (k = key /\ value v = val)) ->
    kvs s' !! key = None \/ value <$> kvs s' !! key = Some val ->
    Q (set_storages (<[id := s']> (storages c1)) c1)) as Hput.
  { intros s' Hs' Hm Hk Hkey.
    assert (values_in (<[(id, key) := val]> spec) (set_storages (<[id := s']> (storages c1)) c1)) as Hval.
    { intros id' s0 k v. simpl. intros [[<- <-]|[Hne H]]%lookup_insert_Some Hkv.
      - destruct (decide (k = key)) as [->|Hkk].
        + rewrite Hkv in Hkey. destruct Hkey as [?|[= <-]]; [done|]. apply lookup_insert_eq.
        + rewrite lookup_insert_ne by congruence. destruct (Hk k v Hkv) as [H|[? _]]; [|done]. by apply (Hv1 _ s).
      - rewrite lookup_insert_ne by congruence. by apply (Hv1 _ s0). }
    destruct (put_ok c1 id s s' Hc1 Hs Hs' Hm) as [Hc' Hq']. split; [done|]. split; [|done].
    unfold same_quotas in *. congruence. }
  unfold wp in Hw. destruct (set_value _ _ _ _ s) as [u s'|e s'| |]; [| |done..].
  - destruct Hw as (H1 & H2 & s0 & t & Hsub & Hkv). apply Hput; [done|done| |].
    + intros k v. rewrite Hkv. intros [[<- <-]|[_ H]]%lookup_insert_Some; [by right|left]. by apply (lookup_weaken (kvs s0)).
    + right. by rewrite Hkv, lookup_insert_eq.
  - destruct Hw as [(H1 & H2 & H3) Hk]. apply Hput; [done|done| |by left].
    intros k v Hkv. left. by apply (lookup_weaken (kvs s')).
Qed.

Lemma set_expire_ok spec clock id key expire c : cache_ok c -> values_in spec c ->
  wp False (set_expire clock id key expire)
    (fun _ c' => cache_ok c' /\ same_quotas c c' /\ values_in (if expire =? 0 then delete (id, key) spec else spec) c')
    (fun _ _ => False) c.
Proof.
  intros Hc Hv. unfold set_expire. wp_step. eapply wp_mono; [by apply maybe_clear_ok| |done].
  intros [] c1 (Hc1 & Hq1 & Hv1). specialize (Hv1 spec Hv).
  assert (forall now (Q : LocalCache -> Prop),
    (forall c2, dropped c1 c2 -> (forall s, storages c2 !! id = Some s -> kvs s !! key = None) -> Q c2) ->
    wp False (remove now id key;;; mret tt) (fun _ => Q) (fun _ _ => False) c1) as Hrem.
  { intros now Q HQ. wp_step. eapply wp_mono; [by apply remove_ok| |done]. intros v c2 [H1 H2]. apply wp_ret. by apply HQ. }
  assert (forall c2, dropped c1 c2 -> same_quotas c c2) as Htr by (intros c2 H; unfold same_quotas in *; rewrite <- Hq1; apply H).
  destruct (expire =? 0).
  { apply Hrem. intros c2 Hd Hk. split; [apply Hd|]. split; [by apply Htr|]. apply values_delete; [by apply Hd|done]. }
  do 2 (wp_step; cbv beta). destruct (storages c1 !! id) as [s|] eqn:Hs; simpl; [|by apply wp_ret].
  destruct (kvs s !! key) as [v|] eqn:Hk; simpl; [|by apply wp_ret].
  destruct (clock.1.2 <=? expire_at v).
  - unfold on_storage, wp. rewrite Hs. simpl.
    destruct (put_ok c1 id s (set_kvs (<[key := mkStorageValue (saturating_add64 clock.1.2 expire) (value v)]> (kvs s)) s)
      Hc1 Hs) as [H1 H2]; [|done|].
    + destruct (cache_ok_at c1 id s Hc1 Hs) as [Hz Hm]. split; [|done]. unfold sized in *. simpl.
      rewrite map_sum_insert, Hk. simpl. unfold pair_size at 2 3. simpl. lia.
    + split; [done|]. split; [unfold same_quotas in *; congruence|]. intros id' s0 k w. simpl.
      intros [[<- <-]|[_ H]]%lookup_insert_Some Hw; [|by apply (Hv1 id' s0)].
      simpl in Hw. apply lookup_insert_Some in Hw as [[<- <-]|[_ Hw]]; simpl; by eapply Hv1.
  - apply Hrem. intros c2 Hd _. split; [apply Hd|]. split; [by apply Htr|by apply Hd].
Qed.

(** ** Quotas *)
Definition quota_sum (quotas : list (bytes * Z)) : Z := foldr (fun q acc => q.2 + acc) 0 quotas.

Definition quotas_total c : Z := map_sum (fun _ s => max_size s) (storages c).

Definition sizes_total c : Z := map_sum (fun _ s => cs_size s) (storages c).

Lemma map_sum_sub {V W} (f : bytes -> V -> Z) (g : bytes -> W -> Z) (m : gmap bytes V) (m' : gmap bytes W) :
  (forall k x, m !! k = Some x -> exists y, m' !! k = Some y /\ f k x <= g k y) ->
  (forall k y, m' !! k = Some y -> 0 <= g k y) -> map_sum f m <= map_sum g m'.
Proof.
  revert m'. induction m as [|k x m Hk IH] using map_ind; intros m' Hm Hg.
  - unfold map_sum at 1. rewrite map_fold_empty. by apply map_sum_nonneg.
  - rewrite map_sum_new by done. destruct (Hm k x) as (y & Hy & Hle); [apply lookup_insert_eq|].
    rewrite <- (insert_delete_id m' k y Hy), map_sum_new by apply lookup_delete_eq.
    assert (map_sum f m <= map_sum g (delete k m')); [|lia]. apply IH.
    + intros j z Hj. assert (k <> j) by (intros ->; congruence). destruct (Hm j z) as (w & Hw & ?); [by rewrite lookup_insert_ne|].
      exists w. by rewrite lookup_delete_ne.
    + intros j z [_ Hj]%lookup_delete_Some. by apply Hg.
Qed.

Lemma quota_sum_map quotas : NoDup quotas.*1 -> map_sum (fun _ q => q) (list_to_map quotas : gmap bytes Z) = quota_sum quotas.
Proof.
  induction quotas as [|[k q] l IH]; intros Hnd; simpl; [by unfold map_sum; rewrite map_fold_empty|].
  apply NoDup_cons in Hnd as [Hk Hnd]. rewrite map_sum_new by by apply not_elem_of_list_to_map_1. by rewrite IH.
Qed.

Lemma same_quotas_total c c' : same_quotas c c' -> quotas_total c' = quotas_total c /\ dom (storages c') = dom (storages c).
Proof.
  intros Hq. split.
  - assert (forall x, quotas_total x = map_sum (fun _ q => q) (max_size <$> storages x)) as Hf.
    { intros x. unfold quotas_total. induction (storages x) as [|k s m Hk IH] using map_ind; [by rewrite fmap_empty|].
      rewrite fmap_insert, !map_sum_new; [by rewrite IH|by rewrite lookup_fmap, Hk|done]. }
    by rewrite !Hf, Hq.
  - by rewrite <- (dom_fmap_L max_size (storages c')), Hq, dom_fmap_L.
Qed.

Lemma sizes_within c : cache_ok c -> sizes_total c <= quotas_total c.
Proof. intros Hc. apply map_sum_le. intros k s Hs. by destruct (cache_ok_at c k s Hc Hs) as [_ [? _]]. Qed.

(** Every storage named by a quota gets it, or is dropped. *)
Lemma apply_quotas_ok spec quotas c : cache_ok c -> values_in spec c -> NoDup quotas.*1 ->
  Forall (fun q => 0 <= q.2 < 2 ^ 63) quotas ->
  wp False (apply_quotas quotas)
    (fun _ c' => cache_ok c' /\ values_in spec c' /\ forall id s, storages c' !! id = Some s ->
       (id, max_size s) ∈ quotas \/ (id ∉ quotas.*1 /\ storages c !! id = Some s)) (fun _ _ => False) c.
Proof.
  intros Hc Hv. revert c Hc Hv. unfold apply_quotas. induction quotas as [|[k q] l IH]; intros c Hc Hv Hnd Hq; simpl.
  { apply wp_ret. split; [done|]. split; [done|]. intros id s Hs. right. split; [by apply not_elem_of_nil|done]. }
  apply NoDup_cons in Hnd as [Hk Hnd]. apply Forall_cons in Hq as [Hq0 Hq]. simpl in Hq0.
  assert (forall c1, cache_ok c1 -> values_in spec c1 ->
    (forall id s, storages c1 !! id = Some s -> (id = k /\ max_size s = q) \/ (id <> k /\ storages c !! id = Some s)) ->
    wp False (for_each l (fun q => let '(contract, max) := q in
      if max =? 0 then modify (fun c => set_storages (delete contract (storages c)) c)
      else
        let* c := gets (fun c => c) in
        match storages c !! contract with
        | Some _ => on_storage contract (mret tt) (modify (set_max_size max);;; fit_size)
        | None => modify (fun c => set_storages (<[contract := new_storage max]> (storages c)) c)
        end)) (fun _ c' => cache_ok c' /\ values_in spec c' /\ forall id s, storages c' !! id = Some s ->
       (id, max_size s) ∈ (k, q) :: l \/ (id ∉ k :: l.*1 /\ storages c !! id = Some s)) (fun _ _ => False) c1) as Hrest.
  { intros c1 Hc1 Hv1 H1. eapply wp_mono; [by apply IH| |done]. intros [] c2 (Hc2 & Hv2 & H2).
    split; [done|]. split; [done|]. intros id s Hs. destruct (H2 id s Hs) as [H|[Hn H]]; [left; by right|].
    destruct (H1 id s H) as [[-> <-]|[Hne H0]]; [left; by left|right]. split; [|done].
    rewrite not_elem_of_cons. done. }
  wp_step. destruct (Z.eqb_spec q 0).
  - wp_step. destruct Hc as (H1 & H2 & H3). apply Hrest.
    + split; [done|]. split; [done|]. simpl. intros id s [_ Hs]%lookup_delete_Some. by apply (H3 id).
    + intros id s k' v. simpl. intros [_ Hs]%lookup_delete_Some. by apply Hv.
    + simpl. intros id s [Hne Hs]%lookup_delete_Some. by right.
  - do 2 (wp_step; cbv beta). destruct (storages c !! k) as [s|] eqn:Hs.
    + unfold on_storage, wp at 1. rewrite Hs.
      destruct (cache_ok_at c k s Hc Hs) as [Hz Hm]. pose proof (sized_nonneg s Hz).
      pose proof (fit_size_ok (set_max_size q s) Hz Hq0 ltac:(simpl; lia)) as Hw. unfold wp, mbind, modify in *.
      destruct (fit_size (set_max_size q s)) as [[] s'|?| |] eqn:Hf; [|done..]. destruct Hw as (Hs' & Hm' & Hsub). simpl in *.
      apply Hrest.
      * destruct Hc as (H1 & H2 & H3). split; [done|]. split; [done|]. simpl.
        intros id s0 [[-> <-]|[_ H0]]%lookup_insert_Some; [done|by apply (H3 id)].
      * intros id s0 k' v. simpl. intros [[-> <-]|[_ H0]]%lookup_insert_Some Hkv; [|by apply (Hv id s0)].
        apply (Hv _ s); [done|]. by apply (lookup_weaken (kvs s')).
      * simpl. intros id s0 [[<- <-]|[Hne H0]]%lookup_insert_Some; [by left|by right].
    + wp_step. destruct Hc as (H1 & H2 & H3). apply Hrest.
      * split; [done|]. split; [done|]. simpl. intros id s0 [[-> <-]|[_ H0]]%lookup_insert_Some; [|by apply (H3 id)].
        split; [|simpl; lia]. unfold sized, map_sum. simpl. by rewrite map_fold_empty.
      * intros id s0 k' v. simpl. intros [[-> <-]|[_ H0]]%lookup_insert_Some Hkv; [|by apply (Hv id s0)].
        simpl in Hkv. by rewrite lookup_empty in Hkv.
      * simpl. intros id s0 [[<- <-]|[Hne H0]]%lookup_insert_Some; [by left|by right].
Qed.

Definition weight_sum (contracts : list (bytes * Z)) : Z := foldr (fun y acc => y.2 + acc) 0 contracts.

Lemma weight_sum_bounds l : Forall (fun x : bytes * Z => 0 <= x.2 < 2 ^ 32) l ->
  0 <= weight_sum l <= Z.of_nat (length l) * 2 ^ 32.
Proof. induction 1 as [|x l Hx Hl IH]; simpl; [done|]. lia. Qed.

(** The quotas of all contracts fit [TOTAL_MEMORY]. *)
Lemma calc_cache_quotas_ok {S E} (l : list (bytes * Z)) (s : S) :
  Forall (fun x => 0 <= x.2 < 2 ^ 32) l -> Z.of_nat (length l) < 2 ^ 32 ->
  wp False (calc_cache_quotas (E := E) l)
    (fun q s' => s' = s /\ q.*1 = l.*1 /\ quota_sum q <= TOTAL_MEMORY /\ Forall (fun q => 0 <= q.2 < 2 ^ 63) q)
    (fun _ _ => False) s.
Proof.
  intros Hl Hn. unfold calc_cache_quotas. pose proof (weight_sum_bounds l Hl) as Hw. set (W := weight_sum l) in *.
  assert (forall l' acc, Forall (fun x : bytes * Z => 0 <= x.2 < 2 ^ 32) l' -> 0 <= acc -> acc + weight_sum l' < 2 ^ 64 ->
    for_fold (E := E) l' acc (fun acc y => arith 64 (acc + y.2)) s = Ok (acc + weight_sum l') s) as Htotal.
  { induction l' as [|x l' IH]; intros acc Hl' Ha Hb; simpl in *; [by rewrite Z.add_0_r|].
    apply Forall_cons in Hl' as [Hx Hl']. pose proof (weight_sum_bounds l' Hl'). unfold mbind.
    rewrite (arith_fits 64) by lia. rewrite IH; [f_equal; lia|done|lia|lia]. }
  wp_step. unfold wp at 1. rewrite Htotal by (done || lia). fold W. rewrite Z.add_0_l. cbv zeta.
  set (T := Z.max W 1).
  assert (forall l' acc, Forall (fun x : bytes * Z => 0 <= x.2 < 2 ^ 32) l' ->
    for_fold (E := E) l' acc (fun acc y =>
      let* quota := arith 64 (TOTAL_MEMORY * y.2) in
      let* quota := div_u quota T in
      mret (acc ++ [(y.1, quota)])) s = Ok (acc ++ map (fun y => (y.1, TOTAL_MEMORY * y.2 / T)) l') s) as Hquota.
  { induction l' as [|x l' IH]; intros acc Hl'; simpl; [by rewrite app_nil_r|]. apply Forall_cons in Hl' as [Hx Hl'].
    unfold mbind at 1. assert (0 <= TOTAL_MEMORY * x.2 < 2 ^ 64) by (unfold TOTAL_MEMORY; lia).
    assert (for_fold (E := E) [x] acc (fun acc y =>
      let* quota := arith 64 (TOTAL_MEMORY * y.2) in
      let* quota := div_u quota T in mret (acc ++ [(y.1, quota)])) s = Ok (acc ++ [(x.1, TOTAL_MEMORY * x.2 / T)]) s) as Hone.
    { simpl. unfold mbind, div_u. rewrite (arith_fits 64) by done. destruct (Z.eqb_spec T 0); [lia|done]. }
    simpl in Hone. unfold mbind in Hone at 1. destruct (mbind _ _ s) as [a s'|?| |]; inversion Hone; subst.
    rewrite IH by done. by rewrite <- app_assoc. }
  unfold wp. rewrite Hquota by done. simpl. split; [done|].
  split; [rewrite map_map; by apply list_fmap_ext|]. split.
  - assert (forall l', Forall (fun x : bytes * Z => 0 <= x.2 < 2 ^ 32) l' ->
      T * quota_sum (map (fun y => (y.1, TOTAL_MEMORY * y.2 / T)) l') <= TOTAL_MEMORY * weight_sum l') as Hsum.
    { induction 1 as [|x l' Hx Hl' IH]; simpl; [lia|]. pose proof (Z.mul_div_le (TOTAL_MEMORY * x.2) T ltac:(lia)). lia. }
    specialize (Hsum l Hl). fold W in Hsum. unfold TOTAL_MEMORY in *. nia.
  - apply Forall_map. eapply Forall_impl; [exact Hl|]. intros x Hx. simpl in *. unfold TOTAL_MEMORY. split.
    + apply Z.div_pos; lia.
    + apply Z.div_lt_upper_bound; [lia|]. assert (1 <= T) by lia. assert (1024 * 1024 * 20 * x.2 < 2 ^ 63) by lia. nia.
Qed.

End Cache.

(** ** Runs

    Contracts are installed with the weight zero, their weights are set, and the
    quotas are recomputed from the weights at any later time; between that the
    contracts use the cache. *)
Section Runs.
Context {prof : Profile}.

Inductive cache_step :=
| UseCache (clock : Z * Z * Z) (contract : bytes) (op : CacheOp)
| Install (contract : bytes)
| SetWeight (contract : bytes) (weight : Z)
| ApplyQuotas.

(** [ContractsKeeper::apply_local_cache_quotas] *)
Definition refresh_quotas (weights : gmap bytes Z) : M LocalCache StorageQuotaExceeded unit :=
  let* quotas := calc_cache_quotas (map_to_list weights) in
  apply_quotas quotas.

Definition step (x : cache_step) : M (gmap bytes Z * LocalCache) StorageQuotaExceeded unit := fun s =>
  let lift (m : M LocalCache StorageQuotaExceeded unit) :=
    match m s.2 with
    | Ok _ c | Err _ c => Ok tt (s.1, c)
    | Panic => Panic
    | NoFuel => NoFuel
    end in
  match x with
  | UseCache clock contract op => lift (apply_cache_op clock contract op)
  | Install contract => Ok tt (match s.1 !! contract with Some _ => s.1 | None => <[contract := 0]> s.1 end, s.2)
  | SetWeight contract weight => Ok tt (match s.1 !! contract with Some _ => <[contract := weight]> s.1 | None => s.1 end, s.2)
  | ApplyQuotas => lift (refresh_quotas s.1)
  end.

(** The last value set for each key *)
Definition spec_step (spec : gmap (bytes * bytes) bytes) (x : cache_step) : gmap (bytes * bytes) bytes :=
  match x with
  | UseCache _ c (CacheSet k v) => <[(c, k) := v]> spec
  | UseCache _ c (CacheSetExpiration k e) => if e =? 0 then delete (c, k) spec else spec
  | UseCache _ c (CacheRemove k) => delete (c, k) spec
  | _ => spec
  end.

(** Sizes of values in memory, and weights of 32 bits *)
Definition step_in_range (x : cache_step) : bool :=
  match x with
  | UseCache _ _ (CacheSet k v) => len k + len v <=? 2 ^ 63
  | SetWeight _ w => (0 <=? w) && (w <? 2 ^ 32)
  | _ => true
  end.

Definition run_ok (n : Z) (spec : gmap (bytes * bytes) bytes) (s : gmap bytes Z * LocalCache) : Prop :=
  cache_ok s.2 /\ values_in spec s.2 /\ quotas_total s.2 <= TOTAL_MEMORY /\
  dom (storages s.2) ⊆ dom s.1 /\ Z.of_nat (size s.1) <= n /\ forall k w, s.1 !! k = Some w -> 0 <= w < 2 ^ 32.

Lemma use_cache_ok spec clock contract op c : cache_ok c -> values_in spec c ->
  step_in_range (UseCache clock contract op) = true ->
  let Q c' := cache_ok c' /\ same_quotas c c' /\ values_in (spec_step spec (UseCache clock contract op)) c' in
  wp False (apply_cache_op clock contract op) (fun _ => Q) (fun _ => Q) c.
Proof.
  intros Hc Hv Hr Q. destruct op as [k v|k e|k]; simpl in *.
  - wp_step. wp_step. apply Z.leb_le in Hr. eapply wp_mono; [by apply (set_ok spec)| |]; by intros.
  - eapply wp_mono; [by apply (set_expire_ok spec)|done|done].
  - wp_step. eapply wp_mono; [by apply remove_ok| |done]. intros o c' [(H1 & H2 & H3) H4]. apply wp_ret.
    split; [done|]. split; [done|]. apply values_delete; auto.
Qed.

Lemma apply_all_quotas_ok spec w c n : run_ok n spec (w, c) -> n < 2 ^ 32 ->
  wp False (refresh_quotas w)
    (fun _ c' => run_ok n spec (w, c')) (fun _ _ => False) c.
Proof.
  intros (Hc & Hv & Hq & Hd & Hn & Hw) Hlt. simpl in *. unfold refresh_quotas. wp_step.
  eapply wp_mono; [apply calc_cache_quotas_ok| |done].
  { apply Forall_forall. intros [k x] Hx%elem_of_map_to_list. by apply (Hw k). }
  { rewrite length_map_to_list. lia. }
  intros q c' (-> & Hk & Hsum & Hrange).
  assert (NoDup q.*1) as Hnd by (rewrite Hk; apply NoDup_fst_map_to_list).
  eapply wp_mono; [by apply (apply_quotas_ok spec)| |done]. intros [] c1 (Hc1 & Hv1 & Hst).
  assert (forall id s, storages c1 !! id = Some s -> (id, max_size s) ∈ q) as Hin.
  { intros id s Hs. destruct (Hst id s Hs) as [H|[Hn' H]]; [done|]. exfalso. apply Hn'. rewrite Hk.
    assert (id ∈ dom w) as [x Hx]%elem_of_dom by (apply Hd, elem_of_dom; eauto).
    apply (list_elem_of_fmap_2 fst _ (id, x)). by apply elem_of_map_to_list. }
  split; [done|]. split; [done|]. split; [|split; [|by split]]; simpl.
  - etransitivity; [|exact Hsum]. rewrite <- quota_sum_map by done. apply map_sum_sub.
    + intros k s Hs. exists (max_size s). split; [|done]. apply elem_of_list_to_map_1; [done|]. by apply Hin.
    + intros k y Hy%elem_of_list_to_map_2. rewrite Forall_forall in Hrange. by apply Hrange in Hy as [? _].
  - intros id [s Hs]%elem_of_dom. apply Hin in Hs. apply (list_elem_of_fmap_2 fst) in Hs. simpl in Hs. rewrite Hk in Hs.
    apply list_elem_of_fmap_1 in Hs as ([k x] & -> & Hx%elem_of_map_to_list). by apply elem_of_dom_2 in Hx.
Qed.

Lemma step_ok n spec x s : run_ok n spec s -> n < 2 ^ 32 -> step_in_range x = true ->
  wp False (step x) (fun _ s' => run_ok (n + 1) (spec_step spec x) s') (fun _ _ => False) s.
Proof.
  intros (Hc & Hv & Hq & Hd & Hn & Hw) Hlt Hr. destruct s as [w c]. simpl in *. unfold wp, step. simpl.
  destruct x as [clock contract op|contract|contract weight|]; simpl.
  - pose proof (use_cache_ok spec clock contract op c Hc Hv Hr) as H. unfold wp in H.
    assert (forall c', cache_ok c' /\ same_quotas c c' /\ values_in (spec_step spec (UseCache clock contract op)) c' ->
      run_ok (n + 1) (spec_step spec (UseCache clock contract op)) (w, c')) as Hfin.
    { intros c' (H1 & H2 & H3). destruct (same_quotas_total c c' H2) as [H4 H5].
      split; [done|]. split; [done|]. simpl. rewrite H4, H5. split; [done|]. split; [done|]. split; [lia|done]. }
    destruct (apply_cache_op clock contract op c); [by apply Hfin..|done|done].
  - destruct (w !! contract) as [z|] eqn:Hz; (split; [done|]; split; [done|]; split; [done|]; simpl).
    + split; [done|]. split; [lia|done].
    + split; [set_solver|]. split; [rewrite map_size_insert_None by done; lia|].
      intros k y [[<- <-]|[_ H]]%lookup_insert_Some; [lia|by apply (Hw k)].
  - apply andb_true_iff in Hr as [H1%Z.leb_le H2%Z.ltb_lt].
    destruct (w !! contract) as [z|] eqn:Hz; (split; [done|]; split; [done|]; split; [done|]; simpl).
    + split; [set_solver|]. split; [rewrite map_size_insert_Some by eauto; lia|].
      intros k y [[<- <-]|[_ H]]%lookup_insert_Some; [lia|by apply (Hw k)].
    + split; [done|]. split; [lia|done].
  - assert (run_ok n spec (w, c)) as Hrun by (split; [done|]; split; [done|]; split; [done|]; by split).
    pose proof (apply_all_quotas_ok spec w c n Hrun Hlt) as H. unfold wp in H.
    destruct (refresh_quotas w c) as [[] c'|?| |]; [|done..].
    destruct H as (H1 & H2 & H3 & H4 & H5 & H6).
    split; [done|]. split; [done|]. split; [done|]. split; [done|]. split; [simpl in *; lia|done].
Qed.

Lemma steps_ok steps : forall n spec s, run_ok n spec s -> n + Z.of_nat (length steps) < 2 ^ 32 ->
  forallb step_in_range steps = true ->
  wp False (for_each steps step) (fun _ s' => run_ok (n + Z.of_nat (length steps)) (foldl spec_step spec steps) s')
    (fun _ _ => False) s.
Proof.
  induction steps as [|x steps IH]; intros n spec s Hs Hn Hr; simpl in *.
  - rewrite Z.add_0_r. by apply wp_ret.
  - apply andb_true_iff in Hr as [Hx Hr]. wp_step. eapply wp_mono; [apply step_ok; [exact Hs|lia|done]| |done].
    intros [] s' Hs'. eapply wp_mono; [by apply IH; [exact Hs'|lia|]| |done].
    intros [] s2. by replace (n + 1 + Z.of_nat (length steps)) with (n + Z.of_nat (Datatypes.S (length steps))) by lia.
Qed.

(** C25: from an empty cache, whatever the contracts do and however their weights
    change, no operation of the cache panics, what a storage counts is the size of
    its keys and values, all contracts together take at most [TOTAL_MEMORY], and a
    read gives the last value set for its key or nothing. *)
Theorem cache_within_memory (steps : list cache_step)
    (Hlen : Z.of_nat (length steps) < 2 ^ 32) (Hrange : forallb step_in_range steps = true) :
  exists w c, for_each steps step (∅, new) = Ok tt (w, c) /\
    (forall id s, storages c !! id = Some s -> cs_size s = map_sum pair_size (kvs s) /\ cs_size s <= max_size s) /\
    sizes_total c <= TOTAL_MEMORY /\
    (forall now id key v, get now id key c = Some v -> foldl spec_step ∅ steps !! (id, key) = Some v).
Proof.
  assert (wp False (for_each steps step) (fun _ s' => run_ok (0 + Z.of_nat (length steps)) (foldl spec_step ∅ steps) s')
    (fun _ _ => False) (∅, new)) as H.
  { apply steps_ok; [|lia|done]. split; [|split; [|split; [|split]]]; simpl.
    - split; [simpl; lia|]. split; [simpl; lia|]. intros id s H. simpl in H. by rewrite lookup_empty in H.
    - intros id s k v H. simpl in H. by rewrite lookup_empty in H.
    - unfold quotas_total, map_sum. simpl. by rewrite map_fold_empty.
    - set_solver.
    - split; [done|]. intros k x H. by rewrite lookup_empty in H. }
  unfold wp in H. destruct (for_each steps step (∅, new)) as [[] [w c]|?| |]; [|done..].
  destruct H as (Hc & Hv & Hq & _). simpl in *. exists w, c. split; [done|]. split; [|split].
  - intros id s Hs. by destruct (cache_ok_at c id s Hc Hs) as [? [? _]].
  - pose proof (sizes_within c Hc). lia.
  - intros now id key v. unfold get. destruct (storages c !! id) as [s|] eqn:Hs; [|done].
    destruct (kvs s !! key) as [e|] eqn:Hk; [|done]. destruct (expire_at e <=? now); [done|]. intros [= <-]. by apply (Hv id s).
Qed.

End Runs.

#[local] Instance release : Profile := {| overflow_checks := false; debug_assertions := false |}.

(** A cache with two contracts: the lighter one loses its share when the other grows. *)
Definition wit_steps : list cache_step :=
  [Install [1]; Install [2]; SetWeight [1] 1; SetWeight [2] 1; ApplyQuotas;
   UseCache (0, 0, 0) [1] (CacheSet [7] [1; 2; 3]); UseCache (0, 0, 0) [2] (CacheSet [7] [4]);
   SetWeight [2] 20971519; ApplyQuotas; UseCache (1, 1, 1) [2] (CacheSetExpiration [7] 60)].

Lemma cache_within_memory_witness :
  Z.of_nat (length wit_steps) < 2 ^ 32 /\ forallb step_in_range wit_steps = true /\
  exists w c, for_each wit_steps step (∅, new) = Ok tt (w, c) /\ sizes_total c <= TOTAL_MEMORY /\
    get 2 [1] [7] c = None /\ get 2 [2] [7] c = Some [4].
Proof.
  split; [vm_compute; done|]. split; [vm_compute; done|].
  destruct (cache_within_memory wit_steps) as (w & c & H & _ & H2 & _); [vm_compute; done|vm_compute; done|].
  exists w, c. split; [exact H|]. split; [exact H2|].
  assert (for_each wit_steps step (∅, new) = Ok tt (w, c)) as H' by exact H. vm_compute in H'.
  injection H' as <- <-. split; vm_compute; reflexivity.
Defined.

End LocalCacheProps.
