(* ===== verification/PinkTypes.v ===== *)
(** * Data of the Pink runtime

    The execution modes and side effects of crates/pink/capi/src, the events and
    the chain extension of crates/pink/pink/src, and the storage of the runtime
    (crates/pink/runtime/src/runtime/pallet_pink.rs).  Accounts and contract
    addresses are 32 bytes, read as numbers. *)
From stdpp Require Import prelude gmap list strings.
From Stdlib Require Import ZArith Lia.
From S2P Require Import Prelude Types LocalCache.

(** ** capi/src/types.rs *)
Inductive ExecutionMode := Query | Estimating | Transaction.

#[export] Instance ExecutionMode_eq_dec : EqDecision ExecutionMode.
Proof. solve_decision. Defined.

Definition is_query (m : ExecutionMode) : bool := match m with Query => true | _ => false end.
Definition is_transaction (m : ExecutionMode) : bool := match m with Transaction => true | _ => false end.
Definition is_estimating (m : ExecutionMode) : bool := match m with Estimating => true | _ => false end.

Definition should_return_coarse_gas (m : ExecutionMode) : bool :=
  match m with Query => true | Estimating => true | Transaction => false end.

Definition deterministic_required (m : ExecutionMode) : bool :=
  match m with Query => false | Estimating => true | Transaction => true end.

(** ** pink/src/lib.rs *)
Inductive HookPoint := OnBlockEndHook.

Record SidevmConfig := mkSidevmConfig {
  max_code_size : Z;
  max_memory_pages : Z;
  vital_capacity : Z;
  deadline : Z;
}.

Definition SidevmConfig_default : SidevmConfig :=
  mkSidevmConfig (1024 * 1024 * 10) 1024 50000000000 (2 ^ 32 - 1).

Inductive Workers := AllWorkers | WorkerList (l : list Z).

Inductive SidevmOperation :=
| SidevmStart (contract : Z) (code_hash : H256) (workers : Workers) (config : SidevmConfig)
| SidevmSetDeadline (contract : Z) (deadline : Z).

Inductive PinkEvent :=
| SetHook (hook : HookPoint) (contract : Z) (selector gas_limit : Z)
| DeploySidevmTo (contract : Z) (code_hash : H256)
| SidevmMessage (payload : bytes)
| CacheOpEvent (op : CacheOp)
| StopSidevm
| ForceStopSidevm (contract : Z)
| SetLogHandler (handler : Z)
| SetContractWeight (contract weight : Z)
| UpgradeRuntimeTo (version : Z * Z)
| SidevmOperationEvent (op : SidevmOperation)
| SetJsRuntime (code_hash : H256).

Definition allowed_in_query (e : PinkEvent) : bool :=
  match e with
  | SetHook _ _ _ _ => false
  | DeploySidevmTo _ _ => true
  | SidevmMessage _ => true
  | CacheOpEvent _ => true
  | StopSidevm => true
  | ForceStopSidevm _ => true
  | SetLogHandler _ => false
  | SetContractWeight _ _ => false
  | UpgradeRuntimeTo _ => false
  | SidevmOperationEvent _ => true
  | SetJsRuntime _ => false
  end.

Definition is_private (e : PinkEvent) : bool :=
  match e with
  | SidevmMessage _ | CacheOpEvent _ => true
  | _ => false
  end.

(** [ExecSideEffects::V1] *)
Record ExecSideEffects := mkExecSideEffects {
  pink_events : list (Z * PinkEvent);
  ink_events : list (Z * list H256 * bytes);
  instantiated : list (Z * Z);
}.

Definition into_query_only_effects (e : ExecSideEffects) : ExecSideEffects :=
  mkExecSideEffects (filter (fun x => allowed_in_query x.2 = true) (pink_events e)) [] [].

Definition effects_is_empty (e : ExecSideEffects) : bool :=
  match pink_events e, ink_events e, instantiated e with
  | [], [], [] => true
  | _, _, _ => false
  end.

(** ** capi/src/v1/mod.rs *)
Record ExecContext := mkExecContext {
  ec_mode : ExecutionMode;
  ec_block_number : Z;
  ec_now_ms : Z;
  ec_req_id : option Z;
}.

(** [ExecContext::default()] *)
Definition ExecContext_default : ExecContext := mkExecContext Estimating 0 0 None.

Record TransactionArguments := mkTransactionArguments {
  ta_origin : Z;
  ta_transfer : Z;
  ta_gas_limit : Z;
  ta_gas_free : bool;
  ta_storage_deposit_limit : option Z;
  ta_deposit : Z;
}.

Definition set_gas_limit (x : Z) (a : TransactionArguments) : TransactionArguments :=
  mkTransactionArguments (ta_origin a) (ta_transfer a) x (ta_gas_free a) (ta_storage_deposit_limit a) (ta_deposit a).

Record ClusterSetupConfig := mkClusterSetupConfig {
  cc_cluster_id : H256;
  cc_owner : Z;
  cc_deposit : Z;
  cc_gas_price : Z;
  cc_deposit_per_item : Z;
  cc_deposit_per_byte : Z;
  cc_treasury_account : Z;
  cc_system_code : bytes;
}.

(** ** The chain extension: pink/src/chain_extension.rs *)
Record HttpRequest := mkHttpRequest {
  url : bytes;
  method : bytes;
  headers : list (bytes * bytes);
  body : bytes;
}.

Record HttpResponse := mkHttpResponse {
  status_code : Z;
  reason_phrase : bytes;
  resp_headers : list (bytes * bytes);
  resp_body : bytes;
}.

Inductive HttpRequestError :=
| InvalidUrl | InvalidMethod | InvalidHeaderName | InvalidHeaderValue | FailedToCreateClient | Timeout | NotAllowed
| TooManyRequests | NetworkError | ResponseTooLarge | TooManyHeaders.

Abbreviation BatchHttpResult := (list (HttpResponse + HttpRequestError) + HttpRequestError)%type (only parsing).

Inductive SigType := Ed25519 | Sr25519 | Ecdsa.

Inductive JsCode := JsSource (s : bytes) | JsBytecode (b : bytes).
Inductive JsValue := JsUndefined | JsNull | JsString (s : bytes) | JsBytes (b : bytes) | JsOther (s : bytes) | JsException (s : bytes).

Inductive PinkError :=
| UnknownChainExtensionId | UnknownChainExtensionFunction | ContractIoBufferOverflow | KeySeedMissing
| DeriveKeyFailed | SystemContractMissing.

(** [DispatchError], with the errors of library pallets as numbers *)
Inductive PinkDispatchError :=
| ExtOther (msg : bytes)
| ExtBadOrigin
| PinkModule (e : PinkError)
| LibModule (e : Z).

(** The functions of [PinkExt]; [UnknownCall] is a call of an unregistered
    function. *)
Inductive ExtCall :=
| http_request (request : HttpRequest)
| batch_http_request (requests : list HttpRequest) (timeout_ms : Z)
| sign (sigtype : SigType) (key message : bytes)
| verify (sigtype : SigType) (pubkey message signature : bytes)
| derive_sr25519_key (salt : bytes)
| get_public_key (sigtype : SigType) (key : bytes)
| cache_set (key value : bytes)
| cache_set_expiration (key : bytes) (expire : Z)
| cache_get (key : bytes)
| cache_remove (key : bytes)
| log (level : Z) (message : bytes)
| getrandom (length : Z)
| is_in_transaction
| ecdsa_sign_prehashed (key message_hash : bytes)
| ecdsa_verify_prehashed (signature message_hash pubkey : bytes)
| system_contract_id
| balance_of (account : Z)
| untrusted_millis_since_unix_epoch
| worker_pubkey
| code_exists (code_hash : H256) (sidevm : bool)
| import_latest_system_code (payer : Z)
| runtime_version
| current_event_chain_head
| js_eval (codes : list JsCode) (args : list bytes)
| worker_sgx_quote
| UnknownCall (func_id : Z).

Definition ext_result (c : ExtCall) : Type :=
  match c with
  | http_request _ => HttpResponse
  | batch_http_request _ _ => BatchHttpResult
  | sign _ _ _ => list Z
  | verify _ _ _ _ => bool
  | derive_sr25519_key _ => list Z
  | get_public_key _ _ => list Z
  | cache_set _ _ => (unit + StorageQuotaExceeded)%type
  | cache_set_expiration _ _ => unit
  | cache_get _ => option (list Z)
  | cache_remove _ => option (list Z)
  | log _ _ => unit
  | getrandom _ => list Z
  | is_in_transaction => bool
  | ecdsa_sign_prehashed _ _ => list Z
  | ecdsa_verify_prehashed _ _ _ => bool
  | system_contract_id => Z
  | balance_of _ => (Z * Z)%type
  | untrusted_millis_since_unix_epoch => Z
  | worker_pubkey => Z
  | code_exists _ _ => bool
  | import_latest_system_code _ => option Z
  | runtime_version => (Z * Z)%type
  | current_event_chain_head => (Z * Z)%type
  | js_eval _ _ => JsValue
  | worker_sgx_quote => option (list Z)
  | UnknownCall _ => Empty_set
  end.

(** ** The storage of the runtime *)

(** Events of [frame_system]: the ones that are read, and others by their encoding *)
Inductive RuntimeEv :=
| ContractsInstantiated (deployer contract : Z)
| ContractEmitted (contract : Z) (data : bytes)
| OtherEv (encoded : bytes).

Record EventRecord := mkEventRecord {
  er_event : RuntimeEv;
  er_topics : list H256;
}.

(** [pallet_pink] with the clock and the events of [frame_system]; [Chain] is the
    storage of the library pallets: balances and contracts. *)
Record PinkState (Chain : Type) := mkPinkState {
  ps_cluster_id : H256;
  ps_gas_price : Z;
  ps_deposit_per_byte : Z;
  ps_deposit_per_item : Z;
  ps_treasury : option Z;
  ps_key : option (list Z);
  ps_sidevm_codes : gmap H256 (Z * list Z);
  ps_system_contract : option Z;
  ps_next_event_block : Z;
  ps_last_event_hash : H256;
  ps_now_ms : Z;
  ps_block_number : Z;
  ps_events : list EventRecord;
  ps_chain : Chain;
}.
Arguments mkPinkState {Chain}.
Arguments ps_cluster_id {Chain}.
Arguments ps_gas_price {Chain}.
Arguments ps_deposit_per_byte {Chain}.
Arguments ps_deposit_per_item {Chain}.
Arguments ps_treasury {Chain}.
Arguments ps_key {Chain}.
Arguments ps_sidevm_codes {Chain}.
Arguments ps_system_contract {Chain}.
Arguments ps_next_event_block {Chain}.
Arguments ps_last_event_hash {Chain}.
Arguments ps_now_ms {Chain}.
Arguments ps_block_number {Chain}.
Arguments ps_events {Chain}.
Arguments ps_chain {Chain}.

Section Setters.
Context {Chain : Type}.
Implicit Types s : PinkState Chain.

Definition set_ps_config (id price per_byte per_item : Z) (treasury : option Z) s : PinkState Chain :=
  mkPinkState id price per_byte per_item treasury (ps_key s) (ps_sidevm_codes s) (ps_system_contract s)
    (ps_next_event_block s) (ps_last_event_hash s) (ps_now_ms s) (ps_block_number s) (ps_events s) (ps_chain s).
Definition set_ps_key (x : option (list Z)) s : PinkState Chain :=
  mkPinkState (ps_cluster_id s) (ps_gas_price s) (ps_deposit_per_byte s) (ps_deposit_per_item s) (ps_treasury s) x
    (ps_sidevm_codes s) (ps_system_contract s) (ps_next_event_block s) (ps_last_event_hash s) (ps_now_ms s)
    (ps_block_number s) (ps_events s) (ps_chain s).
Definition set_ps_sidevm_codes (x : gmap H256 (Z * list Z)) s : PinkState Chain :=
  mkPinkState (ps_cluster_id s) (ps_gas_price s) (ps_deposit_per_byte s) (ps_deposit_per_item s) (ps_treasury s) (ps_key s)
    x (ps_system_contract s) (ps_next_event_block s) (ps_last_event_hash s) (ps_now_ms s)
    (ps_block_number s) (ps_events s) (ps_chain s).
Definition set_ps_system_contract (x : option Z) s : PinkState Chain :=
  mkPinkState (ps_cluster_id s) (ps_gas_price s) (ps_deposit_per_byte s) (ps_deposit_per_item s) (ps_treasury s) (ps_key s)
    (ps_sidevm_codes s) x (ps_next_event_block s) (ps_last_event_hash s) (ps_now_ms s)
    (ps_block_number s) (ps_events s) (ps_chain s).
Definition set_ps_event_head (number : Z) (hash : H256) s : PinkState Chain :=
  mkPinkState (ps_cluster_id s) (ps_gas_price s) (ps_deposit_per_byte s) (ps_deposit_per_item s) (ps_treasury s) (ps_key s)
    (ps_sidevm_codes s) (ps_system_contract s) number hash (ps_now_ms s)
    (ps_block_number s) (ps_events s) (ps_chain s).
Definition set_ps_block (now_ms block : Z) (events : list EventRecord) s : PinkState Chain :=
  mkPinkState (ps_cluster_id s) (ps_gas_price s) (ps_deposit_per_byte s) (ps_deposit_per_item s) (ps_treasury s) (ps_key s)
    (ps_sidevm_codes s) (ps_system_contract s) (ps_next_event_block s) (ps_last_event_hash s) now_ms
    block events (ps_chain s).
Definition set_ps_events (x : list EventRecord) s : PinkState Chain := set_ps_block (ps_now_ms s) (ps_block_number s) x s.
Definition set_ps_chain (x : Chain) s : PinkState Chain :=
  mkPinkState (ps_cluster_id s) (ps_gas_price s) (ps_deposit_per_byte s) (ps_deposit_per_item s) (ps_treasury s) (ps_key s)
    (ps_sidevm_codes s) (ps_system_contract s) (ps_next_event_block s) (ps_last_event_hash s) (ps_now_ms s)
    (ps_block_number s) (ps_events s) x.

End Setters.
