(* ===== verification/PinkHost.v ===== *)
(** * What a worker gives to its contracts: crates/phactory/src/contracts/pink.rs

    The calls out of the Pink runtime ([OCalls] of [RuntimeHandle]): the worker's
    cache, its network, its clock, its key and the side programs.  All of it is
    local to one worker.  The network, the operating system, the JavaScript engine
    and the side programs are the parameter [Outside].  The network counters are
    contracts/pink/http_counters.rs, the requests crates/pink/chain-extension/src/lib.rs. *)
From stdpp Require Import prelude gmap list strings.
From Stdlib Require Import ZArith Lia.
From S2P Require Import Prelude Types Externals Phat LocalCache PinkTypes.

(** ** Side programs *)
Inductive OcallAborted := GasExhausted | Stifled.

Inductive ExitReason :=
| Exited (code : Z) | Stopped | InputClosed | Panicked | Cancelled | ExitOcallAborted (a : OcallAborted)
| Restore | WaitingForCode | CodeTooLarge | FailedToStart.

Inductive SystemMessage :=
| PinkLog (block_number contract entry : Z) (exec_mode : ExecutionMode) (timestamp_ms level : Z) (message : bytes)
| PinkEventMessage (block_number contract : Z) (topics : list H256) (payload : bytes)
| PinkMessageOutput (block_number origin contract : Z) (nonce output : bytes)
| PinkQueryIn (fingerprint : Z).

Inductive SidevmCommand :=
| Stop
| PushMessage (payload : bytes)
| PushSystemMessage (m : SystemMessage)
| PushQuery (origin : option Z) (payload : bytes)
| UpdateWeight (weight : Z).

(** ** http_counters.rs *)
Record HttpCounters := mkHttpCounters {
  latest_activity : Z;
  requests : Z;
  failures : Z;
  by_status_code : gmap Z Z;
}.

Record HttpGlobalCounters := mkHttpGlobalCounters {
  global : HttpCounters;
  by_contract : gmap Z HttpCounters;
}.

Definition HttpCounters_default : HttpCounters := mkHttpCounters 0 0 0 ∅.

(** ** The world outside of a worker *)
Class Outside (W : Type) := {
  (** [async_http_request]: the client, the network and the server *)
  async_http_request : HttpRequest -> Z -> W -> (HttpResponse + HttpRequestError) * W;
  (** the requests of [join_all], unless the time limit ends them *)
  join_all_requests : list HttpRequest -> Z -> W -> option (list (HttpResponse + HttpRequestError)) * W;
  os_random : Z -> W -> option bytes * W;
  (** [SystemTime::now()], in milliseconds since the epoch *)
  os_clock : W -> option Z * W;
  (** time since the call started *)
  elapsed_ms : W -> Z * W;
  (** [sr25519::Pair::sign] draws random numbers. *)
  sr25519_sign_with : bytes -> bytes -> W -> option bytes * W;
  query_sidevm : Z -> Z -> bytes -> Z -> W -> (bytes + bytes) * W;
  compile_module : H256 -> option bytes -> W -> (unit + bytes) * W;
  run_module : Z -> H256 -> list bytes -> Z -> W -> (JsValue + bytes) * W;
  create_quote : Z -> W -> option bytes * W;
}.

(** The worker's own state, as far as contracts can reach it; [lo_sent] has the
    commands sent to side programs, by the channel they were sent on. *)
Record Local (W : Type) := mkLocal {
  lo_cache : LocalCache;
  lo_http : HttpGlobalCounters;
  lo_sent : list (nat * SidevmCommand);
  lo_world : W;
}.
Arguments mkLocal {W}.
Arguments lo_cache {W}.
Arguments lo_http {W}.
Arguments lo_sent {W}.
Arguments lo_world {W}.

(** [ContractExecContext] *)
Record ExecEnv := mkExecEnv {
  ee_context : ExecContext;
  ee_worker : WorkerPublicKey;
  ee_system_code : bytes;
  ee_sgx : bool;
}.

(** The state of the thread during a call: [exec_context], [entry], [call_nonce],
    and the handle the call was made on: its log channel and JavaScript runtime *)
Record CallCtx := mkCallCtx {
  cx_env : option ExecEnv;
  cx_entry : option (Z * Z);
  cx_nonce : option bytes;
  cx_logger : option nat;
  cx_js_runtime : option H256;
  cx_query_time_limit : Z;
}.

Definition set_cx_entry (x : option (Z * Z)) (c : CallCtx) : CallCtx :=
  mkCallCtx (cx_env c) x (cx_nonce c) (cx_logger c) (cx_js_runtime c) (cx_query_time_limit c).
Definition set_cx_nonce (x : option bytes) (c : CallCtx) : CallCtx :=
  mkCallCtx (cx_env c) (cx_entry c) x (cx_logger c) (cx_js_runtime c) (cx_query_time_limit c).
Definition set_cx_handle (logger : option nat) (js : option H256) (c : CallCtx) : CallCtx :=
  mkCallCtx (cx_env c) (cx_entry c) (cx_nonce c) logger js (cx_query_time_limit c).

Module OCall.

(** ** [context] *)
Definition exec_context (c : CallCtx) : ExecContext :=
  match cx_env c with Some e => ee_context e | None => ExecContext_default end.

Definition mode (c : CallCtx) : ExecutionMode := ec_mode (exec_context c).

Definition worker_pubkey (c : CallCtx) : WorkerPublicKey :=
  match cx_env c with Some e => ee_worker e | None => 0 end.

Definition entry_contract (c : CallCtx) : option Z := fst <$> cx_entry c.
Definition origin (c : CallCtx) : option Z := snd <$> cx_entry c.
Definition contract_call_nonce (c : CallCtx) : option bytes := cx_nonce c.

Section Host.
Context {prof : Profile} {cfg : Config} {codec : Codec} {W : Type} {Out : Outside W} {E : Type}.
Abbreviation H := (M (Local W) E).

Definition set_cache (x : LocalCache) (l : Local W) : Local W := mkLocal x (lo_http l) (lo_sent l) (lo_world l).
Definition set_http (x : HttpGlobalCounters) (l : Local W) : Local W := mkLocal (lo_cache l) x (lo_sent l) (lo_world l).
Definition set_sent (x : list (nat * SidevmCommand)) (l : Local W) : Local W := mkLocal (lo_cache l) (lo_http l) x (lo_world l).
Definition set_world (x : W) (l : Local W) : Local W := mkLocal (lo_cache l) (lo_http l) (lo_sent l) x.

(** A step of the world *)
Definition outside {A} (f : W -> A * W) : H A := fun l =>
  let '(a, w) := f (lo_world l) in Ok a (set_world w l).

Definition on_cache {A} (m : M LocalCache StorageQuotaExceeded A) : H (A + StorageQuotaExceeded) := fun l =>
  match m (lo_cache l) with
  | Ok a c => Ok (inl a) (set_cache c l)
  | Err e c => Ok (inr e) (set_cache c l)
  | Panic => Panic
  | NoFuel => NoFuel
  end.

(** The clock of the cache, in seconds *)
Definition cache_now : H Z :=
  let* t := outside os_clock in
  let* t := expect_some t in
  mret (t / 1000).

Definition three_readings : H (Z * Z * Z) :=
  let* a := cache_now in
  let* b := cache_now in
  let* c := cache_now in
  mret (a, b, c).

(** A command is dropped when the channel is full or closed, of which only the log
    takes note. *)
Definition try_send (channel : nat) (cmd : SidevmCommand) : H unit :=
  modify (fun l => set_sent (lo_sent l ++ [(channel, cmd)]) l).

Definition latest_system_code (c : CallCtx) : H bytes :=
  let* e := expect_some (cx_env c) in
  mret (ee_system_code e).

Definition log_to_server (c : CallCtx) (contract level : Z) (message : bytes) : H unit :=
  match cx_logger c with
  | None => mret tt
  | Some log_handler =>
      match entry_contract c with
      | None => mret tt
      | Some entry =>
          let context := exec_context c in
          let* now := outside os_clock in
          try_send log_handler (PushSystemMessage (PinkLog (ec_block_number context) contract entry (ec_mode context)
            (default 0 now mod 2 ^ 64) level message))
      end
  end.

(** ** The cache *)
Definition cache_get (c : CallCtx) (contract key : bytes) : H (option bytes) :=
  if negb (is_query (mode c)) then mret None
  else
    let* now := cache_now in
    let* l := gets lo_cache in
    mret (Cache.get now contract key l).

Definition cache_set (c : CallCtx) (contract key value : bytes) : H (unit + StorageQuotaExceeded) :=
  if is_estimating (mode c) then mret (inl tt)
  else
    let* clock := three_readings in
    on_cache (Cache.set clock contract key value).

Definition cache_set_expiration (c : CallCtx) (contract key : bytes) (expiration : Z) : H unit :=
  if is_estimating (mode c) then mret tt
  else
    let* clock := three_readings in
    on_cache (Cache.set_expire clock contract key expiration);;;
    mret tt.

Definition cache_remove (c : CallCtx) (contract key : bytes) : H (option bytes) :=
  if is_estimating (mode c) then mret None
  else
    let* now := cache_now in
    let* r := on_cache (Cache.remove now contract key) in
    mret (match r with inl v => v | inr _ => None end).

(** ** The network *)

(** [http_counters::add] on the counters of one contract, or on the global ones *)
Definition count_request (now status_code : Z) (x : HttpCounters) : H HttpCounters :=
  let success := status_code / 100 =? 2 in
  let* reqs := arith 64 (requests x + 1) in
  let* fails := (if success then mret (failures x) else arith 64 (failures x + 1)) in
  let* codes :=
    (if status_code =? 0 then mret (by_status_code x)
     else
       let* n := arith 64 (default 0 (by_status_code x !! status_code) + 1) in
       mret (<[status_code := n]> (by_status_code x))) in
  mret (mkHttpCounters now reqs fails codes).

Definition count_http (contract status_code : Z) : H unit :=
  let* now := cache_now in
  let* k := gets lo_http in
  let* g := count_request now status_code (global k) in
  let* b := count_request now status_code (default HttpCounters_default (by_contract k !! contract)) in
  modify (set_http (mkHttpGlobalCounters g (<[contract := b]> (by_contract k)))).

Definition display (e : HttpRequestError) : bytes :=
  bytes_of_string match e with
  | InvalidUrl => "Invalid URL"
  | InvalidMethod => "Invalid method"
  | InvalidHeaderName => "Invalid header name"
  | InvalidHeaderValue => "Invalid header value"
  | FailedToCreateClient => "Failed to create client"
  | Timeout => "Timeout"
  | NotAllowed => "Not allowed"
  | TooManyRequests => "Too many requests"
  | NetworkError => "Network error"
  | ResponseTooLarge => "Response too large"
  | TooManyHeaders => "Too many headers"
  end.

(** [{err:?}] *)
Definition debug_error (e : HttpRequestError) : bytes :=
  bytes_of_string match e with
  | InvalidUrl => "InvalidUrl"
  | InvalidMethod => "InvalidMethod"
  | InvalidHeaderName => "InvalidHeaderName"
  | InvalidHeaderValue => "InvalidHeaderValue"
  | FailedToCreateClient => "FailedToCreateClient"
  | Timeout => "Timeout"
  | NotAllowed => "NotAllowed"
  | TooManyRequests => "TooManyRequests"
  | NetworkError => "NetworkError"
  | ResponseTooLarge => "ResponseTooLarge"
  | TooManyHeaders => "TooManyHeaders"
  end.

(** [pink_chain_extension::http_request]: errors that version 1.0 of the runtime
    does not know become a response. *)
Definition ext_http_request (request : HttpRequest) (timeout_ms : Z) : H (HttpResponse + HttpRequestError) :=
  let* r := outside (async_http_request request timeout_ms) in
  mret match r with
       | inl resp => inl resp
       | inr ((InvalidUrl | InvalidMethod | InvalidHeaderName | InvalidHeaderValue | FailedToCreateClient | Timeout) as e) =>
           inr e
       | inr e => inl (mkHttpResponse 524 (bytes_of_string "IO Error") [] (debug_error e))
       end.

Definition MAX_CONCURRENT_REQUESTS : nat := 5.

Definition ext_batch_http_request (requests : list HttpRequest) (timeout_ms : Z) : H BatchHttpResult :=
  if Nat.ltb MAX_CONCURRENT_REQUESTS (length requests) then mret (inr TooManyRequests)
  else
    let* r := outside (join_all_requests requests timeout_ms) in
    mret (match r with Some l => inl l | None => inr Timeout end).

(** [limit.saturating_sub(call_elapsed())] *)
Definition time_remaining_ms (c : CallCtx) : H Z :=
  let* t := outside elapsed_ms in
  mret (Z.max 0 (cx_query_time_limit c * 1000 - t) mod 2 ^ 64).

(** [str::trim_start_matches]: every repetition of the prefix goes. *)
Fixpoint trim_start_matches (fuel : nat) (prefix s : bytes) : bytes :=
  match fuel with
  | O => s
  | S fuel =>
      if bool_decide (take (length prefix) s = prefix) then trim_start_matches fuel prefix (drop (length prefix) s)
      else s
  end.

Definition hex_value (c : Z) : option Z :=
  if (48 <=? c) && (c <=? 57) then Some (c - 48)
  else if (97 <=? c) && (c <=? 102) then Some (c - 87)
  else if (65 <=? c) && (c <=? 70) then Some (c - 55)
  else None.

(** [hex::decode] *)
Fixpoint hex_decode (s : bytes) : option bytes :=
  match s with
  | [] => Some []
  | [_] => None
  | a :: b :: s =>
      match hex_value a, hex_value b, hex_decode s with
      | Some x, Some y, Some r => Some (16 * x + y :: r)
      | _, _, _ => None
      end
  end.

Definition of_be_bytes (b : bytes) : Z := fold_left (fun acc x => 256 * acc + x) b 0.

Definition SIDEVM_SCHEME : bytes := bytes_of_string "sidevm://".

Definition sidevm_dest (u : bytes) : option Z :=
  match hex_decode (trim_start_matches (length u) SIDEVM_SCHEME u) with
  | Some d => if Nat.eqb (length d) 32 then Some (of_be_bytes d) else None
  | None => None
  end.

Definition http_request (c : CallCtx) (contract : Z) (request : HttpRequest) : H (HttpResponse + HttpRequestError) :=
  if bool_decide (take (length SIDEVM_SCHEME) (url request) = SIDEVM_SCHEME) then
    match sidevm_dest (url request) with
    | None => mret (inr InvalidUrl)
    | Some dest =>
        let* timeout := time_remaining_ms c in
        let* result :=
          match cx_env c with
          | Some _ => outside (query_sidevm contract dest (body request) timeout)
          | None => mret (inr (bytes_of_string "sidevm_query called outside of contract execution"))
          end in
        mret (inl match result with
              | inl r => mkHttpResponse 200 (bytes_of_string "OK") [] r
              | inr err => mkHttpResponse 500 (bytes_of_string "Internal Server Error") [] err
              end)
    end
  else
    let* timeout := time_remaining_ms c in
    let* result := ext_http_request request timeout in
    count_http contract match result with inl response => status_code response | inr _ => 0 end;;;
    mret result.

Definition batch_http_request (c : CallCtx) (contract : Z) (requests : list HttpRequest) (timeout_ms : Z) :
    H BatchHttpResult :=
  let* remaining := time_remaining_ms c in
  let* results := ext_batch_http_request requests (Z.min remaining timeout_ms) in
  match results with
  | inr e => mret (inr e)
  | inl results =>
      for_each results (fun r => count_http contract match r with inl r => status_code r | inr _ => 0 end);;;
      mret (inl results)
  end.

(** ** JavaScript *)
Definition js_args (codes : list JsCode) (args : list bytes) : list bytes :=
  bytes_of_string "phatjs" ::
  (codes ≫= (fun code =>
     match code with
     | JsSource src => [bytes_of_string "-c"; src]
     | JsBytecode code => [bytes_of_string "-b"; hex_encode code]
     end)) ++ bytes_of_string "--" :: args.

(** [get_resource] reads the code of the JavaScript runtime from the cluster. *)
Definition js_eval (get_resource : H256 -> option bytes) (c : CallCtx) (caller : Z) (codes : list JsCode)
    (args : list bytes) : H JsValue :=
  match cx_js_runtime c with
  | None => mret (JsException (bytes_of_string "No js runtime"))
  | Some js_runtime =>
      let* timeout := time_remaining_ms c in
      let* module := outside (compile_module js_runtime (get_resource js_runtime)) in
      match module with
      | inr err => mret (JsException (bytes_of_string "Failed to load Javascript runtime module: " ++ err))
      | inl _ =>
          let* _ := expect_some (cx_env c) in
          let* r := outside (run_module caller js_runtime (js_args codes args) timeout) in
          mret match r with
               | inl value => value
               | inr err => JsException (bytes_of_string "Failed to run Javascript: " ++ err)
               end
      end
  end.

Definition worker_sgx_quote (c : CallCtx) : H (option bytes) :=
  let* e := expect_some (cx_env c) in
  if ee_sgx e then outside (create_quote (ee_worker e)) else mret None.

End Host.
End OCall.
