(* ===== verification/Pink.v ===== *)
(** * The Pink runtime: crates/pink/runtime/src

    The runtime that executes the contracts of a cluster: its pallet
    (runtime/pallet_pink.rs), the chain extension through which contracts reach the
    worker (runtime/extension.rs), calls and their fees (contract.rs), the chain of
    event blocks and the commit of the storage (storage/mod.rs), and the calls of
    the host (capi/ecall_impl.rs).

    The library pallets (balances, contracts) are parameters.  A contract execution
    of [pallet_contracts] is a program that reads and writes the storage of the
    library pallets and the list of events, and calls the chain extension. *)
From stdpp Require Import prelude gmap list strings.
From Stdlib Require Import ZArith Lia.
From S2P Require Import Prelude Types Externals Registry Crypto Phat LocalCache PinkTypes PinkHost.

(** ** Results of contract executions *)
Record Weight := mkWeight {
  ref_time : Z;
  proof_size : Z;
}.

Inductive StorageDeposit := Charge (v : Z) | Refund (v : Z).

Record ContractResult (A : Type) := mkContractResult {
  gas_consumed : Weight;
  gas_required : Weight;
  storage_deposit : StorageDeposit;
  debug_message : bytes;
  result : A + PinkDispatchError;
}.
Arguments mkContractResult {A}.
Arguments gas_consumed {A}.
Arguments gas_required {A}.
Arguments storage_deposit {A}.
Arguments debug_message {A}.
Arguments result {A}.

Record ExecReturnValue := mkExecReturnValue {
  did_revert : bool;
  ret_data : bytes;
}.

Record InstantiateReturnValue := mkInstantiateReturnValue {
  ir_result : ExecReturnValue;
  ir_account_id : Z;
}.

(** ** Executions of [pallet_contracts] *)
Inductive Prog (Chain A : Type) :=
| Done (a : A)
| Get (k : PinkState Chain -> Prog Chain A)
| Put (chain : Chain) (events : list EventRecord) (p : Prog Chain A)
| CallExt (ext_id address : Z) (c : ExtCall) (k : ext_result c + PinkDispatchError -> Prog Chain A).
Arguments Done {Chain A}.
Arguments Get {Chain A}.
Arguments Put {Chain A}.
Arguments CallExt {Chain A}.

(** ** types.rs *)
Record EventsBlockHeader := mkEventsBlockHeader {
  eb_number : Z;
  eb_runtime_version : Z * Z;
  eb_parent_hash : H256;
  eb_body_hash : H256;
}.

Record EventsBlockBody := mkEventsBlockBody {
  cyrux_block_number : Z;
  eb_contract_call_nonce : option bytes;
  eb_entry_contract : option Z;
  eb_events : list EventRecord;
  eb_origin : option Z;
}.

Record EventsBlock := mkEventsBlock {
  header : EventsBlockHeader;
  block_body : EventsBlockBody;
}.

(** ** Libraries *)
Class PinkLib (Chain : Type) := {
  (** [pallet_balances]; a transfer that fails changes nothing. *)
  bal_transfer : Z -> Z -> Z -> bool -> PinkState Chain -> Chain * list EventRecord + PinkDispatchError;
  bal_deposit_creating : Z -> Z -> PinkState Chain -> Chain * list EventRecord;
  bal_total : Z -> Chain -> Z;
  bal_free : Z -> Chain -> Z;
  (** [pallet_contracts]: origin, address, transfer, gas limit, deposit limit, input,
      whether the code has to be deterministic *)
  contracts_bare_call : Z -> Z -> Z -> Weight -> option Z -> bytes -> bool ->
    Prog Chain (ContractResult ExecReturnValue);
  (** origin, transfer, gas limit, deposit limit, code hash, input, salt *)
  contracts_bare_instantiate : Z -> Z -> Weight -> option Z -> H256 -> bytes -> bytes ->
    Prog Chain (ContractResult InstantiateReturnValue);
  contracts_upload_code : Z -> bytes -> option Z -> bool -> PinkState Chain ->
    H256 * Chain * list EventRecord + PinkDispatchError;
  contracts_code_hash : Z -> Chain -> option H256;
  (** whether [CodeInfoOf] has the hash *)
  code_info_exists : H256 -> Chain -> bool;
  (** [frame_system] *)
  sys_deposit_event : list H256 -> RuntimeEv -> PinkState Chain -> list EventRecord;
  pallets_on_genesis : PinkState Chain -> Chain;
  pallets_on_runtime_upgrade : PinkState Chain -> Chain;
  pallets_on_idle : Z -> PinkState Chain -> Chain * list EventRecord;
  (** the estimate of [cyrux_wasm_checker], if the code is a wasm module *)
  wasmi_memory_cost : bytes -> option Z;
  (** codecs *)
  PinkEvent_topic : H256;
  encode_PinkEvent : PinkEvent -> bytes;
  decode_PinkEvent : bytes -> option PinkEvent;
  encode_EventsBlockBody : EventsBlockBody -> bytes;
  encode_EventsBlockHeader : EventsBlockHeader -> bytes;
  encode_exec_result : ContractResult ExecReturnValue -> bytes;
  encode_instantiate_result : ContractResult InstantiateReturnValue -> bytes;
  format_error : PinkDispatchError -> bytes;
  from_utf8_lossy : bytes -> bytes;
  (** keys of contracts: the signatures that are a function of key and message *)
  ed25519_sign_seed : bytes -> bytes -> option bytes;
  ecdsa_sign_seed : bytes -> bytes -> option bytes;
  verify_sig : SigType -> bytes -> bytes -> bytes -> bool + bytes;
  public_key_of : SigType -> bytes -> option bytes;
  sign_prehashed : bytes -> bytes -> option bytes;
  verify_prehashed : bytes -> bytes -> bytes -> bool;
  init_empty : Chain;
}.

(** A transfer moves its amount; the existential deposit of the runtime is the
    smallest unit, so that no dust is lost. *)
Class BalanceSpec {Chain : Type} (lib : PinkLib Chain) := {
  transfer_moves : forall from to amount keep s chain events, 0 <= amount -> from <> to ->
    bal_transfer from to amount keep s = inl (chain, events) ->
    bal_free from chain = bal_free from (ps_chain s) - amount
    /\ bal_free to chain = bal_free to (ps_chain s) + amount
    /\ forall a, a <> from -> a <> to -> bal_free a chain = bal_free a (ps_chain s);
}.

Definition sat_mul128 (a b : Z) : Z := Z.min (a * b) (2 ^ 128 - 1).
Definition sat_add128 (a b : Z) : Z := Z.min (a + b) (2 ^ 128 - 1).

(** ** contract.rs: coarse gas *)

(** [w - v.leading_zeros()] *)
Definition bit_length (v : Z) : Z := if v =? 0 then 0 else Z.log2 v + 1.

(** [clamp] panics unless the lower bound is at most the upper one. *)
Definition mask_low_bits {S E} (w : Z) (v min_mask_bits : Z) : M S E Z :=
  let pos := bit_length v in
  let pos := Z.max pos 9 - 9 in
  if w - 1 <? min_mask_bits then panic
  else
    let pos := Z.min (Z.max pos min_mask_bits) (w - 1) in
    let cursor := Z.shiftl 1 pos in
    let mask := Z.max 0 (cursor - 1) in
    mret (Z.lor v mask).

Definition mask_low_bits64 {S E} : Z -> Z -> M S E Z := mask_low_bits 64.
Definition mask_low_bits128 {S E} : Z -> Z -> M S E Z := mask_low_bits 128.

Definition MIN_MASKED_BYTES : Z := 256.

Definition mask_deposit {S E} (deposit deposit_per_byte : Z) : M S E Z :=
  let min_masked_value := Z.max 0 (sat_mul128 deposit_per_byte MIN_MASKED_BYTES - 1) in
  mask_low_bits128 deposit (bit_length min_masked_value).

Definition mask_gas {S E} (weight : Weight) : M S E Weight :=
  let* t := mask_low_bits64 (ref_time weight) 28 in
  mret (mkWeight t 0).

Definition coarse_grained {S E A} (r : ContractResult A) (deposit_per_byte : Z) : M S E (ContractResult A) :=
  let* consumed := mask_gas (gas_consumed r) in
  let* required := mask_gas (gas_required r) in
  let* deposit :=
    match storage_deposit r with
    | Charge v => let* v := mask_deposit v deposit_per_byte in mret (Charge v)
    | Refund v => let* v := mask_deposit v deposit_per_byte in mret (Refund v)
    end in
  mret (mkContractResult consumed required deposit (debug_message r) (result r)).

(** ** ecall_impl.rs: limits *)
Definition WEIGHT_REF_TIME_PER_SECOND : Z := 1000000000000.
Definition GAS_PER_SECOND : Z := WEIGHT_REF_TIME_PER_SECOND * 5.

Definition sanitize_args (args : TransactionArguments) (mode : ExecutionMode) : TransactionArguments :=
  let gas_limit :=
    match mode with
    | Transaction | Estimating => GAS_PER_SECOND / 2
    | Query => GAS_PER_SECOND * 10
    end in
  set_gas_limit (Z.min (ta_gas_limit args) gas_limit) args.

Definition MAX_CODE_LEN : Z := 2 * 1024 * 1024.

(** [crate::version()] *)
Definition runtime_version_of_crate : Z * Z := (1, 2).

(** ** The calls of the host that change the storage ([ECalls] of capi/src/v1/mod.rs) *)
Inductive ECall :=
| ESetup (config : ClusterSetupConfig)
| EDeposit (who value : Z)
| ESetKey (key : bytes)
| EUploadCode (account : Z) (code : bytes) (deterministic : bool)
| EUploadSidevmCode (account : Z) (code : bytes)
| EContractInstantiate (code_hash : H256) (input_data salt : bytes) (mode : ExecutionMode) (args : TransactionArguments)
| EContractCall (address : Z) (input_data : bytes) (mode : ExecutionMode) (args : TransactionArguments)
| EOnGenesis
| EOnRuntimeUpgrade
| EOnIdle (block_number : Z).

Inductive EOut :=
| OutUnit
| OutSetup (r : unit + bytes)
| OutHash (r : H256 + bytes)
| OutBytes (b : bytes).

(** A running call: the storage with the changes so far, and the worker *)
Record Rt (Chain W : Type) := mkRt {
  rt_state : PinkState Chain;
  rt_local : Local W;
}.
Arguments mkRt {Chain W}.
Arguments rt_state {Chain W}.
Arguments rt_local {Chain W}.

Module Pink.
Section Pink.
Context {prof : Profile} {cfg : Config} {codec : Codec} {P : PrCrypto}.
Context {Chain : Type} {lib : PinkLib Chain} {W : Type} {Out : Outside W} {E : Type}.
Abbreviation R := (M (Rt Chain W) E).

Definition upd (f : PinkState Chain -> PinkState Chain) : R unit := modify (fun s => mkRt (f (rt_state s)) (rt_local s)).

Definition state : R (PinkState Chain) := gets rt_state.

(** A call out of the runtime *)
Definition ocall {A} (m : M (Local W) E A) : R A := fun s =>
  match m (rt_local s) with
  | Ok a l => Ok a (mkRt (rt_state s) l)
  | Err e l => Err e (mkRt (rt_state s) l)
  | Panic => Panic
  | NoFuel => NoFuel
  end.

(** Key derivation, with its error *)
Definition crypto {A} (m : M unit CryptoError A) : R (A + CryptoError) := fun s =>
  match m tt with
  | Ok a _ => Ok (inl a) s
  | Err e _ => Ok (inr e) s
  | Panic => Panic
  | NoFuel => NoFuel
  end.

(** ** pallet_pink.rs *)
Definition transfer (from to amount : Z) (keep_alive : bool) : R (unit + PinkDispatchError) :=
  let* s := state in
  match bal_transfer from to amount keep_alive s with
  | inl (chain, events) =>
      upd (fun s => set_ps_events events (set_ps_chain chain s));;;
      mret (inl tt)
  | inr e => mret (inr e)
  end.

Definition convert (w : Weight) (s : PinkState Chain) : Z := sat_mul128 (ref_time w) (ps_gas_price s).

Definition pay (user amount : Z) : R (unit + PinkDispatchError) :=
  let* s := state in
  match ps_treasury s with
  | None => mret (inl tt)
  | Some treasury => transfer user treasury amount true
  end.

Definition refund (user amount : Z) : R (unit + PinkDispatchError) :=
  let* s := state in
  match ps_treasury s with
  | None => mret (inl tt)
  | Some treasury => transfer treasury user amount false
  end.

Definition pay_for_gas (user : Z) (gas : Weight) : R (unit + PinkDispatchError) :=
  let* s := state in pay user (convert gas s).

Definition refund_gas (user : Z) (gas : Weight) : R (unit + PinkDispatchError) :=
  let* s := state in refund user (convert gas s).

Definition put_sidevm_code (owner : Z) (code : bytes) : R (H256 + PinkDispatchError) :=
  let hash := blake2_256 code in
  let bytes := Z.of_nat (length code) + 32 in
  let* s := state in
  let fee := sat_add128 (sat_mul128 (ps_deposit_per_byte s) bytes) (ps_deposit_per_item s) in
  let* r := pay owner fee in
  match r with
  | inr e => mret (inr e)
  | inl _ =>
      upd (fun s => set_ps_sidevm_codes (<[hash := (owner, code)]> (ps_sidevm_codes s)) s);;;
      mret (inl hash)
  end.

Definition contract_address (deploying_address : Z) (code_hash : H256) (salt : bytes) (s : PinkState Chain) : Z :=
  blake2_256 (contract_id_preimage (h256_bytes deploying_address) (h256_bytes code_hash) (h256_bytes (ps_cluster_id s)) salt).

Definition take_next_event_block_number : R Z :=
  let* s := state in
  let next := ps_next_event_block s in
  let* n := arith 64 (next + 1) in
  upd (fun s => set_ps_event_head n (ps_last_event_hash s) s);;;
  mret next.

(** ** extension.rs *)
Definition deposit_pink_event (contract : Z) (event : PinkEvent) : R unit :=
  upd (fun s => set_ps_events (sys_deposit_event [PinkEvent_topic] (ContractEmitted contract (encode_PinkEvent event)) s) s).

(** One event: what it adds to the three lists, and whether it is kept from the
    public events *)
Definition classify_event (e : EventRecord) (x : ExecSideEffects) : ExecSideEffects * bool :=
  match er_event e with
  | ContractsInstantiated deployer address =>
      (mkExecSideEffects (pink_events x) (ink_events x) (instantiated x ++ [(deployer, address)]), false)
  | ContractEmitted address data =>
      if bool_decide (er_topics e = [PinkEvent_topic]) then
        match decode_PinkEvent data with
        | Some event =>
            (mkExecSideEffects (pink_events x ++ [(address, event)]) (ink_events x) (instantiated x), is_private event)
        | None => (x, false)
        end
      else (mkExecSideEffects (pink_events x) (ink_events x ++ [(address, er_topics e, data)]) (instantiated x), false)
  | OtherEv _ => (x, false)
  end.

Definition get_side_effects (s : PinkState Chain) : list EventRecord * ExecSideEffects :=
  fold_left (fun acc e =>
    let '(system_events, x) := acc in
    let '(x, is_private_event) := classify_event e x in
    (if (is_private_event : bool) then system_events else system_events ++ [e], x))
    (ps_events s) ([], mkExecSideEffects [] [] []).

Section Call.
(** The thread's context, and the storage that was committed before the call *)
Context (cx : CallCtx) (backend : PinkState Chain).

Definition other (s : bytes) {A} : R (A + PinkDispatchError) := mret (inr (ExtOther s)).
Definition ok {A} (m : R A) : R (A + PinkDispatchError) := let* a := m in mret (inl a).
Definition pink_error (e : PinkError) {A} : R (A + PinkDispatchError) := mret (inr (PinkModule e)).

Definition or_other {A} (msg : string) (o : option A) : A + PinkDispatchError :=
  match o with Some a => inl a | None => inr (ExtOther (bytes_of_string msg)) end.

(** [DefaultPinkExtension::sign] *)
Definition default_sign (sigtype : SigType) (key message : bytes) : R (list Z + PinkDispatchError) :=
  match sigtype with
  | Sr25519 =>
      let* r := ocall (OCall.outside (sr25519_sign_with key message)) in
      mret (or_other "Invalid key" r)
  | Ed25519 => mret (or_other "Invalid key" (ed25519_sign_seed key message))
  | Ecdsa => mret (or_other "Invalid key" (ecdsa_sign_seed key message))
  end.

Definition derive_contract_key (address : Z) (salt : bytes) : R (list Z + PinkDispatchError) :=
  let* s := state in
  match ps_key s with
  | None => pink_error KeySeedMissing
  | Some privkey =>
      let* r := crypto (Crypto.restore_from_secret_key privkey) in
      match r with
      | inr _ => panic
      | inl privkey =>
          let* d := crypto (Crypto.derive_sr25519_pair privkey [h256_bytes address; salt; bytes_of_string "keygen"]) in
          match d with
          | inr _ => pink_error DeriveKeyFailed
          | inl derived => mret (inl (Crypto.dump_secret_key derived))
          end
      end
  end.

(** [code_exists] of a contract code looks into the committed storage. *)
Definition code_exists_in (code_hash : H256) (sidevm : bool) : R bool :=
  if sidevm then
    let* s := state in
    mret (bool_decide (is_Some (ps_sidevm_codes s !! code_hash)))
  else mret (code_info_exists code_hash (ps_chain backend)).

Definition upload (account : Z) (code : bytes) (limit : option Z) (deterministic : bool) : R (H256 + PinkDispatchError) :=
  let* s := state in
  match contracts_upload_code account code limit deterministic s with
  | inl (hash, chain, events) =>
      upd (fun s => set_ps_events events (set_ps_chain chain s));;;
      mret (inl hash)
  | inr e => mret (inr e)
  end.

Definition import_system_code (address payer : Z) : R (option Z + PinkDispatchError) :=
  let* s := state in
  if negb (bool_decide (Some address = ps_system_contract s)) then mret (inr ExtBadOrigin)
  else
    let* system_code := ocall (OCall.latest_system_code cx) in
    match system_code with
    | [] => mret (inl None)
    | _ =>
        let code_hash := blake2_256 system_code in
        let* exists_ := code_exists_in code_hash false in
        if (exists_ : bool) then mret (inl (Some code_hash))
        else
          let* r := upload payer system_code None true in
          mret (match r with inl _ => inl (Some code_hash) | inr e => inr e end)
    end.

(** [impl PinkExtBackend for CallInQuery] *)
Definition call_in_query (address : Z) (c : ExtCall) : R (ext_result c + PinkDispatchError) :=
  match c return R (ext_result c + PinkDispatchError) with
  | http_request request =>
      let* r := ocall (OCall.http_request cx address request) in
      mret (match r with inl resp => inl resp | inr e => inr (ExtOther (OCall.display e)) end)
  | batch_http_request requests timeout_ms => ok (ocall (OCall.batch_http_request cx address requests timeout_ms))
  | sign sigtype key message => default_sign sigtype key message
  | verify sigtype pubkey message signature =>
      mret (match verify_sig sigtype pubkey message signature with inl b => inl b | inr e => inr (ExtOther e) end)
  | derive_sr25519_key salt => derive_contract_key address salt
  | get_public_key sigtype key => mret (or_other "Invalid key" (public_key_of sigtype key))
  | cache_set key value => ok (ocall (OCall.cache_set cx (h256_bytes address) key value))
  | cache_set_expiration key expire => ok (ocall (OCall.cache_set_expiration cx (h256_bytes address) key expire))
  | cache_get key => ok (ocall (OCall.cache_get cx (h256_bytes address) key))
  | cache_remove key => ok (ocall (OCall.cache_remove cx (h256_bytes address) key))
  | log level message => ok (ocall (OCall.log_to_server cx address level message))
  | getrandom length =>
      let* r := ocall (OCall.outside (os_random length)) in
      mret (or_other "Failed to get random bytes" r)
  | is_in_transaction => mret (inl false)
  | ecdsa_sign_prehashed key message_hash => mret (or_other "Invalid key" (sign_prehashed key message_hash))
  | ecdsa_verify_prehashed signature message_hash pubkey => mret (inl (verify_prehashed signature message_hash pubkey))
  | system_contract_id =>
      let* s := state in
      mret (match ps_system_contract s with Some a => inl a | None => inr (PinkModule SystemContractMissing) end)
  | balance_of account =>
      let* s := state in
      mret (inl (bal_total account (ps_chain s), bal_free account (ps_chain s)))
  | untrusted_millis_since_unix_epoch =>
      let* t := ocall (OCall.outside os_clock) in
      mret (match or_other "The system time is earlier than UNIX_EPOCH" t with
            | inl t => inl (t mod 2 ^ 64) | inr e => inr e end)
  | worker_pubkey => mret (inl (OCall.worker_pubkey cx))
  | code_exists code_hash sidevm => ok (code_exists_in code_hash sidevm)
  | import_latest_system_code payer => import_system_code address payer
  | runtime_version => mret (inl runtime_version_of_crate)
  | current_event_chain_head =>
      let* s := state in
      mret (inl (ps_next_event_block s, ps_last_event_hash s))
  | js_eval codes args =>
      ok (ocall (OCall.js_eval (fun h => snd <$> ps_sidevm_codes backend !! h) cx address codes args))
  | worker_sgx_quote => ok (ocall (OCall.worker_sgx_quote cx))
  | UnknownCall _ => mret (inr (PinkModule UnknownChainExtensionFunction))
  end.

(** [impl PinkExtBackend for CallInTransaction] *)
Definition call_in_transaction (address : Z) (c : ExtCall) : R (ext_result c + PinkDispatchError) :=
  match c return R (ext_result c + PinkDispatchError) with
  | http_request _ =>
      mret (inl (mkHttpResponse 523 (bytes_of_string "API Unavailable") []
        (bytes_of_string "HTTP request is not supported in transaction")))
  | batch_http_request _ _ => mret (inl (inr NotAllowed))
  | sign sigtype key message =>
      match sigtype with
      | Sr25519 => mret (inl [])
      | _ => call_in_query address (sign sigtype key message)
      end
  | cache_set key value =>
      deposit_pink_event address (CacheOpEvent (CacheSet key value));;;
      mret (inl (inl tt))
  | cache_set_expiration key expiration =>
      deposit_pink_event address (CacheOpEvent (CacheSetExpiration key expiration));;;
      mret (inl tt)
  | cache_get _ => mret (inl None)
  | cache_remove key =>
      deposit_pink_event address (CacheOpEvent (CacheRemove key));;;
      mret (inl None)
  | getrandom _ => mret (inl [])
  | is_in_transaction => mret (inl true)
  | untrusted_millis_since_unix_epoch => mret (inl 0)
  | worker_pubkey => mret (inl 0)
  | js_eval _ _ => mret (inl (JsException (bytes_of_string "Js evaluation is not supported in transaction")))
  | worker_sgx_quote => mret (inl None)
  | c => call_in_query address c
  end.

(** [PinkExtension::call] *)
Definition call_extension (ext_id address : Z) (c : ExtCall) : R (ext_result c + PinkDispatchError) :=
  if negb (ext_id =? 0) then pink_error UnknownChainExtensionId
  else if is_query (OCall.mode cx) then call_in_query address c
  else call_in_transaction address c.

Fixpoint run {A} (p : Prog Chain A) : R A :=
  match p with
  | Done a => mret a
  | Get k =>
      let* s := state in
      run (k s)
  | Put chain events p =>
      upd (fun s => set_ps_events events (set_ps_chain chain s));;;
      run p
  | CallExt ext_id address c k =>
      let* r := call_extension ext_id address c in
      run (k r)
  end.

(** ** contract.rs *)
Definition checked_sub (a b : Weight) : option Weight :=
  if (ref_time b <=? ref_time a) && (proof_size b <=? proof_size a)
  then Some (mkWeight (ref_time a - ref_time b) (proof_size a - proof_size b))
  else None.

Definition contract_tx {A} (origin : Z) (gas_limit : Weight) (gas_free : bool) (tx_fn : R (ContractResult A)) :
    R (ContractResult A) :=
  let* paid := (if gas_free then mret (inl tt) else pay_for_gas origin gas_limit) in
  match paid with
  | inr err => mret (mkContractResult (mkWeight 0 0) (mkWeight 0 0) (Charge 0) [] (inr err))
  | inl _ =>
      let* result := tx_fn in
      (if gas_free then mret tt
       else
         let* refund := expect_some (checked_sub gas_limit (gas_consumed result)) in
         let* r := refund_gas origin refund in
         match r with inl _ => mret tt | inr _ => panic end);;;
      mret result
  end.

Definition coarse_if {A} (mode : ExecutionMode) (r : ContractResult A) : R (ContractResult A) :=
  if should_return_coarse_gas mode then
    let* s := state in
    coarse_grained r (ps_deposit_per_byte s)
  else mret r.

Definition instantiate (code_hash : H256) (input_data salt : bytes) (mode : ExecutionMode) (args : TransactionArguments) :
    R (ContractResult InstantiateReturnValue) :=
  let gas_limit := mkWeight (ta_gas_limit args) (2 ^ 64 - 1) in
  let* result := contract_tx (ta_origin args) gas_limit (ta_gas_free args)
    (run (contracts_bare_instantiate (ta_origin args) (ta_transfer args) gas_limit (ta_storage_deposit_limit args)
            code_hash input_data salt)) in
  coarse_if mode result.

Definition bare_call (address : Z) (input_data : bytes) (mode : ExecutionMode) (args : TransactionArguments) :
    R (ContractResult ExecReturnValue) :=
  let gas_limit := mkWeight (ta_gas_limit args) (2 ^ 64 - 1) in
  let* result := contract_tx (ta_origin args) gas_limit (ta_gas_free args)
    (run (contracts_bare_call (ta_origin args) address (ta_transfer args) gas_limit (ta_storage_deposit_limit args)
            input_data (deterministic_required mode))) in
  coarse_if mode result.

Definition check_instantiate_result (r : ContractResult InstantiateReturnValue) : option Z :=
  match result r with
  | inr _ => None
  | inl ret => if did_revert (ir_result ret) then None else Some (ir_account_id ret)
  end.

(** ** ecall_impl.rs *)
Definition deposit (who value : Z) : R unit :=
  upd (fun s => let '(chain, events) := bal_deposit_creating who value s in set_ps_events events (set_ps_chain chain s)).

Definition handle_deposit (args : TransactionArguments) : R unit :=
  if 0 <? ta_deposit args then deposit (ta_origin args) (ta_deposit args) else mret tt.

Definition upload_code (account : Z) (code : bytes) (deterministic : bool) : R (H256 + bytes) :=
  match wasmi_memory_cost code with
  | None => mret (inr (bytes_of_string "Invalid wasm"))
  | Some cost =>
      if MAX_CODE_LEN * 4 <? cost then mret (inr (bytes_of_string "DecompressedCodeTooLarge"))
      else
        let* r := upload account code None deterministic in
        mret (match r with inl h => inl h | inr e => inr (format_error e) end)
  end.

Definition upload_sidevm_code (account : Z) (code : bytes) : R (H256 + bytes) :=
  let* r := put_sidevm_code account code in
  mret (match r with inl h => inl h | inr e => inr (format_error e) end).

Definition on_genesis : R unit := upd (fun s => set_ps_chain (pallets_on_genesis s) s).
Definition on_runtime_upgrade : R unit := upd (fun s => set_ps_chain (pallets_on_runtime_upgrade s) s).
Definition on_idle (n : Z) : R unit :=
  upd (fun s => let '(chain, events) := pallets_on_idle n s in set_ps_events events (set_ps_chain chain s)).

Definition set_key (key : bytes) : R unit := upd (set_ps_key (Some key)).

(** the selector of [default()] *)
Definition DEFAULT_SELECTOR : bytes := [0xed; 0x4b; 0x9d; 0x1b].

Definition setup (config : ClusterSetupConfig) : R (unit + bytes) :=
  on_genesis;;;
  upd (set_ps_config (cc_cluster_id config) (cc_gas_price config) (cc_deposit_per_byte config)
         (cc_deposit_per_item config) (Some (cc_treasury_account config)));;;
  deposit (cc_owner config) (cc_deposit config);;;
  let* r := upload_code (cc_owner config) (cc_system_code config) true in
  match r with
  | inr err => mret (inr (bytes_of_string "FailedToUploadSystemCode: " ++ err))
  | inl code_hash =>
      let args := mkTransactionArguments (cc_owner config) 0 (2 ^ 64 - 1) true None 0 in
      let* result := instantiate code_hash DEFAULT_SELECTOR [] Transaction args in
      match check_instantiate_result result with
      | None => mret (inr (bytes_of_string "FailedToDeploySystemContract"))
      | Some address =>
          upd (set_ps_system_contract (Some address));;;
          mret (inl tt)
      end
  end.

(** The levels of [log] *)
Definition level_error : Z := 1.
Definition level_info : Z := 3.
Definition level_debug : Z := 4.

Definition log_debug (address : Z) (message : bytes) : R unit :=
  match message with
  | [] => mret tt
  | _ => ocall (OCall.log_to_server cx address level_debug (from_utf8_lossy message))
  end.

Definition contract_instantiate (code_hash : H256) (input_data salt : bytes) (mode : ExecutionMode)
    (tx_args : TransactionArguments) : R bytes :=
  let tx_args := sanitize_args tx_args mode in
  handle_deposit tx_args;;;
  let* s := state in
  let address := contract_address (ta_origin tx_args) code_hash salt s in
  let* r := instantiate code_hash input_data salt mode tx_args in
  log_debug address (debug_message r);;;
  match result r with
  | inr err => ocall (OCall.log_to_server cx address level_error (bytes_of_string "instantiate failed: " ++ format_error err))
  | inl ret =>
      if did_revert (ir_result ret) then ocall (OCall.log_to_server cx address level_error (bytes_of_string "instantiate reverted"))
      else ocall (OCall.log_to_server cx address level_info (bytes_of_string "instantiated"))
  end;;;
  mret (encode_instantiate_result r).

Definition contract_call (address : Z) (input_data : bytes) (mode : ExecutionMode) (tx_args : TransactionArguments) :
    R bytes :=
  let tx_args := sanitize_args tx_args mode in
  handle_deposit tx_args;;;
  let* r := bare_call address input_data mode tx_args in
  log_debug address (debug_message r);;;
  match result r with
  | inr err =>
      ocall (OCall.log_to_server cx address level_error (bytes_of_string "contract call failed: " ++ format_error err))
  | inl ret =>
      if did_revert ret then ocall (OCall.log_to_server cx address level_error (bytes_of_string "contract call reverted"))
      else mret tt
  end;;;
  mret (encode_exec_result r).

(** ** storage/mod.rs *)
Definition header_hash (h : EventsBlockHeader) : H256 := blake2_256 (encode_EventsBlockHeader h).
Definition body_hash (b : EventsBlockBody) : H256 := blake2_256 (encode_EventsBlockBody b).

Definition maybe_emit_system_event_block (events : list EventRecord) : R (option EventsBlock) :=
  match events with
  | [] => mret None
  | _ =>
      if negb (is_transaction (OCall.mode cx)) then mret None
      else
        let* s := state in
        let body := mkEventsBlockBody (ps_block_number s) (OCall.contract_call_nonce cx) (OCall.entry_contract cx)
          events (OCall.origin cx) in
        let* number := take_next_event_block_number in
        let* s := state in
        let header := mkEventsBlockHeader number runtime_version_of_crate (ps_last_event_hash s) (body_hash body) in
        upd (fun s => set_ps_event_head (ps_next_event_block s) (header_hash header) s);;;
        mret (Some (mkEventsBlock header body))
  end.

(** The state of the storage at the start of a call *)
Definition begin_call : PinkState Chain :=
  let context := OCall.exec_context cx in
  set_ps_block (ec_now_ms context) (ec_block_number context) [] backend.

(** [execute_with] on an overlay over [backend]; the block of events is the one that
    was sent out. *)
Definition execute_with {A} (f : R A) : R (A * ExecSideEffects * option EventsBlock) :=
  upd (fun _ => begin_call);;;
  let* result := f in
  let* s := state in
  let '(system_events, effects) := get_side_effects s in
  let* block := maybe_emit_system_event_block system_events in
  mret (result, effects, block).

End Call.

(** [execute_mut] commits the overlay. *)
Definition execute_mut {A} (cx : CallCtx) (f : PinkState Chain -> R A) : R (A * ExecSideEffects * option EventsBlock) :=
  let* backend := state in
  execute_with cx backend (f backend).

(** The dispatch of the calls that change the storage *)
Definition dispatch (cx : CallCtx) (e : ECall) (backend : PinkState Chain) : R EOut :=
  match e with
  | ESetup config => let* r := setup cx backend config in mret (OutSetup r)
  | EDeposit who value => deposit who value;;; mret OutUnit
  | ESetKey key => set_key key;;; mret OutUnit
  | EUploadCode account code deterministic => let* r := upload_code account code deterministic in mret (OutHash r)
  | EUploadSidevmCode account code => let* r := upload_sidevm_code account code in mret (OutHash r)
  | EContractInstantiate code_hash input_data salt mode args =>
      let* b := contract_instantiate cx backend code_hash input_data salt mode args in mret (OutBytes b)
  | EContractCall address input_data mode args =>
      let* b := contract_call cx backend address input_data mode args in mret (OutBytes b)
  | EOnGenesis => on_genesis;;; mret OutUnit
  | EOnRuntimeUpgrade => on_runtime_upgrade;;; mret OutUnit
  | EOnIdle block_number => on_idle block_number;;; mret OutUnit
  end.

Definition ecall (cx : CallCtx) (e : ECall) : R (EOut * ExecSideEffects * option EventsBlock) :=
  execute_mut cx (dispatch cx e).

(** [execute] drops it. *)
Definition execute {A} (cx : CallCtx) (f : PinkState Chain -> R A) : R A :=
  let* backend := state in
  let* r := execute_with cx backend (f backend) in
  upd (fun _ => backend);;;
  mret r.1.1.

End Pink.
End Pink.
