(* ===== verification/PinkRef.v ===== *)
(** * A small instance of the Pink runtime

    Balances as a map, a contract that calls the chain extension and emits an
    event, and a world that counts its steps: values at which the theorems on the
    runtime and on clusters are applied. *)
From stdpp Require Import prelude gmap list strings.
From Stdlib Require Import ZArith Lia.
From S2P Require Import Prelude Types Externals Reference Registry Crypto PrReference Phat LocalCache PinkTypes PinkHost Pink.
Import RefInstances PrInstances.

Abbreviation RefChain := (gmap Z Z).

Definition ref_free (a : Z) (c : RefChain) : Z := default 0 (c !! a).

Definition ref_transfer (from to amount : Z) (keep_alive : bool) (s : PinkState RefChain) :
    RefChain * list EventRecord + PinkDispatchError :=
  let c := ps_chain s in
  if (if keep_alive then amount <? ref_free from c else amount <=? ref_free from c) then
    let c := <[from := ref_free from c - amount]> c in
    inl (<[to := ref_free to c + amount]> c, ps_events s ++ [mkEventRecord (OtherEv [from; to; amount]) []])
  else inr (LibModule 1).

(** The contract: it asks for the worker's key, stores it in the cache, says it in an
    event and returns it. *)
Definition ref_contract (address : Z) : Prog RefChain (ContractResult ExecReturnValue) :=
  CallExt 0 address worker_pubkey (fun key =>
    let k := match key with inl k => k | inr _ => -1 end in
    CallExt 0 address (cache_set [1] [k]) (fun _ =>
      CallExt 0 address (log 3 [k]) (fun _ =>
        Get (fun s =>
          Put (ps_chain s) (ps_events s ++ [mkEventRecord (ContractEmitted address [k]) []])
            (Done (mkContractResult (mkWeight 100 0) (mkWeight 100 0) (Charge 0) [] (inl (mkExecReturnValue false [k])))))))).

Definition ref_pink_lib : PinkLib RefChain := {|
  bal_transfer := ref_transfer;
  bal_deposit_creating who value s := (<[who := ref_free who (ps_chain s) + value]> (ps_chain s), ps_events s);
  bal_total := ref_free;
  bal_free := ref_free;
  contracts_bare_call _ address _ _ _ _ _ := ref_contract address;
  contracts_bare_instantiate origin _ _ _ code_hash _ _ :=
    let address := 1000 + code_hash in
    Get (fun s => Put (ps_chain s) (ps_events s ++ [mkEventRecord (ContractsInstantiated origin address) []])
      (Done (mkContractResult (mkWeight 10 0) (mkWeight 10 0) (Charge 0) []
        (inl (mkInstantiateReturnValue (mkExecReturnValue false []) address)))));
  contracts_upload_code _ code _ _ s := inl (Z.of_nat (length code), ps_chain s, ps_events s);
  contracts_code_hash a _ := Some (a - 1000);
  code_info_exists _ _ := true;
  sys_deposit_event topics ev s := ps_events s ++ [mkEventRecord ev topics];
  pallets_on_genesis s := ps_chain s;
  pallets_on_runtime_upgrade s := ps_chain s;
  pallets_on_idle _ s := (ps_chain s, ps_events s);
  wasmi_memory_cost _ := Some 1;
  PinkEvent_topic := 77;
  encode_PinkEvent e :=
    match e with CacheOpEvent (CacheSet [k] [v]) => [0; k; v] | SidevmMessage p => 1 :: p | StopSidevm => [2] | _ => [3] end;
  decode_PinkEvent b :=
    match b with [0; k; v] => Some (CacheOpEvent (CacheSet [k] [v])) | 1 :: p => Some (SidevmMessage p) | [2] => Some StopSidevm
    | _ => None end;
  encode_EventsBlockBody b := [cyrux_block_number b; Z.of_nat (length (eb_events b))];
  encode_EventsBlockHeader h := [eb_number h; eb_parent_hash h; eb_body_hash h];
  encode_exec_result r := match result r with inl v => ret_data v | inr _ => [-1] end;
  encode_instantiate_result r := match result r with inl v => [ir_account_id v] | inr _ => [-1] end;
  format_error _ := [];
  from_utf8_lossy b := b;
  ed25519_sign_seed key _ := Some key;
  ecdsa_sign_seed key _ := Some key;
  verify_sig _ _ _ _ := inl true;
  public_key_of _ key := Some key;
  sign_prehashed key _ := Some key;
  verify_prehashed _ _ _ := true;
  init_empty := ∅;
|}.

Lemma ref_balance_spec : BalanceSpec ref_pink_lib.
Proof.
  split. intros from to amount keep s chain events Ha Hne. simpl. unfold ref_transfer, ref_free.
  destruct (if keep then _ else _); [|done]. intros [= <- _].
  set (c := ps_chain s). rewrite (lookup_insert_ne _ to from) by done. rewrite !lookup_insert_eq. simpl.
  rewrite (lookup_insert_ne _ from to) by done. split; [done|]. split; [done|].
  intros a H1 H2. by rewrite !lookup_insert_ne by done.
Qed.

(** A world whose answers depend on how often it was asked *)
Definition ref_outside : Outside Z := {|
  async_http_request _ _ w := (inl (mkHttpResponse 200 [] [] [w]), w + 1);
  join_all_requests l _ w := (Some (replicate (length l) (inr Timeout)), w + 1);
  os_random n w := (Some (replicate (Z.to_nat n) w), w + 1);
  os_clock w := (Some (1000 * w), w + 1);
  elapsed_ms w := (w, w + 1);
  sr25519_sign_with k _ w := (Some (w :: k), w + 1);
  query_sidevm _ _ _ _ w := (inl [w], w + 1);
  compile_module _ _ w := (inl tt, w);
  run_module _ _ _ _ w := (inl (JsString [w]), w + 1);
  create_quote k w := (Some [k; w], w + 1);
|}.

Definition ref_local (w : Z) : Local Z := mkLocal Cache.new (mkHttpGlobalCounters HttpCounters_default ∅) [] w.

Definition ref_pink_state : PinkState RefChain :=
  mkPinkState 5 2 1 1 (Some 900) (Some (secret_of 42)) ∅ (Some 1007) 0 0 0 0 [] {[ 300 := 5000; 900 := 10 ]}.

(** A transaction as a worker with key [k] sees it *)
Definition ref_ctx (k : Z) (mode : ExecutionMode) (req_id : Z) : CallCtx :=
  mkCallCtx (Some (mkExecEnv (mkExecContext mode 8 6000 (Some req_id)) k [1; 2; 3] true)) (Some (1007, 300)) (Some [9])
    (if k =? 1 then Some 4%nat else None) None 10.

Definition ref_args : TransactionArguments := mkTransactionArguments 300 0 1000 false None 0.

Module PinkInstances.
#[export] Existing Instance ref_pink_lib.
#[export] Existing Instance ref_balance_spec.
#[export] Existing Instance ref_outside.
End PinkInstances.
