(* ===== verification/PinkProps.v ===== *)
(** * Properties of the Pink runtime

    Transactions do not depend on the worker that executes them, the events of a
    cluster form a chain that its head commits to, gas is settled at the gas price,
    and coarse gas figures hide all but the leading bits. *)
From stdpp Require Import prelude gmap list strings.
From Stdlib Require Import ZArith Lia.
From S2P Require Import Prelude Types Externals Registry Crypto Phat Relate LocalCache PinkTypes PinkHost Pink Reference PrReference PinkRef.

Module PinkProps.

(** ** Transactions *)

(** The same call, as two workers see it: each has its own key, its own log channel
    and its own request ids *)
Record same_call (cx1 cx2 : CallCtx) : Prop := {
  sc_env : exists e1 e2, cx_env cx1 = Some e1 /\ cx_env cx2 = Some e2
    /\ ec_mode (ee_context e1) = ec_mode (ee_context e2)
    /\ ec_block_number (ee_context e1) = ec_block_number (ee_context e2)
    /\ ec_now_ms (ee_context e1) = ec_now_ms (ee_context e2)
    /\ ee_system_code e1 = ee_system_code e2;
  sc_entry : cx_entry cx1 = cx_entry cx2;
  sc_nonce : cx_nonce cx1 = cx_nonce cx2;
}.

Section Transactions.
Context {prof : Profile} {cfg : Config} {codec : Codec} {P : PrCrypto}.
Context {Chain : Type} {lib : PinkLib Chain} {W : Type} {Out : Outside W} {E : Type}.

(** Two workers that agree on the storage *)
Definition agree (s1 s2 : Rt Chain W) : Prop := rt_state s1 = rt_state s2.

Abbreviation both := (coupled (E := E) (P := False) agree).

Lemma both_state : both Pink.state Pink.state.
Proof. by apply coupled_gets. Qed.

Lemma both_upd f : both (Pink.upd f) (Pink.upd f).
Proof. apply coupled_modify. intros s1 s2 HR. unfold agree in *. simpl. by rewrite HR. Qed.

Lemma both_crypto {A} (m : M unit CryptoError A) : both (Pink.crypto m) (Pink.crypto m).
Proof. intros s1 s2 HR. unfold Pink.crypto. by destruct (m tt). Qed.

Hint Resolve both_state both_upd both_crypto : coupled.

Section Two.
Context (cx1 cx2 : CallCtx) (Hcx : same_call cx1 cx2).

Lemma same_mode : OCall.mode cx1 = OCall.mode cx2.
Proof. destruct Hcx as [(e1 & e2 & E1 & E2 & Hm & _) _ _]. unfold OCall.mode, OCall.exec_context. by rewrite E1, E2. Qed.

Lemma both_log a level msg : both (Pink.ocall (OCall.log_to_server cx1 a level msg)) (Pink.ocall (OCall.log_to_server cx2 a level msg)).
Proof.
  assert (forall cx (s : Rt Chain W), exists s', Pink.ocall (E := E) (OCall.log_to_server cx a level msg) s = Ok tt s' /\ rt_state s' = rt_state s) as Hlog.
  { intros cx s. unfold Pink.ocall, OCall.log_to_server. destruct (cx_logger cx); [|by eexists].
    destruct (OCall.entry_contract cx); [|by eexists]. unfold mbind, OCall.outside.
    destruct (os_clock (lo_world (rt_local s))) as [o w]. by eexists. }
  apply coupled_silent; intros s; [destruct (Hlog cx1 s) as (s' & Es & Hs)|destruct (Hlog cx2 s) as (s' & Es & Hs)];
    exists s'; (split; [done|]); unfold agree; intros; congruence.
Qed.

Lemma both_code : both (Pink.ocall (OCall.latest_system_code cx1)) (Pink.ocall (OCall.latest_system_code cx2)).
Proof.
  destruct Hcx as [(e1 & e2 & E1 & E2 & _ & _ & _ & Hc) _ _]. intros s1 s2 HR.
  unfold Pink.ocall, OCall.latest_system_code. rewrite E1, E2. cbn. by rewrite Hc.
Qed.

Hint Resolve both_log both_code : coupled.

Lemma both_transfer from to amount keep : both (Pink.transfer from to amount keep) (Pink.transfer from to amount keep).
Proof. unfold Pink.transfer. solve_coupled. Qed.

Lemma both_pay user amount : both (Pink.pay user amount) (Pink.pay user amount).
Proof. unfold Pink.pay. pose proof both_transfer. solve_coupled. Qed.

Lemma both_refund user amount : both (Pink.refund user amount) (Pink.refund user amount).
Proof. unfold Pink.refund. pose proof both_transfer. solve_coupled. Qed.

Hint Resolve both_pay both_refund : coupled.

Lemma both_derive a salt : both (Pink.derive_contract_key a salt) (Pink.derive_contract_key a salt).
Proof. unfold Pink.derive_contract_key, Pink.pink_error. solve_coupled. Qed.

Lemma both_exists backend h sidevm : both (Pink.code_exists_in backend h sidevm) (Pink.code_exists_in backend h sidevm).
Proof. unfold Pink.code_exists_in. solve_coupled. Qed.

Lemma both_upload a code limit det : both (Pink.upload a code limit det) (Pink.upload a code limit det).
Proof. unfold Pink.upload. solve_coupled. Qed.

Hint Resolve both_derive both_exists both_upload : coupled.

Lemma both_import backend a payer : both (Pink.import_system_code cx1 backend a payer) (Pink.import_system_code cx2 backend a payer).
Proof. unfold Pink.import_system_code. solve_coupled. Qed.

Lemma both_deposit_event a e : both (Pink.deposit_pink_event a e) (Pink.deposit_pink_event a e).
Proof. apply both_upd. Qed.

Hint Resolve both_import both_deposit_event : coupled.

(** Calls of the chain extension in a transaction *)
Lemma both_extension backend a c : both (Pink.call_in_transaction cx1 backend a c) (Pink.call_in_transaction cx2 backend a c).
Proof. destruct c; unfold Pink.call_in_transaction, Pink.call_in_query, Pink.default_sign, Pink.ok; solve_coupled. Qed.

Hint Resolve both_extension : coupled.

Context (Hmode : is_query (OCall.mode cx1) = false).

Lemma both_run {A} backend (p : Prog Chain A) : both (Pink.run cx1 backend p) (Pink.run cx2 backend p).
Proof.
  induction p; cbn [Pink.run]; solve_coupled; try done.
  unfold Pink.call_extension. rewrite <- same_mode, Hmode. destruct (_ =? _); simpl; [solve_coupled|]. apply coupled_ret.
Qed.

Hint Resolve both_run : coupled.

Lemma both_contract_tx {A} origin limit free (m1 m2 : M (Rt Chain W) E (ContractResult A)) :
  both m1 m2 -> both (Pink.contract_tx origin limit free m1) (Pink.contract_tx origin limit free m2).
Proof. intros Hm. unfold Pink.contract_tx, Pink.pay_for_gas, Pink.refund_gas. solve_coupled. Qed.

Hint Resolve both_contract_tx : coupled.

Lemma both_mask w v m : both (mask_low_bits w v m) (mask_low_bits w v m).
Proof. unfold mask_low_bits. solve_coupled. Qed.

Hint Resolve both_mask : coupled.

Lemma both_coarse {A} (mode : ExecutionMode) (r : ContractResult A) : both (Pink.coarse_if mode r) (Pink.coarse_if mode r).
Proof.
  unfold Pink.coarse_if, coarse_grained, mask_gas, mask_deposit, mask_low_bits64, mask_low_bits128. solve_coupled.
Qed.

Hint Resolve both_coarse : coupled.

Lemma both_instantiate backend h d salt mode args :
  both (Pink.instantiate cx1 backend h d salt mode args) (Pink.instantiate cx2 backend h d salt mode args).
Proof. unfold Pink.instantiate. solve_coupled. Qed.

Lemma both_bare_call backend a d mode args :
  both (Pink.bare_call cx1 backend a d mode args) (Pink.bare_call cx2 backend a d mode args).
Proof. unfold Pink.bare_call. solve_coupled. Qed.

Lemma both_upload_code a code det : both (Pink.upload_code a code det) (Pink.upload_code a code det).
Proof. unfold Pink.upload_code. solve_coupled. Qed.

Lemma both_put_sidevm a code : both (Pink.put_sidevm_code a code) (Pink.put_sidevm_code a code).
Proof. unfold Pink.put_sidevm_code. solve_coupled. Qed.

Lemma both_handle_deposit args : both (Pink.handle_deposit args) (Pink.handle_deposit args).
Proof. unfold Pink.handle_deposit, Pink.deposit. solve_coupled. Qed.

Lemma both_log_debug a msg : both (Pink.log_debug cx1 a msg) (Pink.log_debug cx2 a msg).
Proof. unfold Pink.log_debug. destruct msg; [apply coupled_ret|apply both_log]. Qed.

Hint Resolve both_instantiate both_bare_call both_upload_code both_put_sidevm both_handle_deposit both_log_debug : coupled.

Lemma both_dispatch e backend : both (Pink.dispatch cx1 e backend) (Pink.dispatch cx2 e backend).
Proof.
  destruct e; unfold Pink.dispatch, Pink.setup, Pink.on_genesis, Pink.on_runtime_upgrade, Pink.on_idle, Pink.set_key, Pink.deposit,
    Pink.upload_sidevm_code, Pink.contract_instantiate, Pink.contract_call; solve_coupled.
Qed.

Lemma both_emit events : both (Pink.maybe_emit_system_event_block cx1 events) (Pink.maybe_emit_system_event_block cx2 events).
Proof.
  unfold Pink.maybe_emit_system_event_block, Pink.take_next_event_block_number.
  rewrite <- same_mode. unfold OCall.contract_call_nonce, OCall.entry_contract, OCall.origin.
  rewrite (sc_entry _ _ Hcx), (sc_nonce _ _ Hcx). solve_coupled.
Qed.

Lemma same_begin backend : Pink.begin_call (Chain := Chain) cx1 backend = Pink.begin_call cx2 backend.
Proof.
  destruct Hcx as [(e1 & e2 & E1 & E2 & _ & Hb & Hn & _) _ _].
  unfold Pink.begin_call, OCall.exec_context. by rewrite E1, E2, Hb, Hn.
Qed.

Hint Resolve both_dispatch both_emit : coupled.

Lemma both_ecall e : both (Pink.ecall cx1 e) (Pink.ecall cx2 e).
Proof.
  unfold Pink.ecall, Pink.execute_mut, Pink.execute_with. apply coupled_bind; [apply both_state|]. intros backend.
  rewrite same_begin. solve_coupled.
Qed.

End Two.
End Transactions.

(** ** What an execution cannot change

    A contract execution changes the storage of the library pallets and the events,
    and nothing else of the storage. *)
Section Frame.
Context {prof : Profile} {cfg : Config} {codec : Codec} {P : PrCrypto}.
Context {Chain : Type} {lib : PinkLib Chain} {W : Type} {Out : Outside W} {E T : Type}.
Context (g : PinkState Chain -> T).
Context (g_events : forall ev s, g (set_ps_events ev s) = g s) (g_chain : forall c s, g (set_ps_chain c s) = g s).

Abbreviation frame := (keeps (E := E) (fun s : Rt Chain W => g (rt_state s))).

Lemma frame_ocall {A} (m : M (Local W) E A) : frame (Pink.ocall m).
Proof. intros s. unfold wp, Pink.ocall. by destruct (m (rt_local s)). Qed.

Lemma frame_crypto {A} (m : M unit CryptoError A) : frame (Pink.crypto m).
Proof. intros s. unfold wp, Pink.crypto. by destruct (m tt). Qed.

Lemma frame_mask w v m : frame (mask_low_bits w v m).
Proof. unfold mask_low_bits. solve_keeps. Qed.

Lemma frame_state : frame Pink.state.
Proof. apply keeps_gets. Qed.

Lemma frame_put chain events : frame (Pink.upd (fun s => set_ps_events events (set_ps_chain chain s))).
Proof. apply keeps_modify. intros s. simpl. by rewrite g_events, g_chain. Qed.

Hint Resolve frame_ocall frame_crypto frame_mask frame_state frame_put : keeps.

Lemma frame_deposit_event a e : frame (Pink.deposit_pink_event a e).
Proof. apply keeps_modify. intros s. apply g_events. Qed.

Lemma frame_transfer from to amount keep : frame (Pink.transfer from to amount keep).
Proof. unfold Pink.transfer. solve_keeps. Qed.

Hint Resolve frame_deposit_event frame_transfer : keeps.

Lemma frame_query cx backend a c : frame (Pink.call_in_query cx backend a c).
Proof.
  destruct c; unfold Pink.call_in_query, Pink.default_sign, Pink.derive_contract_key, Pink.pink_error, Pink.import_system_code,
    Pink.code_exists_in, Pink.upload, Pink.ok; solve_keeps.
Qed.

Hint Resolve frame_query : keeps.

Lemma frame_extension cx backend id a c : frame (Pink.call_extension cx backend id a c).
Proof.
  unfold Pink.call_extension, Pink.pink_error. destruct (negb _); [solve_keeps|]. destruct (is_query _); [solve_keeps|].
  destruct c; unfold Pink.call_in_transaction; solve_keeps.
Qed.

Hint Resolve frame_extension : keeps.

Lemma frame_run {A} cx backend (p : Prog Chain A) : frame (Pink.run cx backend p).
Proof. induction p; cbn [Pink.run]; solve_keeps; done. Qed.

Lemma frame_pay u a : frame (Pink.pay u a).
Proof. unfold Pink.pay. solve_keeps. Qed.

Lemma frame_refund u a : frame (Pink.refund u a).
Proof. unfold Pink.refund. solve_keeps. Qed.

Hint Resolve frame_pay frame_refund : keeps.

Lemma frame_tx {A} origin limit free (m : M (Rt Chain W) E (ContractResult A)) :
  frame m -> frame (Pink.contract_tx origin limit free m).
Proof. intros Hm. unfold Pink.contract_tx, Pink.pay_for_gas, Pink.refund_gas. solve_keeps. Qed.

Lemma frame_coarse {A} mode (r : ContractResult A) : frame (Pink.coarse_if mode r).
Proof. unfold Pink.coarse_if, coarse_grained, mask_gas, mask_deposit, mask_low_bits64, mask_low_bits128. solve_keeps. Qed.

End Frame.

(** ** The chain of events *)

#[local] Instance RuntimeEv_eq_dec : EqDecision RuntimeEv.
Proof. solve_decision. Defined.
#[local] Instance EventRecord_eq_dec : EqDecision EventRecord.
Proof. solve_decision. Defined.
#[local] Instance EventsBlockHeader_eq_dec : EqDecision EventsBlockHeader.
Proof. solve_decision. Defined.
#[local] Instance EventsBlockBody_eq_dec : EqDecision EventsBlockBody.
Proof. solve_decision. Defined.

Section EventChain.
Context {prof : Profile} {cfg : Config} {codec : Codec} {P : PrCrypto}.
Context {Chain : Type} {lib : PinkLib Chain} {W : Type} {Out : Outside W} {E : Type}.
Abbreviation R := (M (Rt Chain W) E).

(** The calls of a cluster, and the blocks they send out *)
Fixpoint run_calls (l : list (CallCtx * ECall)) : R (list EventsBlock) :=
  match l with
  | [] => mret []
  | (cx, e) :: l =>
      let* r := Pink.ecall cx e in
      let* bs := run_calls l in
      mret (option_list r.2 ++ bs)
  end.

(** What a reader of the blocks checks, from a number and a parent on *)
Fixpoint verified (number : Z) (parent : H256) (bs : list EventsBlock) : Prop :=
  match bs with
  | [] => True
  | b :: bs =>
      eb_number (header b) = number
      /\ eb_parent_hash (header b) = parent
      /\ eb_body_hash (header b) = Pink.body_hash (block_body b)
      /\ verified (number + 1) (Pink.header_hash (header b)) bs
  end.

Definition last_hash (parent : H256) (bs : list EventsBlock) : H256 :=
  fold_left (fun _ b => Pink.header_hash (header b)) bs parent.

Lemma verified_app n h bs cs :
  verified n h bs -> verified (n + Z.of_nat (length bs)) (last_hash h bs) cs -> verified n h (bs ++ cs).
Proof.
  revert n h. induction bs as [|b bs IH]; intros n h; simpl.
  - intros _ Hc. change (Z.of_nat 0) with 0 in Hc. by rewrite Z.add_0_r in Hc.
  - intros (H1 & H2 & H3 & H4) Hc. repeat split; try done. apply IH; [done|].
    by replace (n + 1 + Z.of_nat (length bs)) with (n + Z.of_nat (S (length bs))) by lia.
Qed.

Definition event_head (s : PinkState Chain) : Z * H256 := (ps_next_event_block s, ps_last_event_hash s).

Abbreviation quiet := (keeps (E := E) (fun s : Rt Chain W => event_head (rt_state s))).

Lemma quiet_upd f : (forall s, event_head (f s) = event_head s) -> quiet (Pink.upd f).
Proof. intros Hf. apply keeps_modify. intros s. apply Hf. Qed.

Hint Extern 1 (keeps _ (Pink.upd _)) => (apply quiet_upd; intros []; simpl; repeat case_match; reflexivity) : keeps.
Hint Extern 1 (keeps _ Pink.state) => apply keeps_gets : keeps.
Hint Resolve frame_ocall frame_mask frame_run frame_pay frame_tx frame_coarse : keeps.

Lemma quiet_dispatch cx e backend : quiet (Pink.dispatch cx e backend).
Proof.
  destruct e; unfold Pink.dispatch, Pink.setup, Pink.on_genesis, Pink.on_runtime_upgrade, Pink.on_idle, Pink.set_key, Pink.deposit,
    Pink.upload_sidevm_code, Pink.put_sidevm_code, Pink.contract_instantiate, Pink.contract_call, Pink.instantiate, Pink.bare_call,
    Pink.upload_code, Pink.upload, Pink.handle_deposit, Pink.deposit, Pink.log_debug; solve_keeps.
Qed.

(** One call sends out at most one block, which continues the chain. *)
Lemma ecall_block cx e (s : Rt Chain W) n h :
  event_head (rt_state s) = (n, h) -> 0 <= n < 2 ^ 64 - 1 ->
  wp (E := E) True (Pink.ecall cx e)
    (fun r s' => let bs := option_list r.2 in
       verified n h bs /\ event_head (rt_state s') = (n + Z.of_nat (length bs), last_hash h bs))
    (fun _ _ => True) s.
Proof.
  intros Hh Hn. unfold Pink.ecall, Pink.execute_mut, Pink.execute_with, Pink.state, Pink.upd. wp_lines.
  eapply keeps_wp; [done|apply quiet_dispatch| |done]. intros r s1 H1.
  change (event_head (rt_state s1) = event_head (rt_state s)) in H1. rewrite Hh in H1.
  wp_lines. destruct (Pink.get_side_effects (rt_state s1)) as [events effects].
  wp_step. unfold Pink.maybe_emit_system_event_block, Pink.take_next_event_block_number, Pink.state, Pink.upd.
  destruct events as [|ev events]; [wp_steps; simpl; change (Z.of_nat 0) with 0; by rewrite Z.add_0_r|].
  destruct (negb _); [wp_steps; simpl; change (Z.of_nat 0) with 0; by rewrite Z.add_0_r|].
  unfold event_head in H1. injection H1 as H1 H2.
  wp_lines. rewrite H1. apply wp_arith; [|lia..]. intros _.
  wp_steps. simpl. rewrite H2. unfold event_head. simpl. repeat split; reflexivity.
Qed.

Lemma run_calls_chain l (s : Rt Chain W) n h :
  event_head (rt_state s) = (n, h) -> 0 <= n -> n + Z.of_nat (length l) < 2 ^ 64 ->
  wp (E := E) True (run_calls l)
    (fun bs s' => verified n h bs /\ event_head (rt_state s') = (n + Z.of_nat (length bs), last_hash h bs) /\ (length bs <= length l)%nat)
    (fun _ _ => True) s.
Proof.
  revert s n h. induction l as [|[cx e] l IH]; intros s n h Hs Hn Hl; simpl; [wp_step; simpl; change (Z.of_nat 0) with 0; by rewrite Z.add_0_r|].
  simpl in Hl. wp_step. eapply wp_mono; [apply (ecall_block cx e s n h Hs); lia| |done].
  intros [[r ef] b] s1. cbn zeta. simpl. intros [Hv Hh]. wp_step.
  assert (length (option_list b) <= 1)%nat as Hb by (destruct b; simpl; lia).
  eapply wp_mono; [eapply (IH s1 _ _ Hh); lia| |done]. intros bs s2 (Hv2 & Hh2 & Hb2). wp_step.
  rewrite length_app. split; [by apply verified_app|]. split; [|lia]. rewrite Hh2. unfold last_hash. rewrite fold_left_app.
  f_equal. lia.
Qed.

(** Two blocks with a hash in common that they should not have *)
Definition collide (b c : EventsBlock) : Prop :=
  header b <> header c /\ Pink.header_hash (header b) = Pink.header_hash (header c)
  \/ block_body b <> block_body c /\ Pink.body_hash (block_body b) = Pink.body_hash (block_body c).

Lemma verified_snoc n h l x : verified n h (l ++ [x]) ->
  verified n h l /\ eb_parent_hash (header x) = last_hash h l /\ eb_body_hash (header x) = Pink.body_hash (block_body x).
Proof.
  revert n h. induction l as [|y l IH]; intros n h; simpl; [naive_solver|].
  intros (H1 & H2 & H3 & H4). destruct (IH _ _ H4) as (H5 & H6 & H7). done.
Qed.

(** The head of the chain commits to its blocks. *)
Lemma verified_unique n h bs cs :
  verified n h bs -> verified n h cs -> length bs = length cs -> last_hash h bs = last_hash h cs ->
  bs = cs \/ exists b c, b ∈ bs /\ c ∈ cs /\ collide b c.
Proof.
  revert cs. induction bs as [|b bs IH] using rev_ind; intros cs; [left; by destruct cs|].
  destruct cs as [|c cs _] using rev_ind; [rewrite length_app; simpl; lia|].
  intros Hb Hc Hl Hh. unfold last_hash in Hh. rewrite !fold_left_app in Hh. simpl in Hh.
  assert (b ∈ bs ++ [b] /\ c ∈ cs ++ [c]) as [Hinb Hinc] by set_solver.
  destruct (decide (header b = header c)) as [Heq|Hne]; [|right; exists b, c; unfold collide; auto].
  destruct (verified_snoc _ _ _ _ Hb) as (Hb1 & Hb2 & Hb3). destruct (verified_snoc _ _ _ _ Hc) as (Hc1 & Hc2 & Hc3).
  destruct (decide (block_body b = block_body c)) as [Heb|Hne]; [|right; exists b, c; unfold collide; intuition congruence].
  rewrite !length_app in Hl. simpl in Hl.
  destruct (IH cs Hb1 Hc1 ltac:(lia) ltac:(congruence)) as [->|(x & y & Hx & Hy & Hcol)].
  - left. destruct b, c. simpl in *. by subst.
  - right. exists x, y. rewrite !elem_of_app. auto.
Qed.

(** Events of which only the cluster's workers may know *)
Definition private_record (e : EventRecord) : Prop :=
  er_topics e = [PinkEvent_topic]
  /\ exists a data ev, er_event e = ContractEmitted a data /\ decode_PinkEvent data = Some ev /\ is_private ev = true.

Lemma side_effects_public (s : PinkState Chain) e : e ∈ (Pink.get_side_effects s).1 -> ~ private_record e.
Proof.
  unfold Pink.get_side_effects. set (x0 := mkExecSideEffects [] [] []).
  assert (forall l acc x, (forall e, e ∈ acc -> ~ private_record e) ->
    forall e, e ∈ (fold_left (fun acc e => let '(se, x) := acc in let '(x, p) := Pink.classify_event e x in
      (if (p : bool) then se else se ++ [e], x)) l (acc, x)).1 -> ~ private_record e) as Hfold.
  { clear. induction l as [|y l IH]; intros acc x Hacc e; simpl; [apply Hacc|].
    destruct (Pink.classify_event y x) as [x' p] eqn:Hc. apply IH. intros z. destruct p; [apply Hacc|].
    rewrite elem_of_app, list_elem_of_singleton. intros [Hz| ->]; [by apply Hacc|].
    intros (Ht & a & data & ev & He & Hd & Hp). unfold Pink.classify_event in Hc.
    rewrite He, (bool_decide_eq_true_2 _ Ht), Hd in Hc. congruence. }
  apply Hfold. intros y Hy. by apply elem_of_nil in Hy.
Qed.

Lemma ecall_block_public cx e (s : Rt Chain W) :
  wp (E := E) True (Pink.ecall cx e)
    (fun r _ => forall b ev, r.2 = Some b -> ev ∈ eb_events (block_body b) -> ~ private_record ev) (fun _ _ => True) s.
Proof.
  unfold Pink.ecall, Pink.execute_mut, Pink.execute_with, Pink.state, Pink.upd. wp_lines.
  apply wp_any. intros r s1. wp_lines.
  pose proof (side_effects_public (rt_state s1)) as Hp.
  destruct (Pink.get_side_effects (rt_state s1)) as [events effects]. simpl in Hp.
  wp_step. unfold Pink.maybe_emit_system_event_block, Pink.take_next_event_block_number, Pink.state, Pink.upd.
  destruct events as [|ev events]; [wp_steps; by intros|]. destruct (negb _); [wp_steps; by intros|].
  wp_lines. apply wp_arith_any; [lia|done|]. intros n _. wp_steps. simpl. intros b ev' [= <-]. apply Hp.
Qed.

Lemma run_calls_public l (s : Rt Chain W) :
  wp (E := E) True (run_calls l)
    (fun bs _ => forall b ev, b ∈ bs -> ev ∈ eb_events (block_body b) -> ~ private_record ev) (fun _ _ => True) s.
Proof.
  revert s. induction l as [|[cx e] l IH]; intros s; simpl; [wp_step; intros b ev Hb; by apply elem_of_nil in Hb|].
  wp_step. eapply wp_mono; [apply ecall_block_public| |done]. intros r s1 Hr. wp_step.
  eapply wp_mono; [apply IH| |done]. intros bs s2 Hbs. wp_step. intros b ev.
  rewrite elem_of_app. intros [Hb|Hb]; [|by apply Hbs]. destruct r as [r' [b'|]]; simpl in *.
  - apply list_elem_of_singleton in Hb as ->. by apply Hr.
  - by apply elem_of_nil in Hb.
Qed.

End EventChain.

(** ** Coarse gas *)

Lemma lor_ones v p : 0 <= p -> Z.lor v (Z.max 0 (Z.shiftl 1 p - 1)) = v / 2 ^ p * 2 ^ p + (2 ^ p - 1).
Proof.
  intros Hp. pose proof (Z.pow_pos_nonneg 2 p ltac:(lia) Hp) as H2.
  rewrite Z.shiftl_1_l, Z.max_r by lia. pose proof (Z.add_lor_land v (Z.ones p)) as Ha.
  rewrite Z.land_ones, Z.ones_equiv in Ha by done. rewrite <- Z.sub_1_r in Ha.
  pose proof (Z.div_mod v (2 ^ p) ltac:(lia)). lia.
Qed.

Lemma bit_length_bound v : 0 <= v -> v < 2 ^ bit_length v.
Proof.
  intros Hv. unfold bit_length. destruct (Z.eqb_spec v 0) as [->|]; [done|].
  pose proof (Z.log2_spec v ltac:(lia)) as [_ H]. by rewrite <- Z.add_1_r in H.
Qed.

Lemma bit_length_low v : 0 < v -> 2 ^ (bit_length v - 1) <= v.
Proof.
  intros Hv. unfold bit_length. destruct (Z.eqb_spec v 0); [lia|]. rewrite Z.add_simpl_r. by apply Z.log2_spec.
Qed.

Lemma bit_length_width w v : 0 <= w -> 0 <= v < 2 ^ w -> 0 <= bit_length v <= w.
Proof.
  intros Hw Hv. unfold bit_length. destruct (Z.eqb_spec v 0); [lia|]. pose proof (Z.log2_nonneg v).
  pose proof (proj1 (Z.log2_lt_pow2 v w ltac:(lia)) (proj2 Hv)). lia.
Qed.

(** The bits that a masked number keeps: those from [mask_pos] on *)
Definition mask_pos (w v m : Z) : Z := Z.min (Z.max (Z.max (bit_length v) 9 - 9) m) (w - 1).

Lemma mask_value {S E} w v m (s : S) : 0 <= m <= w - 1 ->
  mask_low_bits (E := E) w v m s = Ok (v / 2 ^ mask_pos w v m * 2 ^ mask_pos w v m + (2 ^ mask_pos w v m - 1)) s.
Proof.
  intros Hm. unfold mask_low_bits, mask_pos. rewrite (proj2 (Z.ltb_ge (w - 1) m)) by lia.
  unfold mret. rewrite lor_ones by lia. done.
Qed.

Lemma mask_bounds w v m : 0 <= m <= w - 1 -> 0 <= v < 2 ^ w ->
  let p := mask_pos w v m in
  let r := v / 2 ^ p * 2 ^ p + (2 ^ p - 1) in
  v <= r < 2 ^ w /\ r <= v + v / 2 ^ 8 + 2 ^ m.
Proof.
  intros Hm Hv p r. assert (0 <= p <= w - 1) as Hp by (unfold p, mask_pos; lia).
  pose proof (Z.pow_pos_nonneg 2 p ltac:(lia) ltac:(lia)) as H2.
  pose proof (Z.div_mod v (2 ^ p) ltac:(lia)) as Hd. pose proof (Z.mod_pos_bound v (2 ^ p) H2) as Hr.
  assert (2 ^ w = 2 ^ (w - p) * 2 ^ p) as Hw by (rewrite <- Z.pow_add_r by lia; f_equal; lia).
  assert (v / 2 ^ p < 2 ^ (w - p)) by (apply Z.div_lt_upper_bound; [lia|]; rewrite Z.mul_comm, <- Hw; lia).
  split; [unfold r; nia|].
  assert (2 ^ p <= v / 2 ^ 8 + 2 ^ m); [|unfold r; lia].
  pose proof (Z.pow_pos_nonneg 2 m ltac:(lia) ltac:(lia)). pose proof (Z.div_pos v (2 ^ 8) ltac:(lia) ltac:(lia)).
  destruct (Z.le_gt_cases p m) as [Hle|Hgt]; [pose proof (Z.pow_le_mono_r 2 p m); lia|].
  assert (p <= bit_length v - 9) as Hpl by (unfold p, mask_pos in *; lia).
  destruct (Z.eq_dec v 0) as [->|Hv0]; [unfold bit_length in Hpl; simpl in Hpl; lia|].
  pose proof (bit_length_low v ltac:(lia)). pose proof (Z.pow_le_mono_r 2 p (bit_length v - 9) ltac:(lia) Hpl).
  assert (2 ^ (bit_length v - 9) <= v / 2 ^ 8); [|lia]. apply Z.div_le_lower_bound; [lia|].
  rewrite <- Z.pow_add_r by lia. by replace (8 + (bit_length v - 9)) with (bit_length v - 1) by lia.
Qed.

(** Numbers with the same length and the same leading bits are masked alike. *)
Lemma mask_same w v v' m : 0 <= m <= w - 1 -> 0 <= v < 2 ^ w ->
  bit_length v = bit_length v' ->
  v / 2 ^ Z.max 0 (bit_length v - 9) = v' / 2 ^ Z.max 0 (bit_length v - 9) ->
  mask_pos w v m = mask_pos w v' m /\ v / 2 ^ mask_pos w v m = v' / 2 ^ mask_pos w v m.
Proof.
  intros Hm Hv Hl Hd. unfold mask_pos. rewrite <- Hl. split; [done|].
  set (a := Z.max 0 (bit_length v - 9)) in *. pose proof (bit_length_width w v ltac:(lia) Hv).
  set (p := Z.min _ _). assert (0 <= a <= p) as Ha by (unfold a, p; lia).
  pose proof (Z.pow_pos_nonneg 2 a ltac:(lia) ltac:(lia)). pose proof (Z.pow_pos_nonneg 2 (p - a) ltac:(lia) ltac:(lia)).
  replace p with (a + (p - a)) by lia. rewrite Z.pow_add_r by lia. rewrite <- !Z.div_div by lia. by rewrite Hd.
Qed.

(** ** Fees *)

Section Fees.
Context {prof : Profile} {cfg : Config} {codec : Codec} {P : PrCrypto}.
Context {Chain : Type} {lib : PinkLib Chain} {spec : BalanceSpec lib} {W : Type} {Out : Outside W} {E : Type}.

Definition free (a : Z) (s : Rt Chain W) : Z := bal_free a (ps_chain (rt_state s)).

Definition fee_terms (s : PinkState Chain) : Z * option Z := (ps_gas_price s, ps_treasury s).

(** [amount] went from one account to another, and nothing else happened to balances *)
Definition moved (from to amount : Z) (s s' : Rt Chain W) : Prop :=
  free from s' = free from s - amount /\ free to s' = free to s + amount
  /\ forall a, a <> from -> a <> to -> free a s' = free a s.

Lemma transfer_ok from to amount keep (s : Rt Chain W) : 0 <= amount -> from <> to ->
  wp (E := E) True (Pink.transfer from to amount keep)
    (fun r s' => match r with inl _ => moved from to amount s s' /\ fee_terms (rt_state s') = fee_terms (rt_state s) | inr _ => s' = s end)
    (fun _ _ => True) s.
Proof.
  intros Ha Hne. unfold Pink.transfer, Pink.state, Pink.upd. wp_lines.
  destruct (bal_transfer from to amount keep (rt_state s)) as [[chain events]|e] eqn:Ht; wp_steps; [|done].
  split; [|done]. by apply transfer_moves in Ht.
Qed.

(** The gas limit is paid at the gas price before the call, and what was not consumed
    is paid back after it. *)
Lemma bare_call_fees cx backend address input args (s : Rt Chain W) t price :
  ta_gas_free args = false -> fee_terms (rt_state s) = (price, Some t) -> ta_origin args <> t ->
  0 <= price -> 0 <= ta_gas_limit args -> price * ta_gas_limit args < 2 ^ 128 ->
  wp (E := E) True (Pink.bare_call cx backend address input Transaction args)
    (fun r s' =>
       (exists err, result r = inr err /\ ref_time (gas_consumed r) = 0 /\ s' = s)
       \/ exists s1 s2,
         moved (ta_origin args) t (price * ta_gas_limit args) s s1
         /\ Pink.run (E := E) cx backend (contracts_bare_call (ta_origin args) address (ta_transfer args)
              (mkWeight (ta_gas_limit args) (2 ^ 64 - 1)) (ta_storage_deposit_limit args) input true) s1 = Ok r s2
         /\ ref_time (gas_consumed r) <= ta_gas_limit args
         /\ (0 <= ref_time (gas_consumed r) ->
              moved t (ta_origin args) (price * (ta_gas_limit args - ref_time (gas_consumed r))) s2 s'))
    (fun _ _ => True) s.
Proof.
  intros Hfree Hterms Hne Hp Hl Hb. injection Hterms as Hprice Ht.
  assert (forall x, 0 <= x <= ta_gas_limit args -> sat_mul128 x price = price * x) as Hsat.
  { intros x Hx. unfold sat_mul128. rewrite Z.min_l; [lia|]. nia. }
  unfold Pink.bare_call, Pink.contract_tx. rewrite Hfree. cbn [deterministic_required].
  unfold Pink.pay_for_gas, Pink.pay, Pink.convert, Pink.state. wp_lines. rewrite Ht, Hprice. simpl.
  rewrite Hsat by lia.
  eapply wp_mono; [apply transfer_ok; [nia|done]| |done]. intros [[]|err] s1.
  2:{ intros ->. wp_step. unfold Pink.coarse_if. simpl. wp_step. left. by exists err. }
  intros [Hm1 Hk1]. wp_step.
  match goal with |- wp _ ?m _ _ _ => destruct (m s1) as [r s2|e s2| |] eqn:Hrun; unfold wp at 1; rewrite Hrun; try done end.
  assert (fee_terms (rt_state s2) = (price, Some t)) as Hk2.
  { transitivity (fee_terms (rt_state s1)); [|by rewrite Hk1; unfold fee_terms; rewrite Hprice, Ht].
    refine (keeps_ok (fun s : Rt Chain W => fee_terms (rt_state s)) _ _ _ _ _ Hrun). by apply frame_run. }
  injection Hk2 as Hp2 Ht2.
  wp_step. wp_step. apply wp_expect_some; [intros refund Href|done].
  unfold Pink.checked_sub in Href. simpl in Href.
  destruct (Z.leb_spec (ref_time (gas_consumed r)) (ta_gas_limit args)) as [Hc|]; [|done]. simpl in Href.
  destruct (_ <=? _); [|done]. injection Href as <-.
  unfold Pink.refund_gas, Pink.refund, Pink.convert, Pink.state. wp_lines. rewrite Ht2, Hp2. simpl.
  destruct (Z.le_gt_cases 0 (ref_time (gas_consumed r))) as [H0|H0].
  - rewrite Hsat by lia. eapply wp_mono; [apply transfer_ok; [nia|done]| |done].
    intros [[]|err] s3; [|intros _; by wp_step]. intros [Hm2 _]. wp_steps. unfold Pink.coarse_if. simpl. wp_step.
    right. exists s1, s2. done.
  - apply wp_any. intros [[]|err] s3; [|by wp_step]. wp_steps. unfold Pink.coarse_if. simpl. wp_step.
    right. exists s1, s2. split; [done|]. split; [done|]. split; [done|]. intros; lia.
Qed.

End Fees.

End PinkProps.

Import RefInstances PrInstances PinkInstances.
Import PinkProps.

(** C6: A transaction does not depend on the worker that executes it.  For two
    workers that agree on the storage of the cluster, whatever their keys, caches,
    clocks, networks and log channels are, every call of the host in transaction
    mode has the same result, the same side effects, the same event block and the
    same new storage, or fails on both; contracts may do anything that
    [pallet_contracts] and the chain extension let them do. *)
Theorem transactions_ignore_the_worker {prof : Profile} {cfg : Config} {codec : Codec} {P : PrCrypto} {Chain : Type}
    {lib : PinkLib Chain} {W : Type} {Out : Outside W} {E : Type} cx1 cx2 e (s : PinkState Chain) (l1 l2 : Local W)
    (Hcall : same_call cx1 cx2) (Hmode : OCall.mode cx1 = Transaction) :
  match Pink.ecall (E := E) cx1 e (mkRt s l1), Pink.ecall (E := E) cx2 e (mkRt s l2) with
  | Ok r1 s1, Ok r2 s2 => r1 = r2 /\ rt_state s1 = rt_state s2
  | Err e1 s1, Err e2 s2 => e1 = e2 /\ rt_state s1 = rt_state s2
  | Panic, Panic => True
  | NoFuel, NoFuel => True
  | _, _ => False
  end.
Proof.
  apply (both_ecall cx1 cx2 Hcall); [by rewrite Hmode|]. done.
Qed.

Lemma transactions_ignore_the_worker_witness :
  exists r s1 s2,
    Pink.ecall (E := Empty_set) (ref_ctx 1 Transaction 3) (EContractCall 1007 [] Transaction ref_args)
      (mkRt ref_pink_state (ref_local 5)) = Ok r s1
    /\ Pink.ecall (E := Empty_set) (ref_ctx 2 Transaction 4) (EContractCall 1007 [] Transaction ref_args)
      (mkRt ref_pink_state (ref_local 80)) = Ok r s2
    /\ r.1.1 = OutBytes [0] /\ rt_state s1 = rt_state s2.
Proof.
  pose proof (transactions_ignore_the_worker (E := Empty_set) (ref_ctx 1 Transaction 3) (ref_ctx 2 Transaction 4)
    (EContractCall 1007 [] Transaction ref_args) ref_pink_state (ref_local 5) (ref_local 80)) as H.
  assert (same_call (ref_ctx 1 Transaction 3) (ref_ctx 2 Transaction 4)) as Hc.
  { split; [|done|done]. eexists _, _. split; [reflexivity|]. split; [reflexivity|]. done. }
  specialize (H Hc eq_refl).
  destruct (Pink.ecall (ref_ctx 1 _ _) _ _) as [r1 s1|e1 s1| |] eqn:E1; [|destruct e1|vm_compute in E1; done..].
  destruct (Pink.ecall (ref_ctx 2 _ _) _ _) as [r2 s2|e2 s2| |] eqn:E2; [|destruct e2|done..].
  destruct H as [Hr Hs]. exists r1, s1, s2. split; [done|]. split; [by rewrite Hr|]. split; [|done].
  vm_compute in E1. by injection E1 as <- _.
Defined.

(** C21: The events of a cluster form a chain that its head commits to.  Along every
    sequence of calls from an empty chain, the blocks sent out are numbered one
    after the other, each has the hash of the one before and the hash of its own
    body, the head in the storage is the number and hash of the next link, no block
    has an event that is private to the cluster, and whoever shows another list of
    blocks that verifies against that head shows two blocks with colliding hashes. *)
Theorem event_chain_commits {prof : Profile} {cfg : Config} {codec : Codec} {P : PrCrypto} {Chain : Type}
    {lib : PinkLib Chain} {W : Type} {Out : Outside W} {E : Type} (l : list (CallCtx * ECall)) (s s' : Rt Chain W) bs
    (Hs : event_head (rt_state s) = (0, 0)) (Hl : Z.of_nat (length l) < 2 ^ 64) (Hrun : run_calls (E := E) l s = Ok bs s') :
  verified 0 0 bs
  /\ event_head (rt_state s') = (Z.of_nat (length bs), last_hash 0 bs)
  /\ (forall b ev, b ∈ bs -> ev ∈ eb_events (block_body b) -> ~ private_record ev)
  /\ forall cs, verified 0 0 cs -> event_head (rt_state s') = (Z.of_nat (length cs), last_hash 0 cs) ->
     cs = bs \/ exists b c, b ∈ cs /\ c ∈ bs /\ collide b c.
Proof.
  destruct (wp_ok _ _ _ _ _ _ _ (run_calls_chain (E := E) l s 0 0 Hs ltac:(lia) ltac:(lia)) Hrun) as (Hv & Hh & _).
  split; [done|]. split; [done|]. split; [exact (wp_ok _ _ _ _ _ _ _ (run_calls_public (E := E) l s) Hrun)|].
  intros cs Hc Hch. rewrite Hh in Hch. injection Hch as Hlen Hlast. apply (verified_unique 0 0); [done|done|lia|done].
Qed.

Definition wit_calls : list (CallCtx * ECall) :=
  [(ref_ctx 1 Transaction 3, EContractCall 1007 [] Transaction ref_args);
   (ref_ctx 1 Query 4, EDeposit 300 7);
   (ref_ctx 1 Transaction 5, EContractCall 1007 [] Transaction ref_args)].

Lemma event_chain_commits_witness :
  exists bs s', run_calls (E := Empty_set) wit_calls (mkRt ref_pink_state (ref_local 5)) = Ok bs s' /\ length bs = 2%nat
    /\ verified 0 0 bs.
Proof.
  destruct (run_calls (E := Empty_set) wit_calls (mkRt ref_pink_state (ref_local 5))) as [bs s'|e s'| |] eqn:Hr;
    [|destruct e|vm_compute in Hr; done..].
  exists bs, s'. split; [done|].
  destruct (event_chain_commits (E := Empty_set) wit_calls (mkRt ref_pink_state (ref_local 5)) s' bs eq_refl
    ltac:(vm_compute; reflexivity) Hr) as [Hv _].
  split; [|done]. vm_compute in Hr. by injection Hr as <- _.
Defined.

(** C24: Gas is settled at the gas price.  A paid transaction first pays its whole gas
    limit to the treasury; when the payment is refused nothing happens, and
    otherwise the contract runs, consumes no more than the limit, and exactly the
    price of what it did not consume comes back, so that the fee is the gas
    consumed times the gas price. *)
Theorem gas_settled {prof : Profile} {cfg : Config} {codec : Codec} {P : PrCrypto} {Chain : Type} {lib : PinkLib Chain}
    {spec : BalanceSpec lib} {W : Type} {Out : Outside W} {E : Type} cx backend address input args (s s' : Rt Chain W) r t price
    (Hpaid : ta_gas_free args = false) (Hterms : fee_terms (rt_state s) = (price, Some t)) (Hother : ta_origin args <> t)
    (Hprice : 0 <= price) (Hlimit : 0 <= ta_gas_limit args) (Hbound : price * ta_gas_limit args < 2 ^ 128)
    (Hrun : Pink.bare_call (E := E) cx backend address input Transaction args s = Ok r s') (Hgas : 0 <= ref_time (gas_consumed r)) :
  (exists err, result r = inr err /\ ref_time (gas_consumed r) = 0 /\ s' = s)
  \/ exists s1 s2,
    moved (ta_origin args) t (price * ta_gas_limit args) s s1
    /\ Pink.run (E := E) cx backend (contracts_bare_call (ta_origin args) address (ta_transfer args)
         (mkWeight (ta_gas_limit args) (2 ^ 64 - 1)) (ta_storage_deposit_limit args) input true) s1 = Ok r s2
    /\ ref_time (gas_consumed r) <= ta_gas_limit args
    /\ moved t (ta_origin args) (price * (ta_gas_limit args - ref_time (gas_consumed r))) s2 s'
    /\ (free (ta_origin args) s - free (ta_origin args) s1) - (free (ta_origin args) s' - free (ta_origin args) s2)
       = price * ref_time (gas_consumed r).
Proof.
  destruct (wp_ok _ _ _ _ _ _ _ (bare_call_fees (E := E) cx backend address input args s t price
    Hpaid Hterms Hother Hprice Hlimit Hbound) Hrun) as [Hno|(s1 & s2 & Hm & Hr & Hc & Hm2)]; [by left|].
  right. exists s1, s2. specialize (Hm2 Hgas). split; [done|]. split; [done|]. split; [done|]. split; [done|].
  destruct Hm as (H1 & _ & _), Hm2 as (_ & H2 & _). rewrite H1, H2. lia.
Qed.

Lemma gas_settled_witness :
  exists r s', Pink.bare_call (E := Empty_set) (ref_ctx 1 Transaction 3) ref_pink_state 1007 [] Transaction ref_args
      (mkRt ref_pink_state (ref_local 5)) = Ok r s'
    /\ ref_time (gas_consumed r) = 100 /\ free 300 s' = 5000 - 2 * 100 /\ free 900 s' = 10 + 2 * 100
    /\ exists s1, moved 300 900 2000 (mkRt ref_pink_state (ref_local 5)) s1.
Proof.
  destruct (Pink.bare_call (E := Empty_set) (ref_ctx 1 Transaction 3) ref_pink_state 1007 [] Transaction ref_args
      (mkRt ref_pink_state (ref_local 5))) as [r s'|e s'| |] eqn:Hr; [|destruct e|vm_compute in Hr; done..].
  assert (ref_time (gas_consumed r) = 100 /\ free 300 s' = 4800 /\ free 900 s' = 210 /\ exists v, result r = inl v) as (Hg & H3 & H9 & v & Hv).
  { vm_compute in Hr. injection Hr as <- <-. vm_compute. split; [done|]. split; [done|]. split; [done|]. by eexists. }
  exists r, s'. split; [done|]. split; [done|]. split; [done|]. split; [done|].
  destruct (gas_settled (E := Empty_set) (ref_ctx 1 Transaction 3) ref_pink_state 1007 [] ref_args
    (mkRt ref_pink_state (ref_local 5)) s' r 900 2 eq_refl eq_refl ltac:(done) ltac:(lia) ltac:(vm_compute; done)
    ltac:(vm_compute; done) Hr ltac:(lia)) as [(err & He & _)|(s1 & s2 & Hm & _)]; [congruence|].
  by exists s1.
Defined.

(** A coarse gas figure hides all but the nine leading bits and is never too
    small: it is between the exact one and the exact one plus a 256th of it plus
    2^28, fits the width, and is the same for all figures of the same length with
    the same nine leading bits. *)
Theorem coarse_gas_hides {S E : Type} (v v' p p' : Z) (s : S)
    (Hv : 0 <= v < 2 ^ 64) (Hlen : bit_length v = bit_length v')
    (Hlead : v / 2 ^ Z.max 0 (bit_length v - 9) = v' / 2 ^ Z.max 0 (bit_length v - 9)) :
  exists r,
    mask_gas (E := E) (mkWeight v p) s = Ok (mkWeight r 0) s
    /\ mask_gas (E := E) (mkWeight v' p') s = Ok (mkWeight r 0) s
    /\ v <= r < 2 ^ 64 /\ r <= v + v / 2 ^ 8 + 2 ^ 28.
Proof.
  destruct (mask_same 64 v v' 28 ltac:(lia) Hv Hlen Hlead) as [Hp Hq].
  eexists. split; [|split; [|apply (mask_bounds 64 v 28 ltac:(lia) Hv)]].
  - unfold mask_gas, mask_low_bits64, mbind. cbn [ref_time]. by rewrite mask_value by lia.
  - unfold mask_gas, mask_low_bits64, mbind. cbn [ref_time]. by rewrite mask_value, <- Hp, <- Hq by lia.
Qed.

Lemma coarse_gas_hides_witness :
  exists r, mask_gas (S := unit) (E := Empty_set) (mkWeight 0xffff00001234 7) tt = Ok (mkWeight r 0) tt
    /\ mask_gas (S := unit) (E := Empty_set) (mkWeight 0xffff0000beef 8) tt = Ok (mkWeight r 0) tt /\ 0xffff00001234 <= r < 2 ^ 64.
Proof.
  destruct (coarse_gas_hides (S := unit) (E := Empty_set) 0xffff00001234 0xffff0000beef 7 8 tt ltac:(lia)
    ltac:(vm_compute; reflexivity) ltac:(vm_compute; reflexivity)) as (r & H1 & H2 & H3 & _).
  exists r. exact (conj H1 (conj H2 H3)).
Defined.

(** A deposit of more than 2^119 units per byte leaves no room for the mask. *)
Lemma mask_deposit_panics {S E : Type} (deposit per_byte : Z) (s : S) :
  2 ^ 119 < per_byte < 2 ^ 128 -> mask_deposit (E := E) deposit per_byte s = Panic.
Proof.
  intros Hp. unfold mask_deposit, mask_low_bits128, mask_low_bits.
  assert (bit_length (Z.max 0 (sat_mul128 per_byte MIN_MASKED_BYTES - 1)) = 128) as Hlen.
  { assert (2 ^ 127 <= Z.max 0 (sat_mul128 per_byte MIN_MASKED_BYTES - 1) < 2 ^ 128) as Hx
      by (unfold sat_mul128, MIN_MASKED_BYTES; lia).
    revert Hx. generalize (Z.max 0 (sat_mul128 per_byte MIN_MASKED_BYTES - 1)). intros x Hx.
    unfold bit_length. rewrite (proj2 (Z.eqb_neq x 0)) by lia. rewrite (Z.log2_unique x 127) by lia. reflexivity. }
  rewrite Hlen. reflexivity.
Qed.
