(* ===== verification/Cluster.v ===== *)
(** * Contract clusters on a worker: crates/phactory/src/contracts and system/mod.rs

    The contracts of a worker (contracts/support.rs, contracts/support/keeper.rs),
    the cluster they live in (contracts/pink.rs), the secret channel of their
    commands (secret_channel.rs), the side programs, and the part of [System] that
    runs them and applies the effects of their executions.

    The runtime of the cluster is an interface, [Runtimes], since a worker loads one
    of several versions of it; Pink.v is the current one.  The handle of a side
    program is shared with the task that waits for its end: the store of handles is
    part of the state, and a contract holds an index into it. *)
From stdpp Require Import prelude gmap list strings sorting.
From Stdlib Require Import ZArith Lia.
From S2P Require Import Prelude Types Externals Registry Phat SendQueue Dispatcher Benchmark WorkerSM Crypto Tokenomic Economics GatekeeperPr System LocalCache PinkTypes PinkHost Pink.

(** ** The runtimes of a cluster *)

(** A version of the runtime, on the storage [S] of a cluster *)
Record PinkRuntime (S W : Type) := mkPinkRuntime {
  pr_ecall : CallCtx -> ECall -> M (S * Local W) SysError (EOut * ExecSideEffects * option EventsBlock);
  pr_cluster_id : S -> H256;
  pr_get_key : S -> option bytes;
  pr_system_contract : S -> option Z;
  pr_get_sidevm_code : H256 -> S -> option bytes;
}.
Arguments mkPinkRuntime {S W}.
Arguments pr_ecall {S W}.
Arguments pr_cluster_id {S W}.
Arguments pr_get_key {S W}.
Arguments pr_system_contract {S W}.
Arguments pr_get_sidevm_code {S W}.

Class Runtimes (S W : Type) := {
  (** [get_runtime] panics on other versions. *)
  get_runtime : Z * Z -> option (PinkRuntime S W);
  storage_default : S;
  (** starting a side program: code, memory pages, contract, vital capacity, weight *)
  spawner_start : bytes -> Z -> Z -> Z -> Z -> W -> bool * W;
}.

(** ** contracts/pink.rs *)
Record ClusterConfig := mkClusterConfig {
  log_handler : option Z;
  runtime_version : Z * Z;
  secret_salt : H256;
  js_runtime : option H256;
}.

Record ClusterS (S : Type) := mkCluster {
  cl_id : H256;
  cl_config : ClusterConfig;
  cl_storage : S;
}.
Arguments mkCluster {S}.
Arguments cl_id {S}.
Arguments cl_config {S}.
Arguments cl_storage {S}.

(** ** contracts/support.rs *)
Inductive SidevmHandle :=
| HandleRunning (cmd_sender : nat)
| HandleStopped (reason : ExitReason).

Record SidevmInfo := mkSidevmInfo {
  si_code : bytes;
  si_code_hash : H256;
  si_start_time : option Z;
  si_auto_restart : bool;
  si_handle : nat;
  si_config : SidevmConfig;
}.

Inductive SidevmSource := CodeHash (h : H256) | CodeBytes (code : bytes).

Record OnBlockEnd := mkOnBlockEnd {
  obe_selector : Z;
  obe_gas_limit : Z;
}.

Record ContractState {P : PrCrypto} := mkContract {
  ct_send_mq : MessageChannel;
  ct_cmd_rcv_mq : nat;
  ct_ecdh_key : Keypair;
  ct_cluster_id : H256;
  ct_address : Z;
  ct_sidevm_info : option SidevmInfo;
  ct_weight : Z;
  ct_on_block_end : option OnBlockEnd;
}.

(** ** Messages *)

(** [Payload<RawData>] of secret_channel.rs *)
Inductive Payload :=
| Plain (data : bytes)
| Encrypted (iv : bytes) (pubkey : EcdhPublicKey) (data : bytes).

Inductive InkCommand :=
| InkMessage (nonce message : bytes) (transfer gas_limit : Z) (storage_deposit_limit : option Z).

(** [ClusterOperation] as a worker receives it *)
Inductive WorkerClusterOperation {cfg : Config} :=
| DispatchKeys (event : BatchDispatchClusterKeyEvent)
| ChainOperation (op : ClusterOperation).

Class ClusterCodec {cfg : Config} := {
  decode_Payload : bytes -> option Payload;
  decode_InkCommand : bytes -> option InkCommand;
  decode_WorkerClusterOperation : bytes -> option WorkerClusterOperation;
  decode_ContractOperation : bytes -> option ContractOperation;
  decode_GatekeeperLaunch : bytes -> option GatekeeperLaunch;
  decode_GatekeeperChange : bytes -> option GatekeeperChange;
  decode_KeyDistribution : bytes -> option KeyDistribution;
  encode_WorkerClusterReport : WorkerClusterReport -> bytes;
  encode_ContractRegistryEvent : ContractRegistryEvent -> bytes;
}.

(** What is read of the chain's storage *)
Record PinkChain := mkPinkChain {
  pc_system_code : bytes;
  pc_runtime_version : Z * Z;
}.

(** ** [System], with its contracts *)
Record Node {P : PrCrypto} (S W : Type) := mkNode {
  nd_sys : SystemState;
  nd_dev_mode : bool;
  nd_contracts : gmap Z ContractState;
  nd_weight_changed : bool;
  nd_cluster : option (ClusterS S);
  nd_handles : list SidevmHandle;
  nd_local : Local W;
  nd_bus : Bus;
  (** the receivers of [System], and those of its gatekeeper *)
  nd_rx : list nat;
  nd_gk_rx : list Receiver;
}.
Arguments mkNode {P S W}.
Arguments nd_sys {P S W}.
Arguments nd_dev_mode {P S W}.
Arguments nd_contracts {P S W}.
Arguments nd_weight_changed {P S W}.
Arguments nd_cluster {P S W}.
Arguments nd_handles {P S W}.
Arguments nd_local {P S W}.
Arguments nd_bus {P S W}.
Arguments nd_rx {P S W}.
Arguments nd_gk_rx {P S W}.

Module Cluster.

(** The messages in all channels *)
Definition backlog (b : Bus) : nat := sum_list_with (fun ch => length (deque ch)) (chans b).

Section Cluster.
Context {prof : Profile} {cfg : Config} {codec : Codec} {ccodec : ClusterCodec} {P : PrCrypto}.
Context {S W : Type} {RT : Runtimes S W} {Out : Outside W}.
Abbreviation N := (M (Node S W) SysError).

Definition set_sys (x : SystemState) (n : Node S W) : Node S W :=
  mkNode x (nd_dev_mode n) (nd_contracts n) (nd_weight_changed n) (nd_cluster n) (nd_handles n) (nd_local n) (nd_bus n) (nd_rx n) (nd_gk_rx n).
Definition set_contracts (x : gmap Z ContractState) (n : Node S W) : Node S W :=
  mkNode (nd_sys n) (nd_dev_mode n) x (nd_weight_changed n) (nd_cluster n) (nd_handles n) (nd_local n) (nd_bus n) (nd_rx n) (nd_gk_rx n).
Definition set_weight_changed (x : bool) (n : Node S W) : Node S W :=
  mkNode (nd_sys n) (nd_dev_mode n) (nd_contracts n) x (nd_cluster n) (nd_handles n) (nd_local n) (nd_bus n) (nd_rx n) (nd_gk_rx n).
Definition set_cluster (x : option (ClusterS S)) (n : Node S W) : Node S W :=
  mkNode (nd_sys n) (nd_dev_mode n) (nd_contracts n) (nd_weight_changed n) x (nd_handles n) (nd_local n) (nd_bus n) (nd_rx n) (nd_gk_rx n).
Definition set_handles (x : list SidevmHandle) (n : Node S W) : Node S W :=
  mkNode (nd_sys n) (nd_dev_mode n) (nd_contracts n) (nd_weight_changed n) (nd_cluster n) x (nd_local n) (nd_bus n) (nd_rx n) (nd_gk_rx n).
Definition set_local (x : Local W) (n : Node S W) : Node S W :=
  mkNode (nd_sys n) (nd_dev_mode n) (nd_contracts n) (nd_weight_changed n) (nd_cluster n) (nd_handles n) x (nd_bus n) (nd_rx n) (nd_gk_rx n).
Definition set_bus (x : Bus) (n : Node S W) : Node S W :=
  mkNode (nd_sys n) (nd_dev_mode n) (nd_contracts n) (nd_weight_changed n) (nd_cluster n) (nd_handles n) (nd_local n) x (nd_rx n) (nd_gk_rx n).
Definition set_gk_rx (x : list Receiver) (n : Node S W) : Node S W :=
  mkNode (nd_sys n) (nd_dev_mode n) (nd_contracts n) (nd_weight_changed n) (nd_cluster n) (nd_handles n) (nd_local n) (nd_bus n) (nd_rx n) x.

(** Operations on a part of the worker *)
Definition lens {T A} (get : Node S W -> T) (put : T -> Node S W -> Node S W) (m : M T SysError A) : N A := fun n =>
  match m (get n) with
  | Ok a x => Ok a (put x n)
  | Err e x => Err e (put x n)
  | Panic => Panic
  | NoFuel => NoFuel
  end.

Definition on_local {A} (m : M (Local W) SysError A) : N A := lens nd_local set_local m.
Definition on_bus {A} (m : M Bus SysError A) : N A := lens nd_bus set_bus m.
Definition on_sys {A} (m : M SystemState SysError A) : N A := lens nd_sys set_sys m.
Definition on_queue {A} (m : M (gmap MessageOrigin Channel) SysError A) : N A :=
  lens (fun n => queue (nd_sys n)) (fun q n => set_sys (Sys.set_queue q (nd_sys n)) n) m.

Definition get_contract (id : Z) : N (option ContractState) := gets (fun n => nd_contracts n !! id).
Definition insert_contract (c : ContractState) : N unit :=
  modify (fun n => set_contracts (<[ct_address c := c]> (nd_contracts n)) n).
Definition update_contract (id : Z) (f : ContractState -> ContractState) : N unit :=
  modify (fun n => set_contracts (alter f id (nd_contracts n)) n).

Definition this_worker (n : Node S W) : WorkerPublicKey := Sys.my_pubkey (nd_sys n).

Definition set_sidevm_info (x : option SidevmInfo) (c : ContractState) : ContractState :=
  mkContract _ (ct_send_mq c) (ct_cmd_rcv_mq c) (ct_ecdh_key c) (ct_cluster_id c) (ct_address c) x (ct_weight c) (ct_on_block_end c).
Definition set_ct_weight (x : Z) (c : ContractState) : ContractState :=
  mkContract _ (ct_send_mq c) (ct_cmd_rcv_mq c) (ct_ecdh_key c) (ct_cluster_id c) (ct_address c) (ct_sidevm_info c) x (ct_on_block_end c).
Definition set_on_block_end_selector (selector gas_limit : Z) (c : ContractState) : ContractState :=
  mkContract _ (ct_send_mq c) (ct_cmd_rcv_mq c) (ct_ecdh_key c) (ct_cluster_id c) (ct_address c) (ct_sidevm_info c) (ct_weight c)
    (Some (mkOnBlockEnd selector gas_limit)).

(** ** Calls into the runtime *)
Definition the_runtime (cl : ClusterS S) : N (PinkRuntime S W) := expect_some (get_runtime (runtime_version (cl_config cl))).

Definition system_contract (cl : ClusterS S) : N (option Z) :=
  let* rt := the_runtime cl in mret (pr_system_contract rt (cl_storage cl)).

Definition get_resource (cl : ClusterS S) (t : ResourceType) (hash : H256) : N (option bytes) :=
  match t with
  | InkCode => mret None
  | SidevmCode => let* rt := the_runtime cl in mret (pr_get_sidevm_code rt hash (cl_storage cl))
  | IndeterministicInkCode => mret None
  end.

(** [RuntimeHandleMut]: a call on the cluster's storage with the thread's context *)
Definition ecall (cl : ClusterS S) (logger : option nat) (cx : CallCtx) (e : ECall) :
    N (ClusterS S * EOut * ExecSideEffects) :=
  let* rt := the_runtime cl in
  fun n =>
    match pr_ecall rt (set_cx_handle logger (js_runtime (cl_config cl)) cx) e (cl_storage cl, nd_local n) with
    | Ok (out, effects, _) (st, l) => Ok (mkCluster (cl_id cl) (cl_config cl) st, out, effects) (set_local l n)
    | Err e (_, l) => Err e (set_local l n)
    | Panic => Panic
    | NoFuel => NoFuel
    end.

(** A call on the deployed cluster *)
Definition cluster_ecall (logger : option nat) (cx : CallCtx) (e : ECall) : N (EOut * ExecSideEffects) :=
  let* cl := gets nd_cluster in
  let* cl := expect_some cl in
  let* r := ecall cl logger cx e in
  let '(cl, out, effects) := r in
  modify (set_cluster (Some cl));;;
  mret (out, effects).

Definition cluster_key (cl : ClusterS S) : N Pair :=
  let* rt := the_runtime cl in
  let* raw := expect_some (pr_get_key rt (cl_storage cl)) in
  Gk.expect_crypto (Crypto.restore_from_secret_key raw).

(** [Cluster::new] *)
Definition new_cluster (id : H256) (key : Pair) (version : Z * Z) (cx : CallCtx) : N (ClusterS S) :=
  let secret_key := Crypto.dump_secret_key key in
  let cl := mkCluster id (mkClusterConfig None version (blake2_256 secret_key) None) storage_default in
  let* r := ecall cl None cx (ESetKey secret_key) in
  mret r.1.1.

Definition version_le (a b : Z * Z) : bool := (a.1 <? b.1) || ((a.1 =? b.1) && (a.2 <=? b.2)).

Definition set_version (v : Z * Z) (cl : ClusterS S) : ClusterS S :=
  mkCluster (cl_id cl) (mkClusterConfig (log_handler (cl_config cl)) v (secret_salt (cl_config cl)) (js_runtime (cl_config cl)))
    (cl_storage cl).

Definition upgrade_runtime (cx : CallCtx) (version : Z * Z) : N unit :=
  let* cl := gets nd_cluster in
  let* cl := expect_some cl in
  let current := runtime_version (cl_config cl) in
  if version_le version current then mret tt
  else
    (if bool_decide (current = (1, 0)) then cluster_ecall None cx EOnGenesis;;; mret tt else mret tt);;;
    modify (fun n => set_cluster (set_version version <$> nd_cluster n) n);;;
    cluster_ecall None cx EOnRuntimeUpgrade;;;
    mret tt.

(** [ECallsAvailable::on_idle]: since 1.2 *)
Definition on_idle (cx : CallCtx) (block_number : Z) : N unit :=
  let* cl := gets nd_cluster in
  let* cl := expect_some cl in
  if version_le (1, 2) (runtime_version (cl_config cl)) then
    cluster_ecall None cx (EOnIdle block_number);;;
    mret tt
  else mret tt.

(** ** Side programs *)
Definition handle_of (c : ContractState) : N (option SidevmHandle) :=
  match ct_sidevm_info c with
  | None => mret None
  | Some info =>
      let* h := gets (fun n => nd_handles n !! si_handle info) in
      let* h := expect_some h in
      mret (Some h)
  end.

Definition new_handle (h : SidevmHandle) : N nat :=
  let* i := gets (fun n => length (nd_handles n)) in
  modify (fun n => set_handles (nd_handles n ++ [h]) n);;;
  mret i.

(** [do_start_sidevm]; the channel of a program has the number of its handle. *)
Definition do_start_sidevm (code : bytes) (id weight : Z) (config : SidevmConfig) : N (nat + bytes) :=
  let* ok := on_local (OCall.outside (spawner_start code (max_memory_pages config) id (vital_capacity config) weight)) in
  if (ok : bool) then
    let* i := gets (fun n => length (nd_handles n)) in
    let* h := new_handle (HandleRunning i) in
    mret (inl h)
  else mret (inr (bytes_of_string "Failed to start")).

(** The task that waits for the program *)
Definition sidevm_exited (h : nat) (reason : ExitReason) : N unit :=
  modify (fun n => set_handles (<[h := HandleStopped reason]> (nd_handles n)) n).

(** [Contract::push_message_to_sidevm] *)
Definition push_message_to_sidevm (c : ContractState) (message : SidevmCommand) : N (unit + bytes) :=
  let* h := handle_of c in
  match h with
  | None => mret (inr (bytes_of_string "Push message to sidevm failed, no sidevm instance"))
  | Some (HandleStopped _) => mret (inr (bytes_of_string "Push message to sidevm failed, instance terminated"))
  | Some (HandleRunning tx) => on_local (OCall.try_send tx message);;; mret (inl tt)
  end.

Definition start_sidevm (c : ContractState) (source : SidevmSource) (ensure_waiting_code : bool) (config : SidevmConfig) :
    N (unit + bytes) :=
  let* handle := handle_of c in
  match handle with
  | Some (HandleRunning cmd_sender) => on_local (OCall.try_send cmd_sender Stop)
  | _ => mret tt
  end;;;
  let checked : bytes * H256 + bytes :=
    match source with
    | CodeHash hash => inl ([], hash)
    | CodeBytes code =>
        let actual_hash := blake2_256 code in
        if ensure_waiting_code then
          match handle with
          | Some (HandleStopped WaitingForCode) =>
              match ct_sidevm_info c with
              | None => inr (bytes_of_string "No sidevm info")
              | Some info =>
                  if actual_hash =? si_code_hash info then inl (code, actual_hash)
                  else inr (bytes_of_string "Code hash mismatch")
              end
          | _ => inr (bytes_of_string "The sidevm isn't waiting for code")
          end
        else inl (code, actual_hash)
    end in
  match checked with
  | inr err => mret (inr err)
  | inl (code, code_hash) =>
      let* started :=
        match code with
        | [] => let* h := new_handle (HandleStopped WaitingForCode) in mret (inl h)
        | _ =>
            if max_code_size config <? Z.of_nat (length code) then
              let* h := new_handle (HandleStopped CodeTooLarge) in mret (inl h)
            else do_start_sidevm code (ct_address c) (ct_weight c) config
        end in
      match started with
      | inr err => mret (inr err)
      | inl h =>
          let* now := on_local (OCall.outside os_clock) in
          update_contract (ct_address c) (set_sidevm_info (Some (mkSidevmInfo code code_hash now true h config)));;;
          mret (inl tt)
      end
  end.

Definition need_restart (reason : ExitReason) : bool :=
  match reason with
  | Exited _ => false
  | Stopped => false
  | InputClosed => false
  | Panicked => true
  | Cancelled => false
  | ExitOcallAborted GasExhausted => false
  | ExitOcallAborted Stifled => true
  | Restore => true
  | WaitingForCode => false
  | CodeTooLarge => false
  | FailedToStart => false
  end.

Definition restart_sidevm_if_needed (c : ContractState) (current_block : Z) : N unit :=
  match ct_sidevm_info c with
  | None => mret tt
  | Some info =>
      let* h := handle_of c in
      match h with
      | Some (HandleStopped reason) =>
          if negb (need_restart reason) then mret tt
          else
            let* now := on_local (OCall.outside os_clock) in
            let* started := do_start_sidevm (si_code info) (ct_address c) (ct_weight c) (si_config info) in
            update_contract (ct_address c) (set_sidevm_info (Some (mkSidevmInfo (si_code info) (si_code_hash info) now
              (si_auto_restart info) match started with inl h => h | inr _ => si_handle info end (si_config info))))
      | _ =>
          if deadline (si_config info) <? current_block then
            push_message_to_sidevm c Stop;;;
            mret tt
          else mret tt
      end
  end.

(** The order of an [OrdMap] on addresses *)
Definition contract_ids (n : Node S W) : list Z := merge_sort Z.le (map_to_list (nd_contracts n)).*1.

Definition try_restart_sidevms (current_block : Z) : N unit :=
  let* ids := gets contract_ids in
  for_each ids (fun id =>
    let* c := get_contract id in
    match c with
    | None => mret tt
    | Some c => restart_sidevm_if_needed c current_block
    end).

Definition set_weight (c : ContractState) (weight : Z) : N unit :=
  update_contract (ct_address c) (set_ct_weight weight);;;
  let* h := handle_of c in
  match h with
  | Some (HandleRunning tx) => on_local (OCall.try_send tx (UpdateWeight weight))
  | _ => mret tt
  end.

(** [Contract::destroy] *)
Definition destroy (c : ContractState) : N unit :=
  let* h := handle_of c in
  match h with
  | Some (HandleRunning tx) => on_local (OCall.try_send tx Stop)
  | _ => mret tt
  end.

Definition get_system_message_handler : N (option nat) :=
  let* n := gets (fun n => n) in
  match nd_cluster n with
  | None => mret None
  | Some cl =>
      match log_handler (cl_config cl) with
      | None => mret None
      | Some id =>
          match nd_contracts n !! id with
          | None => mret None
          | Some c =>
              let* h := handle_of c in
              mret (match h with Some (HandleRunning tx) => Some tx | _ => None end)
          end
      end
  end.

(** [ContractsKeeper::apply_local_cache_quotas] *)
Definition apply_local_cache_quotas : N unit :=
  let* n := gets (fun n => n) in
  let weights := (fun id => (h256_bytes id, match nd_contracts n !! id with Some c => ct_weight c | None => 0 end)) <$> contract_ids n in
  let* quotas := Cache.calc_cache_quotas weights in
  let* _ := on_local (OCall.on_cache (Cache.apply_quotas quotas)) in
  mret tt.

(** ** Effects of executions *)

(** [get_contract_key] *)
Definition get_contract_key (cluster_key : Pair) (contract : Z) : N Pair :=
  Gk.expect_crypto (Crypto.derive_sr25519_pair cluster_key [bytes_of_string "contract_key"; h256_bytes contract]).

(** [false] when the contract exists *)
Definition install_contract (address : Z) (contract_key : Pair) (ecdh_key : Keypair) (cluster : H256) : N bool :=
  let* c := get_contract address in
  match c with
  | Some _ => mret false
  | None =>
      let mq := mkMessageChannel (Contract address) (pair_sign contract_key) in
      let* rx := on_bus (Dispatcher.subscribe (command_topic address)) in
      insert_contract (mkContract _ mq (rx_chan rx) ecdh_key cluster address None 0 None);;;
      mret true
  end.

Definition apply_instantiating_events (events : list (Z * Z)) : N unit :=
  for_each events (fun ev =>
    let '(deployer, address) := ev in
    let* cl := gets nd_cluster in
    let* cl := expect_some cl in
    let* key := cluster_key cl in
    let* contract_key := get_contract_key key address in
    let* ecdh_key := Gk.expect_crypto (Crypto.derive_ecdh_key contract_key) in
    let* installed := install_contract address contract_key ecdh_key (cl_id cl) in
    if negb installed then mret tt
    else
      let message := ContractPubkey address (pair_public contract_key) deployer in
      let cluster_mq := mkMessageChannel (Types.Cluster (cl_id cl)) (pair_sign key) in
      on_queue (SendQueue.push_data cluster_mq (encode_ContractRegistryEvent message) ContractRegistryEvent_topic)).

(** [Some code] from the cluster, or else its hash *)
Definition sidevm_source (code_hash : H256) : N SidevmSource :=
  let* cl := gets nd_cluster in
  let* cl := expect_some cl in
  let* code := get_resource cl SidevmCode code_hash in
  mret (match code with Some code => CodeBytes code | None => CodeHash code_hash end).

Definition set_config (f : ClusterConfig -> ClusterConfig) : N unit :=
  modify (fun n => set_cluster ((fun cl => mkCluster (cl_id cl) (f (cl_config cl)) (cl_storage cl)) <$> nd_cluster n) n).

(** [ensure_system!]: the rest is skipped unless the event is the system contract's. *)
Definition ensure_system (origin : Z) (k : N unit) : N unit :=
  let* cl := gets nd_cluster in
  let* cl := expect_some cl in
  let* system := system_contract cl in
  if bool_decide (Some origin = system) then k else mret tt.

(** [get_contract!] *)
Definition with_contract (id : Z) (k : ContractState -> N unit) : N unit :=
  let* c := get_contract id in
  match c with Some c => k c | None => mret tt end.

Definition ignore {A} (m : N A) : N unit := m;;; mret tt.

Definition apply_pink_event (cx : CallCtx) (origin : Z) (event : PinkEvent) : N unit :=
  match event with
  | SetHook OnBlockEndHook target selector gas_limit =>
      ensure_system origin (with_contract target (fun _ => update_contract target (set_on_block_end_selector selector gas_limit)))
  | DeploySidevmTo target code_hash =>
      ensure_system origin (with_contract target (fun c =>
        let* code := sidevm_source code_hash in
        ignore (start_sidevm c code false SidevmConfig_default)))
  | SidevmMessage payload => with_contract origin (fun c => ignore (push_message_to_sidevm c (PushMessage payload)))
  | CacheOpEvent op =>
      let* clock := on_local OCall.three_readings in
      ignore (on_local (OCall.on_cache (Cache.apply_cache_op clock (h256_bytes origin) op)))
  | StopSidevm => with_contract origin (fun c => ignore (push_message_to_sidevm c Stop))
  | ForceStopSidevm target =>
      ensure_system origin (with_contract target (fun c => ignore (push_message_to_sidevm c Stop)))
  | SetLogHandler handler =>
      ensure_system origin (set_config (fun k => mkClusterConfig (Some handler) (runtime_version k) (secret_salt k) (js_runtime k)))
  | SetContractWeight target weight =>
      ensure_system origin (with_contract target (fun c =>
        set_weight c weight;;;
        modify (set_weight_changed true)))
  | UpgradeRuntimeTo version => ensure_system origin (upgrade_runtime cx version)
  | SidevmOperationEvent (SidevmStart target code_hash workers config) =>
      ensure_system origin (with_contract target (fun c =>
        push_message_to_sidevm c Stop;;;
        let* n := gets (fun n => n) in
        if match workers with AllWorkers => true | WorkerList l => bool_decide (this_worker n ∈ l) end then
          let* code := sidevm_source code_hash in
          ignore (start_sidevm c code false config)
        else mret tt))
  | SidevmOperationEvent (SidevmSetDeadline target dl) =>
      ensure_system origin (with_contract target (fun c =>
        match ct_sidevm_info c with
        | None => mret tt
        | Some info =>
            let k := si_config info in
            update_contract target (set_sidevm_info (Some (mkSidevmInfo (si_code info) (si_code_hash info) (si_start_time info)
              (si_auto_restart info) (si_handle info)
              (mkSidevmConfig (max_code_size k) (max_memory_pages k) (vital_capacity k) dl))))
        end))
  | SetJsRuntime code_hash =>
      ensure_system origin (set_config (fun k => mkClusterConfig (log_handler k) (runtime_version k) (secret_salt k) (Some code_hash)))
  end.

Definition apply_pink_events (cx : CallCtx) (events : list (Z * PinkEvent)) : N unit :=
  for_each events (fun ev => apply_pink_event cx ev.1 ev.2).

Definition apply_ink_side_effects (block : BlockInfo) (events : list (Z * list H256 * bytes)) (logger : option nat) : N unit :=
  match logger with
  | None => mret tt
  | Some tx =>
      for_each events (fun ev =>
        let '(contract, topics, payload) := ev in
        on_local (OCall.try_send tx (PushSystemMessage (PinkEventMessage (block_number block) contract topics payload))))
  end.

Definition apply_pink_side_effects (cx : CallCtx) (block : BlockInfo) (effects : ExecSideEffects) (logger : option nat) : N unit :=
  apply_instantiating_events (instantiated effects);;;
  apply_pink_events cx (pink_events effects);;;
  apply_ink_side_effects block (ink_events effects) logger.

(** ** Commands *)

(** [EncryptedData::decrypt] of phactory/api/src/crypto.rs *)
Definition decrypt_data {Z'} (key : Keypair) (iv : bytes) (pubkey : EcdhPublicKey) (data : bytes) : M Z' CryptoError bytes :=
  let* sk := Ecdh.agree key pubkey in
  Aead.decrypt iv sk data.

(** [SecretPeeler::peel]; a plain text is the command, and a decrypted one too, since
    [RawData] takes whatever is left. *)
Definition peel (key : Keypair) (msg : Payload) : N (option bytes) :=
  match msg with
  | Plain data => mret (Some data)
  | Encrypted iv pubkey data =>
      fun n => match decrypt_data key iv pubkey data tt with
               | Ok d _ => Ok (Some d) n
               | Err _ _ => Ok None n
               | Panic => Panic
               | NoFuel => NoFuel
               end
  end.

(** [buf.len()] is 4 whatever the message is. *)
Definition head4 (message : bytes) : N bytes :=
  if Nat.leb 4 (length message) then mret (take 4 message) else panic.

(** [using_entry], [using_call_nonce] *)
Definition entry_ctx (contract origin : Z) (nonce : option bytes) (cx : CallCtx) : CallCtx :=
  set_cx_entry (Some (contract, origin)) (match nonce with Some v => set_cx_nonce (Some v) cx | None => cx end).

(** [Cluster::handle_command]; an error is the transaction's, and is logged. *)
Definition handle_command (cx : CallCtx) (block : BlockInfo) (logger : option nat) (contract_id : Z) (origin : MessageOrigin)
    (cmd : InkCommand) : N (ExecSideEffects + TransactionError) :=
  match cmd with
  | InkMessage nonce message transfer gas_limit storage_deposit_limit =>
      let* who :=
        match origin with
        | AccountIdOrigin a => mret (Some (a, false))
        | Pallet _ =>
            let* cl := gets nd_cluster in
            let* cl := expect_some cl in
            let* system := system_contract cl in
            let* system := expect_some system in
            mret (Some (system, true))
        | _ => mret None
        end in
      match who with
      | None => mret (inr TxBadOrigin)
      | Some (origin, gas_free) =>
          let args := mkTransactionArguments origin transfer gas_limit gas_free storage_deposit_limit 0 in
          let* selector := head4 message in
          let* r := cluster_ecall logger (entry_ctx contract_id origin (Some nonce) cx) (EContractCall contract_id message Transaction args) in
          let '(out, effects) := r in
          match logger with
          | None => mret tt
          | Some tx =>
              let output := match out with OutBytes b => b | _ => [] end in
              on_local (OCall.try_send tx (PushSystemMessage
                (PinkMessageOutput (block_number block) origin contract_id nonce (output ++ selector))))
          end;;;
          mret (inl effects)
      end
  end.

(** A message of the channel of commands *)
Definition handle_message (cx : CallCtx) (block : BlockInfo) (logger : option nat) (c : ContractState) (msg : Message) :
    N (ExecSideEffects + TransactionError) :=
  match decode_Payload (payload msg) with
  | None => if always_well_formed (sender msg) then panic else mret (inr ChannelError)
  | Some p =>
      let* d := peel (ct_ecdh_key c) p in
      match d with
      | None => mret (inr ChannelError)
      | Some raw =>
          match decode_InkCommand raw with
          | None => mret (inr BadInput)
          | Some command => handle_command cx block logger (ct_address c) (sender msg) command
          end
      end
  end.

(** [Contract::process_next_message]: [None] when there is no command *)
Definition process_next_command (cx : CallCtx) (block : BlockInfo) (logger : option nat) (c : ContractState) :
    N (option (ExecSideEffects + TransactionError)) :=
  let* m := on_bus (Dispatcher.try_next (ct_cmd_rcv_mq c)) in
  match m with
  | inl None => mret None
  | inr SenderGone => mret (Some (inr ChannelError))
  | inl (Some (_, msg)) =>
      let* r := handle_message cx block logger c msg in
      mret (Some r)
  end.

Definition handle_contract_command_result (cx : CallCtx) (block : BlockInfo) (r : ExecSideEffects + TransactionError)
    (logger : option nat) : N unit :=
  match r with
  | inr _ => mret tt
  | inl effects => apply_pink_side_effects cx block effects logger
  end.

(** Commands of one contract until it has none; [true] when there is no cluster *)
Fixpoint process_commands (fuel : nat) (cx : CallCtx) (block : BlockInfo) (id : Z) : N bool :=
  match fuel with
  | O => fun _ => NoFuel
  | Datatypes.S fuel =>
      let* logger := get_system_message_handler in
      let* cl := gets nd_cluster in
      match cl with
      | None => mret true
      | Some _ =>
          let* c := get_contract id in
          match c with
          | None => mret false
          | Some c =>
              let* r := process_next_command cx block logger c in
              match r with
              | None => mret false
              | Some r =>
                  handle_contract_command_result cx block r logger;;;
                  process_commands fuel cx block id
              end
          end
      end
  end.

(** One round per command, and one that finds none *)
Definition commands_waiting (n : Node S W) (id : Z) : nat :=
  match nd_contracts n !! id with
  | None => O
  | Some c => match chans (nd_bus n) !! ct_cmd_rcv_mq c with Some ch => length (deque ch) | None => O end
  end.

Fixpoint process_all_commands (cx : CallCtx) (block : BlockInfo) (ids : list Z) : N bool :=
  match ids with
  | [] => mret false
  | id :: ids =>
      let* fuel := gets (fun n => commands_waiting n id) in
      let* gone := process_commands (Datatypes.S fuel) cx block id in
      if (gone : bool) then mret true else process_all_commands cx block ids
  end.

Definition process_contract_messages (cx : CallCtx) (block : BlockInfo) : N unit :=
  let* ids := gets contract_ids in
  let* gone := process_all_commands cx block ids in
  if (gone : bool) then mret tt
  else
    let* cl := gets nd_cluster in
    match cl with
    | Some _ => on_idle cx (block_number block)
    | None => mret tt
    end.

(** [Contract::on_block_end] *)
Definition on_block_end (cx : CallCtx) (logger : option nat) (c : ContractState) : N (option ExecSideEffects) :=
  match ct_on_block_end c with
  | None => mret None
  | Some hook =>
      let args := mkTransactionArguments (ct_address c) 0 (obe_gas_limit hook) false None 0 in
      let* r := cluster_ecall logger (entry_ctx (ct_address c) (ct_address c) None cx)
        (EContractCall (ct_address c) (be_bytes 4 (obe_selector hook)) Transaction args) in
      mret (Some r.2)
  end.

(** The contracts' part of [did_process_block] *)
Definition end_block_contracts (cx : CallCtx) (block : BlockInfo) : N unit :=
  let* logger := get_system_message_handler in
  let* cl := gets nd_cluster in
  (match cl with
   | None => mret tt
   | Some _ =>
       let* ids := gets contract_ids in
       for_each ids (fun id =>
         let* c := get_contract id in
         match c with
         | None => mret tt
         | Some c =>
             let* r := on_block_end cx logger c in
             match r with
             | None => mret tt
             | Some effects => handle_contract_command_result cx block (inl effects) logger
             end
         end)
   end);;;
  let* changed := gets nd_weight_changed in
  (if (changed : bool) then
     modify (set_weight_changed false);;;
     apply_local_cache_quotas
   else mret tt);;;
  let* n := gets (fun n => n) in
  try_restart_sidevms (sys_block_number (nd_sys n)).

(** ** Operations of the chain *)
Definition other_error (s : string) {A} : N A := fail (Tx (Other s)).

Definition account_z (a : AccountId) : Z := OCall.of_be_bytes (account_bytes a).

(** [get_cluster_mut] *)
Definition cluster_is (id : H256) (n : Node S W) : bool :=
  match nd_cluster n with Some cl => cl_id cl =? id | None => false end.

(** [remove_cluster], then the contracts are destroyed and the process ends. *)
Definition leave_cluster : N unit :=
  modify (set_cluster None);;;
  let* n := gets (fun n => n) in
  modify (set_contracts ∅);;;
  for_each (contract_ids n) (fun id =>
    match nd_contracts n !! id with
    | Some c => destroy c
    | None => mret tt
    end);;;
  fail Terminated.

Definition log_upload (block : BlockInfo) (logger : option nat) (system : Z) (r : H256 + bytes) : N unit :=
  match logger with
  | None => mret tt
  | Some tx =>
      on_local (OCall.try_send tx (PushSystemMessage (PinkLog (block_number block) system system Transaction (now_ms block)
        match r with inl _ => Pink.level_info | inr _ => Pink.level_error end
        (bytes_of_string match r with
                         | inl _ => "Resource uploaded to cluster"
                         | inr _ => "Failed to upload resource to cluster"
                         end))))
  end.

Definition upload_resource (cx : CallCtx) (origin : Z) (t : ResourceType) (data : bytes) : N (H256 + bytes) :=
  let* r := cluster_ecall None cx
    match t with
    | InkCode => EUploadCode origin data true
    | SidevmCode => EUploadSidevmCode origin data
    | IndeterministicInkCode => EUploadCode origin data false
    end in
  mret (match r.1 with OutHash h => h | _ => inr [] end).

Definition process_cluster_key_distribution (cx : CallCtx) (block : BlockInfo) (chain : PinkChain) (origin : MessageOrigin)
    (event : BatchDispatchClusterKeyEvent) : N unit :=
  if negb (is_gatekeeper origin) then fail (Tx TxBadOrigin)
  else
    let* n := gets (fun n => n) in
    if negb (nd_dev_mode n) && bool_decide (is_Some (gatekeeper (nd_sys n))) then fail (Tx NoClusterOnGatekeeper)
    else match bd_secret_keys event !! this_worker n with
    | None => mret tt
    | Some key =>
        let* cluster_key := on_sys (Sys.decrypt_key_from (ek_ecdh_pubkey key) (encrypted_key key) (ek_iv key)) in
        match nd_cluster n with
        | Some _ => fail (Tx DuplicatedClusterDeploy)
        | None =>
            match pc_system_code chain with
            | [] => fail (Tx NoPinkSystemCode)
            | system_code =>
                let* cl := new_cluster (bd_cluster event) cluster_key (pc_runtime_version chain) cx in
                let config := mkClusterSetupConfig (bd_cluster event) (account_z (bd_owner event)) (bd_deposit event)
                  (bd_gas_price event) (bd_deposit_per_item event) (bd_deposit_per_byte event)
                  (account_z (bd_treasury_account event)) system_code in
                let* r := ecall cl None cx (ESetup config) in
                let '(cl, out, effects) := r in
                match out with
                | OutSetup (inr _) => other_error "Cluster setup failed"
                | _ =>
                    (* the effects are applied to the cluster that is being deployed *)
                    modify (set_cluster (Some cl));;;
                    apply_pink_side_effects cx block effects None;;;
                    on_sys (Sys.push (encode_WorkerClusterReport (ClusterDeployedReport (bd_cluster event) (pair_public cluster_key)))
                      WorkerClusterReport_topic)
                end
            end
        end
    end.

Definition process_cluster_operation_event (cx : CallCtx) (block : BlockInfo) (chain : PinkChain) (origin : MessageOrigin)
    (event : WorkerClusterOperation) : N unit :=
  match event with
  | DispatchKeys event =>
      fun n =>
        match process_cluster_key_distribution cx block chain origin event n with
        | Err (Tx _) n' =>
            on_sys (Sys.push (encode_WorkerClusterReport (ClusterDeploymentFailedReport (bd_cluster event))) WorkerClusterReport_topic) n'
        | r => r
        end
  | ChainOperation (DestroyCluster cluster_id) =>
      if negb (is_pallet origin) then other_error "Invalid origin"
      else
        let* found := gets (cluster_is cluster_id) in
        if (found : bool) then leave_cluster else mret tt
  | ChainOperation (UploadResource who cluster_id resource_type resource_data) =>
      if negb (is_pallet origin) then other_error "Invalid origin"
      else
        let* found := gets (cluster_is cluster_id) in
        if negb found then mret tt
        else
          let* cl := gets nd_cluster in
          let* cl := expect_some cl in
          let* system := system_contract cl in
          match system with
          | None => other_error "No system contract"
          | Some system =>
              let* r := upload_resource cx (account_z who) resource_type resource_data in
              let* logger := get_system_message_handler in
              log_upload block logger system r;;;
              match r with
              | inl _ => mret tt
              | inr _ => other_error "Failed to upload code"
              end
          end
  | ChainOperation (Deposit cluster_id account amount) =>
      if negb (is_pallet origin) then other_error "Invalid origin"
      else
        let* found := gets (cluster_is cluster_id) in
        if (found : bool) then cluster_ecall None cx (EDeposit account amount);;; mret tt else mret tt
  | ChainOperation (RemoveWorker cluster_id worker) =>
      if negb (is_pallet origin) then other_error "Invalid origin"
      else
        let* n := gets (fun n => n) in
        if negb (worker =? this_worker n) then mret tt
        else if cluster_is cluster_id n then leave_cluster else mret tt
  end.

Definition process_contract_operation_event (cx : CallCtx) (block : BlockInfo) (origin : MessageOrigin) (event : ContractOperation) :
    N unit :=
  if negb (is_pallet origin) then other_error "Invalid origin for contract operation"
  else match event with
  | InstantiateCode info transfer gas_limit storage_deposit_limit =>
      let* logger := get_system_message_handler in
      let* found := gets (cluster_is (cluster_id info)) in
      if negb found then mret tt
      else
        let* cl := gets nd_cluster in
        let* cl := expect_some cl in
        let* system := system_contract cl in
        match system with
        | None => other_error "The system contract is missing, Cannot deploy contract"
        | Some _ =>
            let* rt := the_runtime cl in
            let origin := account_z (deployer info) in
            let args := mkTransactionArguments origin transfer gas_limit false storage_deposit_limit 0 in
            let entry := blake2_256 (contract_id_preimage (h256_bytes origin) (h256_bytes (code_index info))
              (h256_bytes (pr_cluster_id rt (cl_storage cl))) (salt info)) in
            let* r := cluster_ecall logger (entry_ctx entry origin (Some (salt info)) cx)
              (EContractInstantiate (code_index info) (instantiate_data info) (salt info) Transaction args) in
            apply_pink_side_effects cx block r.2 logger
        end
  end.

(** ** Calls from outside *)

(** [System::apply_side_effects]: the effects of a query *)
Definition apply_side_effects (cx : CallCtx) (effects : ExecSideEffects) : N unit :=
  let* cl := gets nd_cluster in
  match cl with
  | None => mret tt
  | Some _ => apply_pink_events cx (pink_events effects)
  end.

(** [System::upload_sidevm_code], which serves the public [UploadSidevmCode] request *)
Definition upload_sidevm_code (contract_id : Z) (code : bytes) : N (unit + bytes) :=
  let* c := get_contract contract_id in
  match c with
  | None => mret (inr (bytes_of_string "Contract not found"))
  | Some c =>
      match ct_sidevm_info c with
      | None => mret (inr (bytes_of_string "Sidevm not found"))
      | Some info =>
          let* n := gets (fun n => n) in
          if deadline (si_config info) <? sys_block_number (nd_sys n) then mret (inr (bytes_of_string "Sidevm is expired"))
          else start_sidevm c (CodeBytes code) true (si_config info)
      end
  end.

(** [System::on_restored] *)
Definition on_restored (safe_mode_level : Z) : N unit :=
  if 0 <? safe_mode_level then mret tt
  else
    let* n := gets (fun n => n) in
    try_restart_sidevms (sys_block_number (nd_sys n));;;
    apply_local_cache_quotas.

End Cluster.
End Cluster.

(** ** The runtimes of loader/src/runtimes/v1.rs

    Version 1.2 is the runtime of Pink.v; the older ones are libraries of their own. *)
Section Loader.
Context {prof : Profile} {cfg : Config} {codec : Codec} {P : PrCrypto}.
Context {Chain : Type} {lib : PinkLib Chain} {W : Type} {Out : Outside W}.

Definition pink_runtime : PinkRuntime (PinkState Chain) W := mkPinkRuntime
  (fun cx e s =>
     match Pink.ecall cx e (mkRt s.1 s.2) with
     | Ok r s => Ok r (rt_state s, rt_local s)
     | Err er s => Err er (rt_state s, rt_local s)
     | Panic => Panic
     | NoFuel => NoFuel
     end)
  ps_cluster_id ps_key ps_system_contract (fun hash s => snd <$> ps_sidevm_codes s !! hash).

Definition v1_runtime (older : bool -> PinkRuntime (PinkState Chain) W) (version : Z * Z) :
    option (PinkRuntime (PinkState Chain) W) :=
  match version with
  | (1, 0) => Some (older false)
  | (1, 1) => Some (older true)
  | (1, 2) => Some pink_runtime
  | _ => None
  end.

(** An empty trie *)
Definition empty_storage : PinkState Chain := mkPinkState 0 0 0 0 None None ∅ None 0 0 0 0 [] init_empty.

End Loader.
