(* ===== verification/ClusterRef.v ===== *)
(** * A small cluster

    Two workers of a cluster with one contract, on the instance of PinkRef.v: the
    values at which the theorems on clusters are applied. *)
From stdpp Require Import prelude gmap list strings.
From Stdlib Require Import ZArith Lia.
From S2P Require Import Prelude Types Externals Reference Registry Crypto PrReference Phat SendQueue Dispatcher Benchmark WorkerSM Economics GatekeeperPr System LocalCache PinkTypes PinkHost Pink PinkRef Cluster.
Import RefInstances PrInstances PinkInstances.

#[local] Instance ref_runtimes : Runtimes (PinkState RefChain) Z := {|
  get_runtime := v1_runtime (fun _ => pink_runtime);
  storage_default := empty_storage;
  spawner_start code _ _ _ _ w := (bool_decide (code <> []), w + 1);
|}.

(** The first number tells the variant. *)
#[local] Instance ref_cluster_codec : ClusterCodec := {|
  decode_Payload b := match b with 0 :: d => Some (Plain d) | 1 :: k :: d => Some (Encrypted [] k d) | _ => None end;
  decode_InkCommand b := match b with 0 :: m => Some (InkMessage [9] m 0 1000 None) | _ => None end;
  decode_WorkerClusterOperation b :=
    match b with
    | [0; id] => Some (ChainOperation (DestroyCluster id))
    | [1; id] => Some (DispatchKeys (mkBatchDispatchClusterKeyEvent _ ∅ id 0 0 0 0 0 0))
    | _ => None
    end;
  decode_ContractOperation _ := None;
  decode_GatekeeperLaunch _ := None;
  decode_GatekeeperChange _ := None;
  decode_KeyDistribution _ := None;
  encode_WorkerClusterReport _ := [];
  encode_ContractRegistryEvent _ := [];
|}.

Definition ref_contract_state (info : option SidevmInfo) : ContractState :=
  mkContract _ (mkMessageChannel (Contract 1007) (pair_sign 7)) 0 7 5 1007 info 1 None.

Definition ref_cluster : ClusterS (PinkState RefChain) := mkCluster 5 (mkClusterConfig (Some 1007) (1, 2) 6 None) ref_pink_state.

Definition ref_bus (q : list (Z * Message)) : Bus :=
  mkBus [mkChan q 1 1] (mkMessageDispatcher {[ command_topic 1007 := [0%nat] ]} 0).

(** The worker with key [k] in the world [w] *)
Definition ref_node (k w : Z) (info : option SidevmInfo) (q : list (Z * Message)) : Node (PinkState RefChain) Z :=
  mkNode (Sys.new k (MasterKey.mkFiles true None)) false {[ 1007 := ref_contract_state info ]} false (Some ref_cluster)
    (match info with Some _ => [HandleRunning 0] | None => [] end) (ref_local w) (ref_bus q) [] [].

Definition ref_sidevm : SidevmInfo := mkSidevmInfo [1] 1 (Some 0) true 0 (mkSidevmConfig 100 1 1 1000).

(** A call of the contract with a message of four bytes *)
Definition ref_command : Message := mkMessage (AccountIdOrigin 300) (command_topic 1007) [0; 0; 1; 2; 3; 4].

(** One with a message of two *)
Definition ref_short_command : Message := mkMessage (AccountIdOrigin 300) (command_topic 1007) [0; 0; 1; 2].

Module ClusterInstances.
#[export] Existing Instance ref_runtimes.
#[export] Existing Instance ref_cluster_codec.
End ClusterInstances.
