(* ===== verification/ClusterProps.v ===== *)
(** * Properties of contract clusters

    The workers of a cluster stay replicas of each other, whatever each of them does
    on its own, and only the system contract of a cluster has privileges. *)
From stdpp Require Import prelude gmap list strings sorting.
From Stdlib Require Import ZArith Lia.
From S2P Require Import Prelude Types Externals Registry Phat SendQueue Dispatcher Benchmark WorkerSM Crypto Tokenomic Economics GatekeeperPr System Relate LocalCache LocalCacheProps PinkTypes PinkHost Pink PinkProps Cluster Reference PrReference PinkRef ClusterRef.

Module ClusterProps.
Import PinkProps.

(** What the host relies on: a transaction does not depend on the worker. *)
Class ReplicaRuntimes {S W : Type} (RT : Runtimes S W) := {
  ecall_replicated : forall v rt cx1 cx2 e st l1 l2,
    get_runtime v = Some rt -> same_call cx1 cx2 -> OCall.mode cx1 = Transaction ->
    alike (P := False) eq (fun s1 s2 => s1.1 = s2.1) (pr_ecall rt cx1 e (st, l1)) (pr_ecall rt cx2 e (st, l2));
}.

Section Replicas.
Context {prof : Profile} {cfg : Config} {codec : Codec} {ccodec : ClusterCodec} {P : PrCrypto}.
Context {S W : Type} {RT : Runtimes S W} {RR : ReplicaRuntimes RT} {Out : Outside W}.
Abbreviation N := (M (Node S W) SysError).

(** ** What the workers of a cluster have in common *)

(** A contract without its side program *)
Definition strip (c : ContractState) : ContractState := Cluster.set_sidevm_info None c.

Definition of_cluster (o : MessageOrigin) : bool :=
  match o with Contract _ | Types.Cluster _ => true | _ => false end.

(** The messages in the name of the cluster and of its contracts *)
Definition cluster_queue (q : gmap MessageOrigin Channel) : gmap MessageOrigin Channel :=
  filter (fun kv => of_cluster kv.1 = true) q.

Definition public (n : Node S W) :=
  (nd_bus n, nd_cluster n, nd_weight_changed n, strip <$> nd_contracts n, cluster_queue (queue (nd_sys n))).

Abbreviation replicas := (same_view public).
Abbreviation both := (coupled (E := SysError) (P := True) replicas).
Abbreviation quiet := (silent (E := SysError) public).

Lemma replicas_parts n1 n2 : replicas n1 n2 <->
  nd_bus n1 = nd_bus n2 /\ nd_cluster n1 = nd_cluster n2 /\ nd_weight_changed n1 = nd_weight_changed n2
  /\ strip <$> nd_contracts n1 = strip <$> nd_contracts n2
  /\ cluster_queue (queue (nd_sys n1)) = cluster_queue (queue (nd_sys n2)).
Proof. unfold same_view, public. split; [by intros [= -> -> -> -> ->]|by intros (-> & -> & -> & -> & ->)]. Qed.

(** ** Steps that leave it alone *)
Abbreviation settles := (silent (E := SysError) (fun _ : Local W => tt)).

Lemma quiet_local {A} (m : M (Local W) SysError A) : settles m -> quiet (Cluster.on_local m).
Proof. intros Hm n. specialize (Hm (nd_local n)). unfold Cluster.on_local, Cluster.lens. by destruct (m (nd_local n)). Qed.

Lemma settles_outside {A} (f : W -> A * W) : settles (OCall.outside f).
Proof. intros l. unfold OCall.outside. by destruct (f (lo_world l)). Qed.

Lemma settles_on_cache {A} (m : M LocalCache StorageQuotaExceeded A) : halts m -> settles (OCall.on_cache m).
Proof. intros Hm l. specialize (Hm (lo_cache l)). unfold OCall.on_cache. by destruct (m (lo_cache l)). Qed.

Lemma settles_modify f : settles (modify f).
Proof. by apply silent_modify. Qed.

Hint Resolve settles_outside settles_modify : silent.
Hint Extern 1 (silent _ (OCall.on_cache _)) => (apply settles_on_cache; first [apply LocalCacheProps.halts_cache_op | apply LocalCacheProps.halts_apply_quotas]) : silent.

Lemma settles_readings : settles (OCall.three_readings (W := W)).
Proof. unfold OCall.three_readings, OCall.cache_now. solve_silent. Qed.

Lemma settles_try_send tx cmd : settles (OCall.try_send (W := W) tx cmd).
Proof. unfold OCall.try_send. solve_silent. Qed.

Hint Resolve settles_readings settles_try_send : silent.
Hint Extern 1 (silent _ (Cluster.on_local _)) => (apply quiet_local; solve_silent) : silent.

Lemma quiet_handles h : quiet (modify (fun n => Cluster.set_handles (h (nd_handles n)) n)).
Proof. by apply silent_modify. Qed.

Lemma strip_info x (c : ContractState) : strip (Cluster.set_sidevm_info x c) = strip c.
Proof. by destruct c. Qed.

Lemma quiet_info id x : quiet (Cluster.update_contract id (Cluster.set_sidevm_info x)).
Proof.
  apply silent_modify. intros n. unfold public. simpl. f_equal. f_equal.
  apply map_eq. intros i. rewrite !lookup_fmap. destruct (decide (id = i)) as [->|Hi].
  - rewrite lookup_alter_eq. by destruct (nd_contracts n !! i) as [[]|].
  - by rewrite lookup_alter_ne.
Qed.

Hint Resolve quiet_handles quiet_info : silent.

Lemma quiet_handle_of c : quiet (Cluster.handle_of c).
Proof. unfold Cluster.handle_of. solve_silent. Qed.

Lemma quiet_get_contract id : quiet (Cluster.get_contract id).
Proof. apply silent_gets. Qed.

Hint Resolve quiet_handle_of quiet_get_contract : silent.

Lemma quiet_new_handle h : quiet (Cluster.new_handle h).
Proof.
  unfold Cluster.new_handle. apply silent_bind; [apply silent_gets|]. intros i. apply silent_bind; [|intros; apply silent_ret].
  by apply silent_modify.
Qed.

Hint Resolve quiet_new_handle : silent.

Lemma quiet_do_start code id weight config : quiet (Cluster.do_start_sidevm code id weight config).
Proof. unfold Cluster.do_start_sidevm. solve_silent. Qed.

Lemma quiet_push c m : quiet (Cluster.push_message_to_sidevm c m).
Proof. unfold Cluster.push_message_to_sidevm. solve_silent. Qed.

Hint Resolve quiet_do_start quiet_push : silent.

Lemma quiet_start c code waiting config : quiet (Cluster.start_sidevm c code waiting config).
Proof. unfold Cluster.start_sidevm. solve_silent. Qed.

Lemma quiet_restart c block : quiet (Cluster.restart_sidevm_if_needed c block).
Proof. unfold Cluster.restart_sidevm_if_needed. solve_silent. Qed.

Hint Resolve quiet_start quiet_restart : silent.

Lemma quiet_restarts block : quiet (Cluster.try_restart_sidevms block).
Proof. unfold Cluster.try_restart_sidevms. solve_silent. Qed.

Lemma quiet_handler : quiet Cluster.get_system_message_handler.
Proof. unfold Cluster.get_system_message_handler. solve_silent. Qed.

Lemma quiet_quotas : quiet Cluster.apply_local_cache_quotas.
Proof. unfold Cluster.apply_local_cache_quotas, Cache.calc_cache_quotas. solve_silent. Qed.

Lemma quiet_exited h reason : quiet (Cluster.sidevm_exited h reason).
Proof. by apply silent_modify. Qed.

Hint Resolve quiet_restarts quiet_handler quiet_quotas quiet_exited : silent.

Lemma quiet_upload id code : quiet (Cluster.upload_sidevm_code id code).
Proof. unfold Cluster.upload_sidevm_code. solve_silent. Qed.

(** ** Steps on the common part *)
Lemma both_cluster : both (gets nd_cluster) (gets nd_cluster).
Proof. apply coupled_gets. intros n1 n2 (_ & H & _)%replicas_parts. done. Qed.

Lemma both_local (m1 m2 : N unit) : quiet m1 -> quiet m2 -> both m1 m2.
Proof. apply coupled_local. Qed.

Lemma both_after {A B C} (m1 : N A) (m2 : N B) (k1 : A -> N C) (k2 : B -> N C) :
  quiet m1 -> quiet m2 -> (forall a b, both (k1 a) (k2 b)) -> both (mbind m1 k1) (mbind m2 k2).
Proof. intros H1 H2 Hk. eapply related_bind; [by apply related_silent|]. intros a b _. apply Hk. Qed.

Lemma both_bus {A} (m : M Bus SysError A) : both (Cluster.on_bus m) (Cluster.on_bus m).
Proof.
  intros n1 n2 (Hb & H2 & H3 & H4 & H5)%replicas_parts. unfold Cluster.on_bus, Cluster.lens. rewrite Hb.
  destruct (m (nd_bus n2)); simpl; try done; (split; [done|]); by apply replicas_parts.
Qed.

Lemma both_set_cluster f : both (modify (fun n => Cluster.set_cluster (f (nd_cluster n)) n))
  (modify (fun n => Cluster.set_cluster (f (nd_cluster n)) n)).
Proof.
  apply coupled_modify. intros n1 n2 (H1 & H2 & H3 & H4 & H5)%replicas_parts. apply replicas_parts. simpl. by rewrite H2.
Qed.

Lemma both_weight_changed x : both (modify (Cluster.set_weight_changed x)) (modify (Cluster.set_weight_changed x)).
Proof. apply coupled_modify. intros n1 n2 (H1 & H2 & H3 & H4 & H5)%replicas_parts. by apply replicas_parts. Qed.

(** An update that does not look at the side program *)
Lemma both_update id f : (forall c1 c2, strip c1 = strip c2 -> strip (f c1) = strip (f c2)) ->
  both (Cluster.update_contract id f) (Cluster.update_contract id f).
Proof.
  intros Hf. apply coupled_modify. intros n1 n2 (H1 & H2 & H3 & H4 & H5)%replicas_parts. apply replicas_parts.
  simpl. split_and!; try done. apply map_eq. intros i. apply (f_equal (.!! i)) in H4. rewrite !lookup_fmap in *.
  destruct (decide (id = i)) as [->|Hi]; [|by rewrite !lookup_alter_ne].
  rewrite !lookup_alter_eq. destruct (nd_contracts n1 !! i), (nd_contracts n2 !! i); simpl in *; try done.
  apply (inj Some) in H4. f_equal. by apply Hf.
Qed.

Lemma both_insert c : both (Cluster.insert_contract c) (Cluster.insert_contract c).
Proof.
  apply coupled_modify. intros n1 n2 (H1 & H2 & H3 & H4 & H5)%replicas_parts. apply replicas_parts.
  simpl. split_and!; try done. rewrite !fmap_insert. by f_equal.
Qed.

(** The same contract on both workers *)
Lemma both_get_contract {A} id (k1 k2 : option ContractState -> N A) :
  both (k1 None) (k2 None) ->
  (forall c1 c2, strip c1 = strip c2 -> both (k1 (Some c1)) (k2 (Some c2))) ->
  both (mbind (Cluster.get_contract id) k1) (mbind (Cluster.get_contract id) k2).
Proof.
  intros HN HS. eapply (related_bind (fun o1 o2 => strip <$> o1 = strip <$> o2)).
  - apply related_gets. intros n1 n2 (_ & _ & _ & H4 & _)%replicas_parts. apply (f_equal (.!! id)) in H4. by rewrite !lookup_fmap in H4.
  - intros [c1|] [c2|]; simpl; intros Hc; try done. apply (inj Some) in Hc. by apply HS.
Qed.

Lemma both_with_contract id (k1 k2 : ContractState -> N unit) :
  (forall c1 c2, strip c1 = strip c2 -> both (k1 c1) (k2 c2)) ->
  both (Cluster.with_contract id k1) (Cluster.with_contract id k2).
Proof. intros Hk. unfold Cluster.with_contract. apply both_get_contract; [apply coupled_ret|exact Hk]. Qed.

(** Messages in the name of the cluster *)
Lemma cluster_queue_lookup q o : of_cluster o = true -> cluster_queue q !! o = q !! o.
Proof.
  intros Ho. unfold cluster_queue. destruct (q !! o) eqn:Hq.
  - by apply map_lookup_filter_Some.
  - apply map_lookup_filter_None. by left.
Qed.

Lemma cluster_queue_insert q o c : of_cluster o = true -> cluster_queue (<[o := c]> q) = <[o := c]> (cluster_queue q).
Proof. intros Ho. unfold cluster_queue. by apply map_filter_insert_True. Qed.

(** An addition behaves alike in every state. *)
Lemma arith_anywhere {pr : Profile} w z :
  (exists r, forall Y (y : Y), @arith Y SysError pr w z y = Ok r y) \/ (forall Y (y : Y), @arith Y SysError pr w z y = Panic).
Proof. unfold arith. destruct (in_width w z); [left; by eexists|]. destruct overflow_checks; [by right|left; by eexists]. Qed.

Lemma push_run ch data topic (q1 q2 : gmap MessageOrigin Channel) :
  SendQueue.entry q1 (mc_sender ch) = SendQueue.entry q2 (mc_sender ch) ->
  (exists c, SendQueue.push_data (E := SysError) ch data topic q1 = Ok tt (<[mc_sender ch := c]> q1)
    /\ SendQueue.push_data (E := SysError) ch data topic q2 = Ok tt (<[mc_sender ch := c]> q2))
  \/ SendQueue.push_data (E := SysError) ch data topic q1 = Panic.
Proof.
  intros He. unfold SendQueue.push_data, SendQueue.enqueue_message, mbind, gets, modify. rewrite He.
  destruct (arith_anywhere (pr := profile) 64 (ch_sequence (SendQueue.entry q2 (mc_sender ch)) + 1)) as [[r Hr]|Hr].
  - left. rewrite !Hr. by eexists.
  - right. by rewrite Hr.
Qed.

Lemma both_push ch data topic : of_cluster (mc_sender ch) = true ->
  both (Cluster.on_queue (SendQueue.push_data ch data topic)) (Cluster.on_queue (SendQueue.push_data ch data topic)).
Proof.
  intros Ho n1 n2 (H1 & H2 & H3 & H4 & H5)%replicas_parts.
  assert (SendQueue.entry (queue (nd_sys n1)) (mc_sender ch) = SendQueue.entry (queue (nd_sys n2)) (mc_sender ch)) as He.
  { unfold SendQueue.entry. 
    rewrite <- (cluster_queue_lookup (queue (nd_sys n1)) _ Ho), <- (cluster_queue_lookup (queue (nd_sys n2)) _ Ho). by rewrite H5. }
  unfold Cluster.on_queue, Cluster.lens. destruct (push_run ch data topic _ _ He) as [(c & E1 & E2)|E1]; rewrite E1; [rewrite E2|by case_match].
  split; [done|]. apply replicas_parts. split_and!; [exact H1|exact H2|exact H3|exact H4|].
  cbn [nd_sys Cluster.set_sys queue Sys.set_queue]. rewrite !cluster_queue_insert by exact Ho. by rewrite H5.
Qed.

Hint Resolve both_cluster both_bus both_set_cluster both_weight_changed both_insert : coupled.

Lemma both_runtime cl : both (Cluster.the_runtime cl) (Cluster.the_runtime cl).
Proof. apply coupled_expect_some. Qed.

Hint Resolve both_runtime : coupled.

Lemma both_system cl : both (Cluster.system_contract cl) (Cluster.system_contract cl).
Proof. unfold Cluster.system_contract. solve_coupled. Qed.

Lemma both_resource cl t h : both (Cluster.get_resource cl t h) (Cluster.get_resource cl t h).
Proof. unfold Cluster.get_resource. solve_coupled. Qed.

Lemma both_ensure_system origin (k1 k2 : N unit) : both k1 k2 -> both (Cluster.ensure_system origin k1) (Cluster.ensure_system origin k2).
Proof. intros Hk. unfold Cluster.ensure_system. pose proof both_system. solve_coupled. Qed.

Hint Resolve both_system both_resource : coupled.

Lemma both_source h : both (Cluster.sidevm_source h) (Cluster.sidevm_source h).
Proof. unfold Cluster.sidevm_source. solve_coupled. Qed.

Hint Resolve both_source : coupled.

(** ** Transactions *)

Definition transaction (cx1 cx2 : CallCtx) : Prop := same_call cx1 cx2 /\ OCall.mode cx1 = Transaction.

Lemma transaction_entry cx1 cx2 contract origin nonce :
  transaction cx1 cx2 -> transaction (Cluster.entry_ctx contract origin nonce cx1) (Cluster.entry_ctx contract origin nonce cx2).
Proof. intros [[Henv He Hn] Hm]. split; [split|]; try done; by destruct nonce. Qed.

Lemma both_runtime_ecall cl lg1 lg2 cx1 cx2 e : transaction cx1 cx2 -> both (Cluster.ecall cl lg1 cx1 e) (Cluster.ecall cl lg2 cx2 e).
Proof.
  intros [[Henv He Hn] Hm]. unfold Cluster.ecall, Cluster.the_runtime.
  destruct (get_runtime (runtime_version (cl_config cl))) as [rt|] eqn:Hrt; [|apply coupled_panic].
  intros n1 n2 HR. unfold mbind, expect_some, mret.
  set (js := js_runtime (cl_config cl)).
  assert (same_call (set_cx_handle lg1 js cx1) (set_cx_handle lg2 js cx2)) as Hcall by by split.
  pose proof (ecall_replicated _ _ _ _ e (cl_storage cl) (nd_local n1) (nd_local n2) Hrt Hcall Hm) as H.
  unfold alike in H. destruct (pr_ecall rt _ e (_, nd_local n1)) as [[[o1 f1] b1] [st1 l1]|er1 [st1 l1]| |],
    (pr_ecall rt _ e (_, nd_local n2)) as [[[o2 f2] b2] [st2 l2]|er2 [st2 l2]| |]; try done; simpl in *.
  - destruct H as [[= -> -> ->] ->]. done.
  - by destruct H as [-> _].
Qed.

Lemma both_cluster_ecall lg1 lg2 cx1 cx2 e : transaction cx1 cx2 ->
  both (Cluster.cluster_ecall lg1 cx1 e) (Cluster.cluster_ecall lg2 cx2 e).
Proof.
  intros Htx. unfold Cluster.cluster_ecall. pose proof both_runtime_ecall.
  assert (forall cl, both (modify (Cluster.set_cluster cl)) (modify (Cluster.set_cluster cl))) as Hset.
  { intros cl. apply (both_set_cluster (fun _ => cl)). }
  apply coupled_bind; [apply both_cluster|]. intros cl. apply coupled_bind; [apply coupled_expect_some|]. intros c.
  apply coupled_bind; [by apply both_runtime_ecall|]. intros [[c' out] effects]. solve_coupled.
Qed.

Hint Resolve both_cluster_ecall : coupled.

Lemma both_upgrade cx1 cx2 version : transaction cx1 cx2 -> both (Cluster.upgrade_runtime cx1 version) (Cluster.upgrade_runtime cx2 version).
Proof. intros Htx. unfold Cluster.upgrade_runtime. solve_coupled. Qed.

Lemma both_idle cx1 cx2 b : transaction cx1 cx2 -> both (Cluster.on_idle cx1 b) (Cluster.on_idle cx2 b).
Proof. intros Htx. unfold Cluster.on_idle. solve_coupled. Qed.

Lemma both_expect_crypto {A} (m : M (Node S W) CryptoError A) :
  coupled (P := True) replicas m m -> both (Gk.expect_crypto m) (Gk.expect_crypto m).
Proof.
  intros Hm n1 n2 HR. specialize (Hm n1 n2 HR). unfold Gk.expect_crypto. by destruct (m n1), (m n2).
Qed.

Hint Resolve both_upgrade both_idle : coupled.

Lemma both_cluster_key cl : both (Cluster.cluster_key cl) (Cluster.cluster_key cl).
Proof.
  unfold Cluster.cluster_key. solve_coupled. apply both_expect_crypto. unfold Crypto.restore_from_secret_key. solve_coupled.
Qed.

Lemma both_contract_key key id : both (Cluster.get_contract_key key id) (Cluster.get_contract_key key id).
Proof. apply both_expect_crypto. unfold Crypto.derive_sr25519_pair. solve_coupled. Qed.

Lemma both_ecdh_key key : both (Gk.expect_crypto (Crypto.derive_ecdh_key key)) (Gk.expect_crypto (Crypto.derive_ecdh_key key)).
Proof. apply both_expect_crypto. unfold Crypto.derive_ecdh_key, Ecdh.from_secret. solve_coupled. Qed.

Lemma both_install a key ecdh cl : both (Cluster.install_contract a key ecdh cl) (Cluster.install_contract a key ecdh cl).
Proof. unfold Cluster.install_contract. apply both_get_contract; intros; solve_coupled. Qed.

Hint Resolve both_cluster_key both_contract_key both_ecdh_key both_install : coupled.

Lemma both_instantiating events : both (Cluster.apply_instantiating_events events) (Cluster.apply_instantiating_events events).
Proof. unfold Cluster.apply_instantiating_events. solve_coupled. by apply both_push. Qed.

(** ** Events *)
Lemma both_ignore {A B} (m1 : N A) (m2 : N B) : quiet m1 -> quiet m2 -> both (Cluster.ignore m1) (Cluster.ignore m2).
Proof. intros H1 H2. unfold Cluster.ignore. apply both_after; [done|done|]. intros. apply coupled_ret. Qed.

Lemma both_set_config f : both (Cluster.set_config f) (Cluster.set_config f).
Proof. unfold Cluster.set_config. apply (both_set_cluster (fmap _)). Qed.

Lemma both_set_weight c1 c2 w : strip c1 = strip c2 -> both (Cluster.set_weight c1 w) (Cluster.set_weight c2 w).
Proof.
  intros Hc. unfold Cluster.set_weight.
  assert (ct_address c1 = ct_address c2) as -> by exact (f_equal ct_address Hc).
  apply coupled_bind.
  - apply both_update. intros d1 d2 Hd. exact (f_equal (Cluster.set_ct_weight w) Hd).
  - intros _. apply both_local; solve_silent.
Qed.

Lemma quiet_source h : quiet (Cluster.sidevm_source h).
Proof. unfold Cluster.sidevm_source, Cluster.get_resource, Cluster.the_runtime. solve_silent. Qed.

Lemma quiet_ensure_system origin (k : N unit) : quiet k -> quiet (Cluster.ensure_system origin k).
Proof. intros Hk. unfold Cluster.ensure_system, Cluster.system_contract, Cluster.the_runtime. solve_silent. Qed.

Hint Resolve quiet_source quiet_ensure_system : silent.

(** The events of a query and those about side programs are the worker's own. *)
Lemma quiet_event cx origin event : allowed_in_query event = true -> quiet (Cluster.apply_pink_event cx origin event).
Proof.
  intros Hq. unfold Cluster.apply_pink_event, Cluster.ignore, Cluster.with_contract.
  destruct event as [[]| | | | | | | | |[]|]; try discriminate Hq; try apply quiet_ensure_system; solve_silent.
Qed.

Lemma both_event cx1 cx2 origin event : transaction cx1 cx2 ->
  both (Cluster.apply_pink_event cx1 origin event) (Cluster.apply_pink_event cx2 origin event).
Proof.
  intros Htx. destruct (allowed_in_query event) eqn:Hq; [by apply both_local; apply quiet_event|].
  unfold Cluster.apply_pink_event.
  destruct event as [[]| | | | | | | | |[]|]; try discriminate Hq;
    repeat first [apply both_ensure_system | apply both_with_contract; intros c1 c2 Hc].
  - apply both_update. intros d1 d2 Hd. exact (f_equal (Cluster.set_on_block_end_selector selector gas_limit) Hd).
  - apply both_set_config.
  - apply coupled_bind; [by apply both_set_weight|]. intros _. apply both_weight_changed.
  - by apply both_upgrade.
  - apply both_set_config.
Qed.

Lemma quiet_ink block events logger : quiet (Cluster.apply_ink_side_effects block events logger).
Proof. unfold Cluster.apply_ink_side_effects. solve_silent. Qed.

Lemma both_effects cx1 cx2 block effects lg1 lg2 : transaction cx1 cx2 ->
  both (Cluster.apply_pink_side_effects cx1 block effects lg1) (Cluster.apply_pink_side_effects cx2 block effects lg2).
Proof.
  intros Htx. unfold Cluster.apply_pink_side_effects.
  apply coupled_bind; [apply both_instantiating|]. intros _. apply coupled_bind.
  - apply coupled_for_each. intros ev. by apply both_event.
  - intros _. apply both_local; apply quiet_ink.
Qed.

(** ** Commands *)
Lemma both_peel k m : both (Cluster.peel k m) (Cluster.peel k m).
Proof.
  unfold Cluster.peel. destruct m; [apply coupled_ret|]. intros n1 n2 HR. by destruct (Cluster.decrypt_data _ _ _ _ tt).
Qed.

Lemma both_head4 message : both (Cluster.head4 message) (Cluster.head4 message).
Proof. unfold Cluster.head4. solve_coupled. Qed.

Hint Resolve both_peel both_head4 transaction_entry : coupled.

Lemma both_command cx1 cx2 block lg1 lg2 id origin cmd : transaction cx1 cx2 ->
  both (Cluster.handle_command cx1 block lg1 id origin cmd) (Cluster.handle_command cx2 block lg2 id origin cmd).
Proof.
  intros Htx. unfold Cluster.handle_command. destruct cmd as [nonce message transfer gas deposit].
  apply coupled_bind; [solve_coupled|]. intros [[who free]|]; [|apply coupled_ret].
  apply coupled_bind; [apply both_head4|]. intros selector.
  apply coupled_bind; [by apply both_cluster_ecall, transaction_entry|]. intros [out effects].
  apply both_after; [destruct lg1; solve_silent|destruct lg2; solve_silent|]. intros _ _. apply coupled_ret.
Qed.

Lemma both_next_command cx1 cx2 block lg1 lg2 c1 c2 : transaction cx1 cx2 -> strip c1 = strip c2 ->
  both (Cluster.process_next_command cx1 block lg1 c1) (Cluster.process_next_command cx2 block lg2 c2).
Proof.
  intros Htx Hc. unfold Cluster.process_next_command, Cluster.handle_message. pose proof both_command.
  assert (ct_cmd_rcv_mq c1 = ct_cmd_rcv_mq c2) as -> by exact (f_equal ct_cmd_rcv_mq Hc).
  assert (ct_ecdh_key c1 = ct_ecdh_key c2) as -> by exact (f_equal ct_ecdh_key Hc).
  assert (ct_address c1 = ct_address c2) as -> by exact (f_equal ct_address Hc).
  solve_coupled.
Qed.

Lemma both_result cx1 cx2 block r lg1 lg2 : transaction cx1 cx2 ->
  both (Cluster.handle_contract_command_result cx1 block r lg1) (Cluster.handle_contract_command_result cx2 block r lg2).
Proof. intros Htx. unfold Cluster.handle_contract_command_result. destruct r; [by apply both_effects|apply coupled_ret]. Qed.

Lemma both_commands fuel cx1 cx2 block id : transaction cx1 cx2 ->
  both (Cluster.process_commands fuel cx1 block id) (Cluster.process_commands fuel cx2 block id).
Proof.
  intros Htx. induction fuel as [|fuel IH]; [by intros n1 n2 HR|]. cbn [Cluster.process_commands].
  apply both_after; [apply quiet_handler..|]. intros lg1 lg2.
  apply coupled_bind; [apply both_cluster|]. intros [cl|]; [|apply coupled_ret].
  apply both_get_contract; [apply coupled_ret|]. intros c1 c2 Hc.
  apply coupled_bind; [by apply both_next_command|]. intros [r|]; [|apply coupled_ret].
  apply coupled_bind; [by apply both_result|]. intros _. exact IH.
Qed.

Lemma replicas_contract n1 n2 id : replicas n1 n2 -> strip <$> nd_contracts n1 !! id = strip <$> nd_contracts n2 !! id.
Proof. intros (_ & _ & _ & H & _)%replicas_parts. apply (f_equal (.!! id)) in H. by rewrite !lookup_fmap in H. Qed.

Lemma replicas_ids n1 n2 : replicas n1 n2 -> Cluster.contract_ids n1 = Cluster.contract_ids n2.
Proof.
  intros (_ & _ & _ & H & _)%replicas_parts. unfold Cluster.contract_ids. f_equal.
  apply (f_equal (fun m => (map_to_list m).*1)) in H. rewrite !map_to_list_fmap, <- !list_fmap_compose in H. exact H.
Qed.

Lemma replicas_waiting n1 n2 id : replicas n1 n2 -> Cluster.commands_waiting n1 id = Cluster.commands_waiting n2 id.
Proof.
  intros HR. pose proof (replicas_contract _ _ id HR) as Hc. apply replicas_parts in HR as [Hb _].
  unfold Cluster.commands_waiting. rewrite Hb. destruct (nd_contracts n1 !! id) as [c1|], (nd_contracts n2 !! id) as [c2|]; try done.
  apply (inj Some) in Hc. by assert (ct_cmd_rcv_mq c1 = ct_cmd_rcv_mq c2) as -> by exact (f_equal ct_cmd_rcv_mq Hc).
Qed.

Lemma both_all_commands cx1 cx2 block ids : transaction cx1 cx2 ->
  both (Cluster.process_all_commands cx1 block ids) (Cluster.process_all_commands cx2 block ids).
Proof.
  intros Htx. induction ids as [|id ids IH]; [apply coupled_ret|]. cbn [Cluster.process_all_commands].
  apply coupled_bind; [apply coupled_gets; intros; by apply replicas_waiting|]. intros fuel.
  apply coupled_bind; [by apply both_commands|]. intros [|]; [apply coupled_ret|exact IH].
Qed.

Lemma both_messages cx1 cx2 block : transaction cx1 cx2 ->
  both (Cluster.process_contract_messages cx1 block) (Cluster.process_contract_messages cx2 block).
Proof.
  intros Htx. unfold Cluster.process_contract_messages.
  apply coupled_bind; [apply coupled_gets; intros; by apply replicas_ids|]. intros ids.
  apply coupled_bind; [by apply both_all_commands|]. intros [|]; [apply coupled_ret|]. solve_coupled.
Qed.

(** ** The end of a block *)
Lemma both_block_end cx1 cx2 lg1 lg2 c1 c2 : transaction cx1 cx2 -> strip c1 = strip c2 ->
  both (Cluster.on_block_end cx1 lg1 c1) (Cluster.on_block_end cx2 lg2 c2).
Proof.
  intros Htx Hc. unfold Cluster.on_block_end.
  assert (ct_on_block_end c1 = ct_on_block_end c2) as -> by exact (f_equal ct_on_block_end Hc).
  assert (ct_address c1 = ct_address c2) as -> by exact (f_equal ct_address Hc).
  destruct (ct_on_block_end c2); [|apply coupled_ret].
  apply coupled_bind; [by apply both_cluster_ecall, transaction_entry|]. intros r. apply coupled_ret.
Qed.

Lemma both_end_block cx1 cx2 block : transaction cx1 cx2 ->
  both (Cluster.end_block_contracts cx1 block) (Cluster.end_block_contracts cx2 block).
Proof.
  intros Htx. unfold Cluster.end_block_contracts. apply both_after; [apply quiet_handler..|]. intros lg1 lg2.
  apply coupled_bind; [apply both_cluster|]. intros cl. apply coupled_bind; [|intros _; apply coupled_bind].
  - destruct cl; [|apply coupled_ret].
    apply coupled_bind; [apply coupled_gets; intros; by apply replicas_ids|]. intros ids. apply coupled_for_each. intros id.
    apply both_get_contract; [apply coupled_ret|]. intros c1 c2 Hc.
    apply coupled_bind; [by apply both_block_end|]. intros [effects|]; [by apply both_result|apply coupled_ret].
  - apply coupled_gets. by intros n1 n2 (_ & _ & H & _)%replicas_parts.
  - intros changed. apply coupled_bind.
    + destruct changed; [|apply coupled_ret]. apply coupled_bind; [apply both_weight_changed|]. intros _.
      apply both_local; apply quiet_quotas.
    + intros _. apply both_local; solve_silent.
Qed.

(** ** Operations of the chain *)

(** Those that every worker of the cluster carries out alike: the keys of a cluster and
    the removal of a worker are for one of them. *)
Definition for_all (op : ClusterOperation) : bool :=
  match op with UploadResource _ _ _ _ | Deposit _ _ _ => true | _ => false end.

Lemma both_is id : both (gets (Cluster.cluster_is id)) (gets (Cluster.cluster_is id)).
Proof. apply coupled_gets. intros n1 n2 (_ & H & _)%replicas_parts. unfold Cluster.cluster_is. by rewrite H. Qed.

Lemma both_other s : both (Cluster.other_error s (A := unit)) (Cluster.other_error s (A := unit)).
Proof. apply coupled_fail. Qed.

Hint Resolve both_is both_other : coupled.

Lemma both_resource_upload cx1 cx2 origin t data : transaction cx1 cx2 ->
  both (Cluster.upload_resource cx1 origin t data) (Cluster.upload_resource cx2 origin t data).
Proof. intros Htx. unfold Cluster.upload_resource. solve_coupled. Qed.

Lemma quiet_log_upload block logger system r : quiet (Cluster.log_upload block logger system r).
Proof. unfold Cluster.log_upload. solve_silent. Qed.

Lemma both_cluster_operation cx1 cx2 block chain origin op : transaction cx1 cx2 -> for_all op = true ->
  both (Cluster.process_cluster_operation_event cx1 block chain origin (ChainOperation op))
    (Cluster.process_cluster_operation_event cx2 block chain origin (ChainOperation op)).
Proof.
  intros Htx Hop. unfold Cluster.process_cluster_operation_event. pose proof both_resource_upload.
  destruct op; try discriminate Hop; [|solve_coupled].
  destruct (is_pallet origin); [|apply both_other]. cbn [negb]. apply coupled_bind; [apply both_is|].
  intros []; [|apply coupled_ret]. cbn [negb]. apply coupled_bind; [apply both_cluster|]. intros cl.
  apply coupled_bind; [apply coupled_expect_some|]. intros c. apply coupled_bind; [apply both_system|].
  intros [system|]; [|apply both_other]. apply coupled_bind; [by apply both_resource_upload|]. intros r.
  apply both_after; [apply quiet_handler..|]. intros lg1 lg2. apply both_after; [apply quiet_log_upload..|].
  intros _ _. destruct r; [apply coupled_ret|apply both_other].
Qed.

Lemma both_contract_operation cx1 cx2 block origin op : transaction cx1 cx2 ->
  both (Cluster.process_contract_operation_event cx1 block origin op) (Cluster.process_contract_operation_event cx2 block origin op).
Proof.
  intros Htx. unfold Cluster.process_contract_operation_event. destruct (is_pallet origin); [|apply both_other].
  destruct op as [info transfer gas deposit]. cbn [negb]. apply both_after; [apply quiet_handler..|]. intros lg1 lg2.
  apply coupled_bind; [apply both_is|]. intros []; [|apply coupled_ret]. cbn [negb].
  apply coupled_bind; [apply both_cluster|]. intros cl. apply coupled_bind; [apply coupled_expect_some|]. intros c.
  apply coupled_bind; [apply both_system|]. intros [system|]; [|apply both_other].
  apply coupled_bind; [apply both_runtime|]. intros rt.
  apply coupled_bind; [by apply both_cluster_ecall, transaction_entry|]. intros r. by apply both_effects.
Qed.

(** ** Histories *)

(** What reaches every worker of the cluster *)
Inductive Shared :=
| Delivered (m : Message)
| Purged (next_sequence_for : MessageOrigin -> Z)
| ContractMessages (block : BlockInfo)
| BlockEnd (block : BlockInfo)
| OnCluster (block : BlockInfo) (chain : PinkChain) (origin : MessageOrigin) (op : ClusterOperation)
| OnContract (block : BlockInfo) (origin : MessageOrigin) (op : ContractOperation).

(** What happens on one worker: effects of queries, side programs that end, code that is
    uploaded for them, and whatever changes the cache, the clock and the rest of the world *)
Inductive Own :=
| QueryEffects (cx : CallCtx) (effects : ExecSideEffects)
| SidevmExit (handle : nat) (reason : ExitReason)
| SidevmUpload (id : Z) (code : bytes)
| World (l : Local W).

(** A step of a worker; [cx] is its context of the transactions. *)
Inductive Step := SharedStep (cx : CallCtx) (e : Shared) | OwnStep (e : Own).

Definition shared (cx : CallCtx) (e : Shared) : N unit :=
  match e with
  | Delivered m => Cluster.on_bus (Dispatcher.dispatch m);;; mret tt
  | Purged next => Cluster.on_queue (SendQueue.purge next)
  | ContractMessages block => Cluster.process_contract_messages cx block
  | BlockEnd block => Cluster.end_block_contracts cx block
  | OnCluster block chain origin op => Cluster.process_cluster_operation_event cx block chain origin (ChainOperation op)
  | OnContract block origin op => Cluster.process_contract_operation_event cx block origin op
  end.

Definition own (e : Own) : N unit :=
  match e with
  | QueryEffects cx effects => Cluster.apply_side_effects cx (into_query_only_effects effects)
  | SidevmExit handle reason => Cluster.sidevm_exited handle reason
  | SidevmUpload id code => Cluster.upload_sidevm_code id code;;; mret tt
  | World l => modify (Cluster.set_local l)
  end.

(** An error is logged. *)
Fixpoint run_steps (h : list Step) : N unit :=
  match h with
  | [] => mret tt
  | SharedStep cx e :: h => catch (shared cx e);;; run_steps h
  | OwnStep e :: h => own e;;; run_steps h
  end.

Definition shared_steps (h : list Step) : list (CallCtx * Shared) :=
  omap (fun s => match s with SharedStep cx e => Some (cx, e) | OwnStep _ => None end) h.

(** The same event on two workers *)
Definition same_step (a b : CallCtx * Shared) : Prop :=
  transaction a.1 b.1 /\ a.2 = b.2 /\ match a.2 with OnCluster _ _ _ op => for_all op = true | _ => True end.

Lemma cluster_queue_purge next q :
  cluster_queue (map_imap (fun k c => Some (SendQueue.purge_channel (next k) c)) q)
  = map_imap (fun k c => Some (SendQueue.purge_channel (next k) c)) (cluster_queue q).
Proof.
  apply map_eq. intros o. rewrite map_lookup_imap. destruct (of_cluster o) eqn:Ho.
  - rewrite !cluster_queue_lookup by done. apply map_lookup_imap.
  - assert (forall q', cluster_queue q' !! o = None) as Hn.
    { intros q'. apply map_lookup_filter_None. right. intros c _. simpl. congruence. }
    by rewrite !Hn.
Qed.

Lemma both_shared cx1 cx2 e : same_step (cx1, e) (cx2, e) -> both (shared cx1 e) (shared cx2 e).
Proof.
  intros (Htx & _ & Hop). simpl in *. destruct e; cbn [shared].
  - apply coupled_bind; [apply both_bus|]. intros _. apply coupled_ret.
  - intros n1 n2 (H1 & H2 & H3 & H4 & H5)%replicas_parts. simpl. split; [done|]. apply replicas_parts. simpl.
    split_and!; try done. by rewrite !cluster_queue_purge, H5.
  - by apply both_messages.
  - by apply both_end_block.
  - by apply both_cluster_operation.
  - by apply both_contract_operation.
Qed.

Lemma quiet_own e : quiet (own e).
Proof.
  destruct e; cbn [own].
  - unfold Cluster.apply_side_effects, Cluster.apply_pink_events. apply silent_bind; [apply silent_gets|]. intros [cl|]; [|apply silent_ret].
    simpl. induction (pink_events effects) as [|[origin ev] l IH]; [apply silent_ret|].
    rewrite filter_cons. destruct (decide _) as [Hq|]; [|exact IH]. cbn [for_each]. apply silent_bind; [by apply quiet_event|]. by intros _.
  - apply quiet_exited.
  - apply silent_bind; [apply quiet_upload|]. intros _. apply silent_ret.
  - by apply silent_modify.
Qed.

(** A step that only the other side does *)
Lemma alike_own {A} R e (k : N unit) n (o : outcome (Node S W) SysError A) :
  (forall n', public n' = public n -> alike (P := True) (fun _ _ => True) R (k n') o) ->
  alike (P := True) (fun _ _ => True) R ((own e;;; k) n) o.
Proof.
  intros Hk. pose proof (quiet_own e n) as Hq. unfold wp, mbind in *. destruct (own e n) as [[] n'| | |]; try done; [by apply Hk|by destruct o..].
Qed.

Lemma alike_sym {A} (o1 o2 : outcome (Node S W) SysError A) :
  alike (P := True) (fun _ _ => True) replicas o1 o2 -> alike (P := True) (fun _ _ => True) replicas o2 o1.
Proof. unfold alike, same_view. destruct o1, o2; try done; intros [? H]; (split; [done|by symmetry]). Qed.

Lemma replicas_run h1 : forall h2 n1 n2, Forall2 same_step (shared_steps h1) (shared_steps h2) -> replicas n1 n2 ->
  alike (P := True) (fun _ _ => True) replicas (run_steps h1 n1) (run_steps h2 n2).
Proof.
  induction h1 as [|[cx1 e1|o1] h1 IH1]; intros h2.
  - induction h2 as [|[cx2 e2|o2] h2 IH2]; intros n1 n2 Hs HR; [by split|inversion Hs|].
    apply alike_sym, alike_own. intros n2' Hp. apply alike_sym, IH2; [done|]. unfold same_view in *. congruence.
  - induction h2 as [|[cx2 e2|o2] h2 IH2]; intros n1 n2 Hs HR; [inversion Hs| |].
    + inversion Hs as [|? ? ? ? Hsame Hrest]. subst. destruct Hsame as (Htx & He & Hop). simpl in He. subst e2.
      refine (related_bind eq (fun _ _ => True) replicas _ _ (fun _ => run_steps h1) (fun _ => run_steps h2) _ _ n1 n2 HR).
      * apply coupled_catch, both_shared. by split.
      * intros _ _ _ s1 s2 HR'. by apply IH1.
    + apply alike_sym, alike_own. intros n2' Hp. apply alike_sym, IH2; [done|]. unfold same_view in *. congruence.
  - intros n1 n2 Hs HR. apply alike_own. intros n1' Hp. apply IH1; [done|]. unfold same_view in *. congruence.
Qed.

End Replicas.
(** The runtime of Pink.v keeps its promise; the older ones are assumed to. *)
Section Loader.
Context {prof : Profile} {cfg : Config} {codec : Codec} {P : PrCrypto}.
Context {Chain : Type} {lib : PinkLib Chain} {W : Type} {Out : Outside W}.

Definition replicated (rt : PinkRuntime (PinkState Chain) W) : Prop := forall cx1 cx2 e st l1 l2,
  same_call cx1 cx2 -> OCall.mode cx1 = Transaction ->
  alike (P := False) eq (fun s1 s2 => s1.1 = s2.1) (pr_ecall rt cx1 e (st, l1)) (pr_ecall rt cx2 e (st, l2)).

Lemma pink_replicated : replicated pink_runtime.
Proof.
  intros cx1 cx2 e st l1 l2 Hcall Hmode.
  assert (alike (P := False) eq agree (Pink.ecall (E := SysError) cx1 e (mkRt st l1)) (Pink.ecall cx2 e (mkRt st l2))) as H.
  { apply (PinkProps.both_ecall cx1 cx2 Hcall); [by rewrite Hmode|done]. }
  unfold alike, agree in *. simpl. by destruct (Pink.ecall cx1 e _), (Pink.ecall cx2 e _).
Qed.

End Loader.

End ClusterProps.

Import RefInstances PrInstances PinkInstances ClusterInstances.
Import ClusterProps.

#[local] Instance ref_replicated : ReplicaRuntimes ref_runtimes.
Proof.
  split. intros v rt cx1 cx2 e st l1 l2 Hv. assert (rt = pink_runtime) as ->; [|apply pink_replicated].
  revert Hv. simpl. unfold v1_runtime. repeat case_match; by intros [=].
Qed.

(** C4: The workers of a cluster are replicas of each other.  Two workers with the same
    cluster, contracts, weights, commands in their queues and messages to be sent for the
    cluster get the same events from the chain, each in its own context, while each of
    them applies the effects of any queries, loses and restarts side programs, takes
    uploads of their code and sees its own clock, network and cache.  They end as replicas
    again, with the same errors, unless one of them panics. *)
Theorem replicas_agree {prof : Profile} {cfg : Config} {codec : Codec} {ccodec : ClusterCodec} {P : PrCrypto} {S W : Type}
    {RT : Runtimes S W} {RR : ReplicaRuntimes RT} {Out : Outside W} (h1 h2 : list Step) (n1 n2 : Node S W)
    (Hshared : Forall2 same_step (shared_steps h1) (shared_steps h2)) (Hn : public n1 = public n2) :
  match run_steps h1 n1, run_steps h2 n2 with
  | Ok _ n1', Ok _ n2' => public n1' = public n2'
  | Err e1 n1', Err e2 n2' => e1 = e2 /\ public n1' = public n2'
  | Panic, _ | _, Panic => True
  | NoFuel, NoFuel => True
  | _, _ => False
  end.
Proof.
  pose proof (replicas_run h1 h2 n1 n2 Hshared Hn) as H. unfold alike in H.
  destruct (run_steps h1 n1), (run_steps h2 n2); try done. apply H.
Qed.

(** What a worker has to show: the head of the event chain and the commands it sent *)
Definition seen {A} (o : outcome (Node (PinkState RefChain) Z) SysError A) : option (option Z * nat) :=
  match o with
  | Ok _ n => Some (ps_last_event_hash ∘ cl_storage <$> nd_cluster n, length (lo_sent (nd_local n)))
  | _ => None
  end.

Lemma replicas_agree_witness :
  let h1 := [OwnStep (SidevmUpload 1007 [1]); SharedStep (ref_ctx 1 Transaction 3) (Delivered ref_command);
    OwnStep (QueryEffects (ref_ctx 1 Query 4) (mkExecSideEffects [(1007, SidevmMessage [1])] [] []));
    SharedStep (ref_ctx 1 Transaction 5) (ContractMessages (mkBlockInfo 8 6000));
    SharedStep (ref_ctx 1 Transaction 6) (BlockEnd (mkBlockInfo 8 6000))] in
  let h2 := [SharedStep (ref_ctx 2 Transaction 3) (Delivered ref_command);
    SharedStep (ref_ctx 2 Transaction 4) (ContractMessages (mkBlockInfo 8 6000)); OwnStep (World (ref_local 90));
    SharedStep (ref_ctx 2 Transaction 4) (BlockEnd (mkBlockInfo 8 6000))] in
  exists n1 n2,
    run_steps h1 (ref_node 1 5 (Some ref_sidevm) []) = Ok tt n1 /\ run_steps h2 (ref_node 2 80 None []) = Ok tt n2
    /\ public n1 = public n2 /\ length (lo_sent (nd_local n1)) = 5%nat /\ lo_sent (nd_local n2) = [].
Proof.
  intros h1 h2.
  assert (Forall2 same_step (shared_steps h1) (shared_steps h2)) as Hs.
  { assert (forall a b, transaction (ref_ctx 1 Transaction a) (ref_ctx 2 Transaction b)) as Htx.
    { intros a b. split; [|done]. split; [|done|done]. eexists _, _. split; [reflexivity|]. split; [reflexivity|]. done. }
    cbv [h1 h2 shared_steps omap list_omap]. do 3 (apply List.Forall2_cons; [split; [apply Htx|done]|]). apply List.Forall2_nil. }
  assert (public (ref_node 1 5 (Some ref_sidevm) []) = public (ref_node 2 80 None [])) as Hn by (vm_compute; reflexivity).
  pose proof (replicas_agree h1 h2 _ _ Hs Hn) as H.
  assert (seen (run_steps h1 (ref_node 1 5 (Some ref_sidevm) [])) = Some (Some 4165, 5%nat)) as O1 by (vm_compute; reflexivity).
  assert (seen (run_steps h2 (ref_node 2 80 None [])) = Some (Some 4165, 0%nat)) as O2 by (vm_compute; reflexivity).
  destruct (run_steps h1 _) as [[] n1| | |]; [|discriminate O1..]. destruct (run_steps h2 _) as [[] n2| | |]; [|discriminate O2..].
  exists n1, n2. split; [reflexivity|]. split; [reflexivity|]. split; [exact H|]. injection O1 as _ O1. injection O2 as _ O2.
  split; [exact O1|]. apply nil_length_inv. exact O2.
Defined.
