(* ===== verification/ClusterSafety.v ===== *)
(** * Safety of contract clusters

    Events of a contract that is not the system contract stay with that contract, the
    loop over the commands of the contracts ends and leaves none, and the requests and
    commands with which an outsider stops a side program or a worker. *)
From stdpp Require Import prelude gmap list strings sorting.
From Stdlib Require Import ZArith Lia.
From S2P Require Import Prelude Types Externals Registry Phat SendQueue Dispatcher Benchmark WorkerSM Crypto Tokenomic Economics GatekeeperPr System Relate LocalCache LocalCacheProps PinkTypes PinkHost Pink Cluster Reference PrReference PinkRef ClusterRef.

Module ClusterSafety.

(** ** Contracts without privileges *)
Section Privileges.
Context {prof : Profile} {cfg : Config} {codec : Codec} {ccodec : ClusterCodec} {P : PrCrypto}.
Context {S W : Type} {RT : Runtimes S W} {Out : Outside W}.
Implicit Types n : Node S W.

(** A command for the running side program of one of the contracts *)
Definition own_command n (origins : list Z) (cmd : nat * SidevmCommand) : Prop :=
  exists id c info, id ∈ origins /\ nd_contracts n !! id = Some c /\ ct_sidevm_info c = Some info
    /\ nd_handles n !! si_handle info = Some (HandleRunning cmd.1)
    /\ match cmd.2 with Stop | PushMessage _ => True | _ => False end.

(** What is left of [n] after events of [origins] *)
Record confined (origins : list Z) n n' : Prop := {
  cf_rest : n' = Cluster.set_local (nd_local n') n;
  cf_http : lo_http (nd_local n') = lo_http (nd_local n);
  cf_sent : exists cmds, lo_sent (nd_local n') = lo_sent (nd_local n) ++ cmds /\ Forall (own_command n origins) cmds;
  cf_cache : forall id, id ∉ h256_bytes <$> origins ->
    LocalCacheProps.loses (storages (lo_cache (nd_local n)) !! id) (storages (lo_cache (nd_local n')) !! id);
}.

Lemma confined_refl origins n : confined origins n n.
Proof.
  split; [by destruct n|done|exists []; by rewrite app_nil_r|]. intros id _. apply LocalCacheProps.loses_refl.
Qed.

Lemma confined_trans origins n1 n2 n3 : confined origins n1 n2 -> confined origins n2 n3 -> confined origins n1 n3.
Proof.
  intros [R1 H1 (l1 & S1 & F1) C1] [R2 H2 (l2 & S2 & F2) C2].
  split; [rewrite R2, R1; done|congruence| |].
  - exists (l1 ++ l2). rewrite S2, S1, app_assoc. split; [done|]. apply Forall_app. split; [done|].
    by rewrite R1 in F2.
  - intros id Hid. eapply LocalCacheProps.loses_trans; [by apply C1|by apply C2].
Qed.

Lemma confined_mono o1 o2 n n' : o1 ⊆ o2 -> confined o1 n n' -> confined o2 n n'.
Proof.
  intros Ho [HR HH (l & HS & HF) HC]. split; [done|done| |].
  - exists l. split; [done|]. eapply Forall_impl; [exact HF|]. intros cmd (id & c & info & Hid & H). exists id, c, info. split; [by apply Ho|done].
  - intros id Hid. apply HC. intros [x [-> Hx]]%list_elem_of_fmap. apply Hid, list_elem_of_fmap. exists x. split; [done|]. by apply Ho.
Qed.

(** Not the system contract of the deployed cluster *)
Definition unprivileged n (origin : Z) : Prop :=
  exists cl rt, nd_cluster n = Some cl /\ get_runtime (runtime_version (cl_config cl)) = Some rt
    /\ pr_system_contract rt (cl_storage cl) <> Some origin.

Lemma ensure_system_skips n origin k : unprivileged n origin -> Cluster.ensure_system origin k n = Ok tt n.
Proof.
  intros (cl & rt & Hcl & Hrt & Hsys). unfold Cluster.ensure_system, Cluster.system_contract, Cluster.the_runtime, mbind, gets, mret, expect_some.
  rewrite Hcl. simpl. rewrite Hrt. simpl. rewrite bool_decide_eq_false_2; [done|]. congruence.
Qed.

(** A message of a contract to its own side program *)
Lemma push_confined n origin cmd : match cmd with Stop | PushMessage _ => True | _ => False end ->
  match Cluster.with_contract origin (fun c => Cluster.ignore (Cluster.push_message_to_sidevm c cmd)) n with
  | Ok _ n' => confined [origin] n n'
  | Panic => True
  | Err _ _ | NoFuel => False
  end.
Proof.
  intros Hcmd. unfold Cluster.with_contract, Cluster.get_contract, Cluster.ignore, Cluster.push_message_to_sidevm, Cluster.handle_of,
    mbind, gets, mret, expect_some.
  destruct (nd_contracts n !! origin) as [c|] eqn:Hc; [|apply confined_refl].
  destruct (ct_sidevm_info c) as [info|] eqn:Hi; [|apply confined_refl].
  destruct (nd_handles n !! si_handle info) as [h|] eqn:Hh; [|done].
  destruct h as [tx|reason]; simpl; [|apply confined_refl].
  split; simpl; [done|done| |].
  - exists [(tx, cmd)]. split; [done|]. constructor; [|done]. exists origin, c, info. split; [set_solver|]. done.
  - intros. apply LocalCacheProps.loses_refl.
Qed.

Lemma now_run (l : Local W) :
  OCall.cache_now (E := SysError) l = Panic \/ exists t w, OCall.cache_now (E := SysError) l = Ok t (OCall.set_world w l).
Proof.
  unfold OCall.cache_now, OCall.outside, mbind, expect_some, mret. destruct (os_clock (lo_world l)) as [[t|] w]; [right; eauto|by left].
Qed.

Lemma readings_run (l : Local W) :
  OCall.three_readings (E := SysError) l = Panic \/ exists c w, OCall.three_readings (E := SysError) l = Ok c (OCall.set_world w l).
Proof.
  unfold OCall.three_readings, mbind, mret. destruct (now_run l) as [E|(t1 & w1 & E)]; rewrite E; [by left|].
  destruct (now_run (OCall.set_world w1 l)) as [E2|(t2 & w2 & E2)]; rewrite E2; [by left|].
  destruct (now_run (OCall.set_world w2 (OCall.set_world w1 l))) as [E3|(t3 & w3 & E3)]; rewrite E3; [by left|].
  right. by eexists _, w3.
Qed.

Lemma cache_confined n origin op :
  match (let* clock := Cluster.on_local OCall.three_readings in
         Cluster.ignore (Cluster.on_local (OCall.on_cache (Cache.apply_cache_op clock (h256_bytes origin) op)))) n with
  | Ok _ n' => confined [origin] n n'
  | Panic => True
  | Err _ _ | NoFuel => False
  end.
Proof.
  unfold mbind at 1, Cluster.on_local at 1, Cluster.lens at 1.
  destruct (readings_run (nd_local n)) as [E|(clock & w & E)]; rewrite E; [done|].
  unfold Cluster.ignore, Cluster.on_local, Cluster.lens, OCall.on_cache, mbind. simpl.
  pose proof (LocalCacheProps.preserves_cache_op clock (h256_bytes origin) op (lo_cache (nd_local n)) (lo_cache (nd_local n))) as Hp.
  pose proof (LocalCacheProps.halts_cache_op clock (h256_bytes origin) op (lo_cache (nd_local n))) as Hh.
  assert (LocalCacheProps.kept_by (h256_bytes origin) (lo_cache (nd_local n)) (lo_cache (nd_local n))) as Hk.
  { intros j _. apply LocalCacheProps.loses_refl. }
  specialize (Hp Hk). unfold wp in Hp.
  destruct (Cache.apply_cache_op _ _ _ _); simpl; try done; (split; simpl; [done|done|exists []; by rewrite app_nil_r|]);
    intros id Hid; apply Hp; set_solver.
Qed.

Lemma event_confined cx n origin event : unprivileged n origin ->
  match Cluster.apply_pink_event cx origin event n with
  | Ok _ n' => confined [origin] n n'
  | Panic => True
  | Err _ _ | NoFuel => False
  end.
Proof.
  intros Hu. unfold Cluster.apply_pink_event.
  destruct event as [[]| | | | | | | | |[]|]; rewrite ?ensure_system_skips by done; try apply confined_refl;
    first [by apply push_confined|apply cache_confined].
Qed.

Lemma events_confined cx events : forall n, Forall (unprivileged n) events.*1 ->
  match Cluster.apply_pink_events cx events n with
  | Ok _ n' => confined events.*1 n n'
  | Panic => True
  | Err _ _ | NoFuel => False
  end.
Proof.
  unfold Cluster.apply_pink_events. induction events as [|[origin event] events IH]; intros n Hu; [apply confined_refl|].
  inversion Hu as [|? ? Ho Hrest]. subst. cbn [for_each fmap list_fmap fst]. unfold mbind.
  pose proof (event_confined cx n origin event Ho) as He. simpl.
  destruct (Cluster.apply_pink_event cx origin event n) as [[] n'| | |]; try done.
  assert (Forall (unprivileged n') events.*1) as Hu'.
  { eapply Forall_impl; [exact Hrest|]. intros x. rewrite (cf_rest _ _ _ He). done. }
  specialize (IH n' Hu'). destruct (for_each events _ n') as [[] n''| | |]; try done.
  eapply confined_trans; (eapply confined_mono; [|done]); set_solver.
Qed.

End Privileges.
(** ** Commands *)

(** What the host relies on: a call of the runtime ends. *)
Class EndingRuntimes {S W : Type} (RT : Runtimes S W) := {
  ecall_ends : forall v rt cx e, get_runtime v = Some rt -> halts (pr_ecall rt cx e);
}.

Section Commands.
Context {prof : Profile} {cfg : Config} {codec : Codec} {ccodec : ClusterCodec} {P : PrCrypto}.
Context {S W : Type} {RT : Runtimes S W} {ER : EndingRuntimes RT} {Out : Outside W}.
Implicit Types n : Node S W.
Abbreviation N := (M (Node S W) SysError).

(** A channel with both ends *)
Definition alive (b : Bus) (k : nat) : Prop := exists ch, chans b !! k = Some ch /\ sender_count ch <> 0 /\ receiver_count ch <> 0.

(** Every contract has a channel, and the dispatcher a sender of it. *)
Definition wired n : Prop := forall id c, nd_contracts n !! id = Some c -> alive (nd_bus n) (ct_cmd_rcv_mq c).

(** Channels lose commands but no ends, and contracts keep their channels; a new contract
    has a new one. *)
Record steady n n' : Prop := {
  st_chans : forall k ch, chans (nd_bus n) !! k = Some ch ->
    exists ch', chans (nd_bus n') !! k = Some ch' /\ (exists l, deque ch = l ++ deque ch')
      /\ sender_count ch' = sender_count ch /\ receiver_count ch' = receiver_count ch;
  st_contracts : forall id c, nd_contracts n !! id = Some c ->
    exists c', nd_contracts n' !! id = Some c' /\ ct_cmd_rcv_mq c' = ct_cmd_rcv_mq c;
  st_new : forall id c', nd_contracts n' !! id = Some c' ->
    (exists c, nd_contracts n !! id = Some c /\ ct_cmd_rcv_mq c' = ct_cmd_rcv_mq c)
    \/ ((length (chans (nd_bus n)) <= ct_cmd_rcv_mq c')%nat /\ alive (nd_bus n') (ct_cmd_rcv_mq c'));
  st_backlog : (Cluster.backlog (nd_bus n') <= Cluster.backlog (nd_bus n))%nat;
  st_cluster : is_Some (nd_cluster n) -> is_Some (nd_cluster n');
  st_rx : nd_rx n' = nd_rx n /\ nd_gk_rx n' = nd_gk_rx n;
}.

Lemma steady_alive n n' k : steady n n' -> alive (nd_bus n) k -> alive (nd_bus n') k.
Proof.
  intros Hs (ch & Hk & H1 & H2). destruct (st_chans _ _ Hs k ch Hk) as (ch' & Hk' & _ & E1 & E2). exists ch'.
  rewrite E1, E2. done.
Qed.

Lemma steady_length n n' : steady n n' -> (length (chans (nd_bus n)) <= length (chans (nd_bus n')))%nat.
Proof.
  intros Hs. destruct (decide (length (chans (nd_bus n)) = 0)%nat) as [|Hl]; [lia|].
  destruct (lookup_lt_is_Some_2 (chans (nd_bus n)) (length (chans (nd_bus n)) - 1)) as [ch Hk]; [lia|].
  destruct (st_chans _ _ Hs _ _ Hk) as (ch' & Hk' & _). apply lookup_lt_Some in Hk'. lia.
Qed.

Lemma st_wired n n' : steady n n' -> wired n -> wired n'.
Proof.
  intros Hs Hw id c' Hc'. destruct (st_new _ _ Hs id c' Hc') as [(c & Hc & ->)|[_ ?]]; [|done].
  apply (steady_alive _ _ _ Hs). by apply (Hw id).
Qed.

#[global] Instance steady_preorder : PreOrder steady.
Proof.
  split.
  - intros n. split; [| |by eauto|done|done|done]; [|by eauto]. intros k ch H. exists ch. split; [done|]. split; [by exists []|done].
  - intros n1 n2 n3 H12 H23. pose proof H12 as [H1 C1 N1 B1 L1 [R1 G1]]. pose proof H23 as [H2 C2 N2 B2 L2 [R2 G2]].
    split; [| | |lia|auto|split; congruence].
    + intros k ch H. destruct (H1 k ch H) as (ch' & Hk' & [l1 E1] & Hs1 & Hr1). destruct (H2 k ch' Hk') as (ch'' & Hk'' & [l2 E2] & Hs2 & Hr2).
      exists ch''. split; [done|]. split; [exists (l1 ++ l2); by rewrite E1, E2, app_assoc|split; congruence].
    + intros id c H. destruct (C1 id c H) as (c' & H' & E1). destruct (C2 id c' H') as (c'' & H'' & E2). exists c''. split; [done|congruence].
    + intros id c'' H''. destruct (N2 id c'' H'') as [(c' & H' & E2)|[Hl Ha]].
      * rewrite E2. destruct (N1 id c' H') as [(c & H & E1)|[Hl Ha]]; [left; by exists c|right].
        split; [done|]. by apply (steady_alive _ _ _ H23).
      * right. split; [|done]. pose proof (steady_length _ _ H12). lia.
Qed.

Abbreviation calm := (moves (E := SysError) steady).

(** Steps that leave contracts, cluster and bus alone *)
Lemma steady_rest n n' : nd_contracts n' = nd_contracts n -> nd_bus n' = nd_bus n -> (is_Some (nd_cluster n) -> is_Some (nd_cluster n')) ->
  nd_rx n' = nd_rx n /\ nd_gk_rx n' = nd_gk_rx n -> steady n n'.
Proof.
  intros Hc Hb Hl Hr. split; rewrite ?Hc, ?Hb; [|by eauto|by eauto|done|done|done].
  intros k ch H. exists ch. split; [done|]. split; [by exists []|done].
Qed.

Lemma calm_local {A} (m : M (Local W) SysError A) : halts m -> calm (Cluster.on_local m).
Proof.
  intros Hm n. specialize (Hm (nd_local n)). unfold Cluster.on_local, Cluster.lens. destruct (m (nd_local n)); try done; by apply steady_rest.
Qed.

Lemma calm_queue {A} (m : M (gmap MessageOrigin Channel) SysError A) : halts m -> calm (Cluster.on_queue m).
Proof.
  intros Hm n. specialize (Hm (queue (nd_sys n))). unfold Cluster.on_queue, Cluster.lens. destruct (m _); try done; by apply steady_rest.
Qed.

Lemma halts_outside {A} (f : W -> A * W) : halts (E := SysError) (OCall.outside f).
Proof. intros l. unfold OCall.outside. by destruct (f (lo_world l)). Qed.

Lemma halts_on_cache {A} (m : M LocalCache StorageQuotaExceeded A) : halts m -> halts (E := SysError) (OCall.on_cache (W := W) m).
Proof. intros Hm l. specialize (Hm (lo_cache l)). unfold OCall.on_cache. by destruct (m (lo_cache l)). Qed.

Hint Resolve halts_outside halts_on_cache LocalCacheProps.halts_cache_op LocalCacheProps.halts_apply_quotas : halts.
Hint Extern 1 (moves _ (Cluster.on_local _)) =>
  (apply calm_local; unfold OCall.three_readings, OCall.cache_now, OCall.try_send; solve_halts) : moves.

Lemma calm_modify_rest f : (forall n, nd_contracts (f n) = nd_contracts n /\ nd_bus (f n) = nd_bus n /\
  (is_Some (nd_cluster n) -> is_Some (nd_cluster (f n))) /\ nd_rx (f n) = nd_rx n /\ nd_gk_rx (f n) = nd_gk_rx n) -> calm (modify f).
Proof. intros Hf. apply moves_modify. intros n. destruct (Hf n) as (? & ? & ? & ?). by apply steady_rest. Qed.

(** A contract is changed, its channel is not. *)
Lemma calm_update id f : (forall c, ct_cmd_rcv_mq (f c) = ct_cmd_rcv_mq c) -> calm (Cluster.update_contract id f).
Proof.
  intros Hf. apply moves_modify. intros n. split; simpl; [| | |done|done|done].
  - intros k ch H. exists ch. split; [done|]. split; [by exists []|done].
  - intros i c H. destruct (decide (id = i)) as [->|]; [rewrite lookup_alter_eq, H|rewrite lookup_alter_ne, H by done]; simpl; eauto.
  - intros i c' H. left. destruct (decide (id = i)) as [->|]; [rewrite lookup_alter_eq in H|rewrite lookup_alter_ne in H by done; eauto].
    destruct (nd_contracts n !! i) as [c0|] eqn:Hc; [|done]. simpl in H. injection H as <-. exists c0. by rewrite Hf.
Qed.

Lemma calm_handles h : calm (modify (fun n => Cluster.set_handles (h (nd_handles n)) n)).
Proof. by apply calm_modify_rest. Qed.

Lemma calm_new_handle h : calm (Cluster.new_handle h).
Proof. unfold Cluster.new_handle. solve_moves. by apply calm_modify_rest. Qed.

Lemma calm_handle_of c : calm (Cluster.handle_of c).
Proof. unfold Cluster.handle_of. solve_moves. Qed.

Hint Resolve calm_handles calm_new_handle calm_handle_of : moves.

Lemma calm_start c code waiting config : calm (Cluster.start_sidevm c code waiting config).
Proof. unfold Cluster.start_sidevm, Cluster.do_start_sidevm. solve_moves; by apply calm_update. Qed.

Lemma calm_push c m : calm (Cluster.push_message_to_sidevm c m).
Proof. unfold Cluster.push_message_to_sidevm. solve_moves. Qed.

Lemma calm_handler : calm Cluster.get_system_message_handler.
Proof. unfold Cluster.get_system_message_handler. solve_moves. Qed.

Hint Resolve calm_start calm_push calm_handler : moves.

Lemma calm_ecall cl logger cx e : calm (Cluster.ecall cl logger cx e).
Proof.
  unfold Cluster.ecall, Cluster.the_runtime. destruct (get_runtime (runtime_version (cl_config cl))) as [rt|] eqn:Hrt; [|by intros n].
  intros n. unfold mbind, expect_some, mret. pose proof (ecall_ends _ _ (set_cx_handle logger (js_runtime (cl_config cl)) cx) e Hrt (cl_storage cl, nd_local n)) as Hh.
  destruct (pr_ecall _ _ _ _) as [[[out effects] b] [st l]|er [st l]| |]; try done; by apply steady_rest.
Qed.

Lemma calm_set_cluster cl : calm (modify (Cluster.set_cluster (Some cl))).
Proof. apply calm_modify_rest. intros n. simpl. eauto. Qed.

Lemma calm_map_cluster f : calm (modify (fun n => Cluster.set_cluster (f <$> nd_cluster n) n)).
Proof. apply calm_modify_rest. intros n. simpl. split_and!; [done|done| |done|done]. intros [cl ->]. eauto. Qed.

Hint Resolve calm_ecall calm_set_cluster calm_map_cluster : moves.

Lemma calm_cluster_ecall logger cx e : calm (Cluster.cluster_ecall logger cx e).
Proof. unfold Cluster.cluster_ecall. solve_moves. Qed.

Lemma calm_runtime cl : calm (Cluster.the_runtime cl).
Proof. unfold Cluster.the_runtime. solve_moves. Qed.

Hint Resolve calm_cluster_ecall calm_runtime : moves.

Lemma calm_upgrade cx version : calm (Cluster.upgrade_runtime cx version).
Proof. unfold Cluster.upgrade_runtime. solve_moves. Qed.

Lemma calm_idle cx b : calm (Cluster.on_idle cx b).
Proof. unfold Cluster.on_idle. solve_moves. Qed.

Lemma calm_crypto {A} (m : M (Node S W) CryptoError A) : moves steady m -> calm (Gk.expect_crypto m).
Proof. intros Hm n. specialize (Hm n). unfold Gk.expect_crypto. by destruct (m n). Qed.

Lemma calm_system cl : calm (Cluster.system_contract cl).
Proof. unfold Cluster.system_contract. solve_moves. Qed.

Lemma calm_source h : calm (Cluster.sidevm_source h).
Proof. unfold Cluster.sidevm_source, Cluster.get_resource. solve_moves. Qed.

Hint Resolve calm_upgrade calm_idle calm_system calm_source : moves.

(** A new contract gets a channel of its own. *)
Lemma calm_install a key ecdh cl : calm (Cluster.install_contract a key ecdh cl).
Proof.
  intros n. unfold Cluster.install_contract, Cluster.get_contract, mbind at 1, gets at 1.
  destruct (nd_contracts n !! a) as [c|] eqn:Hc; [simpl; reflexivity|].
  cbv [mbind Cluster.on_bus Cluster.lens Dispatcher.subscribe Dispatcher.channel gets modify mret]. simpl.
  split; simpl; [| | | |done|done].
  - intros k ch H. exists ch. rewrite lookup_app_l by by eapply lookup_lt_Some. split; [done|]. split; [by exists []|done].
  - intros id c H. exists c. rewrite lookup_insert_ne; [done|congruence].
  - intros id c'. destruct (decide (a = id)) as [->|]; [rewrite lookup_insert_eq|rewrite lookup_insert_ne by done; eauto].
    intros [= <-]. right. simpl. split; [done|]. unfold alive. simpl. rewrite lookup_app_r, Nat.sub_diag by lia. by eexists.
  - unfold Cluster.backlog. simpl. rewrite sum_list_with_app. simpl. lia.
Qed.

Hint Resolve calm_install : moves.

Lemma halts_push ch data topic : halts (E := SysError) (SendQueue.push_data ch data topic).
Proof. unfold SendQueue.push_data, SendQueue.enqueue_message. solve_halts. Qed.

Lemma calm_instantiating events : calm (Cluster.apply_instantiating_events events).
Proof.
  unfold Cluster.apply_instantiating_events, Cluster.cluster_key, Cluster.get_contract_key. solve_moves.
  - apply calm_crypto. unfold Crypto.restore_from_secret_key. solve_moves.
  - apply calm_crypto. unfold Crypto.derive_sr25519_pair, ok_or. solve_moves.
  - apply calm_crypto. unfold Crypto.derive_ecdh_key, Ecdh.from_secret, ok_or. solve_moves.
  - apply calm_queue, halts_push.
Qed.

Lemma calm_event cx origin event : calm (Cluster.apply_pink_event cx origin event).
Proof.
  unfold Cluster.apply_pink_event, Cluster.ensure_system, Cluster.with_contract, Cluster.get_contract, Cluster.ignore, Cluster.set_weight,
    Cluster.set_config.
  solve_moves; first [by apply calm_update|by apply calm_modify_rest|apply calm_map_cluster].
Qed.

Lemma calm_result cx block r logger : calm (Cluster.handle_contract_command_result cx block r logger).
Proof.
  unfold Cluster.handle_contract_command_result, Cluster.apply_pink_side_effects, Cluster.apply_pink_events, Cluster.apply_ink_side_effects.
  pose proof calm_instantiating. pose proof calm_event. solve_moves.
Qed.

Lemma halts_decrypt key iv pk data : halts (S := unit) (Cluster.decrypt_data key iv pk data).
Proof. unfold Cluster.decrypt_data, Ecdh.agree, Aead.decrypt, Aead.load_key. solve_halts. Qed.

Lemma calm_peel key msg : calm (Cluster.peel key msg).
Proof.
  unfold Cluster.peel. solve_moves. intros n. pose proof (halts_decrypt key iv pubkey data tt).
  destruct (Cluster.decrypt_data _ _ _ _ _); try done; simpl; reflexivity.
Qed.

Lemma calm_command cx block logger id origin cmd : calm (Cluster.handle_command cx block logger id origin cmd).
Proof. unfold Cluster.handle_command, Cluster.head4. solve_moves. Qed.

Lemma calm_message cx block logger c msg : calm (Cluster.handle_message cx block logger c msg).
Proof. unfold Cluster.handle_message. pose proof calm_peel. pose proof calm_command. solve_moves. Qed.

(** [n] without the first command of a channel *)
Definition popped (k : nat) (ch : Chan) (rest : list (Z * Message)) n : Node S W :=
  Cluster.set_bus (Dispatcher.set_chans (<[k := with_deque rest ch]> (chans (nd_bus n))) (nd_bus n)) n.

Lemma backlog_popped k ch v rest b : chans b !! k = Some ch -> deque ch = v :: rest ->
  Datatypes.S (Cluster.backlog (Dispatcher.set_chans (<[k := with_deque rest ch]> (chans b)) b)) = Cluster.backlog b.
Proof.
  intros Hk Hd. unfold Cluster.backlog. simpl. apply list_elem_of_split_length in Hk as (l1 & l2 & E & El). rewrite E.
  rewrite insert_app_r_alt, El, Nat.sub_diag by lia. rewrite !sum_list_with_app. simpl. rewrite Hd. simpl. lia.
Qed.

Lemma steady_popped k ch v rest n : chans (nd_bus n) !! k = Some ch -> deque ch = v :: rest -> steady n (popped k ch rest n).
Proof.
  intros Hk Hd. split; [|eauto|eauto| |done|done].
  - intros k' ch' H. unfold popped. simpl. destruct (decide (k = k')) as [->|].
    + rewrite list_lookup_insert_eq by by eapply lookup_lt_Some. rewrite Hk in H. injection H as <-.
      eexists. split; [reflexivity|]. split; [by exists [v]|done].
    + rewrite list_lookup_insert_ne by done. exists ch'. split; [done|]. split; [by exists []|done].
  - pose proof (backlog_popped _ _ _ _ _ Hk Hd). unfold popped. cbn [nd_bus Cluster.set_bus]. lia.
Qed.

Lemma next_command_run cx block logger c n ch : chans (nd_bus n) !! ct_cmd_rcv_mq c = Some ch -> sender_count ch <> 0 ->
  match Cluster.process_next_command cx block logger c n with
  | Ok None n' => n' = n /\ deque ch = []
  | Ok (Some _) n' => exists v rest, deque ch = v :: rest /\ steady (popped (ct_cmd_rcv_mq c) ch rest n) n'
  | Err _ n' => steady n n'
  | Panic => True
  | NoFuel => False
  end.
Proof.
  intros Hk Hs. unfold Cluster.process_next_command, mbind at 1, Cluster.on_bus, Cluster.lens, Dispatcher.try_next, mbind at 1.
  unfold Dispatcher.get_chan, mbind at 1, gets at 1, expect_some at 1. rewrite Hk. unfold mret at 1.
  destruct (deque ch) as [|v rest] eqn:Hd.
  - apply Z.eqb_neq in Hs. rewrite Hs. unfold mret. split; [|done]. by destruct n.
  - unfold Dispatcher.put_chan, mbind at 1, modify at 1. unfold mret at 1. destruct v as [ix msg].
    change (Cluster.set_bus (Dispatcher.set_chans (<[ct_cmd_rcv_mq c:=with_deque rest ch]> (chans (nd_bus n))) (nd_bus n)) n)
      with (popped (ct_cmd_rcv_mq c) ch rest n).
    pose proof (calm_message cx block logger c msg (popped (ct_cmd_rcv_mq c) ch rest n)) as Hm. unfold mbind, mret.
    destruct (Cluster.handle_message _ _ _ _ _ _); try done; [eauto|]. etrans; [by eapply steady_popped|done].
Qed.

Lemma handler_reads n :
  Cluster.get_system_message_handler n = Panic \/ exists logger, Cluster.get_system_message_handler n = Ok logger n.
Proof.
  unfold Cluster.get_system_message_handler, Cluster.handle_of, mbind, gets, mret, expect_some.
  destruct (nd_cluster n) as [cl|]; [|eauto]. destruct (log_handler (cl_config cl)) as [id|]; [|eauto].
  destruct (nd_contracts n !! id) as [c|]; [|eauto]. destruct (ct_sidevm_info c) as [info|]; [|eauto].
  destruct (nd_handles n !! si_handle info); [|by left]. eauto.
Qed.

(** With enough turns the loop ends, and unless there is no cluster no command is left. *)
Lemma commands_run fuel cx block id : forall n c ch, wired n -> nd_contracts n !! id = Some c ->
  chans (nd_bus n) !! ct_cmd_rcv_mq c = Some ch -> (length (deque ch) < fuel)%nat ->
  match Cluster.process_commands fuel cx block id n with
  | Ok gone n' => steady n n' /\ (gone = true -> nd_cluster n = None)
      /\ (gone = false -> exists ch', chans (nd_bus n') !! ct_cmd_rcv_mq c = Some ch' /\ deque ch' = [])
  | Err _ n' => steady n n'
  | Panic => True
  | NoFuel => False
  end.
Proof.
  induction fuel as [|fuel IH]; intros n c ch Hw Hc Hk Hf; [lia|]. cbn [Cluster.process_commands]. unfold mbind at 1.
  destruct (handler_reads n) as [Eh|[logger Eh]]; rewrite Eh; [done|].
  unfold mbind at 1, gets at 1. destruct (nd_cluster n) as [cl|] eqn:Hcl; [|by split].
  unfold mbind at 1, Cluster.get_contract, gets at 1. rewrite Hc.
  destruct (Hw id c Hc) as (ch0 & Hk0 & Hs & _). rewrite Hk in Hk0. injection Hk0 as <-.
  pose proof (next_command_run cx block logger c n ch Hk Hs) as Hn. unfold mbind at 1.
  destruct (Cluster.process_next_command cx block logger c n) as [[r|] n2|e n2| |]; try done.
  2: { destruct Hn as [-> Hd]. simpl. split; [reflexivity|]. split; [done|]. intros _. by exists ch. }
  destruct Hn as (v & rest & Hd & Hn). pose proof (steady_popped _ _ _ _ _ Hk Hd) as Hp.
  unfold mbind at 1. pose proof (calm_result cx block r logger n2) as Hr.
  destruct (Cluster.handle_contract_command_result cx block r logger n2) as [[] n3|e n3| |]; try done; [|by do 2 (etrans; [done|])].
  assert (steady (popped (ct_cmd_rcv_mq c) ch rest n) n3) as H3 by by etrans.
  assert (steady n n3) as H13 by by etrans.
  destruct (st_contracts _ _ H13 id c Hc) as (c' & Hc' & Ek).
  destruct (st_chans _ _ H3 (ct_cmd_rcv_mq c) (with_deque rest ch)) as (ch' & Hk' & [l El] & _).
  { unfold popped. simpl. apply list_lookup_insert_eq. by eapply lookup_lt_Some. }
  specialize (IH n3 c' ch' (st_wired _ _ H13 Hw) Hc' ltac:(by rewrite Ek)). simpl in El. rewrite Hd in Hf. simpl in Hf.
  assert (length (deque ch') < fuel)%nat as Hlen by (rewrite El, length_app in Hf; lia). specialize (IH Hlen). rewrite Ek in IH.
  destruct (Cluster.process_commands fuel cx block id n3) as [gone n4|e n4| |]; try done; [|by etrans].
  destruct IH as (H4 & Hg & He). split; [by etrans|]. split; [|done]. intros Hgone. specialize (Hg Hgone).
  destruct (st_cluster _ _ H13) as [cl' E']; [by rewrite Hcl|]. congruence.
Qed.

(** No command waits for a contract of [ids]. *)
Definition drained (ids : list Z) n n' : Prop := forall id c, id ∈ ids -> nd_contracts n !! id = Some c ->
  exists ch, chans (nd_bus n') !! ct_cmd_rcv_mq c = Some ch /\ deque ch = [].

Lemma drained_steady ids n n' n'' : drained ids n n' -> steady n' n'' -> drained ids n n''.
Proof.
  intros Hd Hs id c Hid Hc. destruct (Hd id c Hid Hc) as (ch & Hk & He). destruct (st_chans _ _ Hs _ _ Hk) as (ch' & Hk' & [l El] & _).
  exists ch'. split; [done|]. rewrite He in El. symmetry in El. by apply app_eq_nil in El as [_ ?].
Qed.

Lemma all_commands_run cx block ids : forall n, wired n -> is_Some (nd_cluster n) -> (forall id, id ∈ ids -> is_Some (nd_contracts n !! id)) ->
  match Cluster.process_all_commands cx block ids n with
  | Ok gone n' => gone = false /\ steady n n' /\ drained ids n n'
  | Err _ n' => steady n n'
  | Panic => True
  | NoFuel => False
  end.
Proof.
  induction ids as [|id ids IH]; intros n Hw Hcl Hids; [simpl; split; [done|]; split; [reflexivity|]; by intros id c ?%elem_of_nil|].
  destruct (Hids id) as [c Hc]; [set_solver|]. destruct (Hw id c Hc) as (ch & Hk & Hs & _).
  cbn [Cluster.process_all_commands]. unfold mbind at 1, gets at 1, Cluster.commands_waiting. rewrite Hc, Hk. unfold mbind at 1.
  pose proof (commands_run (Datatypes.S (length (deque ch))) cx block id n c ch Hw Hc Hk ltac:(lia)) as Hr.
  destruct (Cluster.process_commands _ cx block id n) as [gone n1|e n1| |]; try done.
  destruct Hr as (H1 & Hg & He). destruct gone; [specialize (Hg eq_refl); rewrite Hg in Hcl; by destruct Hcl|].
  assert (forall i, i ∈ ids -> is_Some (nd_contracts n1 !! i)) as Hids1.
  { intros i Hi. destruct (Hids i) as [ci Hci]; [set_solver|]. destruct (st_contracts _ _ H1 i ci Hci) as (c' & Hc' & _). by exists c'. }
  specialize (IH n1 (st_wired _ _ H1 Hw) (st_cluster _ _ H1 Hcl) Hids1).
  destruct (Cluster.process_all_commands cx block ids n1) as [gone n2|e n2| |]; try done; [|by etrans].
  destruct IH as (-> & H2 & Hd). split; [done|]. split; [by etrans|]. intros i ci [->|Hi]%elem_of_cons Hci.
  - rewrite Hc in Hci. injection Hci as <-. assert (drained [id] n n1) as Hd1.
    { intros j cj Hj%list_elem_of_singleton Hcj. subst j. rewrite Hc in Hcj. injection Hcj as <-. by apply He. }
    apply (drained_steady _ _ _ _ Hd1 H2 id); [set_solver|done].
  - destruct (st_contracts _ _ H1 i ci Hci) as (c' & Hc' & <-). by apply (Hd i).
Qed.

Lemma messages_run cx block n : wired n -> is_Some (nd_cluster n) ->
  match Cluster.process_contract_messages cx block n with
  | Ok _ n' => steady n n' /\ drained (Cluster.contract_ids n) n n'
  | Err _ n' => steady n n'
  | Panic => True
  | NoFuel => False
  end.
Proof.
  intros Hw Hcl. unfold Cluster.process_contract_messages, mbind at 1, gets at 1. unfold mbind at 1.
  assert (forall id, id ∈ Cluster.contract_ids n -> is_Some (nd_contracts n !! id)) as Hids.
  { intros id. unfold Cluster.contract_ids. rewrite merge_sort_Permutation. intros [[i c] [-> Hi]]%list_elem_of_fmap.
    apply elem_of_map_to_list in Hi. by exists c. }
  pose proof (all_commands_run cx block _ n Hw Hcl Hids) as Hr.
  destruct (Cluster.process_all_commands cx block _ n) as [gone n1|e n1| |]; try done. destruct Hr as (-> & H1 & Hd).
  unfold mbind at 1, gets at 1. destruct (st_cluster _ _ H1 Hcl) as [cl Ecl]. rewrite Ecl.
  pose proof (calm_idle cx (block_number block) n1) as Hi. destruct (Cluster.on_idle _ _ n1) as [[] n2|e n2| |]; try done; [|by etrans].
  split; [by etrans|]. by eapply drained_steady.
Qed.

End Commands.
(** ** The runtime of Pink.v ends *)
Section Ends.
Context {prof : Profile} {cfg : Config} {codec : Codec} {P : PrCrypto}.
Context {Chain : Type} {lib : PinkLib Chain} {W : Type} {Out : Outside W}.
Abbreviation R := (M (Rt Chain W) SysError).

Lemma halts_ocall {A} (m : M (Local W) SysError A) : halts m -> halts (Pink.ocall (Chain := Chain) m).
Proof. intros Hm s. specialize (Hm (rt_local s)). unfold Pink.ocall. by destruct (m (rt_local s)). Qed.

Lemma halts_crypto {A} (m : M unit CryptoError A) : halts m -> halts (Pink.crypto m : R _).
Proof. intros Hm s. specialize (Hm tt). unfold Pink.crypto. by destruct (m tt). Qed.

Hint Resolve halts_outside halts_on_cache : halts.
Hint Extern 1 (halts (Pink.ocall _)) => (apply halts_ocall; solve_halts) : halts.
Hint Extern 1 (halts (Pink.crypto _)) => (apply halts_crypto; solve_halts) : halts.

Lemma halts_log cx a level msg : halts (OCall.log_to_server (W := W) cx a level msg : M _ SysError _).
Proof. unfold OCall.log_to_server, OCall.try_send. solve_halts. Qed.

Lemma halts_count a code : halts (OCall.count_http (W := W) a code : M _ SysError _).
Proof. unfold OCall.count_http, OCall.count_request, OCall.cache_now. solve_halts. Qed.

Lemma halts_cache_set clock id key val : halts (Cache.set clock id key val).
Proof.
  unfold Cache.set, Cache.set_value, Cache.remove_key, Cache.clear_expired_storage, Cache.shrink.
  pose proof LocalCacheProps.halts_maybe_clear. solve_halts. apply LocalCacheProps.halts_on_storage; solve_halts.
Qed.

Lemma halts_cache_expire clock id key e : halts (Cache.set_expire clock id key e).
Proof. exact (LocalCacheProps.halts_cache_op clock id (CacheSetExpiration key e)). Qed.

Hint Resolve halts_log halts_count halts_cache_set halts_cache_expire LocalCacheProps.halts_remove : halts.

Lemma halts_in_query cx backend address c : halts (Pink.call_in_query cx backend address c : R _).
Proof.
  destruct c; unfold Pink.call_in_query, Pink.ok, Pink.default_sign, Pink.derive_contract_key, Pink.code_exists_in, Pink.import_system_code,
    Pink.upload, Pink.state, Pink.upd, Pink.pink_error, OCall.http_request, OCall.batch_http_request, OCall.ext_http_request,
    OCall.ext_batch_http_request, OCall.cache_set, OCall.cache_set_expiration, OCall.cache_get,
    OCall.cache_remove, OCall.three_readings, OCall.cache_now, OCall.js_eval, OCall.worker_sgx_quote, OCall.latest_system_code,
    OCall.time_remaining_ms, Crypto.restore_from_secret_key, Crypto.derive_sr25519_pair; solve_halts.
Qed.

Lemma halts_extension cx backend ext address c : halts (Pink.call_extension cx backend ext address c : R _).
Proof.
  unfold Pink.call_extension, Pink.pink_error. pose proof (halts_in_query cx backend address) as Hq.
  destruct (negb _); [apply halts_ret|]. destruct (is_query _); [apply Hq|].
  unfold Pink.call_in_transaction, Pink.deposit_pink_event, Pink.upd. destruct c; try apply Hq; solve_halts.
Qed.

Lemma halts_run {A} cx backend (p : Prog Chain A) : halts (Pink.run cx backend p : R A).
Proof.
  induction p as [a|k IH|chain events p IH|ext address c k IH]; cbn [Pink.run]; unfold Pink.state, Pink.upd;
    [apply halts_ret|apply halts_bind; [apply halts_gets|exact IH]|apply halts_bind; [apply halts_modify|intros _; exact IH]|].
  apply halts_bind; [apply halts_extension|exact IH].
Qed.

Hint Resolve halts_run : halts.

Lemma halts_contract_tx {A} origin limit free (f : R (ContractResult A)) : halts f -> halts (Pink.contract_tx origin limit free f).
Proof.
  intros Hf. unfold Pink.contract_tx, Pink.pay_for_gas, Pink.refund_gas, Pink.pay, Pink.refund, Pink.transfer, Pink.state, Pink.upd. solve_halts.
Qed.

Lemma halts_coarse {A} mode (r : ContractResult A) : halts (Pink.coarse_if mode r : R _).
Proof.
  unfold Pink.coarse_if, coarse_grained, mask_gas, mask_deposit, mask_low_bits128, mask_low_bits64, mask_low_bits, Pink.state. solve_halts.
Qed.

Hint Resolve halts_contract_tx halts_coarse : halts.

Lemma halts_ecall cx e : halts (Pink.ecall cx e : R _).
Proof.
  unfold Pink.ecall, Pink.execute_mut, Pink.execute_with, Pink.dispatch, Pink.setup, Pink.contract_instantiate, Pink.contract_call,
    Pink.instantiate, Pink.bare_call, Pink.handle_deposit, Pink.deposit, Pink.set_key, Pink.upload_code, Pink.upload_sidevm_code,
    Pink.put_sidevm_code, Pink.upload, Pink.pay, Pink.transfer, Pink.log_debug, Pink.on_genesis, Pink.on_runtime_upgrade, Pink.on_idle,
    Pink.maybe_emit_system_event_block, Pink.take_next_event_block_number, Pink.state, Pink.upd.
  solve_halts.
Qed.

Lemma pink_runtime_ends cx e : halts (pr_ecall (pink_runtime (W := W)) cx e).
Proof. intros [st l]. simpl. pose proof (halts_ecall cx e (mkRt st l)). by destruct (Pink.ecall cx e _). Qed.

End Ends.

(** ** Messages that stop a worker *)
Section Stops.
Context {prof : Profile} {cfg : Config} {codec : Codec} {ccodec : ClusterCodec} {P : PrCrypto}.
Context {S W : Type} {RT : Runtimes S W} {Out : Outside W}.
Implicit Types n : Node S W.

(** A command of an account with less than a selector in it, or one that was encrypted
    with something that is not a point of the curve *)
Definition malformed (c : ContractState) (m : Message) : Prop :=
  (exists a raw nonce message transfer gas deposit, sender m = AccountIdOrigin a /\ decode_Payload (payload m) = Some (Plain raw)
     /\ decode_InkCommand raw = Some (InkMessage nonce message transfer gas deposit) /\ (length message < 4)%nat)
  \/ (exists iv pk data, decode_Payload (payload m) = Some (Encrypted iv pk data)
     /\ scalar_mul (take 32 (keypair_secret (ct_ecdh_key c))) pk = None).

Lemma malformed_panics cx block logger c m n : malformed c m -> Cluster.handle_message cx block logger c m n = Panic.
Proof.
  unfold Cluster.handle_message. intros [(a & raw & nonce & message & t & g & d & Hs & Hp & Hc & Hl)|(iv & pk & data & Hp & Hk)]; rewrite Hp.
  - unfold Cluster.peel, mbind at 1, mret at 1. rewrite Hc. unfold Cluster.handle_command. rewrite Hs. unfold mbind at 1, mret at 1.
    unfold mbind at 1, Cluster.head4. destruct (Nat.leb_spec 4 (length message)); [lia|done].
  - unfold mbind at 1, Cluster.peel, Cluster.decrypt_data, Ecdh.agree, mbind. by rewrite Hk.
Qed.

Lemma next_malformed fuel cx block id n c ch ix m rest : is_Some (nd_cluster n) -> nd_contracts n !! id = Some c ->
  chans (nd_bus n) !! ct_cmd_rcv_mq c = Some ch -> deque ch = (ix, m) :: rest -> malformed c m ->
  Cluster.process_commands (Datatypes.S fuel) cx block id n = Panic.
Proof.
  intros [cl Hcl] Hc Hk Hd Hm. cbn [Cluster.process_commands]. unfold mbind at 1.
  destruct (handler_reads n) as [Eh|[logger Eh]]; rewrite Eh; [done|].
  unfold mbind at 1, gets at 1. rewrite Hcl. unfold mbind at 1, Cluster.get_contract, gets at 1. rewrite Hc. unfold mbind at 1.
  unfold Cluster.process_next_command, mbind at 1, Cluster.on_bus, Cluster.lens, Dispatcher.try_next, mbind at 1, Dispatcher.get_chan,
    mbind at 1, gets at 1, expect_some at 1. rewrite Hk. unfold mret at 1. rewrite Hd.
  unfold Dispatcher.put_chan, mbind at 1, modify at 1, mret at 1. unfold mbind at 1. by rewrite malformed_panics.
Qed.

Lemma nothing_waits cx block id n c ch : is_Some (nd_cluster n) -> nd_contracts n !! id = Some c ->
  chans (nd_bus n) !! ct_cmd_rcv_mq c = Some ch -> deque ch = [] -> sender_count ch <> 0 ->
  Cluster.process_commands 1 cx block id n = Panic \/ Cluster.process_commands 1 cx block id n = Ok false n.
Proof.
  intros [cl Hcl] Hc Hk Hd Hs.
  destruct (handler_reads n) as [Eh|[logger Eh]]; [left|right]; cbn [Cluster.process_commands]; unfold mbind at 1; rewrite Eh; [done|].
  unfold mbind at 1, gets at 1. rewrite Hcl. unfold mbind at 1, Cluster.get_contract, gets at 1. rewrite Hc. unfold mbind at 1.
  unfold Cluster.process_next_command, mbind at 1, Cluster.on_bus, Cluster.lens, Dispatcher.try_next, mbind at 1, Dispatcher.get_chan,
    mbind at 1, gets at 1, expect_some at 1. rewrite Hk. unfold mret at 1. rewrite Hd. apply Z.eqb_neq in Hs. rewrite Hs.
  simpl. by destruct n as [? ? ? ? ? ? ? [] ? ?].
Qed.

Lemma malformed_stops cx block id n c ch ix m rest ids : is_Some (nd_cluster n) -> wired n -> id ∈ ids ->
  (forall j, j ∈ ids -> is_Some (nd_contracts n !! j)) ->
  nd_contracts n !! id = Some c -> chans (nd_bus n) !! ct_cmd_rcv_mq c = Some ch -> deque ch = (ix, m) :: rest -> malformed c m ->
  (forall j cj chj, j <> id -> nd_contracts n !! j = Some cj -> chans (nd_bus n) !! ct_cmd_rcv_mq cj = Some chj -> deque chj = []) ->
  Cluster.process_all_commands cx block ids n = Panic.
Proof.
  intros Hcl Hw Hin Hall Hc Hk Hd Hm Hothers. induction ids as [|j ids IH]; [set_solver|].
  cbn [Cluster.process_all_commands]. unfold mbind at 1, gets at 1, Cluster.commands_waiting.
  destruct (Hall j) as [cj Hcj]; [set_solver|]. destruct (Hw j cj Hcj) as (chj & Hkj & Hsj & _). rewrite Hcj, Hkj. unfold mbind at 1.
  destruct (decide (j = id)) as [->|Hj].
  - rewrite Hc in Hcj. injection Hcj as <-. by rewrite (next_malformed _ cx block id n c ch ix m rest Hcl Hc Hk Hd Hm).
  - rewrite (Hothers j cj chj Hj Hcj Hkj). simpl length.
    destruct (nothing_waits cx block j n cj chj Hcl Hcj Hkj (Hothers j cj chj Hj Hcj Hkj) Hsj) as [E|E]; rewrite E; [done|].
    apply IH; set_solver.
Qed.

End Stops.

(** ** Uploads that are refused *)
Section Uploads.
Context {prof : Profile} {cfg : Config} {codec : Codec} {ccodec : ClusterCodec} {P : PrCrypto}.
Context {S W : Type} {RT : Runtimes S W} {Out : Outside W}.
Implicit Types n : Node S W.

Definition send (tx : nat) (cmd : SidevmCommand) n : Node S W :=
  Cluster.set_local (OCall.set_sent (lo_sent (nd_local n) ++ [(tx, cmd)]) (nd_local n)) n.

Lemma upload_refused id code n c info tx : nd_contracts n !! id = Some c -> ct_sidevm_info c = Some info ->
  nd_handles n !! si_handle info = Some (HandleRunning tx) -> sys_block_number (nd_sys n) <= deadline (si_config info) ->
  Cluster.upload_sidevm_code id code n = Ok (inr (bytes_of_string "The sidevm isn't waiting for code")) (send tx Stop n).
Proof.
  intros Hc Hi Hh Hd. unfold Cluster.upload_sidevm_code, Cluster.get_contract, mbind at 1, gets at 1. rewrite Hc, Hi.
  unfold mbind at 1, gets at 1. destruct (Z.ltb_spec (deadline (si_config info)) (sys_block_number (nd_sys n))); [lia|].
  unfold Cluster.start_sidevm, Cluster.handle_of. rewrite Hi. unfold mbind, gets, expect_some, mret. rewrite Hh. done.
Qed.

(** A program that was told to stop is not started again. *)
Lemma stopped_stays c info block n : ct_sidevm_info c = Some info -> nd_handles n !! si_handle info = Some (HandleStopped PinkHost.Stopped) ->
  Cluster.restart_sidevm_if_needed c block n = Ok tt n.
Proof.
  intros Hi Hh. unfold Cluster.restart_sidevm_if_needed. rewrite Hi. unfold Cluster.handle_of. rewrite Hi.
  unfold mbind, gets, expect_some, mret. by rewrite Hh.
Qed.

End Uploads.

End ClusterSafety.

Import RefInstances PrInstances PinkInstances ClusterInstances.
Import ClusterSafety.

#[local] Instance ref_ending : EndingRuntimes ref_runtimes.
Proof.
  split. intros v rt cx e Hv. assert (rt = pink_runtime) as ->; [|apply pink_runtime_ends].
  revert Hv. simpl. unfold v1_runtime. repeat case_match; by intros [=].
Qed.



(** C23: The commands of a block are all processed.  When every contract of a worker has a
    live channel, the loop over its commands ends, whatever the contracts do meanwhile; when it
    returns, each contract is still there with its channel, no command waits for it, and
    every contract, new ones included, has a live channel again. *)
Theorem commands_are_processed {prof : Profile} {cfg : Config} {codec : Codec} {ccodec : ClusterCodec} {P : PrCrypto} {S W : Type}
    {RT : Runtimes S W} {ER : EndingRuntimes RT} {Out : Outside W} cx block (n : Node S W)
    (Hn : wired n) (Hcl : is_Some (nd_cluster n)) :
  match Cluster.process_contract_messages cx block n with
  | Ok _ n' =>
      wired n' /\ is_Some (nd_cluster n')
      /\ (forall id c, nd_contracts n !! id = Some c ->
           (exists c', nd_contracts n' !! id = Some c' /\ ct_cmd_rcv_mq c' = ct_cmd_rcv_mq c) /\ Cluster.commands_waiting n' id = 0%nat)
  | NoFuel => False
  | Panic | Err _ _ => True
  end.
Proof.
  pose proof (messages_run cx block n Hn Hcl) as H. destruct (Cluster.process_contract_messages cx block n) as [[] n'| | |]; try done.
  destruct H as [H Hd]. split; [by apply (st_wired _ _ H)|]. split; [by apply (st_cluster _ _ H)|].
  intros id c Hc. destruct (st_contracts _ _ H id c Hc) as (c' & Hc' & Ek). split; [eauto|].
  assert (id ∈ Cluster.contract_ids n) as Hid.
  { unfold Cluster.contract_ids. rewrite merge_sort_Permutation. apply list_elem_of_fmap. exists (id, c). split; [done|]. by apply elem_of_map_to_list. }
  destruct (Hd id c Hid Hc) as (ch & Hk & He). unfold Cluster.commands_waiting. by rewrite Hc', Ek, Hk, He.
Qed.

Lemma ref_wired k w info q : wired (ref_node k w info q).
Proof.
  intros id c Hc. simpl in Hc. apply lookup_singleton_Some in Hc as [<- <-]. by eexists.
Qed.

Lemma commands_are_processed_witness :
  let n := ref_node 1 5 None [(0, ref_command); (1, ref_command)] in
  exists n', Cluster.process_contract_messages (ref_ctx 1 Transaction 3) (mkBlockInfo 8 6000) n = Ok tt n'
    /\ Cluster.commands_waiting n 1007 = 2%nat /\ Cluster.commands_waiting n' 1007 = 0%nat.
Proof.
  intros n.
  pose proof (commands_are_processed (ref_ctx 1 Transaction 3) (mkBlockInfo 8 6000) n (ref_wired _ _ _ _) (ex_intro _ _ eq_refl)) as H.
  assert (match Cluster.process_contract_messages (ref_ctx 1 Transaction 3) (mkBlockInfo 8 6000) n with Ok _ _ => true | _ => false end = true) as O
    by (vm_compute; reflexivity).
  destruct (Cluster.process_contract_messages _ _ _) as [[] n'| | |]; [|discriminate O..]. destruct H as (_ & _ & H).
  exists n'. split; [reflexivity|]. split; [vm_compute; reflexivity|]. apply (H 1007 (ref_contract_state None)). reflexivity.
Defined.

(** C39: A malformed command of any account stops a worker.  When the first command of a
    contract is plain and its message is shorter than the four bytes of a selector, or
    is encrypted for a public key that is not a point of the curve, and no other contract has a
    command waiting, the worker panics while it processes the block; the code
    means to log such commands as errors. *)
Theorem malformed_command_stops_worker {prof : Profile} {cfg : Config} {codec : Codec} {ccodec : ClusterCodec} {P : PrCrypto}
    {S W : Type} {RT : Runtimes S W} {Out : Outside W} cx block (n : Node S W) id c ch ix m rest
    (Hcl : is_Some (nd_cluster n)) (Hn : wired n) (Hc : nd_contracts n !! id = Some c)
    (Hk : chans (nd_bus n) !! ct_cmd_rcv_mq c = Some ch) (Hd : deque ch = (ix, m) :: rest) (Hm : malformed c m)
    (Hothers : forall j cj chj, j <> id -> nd_contracts n !! j = Some cj -> chans (nd_bus n) !! ct_cmd_rcv_mq cj = Some chj -> deque chj = []) :
  Cluster.process_contract_messages cx block n = Panic.
Proof.
  unfold Cluster.process_contract_messages, mbind at 1, gets at 1. unfold mbind at 1.
  assert (forall j, j ∈ Cluster.contract_ids n <-> is_Some (nd_contracts n !! j)) as Hids.
  { intros j. unfold Cluster.contract_ids. rewrite merge_sort_Permutation, list_elem_of_fmap. split.
    - intros [[i d] [-> Hi]]. apply elem_of_map_to_list in Hi. by exists d.
    - intros [d Hj]. exists (j, d). split; [done|]. by apply elem_of_map_to_list. }
  rewrite (malformed_stops cx block id n c ch ix m rest); try done; [apply Hids; eauto|]. intros j. apply Hids.
Qed.

Lemma malformed_command_stops_worker_witness :
  Cluster.process_contract_messages (ref_ctx 1 Transaction 3) (mkBlockInfo 8 6000) (ref_node 1 5 None [(0, ref_short_command)]) = Panic.
Proof.
  apply (malformed_command_stops_worker (ref_ctx 1 Transaction 3) (mkBlockInfo 8 6000) (ref_node 1 5 None [(0, ref_short_command)]) 1007
    (ref_contract_state None) (mkChan [(0, ref_short_command)] 1 1) 0 ref_short_command []);
    [by eexists|apply ref_wired|reflexivity|reflexivity|reflexivity| |].
  - left. exists 300, [0; 1; 2], [9], [1; 2], 0, 1000, None. split; [reflexivity|]. split; [reflexivity|]. split; [reflexivity|]. simpl. lia.
  - intros j cj chj Hj Hc. simpl in Hc. apply lookup_singleton_Some in Hc as [E _]. congruence.
Defined.

(** A request that is refused stops a side program.  An upload of any code for a
    contract whose side program runs gets the error that the program is not waiting for
    code, and yet the program has been told to stop; once it has stopped, no block
    starts it again. *)
Theorem refused_upload_stops_sidevm {prof : Profile} {cfg : Config} {codec : Codec} {ccodec : ClusterCodec} {P : PrCrypto}
    {S W : Type} {RT : Runtimes S W} {Out : Outside W} (n : Node S W) id code c info tx
    (Hc : nd_contracts n !! id = Some c) (Hi : ct_sidevm_info c = Some info) (Hh : nd_handles n !! si_handle info = Some (HandleRunning tx))
    (Hd : sys_block_number (nd_sys n) <= deadline (si_config info)) :
  Cluster.upload_sidevm_code id code n = Ok (inr (bytes_of_string "The sidevm isn't waiting for code")) (send tx Stop n)
  /\ exists n', Cluster.sidevm_exited (si_handle info) PinkHost.Stopped (send tx Stop n) = Ok tt n'
       /\ forall block, Cluster.restart_sidevm_if_needed c block n' = Ok tt n'.
Proof.
  split; [by eapply upload_refused|]. eexists. split; [reflexivity|]. intros block. eapply stopped_stays; [exact Hi|].
  apply list_lookup_insert_eq. by eapply lookup_lt_Some.
Qed.

Lemma refused_upload_stops_sidevm_witness :
  exists n' e, Cluster.upload_sidevm_code 1007 [7; 7] (ref_node 1 5 (Some ref_sidevm) []) = Ok (inr e) n' /\ lo_sent (nd_local n') = [(0%nat, Stop)].
Proof.
  destruct (refused_upload_stops_sidevm (ref_node 1 5 (Some ref_sidevm) []) 1007 [7; 7] (ref_contract_state (Some ref_sidevm)) ref_sidevm 0)
    as [H _]; [reflexivity|reflexivity|reflexivity|vm_compute; discriminate|].
  eexists _, _. split; [exact H|reflexivity].
Defined.
