(* ===== verification/Node.v ===== *)
(** * A block on a worker: [System] of crates/phactory/src/system/mod.rs

    The receivers of [System] and the order in which a block runs its handlers: the
    worker's state machine and its gatekeeper (System.v), and its contracts
    (Cluster.v).  [process_block] is the loop of [handle_inbound_messages] in
    crates/phactory/src/prpc_service.rs. *)
From stdpp Require Import prelude gmap list strings.
From Stdlib Require Import ZArith Lia.
From S2P Require Import Prelude Types Externals Registry Phat SendQueue Dispatcher Benchmark WorkerSM Crypto Tokenomic Economics GatekeeperPr System LocalCache PinkTypes PinkHost Pink Cluster.

(** What a block brings along: the chain's state, the context of its transactions, and the
    key that [new_sr25519_key] would make *)
Record BlockEnv {P : PrCrypto} := mkBlockEnv {
  be_block : BlockInfo;
  be_chain : ChainView;
  be_pink : PinkChain;
  be_new_key : Pair;
  be_cx : CallCtx;
}.

Module Node.
Section Node.
Context {prof : Profile} {cfg : Config} {codec : Codec} {prcodec : PrCodec} {gkcodec : GkCodec} {ccodec : ClusterCodec}.
Context {P : PrCrypto} {F : FixedLib} {SL : SealLib}.
Context {S W : Type} {RT : Runtimes S W} {Out : Outside W}.
Abbreviation N := (M (Node S W) SysError).

(** ** Start *)
Definition set_rx (x : list nat) (n : Node S W) : Node S W :=
  mkNode (nd_sys n) (nd_dev_mode n) (nd_contracts n) (nd_weight_changed n) (nd_cluster n) (nd_handles n) (nd_local n) (nd_bus n) x (nd_gk_rx n).

(** The topics [System] subscribes to, in this order *)
Definition system_topics : list Topic :=
  [SystemEvent_topic; GatekeeperLaunch_topic; GatekeeperChange_topic; KeyDistribution_topic; ClusterOperation_topic; ContractOperation_topic].

(** [System::new], on the queue, the bus and the local state of [n] *)
Definition new (key : Pair) (f : MasterKey.Files) (dev_mode : bool) : N unit :=
  modify (fun n => mkNode (Sys.set_queue (queue (nd_sys n)) (Sys.new key f)) dev_mode ∅ false None [] (nd_local n) (nd_bus n) [] []);;;
  for_each system_topics (fun t =>
    let* r := Cluster.on_bus (Dispatcher.subscribe t) in
    modify (fun n => set_rx (nd_rx n ++ [rx_chan r]) n)).

(** ** The worker and its gatekeeper *)

(** The lengths that the worker's state machine reports are those of the fields. *)
Definition set_counts (clusters contracts : Z) (s : SystemState) : SystemState :=
  mkSystemState _ (egress s) (identity_key s) (worker_state s) (gatekeeper s) (sys_block_number s) (sys_now_ms s) (genesis_block s)
    clusters contracts (queue s) (bench s) (files s).

Definition n_clusters_of (n : Node S W) : Z := match nd_cluster n with Some _ => 1 | None => 0 end.

Definition count : N unit :=
  modify (fun n => Cluster.set_sys (set_counts (n_clusters_of n) (Z.of_nat (size (nd_contracts n))) (nd_sys n)) n).

Definition on_sys {A} (m : M SystemState SysError A) : N A :=
  count;;;
  Cluster.on_sys m.

(** The topics of [Gatekeeper::new] and of its [ComputingEconomics::new] *)
Definition gatekeeper_topics : list Topic :=
  [GatekeeperEvent_topic; ClusterEvent_topic; WorkingReportEvent_topic; SystemEvent_topic; GatekeeperEvent_topic].

(** The receivers of the gatekeeper live as long as it does. *)
Definition follow_gatekeeper (before : bool) : N unit :=
  let* n := gets (fun n => n) in
  match before, gatekeeper (nd_sys n) with
  | false, Some _ =>
      for_each gatekeeper_topics (fun t =>
        let* r := Cluster.on_bus (Dispatcher.subscribe t) in
        modify (fun n => Cluster.set_gk_rx (nd_gk_rx n ++ [r]) n))
  | true, None =>
      for_each (nd_gk_rx n) (fun r => Cluster.on_bus (Dispatcher.drop_receiver (rx_chan r)));;;
      modify (Cluster.set_gk_rx [])
  | _, _ => mret tt
  end.

(** A handler after which there may be a gatekeeper, or none *)
Definition on_sys_gk (m : M SystemState SysError unit) : N unit :=
  let* before := gets (fun n => bool_decide (is_Some (gatekeeper (nd_sys n)))) in
  let* r := catch (on_sys m) in
  follow_gatekeeper before;;;
  match r with inl _ => mret tt | inr e => fail e end.

(** ** Messages *)
Definition arm (e : BlockEnv) (k : nat) : (Z * Message) + ReceiveError -> N unit :=
  match k with
  | 0%nat => Dispatcher.typed_arm decode_SystemEvent (Dispatcher.ignore_errors (fun event origin =>
      if negb (is_pallet origin) then Cluster.other_error "Invalid SystemEvent sender"
      else on_sys (Sys.process_system_event (be_block e) event)))
  | 1%nat => Dispatcher.typed_arm decode_GatekeeperLaunch (Dispatcher.ignore_errors (fun event origin =>
      on_sys_gk (Sys.process_gatekeeper_launch_event (be_new_key e) (be_chain e) (be_block e) origin event)))
  | 2%nat => Dispatcher.typed_arm decode_GatekeeperChange (Dispatcher.ignore_errors (fun event origin =>
      on_sys_gk (Sys.process_gatekeeper_change_event (be_chain e) (be_block e) origin event)))
  | 3%nat => Dispatcher.typed_arm decode_KeyDistribution (Dispatcher.ignore_errors (fun event origin =>
      on_sys_gk (Sys.process_key_distribution_event (be_chain e) origin event)))
  | 4%nat => Dispatcher.typed_arm decode_WorkerClusterOperation (Dispatcher.ignore_errors (fun event origin =>
      Cluster.process_cluster_operation_event (be_cx e) (be_block e) (be_pink e) origin event))
  | _ => Dispatcher.typed_arm decode_ContractOperation (Dispatcher.ignore_errors (fun event origin =>
      Cluster.process_contract_operation_event (be_cx e) (be_block e) origin event))
  end.

(** [true] when there was no message *)
Definition process_next_message (e : BlockEnv) : N bool :=
  let* n := gets (fun n => n) in
  let* k := Cluster.on_bus (Dispatcher.select (nd_rx n)) in
  match k with
  | None => mret true
  | Some k =>
      let* i := expect_some (nd_rx n !! k) in
      let* m := Cluster.on_bus (Dispatcher.try_next i) in
      match m with
      | inl None => mret true
      | inl (Some v) => arm e k (inl v);;; mret false
      | inr err => arm e k (inr err);;; mret false
      end
  end.

(** The loop of [process_messages]: an error is logged, unless the process is over. *)
Fixpoint system_messages (fuel : nat) (e : BlockEnv) : N unit :=
  match fuel with
  | O => fun _ => NoFuel
  | Datatypes.S fuel => fun n =>
      match process_next_message e n with
      | Ok no_more n' => if (no_more : bool) then Ok tt n' else system_messages fuel e n'
      | Err (Tx _) n' => system_messages fuel e n'
      | Err Terminated n' => Err Terminated n'
      | Panic => Panic
      | NoFuel => NoFuel
      end
  end.

Definition gatekeeper_messages (block : BlockInfo) : N unit :=
  let* n := gets (fun n => n) in
  match gatekeeper (nd_sys n) with
  | None => mret tt
  | Some g =>
      match nd_gk_rx n with
      | [gk; cl; computing; system; gk'] => fun n =>
          match Gk.process_messages (Datatypes.S (Cluster.backlog (nd_bus n))) gk cl computing system gk' block
                  (nd_bus n, Gk.set_economics (set_eco_queue (queue (nd_sys n)) (computing_economics g)) g) with
          | Ok _ (b, g') => Ok tt (Cluster.set_bus b (Cluster.set_sys
              (Sys.set_gatekeeper (Some g') (Sys.set_queue (eco_queue (computing_economics g')) (nd_sys n))) n))
          | Err er (b, g') => Err er (Cluster.set_bus b (Cluster.set_sys
              (Sys.set_gatekeeper (Some g') (Sys.set_queue (eco_queue (computing_economics g')) (nd_sys n))) n))
          | Panic => Panic
          | NoFuel => NoFuel
          end
      | _ => panic
      end
  end.

Definition process_messages (e : BlockEnv) : N unit :=
  let* fuel := gets (fun n => Cluster.backlog (nd_bus n)) in
  system_messages (Datatypes.S fuel) e;;;
  Cluster.process_contract_messages (be_cx e) (be_block e);;;
  gatekeeper_messages (be_block e).

Definition will_process_block (block : BlockInfo) : N unit := on_sys (Sys.will_process_block block).

Definition did_process_block (e : BlockEnv) : N unit :=
  on_sys (Sys.finish_block (be_block e));;;
  Cluster.end_block_contracts (be_cx e) (be_block e);;;
  on_sys Sys.note_contracts.

(** One block with its messages; what is left in the channels is dropped. *)
Definition process_block (e : BlockEnv) (messages : list Message) : N unit :=
  Cluster.on_bus Dispatcher.reset_local_index;;;
  will_process_block (be_block e);;;
  for_each messages (fun m =>
    Cluster.on_bus (Dispatcher.dispatch m);;;
    process_messages e);;;
  did_process_block e;;;
  Cluster.on_bus Dispatcher.clear;;;
  mret tt.

End Node.
End Node.
