(* ===== verification/NodeProps.v ===== *)
(** * Properties of a worker's blocks

    Every block ends, and what strangers send to a worker's own topics is ignored.
    Module SystemEnds has the part of the first that System.v, GatekeeperPr.v and
    Economics.v owe: no handler of the worker's state machine, of its gatekeeper or of
    the economics runs forever. *)
From stdpp Require Import prelude gmap list strings.
From Stdlib Require Import ZArith Lia.
From S2P Require Import Prelude Types Externals Registry Phat SendQueue Dispatcher Benchmark WorkerSM Crypto Tokenomic Economics GatekeeperPr System Relate LocalCache LocalCacheProps PinkTypes PinkHost Pink Cluster ClusterSafety Node Reference PrReference PinkRef ClusterRef.

Module SystemEnds.

Lemma halts_for_fold {S E A B} (l : list A) (y : B) (b : B -> A -> M S E B) : (forall y x, halts (b y x)) -> halts (for_fold l y b).
Proof. intros Hb. revert y. induction l; intros y; simpl; [apply halts_ret|]. by apply halts_bind. Qed.

Section Ends.
Context {prof : Profile} {cfg : Config} {codec : Codec} {prcodec : PrCodec} {gkcodec : GkCodec}.
Context {P : PrCrypto} {F : FixedLib} {SL : SealLib}.

Lemma halts_push_message {E} ch data topic : halts (E := E) (SendQueue.push_data ch data topic).
Proof. unfold SendQueue.push_data, SendQueue.enqueue_message. solve_halts. Qed.

Lemma halts_dummy {E} ch b : halts (E := E) (SendQueue.set_dummy ch b).
Proof. unfold SendQueue.set_dummy, SendQueue.set_dummy_mode. solve_halts. Qed.

Lemma halts_expect_crypto {E S A} (m : M S CryptoError A) : halts m -> halts (Gk.expect_crypto (E := E) m).
Proof. intros Hm s. specialize (Hm s). unfold Gk.expect_crypto. by destruct (m s). Qed.

Lemma halts_restore {S} b : halts (S := S) (Crypto.restore_from_secret_key b).
Proof. unfold Crypto.restore_from_secret_key. solve_halts. Qed.

Lemma halts_derive {S} k i : halts (S := S) (Crypto.derive_sr25519_pair k i).
Proof. unfold Crypto.derive_sr25519_pair. solve_halts. Qed.

Lemma halts_ecdh {S} k : halts (S := S) (Crypto.derive_ecdh_key k).
Proof. unfold Crypto.derive_ecdh_key, Ecdh.from_secret. solve_halts. Qed.

Lemma halts_encrypt {S} k i pk sk iv : halts (S := S) (Crypto.encrypt_secret_to k i pk sk iv).
Proof.
  unfold Crypto.encrypt_secret_to, Ecdh.agree, Aead.encrypt, Aead.load_key. pose proof (@halts_derive S). pose proof (@halts_ecdh S). solve_halts.
Qed.

Lemma halts_decrypt_secret {S} k pk e iv : halts (S := S) (Crypto.decrypt_secret_from k pk e iv).
Proof. unfold Crypto.decrypt_secret_from, Ecdh.agree, Aead.decrypt, Aead.load_key. solve_halts. Qed.

Hint Resolve halts_push_message halts_dummy halts_expect_crypto halts_restore halts_derive halts_ecdh halts_encrypt halts_decrypt_secret : halts.

(** ** The worker's state machine *)
Lemma halts_callback {E C} (m : M C E unit) : halts m -> halts (WorkerSM.callback m).
Proof. intros Hm s. specialize (Hm (snd s)). unfold WorkerSM.callback. by destruct (m (snd s)). Qed.

Lemma halts_d_push {E} data topic : halts (E := E) (d_push data topic).
Proof. intros d. unfold d_push. pose proof (halts_push_message (E := E) (d_egress d) data topic (d_queue d)). by destruct (SendQueue.push_data _ _ _ _). Qed.

Hint Resolve halts_callback halts_d_push : halts.

(** Callbacks that end *)
Class EndingCallbacks {E C} (cb : WorkerStateMachineCallback E C) := {
  resume_ends : halts bench_resume;
  pause_ends : halts bench_pause;
  report_ends : forall t i, halts (bench_report t i);
  heartbeat_ends : forall a b c d, halts (heartbeat a b c d);
}.

#[global] Instance delegate_ends {E} : EndingCallbacks (delegate_callback (E := E)).
Proof. split; simpl; intros; solve_halts. Qed.

#[global] Instance tracker_ends {E} : EndingCallbacks (tracker_callback (E := E)).
Proof. split; simpl; intros; solve_halts. Qed.

Hint Resolve resume_ends pause_ends report_ends heartbeat_ends delegate_ends tracker_ends : halts.

Lemma halts_sm_event {E C} {cb : WorkerStateMachineCallback E C} `{!EndingCallbacks cb} block event :
  halts (WorkerSM.process_event block event).
Proof. unfold WorkerSM.process_event, WorkerSM.handle_heartbeat_challenge, WorkerSM.on_state. solve_halts. Qed.

Lemma halts_sm_block {E C} {cb : WorkerStateMachineCallback E C} `{!EndingCallbacks cb} block : halts (WorkerSM.on_block_processed block).
Proof. unfold WorkerSM.on_block_processed, WorkerSM.on_state. solve_halts. Qed.

(** ** Economics *)
Section Economics.
Context {E : Type}.
Abbreviation G := (M ComputingEconomics E).

Lemma halts_replay (m : M (WorkerState * WorkerSMTracker) E unit) w : halts m -> halts (Economics.replay m w).
Proof. intros Hm e. unfold Economics.replay. specialize (Hm (wk_state w, mkWorkerSMTracker (waiting_heartbeats w) false)). by destruct (m _) as [? []|? []| |]. Qed.

Lemma halts_on_tokenomic {A} (m : M TokenomicInfo E A) w : halts m -> halts (Economics.on_tokenomic m w).
Proof. intros Hm e. specialize (Hm (tokenomic w)). unfold Economics.on_tokenomic. by destruct (m _). Qed.

Lemma halts_egress data topic : halts (Economics.egress_push data topic : G unit).
Proof. intros e. unfold Economics.egress_push. pose proof (halts_push_message (E := E) (eco_egress e) data topic (eco_queue e)). by destruct (SendQueue.push_data _ _ _ _). Qed.

Hint Resolve halts_replay halts_on_tokenomic halts_egress halts_sm_event halts_sm_block : halts.

Lemma halts_ordmap f : (forall k w, halts (f k w)) -> halts (Economics.ordmap_for_each_mut f : G unit).
Proof. intros Hf. unfold Economics.ordmap_for_each_mut, Economics.get_worker. solve_halts. Qed.

Lemma halts_share {S} t : halts (Tokenomic.share (S := S) (E := E) t).
Proof. unfold Tokenomic.share, Tokenomic.square. solve_halts. Qed.

Lemma halts_tokenomic_slash params n : halts (Tokenomic.update_v_slash (E := E) params n).
Proof. unfold Tokenomic.update_v_slash. solve_halts. Qed.

Lemma halts_tokenomic_idle params : halts (Tokenomic.update_v_idle (E := E) params).
Proof. unfold Tokenomic.update_v_idle. solve_halts. Qed.

Lemma halts_tokenomic_recover a b : halts (Tokenomic.update_v_recover (E := E) a b).
Proof. unfold Tokenomic.update_v_recover. solve_halts. Qed.

Lemma halts_tokenomic_heartbeat params a b c : halts (Tokenomic.update_v_heartbeat (E := E) params a b c).
Proof. pose proof (@halts_share TokenomicInfo). unfold Tokenomic.update_v_heartbeat. solve_halts. Qed.

Lemma halts_tokenomic_p a b c : halts (Tokenomic.update_p_instant (E := E) a b c).
Proof. unfold Tokenomic.update_p_instant. solve_halts. Qed.

Hint Resolve halts_ordmap halts_share halts_tokenomic_slash halts_tokenomic_idle halts_tokenomic_recover halts_tokenomic_heartbeat
  halts_tokenomic_p : halts.

Lemma halts_eco_will block : halts (Economics.will_process_block block : G unit).
Proof.
  unfold Economics.will_process_block, Economics.sum_share, Economics.put_worker. solve_halts. apply halts_for_fold. solve_halts.
Qed.

Lemma halts_eco_did block : halts (Economics.did_process_block block : G unit).
Proof.
  unfold Economics.did_process_block, Economics.finish_worker, Economics.judge_worker, Economics.charge_worker, Economics.put_worker.
  solve_halts. apply halts_ordmap. solve_halts.
Qed.

Lemma halts_p_update (a b c d e : Z) (r : bool) w : halts (Economics.on_tokenomic (E := E) (
  Tokenomic.update_p_instant a b r;;;
  modify (Tokenomic.set_challenge_time_last d);;;
  modify (Tokenomic.set_iteration_last e)) w).
Proof. apply halts_on_tokenomic. solve_halts. Qed.

Hint Resolve halts_p_update : halts.

Lemma halts_report origin event block : halts (Economics.process_computing_report origin event block : G unit).
Proof.
  unfold Economics.process_computing_report, Economics.settle_heartbeat, Economics.get_worker, Economics.put_worker. solve_halts.
Qed.

Lemma halts_eco_system origin event block : halts (Economics.process_system_event origin event block : G unit).
Proof.
  unfold Economics.process_system_event, Economics.get_worker, Economics.put_worker. solve_halts; apply halts_ordmap; solve_halts.
Qed.

Lemma halts_eco_gatekeeper origin event : halts (Economics.process_gatekeeper_event origin event : G unit).
Proof. unfold Economics.process_gatekeeper_event, Economics.update_tokenomic_parameters, Tokenomic.params_from. solve_halts. Qed.

Hint Resolve halts_report halts_eco_system halts_eco_gatekeeper : halts.

Lemma halts_typed_arm {T C} (decode : bytes -> option T) (block : (T * MessageOrigin) + TypedReceiveError -> M C E unit) v :
  (forall x, halts (block x)) -> halts (Dispatcher.typed_arm decode block v).
Proof. intros Hb. unfold Dispatcher.typed_arm. solve_halts. Qed.

Lemma halts_eco_arm block k v : halts (Economics.arm block k v : G unit).
Proof.
  unfold Economics.arm. destruct k as [|[|k]]; apply halts_typed_arm; intros [[]|]; cbn [Economics.logged]; solve_halts.
Qed.

End Economics.

Hint Resolve halts_eco_will halts_eco_did halts_eco_arm : halts.

(** ** The gatekeeper *)
Section Gatekeeper.
Context {E : Type}.
Abbreviation K := (M GatekeeperState E).

Lemma halts_gk_queue (m : M (gmap MessageOrigin Channel) E unit) : halts m -> halts (Gk.on_queue m).
Proof. intros Hm g. specialize (Hm (eco_queue (computing_economics g))). unfold Gk.on_queue. by destruct (m _). Qed.

Lemma halts_gk_economics (m : M ComputingEconomics E unit) : halts m -> halts (Gk.on_economics m).
Proof. intros Hm g. specialize (Hm (computing_economics g)). unfold Gk.on_economics. by destruct (m _). Qed.

Hint Resolve halts_gk_queue halts_gk_economics : halts.

Lemma halts_gk_push data topic : halts (Gk.push data topic : K unit).
Proof. unfold Gk.push. solve_halts. Qed.

Lemma halts_encrypt_key info pk sk n : halts (Gk.encrypt_key_to info pk sk n : K _).
Proof. unfold Gk.encrypt_key_to, Gk.generate_iv. solve_halts. Qed.

Hint Resolve halts_gk_push halts_encrypt_key : halts.

Lemma halts_encrypt_all info l sk n : halts (Gk.encrypt_for_all info l sk n : K _).
Proof. unfold Gk.encrypt_for_all. apply halts_for_fold. solve_halts. Qed.

Lemma halts_share_key pk epk n : halts (Gk.share_master_key pk epk n : K unit).
Proof.
  unfold Gk.share_master_key, Gk.share_master_key_history, Gk.share_latest_master_key. solve_halts. apply halts_for_fold. solve_halts.
Qed.

Hint Resolve halts_encrypt_all halts_share_key : halts.

Lemma halts_gk_arm block k v : halts (Gk.arm block k v : K unit).
Proof.
  unfold Gk.arm. destruct k as [|k]; apply halts_typed_arm; intros [[]|]; unfold Dispatcher.ignore_errors, Gk.process_gatekeeper_event,
    Gk.process_random_number_event, Gk.next_random_number, Gk.process_cluster_event, Gk.get_cluster_key; solve_halts.
Qed.

Lemma halts_gk_will block : halts (Gk.will_process_block block : K unit).
Proof. unfold Gk.will_process_block. solve_halts. Qed.

Lemma halts_gk_did block : halts (Gk.did_process_block block : K unit).
Proof. unfold Gk.did_process_block, Gk.emit_random_number, Gk.next_random_number. solve_halts. Qed.

Lemma halts_gk_register : halts (Gk.register_on_chain : K unit).
Proof. unfold Gk.register_on_chain. solve_halts. Qed.

Lemma halts_gk_unregister : halts (Gk.unregister_on_chain : K unit).
Proof. unfold Gk.unregister_on_chain. solve_halts. Qed.

Lemma halts_gk_uploaded k : halts (Gk.master_pubkey_uploaded k : K unit).
Proof. unfold Gk.master_pubkey_uploaded. solve_halts. Qed.

Lemma halts_gk_history h : halts (Gk.set_master_key_history h : K bool).
Proof. unfold Gk.set_master_key_history. solve_halts. Qed.

Lemma halts_gk_append k : halts (Gk.append_master_key k : K bool).
Proof. unfold Gk.append_master_key. solve_halts. Qed.

Lemma halts_gk_switch id h : halts (Gk.switch_master_key id h : K bool).
Proof. unfold Gk.switch_master_key. solve_halts. Qed.

Lemma halts_gk_rotate k block id l i : halts (Gk.process_master_key_rotation_request k block id l i : K unit).
Proof. unfold Gk.process_master_key_rotation_request. solve_halts. Qed.

Lemma halts_gk_new h ch q : halts (Gk.new (E := E) h ch q).
Proof.
  unfold Gk.new. solve_halts. intros s. pose proof (halts_dummy (E := E) ch true q). by destruct (SendQueue.set_dummy _ _ _).
Qed.

End Gatekeeper.

Hint Resolve halts_gk_will halts_gk_did halts_gk_register halts_gk_unregister halts_gk_uploaded halts_gk_history halts_gk_append
  halts_gk_switch halts_gk_rotate halts_share_key : halts.

(** ** [System] *)
Abbreviation Y := (M SystemState SysError).

Lemma halts_sys_push data topic : halts (Sys.push data topic : Y unit).
Proof. intros s. unfold Sys.push. pose proof (halts_push_message (E := SysError) (egress s) data topic (queue s)). by destruct (SendQueue.push_data _ _ _ _). Qed.

Lemma halts_on_worker m : halts m -> halts (Sys.on_worker m).
Proof. intros Hm s. unfold Sys.on_worker. specialize (Hm (worker_state s, mkWorkerSMDelegate (egress s) (n_clusters s) (n_contracts s) (queue s) (bench s))). by destruct (m _) as [? []|? []| |]. Qed.

Lemma halts_on_gatekeeper {A} g (m : M GatekeeperState SysError A) : halts m -> halts (Sys.on_gatekeeper g m).
Proof. intros Hm s. unfold Sys.on_gatekeeper. specialize (Hm (Gk.set_economics (set_eco_queue (queue s) (computing_economics g)) g)). by destruct (m _). Qed.

Lemma halts_on_files {A} (m : M MasterKey.Files SysError A) : halts m -> halts (Sys.on_files m).
Proof. intros Hm s. specialize (Hm (files s)). unfold Sys.on_files. by destruct (m _). Qed.

Lemma halts_log_error m : halts m -> halts (Sys.log_error m).
Proof. intros Hm s. specialize (Hm s). unfold Sys.log_error. by destruct (m s) as [|[]| |]. Qed.

Lemma halts_seal h k : halts (MasterKey.seal h k : M _ SysError _).
Proof. unfold MasterKey.seal, MasterKey.seal_data. solve_halts. Qed.

Lemma halts_unseal k : halts (MasterKey.try_unseal k : M _ SysError _).
Proof. unfold MasterKey.try_unseal, MasterKey.unseal_data, MasterKey.assert_true. solve_halts. Qed.

Hint Resolve halts_sys_push halts_on_worker halts_on_gatekeeper halts_on_files halts_log_error halts_seal halts_unseal
  halts_sm_event halts_sm_block : halts.

Lemma halts_decrypt_key pk e iv : halts (Sys.decrypt_key_from pk e iv).
Proof. unfold Sys.decrypt_key_from. solve_halts. Qed.

Lemma halts_sys_history h : halts (Sys.set_master_key_history h).
Proof. unfold Sys.set_master_key_history. solve_halts. Qed.

Hint Resolve halts_decrypt_key halts_sys_history : halts.

Lemma halts_system_event block event : halts (Sys.process_system_event block event).
Proof. unfold Sys.process_system_event. solve_halts. Qed.

Lemma halts_key_distribution chain origin event : halts (Sys.process_key_distribution_event chain origin event).
Proof.
  unfold Sys.process_key_distribution_event, Sys.process_master_key_distribution, Sys.process_batch_rotate_master_key, Sys.process_master_key_history.
  apply halts_log_error. solve_halts. apply halts_for_fold. solve_halts.
Qed.

Lemma halts_init_gatekeeper chain h : halts (Sys.init_gatekeeper chain h).
Proof.
  unfold Sys.init_gatekeeper, Economics.update_tokenomic_parameters, Tokenomic.params_from. solve_halts.
  - intros s. match goal with |- context [Gk.new ?h ?ch ?q tt] => pose proof (halts_gk_new (E := SysError) h ch q tt) end.
    by destruct (Gk.new _ _ _ _).
  - apply halts_on_gatekeeper, halts_gk_economics. solve_halts.
Qed.

Hint Resolve halts_init_gatekeeper : halts.

Lemma halts_launch k chain block origin event : halts (Sys.process_gatekeeper_launch_event k chain block origin event).
Proof.
  unfold Sys.process_gatekeeper_launch_event, Sys.process_first_gatekeeper_event, Sys.process_master_key_rotation_request. solve_halts.
Qed.

Lemma halts_change chain block origin event : halts (Sys.process_gatekeeper_change_event chain block origin event).
Proof. unfold Sys.process_gatekeeper_change_event, Sys.process_new_gatekeeper_event, Sys.process_remove_gatekeeper_event. solve_halts. Qed.

Lemma halts_sys_will block : halts (Sys.will_process_block block).
Proof. unfold Sys.will_process_block. solve_halts. Qed.

Lemma halts_sys_finish block : halts (Sys.finish_block block).
Proof. unfold Sys.finish_block. solve_halts. Qed.

End Ends.
End SystemEnds.

Module NodeProps.
Import ClusterSafety.

Lemma moves_weaken {S E A} (R R' : relation S) (m : M S E A) : (forall s s', R s s' -> R' s s') -> moves R m -> moves R' m.
Proof. intros HR Hm s. specialize (Hm s). destruct (m s); auto. Qed.

(** ** Channels *)

(** Nothing is sent, and no end is dropped. *)
Definition kept (b b' : Bus) : Prop :=
  (forall k, alive b k -> alive b' k) /\ length (chans b') = length (chans b) /\ (Cluster.backlog b' <= Cluster.backlog b)%nat.

#[global] Instance kept_preorder : PreOrder kept.
Proof.
  split; [by intros b; split|]. intros b1 b2 b3 (A1 & L1 & B1) (A2 & L2 & B2). split; [auto|]. split; [congruence|lia].
Qed.

Lemma alive_lt b k : alive b k -> (k < length (chans b))%nat.
Proof. intros (ch & Hk & _). by eapply lookup_lt_Some. Qed.

Definition set_deque (k : nat) (ch : Chan) (q : list (Z * Message)) (b : Bus) : Bus :=
  Dispatcher.set_chans (<[k := with_deque q ch]> (chans b)) b.

Lemma alive_set_deque k ch q b j : chans b !! k = Some ch -> alive b j -> alive (set_deque k ch q b) j.
Proof.
  intros Hk (c & Hj & Hs & Hr). unfold alive, set_deque. simpl. destruct (decide (k = j)) as [->|].
  - rewrite list_lookup_insert_eq by by eapply lookup_lt_Some. rewrite Hk in Hj. injection Hj as <-. by eexists.
  - rewrite list_lookup_insert_ne by done. by exists c.
Qed.

Lemma kept_popped k ch v rest b : chans b !! k = Some ch -> deque ch = v :: rest -> kept b (set_deque k ch rest b).
Proof.
  intros Hk Hd. split; [intros j; by apply alive_set_deque|]. split; [unfold set_deque; simpl; by rewrite length_insert|].
  pose proof (backlog_popped _ _ _ _ _ Hk Hd). unfold set_deque. lia.
Qed.

Section Bus.
Context {prof : Profile} {E : Type}.

Lemma select_min_reads ind acc mqs (b : Bus) :
  Dispatcher.select_min (E := E) ind acc mqs b = Panic \/ exists r, Dispatcher.select_min (E := E) ind acc mqs b = Ok r b.
Proof.
  revert ind acc. induction mqs as [|i mqs IH]; intros ind acc; simpl; [right; by eexists|].
  unfold Dispatcher.peek_ind, Dispatcher.get_chan, mbind, gets, expect_some, mret. destruct (chans b !! i); [apply IH|by left].
Qed.

Lemma select_reads mqs (b : Bus) : Dispatcher.select (E := E) mqs b = Panic \/ exists k, Dispatcher.select (E := E) mqs b = Ok k b.
Proof.
  unfold Dispatcher.select, mbind. destruct (select_min_reads 0 (None, 0%nat) mqs b) as [E1|[r E1]]; rewrite E1; [by left|right; by eexists].
Qed.

Lemma try_next_run i (b : Bus) :
  Dispatcher.try_next (E := E) i b = Panic
  \/ exists ch, chans b !! i = Some ch /\
     match deque ch with
     | v :: rest => Dispatcher.try_next (E := E) i b = Ok (inl (Some v)) (set_deque i ch rest b)
     | [] => Dispatcher.try_next (E := E) i b = Ok (if sender_count ch =? 0 then inr SenderGone else inl None) b
     end.
Proof.
  unfold Dispatcher.try_next, Dispatcher.get_chan, mbind, gets, expect_some, mret. destruct (chans b !! i) as [ch|]; [right|by left].
  exists ch. split; [done|]. by destruct (deque ch).
Qed.

(** A reading loop ends when its channels are alive and its arms end. *)
Lemma select_loop_run {C} mqs (arm : nat -> (Z * Message) + ReceiveError -> M C E unit) :
  (forall k v, halts (arm k v)) -> forall fuel b c, Forall (alive b) mqs -> (Cluster.backlog b < fuel)%nat ->
  match Dispatcher.select_loop fuel mqs arm (b, c) with
  | Ok _ s | Err _ s => kept b s.1
  | Panic => True
  | NoFuel => False
  end.
Proof.
  intros Harm fuel. induction fuel as [|fuel IH]; intros b c Ha Hf; [lia|]. cbn [Dispatcher.select_loop].
  unfold mbind at 1, Dispatcher.on_bus at 1. simpl fst. destruct (select_reads mqs b) as [E1|[k E1]]; rewrite E1; [done|].
  destruct k as [k|]; [|simpl; reflexivity]. unfold mbind at 1, Dispatcher.run_arm, mbind at 1, Dispatcher.on_bus at 1, expect_some.
  simpl fst. destruct (mqs !! k) as [i|] eqn:Hk; [|done]. unfold mret at 1. simpl snd.
  unfold mbind at 1, Dispatcher.on_bus. simpl fst.
  destruct (try_next_run i b) as [E2|(ch & Hch & E2)]; [by rewrite E2|].
  assert (alive b i) as (ch' & Hch' & Hs & _) by (rewrite Forall_forall in Ha; apply Ha; by eapply list_elem_of_lookup_2).
  rewrite Hch in Hch'. injection Hch' as <-. destruct (deque ch) as [|v rest] eqn:Hd.
  - apply Z.eqb_neq in Hs. rewrite Hs in E2. rewrite E2. simpl. reflexivity.
  - rewrite E2. unfold mbind at 1, Dispatcher.on_component. simpl. specialize (Harm k (inl v) c).
    pose proof (kept_popped _ _ _ _ _ Hch Hd) as Hkept.
    destruct (arm k (inl v) c) as [[] c'|e c'| |]; simpl; try done.
    assert (Forall (alive (set_deque i ch rest b)) mqs) as Ha'.
    { eapply Forall_impl; [exact Ha|]. intros j. apply Hkept. }
    assert (Cluster.backlog (set_deque i ch rest b) < fuel)%nat as Hf' by (pose proof (backlog_popped _ _ _ _ _ Hch Hd); unfold set_deque; lia).
    specialize (IH _ c' Ha' Hf'). destruct (Dispatcher.select_loop fuel mqs arm _); try done; by etrans.
Qed.

(** Living channels stay alive. *)
Definition living (b b' : Bus) : Prop := (forall k, alive b k -> alive b' k) /\ length (chans b') = length (chans b).

#[local] Instance living_preorder : PreOrder living.
Proof. split; [by intros b|]. intros b1 b2 b3 [A1 L1] [A2 L2]. split; [auto|congruence]. Qed.

Lemma living_put i ch ch' b : chans b !! i = Some ch -> (alive b i -> sender_count ch' <> 0 /\ receiver_count ch' <> 0) ->
  living b (Dispatcher.set_chans (<[i := ch']> (chans b)) b).
Proof.
  intros Hi Hch. split; [|simpl; apply length_insert]. intros k Hk. unfold alive. simpl. destruct (decide (i = k)) as [->|].
  - rewrite list_lookup_insert_eq by by eapply lookup_lt_Some. exists ch'. split; [done|]. by apply Hch.
  - rewrite list_lookup_insert_ne by done. exact Hk.
Qed.

Lemma living_dispatcher d b : living b (Dispatcher.set_dispatcher d b).
Proof. done. Qed.

Lemma moves_send_all value receivers : moves (E := E) living (Dispatcher.send_all value receivers).
Proof.
  induction receivers as [|i receivers IH]; cbn [Dispatcher.send_all]; [solve_moves|]. intros b.
  unfold mbind at 1, Dispatcher.send, Dispatcher.get_chan, mbind at 1 2, gets, expect_some, mret.
  destruct (chans b !! i) as [ch|] eqn:Hi; [|done]. destruct (Z.eqb_spec (receiver_count ch) 0) as [Hr|Hr].
  - unfold Dispatcher.drop_sender, Dispatcher.get_chan. unfold mbind at 1 2 3, gets, expect_some, mret. rewrite Hi.
    unfold mbind at 1. pose proof (moves_arith living (E := E) 64 (sender_count ch - 1) b) as Ha.
    destruct (arith 64 (sender_count ch - 1) b) as [s b0|? b0| |] eqn:Ear; try done.
    assert (b0 = b) as ->. { revert Ear. unfold arith, mret, panic. repeat case_match; congruence. }
    unfold Dispatcher.put_chan, modify. set (b' := Dispatcher.set_chans _ b). specialize (IH b').
    assert (living b b') as Hb. { eapply living_put; [exact Hi|]. intros (c & Hc & _ & Hrc). rewrite Hi in Hc. injection Hc as <-. done. }
    destruct (Dispatcher.send_all value receivers b'); try done; by etrans.
  - unfold Dispatcher.put_chan, mbind, modify. set (b' := Dispatcher.set_chans _ b). specialize (IH b').
    assert (living b b') as Hb. { eapply living_put; [exact Hi|]. intros (c & Hc & Hsc & _). rewrite Hi in Hc. injection Hc as <-. done. }
    destruct (Dispatcher.send_all value receivers b'); try done; by etrans.
Qed.

Lemma moves_dispatch m : moves (E := E) living (Dispatcher.dispatch m).
Proof.
  unfold Dispatcher.dispatch. pose proof moves_send_all. solve_moves; apply moves_modify; intros b; apply living_dispatcher.
Qed.

Lemma moves_clear : moves (E := E) living Dispatcher.clear.
Proof.
  assert (forall i, moves (E := E) living (Dispatcher.clear_chan i)) as Hc; [|unfold Dispatcher.clear; solve_moves].
  intros i b. unfold Dispatcher.clear_chan, Dispatcher.get_chan, mbind, gets, expect_some, mret.
  destruct (chans b !! i) as [ch|] eqn:Hi; [|done].
  simpl. eapply living_put; [exact Hi|]. intros (c & Hc & Hsc & Hrc). rewrite Hi in Hc. injection Hc as <-. done.
Qed.

Lemma moves_reset : moves (E := E) living Dispatcher.reset_local_index.
Proof. apply moves_modify. intros b. apply living_dispatcher. Qed.

End Bus.
(** ** Blocks *)
Section Blocks.
Context {prof : Profile} {cfg : Config} {codec : Codec} {prcodec : PrCodec} {gkcodec : GkCodec} {ccodec : ClusterCodec}.
Context {P : PrCrypto} {F : FixedLib} {SL : SealLib}.
Context {S W : Type} {RT : Runtimes S W} {ER : EndingRuntimes RT} {Out : Outside W}.
Implicit Types n : Node S W.
Abbreviation N := (M (Node S W) SysError).

(** The channels of contracts and of the gatekeeper are alive, and not the same. *)
Record sound n : Prop := {
  so_contracts : wired n;
  so_gatekeeper : forall r, r ∈ nd_gk_rx n -> alive (nd_bus n) (rx_chan r);
  so_apart : forall id c r, nd_contracts n !! id = Some c -> r ∈ nd_gk_rx n -> ct_cmd_rcv_mq c <> rx_chan r;
}.

Record tidy n n' : Prop := {
  ti_sound : sound n -> sound n';
  ti_backlog : (Cluster.backlog (nd_bus n') <= Cluster.backlog (nd_bus n))%nat;
}.

#[local] Instance tidy_preorder : PreOrder tidy.
Proof. split; [by intros n|]. intros n1 n2 n3 [A1 B1] [A2 B2]. split; [auto|lia]. Qed.

Lemma steady_tidy n n' : steady n n' -> tidy n n'.
Proof.
  intros Hs. split; [|apply (st_backlog _ _ Hs)]. intros [Hw Hg Ha]. destruct (st_rx _ _ Hs) as [_ Eg]. split.
  - by apply (st_wired _ _ Hs).
  - rewrite Eg. intros r Hr. apply (steady_alive _ _ _ Hs). by apply Hg.
  - rewrite Eg. intros id c' r Hc' Hr. destruct (st_new _ _ Hs id c' Hc') as [(c & Hc & ->)|[Hl _]]; [by eapply Ha|].
    pose proof (alive_lt _ _ (Hg r Hr)). lia.
Qed.

Lemma tidy_of {A} (m : N A) : moves steady m -> moves tidy m.
Proof. apply moves_weaken. exact steady_tidy. Qed.

(** Steps on the rest of the worker *)
Lemma steady_sys s n : steady n (Cluster.set_sys s n).
Proof. by apply steady_rest. Qed.

Lemma tidy_on_sys {A} (m : M SystemState SysError A) : halts m -> moves tidy (Node.on_sys (S := S) (W := W) m).
Proof.
  intros Hm. apply tidy_of. unfold Node.on_sys, Node.count. apply moves_bind; [apply _|apply moves_modify; intros n; apply steady_sys|].
  intros _ n. specialize (Hm (nd_sys n)). unfold Cluster.on_sys, Cluster.lens. destruct (m (nd_sys n)); try done; apply steady_sys.
Qed.

(** A channel is added. *)
Lemma subscribe_run {A} t (k : Receiver -> N A) n :
  (let* r := Cluster.on_bus (Dispatcher.subscribe t) in k r) n
  = k (mkReceiver (length (chans (nd_bus n))) t) (Cluster.set_bus (mkBus (chans (nd_bus n) ++ [mkChan [] 1 1])
      (mkMessageDispatcher (<[t := default [] (subscribers (dispatcher (nd_bus n)) !! t) ++ [length (chans (nd_bus n))]]>
         (subscribers (dispatcher (nd_bus n)))) (local_index (dispatcher (nd_bus n))))) n).
Proof. reflexivity. Qed.

Lemma alive_app b d k : alive b k -> alive (mkBus (chans b ++ [mkChan [] 1 1]) d) k.
Proof. intros (ch & Hk & H). exists ch. simpl. rewrite lookup_app_l by by eapply lookup_lt_Some. done. Qed.

Lemma alive_new b d : alive (mkBus (chans b ++ [mkChan [] 1 1]) d) (length (chans b)).
Proof. unfold alive. simpl. rewrite lookup_app_r, Nat.sub_diag by lia. by eexists. Qed.

Lemma backlog_app b d : Cluster.backlog (mkBus (chans b ++ [mkChan [] 1 1]) d) = Cluster.backlog b.
Proof. unfold Cluster.backlog. simpl. rewrite sum_list_with_app. simpl. lia. Qed.

Lemma tidy_subscribe_gk t : moves tidy (let* r := Cluster.on_bus (Dispatcher.subscribe t) in
  modify (fun n => Cluster.set_gk_rx (nd_gk_rx n ++ [r]) n) : N unit).
Proof.
  intros n. rewrite subscribe_run. unfold modify. split.
  - intros [Hw Hg Ha]. split.
    + intros id c Hc. apply alive_app. by apply (Hw id).
    + intros r [Hr| ->%list_elem_of_singleton]%elem_of_app; [apply alive_app; by apply Hg|apply alive_new].
    + intros id c r Hc [Hr| ->%list_elem_of_singleton]%elem_of_app; [by eapply Ha|]. simpl.
      pose proof (alive_lt _ _ (Hw id c Hc)). lia.
  - simpl. by rewrite backlog_app.
Qed.

(** The ends of some channels are dropped. *)
Lemma drop_run (rs : list Receiver) : forall n,
  match for_each rs (fun r => Cluster.on_bus (Dispatcher.drop_receiver (rx_chan r)) : N unit) n with
  | Ok _ n' => exists b', n' = Cluster.set_bus b' n /\ Cluster.backlog b' = Cluster.backlog (nd_bus n)
      /\ forall k, k ∉ rx_chan <$> rs -> alive (nd_bus n) k -> alive b' k
  | Panic => True
  | Err _ _ | NoFuel => False
  end.
Proof.
  induction rs as [|r rs IH]; intros n; cbn [for_each]; [exists (nd_bus n); by destruct n|].
  unfold mbind at 1, Cluster.on_bus, Cluster.lens, Dispatcher.drop_receiver, Dispatcher.get_chan, mbind at 1 2, gets, expect_some, mret.
  destruct (chans (nd_bus n) !! rx_chan r) as [ch|] eqn:Hch; [|done]. unfold mbind at 1.
  destruct (arith 64 (receiver_count ch - 1) (nd_bus n)) as [c b0|? b0| |] eqn:Ear;
    [|unfold arith, mret, panic in Ear; repeat case_match; done..].
  assert (b0 = nd_bus n) as ->. { revert Ear. unfold arith, mret, panic. repeat case_match; congruence. }
  unfold Dispatcher.put_chan, modify. set (b1 := Dispatcher.set_chans _ _).
  assert (Cluster.backlog b1 = Cluster.backlog (nd_bus n)) as Hb1.
  { subst b1. unfold Cluster.backlog. simpl. pose proof Hch as Hs. apply list_elem_of_split_length in Hs as (l1 & l2 & E & El).
    rewrite E, insert_app_r_alt, El, Nat.sub_diag by lia. rewrite !sum_list_with_app. simpl. lia. }
  assert (forall k, k <> rx_chan r -> alive (nd_bus n) k -> alive b1 k) as Ha1.
  { intros k Hk (c1 & Hc1 & H1). exists c1. subst b1. simpl. rewrite list_lookup_insert_ne by done. done. }
  specialize (IH (Cluster.set_bus b1 n)). cbn [nd_bus Cluster.set_bus] in IH.
  match goal with |- match ?m with _ => _ end => change m with
    (for_each rs (fun r => Cluster.on_bus (Dispatcher.drop_receiver (rx_chan r)) : N unit) (Cluster.set_bus b1 n)) end.
  destruct (for_each rs _ (Cluster.set_bus b1 n)) as [[] n'| | |]; try done.
  destruct IH as (b' & -> & Hb' & Ha'). exists b'. split; [done|]. split; [by rewrite Hb'|].
  intros k Hk H. apply Ha'; [set_solver|]. apply Ha1; [set_solver|done].
Qed.

Lemma tidy_follow before : moves tidy (Node.follow_gatekeeper before : N unit).
Proof.
  unfold Node.follow_gatekeeper. intros n. unfold mbind at 1, gets at 1.
  assert (moves tidy (mret tt : N unit) /\ moves tidy (for_each Node.gatekeeper_topics (fun t =>
    let* r := Cluster.on_bus (Dispatcher.subscribe t) in modify (fun n => Cluster.set_gk_rx (nd_gk_rx n ++ [r]) n)) : N unit)) as [H1 H2].
  { split; [apply moves_ret, _|]. apply moves_for_each; [apply _|]. intros t. apply tidy_subscribe_gk. }
  destruct before, (gatekeeper (nd_sys n)); [apply H1|clear H1 H2|apply H2|apply H1].
  unfold mbind. pose proof (drop_run (nd_gk_rx n) n) as Hd.
  destruct (for_each (nd_gk_rx n) _ n) as [[] n'| | |]; try done. destruct Hd as (b' & -> & Hb & Ha). unfold modify. split.
  - intros [Hw Hg Hap]. split; simpl.
    + intros id c Hc. apply Ha; [|by apply (Hw id)]. intros (r & Er & Hr)%list_elem_of_fmap. by apply (Hap id c r).
    + intros r Hr. by apply elem_of_nil in Hr.
    + intros id c r _ Hr. by apply elem_of_nil in Hr.
  - simpl. lia.
Qed.

Lemma tidy_on_sys_gk m : halts m -> moves tidy (Node.on_sys_gk m : N unit).
Proof.
  intros Hm. unfold Node.on_sys_gk. apply moves_bind; [apply _|apply moves_gets, _|]. intros before.
  apply moves_bind; [apply _| |].
  - intros n. pose proof (tidy_on_sys m Hm n) as H. unfold catch. by destruct (Node.on_sys m n).
  - intros r. apply moves_bind; [apply _|apply tidy_follow|]. intros _. destruct r; [apply moves_ret, _|apply moves_fail, _].
Qed.

(** *** The contracts *)
Lemma calm_on_sys {A} (m : M SystemState SysError A) : halts m -> moves steady (Cluster.on_sys m : N A).
Proof. intros Hm n. specialize (Hm (nd_sys n)). unfold Cluster.on_sys, Cluster.lens. destruct (m (nd_sys n)); try done; apply steady_sys. Qed.

Lemma calm_effects cx block effects logger : moves steady (Cluster.apply_pink_side_effects cx block effects logger : N unit).
Proof. exact (calm_result cx block (inl effects) logger). Qed.

Hint Resolve calm_on_sys calm_effects calm_ecall calm_set_cluster calm_cluster_ecall calm_runtime calm_system calm_handler
  calm_handle_of calm_push calm_new_handle calm_result SystemEnds.halts_sys_push SystemEnds.halts_decrypt_key : moves.
Hint Extern 1 (moves _ (Cluster.on_local _)) => (apply calm_local; unfold OCall.try_send; solve_halts) : moves.

Lemma calm_distribution cx block chain origin event : moves steady (Cluster.process_cluster_key_distribution cx block chain origin event : N unit).
Proof. unfold Cluster.process_cluster_key_distribution, Cluster.new_cluster, Cluster.other_error. solve_moves. Qed.

Lemma tidy_leave : moves tidy (Cluster.leave_cluster : N unit).
Proof.
  unfold Cluster.leave_cluster. apply moves_bind; [apply _|apply moves_modify; intros n; split; [intros []; by split|done]|]. intros _.
  apply moves_bind; [apply _|apply moves_gets, _|]. intros n0. apply moves_bind; [apply _| |].
  - apply moves_modify. intros n. split; [|done]. intros [_ Hg _]. split; [by intros id c H|exact Hg|by intros id c r H].
  - intros _. apply moves_bind; [apply _| |intros _; apply moves_fail, _]. apply tidy_of. unfold Cluster.destroy, Cluster.handle_of. solve_moves.
Qed.

Lemma tidy_cluster_operation cx block chain origin event :
  moves tidy (Cluster.process_cluster_operation_event cx block chain origin event : N unit).
Proof.
  destruct event as [event|[cluster|who cluster t data|cluster account amount|cluster worker]]; cbn [Cluster.process_cluster_operation_event].
  - intros n. pose proof (tidy_of _ (calm_distribution cx block chain origin event) n) as Hd.
    destruct (Cluster.process_cluster_key_distribution _ _ _ _ _ n) as [[] n'|[er|] n'| |]; try done.
    pose proof (tidy_of _ (calm_on_sys _ (SystemEnds.halts_sys_push (encode_WorkerClusterReport (ClusterDeploymentFailedReport (bd_cluster event))) WorkerClusterReport_topic)) n') as Hp.
    destruct (Cluster.on_sys _ n'); try done; by etrans.
  - pose proof tidy_leave. unfold Cluster.other_error. solve_moves.
  - apply tidy_of. unfold Cluster.other_error, Cluster.upload_resource, Cluster.log_upload. solve_moves.
  - apply tidy_of. unfold Cluster.other_error. solve_moves.
  - pose proof tidy_leave. unfold Cluster.other_error. solve_moves.
Qed.

Lemma calm_contract_operation cx block origin event : moves steady (Cluster.process_contract_operation_event cx block origin event : N unit).
Proof. unfold Cluster.process_contract_operation_event, Cluster.other_error. solve_moves. Qed.

Lemma calm_restarts block : moves steady (Cluster.try_restart_sidevms block : N unit).
Proof.
  unfold Cluster.try_restart_sidevms, Cluster.get_contract, Cluster.restart_sidevm_if_needed, Cluster.do_start_sidevm.
  solve_moves; first [by apply calm_update|apply calm_local; apply halts_outside].
Qed.

Lemma calm_quotas : moves steady (Cluster.apply_local_cache_quotas : N unit).
Proof.
  unfold Cluster.apply_local_cache_quotas, Cache.calc_cache_quotas. solve_moves.
  apply calm_local, halts_on_cache, LocalCacheProps.halts_apply_quotas.
Qed.

Lemma calm_end_block cx block : moves steady (Cluster.end_block_contracts cx block : N unit).
Proof.
  unfold Cluster.end_block_contracts, Cluster.get_contract, Cluster.on_block_end.
  pose proof calm_quotas. pose proof calm_restarts. solve_moves. by apply calm_modify_rest.
Qed.

(** *** Messages *)
Lemma tidy_ignore_errors {T} (decode : bytes -> option T) (f : T -> MessageOrigin -> N unit) v :
  (forall event origin, moves tidy (f event origin)) -> moves tidy (Dispatcher.typed_arm decode (Dispatcher.ignore_errors f) v).
Proof. intros Hf. unfold Dispatcher.typed_arm, Dispatcher.ignore_errors. destruct v as [[ix m]|[]]; solve_moves. Qed.

Lemma tidy_arm e k v : moves tidy (Node.arm e k v : N unit).
Proof.
  unfold Node.arm. destruct k as [|[|[|[|[|k]]]]]; apply tidy_ignore_errors; intros event origin.
  - destruct (negb _); [apply moves_fail, _|apply tidy_on_sys, SystemEnds.halts_system_event].
  - apply tidy_on_sys_gk, SystemEnds.halts_launch.
  - apply tidy_on_sys_gk, SystemEnds.halts_change.
  - apply tidy_on_sys_gk, SystemEnds.halts_key_distribution.
  - apply tidy_cluster_operation.
  - apply tidy_of, calm_contract_operation.
Qed.

Lemma arm_sender_gone e k n : Node.arm e k (inr SenderGone) n = Panic.
Proof. by destruct k as [|[|[|[|[|k]]]]]. Qed.

Lemma next_message_run e n :
  match Node.process_next_message e n with
  | Ok no_more n' => tidy n n' /\ (no_more = false -> (Cluster.backlog (nd_bus n') < Cluster.backlog (nd_bus n))%nat)
  | Err _ n' => tidy n n' /\ (Cluster.backlog (nd_bus n') < Cluster.backlog (nd_bus n))%nat
  | Panic => True
  | NoFuel => False
  end.
Proof.
  unfold Node.process_next_message. unfold mbind at 1, gets at 1. unfold mbind at 1, Cluster.on_bus at 1, Cluster.lens at 1.
  destruct (select_reads (E := SysError) (nd_rx n) (nd_bus n)) as [E1|[k E1]]; rewrite E1; [done|].
  assert (Cluster.set_bus (nd_bus n) n = n) as -> by by destruct n.
  destruct k as [k|]; [|simpl; split; [reflexivity|done]]. unfold mbind at 1, expect_some at 1. destruct (nd_rx n !! k) as [i|]; [|done].
  unfold mret at 1. unfold mbind at 1, Cluster.on_bus at 1, Cluster.lens at 1.
  destruct (try_next_run (E := SysError) i (nd_bus n)) as [E2|(ch & Hch & E2)]; [by rewrite E2|].
  destruct (deque ch) as [|v rest] eqn:Hd; rewrite E2.
  - assert (Cluster.set_bus (nd_bus n) n = n) as -> by by destruct n.
    destruct (sender_count ch =? 0); [unfold mbind; by rewrite arm_sender_gone|simpl; split; [reflexivity|done]].
  - change (Cluster.set_bus (set_deque i ch rest (nd_bus n)) n) with (popped i ch rest n).
    pose proof (steady_tidy _ _ (steady_popped _ _ _ _ n Hch Hd)) as Hp.
    assert (Cluster.backlog (nd_bus (popped i ch rest n)) < Cluster.backlog (nd_bus n))%nat as Hb.
    { pose proof (backlog_popped _ _ _ _ _ Hch Hd). unfold popped. cbn [nd_bus Cluster.set_bus]. lia. }
    unfold mbind. pose proof (tidy_arm e k (inl v) (popped i ch rest n)) as Ha.
    destruct (Node.arm e k (inl v) (popped i ch rest n)) as [[] n'|er n'| |]; try done; pose proof (ti_backlog _ _ Ha);
      simpl; (split; [by etrans|intros; lia]) || (split; [by etrans|lia]).
Qed.

Lemma system_messages_run e fuel : forall n, (Cluster.backlog (nd_bus n) < fuel)%nat ->
  match Node.system_messages fuel e n with
  | Ok _ n' | Err _ n' => tidy n n'
  | Panic => True
  | NoFuel => False
  end.
Proof.
  induction fuel as [|fuel IH]; intros n Hf; [lia|]. cbn [Node.system_messages]. pose proof (next_message_run e n) as Hn.
  destruct (Node.process_next_message e n) as [[] n'|[er|] n'| |]; try done; [apply Hn| | |apply Hn]; destruct Hn as [Ht Hb].
  - specialize (Hb eq_refl). specialize (IH n' ltac:(lia)). destruct (Node.system_messages fuel e n'); try done; by etrans.
  - specialize (IH n' ltac:(lia)). destruct (Node.system_messages fuel e n'); try done; by etrans.
Qed.

(** *** Whole blocks *)

(** A step that ends and leaves a sound worker sound *)
Definition safe {A} (m : N A) : Prop := forall n, sound n ->
  match m n with
  | Ok _ n' | Err _ n' => sound n'
  | Panic => True
  | NoFuel => False
  end.

Lemma safe_tidy {A} (m : N A) : moves tidy m -> safe m.
Proof. intros Hm n Hn. specialize (Hm n). destruct (m n); try done; by apply (ti_sound _ _ Hm). Qed.

Lemma safe_bind {A B} (m : N A) (k : A -> N B) : safe m -> (forall a, safe (k a)) -> safe (mbind m k).
Proof.
  intros Hm Hk n Hn. specialize (Hm n Hn). unfold mbind. destruct (m n) as [a n'| | |]; try done. by apply Hk.
Qed.

Lemma safe_for_each {A} (l : list A) (b : A -> N unit) : (forall x, safe (b x)) -> safe (for_each l b).
Proof. intros Hb. induction l; cbn [for_each]; [by intros n Hn|]. by apply safe_bind. Qed.

Lemma safe_contract_messages cx block : safe (Cluster.process_contract_messages cx block).
Proof.
  intros n Hn. destruct (nd_cluster n) as [cl|] eqn:Hcl.
  - pose proof (messages_run cx block n (so_contracts _ Hn)) as H. rewrite Hcl in H. specialize (H ltac:(eauto)).
    destruct (Cluster.process_contract_messages cx block n); try done; [destruct H as [H _]|]; by apply (ti_sound _ _ (steady_tidy _ _ H)).
  - unfold Cluster.process_contract_messages, mbind at 1, gets at 1. destruct (Cluster.contract_ids n) as [|id ids].
    + unfold mbind, gets. simpl. by rewrite Hcl.
    + cbn [Cluster.process_all_commands Cluster.process_commands]. unfold mbind at 1 2, gets at 1. unfold mbind at 1.
      cbn [Cluster.process_commands]. unfold mbind at 1. destruct (handler_reads n) as [E|[lg E]]; rewrite E; [done|].
      unfold mbind, gets. by rewrite Hcl.
Qed.

Lemma safe_gatekeeper_messages block : safe (Node.gatekeeper_messages block).
Proof.
  intros n Hn. unfold Node.gatekeeper_messages, mbind at 1, gets at 1. destruct (gatekeeper (nd_sys n)) as [g|]; [|done].
  destruct (nd_gk_rx n) as [|r1 [|r2 [|r3 [|r4 [|r5 []]]]]] eqn:Hrx; try done.
  set (g0 := Gk.set_economics _ g). unfold Gk.process_messages, mbind at 1, gets at 1. change (snd (nd_bus n, g0)) with g0.
  destruct (negb (master_pubkey_on_chain g0)) eqn:Hon; [simpl; destruct Hn as [H1 H2 H3]; by split|].
  assert (Forall (alive (nd_bus n)) [rx_chan r1; rx_chan r2; rx_chan r3; rx_chan r4; rx_chan r5]) as Ha.
  { assert (forall r, r ∈ [r1; r2; r3; r4; r5] -> alive (nd_bus n) (rx_chan r)) as H by (rewrite <- Hrx; exact (so_gatekeeper _ Hn)).
    repeat (apply List.Forall_cons; [apply H; set_solver|]). apply List.Forall_nil. }
  assert (forall b g', kept (nd_bus n) b -> sound (Cluster.set_bus b (Cluster.set_sys g' n))) as Hk.
  { intros b g' (Hal & _ & _). destruct Hn as [Hw Hg Hap]. split; simpl; [|intros r Hr; by apply Hal, Hg|done].
    intros id c Hc. by apply Hal, (Hw id). }
  unfold mbind. pose proof (select_loop_run (E := SysError) [rx_chan r1; rx_chan r2] (Gk.arm block) (SystemEnds.halts_gk_arm block)
    (Datatypes.S (Cluster.backlog (nd_bus n))) (nd_bus n) g0) as Hl1.
  assert (Forall (alive (nd_bus n)) [rx_chan r1; rx_chan r2] /\ Forall (alive (nd_bus n)) [rx_chan r3; rx_chan r4; rx_chan r5]) as [Ha1 Ha2].
  { repeat (apply Forall_cons in Ha as [? Ha]). by repeat constructor. }
  specialize (Hl1 Ha1 ltac:(lia)).
  destruct (Dispatcher.select_loop _ [rx_chan r1; rx_chan r2] _ _) as [[] [b1 g1]|er [b1 g1]| |]; try done; [|by apply Hk].
  simpl in Hl1. unfold Gk.economics_messages, Economics.process_messages. simpl fst. simpl snd.
  pose proof (select_loop_run (E := SysError) [rx_chan r3; rx_chan r4; rx_chan r5] (Economics.arm block) (SystemEnds.halts_eco_arm block)
    (Datatypes.S (Cluster.backlog (nd_bus n))) b1 (computing_economics g1)) as Hl2.
  assert (Forall (alive b1) [rx_chan r3; rx_chan r4; rx_chan r5]) as Ha3 by (eapply Forall_impl; [exact Ha2|]; apply Hl1).
  assert (Cluster.backlog b1 < Datatypes.S (Cluster.backlog (nd_bus n)))%nat as Hb by (destruct Hl1 as (_ & _ & ?); lia).
  specialize (Hl2 Ha3 Hb).
  destruct (Dispatcher.select_loop _ [rx_chan r3; rx_chan r4; rx_chan r5] _ _) as [[] [b2 e2]|er [b2 e2]| |]; try done; simpl in *; apply Hk; by etrans.
Qed.

Lemma safe_bus {A} (m : M Bus SysError A) : moves living m -> safe (Cluster.on_bus m).
Proof.
  intros Hm n [Hw Hg Hap]. specialize (Hm (nd_bus n)). unfold Cluster.on_bus, Cluster.lens. destruct (m (nd_bus n)) as [a b|e b| |]; try done;
    destruct Hm as [Hal _]; (split; simpl; [intros id c Hc; by apply Hal, (Hw id)|intros r Hr; by apply Hal, Hg|done]).
Qed.

Lemma safe_messages e : safe (Node.process_messages e).
Proof.
  unfold Node.process_messages. intros n Hn. unfold mbind at 1, gets at 1. unfold mbind at 1.
  pose proof (system_messages_run e (Datatypes.S (Cluster.backlog (nd_bus n))) n ltac:(lia)) as Hs.
  destruct (Node.system_messages _ e n) as [[] n1|er n1| |]; try done; [|by apply (ti_sound _ _ Hs)].
  apply (safe_bind _ (fun _ => _)); [apply safe_contract_messages|intros _; apply safe_gatekeeper_messages|by apply (ti_sound _ _ Hs)].
Qed.

Lemma safe_block e messages : safe (Node.process_block e messages).
Proof.
  unfold Node.process_block, Node.will_process_block, Node.did_process_block.
  apply safe_bind; [apply safe_bus, moves_reset|intros _].
  apply safe_bind; [apply safe_tidy, tidy_on_sys, SystemEnds.halts_sys_will|intros _].
  apply safe_bind; [apply safe_for_each; intros m; apply safe_bind; [apply safe_bus, moves_dispatch|intros _; apply safe_messages]|intros _].
  apply safe_bind; [|intros _; apply safe_bind; [apply safe_bus, moves_clear|by intros _ n Hn]].
  apply safe_bind; [apply safe_tidy, tidy_on_sys, SystemEnds.halts_sys_finish|intros _].
  apply safe_bind; [apply safe_tidy, tidy_of, calm_end_block|intros _].
  apply safe_tidy, tidy_on_sys. unfold Sys.note_contracts. solve_halts.
Qed.

(** ** The life of a worker *)

(** A block, the effects of a query, a side program that ends, code that is uploaded for
    one, or a change of what is outside *)
Inductive WorkerStep :=
| Block (e : BlockEnv) (messages : list Message)
| Query (cx : CallCtx) (effects : ExecSideEffects)
| Exit (handle : nat) (reason : ExitReason)
| Upload (id : Z) (code : bytes)
| Elsewhere (l : Local W).

Definition worker_step (x : WorkerStep) : N unit :=
  match x with
  | Block e messages => Node.process_block e messages
  | Query cx effects => Cluster.apply_side_effects cx (into_query_only_effects effects)
  | Exit handle reason => Cluster.sidevm_exited handle reason
  | Upload id code => Cluster.upload_sidevm_code id code;;; mret tt
  | Elsewhere l => modify (Cluster.set_local l)
  end.

Lemma safe_step x : safe (worker_step x).
Proof.
  destruct x; cbn [worker_step]; [apply safe_block|apply safe_tidy, tidy_of..].
  - unfold Cluster.apply_side_effects, Cluster.apply_pink_events. pose proof calm_event. solve_moves.
  - by apply calm_modify_rest.
  - unfold Cluster.upload_sidevm_code, Cluster.get_contract. pose proof calm_start. solve_moves.
  - by apply calm_modify_rest.
Qed.

Lemma new_sound key f dev n : 
  match Node.new key f dev n with
  | Ok _ n' => sound n'
  | _ => False
  end.
Proof.
  unfold Node.new. unfold mbind at 1, modify at 1. set (n0 := mkNode _ _ _ _ _ _ _ _ _ _).
  assert (forall l n, nd_contracts n = ∅ -> nd_gk_rx n = [] ->
    match for_each l (fun t => let* r := Cluster.on_bus (Dispatcher.subscribe t) in modify (fun n => Node.set_rx (nd_rx n ++ [rx_chan r]) n) : N unit) n with
    | Ok _ n' => nd_contracts n' = ∅ /\ nd_gk_rx n' = []
    | _ => False
    end) as Hl.
  { induction l as [|t l IH]; intros m Hc Hg; cbn [for_each]; [done|]. unfold mbind at 1. rewrite subscribe_run. unfold modify. by apply IH. }
  specialize (Hl Node.system_topics n0 eq_refl eq_refl). destruct (for_each Node.system_topics _ n0) as [[] n'| | |]; try done.
  destruct Hl as [Hc Hg]. split; unfold wired; rewrite ?Hc, ?Hg.
  - intros id c H. by rewrite lookup_empty in H.
  - intros r Hr. by apply elem_of_nil in Hr.
  - intros id c r _ Hr. by apply elem_of_nil in Hr.
Qed.

(** ** Strangers *)

(** Neither the chain, nor a gatekeeper, nor a worker *)
Definition stranger (o : MessageOrigin) : bool := negb (always_well_formed o).

(** The report of a deployment that failed *)
Definition failure_report (event : BatchDispatchClusterKeyEvent) : M SystemState SysError unit :=
  Sys.push (encode_WorkerClusterReport (ClusterDeploymentFailedReport (bd_cluster event))) WorkerClusterReport_topic.

(** Nothing has happened, but that the worker knows the number of its contracts. *)
Definition same_worker n n' : Prop := exists a b, n' = Cluster.set_sys (Node.set_counts a b (nd_sys n)) n.

Lemma same_worker_refl n : same_worker n n.
Proof. exists (n_clusters (nd_sys n)), (n_contracts (nd_sys n)). by destruct n as [[]]. Qed.

Definition shrug (o : outcome (Node S W) SysError unit) n : Prop :=
  match o with
  | Ok _ n' | Err (Tx _) n' => same_worker n n'
  | _ => False
  end.

(** A handler that does nothing *)
Lemma shrug_on_sys_gk m n : (forall s, m s = Ok tt s) -> shrug (Node.on_sys_gk m n) n.
Proof.
  intros Hm. unfold Node.on_sys_gk, Node.follow_gatekeeper, Node.on_sys, Node.count, Cluster.on_sys, Cluster.lens, catch, mbind, gets, modify.
  rewrite Hm. simpl. destruct (gatekeeper (nd_sys n)) eqn:Hg; simpl;
    (exists (Node.n_clusters_of n), (Z.of_nat (size (nd_contracts n)))); done.
Qed.

Lemma stranger_origin o : stranger o = true -> is_pallet o = false /\ is_gatekeeper o = false.
Proof. by destruct o. Qed.

Lemma shrug_typed {T} (decode : bytes -> option T) (f : T -> MessageOrigin -> N unit) ix m n : stranger (sender m) = true ->
  (forall event, shrug (f event (sender m) n) n) -> shrug (Dispatcher.typed_arm decode (Dispatcher.ignore_errors f) (inl (ix, m)) n) n.
Proof.
  intros Ho Hf. unfold Dispatcher.typed_arm, Dispatcher.ignore_errors. destruct (decode (payload m)) as [event|]; [apply Hf|].
  unfold stranger in Ho. destruct (always_well_formed (sender m)); [done|]. apply same_worker_refl.
Qed.

Lemma shrug_log_error (m : M SystemState SysError unit) s er : m s = Err (Tx er) s -> Sys.log_error m s = Ok tt s.
Proof. intros H. unfold Sys.log_error. by rewrite H. Qed.

(** What a message of a stranger does *)
Lemma stranger_arm e k ix m n : stranger (sender m) = true ->
  shrug (Node.arm e k (inl (ix, m)) n) n
  \/ exists event, k = 4%nat /\ decode_WorkerClusterOperation (payload m) = Some (DispatchKeys event)
       /\ Node.arm e k (inl (ix, m)) n = Cluster.on_sys (failure_report event) n.
Proof.
  intros Ho. destruct (stranger_origin _ Ho) as [Hp Hg]. destruct k as [|[|[|[|[|k]]]]]; cbn [Node.arm].
  - left. apply shrug_typed; [done|]. intros event. rewrite Hp. apply same_worker_refl.
  - left. apply shrug_typed; [done|]. intros event. apply shrug_on_sys_gk. intros s. unfold Sys.process_gatekeeper_launch_event. by rewrite Hp.
  - left. apply shrug_typed; [done|]. intros event. apply shrug_on_sys_gk. intros s.
    destruct event; unfold Sys.process_gatekeeper_change_event, Sys.process_new_gatekeeper_event, Sys.process_remove_gatekeeper_event; by rewrite Hp.
  - left. apply shrug_typed; [done|]. intros event. apply shrug_on_sys_gk. intros s. unfold Sys.process_key_distribution_event.
    destruct event; apply (shrug_log_error _ _ TxBadOrigin);
      unfold Sys.process_master_key_distribution, Sys.process_batch_rotate_master_key, Sys.process_master_key_history; by rewrite Hg.
  - destruct (decode_WorkerClusterOperation (payload m)) as [[event|op]|] eqn:Hd.
    + right. exists event. split; [done|]. split; [done|]. unfold Dispatcher.typed_arm. rewrite Hd. cbn [Dispatcher.ignore_errors].
      cbn [Cluster.process_cluster_operation_event]. unfold Cluster.process_cluster_key_distribution. rewrite Hg. reflexivity.
    + left. unfold Dispatcher.typed_arm. rewrite Hd. cbn [Dispatcher.ignore_errors].
      destruct op; cbn [Cluster.process_cluster_operation_event]; rewrite Hp; apply same_worker_refl.
    + left. unfold Dispatcher.typed_arm. rewrite Hd. unfold stranger in Ho. destruct (always_well_formed (sender m)); [done|]. apply same_worker_refl.
  - left. apply shrug_typed; [done|]. intros event. unfold Cluster.process_contract_operation_event. rewrite Hp. apply same_worker_refl.
Qed.

End Blocks.
End NodeProps.

Import RefInstances PrInstances PinkInstances ClusterInstances.
Import ClusterSafety NodeProps.

#[local] Instance ref_ending_node : EndingRuntimes ref_runtimes.
Proof.
  split. intros v rt cx e Hv. assert (rt = pink_runtime) as ->; [|apply pink_runtime_ends].
  revert Hv. simpl. unfold v1_runtime. repeat case_match; by intros [=].
Qed.

(** C7: A worker gets through every block.  From its start, whatever blocks it is given,
    with whatever messages from whomever, and whatever queries, uploads and ends of side
    programs come in between, no loop of a worker runs forever: the loop over the
    messages of the system, the one over the commands of the contracts and the ones of
    the gatekeeper all end, so that every block is processed, or stops the worker with
    an error or a panic.  The channels of the contracts and of the gatekeeper
    stay alive and distinct meanwhile. *)
Theorem every_block_ends {prof : Profile} {cfg : Config} {codec : Codec} {prcodec : PrCodec} {gkcodec : GkCodec} {ccodec : ClusterCodec}
    {P : PrCrypto} {F : FixedLib} {SL : SealLib} {S W : Type} {RT : Runtimes S W} {ER : EndingRuntimes RT} {Out : Outside W}
    key f dev (steps : list WorkerStep) (n : Node S W) :
  match (Node.new key f dev;;; for_each steps worker_step) n with
  | Ok _ n' | Err _ n' => sound n'
  | Panic => True
  | NoFuel => False
  end.
Proof.
  unfold mbind. pose proof (new_sound key f dev n) as Hn. destruct (Node.new key f dev n) as [[] n0| | |]; try done.
  apply (safe_for_each steps worker_step); [intros x; apply safe_step|exact Hn].
Qed.

Definition wit_env : BlockEnv :=
  mkBlockEnv _ (mkBlockInfo 8 6000) (mkChainView [] None) (mkPinkChain [1] (1, 2)) 5 (ref_ctx 1 Transaction 3).

Definition wit_block : list Message :=
  [mkMessage (Pallet []) SystemEvent_topic [0; 1; 0; 3]; mkMessage (AccountIdOrigin 300) ClusterOperation_topic [1; 5]; ref_command].

Lemma every_block_ends_witness :
  exists n, (Node.new 1 (MasterKey.mkFiles true None) false;;; for_each [Block wit_env wit_block; Upload 3 [1]] worker_step)
    (ref_node 1 5 None []) = Ok tt n /\ sound n /\ ws_registered (worker_state (nd_sys n)) = true.
Proof.
  pose proof (every_block_ends 1 (MasterKey.mkFiles true None) false [Block wit_env wit_block; Upload 3 [1]] (ref_node 1 5 None [])) as H.
  assert (match (Node.new 1 (MasterKey.mkFiles true None) false;;; for_each [Block wit_env wit_block; Upload 3 [1]] worker_step)
    (ref_node 1 5 None []) with Ok _ n => Some (ws_registered (worker_state (nd_sys n))) | _ => None end = Some true) as O by (vm_compute; reflexivity).
  destruct ((Node.new _ _ _;;; _) _) as [[] n| | |]; [|discriminate O..]. exists n. split; [reflexivity|]. split; [exact H|]. injection O as O. exact O.
Defined.

(** C22: Strangers cannot command a worker.  When the next message for the system of a
    worker comes from an account, a contract, a cluster or another chain, whatever it is
    and however it is encoded, it is taken from its channel, and the worker, its
    gatekeeper, keys, contracts and cluster stay as they are; the one thing it can cause is that
    the worker reports the deployment of a cluster as failed, with keys for a cluster
    that no gatekeeper has sent. *)
Theorem strangers_are_ignored {prof : Profile} {cfg : Config} {codec : Codec} {prcodec : PrCodec} {gkcodec : GkCodec} {ccodec : ClusterCodec}
    {P : PrCrypto} {F : FixedLib} {SL : SealLib} {S W : Type} {RT : Runtimes S W} {Out : Outside W}
    e (n : Node S W) k i ch ix m rest
    (Hselect : Dispatcher.select (E := SysError) (nd_rx n) (nd_bus n) = Ok (Some k) (nd_bus n)) (Hi : nd_rx n !! k = Some i)
    (Hch : chans (nd_bus n) !! i = Some ch) (Hd : deque ch = (ix, m) :: rest) (Hm : stranger (sender m) = true) :
  let taken := popped i ch rest n in
  match Node.process_next_message e n with
  | Ok no_more n' => no_more = false /\ (same_worker taken n'
      \/ exists event, k = 4%nat /\ decode_WorkerClusterOperation (payload m) = Some (DispatchKeys event)
           /\ Cluster.on_sys (failure_report event) taken = Ok tt n')
  | Err (Tx _) n' => same_worker taken n'
  | Panic => exists event, k = 4%nat /\ decode_WorkerClusterOperation (payload m) = Some (DispatchKeys event)
           /\ Cluster.on_sys (failure_report event) taken = Panic
  | Err Terminated _ | NoFuel => False
  end.
Proof.
  intros taken. unfold Node.process_next_message. unfold mbind at 1, gets at 1. unfold mbind at 1, Cluster.on_bus at 1, Cluster.lens at 1.
  rewrite Hselect. assert (Cluster.set_bus (nd_bus n) n = n) as -> by by destruct n.
  unfold mbind at 1, expect_some at 1. rewrite Hi. unfold mret at 1. unfold mbind at 1, Cluster.on_bus at 1, Cluster.lens at 1.
  destruct (try_next_run (E := SysError) i (nd_bus n)) as [E2|(ch' & Hch' & E2)].
  { unfold Dispatcher.try_next, Dispatcher.get_chan, mbind, gets, expect_some, mret in E2. rewrite Hch, Hd in E2. discriminate E2. }
  rewrite Hch in Hch'. injection Hch' as <-. rewrite Hd in E2. rewrite E2.
  change (Cluster.set_bus (set_deque i ch rest (nd_bus n)) n) with taken. unfold mbind.
  destruct (stranger_arm e k ix m taken Hm) as [Hs|(event & -> & Hdec & Hs)].
  - unfold shrug in Hs. destruct (Node.arm e k (inl (ix, m)) taken) as [[] n'|[er|] n'| |]; try done. split; [done|]. by left.
  - rewrite Hs. unfold Cluster.on_sys, Cluster.lens. pose proof (SystemEnds.halts_sys_push (encode_WorkerClusterReport
      (ClusterDeploymentFailedReport (bd_cluster event))) WorkerClusterReport_topic (nd_sys taken)) as Hh.
    assert (forall er s, failure_report event (nd_sys taken) <> Err er s) as He.
    { intros er s. unfold failure_report, Sys.push, SendQueue.push_data, SendQueue.enqueue_message, mbind, gets, modify.
      unfold arith, mret, panic. repeat case_match; congruence. }
    destruct (failure_report event (nd_sys taken)) as [[] s|er s| |] eqn:Ef; [|by destruct (He er s)| |by destruct Hh].
    + split; [done|]. right. exists event. split; [done|]. split; [done|]. by rewrite Ef.
    + exists event. split; [done|]. split; [done|]. by rewrite Ef.
Qed.

Definition wit_bus : Bus :=
  mkBus [mkChan [] 1 1; mkChan [] 1 1; mkChan [] 1 1; mkChan [] 1 1; mkChan [(0, mkMessage (AccountIdOrigin 300) ClusterOperation_topic [1; 5])] 1 1; mkChan [] 1 1]
    (mkMessageDispatcher ∅ 1).

Definition wit_node : Node (PinkState RefChain) Z :=
  Node.set_rx [0; 1; 2; 3; 4; 5]%nat (Cluster.set_bus wit_bus (ref_node 1 5 None [])).

Lemma strangers_are_ignored_witness :
  match Node.process_next_message wit_env wit_node with
  | Ok no_more n' => no_more = false /\ length (SendQueue.messages (Worker 1) (queue (nd_sys n'))) = 1%nat
  | _ => False
  end.
Proof.
  pose proof (strangers_are_ignored wit_env wit_node 4 4 _ 0 (mkMessage (AccountIdOrigin 300) ClusterOperation_topic [1; 5]) []
    eq_refl eq_refl eq_refl eq_refl eq_refl) as H.
  assert (match Node.process_next_message wit_env wit_node with
    | Ok no_more n' => Some (length (SendQueue.messages (Worker 1) (queue (nd_sys n')))) | _ => None end = Some 1%nat) as O by (vm_compute; reflexivity).
  destruct (Node.process_next_message wit_env wit_node) as [no_more n'|[] n'| |]; try discriminate O.
  split; [apply H|]. injection O as O. exact O.
Defined.
