(* ===== verification/Query.v ===== *)
(** * Queries of contracts

    Certificates and signatures of queries (crates/phactory/api/src/crypto.rs), the
    queries a contract answers (crates/phactory/api/src/contracts.rs,
    [Cluster::handle_query] of crates/phactory/src/contracts/pink.rs), [make_query] of
    crates/phactory/src/system/mod.rs, and the [ContractQuery] request of
    crates/phactory/src/prpc_service.rs.

    The signature schemes, the hashes of Ethereum and the encodings are the class
    [QueryLib]; [eip712::recover] is another file's. *)
From stdpp Require Import prelude gmap list strings.
From Stdlib Require Import ZArith Lia.
From S2P Require Import Prelude Types Externals Registry Phat SendQueue Dispatcher Benchmark WorkerSM Crypto Tokenomic Economics GatekeeperPr System LocalCache PinkTypes PinkHost Pink Cluster.

(** ** crypto.rs *)
Inductive SignatureType :=
| StEd25519 | StSr25519 | StEcdsa | StEd25519WrapBytes | StSr25519WrapBytes | StEcdsaWrapBytes
| StEip712 | StEvmEcdsa | StEvmEcdsaWrapBytes.

(** [SignatureType::from_i32] of the protobuf enumeration *)
Definition SignatureType_from_i32 (x : Z) : option SignatureType :=
  match x with
  | 0 => Some StEd25519 | 1 => Some StSr25519 | 2 => Some StEcdsa
  | 3 => Some StEd25519WrapBytes | 4 => Some StSr25519WrapBytes | 5 => Some StEcdsaWrapBytes
  | 6 => Some StEip712 | 7 => Some StEvmEcdsa | 8 => Some StEvmEcdsaWrapBytes
  | _ => None
  end.

Inductive Signature := mkSignature (signed_by : option Certificate) (signature_type : Z) (signature : bytes)
with Certificate := mkCertificate (encoded_body : bytes) (cert_signature : option Signature).

Record CertificateBody := mkCertificateBody {
  cb_pubkey : bytes;
  cb_ttl : Z;
  cb_config_bits : Z;
}.

Inductive SignatureVerifyError :=
| InvalidSignatureType | InvalidSignature | CertificateMissing | CertificateExpired | TooLongCertificateChain
| DecodeFailed | InvalidPublicKey | Eip712EncodingError.

Inductive MessageType := CertificateMessage (ttl : Z) | ContractQueryMessage.

(** The schemes of [sp_core] *)
Inductive Scheme := SchemeEd25519 | SchemeSr25519 | SchemeEcdsa.

(** ** api/src/contracts.rs *)
Inductive ContractQuery :=
| QueryInkMessage (payload : bytes) (deposit transfer : Z) (estimating : bool)
| SidevmQuery (payload : bytes)
| QueryInkInstantiate (code_hash : H256) (salt instantiate_data : bytes) (deposit transfer : Z).

Inductive QueryError := QeBadOrigin | QeRuntimeError | QeSidevmNotFound | QeNoResponse | QeServiceUnavailable | QeTimeout.

(** [EncryptedData] *)
Record EncryptedData := mkEncryptedData {
  ed_iv : bytes;
  ed_pubkey : EcdhPublicKey;
  ed_data : bytes;
}.

Class QueryLib (W : Type) := {
  (** [T::verify], on a key and a signature of the right lengths *)
  scheme_verify : Scheme -> bytes -> bytes -> bytes -> bool;
  keccak_256 : bytes -> bytes;
  (** [secp256k1::PublicKey]: from the compressed form to the other *)
  secp256k1_uncompressed : bytes -> option bytes;
  eip712_recover : bytes -> bytes -> bytes -> MessageType -> bytes + SignatureVerifyError;
  (** the account or contract of 32 bytes *)
  h256_of_bytes : bytes -> Z;
  twox_64 : bytes -> Z;
  decode_CertificateBody : bytes -> option CertificateBody;
  encode_CertificateBody : CertificateBody -> bytes;
  decode_EncryptedData : bytes -> option EncryptedData;
  encode_EncryptedData : EncryptedData -> bytes;
  decode_ContractQuery : bytes -> option ContractQuery;
  encode_query_result : bytes + QueryError -> bytes;
  (** what comes of a query of a side program within five minutes, on a channel with an
      origin and a payload: its answer, or why there is none *)
  sidevm_reply : nat -> option Z -> bytes -> W -> (bytes + QueryError) * W;
}.

(** What can go wrong with a request *)
Inductive QueryRpcError :=
| SignatureRefused (e : SignatureVerifyError)
| BadEncryptedData
| CannotDecrypt (e : CryptoError)
| BadHead
| ContractNotFound
| BadQuery
| CannotEncrypt (e : CryptoError).

(** [ContractQueryRequest] *)
Record ContractQueryRequest := mkContractQueryRequest {
  encoded_encrypted_data : bytes;
  rq_signature : option Signature;
}.

Module Query.
Section Query.
Context {prof : Profile} {cfg : Config} {codec : Codec} {ccodec : ClusterCodec} {P : PrCrypto}.
Context {S W : Type} {RT : Runtimes S W} {Out : Outside W} {QL : QueryLib W}.
Abbreviation N := (M (Node S W) SysError).

(** ** Signatures *)
Section Signatures.
Context {St : Type}.
Abbreviation V := (M St SignatureVerifyError).

Definition public_len (t : Scheme) : nat := match t with SchemeEcdsa => 33 | _ => 32 end.
Definition signature_len (t : Scheme) : nat := match t with SchemeEcdsa => 65 | _ => 64 end.

Definition verify_scheme (t : Scheme) (pubkey sig msg : bytes) : bool :=
  Nat.eqb (length pubkey) (public_len t) && Nat.eqb (length sig) (signature_len t) && scheme_verify t sig msg pubkey.

(** The [recover] of Substrate's signatures gives the key back. *)
Definition recover (t : Scheme) (pubkey sig msg : bytes) : V bytes :=
  ensure (Nat.eqb (length pubkey) (public_len t)) InvalidPublicKey;;;
  ensure (verify_scheme t pubkey sig msg) InvalidSignature;;;
  mret pubkey.

Definition wrap_bytes (msg : bytes) : bytes := bytes_of_string "<Bytes>" ++ msg ++ bytes_of_string "</Bytes>".

(** [account_id = keccak256(pubkey)[12..] + "@evm_address"] *)
Definition account_id_from_evm_pubkey (pubkey : bytes) : V Z :=
  let* uncompressed := expect_some (secp256k1_uncompressed pubkey) in
  let h32 := keccak_256 (tail uncompressed) in
  mret (h256_of_bytes (drop 12 h32 ++ bytes_of_string "@evm_address")).

(** [CertificateBody::recover] *)
Definition recover_body (body : CertificateBody) (msg : bytes) (msg_type : MessageType) (sig_type : SignatureType) (sig : bytes) : V Z :=
  match sig_type with
  | StEd25519 => let* k := recover SchemeEd25519 (cb_pubkey body) sig msg in mret (h256_of_bytes k)
  | StSr25519 => let* k := recover SchemeSr25519 (cb_pubkey body) sig msg in mret (h256_of_bytes k)
  | StEcdsa => let* k := recover SchemeEcdsa (cb_pubkey body) sig msg in mret (blake2_256 k)
  | StEd25519WrapBytes => let* k := recover SchemeEd25519 (cb_pubkey body) sig (wrap_bytes msg) in mret (h256_of_bytes k)
  | StSr25519WrapBytes => let* k := recover SchemeSr25519 (cb_pubkey body) sig (wrap_bytes msg) in mret (h256_of_bytes k)
  | StEcdsaWrapBytes => let* k := recover SchemeEcdsa (cb_pubkey body) sig (wrap_bytes msg) in mret (blake2_256 k)
  | StEip712 =>
      match eip712_recover (cb_pubkey body) sig msg msg_type with
      | inl k => account_id_from_evm_pubkey k
      | inr e => fail e
      end
  | StEvmEcdsa => let* k := recover SchemeEcdsa (cb_pubkey body) sig msg in account_id_from_evm_pubkey k
  | StEvmEcdsaWrapBytes => let* k := recover SchemeEcdsa (cb_pubkey body) sig (wrap_bytes msg) in account_id_from_evm_pubkey k
  end.

(** [Signature::verify]: the signers, from the root down *)
Fixpoint verify (s : Signature) (msg : bytes) (msg_type : MessageType) (current_block max_depth : Z) {struct s} : V (list Z) :=
  match s with
  | mkSignature signed_by signature_type sig =>
      if max_depth =? 0 then fail TooLongCertificateChain
      else match SignatureType_from_i32 signature_type with
      | None => fail InvalidSignatureType
      | Some sig_type =>
          match signed_by with
          | None => fail CertificateMissing
          | Some (mkCertificate encoded_body cert_signature) =>
              let* body := ok_or (decode_CertificateBody encoded_body) DecodeFailed in
              if cb_ttl body <? current_block then fail CertificateExpired
              else
                let* body_signer := recover_body body msg msg_type sig_type sig in
                match cert_signature with
                | Some cert_sig =>
                    let* signers := verify cert_sig (encode_CertificateBody body) (CertificateMessage (cb_ttl body)) current_block
                      (max_depth - 1) in
                    mret (signers ++ [body_signer])
                | None => mret [body_signer]
                end
          end
      end
  end.

End Signatures.

(** ** Queries *)

(** A panic of the runtime inside [spawn_blocking] stops the process, since the release
    profile aborts on panics.
    [handle_query] of a snapshot [cl] of the cluster: [granted] is the answer of the
    scheduler, [env] gives the context for a mode. *)
Definition handle_query (cl : ClusterS S) (contract : ContractState) (origin : option Z) (query : ContractQuery) (granted : bool)
    (logger : option nat) (env : ExecutionMode -> CallCtx) : N ((bytes * option ExecSideEffects) + QueryError) :=
  match query with
  | QueryInkMessage input_data deposit transfer estimating =>
      match origin with
      | None => mret (inr QeBadOrigin)
      | Some origin =>
          if negb granted then mret (inr QeServiceUnavailable)
          else
            match logger with
            | Some tx =>
                let fp := twox_64 (h256_bytes origin ++ h256_bytes (secret_salt (cl_config cl))) in
                Cluster.on_local (OCall.try_send tx (PushSystemMessage (PinkQueryIn fp)))
            | None => mret tt
            end;;;
            let mode := if estimating then Estimating else Query in
            let args := mkTransactionArguments origin transfer (WEIGHT_REF_TIME_PER_SECOND * 10) true None deposit in
            let* r := Cluster.ecall cl logger (Cluster.entry_ctx (ct_address contract) origin None (env mode))
              (EContractCall (ct_address contract) input_data mode args) in
            let '(_, out, effects) := r in
            mret (inl (match out with OutBytes b => b | _ => [] end,
              if is_estimating mode then None else Some (into_query_only_effects effects)))
      end
  | SidevmQuery payload =>
      let* h := Cluster.handle_of contract in
      match h with
      | None | Some (HandleStopped _) => mret (inr QeSidevmNotFound)
      | Some (HandleRunning tx) =>
          Cluster.on_local (OCall.try_send tx (PushQuery origin payload));;;
          let* reply := Cluster.on_local (OCall.outside (sidevm_reply tx origin payload)) in
          mret (match reply with inl b => inl (b, None) | inr e => inr e end)
      end
  | QueryInkInstantiate code_hash salt instantiate_data deposit transfer =>
      if negb granted then mret (inr QeServiceUnavailable)
      else match origin with
      | None => mret (inr QeBadOrigin)
      | Some origin =>
          let args := mkTransactionArguments origin transfer (WEIGHT_REF_TIME_PER_SECOND * 10) true None deposit in
          let* rt := Cluster.the_runtime cl in
          let entry := blake2_256 (contract_id_preimage (h256_bytes origin) (h256_bytes code_hash)
            (h256_bytes (pr_cluster_id rt (cl_storage cl))) salt) in
          let* r := Cluster.ecall cl logger (Cluster.entry_ctx entry origin None (env Estimating))
            (EContractInstantiate code_hash instantiate_data salt Estimating args) in
          let '(_, out, _) := r in
          mret (inl (match out with OutBytes b => b | _ => [] end, None))
      end
  end.

(** The context of a query *)
Definition query_env (n : Node S W) (req_id : Z) (system_code : bytes) (sgx : bool) (time_limit : Z) (mode : ExecutionMode) : CallCtx :=
  mkCallCtx (Some (mkExecEnv (mkExecContext mode (sys_block_number (nd_sys n)) (sys_now_ms (nd_sys n)) (Some req_id))
    (Cluster.this_worker n) system_code sgx)) None None None None time_limit.

(** [System::make_query] and the future it gives *)
Definition make_query (contract_id : Z) (origin : option Z) (query : bytes) (granted : bool) (env : Node S W -> ExecutionMode -> CallCtx) :
    N (((bytes + QueryError) * option ExecSideEffects) + QueryRpcError) :=
  let* c := Cluster.get_contract contract_id in
  match c with
  | None => mret (inr ContractNotFound)
  | Some c =>
      let* cl := gets nd_cluster in
      let* cl := expect_some cl in
      let* logger := Cluster.get_system_message_handler in
      match decode_ContractQuery query with
      | None => mret (inr BadQuery)
      | Some q =>
          let* n := gets (fun n => n) in
          let* r := handle_query cl c origin q granted logger (env n) in
          mret (inl (match r with inl (b, effects) => (inl b, effects) | inr e => (inr e, None) end))
      end
  end.

(** [EncryptedData::encrypt] *)
Definition encrypt_data {St} (key : Keypair) (remote_pubkey : EcdhPublicKey) (iv data : bytes) : M St CryptoError EncryptedData :=
  let* sk := Ecdh.agree key remote_pubkey in
  let* encrypted := Aead.encrypt iv sk data in
  mret (mkEncryptedData iv (keypair_public key) encrypted).

(** A computation of the crypto crate, its error as a value *)
Definition crypto {A} (m : M unit CryptoError A) : N (A + CryptoError) := fun n =>
  match m tt with
  | Ok a _ => Ok (inl a) n
  | Err e _ => Ok (inr e) n
  | Panic => Panic
  | NoFuel => NoFuel
  end.

(** The signers of a request, if it is signed; at most two levels of certificates *)
Definition request_origin (request : ContractQueryRequest) (current_block : Z) : N (option Z + QueryRpcError) :=
  match rq_signature request with
  | None => mret (inl None)
  | Some sig => fun n =>
      match verify sig (encoded_encrypted_data request) ContractQueryMessage current_block 2 tt with
      | Ok key_chain _ => Ok (match key_chain with root :: _ => inl (Some root) | [] => inr (SignatureRefused InvalidSignature) end) n
      | Err e _ => Ok (inr (SignatureRefused e)) n
      | Panic => Panic
      | NoFuel => NoFuel
      end
  end.

(** [ContractQueryHead]: the contract and the client's nonce *)
Definition decode_head (data : bytes) : option (Z * bytes * bytes) :=
  if Nat.leb 64 (length data) then Some (h256_of_bytes (take 32 data), take 32 (drop 32 data), drop 64 data) else None.

(** [Phactory::contract_query], with the future it gives run to its end before anything
    else happens; [blocknum] is that of [get_info], [ecdh_key] the worker's. *)
Definition contract_query (blocknum : Z) (ecdh_key : Keypair) (request : ContractQueryRequest) (granted : bool)
    (env : Node S W -> ExecutionMode -> CallCtx) : N ((EncryptedData * Z * option ExecSideEffects) + QueryRpcError) :=
  let* current_block := arith 32 (blocknum - 1) in
  let* origin := request_origin request current_block in
  match origin with
  | inr e => mret (inr e)
  | inl origin =>
      match decode_EncryptedData (encoded_encrypted_data request) with
      | None => mret (inr BadEncryptedData)
      | Some req =>
          let* data := crypto (Cluster.decrypt_data ecdh_key (ed_iv req) (ed_pubkey req) (ed_data req)) in
          match data with
          | inr e => mret (inr (CannotDecrypt e))
          | inl data =>
              match decode_head data with
              | None => mret (inr BadHead)
              | Some (id, nonce, rest) =>
                  let* r := make_query id origin rest granted env in
                  match r with
                  | inr e => mret (inr e)
                  | inl (response, effects) =>
                      let* iv := Cluster.on_local (OCall.outside (os_random (Z.of_nat IV_BYTES))) in
                      let* iv := expect_some iv in
                      let* e := crypto (encrypt_data ecdh_key (ed_pubkey req) iv (nonce ++ encode_query_result response)) in
                      mret (match e with
                            | inr e => inr (CannotEncrypt e)
                            | inl encrypted => inl (encrypted, current_block, effects)
                            end)
                  end
              end
          end
      end
  end.

(** The [ContractQuery] request: the effects of the query are applied after it. *)
Definition rpc_contract_query (blocknum : Z) (ecdh_key : Keypair) (request : ContractQueryRequest) (granted : bool)
    (env : Node S W -> ExecutionMode -> CallCtx) (cx : CallCtx) : N ((EncryptedData * Z) + QueryRpcError) :=
  let* r := contract_query blocknum ecdh_key request granted env in
  match r with
  | inr e => mret (inr e)
  | inl (response, block, effects) =>
      match effects with
      | Some effects => if effects_is_empty effects then mret tt else Cluster.apply_side_effects cx effects
      | None => mret tt
      end;;;
      mret (inl (response, block))
  end.

End Query.
End Query.
