(* ===== verification/QueryProps.v ===== *)
(** * Properties of queries

    Who a query is from, what it can change, and who can read the answer. *)
From stdpp Require Import prelude gmap list strings.
From Stdlib Require Import ZArith Lia.
From S2P Require Import Prelude Types Externals Registry Phat SendQueue Dispatcher Benchmark WorkerSM Crypto Tokenomic Economics GatekeeperPr System Relate LocalCache PinkTypes PinkHost Pink Cluster Reference PrReference PinkRef ClusterRef ClusterProps ClusterSafety KeyProps Query.

Module QueryProps.
Import ClusterProps ClusterSafety.

(** ** Origins *)
Section Origins.
Context {prof : Profile} {cfg : Config} {codec : Codec} {ccodec : ClusterCodec} {P : PrCrypto}.
Context {S W : Type} {RT : Runtimes S W} {Out : Outside W} {QL : QueryLib W}.

(** A signature of the scheme under a key, on the bytes as they are or wrapped *)
Definition signs (t : Scheme) (wrapped : bool) (key sig msg : bytes) : Prop :=
  length key = Query.public_len t /\ length sig = Query.signature_len t
  /\ scheme_verify t sig (if wrapped then Query.wrap_bytes msg else msg) key = true.

(** The account of an Ethereum key *)
Definition evm_account (key : bytes) (who : Z) : Prop :=
  exists u, secp256k1_uncompressed key = Some u
    /\ who = h256_of_bytes (drop 12 (keccak_256 (tail u)) ++ bytes_of_string "@evm_address").

(** The account that signed a message with the key of a certificate *)
Definition signer (body : CertificateBody) (msg : bytes) (mt : MessageType) (st : SignatureType) (sig : bytes) (who : Z) : Prop :=
  let key := cb_pubkey body in
  match st with
  | StEd25519 => signs SchemeEd25519 false key sig msg /\ who = h256_of_bytes key
  | StSr25519 => signs SchemeSr25519 false key sig msg /\ who = h256_of_bytes key
  | StEcdsa => signs SchemeEcdsa false key sig msg /\ who = blake2_256 key
  | StEd25519WrapBytes => signs SchemeEd25519 true key sig msg /\ who = h256_of_bytes key
  | StSr25519WrapBytes => signs SchemeSr25519 true key sig msg /\ who = h256_of_bytes key
  | StEcdsaWrapBytes => signs SchemeEcdsa true key sig msg /\ who = blake2_256 key
  | StEip712 => exists k, eip712_recover key sig msg mt = inl k /\ evm_account k who
  | StEvmEcdsa => signs SchemeEcdsa false key sig msg /\ evm_account key who
  | StEvmEcdsaWrapBytes => signs SchemeEcdsa true key sig msg /\ evm_account key who
  end.

(** [Authentic now depth s msg mt who]: [who] is at the root of a chain of [depth]
    certificates, none expired at [now], each signed with the key of the one above it,
    and the message is signed with the key of the last. *)
Inductive Authentic (now : Z) : nat -> Signature -> bytes -> MessageType -> Z -> Prop :=
| authentic_root eb t st sig body msg mt who :
    SignatureType_from_i32 t = Some st -> decode_CertificateBody eb = Some body -> now <= cb_ttl body ->
    signer body msg mt st sig who ->
    Authentic now 1 (mkSignature (Some (mkCertificate eb None)) t sig) msg mt who
| authentic_chain d eb t st sig body msg mt child above who :
    SignatureType_from_i32 t = Some st -> decode_CertificateBody eb = Some body -> now <= cb_ttl body ->
    signer body msg mt st sig child ->
    Authentic now d above (encode_CertificateBody body) (CertificateMessage (cb_ttl body)) who ->
    Authentic now (Datatypes.S d) (mkSignature (Some (mkCertificate eb (Some above))) t sig) msg mt who.

Lemma recover_iff {St} t (w : bool) key sig msg k (s s' : St) :
  Query.recover t key sig (if w then Query.wrap_bytes msg else msg) s = Ok k s' <-> s' = s /\ k = key /\ signs t w key sig msg.
Proof.
  unfold Query.recover, Query.verify_scheme, signs, ensure, mbind, mret, fail.
  destruct (Nat.eqb_spec (length key) (Query.public_len t)); simpl; [|split; [done|tauto]].
  destruct (Nat.eqb_spec (length sig) (Query.signature_len t)); simpl; [|split; [done|tauto]].
  destruct (scheme_verify _ _ _ _); simpl; split; try naive_solver.
Qed.

Lemma evm_iff {St} key who (s s' : St) :
  Query.account_id_from_evm_pubkey key s = Ok who s' <-> s' = s /\ evm_account key who.
Proof.
  unfold Query.account_id_from_evm_pubkey, evm_account, expect_some, mbind, mret.
  destruct (secp256k1_uncompressed key); simpl; naive_solver.
Qed.

(** A computation after a signature was checked *)
Lemma recover_then {St} t (w : bool) key sig msg (k : bytes -> M St SignatureVerifyError Z) who s s' :
  mbind (Query.recover t key sig (if w then Query.wrap_bytes msg else msg)) k s = Ok who s'
  <-> signs t w key sig msg /\ k key s = Ok who s'.
Proof.
  pose proof (fun a s1 => recover_iff t w key sig msg a s s1) as Hr. unfold mbind. split.
  - intros E. destruct (Query.recover _ _ _ _ s) as [a s1| | |]; try done. by destruct (proj1 (Hr a s1) eq_refl) as (-> & -> & H).
  - intros [H E]. by rewrite (proj2 (Hr key s) (conj eq_refl (conj eq_refl H))).
Qed.

Lemma body_iff {St} body msg mt st sig who (s s' : St) :
  Query.recover_body body msg mt st sig s = Ok who s' <-> s' = s /\ signer body msg mt st sig who.
Proof.
  destruct st; cbn [Query.recover_body signer];
    first [rewrite (recover_then _ false)|rewrite (recover_then _ true)|idtac]; unfold mret; rewrite ?evm_iff; try naive_solver.
  destruct (eip712_recover _ _ _ _); rewrite ?evm_iff; unfold fail; naive_solver.
Qed.

Lemma verify_sound {St} : forall (sg : Signature) msg mt now depth l (s s' : St),
  0 <= depth -> Query.verify sg msg mt now depth s = Ok l s' ->
  s' = s /\ exists d who rest, l = who :: rest /\ Z.of_nat d <= depth /\ Authentic now d sg msg mt who.
Proof.
  fix IH 1. intros [signed_by t sig] msg mt now depth l s s' Hd. cbn [Query.verify]. destruct (Z.eqb_spec depth 0); [done|].
  destruct (SignatureType_from_i32 t) as [st|] eqn:Ht; [|done]. destruct signed_by as [[eb above]|]; [|done].
  unfold mbind at 1, ok_or. destruct (decode_CertificateBody eb) as [body|] eqn:Hb; [|done]. unfold mret at 1.
  destruct (Z.ltb_spec (cb_ttl body) now); [done|].
  unfold mbind at 1. destruct (Query.recover_body body msg mt st sig s) as [child s1| | |] eqn:Hc; try done.
  apply body_iff in Hc as [-> Hc]. destruct above as [above|].
  - unfold mbind. destruct (Query.verify above _ _ _ _ s) as [signers s1| | |] eqn:Hv; try done. intros [= <- <-].
    apply IH in Hv as (-> & d & who & rest & -> & Hle & Ha); [|lia]. split; [done|].
    exists (Datatypes.S d), who, (rest ++ [child]). split; [done|]. split; [lia|]. by econstructor.
  - intros [= <- <-]. split; [done|]. exists 1%nat, child, []. split; [done|]. split; [lia|]. by econstructor.
Qed.

Lemma verify_complete {St} now d sg msg mt who : Authentic now d sg msg mt who ->
  forall depth (s : St), Z.of_nat d <= depth -> exists rest, Query.verify sg msg mt now depth s = Ok (who :: rest) s.
Proof.
  assert (forall body m t st g c (s : St), signer body m t st g c -> Query.recover_body body m t st g s = Ok c s) as Hrec.
  { intros. by apply body_iff. }
  induction 1 as [eb t st sig body msg mt who Ht Hb Hl Hs|d eb t st sig body msg mt child above who Ht Hb Hl Hs _ IH];
    intros depth s Hd; cbn [Query.verify]; rewrite (proj2 (Z.eqb_neq _ _)), Ht by lia; unfold mbind at 1, ok_or; rewrite Hb;
    unfold mret at 1; rewrite (proj2 (Z.ltb_ge _ _)) by lia; unfold mbind at 1; rewrite (Hrec _ _ _ _ _ _ _ Hs).
  - by eexists.
  - destruct (IH (depth - 1) s) as [rest E]; [lia|]. unfold mbind. rewrite E. by eexists.
Qed.

Lemma origin_iff rq now who (n n' : Node S W) :
  Query.request_origin rq now n = Ok (inl (Some who)) n'
  <-> n' = n /\ exists sg d, rq_signature rq = Some sg /\ (d <= 2)%nat
      /\ Authentic now d sg (encoded_encrypted_data rq) ContractQueryMessage who.
Proof.
  unfold Query.request_origin. destruct (rq_signature rq) as [sg|]; [|unfold mret; naive_solver]. split.
  - destruct (Query.verify _ _ _ _ _ tt) as [l []| | |] eqn:Hv; try done.
    apply verify_sound in Hv as (_ & d & who' & rest & -> & Hd & Ha); [|lia]. intros [= -> ->]. split; [done|]. exists sg, d.
    split; [done|]. split; [lia|done].
  - intros (-> & sg' & d & [= <-] & Hd & Ha). destruct (verify_complete _ _ _ _ _ _ Ha 2 tt) as [rest E]; [lia|]. by rewrite E.
Qed.

End Origins.

(** ** Effects *)
Section Effects.
Context {prof : Profile} {cfg : Config} {codec : Codec} {ccodec : ClusterCodec} {P : PrCrypto}.
Context {S W : Type} {RT : Runtimes S W} {ER : EndingRuntimes RT} {Out : Outside W} {QL : QueryLib W}.
Abbreviation N := (M (Node S W) SysError).
Abbreviation discreet := (moves (E := SysError) (same_view (public (S := S) (W := W)))).

#[local] Instance same_public_preorder : PreOrder (same_view (public (S := S) (W := W))).
Proof. split; unfold same_view; [by intros n|]. intros n1 n2 n3 H1 H2. congruence. Qed.

Lemma discreet_quiet {A} (m : N A) : silent public m -> discreet m.
Proof. intros Hm n. specialize (Hm n). unfold same_view. destruct (m n); try done; by symmetry. Qed.

Lemma discreet_ecall cl logger cx e : discreet (Cluster.ecall cl logger cx e).
Proof.
  unfold Cluster.ecall, Cluster.the_runtime. intros n. unfold mbind, expect_some.
  destruct (get_runtime _) as [rt|] eqn:Hrt; [|done]. simpl.
  pose proof (ecall_ends _ _ (set_cx_handle logger (js_runtime (cl_config cl)) cx) e Hrt (cl_storage cl, nd_local n)) as Hh.
  by destruct (pr_ecall _ _ _ _) as [[[out eff] v] [st l]|err [st l]| |].
Qed.

Lemma discreet_crypto {A} (m : M unit CryptoError A) : halts m -> discreet (Query.crypto m).
Proof. intros Hm n. specialize (Hm tt). unfold Query.crypto. by destruct (m tt). Qed.

Lemma discreet_local {A} (m : M (Local W) SysError A) : silent (fun _ => tt) m -> discreet (Cluster.on_local m).
Proof. intros Hm. by apply discreet_quiet, quiet_local. Qed.

Hint Resolve discreet_ecall : moves.
Hint Extern 1 (moves _ (Cluster.on_local (OCall.try_send _ _))) => (apply discreet_local, settles_try_send) : moves.
Hint Extern 1 (moves _ (Cluster.on_local (OCall.outside _))) => (apply discreet_local, settles_outside) : moves.
Hint Extern 1 (moves _ (Cluster.handle_of _)) => (apply discreet_quiet, quiet_handle_of) : moves.
Hint Extern 1 (moves _ (Cluster.get_contract _)) => (apply discreet_quiet, quiet_get_contract) : moves.
Hint Extern 1 (moves _ Cluster.get_system_message_handler) => (apply discreet_quiet, quiet_handler) : moves.

Lemma discreet_handle_query cl c origin q granted logger env : discreet (Query.handle_query cl c origin q granted logger env).
Proof. unfold Query.handle_query, Cluster.the_runtime. solve_moves. Qed.
Hint Resolve discreet_handle_query : moves.

Lemma discreet_make_query id origin q granted env : discreet (Query.make_query id origin q granted env).
Proof. unfold Query.make_query. solve_moves. Qed.
Hint Resolve discreet_make_query : moves.

Lemma halts_body {St} body msg mt st sig : halts (Query.recover_body (St := St) body msg mt st sig).
Proof. unfold Query.recover_body, Query.recover, Query.account_id_from_evm_pubkey. solve_halts. Qed.

Lemma halts_verify {St} : forall sg msg mt now depth, halts (Query.verify (St := St) sg msg mt now depth).
Proof.
  fix IH 1. intros [signed_by t sig] msg mt now depth. cbn [Query.verify]. destruct (depth =? 0); [solve_halts|].
  destruct (SignatureType_from_i32 t); [|solve_halts]. destruct signed_by as [[eb [above|]]|]; [|solve [solve_halts; apply halts_body]|solve_halts].
  apply halts_bind; [solve_halts|]. intros body. destruct (cb_ttl body <? now); [solve_halts|].
  apply halts_bind; [apply halts_body|]. intros child. apply halts_bind; [apply IH|]. intros l. solve_halts.
Qed.

Lemma discreet_origin rq now : discreet (Query.request_origin rq now).
Proof.
  unfold Query.request_origin. destruct (rq_signature rq) as [sg|]; [|solve_moves]. intros n.
  pose proof (halts_verify sg (encoded_encrypted_data rq) ContractQueryMessage now 2 tt) as Hh. by destruct (Query.verify _ _ _ _ _ tt).
Qed.
Hint Resolve discreet_origin : moves.

Lemma halts_decrypt_query {St} key iv pk data : halts (Cluster.decrypt_data (Z' := St) key iv pk data).
Proof. unfold Cluster.decrypt_data, Ecdh.agree, Aead.decrypt, Aead.load_key. solve_halts. Qed.

Lemma halts_encrypt_answer {St} key pk iv data : halts (Query.encrypt_data (St := St) key pk iv data).
Proof. unfold Query.encrypt_data, Ecdh.agree, Aead.encrypt, Aead.load_key. solve_halts. Qed.

Hint Extern 1 (moves _ (Query.crypto (Cluster.decrypt_data _ _ _ _))) => (apply discreet_crypto, halts_decrypt_query) : moves.
Hint Extern 1 (moves _ (Query.crypto (Query.encrypt_data _ _ _ _))) => (apply discreet_crypto, halts_encrypt_answer) : moves.

Lemma discreet_contract_query blocknum key rq granted env : discreet (Query.contract_query blocknum key rq granted env).
Proof. unfold Query.contract_query. solve_moves. Qed.

(** The results of a computation, if it returns *)
Definition gives {A} (Q : A -> Prop) (m : N A) : Prop := forall n, wp True m (fun a _ => Q a) (fun _ _ => True) n.

Lemma gives_ret {A} (Q : A -> Prop) a : Q a -> gives Q (mret a).
Proof. by intros H n. Qed.

Lemma gives_bind {A B} (Q : A -> Prop) (Q' : B -> Prop) (m : N A) k : gives Q m -> (forall a, Q a -> gives Q' (k a)) -> gives Q' (mbind m k).
Proof. intros Hm Hk n. specialize (Hm n). unfold wp, mbind in *. destruct (m n) as [a n'| | |]; try done. by apply Hk. Qed.

Lemma gives_after {A B} (Q : B -> Prop) (m : N A) k : (forall a, gives Q (k a)) -> gives Q (mbind m k).
Proof. intros Hk. apply (gives_bind (fun _ => True)); [|by intros]. intros n. unfold wp. by destruct (m n). Qed.

Ltac gives_step :=
  lazymatch goal with
  | |- forall _, _ => intro
  | |- gives _ (mbind _ _) => apply gives_after
  | |- gives _ (match ?x with _ => _ end) => destruct x
  | |- gives _ (mret _) => apply gives_ret
  end.
Ltac solve_gives := repeat (gives_step; cbv beta).

(** The effects that come with an answer are those allowed in queries. *)
Definition query_only (o : option ExecSideEffects) : Prop :=
  match o with Some eff => exists e, eff = into_query_only_effects e | None => True end.

Lemma gives_handle_query cl c origin q granted logger env :
  gives (fun r => match r with inl (_, eff) => query_only eff | inr _ => True end)
    (Query.handle_query cl c origin q granted logger env).
Proof. unfold Query.handle_query. solve_gives; repeat case_match; simplify_eq; simpl; eauto. Qed.

Lemma gives_make_query id origin q granted env :
  gives (fun r => match r with inl (_, eff) => query_only eff | inr _ => True end) (Query.make_query id origin q granted env).
Proof.
  unfold Query.make_query. apply gives_after. intros [c|]; [|by apply gives_ret]. do 3 (apply gives_after; intro).
  destruct (decode_ContractQuery q); [|by apply gives_ret]. apply gives_after. intros n.
  eapply gives_bind; [apply gives_handle_query|]. intros [[b eff]|e] H; by apply gives_ret.
Qed.

Lemma gives_contract_query blocknum key rq granted env :
  gives (fun r => match r with inl (_, _, eff) => query_only eff | inr _ => True end)
    (Query.contract_query blocknum key rq granted env).
Proof.
  unfold Query.contract_query. do 2 (apply gives_after; intros ?). destruct a0 as [origin|e]; [|by apply gives_ret].
  destruct (decode_EncryptedData _) as [req|]; [|by apply gives_ret]. apply gives_after. intros [data|e]; [|by apply gives_ret].
  destruct (Query.decode_head data) as [[[id nonce] rest]|]; [|by apply gives_ret].
  eapply gives_bind; [apply gives_make_query|]. intros [[response eff]|e] H; [|by apply gives_ret].
  do 2 (apply gives_after; intro). apply gives_after. intros [encrypted|e]; by apply gives_ret.
Qed.

Lemma rpc_run blocknum key rq granted env cx : discreet (Query.rpc_contract_query blocknum key rq granted env cx).
Proof.
  intros n. unfold Query.rpc_contract_query, mbind at 1.
  pose proof (discreet_contract_query blocknum key rq granted env n) as Hm. pose proof (gives_contract_query blocknum key rq granted env n) as Hg.
  unfold wp in Hg. destruct (Query.contract_query _ _ _ _ _ n) as [[[[e b] eff]|e] n1|e n1| |]; try done.
  assert (discreet (match eff with
    | Some effects => if effects_is_empty effects then mret tt else Cluster.apply_side_effects cx effects
    | None => mret tt end;;; mret (E := SysError) (inl (B := QueryRpcError) (e, b)))) as Hk.
  { apply moves_bind; [typeclasses eauto| |solve_moves]. destruct eff as [eff|]; [|solve_moves]. destruct Hg as [e0 ->].
    case_match; [solve_moves|]. apply discreet_quiet, (quiet_own (QueryEffects cx e0)). }
  specialize (Hk n1). by destruct (mbind _ _ n1); try done; etrans.
Qed.

End Effects.

(** ** Answers *)

(** What the encodings promise *)
Class QuerySpec {cfg : Config} {codec : Codec} {W : Type} (QL : QueryLib W) := {
  h256_of_its_bytes : forall h, h256_of_bytes (h256_bytes h) = h;
  decode_encode_EncryptedData : forall e, decode_EncryptedData (encode_EncryptedData e) = Some e;
}.

Section Answers.
Context {prof : Profile} {cfg : Config} {codec : Codec} {bs : BytesSpec codec} {ccodec : ClusterCodec} {P : PrCrypto} {spec : CryptoSpec P}.
Context {S W : Type} {RT : Runtimes S W} {Out : Outside W} {QL : QueryLib W} {qs : QuerySpec QL}.

(** What one key pair encrypts for another, the other decrypts. *)
Lemma encrypt_decrypt (a b : Keypair) iv data : length iv = IV_BYTES -> exists e,
  (forall St (s : St), Query.encrypt_data a (keypair_public b) iv data s = Ok e s)
  /\ (forall St (s : St), Cluster.decrypt_data b (ed_iv e) (ed_pubkey e) (ed_data e) s = Ok data s)
  /\ ed_pubkey e = keypair_public a.
Proof.
  intros Hiv. destruct (scalar_mul_total a b) as (z & Hz & Hkey). destruct (aes_seal_total z iv data Hkey) as [c Hc].
  exists (mkEncryptedData iv (keypair_public a) c). split_and!; [intros St s..|done].
  - unfold Query.encrypt_data, Ecdh.agree, mbind. rewrite Hz. simpl. unfold Aead.encrypt, Aead.load_key, mbind.
    rewrite KeyProps.ensure_true by done. simpl. by rewrite Hc.
  - unfold Cluster.decrypt_data, Ecdh.agree, mbind. simpl. rewrite scalar_mul_comm, Hz. simpl.
    unfold Aead.decrypt, Aead.load_key, mbind. rewrite Hiv, Nat.ltb_irrefl. simpl.
    rewrite KeyProps.ensure_true by done. rewrite take_ge by lia. simpl. by rewrite (aes_open_seal _ _ _ _ Hc).
Qed.

Lemma decode_head_ok id nonce q : length nonce = 32%nat -> Query.decode_head (h256_bytes id ++ nonce ++ q) = Some (id, nonce, q).
Proof.
  intros Hn. pose proof (h256_bytes_length id) as Hl. unfold Query.decode_head.
  rewrite (proj2 (Nat.leb_le _ _)) by (rewrite !length_app; lia).
  rewrite take_app_length' by done. rewrite drop_app_length' by done. rewrite take_app_length' by done.
  assert (drop 64 (h256_bytes id ++ nonce ++ q) = q) as ->; [|by rewrite h256_of_its_bytes].
  rewrite app_assoc. apply drop_app_length'. rewrite length_app. lia.
Qed.

Lemma query_answered blocknum (worker client : Keypair) iv e sg id nonce q origin granted env response effects
    (n n1 : Node S W) :
  0 < blocknum < 2 ^ 32 -> length iv = IV_BYTES -> length nonce = 32%nat ->
  Query.encrypt_data client (keypair_public worker) iv (h256_bytes id ++ nonce ++ q) tt = Ok e tt ->
  Query.request_origin (mkContractQueryRequest (encode_EncryptedData e) sg) (blocknum - 1) n = Ok (inl origin) n ->
  Query.make_query id origin q granted env n = Ok (inl (response, effects)) n1 ->
  forall riv w, os_random (Z.of_nat IV_BYTES) (lo_world (nd_local n1)) = (Some riv, w) -> length riv = IV_BYTES ->
  exists a,
    Query.contract_query blocknum worker (mkContractQueryRequest (encode_EncryptedData e) sg) granted env n
      = Ok (inl (a, blocknum - 1, effects)) (Cluster.set_local (OCall.set_world w (nd_local n1)) n1)
    /\ Cluster.decrypt_data client (ed_iv a) (ed_pubkey a) (ed_data a) tt = Ok (nonce ++ encode_query_result response) tt.
Proof.
  intros Hb Hiv Hnonce He Ho Hq riv w Hr Hriv.
  destruct (encrypt_decrypt client worker iv (h256_bytes id ++ nonce ++ q) Hiv) as (e' & He' & Hd & Hpk).
  rewrite He' in He. injection He as ->.
  destruct (encrypt_decrypt worker client riv (nonce ++ encode_query_result response) Hriv) as (a & Ha & Hda & _).
  exists a. split; [|apply Hda]. unfold Query.contract_query, mbind, arith, in_width.
  rewrite (proj2 (Z.leb_le _ _)), (proj2 (Z.ltb_lt _ _)) by lia. simpl. rewrite Ho. simpl. rewrite decode_encode_EncryptedData.
  unfold Query.crypto at 1. rewrite Hd. rewrite decode_head_ok by done. rewrite Hq.
  unfold Cluster.on_local, Cluster.lens, OCall.outside. simpl in Hr. rewrite Hr. simpl. unfold Query.crypto. by rewrite Hpk, Ha.
Qed.

(** A key that is not a point of the curve *)
Lemma bad_key_panics blocknum (worker : Keypair) rq e granted env cx (n : Node S W) :
  0 < blocknum < 2 ^ 32 -> rq_signature rq = None -> decode_EncryptedData (encoded_encrypted_data rq) = Some e ->
  scalar_mul (take 32 (keypair_secret worker)) (ed_pubkey e) = None ->
  Query.rpc_contract_query blocknum worker rq granted env cx n = Panic.
Proof.
  intros Hb Hs He Hk. unfold Query.rpc_contract_query, Query.contract_query, Query.request_origin, mbind, arith, in_width.
  rewrite (proj2 (Z.leb_le _ _)), (proj2 (Z.ltb_lt _ _)) by lia. simpl. rewrite Hs. simpl. rewrite He.
  unfold Query.crypto, Cluster.decrypt_data, Ecdh.agree, mbind. by rewrite Hk.
Qed.

End Answers.
End QueryProps.

Import RefInstances PrInstances PinkInstances ClusterInstances.
Import ClusterProps ClusterSafety QueryProps.

(** ** A reference instance *)

(** The second number of a signature is the sum of the message. *)
#[local] Instance ref_query_lib : QueryLib Z := {|
  scheme_verify _ sig msg key := bool_decide (take 2 sig = [default 0 (head key); foldr Z.add 0 msg]);
  keccak_256 b := replicate 31 0 ++ [foldr Z.add 0 b];
  secp256k1_uncompressed k := Some (4 :: tail k ++ replicate 32 0);
  eip712_recover _ _ _ _ := inr Eip712EncodingError;
  h256_of_bytes b := default 0 (head b);
  twox_64 b := foldr Z.add 0 b mod 2 ^ 64;
  decode_CertificateBody b := match b with ttl :: bits :: key => Some (mkCertificateBody key ttl bits) | _ => None end;
  encode_CertificateBody c := cb_ttl c :: cb_config_bits c :: cb_pubkey c;
  decode_EncryptedData b :=
    match b with k :: l :: d => Some (mkEncryptedData (take (Z.to_nat l) d) k (drop (Z.to_nat l) d)) | _ => None end;
  encode_EncryptedData e := ed_pubkey e :: Z.of_nat (length (ed_iv e)) :: ed_iv e ++ ed_data e;
  decode_ContractQuery b :=
    match b with 0 :: p => Some (QueryInkMessage p 0 0 false) | 1 :: p => Some (SidevmQuery p) | _ => None end;
  encode_query_result r := match r with inl b => 0 :: b | inr _ => [1] end;
  sidevm_reply _ _ p w := (inl (w :: p), w + 1);
|}.

#[local] Instance ref_query_spec : QuerySpec ref_query_lib.
Proof.
  split; [done|]. intros [iv pk data]. simpl. rewrite Nat2Z.id. by rewrite take_app_length, drop_app_length.
Qed.

Definition ref_key (k : Z) : bytes := k :: replicate 31 0.
Definition ref_sign (k : Z) (msg : bytes) : bytes := k :: foldr Z.add 0 msg :: replicate 62 0.

(** A certificate of account 300 for the key 301, and a message signed with that key *)
Definition ref_signature (msg : bytes) : Signature :=
  let body := [40; 0] ++ ref_key 301 in
  mkSignature (Some (mkCertificate body
      (Some (mkSignature (Some (mkCertificate ([50; 0] ++ ref_key 300) None)) 1 (ref_sign 300 body))))) 1 (ref_sign 301 msg).

(** A query of the contract by the client with key 11 for the worker with key 7 *)
Definition ref_query (q : bytes) : EncryptedData :=
  match Query.encrypt_data (P := ref_crypto) (11 : Keypair) 7 (replicate 12 2) (h256_bytes 1007 ++ ref_key 77 ++ q) tt with
  | Ok e _ => e
  | _ => mkEncryptedData [] 0 []
  end.
Definition ref_request (q : bytes) : ContractQueryRequest :=
  mkContractQueryRequest (encode_EncryptedData (ref_query q)) (Some (ref_signature (encode_EncryptedData (ref_query q)))).

Definition ref_env (n : Node (PinkState RefChain) Z) (mode : ExecutionMode) : CallCtx := Query.query_env n 3 [1; 2; 3] true 10 mode.

(** What is left of a request: the block of the answer and the commands sent *)
Definition answered {A} (o : outcome (Node (PinkState RefChain) Z) SysError ((EncryptedData * Z * A) + QueryRpcError)) : option (Z * nat) :=
  match o with
  | Ok (inl (_, b, _)) n => Some (b, length (lo_sent (nd_local n)))
  | _ => None
  end.

(** C9: The origin of a query is authenticated.  A request has an account as its origin
    exactly if it carries a signature of its encrypted bytes under the key of a
    certificate that has not expired, which is that account's own or was signed under the
    key of one that is and has not expired either; longer chains are refused.  Checking it changes nothing. *)
Theorem query_origin_authenticated {prof : Profile} {cfg : Config} {codec : Codec} {ccodec : ClusterCodec} {P : PrCrypto} {S W : Type}
    {RT : Runtimes S W} {Out : Outside W} {QL : QueryLib W} rq now who (n n' : Node S W) :
  Query.request_origin rq now n = Ok (inl (Some who)) n'
  <-> n' = n /\ exists sg d, rq_signature rq = Some sg /\ (d <= 2)%nat
      /\ Authentic now d sg (encoded_encrypted_data rq) ContractQueryMessage who.
Proof. apply origin_iff. Qed.


#[local] Instance ref_ending_queries : EndingRuntimes ref_runtimes.
Proof.
  split. intros v rt cx e Hv. assert (rt = pink_runtime) as ->; [|apply pink_runtime_ends].
  revert Hv. simpl. unfold v1_runtime. repeat case_match; by intros [=].
Qed.

(** The commands sent after a request that was answered *)
Definition rpc_answered (o : outcome (Node (PinkState RefChain) Z) SysError ((EncryptedData * Z) + QueryRpcError)) : option nat :=
  match o with
  | Ok (inl _) n => Some (length (lo_sent (nd_local n)))
  | _ => None
  end.


(** C26: An answer reaches the client that asked, and is bound to its question.  A client encrypts the
    contract, a nonce and a query for the worker.  If the query
    runs, the worker answers for the block before the next one, with the effects of the query, and the
    client decrypts the answer to its nonce and the result. *)
Theorem answer_reaches_the_client {prof : Profile} {cfg : Config} {codec : Codec} {bs : BytesSpec codec} {ccodec : ClusterCodec}
    {P : PrCrypto} {spec : CryptoSpec P} {S W : Type} {RT : Runtimes S W} {Out : Outside W} {QL : QueryLib W} {qs : QuerySpec QL}
    blocknum (worker client : Keypair) iv e sg id nonce q origin granted env response effects (n n1 : Node S W) riv w
    (Hb : 0 < blocknum < 2 ^ 32) (Hiv : length iv = IV_BYTES) (Hnonce : length nonce = 32%nat)
    (He : Query.encrypt_data client (keypair_public worker) iv (h256_bytes id ++ nonce ++ q) tt = Ok e tt)
    (Ho : Query.request_origin (mkContractQueryRequest (encode_EncryptedData e) sg) (blocknum - 1) n = Ok (inl origin) n)
    (Hq : Query.make_query id origin q granted env n = Ok (inl (response, effects)) n1)
    (Hr : os_random (Z.of_nat IV_BYTES) (lo_world (nd_local n1)) = (Some riv, w)) (Hriv : length riv = IV_BYTES) :
  exists a,
    Query.contract_query blocknum worker (mkContractQueryRequest (encode_EncryptedData e) sg) granted env n
      = Ok (inl (a, blocknum - 1, effects)) (Cluster.set_local (OCall.set_world w (nd_local n1)) n1)
    /\ Cluster.decrypt_data client (ed_iv a) (ed_pubkey a) (ed_data a) tt = Ok (nonce ++ encode_query_result response) tt.
Proof. eauto using query_answered. Qed.

Lemma ref_origin (n : Node (PinkState RefChain) Z) : Query.request_origin (ref_request [1; 8]) 29 n = Ok (inl (Some 300)) n.
Proof. vm_compute. reflexivity. Qed.

Lemma answer_reaches_the_client_witness :
  let n := ref_node 7 5 (Some ref_sidevm) [] in
  exists a n', Query.contract_query 30 (7 : Keypair) (ref_request [1; 8]) true ref_env n = Ok (inl (a, 29, None)) n'
    /\ Cluster.decrypt_data (11 : Keypair) (ed_iv a) (ed_pubkey a) (ed_data a) tt = Ok (ref_key 77 ++ [0; 5; 8]) tt.
Proof.
  intros n.
  assert (match Query.make_query 1007 (Some 300) [1; 8] true ref_env n with
          | Ok (inl (r, eff)) n1 => Some (r, eff, lo_world (nd_local n1)) | _ => None end = Some (inl [5; 8], None, 6)) as O
    by (vm_compute; reflexivity).
  destruct (Query.make_query 1007 (Some 300) [1; 8] true ref_env n) as [[[response effects]|e] n1| | |] eqn:Hq; [|discriminate O..].
  injection O as -> -> Hw.
  destruct (answer_reaches_the_client (P := ref_crypto) 30 7 11 (replicate 12 2) (ref_query [1; 8])
    (Some (ref_signature (encode_EncryptedData (ref_query [1; 8])))) 1007 (ref_key 77) [1; 8] (Some 300) true ref_env (inl [5; 8]) None n n1 (replicate 12 6) 7)
    as (a & Ha & Hd); [lia|reflexivity|reflexivity|vm_compute; reflexivity|exact (ref_origin n)|exact Hq|rewrite Hw; reflexivity|reflexivity|].
  exists a, (Cluster.set_local (OCall.set_world 7 (nd_local n1)) n1). split; [unfold ref_request; exact Ha|exact Hd].
Defined.
